(* ===== verification/_CoqProject ===== *)
-Q . S2P
Prelude.v
Prog.v
NetUrl.v
UrlRef.v
Json.v
JsonProps.v
K8s.v
Types.v
Api.v
Names.v
RemoteConfig.v
FirecrestScript.v
LogTail.v
ScriptProps.v
Templates.v
Config.v
Children.v
Routing.v
Lifecycle.v
PodStatus.v
Cull.v
Reconcile.v
ChildSet.v
SessionStatus.v
Metrics.v
Controller.v
Tracing.v
StatusProps.v
ReconcileProps.v
ControllerProps.v
Cluster.v
BuilderProps.v
Scaling.v
ControllerTheorems.v
MetricsTheorems.v
StatusTheorems.v
ReconcileTheorems.v
BuilderTheorems.v
OperatorMain.v
GitProxy.v
ProxyThreads.v
ProxyTheorems.v
Servers.v
GitProxyMain.v
Cloner.v
CloneTheorems.v
CloneCommand.v
AuthProxy.v
CloneCommandTheorems.v
SidecarCommands.v
RemoteAuth.v
Firecrest.v
FirecrestProps.v
FirecrestLogs.v
FirecrestProtocol.v
FirecrestTheorems.v
FirecrestThreads.v
Runai.v
Remote.v
RemoteTheorems.v
RemoteWiring.v
FirecrestTypes.v
FirecrestClient.v
FirecrestOps.v
FirecrestApi.v
FirecrestWire.v
FirecrestRoutes.v
FirecrestUnions.v
FirecrestEnums.v
AuthProxyTheorems.v
AuthProxyMain.v
Tunnel.v
TunnelTheorems.v
RemoteExamples.v
FirecrestThreadsExamples.v
FirecrestWireExamples.v
SidecarExamples.v
Downgrader.v
Store.v
DeepCopies.v
