(* ===== verification/Prelude.v ===== *)
(** * Amalthea: a verification library for the session operator

    Amalthea is a Kubernetes operator for interactive and batch sessions.  A
    user creates an AmaltheaSession resource; the operator creates the child
    objects that run it (a stateful set or a job, a service, an ingress, volume
    claims, a secret), publishes a status, hibernates idle sessions and deletes
    expired ones.  Sidecar programs in the pod proxy git traffic, authenticate
    requests, clone repositories and control sessions on remote clusters.

    This library models the operator, its side cars and the controllers of
    remote sessions as Rocq functions, and proves what their correctness rests
    on, including that the parts fit together: what the operator writes into a
    pod is what the programs in the pod read.

    ** Parts of the program and where they are

    Foundations
    - [Prelude]: Go's strings, 64-bit integers, time, errors, pointers and
      panics ([Outcome]); shared lemmas, tactics, the hint database [amalthea].
    - [Prog]: effectful code.  A [Prog E A] is the tree of the calls a function
      makes; it is run against a handler ([run]) and verified against a
      [Monitor] ([wp]): an obligation on every call, a promise about every
      answer, a ghost state that follows the calls.  [wp_run], [wp_obeys] and
      [wp_sim] connect runs, monitors and other monitors; [wp_interp] replaces
      the calls of a program by programs.
    - [NetUrl], [UrlRef]: packages path, net/url and encoding/base64 as far as
      used; relative references, and that escaped segments stay below a base.
    - [Json], [JsonProps]: encoding/json as far as used: a printer, a parser,
      decoders of structs and slices, and that reading back what was printed
      gives the value ([JsonCodec]).
    - [K8s]: the Kubernetes structs, with the fields the sources do not look at
      carried along in [rest].
    - [Store]: a memory with pointers, slices and maps; what it means that a copy
      is deep ([Copied]).

    The operator (api/v1alpha1 and internal/controller)
    - [Types]: amaltheasession_types.go, the custom resource.   [DeepCopies]:
      zz_generated.deepcopy.go, its structs as they lie in memory and their copies.
    - [Api]: the calls of the operator, one event per call (clock, Kubernetes,
      metrics, random names).
    - [Names], [Children], [Routing], [Lifecycle]: amaltheasession_children.go:
      names and labels; pod, job, stateful set and volumes; service, ingress and
      secret; deletion times, adopted secrets and reads of pods and events.
    - [Templates]: auth_templates.go and code_repo_templates.go, the sidecars.
    - [Config]: internal/controller/config and utils/container.go, cluster type
      and image rewriting.
    - [Reconcile], [ChildSet]: children.go, the mutation callbacks of the child
      kinds with the reconcile strategies, the set of children of a session and
      their combined error.
    - [PodStatus]: status.go and children_conditions.go.
    - [SessionStatus]: children.go, from the children to the new status.
    - [Cull]: cull.go, hibernation dates.   [Metrics]: metrics.go.
    - [Controller]: amaltheasession_controller.go, one pass of the loop
      ([reconcileInner]), which calls all of the above.   [Tracing]: [Reconcile]
      around it, the transaction of the tracing library.
    - [OperatorMain]: cmd/amalthea/main.go, the options of the manager, the
      order of the set-up, the kinds that are watched.

    The side cars of every session
    - [Servers]: processes that run servers in goroutines until a signal: a step
      relation for their threads, the monitors of the threads ([Orderly]) and
      what follows for every interleaving; which servers never drain is left to
      the environment.
    - [GitProxy]: internal/git-https-proxy and internal/utils/token.go:
      configuration, token expiry, the token store shared by the request
      handlers, the request handler and the set-up.
    - [GitProxyMain]: config/config.go and root.go of the git proxy: the decoding
      of the environment, the process, the health endpoint.
    - [ProxyThreads]: any number of handlers and the periodic refresh as threads
      over the shared store, with a step relation for their interleavings.
    - [Cloner]: internal/cloner, the command shellclone: git command line,
      repositories, the set-up of a repository and the loading of the numbered
      variables.
    - [CloneCommand]: clone.go, enum_flag.go and root.go of internal/cloner, the
      command clone of the init containers.
    - [AuthProxy]: internal/authproxy: settings, the chain of middlewares, the
      statistics and the two endpoints.   [AuthProxyMain]: [serve] as a process.
    - [SidecarCommands]: cmd/sidecars/main.go, the tree of commands.

    Remote sessions (internal/remote, internal/tunnel)
    - [RemoteConfig]: config/: the flags and variables as a table, validation.
    - [RemoteAuth]: firecrest/auth and runai/auth: tokens and their refresh under
      locks.
    - [FirecrestScript], [LogTail]: firecrest/status.go and the pure parts of
      firecrest/controller.go: job states, file systems, the session script;
      the splitting of a log into lines.
    - [Firecrest]: firecrest/controller.go: start, recovery, stop, the rounds of
      the ticker and the copying of logs, over the calls of the generated client.
    - [FirecrestThreads]: the same as threads that share the fields of the
      controller and the saved state: the main thread, and the rounds of the
      ticker, interleaved access by access.
    - [FirecrestClient], [FirecrestTypes], [FirecrestOps]: firecrest_gen.go and
      firecrest.go: requests, editors, exchange and decoding of the answers, for
      the operations the controller calls ([wire] implements the calls of
      [Firecrest] with them), then the other documents and operations.
    - [FirecrestApi]: openapi_spec_downgraded.yaml, from which the client is
      generated: its endpoints, the operations as one type, a server that
      follows it.
    - [FirecrestUnions], [FirecrestEnums]: the union types of firecrest_gen.go
      with their variants, and its enumerations.
    - [Runai]: runai/controller.go and runai_api.go.
    - [Remote]: server/server.go and controller/controller.go: the choice of the
      controller, the ticker, the endpoints and the shutdown.  A controller is an
      instance of the class [RemoteSessionController].
    - [Tunnel]: internal/tunnel: the restrictions for wstunnel and its run.

    Tools
    - [Downgrader]: tools/openapi_spec_downgrader: OpenAPI 3.1 to 3.0.

    ** What the theorems show

    - [ControllerTheorems] and [Scaling]: the life cycle of a session, call by
      call.  Adopted secrets are deleted before the finalizer goes; children
      exist only for sessions that are alive and protected; deletions are due;
      the specification is only ever changed to hibernate; published statuses
      are coherent, and follow the scaling of the stateful set; a pass asks to
      be run again.  They hold for all answers of the API server within the
      promises of the monitor, failures included.
    - [StatusTheorems]: what [Status] computes from the children, the pod, the
      job and the events: timestamps, messages, counts, conditions, the decision
      table of the state.
    - [ReconcileTheorems]: the mutation callbacks of all six kinds reach the
      desired state in one step, which is a fixed point, or keep what the strategy
      says; labels, secrets and suspension; which errors and callbacks of the
      children count.
    - [MetricsTheorems]: the series of the gauges over a pass.
    - [DeepCopies]: a copied session reads as the original and shares nothing.
    - [BuilderTheorems], [Config]: the generated objects fit together
      (mounts, claims, ports, selectors); adopted secrets, deletion and
      hibernation dates, image rewriting; the configuration is read as written.
    - [ProxyTheorems]: locking, origin of the tokens and attachment of
      credentials in all interleavings; that every request is answered in a fair
      execution beside the endless refresh; matching of requests; set-up.
    - [Servers], [GitProxyMain], [AuthProxyMain]: when the two proxies serve, how
      they are shut down and how they end, in all interleavings of their threads
      with the signal; the git proxy, which sets no deadline, may wait for ever for
      a server that does not drain; its configuration is read as written.
    - [SidecarCommands]: the containers of a pod name commands that exist.
    - [Tracing]: tracing does not change what a pass does.
    - [CloneTheorems]: the protocol of the set-up of a repository (directory,
      order, credentials, failures) and the loading of the variables.
    - [CloneCommandTheorems]: what the generated clone containers do.
    - [AuthProxyTheorems]: which requests reach the session and how they are
      rewritten, and how the generated pod configures the proxy: environment,
      file of the mounted secret, probes.
    - [FirecrestTheorems]: what a start ends in, that a saved controller is
      resumed, that copying a log refines a reader that goes line by line and
      loses nothing; the script.
    - [FirecrestThreads]: the threads alone do what the sequential definitions
      say; what holds in all of their interleavings.  [FirecrestThreadsExamples]:
      interleavings in which a stopped session leaves its job in the saved state,
      and in which a refused cancellation is forgotten.
    - [RemoteTheorems]: one job per session over the whole life of a server;
      lock discipline; configurations and controllers; Run:AI.
    - [FirecrestWire]: the controller composed with its client: what goes over
      HTTP in a session, that a job arrives as it was built, which answers count
      as success.
    - [FirecrestRoutes]: every operation of the client, with values that the
      document allows, is received as itself by a server that checks paths,
      parameters and bodies by the document, and its answer is taken as
      documented.
    - [FirecrestUnions], [FirecrestEnums]: a union gives back the variant it was
      set from; the enumerations are those of the document.
    - [RemoteWiring], [TunnelTheorems]: from the pod the operator builds to the
      side car, the tunnel and the job: settings, user variables, the secret; that
      the tunnel server runs with restrictions that demand the secret.
    - [OperatorMain]: the set-up of the manager, with what flags, environment and
      cluster ask for ([asked], [configured]).   [Downgrader]: the transformation
      against what a downgraded document is ([Down]), and the command.
    [StatusProps], [ReconcileProps], [ControllerProps], [BuilderProps],
    [ScriptProps], [FirecrestProps], [FirecrestLogs] and [FirecrestProtocol] hold
    the lemmas.  [Cluster], [RemoteExamples], [FirecrestThreadsExamples],
    [FirecrestWireExamples] and [SidecarExamples] are executable environments on which the programs are run
    ([first_pass], [start_twice], [demo_session], [clone_restarted],
    [refused_counts]) and which show that the promises of the
    monitors and the laws of the classes can be kept.

    ** Conventions

    Names are those of the sources; a trailing underscore or a module separates
    names that clash.  Pointers are options, maps are [gmap]s, string types are
    strings.  A nil dereference is a [Panicked] outcome or a [Panic] program.
    Recursion is on lists, strings and trees, with these exceptions: the endless
    loops (the periodic token refresh, the ticker of the remote session server)
    are unrolled an arbitrary number of times (the refresh, where an execution is
    endless, starts again after its tick), and the loop over numbered
    environment variables takes as fuel one more than the number of variables,
    which is enough ([load_complete]).

    ** Parameters

    Code outside the repository is a class: [QuantityOps] (resource quantities),
    [ControllerUtil] (owner references), [YamlLib] (marshalling),
    [DockerReference] (parsing of image references), [JwtLib] (decoding of JWTs),
    [GitLib] (remotes, SSH keys and the YAML of the clone command),
    [GitProxySettings] (decoding of the variables of the git proxy), [Cobra] (the
    search for a command), [JsonMerge] (merging of JSON objects),
    [YamlDocuments] (the documents of the downgrader), [Framework]
    and [FrameworkRules] (key extraction and path rewriting of the web
    framework), [YamlNodes] (the restrictions as YAML), [SettingsLib], [FlagLib]
    and [TunnelSettings] (what the settings library reads from bound variables),
    [Kubelet] (the environment and the files of a container), [LibraryReps] and [LibraryCopies]
    (library types in memory and their deep copies), [OapiRuntime] (the text of
    parameters in URLs; [OapiDocumented], [OapiFormDocumented]: how they are
    escaped).
    The cluster, the HTTP servers, git and the file system are the answers to
    events.
    [CreateOrPatch_documented] states the documented behaviour of
    controllerutil.CreateOrPatch; [clusterRely] and [protocolRely] state what is
    relied on of the API server (updates return the object as stored, the clock
    is past the zero time); each is shown to hold of [Cluster].

    ** Not modelled

    Logging and the set-up of Sentry (no influence on results), the getters of
    the responses of the generated FirecREST client (they read a field), the copy
    of its document that it embeds (nothing reads it), the insides of the web
    framework and the dispatch inside the proxy library (not in the repository),
    the helpers of the git command line that the cloner does not call, and the
    helpers of the end-to-end tests.  The rounds of the ticker of a Run:AI session
    run between its start and its stop ([Remote]) and are not interleaved with
    them: they read the name of the job, and write the status, which the main
    thread does not use. *)

From stdpp Require Export base tactics option list strings pretty gmap fin_maps numbers.
From Stdlib Require Export ZArith Lia.
From Stdlib Require Import Ascii.

(** ** Notation scope of the development *)

Declare Scope go_scope.
Delimit Scope go_scope with go.

Notation "s =s t" := (String.eqb s t) (at level 70, no associativity) : go_scope.
Notation "s ≠s t" := (negb (String.eqb s t)) (at level 70, no associativity) : go_scope.
Open Scope go_scope.

(** ** Shared hint database: facts every component closes goals with *)

Create HintDb amalthea.

(** ** Strings: the functions of Go's package [strings] the sources call *)

Module Strings.

(** [s[n:]] *)
Fixpoint drop (n : nat) (s : string) : string :=
  match n, s with
  | O, _ => s
  | S n', String _ s' => drop n' s'
  | S _, EmptyString => EmptyString
  end.

(** [s[:n]] *)
Fixpoint take (n : nat) (s : string) : string :=
  match n, s with
  | S n', String c s' => String c (take n' s')
  | _, _ => EmptyString
  end.

Definition HasPrefix (s p : string) : bool := String.prefix p s.

Definition HasSuffix (s suf : string) : bool :=
  (String.length suf <=? String.length s)%nat &&
  (drop (String.length s - String.length suf) s =s suf).

Definition CutPrefix (s p : string) : string * bool :=
  if HasPrefix s p then (drop (String.length p) s, true) else (s, false).

Definition TrimPrefix (s p : string) : string := fst (CutPrefix s p).

Definition TrimSuffix (s suf : string) : string :=
  if HasSuffix s suf then take (String.length s - String.length suf) s else s.

(** [strings.Cut]: the text before and after the first occurrence of [sep]. *)
Definition Cut (s sep : string) : string * string * bool :=
  match String.index 0 sep s with
  | Some n => (take n s, drop (n + String.length sep) s, true)
  | None => (s, EmptyString, false)
  end.

Definition Contains (s sub : string) : bool :=
  match String.index 0 sub s with Some _ => true | None => false end.

(** [strings.Count] for a one-byte separator. *)
Fixpoint CountByte (c : ascii) (s : string) : nat :=
  match s with
  | EmptyString => 0
  | String d s' => (if Ascii.eqb c d then 1 else 0) + CountByte c s'
  end.

Fixpoint Join (l : list string) (sep : string) : string :=
  match l with
  | [] => ""
  | [s] => s
  | s :: l' => s +:+ sep +:+ Join l' sep
  end.

(** [strings.ToLower] on ASCII text. *)
Definition lower (c : ascii) : ascii :=
  let n := Ascii.nat_of_ascii c in
  if ((65 <=? n) && (n <=? 90))%nat then Ascii.ascii_of_nat (n + 32) else c.

Fixpoint ToLower (s : string) : string :=
  match s with
  | EmptyString => EmptyString
  | String c s' => String (lower c) (ToLower s')
  end.

(** [strings.ToUpper] on ASCII text. *)
Definition upper (c : ascii) : ascii :=
  let n := Ascii.nat_of_ascii c in
  if ((97 <=? n) && (n <=? 122))%nat then Ascii.ascii_of_nat (n - 32) else c.

Fixpoint ToUpper (s : string) : string :=
  match s with
  | EmptyString => EmptyString
  | String c s' => String (upper c) (ToUpper s')
  end.

(** [strings.TrimLeft(s, "/")] *)
Fixpoint TrimLeftByte (c : ascii) (s : string) : string :=
  match s with
  | String d s' => if Ascii.eqb c d then TrimLeftByte c s' else s
  | EmptyString => EmptyString
  end.

(** [strings.FieldsFunc(s, func(r) bool { return r == c })]: the maximal
    non-empty runs of bytes different from [c]. *)
Fixpoint fields_go (c : ascii) (cur : string) (s : string) : list string :=
  match s with
  | EmptyString => if cur =s "" then [] else [cur]
  | String d s' =>
      if Ascii.eqb c d
      then (if cur =s "" then [] else [cur]) ++ fields_go c "" s'
      else fields_go c (cur +:+ String d EmptyString) s'
  end.
Definition Fields (c : ascii) (s : string) : list string := fields_go c "" s.

Lemma Fields_app c a b : Fields c (a +:+ String c b) = Fields c a ++ Fields c b.
Proof.
  unfold Fields. enough (∀ cur, fields_go c cur (a +:+ String c b) = fields_go c cur a ++ fields_go c "" b) as H by apply H.
  induction a as [|d a IH]; intros cur; [change ("" +:+ String c b) with (String c b); cbn; by rewrite Ascii.eqb_refl|].
  change (String d a +:+ String c b) with (String d (a +:+ String c b)). cbn.
  destruct (Ascii.eqb c d); rewrite IH; [by rewrite (assoc (++))|done].
Qed.

(** The [%q] verb of package [fmt] (a Go string literal).  Bytes from 0x80 on
    are copied: this is Go's behaviour on valid printable UTF-8. *)
Definition hex_digit (n : nat) : ascii :=
  Ascii.ascii_of_nat (if (n <? 10)%nat then 48 + n else 87 + n).

Definition quote_byte (c : ascii) : string :=
  let n := Ascii.nat_of_ascii c in
  let esc d := String "\" (String d EmptyString) in
  match n with
  | 7 => esc "a"%char | 8 => esc "b"%char | 9 => esc "t"%char
  | 10 => esc "n"%char | 11 => esc "v"%char | 12 => esc "f"%char
  | 13 => esc "r"%char | 92 => esc "\"%char
  | 34 => String "\" (String c EmptyString)
  | _ => if ((n <? 32) || (n =? 127))%nat
         then String "\" (String "x" (String (hex_digit (n / 16))
                (String (hex_digit (n mod 16)) EmptyString)))
         else String c EmptyString
  end.

Fixpoint quote_body (s : string) : string :=
  match s with
  | EmptyString => EmptyString
  | String c s' => quote_byte c +:+ quote_body s'
  end.

Definition dquote : string := String (Ascii.ascii_of_nat 34) EmptyString.
Definition Quote (s : string) : string := dquote +:+ quote_body s +:+ dquote.

Lemma app_cons (c : ascii) (s t : string) : String c s +:+ t = String c (s +:+ t).
Proof. done. Qed.

Lemma app_assoc (s t u : string) : (s +:+ t) +:+ u = s +:+ t +:+ u.
Proof. induction s as [|c s IH]; [done|]. by rewrite !app_cons, IH. Qed.

Lemma app_nil_r (s : string) : s +:+ "" = s.
Proof. induction s as [|c s IH]; [done|]. by rewrite app_cons, IH. Qed.

Lemma length_app (s t : string) :
  String.length (s +:+ t) = (String.length s + String.length t)%nat.
Proof. induction s as [|c s IH]; [done|]. rewrite app_cons. cbn. by rewrite IH. Qed.

Lemma drop_app (s t : string) : drop (String.length s) (s +:+ t) = t.
Proof. by induction s. Qed.

Lemma take_drop (n : nat) (s : string) : take n s +:+ drop n s = s.
Proof. revert s; induction n as [|n IH]; intros [|c s]; try done. cbn. by rewrite app_cons, IH. Qed.

Lemma take_app (s t : string) : take (String.length s) (s +:+ t) = s.
Proof. induction s as [|c s IH]; [by destruct t|]. rewrite app_cons. cbn. by rewrite IH. Qed.

Lemma HasPrefix_spec (s p : string) : HasPrefix s p = true ↔ ∃ t, s = p +:+ t.
Proof.
  unfold HasPrefix. revert s. induction p as [|c p IH]; intros s; cbn.
  - split; [by exists s|]. by destruct s.
  - destruct s as [|d s]; cbn; [by split; [|intros [??]]|].
    destruct (ascii_dec c d) as [->|Hne].
    + rewrite IH. split; intros [t Ht]; exists t; [by rewrite Ht|]. by injection Ht.
    + split; [done|]. intros [t Ht]. by injection Ht as -> _.
Qed.

Lemma HasSuffix_spec (s suf : string) : HasSuffix s suf = true ↔ ∃ t, s = t +:+ suf.
Proof.
  unfold HasSuffix. rewrite andb_true_iff, Nat.leb_le, String.eqb_eq. split.
  - intros [_ Hd]. exists (take (String.length s - String.length suf) s).
    by rewrite <- Hd at 2; rewrite take_drop.
  - intros [t ->]. rewrite length_app. split; [lia|].
    replace (String.length t + String.length suf - String.length suf)%nat
      with (String.length t) by lia.
    apply drop_app.
Qed.

Lemma HasPrefix_app (p t : string) : HasPrefix (p +:+ t) p = true.
Proof. apply HasPrefix_spec. by exists t. Qed.

Lemma HasSuffix_app (t suf : string) : HasSuffix (t +:+ suf) suf = true.
Proof. apply HasSuffix_spec. by exists t. Qed.

#[export] Hint Resolve HasPrefix_app HasSuffix_app : amalthea.

Lemma CutPrefix_app (p t : string) : CutPrefix (p +:+ t) p = (t, true).
Proof. unfold CutPrefix. by rewrite HasPrefix_app, drop_app. Qed.

Lemma TrimSuffix_app (t suf : string) : TrimSuffix (t +:+ suf) suf = t.
Proof. unfold TrimSuffix. rewrite HasSuffix_app, length_app, Nat.add_sub. apply take_app. Qed.

Lemma CutPrefix_false (s p : string) :
  HasPrefix s p = false → CutPrefix s p = (s, false).
Proof. unfold CutPrefix. by intros ->. Qed.

End Strings.

(** ** Machine integers *)

Module Int.
Local Open Scope Z_scope.
Definition max64 : Z := 2 ^ 63 - 1.
Definition min64 : Z := - 2 ^ 63.
(** Wrap-around of a signed 64-bit integer (Go's [int64], [int] and
    [time.Duration] on the 64-bit targets the images are built for). *)
Definition wrap64 (z : Z) : Z := (z + 2 ^ 63) mod 2 ^ 64 - 2 ^ 63.
Definition in64 (z : Z) : Prop := min64 ≤ z ≤ max64.

Lemma wrap64_id (z : Z) : in64 z → wrap64 z = z.
Proof.
  unfold in64, wrap64, min64, max64. intros [??]. rewrite Z.mod_small; lia.
Qed.
Lemma wrap64_in64 (z : Z) : in64 (wrap64 z).
Proof. unfold in64, wrap64, min64, max64. pose proof (Z.mod_pos_bound (z + 2 ^ 63) (2 ^ 64) eq_refl). lia. Qed.

End Int.

(** ** Package [time] *)

(** A [time.Duration] is a signed 64-bit count of nanoseconds. *)
Module Duration.
Local Open Scope Z_scope.
Definition t := Z.
Definition Nanosecond : t := 1.
Definition Second : t := 1000000000.
Definition Minute : t := 60 * Second.
Definition max : t := Int.max64.
Definition min : t := Int.min64.
End Duration.

(** A [time.Time] (also wrapped as [metav1.Time]) is the number of nanoseconds
    since January 1st of year 1, UTC: the zero [Time] is 0 and [IsZero] tests
    for it.  The location and the monotonic reading are not represented. *)
Module Time.
Local Open Scope Z_scope.
Definition t := Z.
Definition zero : t := 0.
Definition IsZero (x : t) : bool := x =? 0.
Definition Before (x y : t) : bool := x <? y.
Definition After (x y : t) : bool := y <? x.
Definition Add (x : t) (d : Duration.t) : t := x + d.
(** [Time.Sub] saturates at the bounds of [Duration]. *)
Definition Sub (x y : t) : Duration.t :=
  let d := x - y in
  if d <? Duration.min then Duration.min
  else if Duration.max <? d then Duration.max else d.
(** [time.Since(x)] at the clock reading [now]. *)
Definition Since (now x : t) : Duration.t := Sub now x.
(** Nanoseconds between year 1 and the Unix epoch. *)
Definition unixEpoch : t := 62135596800 * Duration.Second.
Definition Unix (sec : Z) : t := unixEpoch + sec * Duration.Second.

Lemma IsZero_true (x : t) : IsZero x = true ↔ x = zero.
Proof. unfold IsZero, zero. apply Z.eqb_eq. Qed.

Lemma IsZero_false (x : t) : IsZero x = false ↔ x ≠ zero.
Proof. unfold IsZero, zero. apply Z.eqb_neq. Qed.

Lemma Sub_small (x y : t) : Int.in64 (x - y) → Sub x y = x - y.
Proof.
  unfold Int.in64, Sub, Duration.min, Duration.max. intros [??].
  destruct (Z.ltb_spec (x - y) Int.min64); [lia|].
  destruct (Z.ltb_spec Int.max64 (x - y)); lia.
Qed.

Lemma Sub_in64 (x y : t) : Int.in64 (Sub x y).
Proof.
  unfold Int.in64, Sub, Duration.min, Duration.max.
  assert (Int.min64 ≤ Int.max64) by done.
  destruct (Z.ltb_spec (x - y) Int.min64); [lia|].
  destruct (Z.ltb_spec Int.max64 (x - y)); lia.
Qed.

Lemma Sub_gt_iff (x y : t) (d : Duration.t) :
  Int.in64 d → d < Duration.max → (Sub x y > d ↔ x - y > d).
Proof.
  unfold Int.in64, Sub, Duration.max, Duration.min. intros [??] ?.
  destruct (Z.ltb_spec (x - y) Int.min64); [lia|].
  destruct (Z.ltb_spec Int.max64 (x - y)); lia.
Qed.
End Time.

(** ** Errors and panics *)

(** A non-nil Go [error]: its message, and whether the API machinery
    classifies it as "not found" ([apierrors.IsNotFound]). *)
Record GoError := mkError { err_msg : string; err_notFound : bool }.

(** [fmt.Errorf] / [errors.New]: a plain error, never "not found". *)
Definition Errorf (msg : string) : GoError := mkError msg false.

(** [apierrors.IsNotFound(err)] on a possibly nil error. *)
Definition IsNotFound (e : option GoError) : bool :=
  match e with Some e => err_notFound e | None => false end.

(** [errors.Join(e1, e2)] *)
Definition errors_Join (e1 e2 : option GoError) : option GoError :=
  match e1, e2 with
  | None, None => None
  | Some e, None | None, Some e => Some e
  | Some a, Some b =>
      Some (mkError (err_msg a +:+ String (Ascii.ascii_of_nat 10) "" +:+ err_msg b)
                    (err_notFound a || err_notFound b))
  end.

(** Go functions with results [(A, error)]: exactly one side is meaningful for
    the functions modelled with this type. *)
Definition Result (A : Type) : Type := (A + GoError)%type.

Definition fmapResult {A B} (f : A → B) (r : Result A) : Result B := match r with inl a => inl (f a) | inr err => inr err end.
Definition bindResult {A B} (r : Result A) (f : A → Result B) : Result B :=
  match r with inl a => f a | inr err => inr err end.
Notation "x ←ᵣ r ; q" := (bindResult r (λ x, q)) (at level 100, r at level 99, q at level 200, right associativity).

(** All of them, or the first error. *)
Fixpoint mapResult {A B} (f : A → Result B) (l : list A) : Result (list B) :=
  match l with
  | [] => inl []
  | a :: l => b ←ᵣ f a; fmapResult (cons b) (mapResult f l)
  end.

(** A computation of the language itself: it returns, or it panics (here: a
    nil dereference or an explicit [panic]). *)
Inductive Outcome (A : Type) : Type :=
| Done (a : A)
| Panicked (why : string).
Arguments Done {A} a.
Arguments Panicked {A} why.

#[global] Instance Outcome_ret : MRet Outcome := λ A a, Done a.
#[global] Instance Outcome_bind : MBind Outcome := λ A B f m,
  match m with Done a => f a | Panicked w => Panicked w end.
#[global] Instance Outcome_fmap : FMap Outcome := λ A B f m,
  match m with Done a => Done (f a) | Panicked w => Panicked w end.

Lemma Outcome_bind_Done {A B} (m : Outcome A) (f : A → Outcome B) (b : B) :
  m ≫= f = Done b ↔ ∃ a, m = Done a ∧ f a = Done b.
Proof. destruct m; cbn; naive_solver. Qed.

Lemma Outcome_bind_assoc {A B C} (m : Outcome A) (f : A → Outcome B) (g : B → Outcome C) :
  (m ≫= f) ≫= g = m ≫= (λ a, f a ≫= g).
Proof. by destruct m. Qed.

(** Dereferencing a pointer that may be nil. *)
Definition deref {A} (p : option A) : Outcome A :=
  match p with
  | Some a => Done a
  | None => Panicked "invalid memory address or nil pointer dereference"
  end.

(** ** The process environment ([os.Getenv]) *)

Definition Env : Type := gmap string string.
Definition Getenv (env : Env) (k : string) : string := default "" (env !! k).

(** ** Tactics *)

(** Normalise boolean tests in the context and the goal to propositions. *)
Ltac bool_simpl :=
  repeat match goal with
  | H : context [String.eqb _ _ = true] |- _ => rewrite String.eqb_eq in H
  | H : context [String.eqb _ _ = false] |- _ => rewrite String.eqb_neq in H
  | H : context [negb _ = true] |- _ => rewrite negb_true_iff in H
  | H : context [negb _ = false] |- _ => rewrite negb_false_iff in H
  | H : context [_ && _ = true] |- _ => rewrite andb_true_iff in H
  | H : context [_ || _ = false] |- _ => rewrite orb_false_iff in H
  | H : context [Time.IsZero _ = true] |- _ => rewrite Time.IsZero_true in H
  | H : context [Time.IsZero _ = false] |- _ => rewrite Time.IsZero_false in H
  | |- context [String.eqb _ _ = true] => rewrite String.eqb_eq
  | |- context [String.eqb _ _ = false] => rewrite String.eqb_neq
  | |- context [negb _ = true] => rewrite negb_true_iff
  | |- context [negb _ = false] => rewrite negb_false_iff
  | |- context [_ && _ = true] => rewrite andb_true_iff
  | |- context [_ || _ = false] => rewrite orb_false_iff
  | |- context [Time.IsZero _ = true] => rewrite Time.IsZero_true
  | |- context [Time.IsZero _ = false] => rewrite Time.IsZero_false
  end.

(** Case analysis on the innermost test of a conditional or match. *)
Ltac case_if :=
  match goal with
  | |- context [if ?b then _ else _] =>
      lazymatch b with
      | context [if _ then _ else _] => fail
      | _ => let E := fresh "E" in destruct b eqn:E
      end
  end.

(** Maps: [maps.Copy(dst, src)] overwrites [dst] with the entries of [src]. *)
Definition maps_Copy {V} (dst src : gmap string V) : gmap string V := src ∪ dst.

Lemma maps_Copy_lookup {V} (dst src : gmap string V) (k : string) :
  maps_Copy dst src !! k = match src !! k with Some v => Some v | None => dst !! k end.
Proof.
  unfold maps_Copy. rewrite lookup_union. by destruct (src !! k), (dst !! k).
Qed.
