(* ===== verification/Prog.v ===== *)
(** * Effectful programs as interaction trees of finite depth

    Code that talks to the cluster is a [Prog E A]: a tree whose nodes are the
    calls it makes (an event [e : E R], answered by some [r : R]) and whose
    leaves are returns or panics.  The file gives the monad, the interpreter
    [run] against a handler (an executable model of the environment), and a
    weakest-precondition calculus [wp] against a [Monitor]: a ghost state
    updated at every call, an obligation on every call, and a rely condition
    on the answers.  [wp_run] connects the two. *)

From S2P Require Import Prelude.

Inductive Prog (E : Type → Type) (A : Type) : Type :=
| Ret (a : A)
| Panic (why : string)
| Vis {R : Type} (e : E R) (k : R → Prog E A).
Arguments Ret {E A} a.
Arguments Panic {E A} why.
Arguments Vis {E A R} e k.

Fixpoint bind {E A B} (p : Prog E A) (f : A → Prog E B) : Prog E B :=
  match p with
  | Ret a => f a
  | Panic w => Panic w
  | Vis e k => Vis e (λ r, bind (k r) f)
  end.

#[global] Instance Prog_ret {E} : MRet (Prog E) := λ A, Ret.
#[global] Instance Prog_bind {E} : MBind (Prog E) := λ A B f p, bind p f.

(** One call. *)
Definition trigger {E R} (e : E R) : Prog E R := Vis e Ret.

(** Pure code that may panic. *)
Definition lift {E A} (o : Outcome A) : Prog E A :=
  match o with Done a => Ret a | Panicked w => Panic w end.

(** [for _, x := range l { ... }] threading a local state. *)
Fixpoint foldM {E A S} (f : S → A → Prog E S) (s : S) (l : list A) : Prog E S :=
  match l with
  | [] => Ret s
  | x :: l' => bind (f s x) (λ s', foldM f s' l')
  end.

(** [defer e(); p]: the call is made when [p] returns or panics. *)
Fixpoint deferred {E : Type → Type} {A : Type} (e : E unit) (p : Prog E A) : Prog E A :=
  match p with
  | Ret a => Vis e (λ _, Ret a)
  | Panic w => Vis e (λ _, Panic w)
  | Vis e' k => Vis e' (λ r, deferred e (k r))
  end.

(** The calls of a program as calls of another type. *)
Fixpoint embed {E F : Type → Type} {A} (f : ∀ R, E R → F R) (p : Prog E A) : Prog F A :=
  match p with
  | Ret a => Ret a
  | Panic why => Panic why
  | Vis e k => Vis (f _ e) (λ r, embed f (k r))
  end.

(** A program over the calls of another one: every call is replaced by the
    program that implements it. *)
Fixpoint interp {E F : Type → Type} {A} (f : ∀ R, E R → Prog F R) (p : Prog E A) : Prog F A :=
  match p with
  | Ret a => Ret a
  | Panic why => Panic why
  | Vis e k => bind (f _ e) (λ r, interp f (k r))
  end.

(** ** Running a program against a handler *)

Definition Handler (E : Type → Type) (W : Type) : Type := ∀ R, E R → W → R * W.

Fixpoint run {E A W} (h : Handler E W) (p : Prog E A) (w : W) : Outcome A * W :=
  match p with
  | Ret a => (Done a, w)
  | Panic why => (Panicked why, w)
  | Vis e k => let '(r, w') := h _ e w in run h (k r) w'
  end.

Lemma run_bind {E A B W} (h : Handler E W) (p : Prog E A) (f : A → Prog E B) (w : W) :
  run h (bind p f) w =
  match run h p w with
  | (Done a, w') => run h (f a) w'
  | (Panicked why, w') => (Panicked why, w')
  end.
Proof.
  revert w. induction p as [a|why|R e k IH]; intros w; cbn; [done..|].
  destruct (h R e w) as [r w']. apply IH.
Qed.

Lemma bind_ret_r {E A} (p : Prog E A) (h : ∀ W, Handler E W) W (w : W) :
  run (h W) (bind p Ret) w = run (h W) p w.
Proof. rewrite run_bind. by destruct (run (h W) p w) as [[a|why] w']. Qed.

(** ** Monitors and weakest preconditions *)

Record Monitor (E : Type → Type) (S : Type) : Type := {
  (** what must hold when the call is made *)
  allowed : ∀ R, E R → S → Prop;
  (** what the environment guarantees about the answer *)
  rely : ∀ R, E R → S → R → Prop;
  (** how the ghost state records the call and its answer *)
  next : ∀ R, E R → R → S → S;
  (** whether the program may panic *)
  panic_ok : S → Prop;
}.
Arguments allowed {E S} _ {R}.
Arguments rely {E S} _ {R}.
Arguments next {E S} _ {R}.
Arguments panic_ok {E S}.

Section WP.
Context {E : Type → Type} {S : Type} (M : Monitor E S).

Fixpoint wp {A} (p : Prog E A) (Q : A → S → Prop) (s : S) : Prop :=
  match p with
  | Ret a => Q a s
  | Panic _ => panic_ok M s
  | Vis e k => allowed M e s ∧ ∀ r, rely M e s r → wp (k r) Q (next M e r s)
  end.

Lemma wp_mono {A} (p : Prog E A) (Q Q' : A → S → Prop) (s : S) :
  wp p Q s → (∀ a s', Q a s' → Q' a s') → wp p Q' s.
Proof.
  revert s. induction p as [a|w|R e k IH]; intros s Hwp HQ; cbn in *; [by apply HQ|done|].
  destruct Hwp as [Ha Hk]. split; [done|]. intros r Hr. apply IH; auto.
Qed.

Lemma wp_bind {A B} (p : Prog E A) (f : A → Prog E B) (Q : B → S → Prop) (s : S) :
  wp (bind p f) Q s ↔ wp p (λ a, wp (f a) Q) s.
Proof.
  revert s. induction p as [a|w|R e k IH]; intros s; cbn; [done..|].
  split; intros [Ha Hk]; (split; [done|]); intros r Hr; apply IH; auto.
Qed.

Lemma wp_bind_intro {A B} (p : Prog E A) (f : A → Prog E B) (P : A → S → Prop)
    (Q : B → S → Prop) (s : S) :
  wp p P s → (∀ a s', P a s' → wp (f a) Q s') → wp (bind p f) Q s.
Proof. intros Hp Hf. apply wp_bind. by eapply wp_mono. Qed.

Lemma wp_trigger {R} (e : E R) (Q : R → S → Prop) (s : S) :
  wp (trigger e) Q s ↔
  allowed M e s ∧ ∀ r, rely M e s r → Q r (next M e r s).
Proof. done. Qed.

Lemma wp_lift {A} (o : Outcome A) (Q : A → S → Prop) (s : S) :
  panic_ok M s → (∀ a, o = Done a → Q a s) → wp (lift o) Q s.
Proof. destruct o; cbn; auto. Qed.

Lemma wp_lift_total {A} (o : Outcome A) (Q : A → S → Prop) (s : S) :
  (∃ a, o = Done a ∧ Q a s) → wp (lift o) Q s.
Proof. by intros (a & -> & HQ). Qed.

(** The loop rule: an invariant of the state and the ghost state. *)
Lemma wp_foldM {A T} (f : T → A → Prog E T) (l : list A) (t : T)
    (I : list A → T → S → Prop) (Q : T → S → Prop) (s : S) :
  I l t s →
  (∀ x l' t s, I (x :: l') t s → wp (f t x) (λ t' s', I l' t' s') s) →
  (∀ t s, I [] t s → Q t s) →
  wp (foldM f t l) Q s.
Proof.
  intros HI Hstep Hend. revert t s HI.
  induction l as [|x l IH]; intros t s HI; cbn; [by apply Hend|].
  apply wp_bind_intro with (P := λ t' s', I l t' s'); [by apply Hstep|].
  intros t' s' HI'. by apply IH.
Qed.
End WP.

(** The same monitor with another condition on panics. *)
Definition withPanic {E S} (M : Monitor E S) (ok : S → Prop) : Monitor E S :=
  {| allowed := @allowed _ _ M; rely := @rely _ _ M; next := @next _ _ M; panic_ok := ok |}.

Lemma wp_withPanic_mono {E S A} (M : Monitor E S) (ok ok' : S → Prop) (p : Prog E A) (Q Q' : A → S → Prop) (s : S) :
  wp (withPanic M ok) p Q s → (∀ s, ok s → ok' s) → (∀ a s, Q a s → Q' a s) → wp (withPanic M ok') p Q' s.
Proof.
  intros Hp Hok HQ. revert s Hp. induction p as [a|w|R e k IH]; intros s; cbn; [auto..|].
  intros [Ha Hk]. split; [done|]. eauto.
Qed.

(** The rule for deferred calls: the body may end either way in a state in
    which the call is allowed. *)
Lemma wp_deferred {E : Type → Type} {S A : Type} (M : Monitor E S) (e : E unit) (p : Prog E A) (Q : A → S → Prop) (s : S) :
  wp (withPanic M (λ s, wp M (trigger e) (λ _, panic_ok M) s)) p (λ a s, wp M (trigger e) (λ _, Q a) s) s →
  wp M (deferred e p) Q s.
Proof.
  revert s. induction p as [a|w|R e' k IH]; intros s; cbn; [done..|].
  intros [Ha Hk]. split; [done|]. intros r Hr. by apply IH, Hk.
Qed.

#[global] Instance wp_proper {E S A} (M : Monitor E S) (p : Prog E A) :
  Proper (pointwise_relation A (pointwise_relation S iff) ==> eq ==> iff) (wp M p).
Proof.
  intros Q Q' HQ s s' <-. split; intros H; eapply wp_mono; try exact H;
    intros a t Ht; by apply (HQ a t).
Qed.

(** Adequacy: a handler that respects the rely takes a program verified
    against the monitor to a final state that satisfies the postcondition.
    [abs] reads the ghost state off the world. *)
Lemma wp_run {E S W A} (M : Monitor E S) (h : Handler E W) (abs : W → S)
    (p : Prog E A) (Q : A → S → Prop) (w : W) :
  (∀ R (e : E R) w r w', h R e w = (r, w') →
      rely M e (abs w) r ∧ abs w' = next M e r (abs w)) →
  wp M p Q (abs w) →
  match run h p w with
  | (Done a, w') => Q a (abs w')
  | (Panicked _, w') => panic_ok M (abs w')
  end.
Proof.
  intros Hh. revert w. induction p as [a|why|R e k IH]; intros w Hwp; cbn in *; [done..|].
  destruct Hwp as [_ Hk]. destruct (h R e w) as [r w'] eqn:He.
  destruct (Hh _ _ _ _ _ He) as [Hr Habs]. apply IH. rewrite Habs. by apply Hk.
Qed.

(** A handler that keeps the ghost state of a monitor beside its own world. *)
Definition withGhost {E S W} (M : Monitor E S) (h : Handler E W) : Handler E (W * S) :=
  λ R e ws, let '(r, w') := h R e ws.1 in (r, (w', next M e r ws.2)).

(** The environment keeps the promises of the monitor, whatever the ghost state. *)
Definition respects {E S W} (M : Monitor E S) (h : Handler E W) : Prop :=
  ∀ R (e : E R) w r w' s, h R e w = (r, w') → rely M e s r.

Lemma wp_run_ghost {E S W A} (M : Monitor E S) (h : Handler E W) (p : Prog E A)
    (Q : A → S → Prop) (w : W) (s : S) :
  respects M h → wp M p Q s →
  match run (withGhost M h) p (w, s) with
  | (Done a, (_, s')) => Q a s'
  | (Panicked _, (_, s')) => panic_ok M s'
  end.
Proof.
  intros Hr Hwp. pose proof (wp_run M (withGhost M h) snd p Q (w, s)) as Hrun.
  destruct (run (withGhost M h) p (w, s)) as [[a|why] [w' s']]; apply Hrun; try exact Hwp;
    unfold withGhost; intros R e [w0 s0] r [w1 s1]; cbn; destruct (h R e w0) as [r0 w2] eqn:He;
    intros; simplify_eq; (split; [by eapply Hr|done]).
Qed.

(** The run of a program against a handler keeps the obligations of a monitor:
    every call made is allowed in the ghost state it is made in, and the
    program ends in a state that satisfies [Q]. *)
Fixpoint obeys {E S W A} (M : Monitor E S) (h : Handler E W) (p : Prog E A) (Q : A → S → Prop)
    (w : W) (s : S) : Prop :=
  match p with
  | Ret a => Q a s
  | Panic _ => panic_ok M s
  | Vis e k => allowed M e s ∧ let '(r, w') := h _ e w in obeys M h (k r) Q w' (next M e r s)
  end.

Lemma wp_obeys {E S W A} (M : Monitor E S) (h : Handler E W) (p : Prog E A) (Q : A → S → Prop)
    (w : W) (s : S) :
  respects M h → wp M p Q s → obeys M h p Q w s.
Proof.
  intros Hh. revert w s. induction p as [a|why|R e k IH]; intros w s Hwp; cbn in *; [done..|].
  destruct Hwp as [Ha Hk]. split; [done|]. destruct (h R e w) as [r w'] eqn:He. eauto.
Qed.

(** Simulation between monitors: a program verified against [M1] is verified
    against [M2] when [M2] allows what [M1] allows and promises at least as
    much, in related ghost states. *)
Definition monitorSim {E S1 S2} (M1 : Monitor E S1) (M2 : Monitor E S2) (R : S1 → S2 → Prop) : Prop :=
  (∀ T (e : E T) s1 s2, R s1 s2 → allowed M1 e s1 →
     allowed M2 e s2 ∧
     ∀ r, rely M2 e s2 r → rely M1 e s1 r ∧ R (next M1 e r s1) (next M2 e r s2)) ∧
  (∀ s1 s2, R s1 s2 → panic_ok M1 s1 → panic_ok M2 s2).

Lemma wp_sim {E S1 S2 A} (M1 : Monitor E S1) (M2 : Monitor E S2) (R : S1 → S2 → Prop)
    (p : Prog E A) (Q : A → S1 → Prop) (s1 : S1) (s2 : S2) :
  monitorSim M1 M2 R → R s1 s2 → wp M1 p Q s1 →
  wp M2 p (λ a s2', ∃ s1', R s1' s2' ∧ Q a s1') s2.
Proof.
  intros [Hsim Hpanic]. revert s1 s2. induction p as [a|w|T e k IH]; intros s1 s2 HR Hwp; cbn in *.
  - eauto.
  - eauto.
  - destruct Hwp as [Ha Hk]. destruct (Hsim _ _ _ _ HR Ha) as [Ha2 Hr]. split; [done|].
    intros r Hrely. destruct (Hr r Hrely) as [Hr1 HR']. eapply IH; eauto.
Qed.

(** A monitor of the larger type that agrees with [M] on the embedded calls. *)
Definition extends {E F S} (f : ∀ R, E R → F R) (M : Monitor E S) (M' : Monitor F S) : Prop :=
  (∀ R (e : E R) s, allowed M e s → allowed M' (f R e) s) ∧
  (∀ R (e : E R) s r, rely M' (f R e) s r → rely M e s r) ∧
  (∀ R (e : E R) r s, next M' (f R e) r s = next M e r s) ∧
  (∀ s, panic_ok M s → panic_ok M' s).

Lemma wp_embed {E F S A} (f : ∀ R, E R → F R) (M : Monitor E S) (M' : Monitor F S) (p : Prog E A) (Q : A → S → Prop) (s : S) :
  extends f M M' → wp M p Q s → wp M' (embed f p) Q s.
Proof.
  intros (Ha & Hr & Hn & Hp). revert s. induction p as [a|w|R e k IH]; intros s Hwp; cbn in *; [done|auto|].
  destruct Hwp as [Hal Hk]. split; [auto|]. intros r Hrely. rewrite Hn. apply IH, Hk. eauto.
Qed.

(** ** Runs against an environment that only promises what it promises

    [may M p s a s']: with some answers that satisfy the rely, [p] returns [a]
    and the ghost state goes from [s] to [s'].  [crashes M p s s']: the process
    can die during [p] with the ghost state at [s']. *)

Fixpoint may {E S A} (M : Monitor E S) (p : Prog E A) (s : S) (a : A) (s' : S) : Prop :=
  match p with
  | Ret b => b = a ∧ s' = s
  | Panic _ => False
  | Vis e k => ∃ r, rely M e s r ∧ may M (k r) (next M e r s) a s'
  end.

Fixpoint crashes {E S A} (M : Monitor E S) (p : Prog E A) (s s' : S) : Prop :=
  s' = s ∨
  match p with
  | Ret _ | Panic _ => False
  | Vis e k => ∃ r, rely M e s r ∧ crashes M (k r) (next M e r s) s'
  end.

Lemma wp_may {E S A} (M : Monitor E S) (p : Prog E A) (Q : A → S → Prop) (s : S) (a : A) (s' : S) :
  wp M p Q s → may M p s a s' → Q a s'.
Proof.
  revert s. induction p as [b|w|R e k IH]; intros s Hwp Hm; cbn in *; [by destruct Hm as [-> ->]|done|].
  destruct Hwp as [_ Hk], Hm as (r & Hr & Hm). eauto.
Qed.

Lemma may_bind {E S A B} (M : Monitor E S) (p : Prog E A) (f : A → Prog E B) (s : S) (b : B) (s' : S) :
  may M (bind p f) s b s' ↔ ∃ a s1, may M p s a s1 ∧ may M (f a) s1 b s'.
Proof.
  revert s. induction p as [a|w|R e k IH]; intros s; cbn.
  - split; [by eauto|]. by intros (a' & s1 & [-> ->] & Hf).
  - split; [done|]. by intros (a' & s1 & [] & _).
  - setoid_rewrite IH. naive_solver.
Qed.

(** The same relation for a monitor that promises the same. *)
Definition withAllowed {E S} (M : Monitor E S) (inv : S → Prop) : Monitor E S :=
  {| allowed := λ _ _, inv; rely := @rely _ _ M; next := @next _ _ M; panic_ok := inv |}.

Lemma wp_withAllowed_may {E S A} (M : Monitor E S) (inv : S → Prop) (p : Prog E A) (Q : A → S → Prop) (s : S) (a : A) (s' : S) :
  wp (withAllowed M inv) p Q s → may M p s a s' → Q a s'.
Proof.
  revert s. induction p as [b|w|R e k IH]; intros s Hwp Hm; cbn in *; [by destruct Hm as [-> ->]|done|].
  destruct Hwp as [_ Hk], Hm as (r & Hr & Hm). eauto.
Qed.

(** What holds before every call holds wherever the process dies. *)
Lemma wp_withAllowed_crashes {E S A} (M : Monitor E S) (inv : S → Prop) (p : Prog E A) (Q : A → S → Prop) (s s' : S) :
  wp (withAllowed M inv) p Q s → (∀ a s, Q a s → inv s) → crashes M p s s' → inv s'.
Proof.
  intros Hwp HQ. revert s Hwp. induction p as [b|w|R e k IH]; intros s Hwp Hc; cbn in *.
  - destruct Hc as [->|[]]. eauto.
  - by destruct Hc as [->|[]].
  - destruct Hwp as [Ha Hk], Hc as [->|(r & Hr & Hc)]; [done|]. eauto.
Qed.

(** Symbolic execution of [wp] goals. *)
Ltac wp_step :=
  lazymatch goal with
  | |- wp _ (bind _ _) _ _ => apply wp_bind
  | |- wp _ (mbind _ _) _ _ => apply wp_bind
  | |- wp _ (trigger _) _ _ => apply wp_trigger
  end.

(** Interpretation: a program verified against [M] is verified against [N] over
    an implementation of its calls, when the implementation of every call that
    [M] allows is verified against [N] and ends in an answer that [M] relies on,
    in related ghost states. *)
Lemma wp_interp {E F : Type → Type} {S T A} (M : Monitor E S) (N : Monitor F T) (R : S → T → Prop)
    (f : ∀ X, E X → Prog F X) (p : Prog E A) (Q : A → S → Prop) (s : S) (t : T) :
  (∀ X (e : E X) s t, R s t → allowed M e s → wp N (f X e) (λ r t', rely M e s r ∧ R (next M e r s) t') t) →
  (∀ s t, R s t → panic_ok M s → panic_ok N t) →
  R s t → wp M p Q s → wp N (interp f p) (λ a t', ∃ s', R s' t' ∧ Q a s') t.
Proof.
  intros Hf Hpanic. revert s t. induction p as [a|why|X e k IH]; intros s t HR; cbn; [by exists s|by apply Hpanic|].
  intros [Ha Hk]. eapply wp_bind_intro; [by apply Hf|]. intros r t' [Hr HR']. by eapply IH, Hk.
Qed.

(** ** Pools of threads *)

(** A step replaces a thread by what follows one of its calls. *)
Definition child {E A} (p' p : Prog E A) : Prop :=
  match p with Vis e k => ∃ r, p' = k r | _ => False end.

Definition shrinks {E A} (pool' pool : list (Prog E A)) : Prop :=
  ∃ i p p', pool !! i = Some p ∧ child p' p ∧ pool' = <[i := p']> pool.

Lemma shrinks_acc {E A} (pool : list (Prog E A)) : Acc shrinks pool.
Proof.
  induction pool as [|p pool Hpool]; [constructor; by intros ? (i & ? & ? & ? & ? & ?)|].
  revert pool Hpool. induction p as [a|why|R e k IH]; intros pool Hpool;
    induction Hpool as [pool Hpool' IHpool];
    constructor; intros ? ([|i] & p & p' & Hi & Hp & ->); cbn in Hi |- *;
    try (apply IHpool; by exists i, p, p'); injection Hi as <-; [done|done|].
  destruct Hp as [r ->]. apply IH. by constructor.
Qed.
