(* ===== verification/NetUrl.v ===== *)
(** * The parts of Go's [path], [net/url] and [encoding/base64] in use

    The standard library is modelled as far as the sources use it:
    [path.Clean]/[path.Join]/[path.Dir], [url.Parse], [URL.String],
    [URL.JoinPath], [URL.Hostname], [URL.Port] and the base64 encodings.
    IPv6 zone identifiers are not represented in the URL parser. *)

From S2P Require Import Prelude.
From Stdlib Require Import Ascii.

Module Bytes.
Definition code (c : ascii) : nat := Ascii.nat_of_ascii c.
Definition between (lo hi : nat) (c : ascii) : bool :=
  ((lo <=? code c) && (code c <=? hi))%nat.
Definition isDigit : ascii → bool := between 48 57.
Definition isAlpha (c : ascii) : bool := between 65 90 c || between 97 122 c.
Definition isAlnum (c : ascii) : bool := isAlpha c || isDigit c.
(** Membership of a byte in a set given by the bytes of a string. *)
Fixpoint mem (c : ascii) (s : string) : bool :=
  match s with
  | EmptyString => false
  | String d s' => Ascii.eqb c d || mem c s'
  end.
Fixpoint forallb (p : ascii → bool) (s : string) : bool :=
  match s with
  | EmptyString => true
  | String c s' => p c && forallb p s'
  end.
Definition unhex (c : ascii) : option nat :=
  if isDigit c then Some (code c - 48)
  else if between 97 102 c then Some (code c - 87)
  else if between 65 70 c then Some (code c - 55)
  else None.
Definition upperhex (n : nat) : ascii :=
  Ascii.ascii_of_nat (if (n <? 10)%nat then 48 + n else 55 + n).
(** [strings.LastIndexByte]: split at the last occurrence of [c]. *)
Fixpoint cutLast (c : ascii) (s : string) : option (string * string) :=
  match s with
  | EmptyString => None
  | String d s' =>
      match cutLast c s' with
      | Some (a, b) => Some (String d a, b)
      | None => if Ascii.eqb c d then Some (EmptyString, s') else None
      end
  end.
End Bytes.

(** ** Package [path] (and [path/filepath] on Linux) *)
Module Path.

(** Split at every ["/"], empty elements included. *)
Fixpoint split (s : string) : list string :=
  match s with
  | EmptyString => [EmptyString]
  | String c s' =>
      if Ascii.eqb c "/"%char then EmptyString :: split s'
      else match split s' with
           | e :: es => String c e :: es
           | [] => [String c EmptyString]
           end
  end.

(** The elements kept by [Clean], innermost first: ["" ] and ["."] are dropped,
    [".."] removes its predecessor, stays at the front of a relative path, and
    is dropped at the root. *)
Fixpoint clean_go (rooted : bool) (acc : list string) (l : list string) : list string :=
  match l with
  | [] => acc
  | e :: l' =>
      if (e =s "") || (e =s ".") then clean_go rooted acc l'
      else if e =s ".." then
        match acc with
        | [] => clean_go rooted (if rooted then [] else [e]) l'
        | a :: acc' => if a =s ".." then clean_go rooted (e :: acc) l'
                       else clean_go rooted acc' l'
        end
      else clean_go rooted (e :: acc) l'
  end.

Definition Clean (p : string) : string :=
  if p =s "" then "."
  else
    let rooted := Strings.HasPrefix p "/" in
    let body := Strings.Join (reverse (clean_go rooted [] (split p))) "/" in
    if rooted then "/" +:+ body else if body =s "" then "." else body.

(** [path.Join]: empty elements are ignored, the result is cleaned. *)
Definition Join (elems : list string) : string :=
  match filter (λ e, e ≠ "") elems with
  | [] => ""
  | es => Clean (Strings.Join es "/")
  end.

Definition IsAbs (p : string) : bool := Strings.HasPrefix p "/".

(** [path.Dir]: everything up to the last slash, cleaned. *)
Definition Dir (p : string) : string :=
  match Bytes.cutLast "/"%char p with
  | Some (d, _) => Clean (d +:+ "/")
  | None => "."
  end.
End Path.

(** ** Package [net/url] *)

Module URL.
Record t := mk {
  Scheme : string;
  Opaque : string;
  User : option (string * option string);
  Host : string;
  Path : string;
  RawPath : string;
  OmitHost : bool;
  ForceQuery : bool;
  RawQuery : string;
  Fragment : string;
  RawFragment : string }.

(** [&url.URL{Scheme: scheme, Host: host, Path: path}] *)
Definition new (scheme host path : string) : t :=
  mk scheme "" None host path "" false false "" "" "".

Definition with_SchemeHost (u : t) (scheme host : string) : t :=
  mk scheme (Opaque u) (User u) host (Path u) (RawPath u) (OmitHost u)
     (ForceQuery u) (RawQuery u) (Fragment u) (RawFragment u).
End URL.

Inductive encoding := encodePath | encodeFragment | encodeHost | encodeUserPassword.

Definition shouldEscape (c : ascii) (mode : encoding) : bool :=
  if Bytes.isAlnum c then false
  else if match mode with encodeHost => Bytes.mem c ("!$&'()*+,;=:[]<>" +:+ Strings.dquote)
                        | _ => false end then false
  else if Bytes.mem c "-_.~" then false
  else if Bytes.mem c "$&+,/:;=?@" then
    match mode with
    | encodePath => Ascii.eqb c "?"%char
    | encodeUserPassword => Bytes.mem c "@/?:"
    | encodeFragment => false
    | encodeHost => true
    end
  else match mode with
       | encodeFragment => negb (Bytes.mem c "!()*")
       | _ => true
       end.

Fixpoint escape (s : string) (mode : encoding) : string :=
  match s with
  | EmptyString => EmptyString
  | String c s' =>
      if shouldEscape c mode
      then String "%"%char (String (Bytes.upperhex (Bytes.code c / 16))
             (String (Bytes.upperhex (Bytes.code c mod 16)) (escape s' mode)))
      else String c (escape s' mode)
  end.

(** [unescape]: [None] stands for the [EscapeError] or [InvalidHostError]. *)
Fixpoint unescape (s : string) (mode : encoding) : option string :=
  match s with
  | EmptyString => Some EmptyString
  | String "%"%char s' =>
      match s' with
      | String h (String l s'') =>
          match Bytes.unhex h, Bytes.unhex l, unescape s'' mode with
          | Some h, Some l, Some r => Some (String (Ascii.ascii_of_nat (16 * h + l)) r)
          | _, _, _ => None
          end
      | _ => None
      end
  | String c s' =>
      if match mode with
         | encodeHost => (Bytes.code c <? 128)%nat && shouldEscape c mode
         | _ => false
         end
      then None
      else match unescape s' mode with Some r => Some (String c r) | None => None end
  end.

Definition validEncoded (s : string) (mode : encoding) : bool :=
  Bytes.forallb (λ c, Bytes.mem c "!$&'()*+,;=:@[]%" || negb (shouldEscape c mode)) s.

Definition EscapedPath (u : URL.t) : string :=
  if (URL.RawPath u ≠s "") && validEncoded (URL.RawPath u) encodePath &&
     match unescape (URL.RawPath u) encodePath with
     | Some p => p =s URL.Path u
     | None => false
     end
  then URL.RawPath u
  else if URL.Path u =s "*" then "*"
  else escape (URL.Path u) encodePath.

Definition EscapedFragment (u : URL.t) : string :=
  if (URL.RawFragment u ≠s "") && validEncoded (URL.RawFragment u) encodeFragment &&
     match unescape (URL.RawFragment u) encodeFragment with
     | Some p => p =s URL.Fragment u
     | None => false
     end
  then URL.RawFragment u
  else escape (URL.Fragment u) encodeFragment.

(** The pair [(Path, RawPath)] set by [setPath]; likewise for fragments. *)
Definition setEscaped (mode : encoding) (p : string) : option (string * string) :=
  match unescape p mode with
  | Some path => Some (path, if p =s escape path mode then "" else p)
  | None => None
  end.

(** [getScheme]: [None] is the "missing protocol scheme" error. *)
Fixpoint getScheme_go (raw : string) (first : bool) (acc s : string) : option (string * string) :=
  match s with
  | EmptyString => Some ("", raw)
  | String c s' =>
      if Bytes.isAlpha c then getScheme_go raw false (acc +:+ String c "") s'
      else if Bytes.isDigit c || Bytes.mem c "+-." then
        if first then Some ("", raw) else getScheme_go raw false (acc +:+ String c "") s'
      else if Ascii.eqb c ":"%char then
        if first then None else Some (acc, s')
      else Some ("", raw)
  end.
Definition getScheme (raw : string) : option (string * string) :=
  getScheme_go raw true "" raw.

Definition validOptionalPort (port : string) : bool :=
  match port with
  | EmptyString => true
  | String c ds => Ascii.eqb c ":"%char && Bytes.forallb Bytes.isDigit ds
  end.

Definition parseHost (host : string) : option string :=
  if Strings.HasPrefix host "["
  then match Bytes.cutLast "]"%char host with
       | Some (_, colonPort) =>
           if validOptionalPort colonPort then unescape host encodeHost else None
       | None => None
       end
  else match Bytes.cutLast ":"%char host with
       | Some (_, p) =>
           if validOptionalPort (String ":"%char p) then unescape host encodeHost else None
       | None => unescape host encodeHost
       end.

Definition validUserinfo (s : string) : bool :=
  Bytes.forallb (λ c, Bytes.isAlnum c || Bytes.mem c "-._:~!$&'()*+,;=%@") s.

Definition parseAuthority (authority : string) : option (option (string * option string) * string) :=
  match Bytes.cutLast "@"%char authority with
  | None => h ← parseHost authority; Some (None, h)
  | Some (userinfo, rest) =>
      h ← parseHost rest;
      if negb (validUserinfo userinfo) then None
      else if negb (Strings.Contains userinfo ":")
      then u ← unescape userinfo encodeUserPassword; Some (Some (u, None), h)
      else
        let '(username, password, _) := Strings.Cut userinfo ":" in
        u ← unescape username encodeUserPassword;
        p ← unescape password encodeUserPassword;
        Some (Some (u, Some p), h)
  end.

(** [stringContainsCTLByte] *)
Definition containsCTL (s : string) : bool :=
  negb (Bytes.forallb (λ c, negb ((Bytes.code c <? 32) || (Bytes.code c =? 127))%nat) s).

Definition parse (rawURL : string) : option URL.t :=
  if containsCTL rawURL then None
  else if rawURL =s "*" then Some (URL.new "" "" "*")
  else
    '(scheme, rest0) ← getScheme rawURL;
    let scheme := Strings.ToLower scheme in
    let '(rest, query, force) :=
      if Strings.HasSuffix rest0 "?" && (Strings.CountByte "?"%char rest0 =? 1)%nat
      then (Strings.TrimSuffix rest0 "?", "", true)
      else let '(r, q, _) := Strings.Cut rest0 "?" in (r, q, false) in
    let rooted := Strings.HasPrefix rest "/" in
    if negb rooted && (scheme ≠s "")
    then Some (URL.mk scheme rest None "" "" "" false force query "" "")
    else if negb rooted && Strings.Contains (fst (fst (Strings.Cut rest "/"))) ":"
    then None
    else if ((scheme ≠s "") || negb (Strings.HasPrefix rest "///")) && Strings.HasPrefix rest "//"
    then
      let a := Strings.drop 2 rest in
      let '(authority, _, found) := Strings.Cut a "/" in
      let rest' := Strings.drop (String.length authority) a in
      '(user, host) ← parseAuthority authority;
      '(p, raw) ← setEscaped encodePath rest';
      Some (URL.mk scheme "" user host p raw false force query "" "")
    else
      '(p, raw) ← setEscaped encodePath rest;
      Some (URL.mk scheme "" None "" p raw ((scheme ≠s "") && rooted) force query "" "").

(** [url.Parse]; [None] stands for a non-nil error. *)
Definition url_Parse (rawURL : string) : option URL.t :=
  let '(u, frag, _) := Strings.Cut rawURL "#" in
  url ← parse u;
  if frag =s "" then Some url
  else '(f, rawf) ← setEscaped encodeFragment frag;
       Some (URL.mk (URL.Scheme url) (URL.Opaque url) (URL.User url) (URL.Host url)
               (URL.Path url) (URL.RawPath url) (URL.OmitHost url) (URL.ForceQuery url)
               (URL.RawQuery url) f rawf).

Definition Userinfo_String (u : string * option string) : string :=
  match u with
  | (name, None) => escape name encodeUserPassword
  | (name, Some pw) => escape name encodeUserPassword +:+ ":" +:+ escape pw encodeUserPassword
  end.

(** [URL.String] *)
Definition URL_String (u : URL.t) : string :=
  let scheme := if URL.Scheme u =s "" then "" else URL.Scheme u +:+ ":" in
  let noUser := match URL.User u with None => true | Some _ => false end in
  let body :=
    if URL.Opaque u ≠s "" then scheme +:+ URL.Opaque u
    else
      let auth :=
        if (URL.Scheme u ≠s "") || (URL.Host u ≠s "") || negb noUser then
          if URL.OmitHost u && (URL.Host u =s "") && noUser then ""
          else
            (if (URL.Host u ≠s "") || (URL.Path u ≠s "") || negb noUser then "//" else "") +:+
            (match URL.User u with Some ui => Userinfo_String ui +:+ "@" | None => "" end) +:+
            (if URL.Host u ≠s "" then escape (URL.Host u) encodeHost else "")
        else "" in
      let path := EscapedPath u in
      let slash := if (path ≠s "") && negb (Strings.HasPrefix path "/") && (URL.Host u ≠s "")
                   then "/" else "" in
      let pre := scheme +:+ auth +:+ slash in
      let dot := if (pre =s "") && Strings.Contains (fst (fst (Strings.Cut path "/"))) ":"
                 then "./" else "" in
      pre +:+ dot +:+ path in
  body +:+
  (if URL.ForceQuery u || (URL.RawQuery u ≠s "") then "?" +:+ URL.RawQuery u else "") +:+
  (if URL.Fragment u ≠s "" then "#" +:+ EscapedFragment u else "").

Definition splitHostPort (hostPort : string) : string * string :=
  let '(host, port) :=
    match Bytes.cutLast ":"%char hostPort with
    | Some (h, p) => if validOptionalPort (String ":"%char p) then (h, p) else (hostPort, "")
    | None => (hostPort, "")
    end in
  if Strings.HasPrefix host "[" && Strings.HasSuffix host "]"
  then (Strings.take (String.length host - 2) (Strings.drop 1 host), port)
  else (host, port).

Definition Hostname (u : URL.t) : string := fst (splitHostPort (URL.Host u)).
Definition Port (u : URL.t) : string := snd (splitHostPort (URL.Host u)).

(** [u.JoinPath(elem)] with one element. *)
Definition JoinPath (u : URL.t) (elem : string) : URL.t :=
  let e0 := EscapedPath u in
  let p := if Strings.HasPrefix e0 "/" then Path.Join [e0; elem]
           else Strings.drop 1 (Path.Join ["/" +:+ e0; elem]) in
  let p := if Strings.HasSuffix elem "/" && negb (Strings.HasSuffix p "/") then p +:+ "/" else p in
  match setEscaped encodePath p with
  | Some (path, raw) =>
      URL.mk (URL.Scheme u) (URL.Opaque u) (URL.User u) (URL.Host u) path raw (URL.OmitHost u)
        (URL.ForceQuery u) (URL.RawQuery u) (URL.Fragment u) (URL.RawFragment u)
  | None => u
  end.

(** ** Package [encoding/base64] *)
Module Base64.
Definition std : string := "ABCDEFGHIJKLMNOPQRSTUVWXYZabcdefghijklmnopqrstuvwxyz0123456789+/".
Definition urlsafe : string := "ABCDEFGHIJKLMNOPQRSTUVWXYZabcdefghijklmnopqrstuvwxyz0123456789-_".

Definition digit (alphabet : string) (n : nat) : ascii :=
  default "="%char (String.get n alphabet).

(** [pad] is "=" for the padded encodings and "" for the raw ones. *)
Fixpoint EncodeToString (alphabet pad s : string) : string :=
  let d := digit alphabet in
  match s with
  | EmptyString => EmptyString
  | String a EmptyString =>
      let a := Bytes.code a in
      String (d (a / 4)%nat) (String (d (a mod 4 * 16)%nat) EmptyString) +:+ pad +:+ pad
  | String a (String b EmptyString) =>
      let a := Bytes.code a in let b := Bytes.code b in
      String (d (a / 4)%nat) (String (d (a mod 4 * 16 + b / 16)%nat)
        (String (d (b mod 16 * 4)%nat) EmptyString)) +:+ pad
  | String a (String b (String c s')) =>
      let a := Bytes.code a in let b := Bytes.code b in let c := Bytes.code c in
      String (d (a / 4)%nat) (String (d (a mod 4 * 16 + b / 16)%nat)
        (String (d (b mod 16 * 4 + c / 64)%nat) (String (d (c mod 64)%nat)
          (EncodeToString alphabet pad s'))))
  end.

Definition StdEncoding : string → string := EncodeToString std "=".
Definition URLEncoding : string → string := EncodeToString urlsafe "=".
Definition RawURLEncoding : string → string := EncodeToString urlsafe "".
End Base64.

(** ** Sanity checks against documented examples *)
Example base64_ex : Base64.StdEncoding "oauth2:tok" = "b2F1dGgyOnRvaw==".
Proof. reflexivity. Qed.
Example clean_ex : Path.Clean "/a//b/../c/./" = "/a/c".
Proof. reflexivity. Qed.
Example parse_ex : URL_String <$> url_Parse "HTTPS://u:p@h.io:8/a%2Fb/?q=1#f" =
  Some "https://u:p@h.io:8/a%2Fb/?q=1#f".
Proof. reflexivity. Qed.
Example hostname_ex : Hostname <$> url_Parse "https://git.io:443/x" = Some "git.io".
Proof. reflexivity. Qed.
Example joinpath_ex :
  URL_String (JoinPath (URL.new "https" "h.io" "/sessions/s1/") "oauth2/callback")
  = "https://h.io/sessions/s1/oauth2/callback".
Proof. reflexivity. Qed.
