(* ===== verification/UrlRef.v ===== *)
(** * Relative references of [net/url]

    [url.PathEscape], the resolution of a relative reference ([URL.Parse],
    [URL.ResolveReference]) and what the API clients need of it: a path of
    escaped segments, resolved against a base URL, stays below that URL, and is
    appended to it when no segment is [.] or [..]. *)

From S2P Require Import Prelude NetUrl.
From Stdlib Require Import Ascii.

(** ** Escaping of segments *)

(** The bytes [url.PathEscape] leaves alone. *)
Definition segmentByte (c : ascii) : bool := Bytes.isAlnum c || Bytes.mem c "-_.~$&+:=@".

Fixpoint PathEscape (s : string) : string :=
  match s with
  | EmptyString => EmptyString
  | String c s' =>
      if segmentByte c then String c (PathEscape s')
      else String "%"%char (String (Bytes.upperhex (Bytes.code c / 16))
             (String (Bytes.upperhex (Bytes.code c mod 16)) (PathEscape s')))
  end.

(** ** Resolution *)

(** [strings.LastIndex(base, "/")]: the text up to the last slash, with it. *)
Definition upToSlash (base : string) : string :=
  match Bytes.cutLast "/"%char base with Some (dir, _) => dir +:+ "/" | None => "" end.

(** One element of the loop of [resolvePath]: the text written so far and
    whether nothing has been written after the leading slash. *)
Definition resolveElem (state : string * bool) (elem : string) : string * bool :=
  let '(dst, first) := state in
  if elem =s "." then (dst, false)
  else if elem =s ".." then
    match Bytes.cutLast "/"%char (Strings.drop 1 dst) with
    | None => ("/", true)
    | Some (str, _) => ("/" +:+ str, first)
    end
  else ((if first then dst else dst +:+ "/") +:+ elem, false).

Definition resolvePath (base ref : string) : string :=
  let full := if ref =s "" then base
              else if Strings.HasPrefix ref "/" then ref
              else upToSlash base +:+ ref in
  if full =s "" then ""
  else
    let elems := Path.split full in
    let '(dst, _) := foldl resolveElem ("/", true) elems in
    let elem := default "" (list.last elems) in
    let dst := if (elem =s ".") || (elem =s "..") then dst +:+ "/" else dst in
    if Strings.HasPrefix dst "//" then Strings.drop 1 dst else dst.

Definition with_path (u : URL.t) (path rawPath : string) : URL.t :=
  URL.mk (URL.Scheme u) (URL.Opaque u) (URL.User u) (URL.Host u) path rawPath (URL.OmitHost u)
    (URL.ForceQuery u) (URL.RawQuery u) (URL.Fragment u) (URL.RawFragment u).

(** [url.setPath(p)], whose error is ignored. *)
Definition setPath (u : URL.t) (p : string) : URL.t :=
  match setEscaped encodePath p with Some (path, rawPath) => with_path u path rawPath | None => u end.

Definition ResolveReference (u ref : URL.t) : URL.t :=
  let url := URL.mk (if URL.Scheme ref =s "" then URL.Scheme u else URL.Scheme ref) (URL.Opaque ref) (URL.User ref)
               (URL.Host ref) (URL.Path ref) (URL.RawPath ref) (URL.OmitHost ref) (URL.ForceQuery ref)
               (URL.RawQuery ref) (URL.Fragment ref) (URL.RawFragment ref) in
  if (URL.Scheme ref ≠s "") || (URL.Host ref ≠s "") || bool_decide (is_Some (URL.User ref))
  then setPath url (resolvePath (EscapedPath ref) "")
  else if URL.Opaque ref ≠s "" then
    URL.mk (URL.Scheme url) (URL.Opaque url) None "" "" (URL.RawPath url) (URL.OmitHost url) (URL.ForceQuery url)
      (URL.RawQuery url) (URL.Fragment url) (URL.RawFragment url)
  else
    let url :=
      if (URL.Path ref =s "") && negb (URL.ForceQuery ref) && (URL.RawQuery ref =s "") then
        URL.mk (URL.Scheme url) (URL.Opaque url) (URL.User url) (URL.Host url) (URL.Path url) (URL.RawPath url)
          (URL.OmitHost url) (URL.ForceQuery url) (URL.RawQuery u)
          (if URL.Fragment ref =s "" then URL.Fragment u else URL.Fragment url)
          (if URL.Fragment ref =s "" then URL.RawFragment u else URL.RawFragment url)
      else url in
    if (URL.Path ref =s "") && (URL.Opaque u ≠s "") then
      URL.mk (URL.Scheme url) (URL.Opaque u) None "" "" (URL.RawPath url) (URL.OmitHost url) (URL.ForceQuery url)
        (URL.RawQuery url) (URL.Fragment url) (URL.RawFragment url)
    else
      let url := URL.mk (URL.Scheme url) (URL.Opaque url) (URL.User u) (URL.Host u) (URL.Path url) (URL.RawPath url)
                   (URL.OmitHost url) (URL.ForceQuery url) (URL.RawQuery url) (URL.Fragment url) (URL.RawFragment url) in
      setPath url (resolvePath (EscapedPath u) (EscapedPath ref)).

(** [u.Parse(ref)] *)
Definition URL_Parse (u : URL.t) (ref : string) : option URL.t := ResolveReference u <$> url_Parse ref.

Example resolve_ex : (URL_String <$> (u ← url_Parse "https://api.io:8/v2/"; URL_Parse u "./compute/a%2Fb/jobs")) =
  Some "https://api.io:8/v2/compute/a%2Fb/jobs".
Proof. reflexivity. Qed.
Example resolve_up : (URL_String <$> (u ← url_Parse "https://api.io/v2/"; URL_Parse u "./compute/e/jobs/..")) =
  Some "https://api.io/v2/compute/e/".
Proof. reflexivity. Qed.

(** ** Elements of a path *)

Definition noSlash (s : string) : Prop := Bytes.forallb (λ c, negb (Ascii.eqb c "/"%char)) s = true.
Definition dotted (e : string) : bool := (e =s ".") || (e =s "..").

Lemma forallb_app p (a b : string) : Bytes.forallb p (a +:+ b) = Bytes.forallb p a && Bytes.forallb p b.
Proof. induction a as [|c a IH]; [done|]. rewrite Strings.app_cons. cbn. by rewrite IH, andb_assoc. Qed.

Lemma forallb_impl (p q : ascii → bool) s : (∀ c, p c = true → q c = true) → Bytes.forallb p s = true → Bytes.forallb q s = true.
Proof. intros Hpq. induction s as [|c s IH]; [done|]. cbn. intros [Hc Hs]%andb_prop. by rewrite Hpq, IH. Qed.

Lemma split_nonempty s : ∃ e es, Path.split s = e :: es.
Proof.
  induction s as [|c s (e & es & IH)]; [by eexists _, _|]. cbn. destruct (Ascii.eqb c "/"%char); [by eexists _, _|].
  rewrite IH. by eexists _, _.
Qed.

Lemma split_app a b : Path.split (a +:+ "/" +:+ b) = Path.split a ++ Path.split b.
Proof.
  induction a as [|c a IH]; [done|]. change (String c a +:+ "/" +:+ b) with (String c (a +:+ "/" +:+ b)).
  cbn [Path.split]. rewrite IH. destruct (Ascii.eqb c "/"%char); [done|].
  destruct (split_nonempty a) as (e & es & ->). done.
Qed.

Lemma split_element e : noSlash e → Path.split e = [e].
Proof.
  unfold noSlash. induction e as [|c e IH]; [done|]. cbn. intros [Hc He]%andb_prop. rewrite IH by done.
  by destruct (Ascii.eqb c "/"%char).
Qed.

Lemma split_join e l : Forall noSlash (e :: l) → Path.split (Strings.Join (e :: l) "/") = e :: l.
Proof.
  revert e. induction l as [|e' l IH]; intros e Hl; apply list.Forall_cons in Hl as [He Hl]; [by apply split_element|].
  change (Strings.Join (e :: e' :: l) "/") with (e +:+ "/" +:+ Strings.Join (e' :: l) "/").
  by rewrite split_app, split_element, IH.
Qed.

(** The elements joined again, with a slash before each; innermost first. *)
Definition pathOf (stack : list string) : string := foldr (λ e acc, acc +:+ "/" +:+ e) "" stack.

Lemma pathOf_app st1 st2 : pathOf (st1 ++ st2) = pathOf st2 +:+ pathOf st1.
Proof.
  unfold pathOf. induction st1 as [|e st1 IH]; cbn; [by rewrite Strings.app_nil_r|]. by rewrite IH, Strings.app_assoc.
Qed.

Lemma pathOf_split s : pathOf (reverse (Path.split s)) = "/" +:+ s.
Proof.
  induction s as [|c s IH]; [done|]. cbn [Path.split]. destruct (Ascii.eqb_spec c "/"%char) as [->|Hc].
  - by rewrite reverse_cons, pathOf_app, IH.
  - destruct (split_nonempty s) as (e & es & He). rewrite He in IH |- *. rewrite reverse_cons, pathOf_app in IH |- *.
    change (String "/"%char (e +:+ pathOf (reverse es)) = String "/"%char s) in IH. injection IH as <-. done.
Qed.

Lemma cutLast_app a e : noSlash e → Bytes.cutLast "/"%char (a +:+ "/" +:+ e) = Some (a, e).
Proof.
  intros He. assert (Hn : Bytes.cutLast "/"%char e = None).
  { unfold noSlash in He. induction e as [|c e IH]; [done|]. cbn [Bytes.forallb] in He. apply andb_prop in He as [Hc He].
    cbn [Bytes.cutLast]. rewrite IH, Ascii.eqb_sym by done. by destruct (Ascii.eqb c "/"%char). }
  induction a as [|c a IH].
  - change ("" +:+ "/" +:+ e) with (String "/"%char e). cbn [Bytes.cutLast]. by rewrite Hn.
  - rewrite Strings.app_cons. cbn [Bytes.cutLast]. by rewrite IH.
Qed.

(** The walk through the elements; [None] above the start. *)
Fixpoint walk (stack elems : list string) : option (list string) :=
  match elems with
  | [] => Some stack
  | e :: elems =>
      if e =s "." then walk stack elems
      else if e =s ".." then match stack with [] => None | _ :: stack => walk stack elems end
      else walk (e :: stack) elems
  end.

Lemma resolve_walk B stack elems stack' :
  Forall noSlash stack → Forall noSlash elems → walk stack elems = Some stack' →
  foldl resolveElem ("/" +:+ B +:+ pathOf stack, false) elems = ("/" +:+ B +:+ pathOf stack', false).
Proof.
  intros Hs Hl. revert stack Hs. induction Hl as [|e elems He Hl IH]; intros stack Hs; cbn [walk foldl]; [by intros [= ->]|].
  unfold resolveElem at 2. case_if; [by apply IH|]. case_if.
  - destruct Hs as [|e' stack He' Hs]; [done|]. intros Hw. change (Strings.drop 1 ("/" +:+ ?x)) with x. cbn [pathOf foldr].
    change (foldr (λ e acc, acc +:+ "/" +:+ e) "" stack) with (pathOf stack).
    rewrite <- (Strings.app_assoc B), cutLast_app by done. by apply IH.
  - intros Hw. rewrite <- (IH (e :: stack)) by (done || by constructor). cbn [pathOf foldr].
    change (foldr (λ e acc, acc +:+ "/" +:+ e) "" stack) with (pathOf stack). f_equal. f_equal.
    by rewrite !Strings.app_assoc.
Qed.

(** ** Paths that are escaped already *)

Lemma unescape_cons c s : unescape (String c s) encodePath =
  if Ascii.eqb c "%"%char then
    match s with
    | String h (String l r) =>
        match Bytes.unhex h, Bytes.unhex l, unescape r encodePath with
        | Some h, Some l, Some r => Some (String (Ascii.ascii_of_nat (16 * h + l)) r)
        | _, _, _ => None
        end
    | _ => None
    end
  else match unescape s encodePath with Some r => Some (String c r) | None => None end.
Proof. by destruct c as [[] [] [] [] [] [] [] []]. Qed.

Lemma unescape_app a b x y :
  unescape a encodePath = Some x → unescape b encodePath = Some y → unescape (a +:+ b) encodePath = Some (x +:+ y).
Proof.
  intros Ha Hb. revert x Ha. assert (Hn : ∃ n, (String.length a < n)%nat) by (eexists; apply Nat.lt_succ_diag_r).
  destruct Hn as [n Hn]. revert a Hn. induction n as [|n IH]; intros a Hn x; [lia|]. destruct a as [|c a]; [by intros [= <-]|].
  cbn in Hn. rewrite Strings.app_cons, !unescape_cons. destruct (Ascii.eqb c "%"%char).
  - destruct a as [|h [|l r]]; [done..|]. rewrite !Strings.app_cons. destruct (Bytes.unhex h); [|done]. destruct (Bytes.unhex l); [|done].
    destruct (unescape r encodePath) as [z|] eqn:Hr; [|done]. intros [= <-]. cbn in Hn.
    by rewrite (IH r ltac:(lia) z Hr).
  - destruct (unescape a encodePath) as [z|] eqn:Hr; [|done]. intros [= <-]. by rewrite (IH a ltac:(lia) z Hr).
Qed.

(** What a path that has been set reads back as. *)
Lemma EscapedPath_set u p path raw :
  setEscaped encodePath p = Some (path, raw) → validEncoded p encodePath = true → p ≠ "" → p ≠ "%2A" →
  EscapedPath (with_path u path raw) = p.
Proof.
  unfold setEscaped. intros Hs Hv Hne Hstar. destruct (unescape p encodePath) as [path'|] eqn:Hp; [|done].
  injection Hs as -> <-. unfold EscapedPath. cbn [URL.RawPath URL.Path with_path].
  destruct (String.eqb_spec p (escape path encodePath)) as [He|_].
  - cbn. destruct (String.eqb_spec path "*") as [->|]; [|done]. by rewrite He in Hstar.
  - by rewrite (proj2 (String.eqb_neq _ _) Hne), Hv, Hp, String.eqb_refl.
Qed.

(** The bytes of an escaped segment, and of a path of such segments. *)
Definition escapedByte (c : ascii) : bool := segmentByte c || Ascii.eqb c "%"%char.
Definition pathByte (c : ascii) : bool := escapedByte c || Ascii.eqb c "/"%char.

(** A segment as it occurs in a URL. *)
Definition escapedSegment (s : string) : Prop :=
  Bytes.forallb escapedByte s = true ∧ is_Some (unescape s encodePath).

Lemma escapedByte_noSlash c : escapedByte c = true → negb (Ascii.eqb c "/"%char) = true.
Proof. by destruct c as [[] [] [] [] [] [] [] []]. Qed.
Lemma escapedByte_path c : escapedByte c = true → pathByte c = true.
Proof. unfold pathByte. by intros ->. Qed.
Lemma pathByte_valid c : pathByte c = true → (Bytes.mem c "!$&'()*+,;=:@[]%" || negb (shouldEscape c encodePath)) = true.
Proof. by destruct c as [[] [] [] [] [] [] [] []]. Qed.
Lemma pathByte_plain c : pathByte c = true →
  negb (Ascii.eqb c "?"%char) && negb (Ascii.eqb c "#"%char) && negb ((Bytes.code c <? 32) || (Bytes.code c =? 127))%nat = true.
Proof. by destruct c as [[] [] [] [] [] [] [] []]. Qed.

Definition escapedPath (s : string) : Prop := Bytes.forallb pathByte s = true ∧ is_Some (unescape s encodePath).

Lemma escapedPath_app a b : escapedPath a → escapedPath b → escapedPath (a +:+ b).
Proof.
  intros [Ha [x Hx]] [Hb [y Hy]]. split; [by rewrite forallb_app, Ha, Hb|]. eexists. by apply unescape_app.
Qed.

Lemma escapedSegment_path s : escapedSegment s → escapedPath s.
Proof. intros [Hs Hu]. split; [|done]. eapply forallb_impl; [apply escapedByte_path|done]. Qed.

Lemma escapedSegment_noSlash s : escapedSegment s → noSlash s.
Proof. intros [Hs _]. eapply forallb_impl; [apply escapedByte_noSlash|done]. Qed.

Lemma escapedPath_join segs : Forall escapedSegment segs → escapedPath (Strings.Join segs "/").
Proof.
  induction segs as [|e [|e' segs] IH]; intros Hs; [by split; [|eexists]|by apply escapedSegment_path; inversion Hs|].
  apply list.Forall_cons in Hs as [He Hs]. change (Strings.Join (e :: e' :: segs) "/") with (e +:+ ("/" +:+ Strings.Join (e' :: segs) "/")).
  apply escapedPath_app; [by apply escapedSegment_path|]. apply escapedPath_app; [by split; [|eexists]|]. by apply IH.
Qed.

Lemma unhex_upperhex n : (n < 16)%nat → Bytes.unhex (Bytes.upperhex n) = Some n.
Proof. intros Hn. do 16 (destruct n as [|n]; [reflexivity|]). lia. Qed.

Lemma escapedByte_upperhex n : (n < 16)%nat → escapedByte (Bytes.upperhex n) = true.
Proof. intros Hn. do 16 (destruct n as [|n]; [reflexivity|]). lia. Qed.

Lemma PathEscape_segment s : escapedSegment (PathEscape s) ∧ unescape (PathEscape s) encodePath = Some s.
Proof.
  assert (H : Bytes.forallb escapedByte (PathEscape s) = true ∧ unescape (PathEscape s) encodePath = Some s).
  { induction s as [|c s [IH1 IH2]]; [done|]. cbn [PathEscape]. destruct (segmentByte c) eqn:Hc.
    - split; [cbn; unfold escapedByte at 1; by rewrite Hc|]. rewrite unescape_cons, IH2.
      destruct (Ascii.eqb_spec c "%"%char) as [->|]; [discriminate Hc|done].
    - assert (Hcode : (Bytes.code c < 256)%nat) by apply Ascii.nat_ascii_bounded.
      assert ((Bytes.code c / 16 < 16)%nat) by (apply Nat.Div0.div_lt_upper_bound; lia).
      assert ((Bytes.code c mod 16 < 16)%nat) by (apply Nat.mod_upper_bound; lia).
      split.
      + cbn [Bytes.forallb]. rewrite !escapedByte_upperhex, IH1 by done. done.
      + rewrite unescape_cons. cbn [Ascii.eqb]. change (Ascii.eqb "%" "%") with true. cbv iota.
        rewrite !unhex_upperhex, IH2 by done. f_equal. f_equal.
        rewrite <- (Nat.div_mod_eq (Bytes.code c) 16). apply Ascii.ascii_nat_embedding. }
  split; [|apply H]. split; [apply H|]. exists s. apply H.
Qed.

(** ** A relative path against a base URL *)

Lemma index_absent d s : Bytes.forallb (λ c, negb (Ascii.eqb c d)) s = true → String.index 0 (String d "") s = None.
Proof.
  induction s as [|c s IH]; [done|]. cbn. intros [Hc Hs]%andb_prop. rewrite IH by done.
  destruct (ascii_dec d c) as [->|]; [|done]. by rewrite Ascii.eqb_refl in Hc.
Qed.

Lemma Cut_absent d s : Bytes.forallb (λ c, negb (Ascii.eqb c d)) s = true → Strings.Cut s (String d "") = (s, "", false).
Proof. intros Hs. unfold Strings.Cut. by rewrite index_absent. Qed.

Lemma CountByte_absent d s : Bytes.forallb (λ c, negb (Ascii.eqb c d)) s = true → Strings.CountByte d s = 0%nat.
Proof.
  induction s as [|c s IH]; [done|]. cbn. intros [Hc Hs]%andb_prop. rewrite Ascii.eqb_sym.
  destruct (Ascii.eqb c d); [done|]. by apply IH.
Qed.

Lemma Cut_dot p : Strings.Cut ("./" +:+ p) "/" = (".", p, true).
Proof. by destruct p. Qed.

(** The parse of [./] and a path. *)
Lemma parse_relative p : escapedPath p → ∃ path raw,
  setEscaped encodePath ("./" +:+ p) = Some (path, raw) ∧
  url_Parse ("./" +:+ p) = Some (URL.mk "" "" None "" path raw false false "" "" "") ∧ path ≠ "".
Proof.
  intros [Hb Hu]. assert (Hp : escapedPath ("./" +:+ p)) by (apply escapedPath_app; [by split; [|eexists]|done]).
  destruct Hp as [Hb' [x Hx]].
  assert (∀ q, (∀ c, pathByte c = true → q c = true) → Bytes.forallb q ("./" +:+ p) = true) as Hq
    by (intros q Hi; by eapply forallb_impl).
  assert (Hquestion : Bytes.forallb (λ c, negb (Ascii.eqb c "?"%char)) ("./" +:+ p) = true)
    by (apply Hq; intros c Hc; apply pathByte_plain in Hc; by destruct (Ascii.eqb c "?"%char)).
  assert (Hhash : Bytes.forallb (λ c, negb (Ascii.eqb c "#"%char)) ("./" +:+ p) = true).
  { apply Hq. intros c Hc%pathByte_plain. destruct (Ascii.eqb c "#"%char); [|done]. by rewrite andb_false_r in Hc. }
  assert (Hctl : containsCTL ("./" +:+ p) = false).
  { unfold containsCTL. rewrite Hq; [done|]. intros c Hc%pathByte_plain. by apply andb_prop in Hc as [_ ?]. }
  assert (Hset : ∃ raw, setEscaped encodePath ("./" +:+ p) = Some (x, raw)).
  { unfold setEscaped. rewrite Hx. by eexists. }
  destruct Hset as [raw Hset]. exists x, raw. split; [done|]. split.
  - assert (Hparse : parse ("./" +:+ p) = Some (URL.mk "" "" None "" x raw false false "" "" "")).
    { unfold parse. rewrite Hctl. change ("./" +:+ p =s "*") with false. cbv iota.
      change (getScheme ("./" +:+ p)) with (Some ("", "./" +:+ p)). cbn [mbind option_bind].
      rewrite CountByte_absent, andb_false_r, Cut_absent by done. cbv iota beta zeta.
      change (Strings.HasPrefix ("./" +:+ p) "/") with false. change (Strings.HasPrefix ("./" +:+ p) "//") with false.
      rewrite Cut_dot, Hset. reflexivity. }
    unfold url_Parse. rewrite Cut_absent by done. by rewrite Hparse.
  - change ("./" +:+ p) with (String "." ("/" +:+ p)) in Hx. rewrite unescape_cons in Hx.
    change (Ascii.eqb "." "%") with false in Hx. cbv iota in Hx. destruct (unescape ("/" +:+ p) encodePath); [by injection Hx as <-|done].
Qed.

(** ** Parsing a longer path *)

Lemma getScheme_extend raw first acc x y p scheme rest :
  getScheme_go raw first acc (x +:+ "/" +:+ y) = Some (scheme, rest) →
  getScheme_go (raw +:+ p) first acc ((x +:+ "/" +:+ y) +:+ p) = Some (scheme, rest +:+ p).
Proof.
  revert first acc. induction x as [|c x IH]; intros first acc.
  - by intros [= <- <-].
  - rewrite !Strings.app_cons. cbn [getScheme_go]. case_if; [apply IH|]. case_if; [case_if; [by intros [= <- <-]|apply IH]|].
    case_if; [case_if; [done|]|by intros [= <- <-]]. by intros [= <- <-].
Qed.

Lemma Cut_cons d c s : Strings.Cut (String c s) (String d "") =
  if Ascii.eqb c d then ("", s, true) else let '(a, b, found) := Strings.Cut s (String d "") in (String c a, b, found).
Proof.
  unfold Strings.Cut. cbn [String.index String.prefix]. destruct (ascii_dec d c) as [<-|Hc].
  - rewrite Ascii.eqb_refl. by destruct s.
  - destruct (Ascii.eqb_spec c d) as [->|_]; [done|]. by destruct (String.index 0 (String d "") s).
Qed.
Lemma Cut_extend s a b p : Strings.Cut s "/" = (a, b, true) → Strings.Cut (s +:+ p) "/" = (a, b +:+ p, true).
Proof.
  revert a b. induction s as [|c s IH]; intros a b; [done|]. rewrite Strings.app_cons, !Cut_cons.
  destruct (Ascii.eqb c "/"%char); [by intros [= <- <-]|].
  destruct (Strings.Cut s "/") as [[a' b'] []] eqn:E; [|done]. intros [= <- <-]. by rewrite (IH a' b' eq_refl).
Qed.

Lemma Cut_short s a b : Strings.Cut s "/" = (a, b, true) → (String.length a ≤ String.length s)%nat.
Proof.
  revert a b. induction s as [|c s IH]; intros a b; [done|]. rewrite Cut_cons.
  destruct (Ascii.eqb c "/"%char); [intros [= <- <-]; cbn; lia|].
  destruct (Strings.Cut s "/") as [[a' b'] []] eqn:E; [|done]. intros [= <- <-]. cbn. specialize (IH a' b' eq_refl). lia.
Qed.

Lemma Cut_not_found s a b : Strings.Cut s "/" = (a, b, false) → a = s.
Proof. unfold Strings.Cut. destruct (String.index 0 "/" s); congruence. Qed.

Lemma drop_extend n s p : (n ≤ String.length s)%nat → Strings.drop n (s +:+ p) = Strings.drop n s +:+ p.
Proof. revert s. induction n as [|n IH]; intros [|c s]; cbn; intros Hn; try done; [lia|]. apply IH. lia. Qed.

Lemma drop_all s : Strings.drop (String.length s) s = "".
Proof. by induction s. Qed.

Lemma setEscaped_extend s p path raw : setEscaped encodePath s = Some (path, raw) → escapedPath p →
  ∃ path' raw', setEscaped encodePath (s +:+ p) = Some (path', raw').
Proof.
  unfold setEscaped. destruct (unescape s encodePath) as [x|] eqn:Hx; [|done]. intros _ [_ [y Hy]].
  rewrite (unescape_app _ _ _ _ Hx Hy). by eexists _, _.
Qed.

Definition queryFree (s : string) : Prop :=
  Bytes.forallb (λ c, negb (Ascii.eqb c "?"%char) && negb (Ascii.eqb c "#"%char)) s = true.

Lemma escapedPath_queryFree p : escapedPath p → queryFree p.
Proof.
  intros [Hp _]. eapply forallb_impl; [|exact Hp]. intros c Hc%pathByte_plain. by apply andb_prop in Hc as [? _].
Qed.

Lemma escapedPath_noCTL p : escapedPath p → containsCTL p = false.
Proof.
  intros [Hp _]. unfold containsCTL. erewrite forallb_impl; [done| |exact Hp]. intros c Hc%pathByte_plain. by apply andb_prop in Hc as [_ ?].
Qed.

Lemma queryFree_cut s : queryFree s → Strings.Cut s "?" = (s, "", false) ∧ Strings.Cut s "#" = (s, "", false) ∧ Strings.CountByte "?"%char s = 0%nat.
Proof.
  intros Hs. assert (H1 : Bytes.forallb (λ c, negb (Ascii.eqb c "?"%char)) s = true).
  { eapply forallb_impl; [|exact Hs]. by intros c [? _]%andb_prop. }
  assert (H2 : Bytes.forallb (λ c, negb (Ascii.eqb c "#"%char)) s = true).
  { eapply forallb_impl; [|exact Hs]. by intros c [_ ?]%andb_prop. }
  split; [by apply Cut_absent|]. split; [by apply Cut_absent|]. by apply CountByte_absent.
Qed.

Lemma getScheme_suffix raw first acc s scheme rest :
  getScheme_go raw first acc s = Some (scheme, rest) → rest = raw ∨ ∃ z, s = z +:+ rest.
Proof.
  revert first acc. induction s as [|c s IH]; intros first acc; cbn [getScheme_go]; [intros [= <- <-]; by left|].
  assert (Hrec : ∀ acc, getScheme_go raw false acc s = Some (scheme, rest) → rest = raw ∨ ∃ z, String c s = z +:+ rest).
  { intros acc' [->|[z ->]]%IH; [by left|]. right. by exists (String c z). }
  case_if; [apply Hrec|]. case_if; [case_if; [intros [= <- <-]; by left|apply Hrec]|].
  case_if; [case_if; [done|]|intros [= <- <-]; by left]. intros [= <- <-]. right. by exists (String c "").
Qed.

Lemma queryFree_suffix z s : queryFree (z +:+ s) → queryFree s.
Proof. unfold queryFree. rewrite forallb_app. by intros [_ ?]%andb_prop. Qed.

Lemma queryFree_app a b : queryFree a → queryFree b → queryFree (a +:+ b).
Proof. unfold queryFree. rewrite forallb_app. by intros -> ->. Qed.

Lemma slash_not_star x y : (x +:+ "/" +:+ y =s "*") = false.
Proof. apply String.eqb_neq. destruct x as [|c [|d x]]; [done|done|done]. Qed.

(** A URL with a host and a path, and a longer path. *)
Lemma parse_extend x y p u :
  parse (x +:+ "/" +:+ y) = Some u → URL.Host u ≠ "" → EscapedPath u ≠ "" →
  queryFree (x +:+ "/" +:+ y) → escapedPath p → ∃ v, parse ((x +:+ "/" +:+ y) +:+ p) = Some v.
Proof.
  set (s := x +:+ "/" +:+ y). intros Hparse Hhost Hpath Hs Hp. unfold parse in Hparse |- *.
  destruct (containsCTL s) eqn:Hctl; [done|]. assert (containsCTL (s +:+ p) = false) as ->.
  { pose proof (escapedPath_noCTL p Hp) as Hpc. unfold containsCTL in *. rewrite forallb_app, negb_andb, Hctl. done. }
  assert (s +:+ p =s "*" = false) as -> by (unfold s; rewrite !Strings.app_assoc; apply slash_not_star).
  unfold s in Hparse at 1. rewrite slash_not_star in Hparse.
  unfold getScheme in *. destruct (getScheme_go s true "" s) as [[scheme rest]|] eqn:Hsch; [|done].
  rewrite (getScheme_extend s true "" x y p scheme rest Hsch : getScheme_go (s +:+ p) true "" (s +:+ p) = _). cbn [mbind option_bind] in *.
  assert (Hr : queryFree rest).
  { destruct (getScheme_suffix _ _ _ _ _ _ Hsch) as [->|[z Hz]]; [done|]. rewrite Hz in Hs. by eapply queryFree_suffix. }
  destruct (queryFree_cut _ Hr) as (Hcut & _ & Hcount).
  destruct (queryFree_cut _ (queryFree_app _ _ Hr (escapedPath_queryFree p Hp))) as (Hcut' & _ & Hcount').
  rewrite Hcount', andb_false_r, Hcut'. rewrite Hcount, andb_false_r, Hcut in Hparse. clear Hcut Hcut' Hcount Hcount'.
  destruct (negb (Strings.HasPrefix rest "/") && _) eqn:Hop; [by injection Hparse as <-|].
  destruct (negb (Strings.HasPrefix rest "/") && Strings.Contains _ _) eqn:Hcolon; [done|].
  destruct (((Strings.ToLower scheme ≠s "") || _) && _) eqn:Hauth; [|].
  2:{ destruct (setEscaped encodePath rest) as [[pp raw]|]; [|done]. by injection Hparse as <-. }
  apply andb_prop in Hauth as [Htriple [a ->]%Strings.HasPrefix_spec].
  change (Strings.drop 2 ("//" +:+ a)) with a in Hparse.
  destruct (Strings.Cut a "/") as [[authority tail] found] eqn:Ha.
  destruct (parseAuthority authority) as [[user host]|] eqn:Hpa; [|done]. cbn [mbind option_bind] in Hparse.
  destruct (setEscaped encodePath (Strings.drop (String.length authority) a)) as [[pp raw]|] eqn:Hset; [|done].
  injection Hparse as <-. destruct found.
  2:{ apply Cut_not_found in Ha as ->. rewrite drop_all in Hset. by injection Hset as <- <-. }
  assert (Hne : ∃ c t, a = String c t) by (destruct a; [done|by eexists _, _]). destruct Hne as (c & t & ->).
  change (("//" +:+ String c t) +:+ p) with ("//" +:+ String c (t +:+ p)).
  change (Strings.HasPrefix ("//" +:+ String c (t +:+ p)) "/") with true. change (Strings.HasPrefix ("//" +:+ String c (t +:+ p)) "//") with true.
  assert (Strings.HasPrefix ("//" +:+ String c (t +:+ p)) "///" = Strings.HasPrefix ("//" +:+ String c t) "///") as -> by (cbn; by destruct (ascii_dec "/" c), t, p).
  rewrite Htriple. cbn [negb andb]. change (Strings.drop 2 ("//" +:+ ?z)) with z.
  pose proof (Cut_short _ _ _ Ha) as Hlen. apply (Cut_extend _ _ _ p) in Ha. rewrite Strings.app_cons in Ha. rewrite Ha, Hpa. cbn [mbind option_bind].
  rewrite <- Strings.app_cons, drop_extend by done.
  destruct (setEscaped_extend _ p _ _ Hset Hp) as (path' & raw' & ->). by eexists.
Qed.

Lemma url_Parse_extend s p u :
  url_Parse s = Some u → URL.Host u ≠ "" → EscapedPath u ≠ "" → (∃ x, s = x +:+ "/") → queryFree s → escapedPath p →
  is_Some (url_Parse (s +:+ p)).
Proof.
  intros Hs Hhost Hpath [x ->] Hq Hp. unfold url_Parse in *.
  destruct (queryFree_cut _ Hq) as (_ & Hcut & _). rewrite Hcut in Hs.
  destruct (queryFree_cut _ (queryFree_app _ _ Hq (escapedPath_queryFree p Hp))) as (_ & -> & _).
  destruct (parse (x +:+ "/")) as [u'|] eqn:Hparse; [|done]. injection Hs as ->.
  destruct (parse_extend x "" p u Hparse Hhost Hpath Hq Hp) as [v Hv]. change (x +:+ "/" +:+ "") with (x +:+ "/") in Hv.
  rewrite Hv. by eexists.
Qed.

(** ** Paths below a base URL *)

(** A base URL in normal form, below a host: it is its own text, without query
    and fragment, and its path ends in a slash and has no dots to resolve. *)
Definition plainBase (server : string) : Prop :=
  match url_Parse server with
  | Some u =>
      URL_String u = server ∧ URL.Opaque u = "" ∧ URL.Host u ≠ "" ∧ URL.ForceQuery u = false ∧ URL.RawQuery u = "" ∧
      URL.Fragment u = "" ∧ queryFree server ∧
      ∃ dir, EscapedPath u = dir +:+ "/" ∧ (dir = "" ∨ Strings.HasPrefix dir "/" = true) ∧ escapedPath dir ∧
             Forall (λ e, dotted e = false) (Path.split dir)
  | None => False
  end.

(** The text of a URL up to its path. *)
Definition originOf (u : URL.t) : string :=
  (if URL.Scheme u =s "" then "" else URL.Scheme u +:+ ":") +:+ "//" +:+
  (match URL.User u with Some ui => Userinfo_String ui +:+ "@" | None => "" end) +:+ escape (URL.Host u) encodeHost.

Lemma URL_String_origin u : URL.Opaque u = "" → URL.Host u ≠ "" → URL.Fragment u = "" →
  Strings.HasPrefix (EscapedPath u) "/" = true →
  URL_String u = originOf u +:+ EscapedPath u +:+ (if URL.ForceQuery u || (URL.RawQuery u ≠s "") then "?" +:+ URL.RawQuery u else "").
Proof.
  intros Ho Hh Hf Hp. unfold URL_String, originOf. rewrite Ho, Hf, Hp, (proj2 (String.eqb_neq _ _) Hh).
  change ("" =s "") with true. cbn [negb].
  assert (Hpre : ∀ x y z, (x +:+ ("//" +:+ y) +:+ z =s "") = false) by (by intros [] y z).
  assert (Hu : ∀ b, URL.OmitHost u && false && b = false) by (by destruct (URL.OmitHost u)).
  assert (Hs : (EscapedPath u ≠s "") && false && true = false) by (by destruct (EscapedPath u ≠s "")).
  rewrite orb_true_r, orb_true_l, Hs, Hu, orb_true_l, Hpre. cbn [orb andb].
  by rewrite !Strings.app_nil_r, !Strings.app_assoc.
Qed.

Lemma split_noSlash s : Forall noSlash (Path.split s).
Proof.
  induction s as [|c s IH]; [by repeat constructor|]. cbn [Path.split]. destruct (Ascii.eqb c "/"%char) eqn:Hc; [by constructor|].
  destruct (split_nonempty s) as (e & es & He). rewrite He in IH |- *. apply list.Forall_cons in IH as [IHe IH]. constructor; [|done].
  unfold noSlash in *. cbn. by rewrite Hc.
Qed.

Lemma dotted_not e : dotted e = false → e =s "." = false ∧ e =s ".." = false.
Proof. by intros ?%orb_false_elim. Qed.

Lemma walk_plain stack l : Forall (λ e, dotted e = false) l → walk stack l = Some (reverse l ++ stack).
Proof.
  intros Hl. revert stack. induction Hl as [|e l [H1 H2]%dotted_not _ IH]; intros stack; cbn [walk]; [done|].
  rewrite H1, H2, IH, reverse_cons. by rewrite <- (assoc (++)).
Qed.

Lemma walk_last stack l e : walk stack l = Some [] → list.last l = Some e → dotted e = true.
Proof.
  revert stack. induction l as [|x l IH]; intros stack; [done|]. destruct l as [|y l].
  - cbn. intros Hw [= ->]. unfold dotted. destruct (e =s "."); [done|]. by destruct (e =s "..").
  - intros Hw Hl. change (list.last (x :: y :: l)) with (list.last (y :: l)) in Hl. 
    change (walk stack (x :: y :: l)) with (if x =s "." then walk stack (y :: l) else if x =s ".."
      then match stack with [] => None | _ :: stack => walk stack (y :: l) end else walk (x :: stack) (y :: l)) in Hw.
    destruct (x =s "."); [by eapply IH|]. destruct (x =s ".."); [destruct stack; [done|]|]; by eapply IH.
Qed.

Lemma walk_Forall (P : string → Prop) stack l stack' : Forall P stack → Forall P l → walk stack l = Some stack' → Forall P stack'.
Proof.
  intros Hs Hl. revert stack Hs. induction Hl as [|e l He Hl IH]; intros stack Hs; cbn [walk]; [by intros [= <-]|].
  case_if; [by apply IH|]. case_if; [|by apply IH; constructor]. destruct Hs; [done|]. by apply IH.
Qed.

Lemma pathOf_slash stack : stack ≠ [] → ∃ r, pathOf stack = "/" +:+ r.
Proof.
  induction stack as [|e stack IH]; [done|]. intros _. cbn [pathOf foldr].
  change (foldr (λ e acc, acc +:+ "/" +:+ e) "" stack) with (pathOf stack). destruct stack as [|e' stack]; [by exists e|].
  destruct IH as [r ->]; [done|]. by eexists.
Qed.

Lemma pathOf_escaped stack : Forall escapedSegment stack → escapedPath (pathOf stack).
Proof.
  induction 1 as [|e stack He _ IH]; [by split; [|eexists]|]. cbn [pathOf foldr].
  change (foldr (λ e acc, acc +:+ "/" +:+ e) "" stack) with (pathOf stack). apply escapedPath_app; [done|].
  apply escapedPath_app; [by split; [|eexists]|by apply escapedSegment_path].
Qed.

(** The elements of the directory of a base. *)
Lemma split_dir dir : dir = "" ∨ Strings.HasPrefix dir "/" = true →
  ∃ es, Path.split dir = "" :: es ∧ pathOf (reverse es) = dir.
Proof.
  intros Hd. assert (∃ es, Path.split dir = "" :: es) as [es He].
  { destruct Hd as [->|[t ->]%Strings.HasPrefix_spec]; [by exists []|]. by eexists. }
  exists es. split; [done|]. pose proof (pathOf_split dir) as Hp. rewrite He, reverse_cons, pathOf_app in Hp.
  by injection Hp as Hp.
Qed.

(** What the resolved path adds to the directory. *)
Definition suffixOf (segs stack : list string) : string :=
  pathOf stack +:+ (if dotted (default "" (list.last segs)) then "/" else "").

Lemma suffixOf_slash segs stack : segs ≠ [] → walk [] segs = Some stack → ∃ r, suffixOf segs stack = "/" +:+ r.
Proof.
  intros Hne Hw. unfold suffixOf. destruct stack as [|e stack].
  - destruct (list.last segs) as [e|] eqn:Hl; [|by apply list.last_None in Hl]. cbn. rewrite (walk_last _ _ _ Hw Hl). by exists "".
  - destruct (pathOf_slash (e :: stack)) as [r ->]; [done|]. by eexists.
Qed.

Lemma resolvePath_below dir segs stack :
  dir = "" ∨ Strings.HasPrefix dir "/" = true → Forall (λ e, dotted e = false) (Path.split dir) →
  segs ≠ [] → Forall noSlash segs → walk [] segs = Some stack →
  resolvePath (dir +:+ "/") ("./" +:+ Strings.Join segs "/") = dir +:+ suffixOf segs stack.
Proof.
  intros Hd Hdots Hne Hs Hw. destruct (split_dir dir Hd) as (es & He & Hes).
  destruct segs as [|s segs]; [done|]. set (p := Strings.Join (s :: segs) "/").
  assert (Hfull : upToSlash (dir +:+ "/") +:+ "./" +:+ p = dir +:+ "/" +:+ "." +:+ "/" +:+ p).
  { unfold upToSlash. change (dir +:+ "/") with (dir +:+ "/" +:+ ""). rewrite cutLast_app by done. by rewrite !Strings.app_assoc. }
  assert (Hsplit : Path.split (dir +:+ "/" +:+ "." +:+ "/" +:+ p) = "" :: es ++ "." :: s :: segs).
  { rewrite !split_app, He. unfold p. by rewrite split_join. }
  unfold resolvePath. change ("./" +:+ p =s "") with false. change (Strings.HasPrefix ("./" +:+ p) "/") with false. cbv iota.
  rewrite Hfull. assert (dir +:+ "/" +:+ "." +:+ "/" +:+ p =s "" = false) as -> by (by destruct dir).
  rewrite Hsplit. cbn [foldl]. change (resolveElem ("/", true) "") with ("/" +:+ "" +:+ pathOf [], false).
  assert (Hes' : Forall noSlash es ∧ Forall (λ e, dotted e = false) es).
  { pose proof (split_noSlash dir) as Hn. rewrite He in Hn, Hdots. by apply list.Forall_cons in Hn as [_ ?], Hdots as [_ ?]. }
  rewrite foldl_app, (resolve_walk "" [] es (reverse es)); [|done|apply Hes'|by rewrite walk_plain, app_nil_r by apply Hes'].
  rewrite Hes. 
  assert (("/" +:+ "" +:+ dir, false) = ("/" +:+ dir +:+ pathOf [], false)) as -> by (cbn [pathOf foldr]; by rewrite Strings.app_nil_r).
  rewrite (resolve_walk dir [] ("." :: s :: segs) stack); [|done|by constructor|done].
  assert (list.last ("" :: es ++ "." :: s :: segs) = list.last (s :: segs)) as ->.
  { change ("" :: es ++ "." :: s :: segs) with (("" :: es) ++ ["."] ++ s :: segs). by rewrite (assoc (++)), list.last_app_cons. }
  destruct (suffixOf_slash (s :: segs) stack) as [r Hr]; [done|done|].
  set (dst := if _ || _ then _ else _). assert (Hdst : dst = "/" +:+ dir +:+ suffixOf (s :: segs) stack).
  { unfold dst, suffixOf, dotted. case_if; by rewrite ?Strings.app_assoc, ?Strings.app_nil_r. }
  rewrite Hdst. assert (Strings.HasPrefix ("/" +:+ dir +:+ suffixOf (s :: segs) stack) "//" = true) as ->; [|done].
  rewrite Hr. apply Strings.HasPrefix_spec. destruct Hd as [->|[t ->]%Strings.HasPrefix_spec]; by eexists.
Qed.

Definition with_RawQuery (u : URL.t) (q : string) : URL.t :=
  URL.mk (URL.Scheme u) (URL.Opaque u) (URL.User u) (URL.Host u) (URL.Path u) (URL.RawPath u) (URL.OmitHost u)
    (URL.ForceQuery u) q (URL.Fragment u) (URL.RawFragment u).

Definition withQuery (q : string) : string := if q ≠s "" then "?" +:+ q else "".

(** Resolved against a plain base, a path of escaped segments that never climbs
    above its start stays below the base; it is appended as it is when it has
    no dots. *)
Lemma resolve_below server segs stack :
  plainBase server → segs ≠ [] → Forall escapedSegment segs → walk [] segs = Some stack →
  ∃ u v rest, url_Parse server = Some u ∧ URL_Parse u ("./" +:+ Strings.Join segs "/") = Some v ∧ URL.RawQuery v = "" ∧
    (∀ q, URL_String (with_RawQuery v q) = server +:+ rest +:+ withQuery q) ∧
    (Forall (λ e, dotted e = false) segs → rest = Strings.Join segs "/").
Proof.
  intros Hbase Hne Hs Hw. unfold plainBase in Hbase. destruct (url_Parse server) as [u|] eqn:Hserver; [|done].
  destruct Hbase as (Hstr & Ho & Hh & Hfq & Hq & Hf & Hqf & dir & Hdir & Hd & Hesc & Hdots). exists u.
  pose proof (escapedPath_join segs Hs) as Hp. destruct (parse_relative _ Hp) as (path & raw & Hset & Href & Hpath).
  assert (Hns : Forall noSlash segs) by (eapply list.Forall_impl; [exact Hs|apply escapedSegment_noSlash]).
  destruct (suffixOf_slash segs stack) as [rest Hrest]; [done..|].
  assert (Hfull : escapedPath (dir +:+ "/" +:+ rest)).
  { rewrite <- Hrest. apply escapedPath_app; [done|]. unfold suffixOf. apply escapedPath_app.
    - apply pathOf_escaped. by apply (walk_Forall _ [] segs).
    - case_if; by split; [|eexists]. }
  destruct (proj2 Hfull) as [full Hfullu]. set (rawFull := if dir +:+ "/" +:+ rest =s escape full encodePath then "" else dir +:+ "/" +:+ rest).
  assert (Hsetf : setEscaped encodePath (dir +:+ "/" +:+ rest) = Some (full, rawFull)) by (unfold setEscaped; by rewrite Hfullu).
  exists (URL.mk (URL.Scheme u) "" (URL.User u) (URL.Host u) full rawFull false false "" "" ""), rest.
  assert (Hslash : Strings.HasPrefix (dir +:+ "/" +:+ rest) "/" = true).
  { apply Strings.HasPrefix_spec. destruct Hd as [->|[t ->]%Strings.HasPrefix_spec]; by eexists. }
  split; [done|]. split; [|split; [done|split]].
  - unfold URL_Parse. rewrite Href. cbn [fmap option_fmap option_map]. unfold ResolveReference. cbn.
    rewrite (proj2 (String.eqb_neq path "") Hpath). cbn.
    assert (EscapedPath (URL.mk "" "" None "" path raw false false "" "" "") = "./" +:+ Strings.Join segs "/") as Hep.
    { apply (EscapedPath_set (URL.mk "" "" None "" "" "" false false "" "" "") _ _ _ Hset); [|done|done].
      destruct (escapedPath_app "./" (Strings.Join segs "/")) as [Hb _]; [by split; [|eexists]|done|].
      eapply forallb_impl; [apply pathByte_valid|exact Hb]. }
    change (EscapedPath (URL.mk "" "" None "" path raw false false "" "" "") = String "." (String "/" (Strings.Join segs "/"))) in Hep.
    rewrite Hep. rewrite Hdir. change (String "." (String "/" ?x)) with ("./" +:+ x).
    rewrite (resolvePath_below dir segs stack) by done. rewrite Hrest. unfold setPath. by rewrite Hsetf.
  - intros q. assert (Hep : EscapedPath (URL.mk (URL.Scheme u) "" (URL.User u) (URL.Host u) full rawFull false false q "" "") = dir +:+ "/" +:+ rest).
    { apply (EscapedPath_set (URL.mk (URL.Scheme u) "" (URL.User u) (URL.Host u) "" "" false false q "" "") _ _ _ Hsetf);
        [eapply forallb_impl; [apply pathByte_valid|apply Hfull]|by destruct dir|]. intros E. by rewrite E in Hslash. }
    unfold with_RawQuery. cbn -[URL_String EscapedPath]. rewrite URL_String_origin; [|done..|by rewrite Hep].
    rewrite Hep. rewrite <- Hstr. rewrite (URL_String_origin u) by (done || rewrite Hdir; destruct Hd as [->|[t ->]%Strings.HasPrefix_spec]; apply Strings.HasPrefix_spec; by eexists).
    rewrite Hdir, Hfq, Hq. unfold originOf, withQuery. cbn -[String.append]. by rewrite !Strings.app_nil_r, !Strings.app_assoc.
  - intros Hnd. pose proof (walk_plain [] segs Hnd) as Hw'. rewrite Hw, app_nil_r in Hw'. injection Hw' as ->.
    unfold suffixOf in Hrest. destruct segs as [|s segs]; [done|].
    assert (dotted (default "" (list.last (s :: segs))) = false) as Hlast.
    { destruct (list.last (s :: segs)) as [e|] eqn:Hl; [|done]. rewrite list.Forall_forall in Hnd. apply Hnd. by apply list.last_Some_elem_of. }
    rewrite Hlast, Strings.app_nil_r in Hrest. pose proof (pathOf_split (Strings.Join (s :: segs) "/")) as Hps.
    rewrite split_join, Hrest in Hps by done. by injection Hps.
Qed.

Lemma plainBase_slash server : plainBase server → queryFree server ∧ ∃ x, server = x +:+ "/".
Proof.
  unfold plainBase. destruct (url_Parse server) as [u|] eqn:Hserver; [|done].
  intros (Hstr & Ho & Hh & Hfq & Hq & Hf & Hqf & dir & Hdir & Hd & _). split; [done|].
  exists (originOf u +:+ dir). rewrite <- Hstr, (URL_String_origin u); [|done..|].
  - rewrite Hdir, Hfq, Hq. cbn -[String.append]. by rewrite Strings.app_nil_r, !Strings.app_assoc.
  - rewrite Hdir. destruct Hd as [->|[t ->]%Strings.HasPrefix_spec]; apply Strings.HasPrefix_spec; by eexists.
Qed.

(** A path appended to a plain base gives a URL that can be parsed. *)
Lemma plainBase_parse server p : plainBase server → escapedPath p → is_Some (url_Parse (server +:+ p)).
Proof.
  intros Hb Hp. pose proof (plainBase_slash server Hb) as [Hqf Hx]. unfold plainBase in Hb.
  destruct (url_Parse server) as [u|] eqn:Hserver; [|done]. destruct Hb as (_ & _ & Hh & _ & _ & _ & _ & dir & Hdir & _).
  apply (url_Parse_extend server p u Hserver Hh); [rewrite Hdir; by destruct dir|done..].
Qed.

(** ** URLs with a query *)

(** Bytes that do not occur. *)
Definition avoids (d : ascii) (s : string) : Prop := Bytes.forallb (λ c, negb (Ascii.eqb c d)) s = true.

Lemma avoids_app d a b : avoids d a → avoids d b → avoids d (a +:+ b).
Proof. unfold avoids. rewrite forallb_app. by intros -> ->. Qed.

Lemma Cut_at d a b : avoids d a → Strings.Cut (a +:+ String d b) (String d "") = (a, b, true).
Proof.
  unfold avoids. induction a as [|c a IH]; intros Ha; [change ("" +:+ String d b) with (String d b)|rewrite Strings.app_cons];
    rewrite Cut_cons; [by rewrite Ascii.eqb_refl|].
  cbn in Ha. apply andb_prop in Ha as [Hc Ha]. destruct (Ascii.eqb c d); [done|]. by rewrite IH.
Qed.

Lemma app_suffix a q t (d : ascii) : a +:+ q = t +:+ String d "" → q ≠ "" → ∃ t', q = t' +:+ String d "".
Proof.
  revert t. induction a as [|c a IH]; intros t E Hq; [by exists t|]. destruct t as [|d' t].
  - injection E as _ E. destruct a; [|done]. change ("" +:+ q) with q in E. by subst.
  - injection E as _ E. by apply (IH t).
Qed.

Lemma HasSuffix_avoids d a q : avoids d q → q ≠ "" → Strings.HasSuffix (a +:+ q) (String d "") = false.
Proof.
  intros Ha Hq. apply not_true_iff_false. intros [t E]%Strings.HasSuffix_spec. apply app_suffix in E as [t' ->]; [|done].
  unfold avoids in Ha. rewrite forallb_app in Ha. cbn in Ha. by rewrite Ascii.eqb_refl, andb_false_r in Ha.
Qed.

(** The text of a query: no control characters and none of the separators. *)
Definition queryText (q : string) : Prop := q ≠ "" ∧ avoids "?" q ∧ avoids "#" q ∧ containsCTL q = false.

Lemma parse_query x y q u : parse (x +:+ "/" +:+ y) = Some u → queryFree (x +:+ "/" +:+ y) → queryText q →
  is_Some (parse ((x +:+ "/" +:+ y) +:+ "?" +:+ q)).
Proof.
  set (s := x +:+ "/" +:+ y). intros Hparse Hs (Hne & Hq & _ & Hc). unfold parse in Hparse |- *.
  destruct (containsCTL s) eqn:Hctl; [done|]. assert (containsCTL (s +:+ "?" +:+ q) = false) as ->.
  { unfold containsCTL in *. by rewrite !forallb_app, !negb_andb, Hctl, Hc. }
  assert (s +:+ "?" +:+ q =s "*" = false) as -> by (unfold s; rewrite !Strings.app_assoc; apply slash_not_star).
  unfold s in Hparse at 1. rewrite slash_not_star in Hparse.
  unfold getScheme in *. destruct (getScheme_go s true "" s) as [[scheme rest]|] eqn:Hsch; [|done].
  rewrite (getScheme_extend s true "" x y ("?" +:+ q) scheme rest Hsch :
    getScheme_go (s +:+ "?" +:+ q) true "" (s +:+ "?" +:+ q) = _). cbn [mbind option_bind] in *.
  assert (Hr : queryFree rest).
  { destruct (getScheme_suffix _ _ _ _ _ _ Hsch) as [->|[z Hz]]; [done|]. rewrite Hz in Hs. by eapply queryFree_suffix. }
  destruct (queryFree_cut _ Hr) as (Hcut & _ & Hcount). rewrite Hcount, andb_false_r, Hcut in Hparse.
  assert (Strings.HasSuffix (rest +:+ "?" +:+ q) "?" = false) as ->
    by (rewrite <- Strings.app_assoc; by apply HasSuffix_avoids).
  change (rest +:+ "?" +:+ q) with (rest +:+ String "?" q). rewrite Cut_at by (eapply forallb_impl; [|exact Hr]; by intros c [? _]%andb_prop).
  cbn [andb]. cbv iota beta.
  destruct (negb (Strings.HasPrefix rest "/") && _); [by eexists|]. destruct (negb (Strings.HasPrefix rest "/") && Strings.Contains _ _); [done|].
  destruct (_ && Strings.HasPrefix rest "//").
  - destruct (Strings.Cut _ "/") as [[authority tail] found]. destruct (parseAuthority authority) as [[user host]|]; [|done].
    cbn [mbind option_bind] in *. destruct (setEscaped _ _) as [[pp raw]|]; [by eexists|done].
  - destruct (setEscaped _ _) as [[pp raw]|]; [by eexists|done].
Qed.

Lemma url_Parse_query s q : is_Some (url_Parse s) → (∃ x y, s = x +:+ "/" +:+ y) → queryFree s → queryText q → is_Some (url_Parse (s +:+ "?" +:+ q)).
Proof.
  intros [u Hu] (x & y & ->) Hs Hq. unfold url_Parse in *. destruct (queryFree_cut _ Hs) as (_ & Hcut & _). rewrite Hcut in Hu.
  assert (avoids "#" ((x +:+ "/" +:+ y) +:+ "?" +:+ q)).
  { apply avoids_app; [eapply forallb_impl; [|exact Hs]; by intros c [_ ?]%andb_prop|]. apply avoids_app; [done|apply Hq]. }
  rewrite Cut_absent by done. destruct (parse (x +:+ "/" +:+ y)) as [v|] eqn:Hp; [|done].
  destruct (parse_query x y q v Hp Hs Hq) as [w ->]. by eexists.
Qed.

(** A path and a query appended to a plain base give a URL that can be parsed. *)
Lemma plainBase_parse_query server p q : plainBase server → escapedPath p → queryText q → is_Some (url_Parse (server +:+ p +:+ "?" +:+ q)).
Proof.
  intros Hb Hp Hq. destruct (plainBase_slash server Hb) as (Hqf & x & Hx). rewrite <- Strings.app_assoc. apply url_Parse_query.
  - by apply plainBase_parse.
  - exists x, p. rewrite Hx, Strings.app_assoc. done.
  - by apply queryFree_app, escapedPath_queryFree.
  - done.
Qed.
