(* ===== verification/Json.v ===== *)
(** * Package [encoding/json] as far as the sources use it

    JSON values, [Marshal] and [Unmarshal] on their texts, and the decoding of
    values into Go types.  Texts are bytes: multi-byte characters are copied
    (valid UTF-8 without the line separators U+2028 and U+2029, which Go
    escapes).  [JsonCodec] is the interface of a type that is saved and loaded;
    its law is the round trip. *)

From S2P Require Import Prelude NetUrl.
From Stdlib Require Import Ascii.

(** ** Values *)

(** Numbers are kept as literals. *)
#[local] Unset Elimination Schemes.
Inductive json :=
| JNull
| JBool (b : bool)
| JNum (lit : string)
| JStr (s : string)
| JArr (l : list json)
| JObj (l : list (string * json)).
#[local] Set Elimination Schemes.

Section json_ind.
Context (P : json → Prop).
Context (Hnull : P JNull) (Hbool : ∀ b, P (JBool b)) (Hnum : ∀ lit, P (JNum lit)) (Hstr : ∀ s, P (JStr s)).
Context (Harr : ∀ l, Forall P l → P (JArr l)) (Hobj : ∀ l, Forall (λ kv, P kv.2) l → P (JObj l)).

Fixpoint json_ind (v : json) : P v :=
  match v with
  | JNull => Hnull
  | JBool b => Hbool b
  | JNum lit => Hnum lit
  | JStr s => Hstr s
  | JArr l => Harr l ((fix go (l : list json) : Forall P l :=
                         match l with
                         | [] => Forall_nil _
                         | v :: l => Forall_cons_2 _ _ _ (json_ind v) (go l)
                         end) l)
  | JObj l => Hobj l ((fix go (l : list (string * json)) : Forall (λ kv, P kv.2) l :=
                         match l with
                         | [] => Forall_nil _
                         | kv :: l => Forall_cons_2 (λ kv, P kv.2) _ _ (json_ind kv.2) (go l)
                         end) l)
  end.
End json_ind.

(** ** Strings *)

Definition chr (n : nat) : ascii := Ascii.ascii_of_nat n.

(** The escape of one byte, as [json.Marshal] writes it. *)
Definition escapeByte (c : ascii) : string :=
  let n := Bytes.code c in
  if (n =? 34)%nat then String (chr 92) (String c "")
  else if (n =? 92)%nat then String c (String c "")
  else if (n =? 8)%nat then "\b"
  else if (n =? 9)%nat then "\t"
  else if (n =? 10)%nat then "\n"
  else if (n =? 12)%nat then "\f"
  else if (n =? 13)%nat then "\r"
  else if (n <? 32)%nat || (n =? 60)%nat || (n =? 62)%nat || (n =? 38)%nat
  then "\u00" +:+ String (Strings.hex_digit (n / 16)) (String (Strings.hex_digit (n mod 16)) "")
  else String c "".

Fixpoint escapeString (s : string) : string :=
  match s with
  | EmptyString => ""
  | String c s' => escapeByte c +:+ escapeString s'
  end.

(** The bytes of a code point. *)
Definition utf8 (n : N) : string :=
  let b := Ascii.ascii_of_N in
  if (n <? 128)%N then String (b n) ""
  else if (n <? 2048)%N then String (b (192 + n / 64)%N) (String (b (128 + n mod 64)%N) "")
  else if (n <? 65536)%N
  then String (b (224 + n / 4096)%N) (String (b (128 + n / 64 mod 64)%N) (String (b (128 + n mod 64)%N) ""))
  else String (b (240 + n / 262144)%N) (String (b (128 + n / 4096 mod 64)%N)
         (String (b (128 + n / 64 mod 64)%N) (String (b (128 + n mod 64)%N) ""))).

Definition hex4 (a b c d : ascii) : option N :=
  match Bytes.unhex a, Bytes.unhex b, Bytes.unhex c, Bytes.unhex d with
  | Some a, Some b, Some c, Some d =>
      Some (4096 * N.of_nat a + 256 * N.of_nat b + 16 * N.of_nat c + N.of_nat d)%N
  | _, _, _, _ => None
  end.

Definition highSurrogate (n : N) : bool := ((55296 <=? n) && (n <? 56320))%N.
Definition lowSurrogate (n : N) : bool := ((56320 <=? n) && (n <? 57344))%N.

(** The escapes of one letter after the backslash. *)
Definition simpleEscape (c : ascii) : option ascii :=
  let n := Bytes.code c in
  if (n =? 34)%nat || (n =? 92)%nat || (n =? 47)%nat then Some c
  else if (n =? 98)%nat then Some (chr 8)
  else if (n =? 102)%nat then Some (chr 12)
  else if (n =? 110)%nat then Some (chr 10)
  else if (n =? 114)%nat then Some (chr 13)
  else if (n =? 116)%nat then Some (chr 9)
  else None.

Definition prepend (p : string) (r : option (string * string)) : option (string * string) :=
  match r with Some (s, rest) => Some (p +:+ s, rest) | None => None end.

(** The rest of a string literal after its opening quote: its value and the
    text after the closing quote.  A lone surrogate decodes to U+FFFD. *)
Fixpoint unquote (s : string) : option (string * string) :=
  match s with
  | EmptyString => None
  | String c s' =>
      if (Bytes.code c =? 34)%nat then Some ("", s')
      else if (Bytes.code c =? 92)%nat then
        match s' with
        | String e s'' =>
            if (Bytes.code e =? 117)%nat then
              match s'' with
              | String h1 (String h2 (String h3 (String h4 t))) =>
                  match hex4 h1 h2 h3 h4 with
                  | None => None
                  | Some n =>
                      if highSurrogate n then
                        match t with
                        | String b (String u (String l1 (String l2 (String l3 (String l4 t'))))) =>
                            match hex4 l1 l2 l3 l4 with
                            | Some m =>
                                if (Bytes.code b =? 92)%nat && (Bytes.code u =? 117)%nat && lowSurrogate m
                                then prepend (utf8 (65536 + (n - 55296) * 1024 + (m - 56320))%N) (unquote t')
                                else prepend (utf8 65533) (unquote t)
                            | None => prepend (utf8 65533) (unquote t)
                            end
                        | _ => prepend (utf8 65533) (unquote t)
                        end
                      else if lowSurrogate n then prepend (utf8 65533) (unquote t)
                      else prepend (utf8 n) (unquote t)
                  end
              | _ => None
              end
            else match simpleEscape e with
                 | Some d => prepend (String d "") (unquote s'')
                 | None => None
                 end
        | EmptyString => None
        end
      else if (Bytes.code c <? 32)%nat then None
      else prepend (String c "") (unquote s')
  end.

Definition quoteString (s : string) : string := Strings.dquote +:+ escapeString s +:+ Strings.dquote.

(** ** Numbers *)

Definition numberByte (c : ascii) : bool := Bytes.isDigit c || Bytes.mem c "+-.eE".

(** The longest prefix of bytes that may occur in a number. *)
Fixpoint spanNumber (s : string) : string * string :=
  match s with
  | String c s' => if numberByte c then let '(a, b) := spanNumber s' in (String c a, b) else ("", s)
  | EmptyString => ("", "")
  end.

Fixpoint skipDigits (s : string) : string :=
  match s with
  | String c s' => if Bytes.isDigit c then skipDigits s' else s
  | EmptyString => ""
  end.

(** At least one digit, and what follows the digits. *)
Definition digits1 (s : string) : option string :=
  match s with
  | String c s' => if Bytes.isDigit c then Some (skipDigits s') else None
  | EmptyString => None
  end.

Definition afterExponent (s : string) : bool :=
  match s with
  | EmptyString => true
  | String e s' =>
      if Bytes.mem e "eE" then
        let s'' := match s' with
                   | String c r => if Bytes.mem c "+-" then r else s'
                   | EmptyString => s'
                   end in
        match digits1 s'' with Some r => r =s "" | None => false end
      else false
  end.

Definition afterFraction (s : string) : bool :=
  match s with
  | String "."%char s' => match digits1 s' with Some r => afterExponent r | None => false end
  | _ => afterExponent s
  end.

(** [isValidNumber] *)
Definition isValidNumber (s : string) : bool :=
  let s := Strings.TrimPrefix s "-" in
  match s with
  | EmptyString => false
  | String c s' =>
      if (Bytes.code c =? 48)%nat then afterFraction s'
      else if Bytes.isDigit c then afterFraction (skipDigits s')
      else false
  end.

(** ** Texts of values *)

Fixpoint print (v : json) : string :=
  match v with
  | JNull => "null"
  | JBool true => "true"
  | JBool false => "false"
  | JNum lit => lit
  | JStr s => quoteString s
  | JArr l => "[" +:+ Strings.Join (map print l) "," +:+ "]"
  | JObj l => "{" +:+ Strings.Join (map (λ kv, quoteString kv.1 +:+ ":" +:+ print kv.2) l) "," +:+ "}"
  end.

Definition isSpace (c : ascii) : bool :=
  let n := Bytes.code c in ((n =? 32) || (n =? 9) || (n =? 10) || (n =? 13))%nat.

Fixpoint skipSpace (s : string) : string :=
  match s with
  | String c s' => if isSpace c then skipSpace s' else s
  | EmptyString => ""
  end.

Definition expect (word : string) (v : json) (s : string) : option (json * string) :=
  if Strings.HasPrefix s word then Some (v, Strings.drop (String.length word) s) else None.

(** A value at the start of the text, and the rest.  Every call consumes a unit
    of fuel and, before it calls itself, a byte. *)
Fixpoint parseValue (fuel : nat) (s : string) : option (json * string) :=
  match fuel with
  | O => None
  | S fuel =>
      match skipSpace s with
      | EmptyString => None
      | String c s' =>
          if Ascii.eqb c "n" then expect "null" JNull (String c s')
          else if Ascii.eqb c "t" then expect "true" (JBool true) (String c s')
          else if Ascii.eqb c "f" then expect "false" (JBool false) (String c s')
          else if (Bytes.code c =? 34)%nat then
            match unquote s' with Some (str, rest) => Some (JStr str, rest) | None => None end
          else if Ascii.eqb c "[" then
            match skipSpace s' with
            | String "]"%char rest => Some (JArr [], rest)
            | _ => match parseElems fuel s' with Some (l, rest) => Some (JArr l, rest) | None => None end
            end
          else if Ascii.eqb c "{" then
            match skipSpace s' with
            | String "}"%char rest => Some (JObj [], rest)
            | _ => match parseMembers fuel s' with Some (l, rest) => Some (JObj l, rest) | None => None end
            end
          else let '(lit, rest) := spanNumber (String c s') in
               if isValidNumber lit then Some (JNum lit, rest) else None
      end
  end
with parseElems (fuel : nat) (s : string) : option (list json * string) :=
  match fuel with
  | O => None
  | S fuel =>
      match parseValue fuel s with
      | None => None
      | Some (v, rest) =>
          match skipSpace rest with
          | String ","%char rest =>
              match parseElems fuel rest with Some (l, rest) => Some (v :: l, rest) | None => None end
          | String "]"%char rest => Some ([v], rest)
          | _ => None
          end
      end
  end
with parseMembers (fuel : nat) (s : string) : option (list (string * json) * string) :=
  match fuel with
  | O => None
  | S fuel =>
      match skipSpace s with
      | String q s' =>
          if (Bytes.code q =? 34)%nat then
            match unquote s' with
            | None => None
            | Some (k, rest) =>
                match skipSpace rest with
                | String ":"%char rest =>
                    match parseValue fuel rest with
                    | None => None
                    | Some (v, rest) =>
                        match skipSpace rest with
                        | String ","%char rest =>
                            match parseMembers fuel rest with
                            | Some (l, rest) => Some ((k, v) :: l, rest)
                            | None => None
                            end
                        | String "}"%char rest => Some ([(k, v)], rest)
                        | _ => None
                        end
                    end
                | _ => None
                end
            end
          else None
      | EmptyString => None
      end
  end.

(** A whole text is one value with white space around it. *)
Definition parse (s : string) : Result json :=
  match parseValue (S (String.length s)) s with
  | Some (v, rest) => if skipSpace rest =s "" then inl v else inr (Errorf "invalid character after top-level value")
  | None => inr (Errorf "invalid JSON")
  end.

(** ** Decoding into Go types *)

(** Decoding continues after a type error; the first one is reported. *)
Definition Decoder (A : Type) : Type := json → A → A * option GoError.

Definition mismatch : GoError := Errorf "json: cannot unmarshal value into Go value".

Definition decodeString : Decoder string := λ v old,
  match v with
  | JStr s => (s, None)
  | JNull => (old, None)
  | _ => (old, Some mismatch)
  end.

Definition decodeBool : Decoder bool := λ v old,
  match v with
  | JBool b => (b, None)
  | JNull => (old, None)
  | _ => (old, Some mismatch)
  end.

Fixpoint parseDigits (acc : Z) (s : string) : option Z :=
  match s with
  | EmptyString => Some acc
  | String c s' =>
      if Bytes.isDigit c then parseDigits (10 * acc + Z.of_nat (Bytes.code c - 48))%Z s' else None
  end.

(** An integer literal; fractions and exponents are errors for integers. *)
Definition parseInt (s : string) : option Z :=
  match s with
  | String "-"%char s' => if s' =s "" then None else option_map Z.opp (parseDigits 0 s')
  | _ => if s =s "" then None else parseDigits 0 s
  end.

Definition decodeRange (lo hi : Z) : Decoder Z := λ v old,
  match v with
  | JNum lit =>
      match parseInt lit with
      | Some z => if (lo <=? z)%Z && (z <=? hi)%Z then (z, None) else (old, Some mismatch)
      | None => (old, Some mismatch)
      end
  | JNull => (old, None)
  | _ => (old, Some mismatch)
  end.

(** [int] and [int64]; [uint64] *)
Definition decodeInt : Decoder Z := decodeRange Int.min64 Int.max64.
Definition decodeUint64 : Decoder Z := decodeRange 0 (2 ^ 64 - 1).

(** Pointers: null gives nil, anything else is decoded into a fresh value or
    the one pointed at. *)
Definition decodePtr {A} (zero : A) (d : Decoder A) : Decoder (option A) := λ v old,
  match v with
  | JNull => (None, None)
  | _ => let '(a, err) := d v (default zero old) in (Some a, err)
  end.

Definition firstError (e1 e2 : option GoError) : option GoError :=
  match e1 with Some e => Some e | None => e2 end.

(** Slices: null gives nil; the elements are decoded afresh. *)
Definition decodeSlice {A} (zero : A) (d : Decoder A) : Decoder (list A) := λ v old,
  match v with
  | JNull => ([], None)
  | JArr l => (map (λ v, (d v zero).1) l, foldl (λ err v, firstError err (d v zero).2) None l)
  | _ => (old, Some mismatch)
  end.

(** Structs: members are assigned in order by a function of the name in lower
    case; names it does not know are ignored.  Go compares names without
    regard to case (an exact match first, which makes no difference for
    structs whose names differ by more than case). *)
Definition decodeStruct {A} (assign : string → option (Decoder A)) : Decoder A := λ v old,
  match v with
  | JNull => (old, None)
  | JObj l => foldl (λ '(a, err) '(k, v),
                      match assign (Strings.ToLower k) with
                      | Some d => let '(a', err') := d v a in (a', firstError err err')
                      | None => (a, err)
                      end) (old, None) l
  | _ => (old, Some mismatch)
  end.

(** A field of a struct. *)
Definition field {A B} (get : A → B) (set : A → B → A) (d : Decoder B) : Decoder A := λ v a,
  let '(b, err) := d v (get a) in (set a b, err).

(** [json.Unmarshal(text, &zero)] *)
Definition Unmarshal {A} (d : Decoder A) (zero : A) (text : string) : Result A :=
  match parse text with
  | inr err => inr err
  | inl v => match d v zero with (a, None) => inl a | (_, Some err) => inr err end
  end.

(** [json.NewDecoder(r).Decode(&zero)]: the first value of the text; what
    follows it is not read. *)
Definition DecodeFirst {A} (d : Decoder A) (zero : A) (text : string) : Result A :=
  match parseValue (S (String.length text)) text with
  | None => inr (Errorf "invalid JSON")
  | Some (v, _) => match d v zero with (a, None) => inl a | (_, Some err) => inr err end
  end.

(** [json.Unmarshal(text, &slice)] for a slice of [json.RawMessage]: the texts of
    the elements, without the white space around them. *)
Fixpoint rawElems (fuel : nat) (s : string) : list string :=
  match fuel with
  | O => []
  | S fuel =>
      let s := skipSpace s in
      match parseValue (S (String.length s)) s with
      | None => []
      | Some (_, rest) =>
          Strings.take (String.length s - String.length rest) s ::
          match skipSpace rest with String ","%char rest => rawElems fuel rest | _ => [] end
      end
  end.

Definition rawSlice (s : string) : Result (list string) :=
  match parse s with
  | inr err => inr err
  | inl JNull | inl (JArr []) => inl []
  | inl (JArr _) => inl (rawElems (String.length s) (Strings.drop 1 (skipSpace s)))
  | inl _ => inr mismatch
  end.

(** ** Fields that are decoded and not kept *)

(** A field that is decoded and not kept. *)
Definition checked {A B} (zero : B) (d : Decoder B) : Decoder A := λ v a, (a, (d v zero).2).

(** [map[string]interface{}] *)
Definition decodeAnyMap : Decoder unit := λ v u,
  match v with JObj _ | JNull => (u, None) | _ => (u, Some mismatch) end.

(** The elements of an array and the values of an object, each decoded by [d]. *)
Definition checkAll {A} (zero : A) (d : Decoder A) : Decoder unit := λ v u, (u, (decodeSlice zero d v []).2).
Definition checkMap {A} (zero : A) (d : Decoder A) : Decoder unit := λ v u,
  match v with
  | JNull => (u, None)
  | JObj l => (u, foldl (λ err '(_, v), firstError err (d v zero).2) None l)
  | _ => (u, Some mismatch)
  end.
(** [json.RawMessage], whose text is not kept *)
Definition decodeRaw : Decoder unit := λ _ u, (u, None).

(** The check of a timestamp (RFC 3339), for a text without escapes. *)
Definition twoDigits (a b : ascii) : option nat :=
  if Bytes.isDigit a && Bytes.isDigit b then Some (10 * (Bytes.code a - 48) + (Bytes.code b - 48))%nat else None.

Definition inRange (lo hi : nat) (o : option nat) : bool :=
  match o with Some n => (lo <=? n)%nat && (n <=? hi)%nat | None => false end.

Definition isLeap (y : nat) : bool := ((y mod 4 =? 0) && (negb (y mod 100 =? 0) || (y mod 400 =? 0)))%nat.
Definition daysIn (y m : nat) : nat :=
  if (m =? 2)%nat then if isLeap y then 29 else 28
  else if existsb (Nat.eqb m) [4; 6; 9; 11]%nat then 30 else 31.

Definition validDate (y1 y2 y3 y4 m1 m2 d1 d2 : ascii) : bool :=
  match twoDigits y1 y2, twoDigits y3 y4, twoDigits m1 m2 with
  | Some hi, Some lo, Some m => inRange 1 12 (Some m) && inRange 1 (daysIn (100 * hi + lo) m) (twoDigits d1 d2)
  | _, _, _ => false
  end.

Definition validZone (s : string) : bool :=
  match s with
  | String "Z" EmptyString => true
  | String sign (String a (String b (String ":" (String c (String d EmptyString))))) =>
      Bytes.mem sign "+-" && inRange 0 23 (twoDigits a b) && inRange 0 59 (twoDigits c d)
  | _ => false
  end%char.

Definition validRFC3339 (s : string) : bool :=
  match s with
  | String y1 (String y2 (String y3 (String y4 (String "-" (String m1 (String m2 (String "-" (String d1 (String d2
      (String "T" (String h1 (String h2 (String ":" (String n1 (String n2 (String ":" (String s1 (String s2 rest
      )))))))))))))))))) =>
      validDate y1 y2 y3 y4 m1 m2 d1 d2 && inRange 0 23 (twoDigits h1 h2) && inRange 0 59 (twoDigits n1 n2) &&
      inRange 0 59 (twoDigits s1 s2) &&
      validZone match rest with
                | String "." f => match digits1 f with Some rest => rest | None => "" end
                | _ => rest
                end
  | _ => false
  end%char.

Definition decodeTime : Decoder unit := λ v u,
  match v with
  | JNull => (u, None)
  | JStr s => (u, if validRFC3339 s then None else Some (Errorf "parsing time"))
  | _ => (u, Some (Errorf "Time.UnmarshalJSON: input is not a JSON string"))
  end.
