(* ===== verification/JsonProps.v ===== *)
(** * Round trips of JSON texts

    [parse] is a left inverse of [print], integers survive their literals, and
    the class [JsonCodec] of types that survive saving and loading. *)

From S2P Require Import Prelude NetUrl Json.
From Stdlib Require Import Ascii.

(** Values whose numbers are number literals. *)
Fixpoint wellFormed (v : json) : Prop :=
  match v with
  | JNum lit => isValidNumber lit = true ∧ Bytes.forallb numberByte lit = true
  | JArr l => foldr and True (map wellFormed l)
  | JObj l => foldr and True (map (λ kv, wellFormed kv.2) l)
  | _ => True
  end.

(** What may follow a value: anything that does not continue a number. *)
Definition stops (s : string) : Prop :=
  match s with String c _ => numberByte c = false | EmptyString => True end.

(** ** Strings *)

Lemma unquote_escapeByte c t : unquote (escapeByte c +:+ t) = prepend (String c "") (unquote t).
Proof. destruct c as [[] [] [] [] [] [] [] []]; reflexivity. Qed.

Lemma unquote_escape s rest : unquote (escapeString s +:+ Strings.dquote +:+ rest) = Some (s, rest).
Proof.
  induction s as [|c s IH]; [reflexivity|]. cbn [escapeString].
  by rewrite Strings.app_assoc, unquote_escapeByte, IH.
Qed.

(** ** Numbers *)

Lemma spanNumber_app lit rest :
  Bytes.forallb numberByte lit = true → stops rest → spanNumber (lit +:+ rest) = (lit, rest).
Proof.
  intros Hl Hr. induction lit as [|c lit IH]; cbn in Hl |- *.
  - change ("" +:+ rest) with rest. destruct rest as [|c rest]; cbn in *; [done|by rewrite Hr].
  - apply andb_true_iff in Hl as [Hc Hl]. rewrite Strings.app_cons. cbn. by rewrite Hc, (IH Hl).
Qed.

(** The first byte of a number tells it from the other values. *)
Definition startsNumber (c : ascii) : bool := Bytes.isDigit c || Ascii.eqb c "-".

Lemma isValidNumber_starts lit :
  isValidNumber lit = true → ∃ c s, lit = String c s ∧ startsNumber c = true.
Proof.
  unfold isValidNumber. destruct lit as [|c s]; [done|]. intros Hv. exists c, s. split; [done|].
  unfold startsNumber. destruct (Ascii.eqb c "-") eqn:E; [by rewrite orb_true_r|]. rewrite orb_false_r.
  assert (Strings.TrimPrefix (String c s) "-" = String c s) as Ht.
  { revert E. clear. by destruct c as [[] [] [] [] [] [] [] []]. }
  rewrite Ht in Hv. destruct (Bytes.code c =? 48)%nat eqn:E0; [|by destruct (Bytes.isDigit c)].
  apply Nat.eqb_eq in E0. unfold Bytes.isDigit, Bytes.between. by rewrite E0.
Qed.

(** ** Values *)

Lemma stops_intro c rest : numberByte c = false → stops (String c rest).
Proof. done. Qed.

Lemma quoteString_app s rest :
  quoteString s +:+ rest = String (Ascii false true false false false true false false) (escapeString s +:+ Strings.dquote +:+ rest).
Proof. unfold quoteString. by rewrite !Strings.app_assoc. Qed.

Lemma length_quoteString s : (2 ≤ String.length (quoteString s))%nat.
Proof. unfold quoteString. rewrite !Strings.length_app. cbn. lia. Qed.

(** The number branch is reached by the first byte of a number. *)
Lemma parseValue_number fuel lit rest :
  isValidNumber lit = true → Bytes.forallb numberByte lit = true → stops rest →
  parseValue (S fuel) (lit +:+ rest) = Some (JNum lit, rest).
Proof.
  intros Hv Hb Hr. destruct (isValidNumber_starts lit Hv) as (c & t & -> & Hc).
  cbn [parseValue]. pose proof (spanNumber_app (String c t) rest Hb Hr) as Hs. rewrite Strings.app_cons in *.
  assert (Hskip : skipSpace (String c (t +:+ rest)) = String c (t +:+ rest)).
  { cbn. replace (isSpace c) with false; [done|]. revert Hc. clear. by destruct c as [[] [] [] [] [] [] [] []]. }
  rewrite Hskip, Hs, Hv.
  assert (Hf : Ascii.eqb c "n" = false ∧ Ascii.eqb c "t" = false ∧ Ascii.eqb c "f" = false ∧
    (Bytes.code c =? 34)%nat = false ∧ Ascii.eqb c "[" = false ∧ Ascii.eqb c "{" = false).
  { revert Hc. clear. by destruct c as [[] [] [] [] [] [] [] []]. }
  by destruct Hf as (-> & -> & -> & -> & -> & ->).
Qed.

(** The branch that the first byte of a text selects. *)
Lemma parseValue_quote fuel t :
  parseValue (S fuel) (String (Ascii false true false false false true false false) t) =
  match unquote t with Some (str, rest) => Some (JStr str, rest) | None => None end.
Proof. reflexivity. Qed.

Lemma parseValue_string fuel s rest :
  parseValue (S fuel) (quoteString s +:+ rest) = Some (JStr s, rest).
Proof. by rewrite quoteString_app, parseValue_quote, unquote_escape. Qed.

Lemma skipSpace_stop c s : isSpace c = false → skipSpace (String c s) = String c s.
Proof. intros Hc. cbn. by rewrite Hc. Qed.

Lemma skipSpace_comma s : skipSpace ("," +:+ s) = String "," s.
Proof. done. Qed.

Lemma expect_app word v rest : expect word v (word +:+ rest) = Some (v, rest).
Proof. unfold expect. by rewrite (proj2 (Strings.HasPrefix_spec _ _)), Strings.drop_app by eauto. Qed.

(** Texts of values start with a byte that is neither white space nor the end
    of a list. *)
Definition opens (c : ascii) : bool :=
  negb (isSpace c) && negb (Ascii.eqb c "]") && negb (Ascii.eqb c "}").

Lemma print_opens v : wellFormed v → ∃ c s, print v = String c s ∧ opens c = true.
Proof.
  destruct v as [|[]|lit|s|l|l]; intros Hv; try (eexists _, _; split; [reflexivity|reflexivity]).
  destruct Hv as [Hv _]. destruct (isValidNumber_starts lit Hv) as (c & s & -> & Hc). exists c, s.
  split; [done|]. revert Hc. clear. by destruct c as [[] [] [] [] [] [] [] []].
Qed.

Lemma print_length v : wellFormed v → (1 ≤ String.length (print v))%nat.
Proof. intros (c & s & -> & _)%print_opens. cbn. lia. Qed.

(** The statement for a value, with any text after it and enough fuel. *)
Definition parses (v : json) : Prop :=
  ∀ fuel rest, (String.length (print v) ≤ fuel)%nat → stops rest →
    parseValue fuel (print v +:+ rest) = Some (v, rest).

Lemma Join_cons s t l sep : Strings.Join (s :: t :: l) sep = s +:+ sep +:+ Strings.Join (t :: l) sep.
Proof. done. Qed.

(** One step of each list parser, once its value is known. *)
Lemma parseElems_step fuel s v rest :
  parseValue fuel s = Some (v, rest) →
  parseElems (S fuel) s =
  match skipSpace rest with
  | String ","%char rest =>
      match parseElems fuel rest with Some (l, rest) => Some (v :: l, rest) | None => None end
  | String "]"%char rest => Some ([v], rest)
  | _ => None
  end.
Proof. intros H. cbn [parseElems]. by rewrite H. Qed.

Lemma parseElems_print l fuel rest :
  l ≠ [] → Forall parses l →
  (String.length (Strings.Join (map print l) ",") < fuel)%nat →
  parseElems fuel (Strings.Join (map print l) "," +:+ "]" +:+ rest) = Some (l, rest).
Proof.
  intros Hne Hall. revert fuel. induction Hall as [|v l Hv Hall IH]; intros fuel Hfuel; [done|].
  destruct fuel as [|fuel]; [lia|]. destruct l as [|w l].
  - cbn [map Strings.Join] in *. by rewrite (parseElems_step fuel _ v ("]" +:+ rest)) by (apply Hv; [lia|done]).
  - cbn [map] in *. rewrite Join_cons, !Strings.length_app in Hfuel. rewrite Join_cons, !Strings.app_assoc.
    change (String.length ",") with 1%nat in Hfuel.
    erewrite parseElems_step by (apply Hv; [lia|done]). rewrite skipSpace_comma.
    rewrite (IH ltac:(done) fuel); [done|]. lia.
Qed.

Definition member (kv : string * json) : string := quoteString kv.1 +:+ ":" +:+ print kv.2.

Lemma parseMembers_step fuel k s v rest :
  parseValue fuel s = Some (v, rest) →
  parseMembers (S fuel) (quoteString k +:+ ":" +:+ s) =
  match skipSpace rest with
  | String ","%char rest =>
      match parseMembers fuel rest with Some (l, rest) => Some ((k, v) :: l, rest) | None => None end
  | String "}"%char rest => Some ([(k, v)], rest)
  | _ => None
  end.
Proof.
  intros H. rewrite quoteString_app. pose proof (unquote_escape k (":" +:+ s)) as Hk. cbn [parseMembers].
  rewrite skipSpace_stop by done. change (Bytes.code _ =? 34)%nat with true. cbn iota. rewrite Hk.
  change (skipSpace (":" +:+ s)) with (String ":" s). cbn iota. by rewrite H.
Qed.

Lemma parseMembers_print l fuel rest :
  l ≠ [] → Forall (λ kv, parses kv.2) l →
  (String.length (Strings.Join (map member l) ",") < fuel)%nat →
  parseMembers fuel (Strings.Join (map member l) "," +:+ "}" +:+ rest) = Some (l, rest).
Proof.
  intros Hne Hall. revert fuel. induction Hall as [|[k v] l Hv Hall IH]; intros fuel Hfuel; [done|].
  destruct fuel as [|fuel]; [lia|]. destruct l as [|w l].
  - cbn [map Strings.Join] in *. unfold member in Hfuel |- *. cbn [fst snd] in *.
    rewrite !Strings.length_app in Hfuel. rewrite !Strings.app_assoc.
    by rewrite (parseMembers_step fuel _ _ v ("}" +:+ rest)) by (apply Hv; [cbn in *; lia|done]).
  - cbn [map] in *. rewrite Join_cons, !Strings.length_app in Hfuel. rewrite Join_cons.
    unfold member at 1. unfold member at 1 in Hfuel. cbn [fst snd] in *. rewrite !Strings.length_app in Hfuel.
    rewrite !Strings.app_assoc. change (String.length ",") with 1%nat in Hfuel.
    erewrite parseMembers_step by (apply Hv; [cbn in *; lia|done]). rewrite skipSpace_comma.
    rewrite (IH ltac:(done) fuel); [done|]. lia.
Qed.

(** ** The round trip *)

Lemma parses_list (P : json → Prop) l :
  Forall (λ v, wellFormed v → P v) l → foldr and True (map wellFormed l) → Forall P l.
Proof. induction 1; cbn; [done|]. intros [? ?]. constructor; auto. Qed.

Lemma parses_members (P : json → Prop) (l : list (string * json)) :
  Forall (λ kv, wellFormed kv.2 → P kv.2) l → foldr and True (map (λ kv, wellFormed kv.2) l) → Forall (λ kv, P kv.2) l.
Proof. induction 1; cbn; [done|]. intros [? ?]. constructor; auto. Qed.

(** A non-empty list does not start with its closing bracket. *)
Lemma parseValue_array fuel c s : opens c = true →
  parseValue (S fuel) (String "[" (String c s)) =
  match parseElems fuel (String c s) with Some (l, rest) => Some (JArr l, rest) | None => None end.
Proof. destruct c as [[] [] [] [] [] [] [] []]; intros H; try done; reflexivity. Qed.

Lemma parseValue_object fuel c s : opens c = true →
  parseValue (S fuel) (String "{" (String c s)) =
  match parseMembers fuel (String c s) with Some (l, rest) => Some (JObj l, rest) | None => None end.
Proof. destruct c as [[] [] [] [] [] [] [] []]; intros H; try done; reflexivity. Qed.

Lemma Join_first s l sep : ∃ t, Strings.Join (s :: l) sep = s +:+ t.
Proof. destruct l; [exists ""; cbn; by rewrite Strings.app_nil_r|by eexists]. Qed.

Lemma parses_wellFormed v : wellFormed v → parses v.
Proof.
  induction v as [| |lit|s|l IH|l IH] using json_ind; intros Hv fuel rest Hfuel Hstop.
  - destruct fuel as [|fuel]; [cbn in Hfuel; lia|]. exact (expect_app "null" JNull rest).
  - destruct fuel as [|fuel]; [by destruct b; cbn in Hfuel; lia|].
    destruct b; [exact (expect_app "true" (JBool true) rest)|exact (expect_app "false" (JBool false) rest)].
  - destruct Hv as [Hv Hb]. pose proof (print_length (JNum lit) (conj Hv Hb)).
    destruct fuel as [|fuel]; [lia|]. by apply parseValue_number.
  - pose proof (length_quoteString s). cbn [print] in *. destruct fuel as [|fuel]; [lia|]. apply parseValue_string.
  - pose proof (parses_list _ _ IH Hv) as Hall. cbn [print] in *. rewrite !Strings.length_app in Hfuel.
    destruct fuel as [|fuel]; [cbn in Hfuel; lia|]. destruct l as [|v l]; [done|].
    rewrite !Strings.app_assoc. change (?a ≤ S fuel)%nat with (a ≤ S fuel)%nat in Hfuel.
    assert (∃ c t, Strings.Join (map print (v :: l)) "," +:+ "]" +:+ rest = String c t ∧ opens c = true) as (c & t & Ht & Hc).
    { destruct (print_opens v) as (c & s & Hs & Hc); [by apply Hv|]. cbn [map].
      destruct (Join_first (print v) (map print l) ",") as (t & ->). rewrite Hs, Strings.app_cons, Strings.app_cons. eauto. }
    pose proof (parseElems_print (v :: l) fuel rest ltac:(done) Hall) as Hl. rewrite Ht in *.
    change ("[" +:+ String c t) with (String "[" (String c t)). rewrite parseValue_array, Hl; [done| |done].
    cbn in Hfuel |- *. lia.
  - pose proof (parses_members _ _ IH Hv) as Hall. cbn [print] in *. rewrite !Strings.length_app in Hfuel.
    destruct fuel as [|fuel]; [cbn in Hfuel; lia|]. destruct l as [|[k v] l]; [done|].
    rewrite !Strings.app_assoc. change (map (λ kv, quoteString kv.1 +:+ ":" +:+ print kv.2)) with (map member) in *.
    assert (∃ c t, Strings.Join (map member ((k, v) :: l)) "," +:+ "}" +:+ rest = String c t ∧ opens c = true) as (c & t & Ht & Hc).
    { cbn [map]. destruct (Join_first (member (k, v)) (map member l) ",") as (t & ->). unfold member. cbn [fst snd].
      rewrite !Strings.app_assoc, quoteString_app. eauto. }
    pose proof (parseMembers_print ((k, v) :: l) fuel rest ltac:(done) Hall) as Hl. rewrite Ht in *.
    change ("{" +:+ String c t) with (String "{" (String c t)). rewrite parseValue_object, Hl; [done| |done].
    cbn in Hfuel |- *. lia.
Qed.

Theorem parse_print v : wellFormed v → parse (print v) = inl v.
Proof.
  intros Hv. unfold parse.
  pose proof (parses_wellFormed v Hv (S (String.length (print v))) "" ltac:(lia) I) as H.
  rewrite Strings.app_nil_r in H. by rewrite H.
Qed.

(** ** Integers *)

Definition allDigits (s : string) : Prop := Bytes.forallb Bytes.isDigit s = true.

Lemma isDigit_pretty n : (n < 10)%N →
  Bytes.isDigit (pretty_N_char n) = true ∧ Z.of_nat (Bytes.code (pretty_N_char n) - 48) = Z.of_N n ∧
  ((0 < n)%N → (Bytes.code (pretty_N_char n) =? 48)%nat = false).
Proof. intros Hn. by destruct n as [|[[[[p|p|]|[p|p|]|]|[[p|p|]|[p|p|]|]|]|[[[p|p|]|[p|p|]|]|[[p|p|]|[p|p|]|]|]|]]; try lia. Qed.

Lemma parseDigits_pretty n s : parseDigits 0 (pretty_N_go n s) = parseDigits (Z.of_N n) s.
Proof.
  revert s. induction (N.lt_wf_0 n) as [n _ IH]. intros s.
  destruct (decide (0 < n)%N) as [Hn|Hn]; [|by replace n with 0%N by lia].
  rewrite pretty_N_go_step by done. rewrite IH by (apply N.div_lt; lia). cbn [parseDigits].
  destruct (isDigit_pretty (n `mod` 10)%N) as (-> & -> & _); [by apply N.mod_lt|].
  f_equal. pose proof (N.div_mod n 10). lia.
Qed.

(** The digits of a positive number do not start with zero. *)
Lemma pretty_digits n s : (0 < n)%N → allDigits s →
  ∃ d t, pretty_N_go n s = String d t ∧ Bytes.isDigit d = true ∧ (Bytes.code d =? 48)%nat = false ∧ allDigits t.
Proof.
  revert s. induction (N.lt_wf_0 n) as [n _ IH]. intros s Hn Hs. rewrite pretty_N_go_step by done.
  destruct (isDigit_pretty (n `mod` 10)%N) as (Hd & _ & H0); [by apply N.mod_lt|].
  destruct (decide (n < 10)%N) as [Hlt|Hge].
  - rewrite (N.div_small n 10) by done. rewrite N.mod_small in * by done. eexists _, _. split; [done|]. auto.
  - apply IH; [apply N.div_lt; lia|by apply N.div_str_pos; lia|]. unfold allDigits in *. cbn. by rewrite Hd.
Qed.

Lemma skipDigits_all s : allDigits s → skipDigits s = "".
Proof. unfold allDigits. induction s as [|c s IH]; cbn; [done|]. destruct (Bytes.isDigit c); [apply IH|done]. Qed.

Lemma digit_numberByte c : Bytes.isDigit c = true → numberByte c = true.
Proof. unfold numberByte. by intros ->. Qed.

Lemma allDigits_numberByte s : allDigits s → Bytes.forallb numberByte s = true.
Proof.
  unfold allDigits. induction s as [|c s IH]; cbn; [done|]. destruct (Bytes.isDigit c) eqn:E; [|done].
  intros H. rewrite (digit_numberByte c E). by apply IH.
Qed.

Lemma pretty_Z_cases (z : Z) :
  pretty z = "0" ∧ z = 0%Z ∨
  ∃ n, (0 < n)%N ∧ (pretty z = pretty_N_go n "" ∧ z = Z.of_N n ∨ pretty z = "-" +:+ pretty_N_go n "" ∧ z = (- Z.of_N n)%Z).
Proof. destruct z as [|p|p]; [by left|right; exists (Npos p)..]; split; try done; [left|right]; done. Qed.

Lemma parseInt_digits d t : Bytes.isDigit d = true → parseInt (String d t) = parseDigits 0 (String d t).
Proof. intros Hd. revert Hd. by destruct d as [[] [] [] [] [] [] [] []]. Qed.

Lemma parseInt_pretty (z : Z) : parseInt (pretty z) = Some z.
Proof.
  destruct (pretty_Z_cases z) as [[-> ->]|(n & Hn & [[-> ->]|[-> ->]])]; [done|..].
  - destruct (pretty_digits n "" Hn eq_refl) as (d & t & He & Hd & _). rewrite He, parseInt_digits, <- He by done.
    apply parseDigits_pretty.
  - destruct (pretty_digits n "" Hn eq_refl) as (d & t & He & Hd & _). rewrite He. change ("-" +:+ String d t) with (String "-" (String d t)).
    cbn -[parseDigits]. rewrite <- He, parseDigits_pretty. done.
Qed.

Lemma isValidNumber_digits d t :
  Bytes.isDigit d = true → (Bytes.code d =? 48)%nat = false → allDigits t →
  isValidNumber (String d t) = true ∧ isValidNumber (String "-" (String d t)) = true.
Proof.
  intros Hd H0 Ht. unfold isValidNumber.
  assert (Strings.TrimPrefix (String d t) "-" = String d t) as ->.
  { revert Hd. clear. by destruct d as [[] [] [] [] [] [] [] []]. }
  assert (Strings.TrimPrefix (String "-" (String d t)) "-" = String d t) as ->.
  { unfold Strings.TrimPrefix. change (String "-" (String d t)) with ("-" +:+ String d t). by rewrite Strings.CutPrefix_app. }
  by rewrite H0, Hd, (skipDigits_all t Ht).
Qed.

Lemma wellFormed_int (z : Z) : wellFormed (JNum (pretty z)).
Proof.
  destruct (pretty_Z_cases z) as [[-> _]|(n & Hn & H)]; [done|].
  destruct (pretty_digits n "" Hn eq_refl) as (d & t & He & Hd & H0 & Ht). rewrite He in H.
  destruct (isValidNumber_digits d t Hd H0 Ht) as [Hv Hv'].
  assert (Bytes.forallb numberByte (String d t) = true).
  { cbn. by rewrite (digit_numberByte d Hd), (allDigits_numberByte t Ht). }
  destruct H as [[-> _]|[-> _]]; [done|]. by split.
Qed.

(** ** Types that are saved and loaded *)

(** What a type that is written with [json.Marshal] and read with
    [json.Unmarshal] promises: values in its range come back. *)
Class JsonCodec (A : Type) := {
  marshal : A → json;
  decode : Decoder A;
  zeroValue : A;
  representable : A → Prop;
  marshal_wellFormed : ∀ a, representable a → wellFormed (marshal a);
  decode_marshal : ∀ a, representable a → decode (marshal a) zeroValue = (a, None);
}.

(** [json.Marshal] *)
Definition Marshal `{JsonCodec A} (a : A) : string := print (marshal a).

Lemma Unmarshal_Marshal `{JsonCodec A} (a : A) :
  representable a → Unmarshal decode zeroValue (Marshal a) = inl a.
Proof.
  intros Ha. unfold Unmarshal, Marshal. by rewrite (parse_print _ (marshal_wellFormed a Ha)), decode_marshal.
Qed.

#[export] Instance stringCodec : JsonCodec string := {|
  marshal := JStr; decode := decodeString; zeroValue := ""; representable _ := True;
  marshal_wellFormed _ _ := I; decode_marshal _ _ := eq_refl |}.

Lemma decodeRange_int lo hi z old : (lo ≤ z ≤ hi)%Z → decodeRange lo hi (JNum (pretty z)) old = (z, None).
Proof.
  intros Hz. unfold decodeRange. rewrite parseInt_pretty.
  by rewrite (proj2 (Z.leb_le _ _)), (proj2 (Z.leb_le _ _)) by lia.
Qed.

#[export, refine] Instance intCodec : JsonCodec Z := {|
  marshal z := JNum (pretty z); decode := decodeInt; zeroValue := 0%Z; representable := Int.in64 |}.
Proof.
  - intros z _. apply wellFormed_int.
  - intros z Hz. by apply decodeRange_int.
Defined.

(** A list as an array. *)
Lemma decodeSlice_marshal {A} `{JsonCodec A} (l : list A) err :
  Forall representable l →
  map (λ v, (decode v zeroValue).1) (map marshal l) = l ∧
  foldl (λ err v, firstError err (decode v zeroValue).2) err (map marshal l) = err.
Proof.
  induction 1 as [|a l Ha _ [IH1 IH2]]; [done|]. cbn. rewrite decode_marshal, IH1 by done. cbn. split; [done|]. by destruct err.
Qed.

#[export, refine] Instance listCodec `{JsonCodec A} : JsonCodec (list A) := {|
  marshal l := JArr (map marshal l); decode := decodeSlice zeroValue decode; zeroValue := [];
  representable := Forall representable |}.
Proof.
  - intros l Hl. cbn. induction Hl as [|a l Ha _ IH]; [done|]. split; [by apply marshal_wellFormed|done].
  - intros l Hl. cbn. pose proof (decodeSlice_marshal l None Hl) as [-> ->]. done.
Defined.

(** Members of an object; with [omitempty] the zero value is left out. *)
Definition member_ {A} `{JsonCodec A} (name : string) (a : A) : list (string * json) := [(name, marshal a)].
Definition omitempty {A} `{JsonCodec A} `{EqDecision A} (name : string) (a : A) : list (string * json) :=
  if decide (a = zeroValue) then [] else [(name, marshal a)].
(** A pointer with [omitempty]: nothing for nil. *)
Definition optionalMember {A} `{JsonCodec A} (name : string) (a : option A) : list (string * json) :=
  match a with Some a => member_ name a | None => [] end.

#[export, refine] Instance boolCodec : JsonCodec bool := {|
  marshal := JBool; decode := decodeBool; zeroValue := false; representable _ := True |}.
Proof. all: done. Defined.

Lemma decodeStruct_app {A} (assign : string → option (Decoder A)) l1 l2 a b c :
  decodeStruct assign (JObj l1) a = (b, None) → decodeStruct assign (JObj l2) b = (c, None) →
  decodeStruct assign (JObj (l1 ++ l2)) a = (c, None).
Proof. cbn. rewrite foldl_app. by intros -> ->. Qed.

Lemma decodeStruct_member {A B} `{JsonCodec B} (assign : string → option (Decoder A)) (name : string) d (b : B) (a a' : A) :
  assign (Strings.ToLower name) = Some d → d (marshal b) a = (a', None) →
  decodeStruct assign (JObj (member_ name b)) a = (a', None).
Proof. cbn. intros -> Hd. by rewrite Hd. Qed.

Lemma decodeStruct_omitempty {A B} `{JsonCodec B, EqDecision B} (assign : string → option (Decoder A)) (name : string) d
    (b : B) (a a' : A) :
  assign (Strings.ToLower name) = Some d → d (marshal b) a = (a', None) → (b = zeroValue → a' = a) →
  decodeStruct assign (JObj (omitempty name b)) a = (a', None).
Proof.
  intros Ha Hd Hz. unfold omitempty. destruct (decide (b = zeroValue)) as [Hb|]; [|by eapply decodeStruct_member].
  by rewrite (Hz Hb).
Qed.

Lemma wellFormed_members l1 l2 : wellFormed (JObj l1) → wellFormed (JObj l2) → wellFormed (JObj (l1 ++ l2)).
Proof. cbn. induction l1 as [|kv l1 IH]; cbn; [done|]. intros [? ?] ?. split; [done|]. by apply IH. Qed.

Lemma wellFormed_member {A} `{JsonCodec A} name (a : A) : representable a → wellFormed (JObj (member_ name a)).
Proof. intros Ha. cbn. split; [|done]. by apply marshal_wellFormed. Qed.

Lemma wellFormed_omitempty {A} `{JsonCodec A, EqDecision A} name (a : A) :
  representable a → wellFormed (JObj (omitempty name a)).
Proof. intros Ha. unfold omitempty. destruct (decide _); [done|]. by apply wellFormed_member. Qed.

Lemma decodePtr_marshal {A} `{JsonCodec A} (a : A) :
  representable a → marshal a ≠ JNull → decodePtr zeroValue decode (marshal a) None = (Some a, None).
Proof.
  intros Ha Hn. unfold decodePtr. cbn [default]. rewrite decode_marshal by done. by destruct (marshal a).
Qed.

(** Members that set a field. *)
Lemma decodeStruct_field {A B} `{JsonCodec B} (assign : string → option (Decoder A)) (name : string) get set (b : B) (a : A) :
  assign (Strings.ToLower name) = Some (field get set decode) → get a = zeroValue → representable b →
  decodeStruct assign (JObj (member_ name b)) a = (set a b, None).
Proof. intros Ha Hg Hb. eapply decodeStruct_member; [done|]. unfold field. by rewrite Hg, decode_marshal. Qed.

Lemma decodeStruct_optional {A B} `{JsonCodec B} (assign : string → option (Decoder A)) (name : string) get set (b : option B) (a : A) :
  assign (Strings.ToLower name) = Some (field get set (decodePtr zeroValue decode)) → get a = None → set a None = a →
  (∀ x, b = Some x → representable x ∧ marshal x ≠ JNull) →
  decodeStruct assign (JObj (optionalMember name b)) a = (set a b, None).
Proof.
  intros Ha Hg Hn Hb. destruct b as [b|]; [|by rewrite Hn]. destruct (Hb b eq_refl) as [Hr Hj].
  eapply decodeStruct_member; [done|]. unfold field. by rewrite Hg, decodePtr_marshal.
Qed.

Lemma wellFormed_optional {A} `{JsonCodec A} name (a : option A) :
  (∀ x, a = Some x → representable x) → wellFormed (JObj (optionalMember name a)).
Proof. intros Ha. destruct a as [a|]; [|done]. by apply wellFormed_member, Ha. Qed.

(** The structs made of such members. *)
Ltac codecState :=
  lazymatch goal with |- decodeStruct ?f ?v ?a = ?r => let a' := eval cbn in a in change (decodeStruct f v a' = r) end.
Ltac codecFields := repeat (codecState; lazymatch goal with
  | |- decodeStruct _ (JObj (_ ++ _)) _ = _ => eapply decodeStruct_app
  | |- decodeStruct _ (JObj (optionalMember _ _)) _ = _ => eapply decodeStruct_optional; [reflexivity|reflexivity|reflexivity|]
  | |- decodeStruct _ (JObj (member_ _ _)) _ = _ => eapply decodeStruct_field; [reflexivity|reflexivity|]
  end).
Ltac codecWellFormed := repeat lazymatch goal with
  | |- wellFormed (JObj (_ ++ _)) => apply wellFormed_members
  | |- wellFormed (JObj (optionalMember _ _)) => apply wellFormed_optional
  | |- wellFormed (JObj (member_ _ _)) => apply wellFormed_member
  end.

(** ** Slices of raw messages *)

Lemma take_app_length a b : Strings.take (String.length (a +:+ b) - String.length b) (a +:+ b) = a.
Proof.
  rewrite Strings.length_app. replace (_ - _)%nat with (String.length a) by lia.
  induction a as [|c a IH]; [by destruct b|]. rewrite Strings.app_cons. cbn. by rewrite IH.
Qed.

Lemma skipSpace_print v rest : wellFormed v → skipSpace (print v +:+ rest) = print v +:+ rest.
Proof.
  intros (c & s & -> & Hc)%print_opens. rewrite Strings.app_cons. apply skipSpace_stop.
  unfold opens in Hc. destruct (isSpace c); [done|done].
Qed.

Lemma rawElems_print l fuel rest : Forall wellFormed l → l ≠ [] → (length l ≤ fuel)%nat →
  rawElems fuel (Strings.Join (map print l) "," +:+ "]" +:+ rest) = map print l.
Proof.
  intros Hl. revert fuel. induction Hl as [|v l Hv Hl IH]; intros fuel Hne Hf; [done|].
  destruct fuel as [|fuel]; [cbn in Hf; lia|]. cbn in Hf.
  assert (∀ rest, stops rest → rawElems (S fuel) (print v +:+ rest) =
    print v :: match skipSpace rest with String ","%char rest => rawElems fuel rest | _ => [] end) as Hstep.
  { intros r Hr. cbn [rawElems]. rewrite skipSpace_print by done.
    rewrite (parses_wellFormed v Hv); [|rewrite Strings.length_app; lia|done]. by rewrite take_app_length. }
  destruct l as [|w l].
  - cbn [map Strings.Join]. by rewrite (Hstep ("]" +:+ rest) eq_refl).
  - cbn [map]. rewrite Join_cons, !Strings.app_assoc.
    change (Strings.Join (print w :: map print l) ",") with (Strings.Join (map print (w :: l)) ",").
    rewrite (Hstep ("," +:+ _) eq_refl), skipSpace_comma. cbn [map]. f_equal. apply (IH fuel); [done|lia].
Qed.

(** The texts of the elements of a printed array are the printed elements. *)
Lemma rawSlice_print l : Forall wellFormed l → rawSlice (print (JArr l)) = inl (map print l).
Proof.
  intros Hl. assert (wellFormed (JArr l)) as Hw by (cbn; induction Hl; cbn; auto). unfold rawSlice. rewrite (parse_print _ Hw).
  destruct l as [|v l]; [done|]. set (text := print (JArr (v :: l))).
  assert (text = String "[" (Strings.Join (map print (v :: l)) "," +:+ "]" +:+ "")) as -> by (by unfold text; rewrite Strings.app_nil_r).
  f_equal. rewrite skipSpace_stop by done. cbn [Strings.drop].
  apply rawElems_print; [done|done|]. cbn [String.length]. rewrite Strings.length_app.
  enough (length (v :: l) ≤ String.length (Strings.Join (map print (v :: l)) ",") + 1)%nat by (cbn in *; lia).
  clear Hw. induction Hl as [|x [|y l'] Hx Hl IH]; [cbn; lia|cbn; lia|].
  cbn [map] in *. rewrite Join_cons, !Strings.length_app. pose proof (print_length x Hx). cbn [length] in *.
  change (String.length ",") with 1%nat. lia.
Qed.
