(* ===== verification/K8s.v ===== *)
(** * Shapes of the Kubernetes API objects

    The structs of k8s.io/api that the sources build, read or write, one
    module per Go struct, with the Go field names.  A record has the fields
    the sources mention; every other field of the struct travels in [rest]
    ([NoRest] in a composite literal that does not set it), so that "the rest
    of the object is untouched" can be stated.  Pointers are options; a nil
    map or slice is the empty one (no source function distinguishes them,
    except where a module says so). *)

From S2P Require Import Prelude.

(** Fields the sources never look at, as some serialised text. *)
Inductive Rest : Type := NoRest | Fields (json : string).

(** A value the sources only copy (tolerations, affinities, ...). *)
Record Opaque : Type := mkOpaque { serialized : string }.

(** A [resource.Quantity] is held by the text it is parsed from; comparing and
    evaluating quantities is the library's, see [QuantityOps]. *)
Module Quantity.
Record t := MustParse { text : string }.
(** [resource.Quantity{}] *)
Definition zero : t := MustParse "0".
End Quantity.

(** The operations of k8s.io/apimachinery/pkg/api/resource the sources call,
    a parameter of the development. *)
Class QuantityOps := {
  (** [q.Cmp(y)]: -1, 0 or 1 *)
  Quantity_Cmp : Quantity.t → Quantity.t → Z;
  (** [q.Value()], rounded up to an integer, an [int64] *)
  Quantity_Value : Quantity.t → Z;
  Quantity_IsZero : Quantity.t → bool;
}.

(** [intstr.IntOrString] *)
Inductive IntOrString : Type := FromInt32 (n : Z) | FromString (s : string).

Module ObjectMeta.
Record t := mk {
  Name : string;
  Namespace : string;
  Labels : gmap string string;
  Annotations : gmap string string;
  UID : string;
  CreationTimestamp : Time.t;
  DeletionTimestamp : option Time.t;
  Finalizers : list string;
  OwnerReferences : list Opaque;
  rest : Rest }.
End ObjectMeta.

(** [metav1.ObjectMeta{Name: name, Namespace: namespace, Labels: labels,
    Annotations: annotations}] *)
Definition newMeta (name namespace : string) (labels annotations : gmap string string) : ObjectMeta.t :=
  {| ObjectMeta.Name := name; ObjectMeta.Namespace := namespace;
     ObjectMeta.Labels := labels; ObjectMeta.Annotations := annotations;
     ObjectMeta.UID := ""; ObjectMeta.CreationTimestamp := Time.zero;
     ObjectMeta.DeletionTimestamp := None; ObjectMeta.Finalizers := [];
     ObjectMeta.OwnerReferences := []; ObjectMeta.rest := NoRest |}.

Module ResourceRequirements.
Record t := mk {
  Requests : gmap string Quantity.t;
  Limits : gmap string Quantity.t;
  rest : Rest }.
End ResourceRequirements.

Module SecretKeySelector.
Record t := mk {
  Name : string;
  Key : string;
  rest : Rest }.
End SecretKeySelector.

Module EnvVarSource.
Record t := mk {
  SecretKeyRef : option SecretKeySelector.t;
  rest : Rest }.
End EnvVarSource.

Module EnvVar.
Record t := mk {
  Name : string;
  Value : string;
  ValueFrom : option EnvVarSource.t }.
End EnvVar.

(** [SecretRef] is the name in the secret reference. *)
Module EnvFromSource.
Record t := mk {
  SecretRef : option string;
  rest : Rest }.
End EnvFromSource.

Module VolumeMount.
Record t := mk {
  Name : string;
  ReadOnly : bool;
  MountPath : string;
  SubPath : string;
  rest : Rest }.
End VolumeMount.

(** [PersistentVolumeClaimVolumeSource] *)
Module PVCVolumeSource.
Record t := mk {
  ClaimName : string;
  ReadOnly : bool }.
End PVCVolumeSource.

Module EmptyDirVolumeSource.
Record t := mk {
  Medium : string;
  SizeLimit : option Quantity.t }.
End EmptyDirVolumeSource.

Module SecretVolumeSource.
Record t := mk {
  SecretName : string;
  Optional : option bool;
  rest : Rest }.
End SecretVolumeSource.

Module VolumeSource.
Record t := mk {
  PersistentVolumeClaim : option PVCVolumeSource.t;
  EmptyDir : option EmptyDirVolumeSource.t;
  Secret : option SecretVolumeSource.t;
  rest : Rest }.
End VolumeSource.

Module Volume.
Record t := mk {
  Name : string;
  Source : VolumeSource.t }.
End Volume.

Module HTTPGetAction.
Record t := mk {
  Path : string;
  Port : IntOrString;
  rest : Rest }.
End HTTPGetAction.

Module ProbeHandler.
Record t := mk {
  HTTPGet : option HTTPGetAction.t;
  TCPSocket : option IntOrString;
  rest : Rest }.
End ProbeHandler.

Module Probe.
Record t := mk {
  Handler : ProbeHandler.t;
  InitialDelaySeconds : Z;
  PeriodSeconds : Z;
  SuccessThreshold : Z;
  rest : Rest }.
End Probe.

(** [CapabilitiesDrop] is [Capabilities.Drop]. *)
Module SecurityContext.
Record t := mk {
  AllowPrivilegeEscalation : option bool;
  RunAsNonRoot : option bool;
  RunAsUser : option Z;
  RunAsGroup : option Z;
  CapabilitiesDrop : list string;
  rest : Rest }.
End SecurityContext.

Module ContainerPort.
Record t := mk {
  Name : string;
  ContainerPort : Z;
  rest : Rest }.
End ContainerPort.

Module Container.
Record t := mk {
  Name : string;
  Image : string;
  ImagePullPolicy : string;
  Command : list string;
  Args : list string;
  WorkingDir : string;
  Ports : list ContainerPort.t;
  EnvFrom : list EnvFromSource.t;
  Env : list EnvVar.t;
  Resources : ResourceRequirements.t;
  VolumeMounts : list VolumeMount.t;
  LivenessProbe : option Probe.t;
  ReadinessProbe : option Probe.t;
  TerminationMessagePath : string;
  TerminationMessagePolicy : string;
  RestartPolicy : option string;
  SecurityContext : option SecurityContext.t;
  rest : Rest }.
End Container.

(** [FSGroup] is [SecurityContext.FSGroup]; [ImagePullSecrets] the names of the references. *)
Module PodSpec.
Record t := mk {
  ServiceAccountName : string;
  DeprecatedServiceAccount : string;
  EnableServiceLinks : option bool;
  AutomountServiceAccountToken : option bool;
  FSGroup : option Z;
  Containers : list Container.t;
  InitContainers : list Container.t;
  Volumes : list Volume.t;
  Tolerations : list Opaque;
  NodeSelector : gmap string string;
  Affinity : option Opaque;
  PriorityClassName : string;
  ImagePullSecrets : list string;
  RestartPolicy : string;
  TerminationGracePeriodSeconds : option Z;
  rest : Rest }.
End PodSpec.

Module PodTemplateSpec.
Record t := mk {
  Meta : ObjectMeta.t;
  Spec : PodSpec.t }.
End PodTemplateSpec.

Module ContainerStateWaiting.
Record t := mk {
  Reason : string;
  Message : string }.
End ContainerStateWaiting.

Module ContainerStateRunning.
Record t := mk {
  StartedAt : Time.t }.
End ContainerStateRunning.

Module ContainerStateTerminated.
Record t := mk {
  ExitCode : Z;
  Reason : string;
  Message : string }.
End ContainerStateTerminated.

Module ContainerState.
Record t := mk {
  Waiting : option ContainerStateWaiting.t;
  Running : option ContainerStateRunning.t;
  Terminated : option ContainerStateTerminated.t }.
End ContainerState.

Module ContainerStatus.
Record t := mk {
  Name : string;
  State : ContainerState.t;
  Ready : bool;
  Started : option bool }.
End ContainerStatus.

(** [PodCondition], [JobCondition] and [PersistentVolumeClaimCondition]. *)
Module Condition.
Record t := mk {
  Type_ : string;
  Status : string;
  Reason : string;
  Message : string }.
End Condition.

Module PodStatus.
Record t := mk {
  Phase : string;
  Conditions : list Condition.t;
  InitContainerStatuses : list ContainerStatus.t;
  ContainerStatuses : list ContainerStatus.t }.
End PodStatus.

Module Pod.
Record t := mk {
  Meta : ObjectMeta.t;
  Spec : PodSpec.t;
  Status : PodStatus.t }.
End Pod.

Module JobSpec.
Record t := mk {
  Parallelism : option Z;
  Completions : option Z;
  BackoffLimit : option Z;
  ActiveDeadlineSeconds : option Z;
  TTLSecondsAfterFinished : option Z;
  Suspend : option bool;
  Template : PodTemplateSpec.t;
  rest : Rest }.
End JobSpec.

Module JobStatus.
Record t := mk {
  Conditions : list Condition.t;
  Active : Z;
  Failed : Z;
  Ready : option Z }.
End JobStatus.

Module Job.
Record t := mk {
  Meta : ObjectMeta.t;
  Spec : JobSpec.t;
  Status : JobStatus.t }.
End Job.

(** [Selector] is [Selector.MatchLabels]. *)
Module StatefulSetSpec.
Record t := mk {
  Replicas : option Z;
  Selector : option (gmap string string);
  Template : PodTemplateSpec.t;
  PodManagementPolicy : string;
  rest : Rest }.
End StatefulSetSpec.

Module StatefulSetStatus.
Record t := mk {
  Replicas : Z;
  ReadyReplicas : Z }.
End StatefulSetStatus.

Module StatefulSet.
Record t := mk {
  Meta : ObjectMeta.t;
  Spec : StatefulSetSpec.t;
  Status : StatefulSetStatus.t }.
End StatefulSet.

Module ServicePort.
Record t := mk {
  Protocol : string;
  Name : string;
  Port : Z;
  TargetPort : IntOrString;
  rest : Rest }.
End ServicePort.

Module ServiceSpec.
Record t := mk {
  Ports : list ServicePort.t;
  Selector : gmap string string;
  PublishNotReadyAddresses : bool;
  rest : Rest }.
End ServiceSpec.

(** For every load balancer ingress point, the [Error] of each of its ports. *)
Module LoadBalancerStatus.
Record t := mk {
  Ingress : list (list (option string)) }.
End LoadBalancerStatus.

Module Service.
Record t := mk {
  Meta : ObjectMeta.t;
  Spec : ServiceSpec.t;
  LoadBalancer : LoadBalancerStatus.t }.
End Service.

(** [Requests] is [Resources.Requests]. *)
Module PersistentVolumeClaimSpec.
Record t := mk {
  AccessModes : list string;
  Requests : gmap string Quantity.t;
  StorageClassName : option string;
  rest : Rest }.
End PersistentVolumeClaimSpec.

Module PersistentVolumeClaimStatus.
Record t := mk {
  Phase : string;
  AllocatedResourceStatuses : gmap string string;
  Conditions : list Condition.t }.
End PersistentVolumeClaimStatus.

Module PersistentVolumeClaim.
Record t := mk {
  Meta : ObjectMeta.t;
  Spec : PersistentVolumeClaimSpec.t;
  Status : PersistentVolumeClaimStatus.t }.
End PersistentVolumeClaim.

Module IngressServiceBackend.
Record t := mk {
  Name : string;
  PortName : string }.
End IngressServiceBackend.

Module HTTPIngressPath.
Record t := mk {
  Path : string;
  PathType : option string;
  Backend : option IngressServiceBackend.t }.
End HTTPIngressPath.

(** [Paths] is [HTTP.Paths]. *)
Module IngressRule.
Record t := mk {
  Host : string;
  Paths : list HTTPIngressPath.t }.
End IngressRule.

Module IngressTLS.
Record t := mk {
  Hosts : list string;
  SecretName : string }.
End IngressTLS.

Module IngressSpec.
Record t := mk {
  IngressClassName : option string;
  TLS : list IngressTLS.t;
  Rules : list IngressRule.t;
  rest : Rest }.
End IngressSpec.

Module Ingress.
Record t := mk {
  Meta : ObjectMeta.t;
  Spec : IngressSpec.t;
  LoadBalancer : LoadBalancerStatus.t }.
End Ingress.

Module Secret.
Record t := mk {
  Meta : ObjectMeta.t;
  Data : gmap string string;
  StringData : gmap string string;
  rest : Rest }.
End Secret.

Module Event.
Record t := mk {
  Reason : string;
  Message : string;
  EventTime : Time.t;
  FirstTimestamp : Time.t;
  LastTimestamp : Time.t;
  rest : Rest }.
End Event.
