(* ===== verification/Types.v ===== *)
(** * The AmaltheaSession custom resource (api/v1alpha1/amaltheasession_types.go)

    The Go string types ([State], [SessionType], ...) are strings with the
    constants of the source; structs are records in a module of the same name;
    [time] values are [Time.t] and [Duration.t].  The URL methods of the
    resource and its name helpers are here too. *)

From S2P Require Import Prelude NetUrl K8s.

(** ** Constants of the string types *)

Definition CodeRepositoryType : Type := string.
Definition Git : CodeRepositoryType := "git".
Definition StorageType : Type := string.
Definition Rclone : StorageType := "rclone".
Definition AuthenticationType : Type := string.
Definition Token : AuthenticationType := "token".
Definition OauthProxy : AuthenticationType := "oauth2proxy".
Definition Oidc : AuthenticationType := "oidc".

Definition State : Type := string.
Definition Running : State := "Running".
Definition Failed : State := "Failed".
Definition Hibernated : State := "Hibernated".
Definition NotReady : State := "NotReady".
Definition RunningDegraded : State := "RunningDegraded".
Definition Succeeded : State := "Succeeded".

Definition ReconcileStrategy : Type := string.
Definition Never : ReconcileStrategy := "never".
Definition Always : ReconcileStrategy := "always".
Definition WhenFailedOrHibernated : ReconcileStrategy := "whenFailedOrHibernated".

Definition ReadinessProbeType : Type := string.
Definition ProbeNone : ReadinessProbeType := "none".
Definition TCP : ReadinessProbeType := "tcp".
Definition HTTP : ReadinessProbeType := "http".

Definition SessionLocation : Type := string.
Definition Local_ : SessionLocation := "local".
Definition Remote : SessionLocation := "remote".

Definition SessionType : Type := string.
Definition SessionTypeInteractive : SessionType := "Interactive".
Definition SessionTypeNonInteractive : SessionType := "NonInteractive".

Definition AmaltheaSessionConditionType : Type := string.
Definition AmaltheaSessionReady : AmaltheaSessionConditionType := "Ready".
Definition AmaltheaSessionRoutingReady : AmaltheaSessionConditionType := "RoutingReady".

(** ** Structs *)

Module SessionSecretKeyRef.
Record t := mk { Name : string; Key : string; Adopt : bool }.
Definition isAdopted (s : option t) : bool :=
  match s with Some s => (Name s ≠s "") && Adopt s | None => false end.
End SessionSecretKeyRef.

Module SessionSecretRef.
Record t := mk { Name : string; Key : string; Adopt : bool }.
Definition isAdopted (s : option t) : bool :=
  match s with Some s => (Name s ≠s "") && Adopt s | None => false end.
End SessionSecretRef.

Module Storage.
Record t := mk {
  ClassName : option string;
  Size : option Quantity.t;
  MountPath : string }.
End Storage.

Module Session.
Record t := mk {
  Image : string;
  ImagePullPolicy : string;
  Command : list string;
  Args : list string;
  Env : list EnvVar.t;
  Resources : ResourceRequirements.t;
  Port : Z;
  Storage_ : Storage.t;
  ShmSize : option Quantity.t;
  WorkingDir : string;
  RunAsUser : Z;
  RunAsGroup : Z;
  URLPath : string;
  StripURLPath : bool;
  ExtraVolumeMounts : list VolumeMount.t;
  ReadinessProbe : ReadinessProbeType;
  RemoteSecretRef : option SessionSecretRef.t }.
End Session.

Module SessionIngress.
Record t := mk {
  Annotations : gmap string string;
  IngressClassName : option string;
  Host : string;
  TLSSecret : option SessionSecretRef.t;
  PathPrefix : string;
  UseDefaultClusterTLSCert : bool;
  AssumeHttps : bool }.
End SessionIngress.

Module CodeRepository.
Record t := mk {
  Type_ : CodeRepositoryType;
  ClonePath : string;
  Remote_ : string;
  Revision : string;
  CloningConfigSecretRef : option SessionSecretKeyRef.t;
  ConfigSecretRef : option SessionSecretKeyRef.t }.
End CodeRepository.

Module DataSource.
Record t := mk {
  Type_ : StorageType;
  MountPath : string;
  AccessMode : string;
  SecretRef : option SessionSecretRef.t }.
End DataSource.

Module Culling.
Record t := mk {
  MaxAge : Duration.t;
  MaxIdleDuration : Duration.t;
  MaxStartingDuration : Duration.t;
  MaxFailedDuration : Duration.t;
  MaxHibernatedDuration : Duration.t;
  LastInteraction : Time.t;
  CPUIdleThreshold : Quantity.t }.
End Culling.

Module Authentication.
Record t := mk {
  Enabled : bool;
  Type_ : AuthenticationType;
  SecretRef : SessionSecretRef.t;
  ExtraVolumeMounts : list VolumeMount.t }.
End Authentication.

Module TemplateMetadata.
Record t := mk {
  Annotations : gmap string string;
  Labels : gmap string string }.
End TemplateMetadata.

Module ContainerCounts.
Record t := mk { Ready : Z; Total : Z }.
Definition zero : t := mk 0 0.
Definition Ok (c : t) : bool := (Ready c =? Total c)%Z.
End ContainerCounts.

Module AmaltheaSessionCondition.
Record t := mk {
  Type_ : AmaltheaSessionConditionType;
  Status : string;
  LastTransitionTime : Time.t;
  Reason : string;
  Message : string }.
End AmaltheaSessionCondition.

Module AmaltheaSessionSpec.
Record t := mk {
  SessionLocation_ : SessionLocation;
  Session_ : Session.t;
  CodeRepositories : list CodeRepository.t;
  DataSources : list DataSource.t;
  Authentication_ : option Authentication.t;
  Culling_ : Culling.t;
  Hibernated_ : bool;
  ExtraContainers : list Container.t;
  ExtraInitContainers : list Container.t;
  ExtraVolumes : list Volume.t;
  Ingress_ : option SessionIngress.t;
  NodeSelector : gmap string string;
  Affinity : option Opaque;
  Tolerations : list Opaque;
  ReconcileStrategy_ : ReconcileStrategy;
  PriorityClassName : string;
  ImagePullSecrets : list SessionSecretRef.t;
  ServiceAccountName : string;
  Template : TemplateMetadata.t;
  SessionType_ : SessionType }.

(** The assignment [spec.Hibernated = b]. *)
Definition with_Hibernated (s : t) (b : bool) : t :=
  mk (SessionLocation_ s) (Session_ s) (CodeRepositories s) (DataSources s)
     (Authentication_ s) (Culling_ s) b (ExtraContainers s) (ExtraInitContainers s)
     (ExtraVolumes s) (Ingress_ s) (NodeSelector s) (Affinity s) (Tolerations s)
     (ReconcileStrategy_ s) (PriorityClassName s) (ImagePullSecrets s)
     (ServiceAccountName s) (Template s) (SessionType_ s).
End AmaltheaSessionSpec.

Module AmaltheaSessionStatus.
Record t := mk {
  Conditions : list AmaltheaSessionCondition.t;
  State_ : State;
  URL : string;
  ContainerCounts_ : ContainerCounts.t;
  InitContainerCounts : ContainerCounts.t;
  Idle : bool;
  IdleSince : Time.t;
  FailingSince : Time.t;
  FailedSchedulingSince : Time.t;
  HibernatedSince : Time.t;
  WillHibernateAt : Time.t;
  RunID : string;
  Error : string }.

(** Field assignments of the sources. *)
Definition with_State (s : t) (x : State) : t :=
  mk (Conditions s) x (URL s) (ContainerCounts_ s) (InitContainerCounts s) (Idle s)
     (IdleSince s) (FailingSince s) (FailedSchedulingSince s) (HibernatedSince s)
     (WillHibernateAt s) (RunID s) (Error s).
Definition with_URL (s : t) (x : string) : t :=
  mk (Conditions s) (State_ s) x (ContainerCounts_ s) (InitContainerCounts s) (Idle s)
     (IdleSince s) (FailingSince s) (FailedSchedulingSince s) (HibernatedSince s)
     (WillHibernateAt s) (RunID s) (Error s).
Definition with_Counts (s : t) (init counts : ContainerCounts.t) : t :=
  mk (Conditions s) (State_ s) (URL s) counts init (Idle s)
     (IdleSince s) (FailingSince s) (FailedSchedulingSince s) (HibernatedSince s)
     (WillHibernateAt s) (RunID s) (Error s).
Definition with_FailedSchedulingSince (s : t) (x : Time.t) : t :=
  mk (Conditions s) (State_ s) (URL s) (ContainerCounts_ s) (InitContainerCounts s) (Idle s)
     (IdleSince s) (FailingSince s) x (HibernatedSince s) (WillHibernateAt s) (RunID s) (Error s).
Definition with_Since (s : t) (idle failing failedScheduling hibernated : Time.t) : t :=
  mk (Conditions s) (State_ s) (URL s) (ContainerCounts_ s) (InitContainerCounts s) (Idle s)
     idle failing failedScheduling hibernated (WillHibernateAt s) (RunID s) (Error s).
Definition with_RunID (s : t) (x : string) : t :=
  mk (Conditions s) (State_ s) (URL s) (ContainerCounts_ s) (InitContainerCounts s) (Idle s)
     (IdleSince s) (FailingSince s) (FailedSchedulingSince s) (HibernatedSince s)
     (WillHibernateAt s) x (Error s).
Definition with_Error (s : t) (x : string) : t :=
  mk (Conditions s) (State_ s) (URL s) (ContainerCounts_ s) (InitContainerCounts s) (Idle s)
     (IdleSince s) (FailingSince s) (FailedSchedulingSince s) (HibernatedSince s)
     (WillHibernateAt s) (RunID s) x.
End AmaltheaSessionStatus.

Module AmaltheaSession.
Record t := mk {
  Meta : ObjectMeta.t;
  Spec : AmaltheaSessionSpec.t;
  Status : AmaltheaSessionStatus.t }.
Definition Name (cr : t) : string := ObjectMeta.Name (Meta cr).
Definition Namespace (cr : t) : string := ObjectMeta.Namespace (Meta cr).
Definition with_Status (cr : t) (s : AmaltheaSessionStatus.t) : t := mk (Meta cr) (Spec cr) s.
Definition with_Hibernated (cr : t) (b : bool) : t :=
  mk (Meta cr) (AmaltheaSessionSpec.with_Hibernated (Spec cr) b) (Status cr).
Definition with_Finalizers (cr : t) (fs : list string) : t :=
  mk {| ObjectMeta.Name := ObjectMeta.Name (Meta cr);
        ObjectMeta.Namespace := ObjectMeta.Namespace (Meta cr);
        ObjectMeta.Labels := ObjectMeta.Labels (Meta cr);
        ObjectMeta.Annotations := ObjectMeta.Annotations (Meta cr);
        ObjectMeta.UID := ObjectMeta.UID (Meta cr);
        ObjectMeta.CreationTimestamp := ObjectMeta.CreationTimestamp (Meta cr);
        ObjectMeta.DeletionTimestamp := ObjectMeta.DeletionTimestamp (Meta cr);
        ObjectMeta.Finalizers := fs;
        ObjectMeta.OwnerReferences := ObjectMeta.OwnerReferences (Meta cr);
        ObjectMeta.rest := ObjectMeta.rest (Meta cr) |} (Spec cr) (Status cr).
End AmaltheaSession.

Abbreviation Spec_Session cr :=
  (AmaltheaSessionSpec.Session_ (AmaltheaSession.Spec cr)) (only parsing).
Abbreviation Spec_Ingress cr :=
  (AmaltheaSessionSpec.Ingress_ (AmaltheaSession.Spec cr)) (only parsing).

Definition servicePort : Z := 80.

(** ** URLs and names of a session *)

Section Urls.
Context (env : Env).

Definition getHttpsSessionIngress : bool :=
  Strings.ToLower (Getenv env "HTTPS_SESSION_INGRESS") =s "true".

Definition UrlScheme (ingress : SessionIngress.t) : string :=
  if match SessionIngress.TLSSecret ingress with
     | Some s => SessionSecretRef.Name s ≠s ""
     | None => false
     end || SessionIngress.UseDefaultClusterTLSCert ingress
        || SessionIngress.AssumeHttps ingress || getHttpsSessionIngress
  then "https" else "http".

Definition GetURL (a : AmaltheaSession.t) : option URL.t :=
  match Spec_Ingress a with
  | None => None
  | Some ing =>
      if SessionIngress.Host ing =s "" then None
      else
        let urlScheme := UrlScheme ing in
        let path := Session.URLPath (Spec_Session a) in
        let path := if negb (Strings.HasSuffix path "/") then path +:+ "/" else path in
        match url_Parse path with
        | None => Some (URL.new urlScheme (SessionIngress.Host ing) path)
        | Some sessionURL => Some (URL.with_SchemeHost sessionURL urlScheme (SessionIngress.Host ing))
        end
  end.

Definition GetURLString (a : AmaltheaSession.t) : string :=
  match GetURL a with
  | None => "None"
  | Some sessionURL => URL_String sessionURL
  end.

(** [a.Service().Name] is [a.Name]. *)
Definition GetHealthcheckURL (a : AmaltheaSession.t) : URL.t :=
  match GetURL a with
  | Some u => u
  | None => URL.new "http" (AmaltheaSession.Name a +:+ ":" +:+ pretty servicePort)
                    (Session.URLPath (Spec_Session a))
  end.
End Urls.

Definition PodName (as_ : AmaltheaSession.t) : string := AmaltheaSession.Name as_ +:+ "-0".
Definition JobName (as_ : AmaltheaSession.t) : string := AmaltheaSession.Name as_.
