(* ===== verification/Api.v ===== *)
(** * The calls the operator makes: one event per call

    Every interaction of internal/controller with its environment is an event
    of [Api]: the clock, the entropy source, the ULID generator, the
    Kubernetes API (through the controller-runtime client), the metrics API
    and the Prometheus registry.  [CreateOrPatch] is the library routine
    controllerutil.CreateOrPatch as one call: the library reads the object,
    runs the mutation callback on what it read and writes the result, so the
    event carries the object and the callback, and the answer is the updated
    object, what the callback recorded, the operation result and the error. *)

From S2P Require Import Prelude Prog K8s Types.

(** [controllerutil.OperationResult] *)
Definition OperationResult : Type := string.
Definition OperationResultNone : OperationResult := "unchanged".
Definition OperationResultCreated : OperationResult := "created".
Definition OperationResultUpdated : OperationResult := "updated".

(** The two closures the children's callbacks store in [statusCallback]
    (internal/controller/children.go): the session is being resumed, or
    hibernated.  They are run later, by [ChildResourceUpdates.statusCallback]. *)
Inductive StatusCallback : Type := ResumedCallback | HibernatedCallback.

(** A gauge value: a float64 conversion of an integer, or [d.Seconds()]. *)
Inductive GaugeValue : Type := Float64 (z : Z) | SecondsOf (d : Duration.t).

Module PodMetrics.
Record ContainerMetrics := mk { Name : string; Usage : gmap string Quantity.t }.
Record t := mkPod { Containers : list ContainerMetrics }.
End PodMetrics.

(** The kinds of child resources ([ChildResourceType]). *)
Inductive Kind : Type → Type :=
| KIngress : Kind Ingress.t
| KService : Kind Service.t
| KStatefulSet : Kind StatefulSet.t
| KPVC : Kind PersistentVolumeClaim.t
| KSecret : Kind Secret.t
| KJob : Kind Job.t.

(** A mutation callback: the mutated object, the closure it stored in
    [statusCallback] if any, and the error it returned. *)
Definition MutateFn (T : Type) : Type := T → T * option StatusCallback * option GoError.

Inductive Api : Type → Type :=
| Now : Api Time.t
| MakeULID : Api string
| RandRead (n : nat) : Api (Result string)
| GetSession (namespace name : string) : Api (Result AmaltheaSession.t)
| UpdateStatus (cr : AmaltheaSession.t) : Api (AmaltheaSession.t * option GoError)
| UpdateSession (cr : AmaltheaSession.t) : Api (AmaltheaSession.t * option GoError)
| DeleteSession (cr : AmaltheaSession.t) : Api (option GoError)
| DeleteSecret (secret : Secret.t) : Api (option GoError)
| DeleteIngress (ing : Ingress.t) : Api (option GoError)
| GetPod (namespace name : string) : Api (Result Pod.t)
| ListPods (namespace : string) (selector : gmap string string) : Api (Result (list Pod.t))
| GetJob (namespace name : string) : Api (Result Job.t)
| GetIngress (namespace name : string) : Api (Result Ingress.t)
| ListEvents (namespace kind name : string) : Api (Result (list Event.t))
| ListPodMetrics (namespace name : string) : Api (Result (list PodMetrics.t))
| CreateOrPatch {T} (k : Kind T) (obj : T) (f : MutateFn T)
    : Api (T * option StatusCallback * OperationResult * option GoError)
| SetGauge (gauge : string) (labels : list string) (v : GaugeValue) : Api unit
| DeleteGauge (gauge : string) (labels : list string) : Api unit.

Definition M : Type → Type := Prog Api.

(** [SetControllerReference(cr, obj, scheme)] of controllerutil, on the
    metadata of owner and object; it fails when another controller owns the
    object.  A parameter of the development. *)
Class ControllerUtil := {
  SetControllerReference : ObjectMeta.t → ObjectMeta.t → ObjectMeta.t * option GoError;
}.

(** Documented: only the owner references of the object change. *)
Definition SetControllerReference_documented `{ControllerUtil} : Prop :=
  ∀ owner obj,
    let obj' := fst (SetControllerReference owner obj) in
    ObjectMeta.Name obj' = ObjectMeta.Name obj ∧
    ObjectMeta.Namespace obj' = ObjectMeta.Namespace obj ∧
    ObjectMeta.Labels obj' = ObjectMeta.Labels obj ∧
    ObjectMeta.Annotations obj' = ObjectMeta.Annotations obj ∧
    ObjectMeta.CreationTimestamp obj' = ObjectMeta.CreationTimestamp obj.

(** Documented behaviour of CreateOrPatch, as a relation between the call and
    its answer: either the object could not be read and the callback was not
    run, or the callback ran once, on the object as read (the given one when
    there is none in the cluster).  An error of the callback is returned and
    nothing is written; otherwise the callback's object is written and the
    server's version of it, or an error, comes back.  [server] is what the API
    server may turn a written object into. *)
Definition CreateOrPatch_documented {T} (server : T → T → Prop) (obj : T) (f : MutateFn T)
    (ans : T * option StatusCallback * OperationResult * option GoError) : Prop :=
  let '(out, cb, res, err) := ans in
  (cb = None ∧ res = OperationResultNone ∧ is_Some err) ∨
  (∃ base mutated merr,
      f base = (mutated, cb, merr) ∧
      match merr with
      | Some e => out = mutated ∧ res = OperationResultNone ∧ err = Some e
      | None => server mutated out ∨ (out = mutated ∧ is_Some err)
      end).
