(* ===== verification/Names.v ===== *)
(** * Names, labels and small helpers of the child resources

    The constants and helper methods of
    api/v1alpha1/amaltheasession_children.go that the builders share. *)

From S2P Require Import Prelude K8s Types.

(** ** Constants *)

Definition prefix_ : string := "amalthea-".
Definition SessionContainerName : string := prefix_ +:+ "session".
Definition servicePortName : string := prefix_ +:+ "http".
Definition serviceMetaPortName : string := prefix_ +:+ "http-meta".
Definition sessionVolumeName : string := prefix_ +:+ "volume".
Definition shmVolumeName : string := prefix_ +:+ "dev-shm".
Definition tunnelContainerName : string := "tunnel".
Definition tunnelServiceName : string := prefix_ +:+ "tunnel".
Definition TunnelIngressPathSuffix : string := "__amalthea__/tunnel".
Definition authenticatedPort : Z := 65535.
Definition AuthProxyMetaPort : Z := 65534.
Definition secondProxyPort : Z := 65533.
Definition RemoteSessionControllerPort : Z := 65532.
Definition TunnelPort : Z := 65531.
Definition rcloneDefaultStorage : Quantity.t := Quantity.MustParse "1Gi".
Definition rcloneStorageSecretNameAnnotation : string := "csi-rclone.dev/secretName".
Definition oneMebiByte : Z := 1024 * 1024.

(** ** Process configuration read from the environment *)

Section Config.
Context (env : Env).

Definition getStorageClass : string :=
  let sc := Getenv env "RCLONE_STORAGE_CLASS" in
  if sc =s "" then "csi-rclone-secret-annotation" else sc.

Definition getSidecarsImage : string :=
  let sc := Getenv env "SIDECARS_IMAGE" in
  if sc =s "" then "renku/sidecars:latest" else sc.

Definition getUseNoneSameSiteSessionCookie : bool :=
  Strings.ToLower (Getenv env "USE_NONE_SAME_SITE_SESSION_COOKIE") =s "true".
End Config.

(** ** Paths *)

Definition withSlash (path : string) : string :=
  if negb (Strings.HasSuffix path "/") then path +:+ "/" else path.

Definition urlPath (cr : AmaltheaSession.t) : string :=
  withSlash (Session.URLPath (Spec_Session cr)).

Definition ingressPathPrefix (cr : AmaltheaSession.t) : string :=
  match Spec_Ingress cr with
  | None => "/"
  | Some ing => withSlash (SessionIngress.PathPrefix ing)
  end.

Lemma withSlash_suffix (p : string) : Strings.HasSuffix (withSlash p) "/" = true.
Proof.
  unfold withSlash. destruct (Strings.HasSuffix p "/") eqn:E; cbn; [done|].
  apply Strings.HasSuffix_app.
Qed.

Lemma withSlash_idem (p : string) : withSlash (withSlash p) = withSlash p.
Proof. unfold withSlash at 1. by rewrite withSlash_suffix. Qed.

#[export] Hint Resolve withSlash_suffix : amalthea.

(** ** Labels *)

(** [findConflicts] ranges over a map: the order of the answer is one of the
    orders Go may produce. *)
Definition findConflicts (destination source : gmap string string) : list string :=
  omap (λ '(srcKey, _), if destination !! srcKey is Some _ then Some srcKey else None)
       (map_to_list source).

Definition selectorLabels (name : string) : gmap string string :=
  {[ "app.kubernetes.io/name" := "AmaltheaSession";
     "app.kubernetes.io/instance" := name;
     "app.kubernetes.io/part-of" := "amaltheasession-operator";
     "app.kubernetes.io/created-by" := "controller-manager" ]}.

(** The conflicts are only logged. *)
Definition childLabels (cr : AmaltheaSession.t) : gmap string string :=
  let sessionLabels :=
    maps_Copy ∅ (TemplateMetadata.Labels (AmaltheaSessionSpec.Template (AmaltheaSession.Spec cr))) in
  maps_Copy sessionLabels (selectorLabels (AmaltheaSession.Name cr)).

Abbreviation templateAnnotations cr :=
  (TemplateMetadata.Annotations (AmaltheaSessionSpec.Template (AmaltheaSession.Spec cr))) (only parsing).

Lemma childLabels_selector (cr : AmaltheaSession.t) :
  selectorLabels (AmaltheaSession.Name cr) ⊆ childLabels cr.
Proof. unfold childLabels, maps_Copy. apply map_union_subseteq_l. Qed.

Lemma findConflicts_spec (d s : gmap string string) (k : string) :
  k ∈ findConflicts d s ↔ is_Some (d !! k) ∧ is_Some (s !! k).
Proof.
  unfold findConflicts. rewrite list_elem_of_omap. split.
  - intros ([k' v] & Hin & Hk). apply elem_of_map_to_list in Hin.
    destruct (d !! k') eqn:Ed; simplify_eq. eauto.
  - intros [[v Hv] [w Hw]]. exists (k, w). rewrite elem_of_map_to_list, Hv. done.
Qed.

Definition InternalSecretName (as_ : AmaltheaSession.t) : string :=
  AmaltheaSession.Name as_ +:+ "---internal".

(** ** Resources *)

Section Resources.
Context `{QuantityOps}.

Definition resourceValue (res : ResourceRequirements.t) (name : string) : Quantity.t :=
  match ResourceRequirements.Requests res !! name with
  | Some q => if negb (Quantity_IsZero q) then q
              else match ResourceRequirements.Limits res !! name with
                   | Some q => if negb (Quantity_IsZero q) then q else Quantity.zero
                   | None => Quantity.zero
                   end
  | None => match ResourceRequirements.Limits res !! name with
            | Some q => if negb (Quantity_IsZero q) then q else Quantity.zero
            | None => Quantity.zero
            end
  end.
End Resources.

(** ** Literals of the sidecar containers *)

Definition requestsAndMemoryLimit (memory cpu : string) : ResourceRequirements.t :=
  {| ResourceRequirements.Requests := {[ "memory" := Quantity.MustParse memory; "cpu" := Quantity.MustParse cpu ]};
     ResourceRequirements.Limits := {[ "memory" := Quantity.MustParse memory ]};
     ResourceRequirements.rest := NoRest |}.

(** [&v1.SecurityContext{AllowPrivilegeEscalation: false, RunAsNonRoot: true,
    Capabilities: drop ALL}] *)
Definition restrictedContext (user group : option Z) : SecurityContext.t :=
  {| SecurityContext.AllowPrivilegeEscalation := Some false;
     SecurityContext.RunAsNonRoot := Some true;
     SecurityContext.RunAsUser := user; SecurityContext.RunAsGroup := group;
     SecurityContext.CapabilitiesDrop := ["ALL"]; SecurityContext.rest := NoRest |}.

Definition envVar (name value : string) : EnvVar.t :=
  {| EnvVar.Name := name; EnvVar.Value := value; EnvVar.ValueFrom := None |}.

Definition envFromSecretKey (name secret key : string) : EnvVar.t :=
  {| EnvVar.Name := name; EnvVar.Value := "";
     EnvVar.ValueFrom := Some {| EnvVarSource.SecretKeyRef :=
       Some {| SecretKeySelector.Name := secret; SecretKeySelector.Key := key;
               SecretKeySelector.rest := NoRest |};
       EnvVarSource.rest := NoRest |} |}.

Definition envFromSecret (secret : string) : EnvFromSource.t :=
  {| EnvFromSource.SecretRef := Some secret; EnvFromSource.rest := NoRest |}.

Definition volumeMount (name mountPath subPath : string) (readOnly : bool) : VolumeMount.t :=
  {| VolumeMount.Name := name; VolumeMount.ReadOnly := readOnly;
     VolumeMount.MountPath := mountPath; VolumeMount.SubPath := subPath;
     VolumeMount.rest := NoRest |}.

Definition pvcVolume (name claim : string) (readOnly : bool) : Volume.t :=
  {| Volume.Name := name;
     Volume.Source := {| VolumeSource.PersistentVolumeClaim :=
         Some {| PVCVolumeSource.ClaimName := claim; PVCVolumeSource.ReadOnly := readOnly |};
       VolumeSource.EmptyDir := None; VolumeSource.Secret := None; VolumeSource.rest := NoRest |} |}.

Definition secretVolume (name secret : string) (optional : option bool) : Volume.t :=
  {| Volume.Name := name;
     Volume.Source := {| VolumeSource.PersistentVolumeClaim := None; VolumeSource.EmptyDir := None;
       VolumeSource.Secret := Some {| SecretVolumeSource.SecretName := secret;
         SecretVolumeSource.Optional := optional; SecretVolumeSource.rest := NoRest |};
       VolumeSource.rest := NoRest |} |}.

Definition httpGet (path : string) (port : Z) : ProbeHandler.t :=
  {| ProbeHandler.HTTPGet := Some {| HTTPGetAction.Path := path;
       HTTPGetAction.Port := FromInt32 port; HTTPGetAction.rest := NoRest |};
     ProbeHandler.TCPSocket := None; ProbeHandler.rest := NoRest |}.

Definition tcpSocket (port : Z) : ProbeHandler.t :=
  {| ProbeHandler.HTTPGet := None; ProbeHandler.TCPSocket := Some (FromInt32 port);
     ProbeHandler.rest := NoRest |}.

Definition probe (h : ProbeHandler.t) (initialDelay period success : Z) : Probe.t :=
  {| Probe.Handler := h; Probe.InitialDelaySeconds := initialDelay;
     Probe.PeriodSeconds := period; Probe.SuccessThreshold := success; Probe.rest := NoRest |}.

Record manifests := mkManifests {
  manifests_Containers : list Container.t;
  manifests_Volumes : list Volume.t }.
