(* ===== verification/RemoteConfig.v ===== *)
(** * Configuration of the remote session controller (internal/remote/config)

    The configuration records and their validation, and the settings: the
    table of flags and environment variables that [SetFlags] binds, and the
    keys that [GetConfig] reads.  The settings library (viper) is the
    argument [Settings], a lookup of a key in the settings of the process; flags
    are not given on the command line of the side car. *)

From S2P Require Import Prelude NetUrl Types Names.
From Stdlib Require Import Ascii.

(** ** Utilities (config/utils) *)

(** A secret that is printed without its value (redacted_string.go). *)
Module RedactedString.
Definition t := string.
Definition String_ (r : t) : string := "<redacted-" +:+ pretty (Z.of_nat (String.length r)) +:+ "-chars>".
Definition MarshalJSON (r : t) : string := Strings.dquote +:+ String_ r +:+ Strings.dquote.
Definition MarshalText (r : t) : string := String_ r.
Definition MarshalBinary (r : t) : string := String_ r.
End RedactedString.

Fixpoint mapBytes (f : ascii → ascii) (s : string) : string :=
  match s with
  | EmptyString => ""
  | String c s' => String (f c) (mapBytes f s')
  end.

Definition dashToUnderscore (c : ascii) : ascii := if Ascii.eqb c "-" then "_"%char else c.
Definition upper (c : ascii) : ascii :=
  let n := Ascii.nat_of_ascii c in
  if ((97 <=? n) && (n <=? 122))%nat then Ascii.ascii_of_nat (n - 32) else c.

Definition RemoteSessionControllerPrefix : string := "RSC".

(** env.go *)
Definition AsEnvVarFlag (flag : string) : string :=
  let withUnderscores := mapBytes dashToUnderscore (RemoteSessionControllerPrefix +:+ "_" +:+ flag) in
  mapBytes upper withUnderscores.

(** ** Flags

    A flag, the key of its setting, and its default value as text. *)
Module Binding.
Record t := mk { Flag : string; Key : string; Default : string }.
Definition EnvVar (b : t) : string := AsEnvVarFlag (Flag b).
End Binding.

Definition topBinding (flag def : string) : Binding.t := Binding.mk flag flag def.
Definition authBinding (flag : string) : Binding.t := Binding.mk ("auth-" +:+ flag) ("auth." +:+ flag) "".

(** [SetFlags] of config/utils, config/firecrest and config/runai *)
Definition sharedFlags : list Binding.t := [topBinding "auth-kind" ""; authBinding "token-uri"].

Definition firecrestAuthFlags : list Binding.t :=
  map authBinding ["renku-access-token"; "renku-refresh-token"; "renku-token-uri"; "renku-client-id";
                   "renku-client-secret"; "firecrest-client-id"; "firecrest-client-secret"].
Definition firecrestFlags : list Binding.t :=
  [topBinding "firecrest-api-url" ""; topBinding "firecrest-system-name" ""; topBinding "firecrest-partition" ""] ++
  firecrestAuthFlags.

Definition runaiAuthFlags : list Binding.t := map authBinding ["runai-client-id"; "runai-client-secret"].
Definition runaiFlags : list Binding.t :=
  [topBinding "runai-base-url" ""; topBinding "runai-project" ""] ++ runaiAuthFlags.

(** [SetFlags] of config *)
Definition SetFlags : list Binding.t :=
  [topBinding "server-port" (pretty RemoteSessionControllerPort); topBinding "fake-start" "false";
   topBinding "session-port" "0"; topBinding "session-url-path" "/"; topBinding "readiness-probe-type" "none"] ++
  sharedFlags ++ firecrestFlags ++ runaiFlags.

(** ** FirecREST *)

Definition FirecrestAuthConfigKindRenku : string := "renku".
Definition FirecrestAuthConfigKindRenkuV2 : string := "renku_v2".
Definition FirecrestAuthConfigKindClientCredentials : string := "client_credentials".

(** [if !ok { return fmt.Errorf(msg) }] before the rest *)
Definition require (ok : bool) (msg : string) (rest : option GoError) : option GoError :=
  if ok then rest else Some (Errorf msg).

Definition isURL (s : string) : bool := match url_Parse s with Some _ => true | None => false end.

Module FirecrestAuthConfig.
Record t := mk {
  Kind : string;
  TokenURI : string;
  RenkuAccessToken : RedactedString.t;
  RenkuRefreshToken : RedactedString.t;
  RenkuTokenURI : string;
  RenkuClientID : string;
  RenkuClientSecret : RedactedString.t;
  FirecrestClientID : string;
  FirecrestClientSecret : RedactedString.t }.

Definition validateRenku (c : t) : option GoError :=
  require (TokenURI c ≠s "") "tokenURI is not defined" $
  require (isURL (TokenURI c)) "tokenURI is not valid" $
  require (RenkuRefreshToken c ≠s "") "renkuRefreshToken is not defined" $
  require (RenkuTokenURI c ≠s "") "renkuTokenURI is not defined" $
  require (isURL (RenkuTokenURI c)) "renkuTokenURI is not valid" $
  require (RenkuClientID c ≠s "") "renkuClientID is not defined" $
  require (RenkuClientSecret c ≠s "") "renkuClientSecret is not defined" None.

Definition validateRenkuV2 (c : t) : option GoError :=
  require (TokenURI c ≠s "") "tokenURI is not defined" $
  require (isURL (TokenURI c)) "tokenURI is not valid" $
  require (RenkuAccessToken c ≠s "") "renkuAccessToken is not defined" $
  require (RenkuRefreshToken c ≠s "") "renkuRefreshToken is not defined" $
  require (RenkuTokenURI c ≠s "") "renkuTokenURI is not defined" $
  require (isURL (RenkuTokenURI c)) "renkuTokenURI is not valid" None.

Definition validateClientCredentials (c : t) : option GoError :=
  require (TokenURI c ≠s "") "tokenURI is not defined" $
  require (isURL (TokenURI c)) "tokenURI is not valid" $
  require (FirecrestClientID c ≠s "") "firecrestClientID is not defined" $
  require (FirecrestClientSecret c ≠s "") "firecrestClientSecret is not defined" None.

Definition Validate (c : t) : option GoError :=
  if Kind c =s "" then Some (Errorf "kind is not defined")
  else if Kind c =s FirecrestAuthConfigKindRenku then validateRenku c
  else if Kind c =s FirecrestAuthConfigKindRenkuV2 then validateRenkuV2 c
  else if Kind c =s FirecrestAuthConfigKindClientCredentials then validateClientCredentials c
  else Some (Errorf ("auth '" +:+ Kind c +:+ "' is not supported")).
End FirecrestAuthConfig.

Module FirecrestConfig.
Record t := mk { APIURL : string; SystemName : string; Partition : string; AuthConfig : FirecrestAuthConfig.t }.

Definition Validate (c : t) : option GoError :=
  require (APIURL c ≠s "") "firecrest.APIURL is not defined" $
  require (isURL (APIURL c)) "firecrest.APIURL is not valid" $
  require (SystemName c ≠s "") "firecrest.SystemName is not defined" $
  FirecrestAuthConfig.Validate (AuthConfig c).
End FirecrestConfig.

(** ** Run:AI *)

Definition RunaiAuthConfigKindClientCredentials : string := "client_credentials".

Module RunaiAuthConfig.
Record t := mk { Kind : string; TokenURI : string; RunaiClientID : string; RunaiClientSecret : RedactedString.t }.

Definition validateClientCredentials (c : t) : option GoError :=
  require (RunaiClientID c ≠s "") "RunaiClientID is not defined" $
  require (RunaiClientSecret c ≠s "") "RunaiClientSecret is not defined" None.

Definition Validate (c : t) : option GoError :=
  if Kind c =s "" then Some (Errorf "kind is not defined")
  else if Kind c =s RunaiAuthConfigKindClientCredentials then validateClientCredentials c
  else Some (Errorf ("auth '" +:+ Kind c +:+ "' is not supported")).
End RunaiAuthConfig.

Module RunaiConfig.
Record t := mk { BaseURL : string; AuthConfig : RunaiAuthConfig.t; Project : string }.

Definition Validate (c : t) : option GoError :=
  require (BaseURL c ≠s "") "runai.BaseURL is not defined" $
  require (isURL (BaseURL c)) "runai.BaseURL is not valid" $
  RunaiAuthConfig.Validate (AuthConfig c).
End RunaiConfig.

(** ** The whole configuration (config.go) *)

Definition RemoteKindFirecrest : string := "firecrest".
Definition RemoteKindRunai : string := "runai".

Module RemoteConfig.
Record t := mk {
  RemoteKind : string;
  Firecrest : FirecrestConfig.t;
  Runai : RunaiConfig.t;
  ServerPort : Z;
  FakeStart : bool;
  SessionPort : Z;
  SessionURLPath : string;
  ReadinessProbeType : string }.
Definition with_RemoteKind (c : t) (kind : string) : t :=
  mk kind (Firecrest c) (Runai c) (ServerPort c) (FakeStart c) (SessionPort c) (SessionURLPath c) (ReadinessProbeType c).

(** The receiver is a pointer: the result holds the configuration after the
    call. *)
Definition Validate (c : t) : t * option GoError :=
  if (ReadinessProbeType c ≠s ProbeNone) && (ReadinessProbeType c ≠s TCP) && (ReadinessProbeType c ≠s HTTP)
  then (c, Some (Errorf ("invalid readiness probe type: " +:+ ReadinessProbeType c)))
  else
    let c := with_RemoteKind c RemoteKindFirecrest in
    match FirecrestConfig.Validate (Firecrest c) with
    | None => (c, None)
    | Some firecrestConfigErr =>
        match RunaiConfig.Validate (Runai c) with
        | Some _ => (c, Some firecrestConfigErr)
        | None => (with_RemoteKind c RemoteKindRunai, None)
        end
    end.
End RemoteConfig.

(** ** Reading the settings *)

(** The getters of the settings library. *)
Record Settings := mkSettings {
  GetString : string → string;
  GetInt32 : string → Z;
  GetBool : string → bool }.

Section GetConfig.
Context (viper : Settings).

Definition GetFirecrestAuthConfig : FirecrestAuthConfig.t :=
  {| FirecrestAuthConfig.Kind := GetString viper "auth-kind";
     FirecrestAuthConfig.TokenURI := GetString viper "auth.token-uri";
     FirecrestAuthConfig.RenkuAccessToken := GetString viper "auth.renku-access-token";
     FirecrestAuthConfig.RenkuRefreshToken := GetString viper "auth.renku-refresh-token";
     FirecrestAuthConfig.RenkuTokenURI := GetString viper "auth.renku-token-uri";
     FirecrestAuthConfig.RenkuClientID := GetString viper "auth.renku-client-id";
     FirecrestAuthConfig.RenkuClientSecret := GetString viper "auth.renku-client-secret";
     FirecrestAuthConfig.FirecrestClientID := GetString viper "auth.firecrest-client-id";
     FirecrestAuthConfig.FirecrestClientSecret := GetString viper "auth.firecrest-client-secret" |}.

Definition GetFirecrestConfig : FirecrestConfig.t :=
  {| FirecrestConfig.APIURL := GetString viper "firecrest-api-url";
     FirecrestConfig.SystemName := GetString viper "firecrest-system-name";
     FirecrestConfig.Partition := GetString viper "firecrest-partition";
     FirecrestConfig.AuthConfig := GetFirecrestAuthConfig |}.

Definition GetRunaiAuthConfig (apiUrl : string) : RunaiAuthConfig.t :=
  {| RunaiAuthConfig.Kind := GetString viper "auth-kind";
     RunaiAuthConfig.TokenURI := apiUrl +:+ "/api/v1/token";
     RunaiAuthConfig.RunaiClientID := GetString viper "auth.runai-client-id";
     RunaiAuthConfig.RunaiClientSecret := GetString viper "auth.runai-client-secret" |}.

Definition GetRunaiConfig : RunaiConfig.t :=
  let BaseURL := GetString viper "runai-base-url" in
  {| RunaiConfig.BaseURL := BaseURL;
     RunaiConfig.AuthConfig := GetRunaiAuthConfig BaseURL;
     RunaiConfig.Project := GetString viper "runai-project" |}.

(** [GetConfig]; the kind is only set by [Validate]. *)
Definition GetConfig : RemoteConfig.t :=
  {| RemoteConfig.RemoteKind := "";
     RemoteConfig.Firecrest := GetFirecrestConfig;
     RemoteConfig.Runai := GetRunaiConfig;
     RemoteConfig.ServerPort := GetInt32 viper "server-port";
     RemoteConfig.FakeStart := GetBool viper "fake-start";
     RemoteConfig.SessionPort := GetInt32 viper "session-port";
     RemoteConfig.SessionURLPath := GetString viper "session-url-path";
     RemoteConfig.ReadinessProbeType := GetString viper "readiness-probe-type" |}.
End GetConfig.
