(* ===== verification/FirecrestScript.v ===== *)
(** * Pure parts of the FirecREST controller (internal/remote/firecrest)

    Statuses of Slurm jobs, the choice of the scratch file system, the head
    branch in a git configuration, and the rendering of the session script.
    The script itself is an embedded file: the definitions take it as an
    argument. *)

From S2P Require Import Prelude.
From Stdlib Require Import Ascii.

Definition newline_ : string := String "010"%char EmptyString.

(** ** Searching in strings *)

(** The text before and after the last occurrence of [sep]. *)
Fixpoint CutLast (s sep : string) : option (string * string) :=
  match s with
  | EmptyString => None
  | String c s' =>
      match CutLast s' sep with
      | Some (a, b) => Some (String c a, b)
      | None => if Strings.HasPrefix s sep then Some ("", Strings.drop (String.length sep) s) else None
      end
  end.

(** [strings.Replace(s, old, new, 1)] *)
Definition Replace1 (s old new : string) : string :=
  match Strings.Cut s old with
  | (before, after, true) => before +:+ new +:+ after
  | (_, _, false) => s
  end.

(** [strings.Split(s, newline)]: there is always a last piece. *)
Fixpoint splitLines (s : string) : list string :=
  match s with
  | EmptyString => [""]
  | String c s' =>
      if Ascii.eqb c "010" then "" :: splitLines s'
      else match splitLines s' with
           | l :: ls => String c l :: ls
           | [] => [String c ""]
           end
  end.

(** ** Session states (models/status.go, status.go) *)

Definition RemoteSessionState : Type := string.
Definition Running : RemoteSessionState := "Running".
Definition Failed : RemoteSessionState := "Failed".
Definition Completed : RemoteSessionState := "Completed".
Definition NotReady : RemoteSessionState := "NotReady".

Definition statusMap : gmap string RemoteSessionState := list_to_map
  [("BOOT_FAIL", Failed); ("CANCELLED", Failed); ("COMPLETED", Completed); ("DEADLINE", Failed);
   ("FAILED", Failed); ("NODE_FAIL", Failed); ("OUT_OF_MEMORY", Failed); ("PENDING", NotReady);
   ("PREEMPTED", Failed); ("RUNNING", Running); ("SUSPENDED", Failed); ("TIMEOUT", Failed)].

Definition GetRemoteSessionState (status : string) : RemoteSessionState * option GoError :=
  match statusMap !! status with
  | Some state => (state, None)
  | None => (Failed, Some (Errorf ("status not recognized: " +:+ status)))
  end.

(** ** File systems *)

Module FileSystem.
Record t := mk { DataType : string; DefaultWorkDir : option bool; Path : string }.
End FileSystem.

Definition Scratch : string := "scratch".
Definition Store : string := "store".
Definition Users : string := "users".

Definition isDefaultScratch (fs : FileSystem.t) : bool :=
  (FileSystem.DataType fs =s Scratch) &&
  match FileSystem.DefaultWorkDir fs with Some b => b | None => false end.

(** Each loop keeps the last match. *)
Definition getPreferredScratch (fileSystems : option (list FileSystem.t)) : option FileSystem.t :=
  match fileSystems with
  | None => None
  | Some l =>
      match foldl (λ scratch fs, if isDefaultScratch fs then Some fs else scratch) None l with
      | Some scratch => Some scratch
      | None => foldl (λ scratch fs, if FileSystem.DataType fs =s Scratch then Some fs else scratch) None l
      end
  end.

(** ** The head branch in a git configuration

    The regular expression takes the text between the first [[branch DQ] of the
    line and the last [DQ]] after it, which must not be empty. *)
Definition branchOpen : string := "[branch " +:+ Strings.dquote.
Definition branchClose : string := Strings.dquote +:+ "]".

Definition matchBranch (line : string) : option string :=
  match Strings.Cut line branchOpen with
  | (_, after, true) =>
      match CutLast after branchClose with
      | Some (EmptyString, _) | None => None
      | Some (branch, _) => Some branch
      end
  | (_, _, false) => None
  end.

Definition isSpaceByte (c : ascii) : bool :=
  let n := Ascii.nat_of_ascii c in ((n =? 32) || ((9 <=? n) && (n <=? 13)))%nat.

Fixpoint trimLeft (s : string) : string :=
  match s with
  | String c s' => if isSpaceByte c then trimLeft s' else s
  | EmptyString => ""
  end.

Fixpoint trimRight (s : string) : string :=
  match s with
  | String c s' =>
      match trimRight s' with
      | EmptyString => if isSpaceByte c then "" else String c ""
      | t => String c t
      end
  | EmptyString => ""
  end.

(** [strings.TrimSpace], on ASCII *)
Definition TrimSpace (s : string) : string := trimRight (trimLeft s).

(** The tokens of a [bufio.Scanner] over lines: it stops at a line that does
    not fit in its buffer; the end of the text adds no empty line. *)
Definition maxToken : N := 65536.

Fixpoint takeTokens (l : list string) : list string :=
  match l with
  | [] => []
  | [last] => if last =s "" then [] else if (maxToken <=? N.of_nat (String.length last))%N then [] else [last]
  | line :: l => if (maxToken <=? N.of_nat (String.length line))%N then [] else line :: takeTokens l
  end.

Definition scanLines (contents : string) : list string := takeTokens (splitLines contents).

(** The loop of [collectGitRepositories] over the lines of one configuration. *)
Definition scanBranch (contents : string) : string :=
  default "" (head (omap (λ line, matchBranch (TrimSpace line)) (scanLines contents))).

(** ** The session script *)

(** The note for maintainers extends from its first opening to the end of the
    line of its last closing; a closing on an unfinished last line does not
    count. *)
Definition noteOpen : string := "# NOTE FOR AMALTHEA MAINTAINERS".
Definition noteClose : string := "# END NOTE".

(** The text up to and including its last newline. *)
Definition finishedLines (s : string) : option (string * string) :=
  match CutLast s newline_ with
  | Some (a, b) => Some (a +:+ newline_, b)
  | None => None
  end.

Definition removeMaintainersNotesFromScript (sessionScript : string) : string :=
  match Strings.Cut sessionScript noteOpen with
  | (before, after, true) =>
      match finishedLines after with
      | None => sessionScript
      | Some (finished, rest) =>
          match CutLast finished noteClose with
          | None => sessionScript
          | Some (_, afterClose) =>
              let '(_, afterLine, _) := Strings.Cut afterClose newline_ in
              before +:+ afterLine +:+ rest
          end
      end
  | (_, _, false) => sessionScript
  end.

Definition sbatchPlaceholder : string := "#{{SBATCH_DIRECTIVES_PLACEHOLDER}}".
Definition mountsPlaceholder : string := "#{{SESSION_MOUNTS_PLACEHOLDER}}".

Definition optionalDirective (prefix value suffix : string) : list string :=
  if value ≠s "" then ["#SBATCH --" +:+ prefix +:+ value +:+ suffix] else [].

Section Script.
Context (env : Env).

Definition sbatchDirectives (partition : string) : list string :=
  ["#SBATCH --nodes=1"; "#SBATCH --ntasks-per-node=1"] ++
  optionalDirective "partition=" partition "" ++
  optionalDirective "account=" (Getenv env "USER_ENV_SLURM_ACCOUNT") "" ++
  (if Strings.ToLower (Getenv env "RSC_FIRECREST_FORWARD_RESOURCE_VALUES") =s "true" then
     optionalDirective "cpus-per-task=" (Getenv env "RSC_SESSION_CPU") "" ++
     optionalDirective "mem=" (Getenv env "RSC_SESSION_MEMORY") "M" ++
     optionalDirective "gpus=" (Getenv env "RSC_SESSION_GPUS") ""
   else []).

Definition addSbatchDirectivesToScript (sessionScript partition : string) : string :=
  Replace1 sessionScript sbatchPlaceholder (Strings.Join (sbatchDirectives partition) newline_).

Definition pathsOf (kind : string) (l : list FileSystem.t) : list string :=
  map FileSystem.Path (filter (λ fs, FileSystem.DataType fs = kind) l).

(** Scratch file systems, stores, the last home, and the secrets. *)
Definition sessionMounts (l : list FileSystem.t) (secretsPath : string) : list string :=
  pathsOf Scratch l ++ pathsOf Store l ++
  match list.last (pathsOf Users l) with
  | Some home => [home +:+ ":/home" +:+ home +:+ ":ro"]
  | None => []
  end ++
  [secretsPath +:+ ":/secrets:ro"].

Definition mountLine (mount : string) : string :=
  "    " +:+ Strings.dquote +:+ mount +:+ Strings.dquote +:+ ",".

Definition addSessionMountsToScript (sessionScript : string) (fileSystems : option (list FileSystem.t))
    (secretsPath : string) : string :=
  match fileSystems with
  | None => Replace1 sessionScript mountsPlaceholder ""
  | Some l =>
      Replace1 sessionScript mountsPlaceholder
        ("mounts = [" +:+ newline_ +:+
         Strings.Join (map mountLine (sessionMounts l secretsPath)) newline_ +:+ newline_ +:+ "]")
  end.

Definition renderSessionScriptStatic (sessionScript partition : string) (fileSystems : option (list FileSystem.t))
    (secretsPath : string) : string :=
  let sessionScriptFinal := removeMaintainersNotesFromScript sessionScript in
  let sessionScriptFinal := addSbatchDirectivesToScript sessionScriptFinal partition in
  addSessionMountsToScript sessionScriptFinal fileSystems secretsPath.
End Script.
