(* ===== verification/LogTail.v ===== *)
(** * Following a file line by line

    The specification of the copying of a log: a file that grows, the position
    up to which its lines have been delivered, and the position that a restart
    returns to.  Lines are delivered in order and whole; a restart may deliver
    some of them again, and none is lost. *)

From S2P Require Import Prelude FirecrestScript.
From Stdlib Require Import Ascii.

(** ** Lines *)

Definition lineFree (s : string) : Prop := splitLines s = [s].

Fixpoint unlines (l : list string) : string :=
  match l with
  | [] => ""
  | x :: l => x +:+ newline_ +:+ unlines l
  end.

Lemma splitLines_newline s t : lineFree s → splitLines (s +:+ newline_ +:+ t) = s :: splitLines t.
Proof.
  unfold lineFree. induction s as [|c s IH]; [done|]. cbn [splitLines]. rewrite Strings.app_cons. cbn [splitLines].
  destruct (Ascii.eqb c "010"); [done|]. intros H.
  assert (splitLines s = [s]) as Hs by (destruct (splitLines s) as [|x [|]] eqn:Es; [injection H as <-; done|congruence..]).
  by rewrite (IH Hs).
Qed.

(** A text is one line, or a line, a newline and the rest. *)
Lemma splitLines_cases s :
  lineFree s ∨ ∃ l t, s = l +:+ newline_ +:+ t ∧ lineFree l ∧ splitLines s = l :: splitLines t.
Proof.
  unfold lineFree. induction s as [|c s IH]; [by left|]. cbn [splitLines]. destruct (Ascii.eqb c "010") eqn:Ec.
  - right. apply Ascii.eqb_eq in Ec as ->. by exists "", s.
  - destruct IH as [Hs|(l & t & -> & Hl & Hs)].
    + left. by rewrite Hs.
    + right. exists (String c l), t. split; [done|]. cbn [splitLines]. by rewrite Ec, Hs, Hl.
Qed.

Lemma unlines_app l1 l2 : unlines (l1 ++ l2) = unlines l1 +:+ unlines l2.
Proof. induction l1 as [|x l1 IH]; [done|]. cbn. by rewrite IH, !Strings.app_assoc. Qed.

(** ** Positions in strings *)

Lemma take_add a b s : Strings.take (a + b) s = Strings.take a s +:+ Strings.take b (Strings.drop a s).
Proof.
  revert s. induction a as [|a IH]; intros s; [by destruct s|]. destruct s as [|c s]; [by destruct b|]. cbn. by rewrite IH.
Qed.

Lemma drop_add a b s : Strings.drop (a + b) s = Strings.drop b (Strings.drop a s).
Proof. revert s. induction a as [|a IH]; intros s; [by destruct s|]. destruct s as [|c s]; [by destruct b|]. apply IH. Qed.

Lemma take_app_le n s t : (n ≤ String.length s)%nat → Strings.take n (s +:+ t) = Strings.take n s.
Proof.
  revert s. induction n as [|n IH]; intros s Hn; [by destruct s, t|]. destruct s as [|c s]; [cbn in Hn; lia|].
  rewrite Strings.app_cons. cbn in *. f_equal. apply IH. lia.
Qed.

Lemma drop_app_le n s t : (n ≤ String.length s)%nat → Strings.drop n (s +:+ t) = Strings.drop n s +:+ t.
Proof.
  revert s. induction n as [|n IH]; intros s Hn; [by destruct s|]. destruct s as [|c s]; [cbn in Hn; lia|].
  rewrite Strings.app_cons. cbn in *. apply IH. lia.
Qed.

Lemma drop_length n s : String.length (Strings.drop n s) = (String.length s - n)%nat.
Proof. revert n. induction s as [|c s IH]; intros [|n]; cbn; [done..|]. apply IH. Qed.

(** ** The specification *)

Module Tail.
Record t := mk { file : string; pos : nat; committed : nat; out : list string }.

Inductive step : t → t → Prop :=
| Append f p c o text : step (mk f p c o) (mk (f +:+ text) p c o)
| Deliver f p c o line rest :
    Strings.drop p f = line +:+ newline_ +:+ rest → lineFree line →
    step (mk f p c o) (mk f (p + String.length line + 1) c (o ++ [line]))
| Commit f p c o : step (mk f p c o) (mk f p p o)
| Restart f p c o : step (mk f p c o) (mk f c c o).

Definition start (f : string) : t := mk f 0 0 [].

(** The lines before a position have all been delivered, in order. *)
Definition delivered (s : t) (p : nat) : Prop :=
  (p ≤ String.length (file s))%nat ∧
  ∃ ls, Strings.take p (file s) = unlines ls ∧ Forall lineFree ls ∧ ls `sublist_of` out s.

Definition good (s : t) : Prop := delivered s (pos s) ∧ delivered s (committed s).

Lemma delivered_append s p text : delivered s p → delivered (mk (file s +:+ text) (pos s) (committed s) (out s)) p.
Proof.
  intros [Hp (ls & Ht & Hf & Hs)]. split; cbn.
  - rewrite Strings.length_app. lia.
  - exists ls. by rewrite take_app_le.
Qed.

Lemma good_step s s' : good s → step s s' → good s'.
Proof.
  intros [Hp Hc] Hstep. destruct Hstep as [f p c o text|f p c o line rest Hd Hl|f p c o|f p c o]; [..|done|done].
  - split; by apply (delivered_append (mk f p c o)).
  - destruct Hp as [Hle (ls & Ht & Hf & Hs)], Hc as [Hcle (lc & Htc & Hfc & Hsc)]. cbn in *.
    pose proof (drop_length p f) as Hlen. rewrite Hd, !Strings.length_app in Hlen. cbn in Hlen. split.
    + split; cbn; [lia|]. exists (ls ++ [line]). split; [|split; [apply Forall_app; auto|by apply sublist_app]].
      rewrite <- Nat.add_assoc, take_add, Ht, Hd, unlines_app. f_equal. cbn.
      rewrite <- Strings.app_assoc. replace (String.length line + 1)%nat with (String.length (line +:+ newline_))
        by (rewrite Strings.length_app; done). by rewrite Strings.take_app.
    + split; [done|]. exists lc. split_and!; [done..|]. by apply sublist_inserts_r.
Qed.

Lemma good_steps f s : rtc step (start f) s → good s.
Proof.
  intros H. assert (good (start f)) as H0.
  { split; (split; [cbn; lia|]); exists []; by destruct f. }
  revert H0. induction H as [|s1 s2 s3 H12 _ IH]; [done|]. intros Hg. apply IH. by eapply good_step.
Qed.
End Tail.
