(* ===== verification/ScriptProps.v ===== *)
(** * The regular expression of the maintainers' note

    The matches of [# NOTE FOR AMALTHEA MAINTAINERS(?s:...)# END NOTE...]
    as a relation (leftmost, then greedy), and lemmas on searching in
    strings. *)

From S2P Require Import Prelude FirecrestScript LogTail.
From Stdlib Require Import Ascii.

(** ** First and last occurrences *)

Lemma take_length_le n s : (String.length (Strings.take n s) ≤ n)%nat.
Proof. revert n. induction s as [|c s IH]; intros [|n]; cbn; [lia..|]. specialize (IH n). lia. Qed.

Lemma prefix_substring s sep n : String.substring n (String.length sep) s = sep → sep ≠ "" →
  s = Strings.take n s +:+ sep +:+ Strings.drop (n + String.length sep) s.
Proof.
  revert n. induction s as [|c s IH]; intros n Hsub Hne.
  - destruct n, sep; cbn in Hsub; done.
  - destruct n as [|n].
    + cbn [Strings.take Nat.add]. clear IH. revert Hsub. generalize (String c s). clear.
      induction sep as [|d sep IH]; intros t Ht; [by destruct t|]. destruct t as [|e t]; [done|].
      cbn in Ht. injection Ht as -> Ht. change ("" +:+ ?x) with x. rewrite Strings.app_cons. cbn. f_equal. by apply IH.
    + cbn in Hsub |- *. rewrite Strings.app_cons. f_equal. by apply IH.
Qed.

Lemma substring_app a sep b : String.substring (String.length a) (String.length sep) (a +:+ sep +:+ b) = sep.
Proof.
  induction a as [|c a IH]; [|exact IH]. cbn. change ("" +:+ ?x) with x.
  induction sep as [|d sep IH]; [by destruct b|]. rewrite Strings.app_cons. cbn. by rewrite IH.
Qed.

(** What [strings.Cut] finds. *)
Lemma Cut_first s sep : sep ≠ "" →
  match Strings.Cut s sep with
  | (a, b, true) => s = a +:+ sep +:+ b ∧ ∀ a' b', s = a' +:+ sep +:+ b' → (String.length a ≤ String.length a')%nat
  | (_, _, false) => ∀ a' b', s ≠ a' +:+ sep +:+ b'
  end.
Proof.
  intros Hne. unfold Strings.Cut. destruct (String.index 0 sep s) as [n|] eqn:E.
  - pose proof (String.index_correct1 0 n sep s E) as H1.
    pose proof (prefix_substring s sep n H1 Hne) as Hs. split; [exact Hs|]. intros a' b' ->.
    destruct (decide (String.length a' < n)%nat) as [Hlt|]; [|].
    + exfalso. refine (String.index_correct2 0 n sep _ E (String.length a') _ _ (substring_app a' sep b')); lia.
    + pose proof (take_length_le n (a' +:+ sep +:+ b')). lia.
  - intros a' b' ->. refine (String.index_correct3 0 (String.length a') sep _ E Hne _ (substring_app a' sep b')). lia.
Qed.

Lemma app_length_inv a a' b b' :
  a +:+ b = a' +:+ b' → (String.length a ≤ String.length a')%nat → ∃ c, a' = a +:+ c ∧ b = c +:+ b'.
Proof.
  revert a'. induction a as [|x a IH]; intros a' H Hl; [by exists a'|].
  destruct a' as [|y a']; [cbn in Hl; lia|]. rewrite !Strings.app_cons in H. injection H as -> H.
  destruct (IH a' H) as (c & -> & Hb); [cbn in Hl; lia|]. by exists c.
Qed.

(** What [CutLast] finds. *)
Lemma CutLast_last s sep : sep ≠ "" →
  match CutLast s sep with
  | Some (a, b) => s = a +:+ sep +:+ b ∧ ∀ a' b', s = a' +:+ sep +:+ b' → (String.length a' ≤ String.length a)%nat
  | None => ∀ a' b', s ≠ a' +:+ sep +:+ b'
  end.
Proof.
  intros Hne. induction s as [|c s IH]; cbn [CutLast].
  - intros a' b' H. destruct a', sep; done.
  - destruct (CutLast s sep) as [[a b]|].
    + destruct IH as [-> IH]. split; [done|]. intros a' b' H. destruct a' as [|d a']; [cbn; lia|].
      rewrite Strings.app_cons in H. injection H as -> H. cbn. specialize (IH _ _ H). lia.
    + destruct (Strings.HasPrefix (String c s) sep) eqn:E.
      * apply Strings.HasPrefix_spec in E as (t & Ht). rewrite Ht, Strings.drop_app. split; [done|].
        intros a' b' H. destruct a' as [|d a']; [done|]. rewrite <- Ht, Strings.app_cons in H. injection H as _ H.
        by destruct (IH a' b').
      * intros a' b' H. destruct a' as [|d a'].
        -- rewrite (proj2 (Strings.HasPrefix_spec _ _)) in E by eauto. done.
        -- rewrite Strings.app_cons in H. injection H as _ H. by destruct (IH a' b').
Qed.

(** ** The regular expression *)

(** [s] is [before], a match, and [after]; [x] and [y] are what the two repeated
    parts take. *)
Definition noteMatch (s before x y after : string) : Prop :=
  s = before +:+ noteOpen +:+ x +:+ noteClose +:+ y +:+ newline_ +:+ after ∧ lineFree y.

(** The match that is found: the leftmost, and among those the one whose first
    part is the longest (its second part then ends at the first newline). *)
Definition noteFound (s before x y after : string) : Prop :=
  noteMatch s before x y after ∧
  (∀ before' x' y' after', noteMatch s before' x' y' after' → (String.length before ≤ String.length before')%nat) ∧
  (∀ x' y' after', noteMatch s before x' y' after' → (String.length x' ≤ String.length x)%nat).

Lemma no_newline_lineFree s : (∀ a b, s ≠ a +:+ newline_ +:+ b) → lineFree s.
Proof. intros H. destruct (splitLines_cases s) as [|(l & t & Hs & _)]; [done|]. by destruct (H l t). Qed.

Lemma app_inv_head a b c : a +:+ b = a +:+ c → b = c.
Proof. induction a as [|x a IH]; [done|]. rewrite !Strings.app_cons. intros [= H]. by apply IH. Qed.

(** There is no second match after the one that is found. *)
Lemma noteFound_once s before x y after : noteFound s before x y after → ∀ b' x' y' a', ¬ noteMatch after b' x' y' a'.
Proof.
  intros ([-> Hy] & _ & Hmax) b' x' y' a' [-> Hy'].
  specialize (Hmax (x +:+ noteClose +:+ y +:+ newline_ +:+ b' +:+ noteOpen +:+ x') y' a').
  assert (noteMatch (before +:+ noteOpen +:+ x +:+ noteClose +:+ y +:+ newline_ +:+ b' +:+ noteOpen +:+ x' +:+
    noteClose +:+ y' +:+ newline_ +:+ a') before (x +:+ noteClose +:+ y +:+ newline_ +:+ b' +:+ noteOpen +:+ x') y' a') as H.
  { split; [by rewrite !Strings.app_assoc|done]. }
  specialize (Hmax H). rewrite !Strings.length_app in Hmax. cbn in Hmax. lia.
Qed.

(** ** The parts of [removeMaintainersNotesFromScript] *)

(** Where a match lies when the text starts with the first opening. *)
Lemma noteMatch_after before after0 b' x' y' a' :
  (String.length before ≤ String.length b')%nat →
  noteMatch (before +:+ noteOpen +:+ after0) b' x' y' a' →
  ∃ u, after0 = u +:+ noteClose +:+ y' +:+ newline_ +:+ a' ∧ (b' = before → u = x').
Proof.
  intros Hl [H _]. destruct (app_length_inv _ _ _ _ H Hl) as (c & -> & Hc).
  rewrite <- (Strings.app_assoc noteOpen x'), <- (Strings.app_assoc c) in Hc.
  destruct (app_length_inv _ _ _ _ Hc) as (u & Hu & ->); [rewrite !Strings.length_app; lia|].
  exists u. split; [done|]. intros Hb. assert (c = "") as ->.
  { apply (f_equal String.length) in Hb. rewrite Strings.length_app in Hb. destruct c; [done|cbn in Hb; lia]. }
  change ("" +:+ ?t) with t in Hu. by apply app_inv_head in Hu.
Qed.

Lemma finishedLines_spec s :
  match finishedLines s with
  | Some (fin, rest) => ∃ f0, fin = f0 +:+ newline_ ∧ s = fin +:+ rest ∧
      ∀ a b, s = a +:+ newline_ +:+ b → ∃ c, fin = a +:+ c
  | None => ∀ a b, s ≠ a +:+ newline_ +:+ b
  end.
Proof.
  unfold finishedLines. pose proof (CutLast_last s newline_ ltac:(done)) as H.
  destruct (CutLast s newline_) as [[f0 rest]|]; [|done]. destruct H as [Hs Hmax]. exists f0. split; [done|].
  split; [by rewrite Strings.app_assoc|]. intros a b Hab. pose proof (Hmax _ _ Hab) as Hl. rewrite Hs in Hab.
  destruct (app_length_inv a f0 (newline_ +:+ b) (newline_ +:+ rest)) as (c & -> & _); [done|done|].
  exists (c +:+ newline_). by rewrite Strings.app_assoc.
Qed.

(** The rest of the line of the last closing. *)
Lemma afterClose_line f0 x t : f0 +:+ newline_ = x +:+ noteClose +:+ t →
  ∃ y z, Strings.Cut t newline_ = (y, z, true) ∧ t = y +:+ newline_ +:+ z ∧ lineFree y.
Proof.
  intros H. assert (∃ c, t = c +:+ newline_) as (c & ->).
  { destruct (decide (String.length (x +:+ noteClose) ≤ String.length f0)%nat) as [Hl|Hl].
    - rewrite <- Strings.app_assoc in H. symmetry in H. destruct (app_length_inv _ _ _ _ H Hl) as (c & _ & ->). by exists c.
    - exfalso. pose proof (f_equal String.length H) as Hlen. rewrite !Strings.length_app in Hlen. rewrite !Strings.length_app in Hl.
      change (String.length newline_) with 1%nat in Hlen. change (String.length noteClose) with 10%nat in Hlen, Hl.
      destruct t as [|a t]; [|cbn [String.length] in Hlen; lia]. change (String.length "") with 0%nat in Hlen.
      rewrite Strings.app_nil_r in H.
      change noteClose with ("# END NOT" +:+ "E") in H. rewrite <- Strings.app_assoc in H.
      destruct (app_length_inv _ _ _ _ H) as (c & _ & Hc); [|by destruct c as [|? []]].
      rewrite Strings.length_app. change (String.length "# END NOT") with 9%nat. lia. }
  pose proof (Cut_first (c +:+ newline_) newline_ ltac:(done)) as Hcut.
  destruct (Strings.Cut (c +:+ newline_) newline_) as [[y z] []].
  - destruct Hcut as [Ht Hmin]. exists y, z. split; [done|]. split; [done|]. apply no_newline_lineFree. intros a b ->.
    specialize (Hmin a (b +:+ newline_ +:+ z)). rewrite Ht, !Strings.app_assoc in Hmin. specialize (Hmin eq_refl).
    rewrite !Strings.length_app in Hmin. cbn in Hmin. lia.
  - exfalso. apply (Hcut c ""). by rewrite Strings.app_nil_r.
Qed.

Lemma removeNotes_cases s :
  (removeMaintainersNotesFromScript s = s ∧ ∀ b x y a, ¬ noteMatch s b x y a) ∨
  (∃ b x y a, removeMaintainersNotesFromScript s = b +:+ a ∧ noteFound s b x y a).
Proof.
  unfold removeMaintainersNotesFromScript. pose proof (Cut_first s noteOpen ltac:(done)) as Hcut.
  destruct (Strings.Cut s noteOpen) as [[before after0] []]; [|left; split; [done|]; by intros b x y a [Hs _]; apply Hcut in Hs].
  destruct Hcut as [-> Hmin].
  assert (Hm : ∀ b x y a, noteMatch (before +:+ noteOpen +:+ after0) b x y a → (String.length before ≤ String.length b)%nat ∧
    ∃ u, after0 = u +:+ noteClose +:+ y +:+ newline_ +:+ a ∧ (b = before → u = x)).
  { intros b x y a Hm. assert (String.length before ≤ String.length b)%nat as Hl by (destruct Hm as [Hs _]; by eapply Hmin).
    split; [done|]. by eapply noteMatch_after. }
  pose proof (finishedLines_spec after0) as Hfin. destruct (finishedLines after0) as [[fin rest]|].
  2: { left. split; [done|]. intros b x y a (_ & u & Hu & _)%Hm. by apply (Hfin (u +:+ noteClose +:+ y) a); rewrite !Strings.app_assoc. }
  destruct Hfin as (f0 & Hf0 & Hrest & Hfin).
  assert (Hu : ∀ b x y a, noteMatch (before +:+ noteOpen +:+ after0) b x y a → ∃ u c, fin = u +:+ noteClose +:+ c ∧ (b = before → u = x)).
  { intros b x y a (_ & u & Hu & Hux)%Hm. destruct (Hfin (u +:+ noteClose +:+ y) a) as (c & ->); [by rewrite Hu, !Strings.app_assoc|].
    exists u, (y +:+ c). by rewrite !Strings.app_assoc. }
  pose proof (CutLast_last fin noteClose ltac:(done)) as Hlast. destruct (CutLast fin noteClose) as [[x t]|].
  2: { left. split; [done|]. intros b x y a (u & c & Hc & _)%Hu. by apply Hlast in Hc. }
  destruct Hlast as [Hx Hmax]. destruct (afterClose_line f0 x t) as (y & z & -> & -> & Hy); [by rewrite <- Hf0|].
  right. exists before, x, y, (z +:+ rest). split; [done|]. split; [|split].
  - split; [|done]. by rewrite Hrest, Hx, !Strings.app_assoc.
  - intros b' x' y' a' Hm'. by apply Hm in Hm' as [? _].
  - intros x' y' a' (u & c & Hc & Hux)%Hu. rewrite <- (Hux eq_refl). by eapply Hmax.
Qed.
