(* ===== verification/Templates.v ===== *)
(** * Sidecar containers of the session pod

    api/v1alpha1/auth_templates.go ([auth], [get_rewrite_authn_proxy]) and
    api/v1alpha1/code_repo_templates.go ([cloneInit]). *)

From S2P Require Import Prelude K8s Types Names.

Module AuthTemplates.

Definition authproxyImage : string := "harbor.renkulab.io/bitnami-mirror/oauth2-proxy:7.6.0".

Section Auth.
Context (env : Env).

Definition get_rewrite_authn_proxy (as_ : AmaltheaSession.t)
    (listenPort metaListenPort remotePort : Z) : Container.t :=
  let probeHandler := httpGet "/__amalthea__/health" listenPort in
  {| Container.Name := "authproxy";
     Container.Image := getSidecarsImage env;
     Container.ImagePullPolicy := "";
     Container.Command := [];
     Container.Args := ["proxy"; "serve"; "--verbose"];
     Container.WorkingDir := "";
     Container.Ports := [];
     Container.EnvFrom := [];
     Container.Env :=
       [envVar "AUTHPROXY_PORT" (pretty listenPort);
        envVar "AUTHPROXY_META_PORT" (pretty metaListenPort);
        envVar "AUTHPROXY_REMOTE" ("http://127.0.0.1:" +:+ pretty remotePort)] ++
       (if Session.StripURLPath (Spec_Session as_)
        then [envVar "AUTHPROXY_STRIP_PATH_PREFIX" (urlPath as_)] else []);
     Container.Resources := requestsAndMemoryLimit "16Mi" "20m";
     Container.VolumeMounts := [];
     Container.LivenessProbe := Some (probe probeHandler 0 0 0);
     Container.ReadinessProbe := Some (probe probeHandler 0 0 0);
     Container.TerminationMessagePath := "";
     Container.TerminationMessagePolicy := "";
     Container.RestartPolicy := None;
     Container.SecurityContext := Some (restrictedContext (Some 1000%Z) (Some 1000%Z));
     Container.rest := NoRest |}.

Definition sameSiteCookieFlag : string :=
  if getUseNoneSameSiteSessionCookie env then "none" else "strict".

Definition oauth2ProxyContainer (args : list string) (envFrom : list EnvFromSource.t)
    (mounts : list VolumeMount.t) : Container.t :=
  let probeHandler := httpGet "/ping" authenticatedPort in
  {| Container.Name := "oauth2-proxy";
     Container.Image := authproxyImage;
     Container.ImagePullPolicy := "";
     Container.Command := [];
     Container.Args := args;
     Container.WorkingDir := "";
     Container.Ports := [];
     Container.EnvFrom := envFrom;
     Container.Env := [];
     Container.Resources := requestsAndMemoryLimit "16Mi" "20m";
     Container.VolumeMounts := mounts;
     Container.LivenessProbe := Some (probe probeHandler 0 0 0);
     Container.ReadinessProbe := Some (probe probeHandler 0 0 0);
     Container.TerminationMessagePath := "";
     Container.TerminationMessagePolicy := "";
     Container.RestartPolicy := None;
     Container.SecurityContext := Some (restrictedContext None None);
     Container.rest := NoRest |}.

(** [authContainer.Args = ...; authContainer.VolumeMounts = ...] *)
Definition with_ArgsMounts (c : Container.t) (args : list string) (mounts : list VolumeMount.t)
    : Container.t :=
  {| Container.Name := Container.Name c; Container.Image := Container.Image c;
     Container.ImagePullPolicy := Container.ImagePullPolicy c;
     Container.Command := Container.Command c; Container.Args := args;
     Container.WorkingDir := Container.WorkingDir c; Container.Ports := Container.Ports c;
     Container.EnvFrom := Container.EnvFrom c; Container.Env := Container.Env c;
     Container.Resources := Container.Resources c; Container.VolumeMounts := mounts;
     Container.LivenessProbe := Container.LivenessProbe c;
     Container.ReadinessProbe := Container.ReadinessProbe c;
     Container.TerminationMessagePath := Container.TerminationMessagePath c;
     Container.TerminationMessagePolicy := Container.TerminationMessagePolicy c;
     Container.RestartPolicy := Container.RestartPolicy c;
     Container.SecurityContext := Container.SecurityContext c;
     Container.rest := Container.rest c |}.

(** The case [OauthProxy] of the switch. *)
Definition auth_OauthProxy (as_ : AmaltheaSession.t) (auth : Authentication.t) : manifests :=
  let volName := prefix_ +:+ "proxy-configuration-secret" in
  let ref := Authentication.SecretRef auth in
  let oauth2Proxy := oauth2ProxyContainer
    ["--upstream=" +:+ "http://127.0.0.1:" +:+ pretty secondProxyPort;
     "--http-address=:" +:+ pretty authenticatedPort;
     "--silence-ping-logging";
     "--config=/etc/oauth2-proxy/" +:+ SessionSecretRef.Key ref;
     "--cookie-samesite=" +:+ sameSiteCookieFlag]
    []
    ([volumeMount volName "/etc/oauth2-proxy" "" false] ++ Authentication.ExtraVolumeMounts auth) in
  mkManifests
    [oauth2Proxy; get_rewrite_authn_proxy as_ secondProxyPort AuthProxyMetaPort (Session.Port (Spec_Session as_))]
    [secretVolume volName (SessionSecretRef.Name ref) (Some false)].

(** The case [Token]. *)
Definition auth_Token (as_ : AmaltheaSession.t) (auth : Authentication.t) : manifests :=
  let volName := prefix_ +:+ "proxy-configuration-secret" in
  let ref := Authentication.SecretRef auth in
  mkManifests
    [with_ArgsMounts
       (get_rewrite_authn_proxy as_ authenticatedPort AuthProxyMetaPort (Session.Port (Spec_Session as_)))
       ["proxy"; "serve"; "--config"; "/etc/authproxy/" +:+ SessionSecretRef.Key ref]
       ([volumeMount volName "/etc/authproxy" "" false] ++ Authentication.ExtraVolumeMounts auth)]
    [secretVolume volName (SessionSecretRef.Name ref) (Some false)].

(** The case [Oidc]. *)
Definition auth_Oidc (as_ : AmaltheaSession.t) (auth : Authentication.t) : manifests :=
  let volNameFixedConfig := prefix_ +:+ "-fixed-proxy-configuration-secret" in
  let volNameAuthorizedEmails := prefix_ +:+ "-authorized-emails-secret" in
  let ref := Authentication.SecretRef auth in
  let oauth2Proxy := oauth2ProxyContainer
    ["--silence-ping-logging";
     "--alpha-config=/etc/oauth2-proxy/oauth2-proxy-alpha-config.yaml";
     "--config=/etc/oauth2-proxy/oauth2-proxy-config.yaml";
     "--cookie-samesite=" +:+ sameSiteCookieFlag]
    [envFromSecret (SessionSecretRef.Name ref)]
    ([volumeMount volNameFixedConfig "/etc/oauth2-proxy" "" false;
      volumeMount volNameAuthorizedEmails "/authorized_emails" "AUTHORIZED_EMAILS" false] ++
     Authentication.ExtraVolumeMounts auth) in
  mkManifests
    [oauth2Proxy; get_rewrite_authn_proxy as_ secondProxyPort AuthProxyMetaPort (Session.Port (Spec_Session as_))]
    [secretVolume volNameFixedConfig (AmaltheaSession.Name as_) (Some false);
     secretVolume volNameAuthorizedEmails (SessionSecretRef.Name ref) (Some false)].

(** [as.auth()].  The manifests returned next to an error are not used by the
    callers; they are represented as the error alone. *)
Definition auth (as_ : AmaltheaSession.t) : Result manifests :=
  match AmaltheaSessionSpec.Authentication_ (AmaltheaSession.Spec as_) with
  | None => inl (mkManifests [] [])
  | Some auth =>
      let ty := Authentication.Type_ auth in
      if negb (Authentication.Enabled auth) then inl (mkManifests [] [])
      else if ((ty =s OauthProxy) || (ty =s Token)) &&
              (String.length (SessionSecretRef.Key (Authentication.SecretRef auth)) =? 0)%nat
      then inr (Errorf ("the authentication secret key has to be defined when using " +:+ ty +:+ " authentication"))
      else if ty =s OauthProxy then inl (auth_OauthProxy as_ auth)
      else if ty =s Token then
        if getUseNoneSameSiteSessionCookie env
        then inr (Errorf "cannot set the same site cookie parameter for anonymous sessions")
        else inl (auth_Token as_ auth)
      else if ty =s Oidc then inl (auth_Oidc as_ auth)
      else inr (Errorf ("unexpected authentication type " +:+ ty +:+
                        " when trying to template authentication containers"))
  end.
End Auth.
End AuthTemplates.

Module CodeRepoTemplates.

Section Clone.
Context (env : Env).

Definition cloneContainer (session : Session.t) (irepo : nat) (volMounts : list VolumeMount.t)
    (args : list string) : Container.t :=
  {| Container.Name := "git-clone-" +:+ pretty irepo;
     Container.Image := getSidecarsImage env;
     Container.ImagePullPolicy := "";
     Container.Command := [];
     Container.Args := args;
     Container.WorkingDir := Storage.MountPath (Session.Storage_ session);
     Container.Ports := [];
     Container.EnvFrom := [];
     Container.Env := [];
     Container.Resources := ResourceRequirements.mk ∅ ∅ NoRest;
     Container.VolumeMounts := volMounts;
     Container.LivenessProbe := None;
     Container.ReadinessProbe := None;
     Container.TerminationMessagePath := "";
     Container.TerminationMessagePolicy := "";
     Container.RestartPolicy := None;
     Container.SecurityContext := Some
       {| SecurityContext.AllowPrivilegeEscalation := None;
          SecurityContext.RunAsNonRoot := None;
          SecurityContext.RunAsUser := Some (Session.RunAsUser session);
          SecurityContext.RunAsGroup := Some (Session.RunAsGroup session);
          SecurityContext.CapabilitiesDrop := ["ALL"];
          SecurityContext.rest := NoRest |};
     Container.rest := NoRest |}.

Definition secretMountPath : string := "/git-clone-secrets".

(** The loop of [cloneInit]: [volMounts] is shared by the iterations and only
    ever appended to, so a slice stored in a container keeps its length. *)
Fixpoint cloneInit_loop (session : Session.t) (irepo : nat) (repos : list CodeRepository.t)
    (volMounts : list VolumeMount.t) (vols : list Volume.t) (containers : list Container.t) : manifests :=
  match repos with
  | [] => mkManifests containers vols
  | repo :: repos' =>
      let args := ["cloner"; "clone"; "--strategy"; "notifexist"; "--remote"; CodeRepository.Remote_ repo;
                   "--path"; Storage.MountPath (Session.Storage_ session) +:+ "/" +:+ CodeRepository.ClonePath repo] in
      let '(vols, volMounts, args) :=
        match CodeRepository.CloningConfigSecretRef repo with
        | Some ref =>
            let secretVolName := prefix_ +:+ "git-clone-cred-volume-" +:+ pretty irepo in
            let secretFilePath := secretMountPath +:+ "/" +:+ SessionSecretKeyRef.Key ref in
            (vols ++ [secretVolume secretVolName (SessionSecretKeyRef.Name ref) None],
             volMounts ++ [volumeMount secretVolName secretMountPath "" false],
             args ++ ["--config"; secretFilePath])
        | None => (vols, volMounts, args)
        end in
      let args := if CodeRepository.Revision repo ≠s ""
                  then args ++ ["--revision"; CodeRepository.Revision repo] else args in
      cloneInit_loop session (S irepo) repos' volMounts vols
        (containers ++ [cloneContainer session irepo volMounts args])
  end.

Definition cloneInit (as_ : AmaltheaSession.t) : manifests :=
  let session := Spec_Session as_ in
  cloneInit_loop session 0 (AmaltheaSessionSpec.CodeRepositories (AmaltheaSession.Spec as_))
    [volumeMount sessionVolumeName (Storage.MountPath (Session.Storage_ session)) "" false] [] [].
End Clone.
End CodeRepoTemplates.
