(* ===== verification/Config.v ===== *)
(** * Operator configuration (internal/controller/config)

    The cluster type and the rewriting of container image references; that the
    rewrite rules of the environment reach the rewriter ([configuration_loaded]). *)

From S2P Require Import Prelude Json JsonProps.

Definition ClusterType : Type := string.
Definition Kubernetes : ClusterType := "kubernetes".
Definition OpenShift : ClusterType := "openshift".

(** The interface [ImageFieldRewriter]: its one method. *)
Record ImageFieldRewriter := { Rewrite : string → string * option GoError }.

Record AmaltheaSessionConfiguration := mkConfiguration {
  ClusterType_ : ClusterType;
  ImageFieldRewriter_ : option ImageFieldRewriter }.

(** [DetectClusterType], given the API group names the cluster lists. *)
Fixpoint detectGroups (apiGroups : list string) : ClusterType :=
  match apiGroups with
  | [] => Kubernetes
  | g :: apiGroups => if g =s "project.openshift.io" then OpenShift else detectGroups apiGroups
  end.
Definition DetectClusterType (serverGroups : Result (list string)) : ClusterType * option GoError :=
  match serverGroups with
  | inr err => ("", Some err)
  | inl apiGroups => (detectGroups apiGroups, None)
  end.

(** ** Docker image references *)

(** A [reference.Named] of github.com/distribution/reference: what the sources
    read from it with [Domain], [Path], [Tagged], [Digested] and
    [FamiliarString]. *)
Module Named.
Record t := mk {
  Domain : string;
  Path : string;
  Tag : option string;
  Digest : option string;
  Familiar : string }.
End Named.

(** [reference.ParseDockerRef], a parameter of the development. *)
Class DockerReference := { ParseDockerRef : string → Result Named.t }.

(** Documented: "If both tag and digest are present, the tag is stripped; if
    the reference is name only, the latest tag is added". *)
Definition ParseDockerRef_documented `{DockerReference} : Prop :=
  ∀ image named, ParseDockerRef image = inl named →
    (∃ t, Named.Tag named = Some t ∧ Named.Digest named = None) ∨
    (∃ d, Named.Tag named = None ∧ Named.Digest named = Some d).

(** ** Rewrite rules *)

Module imageRewriteRule.
Record t := mk { SourcePrefix : string; TargetPrefix : string }.

Definition decode : Decoder t := decodeStruct (λ name,
  if name =s "source_prefix" then Some (field SourcePrefix (λ r x, mk x (TargetPrefix r)) decodeString)
  else if name =s "target_prefix" then Some (field TargetPrefix (λ r x, mk (SourcePrefix r) x) decodeString)
  else None).

Definition rewrite (rule : t) (domainAndPath : string) : string * bool :=
  let '(after, found) := Strings.CutPrefix domainAndPath (SourcePrefix rule) in
  if negb found || negb (Strings.HasPrefix after "/") then (domainAndPath, false)
  else (TargetPrefix rule +:+ after, true).

(** What the method is for: the reference is in the rule's repository tree. *)
Definition matches (rule : t) (ref : string) (suffix : string) : Prop :=
  ref = SourcePrefix rule +:+ "/" +:+ suffix.

Lemma rewrite_match (rule : t) (ref res : string) :
  rewrite rule ref = (res, true) ↔
  ∃ suffix, matches rule ref suffix ∧ res = TargetPrefix rule +:+ "/" +:+ suffix.
Proof.
  unfold rewrite, matches. split.
  - unfold Strings.CutPrefix. destruct (Strings.HasPrefix ref _) eqn:Hp; cbn; [|by rewrite ?orb_true_r].
    apply Strings.HasPrefix_spec in Hp as [t ->]. rewrite Strings.drop_app.
    destruct (Strings.HasPrefix t "/") eqn:Hs; cbn; intros; simplify_eq.
    apply Strings.HasPrefix_spec in Hs as [u ->]. by exists u.
  - intros (u & -> & ->). rewrite Strings.CutPrefix_app, Strings.HasPrefix_app. done.
Qed.

Lemma rewrite_nomatch (rule : t) (ref res : string) :
  rewrite rule ref = (res, false) → res = ref.
Proof.
  unfold rewrite. destruct (Strings.CutPrefix _ _) as [a f]. destruct f; cbn.
  - destruct (Strings.HasPrefix a "/"); cbn; congruence.
  - congruence.
Qed.
End imageRewriteRule.

Section Rewriter.
Context `{DockerReference}.

(** The loop over the rules. *)
Fixpoint applyRules (image domainAndPath : string) (named : Named.t)
    (rules : list imageRewriteRule.t) : string :=
  match rules with
  | [] => image
  | rule :: rules' =>
      if (imageRewriteRule.SourcePrefix rule =s "") || (imageRewriteRule.TargetPrefix rule =s "")
      then applyRules image domainAndPath named rules'
      else
        let '(result, match_) := imageRewriteRule.rewrite rule domainAndPath in
        if match_ then
          match Named.Tag named, Named.Digest named with
          | Some tag, Some digest => result +:+ ":" +:+ tag +:+ "@" +:+ digest
          | Some tag, None => result +:+ ":" +:+ tag
          | None, Some digest => result +:+ "@" +:+ digest
          | None, None => domainAndPath
          end
        else applyRules image domainAndPath named rules'
  end.

(** [ruleBasedRewriter.Rewrite] *)
Definition ruleBasedRewriter_Rewrite (rules : list imageRewriteRule.t) (image : string)
    : string * option GoError :=
  match ParseDockerRef image with
  | inr err => (image, Some err)
  | inl named =>
      let domainAndPath := Named.Domain named +:+ "/" +:+ Named.Path named in
      (applyRules image domainAndPath named rules, None)
  end.

Definition parseImageRewriteRules (rulesStr : string) : Result (list imageRewriteRule.t) :=
  Unmarshal (decodeSlice (imageRewriteRule.mk "" "") imageRewriteRule.decode) [] rulesStr.

(** [GetImageFieldRewriter] *)
Definition GetImageFieldRewriter (env : Env) : Result (option ImageFieldRewriter) :=
  let rulesStr := Getenv env "AMALTHEA_IMAGE_REWRITE_RULES" in
  if rulesStr =s "" then inl None
  else match parseImageRewriteRules rulesStr with
       | inr err => inr err
       | inl [] => inl None
       | inl rules => inl (Some {| Rewrite := ruleBasedRewriter_Rewrite rules |})
       end.

(** [GetAmaltheaSessionConfiguration]; [serverGroups] is what the cluster lists. *)
Definition GetAmaltheaSessionConfiguration (serverGroups : Result (list string)) (env : Env)
    : Result AmaltheaSessionConfiguration :=
  match DetectClusterType serverGroups with
  | (_, Some err) => inr err
  | (clusterType, None) =>
      match GetImageFieldRewriter env with
      | inr err => inr err
      | inl rewriter => inl (mkConfiguration clusterType rewriter)
      end
  end.

(** [EnrootImageFormat] (internal/utils/container.go) *)
Definition EnrootImageFormat (dockerImage : string) : string * option GoError :=
  match ParseDockerRef dockerImage with
  | inr err => ("", Some err)
  | inl named =>
      let domain := Named.Domain named in
      let path := Named.Path named in
      if domain =s "docker.io" then (Named.Familiar named, None)
      else match Named.Tag named, Named.Digest named with
           | Some tag, Some digest => (domain +:+ "#" +:+ path +:+ ":" +:+ tag +:+ "@" +:+ digest, None)
           | Some tag, None => (domain +:+ "#" +:+ path +:+ ":" +:+ tag, None)
           | None, Some digest => (domain +:+ "#" +:+ path +:+ "@" +:+ digest, None)
           | None, None => (domain +:+ "#" +:+ path, None)
           end
  end.

(** ** Specification *)

(** The rules the loop considers, in order. *)
Definition ruleWellFormed (rule : imageRewriteRule.t) : bool :=
  (imageRewriteRule.SourcePrefix rule ≠s "") && (imageRewriteRule.TargetPrefix rule ≠s "").

Definition refSuffix (named : Named.t) : string :=
  match Named.Tag named, Named.Digest named with
  | Some tag, Some digest => ":" +:+ tag +:+ "@" +:+ digest
  | Some tag, None => ":" +:+ tag
  | None, Some digest => "@" +:+ digest
  | None, None => ""
  end.

Definition firstMatch (dp : string) (rules : list imageRewriteRule.t) : option string :=
  head (omap (λ rule, if ruleWellFormed rule then
                        match imageRewriteRule.rewrite rule dp with
                        | (res, true) => Some res
                        | _ => None
                        end
                      else None) rules).

Lemma applyRules_spec (image dp : string) (named : Named.t) (rules : list imageRewriteRule.t) :
  is_Some (Named.Tag named) ∨ is_Some (Named.Digest named) →
  applyRules image dp named rules =
  match firstMatch dp rules with Some res => res +:+ refSuffix named | None => image end.
Proof.
  intros Htd. induction rules as [|rule rules IH]; [done|]. cbn.
  unfold firstMatch, ruleWellFormed. cbn.
  destruct (imageRewriteRule.SourcePrefix rule =s ""), (imageRewriteRule.TargetPrefix rule =s ""); cbn;
    try apply IH.
  destruct (imageRewriteRule.rewrite rule dp) as [res []] eqn:Er; [|apply IH]. cbn.
  unfold refSuffix.
  destruct (Named.Tag named), (Named.Digest named); try done.
  destruct Htd as [[? ?]|[? ?]]; done.
Qed.
End Rewriter.

(** ** The configuration as it is written *)

#[export, refine] Instance ruleCodec : JsonCodec imageRewriteRule.t := {|
  marshal r := JObj (member_ "source_prefix" (imageRewriteRule.SourcePrefix r) ++
                     member_ "target_prefix" (imageRewriteRule.TargetPrefix r));
  decode := imageRewriteRule.decode; zeroValue := imageRewriteRule.mk "" ""; representable _ := True |}.
Proof. all: intros [s t] _; done. Defined.

Lemma detectGroups_spec groups : detectGroups groups = if decide ("project.openshift.io" ∈ groups) then OpenShift else Kubernetes.
Proof.
  induction groups as [|g groups IH]; [done|]. cbn. destruct (String.eqb_spec g "project.openshift.io") as [->|Hg].
  - rewrite decide_True; [done|]. by left.
  - rewrite IH. repeat case_decide; try done; set_solver.
Qed.

(** The operator reads its configuration as it was written: rewrite rules
    given as JSON are the rules of the rewriter, in their order, an empty list
    gives none, and the cluster is taken for OpenShift exactly when it lists that
    group of its API; a text that is not JSON is refused. *)
Theorem configuration_loaded `{DockerReference} groups (env : Env) rules :
  env !! "AMALTHEA_IMAGE_REWRITE_RULES" = Some (Marshal rules) →
  GetAmaltheaSessionConfiguration (inl groups) env =
    inl (mkConfiguration (if decide ("project.openshift.io" ∈ groups) then OpenShift else Kubernetes)
           (match rules with [] => None | _ => Some {| Rewrite := ruleBasedRewriter_Rewrite rules |} end)) ∧
  ∀ text err, text ≠ "" → parse text = inr err →
    GetAmaltheaSessionConfiguration (inl groups) (<["AMALTHEA_IMAGE_REWRITE_RULES" := text]> env) = inr err.
Proof.
  intros He. change Env with (gmap string string) in env. split.
  - unfold GetAmaltheaSessionConfiguration. cbn [DetectClusterType]. rewrite detectGroups_spec.
    unfold GetImageFieldRewriter, Getenv. rewrite He. change (default "" (Some (Marshal rules))) with (Marshal rules).
    assert (Marshal rules =s "" = false) as -> by (by destruct rules).
    assert (parseImageRewriteRules (Marshal rules) = inl rules) as ->; [|by destruct rules].
    refine (Unmarshal_Marshal rules _). by apply list.Forall_true.
  - intros text err Hne Hp. unfold GetAmaltheaSessionConfiguration, GetImageFieldRewriter, Getenv. cbn [DetectClusterType].
    change Env with (gmap string string). rewrite lookup_insert_eq. change (default "" (Some text)) with text. rewrite (proj2 (String.eqb_neq _ _) Hne). unfold parseImageRewriteRules, Unmarshal.
    by rewrite Hp.
Qed.
