(* ===== verification/Children.v ===== *)
(** * Desired child resources of a session

    The methods of api/v1alpha1/amaltheasession_children.go: the desired pod,
    job, stateful set, service, ingress, volume claims and secret, the adopted
    secrets, and the reads of the session's pod, job and events. *)

From S2P Require Import Prelude Prog NetUrl K8s Types Api Names Templates Config.
From stdpp Require Import sorting.
From Stdlib Require Import SpecFloat.

(** ** [Duration.Seconds()]: float64 arithmetic *)
Module Seconds.
Definition float64 (z : Z) : spec_float := binary_normalize 53 1024 z 0 false.
Definition seconds (d : Duration.t) : spec_float :=
  let sec := Z.quot d Duration.Second in
  let nsec := Z.rem d Duration.Second in
  SFadd 53 1024 (float64 sec) (SFdiv 53 1024 (float64 nsec) (float64 1000000000)).
Definition positive (f : spec_float) : bool := SFltb (float64 0) f.
(** [int64(f)]: truncation towards zero of a finite value in range. *)
Definition toInt64 (f : spec_float) : Z :=
  match f with
  | S754_finite s m e =>
      let v := if (0 <=? e)%Z then Z.shiftl (Zpos m) e else Z.shiftr (Zpos m) (- e) in
      if s then (- v)%Z else v
  | _ => 0%Z
  end.
End Seconds.

(** ** Volumes and data sources *)

Definition ReadOnlyMany : string := "ReadOnlyMany".
Definition ReadWriteOnce : string := "ReadWriteOnce".

Definition PVC (cr : AmaltheaSession.t) : PersistentVolumeClaim.t :=
  let requests :=
    match Storage.Size (Session.Storage_ (Spec_Session cr)) with
    | Some q => {[ "storage" := q ]}
    | None => {[ "storage" := Quantity.MustParse "1Gi" ]}
    end in
  {| PersistentVolumeClaim.Meta :=
       newMeta (AmaltheaSession.Name cr) (AmaltheaSession.Namespace cr) (childLabels cr) (templateAnnotations cr);
     PersistentVolumeClaim.Spec :=
       {| PersistentVolumeClaimSpec.AccessModes := [ReadWriteOnce];
          PersistentVolumeClaimSpec.Requests := requests;
          PersistentVolumeClaimSpec.StorageClassName := Storage.ClassName (Session.Storage_ (Spec_Session cr));
          PersistentVolumeClaimSpec.rest := NoRest |};
     PersistentVolumeClaim.Status := PersistentVolumeClaimStatus.mk "" ∅ [] |}.

Definition SessionVolumes (cr : AmaltheaSession.t) : list Volume.t * list VolumeMount.t :=
  let pvc := PVC cr in
  let volumes := [pvcVolume sessionVolumeName (ObjectMeta.Name (PersistentVolumeClaim.Meta pvc)) false] in
  let volumeMounts := [volumeMount sessionVolumeName (Storage.MountPath (Session.Storage_ (Spec_Session cr))) "" false] in
  match Session.ShmSize (Spec_Session cr) with
  | Some shm =>
      (volumes ++ [{| Volume.Name := shmVolumeName;
                      Volume.Source := {| VolumeSource.PersistentVolumeClaim := None;
                        VolumeSource.EmptyDir := Some {| EmptyDirVolumeSource.Medium := "Memory";
                                                         EmptyDirVolumeSource.SizeLimit := Some shm |};
                        VolumeSource.Secret := None; VolumeSource.rest := NoRest |} |}],
       volumeMounts ++ [volumeMount shmVolumeName "/dev/shm" "" false])
  | None => (volumes, volumeMounts)
  end.

Section Builders.
Context (env : Env).

Definition dataSourcePVCName (as_ : AmaltheaSession.t) (ids : nat) : string :=
  prefix_ +:+ AmaltheaSession.Name as_ +:+ "-ds-" +:+ pretty ids.

(** The claim of one rclone data source; a nil [SecretRef] panics. *)
Definition dataSourcePVC (as_ : AmaltheaSession.t) (ids : nat) (ds : DataSource.t)
    : Outcome PersistentVolumeClaim.t :=
  ref ← deref (DataSource.SecretRef ds);
  let annotations :=
    <[rcloneStorageSecretNameAnnotation := SessionSecretRef.Name ref]>
      (maps_Copy ∅ (templateAnnotations as_)) in
  mret {| PersistentVolumeClaim.Meta :=
            newMeta (dataSourcePVCName as_ ids) (AmaltheaSession.Namespace as_) (childLabels as_) annotations;
          PersistentVolumeClaim.Spec :=
            {| PersistentVolumeClaimSpec.AccessModes := [DataSource.AccessMode ds];
               PersistentVolumeClaimSpec.Requests := {[ "storage" := rcloneDefaultStorage ]};
               PersistentVolumeClaimSpec.StorageClassName := Some (getStorageClass env);
               PersistentVolumeClaimSpec.rest := NoRest |};
          PersistentVolumeClaim.Status := PersistentVolumeClaimStatus.mk "" ∅ [] |}.

Fixpoint dataSources_loop (as_ : AmaltheaSession.t) (ids : nat) (l : list DataSource.t)
    : Outcome (list PersistentVolumeClaim.t * list Volume.t * list VolumeMount.t) :=
  match l with
  | [] => mret ([], [], [])
  | ds :: l' =>
      if DataSource.Type_ ds =s Rclone then
        let pvcName := dataSourcePVCName as_ ids in
        let readOnly := DataSource.AccessMode ds =s ReadOnlyMany in
        pvc ← dataSourcePVC as_ ids ds;
        '(pvcs, vols, mounts) ← dataSources_loop as_ (S ids) l';
        mret (pvc :: pvcs, pvcVolume pvcName pvcName readOnly :: vols,
              volumeMount pvcName (DataSource.MountPath ds) "" readOnly :: mounts)
      else dataSources_loop as_ (S ids) l'
  end.

Definition DataSources (as_ : AmaltheaSession.t)
    : Outcome (list PersistentVolumeClaim.t * list Volume.t * list VolumeMount.t) :=
  if AmaltheaSessionSpec.SessionLocation_ (AmaltheaSession.Spec as_) =s Remote then mret ([], [], [])
  else dataSources_loop as_ 0 (AmaltheaSessionSpec.DataSources (AmaltheaSession.Spec as_)).

(** ** The session container *)

Definition readinessProbe (session : Session.t) : option Probe.t :=
  if Session.ReadinessProbe session =s HTTP
  then Some (probe (httpGet (Session.URLPath session) (Session.Port session)) 10 5 5)
  else if Session.ReadinessProbe session =s TCP
  then Some (probe (tcpSocket (Session.Port session)) 10 5 5)
  else None.

Definition sessionContainerLocal (cr : AmaltheaSession.t) (volumeMounts : list VolumeMount.t)
    (cfg : AmaltheaSessionConfiguration) : Container.t :=
  let session := Spec_Session cr in
  let image :=
    match AmaltheaSessionSpec.ImagePullSecrets (AmaltheaSession.Spec cr), ImageFieldRewriter_ cfg with
    | [], Some rewriter =>
        match Rewrite rewriter (Session.Image session) with
        | (_, Some err) => Session.Image session
        | (newImage, None) => newImage
        end
    | _, _ => Session.Image session
    end in
  {| Container.Name := SessionContainerName;
     Container.Image := image;
     Container.ImagePullPolicy := Session.ImagePullPolicy session;
     Container.Command := Session.Command session;
     Container.Args := Session.Args session;
     Container.WorkingDir := Session.WorkingDir session;
     Container.Ports := [];
     Container.EnvFrom := [];
     Container.Env := Session.Env session;
     Container.Resources := Session.Resources session;
     Container.VolumeMounts := volumeMounts;
     Container.LivenessProbe := None;
     Container.ReadinessProbe := readinessProbe session;
     Container.TerminationMessagePath := "/dev/termination-log";
     Container.TerminationMessagePolicy := "File";
     Container.RestartPolicy := None;
     Container.SecurityContext := Some
       {| SecurityContext.AllowPrivilegeEscalation := None;
          SecurityContext.RunAsNonRoot := Some (negb (Session.RunAsUser session =? 0)%Z);
          SecurityContext.RunAsUser := Some (Session.RunAsUser session);
          SecurityContext.RunAsGroup := Some (Session.RunAsGroup session);
          SecurityContext.CapabilitiesDrop := ["ALL"];
          SecurityContext.rest := NoRest |};
     Container.rest := NoRest |}.

Definition remoteEnvName (name : string) : string :=
  if Strings.HasPrefix name "RENKU_" || Strings.HasPrefix name "RSC_" then name
  else "USER_ENV_" +:+ name.

Definition remoteEnv (session : Session.t) : list EnvVar.t :=
  (λ item, {| EnvVar.Name := remoteEnvName (EnvVar.Name item); EnvVar.Value := EnvVar.Value item;
              EnvVar.ValueFrom := EnvVar.ValueFrom item |}) <$> Session.Env session.

Context `{QuantityOps}.

Definition remoteResourceEnv (resources : ResourceRequirements.t) : list EnvVar.t :=
  let value name scale :=
    let q := resourceValue resources name in
    if negb (Quantity_IsZero q) then pretty (Z.quot (Quantity_Value q) scale) else "" in
  [envVar "RSC_SESSION_CPU" (value "cpu" 1%Z);
   envVar "RSC_SESSION_MEMORY" (value "memory" oneMebiByte);
   envVar "RSC_SESSION_GPUS" (value "nvidia.com/gpu" 1%Z)].

Definition sessionContainerRemote (cr : AmaltheaSession.t) (volumeMounts : list VolumeMount.t) : Container.t :=
  let session := Spec_Session cr in
  {| Container.Name := SessionContainerName;
     Container.Image := getSidecarsImage env;
     Container.ImagePullPolicy := "";
     Container.Command := [];
     Container.Args := ["remote-session-controller"; "run"];
     Container.WorkingDir := "";
     Container.Ports := [{| ContainerPort.Name := servicePortName;
                            ContainerPort.ContainerPort := RemoteSessionControllerPort;
                            ContainerPort.rest := NoRest |}];
     Container.EnvFrom :=
       match Session.RemoteSecretRef session with
       | Some ref => [envFromSecret (SessionSecretRef.Name ref)]
       | None => []
       end;
     Container.Env := remoteEnv session ++
       [envVar "REMOTE_SESSION_IMAGE" (Session.Image session);
        envVar "RSC_SERVER_PORT" (pretty RemoteSessionControllerPort);
        envVar "RSC_SESSION_PORT" (pretty (Session.Port session));
        envVar "RSC_SESSION_URL_PATH" (Session.URLPath session);
        envVar "RSC_READINESS_PROBE_TYPE" (Session.ReadinessProbe session);
        envFromSecretKey "RSC_WSTUNNEL_SECRET" (InternalSecretName cr) "WSTUNNEL_SECRET"] ++
       remoteResourceEnv (Session.Resources session);
     Container.Resources := requestsAndMemoryLimit "64Mi" "100m";
     Container.VolumeMounts := volumeMounts;
     Container.LivenessProbe := Some (probe (httpGet "/live" RemoteSessionControllerPort) 10 1 0);
     Container.ReadinessProbe := Some (probe (httpGet "/ready" RemoteSessionControllerPort) 10 5 5);
     Container.TerminationMessagePath := "/dev/termination-log";
     Container.TerminationMessagePolicy := "File";
     Container.RestartPolicy := None;
     Container.SecurityContext := Some (restrictedContext None None);
     Container.rest := NoRest |}.

Definition sessionContainer (cr : AmaltheaSession.t) (volumeMounts : list VolumeMount.t)
    (cfg : AmaltheaSessionConfiguration) : Container.t :=
  if AmaltheaSessionSpec.SessionLocation_ (AmaltheaSession.Spec cr) =s Remote
  then sessionContainerRemote cr volumeMounts
  else sessionContainerLocal cr volumeMounts cfg.

Definition tunnelContainer (cr : AmaltheaSession.t) : Container.t :=
  {| Container.Name := tunnelContainerName;
     Container.Image := getSidecarsImage env;
     Container.ImagePullPolicy := "";
     Container.Command := [];
     Container.Args := ["tunnel"; "listen"];
     Container.WorkingDir := "";
     Container.Ports := [{| ContainerPort.Name := tunnelServiceName;
                            ContainerPort.ContainerPort := TunnelPort; ContainerPort.rest := NoRest |}];
     Container.EnvFrom := [];
     Container.Env := [envVar "WSTUNNEL_PORT" (pretty TunnelPort);
                       envFromSecretKey "WSTUNNEL_SECRET" (InternalSecretName cr) "WSTUNNEL_SECRET"];
     Container.Resources := requestsAndMemoryLimit "64Mi" "100m";
     Container.VolumeMounts := [];
     Container.LivenessProbe := None;
     Container.ReadinessProbe := Some (probe (tcpSocket TunnelPort) 5 1 3);
     Container.TerminationMessagePath := "";
     Container.TerminationMessagePolicy := "";
     Container.RestartPolicy := None;
     Container.SecurityContext := Some (restrictedContext None None);
     Container.rest := NoRest |}.

(** ** Pod, job and stateful set *)

Definition Pod (cr : AmaltheaSession.t) (cfg : AmaltheaSessionConfiguration) : Outcome (Result PodSpec.t) :=
  let spec := AmaltheaSession.Spec cr in
  '(_, dsVols, dsVolMounts) ← DataSources cr;
  let cloneInit := CodeRepoTemplates.cloneInit env cr in
  let '(sessionVols, sessionMounts) := SessionVolumes cr in
  let auth := if AmaltheaSessionSpec.SessionType_ spec ≠s SessionTypeNonInteractive
              then AuthTemplates.auth env cr else inl (mkManifests [] []) in
  match auth with
  | inr err => mret (inr err)
  | inl auth =>
      let volumes := sessionVols ++ manifests_Volumes cloneInit ++ AmaltheaSessionSpec.ExtraVolumes spec
                     ++ dsVols ++ manifests_Volumes auth in
      let volumeMounts := sessionMounts ++ Session.ExtraVolumeMounts (Spec_Session cr) ++ dsVolMounts in
      let initContainers := manifests_Containers cloneInit ++ AmaltheaSessionSpec.ExtraInitContainers spec in
      let containers := [sessionContainer cr volumeMounts cfg] ++ manifests_Containers auth ++
        (if AmaltheaSessionSpec.SessionLocation_ spec =s Remote then [tunnelContainer cr] else []) ++
        AmaltheaSessionSpec.ExtraContainers spec in
      mret (inl {| PodSpec.ServiceAccountName := AmaltheaSessionSpec.ServiceAccountName spec;
           PodSpec.DeprecatedServiceAccount :=
             if ClusterType_ cfg =s OpenShift then AmaltheaSessionSpec.ServiceAccountName spec else "";
           PodSpec.EnableServiceLinks := Some false;
           PodSpec.AutomountServiceAccountToken := Some false;
           PodSpec.FSGroup := Some (Session.RunAsGroup (Spec_Session cr));
           PodSpec.Containers := containers;
           PodSpec.InitContainers := initContainers;
           PodSpec.Volumes := volumes;
           PodSpec.Tolerations := AmaltheaSessionSpec.Tolerations spec;
           PodSpec.NodeSelector := AmaltheaSessionSpec.NodeSelector spec;
           PodSpec.Affinity := AmaltheaSessionSpec.Affinity spec;
           PodSpec.PriorityClassName := AmaltheaSessionSpec.PriorityClassName spec;
           PodSpec.ImagePullSecrets := SessionSecretRef.Name <$> AmaltheaSessionSpec.ImagePullSecrets spec;
           PodSpec.RestartPolicy := "";
           PodSpec.TerminationGracePeriodSeconds := None;
           PodSpec.rest := NoRest |})
  end.

(** Writes to the fresh pod spec: the restart policy of a job, the grace
    period of a remote session. *)
Definition pod_with (p : PodSpec.t) (restartPolicy : string) (grace : option Z) : PodSpec.t :=
  {| PodSpec.ServiceAccountName := PodSpec.ServiceAccountName p;
     PodSpec.DeprecatedServiceAccount := PodSpec.DeprecatedServiceAccount p;
     PodSpec.EnableServiceLinks := PodSpec.EnableServiceLinks p;
     PodSpec.AutomountServiceAccountToken := PodSpec.AutomountServiceAccountToken p;
     PodSpec.FSGroup := PodSpec.FSGroup p; PodSpec.Containers := PodSpec.Containers p;
     PodSpec.InitContainers := PodSpec.InitContainers p; PodSpec.Volumes := PodSpec.Volumes p;
     PodSpec.Tolerations := PodSpec.Tolerations p; PodSpec.NodeSelector := PodSpec.NodeSelector p;
     PodSpec.Affinity := PodSpec.Affinity p; PodSpec.PriorityClassName := PodSpec.PriorityClassName p;
     PodSpec.ImagePullSecrets := PodSpec.ImagePullSecrets p; PodSpec.RestartPolicy := restartPolicy;
     PodSpec.TerminationGracePeriodSeconds := grace; PodSpec.rest := PodSpec.rest p |}.

(** The annotations of job and stateful set: the template's, the run ID and
    the session UID. *)
Definition runAnnotations (cr : AmaltheaSession.t) : gmap string string :=
  let annotations := templateAnnotations cr in
  let runID := AmaltheaSessionStatus.RunID (AmaltheaSession.Status cr) in
  let annotations := if runID ≠s "" then <["renku.io/run_id" := runID]> annotations else annotations in
  let uid := ObjectMeta.UID (AmaltheaSession.Meta cr) in
  if uid ≠s "" then <["renku.io/session_uid" := uid]> annotations else annotations.

Definition Job (cr : AmaltheaSession.t) (cfg : AmaltheaSessionConfiguration) : Outcome (Result Job.t) :=
  pod ← Pod cr cfg;
  match pod with
  | inr err => mret (inr err)
  | inl pod =>
      let pod := pod_with pod "Never" (PodSpec.TerminationGracePeriodSeconds pod) in
      let maxAge := Seconds.seconds (Culling.MaxAge (AmaltheaSessionSpec.Culling_ (AmaltheaSession.Spec cr))) in
      let activeTTL := if Seconds.positive maxAge then Some (Seconds.toInt64 maxAge) else None in
      let jobLabels := childLabels cr in
      let annotations := runAnnotations cr in
      mret (inl
        {| Job.Meta := newMeta (JobName cr) (AmaltheaSession.Namespace cr) jobLabels annotations;
           Job.Spec :=
             {| JobSpec.Parallelism := Some 1%Z; JobSpec.Completions := Some 1%Z;
                JobSpec.BackoffLimit := Some 0%Z; JobSpec.ActiveDeadlineSeconds := activeTTL;
                JobSpec.TTLSecondsAfterFinished := None;
                JobSpec.Suspend := Some (AmaltheaSessionSpec.Hibernated_ (AmaltheaSession.Spec cr));
                JobSpec.Template :=
                  {| PodTemplateSpec.Meta := newMeta "" "" jobLabels annotations; PodTemplateSpec.Spec := pod |};
                JobSpec.rest := NoRest |};
           Job.Status := JobStatus.mk [] 0 0 None |})
  end.

Definition StatefulSet (cr : AmaltheaSession.t) (cfg : AmaltheaSessionConfiguration)
    : Outcome (Result StatefulSet.t) :=
  let spec := AmaltheaSession.Spec cr in
  let replicas := if AmaltheaSessionSpec.Hibernated_ spec then 0%Z else 1%Z in
  pod ← Pod cr cfg;
  match pod with
  | inr err => mret (inr err)
  | inl pod =>
      let pod := if AmaltheaSessionSpec.SessionLocation_ spec =s Remote
                 then pod_with pod (PodSpec.RestartPolicy pod) (Some 60%Z) else pod in
      let stsLabels := childLabels cr in
      let annotations := runAnnotations cr in
      mret (inl
        {| StatefulSet.Meta := newMeta (AmaltheaSession.Name cr) (AmaltheaSession.Namespace cr) stsLabels annotations;
           StatefulSet.Spec :=
             {| StatefulSetSpec.Replicas := Some replicas;
                StatefulSetSpec.Selector := Some (selectorLabels (AmaltheaSession.Name cr));
                StatefulSetSpec.Template :=
                  {| PodTemplateSpec.Meta := newMeta "" "" stsLabels annotations; PodTemplateSpec.Spec := pod |};
                StatefulSetSpec.PodManagementPolicy := "Parallel";
                StatefulSetSpec.rest := NoRest |};
           StatefulSet.Status := StatefulSetStatus.mk 0 0 |})
  end.
End Builders.
