(* ===== verification/Routing.v ===== *)
(** * Network-facing children: service, ingress, internal secret

    [Service], [Ingress] and [Secret] of
    api/v1alpha1/amaltheasession_children.go. *)

From S2P Require Import Prelude Prog NetUrl K8s Types Api Names.

(** ** Service *)

Definition targetPort (cr : AmaltheaSession.t) : Z :=
  match AmaltheaSessionSpec.Authentication_ (AmaltheaSession.Spec cr) with
  | Some auth => if Authentication.Enabled auth then authenticatedPort else Session.Port (Spec_Session cr)
  | None => Session.Port (Spec_Session cr)
  end.

Definition servicePort_ (name : string) (port : Z) (target : IntOrString) : ServicePort.t :=
  {| ServicePort.Protocol := "TCP"; ServicePort.Name := name; ServicePort.Port := port;
     ServicePort.TargetPort := target; ServicePort.rest := NoRest |}.

Definition Service (cr : AmaltheaSession.t) : Service.t :=
  let remote := AmaltheaSessionSpec.SessionLocation_ (AmaltheaSession.Spec cr) =s Remote in
  {| Service.Meta := newMeta (AmaltheaSession.Name cr) (AmaltheaSession.Namespace cr)
                             (childLabels cr) (templateAnnotations cr);
     Service.Spec :=
       {| ServiceSpec.Selector := selectorLabels (AmaltheaSession.Name cr);
          ServiceSpec.Ports :=
            [servicePort_ servicePortName servicePort (FromInt32 (targetPort cr));
             servicePort_ serviceMetaPortName AuthProxyMetaPort (FromInt32 AuthProxyMetaPort)] ++
            (if remote then [servicePort_ tunnelServiceName TunnelPort (FromString tunnelServiceName)] else []);
          ServiceSpec.PublishNotReadyAddresses := remote;
          ServiceSpec.rest := NoRest |};
     Service.LoadBalancer := LoadBalancerStatus.mk [] |}.

(** ** Ingress *)

Definition ingressPath (path service portName : string) : HTTPIngressPath.t :=
  {| HTTPIngressPath.Path := path; HTTPIngressPath.PathType := Some "Prefix";
     HTTPIngressPath.Backend := Some {| IngressServiceBackend.Name := service;
                                        IngressServiceBackend.PortName := portName |} |}.

Definition ingressTLS (ingress : SessionIngress.t) : list IngressTLS.t :=
  match SessionIngress.TLSSecret ingress with
  | Some s => if SessionSecretRef.Name s ≠s ""
              then [{| IngressTLS.Hosts := [SessionIngress.Host ingress];
                       IngressTLS.SecretName := SessionSecretRef.Name s |}]
              else []
  | None => if SessionIngress.UseDefaultClusterTLSCert ingress
            then [{| IngressTLS.Hosts := []; IngressTLS.SecretName := "" |}]
            else []
  end.

Definition Ingress (cr : AmaltheaSession.t) : option Ingress.t :=
  match Spec_Ingress cr with
  | None => None
  | Some ingress =>
      (* the conflicts between the two annotation maps are only logged *)
      let annotations := maps_Copy (maps_Copy ∅ (templateAnnotations cr)) (SessionIngress.Annotations ingress) in
      Some {| Ingress.Meta := newMeta (AmaltheaSession.Name cr) (AmaltheaSession.Namespace cr)
                                      (childLabels cr) annotations;
              Ingress.Spec :=
                {| IngressSpec.IngressClassName := SessionIngress.IngressClassName ingress;
                   IngressSpec.TLS := ingressTLS ingress;
                   IngressSpec.Rules :=
                     [{| IngressRule.Host := SessionIngress.Host ingress;
                         IngressRule.Paths :=
                           [ingressPath (ingressPathPrefix cr) (AmaltheaSession.Name cr) servicePortName] ++
                           (if AmaltheaSessionSpec.SessionLocation_ (AmaltheaSession.Spec cr) =s Remote
                            then [ingressPath (ingressPathPrefix cr +:+ TunnelIngressPathSuffix)
                                              (AmaltheaSession.Name cr) tunnelServiceName]
                            else []) |}];
                   IngressSpec.rest := NoRest |};
              Ingress.LoadBalancer := LoadBalancerStatus.mk [] |}
  end.

(** ** The internal secret *)

(** A Go value of type [any] as handed to [yaml.Marshal]; map entries in the
    order they are written in the source. *)
Inductive AnyVal : Type :=
| AString (s : string)
| ABool (b : bool)
| AList (l : list AnyVal)
| AMap (l : list (string * AnyVal)).

(** [yaml.Marshal] of gopkg.in/yaml.v3, a parameter of the development. *)
Class YamlLib := { yaml_Marshal : AnyVal → Result string }.

Section Secret.
Context (env : Env) `{YamlLib}.

Definition makeTunnelSecret (length : nat) : M (Result string) :=
  b ← trigger (RandRead length);
  mret (match b with
        | inr err => inr err
        | inl b => inl (Base64.RawURLEncoding b)
        end).

Definition oidcConfig (pathPrefix : string) : AnyVal :=
  AMap
    [("providers", AList [AMap
       [("clientID", AString "${OIDC_CLIENT_ID}");
        ("clientSecret", AString "${OIDC_CLIENT_SECRET}");
        ("id", AString "amalthea-oidc");
        ("provider", AString "oidc");
        ("oidcConfig", AMap
          [("insecureSkipNonce", ABool false);
           ("issuerURL", AString "${OIDC_ISSUER_URL}");
           ("insecureAllowUnverifiedEmail", AString "${ALLOW_UNVERIFIED_EMAILS}");
           ("emailClaim", AString "email");
           ("audienceClaims", AList [AString "aud"])])]]);
     ("server", AMap [("bindAddress", AString ("0.0.0.0:" +:+ pretty authenticatedPort))]);
     ("upstreamConfig", AMap
       [("upstreams", AList [AMap
          [("id", AString "amalthea-upstream");
           ("path", AString pathPrefix);
           ("uri", AString ("http://127.0.0.1:" +:+ pretty secondProxyPort));
           ("insecureSkipTLSVerify", ABool true);
           ("passHostHeader", ABool true);
           ("proxyWebSockets", ABool true)]])])].

Definition quoted (s : string) : string := Strings.dquote +:+ s +:+ Strings.dquote.

Definition oldConfigLines (pathPrefix redirectURL cookieSecret : string) : list string :=
  ["session_cookie_minimal = true";
   "skip_provider_button = true";
   "redirect_url = " +:+ quoted redirectURL;
   "cookie_path = " +:+ quoted pathPrefix;
   "proxy_prefix = " +:+ quoted (pathPrefix +:+ "oauth2");
   "authenticated_emails_file = " +:+ quoted "/authorized_emails";
   "cookie_secret = " +:+ quoted (Base64.URLEncoding cookieSecret)].

Definition secretWith (as_ : AmaltheaSession.t) (stringData : gmap string string) : Secret.t :=
  {| Secret.Meta := newMeta (InternalSecretName as_) (AmaltheaSession.Namespace as_)
                            (childLabels as_) (templateAnnotations as_);
     Secret.Data := ∅; Secret.StringData := stringData; Secret.rest := NoRest |}.

Definition tunnelData (tunnelSecret : string) : gmap string string :=
  if tunnelSecret ≠s "" then {[ "WSTUNNEL_SECRET" := tunnelSecret ]} else ∅.

Definition newline : string := String (Ascii.ascii_of_nat 10) "".

Definition Secret (as_ : AmaltheaSession.t) : M Secret.t :=
  tunnelSecret ←
    (if AmaltheaSessionSpec.SessionLocation_ (AmaltheaSession.Spec as_) =s Remote
     then b ← makeTunnelSecret 16;
          match b with inl s => Ret s | inr err => Panic (err_msg err) end
     else mret "");
  let oidc := match AmaltheaSessionSpec.Authentication_ (AmaltheaSession.Spec as_) with
              | Some auth => Authentication.Type_ auth =s Oidc
              | None => false
              end in
  if negb oidc then mret (secretWith as_ (tunnelData tunnelSecret))
  else
    let pathPrefix := ingressPathPrefix as_ in
    sessionURL ← lift (deref (GetURL env as_));
    let pathPrefixURL := URL.new (URL.Scheme sessionURL) (URL.Host sessionURL) pathPrefix in
    cookie ← trigger (RandRead 32);
    match cookie with
    | inr err => Panic (err_msg err)
    | inl cookieSecret =>
        match yaml_Marshal (oidcConfig pathPrefix) with
        | inr err => Panic (err_msg err)
        | inl newConfigStr =>
            let lines := oldConfigLines pathPrefix
                           (URL_String (JoinPath pathPrefixURL "oauth2/callback")) cookieSecret in
            mret (secretWith as_
              (tunnelData tunnelSecret ∪
               {[ "oauth2-proxy-alpha-config.yaml" := newConfigStr;
                  "oauth2-proxy-config.yaml" := Strings.Join lines newline ]}))
        end
    end.
End Secret.
