(* ===== verification/Lifecycle.v ===== *)
(** * Lifecycle helpers of the session resource

    [NewConditions], [NeedsDeletion], [GetPod], [GetJob], [GetPodEvents] and
    [AdoptedSecrets] of api/v1alpha1/amaltheasession_children.go. *)

From S2P Require Import Prelude Prog K8s Types Api Names.
From stdpp Require Import sorting.

Definition ConditionTrue : string := "True".
Definition ConditionFalse : string := "False".

Definition newCondition (type : string) (now : Time.t) : AmaltheaSessionCondition.t :=
  {| AmaltheaSessionCondition.Type_ := type;
     AmaltheaSessionCondition.Status := ConditionFalse;
     AmaltheaSessionCondition.LastTransitionTime := now;
     AmaltheaSessionCondition.Reason := "SessionCreated";
     AmaltheaSessionCondition.Message := "The custom resource was created just now" |}.

Definition NewConditions (now : Time.t) : list AmaltheaSessionCondition.t :=
  [newCondition AmaltheaSessionReady now; newCondition AmaltheaSessionRoutingReady now].

(** ** Automatic deletion *)

(** The end of a non-interactive session: the earlier of the idle and the
    failing timestamps, when both are set. *)
Definition doneSince (status : AmaltheaSessionStatus.t) : Time.t :=
  let done_ := AmaltheaSessionStatus.IdleSince status in
  let failing := AmaltheaSessionStatus.FailingSince status in
  if negb (Time.IsZero failing) && negb (Time.IsZero done_) && Time.Before failing done_
  then failing else done_.

(** [NeedsDeletion] at the clock reading [now]. *)
Definition NeedsDeletion (now : Time.t) (cr : AmaltheaSession.t) : bool :=
  let status := AmaltheaSession.Status cr in
  let maxHibernated := Culling.MaxHibernatedDuration (AmaltheaSessionSpec.Culling_ (AmaltheaSession.Spec cr)) in
  let state := AmaltheaSessionStatus.State_ status in
  if AmaltheaSessionSpec.SessionType_ (AmaltheaSession.Spec cr) =s SessionTypeNonInteractive then
    let done_ := doneSince status in
    let hibernatedDuration := Time.Since now done_ in
    negb (Time.IsZero done_) && ((state =s Failed) || (state =s Succeeded)) &&
    (maxHibernated <? hibernatedDuration)%Z
  else
    let hibernatedDuration := Time.Since now (AmaltheaSessionStatus.HibernatedSince status) in
    let durationIsZero := (maxHibernated =? 0)%Z in
    (state =s Hibernated) && negb durationIsZero && (maxHibernated <? hibernatedDuration)%Z.

(** ** Reads *)

(** Returns a pod pointer and an error: a nil pod without an error is possible. *)
Definition GetPod (cr : AmaltheaSession.t) : M (option Pod.t * option GoError) :=
  if AmaltheaSessionSpec.SessionType_ (AmaltheaSession.Spec cr) =s SessionTypeNonInteractive then
    podList ← trigger (ListPods (AmaltheaSession.Namespace cr) {[ "job-name" := JobName cr ]});
    mret match podList with
         | inr err => (None, Some err)
         | inl (_ :: _ :: _) => (None, Some (Errorf "more than one pod found for job"))
         | inl [pod] => (Some pod, None)
         | inl [] => (None, None)
         end
  else
    pod ← trigger (Api.GetPod (AmaltheaSession.Namespace cr) (PodName cr));
    mret match pod with inr err => (None, Some err) | inl pod => (Some pod, None) end.

Definition GetJob (cr : AmaltheaSession.t) : M (option Job.t * option GoError) :=
  job ← trigger (Api.GetJob (AmaltheaSession.Namespace cr) (JobName cr));
  mret match job with inr err => (None, Some err) | inl job => (Some job, None) end.

Definition eventTimestamp (ev : Event.t) : Time.t :=
  let t := Event.EventTime ev in
  if Time.IsZero t then Event.FirstTimestamp ev else t.

(** [sort.Slice] by timestamp.  Go's sort is not stable; this is the stable
    result, one of the orders it may produce when timestamps are equal. *)
Definition event_le (e1 e2 : Event.t) : Prop := (eventTimestamp e1 ≤ eventTimestamp e2)%Z.
#[global] Instance event_le_dec : RelDecision event_le.
Proof. intros e1 e2. apply Z_le_dec. Defined.
#[global] Instance event_le_total : Total event_le.
Proof. intros e1 e2. unfold event_le. lia. Qed.
#[global] Instance event_le_trans : Transitive event_le.
Proof. intros e1 e2 e3. unfold event_le. lia. Qed.

Definition GetPodEvents (as_ : AmaltheaSession.t) : M (option (list Event.t) * option GoError) :=
  events ← trigger (ListEvents (AmaltheaSession.Namespace as_) "Pod" (PodName as_));
  mret match events with
       | inr err => (None, Some (mkError ("cannot get pod events: " +:+ err_msg err) (err_notFound err)))
       | inl items => (Some (merge_sort event_le items), None)
       end.

(** ** Adopted secrets *)

Definition secretNamed (cr : AmaltheaSession.t) (name : string) : Secret.t :=
  {| Secret.Meta := newMeta name (AmaltheaSession.Namespace cr) ∅ ∅;
     Secret.Data := ∅; Secret.StringData := ∅; Secret.rest := NoRest |}.

(** The secrets adopted through a reference that may be nil. *)
Definition adoptedRef (cr : AmaltheaSession.t) (ref : option SessionSecretRef.t) : list Secret.t :=
  if SessionSecretRef.isAdopted ref
  then match ref with Some s => [secretNamed cr (SessionSecretRef.Name s)] | None => [] end
  else [].

Definition adoptedKeyRef (cr : AmaltheaSession.t) (ref : option SessionSecretKeyRef.t) : list Secret.t :=
  if SessionSecretKeyRef.isAdopted ref
  then match ref with Some s => [secretNamed cr (SessionSecretKeyRef.Name s)] | None => [] end
  else [].

Definition AdoptedSecrets (cr : AmaltheaSession.t) : list Secret.t :=
  let spec := AmaltheaSession.Spec cr in
  match Spec_Ingress cr with
  | Some ing => adoptedRef cr (SessionIngress.TLSSecret ing)
  | None => []
  end ++
  match AmaltheaSessionSpec.Authentication_ spec with
  | Some auth => if Authentication.Enabled auth then adoptedRef cr (Some (Authentication.SecretRef auth)) else []
  | None => []
  end ++
  adoptedRef cr (Session.RemoteSecretRef (Spec_Session cr)) ++
  (AmaltheaSessionSpec.DataSources spec ≫= λ pv, adoptedRef cr (DataSource.SecretRef pv)) ++
  (AmaltheaSessionSpec.CodeRepositories spec ≫= λ codeRepo,
     adoptedKeyRef cr (CodeRepository.CloningConfigSecretRef codeRepo) ++
     adoptedKeyRef cr (CodeRepository.ConfigSecretRef codeRepo)) ++
  (AmaltheaSessionSpec.ImagePullSecrets spec ≫= λ imagePull, adoptedRef cr (Some imagePull)).
