(* ===== verification/PodStatus.v ===== *)
(** * Reading the state of the children

    internal/controller/status.go (container counts, pod and job readiness,
    idleness) and internal/controller/children_conditions.go (why a child is
    failing). *)

From S2P Require Import Prelude Prog K8s Types Api Names Lifecycle.

(** ** Containers and pods *)

Definition containerRestartPolicy (status : ContainerStatus.t) (pod : Pod.t) : option string :=
  match find (λ c, Container.Name c =s ContainerStatus.Name status)
             (PodSpec.Containers (Pod.Spec pod)) with
  | Some c => Container.RestartPolicy c
  | None => None
  end.

Definition isContainerSidecar (status : ContainerStatus.t) (pod : Pod.t) : bool :=
  match containerRestartPolicy status pod with
  | Some restartPolicy => restartPolicy =s "Always"
  | None => false
  end.

Definition containerRunning (c : ContainerStatus.t) : bool :=
  ContainerStatus.Ready c &&
  match ContainerState.Running (ContainerStatus.State c) with Some _ => true | None => false end.

Definition containerCompleted (c : ContainerStatus.t) : bool :=
  match ContainerState.Terminated (ContainerStatus.State c) with
  | Some t => (ContainerStateTerminated.ExitCode t =? 0)%Z &&
              (ContainerStateTerminated.Reason t =s "Completed")
  | None => false
  end.

(** One loop of [containerCounts]: [Total] counts all, [Ready] those that pass. *)
Definition count (ok : ContainerStatus.t → bool) (l : list ContainerStatus.t) : ContainerCounts.t :=
  foldl (λ c s, {| ContainerCounts.Total := (ContainerCounts.Total c + 1)%Z;
                   ContainerCounts.Ready := (if ok s then ContainerCounts.Ready c + 1
                                             else ContainerCounts.Ready c)%Z |})
        ContainerCounts.zero l.

Definition containerCounts (pod : option Pod.t) : ContainerCounts.t * ContainerCounts.t :=
  match pod with
  | None => (ContainerCounts.zero, ContainerCounts.zero)
  | Some pod =>
      (count (λ c, if isContainerSidecar c pod then containerRunning c else containerCompleted c)
             (PodStatus.InitContainerStatuses (Pod.Status pod)),
       count (λ c, containerRunning c || containerCompleted c)
             (PodStatus.ContainerStatuses (Pod.Status pod)))
  end.

Definition deleting (m : ObjectMeta.t) : bool :=
  match ObjectMeta.DeletionTimestamp m with Some _ => true | None => false end.

Definition podIsReady (pod : option Pod.t) : bool :=
  match pod with
  | None => false
  | Some pod =>
      if deleting (Pod.Meta pod) then false
      else
        let phase := PodStatus.Phase (Pod.Status pod) in
        let phaseOk := (phase =s "Succeeded") || (phase =s "Running") in
        let condOk := existsb (λ c, (Condition.Type_ c =s "Ready") && (Condition.Status c =s ConditionTrue))
                              (PodStatus.Conditions (Pod.Status pod)) in
        phaseOk && condOk
  end.

Definition jobIsSuccess (job : option Job.t) : bool :=
  match job with
  | None => false
  | Some job =>
      existsb (λ c, (Condition.Type_ c =s "Complete") && (Condition.Status c =s ConditionTrue))
              (JobStatus.Conditions (Job.Status job))
  end.

Definition podIsCompleted (pod : option Pod.t) : bool :=
  match pod with
  | None => false
  | Some pod =>
      if deleting (Pod.Meta pod) then false
      else
        let phase := PodStatus.Phase (Pod.Status pod) in
        let phaseCompleted := (phase =s "Succeeded") || (phase =s "Failed") in
        let '(totalCnt, completedCnt) :=
          foldl (λ '(t, c) s,
                   ((t + 1)%Z,
                    match ContainerState.Terminated (ContainerStatus.State s) with
                    | Some _ => (c + 1)%Z | None => c end))
                (0, 0)%Z (PodStatus.ContainerStatuses (Pod.Status pod)) in
        phaseCompleted && (totalCnt =? completedCnt)%Z
  end.

Definition jobIsFinished (job : JobStatus.t) : bool :=
  existsb (λ c, ((Condition.Type_ c =s "Complete") || (Condition.Type_ c =s "Failed")) &&
                (Condition.Status c =s ConditionTrue))
          (JobStatus.Conditions job).

(** ** Failure reasons: the empty string is "no failure" *)

(** [status.State.Waiting] is not nil where this is called. *)
Definition handleBadWaitingState (status : ContainerStatus.t) (waitingState : ContainerStateWaiting.t) : string :=
  let reason := ContainerStateWaiting.Reason waitingState in
  let message := ContainerStateWaiting.Message waitingState in
  let name := ContainerStatus.Name status in
  if (reason =s "ErrImagePull") || (reason =s "ImagePullBackOff")
  then "failure to retrieve image for container " +:+ name +:+ ": " +:+ message
  else if reason =s "CrashLoopBackOff"
  then "the command in container " +:+ name +:+ " is crashing, this can occur when you run out of disk space, this is the best reason for the crash we could extract: " +:+ Strings.Quote message
  else if message ≠s "" then "the container " +:+ name +:+ " is failing because " +:+ message
  else "the container " +:+ name +:+ " is failing because " +:+ reason.

Definition jobFailureReason (job : option Job.t) : string :=
  match job with
  | None => ""
  | Some job =>
      if (0 <? JobStatus.Failed (Job.Status job))%Z then
        match find (λ cond, ((Condition.Type_ cond =s "Failed") || (Condition.Type_ cond =s "FailureTarget")) &&
                            (Condition.Status cond =s ConditionTrue))
                   (JobStatus.Conditions (Job.Status job)) with
        | Some cond => Condition.Reason cond +:+ ": " +:+ Condition.Message cond
        | None => "The job failed."
        end
      else ""
  end.

(** What one container status contributes to [podFailureReason]: [Some msg]
    is [return msg], [None] is [continue] (or a case that does not apply). *)
Definition containerFailure (contStatus : ContainerStatus.t) : option string :=
  let st := ContainerStatus.State contStatus in
  let name := ContainerStatus.Name contStatus in
  if match ContainerStatus.Started contStatus with Some b => b | None => false end &&
     ContainerStatus.Ready contStatus
  then None
  else match ContainerState.Waiting st with
       | Some w =>
           if (ContainerStateWaiting.Reason w =s "ContainerCreating") ||
              (ContainerStateWaiting.Reason w =s "PodInitializing")
           then None
           else Some (handleBadWaitingState contStatus w)
       | None =>
           match ContainerState.Terminated st with
           | Some t =>
               if negb (ContainerStateTerminated.ExitCode t =? 0)%Z then
                 if ContainerStateTerminated.Message t ≠s ""
                 then Some ("the container " +:+ name +:+ " terminated with an error " +:+ ContainerStateTerminated.Message t)
                 else Some ("the command in container " +:+ name +:+ " terminated with an error exit code, this could be because you are running out of disk space")
               else None
           | None => None
           end
       end.

Definition conditionFailure (condition : Condition.t) : option string :=
  if Condition.Type_ condition =s "DisruptionTarget" then
    if Condition.Status condition ≠s ConditionTrue then None
    else if Condition.Message condition ≠s "" then Some (Condition.Message condition)
    else Some (Condition.Reason condition)
  else None.

Definition podFailureReason (pod : option Pod.t) : string :=
  match pod with
  | None => ""
  | Some pod =>
      if deleting (Pod.Meta pod) then ""
      else
        let allStatuses := PodStatus.InitContainerStatuses (Pod.Status pod) ++
                           PodStatus.ContainerStatuses (Pod.Status pod) in
        match omap containerFailure allStatuses with
        | msg :: _ => msg
        | [] => match omap conditionFailure (PodStatus.Conditions (Pod.Status pod)) with
                | msg :: _ => msg
                | [] => ""
                end
        end
  end.

Definition loadBalancerError (lb : LoadBalancerStatus.t) : string :=
  match omap (λ e, e) (mjoin (LoadBalancerStatus.Ingress lb)) with
  | msg :: _ => msg
  | [] => ""
  end.

Definition ingressFailureReason (ing : option Ingress.t) : string :=
  match ing with
  | None => ""
  | Some ing => if deleting (Ingress.Meta ing) then "" else loadBalancerError (Ingress.LoadBalancer ing)
  end.

Definition serviceFailureReason (svc : option Service.t) : string :=
  match svc with
  | None => ""
  | Some svc => if deleting (Service.Meta svc) then "" else loadBalancerError (Service.LoadBalancer svc)
  end.

Definition infeasible (resStatus : string) : bool :=
  (resStatus =s "NodeResizeInfeasible") || (resStatus =s "ControllerResizeInfeasible").

Definition resizeFailure (condition : Condition.t) : option string :=
  if ((Condition.Type_ condition =s "Resizing") || (Condition.Type_ condition =s "FileSystemResizePending")) &&
     (Condition.Status condition =s ConditionFalse)
  then Some (Condition.Message condition) else None.

(** The loop over [AllocatedResourceStatuses] ranges over a map: when several
    resources are infeasible the message names one of them. *)
Definition pvcFailureReason (pvc : option PersistentVolumeClaim.t) : string :=
  match pvc with
  | None => ""
  | Some pvc =>
      let status := PersistentVolumeClaim.Status pvc in
      if deleting (PersistentVolumeClaim.Meta pvc) then ""
      else if PersistentVolumeClaimStatus.Phase status =s "Bound" then ""
      else
        match filter (λ e, infeasible e.2 = true)
                     (map_to_list (PersistentVolumeClaimStatus.AllocatedResourceStatuses status)) with
        | (resName, resStatus) :: _ =>
            "the PVC " +:+ Strings.Quote (ObjectMeta.Name (PersistentVolumeClaim.Meta pvc)) +:+
            " failed with status " +:+ Strings.Quote resStatus +:+ " for resource " +:+ resName
        | [] => match omap resizeFailure (PersistentVolumeClaimStatus.Conditions status) with
                | msg :: _ => msg
                | [] => ""
                end
        end
  end.

(** ** Idleness *)

Definition metrics (cr : AmaltheaSession.t) : M (Result (gmap string Quantity.t)) :=
  let podName := AmaltheaSession.Name cr +:+ "-0" in
  podMetricses ← trigger (ListPodMetrics (AmaltheaSession.Namespace cr) podName);
  mret match podMetricses with
       | inr err => inr err
       | inl [] => inr (Errorf ("pod " +:+ podName +:+ " not found"))
       | inl (podMetrics :: _) =>
           match find (λ c, PodMetrics.Name c =s SessionContainerName) (PodMetrics.Containers podMetrics) with
           | Some c => inl (PodMetrics.Usage c)
           | None => inr (Errorf ("could not find the metrics for the session container " +:+ SessionContainerName))
           end
       end.

(** [IdleDecision] *)
Definition IdleDecision : Type := Z.
Definition Unknown : IdleDecision := 0%Z.
Definition Idle : IdleDecision := 1%Z.
Definition NotIdle : IdleDecision := 2%Z.

Section Idleness.
Context `{QuantityOps}.

(** The decision from the CPU usage and the threshold; [None] is a nil usage
    (the metrics call failed). *)
Definition cpuIdle (cpuUsage : option Quantity.t) (threshold : Quantity.t) : IdleDecision :=
  match cpuUsage with
  | None => Unknown
  | Some q => if (Quantity_Cmp q threshold =? -1)%Z then Idle else NotIdle
  end.

(** [r] and [cr] are not nil where this is called. *)
Definition getIdleState (cr : AmaltheaSession.t) : M (Time.t * bool) :=
  let idleSince := AmaltheaSessionStatus.IdleSince (AmaltheaSession.Status cr) in
  metrics ← metrics cr;
  let cpuUsage := match metrics with
                  | inr _ => None
                  | inl usage => Some (default Quantity.zero (usage !! "cpu"))
                  end in
  let threshold := Culling.CPUIdleThreshold (AmaltheaSessionSpec.Culling_ (AmaltheaSession.Spec cr)) in
  let idle := (cpuIdle cpuUsage threshold =? Idle)%Z in
  if idle && Time.IsZero idleSince then
    now ← trigger Now;
    mret (now, idle)
  else if negb idle && negb (Time.IsZero idleSince) then mret (Time.zero, idle)
  else mret (idleSince, idle).
End Idleness.

(** ** Lemmas *)

Lemma count_spec (ok : ContainerStatus.t → bool) (l : list ContainerStatus.t) :
  ContainerCounts.Total (count ok l) = Z.of_nat (length l) ∧
  ContainerCounts.Ready (count ok l) = Z.of_nat (length (List.filter ok l)).
Proof.
  unfold count.
  cut (∀ c, let r := foldl (λ c s,
               {| ContainerCounts.Total := (ContainerCounts.Total c + 1)%Z;
                  ContainerCounts.Ready := (if ok s then ContainerCounts.Ready c + 1
                                            else ContainerCounts.Ready c)%Z |}) c l in
            ContainerCounts.Total r = (ContainerCounts.Total c + Z.of_nat (length l))%Z ∧
            ContainerCounts.Ready r = (ContainerCounts.Ready c + Z.of_nat (length (List.filter ok l)))%Z).
  { intros Hc. exact (Hc ContainerCounts.zero). }
  induction l as [|s l IH]; intros c; cbn; [lia|].
  destruct (IH {| ContainerCounts.Total := (ContainerCounts.Total c + 1)%Z;
                  ContainerCounts.Ready := (if ok s then ContainerCounts.Ready c + 1
                                            else ContainerCounts.Ready c)%Z |}) as [-> ->].
  cbn. destruct (ok s); cbn; lia.
Qed.

Lemma count_bounds (ok : ContainerStatus.t → bool) (l : list ContainerStatus.t) :
  (0 ≤ ContainerCounts.Ready (count ok l) ≤ ContainerCounts.Total (count ok l))%Z.
Proof.
  destruct (count_spec ok l) as [-> ->].
  assert (length (List.filter ok l) ≤ length l)%nat; [|lia].
  induction l as [|s l IH]; cbn; [lia|]. destruct (ok s); cbn; lia.
Qed.

#[export] Hint Resolve count_bounds : amalthea.
