(* ===== verification/Cull.v ===== *)
(** * Culling: when a session is hibernated (internal/controller/cull.go) *)

From S2P Require Import Prelude Prog K8s Types Api.

Definition hibernationDateByMaxAge (creationTimestamp : Time.t) (culling : Culling.t) : Time.t :=
  let maxAge := Culling.MaxAge culling in
  if (0 <? maxAge)%Z then Time.Add creationTimestamp maxAge else Time.zero.

Definition hibernationDateByStartingDuration (creationTimestamp : Time.t)
    (status : AmaltheaSessionStatus.t) (culling : Culling.t) : Time.t :=
  let maxStartingDuration := Culling.MaxStartingDuration culling in
  let starting := AmaltheaSessionStatus.State_ status =s NotReady in
  if (0 <? maxStartingDuration)%Z && starting
  then Time.Add creationTimestamp maxStartingDuration else Time.zero.

Definition hibernationDateByFailingSince (status : AmaltheaSessionStatus.t) (culling : Culling.t) : Time.t :=
  let failingSince := AmaltheaSessionStatus.FailingSince status in
  let maxFailedDuration := Culling.MaxFailedDuration culling in
  if negb (Time.IsZero failingSince) && (0 <? maxFailedDuration)%Z
  then Time.Add failingSince maxFailedDuration else Time.zero.

Definition hibernationDateByIdleSince (status : AmaltheaSessionStatus.t) (culling : Culling.t) : Time.t :=
  let idleSince := AmaltheaSessionStatus.IdleSince status in
  let maxIdleDuration := Culling.MaxIdleDuration culling in
  let lastInteraction := Culling.LastInteraction culling in
  let lastIdleSince :=
    if negb (Time.IsZero lastInteraction) && negb (Time.IsZero idleSince) &&
       Time.After lastInteraction idleSince
    then lastInteraction else idleSince in
  if negb (Time.IsZero lastIdleSince) && (0 <? maxIdleDuration)%Z
  then Time.Add lastIdleSince maxIdleDuration else Time.zero.

(** The pairs [{Name, Date}] in the order of the source. *)
Definition hibernationDates (creationTimestamp : Time.t) (status : AmaltheaSessionStatus.t)
    (culling : Culling.t) : list (string * Time.t) :=
  [("MaxAge", hibernationDateByMaxAge creationTimestamp culling);
   ("StartDuration", hibernationDateByStartingDuration creationTimestamp status culling);
   ("FailingDuration", hibernationDateByFailingSince status culling);
   ("IdleDuration", hibernationDateByIdleSince status culling)].

(** The body of the loop (the log message is not represented). *)
Definition earlier (result hd : string * Time.t) : string * Time.t :=
  if Time.IsZero result.2 || (negb (Time.IsZero hd.2) && Time.Before hd.2 result.2)
  then hd else result.

Definition calculateHibernationDate (creationTimestamp : Time.t) (status : AmaltheaSessionStatus.t)
    (culling : Culling.t) : Time.t :=
  snd (foldl earlier ("", Time.zero) (hibernationDates creationTimestamp status culling)).

(** [needsScaleDown] at the clock reading [now]. *)
Definition needsScaleDown (now hibernationDate : Time.t) : bool :=
  negb (Time.IsZero hibernationDate) && Time.Before hibernationDate now.

(** [updateHibernationState]: the session as mutated, and the error. *)
Definition updateHibernationState (amaltheasession : AmaltheaSession.t)
    : M (AmaltheaSession.t * option GoError) :=
  let spec := AmaltheaSession.Spec amaltheasession in
  if AmaltheaSessionSpec.SessionType_ spec =s SessionTypeNonInteractive
  then mret (amaltheasession, None)
  else
    let status := AmaltheaSession.Status amaltheasession in
    if negb (AmaltheaSessionSpec.Hibernated_ spec) then
      let hibernationDate := AmaltheaSessionStatus.WillHibernateAt status in
      if AmaltheaSessionStatus.State_ status ≠s Hibernated then
        now ← trigger Now;
        if needsScaleDown now hibernationDate
        then trigger (UpdateSession (AmaltheaSession.with_Hibernated amaltheasession true))
        else mret (amaltheasession, None)
      else mret (amaltheasession, None)
    else mret (amaltheasession, None).

(** ** Specification: the earliest of the deadlines that are set *)

(** The non-zero dates. *)
Definition deadlines (creationTimestamp : Time.t) (status : AmaltheaSessionStatus.t)
    (culling : Culling.t) : list Time.t :=
  filter (λ d, d ≠ Time.zero) (snd <$> hibernationDates creationTimestamp status culling).

(** Invariant of the selection loop. *)
Definition isEarliest (d : Time.t) (l : list Time.t) : Prop :=
  (d = Time.zero ∧ Forall (λ x, x = Time.zero) l) ∨
  (d ≠ Time.zero ∧ d ∈ l ∧ Forall (λ x, x = Time.zero ∨ (d ≤ x)%Z) l).

Lemma earlier_earliest (seen : list Time.t) (result hd : string * Time.t) :
  isEarliest result.2 seen → isEarliest (earlier result hd).2 (seen ++ [hd.2]).
Proof.
  unfold isEarliest, earlier. intros Hr. rewrite !Forall_app, !Forall_singleton.
  destruct (Time.IsZero result.2) eqn:Ez; cbn.
  - apply Time.IsZero_true in Ez. destruct Hr as [[_ Hz]|[? _]]; [|done].
    destruct (decide (hd.2 = Time.zero)) as [->|Hne]; [by left|]. right.
    split_and!; [done|set_solver| |lia].
    revert Hz. apply Forall_impl. auto.
  - apply Time.IsZero_false in Ez. destruct Hr as [[? _]|(_ & Hin & Hle)]; [done|].
    destruct (Time.IsZero hd.2) eqn:Eh; cbn.
    + apply Time.IsZero_true in Eh. right. split_and!; [done|set_solver|done|auto].
    + apply Time.IsZero_false in Eh. unfold Time.Before.
      destruct (Z.ltb_spec hd.2 result.2).
      * right. split_and!; [done|set_solver| |lia].
        revert Hle. apply Forall_impl. cbn. intros x [?|?]; [by left|right; lia].
      * right. split_and!; [done|set_solver|done|right; lia].
Qed.

Lemma foldl_earliest (l : list (string * Time.t)) (seen : list Time.t) (result : string * Time.t) :
  isEarliest result.2 seen → isEarliest (foldl earlier result l).2 (seen ++ (snd <$> l)).
Proof.
  revert seen result. induction l as [|hd l IH]; intros seen result Hr; cbn.
  - by rewrite app_nil_r.
  - replace (seen ++ hd.2 :: (snd <$> l)) with ((seen ++ [hd.2]) ++ (snd <$> l))
      by (by rewrite <- app_assoc).
    by apply IH, earlier_earliest.
Qed.

Lemma calculateHibernationDate_earliest creation status culling :
  isEarliest (calculateHibernationDate creation status culling)
             (snd <$> hibernationDates creation status culling).
Proof. apply (foldl_earliest _ []). by left. Qed.
