(* ===== verification/Reconcile.v ===== *)
(** * Reconciling the child resources (internal/controller/children.go)

    One mutation callback per kind ([mutate_*]), the [Reconcile] method of a
    child, the construction of the children of a session and their
    reconciliation.  A [ChildResource] whose [Current] and [Desired] are nil
    is [None]; the constructors of the sources set both or neither. *)

From S2P Require Import Prelude Prog NetUrl K8s Types Api Names Templates Config Children Routing.
From S2P Require Import Lifecycle PodStatus.

Record ChildResource (T : Type) := mkChild { Current : T; Desired : T }.
Arguments mkChild {T}. Arguments Current {T}. Arguments Desired {T}.

Record ChildResourceUpdate (T : Type) := mkUpdate {
  Manifest : option T;
  UpdateResult : OperationResult;
  Error : option GoError;
  statusCallback_ : option StatusCallback }.
Arguments mkUpdate {T}. Arguments Manifest {T}. Arguments UpdateResult {T}.
Arguments Error {T}. Arguments statusCallback_ {T}.

Module ChildResources.
Record t := mk {
  Ingress : option (ChildResource Ingress.t);
  Service : option (ChildResource Service.t);
  StatefulSet : option (ChildResource StatefulSet.t);
  PVC : option (ChildResource PersistentVolumeClaim.t);
  DataSourcesPVCs : list (ChildResource PersistentVolumeClaim.t);
  Secret : option (ChildResource Secret.t);
  Job : option (ChildResource Job.t) }.
End ChildResources.

Module ChildResourceUpdates.
Record t := mk {
  Ingress : ChildResourceUpdate Ingress.t;
  Service : ChildResourceUpdate Service.t;
  StatefulSet : ChildResourceUpdate StatefulSet.t;
  PVC : ChildResourceUpdate PersistentVolumeClaim.t;
  DataSourcesPVCs : list (ChildResourceUpdate PersistentVolumeClaim.t);
  Secret : ChildResourceUpdate Secret.t;
  Job : ChildResourceUpdate Job.t }.
End ChildResourceUpdates.

(** ** Labels and annotations *)

Definition wellKnown (key : string) : bool :=
  let '(domain, _, _) := Strings.Cut key "/" in
  (domain =s "kubernetes.io") || (domain =s "k8s.io") ||
  Strings.HasSuffix domain ".kubernetes.io" || Strings.HasSuffix domain ".k8s.io".

Definition cleanWellKnown (current desired : gmap string string) : gmap string string :=
  let preserved := filter (λ e, wellKnown e.1 = true) current in
  let clean := maps_Copy ∅ desired in
  maps_Copy clean preserved.

Definition isFailedOrHibernated (as_ : AmaltheaSession.t) : bool :=
  let state := AmaltheaSessionStatus.State_ (AmaltheaSession.Status as_) in
  (state =s Failed) || (state =s Hibernated).

(** The switch on the reconcile strategy that ends every callback. *)
Inductive Decision_ : Type := KeepChild | UpdateChild | UnknownStrategy (strategy : string).

Definition reconcileDecision (cr : AmaltheaSession.t) : Decision_ :=
  let strategy := AmaltheaSessionSpec.ReconcileStrategy_ (AmaltheaSession.Spec cr) in
  if strategy =s Never then KeepChild
  else if strategy =s WhenFailedOrHibernated then
    if negb (isFailedOrHibernated cr) then KeepChild else UpdateChild
  else if strategy =s Always then UpdateChild
  else UnknownStrategy strategy.

(** ** Field assignments *)

(** [current.Labels = cleanWellKnown(...); current.Annotations = cleanWellKnown(...)] *)
Definition refreshMeta (current desired : ObjectMeta.t) : ObjectMeta.t :=
  {| ObjectMeta.Name := ObjectMeta.Name current;
     ObjectMeta.Namespace := ObjectMeta.Namespace current;
     ObjectMeta.Labels := cleanWellKnown (ObjectMeta.Labels current) (ObjectMeta.Labels desired);
     ObjectMeta.Annotations := cleanWellKnown (ObjectMeta.Annotations current) (ObjectMeta.Annotations desired);
     ObjectMeta.UID := ObjectMeta.UID current;
     ObjectMeta.CreationTimestamp := ObjectMeta.CreationTimestamp current;
     ObjectMeta.DeletionTimestamp := ObjectMeta.DeletionTimestamp current;
     ObjectMeta.Finalizers := ObjectMeta.Finalizers current;
     ObjectMeta.OwnerReferences := ObjectMeta.OwnerReferences current;
     ObjectMeta.rest := ObjectMeta.rest current |}.

Definition templateMeta (current desired : ObjectMeta.t) (labels : bool) : ObjectMeta.t :=
  {| ObjectMeta.Name := ObjectMeta.Name current;
     ObjectMeta.Namespace := ObjectMeta.Namespace current;
     ObjectMeta.Labels := if labels then ObjectMeta.Labels desired else ObjectMeta.Labels current;
     ObjectMeta.Annotations := ObjectMeta.Annotations desired;
     ObjectMeta.UID := ObjectMeta.UID current;
     ObjectMeta.CreationTimestamp := ObjectMeta.CreationTimestamp current;
     ObjectMeta.DeletionTimestamp := ObjectMeta.DeletionTimestamp current;
     ObjectMeta.Finalizers := ObjectMeta.Finalizers current;
     ObjectMeta.OwnerReferences := ObjectMeta.OwnerReferences current;
     ObjectMeta.rest := ObjectMeta.rest current |}.

(** The scheduling fields, reconciled whatever the strategy. *)
Definition podScheduling (current desired : PodSpec.t) : PodSpec.t :=
  {| PodSpec.ServiceAccountName := PodSpec.ServiceAccountName current;
     PodSpec.DeprecatedServiceAccount := PodSpec.DeprecatedServiceAccount current;
     PodSpec.EnableServiceLinks := PodSpec.EnableServiceLinks current;
     PodSpec.AutomountServiceAccountToken := PodSpec.AutomountServiceAccountToken current;
     PodSpec.FSGroup := PodSpec.FSGroup current;
     PodSpec.Containers := PodSpec.Containers current;
     PodSpec.InitContainers := PodSpec.InitContainers current;
     PodSpec.Volumes := PodSpec.Volumes current;
     PodSpec.Tolerations := PodSpec.Tolerations desired;
     PodSpec.NodeSelector := PodSpec.NodeSelector desired;
     PodSpec.Affinity := PodSpec.Affinity desired;
     PodSpec.PriorityClassName := PodSpec.PriorityClassName desired;
     PodSpec.ImagePullSecrets := PodSpec.ImagePullSecrets current;
     PodSpec.RestartPolicy := PodSpec.RestartPolicy current;
     PodSpec.TerminationGracePeriodSeconds := PodSpec.TerminationGracePeriodSeconds current;
     PodSpec.rest := PodSpec.rest current |}.

(** Containers, init containers and volumes. *)
Definition podWorkload (current desired : PodSpec.t) : PodSpec.t :=
  {| PodSpec.ServiceAccountName := PodSpec.ServiceAccountName current;
     PodSpec.DeprecatedServiceAccount := PodSpec.DeprecatedServiceAccount current;
     PodSpec.EnableServiceLinks := PodSpec.EnableServiceLinks current;
     PodSpec.AutomountServiceAccountToken := PodSpec.AutomountServiceAccountToken current;
     PodSpec.FSGroup := PodSpec.FSGroup current;
     PodSpec.Containers := PodSpec.Containers desired;
     PodSpec.InitContainers := PodSpec.InitContainers desired;
     PodSpec.Volumes := PodSpec.Volumes desired;
     PodSpec.Tolerations := PodSpec.Tolerations current;
     PodSpec.NodeSelector := PodSpec.NodeSelector current;
     PodSpec.Affinity := PodSpec.Affinity current;
     PodSpec.PriorityClassName := PodSpec.PriorityClassName current;
     PodSpec.ImagePullSecrets := PodSpec.ImagePullSecrets current;
     PodSpec.RestartPolicy := PodSpec.RestartPolicy current;
     PodSpec.TerminationGracePeriodSeconds := PodSpec.TerminationGracePeriodSeconds current;
     PodSpec.rest := PodSpec.rest current |}.

Definition sts_with (s : StatefulSet.t) (meta : ObjectMeta.t) (replicas : option Z)
    (selector : option (gmap string string)) (tmeta : ObjectMeta.t) (pod : PodSpec.t) : StatefulSet.t :=
  {| StatefulSet.Meta := meta;
     StatefulSet.Spec :=
       {| StatefulSetSpec.Replicas := replicas;
          StatefulSetSpec.Selector := selector;
          StatefulSetSpec.Template := {| PodTemplateSpec.Meta := tmeta; PodTemplateSpec.Spec := pod |};
          StatefulSetSpec.PodManagementPolicy := StatefulSetSpec.PodManagementPolicy (StatefulSet.Spec s);
          StatefulSetSpec.rest := StatefulSetSpec.rest (StatefulSet.Spec s) |};
     StatefulSet.Status := StatefulSet.Status s |}.

Definition job_with (j : Job.t) (meta : ObjectMeta.t) (activeDeadline ttl : option Z) (suspend : option bool)
    (tmeta : ObjectMeta.t) (pod : PodSpec.t) : Job.t :=
  {| Job.Meta := meta;
     Job.Spec :=
       {| JobSpec.Parallelism := JobSpec.Parallelism (Job.Spec j);
          JobSpec.Completions := JobSpec.Completions (Job.Spec j);
          JobSpec.BackoffLimit := JobSpec.BackoffLimit (Job.Spec j);
          JobSpec.ActiveDeadlineSeconds := activeDeadline;
          JobSpec.TTLSecondsAfterFinished := ttl;
          JobSpec.Suspend := suspend;
          JobSpec.Template := {| PodTemplateSpec.Meta := tmeta; PodTemplateSpec.Spec := pod |};
          JobSpec.rest := JobSpec.rest (Job.Spec j) |};
     Job.Status := Job.Status j |}.

(** ** The mutation callbacks *)

Section Mutate.
Context `{ControllerUtil} (cr : AmaltheaSession.t).

Definition created (m : ObjectMeta.t) : bool := negb (Time.IsZero (ObjectMeta.CreationTimestamp m)).

Definition unknownStrategy (what strategy : string) : GoError :=
  Errorf ("attempting to reconcile " +:+ what +:+ " with unknown strategy " +:+ strategy).

Definition mutate_Ingress (desired : Ingress.t) : MutateFn Ingress.t := λ current,
  if negb (created (Ingress.Meta current)) then
    let '(meta, err) := SetControllerReference (AmaltheaSession.Meta cr) (Ingress.Meta desired) in
    (Ingress.mk meta (Ingress.Spec desired) (Ingress.LoadBalancer current), None, err)
  else match reconcileDecision cr with
       | KeepChild => (current, None, None)
       | UpdateChild =>
           (Ingress.mk (refreshMeta (Ingress.Meta current) (Ingress.Meta desired))
                       (Ingress.Spec desired) (Ingress.LoadBalancer current), None, None)
       | UnknownStrategy s => (current, None, Some (unknownStrategy "ingress" s))
       end.

(** The closure stored when the replica count changes. *)
Definition replicasCallback (current desired : option Z) : option StatusCallback :=
  match current, desired with
  | Some c, Some d =>
      if (c =? 1)%Z && (d =? 0)%Z then Some HibernatedCallback
      else if (c =? 0)%Z && (d =? 1)%Z then Some ResumedCallback
      else None
  | _, _ => None
  end.

Definition mutate_StatefulSet (desired : StatefulSet.t) : MutateFn StatefulSet.t := λ current,
  if negb (created (StatefulSet.Meta current)) then
    let '(meta, err) := SetControllerReference (AmaltheaSession.Meta cr) (StatefulSet.Meta desired) in
    (StatefulSet.mk meta (StatefulSet.Spec desired) (StatefulSet.Status current), None, err)
  else
    let cspec := StatefulSet.Spec current in
    let dspec := StatefulSet.Spec desired in
    let cb := replicasCallback (StatefulSetSpec.Replicas cspec) (StatefulSetSpec.Replicas dspec) in
    let ctmpl := StatefulSetSpec.Template cspec in
    let dtmpl := StatefulSetSpec.Template dspec in
    let pod := podScheduling (PodTemplateSpec.Spec ctmpl) (PodTemplateSpec.Spec dtmpl) in
    let current1 := sts_with current (StatefulSet.Meta current) (StatefulSetSpec.Replicas dspec)
                      (StatefulSetSpec.Selector cspec) (PodTemplateSpec.Meta ctmpl) pod in
    match reconcileDecision cr with
    | KeepChild => (current1, cb, None)
    | UpdateChild =>
        (sts_with current1 (refreshMeta (StatefulSet.Meta current) (StatefulSet.Meta desired))
           (StatefulSetSpec.Replicas dspec) (StatefulSetSpec.Selector dspec)
           (templateMeta (PodTemplateSpec.Meta ctmpl) (PodTemplateSpec.Meta dtmpl) true)
           (podWorkload pod (PodTemplateSpec.Spec dtmpl)), cb, None)
    | UnknownStrategy s => (current1, cb, Some (unknownStrategy "ingress" s))
    end.

Definition mutate_PVC (desired : PersistentVolumeClaim.t) : MutateFn PersistentVolumeClaim.t := λ current,
  let cspec := PersistentVolumeClaim.Spec current in
  let dspec := PersistentVolumeClaim.Spec desired in
  if negb (created (PersistentVolumeClaim.Meta current)) then
    let '(meta, err) := SetControllerReference (AmaltheaSession.Meta cr) (PersistentVolumeClaim.Meta desired) in
    (PersistentVolumeClaim.mk meta dspec (PersistentVolumeClaim.Status current), None, err)
  else match reconcileDecision cr with
       | KeepChild => (current, None, None)
       | UpdateChild =>
           (PersistentVolumeClaim.mk
              (refreshMeta (PersistentVolumeClaim.Meta current) (PersistentVolumeClaim.Meta desired))
              {| PersistentVolumeClaimSpec.AccessModes := PersistentVolumeClaimSpec.AccessModes cspec;
                 PersistentVolumeClaimSpec.Requests := PersistentVolumeClaimSpec.Requests dspec;
                 PersistentVolumeClaimSpec.StorageClassName :=
                   match PersistentVolumeClaimSpec.StorageClassName dspec with
                   | Some c => Some c
                   | None => PersistentVolumeClaimSpec.StorageClassName cspec
                   end;
                 PersistentVolumeClaimSpec.rest := PersistentVolumeClaimSpec.rest cspec |}
              (PersistentVolumeClaim.Status current), None, None)
       | UnknownStrategy s => (current, None, Some (unknownStrategy "PVC" s))
       end.

Definition mutate_Service (desired : Service.t) : MutateFn Service.t := λ current,
  let cspec := Service.Spec current in
  let dspec := Service.Spec desired in
  if negb (created (Service.Meta current)) then
    let '(meta, err) := SetControllerReference (AmaltheaSession.Meta cr) (Service.Meta desired) in
    (Service.mk meta dspec (Service.LoadBalancer current), None, err)
  else match reconcileDecision cr with
       | KeepChild => (current, None, None)
       | UpdateChild =>
           (Service.mk (refreshMeta (Service.Meta current) (Service.Meta desired))
              {| ServiceSpec.Ports := ServiceSpec.Ports dspec;
                 ServiceSpec.Selector := ServiceSpec.Selector dspec;
                 ServiceSpec.PublishNotReadyAddresses := ServiceSpec.PublishNotReadyAddresses cspec;
                 ServiceSpec.rest := ServiceSpec.rest cspec |}
              (Service.LoadBalancer current), None, None)
       | UnknownStrategy s => (current, None, Some (unknownStrategy "service" s))
       end.

Definition mutate_Secret (desired : Secret.t) : MutateFn Secret.t := λ current,
  if negb (created (Secret.Meta current)) then
    let '(meta, err) := SetControllerReference (AmaltheaSession.Meta cr) (Secret.Meta desired) in
    (Secret.mk meta (Secret.Data desired) (Secret.StringData desired) (Secret.rest current), None, err)
  else match reconcileDecision cr with
       | KeepChild => (current, None, None)
       | UpdateChild =>
           let preservedStringData := maps_Copy ∅ (Secret.StringData desired) in
           let preservedStringData :=
             match Secret.Data current !! "WSTUNNEL_SECRET" with
             | Some existingTunnel => <["WSTUNNEL_SECRET" := existingTunnel]> preservedStringData
             | None => preservedStringData
             end in
           (Secret.mk (refreshMeta (Secret.Meta current) (Secret.Meta desired))
              (Secret.Data desired) preservedStringData (Secret.rest current), None, None)
       | UnknownStrategy s => (current, None, Some (unknownStrategy "secret" s))
       end.

(** The closure stored when the suspension of a job changes. *)
Definition suspendCallback (current desired : option bool) : option StatusCallback :=
  match desired with
  | Some true => if negb (default false current) then Some HibernatedCallback else None
  | Some false => if default false current then Some ResumedCallback else None
  | None => None
  end.

Definition mutate_Job (desired : Job.t) : MutateFn Job.t := λ current,
  if jobIsFinished (Job.Status current) then (current, None, None)
  else if negb (created (Job.Meta current)) then
    let '(meta, err) := SetControllerReference (AmaltheaSession.Meta cr) (Job.Meta desired) in
    (Job.mk meta (Job.Spec desired) (Job.Status current), None, err)
  else
    let cspec := Job.Spec current in
    let dspec := Job.Spec desired in
    let cb := suspendCallback (JobSpec.Suspend cspec) (JobSpec.Suspend dspec) in
    let ctmpl := JobSpec.Template cspec in
    let dtmpl := JobSpec.Template dspec in
    let pod := podScheduling (PodTemplateSpec.Spec ctmpl) (PodTemplateSpec.Spec dtmpl) in
    let with_ meta tmeta pod :=
      job_with current meta (JobSpec.ActiveDeadlineSeconds dspec) (JobSpec.TTLSecondsAfterFinished dspec)
        (JobSpec.Suspend dspec) tmeta pod in
    let current1 := with_ (Job.Meta current) (PodTemplateSpec.Meta ctmpl) pod in
    match reconcileDecision cr with
    | KeepChild => (current1, cb, None)
    | UpdateChild =>
        (with_ (refreshMeta (Job.Meta current) (Job.Meta desired))
           (templateMeta (PodTemplateSpec.Meta ctmpl) (PodTemplateSpec.Meta dtmpl) false)
           (podWorkload pod (PodTemplateSpec.Spec dtmpl)), cb, None)
    | UnknownStrategy s => (current1, cb, Some (unknownStrategy "batchjob" s))
    end.

(** ** [ChildResource.Reconcile] *)

Definition zeroUpdate {T} : ChildResourceUpdate T := mkUpdate None "" None None.

(** The common shape of the six cases. *)
Definition createOrPatch {T} (k : Kind T) (c : ChildResource T) (f : MutateFn T)
    : M (ChildResourceUpdate T) :=
  '(out, cb, res, err) ← trigger (CreateOrPatch k (Current c) f);
  mret (mkUpdate (Some out) res err cb).

Definition reconcile_Ingress (c : option (ChildResource Ingress.t)) : M (ChildResourceUpdate Ingress.t) :=
  match c with
  | None => mret zeroUpdate
  | Some c =>
      if AmaltheaSessionSpec.Hibernated_ (AmaltheaSession.Spec cr) then
        err ← trigger (DeleteIngress (Current c));
        if IsNotFound err then mret (mkUpdate (Some (Current c)) OperationResultNone None None)
        else mret (mkUpdate (Some (Current c)) "deleted" err None)
      else createOrPatch KIngress c (mutate_Ingress (Desired c))
  end.

Definition reconcile_with {T} (k : Kind T) (mutate : T → MutateFn T) (c : option (ChildResource T))
    : M (ChildResourceUpdate T) :=
  match c with
  | None => mret zeroUpdate
  | Some c => createOrPatch k c (mutate (Desired c))
  end.

Definition reconcile_StatefulSet := reconcile_with KStatefulSet mutate_StatefulSet.
Definition reconcile_PVC := reconcile_with KPVC mutate_PVC.
Definition reconcile_Service := reconcile_with KService mutate_Service.
Definition reconcile_Secret := reconcile_with KSecret mutate_Secret.
Definition reconcile_Job := reconcile_with KJob mutate_Job.

Fixpoint reconcile_PVCs (l : list (ChildResource PersistentVolumeClaim.t))
    : M (list (ChildResourceUpdate PersistentVolumeClaim.t)) :=
  match l with
  | [] => mret []
  | pvc :: l' =>
      u ← reconcile_PVC (Some pvc);
      us ← reconcile_PVCs l';
      mret (u :: us)
  end.
End Mutate.
