(* ===== verification/ChildSet.v ===== *)
(** * The set of children of a session (internal/controller/children.go)

    [NewChildResources], [ChildResources.Reconcile], [combineErrors] and
    [AllEqual]. *)

From S2P Require Import Prelude Prog NetUrl K8s Types Api Names Templates Config Children Routing.
From S2P Require Import Lifecycle PodStatus Reconcile.

Section Children.
Context (env : Env) `{QuantityOps} `{ControllerUtil} `{YamlLib}.

(** An object with only the given metadata: the [Current] side of a child. *)
Definition emptyIngress (meta : ObjectMeta.t) : Ingress.t :=
  Ingress.mk meta (IngressSpec.mk None [] [] NoRest) (LoadBalancerStatus.mk []).
Definition emptyService (meta : ObjectMeta.t) : Service.t :=
  Service.mk meta (ServiceSpec.mk [] ∅ false NoRest) (LoadBalancerStatus.mk []).
Definition emptyPVC (meta : ObjectMeta.t) : PersistentVolumeClaim.t :=
  PersistentVolumeClaim.mk meta (PersistentVolumeClaimSpec.mk [] ∅ None NoRest)
    (PersistentVolumeClaimStatus.mk "" ∅ []).
Definition emptySecret (meta : ObjectMeta.t) : Secret.t := Secret.mk meta ∅ ∅ NoRest.
Definition emptyPodSpec : PodSpec.t :=
  PodSpec.mk "" "" None None None [] [] [] [] ∅ None "" [] "" None NoRest.
Definition emptyTemplate : PodTemplateSpec.t := PodTemplateSpec.mk (newMeta "" "" ∅ ∅) emptyPodSpec.
Definition emptyStatefulSet (meta : ObjectMeta.t) : StatefulSet.t :=
  StatefulSet.mk meta (StatefulSetSpec.mk None None emptyTemplate "" NoRest) (StatefulSetStatus.mk 0 0).
Definition emptyJob (meta : ObjectMeta.t) : Job.t :=
  Job.mk meta (JobSpec.mk None None None None None None emptyTemplate NoRest) (JobStatus.mk [] 0 0 None).

(** The loop over the data source claims. *)
Definition dataSourceChildren (specPVCs : list PersistentVolumeClaim.t)
    : list (ChildResource PersistentVolumeClaim.t) :=
  (λ desiredPVC, mkChild (emptyPVC (PersistentVolumeClaim.Meta desiredPVC)) desiredPVC) <$> specPVCs.

Definition NewNonInteractiveChildResources (cr : AmaltheaSession.t) (cfg : AmaltheaSessionConfiguration)
    : M (Result ChildResources.t) :=
  let metadata := newMeta (AmaltheaSession.Name cr) (AmaltheaSession.Namespace cr) ∅ ∅ in
  let secretMetadata := newMeta (InternalSecretName cr) (AmaltheaSession.Namespace cr) ∅ ∅ in
  let desiredPVC := PVC cr in
  desiredJob ← lift (Job env cr cfg);
  match desiredJob with
  | inr err => mret (inr err)
  | inl desiredJob =>
      desiredSecret ← Secret env cr;
      '(specPVCs, _, _) ← lift (DataSources env cr);
      mret (inl
        {| ChildResources.Ingress := None;
           ChildResources.Service := None;
           ChildResources.StatefulSet := None;
           ChildResources.PVC := Some (mkChild (emptyPVC metadata) desiredPVC);
           ChildResources.DataSourcesPVCs := dataSourceChildren specPVCs;
           ChildResources.Secret := Some (mkChild (emptySecret secretMetadata) desiredSecret);
           ChildResources.Job := Some (mkChild (emptyJob metadata) desiredJob) |})
  end.

Definition NewInteractiveChildResources (cr : AmaltheaSession.t) (cfg : AmaltheaSessionConfiguration)
    : M (Result ChildResources.t) :=
  let metadata := newMeta (AmaltheaSession.Name cr) (AmaltheaSession.Namespace cr) ∅ ∅ in
  let secretMetadata := newMeta (InternalSecretName cr) (AmaltheaSession.Namespace cr) ∅ ∅ in
  let desiredService := Service cr in
  let desiredPVC := PVC cr in
  desiredStatefulSet ← lift (StatefulSet env cr cfg);
  match desiredStatefulSet with
  | inr err => mret (inr err)
  | inl desiredStatefulSet =>
      let desiredIngress := Ingress cr in
      desiredSecret ← Secret env cr;
      '(specPVCs, _, _) ← lift (DataSources env cr);
      mret (inl
        {| ChildResources.Ingress :=
             (λ ing, mkChild (emptyIngress metadata) ing) <$> desiredIngress;
           ChildResources.Service := Some (mkChild (emptyService metadata) desiredService);
           ChildResources.StatefulSet := Some (mkChild (emptyStatefulSet metadata) desiredStatefulSet);
           ChildResources.PVC := Some (mkChild (emptyPVC metadata) desiredPVC);
           ChildResources.DataSourcesPVCs := dataSourceChildren specPVCs;
           ChildResources.Secret := Some (mkChild (emptySecret secretMetadata) desiredSecret);
           ChildResources.Job := None |})
  end.

Definition NewChildResources (cr : AmaltheaSession.t) (cfg : AmaltheaSessionConfiguration)
    : M (Result ChildResources.t) :=
  if AmaltheaSessionSpec.SessionType_ (AmaltheaSession.Spec cr) =s SessionTypeNonInteractive
  then NewNonInteractiveChildResources cr cfg
  else NewInteractiveChildResources cr cfg.

(** ** Errors *)

(** The map of errors [combineErrors] builds; [Manifest.Name] of a failed data
    source claim dereferences the manifest. *)
Fixpoint dataSourceErrors (l : list (ChildResourceUpdate PersistentVolumeClaim.t))
    (errors : gmap string GoError) : Outcome (gmap string GoError) :=
  match l with
  | [] => mret errors
  | pvc :: l' =>
      match Error pvc with
      | None => dataSourceErrors l' errors
      | Some err =>
          manifest ← deref (Manifest pvc);
          dataSourceErrors l'
            (<["DataSourcesPVCs/" +:+ ObjectMeta.Name (PersistentVolumeClaim.Meta manifest) := err]> errors)
      end
  end.

(** Only non-nil errors are kept: the nil ones are skipped by the second loop. *)
Definition namedErrors (c : ChildResourceUpdates.t) : gmap string GoError :=
  list_to_map (omap (λ '(name, err), (λ e, (name, e)) <$> err)
    [("Ingress", Error (ChildResourceUpdates.Ingress c));
     ("Service", Error (ChildResourceUpdates.Service c));
     ("PVC", Error (ChildResourceUpdates.PVC c));
     ("StatefulSet", Error (ChildResourceUpdates.StatefulSet c));
     ("Secret", Error (ChildResourceUpdates.Secret c))]).

(** The messages are joined in the order of the map iteration, which Go leaves
    open. *)
Definition combineErrors (c : ChildResourceUpdates.t) : Outcome (option GoError) :=
  errors ← dataSourceErrors (ChildResourceUpdates.DataSourcesPVCs c) (namedErrors c);
  let errorMsgs := (λ '(name, err), name +:+ ": " +:+ err_msg err) <$> map_to_list errors in
  mret match errorMsgs with
       | [] => None
       | _ => Some (Errorf ("error in reconciling children " +:+ Strings.Join errorMsgs ", "))
       end.

Definition ChildResources_Reconcile (c : ChildResources.t) (cr : AmaltheaSession.t)
    : M (ChildResourceUpdates.t * option GoError) :=
  statefulSet ← reconcile_StatefulSet cr (ChildResources.StatefulSet c);
  pvc ← reconcile_PVC cr (ChildResources.PVC c);
  service ← reconcile_Service cr (ChildResources.Service c);
  ingress ← reconcile_Ingress cr (ChildResources.Ingress c);
  secret ← reconcile_Secret cr (ChildResources.Secret c);
  job ← reconcile_Job cr (ChildResources.Job c);
  dataSourceUpdates ← reconcile_PVCs cr (ChildResources.DataSourcesPVCs c);
  let output :=
    {| ChildResourceUpdates.Ingress := ingress;
       ChildResourceUpdates.Service := service;
       ChildResourceUpdates.StatefulSet := statefulSet;
       ChildResourceUpdates.PVC := pvc;
       ChildResourceUpdates.DataSourcesPVCs := dataSourceUpdates;
       ChildResourceUpdates.Secret := secret;
       ChildResourceUpdates.Job := job |} in
  err ← lift (combineErrors output);
  mret (output, err).

Definition AllEqual (c : ChildResourceUpdates.t) (op : OperationResult) : bool :=
  let ingressOK := match Manifest (ChildResourceUpdates.Ingress c) with
                   | None => true
                   | Some _ => UpdateResult (ChildResourceUpdates.Ingress c) =s op
                   end in
  let dataSourcesOK := forallb (λ ds, UpdateResult ds =s op) (ChildResourceUpdates.DataSourcesPVCs c) in
  ingressOK && (UpdateResult (ChildResourceUpdates.Service c) =s op) &&
  (UpdateResult (ChildResourceUpdates.PVC c) =s op) &&
  (UpdateResult (ChildResourceUpdates.StatefulSet c) =s op) && dataSourcesOK &&
  (UpdateResult (ChildResourceUpdates.Secret c) =s op).
End Children.
