(* ===== verification/SessionStatus.v ===== *)
(** * The status of a session (internal/controller/children.go)

    From the reconciled children, the pod, the job and the events to the new
    [AmaltheaSessionStatus]: [State], [EventsInferedState], [Conditions],
    [statusCallback] and [Status]. *)

From S2P Require Import Prelude Prog NetUrl K8s Types Api Names Lifecycle PodStatus Cull Reconcile.

Local Open Scope Z_scope.

Definition freshContainerMinimalAge : Duration.t := 15 * Duration.Second.
Definition maxWaitForClearFailedScheduling : Duration.t := 10 * Duration.Minute.

(** ** State *)

Definition IsRunning (c : ChildResourceUpdates.t) (pod : option Pod.t) : bool :=
  let stsReady :=
    match Manifest (ChildResourceUpdates.StatefulSet c) with
    | Some m => (StatefulSetStatus.ReadyReplicas (StatefulSet.Status m) =? 1) &&
                (StatefulSetStatus.Replicas (StatefulSet.Status m) =? 1)
    | None => false
    end in
  let jobReady :=
    match Manifest (ChildResourceUpdates.Job c) with
    | Some m => match JobStatus.Ready (Job.Status m) with Some r => r =? 1 | None => false end ||
                (JobStatus.Active (Job.Status m) =? 1)
    | None => false
    end in
  let podExists := match pod with Some _ => true | None => false end in
  let podReady := podExists && podIsReady pod in
  (stsReady || jobReady) && podReady.

(** The first non-empty message, in the order of the checks. *)
Fixpoint firstMessage (l : list string) : string :=
  match l with
  | [] => ""
  | msg :: l' => if msg ≠s "" then msg else firstMessage l'
  end.

Definition failureMessage (c : ChildResourceUpdates.t) (pod : option Pod.t) (job : option Job.t) : string :=
  firstMessage
    ([podFailureReason pod; pvcFailureReason (Manifest (ChildResourceUpdates.PVC c))] ++
     ((λ u, pvcFailureReason (Manifest u)) <$> ChildResourceUpdates.DataSourcesPVCs c) ++
     [serviceFailureReason (Manifest (ChildResourceUpdates.Service c));
      ingressFailureReason (Manifest (ChildResourceUpdates.Ingress c));
      jobFailureReason job]).

Definition scaledToZero (c : ChildResourceUpdates.t) : bool :=
  match Manifest (ChildResourceUpdates.StatefulSet c) with
  | Some m => match StatefulSetSpec.Replicas (StatefulSet.Spec m) with Some r => r =? 0 | None => false end
  | None => false
  end.

Definition suspended (c : ChildResourceUpdates.t) : bool :=
  match Manifest (ChildResourceUpdates.Job c) with
  | Some m => match JobSpec.Suspend (Job.Spec m) with Some s => s | None => false end
  | None => false
  end.

Definition State (c : ChildResourceUpdates.t) (cr : AmaltheaSession.t) (pod : option Pod.t)
    (job : option Job.t) : Types.State * string :=
  let msg := failureMessage c pod job in
  let hibernated := AmaltheaSessionSpec.Hibernated_ (AmaltheaSession.Spec cr) in
  if deleting (AmaltheaSession.Meta cr) then (NotReady, "")
  else if hibernated && scaledToZero c then (Hibernated, "")
  else if hibernated && suspended c then (Hibernated, "")
  else if msg ≠s "" then (Failed, msg)
  else if IsRunning c pod then (Running, "")
  else if podIsCompleted pod then (Succeeded, "")
  else if jobIsSuccess job then (Succeeded, "")
  else (NotReady, "").

(** ** Events *)

Inductive EventsInferedStateResult : Type :=
| EisrNone | EisrInitiallyFailed | EisrTemporaryFailed | EisrFinallyFailed | EisrScheduled.

Definition getEventTime (event : option Event.t) : Time.t :=
  match event with
  | None => Time.zero
  | Some event =>
      if negb (Time.IsZero (Event.LastTimestamp event)) then Event.LastTimestamp event
      else if negb (Time.IsZero (Event.EventTime event)) then Event.EventTime event
      else if negb (Time.IsZero (Event.FirstTimestamp event)) then Event.FirstTimestamp event
      else Time.zero
  end.

(** The last event of the list with the given reason. *)
Definition lastEvent (reason : string) (items : list Event.t) : option Event.t :=
  foldl (λ acc v, if Event.Reason v =s reason then Some v else acc) None items.

Definition failedScheduling : string := "FailedScheduling".
Definition scheduled : string := "Scheduled".

(** The classification, from the sorted events and the waited time. *)
Definition classifyEvents (failedSchedulingSince : Time.t) (waitedTime : Duration.t) (items : list Event.t)
    : EventsInferedStateResult * option GoError :=
  let scheduledEvent := lastEvent scheduled items in
  let failedSchedulingEvent := lastEvent failedScheduling items in
  let scheduledTime := getEventTime scheduledEvent in
  let failedSchedulingTime := getEventTime failedSchedulingEvent in
  if negb (Time.IsZero scheduledTime) && Time.After scheduledTime failedSchedulingTime
  then (EisrScheduled, None)
  else match failedSchedulingEvent with
       | Some ev =>
           if Time.IsZero failedSchedulingSince then (EisrInitiallyFailed, None)
           else if maxWaitForClearFailedScheduling <=? waitedTime
           then (EisrFinallyFailed, Some (Errorf ("failed scheduling: " +:+ Event.Message ev)))
           else (EisrTemporaryFailed, None)
       | None => (EisrNone, None)
       end.

Definition EventsInferedState (cr : AmaltheaSession.t) : M (EventsInferedStateResult * option GoError) :=
  '(events, err) ← GetPodEvents cr;
  match err with
  | Some err => mret (EisrNone, Some (Errorf (err_msg err)))
  | None =>
      match events with
      | None => mret (EisrNone, None)
      | Some items =>
          let since := AmaltheaSessionStatus.FailedSchedulingSince (AmaltheaSession.Status cr) in
          waitedTime ← (if negb (Time.IsZero since)
                        then now ← trigger Now; mret (Time.Since now since)
                        else mret 0);
          mret (classifyEvents since waitedTime items)
      end
  end.

Definition checkEventsInferedState (cr : AmaltheaSession.t) (currentState : Types.State)
    : M (Time.t * Types.State * option GoError) :=
  let failedSchedulingSince := AmaltheaSessionStatus.FailedSchedulingSince (AmaltheaSession.Status cr) in
  if currentState =s NotReady then
    '(result, err) ← EventsInferedState cr;
    match result with
    | EisrFinallyFailed => mret (failedSchedulingSince, Failed, err)
    | EisrInitiallyFailed => now ← trigger Now; mret (now, currentState, err)
    | EisrScheduled => mret (Time.zero, currentState, err)
    | _ => mret (failedSchedulingSince, currentState, err)
    end
  else mret (failedSchedulingSince, currentState, None).

Definition warningMessage (pod : option Pod.t) : string :=
  match pod with
  | None => ""
  | Some pod =>
      match find (λ condition, Condition.Reason condition =s "Unschedulable") (PodStatus.Conditions (Pod.Status pod)) with
      | Some condition => "the session cannot be scheduled due to: " +:+ Condition.Message condition +:+
                          ". Please contact an administrator."
      | None => ""
      end
  end.

(** ** Conditions *)

Definition with_transition (c : AmaltheaSessionCondition.t) (status : string) (now : Time.t)
    (reason message : string) : AmaltheaSessionCondition.t :=
  {| AmaltheaSessionCondition.Type_ := AmaltheaSessionCondition.Type_ c;
     AmaltheaSessionCondition.Status := status;
     AmaltheaSessionCondition.LastTransitionTime := now;
     AmaltheaSessionCondition.Reason := reason;
     AmaltheaSessionCondition.Message := message |}.

(** One iteration of the loop over the conditions. *)
Definition updateCondition (state : Types.State) (cr : AmaltheaSession.t) (condition : AmaltheaSessionCondition.t)
    : M AmaltheaSessionCondition.t :=
  now ← trigger Now;
  let status := AmaltheaSessionCondition.Status condition in
  if AmaltheaSessionCondition.Type_ condition =s AmaltheaSessionReady then
    let stateIsRunning := state =s Running in
    let message := "The session is " +:+ Strings.ToLower state in
    if stateIsRunning && (status =s ConditionFalse)
    then mret (with_transition condition ConditionTrue now state message)
    else if negb stateIsRunning && (status =s ConditionTrue)
    then mret (with_transition condition ConditionFalse now state message)
    else mret condition
  else if AmaltheaSessionCondition.Type_ condition =s AmaltheaSessionRoutingReady then
    match Spec_Ingress cr with
    | None =>
        if status =s ConditionTrue
        then mret (with_transition condition ConditionFalse now "IngressDeleted"
               ("The ingress information was not specified or was deleted from custom resource " +:+
                AmaltheaSession.Name cr))
        else mret condition
    | Some _ =>
        if status =s ConditionFalse then
          ing ← trigger (GetIngress (AmaltheaSession.Namespace cr) (AmaltheaSession.Name cr));
          match ing with
          | inl _ => mret (with_transition condition ConditionTrue now "IngressOperational"
                             "The ingress is setup and operational")
          | inr _ => mret condition
          end
        else mret condition
    end
  else mret condition.

Fixpoint updateConditions (state : Types.State) (cr : AmaltheaSession.t)
    (conditions : list AmaltheaSessionCondition.t) : M (list AmaltheaSessionCondition.t) :=
  match conditions with
  | [] => mret []
  | condition :: conditions' =>
      c ← updateCondition state cr condition;
      cs ← updateConditions state cr conditions';
      mret (c :: cs)
  end.

Definition Conditions (state : Types.State) (cr : AmaltheaSession.t) : M (list AmaltheaSessionCondition.t) :=
  match AmaltheaSessionStatus.Conditions (AmaltheaSession.Status cr) with
  | [] => now ← trigger Now; updateConditions state cr (NewConditions now)
  | conditions => updateConditions state cr conditions
  end.

(** ** Status callbacks *)

(** The closures of children.go: all four timestamps are reset, and a
    hibernated session gets the current time. *)
Definition applyCallback (cb : option StatusCallback) (status : AmaltheaSessionStatus.t)
    : M AmaltheaSessionStatus.t :=
  match cb with
  | None => mret status
  | Some ResumedCallback =>
      mret (AmaltheaSessionStatus.with_Since status Time.zero Time.zero Time.zero Time.zero)
  | Some HibernatedCallback =>
      now ← trigger Now;
      mret (AmaltheaSessionStatus.with_Since status Time.zero Time.zero Time.zero now)
  end.

Fixpoint applyCallbacks (cbs : list (option StatusCallback)) (status : AmaltheaSessionStatus.t)
    : M AmaltheaSessionStatus.t :=
  match cbs with
  | [] => mret status
  | cb :: cbs' => status ← applyCallback cb status; applyCallbacks cbs' status
  end.

(** [ChildResourceUpdates.statusCallback]: every child's callback but the job's. *)
Definition statusCallback (c : ChildResourceUpdates.t) (status : AmaltheaSessionStatus.t)
    : M AmaltheaSessionStatus.t :=
  applyCallbacks
    ([statusCallback_ (ChildResourceUpdates.Ingress c);
      statusCallback_ (ChildResourceUpdates.Service c);
      statusCallback_ (ChildResourceUpdates.Secret c);
      statusCallback_ (ChildResourceUpdates.PVC c)] ++
     (statusCallback_ <$> ChildResourceUpdates.DataSourcesPVCs c) ++
     [statusCallback_ (ChildResourceUpdates.StatefulSet c)]) status.

(** ** The new status *)

Section Status.
Context (env : Env) `{QuantityOps}.

(** A read whose error is only logged: the pod or job is nil then. *)
Definition orNil {T} (r : option T * option GoError) : option T :=
  match r with (_, Some _) => None | (x, None) => x end.

(** Whether the session container has run for [freshContainerMinimalAge]. *)
Definition oldEnough (pod : Pod.t) : M bool :=
  match find (λ s, ContainerStatus.Name s =s SessionContainerName)
             (PodStatus.ContainerStatuses (Pod.Status pod)) with
  | Some s =>
      match ContainerState.Running (ContainerStatus.State s) with
      | Some r =>
          now ← trigger Now;
          mret (freshContainerMinimalAge <=? Time.Since now (ContainerStateRunning.StartedAt r))
      | None => mret false
      end
  | None => mret false
  end.

(** Idleness of a session with a pod. *)
Definition podIdleness (cr : AmaltheaSession.t) (state : Types.State) (pod : Pod.t) : M (Time.t * bool) :=
  let idleSince := AmaltheaSessionStatus.IdleSince (AmaltheaSession.Status cr) in
  oldEnough ← oldEnough pod;
  '(idleSince, idle) ← (if (state =s Running) && oldEnough then getIdleState cr
                        else mret (idleSince, false));
  if AmaltheaSessionSpec.SessionType_ (AmaltheaSession.Spec cr) =s SessionTypeNonInteractive then
    let done_ := (state =s Succeeded) || (state =s Failed) in
    idleSince ← (if done_ && Time.IsZero idleSince then trigger Now else mret idleSince);
    mret (idleSince, if negb idle then done_ else idle)
  else mret (idleSince, idle).

Definition quotaMessage : string :=
  "Quota exceeded: Your resource pool does not contain enough free resources (CPU / Memory / GPU / Storage) to schedule the session".

(** Without a pod, a quota failure of the stateful set overrides the state. *)
Definition quotaCheck (cr : AmaltheaSession.t) (state : Types.State) (failMsg : string)
    : M (Types.State * string) :=
  events ← trigger (ListEvents (AmaltheaSession.Namespace cr) "StatefulSet" (AmaltheaSession.Name cr));
  mret match events with
       | inr _ => (state, failMsg)
       | inl items =>
           if existsb (λ event, (Event.Reason event =s "FailedCreate") &&
                                Strings.Contains (Event.Message event) "exceeded quota") items
           then (Failed, quotaMessage) else (state, failMsg)
       end.

(** A "since" timestamp: set when its state is entered, cleared when left. *)
Definition sinceWhile (active : bool) (since : Time.t) : M Time.t :=
  since ← (if active && Time.IsZero since then trigger Now else mret since);
  mret (if negb active && negb (Time.IsZero since) then Time.zero else since).

(** The literal and the assignments that follow it, up to the callbacks. *)
Definition assemble (cr : AmaltheaSession.t) (pod : option Pod.t) (state : Types.State) (failMsg : string)
    (conditions : list AmaltheaSessionCondition.t) (idle : bool)
    (idleSince failedSchedulingSince failingSince hibernatedSince hibernationDate : Time.t)
    : AmaltheaSessionStatus.t :=
  let warning := warningMessage pod in
  let '(initCounts, counts) := containerCounts pod in
  let stopped := (state =s Hibernated) || deleting (AmaltheaSession.Meta cr) in
  let clearReady (c : ContainerCounts.t) :=
    if stopped then ContainerCounts.mk 0 (ContainerCounts.Total c) else c in
  {| AmaltheaSessionStatus.Conditions := conditions;
     AmaltheaSessionStatus.State_ := state;
     AmaltheaSessionStatus.URL := GetURLString env cr;
     AmaltheaSessionStatus.ContainerCounts_ := clearReady counts;
     AmaltheaSessionStatus.InitContainerCounts := clearReady initCounts;
     AmaltheaSessionStatus.Idle := idle;
     AmaltheaSessionStatus.IdleSince := idleSince;
     AmaltheaSessionStatus.FailingSince := failingSince;
     AmaltheaSessionStatus.FailedSchedulingSince :=
       if (state =s Hibernated) || (state =s Running) || (state =s Succeeded)
       then Time.zero else failedSchedulingSince;
     AmaltheaSessionStatus.HibernatedSince := hibernatedSince;
     AmaltheaSessionStatus.WillHibernateAt := hibernationDate;
     AmaltheaSessionStatus.RunID := AmaltheaSessionStatus.RunID (AmaltheaSession.Status cr);
     AmaltheaSessionStatus.Error :=
       if (failMsg =s "") && (warning ≠s "") then warning else failMsg |}.

(** The state and error message, before the idleness of the pod is looked at. *)
Definition inferState (c : ChildResourceUpdates.t) (cr : AmaltheaSession.t) (pod : option Pod.t)
    (job : option Job.t) : M (Time.t * Types.State * string) :=
  let '(state, failMsg) := State c cr pod job in
  '(failedSchedulingSince, nextState, err) ← checkEventsInferedState cr state;
  mret (failedSchedulingSince, nextState,
        match err with Some err => err_msg err | None => failMsg end).

Definition Status (c : ChildResourceUpdates.t) (cr : AmaltheaSession.t) : M AmaltheaSessionStatus.t :=
  pod ← GetPod cr;
  let pod := orNil pod in
  job ← GetJob cr;
  let job := orNil job in
  '(failedSchedulingSince, state, failMsg) ← inferState c cr pod job;
  '(idleSince, idle, state, failMsg) ←
    match pod with
    | Some pod => '(idleSince, idle) ← podIdleness cr state pod;
                  mret (idleSince, idle, state, failMsg)
    | None => '(state, failMsg) ← quotaCheck cr state failMsg;
              mret (AmaltheaSessionStatus.IdleSince (AmaltheaSession.Status cr), false, state, failMsg)
    end;
  hibernatedSince ← sinceWhile (AmaltheaSessionSpec.Hibernated_ (AmaltheaSession.Spec cr))
                               (AmaltheaSessionStatus.HibernatedSince (AmaltheaSession.Status cr));
  failingSince ← sinceWhile (state =s Failed)
                            (AmaltheaSessionStatus.FailingSince (AmaltheaSession.Status cr));
  let hibernationDate :=
    calculateHibernationDate (ObjectMeta.CreationTimestamp (AmaltheaSession.Meta cr))
      (AmaltheaSession.Status cr) (AmaltheaSessionSpec.Culling_ (AmaltheaSession.Spec cr)) in
  conditions ← Conditions state cr;
  statusCallback c
    (assemble cr pod state failMsg conditions idle idleSince failedSchedulingSince failingSince
       hibernatedSince hibernationDate).
End Status.
