(* ===== verification/Metrics.v ===== *)
(** * Prometheus metrics of a session (internal/controller/metrics.go)

    The gauges are set and removed through [SetGauge] and [DeleteGauge]; the
    gauge names are the registered metric names. *)

From S2P Require Import Prelude Prog K8s Types Api.

Definition recordedStates : list State := [NotReady; Running; RunningDegraded; Failed; Hibernated].

Fixpoint recordStates (namespace name : string) (state : State) (l : list State) : M unit :=
  match l with
  | [] => mret tt
  | s :: l' =>
      _ ← trigger (SetGauge "amalthea_session_state" [namespace; name; s]
                     (Float64 (if state =s s then 1 else 0)%Z));
      recordStates namespace name state l'
  end.

(** A duration gauge: seconds since the timestamp, or 0 when it is zero. *)
Definition recordSince (gauge namespace name : string) (since : Time.t) : M unit :=
  if negb (Time.IsZero since) then
    now ← trigger Now;
    trigger (SetGauge gauge [namespace; name] (SecondsOf (Time.Since now since)))
  else trigger (SetGauge gauge [namespace; name] (Float64 0)).

(** [t.Unix()] *)
Definition unixSeconds (t : Time.t) : Z := ((t - Time.unixEpoch) / Duration.Second)%Z.

Definition RecordAmaltheaSessionMetrics (session : AmaltheaSession.t) : M unit :=
  let namespace := AmaltheaSession.Namespace session in
  let name := AmaltheaSession.Name session in
  let status := AmaltheaSession.Status session in
  let labels := [namespace; name] in
  let counts := AmaltheaSessionStatus.ContainerCounts_ status in
  _ ← recordStates namespace name (AmaltheaSessionStatus.State_ status) recordedStates;
  _ ← trigger (SetGauge "amalthea_session_idle" labels
                 (Float64 (if AmaltheaSessionStatus.Idle status then 1 else 0)%Z));
  _ ← trigger (SetGauge "amalthea_session_container_ready" labels (Float64 (ContainerCounts.Ready counts)));
  _ ← trigger (SetGauge "amalthea_session_container_total" labels (Float64 (ContainerCounts.Total counts)));
  _ ← recordSince "amalthea_session_idle_duration_seconds" namespace name
        (AmaltheaSessionStatus.IdleSince status);
  _ ← recordSince "amalthea_session_failing_duration_seconds" namespace name
        (AmaltheaSessionStatus.FailingSince status);
  _ ← recordSince "amalthea_session_hibernated_duration_seconds" namespace name
        (AmaltheaSessionStatus.HibernatedSince status);
  _ ← recordSince "amalthea_session_failed_scheduling_duration_seconds" namespace name
        (AmaltheaSessionStatus.FailedSchedulingSince status);
  let at_ := AmaltheaSessionStatus.WillHibernateAt status in
  trigger (SetGauge "amalthea_session_will_hibernate_at" labels
             (Float64 (if negb (Time.IsZero at_) then unixSeconds at_ else 0)%Z)).

(** The gauges with a series per session. *)
Definition sessionGauges : list string :=
  ["amalthea_session_state"; "amalthea_session_idle"; "amalthea_session_container_ready";
   "amalthea_session_container_total"; "amalthea_session_idle_duration_seconds";
   "amalthea_session_failing_duration_seconds"; "amalthea_session_hibernated_duration_seconds";
   "amalthea_session_failed_scheduling_duration_seconds"; "amalthea_session_will_hibernate_at"].

Fixpoint removeGauges (namespace name : string) (l : list string) : M unit :=
  match l with
  | [] => mret tt
  | g :: l' => _ ← trigger (DeleteGauge g [namespace; name]); removeGauges namespace name l'
  end.

Definition RemoveAmaltheaSessionMetrics (session : AmaltheaSession.t) : M unit :=
  removeGauges (AmaltheaSession.Namespace session) (AmaltheaSession.Name session) sessionGauges.

(** [UpdateSessionStateCounter] *)
Fixpoint updateCounters (sessionsByState : gmap string Z) (l : list State) : M unit :=
  match l with
  | [] => mret tt
  | s :: l' =>
      _ ← trigger (SetGauge "amalthea_sessions_total" [s] (Float64 (default 0%Z (sessionsByState !! s))));
      updateCounters sessionsByState l'
  end.

Definition UpdateSessionStateCounter (sessionsByState : gmap string Z) : M unit :=
  updateCounters sessionsByState recordedStates.
