(* ===== verification/Controller.v ===== *)
(** * The reconcile loop (internal/controller/amaltheasession_controller.go) *)

From S2P Require Import Prelude Prog NetUrl K8s Types Api Names Config Lifecycle PodStatus Cull.
From S2P Require Import Reconcile Routing ChildSet SessionStatus Metrics.

Definition secretCleanupFinalizerName : string := "amalthea.dev/secrets-finalizer".

(** [ctrl.Result] *)
Record CtrlResult := mkResult { Requeue : bool; RequeueAfter : Duration.t }.
Definition emptyResult : CtrlResult := mkResult false 0%Z.

(** [controllerutil.ContainsFinalizer], [AddFinalizer], [RemoveFinalizer] on
    the finalizer list of the session. *)
Definition ContainsFinalizer (cr : AmaltheaSession.t) (f : string) : bool :=
  existsb (λ x, x =s f) (ObjectMeta.Finalizers (AmaltheaSession.Meta cr)).

Definition AddFinalizer (cr : AmaltheaSession.t) (f : string) : AmaltheaSession.t :=
  if ContainsFinalizer cr f then cr
  else AmaltheaSession.with_Finalizers cr (ObjectMeta.Finalizers (AmaltheaSession.Meta cr) ++ [f]).

Definition RemoveFinalizer (cr : AmaltheaSession.t) (f : string) : AmaltheaSession.t :=
  AmaltheaSession.with_Finalizers cr
    (filter (λ x, x ≠ f) (ObjectMeta.Finalizers (AmaltheaSession.Meta cr))).

(** ** Deleting the adopted secrets *)

(** The loop of [deleteSecrets]: errors other than "not found" are joined. *)
Definition deleteOne (error_list : option GoError) (item : Secret.t) : M (option GoError) :=
  err ← trigger (DeleteSecret item);
  mret match err with
       | Some e => if negb (err_notFound e) then errors_Join error_list err else error_list
       | None => error_list
       end.

Definition deleteSecrets (cr : AmaltheaSession.t) : M (option GoError) :=
  match AdoptedSecrets cr with
  | [] => mret None
  | items => foldM deleteOne None items
  end.

(** ** Reconcile *)

(** [reflect.DeepEqual] of two statuses. *)
#[global] Instance ContainerCounts_eq_dec : EqDecision ContainerCounts.t.
Proof. solve_decision. Defined.
#[global] Instance AmaltheaSessionCondition_eq_dec : EqDecision AmaltheaSessionCondition.t.
Proof. solve_decision. Defined.
#[global] Instance AmaltheaSessionStatus_eq_dec : EqDecision AmaltheaSessionStatus.t.
Proof. solve_decision. Defined.

(** [AmaltheaSessionStatus{State: NotReady, Idle: false}] *)
Definition initialStatus : AmaltheaSessionStatus.t :=
  AmaltheaSessionStatus.mk [] NotReady "" ContainerCounts.zero ContainerCounts.zero false
    Time.zero Time.zero Time.zero Time.zero Time.zero "" "".

(** [Status] writes the updated conditions back into the slice it read them
    from: when the session already had conditions, its own status shows the
    new ones as soon as [Status] returns. *)
Definition afterStatus (cr : AmaltheaSession.t) (newStatus : AmaltheaSessionStatus.t)
    : AmaltheaSessionStatus.t :=
  let s := AmaltheaSession.Status cr in
  match AmaltheaSessionStatus.Conditions s with
  | [] => s
  | _ => AmaltheaSessionStatus.mk (AmaltheaSessionStatus.Conditions newStatus)
           (AmaltheaSessionStatus.State_ s) (AmaltheaSessionStatus.URL s)
           (AmaltheaSessionStatus.ContainerCounts_ s) (AmaltheaSessionStatus.InitContainerCounts s)
           (AmaltheaSessionStatus.Idle s) (AmaltheaSessionStatus.IdleSince s)
           (AmaltheaSessionStatus.FailingSince s) (AmaltheaSessionStatus.FailedSchedulingSince s)
           (AmaltheaSessionStatus.HibernatedSince s) (AmaltheaSessionStatus.WillHibernateAt s)
           (AmaltheaSessionStatus.RunID s) (AmaltheaSessionStatus.Error s)
  end.

Section Reconcile.
Context (env : Env) `{QuantityOps} `{ControllerUtil} `{YamlLib}.
Context (cfg : AmaltheaSessionConfiguration).

(** A handler's early return, or the session to go on with. *)
Definition Step : Type := (CtrlResult * option GoError) + AmaltheaSession.t.
Definition returnErr (err : GoError) : Step := inl (emptyResult, Some err).

(** A status update retried once on a fresh copy of the session; [set] writes
    the status fields, [again] those that are written on the fresh copy. *)
Definition updateStatusRetry (namespace name : string) (cr : AmaltheaSession.t)
    (again : AmaltheaSession.t → AmaltheaSession.t) : M Step :=
  '(cr, err) ← trigger (UpdateStatus cr);
  match err with
  | None => mret (inr cr)
  | Some _ =>
      fresh ← trigger (GetSession namespace name);
      match fresh with
      | inr err => mret (returnErr err)
      | inl cr =>
          '(cr, err) ← trigger (UpdateStatus (again cr));
          mret match err with Some err => returnErr err | None => inr cr end
      end
  end.

(** First status update of a session that was just created. *)
Definition initialize (namespace name : string) (cr : AmaltheaSession.t) : M Step :=
  if decide (AmaltheaSession.Status cr = initialStatus) then
    let cr := AmaltheaSession.with_Status cr
                (AmaltheaSessionStatus.with_URL (AmaltheaSession.Status cr) (GetURLString env cr)) in
    step ← updateStatusRetry namespace name cr (λ cr, cr);
    match step with
    | inl ret => mret (inl ret)
    | inr cr => _ ← RecordAmaltheaSessionMetrics cr; mret (inr cr)
    end
  else mret (inr cr).

Definition ensureFinalizer (cr : AmaltheaSession.t) : M Step :=
  if (0 <? length (AdoptedSecrets cr))%nat && negb (ContainsFinalizer cr secretCleanupFinalizerName) then
    '(cr, err) ← trigger (UpdateSession (AddFinalizer cr secretCleanupFinalizerName));
    mret match err with Some err => returnErr err | None => inr cr end
  else mret (inr cr).

(** The session is being deleted. *)
Definition finalize (namespace name : string) (cr : AmaltheaSession.t) : M (CtrlResult * option GoError) :=
  let setNotReady cr :=
    AmaltheaSession.with_Status cr (AmaltheaSessionStatus.with_State (AmaltheaSession.Status cr) NotReady) in
  step ← updateStatusRetry namespace name (setNotReady cr) setNotReady;
  match step with
  | inl ret => mret ret
  | inr cr =>
      if ContainsFinalizer cr secretCleanupFinalizerName then
        err ← deleteSecrets cr;
        match err with
        | Some err => mret (emptyResult, Some err)
        | None =>
            '(_, err) ← trigger (UpdateSession (RemoveFinalizer cr secretCleanupFinalizerName));
            mret match err with
                 | Some err => (emptyResult, Some err)
                 | None => (mkResult true 0%Z, None)
                 end
        end
      else mret (mkResult true 0%Z, None)
  end.

(** The run ID of this pass. *)
Definition chooseRunID (cr : AmaltheaSession.t) : M string :=
  let runID := AmaltheaSessionStatus.RunID (AmaltheaSession.Status cr) in
  if AmaltheaSessionSpec.Hibernated_ (AmaltheaSession.Spec cr) then mret ""
  else if runID =s "" then trigger MakeULID
  else mret runID.

(** Writing the new status; the run ID of a concurrent pass wins on retry. *)
Definition publishStatus (namespace name : string) (cr : AmaltheaSession.t)
    (newStatus : AmaltheaSessionStatus.t) : M Step :=
  let again cr :=
    let old := AmaltheaSessionStatus.RunID (AmaltheaSession.Status cr) in
    let newStatus :=
      if (AmaltheaSessionStatus.RunID newStatus ≠s "") && (old ≠s "")
      then AmaltheaSessionStatus.with_RunID newStatus old else newStatus in
    AmaltheaSession.with_Status cr newStatus in
  updateStatusRetry namespace name (AmaltheaSession.with_Status cr newStatus) again.

(** What follows the status update: metrics, deletion, culling, requeueing. *)
Definition afterPublish (cr : AmaltheaSession.t) (statusChanged : bool) : M (CtrlResult * option GoError) :=
  _ ← RecordAmaltheaSessionMetrics cr;
  now ← trigger Now;
  if NeedsDeletion now cr then
    _ ← RemoveAmaltheaSessionMetrics cr;
    err ← trigger (DeleteSession cr);
    mret (emptyResult, err)
  else
    '(_, err) ← updateHibernationState cr;
    match err with
    | Some err => mret (emptyResult, Some err)
    | None =>
        let requeueAfter := if statusChanged then 0%Z else (10 * Duration.Second)%Z in
        mret (if (0 <? requeueAfter)%Z then mkResult false requeueAfter else mkResult true 0%Z, None)
    end.

(** The session is live: its children and its status. *)
Definition reconcileLive (namespace name : string) (cr : AmaltheaSession.t) : M (CtrlResult * option GoError) :=
  runID ← chooseRunID cr;
  let cr := AmaltheaSession.with_Status cr
              (AmaltheaSessionStatus.with_RunID (AmaltheaSession.Status cr) runID) in
  children ← NewChildResources env cr cfg;
  match children with
  | inr err => mret (emptyResult, Some err)
  | inl children =>
      '(updates, err) ← ChildResources_Reconcile children cr;
      match err with
      | Some err => mret (emptyResult, Some err)
      | None =>
          newStatus ← SessionStatus.Status env updates cr;
          let statusChanged := negb (bool_decide (afterStatus cr newStatus = newStatus)) in
          step ← publishStatus namespace name cr newStatus;
          match step with
          | inl ret => mret ret
          | inr cr => afterPublish cr statusChanged
          end
      end
  end.

Definition reconcileInner (namespace name : string) : M (CtrlResult * option GoError) :=
  session ← trigger (GetSession namespace name);
  match session with
  | inr err => if err_notFound err then mret (emptyResult, None) else mret (emptyResult, Some err)
  | inl cr =>
      if deleting (AmaltheaSession.Meta cr) then finalize namespace name cr
      else
        step ← initialize namespace name cr;
        match step with
        | inl ret => mret ret
        | inr cr =>
            step ← ensureFinalizer cr;
            match step with
            | inl ret => mret ret
            | inr cr => reconcileLive namespace name cr
            end
        end
  end.
End Reconcile.
