(* ===== verification/Tracing.v ===== *)
(** * The traced reconcile loop (internal/controller/amaltheasession_controller.go)

    [Reconcile], which the manager calls, is [reconcileInner] inside a
    transaction of the tracing library; panics are reported and raised again.
    The transaction does not change what a pass does. *)

From S2P Require Import Prelude Prog NetUrl K8s Types Api Names Config Lifecycle PodStatus Cull.
From S2P Require Import Reconcile Routing ChildSet SessionStatus Metrics Controller.

Inductive TraceValue := TraceString (s : string) | TraceBool (b : bool) | TraceDuration (d : Duration.t).

(** A call of the tracing library. *)
Inductive TraceEvent :=
| StartTransaction (op description : string)
| SetData (key : string) (v : TraceValue)
(** [transaction.Status]: OK or an internal error *)
| SetSpanStatus (ok : bool)
| CaptureException (err : GoError)
| RecoverWithContext (why : string)
| FinishTransaction.

Inductive Traced : Type → Type :=
| Cluster {R} (e : Api R) : Traced R
| Trace (e : TraceEvent) : Traced unit.

Definition trace (e : TraceEvent) : Prog Traced unit := trigger (Trace e).

(** [defer func() { if err := recover(); err != nil { ...; panic(err) } }()] *)
Fixpoint recovering {E : Type → Type} {A : Type} (report : string → Prog E unit) (p : Prog E A) : Prog E A :=
  match p with
  | Ret a => Ret a
  | Panic why => bind (report why) (λ _, Panic why)
  | Vis e k => Vis e (λ r, recovering report (k r))
  end.

(** What is recorded about a result. *)
Definition setResult (res : CtrlResult) (err : option GoError) : Prog Traced unit :=
  _ ← match err with
      | None => trace (SetSpanStatus true)
      | Some err => _ ← trace (SetSpanStatus false); trace (CaptureException err)
      end;
  _ ← trace (SetData "controller.result.requeue" (TraceBool (Requeue res || (0 <? RequeueAfter res)%Z)));
  if negb (RequeueAfter res =? 0)%Z then trace (SetData "controller.result.requeue_after" (TraceDuration (RequeueAfter res)))
  else mret tt.

Section Transaction.
Context (inner : M (CtrlResult * option GoError)) (namespace name reconcileID : string).

(** The transaction around a pass. *)
Definition transaction : Prog Traced (CtrlResult * option GoError) :=
  recovering (λ why, trace (RecoverWithContext why)) (
    _ ← trace (StartTransaction "function.reconcile" ("RECONCILE AmaltheaSession " +:+ namespace +:+ " " +:+ name));
    _ ← trace (SetData "controller.request.namespace" (TraceString namespace));
    _ ← trace (SetData "controller.request.name" (TraceString name));
    _ ← (if reconcileID ≠s "" then trace (SetData "controller.reconcile_id" (TraceString reconcileID)) else mret tt);
    deferred (Trace FinishTransaction) (
      '(res, err) ← embed (@Cluster) inner;
      _ ← setResult res err;
      mret (res, err))).

(** ** Transparency *)

(** The cluster of a handler, and the trace so far. *)
Definition traced {W} (h : Handler Api W) : Handler Traced (W * list TraceEvent) := λ R e,
  match e in Traced R return W * list TraceEvent → R * (W * list TraceEvent) with
  | Cluster e => λ '(w, l), let '(r, w') := h _ e w in (r, (w', l))
  | Trace e => λ '(w, l), (tt, (w, l ++ [e]))
  end.

Definition opening : list TraceEvent :=
  [StartTransaction "function.reconcile" ("RECONCILE AmaltheaSession " +:+ namespace +:+ " " +:+ name);
   SetData "controller.request.namespace" (TraceString namespace);
   SetData "controller.request.name" (TraceString name)] ++
  (if reconcileID ≠s "" then [SetData "controller.reconcile_id" (TraceString reconcileID)] else []).

Definition closing (o : Outcome (CtrlResult * option GoError)) : list TraceEvent :=
  match o with
  | Done (res, err) =>
      match err with None => [SetSpanStatus true] | Some err => [SetSpanStatus false; CaptureException err] end ++
      [SetData "controller.result.requeue" (TraceBool (Requeue res || (0 <? RequeueAfter res)%Z))] ++
      (if negb (RequeueAfter res =? 0)%Z then [SetData "controller.result.requeue_after" (TraceDuration (RequeueAfter res))]
       else []) ++ [FinishTransaction]
  | Panicked why => [FinishTransaction; RecoverWithContext why]
  end.

Lemma traced_inner {W} (h : Handler Api W) (p : M (CtrlResult * option GoError)) w l :
  run (traced h) (recovering (λ why, trace (RecoverWithContext why)) (deferred (Trace FinishTransaction)
    ('(res, err) ← embed (@Cluster) p; _ ← setResult res err; mret (res, err)))) (w, l) =
  let '(o, w') := run h p w in (o, (w', l ++ closing o)).
Proof.
  revert w l. induction p as [[res err]|why|R e k IH]; intros w l.
  - cbn. unfold setResult. destruct err as [err|], (negb (RequeueAfter res =? 0)%Z); cbn; by rewrite <- !(assoc (++)).
  - cbn. by rewrite <- !(assoc (++)).
  - cbn. destruct (h R e w) as [r w'] eqn:E. apply IH.
Qed.

Lemma traced_transaction {W} (h : Handler Api W) w l :
  run (traced h) transaction (w, l) = let '(o, w') := run h inner w in (o, (w', l ++ opening ++ closing o)).
Proof.
  unfold transaction, opening. cbn. destruct (reconcileID ≠s ""); cbn; rewrite traced_inner;
    destruct (run h inner w) as [o w']; by rewrite <- !(assoc (++)).
Qed.
End Transaction.

Section Reconcile.
Context (env : Env) `{QuantityOps} `{ControllerUtil} `{YamlLib} (cfg : AmaltheaSessionConfiguration).

Definition Reconcile (namespace name reconcileID : string) : Prog Traced (CtrlResult * option GoError) :=
  transaction (reconcileInner env cfg namespace name) namespace name reconcileID.

(** A traced pass makes the same calls to the cluster as the pass itself, with
    the same result, and a panic is raised again; the transaction is finished,
    and an error or a panic is reported, exactly once. *)
Theorem Reconcile_transparent {W} (h : Handler Api W) namespace name reconcileID w l :
  run (traced h) (Reconcile namespace name reconcileID) (w, l) =
  let '(o, w') := run h (reconcileInner env cfg namespace name) w in
  (o, (w', l ++ opening namespace name reconcileID ++ closing o)).
Proof. exact (traced_transaction (reconcileInner env cfg namespace name) namespace name reconcileID h w l). Qed.
End Reconcile.
