(* ===== verification/StatusProps.v ===== *)
(** * Properties of the session status

    [Status] only reads the cluster, never panics, and the status it returns
    is coherent: the timestamps, the state and the error message agree. *)

From S2P Require Import Prelude Prog NetUrl K8s Types Api Names Lifecycle PodStatus Cull Reconcile.
From S2P Require Import SessionStatus.

(** ** The read-only monitor *)

Definition readOnly {R} (e : Api R) : Prop :=
  match e with
  | Now | Api.GetPod _ _ | ListPods _ _ | Api.GetJob _ _ | GetIngress _ _ | ListEvents _ _ _
  | ListPodMetrics _ _ => True
  | _ => False
  end.

(** The clock never shows the zero time (January 1st of year 1). *)
Definition clockRely {R} (e : Api R) : R → Prop :=
  match e in Api R return R → Prop with
  | Now => λ t, t ≠ Time.zero
  | _ => λ _, True
  end.

Definition readMonitor : Monitor Api unit :=
  {| allowed R e _ := readOnly e; rely R e _ r := clockRely e r;
     next R e r s := s; panic_ok _ := False |}.

(** A handler whose clock never shows the zero time. *)
Definition clockRuns {W} (h : Handler Api W) : Prop :=
  ∀ w t w', h _ Now w = (t, w') → t ≠ Time.zero.

Lemma wp_run_read {W A} (h : Handler Api W) (p : M A) (Q : A → Prop) (w : W) :
  clockRuns h → wp readMonitor p (λ a _, Q a) tt →
  match run h p w with (Done a, _) => Q a | (Panicked _, _) => False end.
Proof.
  intros Hclock Hwp.
  pose proof (wp_run readMonitor h (λ _, tt) p (λ a _, Q a) w) as Hrun.
  destruct (run h p w) as [[a|why] w']; apply Hrun; try done;
    intros R e w0 r w0' He; (split; [|by destruct (next _ _ _ _)]);
    destruct e; cbn; try done; by eapply Hclock.
Qed.

(** Discharge the obligation of a read and introduce its answer. *)
Ltac wp_read :=
  lazymatch goal with
  | |- wp _ (Vis _ _) _ _ => split; [exact I|]; cbn beta; intros ? ?; try cbn [rely clockRely readMonitor] in *
  | |- wp _ (trigger _) _ _ => apply wp_trigger; split; [exact I|]; intros ? ?; try cbn [rely clockRely readMonitor] in *
  end.

(** ** The parts of [Status] *)

Lemma GetPod_wp cr s : wp readMonitor (GetPod cr) (λ _ _, True) s.
Proof.
  unfold GetPod. destruct (_ =s _); cbn; (split; [done|]); done.
Qed.

Lemma GetJob_wp cr s : wp readMonitor (GetJob cr) (λ _ _, True) s.
Proof. cbn. done. Qed.

Lemma oldEnough_wp pod s : wp readMonitor (oldEnough pod) (λ _ _, True) s.
Proof.
  unfold oldEnough. destruct (find _ _) as [c|]; [|done].
  destruct (ContainerState.Running _); cbn; done.
Qed.

Lemma getIdleState_wp `{QuantityOps} cr s : wp readMonitor (getIdleState cr) (λ _ _, True) s.
Proof.
  unfold getIdleState, metrics. cbn. split; [done|]. intros r _.
  repeat (case_if; cbn; [try done|]); done.
Qed.

Lemma podIdleness_wp `{QuantityOps} cr st pod s :
  wp readMonitor (podIdleness cr st pod) (λ _ _, True) s.
Proof.
  unfold podIdleness. eapply wp_bind_intro; [apply oldEnough_wp|]. intros old s' _.
  eapply wp_bind_intro with (P := λ _ _, True).
  { destruct (_ && _); [apply getIdleState_wp|done]. }
  intros [idleSince idle] s'' _. destruct (_ =s SessionTypeNonInteractive); [|done].
  destruct (_ && _); cbn; done.
Qed.

(** A transition is timestamped: the status and the time change together. *)
Definition transition (c c' : AmaltheaSessionCondition.t) : Prop :=
  AmaltheaSessionCondition.Type_ c' = AmaltheaSessionCondition.Type_ c ∧
  (c' = c ∨
   (AmaltheaSessionCondition.Status c' ≠ AmaltheaSessionCondition.Status c ∧
    AmaltheaSessionCondition.LastTransitionTime c' ≠ Time.zero)).

(** What the Ready condition says of a state. *)
Definition readyMatches (st : Types.State) (c : AmaltheaSessionCondition.t) : Prop :=
  AmaltheaSessionCondition.Type_ c = AmaltheaSessionReady →
  AmaltheaSessionCondition.Status c = (if st =s Running then ConditionTrue else ConditionFalse).

Definition binary (c : AmaltheaSessionCondition.t) : Prop :=
  AmaltheaSessionCondition.Status c = ConditionTrue ∨ AmaltheaSessionCondition.Status c = ConditionFalse.

Definition updated (st : Types.State) (c c' : AmaltheaSessionCondition.t) : Prop :=
  transition c c' ∧ readyMatches st c' ∧ binary c'.

#[global] Instance binary_dec c : Decision (binary c).
Proof. unfold binary. apply _. Defined.

Lemma updated_same st c : binary c → readyMatches st c → updated st c c.
Proof. intros ??. split; [|done]. split; auto. Qed.

Lemma updated_step st c status now reason message :
  AmaltheaSessionCondition.Status c ≠ status →
  status = ConditionTrue ∨ status = ConditionFalse →
  (AmaltheaSessionCondition.Type_ c = AmaltheaSessionReady →
   status = if st =s Running then ConditionTrue else ConditionFalse) →
  now ≠ Time.zero →
  updated st c (with_transition c status now reason message).
Proof.
  intros Hne Hb Hr Hnow. split; [split; [done|right; by split; [apply not_eq_sym|]]|by split].
Qed.

#[local] Hint Resolve updated_same updated_step : core.

Lemma updateCondition_total st cr c s :
  wp readMonitor (updateCondition st cr c) (λ _ _, True) s.
Proof.
  unfold updateCondition. cbn. split; [done|]. intros now _.
  destruct (_ =s AmaltheaSessionReady); [by repeat case_if|].
  destruct (_ =s AmaltheaSessionRoutingReady); [|done].
  destruct (AmaltheaSessionSpec.Ingress_ _); case_if; cbn; try done.
  split; [done|]. by intros [|].
Qed.

Lemma updateCondition_wp st cr c s :
  wp readMonitor (updateCondition st cr c) (λ c' _, binary c → updated st c c') s.
Proof.
  destruct (decide (binary c)) as [Hb|Hnb];
    [|by eapply wp_mono; [apply updateCondition_total|]].
  unfold updateCondition. cbn. split; [done|]. intros now Hnow.
  destruct (String.eqb_spec (AmaltheaSessionCondition.Type_ c) AmaltheaSessionReady) as [Ht|Ht].
  - destruct (st =s Running) eqn:E; cbn; pose proof Hb as [Hs|Hs]; rewrite !Hs; cbn; intros _;
      (apply updated_same || apply updated_step); unfold readyMatches; rewrite ?Hs, ?E; auto.
  - assert (readyMatches st c) by (intros ?; contradiction).
    destruct (_ =s AmaltheaSessionRoutingReady); cbn; [|by auto].
    destruct (AmaltheaSessionSpec.Ingress_ _); pose proof Hb as [Hs|Hs]; rewrite !Hs; cbn; auto.
    + split; [done|]. intros [ing|err] _ _; cbn; auto. apply updated_step; rewrite ?Hs; auto; done.
    + intros _. apply updated_step; rewrite ?Hs; auto; done.
Qed.

Lemma updateConditions_wp st cr l s :
  wp readMonitor (updateConditions st cr l)
     (λ l' _, Forall binary l → Forall2 (updated st) l l') s.
Proof.
  revert s. induction l as [|c l IH]; intros s; cbn [updateConditions]; [by constructor|].
  eapply wp_bind_intro; [apply updateCondition_wp|]. intros c' s' ?.
  eapply wp_bind_intro; [apply IH|]. intros l' s'' ? Hf.
  inversion Hf; subst. constructor; auto.
Qed.

Lemma NewConditions_binary now : Forall binary (NewConditions now).
Proof. repeat constructor; by right. Qed.

(** The conditions [Conditions] starts from. *)
Definition startConditions (now : Time.t) (cr : AmaltheaSession.t) : list AmaltheaSessionCondition.t :=
  match AmaltheaSessionStatus.Conditions (AmaltheaSession.Status cr) with
  | [] => NewConditions now
  | l => l
  end.

Definition binaryConditions (cr : AmaltheaSession.t) : Prop :=
  Forall binary (AmaltheaSessionStatus.Conditions (AmaltheaSession.Status cr)).

Lemma Conditions_wp st cr s :
  wp readMonitor (Conditions st cr)
     (λ l' _, binaryConditions cr →
              ∃ now, Forall2 (updated st) (startConditions now cr) l') s.
Proof.
  unfold Conditions, startConditions, binaryConditions.
  destruct (AmaltheaSessionStatus.Conditions _) as [|c l].
  - cbn -[updateConditions]. split; [done|]. intros now _.
    eapply wp_mono; [apply updateConditions_wp|]. cbn beta. intros l' ? Hl _. exists now.
    apply Hl, NewConditions_binary.
  - eapply wp_mono; [apply updateConditions_wp|]. cbn beta. intros l' ???. exists Time.zero. auto.
Qed.

Lemma sinceWhile_wp active since s :
  wp readMonitor (sinceWhile active since)
     (λ t _, (active = true → t ≠ Time.zero) ∧ (active = false → t = Time.zero)) s.
Proof.
  unfold sinceWhile. destruct active; cbn.
  - destruct (Time.IsZero since) eqn:E; cbn; [by auto|].
    apply Time.IsZero_false in E. by auto.
  - destruct (Time.IsZero since) eqn:E; cbn; [|by auto].
    apply Time.IsZero_true in E. by auto.
Qed.

(** ** States and messages *)

Lemma firstMessage_nonempty l msg : firstMessage l = msg → msg ≠ "" → msg ∈ l.
Proof.
  induction l as [|m l IH]; cbn; [done|].
  destruct (String.eqb_spec m ""); cbn; intros; subst; set_solver.
Qed.

(** What [State] guarantees of its two results. *)
Lemma State_cases c cr pod job :
  let '(st, msg) := State c cr pod job in
  (st = Failed ↔ msg ≠ "") ∧
  (st = Hibernated → AmaltheaSessionSpec.Hibernated_ (AmaltheaSession.Spec cr) = true).
Proof.
  unfold State. repeat case_if; split; try done; bool_simpl; naive_solver.
Qed.

Lemma classifyEvents_finally since waited items :
  match classifyEvents since waited items with
  | (EisrFinallyFailed, err) => ∃ e, err = Some e ∧ err_msg e ≠ ""
  | (_, err) => err = None
  end.
Proof.
  unfold classifyEvents. destruct (_ && _); [done|].
  destruct (lastEvent failedScheduling items) as [ev|]; [|done].
  destruct (Time.IsZero since); [done|]. destruct (_ <=? _)%Z; [|done].
  eexists; split; [done|]. by cbn.
Qed.

Lemma EventsInferedState_wp cr s :
  wp readMonitor (EventsInferedState cr)
    (λ r _, r.1 = EisrFinallyFailed → ∃ e, r.2 = Some e ∧ err_msg e ≠ "") s.
Proof.
  unfold EventsInferedState, GetPodEvents. cbn. split; [done|]. intros [items|err] _; cbn; [|done].
  set (since := AmaltheaSessionStatus.FailedSchedulingSince _).
  apply wp_bind. destruct (negb (Time.IsZero since)); cbn; [split; [done|]; intros now _|].
  all: match goal with |- context [classifyEvents ?a ?b ?c] =>
         pose proof (classifyEvents_finally a b c) as Hc;
         destruct (classifyEvents a b c) as [r e] end; cbn; by destruct r.
Qed.

(** The verdict of the first half of [Status]. *)
Definition verdict (cr : AmaltheaSession.t) (st : Types.State) (msg : string) : Prop :=
  (st = Failed → msg ≠ "") ∧
  (st = Hibernated → AmaltheaSessionSpec.Hibernated_ (AmaltheaSession.Spec cr) = true).

Lemma inferState_wp c cr pod job s :
  wp readMonitor (inferState c cr pod job) (λ '(_, st, msg) _, verdict cr st msg) s.
Proof.
  unfold inferState. pose proof (State_cases c cr pod job) as Hc.
  destruct (State c cr pod job) as [st msg]. destruct Hc as [Hf Hh].
  unfold checkEventsInferedState. destruct (String.eqb_spec st NotReady) as [->|Hne].
  - apply wp_bind. eapply wp_bind_intro; [apply EventsInferedState_wp|].
    intros [r err] s' Hr. cbn in Hr.
    destruct r; cbn; try by split.
    destruct (Hr eq_refl) as (e & -> & He). by split.
  - cbn. split; [by intros ->; apply Hf|done].
Qed.

Lemma quotaCheck_wp cr st msg s :
  verdict cr st msg → wp readMonitor (quotaCheck cr st msg) (λ '(st, msg) _, verdict cr st msg) s.
Proof.
  intros Hv. cbn. split; [done|]. intros [items|err] _; cbn; [|done].
  destruct (existsb _ items); [|done]. by split.
Qed.


(** ** Callbacks *)

(** A callback agrees with the hibernation the spec asks for. *)
Definition fits (cr : AmaltheaSession.t) (cb : option StatusCallback) : Prop :=
  match cb with
  | None => True
  | Some ResumedCallback => AmaltheaSessionSpec.Hibernated_ (AmaltheaSession.Spec cr) = false
  | Some HibernatedCallback => AmaltheaSessionSpec.Hibernated_ (AmaltheaSession.Spec cr) = true
  end.

(** The callbacks [statusCallback] runs. *)
Definition callbacks (c : ChildResourceUpdates.t) : list (option StatusCallback) :=
  [statusCallback_ (ChildResourceUpdates.Ingress c);
   statusCallback_ (ChildResourceUpdates.Service c);
   statusCallback_ (ChildResourceUpdates.Secret c);
   statusCallback_ (ChildResourceUpdates.PVC c)] ++
  (statusCallback_ <$> ChildResourceUpdates.DataSourcesPVCs c) ++
  [statusCallback_ (ChildResourceUpdates.StatefulSet c)].

(** The timestamps of a status agree with its state and the spec. *)
Record timed (cr : AmaltheaSession.t) (s : AmaltheaSessionStatus.t) : Prop := {
  timed_hibernated :
    AmaltheaSessionStatus.HibernatedSince s ≠ Time.zero ↔
    AmaltheaSessionSpec.Hibernated_ (AmaltheaSession.Spec cr) = true;
  timed_failing :
    AmaltheaSessionStatus.FailingSince s ≠ Time.zero → AmaltheaSessionStatus.State_ s = Failed;
  timed_scheduling :
    AmaltheaSessionStatus.State_ s ∈ [Hibernated; Running; Succeeded] →
    AmaltheaSessionStatus.FailedSchedulingSince s = Time.zero }.

(** What the callbacks leave alone. *)
Definition sameButTimes (s s' : AmaltheaSessionStatus.t) : Prop :=
  ∃ a b c d, s' = AmaltheaSessionStatus.with_Since s a b c d.

Lemma sameButTimes_refl s : sameButTimes s s.
Proof. destruct s. by repeat eexists. Qed.

Lemma sameButTimes_trans s1 s2 s3 : sameButTimes s1 s2 → sameButTimes s2 s3 → sameButTimes s1 s3.
Proof. intros (?&?&?&?&->) (?&?&?&?&->). by repeat eexists. Qed.

Lemma applyCallback_wp cr cb st s :
  wp readMonitor (applyCallback cb st)
    (λ st' _, sameButTimes st st' ∧ (cb = None → st' = st) ∧ (fits cr cb → timed cr st → timed cr st')) s.
Proof.
  destruct cb as [[]|]; cbn.
  - split_and!; [by repeat eexists|done|]. intros Hh [? _ ?].
    split; cbn; rewrite ?Hh; done.
  - split; [done|]. intros now Hnow. split_and!; [by repeat eexists|done|].
    intros Hh [? _ ?]. split; cbn; rewrite ?Hh; done.
  - split_and!; [apply sameButTimes_refl|done|done].
Qed.

Lemma applyCallbacks_wp cr cbs st s :
  wp readMonitor (applyCallbacks cbs st)
    (λ st' _, sameButTimes st st' ∧ (Forall (λ cb, cb = None) cbs → st' = st) ∧
              (Forall (fits cr) cbs → timed cr st → timed cr st')) s.
Proof.
  revert st s. induction cbs as [|cb cbs IH]; intros st s; cbn [applyCallbacks].
  - split_and!; [apply sameButTimes_refl|done|done].
  - eapply wp_bind_intro; [apply (applyCallback_wp cr)|]. intros st1 s1 (Hs1 & He1 & Ht1).
    eapply wp_mono; [apply IH|]. intros st2 s2 (Hs2 & He2 & Ht2).
    rewrite !list.Forall_cons. split_and!; [by eapply sameButTimes_trans| |naive_solver].
    intros [? ?]. rewrite He2, He1; auto.
Qed.

(** ** The whole of [Status] *)

Definition boundedCounts (c : ContainerCounts.t) : Prop :=
  (0 ≤ ContainerCounts.Ready c ≤ ContainerCounts.Total c)%Z.

Lemma containerCounts_bounded pod :
  boundedCounts (containerCounts pod).1 ∧ boundedCounts (containerCounts pod).2.
Proof. destruct pod as [pod|]; [|done]. split; apply count_bounds. Qed.

(** What a new status is, field by field. *)
Record StatusSpec (env : Env) (c : ChildResourceUpdates.t) (cr : AmaltheaSession.t)
    (s : AmaltheaSessionStatus.t) : Prop := {
  spec_copied :
    AmaltheaSessionStatus.RunID s = AmaltheaSessionStatus.RunID (AmaltheaSession.Status cr) ∧
    AmaltheaSessionStatus.URL s = GetURLString env cr ∧
    AmaltheaSessionStatus.WillHibernateAt s =
      calculateHibernationDate (ObjectMeta.CreationTimestamp (AmaltheaSession.Meta cr))
        (AmaltheaSession.Status cr) (AmaltheaSessionSpec.Culling_ (AmaltheaSession.Spec cr));
  spec_verdict :
    (AmaltheaSessionStatus.State_ s = Failed → AmaltheaSessionStatus.Error s ≠ "") ∧
    (AmaltheaSessionStatus.State_ s = Hibernated →
     AmaltheaSessionSpec.Hibernated_ (AmaltheaSession.Spec cr) = true);
  spec_counts :
    boundedCounts (AmaltheaSessionStatus.ContainerCounts_ s) ∧
    boundedCounts (AmaltheaSessionStatus.InitContainerCounts s) ∧
    (AmaltheaSessionStatus.State_ s = Hibernated ∨ deleting (AmaltheaSession.Meta cr) = true →
     ContainerCounts.Ready (AmaltheaSessionStatus.ContainerCounts_ s) = 0%Z ∧
     ContainerCounts.Ready (AmaltheaSessionStatus.InitContainerCounts s) = 0%Z);
  spec_timed : Forall (fits cr) (callbacks c) → timed cr s;
  spec_failing :
    Forall (λ cb, cb = None) (callbacks c) → AmaltheaSessionStatus.State_ s = Failed →
    AmaltheaSessionStatus.FailingSince s ≠ Time.zero;
  spec_conditions :
    binaryConditions cr →
    ∃ now, Forall2 (updated (AmaltheaSessionStatus.State_ s)) (startConditions now cr)
             (AmaltheaSessionStatus.Conditions s) }.

(** The fields [assemble] writes from its arguments. *)
Lemma assemble_fields env cr pod state failMsg conditions idle isn fss fs hs hd :
  let s := assemble env cr pod state failMsg conditions idle isn fss fs hs hd in
  AmaltheaSessionStatus.State_ s = state ∧
  AmaltheaSessionStatus.Conditions s = conditions ∧
  AmaltheaSessionStatus.FailingSince s = fs ∧
  AmaltheaSessionStatus.HibernatedSince s = hs ∧
  (failMsg ≠ "" → AmaltheaSessionStatus.Error s = failMsg) ∧
  (state ∈ [Hibernated; Running; Succeeded] → AmaltheaSessionStatus.FailedSchedulingSince s = Time.zero) ∧
  AmaltheaSessionStatus.RunID s = AmaltheaSessionStatus.RunID (AmaltheaSession.Status cr) ∧
  AmaltheaSessionStatus.URL s = GetURLString env cr ∧
  AmaltheaSessionStatus.WillHibernateAt s = hd.
Proof.
  unfold assemble. destruct (containerCounts pod) as [i k]. cbn. split_and!; try done.
  - intros Hm%String.eqb_neq. by rewrite Hm.
  - intros Hin. repeat setoid_rewrite elem_of_cons in Hin.
    by destruct Hin as [->|[->|[->|?%not_elem_of_nil]]].
Qed.

Lemma assemble_counts env cr pod state failMsg conditions idle isn fss fs hs hd :
  let s := assemble env cr pod state failMsg conditions idle isn fss fs hs hd in
  boundedCounts (AmaltheaSessionStatus.ContainerCounts_ s) ∧
  boundedCounts (AmaltheaSessionStatus.InitContainerCounts s) ∧
  (state = Hibernated ∨ deleting (AmaltheaSession.Meta cr) = true →
   ContainerCounts.Ready (AmaltheaSessionStatus.ContainerCounts_ s) = 0%Z ∧
   ContainerCounts.Ready (AmaltheaSessionStatus.InitContainerCounts s) = 0%Z).
Proof.
  unfold assemble. destruct (containerCounts_bounded pod) as [H1 H2].
  destruct (containerCounts pod) as [i k]. unfold boundedCounts in *. cbn in *.
  destruct (String.eqb_spec state Hibernated) as [->|Hne]; cbn; [split_and!; lia|].
  destruct (deleting _); cbn; split_and!; try lia. by intros [?|?].
Qed.

Lemma Status_wp env `{QuantityOps} c cr s :
  wp readMonitor (Status env c cr) (λ st _, StatusSpec env c cr st) s.
Proof.
  unfold Status. eapply wp_bind_intro; [apply GetPod_wp|]. intros pod ? _.
  generalize (orNil pod). clear pod. intros pod.
  eapply wp_bind_intro; [apply GetJob_wp|]. intros job ? _.
  eapply wp_bind_intro; [apply inferState_wp|]. intros [[fss st0] msg0] ? Hv0.
  eapply wp_bind_intro with (P := λ '(_, _, st, msg) _, verdict cr st msg).
  { destruct pod as [pod|].
    - eapply wp_bind_intro; [apply podIdleness_wp|]. by intros [??] ? _.
    - eapply wp_bind_intro; [by apply quotaCheck_wp|]. by intros [??] ? ?. }
  intros [[[isn idle] st] msg] ? [Hfail Hhib].
  eapply wp_bind_intro; [apply sinceWhile_wp|]. intros hs ? [Hhs Hhs0].
  eapply wp_bind_intro; [apply sinceWhile_wp|]. intros fs ? [Hfs Hfs0].
  eapply wp_bind_intro; [apply Conditions_wp|]. intros conds ? Hconds.
  eapply wp_mono; [apply (applyCallbacks_wp cr)|]. cbn beta.
  match goal with |- ∀ _ _, sameButTimes ?s _ ∧ _ → _ => set (s0 := s) end.
  destruct (assemble_fields env cr pod st msg conds idle isn fss fs hs
    (calculateHibernationDate (ObjectMeta.CreationTimestamp (AmaltheaSession.Meta cr))
       (AmaltheaSession.Status cr) (AmaltheaSessionSpec.Culling_ (AmaltheaSession.Spec cr))))
    as (F1 & F2 & F3 & F4 & F5 & F6 & F7 & F8 & F9).
  pose proof (assemble_counts env cr pod st msg conds idle isn fss fs hs
    (calculateHibernationDate (ObjectMeta.CreationTimestamp (AmaltheaSession.Meta cr))
       (AmaltheaSession.Status cr) (AmaltheaSessionSpec.Culling_ (AmaltheaSession.Spec cr)))) as F10.
  fold s0 in F1, F2, F3, F4, F5, F6, F7, F8, F9, F10. clearbody s0.
  intros s1 ? ((t1 & t2 & t3 & t4 & Hs1) & Hnone & Htimed).
  split; rewrite ?Hs1; cbn; rewrite ?F1, ?F2, ?F7, ?F8, ?F9; try done.
  - split; [|done]. intros Hst. rewrite F5; auto.
  - intros Hcbs. rewrite <- Hs1. apply Htimed; [done|]. split.
    + rewrite F4. destruct (AmaltheaSessionSpec.Hibernated_ _); [by naive_solver|].
      rewrite Hhs0 by done. naive_solver.
    + rewrite F1, F3. destruct (String.eqb_spec st Failed); [done|]. by rewrite Hfs0.
    + by rewrite F1.
  - intros Hcbs ->. change t2 with (AmaltheaSessionStatus.FailingSince
      (AmaltheaSessionStatus.with_Since s0 t1 t2 t3 t4)).
    rewrite <- Hs1, Hnone, F3 by done. by apply Hfs.
Qed.

(** [Status] against an environment. *)
Lemma Status_run {W} env `{QuantityOps} c cr (h : Handler Api W) (w : W) :
  clockRuns h →
  ∃ s w', run h (Status env c cr) w = (Done s, w') ∧ StatusSpec env c cr s.
Proof.
  intros Hh. pose proof (wp_run_read h _ _ w Hh (Status_wp env c cr tt)) as Hr.
  destruct (run h (Status env c cr) w) as [[s|why] w']; [by exists s, w'|done].
Qed.
