(* ===== verification/ReconcileProps.v ===== *)
(** * Properties of the mutation callbacks and of the children's reconciliation

    What a callback keeps and what it overwrites, for every reconcile
    strategy; that reconciling twice changes nothing more; that the status
    callbacks agree with the hibernation flag. *)

From S2P Require Import Prelude Prog NetUrl K8s Types Api Names Templates Config Children Routing.
From S2P Require Import Lifecycle PodStatus Reconcile ChildSet SessionStatus StatusProps.

(** ** Labels and annotations *)

Lemma cleanWellKnown_lookup (current desired : gmap string string) (k : string) :
  cleanWellKnown current desired !! k =
  if wellKnown k then match current !! k with Some v => Some v | None => desired !! k end
  else desired !! k.
Proof.
  unfold cleanWellKnown. rewrite !maps_Copy_lookup, map_lookup_filter, lookup_empty.
  destruct (wellKnown k) eqn:E, (current !! k) as [v|]; cbn; rewrite ?E; cbn;
    try (destruct (decide _); [|done]); try (destruct (desired !! k)); done.
Qed.

Lemma cleanWellKnown_idem (current desired : gmap string string) :
  cleanWellKnown (cleanWellKnown current desired) desired = cleanWellKnown current desired.
Proof.
  apply map_eq. intros k. rewrite !cleanWellKnown_lookup.
  by destruct (wellKnown k), (current !! k), (desired !! k).
Qed.

Lemma refreshMeta_idem (current desired : ObjectMeta.t) :
  refreshMeta (refreshMeta current desired) desired = refreshMeta current desired.
Proof. unfold refreshMeta. cbn. by rewrite !cleanWellKnown_idem. Qed.

(** ** Identity of an object: what no reconciliation may change *)

Definition sameIdentity (m m' : ObjectMeta.t) : Prop :=
  ObjectMeta.Name m' = ObjectMeta.Name m ∧
  ObjectMeta.Namespace m' = ObjectMeta.Namespace m ∧
  ObjectMeta.UID m' = ObjectMeta.UID m ∧
  ObjectMeta.CreationTimestamp m' = ObjectMeta.CreationTimestamp m ∧
  ObjectMeta.DeletionTimestamp m' = ObjectMeta.DeletionTimestamp m ∧
  ObjectMeta.Finalizers m' = ObjectMeta.Finalizers m ∧
  ObjectMeta.OwnerReferences m' = ObjectMeta.OwnerReferences m.

Lemma sameIdentity_refl m : sameIdentity m m.
Proof. done. Qed.
Lemma sameIdentity_refresh m d : sameIdentity m (refreshMeta m d).
Proof. done. Qed.
#[export] Hint Resolve sameIdentity_refl sameIdentity_refresh : amalthea.

(** ** Callbacks reach a fixed point in one step *)

(** Reconciling the result again changes nothing and reports no transition. *)
Definition settles {T} (f : MutateFn T) (current : T) : Prop :=
  match f current with
  | (out, _, None) => f out = (out, None, None)
  | (_, _, Some _) => True
  end.

Lemma replicasCallback_same r : replicasCallback r r = None.
Proof. destruct r as [r|]; [|done]. cbn. repeat case_if; try done; lia. Qed.

Lemma suspendCallback_same r : suspendCallback r r = None.
Proof. by destruct r as [[]|]. Qed.

Section Mutations.
Context `{ControllerUtil} (cr : AmaltheaSession.t).

Lemma mutate_Ingress_settles desired current :
  created (Ingress.Meta current) = true → settles (mutate_Ingress cr desired) current.
Proof.
  intros Hc. unfold settles, mutate_Ingress. rewrite Hc. cbn [negb].
  destruct (reconcileDecision cr) eqn:Hd; [by rewrite Hc| |done].
  cbn [Ingress.Meta]. unfold created in *. cbn [refreshMeta ObjectMeta.CreationTimestamp].
  rewrite Hc. cbn. by rewrite refreshMeta_idem.
Qed.

Lemma mutate_Service_settles desired current :
  created (Service.Meta current) = true → settles (mutate_Service cr desired) current.
Proof.
  intros Hc. unfold settles, mutate_Service. rewrite Hc. cbn [negb].
  destruct (reconcileDecision cr) eqn:Hd; [by rewrite Hc| |done].
  unfold created in *. cbn. rewrite Hc. cbn. by rewrite refreshMeta_idem.
Qed.

Lemma mutate_PVC_settles desired current :
  created (PersistentVolumeClaim.Meta current) = true → settles (mutate_PVC cr desired) current.
Proof.
  intros Hc. unfold settles, mutate_PVC. rewrite Hc. cbn [negb].
  destruct (reconcileDecision cr) eqn:Hd; [by rewrite Hc| |done].
  unfold created in *. cbn. rewrite Hc. cbn. rewrite refreshMeta_idem.
  by destruct (PersistentVolumeClaimSpec.StorageClassName (PersistentVolumeClaim.Spec desired)).
Qed.

Lemma mutate_StatefulSet_settles desired current :
  created (StatefulSet.Meta current) = true → settles (mutate_StatefulSet cr desired) current.
Proof.
  intros Hc. unfold settles, mutate_StatefulSet. rewrite Hc. cbn [negb].
  destruct (reconcileDecision cr) eqn:Hd; [| |done]; unfold created in *; cbn; rewrite Hc; cbn;
    rewrite replicasCallback_same; rewrite ?refreshMeta_idem; done.
Qed.

Lemma mutate_Job_settles desired current :
  created (Job.Meta current) = true → settles (mutate_Job cr desired) current.
Proof.
  intros Hc. unfold settles, mutate_Job. destruct (jobIsFinished (Job.Status current)) eqn:Hf; [by rewrite Hf|].
  rewrite Hc. cbn [negb].
  destruct (reconcileDecision cr) eqn:Hd; [| |done]; unfold created in *; cbn; rewrite Hf, Hc; cbn;
    rewrite suspendCallback_same; rewrite ?refreshMeta_idem; done.
Qed.

(** Only the stateful set and the job report transitions. *)
Definition quiet {T} (f : MutateFn T) : Prop := ∀ base, (f base).1.2 = None.

Lemma mutate_quiet :
  (∀ d, quiet (mutate_Ingress cr d)) ∧ (∀ d, quiet (mutate_Service cr d)) ∧
  (∀ d, quiet (mutate_PVC cr d)) ∧ (∀ d, quiet (mutate_Secret cr d)).
Proof.
  unfold quiet, mutate_Ingress, mutate_Service, mutate_PVC, mutate_Secret.
  split_and!; intros d base; destruct (negb _); try (by destruct (SetControllerReference _ _));
    by destruct (reconcileDecision cr).
Qed.

Lemma mutate_StatefulSet_callback desired base :
  (mutate_StatefulSet cr desired base).1.2 = None ∨
  (mutate_StatefulSet cr desired base).1.2 =
    replicasCallback (StatefulSetSpec.Replicas (StatefulSet.Spec base))
                     (StatefulSetSpec.Replicas (StatefulSet.Spec desired)).
Proof.
  unfold mutate_StatefulSet. destruct (negb _).
  - left. by destruct (SetControllerReference _ _).
  - right. by destruct (reconcileDecision cr).
Qed.

(** The replica count a session asks for. *)
Definition wantedReplicas : Z :=
  if AmaltheaSessionSpec.Hibernated_ (AmaltheaSession.Spec cr) then 0%Z else 1%Z.

Lemma replicasCallback_fits r : fits cr (replicasCallback r (Some wantedReplicas)).
Proof.
  unfold replicasCallback, wantedReplicas, fits. destruct r as [r|]; [|done].
  destruct (AmaltheaSessionSpec.Hibernated_ _); repeat case_if; done || bool_simpl; lia.
Qed.

Lemma mutate_StatefulSet_fits desired base :
  StatefulSetSpec.Replicas (StatefulSet.Spec desired) = Some wantedReplicas →
  fits cr (mutate_StatefulSet cr desired base).1.2.
Proof.
  intros Hr. destruct (mutate_StatefulSet_callback desired base) as [->| ->]; [done|].
  rewrite Hr. apply replicasCallback_fits.
Qed.
End Mutations.

(** ** Reconciling all the children *)

(** What the environment promises: the clock runs, a ULID is not empty, and
    CreateOrPatch behaves as documented (the server may complete what is
    written in any way). *)
Definition clusterRely {R} (e : Api R) : R → Prop :=
  match e in Api R return R → Prop with
  | Now => λ t, t ≠ Time.zero
  | MakeULID => λ id, id ≠ ""
  | CreateOrPatch k obj f => λ ans, CreateOrPatch_documented (λ _ _, True) obj f ans
  | _ => λ _, True
  end.

Definition clusterMonitor (ok : ∀ R, Api R → Prop) : Monitor Api unit :=
  {| allowed R e _ := ok R e; rely R e _ r := clusterRely e r; next R e r s := s; panic_ok _ := True |}.

(** The calls of the children's reconciliation. *)
Definition childCall {R} (e : Api R) : Prop :=
  match e with
  | CreateOrPatch _ _ _ | DeleteIngress _ => True
  | _ => False
  end.

Section Reconciliation.
Context `{ControllerUtil} (cr : AmaltheaSession.t) (ok : ∀ R, Api R → Prop).
Hypothesis ok_child : ∀ R (e : Api R), childCall e → ok R e.

Lemma createOrPatch_wp {T} (k : Kind T) (c : ChildResource T) (f : MutateFn T)
    (P : option StatusCallback → Prop) s :
  P None → (∀ base, P (f base).1.2) →
  wp (clusterMonitor ok) (createOrPatch k c f) (λ u _, P (statusCallback_ u)) s.
Proof.
  intros HN Hf. cbn. split; [by apply ok_child|]. intros [[[out cb] res] err] Hdoc. cbn.
  destruct Hdoc as [[-> _]|(base & mutated & merr & Hb & _)]; [done|].
  specialize (Hf base). by rewrite Hb in Hf.
Qed.

Lemma reconcile_with_wp {T} (k : Kind T) (mutate : T → MutateFn T) (c : option (ChildResource T))
    (P : option StatusCallback → Prop) s :
  P None → (∀ c' base, c = Some c' → P (mutate (Desired c') base).1.2) →
  wp (clusterMonitor ok) (reconcile_with k mutate c) (λ u _, P (statusCallback_ u)) s.
Proof.
  intros HN Hf. destruct c as [c|]; [|done]. apply createOrPatch_wp; auto.
Qed.

Lemma reconcile_Ingress_wp c s :
  wp (clusterMonitor ok) (reconcile_Ingress cr c) (λ u _, statusCallback_ u = None) s.
Proof.
  destruct c as [c|]; [|done]. unfold reconcile_Ingress. case_if.
  - cbn. split; [by apply ok_child|]. intros err _. by destruct (IsNotFound err).
  - apply (createOrPatch_wp _ _ _ (λ cb, cb = None)); [done|]. apply mutate_quiet.
Qed.

Lemma reconcile_PVCs_wp l s :
  wp (clusterMonitor ok) (reconcile_PVCs cr l)
    (λ us _, Forall (λ u, statusCallback_ u = None) us) s.
Proof.
  revert s. induction l as [|c l IH]; intros s; cbn [reconcile_PVCs]; [by constructor|].
  eapply wp_bind_intro.
  { apply (reconcile_with_wp _ _ (Some c) (λ cb, cb = None)); [done|]. intros. apply mutate_quiet. }
  intros u s1 Hu. eapply wp_bind_intro; [apply IH|]. intros us s2 Hus. by constructor.
Qed.

Lemma ChildResources_Reconcile_wp (c : ChildResources.t) s :
  (∀ sts, ChildResources.StatefulSet c = Some sts →
     StatefulSetSpec.Replicas (StatefulSet.Spec (Desired sts)) = Some (wantedReplicas cr)) →
  wp (clusterMonitor ok) (ChildResources_Reconcile c cr)
    (λ r _, Forall (fits cr) (callbacks r.1)) s.
Proof.
  intros Hsts. unfold ChildResources_Reconcile.
  eapply wp_bind_intro.
  { apply (reconcile_with_wp _ _ _ (fits cr)); [done|]. intros; apply mutate_StatefulSet_fits; auto. }
  intros sts ? Hcb.
  eapply wp_bind_intro; [apply (reconcile_with_wp _ _ _ (λ cb, cb = None)); [done|intros; apply mutate_quiet]|].
  intros pvc ? Hpvc.
  eapply wp_bind_intro; [apply (reconcile_with_wp _ _ _ (λ cb, cb = None)); [done|intros; apply mutate_quiet]|].
  intros svc ? Hsvc.
  eapply wp_bind_intro; [apply reconcile_Ingress_wp|]. intros ing ? Hing.
  eapply wp_bind_intro; [apply (reconcile_with_wp _ _ _ (λ cb, cb = None)); [done|intros; apply mutate_quiet]|].
  intros sec ? Hsec.
  eapply wp_bind_intro; [apply (reconcile_with_wp _ _ _ (λ _, True)); done|]. intros job ? _.
  eapply wp_bind_intro; [apply reconcile_PVCs_wp|]. intros dss ? Hdss.
  eapply wp_bind_intro; [apply wp_lift with (Q := λ _ _, True); done|]. intros err ? _. cbn.
  unfold callbacks. cbn. rewrite Hing, Hsvc, Hsec, Hpvc.
  repeat (constructor; [done|]). apply Forall_app. split; [|by repeat constructor].
  apply Forall_fmap. revert Hdss. apply Forall_impl. cbn. by intros u ->.
Qed.
End Reconciliation.
