(* ===== verification/ControllerProps.v ===== *)
(** * Properties of the reconcile loop

    The lifecycle protocol of a session as a monitor on the calls of one pass
    of [reconcileInner], and the statuses a pass publishes. *)

From S2P Require Import Prelude Prog NetUrl K8s Types Api Names Templates Config Children Routing.
From S2P Require Import Lifecycle PodStatus Cull Reconcile ChildSet SessionStatus Metrics Controller.
From S2P Require Import StatusProps ReconcileProps.

(** ** The ghost state of a pass *)

Record Ghost := mkGhost {
  (** the session as the pass first read it *)
  g_first : option AmaltheaSession.t;
  (** the session as the API server last returned it *)
  g_session : option AmaltheaSession.t;
  (** the last clock reading *)
  g_now : Time.t;
  (** the secrets known not to exist any more *)
  g_gone : list Secret.t }.

Definition ghost0 : Ghost := mkGhost None None Time.zero [].

Definition sawSession (cr : AmaltheaSession.t) (g : Ghost) : Ghost :=
  mkGhost (match g_first g with Some cr0 => Some cr0 | None => Some cr end) (Some cr) (g_now g) (g_gone g).

Definition ghostNext {R} (e : Api R) : R → Ghost → Ghost :=
  match e in Api R return R → Ghost → Ghost with
  | Now => λ t g, mkGhost (g_first g) (g_session g) t (g_gone g)
  | GetSession _ _ => λ r g, match r with inl cr => sawSession cr g | inr _ => g end
  | UpdateStatus _ => λ r g, match r with (cr, None) => sawSession cr g | _ => g end
  | UpdateSession _ => λ r g, match r with (cr, None) => sawSession cr g | _ => g end
  | DeleteSecret s => λ r g,
      match r with
      | None => mkGhost (g_first g) (g_session g) (g_now g) (s :: g_gone g)
      | Some err => if err_notFound err
                    then mkGhost (g_first g) (g_session g) (g_now g) (s :: g_gone g) else g
      end
  | _ => λ _ g, g
  end.

(** What the API server keeps when it stores a session. *)
Definition sameLife (cr cr' : AmaltheaSession.t) : Prop :=
  AmaltheaSession.Spec cr' = AmaltheaSession.Spec cr ∧
  AmaltheaSession.Namespace cr' = AmaltheaSession.Namespace cr ∧
  ObjectMeta.Finalizers (AmaltheaSession.Meta cr') = ObjectMeta.Finalizers (AmaltheaSession.Meta cr).

(** A successful update returns the session as it was sent. *)
Definition protocolRely {R} (e : Api R) : R → Prop :=
  match e in Api R return R → Prop with
  | UpdateStatus cr => λ r, r.2 = None → sameLife cr r.1
  | UpdateSession cr => λ r, r.2 = None → sameLife cr r.1
  | e => clusterRely e
  end.

(** ** The protocol *)

Definition firstWas (deleted : bool) (g : Ghost) : Prop :=
  ∃ cr0, g_first g = Some cr0 ∧ deleting (AmaltheaSession.Meta cr0) = deleted.

(** The adopted secrets of the session are protected by the finalizer. *)
Definition protected (cr : AmaltheaSession.t) : Prop :=
  AdoptedSecrets cr = [] ∨ ContainsFinalizer cr secretCleanupFinalizerName = true.

(** A child is written only for a live session whose adopted secrets are
    protected. *)
Definition mayReconcileChild (g : Ghost) : Prop :=
  firstWas false g ∧ ∃ cr, g_session g = Some cr ∧ protected cr.

(** A secret is deleted only for a session under deletion that adopted it. *)
Definition mayDeleteSecret (s : Secret.t) (g : Ghost) : Prop :=
  firstWas true g ∧ ∃ cr, g_session g = Some cr ∧ s ∈ AdoptedSecrets cr.

(** The finalizer is removed only when every adopted secret is gone. *)
Definition mayRemoveFinalizer (cr : AmaltheaSession.t) (g : Ghost) : Prop :=
  firstWas true g ∧ Forall (λ s, s ∈ g_gone g) (AdoptedSecrets cr).

(** A session is hibernated by the operator only past its hibernation date. *)
Definition mayHibernate (cr : AmaltheaSession.t) (g : Ghost) : Prop :=
  firstWas false g ∧
  AmaltheaSessionSpec.SessionType_ (AmaltheaSession.Spec cr) ≠ SessionTypeNonInteractive ∧
  AmaltheaSessionSpec.Hibernated_ (AmaltheaSession.Spec cr) = false ∧
  AmaltheaSessionStatus.State_ (AmaltheaSession.Status cr) ≠ Hibernated ∧
  AmaltheaSessionStatus.WillHibernateAt (AmaltheaSession.Status cr) ≠ Time.zero ∧
  (AmaltheaSessionStatus.WillHibernateAt (AmaltheaSession.Status cr) < g_now g)%Z.

(** The three ways the operator changes the specification of a session. *)
Inductive specChange (g : Ghost) (cr : AmaltheaSession.t) : AmaltheaSession.t → Prop :=
| change_protect :
    firstWas false g → AdoptedSecrets cr ≠ [] →
    specChange g cr (AddFinalizer cr secretCleanupFinalizerName)
| change_release :
    mayRemoveFinalizer cr g → specChange g cr (RemoveFinalizer cr secretCleanupFinalizerName)
| change_hibernate :
    mayHibernate cr g → specChange g cr (AmaltheaSession.with_Hibernated cr true).

Definition protocolAllowed {R} (e : Api R) (g : Ghost) : Prop :=
  match e with
  | CreateOrPatch _ _ _ | DeleteIngress _ => mayReconcileChild g
  | DeleteSecret s => mayDeleteSecret s g
  | UpdateSession cr' => ∃ cr, g_session g = Some cr ∧ specChange g cr cr'
  | UpdateStatus cr' =>
      ∃ cr, g_session g = Some cr ∧ AmaltheaSession.Meta cr' = AmaltheaSession.Meta cr ∧
            AmaltheaSession.Spec cr' = AmaltheaSession.Spec cr
  | DeleteSession cr => firstWas false g ∧ g_session g = Some cr ∧ NeedsDeletion (g_now g) cr = true
  | _ => True
  end.

Definition protocol : Monitor Api Ghost :=
  {| allowed R e g := protocolAllowed e g; rely R e _ r := protocolRely e r;
     next R e r g := ghostNext e r g; panic_ok _ := True |}.

(** Ghost states that differ in the clock reading only. *)
Definition frozen (g g' : Ghost) : Prop :=
  g_first g' = g_first g ∧ g_session g' = g_session g ∧ g_gone g' = g_gone g.

Lemma frozen_refl g : frozen g g.
Proof. done. Qed.
#[export] Hint Resolve frozen_refl : amalthea.

(** ** Programs that only look at the cluster, or only write children *)

(** Reads, metrics and randomness: calls the protocol does not restrict. *)
Definition neutral {R} (e : Api R) : Prop :=
  match e with
  | Now | MakeULID | RandRead _ | Api.GetPod _ _ | ListPods _ _ | Api.GetJob _ _ | GetIngress _ _
  | ListEvents _ _ _ | ListPodMetrics _ _ | SetGauge _ _ _ | DeleteGauge _ _ => True
  | _ => False
  end.

Definition gaugeRemoval {R} (e : Api R) : Prop :=
  match e with DeleteGauge _ _ => True | _ => False end.

Lemma sim_removal g0 : monitorSim (clusterMonitor (@gaugeRemoval)) protocol (λ _ g, g = g0).
Proof.
  split; [|done]. intros T e s1 s2 -> He. destruct e; cbn in *; try done.
Qed.

Lemma sim_read g0 : monitorSim readMonitor protocol (λ _ g, frozen g0 g).
Proof.
  split; [|done]. intros T e s1 s2 (H1 & H2 & H3) He. destruct e; cbn in *; try done;
    (split; [done|]); intros r Hr; split; try done; by repeat split.
Qed.

Lemma sim_neutral g0 :
  monitorSim (clusterMonitor (@neutral)) protocol (λ _ g, frozen g0 g).
Proof.
  split; [|done]. intros T e s1 s2 (H1 & H2 & H3) He. destruct e; cbn in *; try done;
    (split; [done|]); intros r Hr; split; try done; by repeat split.
Qed.

Lemma sim_children g0 :
  mayReconcileChild g0 → monitorSim (clusterMonitor (@childCall)) protocol (λ _ g, frozen g0 g).
Proof.
  intros [[cr0 [Hf0 Hd]] (cr & Hs & Hp)]. split; [|done].
  intros T e s1 s2 (H1 & H2 & H3) He.
  assert (mayReconcileChild s2).
  { split; [exists cr0|exists cr]; by rewrite ?H1, ?H2. }
  destruct e; cbn in *; try done; (split; [done|]); intros r Hr; by repeat split.
Qed.

Lemma wp_frozen {A} (M0 : Monitor Api unit) (p : M A) (P : A → Prop) (g0 g : Ghost) :
  monitorSim M0 protocol (λ _ g, frozen g0 g) → frozen g0 g →
  wp M0 p (λ a _, P a) tt → wp protocol p (λ a g', frozen g0 g' ∧ P a) g.
Proof.
  intros Hsim Hg Hwp. eapply wp_mono; [by eapply wp_sim|]. intros a g' (? & ? & ?). done.
Qed.

Lemma sim_weaken {ok ok' : ∀ R, Api R → Prop} :
  (∀ R e, ok R e → ok' R e) → monitorSim (clusterMonitor ok) (clusterMonitor ok') (λ _ _, True).
Proof. intros Hok. split; [|done]. intros T e s1 s2 _ He. cbn in *. auto. Qed.

Lemma wp_weaken {S A} (M0 : Monitor Api unit) (M1 : Monitor Api S) (p : M A) (P : A → Prop) s :
  monitorSim M0 M1 (λ _ _, True) → wp M0 p (λ a _, P a) tt → wp M1 p (λ a _, P a) s.
Proof.
  intros Hsim Hwp. eapply wp_mono; [by eapply wp_sim|]. by intros a s' (? & _ & ?).
Qed.

(** What is read and drawn to prepare a pass: nothing of the metrics. *)
Definition preparing {R} (e : Api R) : Prop :=
  match e with Now | MakeULID | RandRead _ => True | _ => False end.

Lemma sim_preparing : monitorSim (clusterMonitor (@preparing)) (clusterMonitor (@neutral)) (λ _ _, True).
Proof. apply sim_weaken. by intros R []. Qed.

Section Neutral.
Local Abbreviation neutralWp p Q := (wp (clusterMonitor (@neutral)) p (λ a _, Q a) tt).
Local Abbreviation preparingWp p Q := (wp (clusterMonitor (@preparing)) p (λ a _, Q a) tt).

Lemma recordStates_wp ns n st l : neutralWp (recordStates ns n st l) (λ _, True).
Proof. induction l as [|s l IH]; cbn; [done|]. split; [done|]. intros [] _. exact IH. Qed.

Lemma removeGauges_wp ns n l :
  wp (clusterMonitor (@gaugeRemoval)) (removeGauges ns n l) (λ _ _, True) tt.
Proof. induction l as [|s l IH]; cbn; [done|]. split; [done|]. intros [] _. exact IH. Qed.

Lemma recordSince_wp g ns n t : neutralWp (recordSince g ns n t) (λ _, True).
Proof. unfold recordSince. case_if; cbn; auto. Qed.

Lemma RecordMetrics_wp cr : neutralWp (RecordAmaltheaSessionMetrics cr) (λ _, True).
Proof.
  unfold RecordAmaltheaSessionMetrics.
  eapply wp_bind_intro; [apply recordStates_wp|]. intros _ [] _.
  do 3 (eapply wp_bind_intro with (P := λ _ _, True); [by cbn|]; intros _ [] _).
  do 4 (eapply wp_bind_intro; [apply recordSince_wp|]; intros _ [] _).
  by cbn.
Qed.

Lemma chooseRunID_prepares cr :
  preparingWp (chooseRunID cr)
    (λ id, id = "" ↔ AmaltheaSessionSpec.Hibernated_ (AmaltheaSession.Spec cr) = true).
Proof.
  unfold chooseRunID. destruct (AmaltheaSessionSpec.Hibernated_ _); [done|].
  case_if; cbn.
  - split; [done|]. intros id Hid. naive_solver.
  - bool_simpl. naive_solver.
Qed.

Lemma Secret_prepares env `{YamlLib} cr : preparingWp (Secret env cr) (λ _, True).
Proof.
  unfold Secret. eapply wp_bind_intro with (P := λ _ _, True).
  { case_if; [|done]. cbn. split; [done|]. by intros [b|err] _. }
  intros tunnel [] _. case_if; [done|].
  eapply wp_bind_intro with (P := λ _ _, True); [by apply wp_lift|]. intros url [] _.
  cbn. split; [done|]. intros [c|err] _; [|done]. by destruct (yaml_Marshal _).
Qed.

(** The desired stateful set has the replica count of the session. *)
Definition wantsReplicas (cr : AmaltheaSession.t) (c : ChildResources.t) : Prop :=
  ∀ sts, ChildResources.StatefulSet c = Some sts →
    StatefulSetSpec.Replicas (StatefulSet.Spec (Desired sts)) = Some (wantedReplicas cr).

Lemma StatefulSet_replicas env `{QuantityOps} cr cfg sts :
  StatefulSet env cr cfg = Done (inl sts) →
  StatefulSetSpec.Replicas (StatefulSet.Spec sts) = Some (wantedReplicas cr).
Proof.
  unfold StatefulSet. rewrite Outcome_bind_Done. intros ([pod|err] & _ & Hs); by inversion Hs.
Qed.

Lemma NewChildResources_prepares env `{QuantityOps} `{YamlLib} cr cfg :
  preparingWp (NewChildResources env cr cfg)
    (λ r, match r with inl c => wantsReplicas cr c | inr _ => True end).
Proof.
  unfold NewChildResources, NewNonInteractiveChildResources, NewInteractiveChildResources. case_if.
  - eapply wp_bind_intro with (P := λ _ _, True); [by apply wp_lift|]. intros [job|err] [] _; [|done].
    eapply wp_bind_intro; [apply Secret_prepares|]. intros sec [] _.
    eapply wp_bind_intro with (P := λ _ _, True); [by apply wp_lift|]. by intros [[? ?] ?] [] _.
  - eapply wp_bind_intro with (P := λ r _, StatefulSet env cr cfg = Done r);
      [by apply wp_lift; auto; by cbn|].
    intros [sts|err] [] Hsts; [|done].
    eapply wp_bind_intro; [apply Secret_prepares|]. intros sec [] _.
    eapply wp_bind_intro with (P := λ _ _, True); [by apply wp_lift|]. intros [[? ?] ?] [] _.
    intros sts' Hs. simplify_eq/=. by eapply StatefulSet_replicas.
Qed.

Lemma chooseRunID_wp cr :
  neutralWp (chooseRunID cr)
    (λ id, id = "" ↔ AmaltheaSessionSpec.Hibernated_ (AmaltheaSession.Spec cr) = true).
Proof. eapply wp_weaken; [apply sim_preparing|apply chooseRunID_prepares]. Qed.

Lemma NewChildResources_wp env `{QuantityOps} `{YamlLib} cr cfg :
  neutralWp (NewChildResources env cr cfg)
    (λ r, match r with inl c => wantsReplicas cr c | inr _ => True end).
Proof. eapply wp_weaken; [apply sim_preparing|apply NewChildResources_prepares]. Qed.
End Neutral.

(** ** The steps of a pass *)

(** The session the pass works on is the one the server last returned. *)
Definition holds (first : option AmaltheaSession.t) (cr : AmaltheaSession.t) (g : Ghost) : Prop :=
  g_first g = first ∧ g_session g = Some cr.

Definition stepPost (first : option AmaltheaSession.t) (P : AmaltheaSession.t → Prop)
    (step : Step) (g : Ghost) : Prop :=
  match step with inl _ => True | inr cr => holds first cr g ∧ P cr end.

Definition onlyStatus (f : AmaltheaSession.t → AmaltheaSession.t) : Prop :=
  ∀ cr, AmaltheaSession.Meta (f cr) = AmaltheaSession.Meta cr ∧
        AmaltheaSession.Spec (f cr) = AmaltheaSession.Spec cr.

Lemma updateStatusRetry_wp ns n cr0 cr again first g :
  is_Some first → holds first cr0 g →
  AmaltheaSession.Meta cr = AmaltheaSession.Meta cr0 → AmaltheaSession.Spec cr = AmaltheaSession.Spec cr0 →
  onlyStatus again →
  wp protocol (updateStatusRetry ns n cr again) (λ step g', stepPost first (λ _, True) step g') g.
Proof.
  intros [f0 ->] [Hf Hs] Hm Hsp Hag. cbn. split; [by exists cr0|].
  intros [cr1 [err|]] Hr; cbn.
  - split; [done|]. intros [fresh|err2] _; cbn; [|done].
    unfold sawSession; cbn; rewrite Hf; cbn.
    split; [exists fresh; by split; [|apply Hag]|]. intros [cr2 [err2|]] _; cbn; [done|].
    done.
  - by unfold stepPost, holds; cbn; rewrite Hf.
Qed.

Lemma wp_frozen_holds {A} (M0 : Monitor Api unit) (p : M A) (P : A → Prop) first cr (g : Ghost) :
  monitorSim M0 protocol (λ _ g', frozen g g') → holds first cr g →
  wp M0 p (λ a _, P a) tt → wp protocol p (λ a g', holds first cr g' ∧ P a) g.
Proof.
  intros Hsim [Hf Hs] Hwp. eapply wp_mono; [eapply wp_frozen; [done|apply frozen_refl|done]|].
  intros a g' [(H1 & H2 & H3) HP]. split; [|done]. split; congruence.
Qed.

Lemma initialize_wp env ns n cr first g :
  is_Some first → holds first cr g →
  wp protocol (initialize env ns n cr) (λ step g', stepPost first (λ _, True) step g') g.
Proof.
  intros Hf Hg. unfold initialize. case_decide; [|done].
  eapply wp_bind_intro; [eapply updateStatusRetry_wp; done|]. intros [ret|cr1] g1; [done|].
  intros [Hg1 _]. eapply wp_bind_intro; [eapply wp_frozen_holds; [apply sim_neutral|done|apply RecordMetrics_wp]|].
  by intros _ g2 [Hg2 _].
Qed.

Lemma AdoptedSecrets_life cr cr' : sameLife cr cr' → AdoptedSecrets cr' = AdoptedSecrets cr.
Proof.
  intros (Hs & Hn & _). unfold AdoptedSecrets, adoptedRef, adoptedKeyRef, secretNamed. by rewrite Hs, Hn.
Qed.

Lemma ContainsFinalizer_life cr cr' f : sameLife cr cr' → ContainsFinalizer cr' f = ContainsFinalizer cr f.
Proof. intros (_ & _ & Hf). unfold ContainsFinalizer. by rewrite Hf. Qed.

Lemma AddFinalizer_contains cr f : ContainsFinalizer (AddFinalizer cr f) f = true.
Proof.
  unfold AddFinalizer. destruct (ContainsFinalizer cr f) eqn:E; [done|].
  unfold ContainsFinalizer. cbn. rewrite existsb_app. cbn. rewrite String.eqb_refl. by rewrite orb_true_r.
Qed.

Lemma ensureFinalizer_wp cr first g :
  firstWas false g → holds first cr g →
  wp protocol (ensureFinalizer cr) (λ step g', stepPost first protected step g') g.
Proof.
  intros Hlive [Hf Hs]. unfold ensureFinalizer. case_if; cbn.
  - bool_simpl. destruct E as [Hlen _]. rewrite Nat.ltb_lt in Hlen.
    assert (AdoptedSecrets cr ≠ []) by (destruct (AdoptedSecrets cr); [cbn in Hlen; lia|done]).
    split; [exists cr; split; [done|by constructor]|].
    intros [cr1 [err|]] Hr; cbn; [done|]. destruct Hlive as (cr0 & Hc0 & _).
    split; [split; cbn; [by rewrite <- Hf, Hc0|done]|]. right.
    rewrite (ContainsFinalizer_life _ _ _ (Hr eq_refl)). apply AddFinalizer_contains.
  - split; [done|]. rewrite andb_false_iff, Nat.ltb_ge, negb_false_iff in E.
    destruct E as [E|E]; [left|by right]. destruct (AdoptedSecrets cr); [done|cbn in E; lia].
Qed.

(** The loop of [deleteSecrets]: every adopted secret is gone, or there is an error. *)
Lemma deleteSecrets_wp cr first g :
  firstWas true g → holds first cr g →
  wp protocol (deleteSecrets cr)
    (λ err g', firstWas true g' ∧ holds first cr g' ∧
               (err = None → Forall (λ s, s ∈ g_gone g') (AdoptedSecrets cr))) g.
Proof.
  intros Hdel Hg.
  assert (Hloop : wp protocol (foldM deleteOne None (AdoptedSecrets cr))
    (λ err g', firstWas true g' ∧ holds first cr g' ∧
               (err = None → Forall (λ s, s ∈ g_gone g') (AdoptedSecrets cr))) g).
  { eapply wp_foldM with (I := λ rest err g',
      firstWas true g' ∧ holds first cr g' ∧ Forall (λ s, s ∈ AdoptedSecrets cr) rest ∧
      (err = None → Forall (λ s, s ∈ rest ∨ s ∈ g_gone g') (AdoptedSecrets cr))).
    - split_and!; try done; [by apply list.Forall_forall|]. intros _. apply list.Forall_forall. auto.
    - clear g Hdel Hg. intros s rest err g (Hdel & Hg & Hin & Hgone).
      apply list.Forall_cons in Hin as [Hs Hin]. cbn.
      split; [split; [done|]; exists cr; by split; [apply Hg|]|].
      assert (Hkeep : ∀ gone, gone = s :: g_gone g →
        (err = None → Forall (λ s, s ∈ rest ∨ s ∈ gone) (AdoptedSecrets cr))).
      { intros gone -> Herr. specialize (Hgone Herr). revert Hgone. apply Forall_impl. set_solver. }
      intros [e|] _; cbn; [destruct (err_notFound e) eqn:En; cbn|]; split_and!; try done; auto.
      destruct err as [e'|]; cbn; done.
    - intros err g' (H1 & H2 & _ & H3). split_and!; try done. intros Herr. specialize (H3 Herr).
      revert H3. apply Forall_impl. set_solver. }
  unfold deleteSecrets. destruct (AdoptedSecrets cr) as [|s l]; [|exact Hloop]. cbn. auto.
Qed.

Lemma finalize_wp ns n cr first g :
  firstWas true g → holds first cr g → wp protocol (finalize ns n cr) (λ _ _, True) g.
Proof.
  intros Hdel Hg. unfold finalize.
  assert (Hf : is_Some first) by (destruct Hdel as (? & Hc & _), Hg as [<- _]; by rewrite Hc).
  eapply wp_bind_intro; [eapply updateStatusRetry_wp; done|]. intros [ret|cr1] g1; [done|]. intros [Hg1 _].
  assert (Hdel1 : firstWas true g1).
  { destruct Hdel as (c0 & Hc & ?). exists c0. split; [|done]. destruct Hg as [<- _], Hg1 as [-> _]. done. }
  case_if; [|done].
  eapply wp_bind_intro; [by eapply deleteSecrets_wp|]. intros [err|] g2 (Hdel2 & [Hf2 Hs2] & Hgone); [done|].
  cbn. split; [exists cr1; split; [done|]; constructor; split; [done|by apply Hgone]|].
  by intros [cr3 [err|]] _.
Qed.

Lemma updateHibernationState_wp cr first g :
  firstWas false g → holds first cr g → wp protocol (updateHibernationState cr) (λ _ _, True) g.
Proof.
  intros Hlive [Hf Hs]. unfold updateHibernationState, needsScaleDown.
  repeat (case_if; [try done|]; []). case_if; [|done]. case_if; [|done]. cbn.
  split; [done|]. intros now Hnow. case_if; [|done]. cbn. split; [|done].
  exists cr. split; [done|]. constructor. unfold Time.Before in *. bool_simpl.
  destruct E2 as [? ?%Z.ltb_lt]. split_and!; try done.
Qed.

Lemma firstWas_holds b first cr cr' g g' :
  firstWas b g → holds first cr g → holds first cr' g' → firstWas b g'.
Proof. intros (c0 & Hc & ?) [Hf _] [Hf' _]. exists c0. split; congruence. Qed.

Lemma afterPublish_wp cr changed first g :
  firstWas false g → holds first cr g → wp protocol (afterPublish cr changed) (λ _ _, True) g.
Proof.
  intros Hlive Hg. unfold afterPublish.
  eapply wp_bind_intro; [eapply wp_frozen_holds; [apply sim_neutral|done|apply RecordMetrics_wp]|].
  intros _ g1 [Hg1 _]. pose proof (firstWas_holds _ _ _ _ _ _ Hlive Hg Hg1) as Hlive1.
  cbn -[updateHibernationState RemoveAmaltheaSessionMetrics]. split; [done|]. intros now Hnow.
  set (g2 := mkGhost _ _ now _).
  assert (Hlive2 : firstWas false g2) by exact Hlive1.
  assert (Hg2 : holds first cr g2) by exact Hg1. case_if.
  - eapply wp_bind_intro; [eapply wp_sim; [apply (sim_removal g2)|done|apply removeGauges_wp]|].
    intros _ g3 ([] & -> & _). cbn. split; [|done]. split_and!; [done|apply Hg2|done].
  - eapply wp_bind_intro; [by eapply updateHibernationState_wp|]. by intros [? [err|]] g3 _.
Qed.

Section Pass.
Context (env : Env) `{QuantityOps} `{ControllerUtil} `{YamlLib} (cfg : AmaltheaSessionConfiguration).

Lemma reconcileLive_wp ns n cr first g :
  firstWas false g → holds first cr g → protected cr →
  wp protocol (reconcileLive env cfg ns n cr) (λ _ _, True) g.
Proof.
  intros Hlive Hg Hprot. unfold reconcileLive.
  eapply wp_bind_intro; [eapply wp_frozen_holds; [apply sim_neutral|done|apply chooseRunID_wp]|].
  intros runID g1 [Hg1 _]. set (cr1 := AmaltheaSession.with_Status cr _).
  eapply wp_bind_intro; [eapply wp_frozen_holds; [apply sim_neutral|done|apply NewChildResources_wp]|].
  intros [c|err] g2 [Hg2 Hc]; [|done].
  pose proof (firstWas_holds _ _ _ _ _ _ Hlive Hg Hg2) as Hlive2.
  eapply wp_bind_intro.
  { eapply wp_frozen_holds; [apply sim_children|exact Hg2|
      apply ChildResources_Reconcile_wp; [by auto|exact Hc]].
    split; [done|]. exists cr. by split; [apply Hg2|]. }
  intros [updates [err|]] g3 [Hg3 _]; [done|].
  eapply wp_bind_intro; [eapply wp_frozen_holds; [apply sim_read|exact Hg3|apply Status_wp]|].
  intros newStatus g4 [Hg4 _].
  assert (Hf : is_Some first) by (destruct Hlive as (? & Hx & _), Hg as [<- _]; by rewrite Hx).
  eapply wp_bind_intro; [eapply updateStatusRetry_wp; [exact Hf|exact Hg4|done..]|].
  intros [ret|cr5] g5; [done|]. intros [Hg5 _].
  eapply afterPublish_wp; [|exact Hg5]. by eapply firstWas_holds.
Qed.

(** One pass obeys the lifecycle protocol. *)
Lemma reconcileInner_wp ns n :
  wp protocol (reconcileInner env cfg ns n) (λ _ _, True) ghost0.
Proof.
  unfold reconcileInner. cbn -[finalize initialize ensureFinalizer reconcileLive]. split; [done|].
  intros [cr|err] _; [|by case_if].
  cbn -[finalize initialize ensureFinalizer reconcileLive].
  set (g := sawSession cr ghost0).
  assert (Hg : holds (Some cr) cr g) by done. case_if.
  - eapply finalize_wp; [|exact Hg]. by exists cr.
  - assert (Hlive : firstWas false g) by (by exists cr).
    eapply wp_bind_intro; [by eapply initialize_wp|]. intros [ret|cr1] g1; [done|]. intros [Hg1 _].
    eapply wp_bind_intro; [eapply ensureFinalizer_wp; [|exact Hg1]; by eapply firstWas_holds|].
    intros [ret|cr2] g2; [done|]. intros [Hg2 Hprot].
    eapply reconcileLive_wp; [|exact Hg2|done]. by eapply firstWas_holds.
Qed.
End Pass.

(** ** The statuses a pass publishes *)

(** A status that is coherent for the specification of [cr]. *)
Record goodStatus (cr : AmaltheaSession.t) (s : AmaltheaSessionStatus.t) : Prop := {
  good_timed : timed cr s;
  good_error : AmaltheaSessionStatus.State_ s = Failed → AmaltheaSessionStatus.Error s ≠ "";
  good_hibernated :
    AmaltheaSessionStatus.State_ s = Hibernated → AmaltheaSessionStatus.HibernatedSince s ≠ Time.zero;
  good_counts :
    boundedCounts (AmaltheaSessionStatus.ContainerCounts_ s) ∧
    boundedCounts (AmaltheaSessionStatus.InitContainerCounts s);
  good_runID :
    AmaltheaSessionStatus.RunID s = "" ↔ AmaltheaSessionSpec.Hibernated_ (AmaltheaSession.Spec cr) = true }.

Lemma goodStatus_runID cr s old :
  goodStatus cr s → AmaltheaSessionStatus.RunID s ≠ "" → old ≠ "" →
  goodStatus cr (AmaltheaSessionStatus.with_RunID s old).
Proof.
  intros [[? ? ?] ? ? ? Hr] Hs Hold. split; cbn; try done. naive_solver.
Qed.

(** Only the specification of the session matters. *)
Lemma goodStatus_spec cr cr' s :
  AmaltheaSession.Spec cr' = AmaltheaSession.Spec cr → goodStatus cr s → goodStatus cr' s.
Proof. intros E [[? ? ?] ? ? ? ?]. split; [split|..]; rewrite ?E; done. Qed.

(** Every status update carries a good status. *)
Definition publishes (cr : AmaltheaSession.t) {R} (e : Api R) : Prop :=
  match e with UpdateStatus cr' => goodStatus cr (AmaltheaSession.Status cr') | _ => True end.

Lemma sim_read_weaken (ok : ∀ R, Api R → Prop) :
  (∀ R (e : Api R), readOnly e → ok R e) → monitorSim readMonitor (clusterMonitor ok) (λ _ _, True).
Proof.
  intros Hok. split; [|done]. intros T e s1 s2 _ He. split; [by apply Hok|].
  intros r Hr. split; [|done]. by destruct e.
Qed.

Lemma publishes_neutral cr R (e : Api R) : neutral e → publishes cr e.
Proof. by destruct e. Qed.
Lemma publishes_child cr R (e : Api R) : childCall e → publishes cr e.
Proof. by destruct e. Qed.
Lemma publishes_read cr R (e : Api R) : readOnly e → publishes cr e.
Proof. by destruct e. Qed.

Section Published.
Context (env : Env) `{QuantityOps} `{ControllerUtil} `{YamlLib} (cfg : AmaltheaSessionConfiguration).

Lemma StatusSpec_good c cr s :
  Forall (fits cr) (callbacks c) →
  (AmaltheaSessionStatus.RunID (AmaltheaSession.Status cr) = "" ↔
   AmaltheaSessionSpec.Hibernated_ (AmaltheaSession.Spec cr) = true) →
  StatusSpec env c cr s → goodStatus cr s.
Proof.
  intros Hfits Hrun [(HR & _) [Hfail Hhib] (Hc1 & Hc2 & _) Htimed _ _]. specialize (Htimed Hfits).
  split; try done.
  - intros Hs. apply (timed_hibernated _ _ Htimed). auto.
  - by rewrite HR.
Qed.

Definition hibernationCall {R} (e : Api R) : Prop :=
  match e with Now | UpdateSession _ => True | _ => False end.

Lemma updateHibernationState_calls cr :
  wp (clusterMonitor (@hibernationCall)) (updateHibernationState cr) (λ _ _, True) tt.
Proof.
  unfold updateHibernationState. case_if; [done|]. case_if; [|done]. case_if; [|done].
  cbn. split; [done|]. intros now _. by case_if.
Qed.

Lemma afterPublish_publishes cr cr' changed :
  wp (clusterMonitor (@publishes cr)) (afterPublish cr' changed) (λ _ _, True) tt.
Proof.
  unfold afterPublish.
  eapply wp_bind_intro; [eapply wp_weaken; [|apply RecordMetrics_wp]; apply sim_weaken, publishes_neutral|].
  intros _ [] _. cbn -[RemoveAmaltheaSessionMetrics updateHibernationState].
  split; [done|]. intros now _. case_if.
  - eapply wp_bind_intro; [eapply wp_weaken with (P := λ _, True); [|apply removeGauges_wp];
      apply sim_weaken; by intros R []|].
    intros _ [] _. by cbn.
  - eapply wp_bind_intro; [eapply wp_weaken with (P := λ _, True); [|apply updateHibernationState_calls];
      apply sim_weaken; by intros R []|].
    by intros [? [err|]] [] _.
Qed.

Lemma reconcileLive_publishes ns n cr :
  wp (clusterMonitor (@publishes cr)) (reconcileLive env cfg ns n cr) (λ _ _, True) tt.
Proof.
  unfold reconcileLive.
  eapply wp_bind_intro; [eapply wp_weaken; [|apply chooseRunID_wp]; apply sim_weaken, publishes_neutral|].
  intros runID [] Hrun. set (cr1 := AmaltheaSession.with_Status cr _).
  eapply wp_bind_intro; [eapply wp_weaken; [|apply NewChildResources_wp]; apply sim_weaken, publishes_neutral|].
  intros [c|err] [] Hc; [|done].
  eapply wp_bind_intro; [apply ChildResources_Reconcile_wp; [apply publishes_child|exact Hc]|].
  intros [updates [err|]] [] Hfits; [done|]. cbn in Hfits.
  eapply wp_bind_intro; [eapply wp_weaken; [|apply Status_wp]; apply sim_read_weaken, publishes_read|].
  intros newStatus [] Hspec.
  assert (Hgood : goodStatus cr newStatus).
  { apply (goodStatus_spec cr1); [done|]. eapply StatusSpec_good; [exact Hfits|exact Hrun|exact Hspec]. }
  cbn -[afterPublish]. split; [done|]. intros [cr2 [err|]] _; cbn -[afterPublish];
    [|apply afterPublish_publishes].
  split; [done|]. intros [fresh|err2] _; cbn -[afterPublish]; [|done].
  split; [|by intros [cr3 [|]] _; cbn -[afterPublish]; [|apply afterPublish_publishes]].
  case_if; [|done]. bool_simpl. destruct E. by apply goodStatus_runID.
Qed.
End Published.

(** ** A pass asks to be run again *)

(** Whether the pass learned that the session is gone, or deleted it. *)
Definition endNext {R} (e : Api R) : R → bool → bool :=
  match e in Api R return R → bool → bool with
  | GetSession _ _ => λ r ended, match r with inl _ => ended | inr err => err_notFound err || ended end
  | DeleteSession _ => λ _ _, true
  | _ => λ _ ended, ended
  end.

Definition endMonitor : Monitor Api bool :=
  {| allowed R e _ := True; rely R e _ r := clusterRely e r; next R e r s := endNext e r s;
     panic_ok _ := True |}.

(** Without an error the pass is run again, immediately or later, unless the session ended. *)
Definition runsAgain (r : CtrlResult * option GoError) (ended : bool) : Prop :=
  r.2 = None → ended = true ∨ Requeue r.1 = true ∨ (0 < RequeueAfter r.1)%Z.

Lemma sim_end (ok : ∀ R, Api R → Prop) : monitorSim (clusterMonitor ok) endMonitor (λ _ _, True).
Proof. split; [|done]. intros T e s1 s2 _ He. cbn in *. auto. Qed.

Lemma sim_read_end : monitorSim readMonitor endMonitor (λ _ _, True).
Proof. split; [|done]. intros T e s1 s2 _ He. cbn. split; [done|]. intros r Hr. by destruct e. Qed.

Definition stepAgain (step : Step) (ended : bool) : Prop :=
  match step with inl ret => runsAgain ret ended | inr _ => True end.

Lemma updateStatusRetry_again ns n cr again ended :
  wp endMonitor (updateStatusRetry ns n cr again) stepAgain ended.
Proof.
  cbn. split; [done|]. intros [cr1 [err|]] _; cbn; [|done]. split; [done|].
  intros [fresh|err2] _; cbn; [|by intros ?]. split; [done|]. by intros [cr2 [err2|]] _.
Qed.

Lemma afterPublish_again cr changed ended : wp endMonitor (afterPublish cr changed) runsAgain ended.
Proof.
  unfold afterPublish.
  eapply wp_bind_intro; [eapply wp_weaken; [apply sim_end|apply RecordMetrics_wp]|].
  intros _ ended1 _. cbn -[RemoveAmaltheaSessionMetrics updateHibernationState].
  split; [done|]. intros now _. case_if.
  - eapply wp_bind_intro; [eapply wp_weaken with (P := λ _, True); [apply sim_end|apply removeGauges_wp]|].
    intros _ ended2 _. cbn. split; [done|]. intros err _. by left.
  - eapply wp_bind_intro; [eapply wp_weaken with (P := λ _, True);
      [apply sim_end|apply updateHibernationState_calls]|].
    intros [? [err|]] ended2 _; [done|]. intros _. destruct changed; [by right; left|by right; right].
Qed.

Section Again.
Context (env : Env) `{QuantityOps} `{ControllerUtil} `{YamlLib} (cfg : AmaltheaSessionConfiguration).

Lemma reconcileLive_again ns n cr ended :
  wp endMonitor (reconcileLive env cfg ns n cr) runsAgain ended.
Proof.
  unfold reconcileLive.
  eapply wp_bind_intro; [eapply wp_weaken; [apply sim_end|apply chooseRunID_wp]|]. intros runID ? _.
  eapply wp_bind_intro; [eapply wp_weaken; [apply sim_end|apply NewChildResources_wp]|].
  intros [c|err] ? Hc; [|done].
  eapply wp_bind_intro; [eapply wp_weaken; [apply sim_end|
    apply (ChildResources_Reconcile_wp _ (@childCall)); [by auto|exact Hc]]|].
  intros [updates [err|]] ? _; [done|].
  eapply wp_bind_intro; [eapply wp_weaken; [apply sim_read_end|apply Status_wp]|]. intros newStatus ? _.
  eapply wp_bind_intro; [apply updateStatusRetry_again|]. intros [ret|cr2] ? Hr; [done|].
  apply afterPublish_again.
Qed.

Lemma finalize_again ns n cr ended : wp endMonitor (finalize ns n cr) runsAgain ended.
Proof.
  unfold finalize. eapply wp_bind_intro; [apply updateStatusRetry_again|]. intros [ret|cr1] ? Hr; [done|].
  case_if; [|intros _; cbn; auto].
  eapply wp_bind_intro with (P := λ _ _, True).
  { unfold deleteSecrets. destruct (AdoptedSecrets cr1) as [|s l]; [done|].
    apply wp_foldM with (I := λ _ _ _, True); [done| |done]. intros. cbn. done. }
  intros [err|] ? _; [done|]. cbn. split; [done|]. intros [cr2 [err|]] _; [done|]. intros _. cbn. auto.
Qed.

Lemma reconcileInner_again ns n : wp endMonitor (reconcileInner env cfg ns n) runsAgain false.
Proof.
  unfold reconcileInner. cbn -[finalize initialize ensureFinalizer reconcileLive]. split; [done|].
  intros [cr|err] _; [|by destruct (err_notFound err); cbn; [left|]].
  cbn -[finalize initialize ensureFinalizer reconcileLive]. case_if; [apply finalize_again|].
  eapply wp_bind_intro with (P := stepAgain).
  { unfold initialize. case_decide; [|done].
    eapply wp_bind_intro; [apply updateStatusRetry_again|]. intros [ret|cr1] ? Hr; [done|].
    eapply wp_bind_intro; [eapply wp_weaken; [apply sim_end|apply RecordMetrics_wp]|]. by intros _ ? _. }
  intros [ret|cr1] ended Hr; [done|].
  eapply wp_bind_intro with (P := stepAgain).
  { unfold ensureFinalizer. case_if; [|done]. cbn. split; [done|]. by intros [cr2 [err|]] _. }
  intros [ret|cr2] ended2 Hr2; [done|]. apply reconcileLive_again.
Qed.
End Again.
