(* ===== verification/Cluster.v ===== *)
(** * An executable cluster

    A handler of [Api] that keeps one session, its children, pods, events and
    metrics in memory.  It is the environment of the scenarios that follow the
    theorems, and it shows that the promises the monitors make on behalf of
    Kubernetes can be kept. *)

From S2P Require Import Prelude Prog NetUrl K8s Types Api Names Templates Config Children Routing.
From S2P Require Import Lifecycle PodStatus Cull Reconcile ChildSet SessionStatus Metrics Controller.
From S2P Require Import StatusProps ReconcileProps ControllerProps.

(** ** Simple libraries *)

(** Quantities as plain decimal texts; enough for the scenarios. *)
Fixpoint decimal (acc : Z) (s : string) : Z :=
  match s with
  | EmptyString => acc
  | String c s' => decimal (acc * 10 + (Z.of_nat (Ascii.nat_of_ascii c) - 48))%Z s'
  end.
#[global] Instance plainQuantities : QuantityOps := {|
  Quantity_Cmp a b := match Z.compare (decimal 0 (Quantity.text a)) (decimal 0 (Quantity.text b)) with
                      | Lt => (-1)%Z | Eq => 0%Z | Gt => 1%Z end;
  Quantity_Value q := decimal 0 (Quantity.text q);
  Quantity_IsZero q := (decimal 0 (Quantity.text q) =? 0)%Z |}.

#[global] Instance plainOwner : ControllerUtil := {|
  SetControllerReference owner obj :=
    (ObjectMeta.mk (ObjectMeta.Name obj) (ObjectMeta.Namespace obj) (ObjectMeta.Labels obj)
       (ObjectMeta.Annotations obj) (ObjectMeta.UID obj) (ObjectMeta.CreationTimestamp obj)
       (ObjectMeta.DeletionTimestamp obj) (ObjectMeta.Finalizers obj)
       [mkOpaque (ObjectMeta.Name owner)] (ObjectMeta.rest obj), None) |}.

#[global] Instance plainYaml : YamlLib := {| yaml_Marshal _ := inl "config" |}.

(** ** The world *)

Record World := mkWorld {
  w_now : Time.t;
  w_session : option AmaltheaSession.t;
  w_secrets : gmap string Secret.t;
  w_sts : gmap string StatefulSet.t;
  w_jobs : gmap string Job.t;
  w_pvcs : gmap string PersistentVolumeClaim.t;
  w_services : gmap string Service.t;
  w_ingresses : gmap string Ingress.t;
  w_pods : gmap string Pod.t;
  w_podEvents : list Event.t;
  w_stsEvents : list Event.t;
  w_usage : option (gmap string Quantity.t) }.

Definition store {T} (k : Kind T) : World → gmap string T :=
  match k in Kind T return World → gmap string T with
  | KIngress => w_ingresses | KService => w_services | KStatefulSet => w_sts
  | KPVC => w_pvcs | KSecret => w_secrets | KJob => w_jobs
  end.

Definition with_store {T} (k : Kind T) : World → gmap string T → World :=
  match k in Kind T return World → gmap string T → World with
  | KSecret => λ w m, mkWorld (w_now w) (w_session w) m (w_sts w) (w_jobs w) (w_pvcs w) (w_services w)
                        (w_ingresses w) (w_pods w) (w_podEvents w) (w_stsEvents w) (w_usage w)
  | KStatefulSet => λ w m, mkWorld (w_now w) (w_session w) (w_secrets w) m (w_jobs w) (w_pvcs w) (w_services w)
                        (w_ingresses w) (w_pods w) (w_podEvents w) (w_stsEvents w) (w_usage w)
  | KJob => λ w m, mkWorld (w_now w) (w_session w) (w_secrets w) (w_sts w) m (w_pvcs w) (w_services w)
                        (w_ingresses w) (w_pods w) (w_podEvents w) (w_stsEvents w) (w_usage w)
  | KPVC => λ w m, mkWorld (w_now w) (w_session w) (w_secrets w) (w_sts w) (w_jobs w) m (w_services w)
                        (w_ingresses w) (w_pods w) (w_podEvents w) (w_stsEvents w) (w_usage w)
  | KService => λ w m, mkWorld (w_now w) (w_session w) (w_secrets w) (w_sts w) (w_jobs w) (w_pvcs w) m
                        (w_ingresses w) (w_pods w) (w_podEvents w) (w_stsEvents w) (w_usage w)
  | KIngress => λ w m, mkWorld (w_now w) (w_session w) (w_secrets w) (w_sts w) (w_jobs w) (w_pvcs w) (w_services w)
                        m (w_pods w) (w_podEvents w) (w_stsEvents w) (w_usage w)
  end.

Definition with_session (w : World) (now : Time.t) (s : option AmaltheaSession.t) : World :=
  mkWorld now s (w_secrets w) (w_sts w) (w_jobs w) (w_pvcs w) (w_services w) (w_ingresses w) (w_pods w)
    (w_podEvents w) (w_stsEvents w) (w_usage w).

Definition kindName {T} (k : Kind T) : T → string :=
  match k in Kind T return T → string with
  | KIngress => λ o, ObjectMeta.Name (Ingress.Meta o)
  | KService => λ o, ObjectMeta.Name (Service.Meta o)
  | KStatefulSet => λ o, ObjectMeta.Name (StatefulSet.Meta o)
  | KPVC => λ o, ObjectMeta.Name (PersistentVolumeClaim.Meta o)
  | KSecret => λ o, ObjectMeta.Name (Secret.Meta o)
  | KJob => λ o, ObjectMeta.Name (Job.Meta o)
  end.

(** The server stamps the creation time and turns [stringData] into [data]. *)
Definition stamp (now : Time.t) (m : ObjectMeta.t) : ObjectMeta.t :=
  ObjectMeta.mk (ObjectMeta.Name m) (ObjectMeta.Namespace m) (ObjectMeta.Labels m) (ObjectMeta.Annotations m)
    (ObjectMeta.UID m)
    (if Time.IsZero (ObjectMeta.CreationTimestamp m) then now else ObjectMeta.CreationTimestamp m)
    (ObjectMeta.DeletionTimestamp m) (ObjectMeta.Finalizers m) (ObjectMeta.OwnerReferences m) (ObjectMeta.rest m).

Definition serverSecret (s : Secret.t) : Secret.t :=
  Secret.mk (Secret.Meta s) (Secret.StringData s ∪ Secret.Data s) ∅ (Secret.rest s).

Definition serverStore {T} (now : Time.t) (k : Kind T) : T → T :=
  match k in Kind T return T → T with
  | KIngress => λ o, Ingress.mk (stamp now (Ingress.Meta o)) (Ingress.Spec o) (Ingress.LoadBalancer o)
  | KService => λ o, Service.mk (stamp now (Service.Meta o)) (Service.Spec o) (Service.LoadBalancer o)
  | KStatefulSet => λ o, StatefulSet.mk (stamp now (StatefulSet.Meta o)) (StatefulSet.Spec o) (StatefulSet.Status o)
  | KPVC => λ o, PersistentVolumeClaim.mk (stamp now (PersistentVolumeClaim.Meta o))
                   (PersistentVolumeClaim.Spec o) (PersistentVolumeClaim.Status o)
  | KSecret => λ o, serverSecret (Secret.mk (stamp now (Secret.Meta o)) (Secret.Data o) (Secret.StringData o) (Secret.rest o))
  | KJob => λ o, Job.mk (stamp now (Job.Meta o)) (Job.Spec o) (Job.Status o)
  end.

Definition notFound {A} : Result A := inr (mkError "not found" true).
Definition found {A} (o : option A) : Result A := match o with Some a => inl a | None => notFound end.

Definition createOrPatchIn {T} (k : Kind T) (obj : T) (f : MutateFn T) (w : World)
    : (T * option StatusCallback * OperationResult * option GoError) * World :=
  let name := kindName k obj in
  let existing := store k w !! name in
  match f (default obj existing) with
  | (out, cb, Some err) => ((out, cb, OperationResultNone, Some err), w)
  | (out, cb, None) =>
      let out := serverStore (w_now w) k out in
      ((out, cb, if existing is Some _ then OperationResultUpdated else OperationResultCreated, None),
       with_store k w (<[name := out]> (store k w)))
  end.

Definition cluster : Handler Api World := λ R e w,
  match e in Api R return R * World with
  | Now => let now := Z.max 1 (w_now w) in (now, with_session w (now + 1)%Z (w_session w))
  | MakeULID => ("01J" +:+ pretty (w_now w), w)
  | RandRead n => (inl (String.concat "" (replicate n "r")), w)
  | GetSession ns name =>
      (found match w_session w with
             | Some cr => if (AmaltheaSession.Name cr =s name) && (AmaltheaSession.Namespace cr =s ns)
                          then Some cr else None
             | None => None end, w)
  | UpdateStatus cr => ((cr, None), with_session w (w_now w) (Some cr))
  | UpdateSession cr => ((cr, None), with_session w (w_now w) (Some cr))
  | DeleteSession cr => (None, with_session w (w_now w) None)
  | DeleteSecret s =>
      (if w_secrets w !! ObjectMeta.Name (Secret.Meta s) is Some _ then None else Some (mkError "not found" true),
       with_store KSecret w (delete (ObjectMeta.Name (Secret.Meta s)) (w_secrets w)))
  | DeleteIngress i =>
      (if w_ingresses w !! ObjectMeta.Name (Ingress.Meta i) is Some _ then None else Some (mkError "not found" true),
       with_store KIngress w (delete (ObjectMeta.Name (Ingress.Meta i)) (w_ingresses w)))
  | Api.GetPod ns name => (found (w_pods w !! name), w)
  | ListPods ns sel => (inl (map_to_list (w_pods w)).*2, w)
  | Api.GetJob ns name => (found (w_jobs w !! name), w)
  | GetIngress ns name => (found (w_ingresses w !! name), w)
  | ListEvents ns kind name => (inl (if kind =s "Pod" then w_podEvents w else w_stsEvents w), w)
  | ListPodMetrics ns name =>
      (match w_usage w with
       | Some u => inl [PodMetrics.mkPod [PodMetrics.mk SessionContainerName u]]
       | None => notFound end, w)
  | CreateOrPatch k obj f => createOrPatchIn k obj f w
  | SetGauge _ _ _ => (tt, w)
  | DeleteGauge _ _ => (tt, w)
  end.

(** ** The promises are kept *)

Lemma cluster_CreateOrPatch {T} (k : Kind T) obj f w ans w' :
  createOrPatchIn k obj f w = (ans, w') → CreateOrPatch_documented (λ _ _, True) obj f ans.
Proof.
  unfold createOrPatchIn, CreateOrPatch_documented.
  destruct (f (default obj (store k w !! kindName k obj))) as [[out cb] [err|]] eqn:Hf;
    intros; simplify_eq; right; (do 3 eexists; split; [exact Hf|]); [done|by left].
Qed.

Lemma cluster_clusterRely R (e : Api R) w r w' : cluster R e w = (r, w') → clusterRely e r.
Proof.
  destruct e; cbn; try done.
  - intros. simplify_eq. unfold Time.zero. lia.
  - intros. by simplify_eq.
  - by apply cluster_CreateOrPatch.
Qed.

Lemma cluster_protocolRely R (e : Api R) w r w' : cluster R e w = (r, w') → protocolRely e r.
Proof.
  intros He. pose proof (cluster_clusterRely _ _ _ _ _ He) as Hr.
  destruct e; try exact Hr; cbn in *; by simplify_eq/=.
Qed.

Lemma cluster_respects_protocol : respects protocol cluster.
Proof. intros R e w r w' g. apply cluster_protocolRely. Qed.

Lemma cluster_respects_cluster ok : respects (clusterMonitor ok) cluster.
Proof. intros R e w r w' g. apply cluster_clusterRely. Qed.

Lemma cluster_clockRuns : clockRuns cluster.
Proof. intros w t w' He. exact (cluster_clusterRely _ _ _ _ _ He). Qed.

(** ** Scenario data *)

Definition demoSession (name : string) : Session.t :=
  Session.mk "renku/session:1" "Always" [] [] [] (ResourceRequirements.mk ∅ ∅ NoRest) 8888
    (Storage.mk None None "/work") None "/work" 1000 1000 ("/sessions/" +:+ name) false [] TCP None.

Definition demoCulling : Culling.t :=
  Culling.mk 0%Z (3600 * Duration.Second)%Z 0%Z 0%Z (7200 * Duration.Second)%Z Time.zero (Quantity.MustParse "300").

Definition demoSpec (hibernated : bool) (auth : option Authentication.t) : AmaltheaSessionSpec.t :=
  AmaltheaSessionSpec.mk Local_ (demoSession "demo") [] [] auth demoCulling hibernated [] [] []
    (Some (SessionIngress.mk ∅ None "renku.io" None "/sessions/demo" false true)) ∅ None [] Always ""
    [] "" (TemplateMetadata.mk ∅ ∅) SessionTypeInteractive.

Definition demoMeta (deleted : option Time.t) (finalizers : list string) : ObjectMeta.t :=
  ObjectMeta.mk "demo" "ns" ∅ ∅ "uid-1" (Time.Unix 1700000000) deleted finalizers [] NoRest.

Definition demoAuth : Authentication.t :=
  Authentication.mk true OauthProxy (SessionSecretRef.mk "auth-secret" "config" true) [].

Definition demo (deleted : option Time.t) (finalizers : list string) (hibernated : bool)
    (status : AmaltheaSessionStatus.t) : AmaltheaSession.t :=
  AmaltheaSession.mk (demoMeta deleted finalizers) (demoSpec hibernated (Some demoAuth)) status.

Definition demoConfig : AmaltheaSessionConfiguration := mkConfiguration Kubernetes None.

Definition emptyWorld (cr : AmaltheaSession.t) : World :=
  mkWorld (Time.Unix 1700000100) (Some cr)
    {[ "auth-secret" := Secret.mk (newMeta "auth-secret" "ns" ∅ ∅) ∅ ∅ NoRest ]}
    ∅ ∅ ∅ ∅ ∅ ∅ [] [] None.

(** One pass on the session of the world. *)
Definition pass (w : World) : Outcome (CtrlResult * option GoError) * World :=
  run cluster (reconcileInner ∅ demoConfig "ns" "demo") w.

(** A new session: its children exist after the first pass, its secret is
    protected, and the next pass is requested at once. *)
Example first_pass :
  let '(r, w) := pass (emptyWorld (demo None [] false initialStatus)) in
  (match r with Done (res, None) => Requeue res | _ => false end,
   option_map (λ s, StatefulSetSpec.Replicas (StatefulSet.Spec s)) (w_sts w !! "demo"),
   option_map (λ cr, (ObjectMeta.Finalizers (AmaltheaSession.Meta cr),
                      AmaltheaSessionStatus.State_ (AmaltheaSession.Status cr),
                      AmaltheaSessionStatus.URL (AmaltheaSession.Status cr))) (w_session w)) =
  (true, Some (Some 1%Z),
   Some ([secretCleanupFinalizerName], NotReady, "https://renku.io/sessions/demo/")).
Proof. vm_compute. reflexivity. Qed.

(** Deletion: the adopted secret is deleted, then the finalizer goes. *)
Example deletion_pass :
  let '(r, w) := pass (emptyWorld (demo (Some (Time.Unix 1700000050)) [secretCleanupFinalizerName]
                                        false initialStatus)) in
  (w_secrets w !! "auth-secret",
   option_map (λ cr, ObjectMeta.Finalizers (AmaltheaSession.Meta cr)) (w_session w)) = (None, Some []).
Proof. vm_compute. reflexivity. Qed.
