(* ===== verification/BuilderProps.v ===== *)
(** * Properties of the desired children

    Names, labels, volumes and ports of the generated objects fit together. *)

From S2P Require Import Prelude Prog NetUrl K8s Types Api Names Templates Config Children Routing.
From S2P Require Import Lifecycle PodStatus.

(** ** Data sources *)

Lemma app_inj_l (p s t : string) : p +:+ s = p +:+ t → s = t.
Proof. induction p as [|c p IH]; [done|]. rewrite !Strings.app_cons. intros [= H]. auto. Qed.

Lemma dataSourcePVCName_inj cr i j : dataSourcePVCName cr i = dataSourcePVCName cr j → i = j.
Proof.
  unfold dataSourcePVCName. intros H. do 3 apply app_inj_l in H. by apply (inj pretty) in H.
Qed.

(** The name of the claim a volume mounts. *)
Definition claimOf (v : Volume.t) : option string :=
  PVCVolumeSource.ClaimName <$> VolumeSource.PersistentVolumeClaim (Volume.Source v).

Definition pvcName (p : PersistentVolumeClaim.t) : string := ObjectMeta.Name (PersistentVolumeClaim.Meta p).

(** The indices of the rclone data sources, counted from [ids]. *)
Fixpoint rcloneIds (ids : nat) (l : list DataSource.t) : list nat :=
  match l with
  | [] => []
  | ds :: l' => (if DataSource.Type_ ds =s Rclone then [ids] else []) ++ rcloneIds (S ids) l'
  end.

Lemma rcloneIds_ge ids l i : i ∈ rcloneIds ids l → (ids ≤ i)%nat.
Proof.
  revert ids. induction l as [|ds l IH]; intros ids; cbn; [by intros ?%not_elem_of_nil|].
  rewrite elem_of_app. intros [Hi|Hi]; [|specialize (IH _ Hi); lia].
  case_match; [apply list_elem_of_singleton in Hi; lia|by apply not_elem_of_nil in Hi].
Qed.

Lemma rcloneIds_NoDup ids l : NoDup (rcloneIds ids l).
Proof.
  revert ids. induction l as [|ds l IH]; intros ids; cbn; [constructor|].
  destruct (_ =s _); cbn; [|apply IH]. constructor; [|apply IH].
  intros Hi%rcloneIds_ge. lia.
Qed.

Lemma dataSources_loop_names env cr ids l pvcs vols mounts :
  dataSources_loop env cr ids l = Done (pvcs, vols, mounts) →
  pvcName <$> pvcs = dataSourcePVCName cr <$> rcloneIds ids l ∧
  Volume.Name <$> vols = dataSourcePVCName cr <$> rcloneIds ids l ∧
  VolumeMount.Name <$> mounts = dataSourcePVCName cr <$> rcloneIds ids l ∧
  claimOf <$> vols = Some <$> (pvcName <$> pvcs) ∧
  VolumeMount.MountPath <$> mounts =
    DataSource.MountPath <$> List.filter (λ ds, DataSource.Type_ ds =s Rclone) l.
Proof.
  revert ids pvcs vols mounts. induction l as [|ds l IH]; intros ids pvcs vols mounts; cbn.
  - intros H. by inversion H.
  - destruct (_ =s Rclone); [|apply IH].
    unfold dataSourcePVC. destruct (DataSource.SecretRef ds) as [ref|]; cbn; [|by intros H; inversion H].
    destruct (dataSources_loop env cr (S ids) l) as [[[ps vs] ms]|] eqn:El; cbn; [|by intros H; inversion H].
    intros H. inversion H; subst. destruct (IH _ _ _ _ El) as (H1 & H2 & H3 & H4 & H5).
    rewrite !fmap_cons, H1, H2, H3, H4, H5. by rewrite H1.
Qed.

(** ** Volumes of the pod *)

Definition mountsIn (vols : list Volume.t) (ms : list VolumeMount.t) : Prop :=
  Forall (λ m, VolumeMount.Name m ∈ (Volume.Name <$> vols)) ms.

Definition containerMountsIn (vols : list Volume.t) (cs : list Container.t) : Prop :=
  Forall (λ c, mountsIn vols (Container.VolumeMounts c)) cs.

Lemma mountsIn_mono vols vols' ms : mountsIn vols ms → vols ⊆ vols' → mountsIn vols' ms.
Proof.
  unfold mountsIn. intros H Hsub. revert H. apply Forall_impl. intros m.
  rewrite !list_elem_of_fmap. intros (v & -> & Hv). exists v. auto.
Qed.

Lemma containerMountsIn_mono vols vols' cs :
  containerMountsIn vols cs → vols ⊆ vols' → containerMountsIn vols' cs.
Proof.
  intros H Hsub. revert H. apply Forall_impl. intros c Hc. by eapply mountsIn_mono.
Qed.

Lemma mountsIn_app vols ms1 ms2 : mountsIn vols (ms1 ++ ms2) ↔ mountsIn vols ms1 ∧ mountsIn vols ms2.
Proof. apply Forall_app. Qed.

Lemma SessionVolumes_mounts cr : mountsIn (SessionVolumes cr).1 (SessionVolumes cr).2.
Proof.
  unfold SessionVolumes, mountsIn. destruct (Session.ShmSize _); cbn; repeat constructor; set_solver.
Qed.

Lemma DataSources_mounts env cr pvcs vols mounts :
  DataSources env cr = Done (pvcs, vols, mounts) → mountsIn vols mounts.
Proof.
  unfold DataSources. case_match; [intros H'; inversion H'; constructor|].
  intros (_ & Hv & Hm & _)%dataSources_loop_names. unfold mountsIn.
  rewrite Hv, <- Hm. apply list.Forall_forall. intros m ?. apply list_elem_of_fmap. eauto.
Qed.

Lemma cloneInit_loop_mounts env session sv irepo repos volMounts vols containers :
  mountsIn (sv ++ vols) volMounts → containerMountsIn (sv ++ vols) containers →
  let m := CodeRepoTemplates.cloneInit_loop env session irepo repos volMounts vols containers in
  containerMountsIn (sv ++ manifests_Volumes m) (manifests_Containers m).
Proof.
  revert irepo volMounts vols containers.
  induction repos as [|repo repos IH]; intros irepo volMounts vols containers Hm Hc; [done|].
  cbn. destruct (CodeRepository.CloningConfigSecretRef repo) as [ref|]; cbn; apply IH; try done.
  - apply mountsIn_app. split; [eapply mountsIn_mono; [done|]; set_solver|].
    repeat constructor. rewrite !fmap_app. set_solver.
  - apply Forall_app. split; [eapply containerMountsIn_mono; [done|]; set_solver|].
    repeat constructor. cbn. apply mountsIn_app.
    split; [eapply mountsIn_mono; [done|]; set_solver|].
    repeat constructor. rewrite !fmap_app. set_solver.
  - apply Forall_app. split; [done|]. by repeat constructor.
Qed.

Lemma cloneInit_mounts env cr :
  containerMountsIn ((SessionVolumes cr).1 ++ manifests_Volumes (CodeRepoTemplates.cloneInit env cr))
    (manifests_Containers (CodeRepoTemplates.cloneInit env cr)).
Proof.
  apply cloneInit_loop_mounts; [|constructor]. repeat constructor.
  unfold SessionVolumes. destruct (Session.ShmSize _); cbn; set_solver.
Qed.

(** The mounts the user adds refer to the volumes the user adds. *)
Definition extraMountsOk (cr : AmaltheaSession.t) : Prop :=
  let spec := AmaltheaSession.Spec cr in
  let vols := AmaltheaSessionSpec.ExtraVolumes spec in
  mountsIn vols (Session.ExtraVolumeMounts (Spec_Session cr)) ∧
  match AmaltheaSessionSpec.Authentication_ spec with
  | Some auth => mountsIn vols (Authentication.ExtraVolumeMounts auth)
  | None => True
  end ∧
  containerMountsIn vols (AmaltheaSessionSpec.ExtraContainers spec) ∧
  containerMountsIn vols (AmaltheaSessionSpec.ExtraInitContainers spec).

Lemma auth_mounts env cr m :
  extraMountsOk cr → AuthTemplates.auth env cr = inl m →
  containerMountsIn (AmaltheaSessionSpec.ExtraVolumes (AmaltheaSession.Spec cr) ++ manifests_Volumes m)
    (manifests_Containers m).
Proof.
  intros (_ & Ha & _). unfold AuthTemplates.auth.
  destruct (AmaltheaSessionSpec.Authentication_ _) as [auth|]; [|intros; simplify_eq; constructor].
  assert (Hx : ∀ vs, mountsIn (AmaltheaSessionSpec.ExtraVolumes (AmaltheaSession.Spec cr) ++ vs)
                       (Authentication.ExtraVolumeMounts auth)).
  { intros vs. eapply mountsIn_mono; [done|]. set_solver. }
  repeat case_if; intros; simplify_eq; cbn; repeat constructor; try apply Hx; cbn;
    rewrite ?fmap_app; set_solver.
Qed.

Lemma sessionContainer_mounts env `{QuantityOps} cr ms cfg :
  Container.VolumeMounts (sessionContainer env cr ms cfg) = ms.
Proof. unfold sessionContainer. by case_if. Qed.

Lemma Pod_mounts env `{QuantityOps} cr cfg pod :
  extraMountsOk cr → Pod env cr cfg = Done (inl pod) →
  containerMountsIn (PodSpec.Volumes pod) (PodSpec.Containers pod) ∧
  containerMountsIn (PodSpec.Volumes pod) (PodSpec.InitContainers pod).
Proof.
  intros Hx. unfold Pod. rewrite Outcome_bind_Done. intros ([[pvcs dsv] dsm] & Hds & Hpod).
  pose proof (SessionVolumes_mounts cr) as Hsv. pose proof (cloneInit_mounts env cr) as Hci.
  pose proof Hx as (Hsm & _ & Hec & Hei). pose proof (DataSources_mounts _ _ _ _ _ Hds) as Hdm.
  destruct (SessionVolumes cr) as [sv sm] eqn:Esv. cbn in Hsv, Hci.
  assert (Hauth : ∀ a, (if AmaltheaSessionSpec.SessionType_ (AmaltheaSession.Spec cr) ≠s SessionTypeNonInteractive
                        then AuthTemplates.auth env cr else inl (mkManifests [] [])) = inl a →
     containerMountsIn (AmaltheaSessionSpec.ExtraVolumes (AmaltheaSession.Spec cr) ++ manifests_Volumes a)
       (manifests_Containers a)).
  { intros a. case_if; [by apply auth_mounts|]. intros; simplify_eq. constructor. }
  destruct (if AmaltheaSessionSpec.SessionType_ _ ≠s _ then _ else _) as [a|err]; [|by inversion Hpod].
  specialize (Hauth a eq_refl). inversion Hpod; subst; clear Hpod. cbn.
  set (ci := CodeRepoTemplates.cloneInit env cr) in *.
  set (ev := AmaltheaSessionSpec.ExtraVolumes _) in *.
  split.
  - constructor.
    + rewrite sessionContainer_mounts. apply mountsIn_app. split; [eapply mountsIn_mono; [done|]; set_solver|].
      apply mountsIn_app. split; (eapply mountsIn_mono; [done|]); set_solver.
    + apply Forall_app. split; [eapply containerMountsIn_mono; [done|]; set_solver|].
      apply Forall_app. split; [case_if; by repeat constructor|].
      eapply containerMountsIn_mono; [done|]. set_solver.
  - apply Forall_app. split; (eapply containerMountsIn_mono; [done|]); set_solver.
Qed.

(** ** Ports: from the service to the session *)

(** The container accepts HTTP on the port. *)
Definition listens (c : Container.t) (port : Z) : Prop :=
  "--http-address=:" +:+ pretty port ∈ Container.Args c ∨
  envVar "AUTHPROXY_PORT" (pretty port) ∈ Container.Env c.

(** The container proxies what it accepts to the port of the pod. *)
Definition forwards (c : Container.t) (port : Z) : Prop :=
  "--upstream=" +:+ "http://127.0.0.1:" +:+ pretty port ∈ Container.Args c ∨
  envVar "AUTHPROXY_REMOTE" ("http://127.0.0.1:" +:+ pretty port) ∈ Container.Env c.

(** A chain of proxies leads from a port to another. *)
Inductive route (cs : list Container.t) : Z → Z → Prop :=
| route_here p : route cs p p
| route_via c p mid q : c ∈ cs → listens c p → forwards c mid → route cs mid q → route cs p q.

Lemma auth_route env cr m :
  (∀ auth, AmaltheaSessionSpec.Authentication_ (AmaltheaSession.Spec cr) = Some auth →
           Authentication.Type_ auth ≠ Oidc) →
  AuthTemplates.auth env cr = inl m →
  route (manifests_Containers m) (targetPort cr) (Session.Port (Spec_Session cr)).
Proof.
  unfold AuthTemplates.auth, targetPort.
  destruct (AmaltheaSessionSpec.Authentication_ _) as [auth|]; [|intros; constructor].
  intros Hty. specialize (Hty auth eq_refl). destruct (Authentication.Enabled auth); cbn; [|intros; constructor].
  case_if; [done|]. case_if; [|case_if; [case_if; [done|]|case_if; [by bool_simpl|done]]].
  - intros; simplify_eq. cbn [AuthTemplates.auth_OauthProxy manifests_Containers].
    eapply route_via with (mid := secondProxyPort); [apply list_elem_of_here|left|left|]; [cbn; set_solver..|].
    eapply route_via; [apply list_elem_of_further, list_elem_of_here| | |apply route_here];
      right; cbn; set_solver.
  - intros; simplify_eq. eapply route_via; [apply list_elem_of_here| | |apply route_here];
      right; cbn; set_solver.
Qed.

(** ** Labels *)

Lemma StatefulSet_labels env `{QuantityOps} cr cfg sts :
  StatefulSet env cr cfg = Done (inl sts) →
  StatefulSetSpec.Selector (StatefulSet.Spec sts) = Some (selectorLabels (AmaltheaSession.Name cr)) ∧
  ObjectMeta.Labels (PodTemplateSpec.Meta (StatefulSetSpec.Template (StatefulSet.Spec sts))) = childLabels cr ∧
  ObjectMeta.Annotations (PodTemplateSpec.Meta (StatefulSetSpec.Template (StatefulSet.Spec sts))) =
    runAnnotations cr ∧
  ObjectMeta.Name (StatefulSet.Meta sts) = AmaltheaSession.Name cr.
Proof.
  unfold StatefulSet. rewrite Outcome_bind_Done. intros ([pod|err] & _ & Hs); by inversion Hs.
Qed.

(** ** Adopted secrets *)

(** The references of a session to secrets, by name, with their adoption flag. *)
Definition secretRefs (cr : AmaltheaSession.t) : list (string * bool) :=
  let spec := AmaltheaSession.Spec cr in
  let ref (r : option SessionSecretRef.t) :=
    match r with Some r => [(SessionSecretRef.Name r, SessionSecretRef.Adopt r)] | None => [] end in
  let keyRef (r : option SessionSecretKeyRef.t) :=
    match r with Some r => [(SessionSecretKeyRef.Name r, SessionSecretKeyRef.Adopt r)] | None => [] end in
  match Spec_Ingress cr with Some ing => ref (SessionIngress.TLSSecret ing) | None => [] end ++
  match AmaltheaSessionSpec.Authentication_ spec with
  | Some auth => if Authentication.Enabled auth then ref (Some (Authentication.SecretRef auth)) else []
  | None => [] end ++
  ref (Session.RemoteSecretRef (Spec_Session cr)) ++
  (AmaltheaSessionSpec.DataSources spec ≫= λ ds, ref (DataSource.SecretRef ds)) ++
  (AmaltheaSessionSpec.CodeRepositories spec ≫= λ r,
     keyRef (CodeRepository.CloningConfigSecretRef r) ++ keyRef (CodeRepository.ConfigSecretRef r)) ++
  (AmaltheaSessionSpec.ImagePullSecrets spec ≫= λ r, ref (Some r)).

(** Which of them name a secret the session owns. *)
Definition owned (r : string * bool) : bool := (r.1 ≠s "") && r.2.

Lemma adoptedRef_spec cr r :
  adoptedRef cr r =
  (λ x, secretNamed cr x.1) <$>
    List.filter owned (match r with Some r => [(SessionSecretRef.Name r, SessionSecretRef.Adopt r)] | None => [] end).
Proof.
  destruct r as [r|]; [|done]. unfold adoptedRef, SessionSecretRef.isAdopted, owned. cbn.
  by destruct (negb _ && _).
Qed.

Lemma adoptedKeyRef_spec cr r :
  adoptedKeyRef cr r =
  (λ x, secretNamed cr x.1) <$>
    List.filter owned (match r with Some r => [(SessionSecretKeyRef.Name r, SessionSecretKeyRef.Adopt r)] | None => [] end).
Proof.
  destruct r as [r|]; [|done]. unfold adoptedKeyRef, SessionSecretKeyRef.isAdopted, owned. cbn.
  by destruct (negb _ && _).
Qed.

Lemma filter_bind {A B} (p : B → bool) (f : A → list B) l :
  List.filter p (l ≫= f) = l ≫= λ a, List.filter p (f a).
Proof. induction l as [|a l IH]; [done|]. cbn. rewrite List.filter_app. by f_equal. Qed.

Lemma fmap_bind {A B C} (g : B → C) (f : A → list B) l :
  g <$> (l ≫= f) = l ≫= λ a, g <$> f a.
Proof. induction l as [|a l IH]; [done|]. cbn. rewrite fmap_app. by f_equal. Qed.

(** The adopted secrets are the owned references, in order. *)
Lemma AdoptedSecrets_refs cr :
  AdoptedSecrets cr = (λ x, secretNamed cr x.1) <$> List.filter owned (secretRefs cr).
Proof.
  unfold AdoptedSecrets, secretRefs.
  rewrite !List.filter_app, !fmap_app, !filter_bind, !fmap_bind, !adoptedRef_spec.
  f_equal; [destruct (AmaltheaSessionSpec.Ingress_ _); [apply adoptedRef_spec|done]|].
  f_equal; [destruct (AmaltheaSessionSpec.Authentication_ _) as [a|]; [|done];
            destruct (Authentication.Enabled a); [apply adoptedRef_spec|done]|].
  f_equal. f_equal; [apply list_bind_ext; [|done]; intros; apply adoptedRef_spec|].
  f_equal; apply list_bind_ext; try done; intros x; rewrite ?List.filter_app, ?fmap_app.
  - f_equal; apply adoptedKeyRef_spec.
  - apply adoptedRef_spec.
Qed.
