(* ===== verification/Scaling.v ===== *)
(** * The workload is scaled before the status is published

    The ghost state of this monitor is the replica count of the stateful set
    as the API server last returned it. *)

From S2P Require Import Prelude Prog NetUrl K8s Types Api Names Templates Config Children Routing.
From S2P Require Import Lifecycle PodStatus Cull Reconcile ChildSet SessionStatus Metrics Controller.
From S2P Require Import StatusProps ReconcileProps ControllerProps.

(** The server stores the replica count it is given. *)
Definition keepsReplicas {T} (k : Kind T) : T → T → Prop :=
  match k in Kind T return T → T → Prop with
  | KStatefulSet => λ written stored,
      StatefulSetSpec.Replicas (StatefulSet.Spec stored) = StatefulSetSpec.Replicas (StatefulSet.Spec written)
  | _ => λ _ _, True
  end.

Definition scaleRely {R} (e : Api R) : R → Prop :=
  match e in Api R return R → Prop with
  | CreateOrPatch k obj f => CreateOrPatch_documented (keepsReplicas k) obj f
  | e => clusterRely e
  end.

(** The replicas of the stateful set, when the answer is one for it. *)
Definition answeredReplicas {T} (k : Kind T) : T → option (option Z) :=
  match k in Kind T return T → option (option Z) with
  | KStatefulSet => λ out, Some (StatefulSetSpec.Replicas (StatefulSet.Spec out))
  | _ => λ _, None
  end.

Definition scaleNext {R} (e : Api R) : R → option (option Z) → option (option Z) :=
  match e in Api R return R → option (option Z) → option (option Z) with
  | CreateOrPatch k obj f => λ '(out, _, _, err) s,
      match err with
      | None => match answeredReplicas k out with Some r => Some r | None => s end
      | Some _ => s
      end
  | _ => λ _ s, s
  end.

Definition scaleAllowed (cr : AmaltheaSession.t) {R} (e : Api R) (s : option (option Z)) : Prop :=
  match e with
  | UpdateStatus _ => s = Some (Some (wantedReplicas cr))
  | _ => True
  end.

Definition scaleMonitor (cr : AmaltheaSession.t) : Monitor Api (option (option Z)) :=
  {| allowed R e s := scaleAllowed cr e s; rely R e _ r := scaleRely e r;
     next R e r s := scaleNext e r s; panic_ok _ := True |}.

(** Calls that leave the stateful set alone. *)
Definition notScaling {R} (e : Api R) : Prop :=
  match e with
  | UpdateStatus _ => False
  | CreateOrPatch k _ _ => match k with KStatefulSet => False | _ => True end
  | _ => True
  end.

Lemma CreateOrPatch_documented_weaken {T} (server server' : T → T → Prop) obj f ans :
  (∀ a b, server a b → server' a b) →
  CreateOrPatch_documented server obj f ans → CreateOrPatch_documented server' obj f ans.
Proof.
  intros Hs. destruct ans as [[[out cb] res] err]. intros [?|(base & m & merr & Hf & Hm)]; [by left|right].
  exists base, m, merr. split; [done|]. destruct merr; [done|]. destruct Hm as [?|?]; auto.
Qed.

Lemma scaleRely_cluster {R} (e : Api R) r : scaleRely e r → clusterRely e r.
Proof. destruct e; try done. by apply CreateOrPatch_documented_weaken. Qed.

Lemma sim_scale (ok : ∀ R, Api R → Prop) cr s0 :
  (∀ R (e : Api R), ok R e → notScaling e) →
  monitorSim (clusterMonitor ok) (scaleMonitor cr) (λ _ s, s = s0).
Proof.
  intros Hok. split; [|done]. intros T e s1 s2 -> He%Hok. split; [by destruct e|]. intros r Hr.
  split; [by apply scaleRely_cluster|]. destruct e; try done. cbn in *.
  destruct k; try done; by destruct r as [[[? ?] ?] [?|]].
Qed.

Lemma sim_scale_read cr s0 : monitorSim readMonitor (scaleMonitor cr) (λ _ s, s = s0).
Proof.
  split; [|done]. intros T e s1 s2 -> He. split; [by destruct e|]. intros r Hr.
  apply scaleRely_cluster in Hr. by destruct e.
Qed.

Lemma wp_scale {A} (M0 : Monitor Api unit) cr (p : M A) (P : A → Prop) s :
  monitorSim M0 (scaleMonitor cr) (λ _ s', s' = s) → wp M0 p (λ a _, P a) tt →
  wp (scaleMonitor cr) p (λ a s', s' = s ∧ P a) s.
Proof. intros Hsim Hwp. eapply wp_mono; [by eapply wp_sim|]. by intros a s' (? & -> & ?). Qed.

Section Scaling.
Context `{ControllerUtil} (cr : AmaltheaSession.t).

(** Whatever the strategy and the state of the object, the replica count
    written is the desired one. *)
Lemma mutate_StatefulSet_replicas desired base out cb err :
  mutate_StatefulSet cr desired base = (out, cb, err) →
  StatefulSetSpec.Replicas (StatefulSet.Spec out) = StatefulSetSpec.Replicas (StatefulSet.Spec desired).
Proof.
  unfold mutate_StatefulSet. destruct (negb _); [destruct (SetControllerReference _ _)|];
    [|destruct (reconcileDecision cr)]; intros Hm; by inversion Hm.
Qed.

Lemma reconcile_StatefulSet_scales (c : ChildResource StatefulSet.t) s :
  StatefulSetSpec.Replicas (StatefulSet.Spec (Desired c)) = Some (wantedReplicas cr) →
  wp (scaleMonitor cr) (reconcile_StatefulSet cr (Some c))
    (λ u s', Error u = None → s' = Some (Some (wantedReplicas cr))) s.
Proof.
  intros Hd. cbn. split; [done|]. intros [[[out cb] res] [err|]] Hdoc; cbn; [done|]. intros _. f_equal.
  destruct Hdoc as [(_ & _ & [? ?])|(base & m & merr & Hf & Hm)]; [done|].
  apply mutate_StatefulSet_replicas in Hf. destruct merr as [?|]; [by destruct Hm as (? & ? & ?)|].
  destruct Hm as [Hk|[_ [? ?]]]; [|done]. cbn in Hk. congruence.
Qed.

Lemma combineErrors_sts c : combineErrors c = Done None → Error (ChildResourceUpdates.StatefulSet c) = None.
Proof.
  unfold combineErrors. rewrite Outcome_bind_Done. intros (m & Hm & Hn).
  destruct (Error (ChildResourceUpdates.StatefulSet c)) as [e|] eqn:He; [exfalso|done].
  assert (Hin : is_Some (m !! "StatefulSet")).
  { assert (Hn0 : is_Some (namedErrors c !! "StatefulSet")).
    { unfold namedErrors. rewrite He.
      destruct (Error (ChildResourceUpdates.Ingress c)), (Error (ChildResourceUpdates.Service c)),
        (Error (ChildResourceUpdates.PVC c)), (Error (ChildResourceUpdates.Secret c));
        (eexists; vm_compute; reflexivity). }
    revert Hn0 Hm. generalize (namedErrors c). clear.
    induction (ChildResourceUpdates.DataSourcesPVCs c) as [|u l IH]; intros errs Hn0; cbn.
    - intros Hm. by inversion Hm; subst.
    - destruct (Error u) as [e|]; [|by apply IH]. destruct (Manifest u) as [p|]; cbn; [|by intros Hm; inversion Hm].
      apply IH. apply lookup_insert_is_Some'. by right. }
  destruct Hin as [e' He']. apply elem_of_map_to_list in He'.
  destruct (map_to_list m) as [|[k x] l] eqn:Em; [by apply not_elem_of_nil in He'|]. by inversion Hn.
Qed.

(** The reconciliation of the children other than the stateful set. *)
Lemma reconcile_rest_wp {T} (k : Kind T) (mutate : T → MutateFn T) c s :
  match k with KStatefulSet => False | _ => True end →
  wp (scaleMonitor cr) (reconcile_with k mutate c) (λ _ s', s' = s) s.
Proof.
  intros Hk. destruct c as [c|]; [|done]. cbn. split; [done|]. intros [[[out cb] res] err] _. cbn.
  by destruct k, err.
Qed.

Lemma reconcile_Ingress_scale c s :
  wp (scaleMonitor cr) (reconcile_Ingress cr c) (λ _ s', s' = s) s.
Proof.
  destruct c as [c|]; [|done]. unfold reconcile_Ingress. case_if; cbn.
  - split; [done|]. intros err _. by destruct (IsNotFound err).
  - split; [done|]. intros [[[out cb] res] err] _. by destruct err.
Qed.

Lemma reconcile_PVCs_scale l s :
  wp (scaleMonitor cr) (reconcile_PVCs cr l) (λ _ s', s' = s) s.
Proof.
  induction l as [|c l IH]; cbn [reconcile_PVCs]; [done|].
  eapply wp_bind_intro; [by apply (reconcile_rest_wp KPVC)|]. intros u s1 ->.
  eapply wp_bind_intro; [apply IH|]. by intros us s2 ->.
Qed.

Lemma ChildResources_Reconcile_scales (c : ChildResources.t) sts s :
  ChildResources.StatefulSet c = Some sts →
  StatefulSetSpec.Replicas (StatefulSet.Spec (Desired sts)) = Some (wantedReplicas cr) →
  wp (scaleMonitor cr) (ChildResources_Reconcile c cr)
    (λ r s', r.2 = None → s' = Some (Some (wantedReplicas cr))) s.
Proof.
  intros Hc Hd. unfold ChildResources_Reconcile. rewrite Hc.
  eapply wp_bind_intro; [by apply reconcile_StatefulSet_scales|]. intros u s0 Hu.
  eapply wp_bind_intro; [by apply reconcile_rest_wp|]. intros pvc s1 ->.
  eapply wp_bind_intro; [by apply reconcile_rest_wp|]. intros svc s1 ->.
  eapply wp_bind_intro; [apply reconcile_Ingress_scale|]. intros ing s1 ->.
  eapply wp_bind_intro; [by apply reconcile_rest_wp|]. intros sec s1 ->.
  eapply wp_bind_intro; [by apply reconcile_rest_wp|]. intros job s1 ->.
  eapply wp_bind_intro; [apply reconcile_PVCs_scale|]. intros dss s1 ->.
  apply wp_bind. apply wp_lift; [done|]. intros err Herr. cbn. intros ->.
  apply Hu. exact (combineErrors_sts _ Herr).
Qed.

End Scaling.

Section Published.
Context (env : Env) `{QuantityOps} `{ControllerUtil} `{YamlLib} (cfg : AmaltheaSessionConfiguration).
Context (cr : AmaltheaSession.t).

Lemma NewChildResources_interactive cr' :
  AmaltheaSessionSpec.SessionType_ (AmaltheaSession.Spec cr') ≠ SessionTypeNonInteractive →
  wp (clusterMonitor (@neutral)) (NewChildResources env cr' cfg)
    (λ r _, match r with
            | inl c => ∃ sts, ChildResources.StatefulSet c = Some sts ∧
                StatefulSetSpec.Replicas (StatefulSet.Spec (Desired sts)) = Some (wantedReplicas cr')
            | inr _ => True
            end) tt.
Proof.
  intros Ht%String.eqb_neq. unfold NewChildResources. rewrite Ht. unfold NewInteractiveChildResources.
  eapply wp_bind_intro with (P := λ r _, Children.StatefulSet env cr' cfg = Done r);
    [by apply wp_lift; [done|by intros ? ->]|].
  intros [sts|err] [] Hsts; [|done].
  eapply wp_bind_intro; [eapply wp_weaken; [apply sim_preparing|apply Secret_prepares]|]. intros sec [] _.
  eapply wp_bind_intro with (P := λ _ _, True); [by apply wp_lift|]. intros [[? ?] ?] [] _. cbn.
  eexists. split; [done|]. by eapply StatefulSet_replicas.
Qed.

Lemma afterPublish_scale cr' changed s :
  wp (scaleMonitor cr) (afterPublish cr' changed) (λ _ _, True) s.
Proof.
  unfold afterPublish.
  eapply wp_bind_intro; [eapply wp_scale; [|apply RecordMetrics_wp]; apply sim_scale; by intros R []|].
  intros _ s1 [-> _]. cbn -[RemoveAmaltheaSessionMetrics updateHibernationState].
  split; [done|]. intros now _. case_if.
  - eapply wp_bind_intro; [eapply wp_scale with (P := λ _, True); [|apply removeGauges_wp];
      apply sim_scale; by intros R []|].
    intros _ s2 [-> _]. by cbn.
  - eapply wp_bind_intro; [eapply wp_scale with (P := λ _, True); [|apply updateHibernationState_calls];
      apply sim_scale; by intros R []|].
    by intros [? [err|]] s2 _.
Qed.

(** C23: A pass on an interactive session publishes a status only after the
    API server confirmed the stateful set with the replica count the session
    asks for: zero when it is to be hibernated, one otherwise. *)
Theorem scaled_before_published ns name :
  AmaltheaSessionSpec.SessionType_ (AmaltheaSession.Spec cr) ≠ SessionTypeNonInteractive →
  wp (scaleMonitor cr) (reconcileLive env cfg ns name cr) (λ _ _, True) None.
Proof.
  intros Ht. unfold reconcileLive.
  eapply wp_bind_intro; [eapply wp_scale; [|apply chooseRunID_wp]; apply sim_scale; by intros R []|].
  intros runID s [-> _]. set (cr1 := AmaltheaSession.with_Status cr _).
  eapply wp_bind_intro; [eapply wp_scale; [|by apply (NewChildResources_interactive cr1)];
    apply sim_scale; by intros R []|].
  intros [c|err] s1 [-> Hc]; [|done]. destruct Hc as (sts & Hsts & Hr).
  eapply wp_bind_intro; [exact (ChildResources_Reconcile_scales cr1 c sts None Hsts Hr)|].
  intros [updates [err|]] s2 Hs2; [done|]. specialize (Hs2 eq_refl). subst s2.
  eapply wp_bind_intro; [eapply wp_scale; [apply sim_scale_read|apply Status_wp]|].
  intros newStatus s3 [-> _].
  cbn -[afterPublish]. split; [done|]. intros [cr2 [err|]] _; cbn -[afterPublish]; [|apply afterPublish_scale].
  split; [done|]. intros [fresh|err2] _; cbn -[afterPublish]; [|done]. split; [done|].
  intros [cr3 [err3|]] _; cbn -[afterPublish]; [done|apply afterPublish_scale].
Qed.
End Published.
