(* ===== verification/ControllerTheorems.v ===== *)
(** * Theorems on the reconcile loop

    Safety of one pass of [reconcileInner], call by call, the statuses it
    publishes, and that it asks to be run again.  [only A] reads: every call of
    the pass satisfies [A], for all answers the environment may give under the
    promises of [protocolRely]. *)

From S2P Require Import Prelude Prog NetUrl K8s Types Api Names Templates Config Children Routing.
From S2P Require Import Lifecycle PodStatus Cull Reconcile ChildSet SessionStatus Metrics Controller.
From S2P Require Import StatusProps ReconcileProps ControllerProps Cluster Scaling.

(** The protocol with another obligation on the calls. *)
Definition only (A : ∀ R, Api R → Ghost → Prop) : Monitor Api Ghost :=
  {| allowed R e g := A R e g; rely R e _ r := protocolRely e r;
     next R e r g := ghostNext e r g; panic_ok _ := True |}.

Lemma wp_only {B} (A : ∀ R, Api R → Ghost → Prop) (p : M B) (Q : B → Ghost → Prop) g :
  (∀ R (e : Api R) g, protocolAllowed e g → A R e g) → wp protocol p Q g → wp (only A) p Q g.
Proof.
  intros HA Hwp. eapply wp_mono.
  - eapply wp_sim with (M1 := protocol) (R := eq); [|done|exact Hwp].
    split; [|done]. intros T e s1 s2 <- He. split; [by apply HA|]. done.
  - by intros b g' (? & -> & ?).
Qed.

(** The obligation of an aspect of the protocol. *)
Definition releaseSafe {R} (e : Api R) (g : Ghost) : Prop :=
  match e with
  | UpdateSession cr' =>
      ∃ cr, g_session g = Some cr ∧
        (ContainsFinalizer cr secretCleanupFinalizerName = true →
         ContainsFinalizer cr' secretCleanupFinalizerName = false →
         firstWas true g ∧ Forall (λ s, s ∈ g_gone g) (AdoptedSecrets cr))
  | _ => True
  end.

Definition childSafe {R} (e : Api R) (g : Ghost) : Prop :=
  match e with
  | CreateOrPatch _ _ _ | DeleteIngress _ => mayReconcileChild g
  | _ => True
  end.

Definition deletionSafe {R} (e : Api R) (g : Ghost) : Prop :=
  match e with
  | DeleteSession cr => firstWas false g ∧ g_session g = Some cr ∧ NeedsDeletion (g_now g) cr = true
  | DeleteSecret s => mayDeleteSecret s g
  | _ => True
  end.

(** Everything but the finalizers and the hibernation flag is left alone. *)
Definition specSafe {R} (e : Api R) (g : Ghost) : Prop :=
  match e with
  | UpdateSession cr' =>
      ∃ cr, g_session g = Some cr ∧
        AmaltheaSession.Status cr' = AmaltheaSession.Status cr ∧
        (AmaltheaSession.Spec cr' = AmaltheaSession.Spec cr ∨
         (AmaltheaSession.Spec cr' = AmaltheaSessionSpec.with_Hibernated (AmaltheaSession.Spec cr) true ∧
          AmaltheaSession.Meta cr' = AmaltheaSession.Meta cr ∧ mayHibernate cr g))
  | UpdateStatus cr' =>
      ∃ cr, g_session g = Some cr ∧ AmaltheaSession.Meta cr' = AmaltheaSession.Meta cr ∧
            AmaltheaSession.Spec cr' = AmaltheaSession.Spec cr
  | _ => True
  end.

Lemma AddFinalizer_spec cr f :
  AmaltheaSession.Spec (AddFinalizer cr f) = AmaltheaSession.Spec cr ∧
  AmaltheaSession.Status (AddFinalizer cr f) = AmaltheaSession.Status cr.
Proof. unfold AddFinalizer. by case_if. Qed.

Section Theorems.
Context (env : Env) `{QuantityOps} `{ControllerUtil} `{YamlLib} (cfg : AmaltheaSessionConfiguration).

(** C1: The secrets finalizer is only ever taken off a session when the pass
    found the session under deletion and every secret the session adopts was
    deleted in this pass or did not exist any more.  A failure to delete one
    secret keeps the finalizer. *)
Theorem finalizer_released_last ns name :
  wp (only (@releaseSafe)) (reconcileInner env cfg ns name) (λ _ _, True) ghost0.
Proof.
  apply wp_only; [|apply reconcileInner_wp]. intros R e g. destruct e; try done. cbn.
  intros (old & Hs & Hch). exists old. split; [done|]. intros Hin Hout. destruct Hch as [?|?|?].
  - by rewrite AddFinalizer_contains in Hout.
  - done.
  - by unfold ContainsFinalizer in *; cbn in *; congruence.
Qed.

(** C2: Child objects are created, patched or removed only in a pass that
    found the session alive, and only when the session either adopts no secret
    or already carries the finalizer that protects the adopted secrets. *)
Theorem children_only_when_protected ns name :
  wp (only (@childSafe)) (reconcileInner env cfg ns name) (λ _ _, True) ghost0.
Proof. apply wp_only; [|apply reconcileInner_wp]. by intros R []. Qed.

(** C3: The operator deletes a session only when [NeedsDeletion] holds of the
    version the API server last returned, at the clock reading just taken; it
    deletes a secret only for a session under deletion, and only a secret that
    session adopts. *)
Theorem deletions_are_due ns name :
  wp (only (@deletionSafe)) (reconcileInner env cfg ns name) (λ _ _, True) ghost0.
Proof. apply wp_only; [|apply reconcileInner_wp]. by intros R []. Qed.

(** C4: The operator never edits the specification of a session except to set
    [hibernated], and it does that only to an interactive session that is not
    hibernated and whose published hibernation date has passed.  Status
    updates carry the metadata and specification last read. *)
Theorem spec_only_hibernated ns name :
  wp (only (@specSafe)) (reconcileInner env cfg ns name) (λ _ _, True) ghost0.
Proof.
  apply wp_only; [|apply reconcileInner_wp]. intros R e g. destruct e; try done. cbn.
  intros (old & Hs & Hch). exists old. split; [done|].
  destruct Hch as [? _|_|Hh]; [destruct (AddFinalizer_spec old secretCleanupFinalizerName)| |]; auto.
Qed.

(** C5: Every status a live pass publishes is coherent with the specification
    it was computed from: the hibernation time is set exactly when the session
    is to be hibernated, a failing time implies the state Failed, a Failed
    state carries an error message, the container counts are within bounds, and
    the run ID is empty exactly for a hibernated session. *)
Theorem published_status_coherent ns name cr :
  wp (clusterMonitor (@publishes cr)) (reconcileLive env cfg ns name cr) (λ _ _, True) tt.
Proof. apply reconcileLive_publishes. Qed.

(** C6: A pass that ends without an error asks to be run again, at once or
    after a positive delay, unless it found the session gone or deleted it. *)
Theorem pass_runs_again ns name :
  wp endMonitor (reconcileInner env cfg ns name) runsAgain false.
Proof. apply reconcileInner_again. Qed.
End Theorems.

(** Deleting adopted secrets tries every one of them, in order, whatever
    the answers, and reports an error exactly when some deletion failed for
    another reason than the secret being absent. *)
Theorem deleteSecrets_exhaustive cr {W} (h : Handler Api W) (w : W) :
  let answers := foldl (λ '(acc, w) s, let '(r, w') := h _ (DeleteSecret s) w in (acc ++ [r], w'))
                       ([], w) (AdoptedSecrets cr) in
  ∃ err, run h (deleteSecrets cr) w = (Done err, answers.2) ∧
    (err = None ↔ Forall (λ r, r = None ∨ IsNotFound r = true) answers.1).
Proof.
  assert (Hloop : ∀ l e0 acc w,
    (e0 = None ↔ Forall (λ r, r = None ∨ IsNotFound r = true) acc) →
    let answers := foldl (λ '(acc, w) s, let '(r, w') := h _ (DeleteSecret s) w in (acc ++ [r], w'))
                         (acc, w) l in
    ∃ err, run h (foldM deleteOne e0 l) w = (Done err, answers.2) ∧
      (err = None ↔ Forall (λ r, r = None ∨ IsNotFound r = true) answers.1)).
  { intros l. induction l as [|s l IH]; intros e0 acc w0 He; cbn; [eauto|].
    destruct (h _ (DeleteSecret s) w0) as [r w1]. cbn. apply IH.
    rewrite Forall_app, Forall_singleton, <- He. destruct r as [e|]; cbn; [|naive_solver].
    destruct (err_notFound e) eqn:En, e0; cbn; naive_solver. }
  cbn zeta. unfold deleteSecrets. destruct (AdoptedSecrets cr) as [|s l]; [|by apply Hloop].
  exists None. cbn. split; [done|]. split; [constructor|done].
Qed.

(** ** The theorems on the passes of the executable cluster *)

(** A new session, and one under deletion whose secret is still there. *)
Definition newWorld : World := emptyWorld (demo None [] false initialStatus).
Definition deletionWorld : World :=
  emptyWorld (demo (Some (Time.Unix 1700000050)) [secretCleanupFinalizerName] false initialStatus).

Lemma cluster_respects_only A : respects (only A) cluster.
Proof. intros R e w r w' g. apply cluster_protocolRely. Qed.

Lemma finalizer_released_last_witness :
  obeys (only (@releaseSafe)) cluster (reconcileInner ∅ demoConfig "ns" "demo") (λ _ _, True) deletionWorld ghost0.
Proof. apply wp_obeys; [apply cluster_respects_only|]. apply finalizer_released_last. Defined.

Lemma children_only_when_protected_witness :
  obeys (only (@childSafe)) cluster (reconcileInner ∅ demoConfig "ns" "demo") (λ _ _, True) newWorld ghost0.
Proof. apply wp_obeys; [apply cluster_respects_only|]. apply children_only_when_protected. Defined.

Lemma deletions_are_due_witness :
  obeys (only (@deletionSafe)) cluster (reconcileInner ∅ demoConfig "ns" "demo") (λ _ _, True) deletionWorld ghost0.
Proof. apply wp_obeys; [apply cluster_respects_only|]. apply deletions_are_due. Defined.

Lemma spec_only_hibernated_witness :
  obeys (only (@specSafe)) cluster (reconcileInner ∅ demoConfig "ns" "demo") (λ _ _, True) newWorld ghost0.
Proof. apply wp_obeys; [apply cluster_respects_only|]. apply spec_only_hibernated. Defined.

Lemma published_status_coherent_witness :
  let cr := demo None [] false initialStatus in
  obeys (clusterMonitor (@publishes cr)) cluster (reconcileLive ∅ demoConfig "ns" "demo" cr) (λ _ _, True)
    newWorld tt.
Proof. apply wp_obeys; [apply cluster_respects_cluster|]. apply published_status_coherent. Defined.

Lemma pass_runs_again_witness :
  obeys endMonitor cluster (reconcileInner ∅ demoConfig "ns" "demo") runsAgain newWorld false.
Proof.
  apply wp_obeys; [|apply pass_runs_again]. intros R e w r w' g. apply cluster_clusterRely.
Defined.

Lemma scaled_before_published_witness :
  wp (scaleMonitor (demo None [] true initialStatus))
    (reconcileLive ∅ demoConfig "ns" "demo" (demo None [] true initialStatus)) (λ _ _, True) None.
Proof. apply scaled_before_published. discriminate. Defined.
