(* ===== verification/MetricsTheorems.v ===== *)
(** * The metrics of the sessions over a pass

    The gauges as Prometheus keeps them: a value per gauge and list of label
    values.  A gauge that was not registered with as many labels panics, so this
    is an obligation of every call; another one is that a session is only
    deleted when it has no series left. *)

From S2P Require Import Prelude Prog NetUrl K8s Types Api Names Templates Config Children Routing.
From S2P Require Import Lifecycle PodStatus Cull Reconcile ChildSet SessionStatus Metrics Controller.
From S2P Require Import StatusProps ReconcileProps ControllerProps Cluster.

(** The gauges that [init] registers. *)
Module GaugeVec.
Record t := mk { Name : string; Labels : list string }.
End GaugeVec.

Definition gaugeVecs : list GaugeVec.t :=
  [GaugeVec.mk "amalthea_session_state" ["namespace"; "name"; "state"];
   GaugeVec.mk "amalthea_session_idle" ["namespace"; "name"];
   GaugeVec.mk "amalthea_session_container_ready" ["namespace"; "name"];
   GaugeVec.mk "amalthea_session_container_total" ["namespace"; "name"];
   GaugeVec.mk "amalthea_session_idle_duration_seconds" ["namespace"; "name"];
   GaugeVec.mk "amalthea_session_failing_duration_seconds" ["namespace"; "name"];
   GaugeVec.mk "amalthea_session_hibernated_duration_seconds" ["namespace"; "name"];
   GaugeVec.mk "amalthea_session_failed_scheduling_duration_seconds" ["namespace"; "name"];
   GaugeVec.mk "amalthea_sessions_total" ["state"];
   GaugeVec.mk "amalthea_session_will_hibernate_at" ["namespace"; "name"]].

(** A registered gauge with these labels. *)
Definition takesLabels (gauge : string) (labels : list string) : bool :=
  existsb (λ v, (GaugeVec.Name v =s gauge) && (length (GaugeVec.Labels v) =? length labels)%nat) gaugeVecs.

(** The series that are kept: gauge and values of the labels. *)
Notation Series := (gmap (string * list string) GaugeValue).

(** A gauge drops the series with these first labels. *)
Definition dropped (gauge : string) (labels : list string) (k : string * list string) : bool :=
  (k.1 =s gauge) && bool_decide (take (length labels) k.2 = labels).

Definition dropSeries (gauge : string) (labels : list string) (s : Series) : Series :=
  filter (λ kv, dropped gauge labels kv.1 = false) s.

(** The gauges with a series per session, by their labels. *)
Definition perSession (gauge : string) : bool :=
  existsb (λ v, (GaugeVec.Name v =s gauge) && bool_decide (take 2 (GaugeVec.Labels v) = ["namespace"; "name"])) gaugeVecs.

(** The series of a session. *)
Definition ofSession (cr : AmaltheaSession.t) (k : string * list string) : Prop :=
  perSession k.1 = true ∧ take 2 k.2 = [AmaltheaSession.Namespace cr; AmaltheaSession.Name cr].

Definition seriesMonitor : Monitor Api Series :=
  {| allowed R e s := match e with
       | SetGauge gauge labels _ => takesLabels gauge labels = true
       | DeleteSession cr => ∀ k, ofSession cr k → s !! k = None
       | _ => True
       end;
     rely R e _ r := clusterRely e r;
     next R e r s := match e with
       | SetGauge gauge labels v => <[(gauge, labels) := v]> s
       | DeleteGauge gauge labels => dropSeries gauge labels s
       | _ => s
       end;
     panic_ok _ := True |}.
#[local] Notation W := seriesMonitor.

(** ** Recording *)

(** The value of a gauge that counts seconds from a time. *)
Definition secondsFrom (since : Time.t) (v : GaugeValue) : Prop :=
  if Time.IsZero since then v = Float64 0 else ∃ now, v = SecondsOf (Time.Since now since).

Lemma recordSince_series g ns n since s : takesLabels g [ns; n] = true →
  wp W (recordSince g ns n since) (λ _ s', ∃ v, secondsFrom since v ∧ s' = <[(g, [ns; n]) := v]> s) s.
Proof.
  intros Hg. unfold recordSince, secondsFrom. destruct (Time.IsZero since); cbn.
  - split; [done|]. intros [] _. by eexists.
  - split; [done|]. intros now _. split; [done|]. intros [] _. eexists. by split; [exists now|].
Qed.

Fixpoint setStates (ns n : string) (state : Types.State) (l : list Types.State) (s : Series) : Series :=
  match l with
  | [] => s
  | st :: l =>
      setStates ns n state l
        (<[("amalthea_session_state", [ns; n; st]) := Float64 (if state =s st then 1 else 0)%Z]> s)
  end.

Lemma recordStates_series ns n state l s : wp W (recordStates ns n state l) (λ _ s', s' = setStates ns n state l s) s.
Proof. revert s. induction l as [|st l IH]; intros s; [done|]. split; [done|]. intros [] _. apply IH. Qed.

Section Record.
Context (cr : AmaltheaSession.t).
#[local] Notation labels := [AmaltheaSession.Namespace cr; AmaltheaSession.Name cr].
#[local] Notation status := (AmaltheaSession.Status cr).

(** What is recorded: four of the values depend on when the clock was read. *)
Definition recordedSeries (v1 v2 v3 v4 : GaugeValue) (s : Series) : Series :=
  let at_ := AmaltheaSessionStatus.WillHibernateAt status in
  <[("amalthea_session_will_hibernate_at", labels) := Float64 (if Time.IsZero at_ then 0 else unixSeconds at_)%Z]>
  (<[("amalthea_session_failed_scheduling_duration_seconds", labels) := v4]>
  (<[("amalthea_session_hibernated_duration_seconds", labels) := v3]>
  (<[("amalthea_session_failing_duration_seconds", labels) := v2]>
  (<[("amalthea_session_idle_duration_seconds", labels) := v1]>
  (<[("amalthea_session_container_total", labels) := Float64 (ContainerCounts.Total (AmaltheaSessionStatus.ContainerCounts_ status))]>
  (<[("amalthea_session_container_ready", labels) := Float64 (ContainerCounts.Ready (AmaltheaSessionStatus.ContainerCounts_ status))]>
  (<[("amalthea_session_idle", labels) := Float64 (if AmaltheaSessionStatus.Idle status then 1 else 0)%Z]>
  (setStates (AmaltheaSession.Namespace cr) (AmaltheaSession.Name cr) (AmaltheaSessionStatus.State_ status) recordedStates s)))))))).

Lemma record_series s :
  wp W (RecordAmaltheaSessionMetrics cr) (λ _ s', ∃ v1 v2 v3 v4, s' = recordedSeries v1 v2 v3 v4 s ∧
    secondsFrom (AmaltheaSessionStatus.IdleSince status) v1 ∧ secondsFrom (AmaltheaSessionStatus.FailingSince status) v2 ∧
    secondsFrom (AmaltheaSessionStatus.HibernatedSince status) v3 ∧
    secondsFrom (AmaltheaSessionStatus.FailedSchedulingSince status) v4) s.
Proof.
  unfold RecordAmaltheaSessionMetrics. eapply wp_bind_intro; [apply recordStates_series|]. intros _ s1 ->.
  do 3 (split; [done|]; intros [] _). cbn -[recordSince].
  do 4 (eapply wp_bind_intro; [by apply recordSince_series|]; intros _ ? (? & ? & ->)).
  split; [done|]. intros [] _. do 4 eexists. split_and!; [|done..]. unfold recordedSeries. by destruct (Time.IsZero _).
Qed.

Definition shown (s : Series) : Prop :=
  (∀ st, st ∈ recordedStates →
    s !! ("amalthea_session_state", [AmaltheaSession.Namespace cr; AmaltheaSession.Name cr; st]) =
      Some (Float64 (if AmaltheaSessionStatus.State_ status =s st then 1 else 0)%Z)) ∧
  s !! ("amalthea_session_idle", labels) = Some (Float64 (if AmaltheaSessionStatus.Idle status then 1 else 0)%Z) ∧
  s !! ("amalthea_session_container_ready", labels) =
    Some (Float64 (ContainerCounts.Ready (AmaltheaSessionStatus.ContainerCounts_ status))) ∧
  s !! ("amalthea_session_container_total", labels) =
    Some (Float64 (ContainerCounts.Total (AmaltheaSessionStatus.ContainerCounts_ status))) ∧
  s !! ("amalthea_session_will_hibernate_at", labels) =
    Some (Float64 (if Time.IsZero (AmaltheaSessionStatus.WillHibernateAt status) then 0
                   else unixSeconds (AmaltheaSessionStatus.WillHibernateAt status))%Z) ∧
  Forall (λ '(gauge, since), ∃ v, s !! (gauge, labels) = Some v ∧ secondsFrom since v)
    [("amalthea_session_idle_duration_seconds", AmaltheaSessionStatus.IdleSince status);
     ("amalthea_session_failing_duration_seconds", AmaltheaSessionStatus.FailingSince status);
     ("amalthea_session_hibernated_duration_seconds", AmaltheaSessionStatus.HibernatedSince status);
     ("amalthea_session_failed_scheduling_duration_seconds", AmaltheaSessionStatus.FailedSchedulingSince status)].

#[local] Ltac look := repeat first [rewrite lookup_insert_eq | rewrite lookup_insert_ne by discriminate].

Lemma recordedSeries_shown v1 v2 v3 v4 s :
  secondsFrom (AmaltheaSessionStatus.IdleSince status) v1 → secondsFrom (AmaltheaSessionStatus.FailingSince status) v2 →
  secondsFrom (AmaltheaSessionStatus.HibernatedSince status) v3 → secondsFrom (AmaltheaSessionStatus.FailedSchedulingSince status) v4 →
  shown (recordedSeries v1 v2 v3 v4 s).
Proof.
  intros H1 H2 H3 H4. unfold shown, recordedSeries. cbn [setStates recordedStates]. split_and!; look; try done.
  - unfold recordedStates, NotReady, Running, RunningDegraded, Failed, Hibernated. intros st Hst.
    repeat (apply list.elem_of_cons in Hst as [->|Hst]; [by look|]). by apply list.elem_of_nil in Hst.
  - repeat (apply Forall_cons_2; [eexists; split; [by look|done]|]). by apply Forall_nil_2.
Qed.

Lemma recordedSeries_elsewhere v1 v2 v3 v4 s k : ¬ ofSession cr k → recordedSeries v1 v2 v3 v4 s !! k = s !! k.
Proof.
  intros Hk. unfold recordedSeries. cbn [setStates recordedStates].
  repeat (rewrite lookup_insert_ne; [|intros <-; by apply Hk]). done.
Qed.
End Record.

(** Every series is of a registered gauge. *)
Definition labelled (s : Series) : Prop := ∀ k, is_Some (s !! k) → takesLabels k.1 k.2 = true.

Lemma labelled_insert gauge l v s : takesLabels gauge l = true → labelled s → labelled (<[(gauge, l) := v]> s).
Proof. intros Hg Hs k. rewrite lookup_insert_is_Some'. intros [<-|Hk]; [done|by apply Hs]. Qed.

Lemma labelled_recorded cr v1 v2 v3 v4 s : labelled s → labelled (recordedSeries cr v1 v2 v3 v4 s).
Proof. intros Hs. unfold recordedSeries. cbn [setStates recordedStates]. repeat (apply labelled_insert; [done|]). exact Hs. Qed.

Lemma dropSeries_lookup gauge l s k : dropSeries gauge l s !! k = if dropped gauge l k then None else s !! k.
Proof.
  unfold dropSeries. destruct (dropped gauge l k) eqn:E.
  - apply map_lookup_filter_None. right. intros v _. cbn. congruence.
  - apply option_eq. intros v. rewrite map_lookup_filter_Some. cbn. naive_solver.
Qed.

(** ** Removing *)

Fixpoint dropAll (labels gauges : list string) (s : Series) : Series :=
  match gauges with [] => s | gauge :: gauges => dropAll labels gauges (dropSeries gauge labels s) end.

Lemma removeGauges_series ns n l s : wp W (removeGauges ns n l) (λ _ s', s' = dropAll [ns; n] l s) s.
Proof. revert s. induction l as [|g l IH]; intros s; [done|]. split; [done|]. intros [] _. apply IH. Qed.

Lemma dropAll_lookup labels gauges s k :
  dropAll labels gauges s !! k = if existsb (λ gauge, dropped gauge labels k) gauges then None else s !! k.
Proof.
  revert s. induction gauges as [|g gauges IH]; intros s; [done|]. cbn. rewrite IH, dropSeries_lookup.
  destruct (dropped g labels k); [by destruct (existsb _ _)|done].
Qed.

(** They are the ones that are removed. *)
Lemma perSession_removed gauge : perSession gauge = true ↔ gauge ∈ sessionGauges.
Proof.
  split.
  - intros (v & Hv & Hg)%existsb_exists. apply andb_true_iff in Hg as [Hg%String.eqb_eq Hl%bool_decide_eq_true]. subst gauge.
    unfold gaugeVecs in Hv. cbn in Hv. destruct_or!; subst v; try done; cbn; set_solver.
  - unfold sessionGauges. intros Hg. repeat (apply list.elem_of_cons in Hg as [->|Hg]; [done|]). by apply list.elem_of_nil in Hg.
Qed.

(** The series of the session, and no others. *)
Lemma dropAll_session cr s k :
  let s' := dropAll [AmaltheaSession.Namespace cr; AmaltheaSession.Name cr] sessionGauges s in
  (ofSession cr k → s' !! k = None) ∧ (¬ ofSession cr k → s' !! k = s !! k).
Proof.
  cbv zeta. rewrite dropAll_lookup. destruct (existsb _ _) eqn:E.
  - split; [done|]. intros Hk. destruct Hk. apply existsb_exists in E as (g & Hin & Hd). unfold dropped in Hd.
    apply andb_true_iff in Hd as [Hg%String.eqb_eq Ht%bool_decide_eq_true]. subst g. split; [|exact Ht]. by apply perSession_removed, list_elem_of_In.
  - split; [|done]. intros [Hg Ht]. exfalso. apply not_true_iff_false in E. apply E. apply existsb_exists. exists k.1.
    split; [by apply list_elem_of_In, perSession_removed|]. unfold dropped. rewrite String.eqb_refl. by apply bool_decide_eq_true.
Qed.

(** ** A pass *)

(** Calls that have nothing to do with the metrics. *)
Definition still {R} (e : Api R) : Prop :=
  match e with SetGauge _ _ _ | DeleteGauge _ _ | DeleteSession _ => False | _ => True end.

Lemma sim_still (ok : ∀ R, Api R → Prop) s0 : (∀ R (e : Api R), ok R e → still e) →
  monitorSim (clusterMonitor ok) W (λ _ s, s = s0).
Proof. intros Hok. split; [|done]. intros R e [] s -> He. apply Hok in He. by destruct e. Qed.

Lemma sim_still_read s0 : monitorSim readMonitor W (λ _ s, s = s0).
Proof. split; [|done]. intros R e [] s -> He. destruct e; try done; (split; [done|]); intros r Hr; by split; [|done]. Qed.

Lemma wp_still {A} (M0 : Monitor Api unit) (p : M A) (P : A → Prop) s :
  monitorSim M0 W (λ _ s', s' = s) → wp M0 p (λ a _, P a) tt → wp W p (λ a s', s' = s ∧ P a) s.
Proof. intros Hsim Hwp. eapply wp_mono; [by eapply wp_sim|]. by intros a s' ([] & -> & HP). Qed.

(** Nothing that a pass does breaks the labels. *)
Definition keepsLabels {A : Type} (s : Series) (_ : A) (s' : Series) : Prop := labelled s → labelled s'.

Lemma labelled_dropAll l gauges s : labelled s → labelled (dropAll l gauges s).
Proof. intros Hs k. rewrite dropAll_lookup. destruct (existsb _ _); [by intros []|]. apply Hs. Qed.

Lemma updateStatusRetry_still ns n cr again s : wp W (updateStatusRetry ns n cr again) (λ _ s', s' = s) s.
Proof.
  cbn. split; [done|]. intros [cr1 [err|]] _; cbn; [|done]. split; [done|]. intros [fresh|err2] _; cbn; [|done].
  split; [done|]. by intros [cr2 [err2|]] _.
Qed.

(** A session under deletion: its series stay. *)
Lemma finalize_still ns n cr s : wp W (finalize ns n cr) (λ _ s', s' = s) s.
Proof.
  unfold finalize. eapply wp_bind_intro; [apply updateStatusRetry_still|]. intros [ret|cr1] ? ->; [done|]. case_if; [|done].
  eapply wp_bind_intro with (P := λ _ s', s' = s).
  { unfold deleteSecrets. destruct (AdoptedSecrets cr1) as [|secret l]; [done|].
    apply wp_foldM with (I := λ _ _ s', s' = s); [done| |by intros]. intros x l' err s1 ->. cbn. split; [done|].
    intros [e|] _; cbn; [by destruct (err_notFound e)|done]. }
  intros [err|] ? ->; [done|]. cbn. split; [done|]. by intros [cr2 [err|]] _.
Qed.

Lemma afterPublish_series cr changed s : wp W (afterPublish cr changed) (keepsLabels s) s.
Proof.
  unfold afterPublish. eapply wp_bind_intro; [apply record_series|].
  intros _ s1 (v1 & v2 & v3 & v4 & -> & _). cbn -[RemoveAmaltheaSessionMetrics updateHibernationState recordedSeries].
  split; [done|]. intros now _. case_if.
  - eapply wp_bind_intro; [apply removeGauges_series|]. intros _ ? ->. split.
    + intros k Hk. by apply dropAll_session.
    + intros err _ Hs. by apply labelled_dropAll, labelled_recorded.
  - eapply wp_bind_intro; [eapply wp_still with (P := λ _, True); [|apply updateHibernationState_calls]; apply sim_still; by intros R []|].
    intros [? [err|]] ? [-> _] Hs; by apply labelled_recorded.
Qed.

Section Pass.
Context (env : Env) `{QuantityOps} `{ControllerUtil} `{YamlLib} (cfg : AmaltheaSessionConfiguration).

Lemma reconcileLive_series ns n cr s : wp W (reconcileLive env cfg ns n cr) (keepsLabels s) s.
Proof.
  unfold reconcileLive. eapply wp_bind_intro; [eapply wp_still; [|apply chooseRunID_prepares]; apply sim_still; by intros R []|].
  intros runID ? [-> _]. eapply wp_bind_intro; [eapply wp_still; [|apply NewChildResources_prepares]; apply sim_still; by intros R []|].
  intros [c|err] ? [-> Hc]; [|by intros ?].
  eapply wp_bind_intro; [eapply wp_still; [|apply (ChildResources_Reconcile_wp _ (@childCall)); [by auto|exact Hc]];
    apply sim_still; by intros R []|].
  intros [updates [err|]] ? [-> _]; [by intros ?|].
  eapply wp_bind_intro; [eapply wp_still; [apply sim_still_read|apply Status_wp]|]. intros newStatus ? [-> _].
  eapply wp_bind_intro; [apply updateStatusRetry_still|]. intros [ret|cr2] ? ->; [by intros ?|]. apply afterPublish_series.
Qed.

(** C14: The gauges over a pass.  Recording a session sets exactly its own series:
    one of the states is 1 and the others 0, the counts and times are those of the
    status, and the series of other sessions stay as they are.  Removing its
    metrics removes all of its series and no others.  A whole pass, whatever the
    cluster answers, only sets gauges that are registered with these labels (so
    that Prometheus does not panic), and deletes a session only when no series of
    it is left. *)
Theorem session_series ns n cr s :
  wp W (RecordAmaltheaSessionMetrics cr) (λ _ s', shown cr s' ∧ ∀ k, ¬ ofSession cr k → s' !! k = s !! k) s ∧
  wp W (RemoveAmaltheaSessionMetrics cr)
    (λ _ s', ∀ k, (ofSession cr k → s' !! k = None) ∧ (¬ ofSession cr k → s' !! k = s !! k)) s ∧
  wp W (reconcileInner env cfg ns n) (λ _ s', labelled s → labelled s') s.
Proof.
  split_and!.
  - eapply wp_mono; [apply record_series|]. intros _ ? (v1 & v2 & v3 & v4 & -> & H1' & H2' & H3' & H4').
    split; [by apply recordedSeries_shown|]. intros k. apply recordedSeries_elsewhere.
  - eapply wp_mono; [apply removeGauges_series|]. intros _ ? -> k. apply dropAll_session.
  - unfold reconcileInner. cbn -[finalize initialize ensureFinalizer reconcileLive]. split; [done|]. intros [cr0|err] _; [|case_if; exact id].
    cbn -[finalize initialize ensureFinalizer reconcileLive]. case_if; [eapply wp_mono; [apply finalize_still|intros ? ? ->; exact id]|].
    eapply wp_bind_intro with (P := keepsLabels s).
    { unfold initialize. case_decide; [|by intros ?]. eapply wp_bind_intro; [apply updateStatusRetry_still|].
      intros [ret|cr1] ? ->; [by intros ?|]. eapply wp_bind_intro; [apply record_series|].
      intros _ ? (v1 & v2 & v3 & v4 & -> & _) Hs. by apply labelled_recorded. }
    intros [ret|cr1] s1 Hs1; [done|]. eapply wp_bind_intro with (P := λ _ s', s' = s1).
    { unfold ensureFinalizer. case_if; [|done]. cbn. split; [done|]. by intros [cr2 [err|]] _. }
    intros [ret|cr2] ? ->; [done|]. eapply wp_mono; [apply reconcileLive_series|]. unfold keepsLabels in *. by auto.
Qed.
End Pass.
