(* ===== verification/StatusTheorems.v ===== *)
(** * Theorems on the session status

    What [Status] computes, in every environment whose clock runs, and how the
    state of a session follows from its children, its pod, its job and its
    events. *)

From S2P Require Import Prelude Prog NetUrl K8s Types Api Names Lifecycle PodStatus Cull Reconcile.
From S2P Require Import SessionStatus StatusProps ReconcileProps ControllerProps Cluster.
From stdpp Require Import sorting.

(** Children that report nothing. *)
Definition noUpdates : ChildResourceUpdates.t :=
  ChildResourceUpdates.mk (mkUpdate None "" None None) (mkUpdate None "" None None)
    (mkUpdate None "" None None) (mkUpdate None "" None None) [] (mkUpdate None "" None None)
    (mkUpdate None "" None None).

Definition liveDemo : AmaltheaSession.t := demo None [] false Controller.initialStatus.
Definition hibernatedDemo : AmaltheaSession.t := demo None [] true Controller.initialStatus.

Lemma noUpdates_quiet cr :
  Forall (λ cb, cb = None) (callbacks noUpdates) ∧ Forall (fits cr) (callbacks noUpdates).
Proof. split; by repeat constructor. Qed.

Section Theorems.
Context (env : Env) `{QuantityOps} (c : ChildResourceUpdates.t) (cr : AmaltheaSession.t).

(** C17: Computing the status of a session makes only read calls (clock, pods,
    jobs, events, metrics, the ingress) and never panics, whatever the cluster
    answers. *)
Theorem Status_reads_only : wp readMonitor (Status env c cr) (λ _ _, True) tt.
Proof. eapply wp_mono; [apply Status_wp|]. done. Qed.

(** When the callbacks of the children agree with the hibernation flag,
    the new status has a hibernation time exactly if the session is to be
    hibernated, and a session reported as Hibernated always has one. *)
Theorem Status_hibernation {W} (h : Handler Api W) (w : W) :
  clockRuns h → Forall (fits cr) (callbacks c) →
  ∃ s w', run h (Status env c cr) w = (Done s, w') ∧
    (AmaltheaSessionStatus.HibernatedSince s ≠ Time.zero ↔
     AmaltheaSessionSpec.Hibernated_ (AmaltheaSession.Spec cr) = true) ∧
    (AmaltheaSessionStatus.State_ s = Hibernated →
     AmaltheaSessionStatus.HibernatedSince s ≠ Time.zero).
Proof.
  intros Hh Hfits. destruct (Status_run env c cr h w Hh) as (s & w' & Hr & [_ [_ Hhib] _ Htimed _ _]).
  destruct (Htimed Hfits) as [Ht _ _]. exists s, w'. split; [done|]. split; [done|].
  intros Hs. apply Ht. auto.
Qed.

(** A failed session always carries an error message; a failing time is
    only ever set on a failed session, and when no child reports a transition
    it is set on every failed session.  The scheduling-failure time is cleared
    as soon as the session is running, succeeded or hibernated. *)
Theorem Status_failure {W} (h : Handler Api W) (w : W) :
  clockRuns h → Forall (fits cr) (callbacks c) →
  ∃ s w', run h (Status env c cr) w = (Done s, w') ∧
    (AmaltheaSessionStatus.State_ s = Failed → AmaltheaSessionStatus.Error s ≠ "") ∧
    (AmaltheaSessionStatus.FailingSince s ≠ Time.zero → AmaltheaSessionStatus.State_ s = Failed) ∧
    (Forall (λ cb, cb = None) (callbacks c) → AmaltheaSessionStatus.State_ s = Failed →
     AmaltheaSessionStatus.FailingSince s ≠ Time.zero) ∧
    (AmaltheaSessionStatus.State_ s ∈ [Hibernated; Running; Succeeded] →
     AmaltheaSessionStatus.FailedSchedulingSince s = Time.zero).
Proof.
  intros Hh Hfits.
  destruct (Status_run env c cr h w Hh) as (s & w' & Hr & [_ [Hfail _] _ Htimed Hfs _]).
  destruct (Htimed Hfits) as [_ Hf Hsch]. exists s, w'. split_and!; auto.
Qed.

(** C18: The container counts of a status are consistent: no more containers
    are ready than there are, and none is ready in a hibernated session or a
    session under deletion. *)
Theorem Status_counts {W} (h : Handler Api W) (w : W) :
  clockRuns h →
  ∃ s w', run h (Status env c cr) w = (Done s, w') ∧
    boundedCounts (AmaltheaSessionStatus.ContainerCounts_ s) ∧
    boundedCounts (AmaltheaSessionStatus.InitContainerCounts s) ∧
    (AmaltheaSessionStatus.State_ s = Hibernated ∨ deleting (AmaltheaSession.Meta cr) = true →
     ContainerCounts.Ready (AmaltheaSessionStatus.ContainerCounts_ s) = 0%Z ∧
     ContainerCounts.Ready (AmaltheaSessionStatus.InitContainerCounts s) = 0%Z).
Proof.
  intros Hh. destruct (Status_run env c cr h w Hh) as (s & w' & Hr & [_ _ Hc _ _ _]).
  exists s, w'. split; [done|]. exact Hc.
Qed.

(** The conditions of the new status are those of the old one (the two
    initial ones for a new session), in order; the Ready condition is True
    exactly when the state is Running; a condition either is unchanged or
    flipped with a fresh transition time. *)
Theorem Status_conditions {W} (h : Handler Api W) (w : W) :
  clockRuns h → binaryConditions cr →
  ∃ s w' now, run h (Status env c cr) w = (Done s, w') ∧
    Forall2 (updated (AmaltheaSessionStatus.State_ s)) (startConditions now cr)
      (AmaltheaSessionStatus.Conditions s).
Proof.
  intros Hh Hb. destruct (Status_run env c cr h w Hh) as (s & w' & Hr & [_ _ _ _ _ Hc]).
  destruct (Hc Hb) as [now Hnow]. by exists s, w', now.
Qed.
End Theorems.

Lemma Status_hibernation_witness :
  ∃ s w', run cluster (Status ∅ noUpdates hibernatedDemo) (emptyWorld hibernatedDemo) = (Done s, w') ∧
    (AmaltheaSessionStatus.HibernatedSince s ≠ Time.zero ↔ true = true) ∧
    (AmaltheaSessionStatus.State_ s = Hibernated →
     AmaltheaSessionStatus.HibernatedSince s ≠ Time.zero).
Proof.
  apply (Status_hibernation ∅ noUpdates hibernatedDemo cluster); [exact cluster_clockRuns|apply noUpdates_quiet].
Defined.

Lemma Status_failure_witness :
  ∃ s w', run cluster (Status ∅ noUpdates liveDemo) (emptyWorld liveDemo) = (Done s, w') ∧
    (AmaltheaSessionStatus.State_ s = Failed → AmaltheaSessionStatus.Error s ≠ "") ∧
    (AmaltheaSessionStatus.FailingSince s ≠ Time.zero → AmaltheaSessionStatus.State_ s = Failed) ∧
    (Forall (λ cb, cb = None) (callbacks noUpdates) → AmaltheaSessionStatus.State_ s = Failed →
     AmaltheaSessionStatus.FailingSince s ≠ Time.zero) ∧
    (AmaltheaSessionStatus.State_ s ∈ [Hibernated; Running; Succeeded] →
     AmaltheaSessionStatus.FailedSchedulingSince s = Time.zero).
Proof.
  apply (Status_failure ∅ noUpdates liveDemo cluster); [exact cluster_clockRuns|apply noUpdates_quiet].
Defined.

Lemma Status_counts_witness :
  ∃ s w', run cluster (Status ∅ noUpdates liveDemo) (emptyWorld liveDemo) = (Done s, w') ∧
    boundedCounts (AmaltheaSessionStatus.ContainerCounts_ s) ∧
    boundedCounts (AmaltheaSessionStatus.InitContainerCounts s) ∧
    (AmaltheaSessionStatus.State_ s = Hibernated ∨ deleting (AmaltheaSession.Meta liveDemo) = true →
     ContainerCounts.Ready (AmaltheaSessionStatus.ContainerCounts_ s) = 0%Z ∧
     ContainerCounts.Ready (AmaltheaSessionStatus.InitContainerCounts s) = 0%Z).
Proof. apply (Status_counts ∅ noUpdates liveDemo cluster). exact cluster_clockRuns. Defined.

Lemma Status_conditions_witness :
  ∃ s w' now, run cluster (Status ∅ noUpdates liveDemo) (emptyWorld liveDemo) = (Done s, w') ∧
    Forall2 (updated (AmaltheaSessionStatus.State_ s)) (startConditions now liveDemo)
      (AmaltheaSessionStatus.Conditions s).
Proof.
  apply (Status_conditions ∅ noUpdates liveDemo cluster); [exact cluster_clockRuns|constructor].
Defined.

(** ** How the state is decided *)

(** The session asked for hibernation and its workload is stopped. *)
Definition stopped (c : ChildResourceUpdates.t) (cr : AmaltheaSession.t) : Prop :=
  AmaltheaSessionSpec.Hibernated_ (AmaltheaSession.Spec cr) = true ∧
  (scaledToZero c = true ∨ suspended c = true).

(** The session is alive and not stopped: its state depends on its children. *)
Definition decided (c : ChildResourceUpdates.t) (cr : AmaltheaSession.t) : Prop :=
  deleting (AmaltheaSession.Meta cr) = false ∧ ~ stopped c cr.

(** The state of a session: NotReady under deletion; Hibernated exactly
    when hibernation is asked for and the workload is scaled to zero or
    suspended; otherwise Failed exactly when some child reports a failure,
    then Running exactly when workload and pod are ready, then Succeeded
    exactly when the pod completed or the job succeeded; and NotReady when
    none of these applies. *)
Theorem State_decision c cr pod job :
  let '(st, msg) := SessionStatus.State c cr pod job in
  (deleting (AmaltheaSession.Meta cr) = true → st = NotReady) ∧
  (st = Hibernated ↔ deleting (AmaltheaSession.Meta cr) = false ∧ stopped c cr) ∧
  (st = Failed ↔ decided c cr ∧ failureMessage c pod job ≠ "") ∧
  (st = Failed → msg = failureMessage c pod job) ∧
  (st = Running ↔ decided c cr ∧ failureMessage c pod job = "" ∧ IsRunning c pod = true) ∧
  (st = Succeeded ↔ decided c cr ∧ failureMessage c pod job = "" ∧ IsRunning c pod = false ∧
                    (podIsCompleted pod = true ∨ jobIsSuccess job = true)) ∧
  (st = NotReady ↔ deleting (AmaltheaSession.Meta cr) = true ∨
                   (decided c cr ∧ failureMessage c pod job = "" ∧ IsRunning c pod = false ∧
                    podIsCompleted pod = false ∧ jobIsSuccess job = false)).
Proof.
  unfold SessionStatus.State, decided, stopped.
  generalize (failureMessage c pod job), (IsRunning c pod), (podIsCompleted pod), (jobIsSuccess job),
    (scaledToZero c), (suspended c), (deleting (AmaltheaSession.Meta cr)),
    (AmaltheaSessionSpec.Hibernated_ (AmaltheaSession.Spec cr)).
  intros msg running completed success zero susp del hib.
  destruct del; cbn; [split_and!; naive_solver|].
  destruct (hib && zero) eqn:E1; [split_and!; destruct hib, zero; naive_solver|].
  destruct (hib && susp) eqn:E2; [split_and!; destruct hib, susp; naive_solver|].
  assert (Hgo : ~ (hib = true ∧ (zero = true ∨ susp = true)))
    by (intros [? [?|?]]; destruct hib, zero, susp; done). clear E1 E2.
  destruct (String.eqb_spec msg ""), running, completed, success; cbn; split_and!; naive_solver.
Qed.

(** The failure reasons in the order of their priority. *)
Definition failureReasons (c : ChildResourceUpdates.t) (pod : option Pod.t) (job : option Job.t) : list string :=
  [podFailureReason pod; pvcFailureReason (Manifest (ChildResourceUpdates.PVC c))] ++
  ((λ u, pvcFailureReason (Manifest u)) <$> ChildResourceUpdates.DataSourcesPVCs c) ++
  [serviceFailureReason (Manifest (ChildResourceUpdates.Service c));
   ingressFailureReason (Manifest (ChildResourceUpdates.Ingress c)); jobFailureReason job].

Lemma firstMessage_spec l :
  (firstMessage l = "" ∧ Forall (λ m, m = "") l) ∨
  (∃ pre post, l = pre ++ firstMessage l :: post ∧ firstMessage l ≠ "" ∧ Forall (λ m, m = "") pre).
Proof.
  induction l as [|m l IH]; cbn; [by left|].
  destruct (String.eqb_spec m "") as [->|Hne]; cbn; [|right; by exists [], l].
  destruct IH as [[-> Hall]|(pre & post & Hl & Hne & Hpre)]; [left; by auto|right].
  exists ("" :: pre), post. split_and!; auto. cbn. by f_equal.
Qed.

(** The error message of a failing session is the first non-empty reason
    in the order pod, volume claim, data source claims, service, ingress, job:
    all reasons before it are empty, and there is no message exactly when no
    child fails. *)
Theorem failureMessage_priority c pod job :
  (failureMessage c pod job = "" ∧ Forall (λ m, m = "") (failureReasons c pod job)) ∨
  (∃ pre post, failureReasons c pod job = pre ++ failureMessage c pod job :: post ∧
     failureMessage c pod job ≠ "" ∧ Forall (λ m, m = "") pre).
Proof. apply firstMessage_spec. Qed.

(** ** Events *)

Lemma lastEvent_filter reason items :
  lastEvent reason items = last (filter (λ e, Event.Reason e = reason) items).
Proof.
  unfold lastEvent. induction items as [|e items IH] using rev_ind; [done|].
  rewrite foldl_app, filter_app. cbn [foldl]. destruct (String.eqb_spec (Event.Reason e) reason) as [Hr|Hr].
  - rewrite filter_cons_True by done. by rewrite filter_nil, last_snoc.
  - rewrite filter_cons_False, filter_nil, app_nil_r by done. apply IH.
Qed.

Lemma sorted_last_max {A} (R : relation A) `{!Reflexive R} l x y :
  StronglySorted R l → last l = Some x → y ∈ l → R y x.
Proof.
  induction 1 as [|a l Hl IH Hall]; [done|]. intros Hlast Hy.
  destruct l as [|b l]; cbn in *.
  - simplify_eq. by apply list_elem_of_singleton in Hy as ->.
  - apply elem_of_cons in Hy as [->|Hy]; [|by apply IH].
    eapply list.Forall_forall in Hall; [exact Hall|]. by apply last_Some_elem_of.
Qed.

Lemma filter_sorted {A} (R : relation A) (P : A → Prop) `{!∀ x, Decision (P x)} l :
  StronglySorted R l → StronglySorted R (filter P l).
Proof.
  induction 1 as [|a l Hl IH Hall]; [constructor|].
  destruct (decide (P a)); [rewrite filter_cons_True by done|by rewrite filter_cons_False].
  constructor; [done|]. apply list.Forall_forall. intros x [_ Hx]%list_elem_of_filter.
  by eapply list.Forall_forall in Hall.
Qed.

#[global] Instance event_le_refl : Reflexive event_le.
Proof. intros e. unfold event_le. lia. Qed.

(** The events of the pod are read in timestamp order, and the event the
    status looks at for a reason is a latest one with that reason. *)
Theorem latest_event cr {W} (h : Handler Api W) (w w' : W) items :
  h _ (ListEvents (AmaltheaSession.Namespace cr) "Pod" (PodName cr)) w = (inl items, w') →
  ∃ l, run h (GetPodEvents cr) w = (Done (Some l, None), w') ∧ l ≡ₚ items ∧ StronglySorted event_le l ∧
    ∀ reason ev, lastEvent reason l = Some ev →
      Event.Reason ev = reason ∧ ev ∈ items ∧
      ∀ e, e ∈ items → Event.Reason e = reason → (eventTimestamp e ≤ eventTimestamp ev)%Z.
Proof.
  intros Hh. exists (merge_sort event_le items). cbn. rewrite Hh. cbn.
  pose proof (merge_sort_Permutation event_le items) as Hp.
  pose proof (StronglySorted_merge_sort event_le items) as Hs.
  split_and!; try done. intros reason ev. rewrite lastEvent_filter. intros Hev.
  pose proof (last_Some_elem_of _ _ Hev) as [Hr Hin]%list_elem_of_filter.
  split_and!; [done|by rewrite <- Hp|]. intros e He Her.
  eapply (sorted_last_max event_le); [|exact Hev|]; [by apply filter_sorted|].
  apply list_elem_of_filter. by rewrite Hp.
Qed.

(** Scheduling events are classified as the operator promises: a
    Scheduled event later than the last FailedScheduling one means scheduled;
    a scheduling failure makes the session fail for good exactly when it has
    lasted ten minutes or more, with the event's message. *)
Theorem classifyEvents_spec since waited items :
  let scheduledTime := getEventTime (lastEvent scheduled items) in
  let failedTime := getEventTime (lastEvent failedScheduling items) in
  let recovered := scheduledTime ≠ Time.zero ∧ (failedTime < scheduledTime)%Z in
  let '(r, err) := classifyEvents since waited items in
  (r = EisrScheduled ↔ recovered) ∧
  (r = EisrFinallyFailed ↔ ~ recovered ∧ since ≠ Time.zero ∧ is_Some (lastEvent failedScheduling items) ∧
                           (10 * Duration.Minute ≤ waited)%Z) ∧
  (r = EisrInitiallyFailed ↔ ~ recovered ∧ since = Time.zero ∧ is_Some (lastEvent failedScheduling items)) ∧
  (is_Some err ↔ r = EisrFinallyFailed) ∧
  (∀ e ev, err = Some e → lastEvent failedScheduling items = Some ev →
     err_msg e = "failed scheduling: " +:+ Event.Message ev).
Proof.
  cbn zeta. unfold classifyEvents, Time.After, maxWaitForClearFailedScheduling.
  set (st := getEventTime (lastEvent scheduled items)).
  set (ft := getEventTime (lastEvent failedScheduling items)).
  assert (Hrec : (negb (Time.IsZero st) && (ft <? st)%Z = true) ↔ (st ≠ Time.zero ∧ (ft < st)%Z)).
  { bool_simpl. by rewrite Z.ltb_lt. }
  destruct (negb (Time.IsZero st) && (ft <? st)%Z).
  { assert (st ≠ Time.zero ∧ (ft < st)%Z) by (by apply Hrec). split_and!; naive_solver. }
  assert (~ (st ≠ Time.zero ∧ (ft < st)%Z)) by (rewrite <- Hrec; done). clear Hrec.
  destruct (lastEvent failedScheduling items) as [ev|].
  2:{ split_and!; try (split; [done|]); rewrite ?is_Some_alt; naive_solver. }
  destruct (Time.IsZero since) eqn:Ez; bool_simpl.
  { split_and!; rewrite ?is_Some_alt; naive_solver. }
  destruct (Z.leb_spec (10 * Duration.Minute) waited).
  - split_and!; rewrite ?is_Some_alt; naive_solver.
  - split_and!; rewrite ?is_Some_alt; naive_solver lia.
Qed.

Definition demoEvents : list Event.t :=
  [Event.mk scheduled "on node-2" (Time.Unix 1700000030) Time.zero Time.zero NoRest;
   Event.mk failedScheduling "no node" Time.zero (Time.Unix 1700000020) Time.zero NoRest;
   Event.mk scheduled "on node-1" (Time.Unix 1700000010) Time.zero Time.zero NoRest].

Definition eventWorld : World :=
  mkWorld (Time.Unix 1700000100) (Some liveDemo) ∅ ∅ ∅ ∅ ∅ ∅ ∅ demoEvents [] None.

Lemma latest_event_witness :
  ∃ l, run cluster (GetPodEvents liveDemo) eventWorld = (Done (Some l, None), eventWorld) ∧
    l ≡ₚ demoEvents ∧ StronglySorted event_le l ∧
    ∀ reason ev, lastEvent reason l = Some ev →
      Event.Reason ev = reason ∧ ev ∈ demoEvents ∧
      ∀ e, e ∈ demoEvents → Event.Reason e = reason → (eventTimestamp e ≤ eventTimestamp ev)%Z.
Proof. apply (latest_event liveDemo cluster eventWorld). reflexivity. Defined.
