(* ===== verification/ReconcileTheorems.v ===== *)
(** * Theorems on the reconciliation of the children *)

From S2P Require Import Prelude Prog NetUrl K8s Types Api Names Templates Config Children Routing.
From S2P Require Import Lifecycle PodStatus Reconcile ChildSet SessionStatus StatusProps ReconcileProps.
From S2P Require Import ControllerProps Cluster.

(** ** What a reconciled child looks like *)

(** What a session pod runs. *)
Definition workload (p : PodSpec.t) : list Container.t * list Container.t * list Volume.t :=
  (PodSpec.Containers p, PodSpec.InitContainers p, PodSpec.Volumes p).

(** Where it may run. *)
Definition placement (p : PodSpec.t) : list Opaque * gmap string string * option Opaque * string :=
  (PodSpec.Tolerations p, PodSpec.NodeSelector p, PodSpec.Affinity p, PodSpec.PriorityClassName p).

Definition stsPod (s : StatefulSet.t) : PodSpec.t :=
  PodTemplateSpec.Spec (StatefulSetSpec.Template (StatefulSet.Spec s)).
Definition jobPod (j : Job.t) : PodSpec.t := PodTemplateSpec.Spec (JobSpec.Template (Job.Spec j)).
Definition stsTemplateMeta (s : StatefulSet.t) : ObjectMeta.t :=
  PodTemplateSpec.Meta (StatefulSetSpec.Template (StatefulSet.Spec s)).
Definition jobTemplateMeta (j : Job.t) : ObjectMeta.t := PodTemplateSpec.Meta (JobSpec.Template (Job.Spec j)).

(** A key in a kubernetes.io or k8s.io domain keeps the value the cluster gave it;
    every other key has the desired value, and keys that are not desired any more
    are gone. *)
Definition merged (current desired out : gmap string string) : Prop :=
  ∀ k, out !! k = (if wellKnown k
                   then match current !! k with Some v => Some v | None => desired !! k end
                   else desired !! k).

Definition metaAsDesired (current desired out : ObjectMeta.t) : Prop :=
  sameIdentity current out ∧ merged (ObjectMeta.Labels current) (ObjectMeta.Labels desired) (ObjectMeta.Labels out) ∧
  merged (ObjectMeta.Annotations current) (ObjectMeta.Annotations desired) (ObjectMeta.Annotations out).

Definition ingressAsDesired (desired current out : Ingress.t) : Prop :=
  metaAsDesired (Ingress.Meta current) (Ingress.Meta desired) (Ingress.Meta out) ∧ Ingress.Spec out = Ingress.Spec desired.

Definition serviceAsDesired (desired current out : Service.t) : Prop :=
  metaAsDesired (Service.Meta current) (Service.Meta desired) (Service.Meta out) ∧
  ServiceSpec.Ports (Service.Spec out) = ServiceSpec.Ports (Service.Spec desired) ∧
  ServiceSpec.Selector (Service.Spec out) = ServiceSpec.Selector (Service.Spec desired).

(** A claim without a storage class keeps the one it was given. *)
Definition pvcAsDesired (desired current out : PersistentVolumeClaim.t) : Prop :=
  metaAsDesired (PersistentVolumeClaim.Meta current) (PersistentVolumeClaim.Meta desired) (PersistentVolumeClaim.Meta out) ∧
  PersistentVolumeClaimSpec.Requests (PersistentVolumeClaim.Spec out) =
    PersistentVolumeClaimSpec.Requests (PersistentVolumeClaim.Spec desired) ∧
  PersistentVolumeClaimSpec.StorageClassName (PersistentVolumeClaim.Spec out) =
    match PersistentVolumeClaimSpec.StorageClassName (PersistentVolumeClaim.Spec desired) with
    | Some c => Some c
    | None => PersistentVolumeClaimSpec.StorageClassName (PersistentVolumeClaim.Spec current)
    end.

Definition stsAsDesired (desired current out : StatefulSet.t) : Prop :=
  metaAsDesired (StatefulSet.Meta current) (StatefulSet.Meta desired) (StatefulSet.Meta out) ∧
  StatefulSetSpec.Selector (StatefulSet.Spec out) = StatefulSetSpec.Selector (StatefulSet.Spec desired) ∧
  ObjectMeta.Labels (stsTemplateMeta out) = ObjectMeta.Labels (stsTemplateMeta desired) ∧
  ObjectMeta.Annotations (stsTemplateMeta out) = ObjectMeta.Annotations (stsTemplateMeta desired) ∧
  workload (stsPod out) = workload (stsPod desired).

Definition jobAsDesired (desired current out : Job.t) : Prop :=
  metaAsDesired (Job.Meta current) (Job.Meta desired) (Job.Meta out) ∧
  ObjectMeta.Annotations (jobTemplateMeta out) = ObjectMeta.Annotations (jobTemplateMeta desired) ∧
  workload (jobPod out) = workload (jobPod desired).

(** Every key has the desired value once stored, but a tunnel secret that there
    already is stays. *)
Definition secretAsDesired (desired current out : Secret.t) : Prop :=
  metaAsDesired (Secret.Meta current) (Secret.Meta desired) (Secret.Meta out) ∧
  ∀ k, Secret.Data (serverSecret out) !! k =
    match (if k =s "WSTUNNEL_SECRET" then Secret.Data current !! k else None) with
    | Some v => Some v
    | None => Secret.Data (serverSecret desired) !! k
    end.

(** The scale and the scheduling follow the session whatever the strategy. *)
Definition stsFollows (desired current out : StatefulSet.t) : Prop :=
  StatefulSetSpec.Replicas (StatefulSet.Spec out) = StatefulSetSpec.Replicas (StatefulSet.Spec desired) ∧
  placement (stsPod out) = placement (stsPod desired) ∧ StatefulSet.Status out = StatefulSet.Status current.
Definition jobFollows (desired current out : Job.t) : Prop :=
  JobSpec.Suspend (Job.Spec out) = JobSpec.Suspend (Job.Spec desired) ∧
  JobSpec.ActiveDeadlineSeconds (Job.Spec out) = JobSpec.ActiveDeadlineSeconds (Job.Spec desired) ∧
  JobSpec.TTLSecondsAfterFinished (Job.Spec out) = JobSpec.TTLSecondsAfterFinished (Job.Spec desired) ∧
  placement (jobPod out) = placement (jobPod desired) ∧ Job.Status out = Job.Status current.

Definition stsKept (current out : StatefulSet.t) : Prop :=
  StatefulSet.Meta out = StatefulSet.Meta current ∧ stsTemplateMeta out = stsTemplateMeta current ∧
  StatefulSetSpec.Selector (StatefulSet.Spec out) = StatefulSetSpec.Selector (StatefulSet.Spec current) ∧
  workload (stsPod out) = workload (stsPod current).
Definition jobKept (current out : Job.t) : Prop :=
  Job.Meta out = Job.Meta current ∧ jobTemplateMeta out = jobTemplateMeta current ∧
  workload (jobPod out) = workload (jobPod current).

Section Theorems.
Context `{ControllerUtil} (cr : AmaltheaSession.t).

#[local] Notation strategy := (AmaltheaSessionSpec.ReconcileStrategy_ (AmaltheaSession.Spec cr)).

(** The strategy asks for an update in the present state of the session. *)
Definition refreshes : Prop := strategy = Always ∨ strategy = WhenFailedOrHibernated ∧ isFailedOrHibernated cr = true.

(** A callback on an existing child: what it does whatever the strategy, what it
    makes of the child under a strategy that refreshes it, and what it keeps
    otherwise; it fails exactly for a strategy that is not known; and, when the
    server has stored the result, running it again leaves the stored child as it
    is and reports no transition. *)
Definition reconciles {T} (server : T → T) (f : MutateFn T) (current : T) (always asDesired kept : T → Prop) : Prop :=
  ∃ out cb err, f current = (out, cb, err) ∧ always out ∧ (refreshes → asDesired out) ∧ (¬ refreshes → kept out) ∧
    (err = None ↔ strategy ∈ [Never; WhenFailedOrHibernated; Always]) ∧
    (err = None → ∃ out', f (server out) = (out', None, None) ∧ server out' = server out).

Lemma decision_cases :
  match reconcileDecision cr with
  | UpdateChild => refreshes ∧ strategy ∈ [Never; WhenFailedOrHibernated; Always]
  | KeepChild => ¬ refreshes ∧ strategy ∈ [Never; WhenFailedOrHibernated; Always]
  | UnknownStrategy _ => ¬ refreshes ∧ strategy ∉ [Never; WhenFailedOrHibernated; Always]
  end.
Proof.
  unfold reconcileDecision, refreshes.
  destruct (String.eqb_spec strategy Never) as [->|Hn]; [split; [by intros [|[? _]]|set_solver]|].
  destruct (String.eqb_spec strategy WhenFailedOrHibernated) as [->|Hw].
  - destruct (isFailedOrHibernated cr); cbn; (split; [|set_solver]); [by right|by intros [|[_ ?]]].
  - destruct (String.eqb_spec strategy Always) as [->|Ha]; [split; [by left|set_solver]|].
    split; [by intros [|[? _]]|set_solver].
Qed.

(** What is left to show of a callback, for the three outcomes of the strategy. *)
Lemma reconciles_intro {T} (server : T → T) (f : MutateFn T) (current : T) always asDesired kept :
  (∃ out cb err, f current = (out, cb, err) ∧ always out ∧
     match reconcileDecision cr with
     | UpdateChild => asDesired out ∧ err = None
     | KeepChild => kept out ∧ err = None
     | UnknownStrategy _ => kept out ∧ is_Some err
     end ∧
     (err = None → ∃ out', f (server out) = (out', None, None) ∧ server out' = server out)) →
  reconciles server f current always asDesired kept.
Proof.
  intros (out & cb & err & Hf & Ha & Hm & Hs). exists out, cb, err. split; [done|]. split; [done|].
  pose proof decision_cases as Hd. destruct (reconcileDecision cr); destruct Hm as [Hm He], Hd as [Hr Hk].
  - subst err. by split_and!.
  - subst err. by split_and!.
  - split; [done|]. split; [done|]. split; [|done]. destruct He as [e ->]. by split.
Qed.

Lemma settles_again {T} (f : MutateFn T) current out cb :
  settles f current → f current = (out, cb, None) → ∃ out', f (id out) = (out', None, None) ∧ id out' = id out.
Proof. unfold settles. intros Hs Hf. rewrite Hf in Hs. eauto. Qed.

Lemma refreshMeta_asDesired current desired : metaAsDesired current desired (refreshMeta current desired).
Proof. split; [done|]. split; intros k; apply cleanWellKnown_lookup. Qed.

Lemma serverSecret_lookup s k :
  Secret.Data (serverSecret s) !! k = match Secret.StringData s !! k with Some v => Some v | None => Secret.Data s !! k end.
Proof. cbn. rewrite lookup_union. by destruct (Secret.StringData s !! k), (Secret.Data s !! k). Qed.

Lemma serverSecret_again s : serverSecret (serverSecret s) = serverSecret s.
Proof. unfold serverSecret. cbn. by rewrite (left_id_L ∅ (∪)). Qed.

Lemma mutate_Secret_asDesired desired current out cb :
  created (Secret.Meta current) = true → reconcileDecision cr = UpdateChild →
  mutate_Secret cr desired current = (out, cb, None) → secretAsDesired desired current out.
Proof.
  intros Hc Hd. unfold mutate_Secret. rewrite Hc, Hd. cbn [negb]. intros [= <- <-].
  split; [apply refreshMeta_asDesired|]. intros k. rewrite !serverSecret_lookup. cbn [Secret.StringData Secret.Data].
  destruct (String.eqb_spec k "WSTUNNEL_SECRET") as [->|Hk];
    destruct (Secret.Data current !! "WSTUNNEL_SECRET") as [v|];
    rewrite ?lookup_insert_eq, ?lookup_insert_ne, ?maps_Copy_lookup, ?lookup_empty by (by intros <-); try done;
    by destruct (Secret.StringData desired !! _).
Qed.

(** Once stored, a second pass stores the same. *)
Lemma mutate_Secret_settles desired current out cb :
  created (Secret.Meta current) = true → mutate_Secret cr desired current = (out, cb, None) →
  ∃ out', mutate_Secret cr desired (serverSecret out) = (out', None, None) ∧ serverSecret out' = serverSecret out.
Proof.
  intros Hc Hf. assert (Hc' : created (Secret.Meta (serverSecret out)) = true).
  { unfold mutate_Secret in Hf. rewrite Hc in Hf. cbn [negb] in Hf. by destruct (reconcileDecision cr); simplify_eq. }
  destruct (reconcileDecision cr) eqn:Hd.
  - exists (serverSecret out). unfold mutate_Secret. rewrite Hc', Hd. split; [done|apply serverSecret_again].
  - pose proof (mutate_Secret_asDesired desired current out cb Hc Hd Hf) as [_ Hout].
    assert (∃ out', mutate_Secret cr desired (serverSecret out) = (out', None, None)) as [out' Hf'].
    { unfold mutate_Secret. rewrite Hc', Hd. eauto. }
    exists out'. split; [exact Hf'|].
    pose proof (mutate_Secret_asDesired desired _ out' None Hc' Hd Hf') as [_ Hout'].
    assert (Secret.Data (serverSecret out') = Secret.Data (serverSecret out)) as Hdata.
    { apply map_eq. intros k. rewrite Hout', Hout. destruct (k =s "WSTUNNEL_SECRET") eqn:Ek; [|done].
      apply String.eqb_eq in Ek. subst k. cbn.
      destruct (Secret.Data current !! _); [done|]. by destruct (_ !! _). }
    unfold mutate_Secret in Hf, Hf'. rewrite Hc, Hd in Hf. rewrite Hc', Hd in Hf'. cbn [negb] in Hf, Hf'.
    simplify_eq. unfold serverSecret in *. cbn in *. by rewrite Hdata, refreshMeta_idem.
  - unfold mutate_Secret in Hf. by rewrite Hc, Hd in Hf.
Qed.

(** C19: Reconciling an existing child brings it to the desired state in one step
    and then leaves it there, for every kind and every strategy.  Under a strategy
    that refreshes the child, its metadata, the parts of its specification that are
    reconciled, and its workload are the desired ones, and its identity stays;
    otherwise it is kept as it is.  The scale and the scheduling of a stateful set
    and of an unfinished job are always the desired ones; a finished job is not
    touched.  A tunnel secret that there already is survives.  The callback fails
    exactly for an unknown strategy, and running it on what the server has stored
    changes nothing any more and reports no hibernation or resumption. *)
Theorem reconcile_settles :
  (∀ desired current, created (Ingress.Meta current) = true →
     reconciles id (mutate_Ingress cr desired) current (λ _, True) (ingressAsDesired desired current) (λ out, out = current)) ∧
  (∀ desired current, created (Service.Meta current) = true →
     reconciles id (mutate_Service cr desired) current (λ _, True) (serviceAsDesired desired current) (λ out, out = current)) ∧
  (∀ desired current, created (PersistentVolumeClaim.Meta current) = true →
     reconciles id (mutate_PVC cr desired) current (λ _, True) (pvcAsDesired desired current) (λ out, out = current)) ∧
  (∀ desired current, created (StatefulSet.Meta current) = true →
     reconciles id (mutate_StatefulSet cr desired) current (stsFollows desired current) (stsAsDesired desired current) (stsKept current)) ∧
  (∀ desired current, created (Job.Meta current) = true →
     if jobIsFinished (Job.Status current) then mutate_Job cr desired current = (current, None, None)
     else reconciles id (mutate_Job cr desired) current (jobFollows desired current) (jobAsDesired desired current) (jobKept current)) ∧
  (∀ desired current, created (Secret.Meta current) = true →
     reconciles serverSecret (mutate_Secret cr desired) current (λ _, True) (secretAsDesired desired current) (λ out, out = current)).
Proof.
  split_and!; intros desired current Hc.
  - apply reconciles_intro. pose proof (mutate_Ingress_settles cr desired current Hc) as Hs.
    destruct (mutate_Ingress cr desired current) as [[out cb] err] eqn:Hf. exists out, cb, err. split; [done|]. split; [done|].
    split; [|intros ->; by eapply settles_again]. unfold mutate_Ingress in Hf. rewrite Hc in Hf. cbn [negb] in Hf.
    destruct (reconcileDecision cr); simplify_eq; (split; [|done]); try done. split; [apply refreshMeta_asDesired|done].
  - apply reconciles_intro. pose proof (mutate_Service_settles cr desired current Hc) as Hs.
    destruct (mutate_Service cr desired current) as [[out cb] err] eqn:Hf. exists out, cb, err. split; [done|]. split; [done|].
    split; [|intros ->; by eapply settles_again]. unfold mutate_Service in Hf. rewrite Hc in Hf. cbn [negb] in Hf.
    destruct (reconcileDecision cr); simplify_eq; (split; [|done]); try done. split; [apply refreshMeta_asDesired|done].
  - apply reconciles_intro. pose proof (mutate_PVC_settles cr desired current Hc) as Hs.
    destruct (mutate_PVC cr desired current) as [[out cb] err] eqn:Hf. exists out, cb, err. split; [done|]. split; [done|].
    split; [|intros ->; by eapply settles_again]. unfold mutate_PVC in Hf. rewrite Hc in Hf. cbn [negb] in Hf.
    destruct (reconcileDecision cr); simplify_eq; (split; [|done]); try done. split; [apply refreshMeta_asDesired|done].
  - apply reconciles_intro. pose proof (mutate_StatefulSet_settles cr desired current Hc) as Hs.
    destruct (mutate_StatefulSet cr desired current) as [[out cb] err] eqn:Hf. exists out, cb, err. split; [done|].
    pose proof Hf as Hrun. unfold mutate_StatefulSet in Hf. rewrite Hc in Hf. cbn [negb] in Hf.
    split; [by destruct (reconcileDecision cr); simplify_eq|]. split; [|intros ->; exact (settles_again _ _ _ _ Hs Hrun)].
    destruct (reconcileDecision cr); simplify_eq; (split; [|done]); try done. split; [apply refreshMeta_asDesired|done].
  - destruct (jobIsFinished (Job.Status current)) eqn:Hfin; [unfold mutate_Job; by rewrite Hfin|].
    apply reconciles_intro. pose proof (mutate_Job_settles cr desired current Hc) as Hs.
    destruct (mutate_Job cr desired current) as [[out cb] err] eqn:Hf. exists out, cb, err. split; [done|].
    pose proof Hf as Hrun. unfold mutate_Job in Hf. rewrite Hfin, Hc in Hf. cbn [negb] in Hf.
    split; [by destruct (reconcileDecision cr); simplify_eq|]. split; [|intros ->; exact (settles_again _ _ _ _ Hs Hrun)].
    destruct (reconcileDecision cr); simplify_eq; (split; [|done]); try done. split; [apply refreshMeta_asDesired|done].
  - apply reconciles_intro. destruct (mutate_Secret cr desired current) as [[out cb] err] eqn:Hf. exists out, cb, err.
    split; [done|]. split; [done|]. split; [|intros ->; by eapply mutate_Secret_settles].
    pose proof Hf as Hrun. unfold mutate_Secret in Hf. rewrite Hc in Hf. cbn [negb] in Hf.
    destruct (reconcileDecision cr) eqn:Hd; (split; [|by simplify_eq]); [by simplify_eq| |by simplify_eq].
    eapply mutate_Secret_asDesired; [done..|]. assert (err = None) as <- by (by simplify_eq). exact Hrun.
Qed.

(** Reconciling an existing stateful set always applies the desired
    replica count and placement and never touches the identity of the object
    or its status; the workload (containers, init containers, volumes) is the
    desired one exactly when the strategy is Always, or WhenFailedOrHibernated
    in a failed or hibernated session, and the running one otherwise. *)
Theorem statefulset_strategy desired current out cb err :
  created (StatefulSet.Meta current) = true →
  mutate_StatefulSet cr desired current = (out, cb, err) →
  StatefulSetSpec.Replicas (StatefulSet.Spec out) = StatefulSetSpec.Replicas (StatefulSet.Spec desired) ∧
  placement (stsPod out) = placement (stsPod desired) ∧
  sameIdentity (StatefulSet.Meta current) (StatefulSet.Meta out) ∧
  StatefulSet.Status out = StatefulSet.Status current ∧
  let strategy := AmaltheaSessionSpec.ReconcileStrategy_ (AmaltheaSession.Spec cr) in
  let refresh := strategy = Always ∨ (strategy = WhenFailedOrHibernated ∧ isFailedOrHibernated cr = true) in
  (refresh → err = None ∧ workload (stsPod out) = workload (stsPod desired)) ∧
  (~ refresh → workload (stsPod out) = workload (stsPod current) ∧
               ObjectMeta.Labels (StatefulSet.Meta out) = ObjectMeta.Labels (StatefulSet.Meta current)) ∧
  (is_Some err ↔ strategy ∉ [Never; WhenFailedOrHibernated; Always]).
Proof.
  intros Hc. unfold mutate_StatefulSet, reconcileDecision. rewrite Hc. cbn [negb].
  set (strategy := AmaltheaSessionSpec.ReconcileStrategy_ _).
  destruct (String.eqb_spec strategy Never) as [Hn|Hn];
    [|destruct (String.eqb_spec strategy WhenFailedOrHibernated) as [Hw|Hw];
      [destruct (isFailedOrHibernated cr) eqn:Hf|destruct (String.eqb_spec strategy Always) as [Ha|Ha]]];
    cbn; intros; simplify_eq; split_and!; try done; rewrite ?Hn, ?Hw, ?Ha, ?is_Some_alt; cbn;
    try naive_solver; set_solver.
Qed.

(** Labels and annotations of a reconciled child: a key in a
    kubernetes.io or k8s.io domain keeps the value the cluster gave it; every
    other key has the desired value, and keys that are not desired any more
    are dropped. *)
Theorem labels_reconciled current desired k :
  ObjectMeta.Labels (refreshMeta current desired) !! k =
    (if wellKnown k
     then match ObjectMeta.Labels current !! k with Some v => Some v | None => ObjectMeta.Labels desired !! k end
     else ObjectMeta.Labels desired !! k) ∧
  ObjectMeta.Annotations (refreshMeta current desired) !! k =
    (if wellKnown k
     then match ObjectMeta.Annotations current !! k with
          | Some v => Some v | None => ObjectMeta.Annotations desired !! k end
     else ObjectMeta.Annotations desired !! k).
Proof. split; apply cleanWellKnown_lookup. Qed.

(** The tunnel secret of a remote session survives every later
    reconciliation: whatever fresh random value the desired secret carries,
    the secret the server stores keeps the value it had. *)
Theorem tunnel_secret_stable desired current v out cb err :
  created (Secret.Meta current) = true →
  Secret.StringData current = ∅ →
  Secret.Data current !! "WSTUNNEL_SECRET" = Some v →
  mutate_Secret cr desired current = (out, cb, err) →
  Secret.Data (serverSecret out) !! "WSTUNNEL_SECRET" = Some v ∧
  sameIdentity (Secret.Meta current) (Secret.Meta out).
Proof.
  intros Hc Hsd Hv. unfold mutate_Secret. rewrite Hc. cbn [negb].
  destruct (reconcileDecision cr); intros; simplify_eq; (split; [|done]); cbn.
  - by rewrite Hsd, (left_id_L ∅ (∪)).
  - rewrite Hv. rewrite lookup_union_l', lookup_insert_eq; [done|]. rewrite lookup_insert_eq. eauto.
  - by rewrite Hsd, (left_id_L ∅ (∪)).
Qed.

(** A finished job is never changed again, and a job that is not finished
    follows the hibernation flag through its suspend field under every
    strategy. *)
Theorem job_suspension desired current out cb err :
  created (Job.Meta current) = true →
  mutate_Job cr desired current = (out, cb, err) →
  (jobIsFinished (Job.Status current) = true → out = current ∧ cb = None ∧ err = None) ∧
  (jobIsFinished (Job.Status current) = false →
     JobSpec.Suspend (Job.Spec out) = JobSpec.Suspend (Job.Spec desired) ∧
     cb = suspendCallback (JobSpec.Suspend (Job.Spec current)) (JobSpec.Suspend (Job.Spec desired)) ∧
     sameIdentity (Job.Meta current) (Job.Meta out)).
Proof.
  intros Hc. unfold mutate_Job. destruct (jobIsFinished _) eqn:Hf.
  - intros. by simplify_eq.
  - rewrite Hc. cbn [negb].
    destruct (reconcileDecision cr); intros Hm; inversion Hm; subst; by split.
Qed.

End Theorems.

(** Building the children of a session and reconciling them. *)
Definition buildAndReconcile (env : Env) `{QuantityOps} `{ControllerUtil} `{YamlLib}
    (cr : AmaltheaSession.t) (cfg : AmaltheaSessionConfiguration) : M (option ChildResourceUpdates.t) :=
  children ← NewChildResources env cr cfg;
  match children with
  | inr _ => mret None
  | inl c => '(updates, _) ← ChildResources_Reconcile c cr; mret (Some updates)
  end.

(** The callbacks that reconciling the children of a session leaves to
    run on its status agree with the hibernation flag: the status of a resumed
    session is never stamped as hibernated, nor the other way round. *)
Theorem callbacks_fit env `{QuantityOps} `{ControllerUtil} `{YamlLib} cr cfg :
  wp (clusterMonitor (λ _ _, True)) (buildAndReconcile env cr cfg)
    (λ r _, match r with Some u => Forall (fits cr) (callbacks u) | None => True end) tt.
Proof.
  unfold buildAndReconcile.
  eapply wp_bind_intro; [eapply wp_weaken; [|apply NewChildResources_wp]; by apply sim_weaken|].
  intros [c|err] [] Hc; [|done].
  eapply wp_bind_intro; [by apply ChildResources_Reconcile_wp|]. by intros [u err] [] Hu.
Qed.

(** ** Errors of the children *)

Lemma dataSourceErrors_spec l errors :
  Forall (λ u, is_Some (Error u) → is_Some (Manifest u)) l →
  ∃ m, dataSourceErrors l errors = Done m ∧
       (m = ∅ ↔ errors = ∅ ∧ Forall (λ u, Error u = None) l).
Proof.
  intros Hl. revert errors. induction Hl as [|u l Hu Hl IH]; intros errors; cbn; [naive_solver|].
  destruct (Error u) as [e|] eqn:He.
  - destruct (Manifest u) as [m|]; [|by destruct Hu as [? ?]]. cbn.
    destruct (IH (<["DataSourcesPVCs/" +:+ ObjectMeta.Name (PersistentVolumeClaim.Meta m) := e]> errors))
      as (r & -> & Hr). exists r. split; [done|]. rewrite Hr.
    split; [intros [[]%insert_non_empty _]|]. intros [_ Hf]. inversion Hf. congruence.
  - destruct (IH errors) as (r & -> & Hr). exists r. split; [done|]. rewrite Hr, list.Forall_cons. naive_solver.
Qed.

(** The errors of the children that have one each, apart from the job. *)
Definition singleErrors (c : ChildResourceUpdates.t) : list (option GoError) :=
  [Error (ChildResourceUpdates.Ingress c); Error (ChildResourceUpdates.Service c);
   Error (ChildResourceUpdates.PVC c); Error (ChildResourceUpdates.StatefulSet c);
   Error (ChildResourceUpdates.Secret c)].

Lemma namedErrors_empty c : namedErrors c = ∅ ↔ Forall (λ e, e = None) (singleErrors c).
Proof.
  unfold namedErrors, singleErrors. rewrite !list.Forall_cons.
  destruct (Error (ChildResourceUpdates.Ingress c)), (Error (ChildResourceUpdates.Service c)),
    (Error (ChildResourceUpdates.PVC c)), (Error (ChildResourceUpdates.StatefulSet c)),
    (Error (ChildResourceUpdates.Secret c)); cbn; split; intros Hx; try done;
    try (by exfalso; eapply insert_non_empty); naive_solver.
Qed.

(** The combined error of a reconciliation is nil exactly when the
    ingress, the service, the volume claim, the stateful set, the secret and
    every data source claim were reconciled without an error. *)
Theorem combineErrors_nil c :
  Forall (λ u, is_Some (Error u) → is_Some (Manifest u)) (ChildResourceUpdates.DataSourcesPVCs c) →
  ∃ err, combineErrors c = Done err ∧
    (err = None ↔ Forall (λ e, e = None) (singleErrors c) ∧
                  Forall (λ u, Error u = None) (ChildResourceUpdates.DataSourcesPVCs c)).
Proof.
  intros Hl. destruct (dataSourceErrors_spec _ (namedErrors c) Hl) as (m & Hm & Hiff).
  unfold combineErrors. rewrite Hm. cbn. eexists. split; [done|].
  rewrite namedErrors_empty in Hiff. rewrite <- Hiff. destruct (map_to_list m) as [|[k e] r] eqn:Em; cbn.
  - split; [intros _|done]. by apply map_to_list_empty_iff.
  - split; [done|]. intros ->. by rewrite map_to_list_empty in Em.
Qed.

(** The updates with another outcome for the job. *)
Definition with_Job (c : ChildResourceUpdates.t) (u : ChildResourceUpdate Job.t) : ChildResourceUpdates.t :=
  ChildResourceUpdates.mk (ChildResourceUpdates.Ingress c) (ChildResourceUpdates.Service c)
    (ChildResourceUpdates.StatefulSet c) (ChildResourceUpdates.PVC c) (ChildResourceUpdates.DataSourcesPVCs c)
    (ChildResourceUpdates.Secret c) u.

(** The outcome of the job is lost: neither its error nor its status
    callback reaches the pass, whatever they are. *)
Theorem job_outcome_ignored c u status :
  combineErrors (with_Job c u) = combineErrors c ∧
  statusCallback (with_Job c u) status = statusCallback c status.
Proof. done. Qed.

(** ** Witnesses *)

Definition madeAt : ObjectMeta.t := stamp (Time.Unix 1700000000) (newMeta "demo" "ns" ∅ ∅).
Definition demoCr : AmaltheaSession.t := demo None [] false Controller.initialStatus.
Definition demoSts (replicas : Z) : StatefulSet.t :=
  StatefulSet.mk madeAt (StatefulSetSpec.mk (Some replicas) None emptyTemplate "Parallel" NoRest)
    (StatefulSetStatus.mk 0 0).
Definition demoJob (suspend : bool) : Job.t :=
  Job.mk madeAt (JobSpec.mk None None None None None (Some suspend) emptyTemplate NoRest)
    (JobStatus.mk [] 0 0 None).
Definition demoSecret (data stringData : gmap string string) : Secret.t :=
  Secret.mk madeAt data stringData NoRest.

(** A stateful set with too few replicas, and one that has settled. *)
Lemma reconcile_settles_witness :
  StatefulSetSpec.Replicas (StatefulSet.Spec (mutate_StatefulSet demoCr (demoSts 1) (demoSts 0)).1.1) = Some 1%Z ∧
  reconciles demoCr serverSecret (mutate_Secret demoCr (demoSecret ∅ {[ "WSTUNNEL_SECRET" := "new" ]}))
    (demoSecret {[ "WSTUNNEL_SECRET" := "old" ]} ∅) (λ _, True)
    (secretAsDesired (demoSecret ∅ {[ "WSTUNNEL_SECRET" := "new" ]}) (demoSecret {[ "WSTUNNEL_SECRET" := "old" ]} ∅))
    (λ out, out = demoSecret {[ "WSTUNNEL_SECRET" := "old" ]} ∅).
Proof.
  destruct (reconcile_settles demoCr) as (_ & _ & _ & Hsts & _ & Hsecret). split; [|by apply Hsecret].
  destruct (Hsts (demoSts 1) (demoSts 0) eq_refl) as (out & cb & err & -> & (Hr & _) & _). exact Hr.
Defined.

Lemma statefulset_strategy_witness :
  StatefulSetSpec.Replicas (StatefulSet.Spec (mutate_StatefulSet demoCr (demoSts 1) (demoSts 0)).1.1) = Some 1%Z.
Proof.
  refine (proj1 (statefulset_strategy demoCr (demoSts 1) (demoSts 0) _ (Some ResumedCallback) None _ _));
    reflexivity.
Defined.

Lemma tunnel_secret_stable_witness :
  Secret.Data (serverSecret (mutate_Secret demoCr (demoSecret ∅ {[ "WSTUNNEL_SECRET" := "new" ]})
                 (demoSecret {[ "WSTUNNEL_SECRET" := "old" ]} ∅)).1.1) !! "WSTUNNEL_SECRET" = Some "old".
Proof.
  refine (proj1 (tunnel_secret_stable demoCr (demoSecret ∅ {[ "WSTUNNEL_SECRET" := "new" ]})
    (demoSecret {[ "WSTUNNEL_SECRET" := "old" ]} ∅) "old" _ None None _ _ _ _)); reflexivity.
Defined.

Lemma job_suspension_witness :
  JobSpec.Suspend (Job.Spec (mutate_Job demoCr (demoJob true) (demoJob false)).1.1) = Some true.
Proof.
  refine (proj1 (proj2 (job_suspension demoCr (demoJob true) (demoJob false) _ (Some HibernatedCallback) None
                          _ _) _)); reflexivity.
Defined.

Definition demoUpdates : ChildResourceUpdates.t :=
  ChildResourceUpdates.mk zeroUpdate zeroUpdate zeroUpdate zeroUpdate
    [mkUpdate (Some (emptyPVC madeAt)) OperationResultNone (Some (Errorf "no quota")) None] zeroUpdate zeroUpdate.

Lemma combineErrors_nil_witness : ∃ e, combineErrors demoUpdates = Done e ∧ e ≠ None.
Proof.
  destruct (combineErrors_nil demoUpdates) as (e & He & Hiff); [by repeat constructor|].
  exists e. split; [exact He|]. intros Hn. destruct (proj1 Hiff Hn) as [_ Hf].
  inversion Hf as [|? ? Hu]. discriminate Hu.
Defined.
