(* ===== verification/BuilderTheorems.v ===== *)
(** * Theorems on the desired children, culling and image rewriting *)

From S2P Require Import Prelude Prog NetUrl K8s Types Api Names Templates Config Children Routing.
From S2P Require Import Lifecycle PodStatus Cull BuilderProps Cluster.

Section Builders.
Context (env : Env) `{QuantityOps} (cr : AmaltheaSession.t) (cfg : AmaltheaSessionConfiguration).

(** C20: In the generated pod every volume mount of every container and init
    container (session, sidecars, tunnel, git cloners, extra ones) names a
    volume of the pod, provided the mounts the user adds name volumes the user
    adds. *)
Theorem pod_mounts_have_volumes pod :
  extraMountsOk cr → Pod env cr cfg = Done (inl pod) →
  containerMountsIn (PodSpec.Volumes pod) (PodSpec.Containers pod) ∧
  containerMountsIn (PodSpec.Volumes pod) (PodSpec.InitContainers pod).
Proof. apply Pod_mounts. Qed.

(** The data sources of a session give one claim, one volume and one
    mount each, under one name, in the order of the specification; the names
    are distinct, every volume uses the claim of its name, and the mount paths
    are those asked for. *)
Theorem data_sources_consistent pvcs vols mounts :
  DataSources env cr = Done (pvcs, vols, mounts) →
  pvcName <$> pvcs = Volume.Name <$> vols ∧
  VolumeMount.Name <$> mounts = Volume.Name <$> vols ∧
  claimOf <$> vols = Some <$> (pvcName <$> pvcs) ∧
  NoDup (pvcName <$> pvcs) ∧
  (AmaltheaSessionSpec.SessionLocation_ (AmaltheaSession.Spec cr) ≠ Remote →
   VolumeMount.MountPath <$> mounts =
     DataSource.MountPath <$> List.filter (λ ds, DataSource.Type_ ds =s Rclone)
       (AmaltheaSessionSpec.DataSources (AmaltheaSession.Spec cr))).
Proof.
  unfold DataSources. destruct (String.eqb_spec (AmaltheaSessionSpec.SessionLocation_ (AmaltheaSession.Spec cr)) Remote).
  - intros H'. inversion H'. split_and!; try done. constructor.
  - intros (H1 & H2 & H3 & H4 & H5)%dataSources_loop_names.
    split_and!; try congruence. rewrite H1. apply NoDup_fmap_2_strong; [|apply rcloneIds_NoDup].
    intros i j _ _. apply dataSourcePVCName_inj.
Qed.

(** C21: The traffic of the session service reaches the session: from the
    target port of the service a chain of generated proxies, each listening
    where the previous one forwards to, ends at the port of the session (token
    and oauth2-proxy authentication, and no authentication; the OIDC proxy is
    configured through a secret instead). *)
Theorem service_reaches_session m :
  (∀ auth, AmaltheaSessionSpec.Authentication_ (AmaltheaSession.Spec cr) = Some auth →
           Authentication.Type_ auth ≠ Oidc) →
  AuthTemplates.auth env cr = inl m →
  ∃ port rest, ServiceSpec.Ports (Service.Spec (Service cr)) = servicePort_ servicePortName servicePort
                 (FromInt32 port) :: rest ∧
    route (manifests_Containers m) port (Session.Port (Spec_Session cr)).
Proof. intros Ht Hm. eexists _, _. split; [done|]. by apply auth_route with env. Qed.

(** The selectors of the stateful set and of the service match the pods
    the stateful set creates, whatever labels the user adds, and the pods carry
    the current run ID when there is one. *)
Theorem selectors_match_pods sts :
  StatefulSet env cr cfg = Done (inl sts) →
  let template := PodTemplateSpec.Meta (StatefulSetSpec.Template (StatefulSet.Spec sts)) in
  (∃ sel, StatefulSetSpec.Selector (StatefulSet.Spec sts) = Some sel ∧ sel ⊆ ObjectMeta.Labels template) ∧
  ServiceSpec.Selector (Service.Spec (Service cr)) ⊆ ObjectMeta.Labels template ∧
  (AmaltheaSessionStatus.RunID (AmaltheaSession.Status cr) ≠ "" →
   ObjectMeta.Annotations template !! "renku.io/run_id" =
     Some (AmaltheaSessionStatus.RunID (AmaltheaSession.Status cr))).
Proof.
  intros (Hsel & Hl & Ha & _)%StatefulSet_labels. cbn zeta. rewrite Hsel, Hl, Ha.
  split_and!; [eexists; split; [done|]; apply childLabels_selector|apply childLabels_selector|].
  intros Hr%String.eqb_neq. unfold runAnnotations. rewrite Hr. cbn [negb].
  case_if; rewrite ?lookup_insert_ne by done; apply lookup_insert_eq.
Qed.

(** The adopted secrets of a session are exactly the secrets its
    specification references with the adopt flag and a name, in the session's
    namespace: the TLS secret, the secret of enabled authentication, the remote
    secret, and those of data sources, code repositories and image pulls. *)
Theorem adopted_secrets_spec s :
  s ∈ AdoptedSecrets cr ↔
  ∃ name, name ≠ "" ∧ (name, true) ∈ secretRefs cr ∧ s = secretNamed cr name.
Proof.
  rewrite AdoptedSecrets_refs, list_elem_of_fmap. split.
  - intros ([name adopt] & -> & Hin). apply list_elem_of_In, filter_In in Hin as [Hin Ho].
    unfold owned in Ho. bool_simpl. destruct Ho as [? Ho]. cbn in *. subst.
    exists name. split_and!; try done. by apply list_elem_of_In.
  - intros (name & Hn & Hin & ->). exists (name, true). split; [done|].
    apply list_elem_of_In, filter_In. split; [by apply list_elem_of_In|].
    unfold owned. cbn [fst snd]. by apply String.eqb_neq in Hn as ->.
Qed.
End Builders.

(** ** Automatic deletion and culling *)

(** A session is due for deletion exactly when it is interactive and has
    been hibernated for longer than its non-zero maximum, or non-interactive
    and finished (failed or succeeded) for longer than the maximum, counted
    from the earlier of its idle and failing times. *)
Theorem NeedsDeletion_spec now cr :
  let status := AmaltheaSession.Status cr in
  let max := Culling.MaxHibernatedDuration (AmaltheaSessionSpec.Culling_ (AmaltheaSession.Spec cr)) in
  Int.in64 max → (max < Duration.max)%Z →
  NeedsDeletion now cr = true ↔
  if decide (AmaltheaSessionSpec.SessionType_ (AmaltheaSession.Spec cr) = SessionTypeNonInteractive)
  then AmaltheaSessionStatus.State_ status ∈ [Failed; Succeeded] ∧ doneSince status ≠ Time.zero ∧
       (now - doneSince status > max)%Z
  else AmaltheaSessionStatus.State_ status = Hibernated ∧ max ≠ 0%Z ∧
       (now - AmaltheaSessionStatus.HibernatedSince status > max)%Z.
Proof.
  cbn zeta. intros H64 Hmax. unfold NeedsDeletion, Time.Since.
  destruct (String.eqb_spec (AmaltheaSessionSpec.SessionType_ (AmaltheaSession.Spec cr))
              SessionTypeNonInteractive) as [Ht|Ht]; case_decide; try done.
  - rewrite <- (Time.Sub_gt_iff now (doneSince (AmaltheaSession.Status cr))) by done.
    bool_simpl. rewrite orb_true_iff, !String.eqb_eq, Z.ltb_lt.
    rewrite !elem_of_cons, elem_of_nil. split; [intros [[? ?] ?]|intros [? [? ?]]]; naive_solver lia.
  - rewrite <- (Time.Sub_gt_iff now (AmaltheaSessionStatus.HibernatedSince (AmaltheaSession.Status cr))) by done.
    bool_simpl. rewrite Z.eqb_neq, Z.ltb_lt. naive_solver lia.
Qed.

(** The published hibernation date is the earliest of the deadlines that
    apply (maximal age, starting, failing and idle time), and there is none
    exactly when no deadline applies. *)
Theorem hibernation_date_earliest creation status culling :
  let d := calculateHibernationDate creation status culling in
  let applying := deadlines creation status culling in
  (d = Time.zero ↔ applying = []) ∧
  (d ≠ Time.zero → d ∈ applying ∧ ∀ x, x ∈ applying → (d ≤ x)%Z).
Proof.
  cbn zeta. unfold deadlines.
  destruct (calculateHibernationDate_earliest creation status culling) as [[-> Hz]|(Hne & Hin & Hle)].
  - split; [|done]. split; [intros _|done]. apply elem_of_nil_inv.
    intros x [Hx Hin]%list_elem_of_filter. by eapply list.Forall_forall in Hz; [|exact Hin].
  - split; [split; [done|]|].
    + intros Hn. exfalso. apply (not_elem_of_nil (calculateHibernationDate creation status culling)).
      rewrite <- Hn. by apply list_elem_of_filter.
    + intros _. split; [by apply list_elem_of_filter|]. intros x [Hx Hxin]%list_elem_of_filter.
      eapply list.Forall_forall in Hle; [|exact Hxin]. by destruct Hle.
Qed.

(** The idle deadline counts from the later of the time the session
    became idle and the last interaction with it: interacting with an idle
    session postpones its hibernation, and never brings it forward. *)
Theorem idle_deadline status culling :
  let idle := AmaltheaSessionStatus.IdleSince status in
  let max := Culling.MaxIdleDuration culling in
  (0 ≤ idle)%Z →
  hibernationDateByIdleSince status culling =
  if decide (idle ≠ Time.zero ∧ (0 < max)%Z)
  then (Z.max idle (Culling.LastInteraction culling) + max)%Z else Time.zero.
Proof.
  cbn zeta. unfold hibernationDateByIdleSince, Time.After, Time.Add, Time.IsZero, Time.zero. intros Hidle.
  set (i := AmaltheaSessionStatus.IdleSince status) in *.
  set (l := Culling.LastInteraction culling). set (m := Culling.MaxIdleDuration culling).
  destruct (Z.eqb_spec l 0), (Z.eqb_spec i 0), (Z.ltb_spec i l), (Z.ltb_spec 0 m); cbn;
    try destruct (Z.eqb_spec l 0); try destruct (Z.eqb_spec i 0); cbn; case_decide; try lia.
Qed.

(** ** Image rewriting *)

(** A rule that applies to a reference, and what it makes of it. *)
Definition rewritesTo (rule : imageRewriteRule.t) (dp res : string) : Prop :=
  ruleWellFormed rule = true ∧
  ∃ suffix, imageRewriteRule.matches rule dp suffix ∧
            res = imageRewriteRule.TargetPrefix rule +:+ "/" +:+ suffix.

Lemma firstMatch_spec dp rules :
  match firstMatch dp rules with
  | Some res => ∃ pre rule post, rules = pre ++ rule :: post ∧ rewritesTo rule dp res ∧
                  Forall (λ r, ~ ∃ res, rewritesTo r dp res) pre
  | None => Forall (λ r, ~ ∃ res, rewritesTo r dp res) rules
  end.
Proof.
  induction rules as [|rule rules IH]; [constructor|]. unfold firstMatch in *. cbn.
  assert (Hcase : (∃ res, (if ruleWellFormed rule
             then match imageRewriteRule.rewrite rule dp with (res, true) => Some res | _ => None end
             else None) = Some res ∧ rewritesTo rule dp res) ∨
           ((if ruleWellFormed rule
             then match imageRewriteRule.rewrite rule dp with (res, true) => Some res | _ => None end
             else None) = None ∧ ~ ∃ res, rewritesTo rule dp res)).
  { unfold rewritesTo. destruct (ruleWellFormed rule); [|right; by split; [|intros (? & ? & _)]].
    destruct (imageRewriteRule.rewrite rule dp) as [res []] eqn:Er.
    - left. exists res. split; [done|]. split; [done|]. by apply imageRewriteRule.rewrite_match.
    - right. split; [done|]. intros (res' & _ & Hm).
      assert (Hr : imageRewriteRule.rewrite rule dp = (res', true)) by (by apply imageRewriteRule.rewrite_match).
      congruence. }
  destruct Hcase as [(res & -> & Hr)|[-> Hno]]; cbn.
  - exists [], rule, rules. by split_and!.
  - destruct (head _) as [res|].
    + destruct IH as (pre & r & post & -> & Hr & Hpre). exists (rule :: pre), r, post. split_and!; auto.
    + by constructor.
Qed.

(** C22: An image reference that parses is rewritten by the first rule, in
    order, whose non-empty source prefix is a whole-component prefix of its
    repository: the prefix is replaced and tag or digest are kept; without
    such a rule, and for a reference that does not parse, the image is left as
    it is. *)
Theorem image_rewriting `{DockerReference} rules image :
  ParseDockerRef_documented →
  match ParseDockerRef image with
  | inr err => ruleBasedRewriter_Rewrite rules image = (image, Some err)
  | inl named =>
      let dp := Named.Domain named +:+ "/" +:+ Named.Path named in
      (∃ pre rule post res, rules = pre ++ rule :: post ∧ rewritesTo rule dp res ∧
         Forall (λ r, ~ ∃ res, rewritesTo r dp res) pre ∧
         ruleBasedRewriter_Rewrite rules image = (res +:+ refSuffix named, None)) ∨
      (Forall (λ r, ~ ∃ res, rewritesTo r dp res) rules ∧
       ruleBasedRewriter_Rewrite rules image = (image, None))
  end.
Proof.
  intros Hdoc. unfold ruleBasedRewriter_Rewrite. destruct (ParseDockerRef image) as [named|err] eqn:Hp; [|done].
  cbn zeta. rewrite applyRules_spec.
  - pose proof (firstMatch_spec (Named.Domain named +:+ "/" +:+ Named.Path named) rules) as Hf.
    destruct (firstMatch _ rules) as [res|]; [left|by right].
    destruct Hf as (pre & rule & post & Hr & Hto & Hpre). by exists pre, rule, post, res.
  - destruct (Hdoc _ _ Hp) as [(t & -> & _)|(d & _ & ->)]; eauto.
Qed.

(** ** Witnesses *)

(** A session with a data source, a repository with credentials, an extra
    volume and oauth2-proxy authentication. *)
Definition fullSession : Session.t :=
  Session.mk "renku/session:1" "Always" [] [] [] (ResourceRequirements.mk ∅ ∅ NoRest) 8888
    (Storage.mk None None "/work") (Some (Quantity.MustParse "64")) "/work" 1000 1000 "/sessions/full" false
    [volumeMount "extra" "/extra" "" false] TCP None.

Definition fullSpec : AmaltheaSessionSpec.t :=
  AmaltheaSessionSpec.mk Local_ fullSession
    [CodeRepository.mk Git "repo" "https://git.io/r.git" "main"
       (Some (SessionSecretKeyRef.mk "creds" "config" true)) None]
    [DataSource.mk Rclone "/data" ReadOnlyMany (Some (SessionSecretRef.mk "rclone" "" true))]
    (Some demoAuth) demoCulling false [] [] [secretVolume "extra" "extra-secret" None]
    None ∅ None [] Always "" [] "" (TemplateMetadata.mk ∅ {[ "app.kubernetes.io/name" := "mine" ]})
    SessionTypeInteractive.

Definition runningStatus : AmaltheaSessionStatus.t :=
  AmaltheaSessionStatus.with_RunID Controller.initialStatus "01RUN".

Definition full : AmaltheaSession.t := AmaltheaSession.mk (demoMeta None []) fullSpec runningStatus.

Lemma pod_mounts_have_volumes_witness :
  match Pod ∅ full demoConfig with
  | Done (inl pod) =>
      containerMountsIn (PodSpec.Volumes pod) (PodSpec.Containers pod) ∧
      containerMountsIn (PodSpec.Volumes pod) (PodSpec.InitContainers pod)
  | _ => False
  end.
Proof.
  assert (Hd : match Pod ∅ full demoConfig with Done (inl _) => true | _ => false end = true) by (vm_compute; reflexivity).
  destruct (Pod ∅ full demoConfig) as [[pod|err]|why] eqn:E; [|discriminate Hd..].
  apply (pod_mounts_have_volumes ∅ full demoConfig); [|exact E].
  repeat constructor; apply list_elem_of_here.
Defined.

Lemma data_sources_consistent_witness :
  match DataSources ∅ full with
  | Done (pvcs, vols, mounts) => pvcName <$> pvcs = Volume.Name <$> vols
  | _ => False
  end.
Proof.
  assert (Hd : match DataSources ∅ full with Done _ => true | _ => false end = true) by (vm_compute; reflexivity).
  destruct (DataSources ∅ full) as [[[pvcs vols] mounts]|why] eqn:E; [|discriminate Hd].
  exact (proj1 (data_sources_consistent ∅ full pvcs vols mounts E)).
Defined.

Lemma service_reaches_session_witness :
  ∃ m port rest, AuthTemplates.auth ∅ full = inl m ∧
    ServiceSpec.Ports (Service.Spec (Service full)) =
      servicePort_ servicePortName servicePort (FromInt32 port) :: rest ∧
    route (manifests_Containers m) port 8888.
Proof.
  eexists. destruct (service_reaches_session ∅ full) with
    (m := match AuthTemplates.auth ∅ full with inl m => m | inr _ => mkManifests [] [] end)
    as (port & rest & H1 & H2).
  - intros auth Ha. injection Ha as <-. discriminate.
  - vm_compute. reflexivity.
  - exists port, rest. split; [|split; [exact H1|exact H2]]. vm_compute. reflexivity.
Defined.

Lemma selectors_match_pods_witness :
  match StatefulSet ∅ full demoConfig with
  | Done (inl sts) =>
      ServiceSpec.Selector (Service.Spec (Service full)) ⊆
        ObjectMeta.Labels (PodTemplateSpec.Meta (StatefulSetSpec.Template (StatefulSet.Spec sts)))
  | _ => False
  end.
Proof.
  assert (Hd : match StatefulSet ∅ full demoConfig with Done (inl _) => true | _ => false end = true) by (vm_compute; reflexivity).
  destruct (StatefulSet ∅ full demoConfig) as [[sts|err]|why] eqn:E; [|discriminate Hd..].
  exact (proj1 (proj2 (selectors_match_pods ∅ full demoConfig sts E))).
Defined.

(** Hibernated for three hours with a maximum of two. *)
Definition longHibernated : AmaltheaSession.t :=
  demo None [] true
    (AmaltheaSessionStatus.with_Since
       (AmaltheaSessionStatus.with_State Controller.initialStatus Hibernated)
       Time.zero Time.zero Time.zero (Time.Unix 1700000000)).

Lemma NeedsDeletion_spec_witness : NeedsDeletion (Time.Unix 1700010800) longHibernated = true.
Proof.
  apply (NeedsDeletion_spec (Time.Unix 1700010800) longHibernated); [split; vm_compute; discriminate|reflexivity|].
  vm_compute. split; [reflexivity|]. split; [discriminate|reflexivity].
Defined.

Lemma idle_deadline_witness :
  hibernationDateByIdleSince
    (AmaltheaSessionStatus.with_Since Controller.initialStatus (Time.Unix 100) Time.zero Time.zero Time.zero)
    (Culling.mk 0%Z (3600 * Duration.Second)%Z 0%Z 0%Z 0%Z (Time.Unix 160) Quantity.zero) = Time.Unix 3760.
Proof.
  rewrite (idle_deadline _ _); [vm_compute; reflexivity|]. vm_compute. discriminate.
Defined.

(** A parser that knows one reference. *)
#[global] Instance oneReference : DockerReference := {|
  ParseDockerRef image :=
    if image =s "alpine:3" then inl (Named.mk "docker.io" "library/alpine" (Some "3") None "alpine:3")
    else inr (Errorf "invalid reference format") |}.

Lemma oneReference_documented : ParseDockerRef_documented.
Proof. intros image named. cbn. case_if; [|done]. intros. simplify_eq. left. by exists "3". Qed.

Definition mirrorRules : list imageRewriteRule.t :=
  [imageRewriteRule.mk "docker.io/lib" "wrong.io"; imageRewriteRule.mk "docker.io" "mirror.io/hub"].

Lemma image_rewriting_witness :
  ruleBasedRewriter_Rewrite mirrorRules "alpine:3" = ("mirror.io/hub/library/alpine:3", None) ∧
  ∃ res, ruleBasedRewriter_Rewrite mirrorRules "alpine:3" = (res, None).
Proof.
  split; [vm_compute; reflexivity|].
  destruct (image_rewriting mirrorRules "alpine:3" oneReference_documented) as [(p & r & q & res & H1)|[_ H1]].
  - eexists. apply H1.
  - eexists. exact H1.
Defined.
