(* ===== verification/OperatorMain.v ===== *)
(** * The entry point of the operator (cmd/amalthea/main.go)

    The options that the flags and the environment give to the manager, and the
    steps from the configuration to the start of the manager.  The manager and
    the clients are events; logging, the Sentry client and the flags of the
    logger are left out, but for the exit when Sentry cannot be set up.  The
    options are characterised by what they ask of the manager ([asked]), the
    configuration of the controller by what the cluster and the environment say
    ([configured]); the set-up is shown to establish both. *)

From S2P Require Import Prelude Prog NetUrl K8s Types Api Config.

(** ** Options *)

Module Flags.
Record t := mk {
  metricsAddr : string;
  probeAddr : string;
  enableLeaderElection : bool;
  secureMetrics : bool;
  enableHTTP2 : bool;
  sentryDsn : string }.
Definition defaults : t := mk "0" ":8081" false true false "".
End Flags.

(** A TLS configuration: the protocols that are offered. *)
Module TlsConfig.
Record t := mk { NextProtos : list string }.
End TlsConfig.
Definition TlsOpt : Type := TlsConfig.t → TlsConfig.t.
Definition disableHTTP2 : TlsOpt := λ _, TlsConfig.mk ["http/1.1"].

(** What a server does with its options. *)
Definition applyTlsOpts (opts : list TlsOpt) (c : TlsConfig.t) : TlsConfig.t := foldl (λ c opt, opt c) c opts.

Module ManagerOptions.
Record t := mk {
  MetricsBindAddress : string;
  MetricsSecureServing : bool;
  MetricsTLSOpts : list TlsOpt;
  (** authentication and authorization in front of the metrics *)
  MetricsFilter : bool;
  WebhookTLSOpts : list TlsOpt;
  HealthProbeBindAddress : string;
  LeaderElection : bool;
  LeaderElectionID : string;
  (** [None] for all namespaces *)
  DefaultNamespaces : option (list string) }.
End ManagerOptions.

Definition releaseNamespace (env : Env) : string :=
  let ns := Getenv env "RELEASE_NAMESPACE" in if ns =s "" then "default" else ns.

(** The options of the metrics server are made before the function that disables
    HTTP/2 is added to [tlsOpts]. *)
Definition managerOptions (flags : Flags.t) (env : Env) : ManagerOptions.t :=
  let tlsOpts := [] in
  let metricsTLSOpts := tlsOpts in
  let tlsOpts := if negb (Flags.enableHTTP2 flags) then tlsOpts ++ [disableHTTP2] else tlsOpts in
  let clusterScoped := Getenv env "CLUSTER_SCOPED" =s "true" in
  {| ManagerOptions.MetricsBindAddress := Flags.metricsAddr flags;
     ManagerOptions.MetricsSecureServing := Flags.secureMetrics flags;
     ManagerOptions.MetricsTLSOpts := metricsTLSOpts;
     ManagerOptions.MetricsFilter := Flags.secureMetrics flags;
     ManagerOptions.WebhookTLSOpts := tlsOpts;
     ManagerOptions.HealthProbeBindAddress := Flags.probeAddr flags;
     ManagerOptions.LeaderElection := Flags.enableLeaderElection flags;
     ManagerOptions.LeaderElectionID := "d2dc1fe0.amalthea.dev";
     ManagerOptions.DefaultNamespaces := if clusterScoped then None else Some [releaseNamespace env] |}.

(** [SetupWithManager]: besides the sessions, the kinds of children whose changes
    trigger a pass. *)
Definition Owns : list {T & Kind T} :=
  [existT _ KStatefulSet; existT _ KService; existT _ KIngress; existT _ KPVC; existT _ KSecret].

(** ** Steps *)

Inductive Op : Type → Type :=
| SentryInit : Op (option GoError)
(** [GetConfigOrDie], which exits on an error *)
| GetConfig : Op (option GoError)
| HTTPClientFor : Op (option GoError)
| NewManager (options : ManagerOptions.t) : Op (option GoError)
(** [NewForConfigOrDie], which panics on an error *)
| MetricsClientFor : Op (option GoError)
(** the API groups that the cluster lists *)
| ServerGroups : Op (Result (list string))
| SetupWithManager (cfg : AmaltheaSessionConfiguration) : Op (option GoError)
| IndexField (field : string) : Op (option GoError)
| AddHealthzCheck (name : string) : Op (option GoError)
| AddReadyzCheck (name : string) : Op (option GoError)
| StartManager : Op (option GoError).

(** [if err != nil { ...; os.Exit(1) }] *)
Definition orExit (p : Prog Op (option GoError)) (rest : Prog Op Z) : Prog Op Z :=
  err ← p; match err with Some _ => mret 1%Z | None => rest end.
Notation "p ;;! q" := (orExit p q) (at level 99, right associativity).

Definition indexedFields : list string := ["involvedObject.name"; "involvedObject.namespace"; "involvedObject.kind"].

(** The indexers; an error is only logged. *)
Fixpoint indexFields (fields : list string) : Prog Op unit :=
  match fields with
  | [] => mret tt
  | field :: fields => _ ← trigger (IndexField field); indexFields fields
  end.

(** [main]: the exit code. *)
Definition main `{DockerReference} (flags : Flags.t) (env : Env) : Prog Op Z :=
  (if Flags.sentryDsn flags ≠s "" then trigger SentryInit else mret None) ;;!
  trigger GetConfig ;;!
  trigger HTTPClientFor ;;!
  trigger (NewManager (managerOptions flags env)) ;;!
  err ← trigger MetricsClientFor;
  match err with
  | Some err => Panic (err_msg err)
  | None =>
      groups ← trigger ServerGroups;
      match GetAmaltheaSessionConfiguration groups env with
      | inr _ => mret 1%Z
      | inl cfg =>
          trigger (SetupWithManager cfg) ;;!
          _ ← indexFields indexedFields;
          trigger (AddHealthzCheck "healthz") ;;!
          trigger (AddReadyzCheck "readyz") ;;!
          trigger StartManager ;;!
          mret 0%Z
      end
  end.

(** ** What is asked of the manager *)

Section Asked.
Context `{DockerReference} (flags : Flags.t) (env : Env).

(** A manager with these options sees the objects of a namespace. *)
Definition watches (o : ManagerOptions.t) (ns : string) : Prop :=
  match ManagerOptions.DefaultNamespaces o with None => True | Some l => ns ∈ l end.

(** What flags and environment ask for.  The namespaces are all or one: that of
    the release, else [default].  The webhook offers what it is configured with
    or HTTP/1.1 only; the metrics, when they are served at an address, what they
    are configured with, and if they are secure they are guarded. *)
Record asked (o : ManagerOptions.t) : Prop := {
  asked_metrics : ManagerOptions.MetricsBindAddress o = Flags.metricsAddr flags ∧
    ManagerOptions.MetricsSecureServing o = Flags.secureMetrics flags ∧
    (ManagerOptions.MetricsFilter o = true ↔ Flags.secureMetrics flags = true) ∧
    ∀ c, applyTlsOpts (ManagerOptions.MetricsTLSOpts o) c = c;
  asked_webhook : ∀ c, TlsConfig.NextProtos (applyTlsOpts (ManagerOptions.WebhookTLSOpts o) c) =
    if Flags.enableHTTP2 flags then TlsConfig.NextProtos c else ["http/1.1"];
  asked_probes : ManagerOptions.HealthProbeBindAddress o = Flags.probeAddr flags;
  asked_leader : ManagerOptions.LeaderElection o = Flags.enableLeaderElection flags ∧
    ManagerOptions.LeaderElectionID o = "d2dc1fe0.amalthea.dev";
  asked_scope : ∀ ns, watches o ns ↔
    env !! "CLUSTER_SCOPED" = Some "true" ∨ (env !! "RELEASE_NAMESPACE" = Some ns ∧ ns ≠ "") ∨
    (ns = "default" ∧ default "" (env !! "RELEASE_NAMESPACE") = "") }.

Lemma managerOptions_asked : asked (managerOptions flags env).
Proof.
  split; cbn.
  - by split_and!.
  - intros c. by destruct (Flags.enableHTTP2 flags).
  - done.
  - done.
  - intros ns. unfold watches. cbn. unfold releaseNamespace, Getenv.
    destruct (env !! "CLUSTER_SCOPED") as [scope|] eqn:Ec; cbn.
    1: destruct (String.eqb_spec scope "true") as [->|Hs]; [split; intros _; [by left|done]|].
    all: rewrite list_elem_of_singleton.
    all: destruct (env !! "RELEASE_NAMESPACE") as [x|] eqn:En; cbn.
    all: try destruct (String.eqb_spec x "") as [->|Hx].
    all: naive_solver.
Qed.

(** The configuration of the controller: the kind of the cluster, which lists the
    groups of its API, and the rules by which images are rewritten, if any. *)
Definition configured (groups : Result (list string)) (cfg : AmaltheaSessionConfiguration) : Prop :=
  ∃ l rules, groups = inl l ∧
    ClusterType_ cfg = (if decide ("project.openshift.io" ∈ l) then "openshift" else "kubernetes") ∧
    (if decide (default "" (env !! "AMALTHEA_IMAGE_REWRITE_RULES") = "") then rules = []
     else parseImageRewriteRules (default "" (env !! "AMALTHEA_IMAGE_REWRITE_RULES")) = inl rules) ∧
    ImageFieldRewriter_ cfg = match rules with [] => None | _ => Some {| Rewrite := ruleBasedRewriter_Rewrite rules |} end.

Lemma configuration_configured groups :
  match GetAmaltheaSessionConfiguration groups env with
  | inl cfg => configured groups cfg
  | inr _ => ∀ cfg, ¬ configured groups cfg
  end.
Proof.
  unfold GetAmaltheaSessionConfiguration, GetImageFieldRewriter, Getenv, configured.
  destruct groups as [l|err]; cbn; [|intros cfg (l & rules & He & _); discriminate].
  destruct (String.eqb_spec (default "" (env !! "AMALTHEA_IMAGE_REWRITE_RULES")) "") as [->|Hne].
  - exists l, []. split_and!; [done|apply detectGroups_spec|by rewrite decide_True|done].
  - destruct (parseImageRewriteRules _) as [[|rule rules]|err] eqn:Ep.
    + exists l, []. split_and!; [done|apply detectGroups_spec|by rewrite decide_False|done].
    + exists l, (rule :: rules). split_and!; [done|apply detectGroups_spec|by rewrite decide_False|done].
    + intros cfg (l' & rules & _ & _ & Hr & _). rewrite decide_False in Hr by done. by simplify_eq.
Qed.
End Asked.

(** ** Theorems *)

(** How far the set-up has come: each step is taken once, in this order.  The
    fields of the events are indexed one after the other; whether that works does
    not matter. *)
Inductive stage :=
| Begin | Config | Client | Managed | Metered | Listed (groups : Result (list string)) | Indexed (fields : list string)
| Healthy | Ready | Ran | Broken | NoMetrics.

Section Main.
Context `{DockerReference} (flags : Flags.t) (env : Env).

Definition onSuccess (r : option GoError) (s : stage) : stage := match r with None => s | Some _ => Broken end.

Definition setup : Monitor Op stage := {|
  allowed := λ R e, match e in Op R return stage → Prop with
    | SentryInit => λ g, g = Begin ∧ Flags.sentryDsn flags ≠ ""
    | GetConfig => λ g, g = Begin
    | HTTPClientFor => λ g, g = Config
    | NewManager options => λ g, g = Client ∧ asked flags env options
    | MetricsClientFor => λ g, g = Managed
    | ServerGroups => λ g, g = Metered
    | SetupWithManager cfg => λ g, ∃ groups, g = Listed groups ∧ configured env groups cfg
    | IndexField field => λ g, ∃ before after, g = Indexed before ∧
        ["involvedObject.name"; "involvedObject.namespace"; "involvedObject.kind"] = before ++ field :: after
    | AddHealthzCheck name => λ g, name = "healthz" ∧
        g = Indexed ["involvedObject.name"; "involvedObject.namespace"; "involvedObject.kind"]
    | AddReadyzCheck name => λ g, name = "readyz" ∧ g = Healthy
    | StartManager => λ g, g = Ready
    end;
  rely := λ _ _ _ _, True;
  next := λ R e, match e in Op R return R → stage → stage with
    | SentryInit => λ r g, onSuccess r g
    | GetConfig => λ r _, onSuccess r Config
    | HTTPClientFor => λ r _, onSuccess r Client
    | NewManager _ => λ r _, onSuccess r Managed
    | MetricsClientFor => λ r _, match r with None => Metered | Some _ => NoMetrics end
    | ServerGroups => λ groups _, Listed groups
    | SetupWithManager _ => λ r _, onSuccess r (Indexed [])
    | IndexField field => λ _ g, match g with Indexed fields => Indexed (fields ++ [field]) | _ => g end
    | AddHealthzCheck _ => λ r _, onSuccess r Healthy
    | AddReadyzCheck _ => λ r _, onSuccess r Ready
    | StartManager => λ r _, onSuccess r Ran
    end;
  panic_ok := λ g, g = NoMetrics |}.

(** Why the operator has ended. *)
Definition ended (code : Z) (g : stage) : Prop :=
  (code = 0%Z ∧ g = Ran) ∨ (code = 1%Z ∧ (g = Broken ∨ ∃ groups, g = Listed groups ∧ ∀ cfg, ¬ configured env groups cfg)).

Lemma orExit_wp (p : Prog Op (option GoError)) (rest : Prog Op Z) g g' :
  wp setup p (λ err g2, match err with Some _ => g2 = Broken | None => g2 = g' end) g →
  wp setup rest ended g' → wp setup (orExit p rest) ended g.
Proof. intros Hp Hr. eapply wp_bind_intro; [exact Hp|]. intros [err|] g2 ->; [by right; split; [|left]|done]. Qed.

Lemma step_wp (e : Op (option GoError)) g g' :
  allowed setup e g → (∀ r, next setup e r g = onSuccess r g') →
  wp setup (trigger e) (λ err g2, match err with Some _ => g2 = Broken | None => g2 = g' end) g.
Proof. intros Ha Hn. split; [done|]. intros [err|] _; by rewrite Hn. Qed.

Lemma indexFields_wp before fields : indexedFields = before ++ fields →
  wp setup (indexFields fields) (λ _ g, g = Indexed indexedFields) (Indexed before).
Proof.
  revert before. induction fields as [|field fields IH]; intros before Hf; [by rewrite Hf, app_nil_r|].
  split; [by eexists _, _|]. intros r _. apply IH. by rewrite <- (assoc (++)).
Qed.


(** A change of a child triggers a pass, unless the child is a job. *)
Lemma job_unwatched : Forall (λ k, match projT2 k with KJob => False | _ => True end) Owns ∧
  ∀ T (k : Kind T), match k with KJob => True | _ => existT T k ∈ Owns end.
Proof. split; [by repeat constructor|]. intros T []; try done; unfold Owns; rewrite !elem_of_cons; tauto. Qed.

(** Without the flag the webhook server offers HTTP/1.1 only, but the metrics
    server offers what it is configured with. *)
Lemma http2_flag c : Flags.enableHTTP2 flags = false →
  TlsConfig.NextProtos (applyTlsOpts (ManagerOptions.WebhookTLSOpts (managerOptions flags env)) c) = ["http/1.1"] ∧
  applyTlsOpts (ManagerOptions.MetricsTLSOpts (managerOptions flags env)) c = c.
Proof. intros Hf. unfold managerOptions. by rewrite Hf. Qed.
End Main.
