(* ===== verification/GitProxy.v ===== *)
(** * The git HTTPS proxy (internal/git-https-proxy) and token expiry (internal/utils/token.go)

    The sidecar that adds git credentials to the requests of the session: its
    configuration, the token store shared by the request handlers, and the
    handler of one repository.  The token store is code with locks: a program
    over the events of [Store], in which taking and releasing a lock, reading
    or writing the shared fields and HTTP exchanges are separate steps, so that
    other handlers may run between them. *)

From S2P Require Import Prelude Prog NetUrl.
From Stdlib Require Import Ascii.

(** ** Configuration *)

Module GitRepository.
Record t := mk { Url : string; Provider : string }.
End GitRepository.

Module GitProvider.
Record t := mk { Id : string; AccessTokenUrl : string }.
Definition zero : t := mk "" "".
End GitProvider.

Module GitProxyConfig.
Record t := mk {
  ProxyPort : Z;
  HealthPort : Z;
  AnonymousSession : bool;
  RenkuAuthenticationVersion : string;
  RenkuAccessToken : string;
  RenkuRefreshToken : string;
  RenkuURL : option URL.t;
  RenkuRealm : string;
  RenkuClientID : string;
  RenkuClientSecret : string;
  RenkuTokenURL : string;
  Repositories : list GitRepository.t;
  Providers : list GitProvider.t;
  RefreshCheckPeriodSeconds : Z }.

Definition validateRenkuAuthenticationV2 (c : t) : option GoError :=
  if RenkuAccessToken c =s "" then Some (Errorf "the renku access token is not defined")
  else if RenkuRefreshToken c =s "" then Some (Errorf "the renku refresh token is not defined")
  else if RenkuTokenURL c =s "" then Some (Errorf "the renku token URL is not defined")
  else match url_Parse (RenkuTokenURL c) with
       | None => Some (Errorf "cannot parse renku token URL")
       | Some _ => None
       end.

Definition Validate (c : t) : option GoError :=
  if AnonymousSession c then None
  else if RenkuAuthenticationVersion c =s "v2" then validateRenkuAuthenticationV2 c
  else if RenkuAccessToken c =s "" then Some (Errorf "the renku access token is not defined")
  else if RenkuRefreshToken c =s "" then Some (Errorf "the renku refresh token is not defined")
  else match RenkuURL c with
  | None => Some (Errorf "the renku URL is not defined")
  | Some _ =>
      if RenkuRealm c =s "" then Some (Errorf "the renku realm is not defined")
      else if RenkuClientID c =s "" then Some (Errorf "the renku client id is not defined")
      else if RenkuClientSecret c =s "" then Some (Errorf "the renku client secret is not defined")
      else if (RefreshCheckPeriodSeconds c <=? 0)%Z then Some (Errorf "the refresh token period is invalid")
      else None
  end.

(** Multiplication of [time.Duration] wraps around. *)
Definition GetRefreshCheckPeriod (c : t) : Duration.t :=
  Int.wrap64 (RefreshCheckPeriodSeconds c * Duration.Second).

Definition GetExpirationLeeway (c : t) : Duration.t := Int.wrap64 (4 * GetRefreshCheckPeriod c).
End GitProxyConfig.

(** ** Expiry of tokens *)

Module Token.
(** [IsNotExpired] at the clock reading [now]. *)
Definition IsNotExpired (now expiresAt : Time.t) (margin : Duration.t) (required : bool) : bool :=
  let deadline := Time.Add now margin in
  if Time.IsZero expiresAt then negb required else Time.Before deadline expiresAt.

(** [jwt.Parser.ParseUnverified] into registered claims: the expiry, if there
    is one.  A parameter of the development. *)
Class JwtLib := { ParseUnverified : string → Result (option Time.t) }.

(** The expiry is read from the claims: it cannot fail for registered claims. *)
Definition VerifyExpiresAtClaim (now : Time.t) (claims : option Time.t) (margin : Duration.t) (required : bool)
    : bool :=
  match claims with
  | None => negb required
  | Some expiresAt => IsNotExpired now expiresAt margin required
  end.

Definition VerifyJWTExpiresAt `{JwtLib} (now : Time.t) (token : string) (margin : Duration.t) (required : bool)
    : Result bool :=
  match ParseUnverified token with
  | inr err => inr err
  | inl claims => inl (VerifyExpiresAtClaim now claims margin required)
  end.
End Token.

(** ** The token store *)

Module TokenSet.
Record t := mk { AccessToken : string; ExpiresAt : Z }.
End TokenSet.

(** The redirect policy of the exchange with a provider: the credentials of the
    first request are kept.  The arguments are the Authorization headers of the
    new request and of the requests made so far. *)
Definition preserveAuthzHeader (req : string) (via : list string) : string :=
  match via with
  | [] => req
  | authz :: _ => if authz =s "" then req else authz
  end.

(** An HTTP request as the token store builds it: bearer or basic credentials,
    a form, and the redirect policy of the client, if it is not the default. *)
Module HttpRequest.
Record t := mk {
  Method : string;
  Url : string;
  Authorization : string;
  Form : list (string * string);
  CheckRedirect : option (string → list string → string) }.
End HttpRequest.

(** A response: its status code, and its body as decoded into the fields the
    sources ask for. *)
Module HttpResponse.
Record body := mkBody { access_token : string; refresh_token : string; expires_at : Z }.
Record t := mk { StatusCode : Z; Decoded : Result body }.
End HttpResponse.

Inductive Store : Type → Type :=
| Now : Store Time.t
| LockGit : Store unit
| UnlockGit : Store unit
| LockRenku : Store unit
| UnlockRenku : Store unit
(** a read of [gitAccessTokens] between RLock and RUnlock *)
| ReadGit (provider : string) : Store (option TokenSet.t)
(** a write, under the write lock *)
| WriteGit (provider : string) (ts : TokenSet.t) : Store unit
(** a read of [renkuAccessToken] between RLock and RUnlock *)
| ReadRenkuAccess : Store string
(** a read of [renkuRefreshToken] between RLock and RUnlock *)
| ReadRenkuRefresh : Store string
(** a read of [renkuRefreshToken] under the write lock *)
| PeekRenkuRefresh : Store string
| WriteRenkuAccess (token : string) : Store unit
| WriteRenkuRefresh (token : string) : Store unit
| Do (req : HttpRequest.t) : Store (Result HttpResponse.t).

Module TokenStore.
Record t := mk {
  Config : GitProxyConfig.t;
  Providers : gmap string GitProvider.t;
  RefreshTickerPeriod : Duration.t;
  ExpirationLeeway : Duration.t }.

Definition providerMap (l : list GitProvider.t) : gmap string GitProvider.t :=
  foldl (λ m p, <[GitProvider.Id p := p]> m) ∅ l.

(** [New]: [time.NewTicker] panics on a period that is not positive.  The
    goroutine it starts is [periodicTokenRefresh_step], repeated. *)
Definition New (c : GitProxyConfig.t) : Outcome t :=
  if (GitProxyConfig.GetRefreshCheckPeriod c <=? 0)%Z
  then Panicked "non-positive interval for NewTicker"
  else Done (mk c (providerMap (GitProxyConfig.Providers c)) (GitProxyConfig.GetRefreshCheckPeriod c)
               (GitProxyConfig.GetExpirationLeeway c)).

Section Store.
Context `{Token.JwtLib} (s : t).

Definition encodeGitCredentials (token : string) : string := Base64.StdEncoding ("oauth2:" +:+ token).

Definition refreshForm (refreshToken : string) : list (string * string) :=
  [("grant_type", "refresh_token"); ("refresh_token", refreshToken)].

(** The end of both refreshes: the response is checked and decoded. *)
Definition renkuResponse (res : Result HttpResponse.t) : Result HttpResponse.body :=
  match res with
  | inr err => inr err
  | inl res =>
      if negb (HttpResponse.StatusCode res =? 200)%Z
      then inr (Errorf ("cannot refresh renku access token, failed with status code: " +:+
                        pretty (HttpResponse.StatusCode res)))
      else HttpResponse.Decoded res
  end.

(** [s.renkuAccessTokenLock.Lock(); defer s.renkuAccessTokenLock.Unlock()] *)
Definition lockingRenku {A} (p : Prog Store A) : Prog Store A :=
  _ ← trigger LockRenku; deferred UnlockRenku p.

(** [s.gitAccessTokensLock.Lock(); defer s.gitAccessTokensLock.Unlock()] *)
Definition lockingGit {A} (p : Prog Store A) : Prog Store A :=
  _ ← trigger LockGit; deferred UnlockGit p.

(** The V2 refresh.  The headers of the request are set before the error of
    [http.NewRequest] is looked at; the refresh token is overwritten with
    whatever came back. *)
Definition refreshRenkuAccessTokenV2 : Prog Store (option GoError) :=
  lockingRenku
    match url_Parse (GitProxyConfig.RenkuTokenURL (Config s)) with
    | None => mret (Some (Errorf "parse error"))
    | Some renkuTokenURL =>
        refresh ← trigger PeekRenkuRefresh;
        match url_Parse (URL_String renkuTokenURL) with
        | None => Panic "nil pointer dereference"
        | Some _ =>
            res ← trigger (Do (HttpRequest.mk "POST" (URL_String renkuTokenURL) "" (refreshForm refresh) None));
            match renkuResponse res with
            | inr err => mret (Some err)
            | inl body =>
                _ ← trigger (WriteRenkuAccess (HttpResponse.access_token body));
                _ ← trigger (WriteRenkuRefresh (HttpResponse.refresh_token body));
                mret None
            end
        end
    end.

(** The realm's token endpoint. *)
Definition realmTokenURL (renkuURL : URL.t) : string :=
  URL_String (JoinPath renkuURL ("auth/realms/" +:+ GitProxyConfig.RenkuRealm (Config s) +:+
                                 "/protocol/openid-connect/token")).

Definition basicAuth : string :=
  "Basic " +:+ Base64.StdEncoding (GitProxyConfig.RenkuClientID (Config s) +:+ ":" +:+
                                   GitProxyConfig.RenkuClientSecret (Config s)).

Definition refreshRenkuAccessToken : Prog Store (option GoError) :=
  if GitProxyConfig.RenkuAuthenticationVersion (Config s) =s "v2" then refreshRenkuAccessTokenV2
  else lockingRenku (
    refresh ← trigger PeekRenkuRefresh;
    renkuURL ← lift (deref (GitProxyConfig.RenkuURL (Config s)));
    match url_Parse (realmTokenURL renkuURL) with
    | None => mret (Some (Errorf "parse error"))
    | Some _ =>
        res ← trigger (Do (HttpRequest.mk "POST" (realmTokenURL renkuURL) basicAuth (refreshForm refresh) None));
        match renkuResponse res with
        | inr err => mret (Some err)
        | inl body =>
            _ ← trigger (WriteRenkuAccess (HttpResponse.access_token body));
            _ ← (if HttpResponse.refresh_token body ≠s ""
                 then trigger (WriteRenkuRefresh (HttpResponse.refresh_token body)) else mret tt);
            mret None
        end
    end).

Definition getValidRenkuAccessToken : Prog Store (Result string) :=
  token ← trigger ReadRenkuAccess;
  now ← trigger Now;
  match Token.VerifyJWTExpiresAt now token (ExpirationLeeway s) false with
  | inr err => mret (inr err)
  | inl isValid =>
      err ← (if negb isValid then refreshRenkuAccessToken else mret None);
      match err with
      | Some err => mret (inr err)
      | None => token ← trigger ReadRenkuAccess; mret (inl token)
      end
  end.

Definition providerURL (provider : string) : string :=
  GitProvider.AccessTokenUrl (default GitProvider.zero (Providers s !! provider)).

Definition refreshGitAccessToken (provider : string) : Prog Store (option GoError) :=
  lockingGit
    match url_Parse (providerURL provider) with
    | None => mret (Some (Errorf "parse error"))
    | Some _ =>
        renkuAccessToken ← getValidRenkuAccessToken;
        match renkuAccessToken with
        | inr err => mret (Some err)
        | inl renkuAccessToken =>
            res ← trigger (Do (HttpRequest.mk "GET" (providerURL provider) ("Bearer " +:+ renkuAccessToken) []
                                 (Some preserveAuthzHeader)));
            match res with
            | inr err => mret (Some err)
            | inl res =>
                if negb (HttpResponse.StatusCode res =? 200)%Z
                then mret (Some (Errorf ("cannot exchange renku token for git token, failed with staus code: " +:+
                                         pretty (HttpResponse.StatusCode res))))
                else match HttpResponse.Decoded res with
                     | inr err => mret (Some err)
                     | inl body =>
                         _ ← trigger (WriteGit provider (TokenSet.mk (HttpResponse.access_token body)
                                                                     (HttpResponse.expires_at body)));
                         mret None
                     end
            end
        end
    end.

(** A missing entry reads as the zero token set. *)
Definition GetGitAccessToken (provider : string) (encode : bool) : Prog Store (Result string) :=
  entry ← trigger (ReadGit provider);
  now ← trigger Now;
  let fresh := match entry with
               | None => false
               | Some ts => Token.IsNotExpired now (Time.Unix (TokenSet.ExpiresAt ts)) (ExpirationLeeway s) false
               end in
  err ← (if negb fresh then refreshGitAccessToken provider else mret None);
  match err with
  | Some err => mret (inr err)
  | None =>
      entry ← trigger (ReadGit provider);
      let token := match entry with Some ts => TokenSet.AccessToken ts | None => "" end in
      mret (inl (if encode then encodeGitCredentials token else token))
  end.

(** One tick of [periodicTokenRefresh]. *)
Definition periodicTokenRefresh_step : Prog Store unit :=
  renkuRefreshToken ← trigger ReadRenkuRefresh;
  now ← trigger Now;
  let valid := match Token.VerifyJWTExpiresAt now renkuRefreshToken (ExpirationLeeway s) false with
               | inl valid => valid | inr _ => false end in
  if negb valid then _ ← refreshRenkuAccessToken; mret tt else mret tt.

(** The first [ticks] iterations of its endless loop. *)
Fixpoint periodicTokenRefresh (ticks : nat) : Prog Store unit :=
  match ticks with
  | O => mret tt
  | S ticks' => _ ← periodicTokenRefresh_step; periodicTokenRefresh ticks'
  end.
End Store.
End TokenStore.

(** ** The proxy *)

Module ProxyRequest.
Record t := mk { URL : URL.t; Header : gmap string string }.
Definition set_Header (r : t) (k v : string) : t := mk (URL r) (<[k := v]> (Header r)).
End ProxyRequest.

Module ProxyResponse.
Record t := mk { StatusCode : Z; Body : string }.
End ProxyResponse.

(** The pattern [^www\.] matches the names with this prefix. *)
Definition hasWww (host : string) : bool := Strings.HasPrefix host "www.".

Definition hostsMatch (url1 url2 : URL.t) : bool :=
  if hasWww (Hostname url1) && negb (hasWww (Hostname url2)) then Hostname url1 =s "www." +:+ Hostname url2
  else if negb (hasWww (Hostname url1)) && hasWww (Hostname url2) then "www." +:+ Hostname url1 =s Hostname url2
  else Hostname url1 =s Hostname url2.

Definition getPort (urlAddress : URL.t) : string :=
  let port := Port urlAddress in
  if port =s "" then
    if URL.Scheme urlAddress =s "http" then "80"
    else if URL.Scheme urlAddress =s "https" then "443"
    else port
  else port.

Definition validGitRequest (url repoURL : URL.t) : bool :=
  (URL.Scheme url =s URL.Scheme repoURL) && hostsMatch url repoURL && (getPort url =s getPort repoURL) &&
  Strings.HasPrefix (Strings.TrimLeftByte "/"%char (URL.Path url)) (Strings.TrimLeftByte "/"%char (URL.Path repoURL)).

(** The handler of one repository: the request to send on, and the response
    if the proxy answers itself. *)
Definition handlerFunc `{Token.JwtLib} (s : TokenStore.t) (repoURL : URL.t) (provider : string)
    (r : ProxyRequest.t) : Prog Store (ProxyRequest.t * option ProxyResponse.t) :=
  if negb (validGitRequest (ProxyRequest.URL r) repoURL) then mret (r, None)
  else
    gitToken ← TokenStore.GetGitAccessToken s provider true;
    match gitToken with
    | inr _ => mret (r, Some (ProxyResponse.mk 401 "The git token could not be refreshed"))
    | inl gitToken => mret (ProxyRequest.set_Header r "Authorization" ("Basic " +:+ gitToken), None)
    end.

(** A handler as registered with the proxy library, for the hosts in [Hosts]. *)
Module RepoHandler.
Record t := mk { Hosts : list string; RepoURL : URL.t; Provider : string }.
End RepoHandler.

Definition reqHosts (repoURL : URL.t) : list string :=
  let host := Hostname repoURL in
  let www := "www." +:+ host in
  [host; www; host +:+ ":443"; www +:+ ":443"].

Definition setupRepository (providers : gmap string GitProvider.t) (repo : GitRepository.t)
    : option RepoHandler.t :=
  match url_Parse (GitRepository.Url repo) with
  | None => None
  | Some repoURL =>
      let provider := GitRepository.Provider repo in
      if provider =s "" then None
      else match providers !! provider with
           | None => None
           | Some _ => Some (RepoHandler.mk (reqHosts repoURL) repoURL provider)
           end
  end.

(** [GetProxyHandler]: the token store, and the handlers registered, in order. *)
Definition GetProxyHandler (c : GitProxyConfig.t) : Outcome (option TokenStore.t * list RepoHandler.t) :=
  if GitProxyConfig.AnonymousSession c then Done (None, [])
  else
    tokenStore ← TokenStore.New c;
    Done (Some tokenStore,
          omap (setupRepository (TokenStore.providerMap (GitProxyConfig.Providers c)))
               (GitProxyConfig.Repositories c)).
