(* ===== verification/ProxyThreads.v ===== *)
(** * The git proxy as a system of threads

    Any number of request handlers and the periodic refresh run over one token
    store.  [step] is one step of one thread against the shared state [World]:
    the two read-write locks, the tokens, and a log of the HTTP exchanges.
    Sections under a read lock contain no blocking call and are one step,
    possible when nobody holds the write lock.  Each thread is verified on its
    own against [threadMonitor], whose ghost state is the locks it holds and
    the facts it has learnt; [Inv] ties the threads together, and the theorems
    about all interleavings follow from it.  The last part is about endless
    executions with a ticker that never stops: under fairness both locks are
    free again and again, and every thread comes to the end of its work. *)

From S2P Require Import Prelude Prog NetUrl GitProxy.
From stdpp Require Import functions relations.
From Stdlib Require Import Classical_Prop.

(** ** The shared state *)

Definition Exchange : Type := HttpRequest.t * Result HttpResponse.t.

Record World := mkWorld {
  gitLock : option nat;
  renkuLock : option nat;
  gitAccessTokens : gmap string TokenSet.t;
  renkuAccessToken : string;
  renkuRefreshToken : string;
  exchanges : list Exchange }.

Definition with_gitLock (w : World) (o : option nat) : World :=
  mkWorld o (renkuLock w) (gitAccessTokens w) (renkuAccessToken w) (renkuRefreshToken w) (exchanges w).
Definition with_renkuLock (w : World) (o : option nat) : World :=
  mkWorld (gitLock w) o (gitAccessTokens w) (renkuAccessToken w) (renkuRefreshToken w) (exchanges w).
Definition with_git (w : World) (p : string) (ts : TokenSet.t) : World :=
  mkWorld (gitLock w) (renkuLock w) (<[p := ts]> (gitAccessTokens w)) (renkuAccessToken w) (renkuRefreshToken w)
    (exchanges w).
Definition with_renku (w : World) (access refresh : string) : World :=
  mkWorld (gitLock w) (renkuLock w) (gitAccessTokens w) access refresh (exchanges w).
Definition with_exchange (w : World) (x : Exchange) : World :=
  mkWorld (gitLock w) (renkuLock w) (gitAccessTokens w) (renkuAccessToken w) (renkuRefreshToken w)
    (x :: exchanges w).

(** The state [New] sets up. *)
Definition initial (s : TokenStore.t) : World :=
  mkWorld None None ∅ (GitProxyConfig.RenkuAccessToken (TokenStore.Config s))
    (GitProxyConfig.RenkuRefreshToken (TokenStore.Config s)) [].

(** What thread [i] does with one event.  The clock and the responses are
    arbitrary. *)
Definition exec (i : nat) {R} (e : Store R) (w : World) : R → World → Prop :=
  match e in Store R return R → World → Prop with
  | Now => λ _ w', w' = w
  | LockGit => λ _ w', gitLock w = None ∧ w' = with_gitLock w (Some i)
  | UnlockGit => λ _ w', gitLock w = Some i ∧ w' = with_gitLock w None
  | LockRenku => λ _ w', renkuLock w = None ∧ w' = with_renkuLock w (Some i)
  | UnlockRenku => λ _ w', renkuLock w = Some i ∧ w' = with_renkuLock w None
  | ReadGit p => λ r w', gitLock w = None ∧ r = gitAccessTokens w !! p ∧ w' = w
  | WriteGit p ts => λ _ w', w' = with_git w p ts
  | ReadRenkuAccess => λ r w', renkuLock w = None ∧ r = renkuAccessToken w ∧ w' = w
  | ReadRenkuRefresh => λ r w', renkuLock w = None ∧ r = renkuRefreshToken w ∧ w' = w
  | PeekRenkuRefresh => λ r w', r = renkuRefreshToken w ∧ w' = w
  | WriteRenkuAccess t => λ _ w', w' = with_renku w t (renkuRefreshToken w)
  | WriteRenkuRefresh t => λ _ w', w' = with_renku w (renkuAccessToken w) t
  | Do req => λ r w', w' = with_exchange w (req, r)
  end.

(** The token sets an exchange delivered, with the URL that issued them. *)
Definition tokensOf (x : Exchange) : list (string * TokenSet.t) :=
  match x with
  | (req, inl (HttpResponse.mk code (inl body))) =>
      if (code =? 200)%Z
      then [(HttpRequest.Url req, TokenSet.mk (HttpResponse.access_token body) (HttpResponse.expires_at body))]
      else []
  | _ => []
  end.

#[global] Arguments tokensOf : simpl never.

Definition issued (w : World) : list (string * TokenSet.t) := exchanges w ≫= tokensOf.

(** ** The threads *)

Inductive Job :=
| Serve (h : RepoHandler.t) (r : ProxyRequest.t)
| Tick (ticks : nat).

Inductive Answer :=
| Answered (h : RepoHandler.t) (r : ProxyRequest.t) (out : ProxyRequest.t * option ProxyResponse.t)
| Ticked.

Notation Thread := (Prog Store Answer).
Notation State := (list Thread * World)%type.

Definition finished (p : Thread) : Prop := match p with Vis _ _ => False | _ => True end.

Inductive step : list Thread * World → list Thread * World → Prop :=
| step_thread i R (e : Store R) k r pool w w' :
    pool !! i = Some (Vis e k) → exec i e w r w' →
    step (pool, w) (<[i := k r]> pool, w').

Section Threads.
Context `{Token.JwtLib} (s : TokenStore.t).

Definition thread (j : Job) : Thread :=
  match j with
  | Serve h r =>
      out ← handlerFunc s (RepoHandler.RepoURL h) (RepoHandler.Provider h) r; mret (Answered h r out)
  | Tick n => _ ← TokenStore.periodicTokenRefresh s n; mret Ticked
  end.

Definition started (jobs : list Job) : list Thread * World := (thread <$> jobs, initial s).

(** ** What the requests of the token store look like *)

(** The exchange of the renku token for a provider's token. *)
Definition providerRequest (req : HttpRequest.t) : Prop :=
  ∃ provider token, req = HttpRequest.mk "GET" (TokenStore.providerURL s provider) ("Bearer " +:+ token) []
                            (Some preserveAuthzHeader).

(** The endpoint and the credentials of the configured authentication version. *)
Definition refreshEndpoint (url auth : string) : Prop :=
  if GitProxyConfig.RenkuAuthenticationVersion (TokenStore.Config s) =s "v2"
  then auth = "" ∧ ∃ u, url_Parse (GitProxyConfig.RenkuTokenURL (TokenStore.Config s)) = Some u ∧ url = URL_String u
  else auth = TokenStore.basicAuth s ∧
       ∃ u, GitProxyConfig.RenkuURL (TokenStore.Config s) = Some u ∧ url = TokenStore.realmTokenURL s u.

Definition refreshRequest (req : HttpRequest.t) : Prop :=
  ∃ url auth token, refreshEndpoint url auth ∧
    req = HttpRequest.mk "POST" url auth (TokenStore.refreshForm token) None.

(** ** One thread *)

Record Local := mkLocal {
  holdsGit : bool;
  holdsRenku : bool;
  (** token sets and the URLs known to have issued them *)
  facts : list (string * TokenSet.t);
  (** providers known to have a token set *)
  present : list string }.

Definition idle (g : Local) : Prop := holdsGit g = false ∧ holdsRenku g = false.

Definition threadAllowed {R} (e : Store R) (g : Local) : Prop :=
  match e with
  | Now => True
  | LockGit | ReadGit _ => idle g
  | UnlockGit => holdsGit g = true
  | LockRenku | ReadRenkuAccess | ReadRenkuRefresh => holdsRenku g = false
  | UnlockRenku | PeekRenkuRefresh | WriteRenkuAccess _ | WriteRenkuRefresh _ => holdsRenku g = true
  | WriteGit p ts => holdsGit g = true ∧ (TokenStore.providerURL s p, ts) ∈ facts g
  | Do req => holdsGit g = true ∧ providerRequest req ∨ holdsRenku g = true ∧ refreshRequest req
  end.

(** Entries of the map are not removed. *)
Definition threadRely {R} (e : Store R) (g : Local) : R → Prop :=
  match e in Store R return R → Prop with
  | ReadGit p => λ r, p ∈ present g → is_Some r
  | _ => λ _, True
  end.

Definition threadNext {R} (e : Store R) : R → Local → Local :=
  match e in Store R return R → Local → Local with
  | LockGit => λ _ g, mkLocal true (holdsRenku g) (facts g) (present g)
  | UnlockGit => λ _ g, mkLocal false (holdsRenku g) (facts g) (present g)
  | LockRenku => λ _ g, mkLocal (holdsGit g) true (facts g) (present g)
  | UnlockRenku => λ _ g, mkLocal (holdsGit g) false (facts g) (present g)
  | ReadGit p => λ r g,
      match r with
      | Some ts => mkLocal (holdsGit g) (holdsRenku g) ((TokenStore.providerURL s p, ts) :: facts g) (p :: present g)
      | None => g
      end
  | WriteGit p ts => λ _ g, mkLocal (holdsGit g) (holdsRenku g) (facts g) (p :: present g)
  | Do req => λ r g, mkLocal (holdsGit g) (holdsRenku g) (tokensOf (req, r) ++ facts g) (present g)
  | _ => λ _ g, g
  end.

Definition threadMonitor (ok : Local → Prop) : Monitor Store Local :=
  {| allowed R e g := threadAllowed e g; rely R e g r := threadRely e g r;
     next R e r g := threadNext e r g; panic_ok := ok |}.

(** The relation between the beginning and the end of a call of the store. *)
Definition keeps (g g' : Local) : Prop :=
  holdsGit g' = holdsGit g ∧ holdsRenku g' = holdsRenku g ∧
  facts g ⊆ facts g' ∧ present g ⊆ present g'.

(** What a request and its treatment by the proxy must look like, given the
    token sets and where they came from. *)
Definition answerOk (known : list (string * TokenSet.t)) (a : Answer) : Prop :=
  match a with
  | Ticked => True
  | Answered h r (r', resp) =>
      if validGitRequest (ProxyRequest.URL r) (RepoHandler.RepoURL h) then
        match resp with
        | None => ∃ ts, (TokenStore.providerURL s (RepoHandler.Provider h), ts) ∈ known ∧
            r' = ProxyRequest.set_Header r "Authorization"
                   ("Basic " +:+ TokenStore.encodeGitCredentials (TokenSet.AccessToken ts))
        | Some resp => r' = r ∧ ProxyResponse.StatusCode resp = 401%Z
        end
      else r' = r ∧ resp = None
  end.

Definition threadPost (a : Answer) (g : Local) : Prop := idle g ∧ answerOk (facts g) a.

(** ** Verification of one thread *)

#[global] Instance keeps_preorder : PreOrder keeps.
Proof. split; [by intros g|]. intros g1 g2 g3 (? & ? & ? & ?) (? & ? & ? & ?). repeat split; (congruence || set_solver). Qed.

Lemma keeps_facts g l : keeps g (mkLocal (holdsGit g) (holdsRenku g) (l ++ facts g) (present g)).
Proof. repeat split; cbn; set_solver. Qed.

(** What the end of a refresh of the renku token does to the ghost state. *)
Lemma keeps_refreshed g l :
  holdsRenku g = false → keeps g (mkLocal (holdsGit g) false (l ++ facts g) (present g)).
Proof. intros <-. apply keeps_facts. Qed.

Lemma refreshRenkuAccessToken_wp ok g :
  holdsRenku g = false → (∀ g', keeps g g' → ok g') →
  wp (threadMonitor ok) (TokenStore.refreshRenkuAccessToken s) (λ _ g', keeps g g') g.
Proof.
  intros Hg Hok. pose proof (keeps_refreshed g [] Hg) as Hid. pose proof (Hok _ Hid) as Hokid. cbn in Hid, Hokid.
  unfold TokenStore.refreshRenkuAccessToken, TokenStore.refreshRenkuAccessTokenV2, TokenStore.lockingRenku.
  destruct (_ =s "v2") eqn:Hv2; cbn; (split; [done|]; intros _ _).
  - destruct (url_Parse _) as [u|] eqn:Hu; cbn; [|auto]. split; [done|]. intros tok _.
    destruct (url_Parse (URL_String u)); cbn; [|auto]. split.
    { right. split; [done|]. exists (URL_String u), "", tok. unfold refreshEndpoint. rewrite Hv2. eauto. }
    intros res _. destruct (TokenStore.renkuResponse res) as [body|err]; cbn; repeat (split; [done|]; intros _ _);
      by apply keeps_refreshed.
  - split; [done|]. intros tok _. destruct (GitProxyConfig.RenkuURL _) as [u|] eqn:Hu; cbn; [|auto].
    destruct (url_Parse (TokenStore.realmTokenURL s u)); cbn; [|auto]. split.
    { right. split; [done|]. eexists _, _, tok. split; [|done]. unfold refreshEndpoint. rewrite Hv2. eauto. }
    intros res _. destruct (TokenStore.renkuResponse res) as [body|err]; cbn.
    + split; [done|]; intros _ _. destruct (_ ≠s _); cbn; repeat (split; [done|]; intros _ _);
        by apply keeps_refreshed.
    + split; [done|]; intros _ _. by apply keeps_refreshed.
Qed.

Lemma getValidRenkuAccessToken_wp ok g :
  holdsRenku g = false → (∀ g', keeps g g' → ok g') →
  wp (threadMonitor ok) (TokenStore.getValidRenkuAccessToken s) (λ _ g', keeps g g') g.
Proof.
  intros Hg Hok. cbn. split; [done|]. intros tok _. split; [done|]. intros now _.
  destruct (Token.VerifyJWTExpiresAt _ _ _ _) as [[|]|err]; cbn -[TokenStore.refreshRenkuAccessToken]; [done| |done].
  eapply wp_bind_intro; [by apply refreshRenkuAccessToken_wp|]. intros [err|] g1 Hk; cbn; [done|].
  split; [|done]. by destruct Hk as (_ & -> & _).
Qed.

(** After a successful refresh the provider has a token set. *)
Lemma refreshGitAccessToken_wp ok provider g :
  idle g → (∀ g', keeps g g' → ok g') →
  wp (threadMonitor ok) (TokenStore.refreshGitAccessToken s provider)
    (λ err g', keeps g g' ∧ (err = None → provider ∈ present g')) g.
Proof.
  intros [Hgit Hren] Hok. unfold TokenStore.refreshGitAccessToken, TokenStore.lockingGit.
  cbn -[TokenStore.getValidRenkuAccessToken]. split; [done|]. intros _ _. apply wp_deferred.
  set (g0 := mkLocal true (holdsRenku g) (facts g) (present g)).
  assert (Hback : ∀ g1, keeps g0 g1 → holdsGit g1 = true ∧
    keeps g (mkLocal false (holdsRenku g1) (facts g1) (present g1))).
  { intros g1 (? & ? & ? & ?). split; [done|]. by repeat split. }
  assert (Hend : ∀ g1 (err : GoError), keeps g0 g1 → holdsGit g1 = true ∧ (unit → True →
    keeps g (mkLocal false (holdsRenku g1) (facts g1) (present g1)) ∧ (Some err = None → provider ∈ present g1)))
    by (intros g1 err [? ?]%Hback; naive_solver).
  destruct (url_Parse _) as [u|]; cbn -[TokenStore.getValidRenkuAccessToken]; [|by apply (Hend g0)].
  eapply wp_bind_intro; [apply getValidRenkuAccessToken_wp|]; [done| |].
  { intros g1 [? ?]%Hback. cbn. auto. }
  intros [tok|err] g1 Hk; cbn; [|exact (Hend _ _ Hk)]. split.
  { left. split; [by destruct Hk as [-> _]|]. by exists provider, tok. }
  intros res _. set (x := (HttpRequest.mk _ _ _ _ _, res)).
  assert (Hk2 : keeps g0 (mkLocal (holdsGit g1) (holdsRenku g1) (tokensOf x ++ facts g1) (present g1)))
    by (etrans; [exact Hk|apply keeps_facts]).
  destruct res as [[code [body|err]]|err]; cbn; [..|exact (Hend _ _ Hk2)].
  - destruct (code =? 200)%Z eqn:Hc; cbn; [|exact (Hend _ _ Hk2)].
    destruct (Hback _ Hk2) as [Hg1 (? & ? & ? & Hp)]; cbn in *.
    split; [split; [done|unfold x, tokensOf; rewrite Hc; set_solver]|]. intros _ _. split; [done|]. intros _ _.
    split; [|set_solver]. repeat split; cbn; [done..|set_solver|set_solver].
  - destruct (code =? 200)%Z; cbn; exact (Hend _ _ Hk2).
Qed.

Lemma GetGitAccessToken_wp ok provider g :
  idle g → (∀ g', keeps g g' → ok g') →
  wp (threadMonitor ok) (TokenStore.GetGitAccessToken s provider true)
    (λ r g', idle g' ∧ match r with
             | inl token => ∃ ts, (TokenStore.providerURL s provider, ts) ∈ facts g' ∧
                              token = TokenStore.encodeGitCredentials (TokenSet.AccessToken ts)
             | inr _ => True
             end) g.
Proof.
  intros Hg Hok. unfold TokenStore.GetGitAccessToken. cbn -[TokenStore.refreshGitAccessToken Token.IsNotExpired].
  split; [done|]. intros entry _. split; [done|]. intros now _.
  set (g1 := match entry with None => g | _ => _ end). assert (Hk : keeps g g1).
  { unfold g1. destruct entry; [|done]. repeat split; cbn; set_solver. }
  eapply wp_bind_intro with (P := λ err g2, keeps g1 g2 ∧ (err = None → provider ∈ present g2)).
  - set (fresh := match entry with None => false | _ => _ end). destruct (negb fresh) eqn:Hf.
    + apply refreshGitAccessToken_wp; [by destruct Hg, Hk as (? & ? & _); split; congruence|].
      intros g' Hk'. apply Hok. by etrans.
    + cbn. split; [done|]. intros _. unfold fresh in Hf. unfold g1. destruct entry; cbn in *; [set_solver|done].
  - intros err g2 [Hk2 Hp]. assert (Hk3 : keeps g g2) by (by etrans).
    assert (Hi : idle g2) by (destruct Hg, Hk3 as (? & ? & _); split; congruence).
    destruct err as [err|]; cbn; [done|]. split; [done|]. intros r [ts ->]%(λ f, f (Hp eq_refl)).
    split; [done|]. exists ts. split; [|done]. cbn. set_solver.
Qed.

Lemma thread_wp j : wp (threadMonitor idle) (thread j) threadPost (mkLocal false false [] []).
Proof.
  assert (Hk : ∀ g g', keeps g g' → idle g → idle g') by (intros g g' (? & ? & _) []; split; congruence).
  set (g0 := mkLocal false false [] []). assert (H0 : idle g0) by done. destruct j as [h r|n]; cbn [thread].
  - eapply wp_bind_intro with (P := λ out g, idle g ∧ answerOk (facts g) (Answered h r out)); [|done].
    unfold handlerFunc, answerOk. destruct (validGitRequest _ _); cbn -[TokenStore.GetGitAccessToken]; [|done].
    eapply wp_bind_intro; [apply GetGitAccessToken_wp; eauto|].
    intros [tok|err] g [Hi Htok]; cbn; [|done]. split; [done|]. destruct Htok as (ts & ? & ->). eauto.
  - apply wp_bind_intro with (P := λ _, idle); [|done]. revert H0. generalize g0. clear g0.
    induction n as [|n IH]; intros g Hg; [done|]. cbn [TokenStore.periodicTokenRefresh].
    eapply wp_bind_intro with (P := λ _, idle); [|intros _ g1 Hg1; by apply IH].
    cbn -[TokenStore.refreshRenkuAccessToken]. split; [by destruct Hg|]. intros tok _. split; [done|]. intros now _.
    destruct (negb _); [|done]. eapply wp_bind_intro; [apply refreshRenkuAccessToken_wp|].
    + by destruct Hg.
    + eauto.
    + intros err g1 Hg1. exact (Hk _ _ Hg1 Hg).
Qed.

(** ** All threads *)

(** The ghost states of the threads agree with the shared state. *)
Record coherent (gs : nat → Local) (w : World) : Prop := {
  coh_git i : holdsGit (gs i) = true ↔ gitLock w = Some i;
  coh_renku i : holdsRenku (gs i) = true ↔ renkuLock w = Some i;
  coh_facts i : facts (gs i) ⊆ issued w;
  coh_present i p : p ∈ present (gs i) → is_Some (gitAccessTokens w !! p);
  coh_origin p ts : gitAccessTokens w !! p = Some ts → (TokenStore.providerURL s p, ts) ∈ issued w }.

Lemma issued_exchange w x : issued (with_exchange w x) = tokensOf x ++ issued w.
Proof. done. Qed.

(** Coherence after a step of thread [i], which others may observe only through
    the locks it takes or frees and what it adds. *)
Lemma coherent_step gs w i g' w' :
  coherent gs w →
  (holdsGit g' = true ↔ gitLock w' = Some i) → (∀ j, j ≠ i → gitLock w = Some j ↔ gitLock w' = Some j) →
  (holdsRenku g' = true ↔ renkuLock w' = Some i) → (∀ j, j ≠ i → renkuLock w = Some j ↔ renkuLock w' = Some j) →
  issued w ⊆ issued w' → facts g' ⊆ issued w' →
  (∀ p, is_Some (gitAccessTokens w !! p) → is_Some (gitAccessTokens w' !! p)) →
  (∀ p, p ∈ present g' → is_Some (gitAccessTokens w' !! p)) →
  (∀ p ts, gitAccessTokens w' !! p = Some ts → (TokenStore.providerURL s p, ts) ∈ issued w') →
  coherent (<[i := g']> gs) w'.
Proof.
  intros [Hg Hr Hf Hp Ho] Hgi Hgj Hri Hrj Hi Hfi Ht Hpi Hoi.
  constructor; [| | | |done]; intros j; (destruct (decide (j = i)) as [->|Hj];
    [rewrite fn_lookup_insert; try done|rewrite fn_lookup_insert_ne by done]).
  - by rewrite Hg, Hgj.
  - by rewrite Hr, Hrj.
  - etrans; [apply Hf|done].
  - intros p Hin. apply Ht. by eapply Hp.
Qed.

Lemma exec_coherent gs w i {R} (e : Store R) r w' :
  coherent gs w → threadAllowed e (gs i) → exec i e w r w' →
  threadRely e (gs i) r ∧ coherent (<[i := threadNext e r (gs i)]> gs) w'.
Proof.
  intros Hc Ha He. pose proof Hc as [Hg Hr Hf Hp Ho]. specialize (Hg i). specialize (Hr i). specialize (Hf i).
  specialize (Hp i).
  destruct e; cbn in Ha, He |- *; destruct_and?; subst; (split; [first [done|by apply Hp]|]);
    apply (coherent_step gs w); try done.
  1-4: cbn; intros j Hj; split; intros ?; congruence.
  1-4: destruct (gitAccessTokens w !! provider) as [ts|] eqn:Hl; try done; cbn.
  - intros x [->|?]%elem_of_cons; eauto.
  - intros p [->|?]%elem_of_cons; eauto.
  - intros p ?. cbn. apply lookup_insert_is_Some'. by right.
  - intros p [->|?]%elem_of_cons; cbn; apply lookup_insert_is_Some'; eauto.
  - intros p ts0. cbn. intros [[<- <-]|[? ?]]%lookup_insert_Some; [by apply Hf|by apply Ho].
  - rewrite issued_exchange. set_solver.
  - rewrite issued_exchange. cbn [facts]. set_solver.
  - intros p ts ?. rewrite issued_exchange. set_solver.
Qed.

Record Inv (st : list Thread * World) (gs : nat → Local) : Prop := {
  inv_threads i p : st.1 !! i = Some p → wp (threadMonitor idle) p threadPost (gs i);
  inv_none i : st.1 !! i = None → idle (gs i);
  inv_coherent : coherent gs st.2 }.

Lemma Inv_started jobs : ∃ gs, Inv (started jobs) gs.
Proof.
  exists (λ _, mkLocal false false [] []). split; [|done|].
  - intros i p. cbn. rewrite list_lookup_fmap. destruct (jobs !! i) as [j|]; [|done]. intros [= <-]. apply thread_wp.
  - split; cbn; try done; try set_solver.
Qed.

Lemma Inv_step st st' gs : step st st' → Inv st gs → ∃ gs', Inv st' gs'.
Proof.
  intros [i R e k r pool w w' Hi He] [Ht Hn Hc]. cbn in *. destruct (Ht i _ Hi) as [Ha Hk].
  destruct (exec_coherent gs w i e r w' Hc Ha He) as [Hr Hc']. eexists. split; cbn; [| |exact Hc'].
  - intros j p. destruct (decide (j = i)) as [->|Hj].
    + rewrite list_lookup_insert_eq by (by eapply lookup_lt_Some). intros [= <-].
      rewrite fn_lookup_insert. by apply Hk.
    + rewrite list_lookup_insert_ne, fn_lookup_insert_ne by done. apply Ht.
  - intros j Hj. assert (j ≠ i).
    { intros ->. rewrite list_lookup_insert_eq in Hj; [done|]. by eapply lookup_lt_Some. }
    rewrite list_lookup_insert_ne in Hj by done. rewrite fn_lookup_insert_ne by done. by apply Hn.
Qed.

Lemma Inv_reachable jobs st : rtc step (started jobs) st → ∃ gs, Inv st gs.
Proof.
  intros Hr. destruct (Inv_started jobs) as [gs0 H0]. revert gs0 H0.
  induction Hr as [st|st1 st2 st3 Hs _ IH]; intros gs H0; [by exists gs|].
  destruct (Inv_step _ _ _ Hs H0) as [gs' H']. by eapply IH.
Qed.

(** ** Endless executions

    The periodic refresh is an endless loop: a ticker that has done its tick
    begins the next one.  An execution is an infinite sequence of states in
    which at most one thread runs at a time; it is fair when a thread that can
    run again and again runs again and again.  Fairness says of the environment
    that every HTTP exchange ends, and of the locks what [sync.RWMutex] promises:
    a goroutine that waits for a lock is not passed over for ever. *)

Definition calls (i : nat) (p : Thread) (w : World) (p' : Thread) (w' : World) : Prop :=
  match p with Vis e k => ∃ r, exec i e w r w' ∧ p' = k r | _ => False end.

Definition runs (i : nat) (st st' : State) : Prop :=
  ∃ p p' w', st.1 !! i = Some p ∧ st' = (<[i := p']> st.1, w') ∧
    (calls i p st.2 p' w' ∨ p = Ret Ticked ∧ p' = thread (Tick 1) ∧ w' = st.2).

Definition canRun (i : nat) (st : State) : Prop := ∃ st', runs i st st'.

Record Execution (jobs : list Job) (σ : nat → State) (who : nat → option nat) : Prop := {
  execution_start : σ 0%nat = started jobs;
  execution_step n : match who n with Some i => runs i (σ n) (σ (S n)) | None => σ (S n) = σ n end }.

Definition infinitelyOften (P : nat → Prop) : Prop := ∀ n, ∃ m, n ≤ m ∧ P m.

Definition fair (σ : nat → State) (who : nat → option nat) : Prop :=
  ∀ i, infinitelyOften (λ n, canRun i (σ n)) → infinitelyOften (λ n, who n = Some i).

(** The configurations with which no request makes the store panic: validated,
    of an authenticated session, and, for version 2, with a token URL that can
    be parsed again once printed. *)
Definition serviceable (c : GitProxyConfig.t) : Prop :=
  GitProxyConfig.AnonymousSession c = false ∧ GitProxyConfig.Validate c = None ∧
  (GitProxyConfig.RenkuAuthenticationVersion c = "v2" →
   ∀ u, url_Parse (GitProxyConfig.RenkuTokenURL c) = Some u → is_Some (url_Parse (URL_String u))).

(** A monitor that forbids panics and nothing else. *)
Definition calm : Monitor Store unit :=
  {| allowed _ _ _ := True; rely _ _ _ _ := True; next _ _ _ _ := tt; panic_ok _ := False |}.

Definition answers (j : Job) (a : Answer) : Prop :=
  match j with Serve h r => ∃ out, a = Answered h r out | Tick _ => a = Ticked end.

Lemma refreshRenkuAccessToken_calm :
  serviceable (TokenStore.Config s) → wp calm (TokenStore.refreshRenkuAccessToken s) (λ _ _, True) tt.
Proof.
  intros (Han & Hval & Hparse). unfold GitProxyConfig.Validate in Hval. rewrite Han in Hval.
  unfold TokenStore.refreshRenkuAccessToken, TokenStore.refreshRenkuAccessTokenV2, TokenStore.lockingRenku.
  destruct (_ =s "v2") eqn:Hv2; cbn.
  - split; [done|]. intros _ _. destruct (url_Parse _) as [u|] eqn:Hu; cbn; [|done]. split; [done|]. intros tok _.
    destruct (Hparse (proj1 (String.eqb_eq _ _) Hv2) u eq_refl) as [u' ->]. cbn. split; [done|]. intros res _.
    destruct (TokenStore.renkuResponse res); cbn; auto.
  - destruct (GitProxyConfig.RenkuURL _); [|by repeat case_match]. cbn. do 2 (split; [done|]; intros ? _).
    destruct (url_Parse (TokenStore.realmTokenURL _ _)); cbn; [|auto]. split; [done|]. intros res _.
    destruct (TokenStore.renkuResponse res); cbn; [|auto]. split; [done|]. intros _ _.
    destruct (_ ≠s _); cbn; auto 10.
Qed.

Lemma calm_bind {A B} (p : Prog Store A) (f : A → Prog Store B) (Q : B → unit → Prop) :
  wp calm p (λ _ _, True) tt → (∀ a, wp calm (f a) Q tt) → wp calm (bind p f) Q tt.
Proof. intros Hp Hf. eapply wp_bind_intro; [exact Hp|]. by intros a [] _. Qed.

Lemma calm_deferred {A} (e : Store unit) (p : Prog Store A) :
  wp calm p (λ _ _, True) tt → wp calm (deferred e p) (λ _ _, True) tt.
Proof. induction p as [a|why|R e' k IH]; cbn; [auto|done|]. intros [_ Hk]. split; [done|]. auto. Qed.

Lemma GetGitAccessToken_calm provider :
  serviceable (TokenStore.Config s) → wp calm (TokenStore.GetGitAccessToken s provider true) (λ _ _, True) tt.
Proof.
  intros Hs. unfold TokenStore.GetGitAccessToken. cbn -[TokenStore.refreshGitAccessToken Token.IsNotExpired].
  split; [done|]. intros entry _. split; [done|]. intros now _. apply calm_bind; [|by intros [err|]; cbn; auto].
  destruct (negb _); [|done]. unfold TokenStore.refreshGitAccessToken, TokenStore.lockingGit.
  cbn -[TokenStore.getValidRenkuAccessToken]. split; [done|]. intros _ _. apply calm_deferred.
  destruct (url_Parse _); [|done]. apply calm_bind.
  - cbn. split; [done|]. intros tok _. split; [done|]. intros now' _.
    destruct (Token.VerifyJWTExpiresAt _ _ _ _) as [[|]|err]; cbn -[TokenStore.refreshRenkuAccessToken]; [auto| |done].
    apply calm_bind; [by apply refreshRenkuAccessToken_calm|]. intros [err|]; cbn; auto.
  - intros [tok|err]; cbn; [|done]. split; [done|]. intros [[code body]|err] _; cbn; [|done].
    destruct (negb _); [done|]. destruct body; cbn; auto.
Qed.

Lemma thread_calm j :
  serviceable (TokenStore.Config s) → wp calm (thread j) (λ a _, answers j a) tt.
Proof.
  intros Hs. destruct j as [h r|n]; cbn [thread].
  - apply calm_bind; [|cbn; eauto]. unfold handlerFunc. destruct (negb _); [done|].
    apply calm_bind; [by apply GetGitAccessToken_calm|]. by intros [].
  - apply calm_bind; [|done]. induction n as [|n IH]; [done|]. apply calm_bind; [|done].
    cbn -[TokenStore.refreshRenkuAccessToken]. split; [done|]. intros tok _. split; [done|]. intros now _.
    destruct (negb _); [|done]. apply calm_bind; [by apply refreshRenkuAccessToken_calm|done].
Qed.

(** What holds in every state of an execution. *)
Record Good (jobs : list Job) (st : State) : Prop := {
  good_inv : ∃ gs, Inv st gs;
  good_thread i j : jobs !! i = Some j → ∃ p : Thread, st.1 !! i = Some p ∧ wp calm p (λ a _, answers j a) tt;
  good_job i p : st.1 !! i = Some p → is_Some (jobs !! i) }.

(** A ticker that begins its next tick forgets what it knew. *)
Lemma Inv_tick pool w gs i :
  Inv (pool, w) gs → pool !! i = Some (Ret Ticked) → ∃ gs', Inv (<[i := thread (Tick 1)]> pool, w) gs'.
Proof.
  intros [Ht Hn Hc] Hi. cbn in *. destruct (Ht i _ Hi) as [[Hg Hr] _].
  exists (<[i := mkLocal false false [] []]> gs). split; cbn [fst snd].
  - intros j p. destruct (decide (j = i)) as [->|Hj].
    + rewrite list_lookup_insert_eq by (by eapply lookup_lt_Some). intros [= <-]. rewrite fn_lookup_insert. apply (thread_wp (Tick 1)).
    + rewrite list_lookup_insert_ne, fn_lookup_insert_ne by done. apply Ht.
  - intros j Hj. assert (j ≠ i).
    { intros ->. rewrite list_lookup_insert_eq in Hj; [done|]. by eapply lookup_lt_Some. }
    rewrite list_lookup_insert_ne in Hj by done. rewrite fn_lookup_insert_ne by done. by apply Hn.
  - pose proof (coh_git _ _ Hc i) as Hlg. pose proof (coh_renku _ _ Hc i) as Hlr. rewrite Hg in Hlg. rewrite Hr in Hlr.
    apply (coherent_step gs w); try done; [by intros ? ?%not_elem_of_nil..|by apply (coh_origin _ _ Hc)].
Qed.

Lemma Good_runs jobs i st st' :
  serviceable (TokenStore.Config s) → Good jobs st → runs i st st' → Good jobs st'.
Proof.
  intros Hs [[gs HI] Ht Hj] (p & p' & w' & Hi & -> & Hr). destruct st as [pool w]. cbn in *.
  assert (Hlt : (i < length pool)%nat) by (by eapply lookup_lt_Some). constructor; cbn.
  - destruct Hr as [Hr|(-> & -> & ->)]; [|by eapply Inv_tick]. destruct p as [| |R e k]; [done..|].
    destruct Hr as (r & He & ->). eapply Inv_step; [|exact HI]. by econstructor.
  - intros i' j' Hj'. destruct (Ht i' j' Hj') as (q & Hq & Hwp). destruct (decide (i' = i)) as [->|Hne].
    + rewrite list_lookup_insert_eq by done. assert (q = p) as -> by congruence. eexists. split; [done|].
      destruct Hr as [Hr|(-> & -> & ->)].
      * destruct p as [| |R e k]; [done..|]. destruct Hr as (r & He & ->). by apply Hwp.
      * destruct j'; [by destruct Hwp|]. by apply (thread_calm (Tick 1)).
    + rewrite list_lookup_insert_ne by done. eauto.
  - intros i' q. destruct (decide (i' = i)) as [->|Hne]; [by eauto|]. rewrite list_lookup_insert_ne by done. eauto.
Qed.

(** A thread that is not blocked by a lock can run; the holder of the renku lock
    never is, and the holder of the git lock waits for the renku lock only. *)
Definition blockedOn {R} (e : Store R) (w : World) : Prop :=
  match e with
  | LockGit | ReadGit _ => is_Some (gitLock w)
  | LockRenku | ReadRenkuAccess | ReadRenkuRefresh => is_Some (renkuLock w)
  | _ => False
  end.

Lemma exec_enabled gs w i {R} (e : Store R) :
  coherent gs w → threadAllowed e (gs i) → ¬ blockedOn e w → ∃ r w', exec i e w r w'.
Proof.
  intros Hc Ha Hb. pose proof (coh_git _ _ Hc i). pose proof (coh_renku _ _ Hc i).
  destruct e; cbn in *; rewrite <-?eq_None_not_Some in Hb;
    [by exists Time.zero, w| .. |by exists (inr (Errorf "")); eexists];
    first [exists tt|eexists]; eexists; naive_solver.
Qed.

Lemma unblocked_runs jobs st i R (e : Store R) k :
  Good jobs st → st.1 !! i = Some (Vis e k) → ¬ blockedOn e st.2 → canRun i st.
Proof.
  intros [[gs [Ht _ Hc]] _ _] Hi Hb. destruct (Ht i _ Hi) as [Ha _].
  destruct (exec_enabled gs st.2 i e Hc Ha Hb) as (r & w' & He).
  eexists _, _, _, w'. split; [done|]. split; [done|]. left. by exists r.
Qed.

Definition calling (i : nat) (st : State) : Prop :=
  match st.1 !! i with Some (Vis _ _) => True | _ => False end.

Lemma calling_Vis i st (p : Thread) :
  st.1 !! i = Some p → calling i st → match p with Vis _ _ => True | _ => False end.
Proof. intros Hp. unfold calling. by rewrite Hp. Qed.

Lemma holder_calls jobs st i :
  Good jobs st → (renkuLock st.2 = Some i ∨ gitLock st.2 = Some i) →
  calling i st ∧ (renkuLock st.2 = Some i ∨ renkuLock st.2 = None → canRun i st).
Proof.
  intros HG Hl. pose proof HG as [[gs [Ht Hn Hc]] _ _].
  assert (Hni : ¬ idle (gs i)).
  { intros [? ?]. pose proof (coh_git _ _ Hc i). pose proof (coh_renku _ _ Hc i). naive_solver congruence. }
  unfold calling. destruct (st.1 !! i) as [p|] eqn:Hp; [|by destruct (Hni (Hn i Hp))].
  destruct p as [a|why|R e k]; [by destruct (Ht i _ Hp)|by destruct (Hni (Ht i _ Hp))|].
  split; [done|]. intros Hfree. eapply unblocked_runs; [done..|]. destruct (Ht i _ Hp) as [Ha _].
  pose proof (coh_git _ _ Hc i) as Hg. pose proof (coh_renku _ _ Hc i) as Hr.
  destruct e; cbn in *; try (by intros []); intros [j Hj]; unfold idle in Ha; naive_solver congruence.
Qed.

(** A lock changes hands by being free. *)
Lemma runs_locks i j st st' :
  runs j st st' →
  (renkuLock st.2 = Some i → renkuLock st'.2 = Some i ∨ renkuLock st'.2 = None) ∧
  (gitLock st.2 = Some i → gitLock st'.2 = Some i ∨ gitLock st'.2 = None).
Proof.
  intros (p & p' & w' & _ & -> & [Hr|(_ & _ & ->)]); cbn; [|by auto].
  destruct p as [| |R e k]; [done..|]. destruct Hr as (r & He & ->).
  destruct e; cbn in He; destruct_and?; subst; cbn; (split; intros; [first [by auto|congruence]..]).
Qed.

Section Fair.
Context (jobs : list Job) (σ : nat → State) (who : nat → option nat).
Hypothesis (Hs : serviceable (TokenStore.Config s)) (HE : Execution jobs σ who) (HF : fair σ who).

Lemma Good_always n : Good jobs (σ n).
Proof.
  induction n as [|n IH].
  - rewrite (execution_start _ _ _ HE). constructor.
    + apply Inv_started.
    + intros i j Hj. exists (thread j). cbn. rewrite list_lookup_fmap, Hj. split; [done|]. by apply thread_calm.
    + intros i p. cbn. rewrite list_lookup_fmap. by destruct (jobs !! i).
  - pose proof (execution_step _ _ _ HE n) as Hn. destruct (who n) as [i|]; [|by rewrite Hn].
    by eapply Good_runs.
Qed.

(** What a thread does not change stays until it runs. *)
Lemma still i p n m :
  n ≤ m → (σ n).1 !! i = Some p → (∀ m', n ≤ m' < m → who m' ≠ Some i)%nat → (σ m).1 !! i = Some p.
Proof.
  intros Hle Hn. induction Hle as [|m Hle IH]; intros Hw; [done|].
  assert (Hm : (σ m).1 !! i = Some p) by (apply IH; intros m' ?; apply Hw; lia).
  pose proof (execution_step _ _ _ HE m) as Hstep. destruct (who m) as [j|] eqn:Hj; [|by rewrite Hstep].
  destruct Hstep as (q & q' & w' & _ & -> & _). cbn.
  rewrite list_lookup_insert_ne; [done|]. intros ->. apply (Hw m); [lia|done].
Qed.

Lemma next_run i n m :
  n ≤ m → who m = Some i → ∃ m', n ≤ m' ∧ who m' = Some i ∧ (∀ l, n ≤ l < m' → who l ≠ Some i)%nat.
Proof.
  intros Hle Hm. remember (m - n)%nat as d eqn:Hd. revert n Hle Hd.
  induction d as [|d IH]; intros n Hle Hd.
  - assert (n = m) as -> by lia. exists m. split; [done|]. split; [done|]. lia.
  - destruct (decide (who n = Some i)) as [Hn|Hn].
    + exists n. split; [done|]. split; [done|]. lia.
    + destruct (IH (S n)) as (m' & ? & ? & Hl); [lia..|]. exists m'. split; [lia|]. split; [done|].
      intros l ?. destruct (decide (l = n)) as [->|]; [done|]. apply Hl. lia.
Qed.

(** A thread that can run infinitely often makes its call. *)
Lemma advances i R (e : Store R) k n :
  (σ n).1 !! i = Some (Vis e k) → infinitelyOften (λ m, canRun i (σ m)) →
  ∃ m r, n ≤ m ∧ (σ (S m)).1 !! i = Some (k r).
Proof.
  intros Hn Hrun. destruct (HF i Hrun n) as (m0 & Hm0 & Hw0).
  destruct (next_run i n m0 Hm0 Hw0) as (m & Hm & Hw & Hnot).
  pose proof (still i _ n m Hm Hn Hnot) as Hstill.
  pose proof (execution_step _ _ _ HE m) as Hstep. rewrite Hw in Hstep.
  destruct Hstep as (q & q' & w' & Hq & Hst & Hr). rewrite Hstill in Hq. injection Hq as <-.
  destruct Hr as [(r & _ & ->)|[? _]]; [|done]. exists m, r. split; [done|]. rewrite Hst. cbn.
  apply list_lookup_insert_eq. by eapply lookup_lt_Some.
Qed.

(** No thread goes on calling for ever: a program is a finite tree. *)
Lemma not_for_ever i n :
  (∀ m, n ≤ m → calling i (σ m)) → ¬ infinitelyOften (λ m, canRun i (σ m)).
Proof.
  intros Hcall Hrun. assert (Hgen : ∀ p m, n ≤ m → (σ m).1 !! i ≠ Some p).
  { induction p as [a|why|R e k IH]; intros m Hm Hp.
    - exact (calling_Vis i (σ m) (Ret a) Hp (Hcall m Hm)).
    - exact (calling_Vis i (σ m) (Panic why) Hp (Hcall m Hm)).
    - destruct (advances i R e k m Hp Hrun) as (m' & r & ? & Hr). apply (IH r (S m')); [lia|done]. }
  pose proof (Hcall n (le_n n)) as Hn. unfold calling in Hn.
  destruct ((σ n).1 !! i) as [p|] eqn:Hp; [|done]. by apply (Hgen p n).
Qed.

Lemma kept (lock : World → option nat) i n :
  (∀ j st st', runs j st st' → lock st.2 = Some i → lock st'.2 = Some i ∨ lock st'.2 = None) →
  lock (σ n).2 = Some i → (∀ m, n ≤ m → lock (σ m).2 ≠ None) → ∀ m, n ≤ m → lock (σ m).2 = Some i.
Proof.
  intros Hlock Hn Hnever m Hm. induction Hm as [|m Hm IH]; [done|].
  pose proof (execution_step _ _ _ HE m) as Hstep. destruct (who m) as [j|]; [|by rewrite Hstep].
  destruct (Hlock _ _ _ Hstep IH) as [|Hnone]; [done|]. by destruct (Hnever (S m) (le_S _ _ Hm)).
Qed.

(** Both locks are free infinitely often. *)
Lemma renku_free : infinitelyOften (λ n, renkuLock (σ n).2 = None).
Proof.
  intros n. apply NNPP. intros Hno. assert (Hnever : ∀ m, n ≤ m → renkuLock (σ m).2 ≠ None) by naive_solver.
  destruct (renkuLock (σ n).2) as [i|] eqn:Hi; [|by apply (Hnever n)].
  assert (Hkept : ∀ m, n ≤ m → renkuLock (σ m).2 = Some i).
  { apply kept; [|done..]. intros j st st' Hr. by apply (runs_locks i j). }
  apply (not_for_ever i n).
  - intros m Hm. eapply holder_calls; [apply Good_always|]. auto.
  - intros m. exists (n `max` m)%nat. split; [lia|]. eapply holder_calls; [apply Good_always|..];
      left; apply Hkept; lia.
Qed.

Lemma git_free : infinitelyOften (λ n, gitLock (σ n).2 = None).
Proof.
  intros n. apply NNPP. intros Hno. assert (Hnever : ∀ m, n ≤ m → gitLock (σ m).2 ≠ None) by naive_solver.
  destruct (gitLock (σ n).2) as [i|] eqn:Hi; [|by apply (Hnever n)].
  assert (Hkept : ∀ m, n ≤ m → gitLock (σ m).2 = Some i).
  { apply kept; [|done..]. intros j st st' Hr. by apply (runs_locks i j). }
  apply (not_for_ever i n).
  - intros m Hm. eapply holder_calls; [apply Good_always|]. auto.
  - intros m. destruct (renku_free (n `max` m)) as (l & Hl & Hfree). exists l. split; [lia|].
    eapply holder_calls; [apply Good_always|right; apply Hkept; lia|by right].
Qed.

(** A thread that waits is let through. *)
Lemma not_passed_over i n :
  (∀ m, n ≤ m → calling i (σ m)) → infinitelyOften (λ m, canRun i (σ m)).
Proof.
  intros Hcall m0. set (m := (n `max` m0)%nat). apply NNPP. intros Hno.
  assert (Hstuck : ∀ l, m ≤ l → ¬ canRun i (σ l)).
  { intros l Hl Hc. apply Hno. exists l. split; [lia|done]. }
  assert (Hm := Hcall m ltac:(lia)). unfold calling in Hm.
  destruct ((σ m).1 !! i) as [[| |R e k]|] eqn:Hp; [done..| |done].
  assert (Hstay : ∀ l, m ≤ l → (σ l).1 !! i = Some (Vis e k)).
  { intros l Hl. apply (still i _ m); [done..|]. intros l' Hl' Hw. apply (Hstuck l'); [lia|].
    pose proof (execution_step _ _ _ HE l') as Hr. rewrite Hw in Hr. by eexists. }
  assert (Hfree : ∃ l, m ≤ l ∧ ¬ blockedOn e (σ l).2).
  { destruct (git_free m) as (lg & Hlg & Hg), (renku_free m) as (lr & Hlr & Hr).
    destruct e; cbn; try (exists m; split; [done|by intros []]);
      (exists lg; split; [done|rewrite Hg; by intros []]) || (exists lr; split; [done|rewrite Hr; by intros []]). }
  destruct Hfree as (l & Hl & Hb). apply (Hstuck l Hl). eapply unblocked_runs; [apply Good_always|by apply Hstay|done].
Qed.

(** From every point on, every thread comes to the end of what it is doing. *)
Lemma comes_to_end i j n :
  jobs !! i = Some j → ∃ m a, n ≤ m ∧ (σ m).1 !! i = Some (Ret a) ∧ answers j a.
Proof.
  intros Hj. apply NNPP. intros Hno.
  assert (Hcall : ∀ m, n ≤ m → calling i (σ m)).
  { intros m Hm. destruct (good_thread _ _ (Good_always m) i j Hj) as (p & Hp & Hwp). unfold calling. rewrite Hp.
    destruct p as [a|why|]; [|done..]. apply Hno. by exists m, a. }
  exact (not_for_ever i n Hcall (not_passed_over i n Hcall)).
Qed.

Lemma never_panics n i why : (σ n).1 !! i ≠ Some (Panic why).
Proof.
  intros Hp. destruct (good_job _ _ (Good_always n) i _ Hp) as [j Hj].
  destruct (good_thread _ _ (Good_always n) i j Hj) as (p & Hp' & Hwp). by simplify_eq.
Qed.

(** An answer stays, and says what answers say. *)
Lemma answered_stays i h r out n m :
  (σ n).1 !! i = Some (Ret (Answered h r out)) → n ≤ m → (σ m).1 !! i = Some (Ret (Answered h r out)).
Proof.
  intros Hn Hm. induction Hm as [|m Hm IH]; [done|].
  pose proof (execution_step _ _ _ HE m) as Hstep. destruct (who m) as [j|] eqn:Hj; [|by rewrite Hstep].
  destruct Hstep as (q & q' & w' & Hq & Hst & Hr). rewrite Hst. cbn. rewrite list_lookup_insert_ne; [done|]. intros ->.
  rewrite IH in Hq. injection Hq as <-. by destruct Hr as [|[? _]].
Qed.

Lemma answer_ok i a n : (σ n).1 !! i = Some (Ret a) → answerOk (issued (σ n).2) a.
Proof.
  intros Hi. destruct (Good_always n) as [[gs [Ht _ Hc]] _ _]. destruct (Ht i _ Hi) as [_ Ha].
  destruct a as [h r [r' resp]|]; [|done]. cbn in *. case_match; [|done]. destruct resp; [done|].
  destruct Ha as (ts & Hts & ->). exists ts. split; [|done]. by apply (coh_facts _ _ Hc i).
Qed.

(** The ticker begins a tick infinitely often. *)
Lemma ticks_again i n0 : jobs !! i = Some (Tick n0) →
  infinitelyOften (λ n, who n = Some i ∧ (σ n).1 !! i = Some (Ret Ticked)).
Proof.
  intros Hj n. destruct (comes_to_end i _ n Hj) as (m & a & Hm & Hp & ->).
  assert (Hw : ∃ l, m ≤ l ∧ who l = Some i).
  { apply NNPP. intros Hno. assert (Hstay : ∀ l, m ≤ l → (σ l).1 !! i = Some (Ret Ticked)).
    { intros l Hl. apply (still i _ m); [done..|]. intros l' Hl' Hw. apply Hno. exists l'. split; [lia|done]. }
    apply Hno, (HF i). intros l. exists (m `max` l)%nat. split; [lia|]. eexists _, _, _, _.
    split; [apply Hstay; lia|]. split; [done|]. by right. }
  destruct Hw as (l & Hl & Hw). destruct (next_run i m l Hl Hw) as (l' & Hl' & Hw' & Hnot).
  exists l'. split; [lia|]. split; [done|]. by apply (still i _ m).
Qed.
End Fair.
End Threads.

(** ** An executable scheduler *)

(** Thread [i] makes its call at the clock reading [now]; the servers reply
    [reply]. *)
Definition execute (now : Time.t) (reply : Result HttpResponse.t) (i : nat) {R} (e : Store R) (w : World)
    : option (R * World) :=
  match e in Store R return option (R * World) with
  | Now => Some (now, w)
  | LockGit => match gitLock w with None => Some (tt, with_gitLock w (Some i)) | Some _ => None end
  | UnlockGit => if decide (gitLock w = Some i) then Some (tt, with_gitLock w None) else None
  | LockRenku => match renkuLock w with None => Some (tt, with_renkuLock w (Some i)) | Some _ => None end
  | UnlockRenku => if decide (renkuLock w = Some i) then Some (tt, with_renkuLock w None) else None
  | ReadGit p => match gitLock w with None => Some (gitAccessTokens w !! p, w) | Some _ => None end
  | WriteGit p ts => Some (tt, with_git w p ts)
  | ReadRenkuAccess => match renkuLock w with None => Some (renkuAccessToken w, w) | Some _ => None end
  | ReadRenkuRefresh => match renkuLock w with None => Some (renkuRefreshToken w, w) | Some _ => None end
  | PeekRenkuRefresh => Some (renkuRefreshToken w, w)
  | WriteRenkuAccess t => Some (tt, with_renku w t (renkuRefreshToken w))
  | WriteRenkuRefresh t => Some (tt, with_renku w (renkuAccessToken w) t)
  | Do req => Some (reply, with_exchange w (req, reply))
  end.

Lemma execute_exec now reply i {R} (e : Store R) w r w' :
  execute now reply i e w = Some (r, w') → exec i e w r w'.
Proof. destruct e; cbn; intros He; repeat case_match; by simplify_eq. Qed.

(** The threads named by the schedule step in turn; those that cannot are
    passed over. *)
Fixpoint schedule (now : Time.t) (reply : Result HttpResponse.t) (order : list nat)
    (st : list Thread * World) : list Thread * World :=
  match order with
  | [] => st
  | i :: order =>
      schedule now reply order
        match st.1 !! i with
        | Some (Vis e k) =>
            match execute now reply i e st.2 with
            | Some (r, w') => (<[i := k r]> st.1, w')
            | None => st
            end
        | _ => st
        end
  end.

Lemma schedule_steps now reply order st : rtc step st (schedule now reply order st).
Proof.
  revert st. induction order as [|i order IH]; intros [pool w]; cbn; [done|].
  destruct (pool !! i) as [[| |R e k]|] eqn:Hi; try apply IH.
  destruct (execute now reply i e w) as [[r w']|] eqn:He; [|apply IH].
  eapply rtc_l; [|apply IH]. econstructor; [done|]. by eapply execute_exec.
Qed.
