(* ===== verification/ProxyTheorems.v ===== *)
(** * Properties of the git proxy

    Safety of all interleavings of the request handlers and the periodic
    refresh, liveness of fair executions, the matching of requests
    with repositories, and the set-up of the handlers from the configuration. *)

From S2P Require Import Prelude Prog NetUrl GitProxy ProxyThreads.
From stdpp Require Import relations.
From Stdlib Require Import Ascii.

(** ** Statements *)

(** What must hold when thread [i] is about to make the call [e]: shared fields
    are written, and requests sent, only under the lock that protects them. *)
Definition guarded (s : TokenStore.t) {R} (e : Store R) (i : nat) (w : World) : Prop :=
  match e with
  | WriteGit p ts => gitLock w = Some i ∧ (TokenStore.providerURL s p, ts) ∈ issued w
  | PeekRenkuRefresh | WriteRenkuAccess _ | WriteRenkuRefresh _ => renkuLock w = Some i
  | Do req => providerRequest s req ∧ gitLock w = Some i ∨ refreshRequest s req ∧ renkuLock w = Some i
  | _ => True
  end.

(** Host names that differ at most in a leading [www.]. *)
Definition sameHost (h1 h2 : string) : Prop :=
  h1 = h2 ∨ (hasWww h2 = false ∧ h1 = "www." +:+ h2) ∨ (hasWww h1 = false ∧ h2 = "www." +:+ h1).

Lemma answerOk_mono s known known' a : known ⊆ known' → answerOk s known a → answerOk s known' a.
Proof.
  intros Hk. destruct a as [h r [r' resp]|]; [|done]. cbn. case_match; [|done]. destruct resp; [done|].
  intros (ts & ? & ->). eauto.
Qed.

Lemma hasWww_www h : hasWww ("www." +:+ h) = true.
Proof. apply Strings.HasPrefix_spec. eauto. Qed.

Lemma hostsMatch_spec url1 url2 :
  hostsMatch url1 url2 = true ↔ sameHost (Hostname url1) (Hostname url2).
Proof.
  unfold hostsMatch, sameHost. generalize (Hostname url1), (Hostname url2). intros h1 h2.
  pose proof (hasWww_www h1). pose proof (hasWww_www h2).
  destruct (hasWww h1) eqn:H1, (hasWww h2) eqn:H2; cbn; rewrite String.eqb_eq; naive_solver congruence.
Qed.

Section Proxy.
Context `{Token.JwtLib} (s : TokenStore.t).

Lemma Inv_guarded pool w gs i R (e : Store R) k :
  Inv s (pool, w) gs → pool !! i = Some (Vis e k) → guarded s e i w.
Proof.
  intros [Ht _ Hc] Hi. destruct (Ht i _ Hi) as [Ha _]. cbn in *.
  pose proof (coh_git _ _ _ Hc i). pose proof (coh_renku _ _ _ Hc i). pose proof (coh_facts _ _ _ Hc i).
  destruct e; cbn in *; naive_solver.
Qed.

(** C24: However the request handlers and the periodic refresh interleave, and
    whatever the clock and the servers answer: the shared tokens are accessed
    and requests are sent only under the protecting lock; at most one exchange
    with a provider and at most one refresh of the renku token are in flight;
    and a request is sent on with credentials only if it matches the repository
    of the handler, with a token that was issued by the URL of the provider of
    that repository.  Other requests are passed on unchanged, and a matching
    request for which no token can be had is answered with 401. *)
Theorem proxy_safe jobs pool w :
  rtc step (started s jobs) (pool, w) →
  (∀ i R (e : Store R) k, pool !! i = Some (Vis e k) → guarded s e i w) ∧
  (∀ i j r1 r2 k1 k2, pool !! i = Some (Vis (Do r1) k1) → pool !! j = Some (Vis (Do r2) k2) →
     HttpRequest.Method r1 = HttpRequest.Method r2 → i = j) ∧
  (∀ i a, pool !! i = Some (Ret a) → answerOk s (issued w) a).
Proof.
  intros [gs HI]%Inv_reachable. pose proof (Inv_guarded pool w gs) as Hg. split_and!.
  - eauto.
  - intros i j r1 r2 k1 k2 Hi Hj Hm. apply (Hg _ _ _ _ HI) in Hi, Hj. unfold guarded in Hi, Hj.
    destruct Hi as [[(? & ? & ->) ?]|[(? & ? & ? & _ & ->) ?]],
      Hj as [[(? & ? & ->) ?]|[(? & ? & ? & _ & ->) ?]]; cbn in Hm; congruence.
  - intros i a Hi. destruct HI as [Ht _ Hc]. destruct (Ht i _ Hi) as [_ Ha].
    eapply answerOk_mono; [|exact Ha]. apply (coh_facts _ _ _ Hc).
Qed.

(** C25: Every request is answered.  Take any number of request handlers beside
    the endless ticker of the refresh, a validated configuration, and any fair
    execution, in which every HTTP exchange ends with some answer and no
    goroutine that waits for a lock is passed over for ever.  Then every handler
    reaches its answer and keeps it, the answer is one that the proxy may give,
    no thread panics, and the ticker begins a new tick infinitely often. *)
Theorem proxy_live jobs σ who :
  serviceable (TokenStore.Config s) → Execution s jobs σ who → fair s σ who →
  (∀ i h r, jobs !! i = Some (Serve h r) →
     ∃ n out, ∀ m, n ≤ m →
       (σ m).1 !! i = Some (Ret (Answered h r out)) ∧ answerOk s (issued (σ m).2) (Answered h r out)) ∧
  (∀ i n, jobs !! i = Some (Tick n) → infinitelyOften (λ m, who m = Some i ∧ (σ m).1 !! i = Some (Ret Ticked))) ∧
  (∀ n i why, (σ n).1 !! i ≠ Some (Panic why)).
Proof.
  intros Hs HE HF. split_and!.
  - intros i h r Hj. destruct (comes_to_end s jobs σ who Hs HE HF i _ 0%nat Hj) as (n & a & _ & Hn & out & ->).
    exists n, out. intros m Hm. pose proof (answered_stays s jobs σ who HE _ _ _ _ _ _ Hn Hm) as Hstay.
    split; [done|]. by eapply answer_ok.
  - intros i n Hj. by eapply ticks_again.
  - by apply (never_panics s jobs σ who).
Qed.
End Proxy.

(** A request matches a repository exactly when the schemes agree, the
    host names agree up to a leading [www.] on either side, the ports agree
    (80 and 443 are implied by the scheme), and the path extends the path of
    the repository, leading slashes aside. *)
Theorem validGitRequest_spec url repoURL :
  validGitRequest url repoURL = true ↔
  URL.Scheme url = URL.Scheme repoURL ∧
  sameHost (Hostname url) (Hostname repoURL) ∧
  getPort url = getPort repoURL ∧
  ∃ rest, Strings.TrimLeftByte "/"%char (URL.Path url) =
          Strings.TrimLeftByte "/"%char (URL.Path repoURL) +:+ rest.
Proof.
  unfold validGitRequest. rewrite !andb_true_iff, !String.eqb_eq, hostsMatch_spec, Strings.HasPrefix_spec. tauto.
Qed.

Lemma setupRepository_Some providers repo h :
  setupRepository providers repo = Some h ↔
  GitRepository.Provider repo = RepoHandler.Provider h ∧ RepoHandler.Provider h ≠ "" ∧
  url_Parse (GitRepository.Url repo) = Some (RepoHandler.RepoURL h) ∧
  RepoHandler.Hosts h = reqHosts (RepoHandler.RepoURL h) ∧
  ∃ p, providers !! RepoHandler.Provider h = Some p.
Proof.
  unfold setupRepository. destruct h as [hosts u provider]. cbn. split.
  - destruct (url_Parse _) as [u'|]; [|done]. destruct (_ =s "") eqn:He; [done|]. apply String.eqb_neq in He.
    destruct (providers !! _) as [p|] eqn:Hp; [|done]. intros [= <- <- <-]. eauto 10.
  - intros (<- & Hne%String.eqb_neq & -> & -> & p & ->). by rewrite Hne.
Qed.

(** The longest period, in seconds, whose nanoseconds fit 64 bits. *)
Definition maxPeriodSeconds : Z := Int.max64 / Duration.Second.

(** An authenticated session of version 1 whose period does not overflow. *)
Definition versionOne (c : GitProxyConfig.t) : Prop :=
  GitProxyConfig.AnonymousSession c = false ∧ GitProxyConfig.RenkuAuthenticationVersion c ≠ "v2" ∧
  (GitProxyConfig.RefreshCheckPeriodSeconds c ≤ maxPeriodSeconds)%Z.

(** A handler for a repository with a URL that can be parsed and a configured
    provider, bound to its own URL and provider and to the hosts of that URL. *)
Definition usableHandler (c : GitProxyConfig.t) (h : RepoHandler.t) : Prop :=
  ∃ repo p,
    repo ∈ GitProxyConfig.Repositories c ∧
    GitRepository.Provider repo = RepoHandler.Provider h ∧ RepoHandler.Provider h ≠ "" ∧
    url_Parse (GitRepository.Url repo) = Some (RepoHandler.RepoURL h) ∧
    RepoHandler.Hosts h = reqHosts (RepoHandler.RepoURL h) ∧
    TokenStore.providerMap (GitProxyConfig.Providers c) !! RepoHandler.Provider h = Some p.

(** For a validated configuration of version 1 the set-up succeeds: the store
    refreshes at the configured period, and a handler is registered for exactly
    the usable repositories. *)
Lemma proxy_setup c :
  versionOne c → GitProxyConfig.Validate c = None →
  ∃ store handlers, GetProxyHandler c = Done (Some store, handlers) ∧
    TokenStore.RefreshTickerPeriod store = (GitProxyConfig.RefreshCheckPeriodSeconds c * Duration.Second)%Z ∧
    (0 < TokenStore.RefreshTickerPeriod store)%Z ∧
    ∀ h, h ∈ handlers ↔ usableHandler c h.
Proof.
  intros (Han & Hv2%String.eqb_neq & Hmax) Hval. unfold GitProxyConfig.Validate in Hval. rewrite Han, Hv2 in Hval.
  repeat case_match; simplify_eq. rename select ((_ <=? 0)%Z = false) into Hpos. apply Z.leb_gt in Hpos.
  assert (Hp : GitProxyConfig.GetRefreshCheckPeriod c =
    (GitProxyConfig.RefreshCheckPeriodSeconds c * Duration.Second)%Z).
  { apply Int.wrap64_id. assert (Hm : maxPeriodSeconds = 9223372036%Z) by done.
    unfold Int.in64, Int.min64, Int.max64, Duration.Second. lia. }
  unfold GetProxyHandler, TokenStore.New. rewrite Han, Hp.
  assert (Hlt : (GitProxyConfig.RefreshCheckPeriodSeconds c * Duration.Second <=? 0)%Z = false)
    by (apply Z.leb_gt; unfold Duration.Second; lia).
  rewrite Hlt. cbn. eexists _, _. split; [done|]. cbn. split; [done|]. split; [by apply Z.leb_gt|].
  intros h. rewrite list_elem_of_omap. split.
  - intros (repo & Hin & Hs). apply setupRepository_Some in Hs as (? & ? & ? & ? & p & ?). by exists repo, p.
  - intros (repo & p & ? & ? & ? & ? & ? & ?). exists repo. split; [done|]. apply setupRepository_Some. by eauto 10.
Qed.

(** ** An example *)

(** A token "expired" has an expiry in the past; others have none. *)
#[global] Instance plainJwt : Token.JwtLib :=
  {| Token.ParseUnverified t := inl (if t =s "expired" then Some 1%Z else None) |}.

Definition exampleConfig : GitProxyConfig.t :=
  GitProxyConfig.mk 8080 8081 false "" "expired" "refresh" (url_Parse "https://renku.io") "Renku" "cli" "s3cret" ""
    [GitRepository.mk "https://gitlab.io/group/repo" "gitlab"; GitRepository.mk "https://other.io/x" "unknown"]
    [GitProvider.mk "gitlab" "https://renku.io/api/oauth2/gitlab/token"] 600.

Definition exampleStore : TokenStore.t :=
  TokenStore.mk exampleConfig (TokenStore.providerMap (GitProxyConfig.Providers exampleConfig))
    (GitProxyConfig.GetRefreshCheckPeriod exampleConfig) (GitProxyConfig.GetExpirationLeeway exampleConfig).

Definition exampleHandler : RepoHandler.t :=
  let u := URL.new "https" "gitlab.io" "/group/repo" in RepoHandler.mk (reqHosts u) u "gitlab".

Definition exampleRequest (host path : string) : ProxyRequest.t :=
  ProxyRequest.mk (URL.new "https" host path) ∅.

(** Two matching requests, one that does not match, and a tick of the refresh,
    in turn. *)
Definition exampleJobs : list Job :=
  [Serve exampleHandler (exampleRequest "www.gitlab.io" "/group/repo.git/info/refs"); Tick 1;
   Serve exampleHandler (exampleRequest "gitlab.io:443" "/group/repo/x");
   Serve exampleHandler (exampleRequest "gitlab.io" "/other")].

Definition exampleReply : Result HttpResponse.t :=
  inl (HttpResponse.mk 200 (inl (HttpResponse.mkBody "tok" "refresh2" 99999999999))).

Definition exampleRun (rounds : nat) : list Thread * World :=
  schedule Time.unixEpoch exampleReply (concat (replicate rounds [0; 1; 2; 3]%nat)) (started exampleStore exampleJobs).

Definition authorization (p : option Thread) : option (option string) :=
  match p with
  | Some (Ret (Answered _ _ (r, None))) => Some (ProxyRequest.Header r !! "Authorization")
  | _ => None
  end.

Lemma proxy_safe_witness :
  authorization ((exampleRun 30).1 !! 0%nat) = Some (Some "Basic b2F1dGgyOnRvaw==") ∧
  authorization ((exampleRun 30).1 !! 2%nat) = Some (Some "Basic b2F1dGgyOnRvaw==") ∧
  authorization ((exampleRun 30).1 !! 3%nat) = Some None ∧
  ∀ i a, (exampleRun 30).1 !! i = Some (Ret a) → answerOk exampleStore (issued (exampleRun 30).2) a.
Proof.
  split_and!; [vm_compute; reflexivity..|]. intros i a Ha.
  destruct (exampleRun 30) as [pool w] eqn:He.
  apply (proxy_safe exampleStore exampleJobs pool w) with (i := i); [|exact Ha].
  rewrite <-He. apply schedule_steps.
Defined.

(** The four threads in turn for ever: a fair execution, since after the first
    rounds only the ticker can run, in a cycle of three states. *)
Definition advance (i : nat) (st : State) : option State :=
  match st.1 !! i with
  | Some (Vis e k) =>
      match execute Time.unixEpoch exampleReply i e st.2 with
      | Some (r, w') => Some (<[i := k r]> st.1, w')
      | None => None
      end
  | Some (Ret Ticked) => Some (<[i := thread exampleStore (Tick 1)]> st.1, st.2)
  | _ => None
  end.

Definition turn (n : nat) : nat := (n mod 4)%nat.

Fixpoint inTurn (n : nat) : State :=
  match n with
  | O => started exampleStore exampleJobs
  | S n => let st := inTurn n in default st (advance (turn n) st)
  end.

Lemma inTurn_S n : inTurn (S n) = default (inTurn n) (advance (turn n) (inTurn n)).
Proof. done. Qed.

Definition whoInTurn (n : nat) : option nat :=
  if advance (turn n) (inTurn n) then Some (turn n) else None.

Lemma advance_runs i st st' : advance i st = Some st' → runs exampleStore i st st'.
Proof.
  unfold advance. destruct (st.1 !! i) as [[a|why|R e k]|] eqn:Hi; [|done| |done].
  - destruct a; [done|]. intros [= <-]. eexists _, _, _. split; [done|]. split; [done|]. by right.
  - destruct (execute _ _ i e st.2) as [[r w']|] eqn:He; [|done]. intros [= <-]. eexists _, _, _. split; [done|].
    split; [done|]. left. exists r. split; [|done]. by eapply execute_exec.
Qed.

Lemma inTurn_execution : Execution exampleStore exampleJobs inTurn whoInTurn.
Proof.
  split; [done|]. intros n. unfold whoInTurn. cbn [inTurn].
  destruct (advance (turn n) (inTurn n)) eqn:Ha; [by apply advance_runs|done].
Qed.

(** The states of the cycle, in which only the ticker can run. *)
Definition settled (c : nat) : State := Nat.iter c (λ st, default st (advance 1 st)) (inTurn 128).

Lemma settled_S c : settled (S c) = default (settled c) (advance 1 (settled c)).
Proof. done. Qed.

Definition waits (i : nat) (st : State) : bool :=
  match st.1 !! i with Some (Vis _ _) | Some (Ret Ticked) => true | _ => false end.

#[local] Opaque inTurn.

Lemma settled_cycle : settled 3 = settled 0.
Proof. vm_compute. reflexivity. Qed.

Lemma settled_waits i c : (c < 3)%nat → waits i (settled c) = true → i = 1%nat.
Proof.
  intros Hc Hw. destruct (decide (i < 4)%nat) as [Hi|Hi].
  - destruct i as [|[|[|[|i]]]], c as [|[|[|c]]]; try lia; by vm_compute in Hw.
  - unfold waits in Hw. rewrite lookup_ge_None_2 in Hw; [done|]. etrans; [|apply Nat.nlt_ge, Hi].
    destruct c as [|[|[|c]]]; try lia; vm_compute; lia.
Qed.

Lemma settled_ticks c : (c < 3)%nat → ∃ st, advance 1 (settled c) = Some st ∧ settled (S c) = st.
Proof.
  intros Hc. assert (His : is_Some (advance 1 (settled c))).
  { destruct c as [|[|[|c]]]; try lia; vm_compute; eauto. }
  destruct His as [st Hst]. exists st. split; [done|]. by rewrite settled_S, Hst.
Qed.

Lemma runs_waits i st st' : runs exampleStore i st st' → waits i st = true.
Proof. intros (p & p' & w' & Hi & _ & [Hr|(-> & _)]); unfold waits; rewrite Hi; [by destruct p|done]. Qed.

Lemma inTurn_settled d : ∃ c, (c < 3)%nat ∧ inTurn (d + 128) = settled c.
Proof.
  induction d as [|d (c & Hc & Hd)]; [by exists 0%nat; split; [lia|]|].
  rewrite Nat.add_succ_l, inTurn_S, Hd. destruct (advance (turn (d + 128)) (settled c)) as [st|] eqn:Ha; [|by exists c].
  pose proof (settled_waits _ c Hc (runs_waits _ _ _ (advance_runs _ _ _ Ha))) as Ht. rewrite Ht in Ha.
  destruct (settled_ticks c Hc) as (st' & Hst & Hs). rewrite Ha in Hst. injection Hst as <-. cbn [default].
  destruct (decide (S c < 3)%nat); [by exists (S c)|]. exists 0%nat. split; [lia|].
  rewrite <-settled_cycle, <-Hs. by replace c with 2%nat by lia.
Qed.

Lemma inTurn_fair : fair exampleStore inTurn whoInTurn.
Proof.
  intros i Hi. destruct (Hi 128%nat) as (m & Hm & st & Hr). destruct (inTurn_settled (m - 128)) as (c & Hc & Hs).
  replace (m - 128 + 128)%nat with m in Hs by lia. rewrite Hs in Hr.
  rewrite (settled_waits i c Hc (runs_waits _ _ _ Hr)). intros n. exists ((4 * n + 1) + 128)%nat. split; [lia|].
  assert (Ht : turn (4 * n + 1 + 128) = 1%nat).
  { unfold turn. replace (4 * n + 1 + 128)%nat with (1 + (n + 32) * 4)%nat by lia. by rewrite Nat.Div0.mod_add. }
  unfold whoInTurn. rewrite Ht. destruct (inTurn_settled (4 * n + 1)) as (c' & Hc' & ->).
  destruct (settled_ticks c' Hc') as (st' & -> & _). done.
Qed.

Lemma example_serviceable : serviceable exampleConfig.
Proof. split; [done|]. split; [by vm_compute|done]. Qed.

(** In that execution the first handler gets its answer, and the ticker ticks
    for ever. *)
Lemma proxy_live_witness :
  (∃ n out, ∀ m, n ≤ m →
     (inTurn m).1 !! 0%nat =
       Some (Ret (Answered exampleHandler (exampleRequest "www.gitlab.io" "/group/repo.git/info/refs") out)) ∧
     answerOk exampleStore (issued (inTurn m).2)
       (Answered exampleHandler (exampleRequest "www.gitlab.io" "/group/repo.git/info/refs") out)) ∧
  infinitelyOften (λ m, whoInTurn m = Some 1%nat ∧ (inTurn m).1 !! 1%nat = Some (Ret Ticked)).
Proof.
  destruct (proxy_live exampleStore exampleJobs inTurn whoInTurn example_serviceable inTurn_execution inTurn_fair)
    as (Hserve & Htick & _).
  split; [by apply Hserve|by apply (Htick 1%nat 1%nat)].
Defined.

Example proxy_setup_example :
  ∃ store handlers, GetProxyHandler exampleConfig = Done (Some store, handlers) ∧ length handlers = 1%nat ∧
    TokenStore.RefreshTickerPeriod store = (600 * Duration.Second)%Z.
Proof. vm_compute. eauto. Qed.

(** Version 2 is validated without the refresh period: a period of zero passes
    and the set-up panics. *)
Lemma v2_period_unchecked :
  let c := GitProxyConfig.mk 8080 8081 false "v2" "a" "r" None "" "" "" "https://renku.io/token" [] [] 0 in
  GitProxyConfig.Validate c = None ∧ GetProxyHandler c = Panicked "non-positive interval for NewTicker".
Proof. by vm_compute. Qed.
