(* ===== verification/Servers.v ===== *)
(** * Processes that run servers until they are interrupted

    The git proxy and the authentication proxy are processes of one shape: the
    main thread sets the servers up, runs each of them in a goroutine, waits for
    a signal and shuts them down.  A process is a program for the main thread
    and one per goroutine, over the calls of [Sys]; [step] is one step of one
    thread, or the arrival of a signal, against a shared [World].  [orderly]
    verifies the threads one by one against monitors; [Inv] ties them together,
    and [lifecycle] is what holds in every interleaving.  Open requests are an
    environment's choice: [hanging] names the servers with a connection that
    never gets idle, for which a shutdown without a deadline never returns
    ([stuck_draining]).  Apart from that a process is a finite program per
    thread ([steps_terminate]). *)

From S2P Require Import Prelude Prog.
From stdpp Require Import relations.

(** ** Calls *)

(** What ends the run of a server: [http.ErrServerClosed] after a shutdown, or
    another error. *)
Inductive ServeError := ErrServerClosed | ServeFailed (err : GoError).

Inductive Sys : Type → Type :=
(** [signal.Notify], [signal.NotifyContext] *)
| Notify : Sys unit
(** [go] *)
| Spawn (name : string) : Sys unit
| WaitSignal : Sys unit
(** the two parts of [ListenAndServe]: open the port, serve until an error *)
| Listen (server : string) (port : Z) : Sys (option ServeError)
| Accept (server : string) : Sys ServeError
(** the two parts of [Shutdown]: close the port, wait for the open requests;
    whether the context has a deadline *)
| CloseListeners (server : string) : Sys unit
| Drain (server : string) (deadline : bool) : Sys (option GoError)
| Println (line : string) : Sys unit
(** [os.Exit], which the fatal functions of the loggers end in *)
| Exit (code : Z) : Sys unit.

Definition listenAndServe (server : string) (port : Z) : Prog Sys ServeError :=
  err ← trigger (Listen server port);
  match err with Some err => mret err | None => trigger (Accept server) end.

Definition shutdown (server : string) (deadline : bool) : Prog Sys (option GoError) :=
  _ ← trigger (CloseListeners server); trigger (Drain server deadline).

(** The main thread returns the exit code of the process. *)
Module Process.
Record t := mk { main : Prog Sys Z; goroutine : string → Prog Sys unit }.
End Process.

(** ** The shared state *)

Inductive ServerState := Serving (port : Z) | Closed.
#[global] Instance ServerState_eq_dec : EqDecision ServerState.
Proof. solve_decision. Defined.

Inductive Ending := Exited (code : Z) | Crashed (why : string) | Killed.

Record World := mkWorld {
  notified : bool;
  signalled : bool;
  servers : gmap string ServerState;
  (** the servers that have ever been open, and those whose run or shutdown failed *)
  opened : list string;
  failures : list string;
  printed : list string;
  ended : option Ending }.

Definition with_signal (w : World) : World :=
  mkWorld (notified w) true (servers w) (opened w) (failures w) (printed w) (ended w).
Definition with_notified (w : World) : World :=
  mkWorld true (signalled w) (servers w) (opened w) (failures w) (printed w) (ended w).
Definition with_serving (w : World) (n : string) (port : Z) : World :=
  mkWorld (notified w) (signalled w) (<[n := Serving port]> (servers w)) (n :: opened w) (failures w) (printed w) (ended w).
Definition with_closed (w : World) (n : string) : World :=
  mkWorld (notified w) (signalled w) (<[n := Closed]> (servers w)) (opened w) (failures w) (printed w) (ended w).
(** a server that failed is not open any more *)
Definition with_down (w : World) (n : string) : World :=
  mkWorld (notified w) (signalled w) (delete n (servers w)) (opened w) (n :: failures w) (printed w) (ended w).
Definition with_failure (w : World) (n : string) : World :=
  mkWorld (notified w) (signalled w) (servers w) (opened w) (n :: failures w) (printed w) (ended w).
Definition with_line (w : World) (line : string) : World :=
  mkWorld (notified w) (signalled w) (servers w) (opened w) (failures w) (line :: printed w) (ended w).
Definition with_ended (w : World) (e : Ending) : World :=
  mkWorld (notified w) (signalled w) (servers w) (opened w) (failures w) (printed w) (Some e).

Section Environment.
(** The servers with a connection that, once they are open, never gets idle. *)
Context (hanging : string → bool).

Definition hangs (n : string) (w : World) : Prop := hanging n = true ∧ n ∈ opened w.

#[global] Instance hangs_dec n w : Decision (hangs n w).
Proof. unfold hangs. apply _. Defined.

(** What a call does.  Whether a port can be opened, a server fails or a shutdown
    succeeds is arbitrary; a server that has been shut down does not open.  A
    shutdown of a server that hangs returns at its deadline, with an error, and
    without a deadline never. *)
Definition exec {R} (e : Sys R) (w : World) : R → World → Prop :=
  match e in Sys R return R → World → Prop with
  | Notify => λ _ w', w' = with_notified w
  | Spawn _ => λ _ _, False
  | WaitSignal => λ _ w', signalled w = true ∧ w' = w
  | Listen n port => λ r w',
      match r with
      | Some ErrServerClosed => servers w !! n = Some Closed ∧ w' = w
      | Some (ServeFailed _) => servers w !! n ≠ Some Closed ∧ w' = with_failure w n
      | None => servers w !! n ≠ Some Closed ∧ w' = with_serving w n port
      end
  | Accept n => λ r w',
      match r with
      | ErrServerClosed => servers w !! n = Some Closed ∧ w' = w
      | ServeFailed _ => servers w !! n ≠ Some Closed ∧ w' = with_down w n
      end
  | CloseListeners n => λ _ w', w' = with_closed w n
  | Drain n deadline => λ r w',
      (hangs n w → deadline = true ∧ is_Some r) ∧ w' = match r with Some _ => with_failure w n | None => w end
  | Println line => λ _ w', w' = with_line w line
  | Exit code => λ _ w', w' = with_ended w (Exited code)
  end.

Definition State : Type := Prog Sys Z * list (Prog Sys unit) * World.

Definition initial : World := mkWorld false false ∅ [] [] [] None.

(** A signal that nobody has asked for ends the process. *)
Inductive step (P : Process.t) : State → State → Prop :=
| step_main R (e : Sys R) k r pool w w' :
    ended w = None → exec e w r w' → step P (Vis e k, pool, w) (k r, pool, w')
| step_spawn n k pool w :
    ended w = None → step P (Vis (Spawn n) k, pool, w) (k tt, pool ++ [Process.goroutine P n], w)
| step_goroutine main i R (e : Sys R) k r pool w w' :
    ended w = None → pool !! i = Some (Vis e k) → exec e w r w' → step P (main, pool, w) (main, <[i := k r]> pool, w')
| step_return code pool w :
    ended w = None → step P (Ret code, pool, w) (Ret code, pool, with_ended w (Exited code))
| step_crash why pool w :
    ended w = None → step P (Panic why, pool, w) (Panic why, pool, with_ended w (Crashed why))
| step_signal main pool w :
    ended w = None → signalled w = false →
    step P (main, pool, w) (main, pool, if notified w then with_signal w else with_ended w Killed).
End Environment.

Definition started (P : Process.t) : State := (Process.main P, [], initial).

(** ** The threads *)

Section Orderly.
(** The servers with their ports, in the order in which they are shut down,
    whether the failure of a server ends the process, and whether the shutdown
    has a deadline. *)
Context (order : list (string * Z)) (fatal deadline : bool).

Record Main := mkMain {
  gNotified : bool;
  gSpawned : list string;
  gAwaited : bool;
  gShut : list string;
  gFailed : bool }.

Definition mainMonitor : Monitor Sys Main := {|
  allowed R e := match e with
    | Notify | Println _ => λ _, True
    | Spawn n => λ g, gNotified g = true ∧ n ∈ order.*1
    | WaitSignal => λ g, gNotified g = true ∧ gSpawned g ≠ []
    | Listen _ _ | Accept _ => λ _, False
    | CloseListeners n => λ g, gAwaited g = true ∧ (gShut g ++ [n]) `prefix_of` order.*1
    | Drain n d => λ g, list.last (gShut g) = Some n ∧ d = deadline
    | Exit code => λ g, fatal = true ∧ code = 1%Z ∧ (gSpawned g = [] ∨ gFailed g = true)
    end;
  rely R e g r := match e with Exit _ => False | _ => True end;
  next R e := match e in Sys R return R → Main → Main with
    | Notify => λ _ g, mkMain true (gSpawned g) (gAwaited g) (gShut g) (gFailed g)
    | Spawn n => λ _ g, mkMain (gNotified g) (n :: gSpawned g) (gAwaited g) (gShut g) (gFailed g)
    | WaitSignal => λ _ g, mkMain (gNotified g) (gSpawned g) true (gShut g) (gFailed g)
    | CloseListeners n => λ _ g, mkMain (gNotified g) (gSpawned g) (gAwaited g) (gShut g ++ [n]) (gFailed g)
    | Drain _ _ => λ r g, mkMain (gNotified g) (gSpawned g) (gAwaited g) (gShut g) (bool_decide (is_Some r) || gFailed g)
    | _ => λ _ g, g
    end;
  panic_ok g := gSpawned g = [] |}.

(** A successful end has shut all servers down. *)
Definition mainPost (code : Z) (g : Main) : Prop :=
  if decide (code = 0%Z) then gAwaited g = true ∧ gShut g = order.*1
  else gSpawned g = [] ∨ fatal = true ∧ gFailed g = true.

(** A goroutine runs the server of its name; the ghost state is whether the
    server has failed. *)
Definition bodyMonitor (name : string) : Monitor Sys bool := {|
  allowed R e := match e with
    | Listen n port => λ _, n = name ∧ (n, port) ∈ order
    | Accept n => λ _, n = name
    | Println _ => λ _, True
    | Exit code => λ failed, fatal = true ∧ code = 1%Z ∧ failed = true
    | _ => λ _, False
    end;
  rely R e _ r := match e with Exit _ => False | _ => True end;
  next R e := match e in Sys R return R → bool → bool with
    | Listen _ _ => λ r failed, match r with Some (ServeFailed _) => true | _ => failed end
    | Accept _ => λ r failed, match r with ServeFailed _ => true | _ => failed end
    | _ => λ _ failed, failed
    end;
  panic_ok _ := False |}.

Class Orderly (P : Process.t) : Prop := {
  orderly_main : wp mainMonitor (Process.main P) mainPost (mkMain false [] false [] false);
  orderly_goroutine name : name ∈ order.*1 → wp (bodyMonitor name) (Process.goroutine P name) (λ _ _, True) false }.
End Orderly.

(** The main thread is in the shutdown, without a deadline, of server [n]. *)
Definition drains (main : Prog Sys Z) (n : string) : Prop :=
  match main with
  | Vis e _ => match e with Drain m d => m = n ∧ d = false | _ => False end
  | _ => False
  end.

(** ** Termination *)

Lemma ended_acc hanging P main pool w : ended w ≠ None → Acc (flip (step hanging P)) (main, pool, w).
Proof. intros He. constructor. intros st Hs. unfold flip in Hs. by inversion Hs. Qed.

(** What is left to show for one state: the steps of the threads. *)
Lemma threads_acc hanging P main pool :
  (∀ main' pool' w, child main' main → Acc (flip (step hanging P)) (main', pool', w)) →
  (∀ pool' w, shrinks pool' pool → Acc (flip (step hanging P)) (main, pool', w)) →
  ∀ w, Acc (flip (step hanging P)) (main, pool, w).
Proof.
  intros Hmain Hpool. set (good w := Acc (flip (step hanging P)) (main, pool, w)).
  assert (Hw : ∀ w, (signalled w = false → notified w = true → good (with_signal w)) → good w).
  { intros w Hsig. constructor. intros st Hs.
    inversion Hs as [R e k r| |? i R e k r ? ? ? He Hi Hx| | |? ? ? He Hns]; subst.
    - apply Hmain. by exists r.
    - apply Hmain. by exists tt.
    - apply Hpool. exists i, (Vis e k), (k r). split; [done|]. by split; [exists r|].
    - by apply ended_acc.
    - by apply ended_acc.
    - destruct (notified w) eqn:En; [by apply Hsig|by apply ended_acc]. }
  intros w. apply Hw. intros _ _. by apply Hw.
Qed.

(** Every step of a thread makes a program smaller; a signal arrives once. *)
Lemma steps_terminate hanging P st : Acc (flip (step hanging P)) st.
Proof.
  destruct st as [[main pool] w]. revert pool w.
  assert (Hout : ∀ main, (∀ main' pool' w, child main' main → Acc (flip (step hanging P)) (main', pool', w)) →
    ∀ pool w, Acc (flip (step hanging P)) (main, pool, w)).
  { intros m Hm pool. induction (shrinks_acc pool) as [pool _ IH]. apply threads_acc; [exact Hm|].
    intros pool' w Hs. exact (IH pool' Hs w). }
  induction main as [code|why|R e k IH]; apply Hout; intros main' pool' w Hc; [destruct Hc..|].
  destruct Hc as [r ->]. exact (IH r pool' w).
Qed.

(** ** All threads together *)

Section Lifecycle.
Context (order : list (string * Z)) (fatal deadline : bool) (hanging : string → bool) (P : Process.t)
  `{!Orderly order fatal deadline P}.

(** What can be said of the shared state alone. *)
Definition endedWell (w : World) : Prop :=
  match ended w with
  | None => True
  | Some (Exited code) =>
      if decide (code = 0%Z) then signalled w = true ∧ order ≠ [] ∧ ∀ n, n ∈ order.*1 → servers w !! n = Some Closed
      else opened w = [] ∨ fatal = true ∧ failures w ≠ []
  | Some (Crashed _) => opened w = []
  | Some Killed => notified w = false ∧ opened w = []
  end.

Record Coherent (w : World) (g : Main) : Prop := {
  coh_notified : gNotified g = notified w;
  coh_spawned : gSpawned g ≠ [] → notified w = true;
  coh_awaited : gAwaited g = true → signalled w = true ∧ gSpawned g ≠ [];
  coh_shut n : n ∈ gShut g ↔ servers w !! n = Some Closed;
  coh_prefix : gShut g `prefix_of` order.*1;
  coh_order : gShut g ≠ [] → gAwaited g = true;
  coh_serving n port : servers w !! n = Some (Serving port) → (n, port) ∈ order;
  coh_opened n : n ∈ opened w → n ∈ gSpawned g;
  coh_names n : n ∈ gSpawned g → n ∈ order.*1;
  coh_failed : gFailed g = true → failures w ≠ [];
  coh_ended : endedWell w }.

Definition poolOk (pool : list (Prog Sys unit)) (w : World) (g : Main) : Prop :=
  Forall (λ p, ∃ n failed, n ∈ gSpawned g ∧ (failed = true → failures w ≠ []) ∧
                 wp (bodyMonitor order fatal n) p (λ _ _, True) failed) pool.

Definition Inv (st : State) (g : Main) : Prop :=
  let '(main, pool, w) := st in
  (ended w = None → wp (mainMonitor order fatal deadline) main (mainPost order fatal) g ∧ poolOk pool w g) ∧ Coherent w g.

Lemma endedWell_running w : ended w = None → endedWell w.
Proof. unfold endedWell. by intros ->. Qed.

Lemma opened_none w g : Coherent w g → gSpawned g = [] → opened w = [].
Proof.
  intros Hc Hg. destruct (opened w) as [|n l] eqn:E; [done|]. pose proof (coh_opened _ _ Hc n) as H.
  rewrite E, Hg in H. set_solver.
Qed.

Lemma poolOk_mono pool w w' g g' :
  gSpawned g ⊆ gSpawned g' → (failures w ≠ [] → failures w' ≠ []) → poolOk pool w g → poolOk pool w' g'.
Proof. intros Hs Hf. intros Hp. eapply list.Forall_impl; [exact Hp|]. intros p (n & failed & ? & ? & ?). exists n, failed. split; [by apply Hs|]. auto. Qed.

(** A call of the main thread keeps the states together. *)
Lemma main_coherent {R} (e : Sys R) r w w' g :
  Coherent w g → ended w = None → allowed (mainMonitor order fatal deadline) e g → exec hanging e w r w' →
  Coherent w' (next (mainMonitor order fatal deadline) e r g) ∧ (ended w' = None → rely (mainMonitor order fatal deadline) e g r).
Proof.
  intros Hc He Ha Hx. pose proof (opened_none w g Hc) as Hnone. destruct Hc.
  destruct e; cbn in Ha, Hx |- *; try done; destruct_and?; subst w'; (split; [|done]).
  - constructor; cbn; try done. by apply endedWell_running.
  - by constructor; cbn.
  - constructor; cbn; try done; [|intros m port; rewrite lookup_insert_Some; naive_solver|by apply endedWell_running].
    intros m. rewrite elem_of_app, list_elem_of_singleton, coh_shut0, lookup_insert_Some.
    destruct (decide (server = m)); naive_solver.
  - destruct r; constructor; cbn; try done; by apply endedWell_running.
  - by constructor; cbn.
  - constructor; cbn; try done. unfold endedWell. subst code. cbn. naive_solver.
Qed.

Lemma body_coherent {R} (e : Sys R) r w w' n failed g :
  Coherent w g → ended w = None → allowed (bodyMonitor order fatal n) e failed → exec hanging e w r w' →
  n ∈ gSpawned g → (failed = true → failures w ≠ []) →
  Coherent w' g ∧ (ended w' = None → rely (bodyMonitor order fatal n) e failed r) ∧
  (next (bodyMonitor order fatal n) e r failed = true → failures w' ≠ []).
Proof.
  intros Hc He Ha Hx Hn Hf. destruct Hc.
  destruct e; cbn in Ha, Hx |- *; try done; destruct_and?; repeat case_match; destruct_and?; subst; (split; [|done]);
    constructor; cbn; try done; try by apply endedWell_running.
  - intros m. rewrite coh_shut0, lookup_insert_Some. naive_solver.
  - intros m port'. rewrite lookup_insert_Some. naive_solver.
  - set_solver.
  - intros m. rewrite coh_shut0, lookup_delete_Some. naive_solver.
  - intros m port'. rewrite lookup_delete_Some. naive_solver.
  - unfold endedWell. cbn. right. auto.
Qed.

Lemma exec_failures {R} (e : Sys R) w r w' : exec hanging e w r w' → failures w ≠ [] → failures w' ≠ [].
Proof. destruct e; cbn; intros Hx Hf; repeat case_match; destruct_and?; subst; done. Qed.

Lemma servers_started : Inv (started P) (mkMain false [] false [] false).
Proof.
  split; [intros _; split; [exact (orderly_main order fatal deadline)|by constructor]|].
  constructor; cbn; try done; try (by apply prefix_nil); intros n; [by rewrite lookup_empty, elem_of_nil|..]; set_solver.
Qed.

Lemma servers_step st st' g : step hanging P st st' → Inv st g → ∃ g', Inv st' g'.
Proof.
  intros [R e k r pool w w' He Hx|n k pool w He|main i R e k r pool w w' He Hi Hx|code pool w He|why pool w He|main pool w He Hs];
    intros [Hwp Hc]; destruct (Hwp He) as [Hm Hp].
  - destruct Hm as [Ha Hk]. destruct (main_coherent e r w w' g Hc He Ha Hx) as [Hc' Hr]. eexists. split; [|exact Hc'].
    intros He'. split; [by apply Hk, Hr|]. eapply poolOk_mono; [|by eapply exec_failures|exact Hp]. by destruct e.
  - destruct Hm as [[Ha1 Ha2] Hk]. specialize (Hk tt I). eexists. split; [intros _; split; [exact Hk|]|].
    + apply Forall_app. split; [eapply poolOk_mono; [..|exact Hp]; [cbn; set_solver|done]|]. constructor; [|done].
      exists n, false. split; [cbn; set_solver|]. split; [done|exact (orderly_goroutine order fatal deadline n Ha2)].
    + destruct Hc. constructor; cbn; try done; [intros _; congruence|naive_solver|set_solver..].
  - destruct (proj1 (Forall_lookup _ _) Hp i _ Hi) as (n & failed & Hn & Hf & Ha & Hk).
    destruct (body_coherent e r w w' n failed g Hc He Ha Hx Hn Hf) as (Hc' & Hr & Hf'). exists g. split; [|exact Hc'].
    intros He'. split; [done|]. apply Forall_insert.
    + eapply poolOk_mono; [|by eapply exec_failures|exact Hp]; done.
    + eauto 10.
  - exists g. split; [done|]. pose proof (opened_none w g Hc) as Hnone. destruct Hc. constructor; cbn; try done.
    cbn in Hm. unfold mainPost in Hm. unfold endedWell. cbn. destruct (decide (code = 0%Z)); [|naive_solver].
    destruct Hm as [[? Hsp]%coh_awaited0 <-]. split; [done|]. split; [|intros m; by rewrite coh_shut0].
    destruct (gSpawned g) as [|m l]; [done|]. pose proof (coh_names0 m). intros ->. set_solver.
  - exists g. split; [done|]. pose proof (opened_none w g Hc) as Hnone. destruct Hc. constructor; cbn; try done. by apply Hnone.
  - exists g. pose proof (opened_none w g Hc) as Hnone. destruct (notified w) eqn:En.
    + split; [done|]. destruct Hc. constructor; cbn; try done; [naive_solver|by apply endedWell_running].
    + split; [done|]. destruct Hc. constructor; cbn; try done. unfold endedWell. cbn. split; [done|]. apply Hnone.
      destruct (gSpawned g); [done|]. by rewrite coh_spawned0 in En.
Qed.

Lemma servers_reachable st : rtc (step hanging P) (started P) st → ∃ g, Inv st g.
Proof.
  intros Hr. assert (∃ g, Inv (started P) g) as [g0 H0] by (eexists; apply servers_started). revert g0 H0.
  induction Hr as [st|st1 st2 st3 Hs _ IH]; intros g H; [by exists g|].
  destruct (servers_step _ _ _ Hs H) as [g' H']. by eapply IH.
Qed.

(** What holds in every reachable state: servers are open on their ports only,
    are shut down in the order, after a signal, and the process ends well. *)
Lemma lifecycle main pool w :
  rtc (step hanging P) (started P) (main, pool, w) →
  (∀ n port, servers w !! n = Some (Serving port) → (n, port) ∈ order) ∧
  (∀ n, n ∈ opened w → n ∈ order.*1) ∧
  (∃ shut, shut `prefix_of` order.*1 ∧ (∀ n, n ∈ shut ↔ servers w !! n = Some Closed) ∧
     (shut ≠ [] → signalled w = true)) ∧
  endedWell w.
Proof.
  intros [g [_ []]]%servers_reachable. split; [done|]. split; [auto|]. split; [|done]. exists (gShut g). naive_solver.
Qed.

(** The process promises no deadline, and its main thread waits without one for
    a server that hangs. *)
Definition draining (main : Prog Sys Z) (w : World) : Prop :=
  match main with
  | Vis e _ => match e with Drain n d => deadline = false ∧ d = false ∧ hangs hanging n w | _ => False end
  | _ => False
  end.

Lemma draining_drains main w : draining main w → ∃ n, drains main n ∧ hangs hanging n w.
Proof. unfold draining, drains. destruct main as [| |R [] k]; try done. intros (_ & -> & Hh). by eexists. Qed.

Lemma draining_unbounded main w : draining main w → deadline = false.
Proof. unfold draining. destruct main as [| |R [] k]; try done. by intros []. Qed.

(** Once the signal has come, nothing else blocks the main thread. *)
Lemma main_runs_on main pool w :
  rtc (step hanging P) (started P) (main, pool, w) → signalled w = true → ended w = None → ¬ draining main w →
  ∃ st, step hanging P (main, pool, w) st.
Proof.
  intros [g [Hwp Hc]]%servers_reachable Hs He Hd. destruct (Hwp He) as [Hm _].
  destruct main as [code|why|R e k]; [by eexists; constructor|by eexists; constructor|].
  destruct Hm as [Ha _]. destruct e; cbn in Ha; try done.
  1, 3, 4, 6, 7: eexists; apply (step_main hanging P _ _ _ tt); try done.
  - eexists. by apply step_spawn.
  - destruct Ha as [_ ->]. destruct deadline eqn:Ed.
    + eexists. eapply (step_main hanging P _ _ _ (Some (Errorf "context deadline exceeded"))); [done|]. by split.
    + eexists. eapply (step_main hanging P _ _ _ None); [done|]. split; [|done]. intros Hh. by destruct Hd.
Qed.

(** An execution that cannot go on has ended the process, or is in the shutdown
    of a server that hangs, which has no deadline. *)
Lemma stuck_draining main pool w :
  rtc (step hanging P) (started P) (main, pool, w) → nf (step hanging P) (main, pool, w) → ended w = None →
  signalled w = true ∧ draining main w.
Proof.
  intros Hr Hnf He. destruct (signalled w) eqn:Hs; [|by destruct Hnf; eexists; apply step_signal].
  split; [done|]. assert (Decision (draining main w)) as Hdec.
  { unfold draining. destruct main as [| |R [] k]; apply _. }
  destruct (decide (draining main w)); [done|]. destruct Hnf. by eapply main_runs_on.
Qed.

(** Two servers, if the process gets as far as starting any. *)
Lemma two_servers first p1 second p2 main pool w :
  (order ≠ [] → order = [(first, p1); (second, p2)]) → rtc (step hanging P) (started P) (main, pool, w) →
  (servers w !! second = Some Closed → servers w !! first = Some Closed) ∧
  (servers w !! first = Some Closed → signalled w = true) ∧
  match ended w with
  | Some (Exited code) =>
      if decide (code = 0%Z) then servers w !! second = Some Closed else opened w = [] ∨ fatal = true ∧ failures w ≠ []
  | Some _ => opened w = []
  | None => nf (step hanging P) (main, pool, w) → signalled w = true ∧ draining main w
  end.
Proof.
  intros Ho Hr. destruct (lifecycle _ _ _ Hr) as (_ & _ & (shut & [l Hl] & Hc & Hsig) & He). rewrite <- !Hc.
  split; [|split; [intros Hx; apply Hsig; intros ->; by apply not_elem_of_nil in Hx|]].
  - destruct shut as [|x shut]; [by intros ?%not_elem_of_nil|]. intros _. rewrite Ho in Hl by (by destruct order).
    injection Hl as <- _. by left.
  - unfold endedWell in He. destruct (ended w) as [[code|why|]|] eqn:Ee; [|done|by destruct He|].
    + destruct (decide (code = 0%Z)); [|done]. destruct He as (_ & Hne & Hall). apply Hall. rewrite (Ho Hne). right. by left.
    + intros Hnf. by apply (stuck_draining _ _ _ Hr Hnf).
Qed.
End Lifecycle.

(** ** An executable scheduler *)

Section Scheduler.
Context (hanging : string → bool).

(** A call in an environment in which nothing fails but what hangs; [None] while
    it blocks. *)
Definition execute {R} (e : Sys R) (w : World) : option (R * World) :=
  match e in Sys R return option (R * World) with
  | Notify => Some (tt, with_notified w)
  | Spawn _ => None
  | WaitSignal => if signalled w then Some (tt, w) else None
  | Listen n port =>
      if decide (servers w !! n = Some Closed) then Some (Some ErrServerClosed, w) else Some (None, with_serving w n port)
  | Accept n => if decide (servers w !! n = Some Closed) then Some (ErrServerClosed, w) else None
  | CloseListeners n => Some (tt, with_closed w n)
  | Drain n deadline =>
      if decide (hangs hanging n w)
      then if deadline then Some (Some (Errorf "context deadline exceeded"), with_failure w n) else None
      else Some (None, w)
  | Println line => Some (tt, with_line w line)
  | Exit code => Some (tt, with_ended w (Exited code))
  end.

Lemma execute_sys {R} (e : Sys R) w r w' : execute e w = Some (r, w') → exec hanging e w r w'.
Proof. destruct e; cbn; intros He; repeat case_match; simplify_eq; done. Qed.

Inductive Move := Main_ | Goroutine (i : nat) | Signal.

(** The next state; a move that is not possible is passed over. *)
Definition move (P : Process.t) (m : Move) (st : State) : State :=
  let '(main, pool, w) := st in
  match ended w with
  | Some _ => st
  | None =>
      match m with
      | Main_ =>
          match main with
          | Ret code => (main, pool, with_ended w (Exited code))
          | Panic why => (main, pool, with_ended w (Crashed why))
          | Vis e k =>
              match e in Sys R return (R → Prog Sys Z) → State with
              | Spawn n => λ k, (k tt, pool ++ [Process.goroutine P n], w)
              | e => λ k, match execute e w with Some (r, w') => (k r, pool, w') | None => st end
              end k
          end
      | Goroutine i =>
          match pool !! i with
          | Some (Vis e k) => match execute e w with Some (r, w') => (main, <[i := k r]> pool, w') | None => st end
          | _ => st
          end
      | Signal => if signalled w then st else (main, pool, if notified w then with_signal w else with_ended w Killed)
      end
  end.

Lemma move_step P m st : rtc (step hanging P) st (move P m st).
Proof.
  destruct st as [[main pool] w]. unfold move. destruct (ended w) as [e|] eqn:He; [done|]. destruct m as [|i|].
  - destruct main as [code|why|R e k]; [by apply rtc_once; constructor..|].
    assert (∀ r w', execute e w = Some (r, w') → rtc (step hanging P) (Vis e k, pool, w) (k r, pool, w')) as Hx.
    { intros r w' Hx%execute_sys. apply rtc_once. by eapply step_main. }
    destruct e; try (destruct (execute _ w) as [[r w']|] eqn:Ee; [by apply Hx|done]). apply rtc_once. by apply step_spawn.
  - destruct (pool !! i) as [[| |R e k]|] eqn:Hi; try done. destruct (execute e w) as [[r w']|] eqn:Ee; [|done].
    apply rtc_once. eapply step_goroutine; [done..|]. by apply execute_sys.
  - destruct (signalled w) eqn:Hs; [done|]. apply rtc_once. by apply step_signal.
Qed.

Definition schedule (P : Process.t) (moves : list Move) : State := foldl (λ st m, move P m st) (started P) moves.

Lemma server_schedule P moves : rtc (step hanging P) (started P) (schedule P moves).
Proof.
  unfold schedule. induction moves as [|m moves IH] using rev_ind; [done|]. rewrite foldl_app. cbn.
  etrans; [exact IH|apply move_step].
Qed.
End Scheduler.
