(* ===== verification/GitProxyMain.v ===== *)
(** * The command of the git proxy (internal/git-https-proxy/root.go and config/config.go)

    How the configuration is read from the environment, the process that serves
    the proxy and its health endpoint until it is interrupted, and what the
    health endpoint answers.  The settings library is the class
    [GitProxySettings]: how it decodes a text for a type, given the decode hooks
    of the sources. *)

From S2P Require Import Prelude Prog NetUrl UrlRef Json JsonProps GitProxy ProxyThreads ProxyTheorems Servers.
From Stdlib Require Import Ascii.
From stdpp Require Import relations.

(** ** The configuration (config.go) *)

(** The types of the fields; [TURL], [TRepository] and [TProvider] are structs. *)
Inductive GoType :=
| TInt | TBool | TString
| TURL | TRepository | TProvider
| TPtr (elem : GoType)
| TSlice (elem : GoType).

Fixpoint valueOf (t : GoType) : Type :=
  match t with
  | TInt => Z
  | TBool => bool
  | TString => string
  | TURL => URL.t
  | TRepository => GitRepository.t
  | TProvider => GitProvider.t
  | TPtr t => option (valueOf t)
  | TSlice t => list (valueOf t)
  end.

(** The data that a decode hook gets and returns: a string, a slice of strings or
    a pointer to a struct. *)
Inductive Data :=
| DText (s : string)
| DTexts (l : list string)
| DStruct (t : GoType) (v : valueOf t).

(** [mapstructure.DecodeHookFuncType]: the target type and the data. *)
Definition DecodeHook : Type := GoType → Data → Result Data.

Definition isSlice (t : GoType) : bool := match t with TSlice _ => true | _ => false end.

Definition parseStringAsURL : DecodeHook := λ t data,
  match data, t with
  | DText s, TURL =>
      if s =s "" then inr (Errorf "empty values are not allowed for URLs")
      else match url_Parse s with
           | None => inr (Errorf "parse error")
           | Some url => inl (DStruct TURL url)
           end
  | _, _ => inl data
  end.

Definition parseJsonArray : DecodeHook := λ t data,
  match data with
  | DText raw =>
      if negb (isSlice t) then inl data
      else if raw =s "" then inr (Errorf "cannot parse empty string as a slice")
      else match rawSlice raw with
           | inr _ => inl data
           | inl slice => inl (DTexts slice)
           end
  | _ => inl data
  end.

Definition decodeRepository : Decoder GitRepository.t := decodeStruct (λ name,
  if name =s "url" then Some (field GitRepository.Url (λ r x, GitRepository.mk x (GitRepository.Provider r)) decodeString)
  else if name =s "provider" then
    Some (field GitRepository.Provider (λ r x, GitRepository.mk (GitRepository.Url r) x) decodeString)
  else None).

Definition decodeProvider : Decoder GitProvider.t := decodeStruct (λ name,
  if name =s "id" then Some (field GitProvider.Id (λ r x, GitProvider.mk x (GitProvider.AccessTokenUrl r)) decodeString)
  else if name =s "access_token_url" then
    Some (field GitProvider.AccessTokenUrl (λ r x, GitProvider.mk (GitProvider.Id r) x) decodeString)
  else None).

(** [json.Unmarshal] into a new struct of the type.  A URL never gets here in the
    composition of the hooks. *)
Definition unmarshalStruct (t : GoType) (raw : string) : option (Result Data) :=
  match t with
  | TRepository => Some (fmapResult (DStruct TRepository) (Unmarshal decodeRepository (GitRepository.mk "" "") raw))
  | TProvider => Some (fmapResult (DStruct TProvider) (Unmarshal decodeProvider GitProvider.zero raw))
  | _ => None
  end.

Definition parseJsonVariable : DecodeHook := λ t data,
  match data with
  | DText raw =>
      match unmarshalStruct t raw with
      | None => inl data
      | Some value =>
          if raw =s "" then inr (Errorf "cannot parse empty string as a struct")
          else match value with inr _ => inl data | inl value => inl value end
      end
  | _ => inl data
  end.

(** [mapstructure.ComposeDecodeHookFunc] *)
Definition composeHooks (hooks : list DecodeHook) : DecodeHook := λ t data,
  foldl (λ data hook, data ←ᵣ data; hook t data) (inl data) hooks.

Definition decodeHook : DecodeHook := composeHooks [parseStringAsURL; parseJsonArray; parseJsonVariable].

(** The settings library, as far as used: [setting] is the text that a prefixed
    variable gives to a key, none if it is missing or empty; [decodeText] decodes
    a text for a type.  The hook is asked first; its structs are taken as they
    are, the elements of its slices and the target of a pointer are decoded in
    turn; texts are kept as strings and read as decimal numbers and truth values. *)
Class GitProxySettings := {
  setting : Env → string → option string;
  decodeText : DecodeHook → ∀ t, string → Result (valueOf t);
  setting_prefixed : ∀ env key, let v := Getenv env ("GIT_PROXY_" +:+ Strings.ToUpper key) in
    setting env key = if v =s "" then None else Some v;
  decode_string : ∀ hook s, hook TString (DText s) = inl (DText s) → decodeText hook TString s = inl s;
  decode_int : ∀ (hook : DecodeHook) (z : Z), Int.in64 z → hook TInt (DText (pretty z)) = inl (DText (pretty z)) →
    decodeText hook TInt (pretty z) = inl z;
  decode_bool : ∀ (hook : DecodeHook) (b : bool), let s := if b then "true" else "false" in
    hook TBool (DText s) = inl (DText s) → decodeText hook TBool s = inl b;
  decode_ptr : ∀ hook t s, hook (TPtr t) (DText s) = inl (DText s) →
    decodeText hook (TPtr t) s = fmapResult Some (decodeText hook t s);
  decode_struct : ∀ hook t s v, hook t (DText s) = inl (DStruct t v) → decodeText hook t s = inl v;
  decode_slice : ∀ hook t s l v, hook (TSlice t) (DText s) = inl (DTexts l) →
    mapResult (decodeText hook t) l = inl v → decodeText hook (TSlice t) s = inl v;
  decode_error : ∀ hook t s err, hook t (DText s) = inr err → ∃ err', decodeText hook t s = inr err' }.

Section GetConfig.
Context `{GitProxySettings} (env : Env).

(** The value of a field: its variable, or its default. *)
Definition configField (t : GoType) (key : string) (def : valueOf t) : Result (valueOf t) :=
  match setting env key with
  | Some text => decodeText decodeHook t text
  | None => inl def
  end.

Definition GetConfig : Result GitProxyConfig.t :=
  port ←ᵣ configField TInt "port" 8080%Z;
  health_port ←ᵣ configField TInt "health_port" 8081%Z;
  anonymous_session ←ᵣ configField TBool "anonymous_session" true;
  renku_authentication_version ←ᵣ configField TString "renku_authentication_version" "";
  renku_access_token ←ᵣ configField TString "renku_access_token" "";
  renku_refresh_token ←ᵣ configField TString "renku_refresh_token" "";
  renku_url ←ᵣ configField (TPtr TURL) "renku_url" None;
  renku_realm ←ᵣ configField TString "renku_realm" "";
  renku_client_id ←ᵣ configField TString "renku_client_id" "";
  renku_client_secret ←ᵣ configField TString "renku_client_secret" "";
  renku_token_url ←ᵣ configField TString "renku_token_url" "";
  repositories ←ᵣ configField (TSlice TRepository) "repositories" [];
  providers ←ᵣ configField (TSlice TProvider) "providers" [];
  refresh_check_period_seconds ←ᵣ configField TInt "refresh_check_period_seconds" 600%Z;
  inl (GitProxyConfig.mk port health_port anonymous_session renku_authentication_version renku_access_token
         renku_refresh_token renku_url renku_realm renku_client_id renku_client_secret renku_token_url repositories
         providers refresh_check_period_seconds).
End GetConfig.

(** ** The process (root.go) *)

Definition errorText (err : ServeError) : string :=
  match err with ErrServerClosed => "http: Server closed" | ServeFailed err => err_msg err end.

(** The goroutines run the servers; an error is printed, whatever it is. *)
Definition runHealthServer (config : GitProxyConfig.t) : Prog Sys unit :=
  _ ← trigger (Println ("Health server active on port " +:+ pretty (GitProxyConfig.HealthPort config)));
  err ← listenAndServe "health" (GitProxyConfig.HealthPort config);
  trigger (Println ("An error occurred running the git proxy health server: " +:+ errorText err)).

Definition runProxyServer (config : GitProxyConfig.t) : Prog Sys unit :=
  _ ← trigger (Println ("Git proxy active on port " +:+ pretty (GitProxyConfig.ProxyPort config)));
  err ← listenAndServe "proxy" (GitProxyConfig.ProxyPort config);
  trigger (Println ("An error occurred running the git proxy: " +:+ errorText err)).

(** The end of [gitproxy]: errors of the shutdown are only logged, and its context
    is [context.Background()], which has no deadline. *)
Definition shutdownLogged (server label : string) : Prog Sys unit :=
  err ← shutdown server false;
  match err with
  | Some err => trigger (Println ("Graceful shutdown " +:+ label +:+ " with errors: " +:+ err_msg err))
  | None => mret tt
  end.

Section Command.
Context `{GitProxySettings} (env : Env).

(** [gitproxy]; the goroutine of the token store is in [ProxyThreads]. *)
Definition gitproxy : Prog Sys (option GoError) :=
  match GetConfig env with
  | inr err => mret (Some err)
  | inl config =>
      match GitProxyConfig.Validate config with
      | Some err => mret (Some err)
      | None =>
          _ ← (if GitProxyConfig.AnonymousSession config
               then trigger (Println "Warning: Starting the git-proxy for an anonymous session, which is essentially useless.")
               else mret tt);
          _ ← trigger Notify;
          _ ← lift (GetProxyHandler config);
          _ ← trigger (Spawn "health");
          _ ← trigger (Spawn "proxy");
          _ ← trigger WaitSignal;
          _ ← trigger (Println "SIGTERM received. Shutting down servers.");
          _ ← shutdownLogged "health" "healthserver";
          _ ← shutdownLogged "proxy" "proxyserver";
          mret None
      end
  end.

(** The process: an error of the command is an exit with code 1. *)
Definition gitproxyProcess : Process.t :=
  Process.mk (err ← gitproxy; mret match err with Some _ => 1%Z | None => 0%Z end)
    (λ name, match GetConfig env with
             | inl config =>
                 if name =s "health" then runHealthServer config
                 else if name =s "proxy" then runProxyServer config else mret tt
             | inr _ => mret tt
             end).
End Command.

(** ** The health endpoint (root.go) *)

Inductive Health : Type → Type :=
(** a GET through a proxy: the status code of the answer *)
| GetThrough (proxy : URL.t) (url : string) : Health (Result Z)
| LogLine (line : string) : Health unit
| WriteHeader (code : Z) : Health unit
(** [w.Write] with a content type *)
| WriteBody (contentType body : string) : Health (option GoError)
| CloseBody : Health unit
(** [log.Fatal], which ends the process *)
| Fatal (line : string) : Health unit.

Definition localURL (port : Z) : string := "http://localhost:" +:+ pretty port.

(** GET /ping *)
Definition pingHandler : Prog Health unit :=
  err ← trigger (WriteBody "application/json" (print (JObj [("message", JStr "pong")])));
  match err with Some err => trigger (Fatal ("Error writing . Err: " +:+ err_msg err)) | None => mret tt end.

(** GET /health: after a failed request the missing response is used. *)
Definition healthHandler (config : GitProxyConfig.t) : Prog Health unit :=
  match url_Parse (localURL (GitProxyConfig.ProxyPort config)) with
  | None => trigger (Fatal "parse error")
  | Some proxyUrl =>
      resp ← trigger (GetThrough proxyUrl (localURL (GitProxyConfig.HealthPort config) +:+ "/ping"));
      match resp with
      | inr err =>
          _ ← trigger (LogLine ("The GET request to /ping from within /health failed with: " +:+ err_msg err));
          _ ← trigger (WriteHeader 400);
          Panic "invalid memory address or nil pointer dereference"
      | inl StatusCode =>
          deferred CloseBody
            (if (200 <=? StatusCode)%Z && (StatusCode <=? 400)%Z then trigger (WriteHeader 200)
             else trigger (WriteHeader 400))
      end
  end.

(** ** The configuration is read as it is written *)

#[local] Tactic Notation "codec" reference(d) :=
  intros r Hr;
  lazymatch goal with
  | |- wellFormed _ => codecWellFormed
  | |- _ = (_, None) => unfold d; etransitivity; [codecFields|by destruct r]
  end; done.

#[export, refine] Instance repositoryCodec : JsonCodec GitRepository.t := {|
  marshal r := JObj (member_ "url" (GitRepository.Url r) ++ member_ "provider" (GitRepository.Provider r));
  decode := decodeRepository; zeroValue := GitRepository.mk "" ""; representable _ := True |}.
Proof. all: codec decodeRepository. Defined.

#[export, refine] Instance providerCodec : JsonCodec GitProvider.t := {|
  marshal p := JObj (member_ "id" (GitProvider.Id p) ++ member_ "access_token_url" (GitProvider.AccessTokenUrl p));
  decode := decodeProvider; zeroValue := GitProvider.zero; representable _ := True |}.
Proof. all: codec decodeProvider. Defined.

Lemma print_nonempty v : wellFormed v → print v =s "" = false.
Proof. by intros (c & s & -> & _)%print_opens. Qed.

Section Written.
Context `{GitProxySettings} (env : Env).

#[local] Notation variable key := ("GIT_PROXY_" +:+ Strings.ToUpper key).

(** The variable of a key has a value. *)
Definition given (key text : string) : Prop := Getenv env (variable key) = text.

Lemma configField_given t key def text v :
  given key text → text ≠ "" → decodeText decodeHook t text = inl v → configField env t key def = inl v.
Proof.
  intros Hg Hne Hd. unfold configField. rewrite setting_prefixed, Hg, (proj2 (String.eqb_neq _ _) Hne). exact Hd.
Qed.

Lemma configField_missing t key def : given key "" → configField env t key def = inl def.
Proof. intros Hg. unfold configField. by rewrite setting_prefixed, Hg. Qed.

Lemma read_string key s : given key s → configField env TString key "" = inl s.
Proof.
  intros Hg. destruct (decide (s = "")) as [->|Hne]; [by apply configField_missing|].
  eapply configField_given; [exact Hg|done|]. by apply decode_string.
Qed.

Lemma read_int key (z : Z) def : given key (pretty z) → Int.in64 z → configField env TInt key def = inl z.
Proof.
  intros Hg Hz. eapply configField_given; [exact Hg| |by apply decode_int].
  destruct (pretty_Z_cases z) as [[-> _]|(n & Hn & [[-> _]|[-> _]])]; [done| |done].
  by destruct (pretty_digits n "" Hn eq_refl) as (? & ? & -> & _).
Qed.

Lemma read_bool key (b : bool) def : given key (if b then "true" else "false") → configField env TBool key def = inl b.
Proof. intros Hg. eapply configField_given; [exact Hg|by destruct b|]. by apply decode_bool. Qed.

Lemma read_url key text u : given key text → text ≠ "" → url_Parse text = Some u →
  configField env (TPtr TURL) key None = inl (Some u).
Proof.
  intros Hg Hne Hu. eapply configField_given; [exact Hg|done|]. rewrite decode_ptr by done.
  erewrite decode_struct; [done|]. cbn. by rewrite (proj2 (String.eqb_neq _ _) Hne), Hu.
Qed.

Lemma parseStringAsURL_other t s : t ≠ TURL → parseStringAsURL t (DText s) = inl (DText s).
Proof. by destruct t. Qed.

Lemma parseJsonArray_other t s : isSlice t = false → parseJsonArray t (DText s) = inl (DText s).
Proof. unfold parseJsonArray. by intros ->. Qed.

(** A list of structs that the hooks unmarshal. *)
Lemma read_slice t key (codec : JsonCodec (valueOf t)) (l : list (valueOf t)) def :
  (∀ raw, unmarshalStruct t raw = Some (fmapResult (DStruct t) (Unmarshal decode zeroValue raw))) → t ≠ TURL → isSlice t = false →
  (∀ v : valueOf t, representable v) → given key (Marshal l) → configField env (TSlice t) key def = inl l.
Proof.
  intros Ht Hu Hs Hr Hg. assert (Hw : Forall wellFormed (map marshal l)).
  { apply list.Forall_fmap, list.Forall_true. intros v. by apply marshal_wellFormed. }
  assert (Hne : Marshal l =s "" = false) by done.
  eapply configField_given; [exact Hg|by apply String.eqb_neq|]. apply decode_slice with (l := map print (map marshal l)).
  - unfold decodeHook, composeHooks, parseJsonArray. cbn [foldl bindResult parseStringAsURL isSlice negb]. rewrite Hne.
    unfold Marshal. cbn [marshal listCodec]. by rewrite rawSlice_print.
  - clear Hg Hne Hw. induction l as [|v l IH]; [done|]. cbn [map mapResult]. rewrite IH.
    rewrite (decode_struct _ _ _ v); [done|]. unfold decodeHook, composeHooks, parseJsonVariable. cbn [foldl bindResult].
    rewrite (parseStringAsURL_other t) by done. cbn [bindResult]. rewrite (parseJsonArray_other t) by done. cbn [bindResult]. rewrite Ht, print_nonempty by (by apply marshal_wellFormed).
    assert (Unmarshal decode zeroValue (print (marshal v)) = inl v) as -> by (by apply (Unmarshal_Marshal v)). done.
Qed.
End Written.

(** The environment of a configuration, with the repositories and providers as
    JSON; what is missing or empty is the empty string. *)
Record written (env : Env) (c : GitProxyConfig.t) : Prop := {
  written_port : given env "port" (pretty (GitProxyConfig.ProxyPort c)) ∧ Int.in64 (GitProxyConfig.ProxyPort c);
  written_health : given env "health_port" (pretty (GitProxyConfig.HealthPort c)) ∧ Int.in64 (GitProxyConfig.HealthPort c);
  written_anonymous : given env "anonymous_session" (if GitProxyConfig.AnonymousSession c then "true" else "false");
  written_version : given env "renku_authentication_version" (GitProxyConfig.RenkuAuthenticationVersion c);
  written_access : given env "renku_access_token" (GitProxyConfig.RenkuAccessToken c);
  written_refresh : given env "renku_refresh_token" (GitProxyConfig.RenkuRefreshToken c);
  written_url : ∃ text, given env "renku_url" text ∧ GitProxyConfig.RenkuURL c = (if text =s "" then None else url_Parse text) ∧
    (text = "" ∨ is_Some (url_Parse text));
  written_realm : given env "renku_realm" (GitProxyConfig.RenkuRealm c);
  written_id : given env "renku_client_id" (GitProxyConfig.RenkuClientID c);
  written_secret : given env "renku_client_secret" (GitProxyConfig.RenkuClientSecret c);
  written_token_url : given env "renku_token_url" (GitProxyConfig.RenkuTokenURL c);
  written_repositories : given env "repositories" (Marshal (GitProxyConfig.Repositories c));
  written_providers : given env "providers" (Marshal (GitProxyConfig.Providers c));
  written_period : given env "refresh_check_period_seconds" (pretty (GitProxyConfig.RefreshCheckPeriodSeconds c)) ∧
    Int.in64 (GitProxyConfig.RefreshCheckPeriodSeconds c) }.

Lemma GetConfig_written `{GitProxySettings} env c : written env c → GetConfig env = inl c.
Proof.
  intros [[] [] ? ? ? ? (text & Hg & Hu & Ht) ? ? ? ? ? ? []]. unfold GetConfig.
  assert (configField env (TPtr TURL) "renku_url" None = inl (GitProxyConfig.RenkuURL c)) as ->.
  { rewrite Hu. destruct (decide (text = "")) as [->|Hne]; [by apply configField_missing|].
    destruct Ht as [?|[u Hp]]; [done|]. rewrite (proj2 (String.eqb_neq _ _) Hne), Hp. by eapply read_url. }
  do 3 (erewrite read_int by done). erewrite read_bool by done. repeat (erewrite read_string by done).
  rewrite (read_slice env TRepository "repositories" repositoryCodec (GitProxyConfig.Repositories c)) by done.
  rewrite (read_slice env TProvider "providers" providerCodec (GitProxyConfig.Providers c)) by done.
  by destruct c.
Qed.

Lemma GetConfig_empty `{GitProxySettings} : GetConfig ∅ =
  inl (GitProxyConfig.mk 8080 8081 true "" "" "" None "" "" "" "" [] [] 600).
Proof. unfold GetConfig. by rewrite !configField_missing. Qed.

(** ** The life of the process *)

Section Runs.
Context `{GitProxySettings} (env : Env).

(** The configuration has been read and validated and the handlers are set up. *)
Definition ready (c : GitProxyConfig.t) : Prop :=
  GetConfig env = inl c ∧ GitProxyConfig.Validate c = None ∧ ∃ h, GetProxyHandler c = Done h.

Definition proxyServers (c : GitProxyConfig.t) : list (string * Z) :=
  [("health", GitProxyConfig.HealthPort c); ("proxy", GitProxyConfig.ProxyPort c)].

(** None, unless the process gets as far as starting them. *)
Definition serversOf : list (string * Z) :=
  match GetConfig env with
  | inl c =>
      match GitProxyConfig.Validate c, GetProxyHandler c with
      | None, Done _ => proxyServers c
      | _, _ => []
      end
  | inr _ => []
  end.

Lemma serversOf_ready n port : (n, port) ∈ serversOf → ∃ c, ready c ∧ (n, port) ∈ proxyServers c.
Proof.
  unfold serversOf, ready. destruct (GetConfig env) as [c|] eqn:Hc; [|set_solver].
  destruct (GitProxyConfig.Validate c) eqn:Hv; [set_solver|]. destruct (GetProxyHandler c) eqn:Hh; [|set_solver].
  intros Hin. exists c. eauto.
Qed.

Lemma serversOf_two : ∃ p1 p2, serversOf ≠ [] → serversOf = [("health", p1); ("proxy", p2)].
Proof.
  unfold serversOf. destruct (GetConfig env) as [c|]; [|by exists 0%Z, 0%Z]. exists (GitProxyConfig.HealthPort c), (GitProxyConfig.ProxyPort c).
  by destruct (GitProxyConfig.Validate c); [|destruct (GetProxyHandler c)].
Qed.

Lemma shutdown_wp order fatal server label (P : Main → Prop) g :
  gAwaited g = true → (gShut g ++ [server]) `prefix_of` order.*1 →
  (∀ failed, P (mkMain (gNotified g) (gSpawned g) (gAwaited g) (gShut g ++ [server]) failed)) →
  wp (mainMonitor order fatal false) (shutdownLogged server label) (λ _ g, P g) g.
Proof.
  intros Ha Hp HP. split; [done|]. intros ? _. split; [cbn; by rewrite list.last_snoc|]. intros [err|] _; cbn; [|apply HP].
  split; [done|]. intros _ _. apply HP.
Qed.

#[local] Instance gitproxy_orderly : Orderly serversOf false false (gitproxyProcess env).
Proof.
  unfold serversOf. split.
  - unfold gitproxyProcess, gitproxy. cbn [Process.main]. destruct (GetConfig env) as [c|err]; [|by left].
    destruct (GitProxyConfig.Validate c) as [err|]; [by left|]. apply wp_bind, wp_bind.
    apply wp_mono with (Q := λ _ g, g = mkMain false [] false [] false); [destruct (GitProxyConfig.AnonymousSession c); by repeat split|].
    intros _ g ->. destruct (GetProxyHandler c) as [h|why]; [|by repeat split].
    cbn -[shutdownLogged]. split; [done|]. intros _ _. do 2 (split; [split; [done|set_solver]|]; intros _ _).
    do 2 (split; [done|]; intros _ _).
    eapply wp_bind_intro; [apply shutdown_wp with (P := λ g, gAwaited g = true ∧ gShut g = ["health"])|]; [done|by exists ["proxy"]|done|].
    intros _ g [Ha Hs]. eapply wp_bind_intro; [apply shutdown_wp with (P := λ g, gAwaited g = true ∧ gShut g = ["health"; "proxy"])|].
    { done. }
    { rewrite Hs. by exists []. }
    { intros failed. cbn. by rewrite Hs. }
    by intros _ g' [].
  - intros name. cbn [Process.goroutine gitproxyProcess]. destruct (GetConfig env) as [c|err]; [|set_solver].
    destruct (GitProxyConfig.Validate c) as [err|]; [set_solver|]. destruct (GetProxyHandler c) as [h|why]; [|set_solver].
    intros Hn. assert (name = "health" ∨ name = "proxy") as [-> | ->] by (cbn in Hn; set_solver); cbn.
    all: split; [done|]; intros _ _; (split; [split; [done|set_solver]|]); intros [err|] _; cbn; [done|].
    all: split; [done|]; intros err _; by split.
Qed.
(** C26: The git proxy reads the configuration it is given: the variables of a
    configuration are read back as it.  Its servers are opened only after the
    configuration has been validated and the handlers are set up, which for
    version 1 succeeds with a handler for exactly the usable repositories; they
    are open on the configured ports only.  They are shut down after a signal
    only, the health server first, and the process ends without an error only
    when both are.  The failure of a server does not end it; a process that ends
    any other way never had a server open.  It gets stuck before the end in one
    way only: the shutdown has no deadline, and after the signal it waits for a
    server that was open and has a connection that never gets idle. *)
Theorem gitproxy_runs hanging main pool w :
  rtc (step hanging (gitproxyProcess env)) (started (gitproxyProcess env)) (main, pool, w) →
  (∀ c, written env c → GetConfig env = inl c) ∧
  (∀ n, n ∈ opened w → ∃ c, ready c) ∧
  (∀ c, GetConfig env = inl c → GitProxyConfig.Validate c = None → versionOne c →
     ready c ∧ ∃ store handlers, GetProxyHandler c = Done (Some store, handlers) ∧ ∀ h, h ∈ handlers ↔ usableHandler c h) ∧
  (∀ n port, servers w !! n = Some (Serving port) → ∃ c, ready c ∧ (n, port) ∈ proxyServers c) ∧
  (servers w !! "proxy" = Some Closed → servers w !! "health" = Some Closed) ∧
  (servers w !! "health" = Some Closed → signalled w = true) ∧
  match ended w with
  | Some (Exited code) =>
      if decide (code = 0%Z) then servers w !! "proxy" = Some Closed else opened w = []
  | Some _ => opened w = []
  | None => nf (step hanging (gitproxyProcess env)) (main, pool, w) →
      signalled w = true ∧ ∃ n, drains main n ∧ hanging n = true ∧ n ∈ opened w
  end.
Proof.
  intros Hr. destruct (lifecycle serversOf false false hanging _ _ _ _ Hr) as (Hs & Ho & _ & _).
  destruct serversOf_two as (p1 & p2 & Htwo). destruct (two_servers _ _ _ _ _ _ _ _ _ _ _ _ Htwo Hr) as (H1 & H2 & He).
  split; [by apply GetConfig_written|]. split.
  { intros n Hn%Ho. apply list_elem_of_fmap in Hn as ([n' port] & -> & (c & Hc' & _)%serversOf_ready). eauto. }
  split; [intros c Hg Hv Hone; destruct (proxy_setup c Hone Hv) as (store & handlers & Hh & _ & _ & Hu);
    split; [split; [done|split; [done|by eexists]]|by exists store, handlers]|].
  split; [intros n port Hn%Hs; by apply serversOf_ready|]. split; [exact H1|]. split; [exact H2|].
  destruct (ended w) as [[code|why|]|]; try done.
  - destruct (decide (code = 0%Z)); [done|]. by destruct He as [?|[? _]].
  - intros [Hsig Hd]%He. split; [done|]. by apply draining_drains in Hd.
Qed.
End Runs.

(** ** The health endpoint *)

Lemma digits_avoid d s : Bytes.isDigit d = false → allDigits s → avoids d s.
Proof.
  intros Hd. apply forallb_impl. intros c Hc. destruct (Ascii.eqb_spec c d) as [->|]; [|done]. by rewrite Hd in Hc.
Qed.

Lemma cutLast_absent d s : avoids d s → Bytes.cutLast d s = None.
Proof.
  unfold avoids. induction s as [|c s IH]; [done|]. cbn [Bytes.forallb Bytes.cutLast]. intros [Hc Hs]%andb_prop.
  rewrite IH, Ascii.eqb_sym by done. by destruct (Ascii.eqb c d).
Qed.

Lemma cutLast_at d a s : avoids d s → Bytes.cutLast d (a +:+ String d s) = Some (a, s).
Proof.
  intros Hs. induction a as [|c a IH].
  - change ("" +:+ String d s) with (String d s). cbn [Bytes.cutLast]. by rewrite cutLast_absent, Ascii.eqb_refl.
  - rewrite Strings.app_cons. cbn [Bytes.cutLast]. by rewrite IH.
Qed.

Lemma unescape_digits s : allDigits s → unescape s encodeHost = Some s.
Proof.
  unfold allDigits. induction s as [|c s IH]; [done|]. cbn [Bytes.forallb]. intros [Hc Hs]%andb_prop. specialize (IH Hs).
  revert Hc. destruct c as [[] [] [] [] [] [] [] []]; intros Hc; try discriminate Hc; cbn; by rewrite IH.
Qed.

Lemma localhost_authority ds : allDigits ds → parseAuthority ("localhost:" +:+ ds) = Some (None, "localhost:" +:+ ds).
Proof.
  intros Hd. assert (Hat : avoids "@" ("localhost:" +:+ ds)) by (apply avoids_app; [done|by apply digits_avoid]).
  unfold parseAuthority. rewrite cutLast_absent by done. unfold parseHost.
  change (Strings.HasPrefix ("localhost:" +:+ ds) "[") with false. cbn iota.
  change ("localhost:" +:+ ds) with ("localhost" +:+ String ":" ds) at 1. rewrite cutLast_at by (by apply digits_avoid).
  assert (validOptionalPort (String ":" ds) = true) as -> by exact Hd. cbn iota.
  assert (unescape ("localhost:" +:+ ds) encodeHost = Some ("localhost:" +:+ ds)) as ->; [|done].
  change ("localhost:" +:+ ds) with (String "l" (String "o" (String "c" (String "a" (String "l" (String "h" (String "o"
    (String "s" (String "t" (String ":" ds)))))))))). cbn -[unescape]. cbn. by rewrite unescape_digits.
Qed.

(** The URL of a local server can be parsed for every port that is not negative. *)
Lemma localURL_parses port : (0 ≤ port)%Z → is_Some (url_Parse (localURL port)).
Proof.
  intros Hp. assert (∃ ds, pretty port = ds ∧ allDigits ds) as (ds & Hds & Hd).
  { eexists. split; [done|]. destruct (pretty_Z_cases port) as [[-> _]|(n & Hn & [[-> _]|[_ ->]])]; [done| |lia].
    destruct (pretty_digits n "" Hn eq_refl) as (d & t & -> & Hd & _ & Ht). unfold allDigits in *. cbn. by rewrite Hd. }
  unfold localURL. rewrite Hds. clear Hds Hp.
  assert (Havoid : ∀ d a, Bytes.isDigit d = false → avoids d a → avoids d (a +:+ ds)).
  { intros d a ? ?. apply avoids_app; [done|]. by apply digits_avoid. }
  unfold url_Parse. rewrite (Cut_absent "#") by (by apply Havoid). unfold NetUrl.parse.
  assert (containsCTL ("http://localhost:" +:+ ds) = false) as ->.
  { unfold containsCTL. apply negb_false_iff. rewrite UrlRef.forallb_app. cbn. eapply forallb_impl; [|exact Hd].
    by intros [[] [] [] [] [] [] [] []]. }
  change ("http://localhost:" +:+ ds =s "*") with false. cbn iota.
  change (getScheme ("http://localhost:" +:+ ds)) with (Some ("http", "//localhost:" +:+ ds)).
  cbn -[Strings.Cut Strings.HasSuffix Strings.CountByte Strings.HasPrefix parseAuthority setEscaped String.append Strings.drop].
  rewrite (CountByte_absent "?") by (by apply Havoid). rewrite andb_false_r. rewrite (Cut_absent "?") by (by apply Havoid).
  change (Strings.HasPrefix ("//localhost:" +:+ ds) "/") with true. change (Strings.HasPrefix ("//localhost:" +:+ ds) "//") with true.
  cbn -[Strings.Cut parseAuthority setEscaped String.append Strings.drop].
  change (Strings.drop 2 ("//localhost:" +:+ ds)) with ("localhost:" +:+ ds).
  rewrite (Cut_absent "/") by (by apply Havoid). rewrite localhost_authority, UrlRef.drop_all by done. by eexists.
Qed.

(** GET /health for a port that is not negative: one GET of the ping through the
    proxy; its status decides, 400 included, and when it fails the handler
    panics after writing a header.  The process is not ended. *)
Lemma health_outcome config : (0 ≤ GitProxyConfig.ProxyPort config)%Z →
  ∃ proxyUrl k, healthHandler config =
      Vis (GetThrough proxyUrl (localURL (GitProxyConfig.HealthPort config) +:+ "/ping")) k ∧
    (∀ code, k (inl code) =
       Vis (WriteHeader (if (200 <=? code)%Z && (code <=? 400)%Z then 200 else 400)) (λ u, Vis CloseBody (λ _, Ret u))) ∧
    ∀ err, ∃ line why, k (inr err) = Vis (LogLine line) (λ _, Vis (WriteHeader 400) (λ _, Panic why)).
Proof.
  intros Hp. destruct (localURL_parses _ Hp) as [u Hu]. unfold healthHandler. rewrite Hu. eexists _, _. split; [reflexivity|].
  split; [|intros err; eexists _, _; reflexivity]. intros code. lazy beta iota. by destruct ((200 <=? code)%Z && (code <=? 400)%Z).
Qed.

(** ** An example *)

#[global] Instance GoType_eq_dec : EqDecision GoType.
Proof. solve_decision. Defined.

(** A settings library that follows the documentation. *)
Fixpoint plainDecode (hook : DecodeHook) (t : GoType) (s : string) {struct t} : Result (valueOf t) :=
  match hook t (DText s) with
  | inr err => inr err
  | inl (DStruct t' v) =>
      match decide (t' = t) with
      | left e => inl (eq_rect t' valueOf v t e)
      | right _ => inr (Errorf "unexpected type")
      end
  | inl (DTexts l) =>
      match t with
      | TSlice t => mapResult (plainDecode hook t) l
      | _ => inr (Errorf "unexpected slice")
      end
  | inl (DText s) =>
      match t with
      | TString => inl s
      | TInt => match parseInt s with
                | Some z => if bool_decide (Int.in64 z) then inl z else inr (Errorf "value out of range")
                | None => inr (Errorf "invalid syntax")
                end
      | TBool => if s =s "true" then inl true else if s =s "false" then inl false else inr (Errorf "invalid syntax")
      | TPtr t => fmapResult Some (plainDecode hook t s)
      | TSlice t => fmapResult (λ v, [v]) (plainDecode hook t s)
      | _ => inr (Errorf "expected a map")
      end
  end.

#[export, refine] Instance plainGitProxySettings : GitProxySettings := {|
  setting env key := let v := Getenv env ("GIT_PROXY_" +:+ Strings.ToUpper key) in if v =s "" then None else Some v;
  decodeText := plainDecode |}.
Proof.
  - done.
  - intros hook s Hh. cbn. by rewrite Hh.
  - intros hook z Hz Hh. cbn. rewrite Hh, parseInt_pretty. by rewrite bool_decide_eq_true_2.
  - intros hook b s Hh. subst s. cbn. by destruct b; rewrite Hh.
  - intros hook t s Hh. cbn. by rewrite Hh.
  - intros hook t s v Hh.
    assert (match decide (t = t) with
            | left e => inl (eq_rect t valueOf v t e)
            | right _ => inr (Errorf "unexpected type")
            end = inl v :> Result (valueOf t)) as Hd.
    { destruct (decide (t = t)) as [e|]; [|done]. by rewrite (proof_irrel e eq_refl). }
    destruct t; cbn [plainDecode]; rewrite Hh; exact Hd.
  - intros hook t s l v Hh Hl. cbn. by rewrite Hh.
  - intros hook t s err Hh. exists err. destruct t; cbn; by rewrite Hh.
Defined.

Definition demoProxyEnv : Env := list_to_map (
  [("GIT_PROXY_PORT", "65480"); ("GIT_PROXY_HEALTH_PORT", "65481"); ("GIT_PROXY_ANONYMOUS_SESSION", "false");
   ("GIT_PROXY_RENKU_ACCESS_TOKEN", "access"); ("GIT_PROXY_RENKU_REFRESH_TOKEN", "refresh");
   ("GIT_PROXY_RENKU_URL", "https://renku.io"); ("GIT_PROXY_RENKU_REALM", "Renku"); ("GIT_PROXY_RENKU_CLIENT_ID", "cli");
   ("GIT_PROXY_RENKU_CLIENT_SECRET", "s3cret");
   ("GIT_PROXY_REPOSITORIES", Marshal [GitRepository.mk "https://gitlab.io/group/repo" "gitlab"]);
   ("GIT_PROXY_PROVIDERS", Marshal [GitProvider.mk "gitlab" "https://renku.io/api/oauth2/gitlab/token"])]).

(** A single object is read as a list of one. *)
Example single_repository :
  configField (<["GIT_PROXY_REPOSITORIES" := Marshal (GitRepository.mk "https://gitlab.io/r" "gitlab")]> ∅)
    (TSlice TRepository) "repositories" [] = inl [GitRepository.mk "https://gitlab.io/r" "gitlab"].
Proof. by vm_compute. Qed.

(** Start, serve, be interrupted, shut down. *)
Definition demoRun : list Move :=
  replicate 3 Main_ ++ [Goroutine 0; Goroutine 1; Goroutine 0; Goroutine 1; Main_; Signal] ++ replicate 4 Main_ ++
  [Goroutine 0; Goroutine 0] ++ replicate 4 Main_.

Example demo_served :
  let w := (schedule (λ _, false) (gitproxyProcess demoProxyEnv) (take 8 demoRun)).2 in
  servers w !! "health" = Some (Serving 65481) ∧ servers w !! "proxy" = Some (Serving 65480) ∧ ended w = None.
Proof. by vm_compute. Qed.

(** With a connection to the proxy that never gets idle the same run ends in the
    shutdown of the proxy, which no further step completes. *)
Definition busyProxy (n : string) : bool := n =s "proxy".

Example demo_hangs :
  let st := schedule busyProxy (gitproxyProcess demoProxyEnv) (demoRun ++ replicate 20 Main_) in
  ended st.2 = None ∧ drains st.1.1 "proxy" ∧ "proxy" ∈ opened st.2 ∧ servers st.2 !! "health" = Some Closed.
Proof. vm_compute. repeat split; try done. left. Qed.

Lemma gitproxy_runs_witness :
  let '(main, pool, w) := schedule (λ _, false) (gitproxyProcess demoProxyEnv) demoRun in
  ended w = Some (Exited 0) ∧ servers w !! "proxy" = Some Closed ∧ servers w !! "health" = Some Closed ∧ signalled w = true.
Proof.
  destruct (schedule (λ _, false) (gitproxyProcess demoProxyEnv) demoRun) as [[main pool] w] eqn:E.
  assert (He : ended w = Some (Exited 0)) by (pose proof (f_equal (λ st : State, ended st.2) E) as Hw; vm_compute in Hw; by symmetry).
  pose proof (server_schedule (λ _, false) (gitproxyProcess demoProxyEnv) demoRun) as Hr. rewrite E in Hr.
  destruct (gitproxy_runs demoProxyEnv (λ _, false) main pool w Hr) as (_ & _ & _ & _ & Hph & Hs & Hend). rewrite He in Hend. cbn in Hend.
  split; [done|]. split; [done|]. split; [by apply Hph|]. by apply Hs, Hph.
Defined.
