(* ===== verification/Cloner.v ===== *)
(** * The repository cloner (internal/cloner)

    The init container command [shellclone]: the repositories and providers are
    read from numbered environment variables, and each repository is set up by
    running git in its directory.  Calls of git, HTTP requests and file system
    operations are the events of [Sys].  [log.Fatal] ends the process: a
    program that does so ends in [Panic]. *)

From S2P Require Import Prelude Prog NetUrl Json GitProxy.
From Stdlib Require Import Ascii.

(** ** Data (shellclone.go, repository.go, gitcli.go) *)

Module User.
Record t := mk { Username : string; Email : string; FullName : string; RenkuToken : string }.
Definition IsAnonymous (u : t) : bool := RenkuToken u =s "".
End User.

Module GitCli.
Record t := mk { repoDirectory : string; username : string; password : string }.
Definition SetCredentials (g : t) (username password : string) : t := mk (repoDirectory g) username password.
End GitCli.

Module Repository.
(** [Branch] is a pointer; [CommitSha] is decoded and not used. *)
Record t := mk {
  URL : string;
  Provider : string;
  Branch : option string;
  clonePath : string;
  Cli : GitCli.t }.
Definition with_Cli (r : t) (cli : GitCli.t) : t := mk (URL r) (Provider r) (Branch r) (clonePath r) cli.
End Repository.

Module CloneConfig.
Record t := mk {
  MountPath : string;
  LfsAutoFetch : bool;
  IsGitProxyEnabled : bool;
  GitProxyPort : Z;
  Repositories : list Repository.t;
  GitProviders : list GitProvider.t }.
End CloneConfig.

(** The decoded JSON of a repository, before its path is set. *)
Module RepositoryJson.
Record t := mk { URL : string; Provider : string; Branch : option string; CommitSha : option string }.
Definition zero : t := mk "" "" None None.

(** [Cli], a pointer to a struct without exported fields, is only checked. *)
Definition decode : Decoder t := decodeStruct (λ name,
  if name =s "url" then Some (field URL (λ r x, mk x (Provider r) (Branch r) (CommitSha r)) decodeString)
  else if name =s "provider" then Some (field Provider (λ r x, mk (URL r) x (Branch r) (CommitSha r)) decodeString)
  else if name =s "branch" then
    Some (field Branch (λ r x, mk (URL r) (Provider r) x (CommitSha r)) (decodePtr "" decodeString))
  else if name =s "commitsha" then
    Some (field CommitSha (λ r x, mk (URL r) (Provider r) (Branch r) x) (decodePtr "" decodeString))
  else if name =s "cli" then Some (field (λ _, None) (λ r _, r) (decodePtr tt (decodeStruct (λ _, None))))
  else None).
End RepositoryJson.

Definition Unmarshal_repository (val : string) : Result RepositoryJson.t :=
  Json.Unmarshal RepositoryJson.decode RepositoryJson.zero val.

Definition decodeGitProvider : Decoder GitProvider.t := decodeStruct (λ name,
  if name =s "id" then Some (field GitProvider.Id (λ p x, GitProvider.mk x (GitProvider.AccessTokenUrl p)) decodeString)
  else if name =s "access_token_url" then
    Some (field GitProvider.AccessTokenUrl (λ p x, GitProvider.mk (GitProvider.Id p) x) decodeString)
  else None).

Definition Unmarshal_provider (val : string) : Result GitProvider.t :=
  Json.Unmarshal decodeGitProvider (GitProvider.mk "" "") val.

(** The output of [git lfs ls-files --json]: names and sizes. *)
Definition decodeLsFile : Decoder (string * Z) := decodeStruct (λ name,
  if name =s "name" then Some (field fst (λ f x, (x, f.2)) decodeString)
  else if name =s "size" then Some (field snd (λ f x, (f.1, x)) decodeUint64)
  else None).

Definition decodeLsFiles : Decoder (list (string * Z)) := decodeStruct (λ name,
  if name =s "files" then Some (decodeSlice ("", 0%Z) decodeLsFile) else None).

Definition Unmarshal_lsFiles (out : string) : Result (list Z) :=
  match Json.Unmarshal decodeLsFiles [] out with inl files => inl (map snd files) | inr err => inr err end.

(** ** Calls *)

(** A run of git: directory, arguments and the variables added to the
    environment. *)
Module Invocation.
Record t := mk {
  Dir : string;
  Args : list string;
  GIT_USERNAME : option string;
  GIT_PASSWORD : option string;
  GIT_ASKPASS : option string }.
End Invocation.

Inductive StatAnswer := StatOk | StatNotExist | StatError (err : GoError).

Inductive Sys : Type → Type :=
| Getwd : Sys (Result string)
| RunGit (i : Invocation.t) : Sys (Result string)
| HttpDo (req : HttpRequest.t) : Sys (Result HttpResponse.t)
| WriteFile (path content : string) : Sys (option GoError)
(** [unix.Statfs]: the available blocks and the size of a block *)
| Statfs (path : string) : Sys (Result (Z * Z))
| Stat (path : string) : Sys StatAnswer
| MkdirAll (path : string) : Sys (option GoError).

Definition Fatal {A} (msg : string) : Prog Sys A := Panic msg.

(** ** The git command line (gitcli.go) *)

Definition askpass : string := "env-pass.sh".

Definition nonEmpty (s : string) : option string := if s =s "" then None else Some s.

Definition git_execute (g : GitCli.t) (cmd : string) (args : list string) : Prog Sys (Result string) :=
  let invoke askpassPath :=
    res ← trigger (RunGit (Invocation.mk (GitCli.repoDirectory g) (cmd :: args) (nonEmpty (GitCli.username g))
                             (nonEmpty (GitCli.password g)) askpassPath));
    mret match res with
         | inr err => inr (Errorf ("git failed: " +:+ err_msg err))
         | inl out => inl out
         end in
  if (GitCli.username g ≠s "") && (GitCli.password g ≠s "") then
    wd ← trigger Getwd;
    match wd with
    | inr err => mret (inr err)
    | inl path => invoke (Some (Path.Join [path; askpass]))
    end
  else invoke None.

(** The error of a command, when only that matters. *)
Definition git_run (g : GitCli.t) (cmd : string) (args : list string) : Prog Sys (option GoError) :=
  res ← git_execute g cmd args;
  mret match res with inr err => Some err | inl _ => None end.

(** [NewGitCli] *)
Definition NewGitCli (repoDirectory : string) : Prog Sys GitCli.t :=
  st ← trigger (Stat repoDirectory);
  match st with
  | StatOk => mret (GitCli.mk repoDirectory "" "")
  | _ => Fatal "stat failed"
  end.

(** [if err != nil { return err }] *)
Definition andThen (p q : Prog Sys (option GoError)) : Prog Sys (option GoError) :=
  err ← p;
  match err with Some err => mret (Some err) | None => q end.
Notation "p ;;? q" := (andThen p q) (at level 99, right associativity).

(** ** Repositories (repository.go) *)

Definition SetClonePath (r : RepositoryJson.t) (clonePath : string) : Prog Sys Repository.t :=
  st ← trigger (Stat clonePath);
  _ ← match st with
      | StatOk => mret tt
      | StatNotExist =>
          err ← trigger (MkdirAll clonePath);
          match err with Some _ => Fatal "failed to create clone path:" | None => mret tt end
      | StatError _ => Fatal "unexpected error:"
      end;
  cli ← NewGitCli clonePath;
  mret (Repository.mk (RepositoryJson.URL r) (RepositoryJson.Provider r) (RepositoryJson.Branch r) clonePath cli).

Definition Exists (r : Repository.t) : Prog Sys bool :=
  res ← git_execute (Repository.Cli r) "rev-parse" ["--is-inside-work-tree"];
  mret match res with
       | inr _ => false
       | inl out => Strings.Contains (Strings.ToLower out) "true"
       end.

Definition newline : string := String "010"%char EmptyString.

(** The regular expression for the branch after [refs/remotes/<remote>/], for a
    remote name without special characters (it is always "origin"): the rest of
    the line after the first occurrence of the prefix. *)
Definition headBranch (remoteName ref : string) : option string :=
  match Strings.Cut ref ("refs/remotes/" +:+ remoteName +:+ "/") with
  | (_, after, true) => let '(branch, _, _) := Strings.Cut after newline in Some branch
  | (_, _, false) => None
  end.

Definition DefaultBranch (r : Repository.t) (remoteName : string) : Prog Sys (Result string) :=
  err ← git_run (Repository.Cli r) "remote" ["set-head"; remoteName; "--auto"];
  match err with
  | Some _ => mret (inl "")
  | None =>
      ref ← git_execute (Repository.Cli r) "symbolic-ref" ["refs/remotes/" +:+ remoteName +:+ "/HEAD"];
      mret match ref with
           | inr err => inr err
           | inl ref => match headBranch remoteName ref with
                        | None => inr (Errorf "default branch does not exist")
                        | Some branch => inl branch
                        end
           end
  end.

Definition wrapU64 (z : Z) : Z := (z mod 2 ^ 64)%Z.

Definition GetLFSTotalSizeBytes (r : Repository.t) : Prog Sys Z :=
  res ← git_execute (Repository.Cli r) "lfs" ["ls-files"; "--json"];
  mret match res with
       | inr _ => 0%Z
       | inl out => match Unmarshal_lsFiles out with
                    | inr _ => 0%Z
                    | inl sizes => foldl (λ total size, wrapU64 (total + size)) 0%Z sizes
                    end
       end.

(** ** The cloner (cloner.go) *)

Module Cloner.
Record t := mk { config : CloneConfig.t; user : User.t; remoteName : string }.
End Cloner.

Section Commands.
Context (c : Cloner.t).

#[local] Notation config := (Cloner.config c).
#[local] Notation user := (Cloner.user c).
#[local] Notation remoteName := (Cloner.remoteName c).

Definition proxyURL : string := "http://localhost:" +:+ pretty (CloneConfig.GitProxyPort config).

Definition setupProxy (r : Repository.t) : Prog Sys (option GoError) :=
  if negb (CloneConfig.IsGitProxyEnabled config) then mret None
  else git_run (Repository.Cli r) "config" ["http.proxy"; proxyURL] ;;?
       git_run (Repository.Cli r) "config" ["http.sslVerify"; "false"].

Definition findProvider (providerId : string) : option GitProvider.t :=
  find (λ p, GitProvider.Id p =s providerId) (CloneConfig.GitProviders config).

Definition tokenRequest (p : GitProvider.t) : HttpRequest.t :=
  HttpRequest.mk "GET" (GitProvider.AccessTokenUrl p) ("Bearer " +:+ User.RenkuToken user) []
    (Some preserveAuthzHeader).

Definition getAccessToken (providerId : string) : Prog Sys (Result string) :=
  match findProvider providerId with
  | None => mret (inl "")
  | Some provider =>
      match url_Parse (GitProvider.AccessTokenUrl provider) with
      | None => mret (inr (Errorf "parse error"))
      | Some _ =>
          res ← trigger (HttpDo (tokenRequest provider));
          mret match res with
               | inr err => inr err
               | inl res =>
                   if negb (HttpResponse.StatusCode res =? 200)%Z
                   then inr (Errorf ("cannot exchange renku token for git token, failed with status code: " +:+
                                     pretty (HttpResponse.StatusCode res)))
                   else match HttpResponse.Decoded res with
                        | inr err => inr err
                        | inl body => inl (HttpResponse.access_token body)
                        end
               end
      end
  end.

Definition initializeRepository (r : Repository.t) : Prog Sys (option GoError) :=
  let cli := Repository.Cli r in
  git_run cli "init" ["--initial-branch"; "main"] ;;?
  (if User.Email user ≠s "" then git_run cli "config" ["user.email"; User.Email user] else mret None) ;;?
  (if User.FullName user ≠s "" then git_run cli "config" ["user.name"; User.FullName user] else mret None) ;;?
  git_run cli "config" ["push.default"; "simple"].

Definition checkLfsSpace (r : Repository.t) : Prog Sys (option GoError) :=
  totalLfsSize ← GetLFSTotalSizeBytes r;
  stat ← trigger (Statfs (Repository.clonePath r));
  mret match stat with
       | inr err => Some err
       | inl (bavail, bsize) =>
           if (wrapU64 (bavail * wrapU64 bsize) <? totalLfsSize)%Z
           then Some (Errorf "not enough free space") else None
       end.

Definition lfsInstallArgs : list string :=
  ["install"] ++ (if negb (CloneConfig.LfsAutoFetch config) then ["--skip-smudge"] else []) ++ ["--local"].

Definition clone (r : Repository.t) : Prog Sys (option GoError) :=
  let cli := Repository.Cli r in
  git_run cli "lfs" lfsInstallArgs ;;?
  git_run cli "remote" ["add"; remoteName; Repository.URL r] ;;?
  git_run cli "fetch" [remoteName] ;;?
  (branch ← match Repository.Branch r with
            | None => DefaultBranch r remoteName
            | Some branch => mret (inl branch)
            end;
   match branch with
   | inr err => mret (Some err)
   | inl branch => if branch ≠s "" then git_run cli "checkout" [branch] else mret None
   end) ;;?
  (if CloneConfig.LfsAutoFetch config
   then checkLfsSpace r ;;?
        git_run cli "lfs" ["install"; "--local"] ;;?
        git_run cli "lfs" ["pull"]
   else mret None) ;;?
  (err ← git_run cli "submodule" ["update"; "--init"];
   mret match err with
        | Some err => Some (Errorf ("failed to inialize submodules: " +:+ err_msg err))
        | None => None
        end).

Definition execute (r : Repository.t) : Prog Sys (option GoError) :=
  exists_ ← Exists r;
  if (exists_ : bool) then setupProxy r
  else
    token ← (if Repository.Provider r ≠s "" then getAccessToken (Repository.Provider r) else mret (inl ""));
    let gitAccessToken := match token with inl token => token | inr _ => "" end in
    err ← initializeRepository r;
    match err with
    | Some err => mret (Some err)
    | None =>
        let gitUser := if User.IsAnonymous user || (gitAccessToken =s "") then "" else "oauth2" in
        let r := Repository.with_Cli r (GitCli.SetCredentials (Repository.Cli r) gitUser gitAccessToken) in
        err ← clone r;
        match err with
        | Some err => trigger (WriteFile (Path.Join [Repository.clonePath r; "ERROR"])
                                 ("Cannot clone " +:+ Repository.URL r +:+ ":" +:+ newline +:+ " " +:+ err_msg err))
        | None => setupProxy r
        end
    end.

Fixpoint runAll (l : list Repository.t) : Prog Sys (option GoError) :=
  match l with
  | [] => mret None
  | r :: l => execute r ;;? runAll l
  end.

Definition Run : Prog Sys (option GoError) := runAll (CloneConfig.Repositories config).
End Commands.

(** ** Loading the numbered variables (shellclone.go) *)

Definition repositoryVar (i : nat) : string := "GIT_CLONE_REPOSITORIES_" +:+ pretty i +:+ "_".
Definition providerVar (i : nat) : string := "GIT_CLONE_GIT_PROVIDERS_" +:+ pretty i +:+ "_".

(** [for { val, ok := os.LookupEnv(...); if !ok { break }; ...; i += 1 }] from
    [i] on, at most [fuel] times; the result is [None] when the fuel runs out. *)
Fixpoint loadFrom {A} (env : Env) (name : nat → string) (decode : string → Prog Sys A) (fuel i : nat)
    : Prog Sys (option (list A)) :=
  match fuel with
  | O => mret None
  | S fuel =>
      match env !! name i with
      | None => mret (Some [])
      | Some val =>
          x ← decode val;
          rest ← loadFrom env name decode fuel (S i);
          mret (option_map (cons x) rest)
      end
  end.

(** There are at most as many numbered variables as there are variables. *)
Definition loadFuel (env : Env) : nat := S (size env).

Section Load.
Context (env : Env).

Definition decodeRepository (mountPath val : string) : Prog Sys Repository.t :=
  match Unmarshal_repository val with
  | inr _ => Fatal "Failed to parse repository: "
  | inl repository =>
      match url_Parse (RepositoryJson.URL repository) with
      | None => Fatal "failed to parse"
      | Some endpoint =>
          match list.last (Strings.Fields "/"%char (URL.Path endpoint)) with
          | None => Fatal "expecting repo in url path, received: "
          | Some projectName =>
              SetClonePath repository (Path.Join [mountPath; Strings.TrimSuffix projectName ".git"])
          end
      end
  end.

Definition loadRepositories (mountPath : string) : Prog Sys (option (list Repository.t)) :=
  loadFrom env repositoryVar (decodeRepository mountPath) (loadFuel env) 0.

Definition decodeProvider (val : string) : Prog Sys GitProvider.t :=
  match Unmarshal_provider val with
  | inr _ => Fatal "Failed to parse provider: "
  | inl provider => mret provider
  end.

Definition loadGitProviders : Prog Sys (option (list GitProvider.t)) :=
  loadFrom env providerVar decodeProvider (loadFuel env) 0.

(** [shellClone], given the configuration and the user as decoded from the
    environment by the configuration library.  The fuel never runs out. *)
Definition shellClone (config : CloneConfig.t) (user : User.t) : Prog Sys unit :=
  repositories ← loadRepositories (CloneConfig.MountPath config);
  providers ← loadGitProviders;
  let config := CloneConfig.mk (CloneConfig.MountPath config) (CloneConfig.LfsAutoFetch config)
                  (CloneConfig.IsGitProxyEnabled config) (CloneConfig.GitProxyPort config)
                  (default [] repositories) (default [] providers) in
  err ← Run (Cloner.mk config user "origin");
  match err with Some _ => Fatal "failed to clone repo:" | None => mret tt end.
End Load.
