(* ===== verification/CloneTheorems.v ===== *)
(** * Properties of the repository cloner

    The git commands, requests and files of the set-up of one repository follow
    a protocol, stated as a monitor; the loading of the numbered variables ends
    and finds all of them. *)

From S2P Require Import Json Prelude Prog NetUrl GitProxy Cloner.
From Stdlib Require Import Ascii.

(** ** The protocol of one repository *)

Record Progress := mkProgress {
  (** whether the directory was found to be a work tree, once asked *)
  existing : option bool;
  (** a command that must not fail has failed *)
  stopped : bool;
  (** the last command of the clone has succeeded *)
  cloned : bool;
  (** the ERROR file was written *)
  reported : bool;
  (** access tokens received *)
  tokens : list string }.

Definition fresh : Progress := mkProgress None false false false [].

(** The commands whose failure does not end the set-up. *)
Definition tolerated (args : list string) : bool :=
  match args with
  | a :: b :: _ => (a =s "remote") && (b =s "set-head") || (a =s "lfs") && (b =s "ls-files")
  | _ => false
  end.

(** The last command of a clone. *)
Definition final (args : list string) : bool :=
  match args with
  | a :: _ => a =s "submodule"
  | [] => false
  end.

Definition after (args : list string) (res : Result string) (g : Progress) : Progress :=
  match existing g with
  | None => mkProgress (Some match res with
                             | inl out => Strings.Contains (Strings.ToLower out) "true"
                             | inr _ => false
                             end) (stopped g) (cloned g) (reported g) (tokens g)
  | Some e =>
      match res with
      | inr _ => if tolerated args then g else mkProgress (Some e) true (cloned g) (reported g) (tokens g)
      | inl _ => if final args then mkProgress (Some e) (stopped g) true (reported g) (tokens g) else g
      end
  end.

Definition received (res : Result HttpResponse.t) : list string :=
  match res with
  | inl (HttpResponse.mk code (inl body)) => if (code =? 200)%Z then [HttpResponse.access_token body] else []
  | _ => []
  end.

Section Protocol.
Context (c : Cloner.t) (r : Repository.t).

Definition proxyCommands : list (list string) :=
  if CloneConfig.IsGitProxyEnabled (Cloner.config c)
  then [["config"; "http.proxy"; proxyURL c]; ["config"; "http.sslVerify"; "false"]] else [].

(** The commands of a phase: first the question, then either only the proxy
    settings of an existing work tree, or the set-up and then the settings. *)
Definition phaseAllows (args : list string) (g : Progress) : Prop :=
  match existing g with
  | None => args = ["rev-parse"; "--is-inside-work-tree"]
  | Some true => args ∈ proxyCommands
  | Some false => if cloned g then args ∈ proxyCommands else args ∉ proxyCommands
  end.

Definition credentialsOk (i : Invocation.t) (g : Progress) : Prop :=
  (∀ u, Invocation.GIT_USERNAME i = Some u → u = "oauth2" ∧ User.IsAnonymous (Cloner.user c) = false) ∧
  (∀ p, Invocation.GIT_PASSWORD i = Some p → p ∈ tokens g) ∧
  (is_Some (Invocation.GIT_ASKPASS i) →
   is_Some (Invocation.GIT_USERNAME i) ∧ is_Some (Invocation.GIT_PASSWORD i)).

Definition cloneAllowed {R} (e : Sys R) (g : Progress) : Prop :=
  match e with
  | Getwd => True
  | RunGit i => Invocation.Dir i = Repository.clonePath r ∧ stopped g = false ∧ reported g = false ∧
                credentialsOk i g ∧ phaseAllows (Invocation.Args i) g
  | HttpDo req => existing g = Some false ∧ reported g = false ∧
                  ∃ p, findProvider c (Repository.Provider r) = Some p ∧ req = tokenRequest c p
  | WriteFile path _ => existing g = Some false ∧ cloned g = false ∧
                        path = Path.Join [Repository.clonePath r; "ERROR"]
  | Statfs path => path = Repository.clonePath r ∧ CloneConfig.LfsAutoFetch (Cloner.config c) = true
  | Stat _ | MkdirAll _ => False
  end.

Definition cloneNext {R} (e : Sys R) : R → Progress → Progress :=
  match e in Sys R return R → Progress → Progress with
  | RunGit i => λ res g, after (Invocation.Args i) res g
  | HttpDo _ => λ res g, mkProgress (existing g) (stopped g) (cloned g) (reported g) (received res ++ tokens g)
  | WriteFile _ _ => λ _ g, mkProgress (existing g) (stopped g) (cloned g) true (tokens g)
  | _ => λ _ g, g
  end.

Definition cloneMonitor : Monitor Sys Progress :=
  {| allowed R e g := cloneAllowed e g; rely R e g res := True;
     next R e res g := cloneNext e res g; panic_ok _ := False |}.

(** How a set-up without an error ends. *)
Definition cloneEnds (err : option GoError) (g : Progress) : Prop :=
  err = None → existing g = Some true ∨ cloned g = true ∨ reported g = true.

(** ** Commands *)

Definition cliOk (cli : GitCli.t) (g : Progress) : Prop :=
  GitCli.repoDirectory cli = Repository.clonePath r ∧
  (GitCli.username cli ≠ "" → GitCli.username cli = "oauth2" ∧ User.IsAnonymous (Cloner.user c) = false) ∧
  (GitCli.password cli ≠ "" → GitCli.password cli ∈ tokens g).

Lemma nonEmpty_Some s t : nonEmpty s = Some t ↔ s = t ∧ s ≠ "".
Proof.
  unfold nonEmpty. destruct (s =s "") eqn:E; [apply String.eqb_eq in E|apply String.eqb_neq in E]; naive_solver.
Qed.

Lemma git_execute_wp cli cmd args g (Q : Result string → Progress → Prop) :
  cliOk cli g → stopped g = false → reported g = false → phaseAllows (cmd :: args) g →
  (∀ out, Q (inl out) (after (cmd :: args) (inl out) g)) →
  (∀ err err', Q (inr err) (after (cmd :: args) (inr err') g)) → (∀ err, Q (inr err) g) →
  wp cloneMonitor (git_execute cli cmd args) Q g.
Proof.
  intros (Hd & Hu & Hp) Hs Hr Hph Hok Hfail Hwd. unfold git_execute.
  assert (Hinv : ∀ ask, (is_Some ask → GitCli.username cli ≠ "" ∧ GitCli.password cli ≠ "") →
    cloneAllowed (RunGit (Invocation.mk (GitCli.repoDirectory cli) (cmd :: args) (nonEmpty (GitCli.username cli))
      (nonEmpty (GitCli.password cli)) ask)) g).
  { intros ask Hask. cbn. split_and!; try done. split_and!; cbn.
    - intros u [<- ?]%nonEmpty_Some. auto.
    - intros p [<- ?]%nonEmpty_Some. auto.
    - intros [? ?]%Hask. split; eexists; by apply nonEmpty_Some. }
  destruct (_ && _) eqn:E.
  - apply andb_true_iff in E as [E1 E2]. rewrite negb_true_iff in E1, E2. apply String.eqb_neq in E1, E2.
    cbn. split; [done|]. intros [wd|err] _; cbn; [|done]. split; [by apply Hinv|].
    intros [out|err] _; cbn; auto.
  - cbn. split; [apply Hinv; by intros []|]. intros [out|err] _; cbn; auto.
Qed.

Definition cloning (g : Progress) : Prop :=
  existing g = Some false ∧ stopped g = false ∧ cloned g = false ∧ reported g = false.

(** The state in which the failure of the clone is reported. *)
Definition halted (g : Progress) : Prop := existing g = Some false ∧ cloned g = false.

Lemma cloning_halted g : cloning g → halted g.
Proof. by intros (? & ? & ? & ?). Qed.

(** A command of the set-up leaves the state alone, or fails. *)
Definition steps (g : Progress) (err : option GoError) (g' : Progress) : Prop :=
  match err with None => g' = g | Some _ => halted g' end.

Lemma after_cloning args res g :
  cloning g → final args = false →
  halted (after args res g) ∧ (is_Some (match res with inl x => Some x | inr _ => None end) ∨ tolerated args = true →
    after args res g = g).
Proof.
  intros (He & Hs & Hc & Hr) Hf. unfold after. rewrite He, Hf. unfold halted.
  destruct res; [done|]. destruct (tolerated args) eqn:Ht; [done|]. cbn. split; [done|]. by intros [[]|].
Qed.

Lemma git_execute_cloning cli cmd args g :
  cliOk cli g → cloning g → cmd :: args ∉ proxyCommands → final (cmd :: args) = false →
  wp cloneMonitor (git_execute cli cmd args)
    (λ res g', match res with inl _ => g' = g | inr _ => halted g' ∧ (tolerated (cmd :: args) = true → g' = g) end) g.
Proof.
  intros Hcli Hg Hn Hf. pose proof Hg as (He & Hs & Hc & Hr).
  apply git_execute_wp; try done.
  - unfold phaseAllows. by rewrite He, Hc.
  - intros out. apply (after_cloning _ (inl out) _ Hg Hf). left. by eexists.
  - intros err err'. destruct (after_cloning _ (inr err') _ Hg Hf) as [? Ht]. auto.
Qed.

Lemma git_run_cloning cli cmd args g :
  cliOk cli g → cloning g → cmd :: args ∉ proxyCommands → final (cmd :: args) = false →
  wp cloneMonitor (git_run cli cmd args) (steps g) g.
Proof.
  intros Hcli Hg Hn Hf. eapply wp_bind_intro; [by apply git_execute_cloning|]. by intros [out|err] g' Hg'; cbn in *; [|destruct Hg'].
Qed.

(** Sequences of commands. *)
Lemma wp_andThen g p q (Q : option GoError → Progress → Prop) :
  wp cloneMonitor p (steps g) g → (∀ err g', halted g' → Q (Some err) g') → wp cloneMonitor q Q g →
  wp cloneMonitor (p ;;? q) Q g.
Proof.
  intros Hp Hfail Hq. eapply wp_bind_intro; [exact Hp|]. intros [err|] g' Hg'; cbn in *; [by apply Hfail|by subst g'].
Qed.

Lemma steps_fail g err g' : halted g' → steps g (Some err) g'.
Proof. done. Qed.

Lemma other_command args : (∀ p, args ≠ ["config"; "http.proxy"; p]) → args ≠ ["config"; "http.sslVerify"; "false"] →
  args ∉ proxyCommands.
Proof. unfold proxyCommands. intros H1 H2. case_match; set_solver. Qed.

(** ** The steps of the set-up *)

Ltac command := apply git_run_cloning; [done|done|by apply other_command|done].

Lemma initializeRepository_wp g :
  cliOk (Repository.Cli r) g → cloning g → wp cloneMonitor (initializeRepository c r) (steps g) g.
Proof.
  intros Hcli Hg. unfold initializeRepository. apply wp_andThen; [command|done|].
  apply wp_andThen; [case_match; [command|done]|done|].
  apply wp_andThen; [case_match; [command|done]|done|]. command.
Qed.

(** The branch is found without side effects, or the clone fails. *)
Lemma DefaultBranch_wp r' g :
  cliOk (Repository.Cli r') g → cloning g →
  wp cloneMonitor (DefaultBranch r' (Cloner.remoteName c))
    (λ b g', match b with inl _ => g' = g | inr _ => halted g' end) g.
Proof.
  intros Hcli Hg. unfold DefaultBranch, git_run. apply wp_bind.
  eapply wp_bind_intro; [apply git_execute_cloning; [done|done|by apply other_command|done]|].
  intros [out|err] g' Hg'; cbn -[git_execute headBranch]; [|by apply Hg'].
  subst g'. eapply wp_bind_intro; [apply git_execute_cloning; [done|done|by apply other_command|done]|].
  intros [ref|err] g' Hg'; cbn in *; [|by destruct Hg']. subst g'.
  destruct (headBranch _ _); [done|by apply cloning_halted].
Qed.

Lemma checkLfsSpace_wp r' g :
  Repository.clonePath r' = Repository.clonePath r →
  CloneConfig.LfsAutoFetch (Cloner.config c) = true →
  cliOk (Repository.Cli r') g → cloning g → wp cloneMonitor (checkLfsSpace r') (steps g) g.
Proof.
  intros Hpath Hlfs Hcli Hg. unfold checkLfsSpace, GetLFSTotalSizeBytes. apply wp_bind.
  eapply wp_bind_intro; [apply git_execute_cloning; [done|done|by apply other_command|done]|].
  intros res g' Hg'. assert (g' = g) as -> by (destruct res; [done|by apply Hg']).
  cbn. split; [done|]. intros [[bavail bsize]|err] _; cbn; [|by apply cloning_halted].
  destruct (_ <? _)%Z; [by apply cloning_halted|done].
Qed.

(** The last command: then the clone is complete. *)
Lemma submodule_wp cli g :
  cliOk cli g → cloning g →
  wp cloneMonitor (git_run cli "submodule" ["update"; "--init"])
    (λ err g', match err with
               | None => g' = mkProgress (Some false) false true false (tokens g)
               | Some _ => halted g'
               end) g.
Proof.
  intros Hcli Hg. pose proof Hg as (He & Hs & Hc & Hr). unfold git_run.
  eapply wp_bind_intro with (P := λ res g', match res with
    | inl _ => g' = mkProgress (Some false) false true false (tokens g) | inr _ => halted g' end);
    [|by intros [out|err] g']. apply git_execute_wp; try done.
  - unfold phaseAllows. rewrite He, Hc. by apply other_command.
  - intros out. unfold after. rewrite He. cbn. by rewrite Hs, Hr.
  - intros err err'. unfold after. rewrite He. by cbn.
Qed.

Lemma clone_wp r' g :
  Repository.clonePath r' = Repository.clonePath r → cliOk (Repository.Cli r') g → cloning g →
  wp cloneMonitor (clone c r')
    (λ err g', match err with
               | None => g' = mkProgress (Some false) false true false (tokens g)
               | Some _ => halted g'
               end) g.
Proof.
  intros Hpath Hcli Hg. unfold clone.
  apply wp_andThen; [command|done|]. apply wp_andThen; [command|done|]. apply wp_andThen; [command|done|].
  apply wp_andThen; [|done|].
  { eapply wp_bind_intro with (P := λ b g', match b with inl _ => g' = g | inr _ => halted g' end).
    - destruct (Repository.Branch r'); [done|by apply DefaultBranch_wp].
    - intros [b|err] g' Hg'; [|done]. subst g'. case_match; [command|done]. }
  apply wp_andThen; [|done|].
  { case_match; [|done]. apply wp_andThen; [by apply checkLfsSpace_wp|done|].
    apply wp_andThen; [command|done|]. command. }
  eapply wp_bind_intro; [by apply submodule_wp|]. by intros [err|] g' Hg'.
Qed.

(** The proxy settings, of an existing or a new work tree. *)
Lemma setupProxy_wp r' g :
  cliOk (Repository.Cli r') g → stopped g = false → reported g = false →
  (existing g = Some true ∨ existing g = Some false ∧ cloned g = true) →
  wp cloneMonitor (setupProxy c r') cloneEnds g.
Proof.
  intros Hcli Hs Hr Hd.
  assert (Hends : ∀ err, cloneEnds err g) by (intros err _; naive_solver).
  assert (Hrun : ∀ args, CloneConfig.IsGitProxyEnabled (Cloner.config c) = true → "config" :: args ∈ proxyCommands →
    wp cloneMonitor (git_run (Repository.Cli r') "config" args)
      (λ err g', match err with None => g' = g | Some _ => True end) g).
  { intros args Hen Hin. unfold git_run. eapply wp_bind_intro with
      (P := λ res g', match res with inl _ => g' = g | inr _ => True end); [|by intros [] ?].
    apply git_execute_wp; try done.
    - unfold phaseAllows. by destruct Hd as [->|[-> ->]].
    - intros out. unfold after. by destruct Hd as [->|[-> _]]. }
  unfold setupProxy. destruct (CloneConfig.IsGitProxyEnabled _) eqn:Hen; cbn -[git_run]; [|done].
  assert (Hin : ["config"; "http.proxy"; proxyURL c] ∈ proxyCommands ∧
                ["config"; "http.sslVerify"; "false"] ∈ proxyCommands)
    by (unfold proxyCommands; rewrite Hen; set_solver). destruct Hin as [Hin1 Hin2].
  eapply wp_bind_intro; [by apply Hrun|]. intros [err|] g' Hg'; [by intros ?|]. cbn in Hg'. subst g'.
  eapply wp_mono; [by apply Hrun|]. intros [err|] g'; [by intros _ ?|by intros ->].
Qed.

Lemma getAccessToken_wp g :
  cloning g →
  wp cloneMonitor (getAccessToken c (Repository.Provider r))
    (λ token g', cloning g' ∧ tokens g ⊆ tokens g' ∧
       match token with inl t => t = "" ∨ t ∈ tokens g' | inr _ => True end) g.
Proof.
  intros Hg. pose proof Hg as (He & Hs & Hc & Hr). unfold getAccessToken.
  destruct (findProvider _ _) as [p|] eqn:Hp; [|by cbn; auto]. destruct (url_Parse _); [|by cbn].
  cbn. split; [by eauto|]. intros res _. split; [done|]. split; [set_solver|].
  destruct res as [[code [body|err]]|err]; cbn; [|by destruct (code =? 200)%Z|done].
  destruct (code =? 200)%Z; cbn; [|done]. right. set_solver.
Qed.

(** C27: Setting up a repository follows the protocol: git is run only in the
    directory of the repository; an existing work tree only gets its proxy
    settings; a new one is initialised and cloned, the set-up stops at the
    first command that fails, and the proxy is set up only after the clone is
    complete; access tokens are only asked of the URL of the repository's
    provider, only tokens that came back are handed to git, and the user name
    [oauth2] only for a user who is signed in; the only file written is the
    report of a failed clone, after which git is not run again.  A set-up
    that ends without an error has found or completed the clone, or reported
    its failure, and the cloner does not crash. *)
Theorem clone_protocol :
  Repository.Cli r = GitCli.mk (Repository.clonePath r) "" "" →
  wp cloneMonitor (execute c r) cloneEnds fresh.
Proof.
  intros Hcli. assert (Hok : ∀ g, cliOk (Repository.Cli r) g) by (intros g; by rewrite Hcli).
  assert (Hcloned : ∀ r' g, cliOk (Repository.Cli r') g → existing g = Some false → stopped g = false →
    reported g = false → cloned g = true → wp cloneMonitor (setupProxy c r') cloneEnds g)
    by (intros; apply setupProxy_wp; auto).
  unfold execute, Exists, git_execute. rewrite Hcli. cbn -[setupProxy getAccessToken initializeRepository clone].
  split; [split_and!; try done; split_and!; cbn; by try intros ? []|]. intros res _.
  set (found := match _ with inl _ => _ | inr _ => _ end).
  match goal with |- wp _ _ _ ?g0 => replace g0 with (mkProgress (Some found) false false false []) by (by destruct res) end.
  clearbody found. destruct found; [by apply setupProxy_wp; auto|]. set (g := mkProgress _ _ _ _ _).
  eapply wp_bind_intro with (P := λ token g', cloning g' ∧
    match token with inl t => t = "" ∨ t ∈ tokens g' | inr _ => True end).
  { case_match; [|by split; [|left]]. eapply wp_mono; [by apply getAccessToken_wp|]. naive_solver. }
  intros token g1 [Hg1 Htok]. set (t := match token with inl t => t | inr _ => "" end).
  assert (Ht : t ≠ "" → t ∈ tokens g1) by (unfold t; destruct token; naive_solver).
  clearbody t. clear token Htok g.
  eapply wp_bind_intro; [by apply initializeRepository_wp|]. intros [err|] g2 Hg2; cbn in Hg2; [by cbn; unfold cloneEnds|]. subst g2.
  set (r' := Repository.with_Cli _ _).
  assert (Hr' : ∀ g, tokens g = tokens g1 → cliOk (Repository.Cli r') g).
  { intros g Hgt. unfold cliOk. cbn. rewrite Hgt. split; [done|]. split; [|done].
    destruct (User.IsAnonymous _) eqn:Ha; [done|]. destruct (t =s ""); by cbn. }
  eapply wp_bind_intro; [by apply (clone_wp r'); [|apply Hr'|]|]. intros [err|] g2 Hg2; cbn in Hg2.
  - destruct Hg2 as [? ?]. cbn. split; [done|]. intros [err'|] _; [by intros ?|]. intros _. by right; right.
  - subst g2. apply Hcloned; by try apply Hr'.
Qed.
End Protocol.

(** ** Loading the numbered variables *)

(** A monitor that allows everything: partial correctness with panics. *)
Definition anyMonitor {E} : Monitor E unit :=
  {| allowed R e _ := True; rely R e _ _ := True; next R e _ s := s; panic_ok _ := True |}.

Lemma app_inj_suffix (s t u : string) : s +:+ u = t +:+ u → s = t.
Proof.
  intros Heq. assert (Hl : String.length s = String.length t).
  { apply (f_equal String.length) in Heq. rewrite !Strings.length_app in Heq. lia. }
  revert t Heq Hl. induction s as [|a s IH]; intros [|b t] Heq Hl; try done.
  rewrite !Strings.app_cons in Heq. injection Heq as -> Heq. f_equal. apply IH; [done|]. cbn in Hl. lia.
Qed.

#[global] Instance repositoryVar_inj : Inj (=) (=) repositoryVar.
Proof. intros i j H. unfold repositoryVar in H. apply (inj _) in H. apply app_inj_suffix in H. by apply (inj pretty). Qed.

#[global] Instance providerVar_inj : Inj (=) (=) providerVar.
Proof. intros i j H. unfold providerVar in H. apply (inj _) in H. apply app_inj_suffix in H. by apply (inj pretty). Qed.

(** Distinct variables: no more of them than the environment has. *)
Lemma numbered_bound (env : gmap string string) (name : nat → string) `{!Inj (=) (=) name} n :
  (∀ j, (j < n)%nat → is_Some (env !! name j)) → (n ≤ size env)%nat.
Proof.
  intros Hall. assert (Hsub : (list_to_set (name <$> seq 0 n) : gset string) ⊆ dom env).
  { intros k. rewrite elem_of_list_to_set, list_elem_of_fmap. intros (j & -> & Hj%elem_of_seq).
    apply elem_of_dom. apply Hall. lia. }
  apply subseteq_size in Hsub. rewrite size_dom in Hsub. rewrite size_list_to_set in Hsub.
  - by rewrite length_fmap, length_seq in Hsub.
  - apply NoDup_fmap_2; [done|]. apply NoDup_seq.
Qed.

Lemma loadFrom_wp {A} (env : Env) (name : nat → string) `{!Inj (=) (=) name} (decode : string → Prog Sys A)
    (P : string → A → Prop) fuel i :
  (∀ val, wp anyMonitor (decode val) (λ x _, P val x) tt) →
  (∀ j, (j < i)%nat → is_Some (env !! name j)) → (size env < fuel + i)%nat →
  wp anyMonitor (loadFrom env name decode fuel i)
    (λ res _, ∃ l, res = Some l ∧ env !! name (i + length l)%nat = None ∧
       ∀ k x, l !! k = Some x → ∃ val, env !! name (i + k)%nat = Some val ∧ P val x) tt.
Proof.
  intros Hdec. revert i. induction fuel as [|fuel IH]; intros i Hall Hsize.
  { destruct (Nat.lt_irrefl i). exact (Nat.le_lt_trans _ _ _ (numbered_bound env name i Hall) Hsize). }
  cbn. destruct (env !! name i) as [val|] eqn:Hi; [|cbn; by exists []; rewrite Nat.add_0_r].
  eapply wp_bind_intro; [apply Hdec|]. intros x [] Hx. cbn. eapply wp_bind_intro; [apply (IH (S i))|].
  - intros j Hj. destruct (decide (j = i)) as [->|]; [by rewrite Hi|]. apply Hall. lia.
  - lia.
  - intros res [] (l & -> & Hend & Hl). exists (x :: l). cbn. split; [done|]. rewrite Nat.add_succ_r. split; [done|].
    intros [|k] y; cbn; intros Hy; [simplify_eq; rewrite Nat.add_0_r; eauto|].
    rewrite Nat.add_succ_r. by apply (Hl k).
Qed.

Lemma loadFrom_start {A} (env : Env) (name : nat → string) `{!Inj (=) (=) name} (decode : string → Prog Sys A)
    (P : string → A → Prop) :
  (∀ val, wp anyMonitor (decode val) (λ x _, P val x) tt) →
  wp anyMonitor (loadFrom env name decode (loadFuel env) 0)
    (λ res _, ∃ l, res = Some l ∧ env !! name (length l) = None ∧
       ∀ k x, l !! k = Some x → ∃ val, env !! name k = Some val ∧ P val x) tt.
Proof.
  intros Hdec. apply (loadFrom_wp env name decode P (loadFuel env) 0 Hdec); [lia|].
  rewrite Nat.add_0_r. apply Nat.lt_succ_diag_r.
Qed.

(** The repository a variable describes. *)
Definition describes (mountPath val : string) (r : Repository.t) : Prop :=
  ∃ j u project path,
    Unmarshal_repository val = inl j ∧ url_Parse (RepositoryJson.URL j) = Some u ∧
    list.last (Strings.Fields "/"%char (URL.Path u)) = Some project ∧
    path = Path.Join [mountPath; Strings.TrimSuffix project ".git"] ∧
    r = Repository.mk (RepositoryJson.URL j) (RepositoryJson.Provider j) (RepositoryJson.Branch j) path
          (GitCli.mk path "" "").

Lemma decodeRepository_wp mountPath val :
  wp anyMonitor (decodeRepository mountPath val) (λ r _, describes mountPath val r) tt.
Proof.
  unfold decodeRepository. destruct (Unmarshal_repository val) as [j|] eqn:Hj; [|done].
  destruct (url_Parse _) as [u|] eqn:Hu; [|done]. destruct (list.last _) as [project|] eqn:Hp; [|done].
  set (path := Path.Join _). eapply wp_bind_intro with (P := λ _ _, True); [done|]. intros st [] _.
  eapply wp_bind_intro with (P := λ _ _, True).
  { destruct st; cbn; [done|split; [done|by intros [] _]|done]. }
  intros _ [] _. eapply wp_bind_intro with (P := λ cli _, cli = GitCli.mk path "" "").
  { cbn. split; [done|]. by intros [] _. }
  intros cli [] ->. cbn. by exists j, u, project, path.
Qed.

(** Loading ends, and takes every numbered variable up to the first gap:
    the [i]-th repository is the one the [i]-th variable describes, cloned
    below the mount path under the last part of its URL, with no credentials
    yet; the [i]-th provider is the decoded [i]-th variable. *)
Theorem load_complete env mountPath :
  wp anyMonitor (loadRepositories env mountPath)
    (λ res _, ∃ l, res = Some l ∧ env !! repositoryVar (length l) = None ∧
       ∀ i r, l !! i = Some r → ∃ val, env !! repositoryVar i = Some val ∧ describes mountPath val r) tt ∧
  wp anyMonitor (loadGitProviders env)
    (λ res _, ∃ l, res = Some l ∧ env !! providerVar (length l) = None ∧
       ∀ i p, l !! i = Some p → ∃ val, env !! providerVar i = Some val ∧ Unmarshal_provider val = inl p) tt.
Proof.
  split.
  - eapply wp_mono; [apply (loadFrom_start env repositoryVar _ (describes mountPath) (decodeRepository_wp mountPath))|done].
  - eapply wp_mono; [apply (loadFrom_start env providerVar _ (λ val p, Unmarshal_provider val = inl p))|done].
    intros val. unfold decodeProvider. by destruct (Unmarshal_provider val) eqn:Hp.
Qed.

(** ** An example *)

(** Names in any case; a null branch is no branch. *)
Example decode_example :
  Unmarshal_repository (print (JObj [("Url", JStr "https://gitlab.io/a.git"); ("branch", JNull); ("x", JNum "1.5")])) =
  inl (RepositoryJson.mk "https://gitlab.io/a.git" "" None None).
Proof. vm_compute. reflexivity. Qed.

Example lsFiles_example :
  Unmarshal_lsFiles (print (JObj [("files", JArr [JObj [("name", JStr "a"); ("size", JNum "12")];
    JObj [("size", JNum "18446744073709551615")]])])) = inl [12; 18446744073709551615]%Z.
Proof. vm_compute. reflexivity. Qed.

Definition exampleCloner : Cloner.t :=
  Cloner.mk (CloneConfig.mk "/work" false true 8080 [] [GitProvider.mk "gitlab" "https://renku.io/token"])
    (User.mk "jane" "jane@renku.io" "" "renku-token") "origin".

Definition exampleRepository : Repository.t :=
  Repository.mk "https://gitlab.io/group/repo.git" "gitlab" None "/work/repo" (GitCli.mk "/work/repo" "" "").

(** A system with an empty directory, which records the commands of git. *)
Definition exampleSys : Handler Sys (list (list string)) := λ R e,
  match e in Sys R return list (list string) → R * list (list string) with
  | Getwd => λ w, (inl "/", w)
  | RunGit i => λ w,
      (match Invocation.Args i with
       | "rev-parse" :: _ => inl "false"
       | "symbolic-ref" :: _ => inl ("refs/remotes/origin/main" +:+ newline)
       | _ => inl ""
       end, w ++ [Invocation.Args i])
  | HttpDo _ => λ w, (inl (HttpResponse.mk 200 (inl (HttpResponse.mkBody "tok" "" 0))), w)
  | WriteFile _ _ => λ w, (None, w)
  | Statfs _ => λ w, (inl (1, 1)%Z, w)
  | Stat _ => λ w, (StatOk, w)
  | MkdirAll _ => λ w, (None, w)
  end.

Example clone_run :
  run exampleSys (execute exampleCloner exampleRepository) [] =
  (Done None,
   [["rev-parse"; "--is-inside-work-tree"]; ["init"; "--initial-branch"; "main"];
    ["config"; "user.email"; "jane@renku.io"]; ["config"; "push.default"; "simple"];
    ["lfs"; "install"; "--skip-smudge"; "--local"]; ["remote"; "add"; "origin"; "https://gitlab.io/group/repo.git"];
    ["fetch"; "origin"]; ["remote"; "set-head"; "origin"; "--auto"]; ["symbolic-ref"; "refs/remotes/origin/HEAD"];
    ["checkout"; "main"]; ["submodule"; "update"; "--init"];
    ["config"; "http.proxy"; "http://localhost:8080"]; ["config"; "http.sslVerify"; "false"]]).
Proof. vm_compute. reflexivity. Qed.

Lemma clone_protocol_witness :
  obeys (cloneMonitor exampleCloner exampleRepository) exampleSys (execute exampleCloner exampleRepository)
    cloneEnds [] fresh.
Proof. apply wp_obeys; [done|]. apply clone_protocol. reflexivity. Defined.
