(* ===== verification/CloneCommand.v ===== *)
(** * The clone command (internal/cloner/clone.go, enum_flag.go, root.go)

    The command [cloner clone] that the init containers of a session run: its
    flags, the strategy for an existing target, the credentials and the call of
    the git library.  The git library, the SSH library and the YAML library are
    the parameter [GitLib] and the event [PlainClone]; [log.Fatal] and
    [os.Exit] end the process with an exit code. *)

From S2P Require Import Prelude Prog NetUrl.
From S2P Require Import Cloner.
From Stdlib Require Import Ascii.

(** ** Flags (enum_flag.go, root.go) *)

Module enum.
Record t := mk { Allowed : list string; Value : string }.
Definition String_ (flag : t) : string := Value flag.
Definition Set_ (flag : t) (value : string) : Result t :=
  if existsb (λ s, s =s value) (Allowed flag) then inl (mk (Allowed flag) value)
  else inr (Errorf (value +:+ " is not included in " +:+ Strings.Join (Allowed flag) ",")).
Definition Equal (flag : t) (value : string) : bool := Value flag =s value.
End enum.

Definition NotIfExist : string := "notifexist".
Definition Overwrite : string := "overwrite".
Definition NoStrategy : string := "nostrategy".
Definition PreCloningStrategies : list string := [NotIfExist; Overwrite; NoStrategy].

(** The variables of the package; [strategyFlag] is the variable of [Command]
    that has the name of the package variable [preCloningStrategy]. *)
Module Vars.
Record t := mk {
  configPath : string;
  remote : string;
  revision : string;
  path : string;
  verbose : bool;
  preCloningStrategy : enum.t;
  strategyFlag : enum.t }.
Definition initial : t :=
  mk "" "" "" "" false (enum.mk PreCloningStrategies NoStrategy) (enum.mk PreCloningStrategies NoStrategy).
End Vars.

(** The flags with a value. *)
Definition setFlag (v : Vars.t) (name value : string) : Result Vars.t :=
  let '(Vars.mk config remote revision path verbose pkg flag) := v in
  if name =s "config" then inl (Vars.mk value remote revision path verbose pkg flag)
  else if name =s "remote" then inl (Vars.mk config value revision path verbose pkg flag)
  else if name =s "revision" then inl (Vars.mk config remote value path verbose pkg flag)
  else if name =s "path" then inl (Vars.mk config remote revision value verbose pkg flag)
  else if name =s "strategy" then
    match enum.Set_ flag value with
    | inl flag => inl (Vars.mk config remote revision path verbose pkg flag)
    | inr err => inr err
    end
  else inr (Errorf ("unknown flag: --" +:+ name)).

Definition setVerbose (v : Vars.t) : Vars.t :=
  Vars.mk (Vars.configPath v) (Vars.remote v) (Vars.revision v) (Vars.path v) true (Vars.preCloningStrategy v) (Vars.strategyFlag v).

(** The command line of [Command], flags given as [--name value] or
    [--name=value] and [--verbose], with the names of the flags that were
    given. *)
Fixpoint parseFlags (args given : list string) (v : Vars.t) : Result (Vars.t * list string) :=
  match args with
  | [] => inl (v, given)
  | arg :: args =>
      if arg =s "--verbose" then parseFlags args ("verbose" :: given) (setVerbose v)
      else match Strings.CutPrefix arg "--" with
           | (name, true) =>
               match Strings.Cut name "=", args with
               | (name, value, true), _ =>
                   match setFlag v name value with
                   | inl v => parseFlags args (name :: given) v
                   | inr err => inr err
                   end
               | (_, _, false), value :: args =>
                   match setFlag v name value with
                   | inl v => parseFlags args (name :: given) v
                   | inr err => inr err
                   end
               | (_, _, false), [] => inr (Errorf ("flag needs an argument: " +:+ arg))
               end
           | (_, false) => inr (Errorf ("unknown command " +:+ arg))
           end
  end.

(** [MarkFlagRequired] *)
Definition Command_parse (args : list string) : Result Vars.t :=
  match parseFlags args [] Vars.initial with
  | inr err => inr err
  | inl (v, given) =>
      if existsb (λ s, s =s "remote") given && existsb (λ s, s =s "path") given then inl v
      else inr (Errorf "required flag(s) not set")
  end.

(** ** Libraries *)

(** The configuration of the credentials (YAML). *)
Module CloneFonfig.
Record t := mk { Username : option string; PrivateKey : option string; Password : string }.
End CloneFonfig.

(** [NewEndpoint] gives the path of a remote. *)
Class GitLib := {
  NewEndpoint : string → Result string;
  PublicKeys : Type;
  NewPublicKeys : string → string → string → Result PublicKeys;
  Unmarshal_CloneFonfig : string → Result CloneFonfig.t }.

Inductive AuthMethod `{GitLib} := SshKeys (keys : PublicKeys) | BasicAuth (username password : string).
Arguments SshKeys {_} keys.
Arguments BasicAuth {_} username password.

Module CloneOptions.
Record t `{GitLib} := mk {
  URL : string;
  SingleBranch : bool;
  ReferenceName : string;
  RecurseSubmodules : Z;
  Auth : option AuthMethod }.
Arguments mk {_}. Arguments URL {_}. Arguments SingleBranch {_}. Arguments ReferenceName {_}.
Arguments RecurseSubmodules {_}. Arguments Auth {_}.
End CloneOptions.

(** [git.DefaultSubmoduleRecursionDepth] *)
Definition DefaultSubmoduleRecursionDepth : Z := 10.

Section CloneCommand.
Context `{GitLib}.

Inductive Cl : Type → Type :=
| StatTarget (path : string) : Cl StatAnswer
| RemoveAll (path : string) : Cl (option GoError)
| ReadConfig (path : string) : Cl (Result string)
| PlainClone (path : string) (options : CloneOptions.t) : Cl (option GoError).

(** A result, or the exit code of a process that has ended. *)
Definition Exiting (A : Type) : Type := A + Z.
Definition Exit {A} (code : Z) : Prog Cl (Exiting A) := mret (inr code).
Definition Fatal {A} (msg : string) : Prog Cl (Exiting A) := Exit 1.
Definition ok {A} (a : A) : Prog Cl (Exiting A) := mret (inl a).
Definition bindX {A B} (p : Prog Cl (Exiting A)) (f : A → Prog Cl (Exiting B)) : Prog Cl (Exiting B) :=
  r ← p; match r with inl a => f a | inr code => Exit code end.
Notation "x ←! p ; q" := (bindX p (λ x, q)) (at level 100, p at level 99, q at level 200, right associativity).

(** ** The command (clone.go) *)

Definition applyPreCloningStrategy (preCloningStrategy : enum.t) (clonePath : string) : Prog Cl (Exiting unit) :=
  if enum.Equal preCloningStrategy NoStrategy then ok tt
  else
    st ← trigger (StatTarget clonePath);
    match st with
    | StatNotExist => ok tt
    | StatError _ => Fatal "unexpected error: "
    | StatOk =>
        if enum.Equal preCloningStrategy NotIfExist then Exit 0
        else if enum.Equal preCloningStrategy Overwrite then
          err ← trigger (RemoveAll (clonePath +:+ "/"));
          match err with Some _ => Fatal "failed to remove existing clone: " | None => ok tt end
        else ok tt
    end.

(** The target of the clone. *)
Definition projectNameOf (endpointPath : string) : option string :=
  match list.last (Strings.Fields "/" endpointPath) with
  | Some name => Some (Strings.TrimSuffix name ".git")
  | None => None
  end.
Definition clonePathIn (path projectName : string) : string :=
  if path ≠s "" then path +:+ "/" +:+ projectName else projectName.

Definition cloneAuth (cfg : CloneFonfig.t) : Exiting (option AuthMethod) :=
  match CloneFonfig.PrivateKey cfg, CloneFonfig.Username cfg with
  | None, None => inr 1%Z
  | Some key, _ =>
      match NewPublicKeys "git" key (CloneFonfig.Password cfg) with
      | inl keys => inl (Some (SshKeys keys))
      | inr _ => inr 1%Z
      end
  | None, Some username => inl (Some (BasicAuth username (CloneFonfig.Password cfg)))
  end.

Definition loadAuth (configPath : string) : Prog Cl (Exiting (option AuthMethod)) :=
  if configPath ≠s "" then
    buf ← trigger (ReadConfig configPath);
    match buf with
    | inr _ => Fatal "failed to read configuration file: "
    | inl buf =>
        match Unmarshal_CloneFonfig buf with
        | inr _ => Fatal "failed to parse configuration: "
        | inl cfg => mret (cloneAuth cfg)
        end
    end
  else ok None.

Definition clone (v : Vars.t) : Prog Cl (Exiting unit) :=
  match NewEndpoint (Vars.remote v) with
  | inr _ => Fatal "failed to parse remote: "
  | inl endpointPath =>
      match projectNameOf endpointPath with
      | None => Fatal "expecting repo in url path, received: "
      | Some projectName =>
          let clonePath := clonePathIn (Vars.path v) projectName in
          _ ←! applyPreCloningStrategy (Vars.preCloningStrategy v) clonePath;
          auth ←! loadAuth (Vars.configPath v);
          err ← trigger (PlainClone clonePath
                           (CloneOptions.mk (Vars.remote v) true (Vars.revision v) DefaultSubmoduleRecursionDepth auth));
          match err with Some _ => Fatal "clone failed: " | None => ok tt end
      end
  end.

(** The process [sidecars cloner clone ...]: the exit code. *)
Definition sidecar_clone (args : list string) : Prog Cl Z :=
  match args with
  | "cloner" :: "clone" :: flags =>
      match Command_parse flags with
      | inr _ => mret 1%Z
      | inl v => r ← clone v; mret match r with inl _ => 0%Z | inr code => code end
      end
  | _ => mret 1%Z
  end.
End CloneCommand.
