(* ===== verification/AuthProxy.v ===== *)
(** * The authentication proxy (internal/authproxy)

    The reverse proxy in front of a session: its settings, the chain of
    middlewares, the statistics of the requests and the health and metadata
    endpoints.  The web framework is not part of the repository: key
    extraction and path rewriting are the parameter [Framework], forwarding a
    request is an event.  A handler returns the error that the framework turns
    into an answer. *)

From S2P Require Import Prelude Prog NetUrl.
From Stdlib Require Import Ascii.

(** ** Settings (serve.go [Command], root.go) *)

Module ProxyVars.
Record t := mk {
  remote : string;
  port : Z;
  metaPort : Z;
  token : string;
  cookieKey : string;
  verbose : bool;
  stripPathPrefix : string }.
(** the defaults of the flags *)
Definition initial : t := mk "" 65535 65534 "" "renku-auth" false "".
End ProxyVars.

Definition proxyPrefix : string := "authproxy".

(** The key of a flag and its environment variable. *)
Definition flagKey (flag : string) : string := proxyPrefix +:+ "." +:+ flag.
Definition flagVariable (flag : string) : string := Strings.ToUpper (proxyPrefix +:+ "_" +:+ flag).

(** The flags that are bound to a variable, in the order of their names, in
    which they are visited. *)
Definition boundFlags : list string :=
  ["cookie_key"; "meta_port"; "port"; "remote"; "strip_path_prefix"; "token"; "verbose"].

(** The settings library: the text of a key that is set, and the parsers of
    integer and boolean flags. *)
Module FlagValues.
Record t := mk {
  Lookup : string → option string;
  ParseInt : string → option Z;
  ParseBool : string → option bool }.
End FlagValues.

Definition with_port (v : ProxyVars.t) (x : Z) : ProxyVars.t :=
  ProxyVars.mk (ProxyVars.remote v) x (ProxyVars.metaPort v) (ProxyVars.token v) (ProxyVars.cookieKey v)
    (ProxyVars.verbose v) (ProxyVars.stripPathPrefix v).
Definition with_metaPort (v : ProxyVars.t) (x : Z) : ProxyVars.t :=
  ProxyVars.mk (ProxyVars.remote v) (ProxyVars.port v) x (ProxyVars.token v) (ProxyVars.cookieKey v)
    (ProxyVars.verbose v) (ProxyVars.stripPathPrefix v).
Definition with_verbose (v : ProxyVars.t) (x : bool) : ProxyVars.t :=
  ProxyVars.mk (ProxyVars.remote v) (ProxyVars.port v) (ProxyVars.metaPort v) (ProxyVars.token v)
    (ProxyVars.cookieKey v) x (ProxyVars.stripPathPrefix v).

Section LoadConfig.
Context (values : FlagValues.t).

(** [cmd.Flags().Set] *)
Definition setProxyFlag (flag text : string) (v : ProxyVars.t) : option ProxyVars.t :=
  if flag =s "remote" then
    Some (ProxyVars.mk text (ProxyVars.port v) (ProxyVars.metaPort v) (ProxyVars.token v) (ProxyVars.cookieKey v)
            (ProxyVars.verbose v) (ProxyVars.stripPathPrefix v))
  else if flag =s "token" then
    Some (ProxyVars.mk (ProxyVars.remote v) (ProxyVars.port v) (ProxyVars.metaPort v) text (ProxyVars.cookieKey v)
            (ProxyVars.verbose v) (ProxyVars.stripPathPrefix v))
  else if flag =s "cookie_key" then
    Some (ProxyVars.mk (ProxyVars.remote v) (ProxyVars.port v) (ProxyVars.metaPort v) (ProxyVars.token v) text
            (ProxyVars.verbose v) (ProxyVars.stripPathPrefix v))
  else if flag =s "strip_path_prefix" then
    Some (ProxyVars.mk (ProxyVars.remote v) (ProxyVars.port v) (ProxyVars.metaPort v) (ProxyVars.token v)
            (ProxyVars.cookieKey v) (ProxyVars.verbose v) text)
  else if flag =s "port" then with_port v <$> FlagValues.ParseInt values text
  else if flag =s "meta_port" then with_metaPort v <$> FlagValues.ParseInt values text
  else if flag =s "verbose" then with_verbose v <$> FlagValues.ParseBool values text
  else None.

(** The walk over the flags; [None] is the exit of [cobra.CheckErr]. *)
Fixpoint visitFlags (flags : list string) (v : ProxyVars.t) : option ProxyVars.t :=
  match flags with
  | [] => Some v
  | flag :: flags =>
      match FlagValues.Lookup values (flagKey flag) with
      | Some text => match setProxyFlag flag text v with Some v => visitFlags flags v | None => None end
      | None => visitFlags flags v
      end
  end.

(** [loadConfig], after the configuration file has been read, for a command line
    that left the variables in [v]; then the check that the required flag has
    been set, there ([remoteGiven]) or here. *)
Definition loadConfig (remoteGiven : bool) (v : ProxyVars.t) : option ProxyVars.t :=
  match visitFlags boundFlags v with
  | Some v =>
      if remoteGiven || bool_decide (is_Some (FlagValues.Lookup values (flagKey "remote"))) then Some v else None
  | None => None
  end.
End LoadConfig.

(** ** Requests *)

Module Request.
Record t := mk {
  URI : string;
  Cookies : list (string * string);
  Headers : list (string * string) }.
Definition with_URI (r : t) (x : string) : t := mk x (Cookies r) (Headers r).
Definition with_Headers (r : t) (x : list (string * string)) : t := mk (URI r) (Cookies r) x.
End Request.

(** The framework: the keys that a lookup finds in a request, and the rewriting
    of a path by rules (pattern and replacement). *)
Class Framework := {
  presentedKeys : string → Request.t → list string;
  rewriteURI : list (string * string) → string → string }.

Inductive Ap : Type → Type :=
| Now : Ap Time.t
| LockStats : Ap unit
| UnlockStats : Ap unit
| RLockStats : Ap unit
| RUnlockStats : Ap unit
| StoreLastRequest (t : Time.t) : Ap unit
| LoadLastRequest : Ap Time.t
(** the request is sent to the target, its answer or an error is the answer *)
| Forward (target : URL.t) (r : Request.t) : Ap (option Z)
(** [c.Error]: the answer for an error *)
| SendError (code : Z) : Ap unit
| SendNoContent (code : Z) : Ap unit
(** the time, as JSON *)
| SendStats (t : Time.t) : Ap unit.

(** A handler; an error is the code of its answer. *)
Definition HandlerFunc : Type := Request.t → Prog Ap (option Z).

(** ** Statistics *)

Definition Process (next : HandlerFunc) : HandlerFunc := λ r,
  err ← next r;
  _ ← match err with Some code => trigger (SendError code) | None => mret tt end;
  _ ← trigger LockStats;
  deferred UnlockStats (t ← trigger Now; _ ← trigger (StoreLastRequest t); mret None).

(** [RequestStats.Handle] *)
Definition Handle : HandlerFunc := λ _,
  _ ← trigger RLockStats;
  deferred RUnlockStats (t ← trigger LoadLastRequest; _ ← trigger (SendStats t); mret None).

(** ** The chain of [serve] *)

Section Serve.
Context `{Framework} (v : ProxyVars.t).

Definition keyLookup : string := "cookie:" +:+ ProxyVars.cookieKey v +:+ ",header:Authorization".

(** [middleware.KeyAuthWithConfig]: the next handler for a valid key, else 400
    when there is no key and 401 when there is. *)
Definition authnMW (next : HandlerFunc) : HandlerFunc := λ r,
  match presentedKeys keyLookup r with
  | [] => mret (Some 400%Z)
  | keys => if existsb (λ key, key =s ProxyVars.token v) keys then next r else mret (Some 401%Z)
  end.

Definition removeForwardedHeader (next : HandlerFunc) : HandlerFunc := λ r,
  next (Request.with_Headers r (filter (λ h, h.1 ≠ "Forwarded") (Request.Headers r))).

Definition normalizedPrefix : string :=
  let p := ProxyVars.stripPathPrefix v in
  let p := if negb (Strings.HasPrefix p "/") then "/" +:+ p else p in
  if negb (Strings.HasSuffix p "/") then p +:+ "/" else p.

Definition rules : list (string * string) := [(normalizedPrefix +:+ "*", "/$1")].

(** [middleware.Rewrite] *)
Definition rewriteMW (next : HandlerFunc) : HandlerFunc := λ r,
  next (Request.with_URI r (rewriteURI rules (Request.URI r))).

(** [middleware.Proxy] over one target *)
Definition proxyMW (remoteURL : URL.t) : HandlerFunc := λ r, trigger (Forward remoteURL r).

Definition proxyMWs (remoteURL : URL.t) : HandlerFunc :=
  let handler := proxyMW remoteURL in
  let handler := if ProxyVars.stripPathPrefix v ≠s "" then removeForwardedHeader (rewriteMW handler) else handler in
  let handler := if ProxyVars.token v ≠s "" then authnMW handler else handler in
  Process handler.

Definition healthPath : string := "/__amalthea__/health".

(** A request on the port of the proxy; [path] is the path of its URI.  The health
    check has a route for GET only. *)
Definition serveRequest (remoteURL : URL.t) (method path : string) (r : Request.t) : Prog Ap unit :=
  if (path =s healthPath) && (method =s "GET") then trigger (SendNoContent 200)
  else err ← proxyMWs remoteURL r; match err with Some code => trigger (SendError code) | None => mret tt end.

(** A request on the metadata port. *)
Definition serveMeta (path : string) (r : Request.t) : Prog Ap unit :=
  if path =s "/request_stats" then _ ← Handle r; mret tt else trigger (SendError 404).

(** The target of the proxy, [None] when the process ends. *)
Definition targets : option URL.t := url_Parse (ProxyVars.remote v).
End Serve.
