(* ===== verification/CloneCommandTheorems.v ===== *)
(** * The clone containers of a session, run

    The containers that the operator generates for the code repositories of a
    session ([Templates.CodeRepoTemplates.cloneInit]), executed by the clone
    command: what is cloned where, with which credentials, and what becomes of
    the strategy for targets that exist. *)

From S2P Require Import Prelude Prog NetUrl K8s Types Names Templates Cloner CloneCommand.
From Stdlib Require Import Ascii.

(** ** The strategies *)

(** The strategies of [applyPreCloningStrategy], for a target that exists. *)
Lemma strategy_existing `{GitLib} {W} (h : Handler Cl W) s target w w' :
  h _ (StatTarget target) w = (StatOk, w') →
  (enum.Value s = NotIfExist → run h (applyPreCloningStrategy s target) w = (Done (inr 0%Z), w')) ∧
  (enum.Value s = Overwrite → run h (applyPreCloningStrategy s target) w =
     let '(err, w2) := h _ (RemoveAll (target +:+ "/")) w' in
     (Done (match err with Some _ => inr 1%Z | None => inl tt end), w2)) ∧
  (enum.Value s = NoStrategy → run h (applyPreCloningStrategy s target) w = (Done (inl tt), w)).
Proof.
  intros Hw. unfold applyPreCloningStrategy, enum.Equal. split_and!; intros ->; cbn; rewrite ?Hw; [done| |done].
  cbn. by destruct (h _ (RemoveAll (target +:+ "/")) w') as [[err|] w2].
Qed.

(** The package variable is what [clone] looks at; the flag sets another. *)
Lemma parse_strategy args given v v' given' :
  parseFlags args given v = inl (v', given') → Vars.preCloningStrategy v' = Vars.preCloningStrategy v.
Proof.
  assert (Hset : ∀ v name value v', setFlag v name value = inl v' → Vars.preCloningStrategy v' = Vars.preCloningStrategy v).
  { clear. intros [] name value v'. unfold setFlag. repeat case_match; intros; simplify_eq; done. }
  assert (Hlen : ∀ n args, length args < n → ∀ given v, parseFlags args given v = inl (v', given') →
    Vars.preCloningStrategy v' = Vars.preCloningStrategy v).
  { clear args given v. induction n as [|n IH]; intros args Hn given v; [lia|].
    destruct args as [|arg args]; cbn in Hn |- *; [by intros [= -> _]|]. assert (Hn' : length args < n) by lia.
    case_match; [by intros Hp%IH|]. destruct (Strings.CutPrefix arg "--") as [name []]; [|done].
    destruct (Strings.Cut name "=") as [[x y] []].
    - destruct (setFlag v x y) as [v1|] eqn:Hs; [|done]. intros Hp%IH; [|done]. by rewrite Hp, (Hset _ _ _ _ Hs).
    - destruct args as [|value args]; [done|]. destruct (setFlag v name value) as [v1|] eqn:Hs; [|done].
      intros Hp%IH; [|cbn in Hn'; lia]. by rewrite Hp, (Hset _ _ _ _ Hs). }
  eapply Hlen. apply Nat.lt_succ_diag_r.
Qed.

(** ** The generated containers *)

(** The configuration file that a repository's container is given. *)
Definition configOf (repo : CodeRepository.t) : string :=
  match CodeRepository.CloningConfigSecretRef repo with
  | Some ref => CodeRepoTemplates.secretMountPath +:+ "/" +:+ SessionSecretKeyRef.Key ref
  | None => ""
  end.
Definition pathOf (session : Session.t) (repo : CodeRepository.t) : string :=
  Storage.MountPath (Session.Storage_ session) +:+ "/" +:+ CodeRepository.ClonePath repo.

Definition argsOf (session : Session.t) (repo : CodeRepository.t) : list string :=
  ["cloner"; "clone"; "--strategy"; "notifexist"; "--remote"; CodeRepository.Remote_ repo; "--path"; pathOf session repo] ++
  (if configOf repo ≠s "" then ["--config"; configOf repo] else []) ++
  (if CodeRepository.Revision repo ≠s "" then ["--revision"; CodeRepository.Revision repo] else []).

Lemma cloneInit_args env session repos irepo volMounts vols containers c :
  c ∈ manifests_Containers (CodeRepoTemplates.cloneInit_loop env session irepo repos volMounts vols containers) →
  c ∈ containers ∨ ∃ repo, repo ∈ repos ∧ Container.Args c = argsOf session repo.
Proof.
  revert irepo volMounts vols containers. induction repos as [|repo repos IH]; intros irepo volMounts vols containers; [by left|].
  cbn [CodeRepoTemplates.cloneInit_loop]. destruct (CodeRepository.CloningConfigSecretRef repo) as [ref|] eqn:Hr;
    intros [Hin|(r & Hin & Hargs)]%IH; (try by right; exists r; split; [by right|]);
    (apply elem_of_app in Hin as [Hin|Hin]; [by left|]); apply list_elem_of_singleton in Hin as ->; right; exists repo;
    (split; [by left|]); cbn; unfold argsOf, configOf; rewrite Hr; cbn; by case_if.
Qed.

(** What the flags of the container set. *)
Lemma argsOf_parse session repo :
  Command_parse (drop 2 (argsOf session repo)) =
  inl (Vars.mk (configOf repo) (CodeRepository.Remote_ repo) (CodeRepository.Revision repo) (pathOf session repo) false
         (enum.mk PreCloningStrategies NoStrategy) (enum.mk PreCloningStrategies NotIfExist)).
Proof.
  unfold argsOf. destruct (configOf repo =s "") eqn:Ec; destruct (CodeRepository.Revision repo =s "") eqn:Er; cbn -[pathOf configOf];
    bool_simpl; try rewrite Ec; try rewrite Er; done.
Qed.

Section Containers.
Context `{GitLib}.

(** The calls of a clone container: its configuration file is read, and the
    repository is cloned, once, into a directory named after the project below
    the path of the repository.  The ghost state is the outcome of the clone. *)
Definition cloneCalls (session : Session.t) (repo : CodeRepository.t) : Monitor Cl (option (option GoError)) := {|
  allowed := λ R e, match e in Cl R return option (option GoError) → Prop with
    | StatTarget _ | RemoveAll _ => λ _, False
    | ReadConfig path => λ g, g = None ∧ path = configOf repo ∧ path ≠ ""
    | PlainClone path options => λ g, g = None ∧
        (∃ endpointPath projectName, NewEndpoint (CodeRepository.Remote_ repo) = inl endpointPath ∧
           projectNameOf endpointPath = Some projectName ∧ path = pathOf session repo +:+ "/" +:+ projectName) ∧
        CloneOptions.URL options = CodeRepository.Remote_ repo ∧
        CloneOptions.ReferenceName options = CodeRepository.Revision repo ∧
        CloneOptions.SingleBranch options = true ∧
        (CloneOptions.Auth options = None ↔ CodeRepository.CloningConfigSecretRef repo = None)
    end;
  rely := λ _ _ _ _, True;
  next := λ R e, match e in Cl R return R → option (option GoError) → option (option GoError) with
    | PlainClone _ _ => λ r _, Some r
    | _ => λ _ g, g
    end;
  panic_ok := λ _, False |}.

Lemma loadAuth_wp session repo :
  wp (cloneCalls session repo) (loadAuth (configOf repo))
    (λ r g, g = None ∧ match r with
                       | inl auth => auth = None ↔ CodeRepository.CloningConfigSecretRef repo = None
                       | inr code => code = 1%Z
                       end) None.
Proof.
  assert (Hc : configOf repo = "" ↔ CodeRepository.CloningConfigSecretRef repo = None)
    by (unfold configOf; by destruct (CodeRepository.CloningConfigSecretRef repo)).
  unfold loadAuth. destruct (configOf repo =s "") eqn:E; cbn.
  - split; [done|]. apply String.eqb_eq in E. split; [|done]. intros _. by apply Hc.
  - assert (configOf repo ≠ "") as E' by (by apply String.eqb_neq). split; [done|]. intros [buf|err] _; [|done]. cbn.
    destruct (Unmarshal_CloneFonfig buf) as [cfg|err]; [|done]. cbn. split; [done|]. unfold cloneAuth.
    destruct (CloneFonfig.PrivateKey cfg) as [key|]; [destruct (NewPublicKeys _ _ _); [|done]|destruct (CloneFonfig.Username cfg); [|done]];
      (split; [done|]); intros Hn; by apply Hc in Hn.
Qed.

(** C37: What a clone container of a session does.  It clones its repository, with
    the credentials when there are any, into a directory named after the project
    below the path that the session gives, and succeeds exactly when the clone
    does.  It never looks at the target first nor removes anything: the strategy
    it is started with, to leave a target alone that exists, has no effect. *)
Theorem clone_container_runs env cr c :
  c ∈ manifests_Containers (CodeRepoTemplates.cloneInit env cr) →
  ∃ repo, repo ∈ AmaltheaSessionSpec.CodeRepositories (AmaltheaSession.Spec cr) ∧
    wp (cloneCalls (Spec_Session cr) repo) (sidecar_clone (Container.Args c))
      (λ code g, code = 0%Z ↔ g = Some None) None.
Proof.
  intros [Hin|(repo & Hin & Hargs)]%cloneInit_args; [by apply elem_of_nil in Hin|]. exists repo. split; [done|].
  rewrite Hargs. change (sidecar_clone (argsOf (Spec_Session cr) repo)) with
    (match Command_parse (drop 2 (argsOf (Spec_Session cr) repo)) with
     | inr _ => mret 1%Z
     | inl v => r ← clone v; mret match r with inl _ => 0%Z | inr code => code end
     end). rewrite argsOf_parse.
  eapply wp_bind_intro with (P := λ r g, match r with inl _ => g = Some None | inr code => code = 1%Z ∧ g ≠ Some None end).
  - unfold clone. cbn [Vars.remote Vars.path Vars.preCloningStrategy Vars.configPath Vars.revision].
    destruct (NewEndpoint _) as [endpointPath|] eqn:He; [|done].
    destruct (projectNameOf endpointPath) as [projectName|] eqn:Hp; [|done]. cbn [applyPreCloningStrategy].
    unfold bindX. eapply wp_bind_intro with (P := λ r g, r = inl tt ∧ g = None); [done|]. intros r g [-> ->].
    eapply wp_bind_intro; [apply loadAuth_wp|]. intros [auth|code] g [-> Ha]; [|by subst].
    assert (clonePathIn (pathOf (Spec_Session cr) repo) projectName = pathOf (Spec_Session cr) repo +:+ "/" +:+ projectName) as ->.
    { unfold clonePathIn, pathOf. by destruct (Storage.MountPath _). }
    split; [|by intros [err|] _].
    cbn. split_and!; try done. by exists endpointPath, projectName.
  - intros [[]|code] g; cbn; [by intros ->|]. intros [-> Hg]. split; [done|]. by intros ->.
Qed.
End Containers.
