(* ===== verification/SidecarCommands.v ===== *)
(** * The commands of the side car binary (cmd/sidecars/main.go)

    One binary holds the side cars as a tree of commands; a container picks one
    by its arguments.  How the command line library finds a command is the class
    [Cobra].  Every container that the operator generates for the binary names a
    command that exists, with flags that it takes. *)

From S2P Require Import Prelude Prog NetUrl K8s Types Names Config Templates Children AuthProxy CloneCommand CloneCommandTheorems.
From Stdlib Require Import Ascii.

(** What a command runs. *)
Inductive Runner := RunVersion | RunAuthProxy | RunClone | RunShellClone | RunRemoteSession | RunTunnel | RunGitProxy.

(** [cobra.Command] *)
Inductive Command := mkCommand (Use : string) (Aliases : list string) (Run : option Runner) (sub : list Command).

Definition aliases (c : Command) : list string := let '(mkCommand _ l _ _) := c in l.
Definition runner (c : Command) : option Runner := let '(mkCommand _ _ r _) := c in r.
Definition subcommands (c : Command) : list Command := let '(mkCommand _ _ _ l) := c in l.

(** The name of a command is the first word of its usage line. *)
Definition CommandName (c : Command) : string := let '(mkCommand use _ _ _) := c in (Strings.Cut use " ").1.1.
Definition named (c : Command) (arg : string) : bool := (CommandName c =s arg) || existsb (λ a, a =s arg) (aliases c).

Definition group (use : string) (aliases : list string) (sub : list Command) : Command := mkCommand use aliases None sub.
Definition leaf (use : string) (r : Runner) : Command := mkCommand use [] (Some r) [].

(** The commands of the packages: [authproxy.Command], [cloner.Command], ... *)
Definition authCmd : Command := leaf "serve" RunAuthProxy.
Definition clonerRoot : Command := group "cloner clone" [] [leaf "clone" RunClone; leaf "shellclone" RunShellClone].
Definition remoteSessionControllerCmd : Command := leaf "run" RunRemoteSession.
Definition tunnelCmd : Command := leaf "listen" RunTunnel.
Definition gitProxyCmd : Command := leaf "proxy" RunGitProxy.

Definition buildCommands : Command :=
  group "" []
    [leaf "version" RunVersion;
     group "proxy serve" [] [authCmd];
     clonerRoot;
     group "remote-session-controller" ["rsc"] [remoteSessionControllerCmd];
     group "tunnel listen" [] [tunnelCmd];
     group "gitproxy proxy" [] [gitProxyCmd]].

(** The command line library: an argument that names exactly one subcommand
    selects it, and a command without subcommands is run with what is left. *)
Class Cobra := {
  Find : Command → list string → option (Runner * list string);
  Find_sub : ∀ c l1 sub l2 arg args, subcommands c = l1 ++ sub :: l2 → named sub arg = true →
    existsb (λ other, named other arg) (l1 ++ l2) = false → Find c (arg :: args) = Find sub args;
  Find_leaf : ∀ c r args, subcommands c = [] → runner c = Some r → Find c args = Some (r, args) }.

(** Flags given as [--name value] or, for switches, [--name]. *)
Fixpoint knownFlags (withValue switches : list string) (args : list string) : bool :=
  match args with
  | [] => true
  | arg :: args =>
      match Strings.CutPrefix arg "--" with
      | (name, true) =>
          if existsb (λ s, s =s name) switches then knownFlags withValue switches args
          else existsb (λ s, s =s name) withValue &&
               match args with _ :: args => knownFlags withValue switches args | [] => false end
      | (_, false) => false
      end
  end.

(** The flags of [authproxy.Command]. *)
Definition authproxyFlags : list string * list string :=
  (["remote"; "strip_path_prefix"; "port"; "meta_port"; "cookie_key"; "token"; "config"], ["verbose"]).

(** The arguments that the command takes. *)
Definition accepts (r : Runner) (args : list string) : Prop :=
  match r with
  | RunClone => ∃ v, Command_parse args = inl v
  | RunAuthProxy => knownFlags authproxyFlags.1 authproxyFlags.2 args = true
  | _ => args = []
  end.

Section Dispatch.
Context `{Cobra}.

(** A container of the binary runs a command. *)
Definition runsCommand (r : Runner) (c : Container.t) : Prop :=
  ∃ args, Find buildCommands (Container.Args c) = Some (r, args) ∧ accepts r args.

Lemma find_two l1 use al l2 m1 sub m2 first second r args :
  subcommands buildCommands = l1 ++ group use al (m1 ++ leaf sub r :: m2) :: l2 →
  named (group use al (m1 ++ leaf sub r :: m2)) first = true → existsb (λ other, named other first) (l1 ++ l2) = false →
  named (leaf sub r) second = true → existsb (λ other, named other second) (m1 ++ m2) = false →
  Find buildCommands (first :: second :: args) = Some (r, args).
Proof.
  intros Hs Hn Ho Hn2 Ho2. rewrite (Find_sub _ _ _ _ _ _ Hs Hn Ho).
  rewrite (Find_sub (group use al (m1 ++ leaf sub r :: m2)) m1 (leaf sub r) m2 second args eq_refl Hn2 Ho2). by apply Find_leaf.
Qed.

#[local] Notation proxyRoot := (group "proxy serve" [] [authCmd]).
#[local] Notation remoteRoot := (group "remote-session-controller" ["rsc"] [remoteSessionControllerCmd]).
#[local] Notation tunnelRoot := (group "tunnel listen" [] [tunnelCmd]).
#[local] Notation gitProxyRoot := (group "gitproxy proxy" [] [gitProxyCmd]).
#[local] Notation versionCmd := (leaf "version" RunVersion).

Lemma find_authproxy args : Find buildCommands ("proxy" :: "serve" :: args) = Some (RunAuthProxy, args).
Proof. by apply (find_two [versionCmd] "proxy serve" [] [clonerRoot; remoteRoot; tunnelRoot; gitProxyRoot] [] "serve" []). Qed.

Lemma find_clone args : Find buildCommands ("cloner" :: "clone" :: args) = Some (RunClone, args).
Proof.
  by apply (find_two [versionCmd; proxyRoot] "cloner clone" [] [remoteRoot; tunnelRoot; gitProxyRoot] [] "clone"
    [leaf "shellclone" RunShellClone]).
Qed.

Lemma find_remote args : Find buildCommands ("remote-session-controller" :: "run" :: args) = Some (RunRemoteSession, args).
Proof.
  by apply (find_two [versionCmd; proxyRoot; clonerRoot] "remote-session-controller" ["rsc"] [tunnelRoot; gitProxyRoot] [] "run" []).
Qed.

Lemma find_tunnel args : Find buildCommands ("tunnel" :: "listen" :: args) = Some (RunTunnel, args).
Proof.
  by apply (find_two [versionCmd; proxyRoot; clonerRoot; remoteRoot] "tunnel listen" [] [gitProxyRoot] [] "listen" []).
Qed.

Section Pod.
Context (env : Env) `{QuantityOps} `{ControllerUtil}.

Lemma authproxy_runs_command cr listenPort metaListenPort remotePort :
  runsCommand RunAuthProxy (AuthTemplates.get_rewrite_authn_proxy env cr listenPort metaListenPort remotePort).
Proof. eexists. by split; [apply find_authproxy|]. Qed.

(** The containers of the authentication: the proxy runs, the other one has its
    own image. *)
Lemma auth_runs_command cr m c : AuthTemplates.auth env cr = inl m → c ∈ manifests_Containers m →
  Container.Image c = AuthTemplates.authproxyImage ∨ runsCommand RunAuthProxy c.
Proof.
  unfold AuthTemplates.auth. repeat case_match; intros Hm; simplify_eq; cbn [manifests_Containers]; try set_solver.
  - unfold AuthTemplates.auth_OauthProxy. cbn. intros [->|[->|?%elem_of_nil]%elem_of_cons]%elem_of_cons; [by left| |done].
    right. apply authproxy_runs_command.
  - unfold AuthTemplates.auth_Token. cbn. intros ->%list_elem_of_singleton. right. eexists.
    by split; [apply find_authproxy|].
  - unfold AuthTemplates.auth_Oidc. cbn. intros [->|[->|?%elem_of_nil]%elem_of_cons]%elem_of_cons; [by left| |done].
    right. apply authproxy_runs_command.
Qed.

Lemma clone_runs_command cr c : c ∈ manifests_Containers (CodeRepoTemplates.cloneInit env cr) → runsCommand RunClone c.
Proof.
  intros [Hc|(repo & _ & Hargs)]%cloneInit_args; [by apply elem_of_nil in Hc|]. eexists. rewrite Hargs.
  split; [apply find_clone|]. eexists. apply (argsOf_parse (Spec_Session cr) repo).
Qed.

(** C38: Every container of a session's pod that is not the user's runs: it is
    the authentication proxy with an image of its own, or its arguments name a
    command of the side car binary and flags that this command takes. *)
Theorem pod_commands_exist cr cfg pod c :
  Pod env cr cfg = Done (inl pod) → c ∈ PodSpec.Containers pod ++ PodSpec.InitContainers pod →
  c ∉ AmaltheaSessionSpec.ExtraContainers (AmaltheaSession.Spec cr) →
  c ∉ AmaltheaSessionSpec.ExtraInitContainers (AmaltheaSession.Spec cr) →
  (∃ volumeMounts, c = sessionContainerLocal cr volumeMounts cfg ∧
     AmaltheaSessionSpec.SessionLocation_ (AmaltheaSession.Spec cr) ≠ Remote) ∨
  Container.Image c = AuthTemplates.authproxyImage ∨
  ∃ r, r ∈ [RunAuthProxy; RunClone; RunRemoteSession; RunTunnel] ∧ runsCommand r c.
Proof.
  unfold Pod. rewrite Outcome_bind_Done. intros ([[pvcs dsv] dsm] & _ & Hpod). destruct (SessionVolumes cr) as [sv sm].
  assert (Hauth : ∀ a, (if AmaltheaSessionSpec.SessionType_ (AmaltheaSession.Spec cr) ≠s SessionTypeNonInteractive
                        then AuthTemplates.auth env cr else inl (mkManifests [] [])) = inl a → c ∈ manifests_Containers a →
     Container.Image c = AuthTemplates.authproxyImage ∨ runsCommand RunAuthProxy c).
  { intros a. case_if; [apply auth_runs_command|]. intros [= <-]. by intros ?%elem_of_nil. }
  destruct (if AmaltheaSessionSpec.SessionType_ _ ≠s _ then _ else _) as [a|err]; [|by inversion Hpod].
  specialize (Hauth a eq_refl). inversion Hpod; subst; clear Hpod. cbn [PodSpec.Containers PodSpec.InitContainers].
  rewrite elem_of_app, elem_of_cons, !elem_of_app. intros [[Hc|[Hc|[Hc|Hc]]]|[Hc|Hc]] Hx Hi; try done.
  - subst c. unfold sessionContainer. case_if; [|left; eexists; split; [done|by apply String.eqb_neq]].
    right; right. exists RunRemoteSession. split; [set_solver|]. eexists. by split; [apply find_remote|].
  - right. destruct (Hauth Hc) as [|Hr]; [by left|]. right. exists RunAuthProxy. split; [set_solver|done].
  - right; right. exists RunTunnel. split; [set_solver|]. revert Hc. case_if; [|by intros ?%elem_of_nil].
    intros ->%list_elem_of_singleton. eexists. by split; [apply find_tunnel|].
  - right; right. exists RunClone. split; [set_solver|]. by apply clone_runs_command with (cr := cr).
Qed.
End Pod.
End Dispatch.
