(* ===== verification/RemoteAuth.v ===== *)
(** * Authentication of the remote session controller (internal/remote/auth, firecrest/auth, runai/auth)

    Three implementations of [RemoteAuth]: client credentials for FirecREST and
    for Run:AI, and the exchange of Renku tokens for FirecREST.  Their shared
    fields are read and written by the events of [AuthEv], as are their locks,
    the clock and HTTP exchanges; a field that is never written is part of the
    configuration. *)

From S2P Require Import Prelude Prog NetUrl Json GitProxy RemoteConfig.
From Stdlib Require Import Ascii.

(** ** Calls *)

(** The lock of the access token, and that of the Renku tokens. *)
Inductive lock := AccessLock | RenkuLock.
#[export] Instance lock_eq_dec : EqDecision lock.
Proof. solve_decision. Defined.

Module TokenState.
Record t := mk { AccessToken : string; ExpiresAt : Time.t }.
Definition zero : t := mk "" Time.zero.
End TokenState.

(** A response: its body is read by the caller. *)
Module RawResponse.
Record t := mk { StatusCode : Z; Status : string; Body : string }.
End RawResponse.

Module AuthRequest.
Record t := mk { Method : string; Url : string; Authorization : string; ContentType : string; Body : string }.
End AuthRequest.

Inductive AuthEv : Type → Type :=
| Clock : AuthEv Time.t
| Lock (l : lock) : AuthEv unit
| Unlock (l : lock) : AuthEv unit
| RLock (l : lock) : AuthEv unit
| RUnlock (l : lock) : AuthEv unit
(** the access token or the Renku access token, with its expiry *)
| LoadToken (l : lock) : AuthEv TokenState.t
| StoreToken (l : lock) (s : TokenState.t) : AuthEv unit
| LoadRefresh : AuthEv string
| StoreRefresh (token : string) : AuthEv unit
| Send (req : AuthRequest.t) : AuthEv (Result RawResponse.t).

(** [l.Lock(); defer l.Unlock()] and the same for readers *)
Definition locking {A} (l : lock) (p : Prog AuthEv A) : Prog AuthEv A := _ ← trigger (Lock l); deferred (Unlock l) p.

Definition readLocked {A} (l : lock) (p : Prog AuthEv A) : Prog AuthEv A := _ ← trigger (RLock l); deferred (RUnlock l) p.

(** ** Token requests (oauth2.go, runai/auth/client_credentials.go) *)

Module tokenResult.
Record t := mk { AccessToken : string; ExpiresAt : Time.t; RefreshToken : string }.
End tokenResult.

Module tokenResponse.
Record t := mk { AccessToken : string; ExpiresIn : Z; RefreshToken : string }.
Definition zero : t := mk "" 0 "".
Definition decode : Decoder t := decodeStruct (λ name,
  if name =s "access_token" then Some (field AccessToken (λ r x, mk x (ExpiresIn r) (RefreshToken r)) decodeString)
  else if name =s "expires_in" then Some (field ExpiresIn (λ r x, mk (AccessToken r) x (RefreshToken r)) decodeInt)
  else if name =s "refresh_token" then Some (field RefreshToken (λ r x, mk (AccessToken r) (ExpiresIn r) x) decodeString)
  else None).
(** Run:AI uses other names and has no refresh token. *)
Definition decodeRunai : Decoder t := decodeStruct (λ name,
  if name =s "accesstoken" then Some (field AccessToken (λ r x, mk x (ExpiresIn r) (RefreshToken r)) decodeString)
  else if name =s "expiresin" then Some (field ExpiresIn (λ r x, mk (AccessToken r) x (RefreshToken r)) decodeInt)
  else None).
End tokenResponse.

(** [url.QueryEscape] *)
Fixpoint queryEscape (s : string) : string :=
  match s with
  | EmptyString => ""
  | String c s' =>
      if Bytes.isAlnum c || Bytes.mem c "-_.~" then String c (queryEscape s')
      else if Ascii.eqb c " " then String "+" (queryEscape s')
      else String "%" (String (Bytes.upperhex (Bytes.code c / 16)) (String (Bytes.upperhex (Bytes.code c mod 16)) (queryEscape s')))
  end.

(** [url.Values.Encode] of pairs sorted by key *)
Definition encodeForm (l : list (string * string)) : string :=
  Strings.Join (map (λ '(k, v), queryEscape k +:+ "=" +:+ queryEscape v) l) "&".

(** Durations and their product with seconds wrap around. *)
Definition expiresIn (now : Time.t) (seconds : Z) : Time.t := Time.Add now (Int.wrap64 (Duration.Second * seconds)).

(** [getJWTExpiresAt]: [claims.ExpiresAt] is a pointer. *)
Definition getJWTExpiresAt `{Token.JwtLib} (token : string) : Outcome (Result Time.t) :=
  match Token.ParseUnverified token with
  | inr err => Done (inr err)
  | inl claims => match deref claims with Done t => Done (inl t) | Panicked why => Panicked why end
  end.

Definition isSuccess (code : Z) : bool := negb ((code <? 200)%Z || (300 <=? code)%Z).

(** The end of both FirecREST exchanges: the expiry is that of the token, or
    what the response says when the token is not a JWT. *)
Definition tokenFromResponse `{Token.JwtLib} (res : Result RawResponse.t) : Prog AuthEv (Result tokenResult.t) :=
  match res with
  | inr err => mret (inr err)
  | inl res =>
      if negb (isSuccess (RawResponse.StatusCode res))
      then mret (inr (Errorf ("token request failed: " +:+ RawResponse.Status res)))
      else match Unmarshal tokenResponse.decode tokenResponse.zero (RawResponse.Body res) with
           | inr err => mret (inr err)
           | inl body =>
               expiry ← lift (getJWTExpiresAt (tokenResponse.AccessToken body));
               expiresAt ← match expiry with
                           | inl t => mret t
                           | inr _ => now ← trigger Clock; mret (expiresIn now (tokenResponse.ExpiresIn body))
                           end;
               mret (inl (tokenResult.mk (tokenResponse.AccessToken body) expiresAt (tokenResponse.RefreshToken body)))
           end
  end.

Definition formRequest (url : string) (form : list (string * string)) : AuthRequest.t :=
  AuthRequest.mk "POST" url "" "application/x-www-form-urlencoded" (encodeForm form).

(** [requestNewAccessToken] of FirecREST *)
Definition requestNewAccessToken `{Token.JwtLib} (tokenURI grantType clientID clientSecret refreshToken : string)
    : Prog AuthEv (Result tokenResult.t) :=
  if isURL tokenURI then
    res ← trigger (Send (formRequest tokenURI
            ([("client_id", clientID); ("client_secret", clientSecret); ("grant_type", grantType)] ++
             (if refreshToken ≠s "" then [("refresh_token", refreshToken)] else []))));
    tokenFromResponse res
  else mret (inr (Errorf "parse error")).

(** [requestNewAccessToken] of Run:AI *)
Definition runaiTokenBody (grantType clientID clientSecret : string) : string :=
  print (JObj [("grantType", JStr grantType); ("clientId", JStr clientID); ("clientSecret", JStr clientSecret)]).

Definition requestNewRunaiToken (tokenURI grantType clientID clientSecret : string) : Prog AuthEv (Result tokenResult.t) :=
  if isURL tokenURI then
    res ← trigger (Send (AuthRequest.mk "POST" tokenURI "" "application/json" (runaiTokenBody grantType clientID clientSecret)));
    match res with
    | inr err => mret (inr err)
    | inl res =>
        if negb (RawResponse.StatusCode res =? 200)%Z
        then mret (inr (Errorf ("token request failed: " +:+ RawResponse.Status res)))
        else match DecodeFirst tokenResponse.decodeRunai tokenResponse.zero (RawResponse.Body res) with
             | inr err => mret (inr err)
             | inl body =>
                 now ← trigger Clock;
                 mret (inl (tokenResult.mk (tokenResponse.AccessToken body) (expiresIn now (tokenResponse.ExpiresIn body)) ""))
             end
    end
  else mret (inr (Errorf "parse error")).

(** ** Reading a token *)

Definition margin : Duration.t := (10 * Duration.Second)%Z.

(** [token != "" && utils.IsNotExpired(expiresAt, 10*time.Second, false)] *)
Definition isUsable (s : TokenState.t) : Prog AuthEv bool :=
  if TokenState.AccessToken s =s "" then mret false
  else now ← trigger Clock; mret (Token.IsNotExpired now (TokenState.ExpiresAt s) margin false).

(** [a.l.RLock(); ...; a.l.RUnlock()] around a read of both fields *)
Definition loadToken (l : lock) : Prog AuthEv TokenState.t :=
  _ ← trigger (RLock l); s ← trigger (LoadToken l); _ ← trigger (RUnlock l); mret s.

(** The getters of FirecREST: on an error the old token is returned with it. *)
Definition getToken (l : lock) (refresh : Prog AuthEv (option GoError)) : Prog AuthEv (Result string) :=
  s ← loadToken l;
  usable ← isUsable s;
  if (usable : bool) then mret (inl (TokenState.AccessToken s))
  else
    err ← refresh;
    match err with
    | Some err => mret (inr err)
    | None => readLocked l (s ← trigger (LoadToken l); mret (inl (TokenState.AccessToken s)))
    end.

Definition storeResult (l : lock) (r : Result tokenResult.t) : Prog AuthEv (option GoError) :=
  match r with
  | inr err => mret (Some err)
  | inl r => _ ← trigger (StoreToken l (TokenState.mk (tokenResult.AccessToken r) (tokenResult.ExpiresAt r))); mret None
  end.

(** ** The interface (auth/shared/remote_auth.go) *)

Class RemoteAuth (A : Type) := { GetAccessToken : A → Prog AuthEv (Result string) }.

(** [RequestEditorInjectAccessToken] on the Authorization header of a request *)
Definition RequestEditorInjectAccessToken {A} `{RemoteAuth A} (a : A) (authorization : string)
    : Prog AuthEv (Result string) :=
  if authorization ≠s "" then mret (inl authorization)
  else
    token ← GetAccessToken a;
    mret match token with inr err => inr err | inl token => inl ("Bearer " +:+ token) end.

(** ** Client credentials for FirecREST *)

Module FirecrestClientCredentialsAuth.
Record t := mk { tokenURI : string; clientID : string; clientSecret : string }.

Definition new (tokenURI clientID clientSecret : string) : Result t :=
  if tokenURI =s "" then inr (Errorf "tokenURI is not set")
  else if clientID =s "" then inr (Errorf "clientID is not set")
  else if clientSecret =s "" then inr (Errorf "clientSecret is not set")
  else inl (mk tokenURI clientID clientSecret).

Definition refreshAccessToken `{Token.JwtLib} (a : t) : Prog AuthEv (option GoError) :=
  locking AccessLock
    (result ← requestNewAccessToken (tokenURI a) "client_credentials" (clientID a) (clientSecret a) "";
     storeResult AccessLock result).
End FirecrestClientCredentialsAuth.

#[export] Instance firecrestClientCredentials `{Token.JwtLib} : RemoteAuth FirecrestClientCredentialsAuth.t := {|
  GetAccessToken a := getToken AccessLock (FirecrestClientCredentialsAuth.refreshAccessToken a) |}.

(** ** Client credentials for Run:AI *)

Module RunaiClientCredentialsAuth.
Record t := mk { tokenURI : string; clientID : string; clientSecret : string }.

Definition new (tokenURI clientID clientSecret : string) : Result t :=
  if tokenURI =s "" then inr (Errorf "tokenURI is not set")
  else if clientID =s "" then inr (Errorf "clientID is not set")
  else if clientSecret =s "" then inr (Errorf "clientSecret is not set")
  else inl (mk tokenURI clientID clientSecret).

(** The token is looked at again under the lock. *)
Definition refreshAccessToken (a : t) : Prog AuthEv (Result string) :=
  locking AccessLock
    (s ← trigger (LoadToken AccessLock);
     usable ← isUsable s;
     if (usable : bool) then mret (inl (TokenState.AccessToken s))
     else
       result ← requestNewRunaiToken (tokenURI a) "client_credentials" (clientID a) (clientSecret a);
       match result with
       | inr err => mret (inr err)
       | inl r =>
           _ ← trigger (StoreToken AccessLock (TokenState.mk (tokenResult.AccessToken r) (tokenResult.ExpiresAt r)));
           mret (inl (tokenResult.AccessToken r))
       end).
End RunaiClientCredentialsAuth.

#[export] Instance runaiClientCredentials : RemoteAuth RunaiClientCredentialsAuth.t := {|
  GetAccessToken a :=
    s ← loadToken AccessLock;
    usable ← isUsable s;
    if (usable : bool) then mret (inl (TokenState.AccessToken s))
    else RunaiClientCredentialsAuth.refreshAccessToken a |}.

(** ** Renku tokens for FirecREST *)

Module RenkuAuth.
Record t := mk {
  firecrestTokenURI : string;
  renkuAuthenticationVersion : string;
  renkuTokenURI : string;
  renkuClientID : string;
  renkuClientSecret : string;
  (** the initial tokens *)
  renkuAccessToken : string;
  renkuAccessTokenExpiresAt : Time.t;
  renkuRefreshToken : string }.

(** The expiry of the first token is read in version 2; without one the pointer
    is nil. *)
Definition initialExpiry `{Token.JwtLib} (version token : string) : Outcome Time.t :=
  if version =s "v2" then
    match Token.ParseUnverified token with
    | inl claims => deref claims
    | inr _ => Done Time.zero
    end
  else Done Time.zero.

Definition new `{Token.JwtLib} (firecrestTokenURI version accessToken refreshToken tokenURI clientID clientSecret : string)
    : Outcome (Result t) :=
  if firecrestTokenURI =s "" then Done (inr (Errorf "firecrestTokenURI is not set"))
  else if refreshToken =s "" then Done (inr (Errorf "renkuRefreshToken is not set"))
  else if tokenURI =s "" then Done (inr (Errorf "renkuTokenURI is not set"))
  else if (version ≠s "v2") && (clientID =s "") then Done (inr (Errorf "renkuClientID is not set"))
  else if (version ≠s "v2") && (clientSecret =s "") then Done (inr (Errorf "renkuClientSecret is not set"))
  else expiry ← initialExpiry version accessToken;
       mret (inl (mk firecrestTokenURI version tokenURI clientID clientSecret accessToken expiry refreshToken)).

(** The answer to a refresh in version 2. *)
Definition decodeRefresh : Decoder (string * string) := decodeStruct (λ name,
  if name =s "access_token" then Some (field fst (λ r x, (x, r.2)) decodeString)
  else if name =s "refresh_token" then Some (field snd (λ r x, (r.1, x)) decodeString)
  else None).

(** The header of the request is set before the error of its creation is looked
    at; the tokens are stored before the expiry is known. *)
Definition refreshRenkuAccessTokenV2 `{Token.JwtLib} (a : t) : Prog AuthEv (option GoError) :=
  locking RenkuLock
    match url_Parse (renkuTokenURI a) with
    | None => mret (Some (Errorf "parse error"))
    | Some renkuTokenURL =>
        refreshToken ← trigger LoadRefresh;
        if negb (isURL (URL_String renkuTokenURL)) then Panic "nil pointer dereference"
        else
          res ← trigger (Send (formRequest (URL_String renkuTokenURL)
                                 [("grant_type", "refresh_token"); ("refresh_token", refreshToken)]));
          match res with
          | inr err => mret (Some err)
          | inl res =>
              if negb (RawResponse.StatusCode res =? 200)%Z
              then mret (Some (Errorf ("cannot refresh renku access token, failed with status code: " +:+
                                       pretty (RawResponse.StatusCode res))))
              else match DecodeFirst decodeRefresh ("", "") (RawResponse.Body res) with
                   | inr err => mret (Some err)
                   | inl (accessToken, newRefreshToken) =>
                       old ← trigger (LoadToken RenkuLock);
                       _ ← trigger (StoreToken RenkuLock (TokenState.mk accessToken (TokenState.ExpiresAt old)));
                       _ ← trigger (StoreRefresh newRefreshToken);
                       expiry ← lift (getJWTExpiresAt accessToken);
                       match expiry with
                       | inr err => mret (Some err)
                       | inl expiresAt =>
                           _ ← trigger (StoreToken RenkuLock (TokenState.mk accessToken expiresAt)); mret None
                       end
                   end
          end
    end.

Definition refreshRenkuAccessToken `{Token.JwtLib} (a : t) : Prog AuthEv (option GoError) :=
  if renkuAuthenticationVersion a =s "v2" then refreshRenkuAccessTokenV2 a
  else locking RenkuLock
         (refreshToken ← trigger LoadRefresh;
          result ← requestNewAccessToken (renkuTokenURI a) "refresh_token" (renkuClientID a) (renkuClientSecret a) refreshToken;
          storeResult RenkuLock result).

Definition getRenkuAccessToken `{Token.JwtLib} (a : t) : Prog AuthEv (Result string) := getToken RenkuLock (refreshRenkuAccessToken a).

Definition requestNewAccessTokenFromRenku `{Token.JwtLib} (tokenURI renkuAccessToken : string) : Prog AuthEv (Result tokenResult.t) :=
  if isURL tokenURI then
    res ← trigger (Send (AuthRequest.mk "GET" tokenURI ("Bearer " +:+ renkuAccessToken) "" ""));
    tokenFromResponse res
  else mret (inr (Errorf "parse error")).

Definition refreshAccessToken `{Token.JwtLib} (a : t) : Prog AuthEv (option GoError) :=
  renkuAccessToken ← getRenkuAccessToken a;
  match renkuAccessToken with
  | inr err => mret (Some err)
  | inl renkuAccessToken =>
      locking AccessLock
        (result ← requestNewAccessTokenFromRenku (firecrestTokenURI a) renkuAccessToken;
         storeResult AccessLock result)
  end.

(** One round of [periodicTokenRefresh]. *)
Definition periodicTokenRefresh_step `{Token.JwtLib} (a : t) : Prog AuthEv unit :=
  _ ← trigger (RLock RenkuLock);
  renkuRefreshToken ← trigger LoadRefresh;
  _ ← trigger (RUnlock RenkuLock);
  now ← trigger Clock;
  let refreshTokenIsValid :=
    match Token.VerifyJWTExpiresAt now renkuRefreshToken (4 * Duration.Minute)%Z false with
    | inl valid => valid
    | inr _ => false
    end in
  if negb refreshTokenIsValid then _ ← refreshRenkuAccessToken a; mret tt else mret tt.
End RenkuAuth.

#[export] Instance renkuAuth `{Token.JwtLib} : RemoteAuth RenkuAuth.t := {|
  GetAccessToken a := getToken AccessLock (RenkuAuth.refreshAccessToken a) |}.

(** ** Construction (firecrest/auth/auth.go, runai/auth/auth.go) *)

Inductive FirecrestAuth := Renku (a : RenkuAuth.t) | FirecrestClient (a : FirecrestClientCredentialsAuth.t).

#[export] Instance firecrestAuth `{Token.JwtLib} : RemoteAuth FirecrestAuth := {|
  GetAccessToken a := match a with Renku a => GetAccessToken a | FirecrestClient a => GetAccessToken a end |}.


Definition NewFirecrestAuth `{Token.JwtLib} (cfg : FirecrestAuthConfig.t) : Outcome (Result FirecrestAuth) :=
  let renku version := fmapResult Renku <$>
    RenkuAuth.new (FirecrestAuthConfig.TokenURI cfg) version (FirecrestAuthConfig.RenkuAccessToken cfg)
      (FirecrestAuthConfig.RenkuRefreshToken cfg) (FirecrestAuthConfig.RenkuTokenURI cfg)
      (FirecrestAuthConfig.RenkuClientID cfg) (FirecrestAuthConfig.RenkuClientSecret cfg) in
  if FirecrestAuthConfig.Kind cfg =s FirecrestAuthConfigKindRenku then renku ""
  else if FirecrestAuthConfig.Kind cfg =s FirecrestAuthConfigKindRenkuV2 then renku "v2"
  else if FirecrestAuthConfig.Kind cfg =s FirecrestAuthConfigKindClientCredentials then
    Done (fmapResult FirecrestClient (FirecrestClientCredentialsAuth.new (FirecrestAuthConfig.TokenURI cfg)
            (FirecrestAuthConfig.FirecrestClientID cfg) (FirecrestAuthConfig.FirecrestClientSecret cfg)))
  else Done (inr (Errorf ("auth '" +:+ FirecrestAuthConfig.Kind cfg +:+ "' is not supported"))).

Definition NewRunaiAuth (cfg : RunaiAuthConfig.t) : Result RunaiClientCredentialsAuth.t :=
  if RunaiAuthConfig.Kind cfg =s RunaiAuthConfigKindClientCredentials then
    RunaiClientCredentialsAuth.new (RunaiAuthConfig.TokenURI cfg) (RunaiAuthConfig.RunaiClientID cfg)
      (RunaiAuthConfig.RunaiClientSecret cfg)
  else inr (Errorf ("auth '" +:+ RunaiAuthConfig.Kind cfg +:+ "' is not supported")).
