(* ===== verification/Firecrest.v ===== *)
(** * The FirecREST session controller (internal/remote/firecrest/controller.go)

    The controller starts a batch job that runs the session, watches it, copies
    its logs to the standard output of the side car, and cancels it.  Its calls
    are the events of [Fc]: the operations of the generated client (with the
    answers as that client decodes them), the local file system, and the order
    in which Go walks over a map.  The ticker fires [tick]; the environment of
    the process and the embedded script are arguments. *)

From S2P Require Import Prelude Prog NetUrl Names Config Json JsonProps FirecrestScript.
From Stdlib Require Import Ascii.

(** ** Answers of the API *)

Module ApiResponseError.
Record t := mk { Message : string }.
End ApiResponseError.

(** An answer of the client: the body decoded for the expected status, or the
    error decoded for a 4XX or 5XX status. *)
Module Response.
Record t (A : Type) := mk {
  StatusCode : Z;
  JSON : option A;
  JSON4XX : option ApiResponseError.t;
  JSON5XX : option ApiResponseError.t }.
Arguments mk {A}. Arguments StatusCode {A}. Arguments JSON {A}. Arguments JSON4XX {A}. Arguments JSON5XX {A}.
End Response.

Module HPCCluster.
Record t := mk { FileSystems : option (list FileSystem.t); Name : string }.
End HPCCluster.

Module JobDescription.
Record t := mk {
  Env : gmap string string;
  ScriptPath : string;
  WorkingDirectory : string;
  Account : option string }.
End JobDescription.

Module JobMetadata.
Record t := mk { StandardOutput : option string; StandardError : option string }.
End JobMetadata.

Module DirEntry.
Record t := mk { Name : string; IsDir : bool }.
End DirEntry.

(** ** Calls *)

Inductive Fc : Type → Type :=
| GetSystems : Fc (Result (Response.t (list HPCCluster.t)))
(** the name of the user *)
| GetUserinfo (system : string) : Fc (Result (Response.t string))
| PostUpload (system directory filename contents : string) : Fc (Result (Response.t unit))
| PostMkdir (system path : string) (parents : bool) : Fc (Result (Response.t unit))
| PutChmod (system path mode : string) : Fc (Result (Response.t unit))
(** the identifier of the job *)
| PostJobSubmit (system : string) (job : JobDescription.t) : Fc (Result (Response.t (option string)))
| GetJobMetadata (system jobId : string) : Fc (Result (Response.t (option (list JobMetadata.t))))
(** the states of the jobs *)
| GetJob (system jobId : string) : Fc (Result (Response.t (option (list string))))
| DeleteJobCancel (system jobId : string) : Fc (Result (Response.t unit))
(** the text of a part of a file *)
| GetView (system path : string) (offset size : Z) : Fc (Result (Response.t (option string)))
| CtxErr : Fc (option GoError)
| ReadDir (path : string) : Fc (Result (list DirEntry.t))
| ReadFile (path : string) : Fc (Result string)
(** the text that can be read from a file, if it can be opened *)
| OpenFile (path : string) : Fc (Result string)
| MkdirAll (path : string) : Fc (option GoError)
| WriteFile (path contents : string) : Fc (option GoError)
| Remove (path : string) : Fc (option GoError)
(** a line on the standard output *)
| Println (line : string) : Fc (option GoError)
(** the order in which a map with these keys is walked *)
| RangeOrder (keys : list string) : Fc (list string).

(** [if err != nil { return err }] with a result. *)
Definition bindE {A B} (p : Prog Fc (Result A)) (f : A → Prog Fc (Result B)) : Prog Fc (Result B) :=
  r ← p;
  match r with inl a => f a | inr err => mret (inr err) end.
Notation "x ←? p ; q" := (bindE p (λ x, q)) (at level 100, p at level 99, q at level 200, right associativity).

(** An error as a result. *)
Definition check (p : Prog Fc (option GoError)) : Prog Fc (Result unit) :=
  err ← p; mret match err with Some err => inr err | None => inl tt end.

(** ** The controller *)

Module Controller.
Record t := mk {
  systemName : string;
  partition : string;
  fakeStart : bool;
  jobID : string;
  currentStatus : RemoteSessionState;
  currentStatusError : option GoError;
  stdoutPath : string;
  stderrPath : string;
  stdoutOffset : Z;
  stderrOffset : Z;
  stdoutBuf : string;
  stderrBuf : string }.

(** A controller as it is created. *)
Definition new (systemName partition : string) (fakeStart : bool) : t :=
  mk systemName partition fakeStart "" NotReady None "" "" 0 0 "" "".

Definition with_jobID (c : t) (x : string) : t :=
  mk (systemName c) (partition c) (fakeStart c) x (currentStatus c) (currentStatusError c)
    (stdoutPath c) (stderrPath c) (stdoutOffset c) (stderrOffset c) (stdoutBuf c) (stderrBuf c).
Definition with_status (c : t) (state : RemoteSessionState) (err : option GoError) : t :=
  mk (systemName c) (partition c) (fakeStart c) (jobID c) state err
    (stdoutPath c) (stderrPath c) (stdoutOffset c) (stderrOffset c) (stdoutBuf c) (stderrBuf c).
Definition with_paths (c : t) (out err : string) : t :=
  mk (systemName c) (partition c) (fakeStart c) (jobID c) (currentStatus c) (currentStatusError c)
    out err (stdoutOffset c) (stderrOffset c) (stdoutBuf c) (stderrBuf c).
Definition with_offsets (c : t) (out err : Z) : t :=
  mk (systemName c) (partition c) (fakeStart c) (jobID c) (currentStatus c) (currentStatusError c)
    (stdoutPath c) (stderrPath c) out err (stdoutBuf c) (stderrBuf c).
Definition with_stdout (c : t) (offset : Z) (buf : string) : t :=
  mk (systemName c) (partition c) (fakeStart c) (jobID c) (currentStatus c) (currentStatusError c)
    (stdoutPath c) (stderrPath c) offset (stderrOffset c) buf (stderrBuf c).
Definition with_stderr (c : t) (offset : Z) (buf : string) : t :=
  mk (systemName c) (partition c) (fakeStart c) (jobID c) (currentStatus c) (currentStatusError c)
    (stdoutPath c) (stderrPath c) (stdoutOffset c) offset (stdoutBuf c) buf.
End Controller.

Definition getErrorMessage (json4XX json5XX : option ApiResponseError.t) : string :=
  match json4XX, json5XX with
  | Some e, _ => ApiResponseError.Message e
  | None, Some e => ApiResponseError.Message e
  | None, None => ""
  end.

(** The error of an answer without the expected body. *)
Definition apiError {A} (what : string) (res : Response.t A) : GoError :=
  let message := getErrorMessage (Response.JSON4XX res) (Response.JSON5XX res) in
  if message ≠s "" then Errorf (what +:+ ": " +:+ message)
  else Errorf (what +:+ ": HTTP " +:+ pretty (Response.StatusCode res)).

(** The body of an answer. *)
Definition expectJSON {A} (what : string) (res : Result (Response.t A)) : Result A :=
  match res with
  | inr err => inr err
  | inl res => match Response.JSON res with
               | Some a => inl a
               | None => inr (apiError what res)
               end
  end.

Module gitRepository.
Record t := mk { Branch : string; ConfigPath : string }.
End gitRepository.

(** ** The saved state *)

Module savedState.
Record t := mk { JobID : string; StdoutPath : string; StderrPath : string; StdoutOffset : Z; StderrOffset : Z }.
Definition zero : t := mk "" "" "" 0 0.

Definition marshal (s : t) : json := JObj
  (member_ "job_id" (JobID s) ++ omitempty "stdout_path" (StdoutPath s) ++ omitempty "stderr_path" (StderrPath s) ++
   omitempty "stdout_offset" (StdoutOffset s) ++ omitempty "stderr_offset" (StderrOffset s)).

Definition decode : Decoder t := decodeStruct (λ name,
  if name =s "job_id" then
    Some (field JobID (λ s x, mk x (StdoutPath s) (StderrPath s) (StdoutOffset s) (StderrOffset s)) decodeString)
  else if name =s "stdout_path" then
    Some (field StdoutPath (λ s x, mk (JobID s) x (StderrPath s) (StdoutOffset s) (StderrOffset s)) decodeString)
  else if name =s "stderr_path" then
    Some (field StderrPath (λ s x, mk (JobID s) (StdoutPath s) x (StdoutOffset s) (StderrOffset s)) decodeString)
  else if name =s "stdout_offset" then
    Some (field StdoutOffset (λ s x, mk (JobID s) (StdoutPath s) (StderrPath s) x (StderrOffset s)) decodeInt)
  else if name =s "stderr_offset" then
    Some (field StderrOffset (λ s x, mk (JobID s) (StdoutPath s) (StderrPath s) (StdoutOffset s) x) decodeInt)
  else None).
End savedState.

(** The side of the controller that does not depend on the environment. *)
Section Api.
Context (c : Controller.t).

#[local] Notation systemName := (Controller.systemName c).

Definition GetCurrentSystem : Prog Fc (Result HPCCluster.t) :=
  res ← trigger GetSystems;
  mret match expectJSON "could not get job" res with
       | inr err => inr err
       | inl systems =>
           match find (λ sys, HPCCluster.Name sys =s systemName) systems with
           | Some sys => inl sys
           | None => inr (Errorf ("system '" +:+ systemName +:+ "' not found"))
           end
       end.

Definition getUserInfo : Prog Fc (Result string) :=
  res ← trigger (GetUserinfo systemName);
  mret (expectJSON "could not get user info" res).

Definition uploadFile (directory filename contents : string) : Prog Fc (Result unit) :=
  res ← trigger (PostUpload systemName directory filename contents);
  mret match res with
       | inr err => inr err
       | inl res => if negb (Response.StatusCode res =? 204)%Z then inr (apiError "could not run uploadFile" res) else inl tt
       end.

Definition mkdir (srcPath : string) (createParents : bool) : Prog Fc (Result unit) :=
  res ← trigger (PostMkdir systemName srcPath createParents);
  mret (expectJSON "could not run mkdir" res).

Definition chmod (srcPath mode : string) : Prog Fc (Result unit) :=
  res ← trigger (PutChmod systemName srcPath mode);
  mret (expectJSON "could not run chmod" res).

Definition submitJob (job : JobDescription.t) : Prog Fc (Result string) :=
  res ← trigger (PostJobSubmit systemName job);
  mret match expectJSON "could not submit job" res with
       | inr err => inr err
       | inl None => inr (Errorf "invalid job submission response")
       | inl (Some jobId) => inl jobId
       end.

(** [getCurrentStatus] *)
Definition getCurrentStatus : Prog Fc (RemoteSessionState * option GoError) :=
  if Controller.jobID c =s "" then mret (NotReady, None)
  else
    res ← trigger (GetJob systemName (Controller.jobID c));
    mret match expectJSON "could not get job" res with
         | inr err => (Failed, Some err)
         | inl None => (Failed, Some (Errorf "invalid job status response"))
         | inl (Some []) => (Failed, Some (Errorf "empty job response"))
         | inl (Some (state :: _)) =>
             match GetRemoteSessionState state with
             | (_, Some err) => (Failed, Some err)
             | (state, None) => (state, None)
             end
         end.

(** [collectGitRepositories] *)
Fixpoint collectEntries (workDir : string) (entries : list DirEntry.t) (gitRepositories : gmap string gitRepository.t)
    : Prog Fc (Result (gmap string gitRepository.t)) :=
  match entries with
  | [] => mret (inl gitRepositories)
  | entry :: entries =>
      err ← trigger CtxErr;
      match err with
      | Some err => mret (inr err)
      | None =>
          if negb (DirEntry.IsDir entry) then collectEntries workDir entries gitRepositories
          else
            let gitConfigPath := Path.Join [Path.Join [workDir; DirEntry.Name entry]; ".git"; "config"] in
            gitConfigFile ← trigger (OpenFile gitConfigPath);
            match gitConfigFile with
            | inr _ => collectEntries workDir entries gitRepositories
            | inl contents =>
                collectEntries workDir entries
                  (<[DirEntry.Name entry := gitRepository.mk (scanBranch contents) gitConfigPath]> gitRepositories)
            end
      end
  end.

Definition collectGitRepositories (workDir : string) : Prog Fc (Result (gmap string gitRepository.t)) :=
  entries ←? trigger (ReadDir workDir);
  collectEntries workDir entries ∅.

(** The loop of [Start] over the repositories, in the order [keys]. *)
Fixpoint uploadGitConfigs (sessionPath : string) (gitRepositories : gmap string gitRepository.t) (keys : list string)
    : Prog Fc (Result unit) :=
  match keys with
  | [] => mret (inl tt)
  | repo :: keys =>
      let repoGitDirPath := Path.Join [sessionPath; "work"; repo; ".git"] in
      _ ←? mkdir repoGitDirPath true;
      gitConfigContents ←? trigger (ReadFile (default "" (gitRepository.ConfigPath <$> gitRepositories !! repo)));
      _ ←? uploadFile repoGitDirPath "config" gitConfigContents;
      uploadGitConfigs sessionPath gitRepositories keys
  end.

(** ** Logs *)

Definition streamsToFetch : list string :=
  "stdout" :: (if (Controller.stderrPath c ≠s "") && (Controller.stderrPath c ≠s Controller.stdoutPath c)
               then ["stderr"] else []).
End Api.

Definition logSize : Z := 524288.

Definition logLine (stream line : string) : string := "[session/" +:+ stream +:+ "] " +:+ line.

(** The loop that prints the finished lines of the buffer, with the offset and
    the buffer it leaves. *)
Fixpoint flushLines (stream : string) (lines : list string) (offset : Z) : Prog Fc (Z * string) :=
  match lines with
  | [] => mret (offset, "")
  | [rest] => mret (offset, rest)
  | line :: lines =>
      _ ← trigger (Println (logLine stream line));
      flushLines stream lines (Int.wrap64 (offset + Z.of_nat (String.length line) + 1))
  end.

(** What [fetchLogStream] does with the file, the offset and the buffer that
    its switch selects. *)
Definition fetchFrom (system stream filePath : string) (offset : Z) (buf : string) : Prog Fc (Z * string) :=
  let apiOffset := Int.wrap64 (offset + Z.of_nat (String.length buf)) in
  res ← trigger (GetView system filePath apiOffset logSize);
  match res with
  | inl (Response.mk _ (Some (Some content)) _ _) =>
      if content =s "" then mret (offset, buf) else flushLines stream (splitLines (buf +:+ content)) offset
  | _ => mret (offset, buf)
  end.

Definition fetchLogStream (c : Controller.t) (stream : string) : Prog Fc Controller.t :=
  if stream =s "stdout" then
    '(offset, buf) ← fetchFrom (Controller.systemName c) stream (Controller.stdoutPath c)
                       (Controller.stdoutOffset c) (Controller.stdoutBuf c);
    mret (Controller.with_stdout c offset buf)
  else if stream =s "stderr" then
    '(offset, buf) ← fetchFrom (Controller.systemName c) stream (Controller.stderrPath c)
                       (Controller.stderrOffset c) (Controller.stderrBuf c);
    mret (Controller.with_stderr c offset buf)
  else mret c.

Definition fetchSessionLogs (c : Controller.t) : Prog Fc Controller.t :=
  if (Controller.jobID c =s "") || (Controller.stdoutPath c =s "") then mret c
  else foldM fetchLogStream c (streamsToFetch c).

(** ** Environment of the job *)

(** [for _, environ := range os.Environ() { ... env[newKey] = val }]; no order
    is visible, since [rename] is injective on the keys it selects. *)
Definition copyEnv (rename : string → option string) (environ env : gmap string string) : gmap string string :=
  foldl (λ env '(key, val), match rename key with Some newKey => <[newKey := val]> env | None => env end)
    env (map_to_list environ).

Definition userEnvKey (key : string) : option string :=
  match Strings.CutPrefix key "USER_ENV_" with (newKey, true) => Some newKey | (_, false) => None end.
Definition prefixedKey (prefix key : string) : option string :=
  if Strings.HasPrefix key prefix then Some key else None.

Section Operations.
Context (env : Env) (sessionScript : string) `{DockerReference}.

#[local] Notation getenv := (Getenv env).

Definition renkuProjectPath : string :=
  let path := Strings.TrimSuffix (getenv "RENKU_PROJECT_PATH") "/" in
  if path =s "" then "dev-project" else path.

Definition renkuBaseURLPath : string :=
  let path := Strings.TrimSuffix (getenv "RENKU_BASE_URL_PATH") "/" in
  if path =s "" then "dev-session" else path.

Definition sessionPathIn (scratch : FileSystem.t) (userName : string) : string :=
  let scratchPathRenku := Path.Join [FileSystem.Path scratch; userName; "renku"] in
  Path.Join [scratchPathRenku; "sessions"; renkuProjectPath; Strings.TrimPrefix renkuBaseURLPath "/sessions"].

Definition secretsPathIn (sessionPath : string) : string := Path.Join [sessionPath; "secrets"].

(** The variables taken over from the environment of the side car. *)
Definition copiedEnv : gmap string string :=
  let jobEnv := copyEnv userEnvKey env ∅ in
  let jobEnv := copyEnv (prefixedKey "REMOTE_SESSION") env jobEnv in
  let jobEnv := match EnrootImageFormat (default "" (jobEnv !! "REMOTE_SESSION_IMAGE")) with
                | (enrootImage, None) => <["REMOTE_SESSION_IMAGE" := enrootImage]> jobEnv
                | (_, Some _) => jobEnv
                end in
  copyEnv (prefixedKey "RENKU") env jobEnv.

(** The variables of the tunnel. *)
Definition tunnelEnv (jobEnv : gmap string string) : Result (gmap string string) :=
  let renkuBaseURLStr := getenv "RENKU_BASE_URL" in
  if renkuBaseURLStr =s "" then inl jobEnv
  else match url_Parse renkuBaseURLStr with
       | None => inr (Errorf "parse error")
       | Some renkuBaseURL => inl
           (<["WSTUNNEL_PATH_PREFIX" := renkuBaseURLPath +:+ "/" +:+ TunnelIngressPathSuffix]>
           (<["WSTUNNEL_SERVICE_PORT" := "443"]>
           (<["WSTUNNEL_SERVICE_ADDRESS" := Hostname renkuBaseURL]> jobEnv)))
       end.

Definition tab : string := String "009"%char EmptyString.

(** The variables of the git repositories, listed in the order [keys]. *)
Definition gitEnv (gitRepositories : gmap string gitRepository.t) (keys : list string) (jobEnv : gmap string string)
    : gmap string string :=
  let repos := map (λ repo, repo +:+ tab +:+
                            default "" (gitRepository.Branch <$> gitRepositories !! repo)) keys in
  <["GIT_PROXY_HEALTH_PORT" := "65481"]>
  (<["GIT_PROXY_PORT" := "65480"]>
  (<["GIT_REPOSITORIES" := Strings.Join repos newline_]> jobEnv)).

(** ** Saving the state *)

Definition getSaveDirPath : string := Path.Join [getenv "RENKU_MOUNT_DIR"; ".rsc"].
Definition getSavePath : string := Path.Join [getSaveDirPath; "state.json"].

Definition stateOf (c : Controller.t) : savedState.t :=
  savedState.mk (Controller.jobID c) (Controller.stdoutPath c) (Controller.stderrPath c)
    (Controller.stdoutOffset c) (Controller.stderrOffset c).

Definition saveState (c : Controller.t) : Prog Fc (option GoError) :=
  if Controller.jobID c =s "" then mret (Some (Errorf "cannot save, job ID is not defined"))
  else
    err ← trigger (MkdirAll getSaveDirPath);
    match err with
    | Some err => mret (Some err)
    | None => trigger (WriteFile getSavePath (print (savedState.marshal (stateOf c))))
    end.

Definition deleteSavedState : Prog Fc (option GoError) := trigger (Remove getSavePath).

(** The controller after the state has been read. *)
Definition recovered (c : Controller.t) (state : savedState.t) : Controller.t :=
  let c := if savedState.JobID state ≠s "" then Controller.with_jobID c (savedState.JobID state) else c in
  let c := Controller.with_paths c (savedState.StdoutPath state) (savedState.StderrPath state) in
  Controller.with_offsets c (savedState.StdoutOffset state) (savedState.StderrOffset state).

Definition recoverState (c : Controller.t) : Prog Fc (Controller.t * option GoError) :=
  contents ← trigger (ReadFile getSavePath);
  mret match contents with
       | inr _ => (c, None)
       | inl contents =>
           match Unmarshal savedState.decode savedState.zero contents with
           | inr err => (c, Some err)
           | inl state => (recovered c state, None)
           end
       end.

(** ** Starting a session *)

(** The steps of [Start]: directories and secrets, repositories, environment of
    the job, script. *)
Definition uploadSecret (c : Controller.t) (secretsPath : string) : Prog Fc (Result unit) :=
  let wstunnel_secret := getenv "RSC_WSTUNNEL_SECRET" in
  if wstunnel_secret ≠s "" then uploadFile c secretsPath "wstunnel_secret" wstunnel_secret else mret (inl tt).

Definition setupDirectories (c : Controller.t) (sessionPath : string) : Prog Fc (Result unit) :=
  let secretsPath := secretsPathIn sessionPath in
  _ ←? mkdir c secretsPath true;
  _ ←? chmod c sessionPath "700";
  uploadSecret c secretsPath.

Definition setupGit (c : Controller.t) (sessionPath : string) : Prog Fc (Result (gmap string gitRepository.t)) :=
  gitRepositories ←? collectGitRepositories (getenv "RENKU_WORKING_DIR");
  keys ← trigger (RangeOrder (map_to_list gitRepositories).*1);
  _ ←? uploadGitConfigs c sessionPath gitRepositories keys;
  mret (inl gitRepositories).

Definition jobEnvironment (gitRepositories : gmap string gitRepository.t) : Prog Fc (Result (gmap string string)) :=
  jobEnv ←? mret (tunnelEnv copiedEnv);
  keys ← trigger (RangeOrder (map_to_list gitRepositories).*1);
  mret (inl (gitEnv gitRepositories keys jobEnv)).

Definition sessionScriptName : string := "session_script.sh".

Definition renderSessionScript (c : Controller.t) (system : HPCCluster.t) (secretsPath : string) : string :=
  renderSessionScriptStatic env sessionScript (Controller.partition c) (HPCCluster.FileSystems system) secretsPath.

Definition jobDescription (sessionPath : string) (jobEnv : gmap string string) : JobDescription.t :=
  let slurmAccount := getenv "USER_ENV_SLURM_ACCOUNT" in
  JobDescription.mk jobEnv (Path.Join [sessionPath; sessionScriptName]) sessionPath
    (if slurmAccount ≠s "" then Some slurmAccount else None).

Definition getSessionPath (c : Controller.t) : Prog Fc (Result (HPCCluster.t * string)) :=
  system ←? GetCurrentSystem c;
  userName ←? getUserInfo c;
  if userName =s "" then mret (inr (Errorf "could not get user name"))
  else match getPreferredScratch (HPCCluster.FileSystems system) with
       | None => mret (inr (Errorf ("could not find scratch file system on '" +:+ Controller.systemName c +:+ "'")))
       | Some scratch => mret (inl (system, sessionPathIn scratch userName))
       end.

(** From the first request to the submission of the job. *)
Definition startJob (c : Controller.t) : Prog Fc (Result (string * string)) :=
  target ←? getSessionPath c;
  let '(system, sessionPath) := target in
  _ ←? setupDirectories c sessionPath;
  gitRepositories ←? setupGit c sessionPath;
  jobEnv ←? jobEnvironment gitRepositories;
  _ ←? uploadFile c sessionPath sessionScriptName (renderSessionScript c system (secretsPathIn sessionPath));
  jobID ←? submitJob c (jobDescription sessionPath jobEnv);
  mret (inl (sessionPath, jobID)).

(** A path of the metadata, relative to the session directory. *)
Definition metadataPath (sessionPath : string) (p : option string) : option string :=
  match p with
  | Some p => if p ≠s "" then Some (if negb (Path.IsAbs p) then Path.Join [sessionPath; p] else p) else None
  | None => None
  end.

(** The log files: the metadata of the job, or the names Slurm uses. *)
Definition logPaths (sessionPath jobID : string)
    (metaRes : Result (Response.t (option (list JobMetadata.t)))) : string * string :=
  let stdoutPath := Path.Join [sessionPath; "slurm-" +:+ jobID +:+ ".out"] in
  let stderrPath := Path.Join [sessionPath; "slurm-" +:+ jobID +:+ ".err"] in
  match metaRes with
  | inl (Response.mk _ (Some (Some (meta :: _))) _ _) =>
      let stdoutPath := default stdoutPath (metadataPath sessionPath (JobMetadata.StandardOutput meta)) in
      (stdoutPath, default stdoutPath (metadataPath sessionPath (JobMetadata.StandardError meta)))
  | _ => (stdoutPath, stderrPath)
  end.

Definition afterSubmission (c : Controller.t) (sessionPath : string) : Prog Fc (Controller.t * option GoError) :=
  metaRes ← trigger (GetJobMetadata (Controller.systemName c) (Controller.jobID c));
  let '(stdoutPath, stderrPath) := logPaths sessionPath (Controller.jobID c) metaRes in
  let c := Controller.with_paths c stdoutPath stderrPath in
  err ← saveState c;
  mret (c, err).

Definition fakeJobID : string := "fake-job-id".

(** [Start], without the goroutine of the ticker. *)
Definition Start (c : Controller.t) : Prog Fc (Controller.t * option GoError) :=
  '(c, err) ← recoverState c;
  match err with
  | Some err => mret (c, Some err)
  | None =>
      if Controller.jobID c ≠s "" then mret (c, None)
      else if Controller.fakeStart c then mret (Controller.with_jobID c fakeJobID, None)
      else
        started ← startJob c;
        match started with
        | inr err => mret (c, Some err)
        | inl (sessionPath, jobID) => afterSubmission (Controller.with_jobID c jobID) sessionPath
        end
  end.

(** ** Stopping a session *)

Definition Stop (c : Controller.t) : Prog Fc (option GoError) :=
  if Controller.jobID c =s "" then mret None
  else
    _ ← deleteSavedState;
    res ← trigger (DeleteJobCancel (Controller.systemName c) (Controller.jobID c));
    mret match res with
         | inr err => Some err
         | inl res =>
             if (Response.StatusCode res <? 200)%Z || (300 <=? Response.StatusCode res)%Z
             then Some (apiError "could not cancel job" res) else None
         end.

(** ** The ticker *)

(** One round of [periodicSessionStatus]. *)
Definition tick (c : Controller.t) : Prog Fc Controller.t :=
  '(state, err) ← getCurrentStatus c;
  let c := Controller.with_status c state err in
  c ← fetchSessionLogs c;
  (if Controller.jobID c ≠s "" then _ ← saveState c; mret c else mret c).

(** [Status] *)
Definition Status (c : Controller.t) : RemoteSessionState * option GoError :=
  (Controller.currentStatus c, Controller.currentStatusError c).
End Operations.
