(* ===== verification/FirecrestProps.v ===== *)
(** * Lemmas on the FirecREST controller

    The round trip of the saved state, the semantics of the controller over a
    disk, and the weakest preconditions of its operations. *)

From S2P Require Import Prelude Prog NetUrl Names Config Json JsonProps FirecrestScript Firecrest.
From Stdlib Require Import Ascii.

(** ** The saved state is a saved type *)

Definition stateInRange (s : savedState.t) : Prop :=
  Int.in64 (savedState.StdoutOffset s) ∧ Int.in64 (savedState.StderrOffset s).

#[export, refine] Instance savedStateCodec : JsonCodec savedState.t := {|
  marshal := savedState.marshal; decode := savedState.decode; zeroValue := savedState.zero;
  representable := stateInRange |}.
Proof.
  - intros s [Ho He]. unfold savedState.marshal.
    repeat apply wellFormed_members; (apply wellFormed_member || apply wellFormed_omitempty); done.
  - intros [j o e oo eo] [Ho He]. unfold savedState.marshal, savedState.decode. cbn [savedState.JobID savedState.StdoutPath
      savedState.StderrPath savedState.StdoutOffset savedState.StderrOffset] in *.
    eapply decodeStruct_app; [eapply decodeStruct_member; reflexivity|].
    eapply decodeStruct_app; [eapply decodeStruct_omitempty; [reflexivity|reflexivity|by intros ->]|].
    eapply decodeStruct_app; [eapply decodeStruct_omitempty; [reflexivity|reflexivity|by intros ->]|].
    assert (Hint : ∀ z old, Int.in64 z → decodeInt (marshal z) old = (z, None)) by (intros; by apply decodeRange_int).
    eapply decodeStruct_app.
    + eapply decodeStruct_omitempty; [reflexivity|unfold field; rewrite Hint by done; reflexivity|by intros ->].
    + eapply decodeStruct_omitempty; [reflexivity|unfold field; rewrite Hint by done; reflexivity|by intros ->].
Defined.

(** ** The controller over a disk

    The file operations work on a map from paths to contents; the other calls
    are answered by an arbitrary handler [h]. *)

Definition Disk : Type := gmap string string.

Definition readDisk (d : Disk) (path : string) : Result string :=
  match d !! path with Some t => inl t | None => inr (mkError "no such file or directory" true) end.

Definition withDisk {W} (h : Handler Fc W) : Handler Fc (W * Disk) := λ R e,
  match e in Fc R return W * Disk → R * (W * Disk) with
  | ReadFile path => λ '(w, d), (readDisk d path, (w, d))
  | MkdirAll _ => λ '(w, d), (None, (w, d))
  | WriteFile path contents => λ '(w, d), (None, (w, <[path := contents]> d))
  | Remove path => λ '(w, d), (match d !! path with Some _ => None | None => Some (mkError "no such file or directory" true) end,
                               (w, delete path d))
  | e => λ '(w, d), let '(r, w) := h _ e w in (r, (w, d))
  end.

Lemma saveState_disk {W} (h : Handler Fc W) env c w d :
  Controller.jobID c ≠ "" →
  run (withDisk h) (saveState env c) (w, d) = (Done None, (w, <[getSavePath env := Marshal (stateOf c)]> d)).
Proof. intros Hj. unfold saveState. by rewrite (proj2 (String.eqb_neq _ _) Hj). Qed.

Lemma recoverState_disk {W} (h : Handler Fc W) env c state w d :
  d !! getSavePath env = Some (Marshal state) → stateInRange state →
  run (withDisk h) (recoverState env c) (w, d) = (Done (recovered c state, None), (w, d)).
Proof.
  intros Hd Hr. unfold recoverState. cbn. unfold readDisk. rewrite Hd.
  assert (Unmarshal savedState.decode savedState.zero (Marshal state) = inl state) as ->
    by exact (Unmarshal_Marshal state Hr). done.
Qed.

(** ** The environment of the job *)

Section CopyEnv.
Context (rename : string → option string) (Hinj : ∀ k1 k2 x, rename k1 = Some x → rename k2 = Some x → k1 = k2).

#[local] Notation copy := (foldl (λ env '(key, val), match rename key with Some newKey => <[newKey := val]> env | None => env end)).

Lemma copy_other (l : list (string * string)) (env : gmap string string) k :
  (∀ key val, (key, val) ∈ l → rename key ≠ Some k) → copy env l !! k = env !! k.
Proof.
  revert env. induction l as [|[key val] l IH]; intros env Hl; [done|]. cbn.
  rewrite IH by (intros; eapply Hl; by right).
  assert (rename key ≠ Some k) as Hk by (eapply Hl; by left).
  destruct (rename key) as [x|]; [|done]. rewrite lookup_insert_ne; [done|congruence].
Qed.

Lemma copy_found (l : list (string * string)) (env : gmap string string) key val k :
  NoDup l.*1 → (key, val) ∈ l → rename key = Some k → copy env l !! k = Some val.
Proof.
  revert env. induction l as [|[key' val'] l IH]; intros env Hnd Hin Hr; [by apply elem_of_nil in Hin|]. cbn in *.
  apply list.NoDup_cons in Hnd as [Hni Hnd]. apply elem_of_cons in Hin as [Heq|Hin]; [|by apply IH].
  injection Heq as <- <-. rewrite Hr, copy_other; [apply lookup_insert_eq|].
  intros key2 val2 Hin2 Hr2. rewrite (Hinj _ _ _ Hr2 Hr) in Hin2. apply Hni. by apply (list_elem_of_fmap_2 fst _ (key, val2)).
Qed.

(** The variable that [rename] takes to [k], if it is set, and else the old value. *)
Lemma copyEnv_lookup (environ env : gmap string string) key k :
  rename key = Some k → copyEnv rename environ env !! k = match environ !! key with Some v => Some v | None => env !! k end.
Proof.
  intros Hr. unfold copyEnv. destruct (environ !! key) as [v|] eqn:E.
  - eapply copy_found; [apply NoDup_fst_map_to_list|by apply elem_of_map_to_list|done].
  - apply copy_other. intros key' val Hin%elem_of_map_to_list Hr'. rewrite (Hinj _ _ _ Hr' Hr) in Hin. congruence.
Qed.

Lemma copyEnv_none (environ env : gmap string string) k :
  (∀ key, rename key ≠ Some k) → copyEnv rename environ env !! k = env !! k.
Proof. intros Hk. apply copy_other. auto. Qed.
End CopyEnv.

Lemma prefixedKey_inj prefix k1 k2 x : prefixedKey prefix k1 = Some x → prefixedKey prefix k2 = Some x → k1 = k2.
Proof. unfold prefixedKey. repeat case_if; congruence. Qed.

Lemma userEnvKey_spec key k : userEnvKey key = Some k ↔ key = "USER_ENV_" +:+ k.
Proof.
  unfold userEnvKey. split.
  - unfold Strings.CutPrefix. case_if; [|done]. intros [= <-]. apply Strings.HasPrefix_spec in E as (t & ->). reflexivity.
  - intros ->. by rewrite Strings.CutPrefix_app.
Qed.

Lemma userEnvKey_inj k1 k2 x : userEnvKey k1 = Some x → userEnvKey k2 = Some x → k1 = k2.
Proof. rewrite !userEnvKey_spec. congruence. Qed.

(** A copy of the variables with a prefix. *)
Lemma copy_prefixed prefix (environ env : gmap string string) k :
  copyEnv (prefixedKey prefix) environ env !! k =
  match (if Strings.HasPrefix k prefix then environ !! k else None) with Some v => Some v | None => env !! k end.
Proof.
  destruct (Strings.HasPrefix k prefix) eqn:E.
  - apply (copyEnv_lookup _ (prefixedKey_inj prefix)). unfold prefixedKey. by rewrite E.
  - apply copyEnv_none. intros key. unfold prefixedKey. case_if; congruence.
Qed.

Lemma copy_user (environ env : gmap string string) k :
  copyEnv userEnvKey environ env !! k =
  match environ !! ("USER_ENV_" +:+ k) with Some v => Some v | None => env !! k end.
Proof. apply (copyEnv_lookup _ userEnvKey_inj). by apply userEnvKey_spec. Qed.
