(* ===== verification/FirecrestLogs.v ===== *)
(** * The log of a remote session refines [Tail]

    A system of a controller that ticks, dies and restarts, a job that appends
    to its log files, and a disk with the saved state.  The API answers a view
    with a part of the file from the offset on, or with nothing; the standard
    output and the disk can be read back, writes to the disk may fail. *)

From S2P Require Import Prelude Prog NetUrl Names Config Json JsonProps FirecrestScript LogTail Firecrest FirecrestProps.
From Stdlib Require Import Ascii.

(** ** The cluster and the disk *)

Module World.
Record t := mk { files : gmap string string; out : list string; disk : Disk }.
Definition file (w : t) (path : string) : string := default "" (files w !! path).
Definition print (w : t) (line : string) : t := mk (files w) (out w ++ [line]) (disk w).
Definition with_disk (w : t) (d : Disk) : t := mk (files w) (out w) d.
(** The job appends to one of its files. *)
Definition append (w : t) (path text : string) : t := mk (<[path := file w path +:+ text]> (files w)) (out w) (disk w).
End World.

(** The text of an answer, as [fetchLogStream] takes it. *)
Definition viewContent (r : Result (Response.t (option string))) : option string :=
  match r with inl (Response.mk _ (Some (Some content)) _ _) => Some content | _ => None end.

Definition viewAnswer (w : World.t) (path : string) (offset size : Z) (r : Result (Response.t (option string))) : Prop :=
  ∀ content, viewContent r = Some content →
    ∃ n, (Z.of_nat n ≤ size)%Z ∧ content = Strings.take n (Strings.drop (Z.to_nat offset) (World.file w path)).

Definition cluster : Monitor Fc World.t := {|
  allowed := λ _ _ _, True;
  rely := λ R e, match e in Fc R return World.t → R → Prop with
                 | GetView _ path offset size => λ w r, viewAnswer w path offset size r
                 | ReadFile path => λ w r, r = readDisk (World.disk w) path
                 | Println _ => λ _ r, r = None
                 | _ => λ _ _, True
                 end;
  next := λ R e, match e in Fc R return R → World.t → World.t with
                 | Println line => λ _ w, World.print w line
                 | WriteFile path contents => λ r w,
                     match r with None => World.with_disk w (<[path := contents]> (World.disk w)) | Some _ => w end
                 | Remove path => λ r w,
                     match r with None => World.with_disk w (delete path (World.disk w)) | Some _ => w end
                 | _ => λ _ w, w
                 end;
  panic_ok := λ _, False |}.

(** ** The system *)

Section System.
Context (env : Env) (sessionScript : string) `{DockerReference} (system partition : string) (fakeStart : bool).

Definition restarted : Controller.t := Controller.new system partition fakeStart.

Inductive sysStep : option Controller.t * World.t → option Controller.t * World.t → Prop :=
| Grow c w path text :
    (Z.of_nat (String.length (World.file w path +:+ text)) ≤ Int.max64)%Z →
    sysStep (c, w) (c, World.append w path text)
| Tick c w c' w' :
    may cluster (tick env c) w c' w' → sysStep (Some c, w) (Some c', w')
(** the process dies between two rounds or during one *)
| Die c w w' :
    crashes cluster (tick env c) w w' → sysStep (Some c, w) (None, w')
| Reboot w c w' :
    may cluster (Start env sessionScript restarted) w (c, None) w' → sysStep (None, w) (Some c, w').

(** ** The two streams *)

Inductive stream := Out | Err.
#[export] Instance stream_eq_dec : EqDecision stream.
Proof. solve_decision. Defined.
Definition streamName (b : stream) : string := match b with Out => "stdout" | Err => "stderr" end.
Definition pathOf (b : stream) (c : Controller.t) : string :=
  match b with Out => Controller.stdoutPath c | Err => Controller.stderrPath c end.
Definition offsetOf (b : stream) (c : Controller.t) : Z :=
  match b with Out => Controller.stdoutOffset c | Err => Controller.stderrOffset c end.
Definition bufOf (b : stream) (c : Controller.t) : string :=
  match b with Out => Controller.stdoutBuf c | Err => Controller.stderrBuf c end.
Definition savedPath (b : stream) (s : savedState.t) : string :=
  match b with Out => savedState.StdoutPath s | Err => savedState.StderrPath s end.
Definition savedOffset (b : stream) (s : savedState.t) : Z :=
  match b with Out => savedState.StdoutOffset s | Err => savedState.StderrOffset s end.

(** The lines of a stream on the standard output. *)
Definition streamLine (b : stream) (line : string) : option string :=
  match Strings.CutPrefix line ("[session/" +:+ streamName b +:+ "] ") with (x, true) => Some x | (_, false) => None end.
Definition linesOf (b : stream) (w : World.t) : list string := omap (streamLine b) (World.out w).

Lemma linesOf_print_own b w line : linesOf b (World.print w (logLine (streamName b) line)) = linesOf b w ++ [line].
Proof.
  assert (logLine (streamName b) line = ("[session/" +:+ streamName b +:+ "] ") +:+ line) as ->.
  { unfold logLine. by rewrite !Strings.app_assoc. }
  unfold linesOf. cbn [World.print World.out]. rewrite list.omap_app. f_equal.
  cbn [omap list_omap]. unfold streamLine. by rewrite Strings.CutPrefix_app.
Qed.

Lemma linesOf_print_other b b' w line :
  b ≠ b' → linesOf b (World.print w (logLine (streamName b') line)) = linesOf b w.
Proof.
  intros Hb. unfold linesOf. cbn. rewrite list.omap_app. cbn. unfold streamLine, logLine.
  by destruct b, b'; rewrite ?app_nil_r.
Qed.

(** A controller after a fetch of a stream. *)
Definition with_stream (b : stream) (c : Controller.t) (offset : Z) (buf : string) : Controller.t :=
  match b with Out => Controller.with_stdout c offset buf | Err => Controller.with_stderr c offset buf end.

Section WithStream.
Context (b b' : stream) (c : Controller.t) (offset : Z) (buf : string).

Lemma with_stream_jobID : Controller.jobID (with_stream b c offset buf) = Controller.jobID c.
Proof. by destruct b. Qed.
Lemma with_stream_path : pathOf b' (with_stream b c offset buf) = pathOf b' c.
Proof. by destruct b, b'. Qed.
Lemma with_stream_offset : offsetOf b (with_stream b c offset buf) = offset.
Proof. by destruct b. Qed.
Lemma with_stream_buf : bufOf b (with_stream b c offset buf) = buf.
Proof. by destruct b. Qed.
Lemma with_stream_offset_other : b' ≠ b → offsetOf b' (with_stream b c offset buf) = offsetOf b' c.
Proof. by destruct b, b'. Qed.
Lemma with_stream_buf_other : b' ≠ b → bufOf b' (with_stream b c offset buf) = bufOf b' c.
Proof. by destruct b, b'. Qed.
Lemma stateInRange_offset : stateInRange (stateOf c) → Int.in64 (offsetOf b c).
Proof. destruct b; intros [Ho He]; [exact Ho|exact He]. Qed.
Lemma saved_path : savedPath b (stateOf c) = pathOf b c.
Proof. by destruct b. Qed.
Lemma saved_offset : savedOffset b (stateOf c) = offsetOf b c.
Proof. by destruct b. Qed.
Lemma with_stream_inRange :
  stateInRange (stateOf c) → Int.in64 offset → stateInRange (stateOf (with_stream b c offset buf)).
Proof. intros [Ho He] H'. destruct b; split; assumption. Qed.
End WithStream.

Lemma recoverState_may c w st r w' :
  World.disk w !! getSavePath env = Some (Marshal st) → stateInRange st →
  may cluster (recoverState env c) w r w' → r = (recovered c st, None) ∧ w' = w.
Proof.
  intros Hd Hr. unfold recoverState. intros (contents & w1 & (r1 & Hread & [-> ->]) & Hm)%may_bind.
  cbn in Hread. unfold readDisk in Hread. rewrite Hd in Hread. subst contents. destruct Hm as [<- ->].
  assert (Unmarshal savedState.decode savedState.zero (Marshal st) = inl st) as Hst by exact (Unmarshal_Marshal st Hr).
  by rewrite Hst.
Qed.

(** The controller of a new process that has read the saved state. *)
Section Recovered.
Context (b : stream) (st : savedState.t).
Lemma recovered_jobID : savedState.JobID st ≠ "" → Controller.jobID (recovered restarted st) = savedState.JobID st.
Proof. intros Hj. unfold recovered. by rewrite (proj2 (String.eqb_neq _ _) Hj). Qed.
Lemma recovered_system : Controller.systemName (recovered restarted st) = system.
Proof. unfold recovered. by case_if. Qed.
Lemma recovered_path : pathOf b (recovered restarted st) = savedPath b st.
Proof. by destruct b. Qed.
Lemma recovered_offset : offsetOf b (recovered restarted st) = savedOffset b st.
Proof. by destruct b. Qed.
Lemma recovered_buf : bufOf b (recovered restarted st) = "".
Proof. unfold recovered. by destruct b; case_if. Qed.
Lemma recovered_inRange : stateInRange st → stateInRange (stateOf (recovered restarted st)).
Proof. by intros [Ho He]. Qed.
End Recovered.

(** ** The simulation *)

Section Simulation.
Context (b : stream) (job p : string) (Hjob : job ≠ "") (f0 : string).

(** What the cluster and the disk say about the specification. *)
Record agrees (w : World.t) (t : Tail.t) : Prop := {
  agrees_reached : rtc Tail.step (Tail.start f0) t;
  agrees_saved : ∃ st, World.disk w !! getSavePath env = Some (Marshal st) ∧ stateInRange st ∧
    savedState.JobID st = job ∧ savedPath b st = p ∧ savedOffset b st = Z.of_nat (Tail.committed t);
  agrees_file : Tail.file t = World.file w p;
  agrees_out : Tail.out t = linesOf b w;
  agrees_length : (Z.of_nat (String.length (Tail.file t)) ≤ Int.max64)%Z }.

(** The position and the unfinished line of a controller. *)
Definition atPosition (w : World.t) (t : Tail.t) (offset : Z) (buf : string) : Prop :=
  agrees w t ∧ offset = Z.of_nat (Tail.pos t) ∧ lineFree buf ∧
  ∃ rest, Strings.drop (Tail.pos t) (Tail.file t) = buf +:+ rest.

Definition upStatic (c : Controller.t) : Prop :=
  Controller.jobID c = job ∧ pathOf b c = p ∧ stateInRange (stateOf c).

Definition up (c : Controller.t) (w : World.t) : Prop :=
  Controller.jobID c = job ∧ pathOf b c = p ∧ stateInRange (stateOf c) ∧
  ∃ t, atPosition w t (offsetOf b c) (bufOf b c).

Definition down (w : World.t) : Prop := ∃ t, agrees w t.

#[local] Notation M := (withAllowed cluster down).

Lemma flushLines_cons name l d offset :
  flushLines name (l :: splitLines d) offset =
  bind (trigger (Println (logLine name l))) (λ _, flushLines name (splitLines d) (Int.wrap64 (offset + Z.of_nat (String.length l) + 1))).
Proof. destruct (splitLines_cases d) as [->|(? & ? & _ & _ & ->)]; reflexivity. Qed.

Lemma agrees_print_other b' w t line :
  b ≠ b' → agrees w t → agrees (World.print w (logLine (streamName b') line)) t.
Proof. intros Hb [H1 H2 H3 H4 H5]. split; try done. by rewrite linesOf_print_other. Qed.

Lemma agrees_position w t : agrees w t → (Tail.pos t ≤ String.length (Tail.file t))%nat.
Proof. intros [Hr _ _ _ _]. apply (Tail.good_steps _ _ Hr). Qed.

Lemma atPosition_in64 w t offset buf : atPosition w t offset buf → Int.in64 offset.
Proof.
  intros (Ha & -> & _). pose proof (agrees_position _ _ Ha). pose proof (agrees_length _ _ Ha).
  unfold Int.in64, Int.min64. lia.
Qed.

(** Printing the next line of the file. *)
Lemma agrees_print_own w t line rest :
  agrees w t → Strings.drop (Tail.pos t) (Tail.file t) = line +:+ newline_ +:+ rest → lineFree line →
  let t' := Tail.mk (Tail.file t) (Tail.pos t + String.length line + 1) (Tail.committed t) (Tail.out t ++ [line]) in
  agrees (World.print w (logLine (streamName b) line)) t' ∧ Strings.drop (Tail.pos t') (Tail.file t') = rest ∧
  (Z.of_nat (Tail.pos t') ≤ Int.max64)%Z.
Proof.
  intros [H1 H2 H3 H4 H5] Hd Hl t'. subst t'. cbn. split_and!.
  - split; [|exact H2|exact H3|by rewrite linesOf_print_own, <- H4|exact H5].
    eapply rtc_r; [exact H1|]. destruct t. by econstructor.
  - rewrite <- Nat.add_assoc, drop_add, Hd, <- Strings.app_assoc.
    replace (String.length line + 1)%nat with (String.length (line +:+ newline_)) by (by rewrite Strings.length_app).
    apply Strings.drop_app.
  - pose proof (drop_length (Tail.pos t) (Tail.file t)) as Hlen. rewrite Hd, !Strings.length_app in Hlen. cbn in Hlen. lia.
Qed.

Lemma flushLines_own data rest w t :
  agrees w t → Strings.drop (Tail.pos t) (Tail.file t) = data +:+ rest →
  wp M (flushLines (streamName b) (splitLines data) (Z.of_nat (Tail.pos t)))
    (λ r w', ∃ t', atPosition w' t' r.1 r.2) w.
Proof.
  remember (String.length data) as n eqn:Hn. revert data w t Hn.
  induction (lt_wf n) as [n _ IH]. intros data w t -> Ha Hd.
  destruct (splitLines_cases data) as [Hf|(l & d & -> & Hl & Hs)].
  - rewrite Hf. cbn. exists t. split_and!; eauto.
  - rewrite Hs, flushLines_cons. rewrite !Strings.app_assoc in Hd.
    destruct (agrees_print_own w t l (d +:+ rest) Ha Hd Hl) as (Ha' & Hd' & Hb).
    cbn [bind trigger wp]. split; [by exists t|]. intros r _. cbn [next cluster withAllowed].
    cbn [Tail.pos] in Hb. rewrite Int.wrap64_id by (unfold Int.in64, Int.min64 in *; lia).
    replace (Z.of_nat (Tail.pos t) + Z.of_nat (String.length l) + 1)%Z
      with (Z.of_nat (Tail.pos t + String.length l + 1)) by lia.
    refine (IH (String.length d) _ d _ _ eq_refl Ha' Hd'). rewrite !Strings.length_app. cbn. lia.
Qed.

Lemma flushLines_other b' lines off w t offset buf :
  b ≠ b' → atPosition w t offset buf → Int.in64 off →
  wp M (flushLines (streamName b') lines off) (λ r w', atPosition w' t offset buf ∧ Int.in64 r.1) w.
Proof.
  intros Hb Hat Hoff. revert off w Hat Hoff. induction lines as [|l lines IH]; intros off w Hat Hoff; [done|].
  destruct lines as [|l' lines]; [done|]. split; [exists t; apply Hat|]. intros r _. apply IH; [|apply Int.wrap64_in64].
  destruct Hat as (Ha & Hrest). split; [|done]. by apply agrees_print_other.
Qed.

(** One fetch of the stream itself; the answer continues the buffer. *)
Lemma fetchFrom_own w t offset buf :
  atPosition w t offset buf →
  wp M (fetchFrom system (streamName b) p offset buf) (λ r w', ∃ t', atPosition w' t' r.1 r.2) w.
Proof.
  intros (Ha & -> & Hf & rest & Hd). split; [by exists t|]. intros r Hr. cbn [next cluster withAllowed].
  assert (Hsame : ∃ t', atPosition w t' (Z.of_nat (Tail.pos t)) buf) by (exists t; split_and!; eauto).
  destruct r as [[code [[content|]|] e4 e5]|err]; cbn [wp]; [|exact Hsame..].
  destruct (Hr content eq_refl) as (n & _ & Hc). cbn -[flushLines splitLines]. case_if; [exact Hsame|].
  pose proof (agrees_position _ _ Ha) as Hpos. pose proof (agrees_length _ _ Ha) as Hmax.
  pose proof (drop_length (Tail.pos t) (Tail.file t)) as Hlen. rewrite Hd, Strings.length_app in Hlen.
  apply flushLines_own with (rest := Strings.drop n rest); [done|]. rewrite Hd, Hc, <- (agrees_file _ _ Ha).
  rewrite Int.wrap64_id by (unfold Int.in64, Int.min64; lia). rewrite <- Nat2Z.inj_add, Nat2Z.id.
  by rewrite drop_add, Hd, Strings.drop_app, Strings.app_assoc, Strings.take_drop.
Qed.

Lemma fetchFrom_other b' system' path off buf' w t offset buf :
  b ≠ b' → atPosition w t offset buf → Int.in64 off →
  wp M (fetchFrom system' (streamName b') path off buf') (λ r w', atPosition w' t offset buf ∧ Int.in64 r.1) w.
Proof.
  intros Hb Hat Hoff. split; [exists t; apply Hat|]. intros r _. cbn [next cluster withAllowed].
  destruct r as [[code [[content|]|] e4 e5]|err]; cbn [wp]; try done.
  cbn -[flushLines splitLines]. case_if; [done|]. by apply flushLines_other.
Qed.

(** ** The rounds *)

Lemma up_position c w : up c w → down w.
Proof. intros (_ & _ & _ & t & Ha & _). by exists t. Qed.

Lemma up_with_own c w offset buf t :
  upStatic c → atPosition w t offset buf → up (with_stream b c offset buf) w.
Proof.
  intros (Hj & Hp & Hr) Hat. pose proof (atPosition_in64 _ _ _ _ Hat). unfold up.
  rewrite with_stream_jobID, with_stream_path, with_stream_offset, with_stream_buf.
  split; [done|]. split; [done|]. split; [by apply with_stream_inRange|by exists t].
Qed.

Lemma up_with_other b' c w offset buf t :
  b ≠ b' → upStatic c → atPosition w t (offsetOf b c) (bufOf b c) → Int.in64 offset → up (with_stream b' c offset buf) w.
Proof.
  intros Hb (Hj & Hp & Hr) Hat Hoff. unfold up.
  rewrite with_stream_jobID, with_stream_path, with_stream_offset_other, with_stream_buf_other by done.
  split; [done|]. split; [done|]. split; [by apply with_stream_inRange|by exists t].
Qed.

Lemma fetchStream_wp b' c w :
  up c w →
  wp M (fetchFrom system (streamName b') (pathOf b' c) (offsetOf b' c) (bufOf b' c))
    (λ r w', up (with_stream b' c r.1 r.2) w') w.
Proof.
  intros Hup. pose proof Hup as (Hj & Hp & Hr & t & Hat). destruct (decide (b = b')) as [Hb|Hb].
  - rewrite <- Hb, Hp. eapply wp_mono; [by apply (fetchFrom_own w t _ _ Hat)|]. intros [off buf] w' (t' & Hat').
    by eapply up_with_own.
  - eapply wp_mono; [eapply fetchFrom_other; [done|exact Hat|by apply stateInRange_offset]|]. intros [off buf] w' [Hat' Hoff].
    by eapply up_with_other.
Qed.

Lemma fetchLogStream_wp c name w :
  Controller.systemName c = system → up c w →
  wp M (fetchLogStream c name) (λ c' w', Controller.systemName c' = system ∧ up c' w') w.
Proof.
  intros Hsys Hup. unfold fetchLogStream. rewrite Hsys.
  destruct (name =s "stdout") eqn:E1; [|destruct (name =s "stderr") eqn:E2; [|done]].
  - apply String.eqb_eq in E1 as ->. apply wp_bind. eapply wp_mono; [apply (fetchStream_wp Out c w Hup)|].
    by intros [off buf] w' Hup'.
  - apply String.eqb_eq in E2 as ->. apply wp_bind. eapply wp_mono; [apply (fetchStream_wp Err c w Hup)|].
    by intros [off buf] w' Hup'.
Qed.

Lemma fetchSessionLogs_wp c w :
  Controller.systemName c = system → up c w →
  wp M (fetchSessionLogs c) (λ c' w', Controller.systemName c' = system ∧ up c' w') w.
Proof.
  intros Hsys Hup. unfold fetchSessionLogs. case_if; [done|].
  apply wp_foldM with (I := λ _ c w, Controller.systemName c = system ∧ up c w); [done| |done].
  intros name _ c' w' [Hsys' Hup']. by apply fetchLogStream_wp.
Qed.

Lemma getCurrentStatus_wp c w : up c w → wp M (getCurrentStatus c) (λ _ w', w' = w) w.
Proof.
  intros Hup. unfold getCurrentStatus. case_if; [done|]. split; [by eapply up_position|].
  intros r _. reflexivity.
Qed.

(** The state on the disk after a save. *)
Lemma agrees_save c w t :
  up c w → agrees w t → atPosition w t (offsetOf b c) (bufOf b c) →
  agrees (World.with_disk w (<[getSavePath env := Marshal (stateOf c)]> (World.disk w)))
    (Tail.mk (Tail.file t) (Tail.pos t) (Tail.pos t) (Tail.out t)).
Proof.
  intros (Hj & Hp & Hr & _) [H1 H2 H3 H4 H5] (_ & Hoff & _). split; [| |exact H3|exact H4|exact H5].
  - eapply rtc_r; [exact H1|]. destruct t. by econstructor.
  - exists (stateOf c). split; [apply lookup_insert_eq|]. split; [done|]. split; [done|].
    by rewrite saved_path, saved_offset.
Qed.

Lemma saveState_wp c w :
  up c w → wp M (saveState env c) (λ _ w', up c w') w.
Proof.
  intros Hup. pose proof Hup as (Hj & Hp & Hr & t & Hat). unfold saveState. case_if; [done|].
  split; [by eapply up_position|]. intros [err|] _; [done|]. split; [by eapply up_position|].
  intros [err|] _; [done|]. cbn [next cluster withAllowed]. destruct Hat as (Ha & Hoff & Hf & Hd).
  split_and!; [done..|]. eexists. split; [by eapply agrees_save|]. by split_and!.
Qed.

Lemma tick_wp c w :
  Controller.systemName c = system → up c w →
  wp M (tick env c) (λ c' w', Controller.systemName c' = system ∧ up c' w') w.
Proof.
  intros Hsys Hup. unfold tick. apply wp_bind. eapply wp_mono; [by apply getCurrentStatus_wp|].
  intros [state err] w' ->. apply wp_bind. eapply wp_mono; [by apply fetchSessionLogs_wp|].
  intros c' w' [Hsys' Hup']. case_if; [|done]. apply wp_bind. eapply wp_mono; [by apply saveState_wp|]. done.
Qed.

(** ** Restarts and the whole system *)

Lemma reboot c w w' :
  down w → may cluster (Start env sessionScript restarted) w (c, None) w' →
  w' = w ∧ Controller.systemName c = system ∧ up c w.
Proof.
  intros (t & Ha). pose proof (agrees_saved _ _ Ha) as (st & Hd & Hr & Hj & Hp & Ho).
  unfold Start. intros ([c1 err] & w1 & Hrec & Hm)%may_bind.
  destruct (recoverState_may restarted w st _ w1 Hd Hr Hrec) as [Hc ->]. injection Hc as -> ->. cbv beta iota in Hm.
  assert (Hj' : Controller.jobID (recovered restarted st) = job) by (rewrite recovered_jobID; congruence).
  rewrite Hj', (proj2 (String.eqb_neq _ _) Hjob) in Hm. destruct Hm as [Hm ->]. injection Hm as <-.
  split; [done|]. split; [apply recovered_system|]. split; [done|].
  split; [by rewrite recovered_path|]. split; [by apply recovered_inRange|].
  exists (Tail.mk (Tail.file t) (Tail.committed t) (Tail.committed t) (Tail.out t)).
  destruct Ha as [H1 H2 H3 H4 H5]. split; [split; [|by exists st|done..]|].
  - eapply rtc_r; [exact H1|]. destruct t. by econstructor.
  - rewrite recovered_offset, recovered_buf. split; [done|]. split; [done|]. by eexists.
Qed.

(** The simulation relation of the system. *)
Definition simulated (s : option Controller.t * World.t) : Prop :=
  match s.1 with
  | Some c => Controller.systemName c = system ∧ up c s.2
  | None => down s.2
  end.

Lemma agrees_grow w t path text :
  (Z.of_nat (String.length (World.file w path +:+ text)) ≤ Int.max64)%Z → agrees w t →
  agrees (World.append w path text)
    (Tail.mk (if decide (path = p) then Tail.file t +:+ text else Tail.file t) (Tail.pos t) (Tail.committed t) (Tail.out t)).
Proof.
  intros Hlen [H1 H2 H3 H4 H5]. destruct (decide (path = p)) as [->|Hne].
  - split; [|exact H2| |exact H4|cbn; by rewrite H3].
    + eapply rtc_r; [exact H1|]. destruct t. by econstructor.
    + unfold World.file at 1. cbn. by rewrite lookup_insert_eq, H3.
  - split; [by destruct t|exact H2| |exact H4|exact H5].
    cbn. rewrite H3. unfold World.file at 2. cbn. by rewrite lookup_insert_ne.
Qed.

Lemma simulated_grow c w path text :
  (Z.of_nat (String.length (World.file w path +:+ text)) ≤ Int.max64)%Z →
  simulated (c, w) → simulated (c, World.append w path text).
Proof.
  intros Hlen. destruct c as [c|]; cbn; [|intros (t & Ha); eexists; by apply agrees_grow].
  intros (Hsys & Hj & Hp & Hr & t & Ha & Ho & Hf & rest & Hd). split; [done|]. split; [done|]. split; [done|].
  split; [done|]. eexists. split; [by apply agrees_grow|]. split; [done|]. split; [done|]. cbn.
  destruct (decide (path = p)); [|by eexists].
  rewrite drop_app_le by (by eapply agrees_position). rewrite Hd, Strings.app_assoc. by eexists.
Qed.

Lemma simulated_step s s' : simulated s → sysStep s s' → simulated s'.
Proof.
  intros Hs Hstep. destruct Hstep as [c w path text Hlen|c w c' w' Hm|c w w' Hc|w c' w' Hm].
  - by apply simulated_grow.
  - destruct Hs as [Hsys Hup]. exact (wp_withAllowed_may _ _ _ _ _ _ _ (tick_wp c w Hsys Hup) Hm).
  - destruct Hs as [Hsys Hup]. refine (wp_withAllowed_crashes _ _ _ _ _ _ (tick_wp c w Hsys Hup) _ Hc).
    intros a s [_ Ha]. by eapply up_position.
  - destruct (reboot c' w w' Hs Hm) as (-> & Hsys & Hup). by split.
Qed.

Lemma simulated_down s : simulated s → down s.2.
Proof. destruct s as [[c|] w]; cbn; [intros [_ Hup]; by eapply up_position|done]. Qed.
End Simulation.

(** A controller that has just submitted its job and saved its state. *)
Record submitted (b : stream) (c : Controller.t) (w : World.t) : Prop := {
  submitted_system : Controller.systemName c = system;
  submitted_job : Controller.jobID c ≠ "";
  submitted_out : Controller.stdoutOffset c = 0%Z ∧ Controller.stdoutBuf c = "";
  submitted_err : Controller.stderrOffset c = 0%Z ∧ Controller.stderrBuf c = "";
  submitted_saved : World.disk w !! getSavePath env = Some (Marshal (stateOf c));
  submitted_quiet : linesOf b w = [];
  submitted_length : (Z.of_nat (String.length (World.file w (pathOf b c))) ≤ Int.max64)%Z }.

Lemma submitted_simulated b c w :
  submitted b c w → simulated b (Controller.jobID c) (pathOf b c) (World.file w (pathOf b c)) (Some c, w).
Proof.
  intros [Hsys Hj [Ho1 Hb1] [Ho2 Hb2] Hd Hq Hl]. split; [done|]. split; [done|]. split; [done|].
  assert (Hr : stateInRange (stateOf c)) by (split; cbn; [rewrite Ho1|rewrite Ho2]; done). split; [done|].
  assert (Hoff : offsetOf b c = 0%Z) by (by destruct b). assert (Hbuf : bufOf b c = "") by (by destruct b).
  exists (Tail.start (World.file w (pathOf b c))). split; [split|]; cbn; try done.
  - exists (stateOf c). by rewrite saved_path, saved_offset.
  - rewrite Hoff, Hbuf. split; [done|]. split; [done|]. by eexists.
Qed.
Lemma simulated_reachable b c w s :
  submitted b c w → rtc sysStep (Some c, w) s →
  simulated b (Controller.jobID c) (pathOf b c) (World.file w (pathOf b c)) s.
Proof.
  intros Hsub Hsteps. pose proof (submitted_simulated b c w Hsub) as H0. pose proof (submitted_job _ _ _ Hsub) as Hj.
  revert H0. generalize (pathOf b c), (World.file w (pathOf b c)), (Controller.jobID c), Hj. clear - Hsteps.
  induction Hsteps as [|s1 s2 s3 H12 _ IH]; [done|]. intros p f job Hj H1. apply IH; [done|]. by eapply simulated_step.
Qed.
End System.
