(* ===== verification/FirecrestProtocol.v ===== *)
(** * The protocol of the FirecREST controller

    A monitor of the calls of one controller from [Start] to [Stop]: what has
    been secured, uploaded, submitted and saved, and what each call needs. *)

From S2P Require Import Prelude Prog NetUrl Names Config Json JsonProps FirecrestScript Firecrest FirecrestProps.
From Stdlib Require Import Ascii.

Module Ghost.
Record t := mk {
  (** the directory whose access has been restricted *)
  secured : option string;
  (** the session script has been uploaded to that directory *)
  script : bool;
  (** the job of this session: submitted, or read from the disk *)
  job : option string;
  (** number of submissions, and of calls to the API *)
  submissions : nat;
  calls : nat;
  (** the disk names the job *)
  saved : bool }.
Definition init : t := mk None false None 0 0 false.
Definition call (g : t) : t := mk (secured g) (script g) (job g) (submissions g) (S (calls g)) (saved g).
Definition secure (g : t) (dir : string) : t := mk (Some dir) (script g) (job g) (submissions g) (calls g) (saved g).
Definition with_script (g : t) : t := mk (secured g) true (job g) (submissions g) (calls g) (saved g).
Definition submit (g : t) (id : string) : t := mk (secured g) (script g) (Some id) (S (submissions g)) (calls g) (saved g).
Definition with_saved (g : t) (b : bool) : t := mk (secured g) (script g) (job g) (submissions g) (calls g) b.
Definition recover (g : t) (id : string) : t := mk (secured g) (script g) (Some id) (submissions g) (calls g) true.
End Ghost.

Section Protocol.
Context (env : Env) (sessionScript : string) `{DockerReference} (system : string).

Definition workDirOf (sessionPath repo : string) : string := Path.Join [sessionPath; "work"; repo; ".git"].

(** Uploads go to the secured directory of the session. *)
Definition uploadAllowed (g : Ghost.t) (directory filename contents : string) : Prop :=
  ∃ p, Ghost.secured g = Some p ∧
    (directory = secretsPathIn p ∧ filename = "wstunnel_secret" ∧ contents = Getenv env "RSC_WSTUNNEL_SECRET" ∨
     (∃ repo, directory = workDirOf p repo) ∧ filename = "config" ∨
     directory = p ∧ filename = sessionScriptName ∧
     ∃ partition fileSystems, contents = renderSessionScriptStatic env sessionScript partition fileSystems (secretsPathIn p)).

(** The job runs the uploaded script in the secured directory. *)
Definition submitAllowed (g : Ghost.t) (job : JobDescription.t) : Prop :=
  Ghost.job g = None ∧ Ghost.submissions g = 0%nat ∧ Ghost.script g = true ∧
  ∃ p, Ghost.secured g = Some p ∧ JobDescription.WorkingDirectory job = p ∧
       JobDescription.ScriptPath job = Path.Join [p; sessionScriptName].

Definition ownJob (g : Ghost.t) (sys id : string) : Prop := sys = system ∧ Ghost.job g = Some id.

(** The job of a saved text. *)
Definition savedJob (contents : string) : option string :=
  match Unmarshal savedState.decode savedState.zero contents with
  | inl st => if savedState.JobID st =s "" then None else Some (savedState.JobID st)
  | inr _ => None
  end.

Definition protocol : Monitor Fc Ghost.t := {|
  allowed := λ R e, match e in Fc R return Ghost.t → Prop with
    | GetSystems => λ g, Ghost.job g = None
    | GetUserinfo sys => λ g, sys = system ∧ Ghost.job g = None
    | PostMkdir sys path parents => λ g, sys = system ∧ Ghost.job g = None ∧ parents = true
    | PutChmod sys path mode => λ g, sys = system ∧ Ghost.job g = None ∧ mode = "700"
    | PostUpload sys directory filename contents => λ g, sys = system ∧ uploadAllowed g directory filename contents
    | PostJobSubmit sys job => λ g, sys = system ∧ submitAllowed g job
    | GetJobMetadata sys id | GetJob sys id | DeleteJobCancel sys id => λ g, ownJob g sys id
    | GetView sys _ _ _ => λ g, sys = system ∧ is_Some (Ghost.job g)
    | WriteFile path contents => λ g,
        path = getSavePath env ∧ Ghost.job g ≠ None ∧ ∃ c, contents = Marshal (stateOf c) ∧ Ghost.job g = Some (Controller.jobID c)
    | Remove path => λ g, path = getSavePath env ∧ is_Some (Ghost.job g)
    | _ => λ _, True
    end;
  rely := λ _ _ _ _, True;
  next := λ R e, match e in Fc R return R → Ghost.t → Ghost.t with
    | GetSystems | GetUserinfo _ => λ _ g, Ghost.call g
    | PostMkdir _ _ _ | GetJobMetadata _ _ | GetJob _ _ | DeleteJobCancel _ _ | GetView _ _ _ _ => λ _ g, Ghost.call g
    | PutChmod _ path _ => λ r g,
        match r with
        | inl (Response.mk _ (Some _) _ _) => Ghost.secure (Ghost.call g) path
        | _ => Ghost.call g
        end
    | PostUpload _ _ filename _ => λ r g,
        match r with
        | inl res => if (Response.StatusCode res =? 204)%Z && (filename =s sessionScriptName)
                     then Ghost.with_script (Ghost.call g) else Ghost.call g
        | inr _ => Ghost.call g
        end
    | PostJobSubmit _ _ => λ r g,
        match r with
        | inl (Response.mk _ (Some (Some id)) _ _) => Ghost.submit (Ghost.call g) id
        | _ => Ghost.call g
        end
    | WriteFile _ _ => λ r g, match r with None => Ghost.with_saved g true | Some _ => g end
    | Remove _ => λ r g, match r with None => Ghost.with_saved g false | Some _ => g end
    | ReadFile path => λ r g,
        if (path =s getSavePath env) && (Ghost.calls g =? 0)%nat then
          match r with
          | inl contents => match savedJob contents with Some id => Ghost.recover g id | None => g end
          | inr _ => g
          end
        else g
    | _ => λ _ g, g
    end;
  panic_ok := λ _, False |}.

#[local] Notation P := protocol.

Lemma wp_bindE {A B} (p : Prog Fc (Result A)) (f : A → Prog Fc (Result B)) (Q : Result B → Ghost.t → Prop) g :
  wp P p (λ r g', match r with inl a => wp P (f a) Q g' | inr err => Q (inr err) g' end) g → wp P (bindE p f) Q g.
Proof. intros Hp. apply wp_bind. eapply wp_mono; [exact Hp|]. by intros [a|err] g'. Qed.

(** ** The calls of [Start] *)

(** Nothing has been submitted or saved. *)
Definition idle (g : Ghost.t) : Prop :=
  Ghost.job g = None ∧ Ghost.submissions g = 0%nat ∧ Ghost.saved g = false ∧ Ghost.script g = false.

(** The start has failed before a submission. *)
Definition aborted (g : Ghost.t) : Prop :=
  Ghost.job g = None ∧ Ghost.submissions g = 0%nat ∧ Ghost.saved g = false.

Lemma idle_aborted g : idle g → aborted g.
Proof. by intros (? & ? & ? & _). Qed.

Lemma idle_call g : idle g → idle (Ghost.call g).
Proof. done. Qed.

Context (c : Controller.t) (Hsys : Controller.systemName c = system).

Lemma GetCurrentSystem_wp g : idle g → wp P (GetCurrentSystem c) (λ _ g', g' = Ghost.call g) g.
Proof. intros (Hj & _). by split. Qed.

Lemma getUserInfo_wp g : idle g → wp P (getUserInfo c) (λ _ g', g' = Ghost.call g) g.
Proof. intros (Hj & _). by split. Qed.

Lemma mkdir_wp path g : idle g → wp P (mkdir c path true) (λ _ g', g' = Ghost.call g) g.
Proof. intros (Hj & _). by split. Qed.

Lemma chmod_wp path g : idle g →
  wp P (chmod c path "700")
    (λ r g', match r with inl _ => g' = Ghost.secure (Ghost.call g) path | inr _ => idle g' end) g.
Proof. intros (Hj & Hrest). split; [done|]. by intros [[code [u|] e4 e5]|err] _. Qed.

Lemma uploadFile_wp directory filename contents g :
  uploadAllowed g directory filename contents → idle g →
  wp P (uploadFile c directory filename contents)
    (λ r g', match r with
             | inl _ => g' = if filename =s sessionScriptName then Ghost.with_script (Ghost.call g) else Ghost.call g
             | inr _ => aborted g'
             end) g.
Proof.
  intros Hu (Hj & Hn & Hs & _). split; [done|]. intros [res|err] _; cbn; [|done].
  destruct (Response.StatusCode res =? 204)%Z; cbn; [done|]. done.
Qed.

Lemma submitJob_wp job g :
  submitAllowed g job → Ghost.saved g = false →
  wp P (submitJob c job)
    (λ r g', match r with
             | inl id => Ghost.job g' = Some id ∧ Ghost.submissions g' = 1%nat ∧ Ghost.saved g' = false
             | inr _ => aborted g'
             end) g.
Proof.
  intros Hs Hsaved. pose proof Hs as (Hj & Hn & _). split; [done|].
  intros [[code [[id|]|] e4 e5]|err] _; cbn; try done. by rewrite Hn.
Qed.

(** After the access to [p] has been restricted. *)
Definition ready (p : string) (g : Ghost.t) : Prop := idle g ∧ Ghost.secured g = Some p ∧ Ghost.calls g ≠ 0%nat.

Lemma uploadSecret_wp p g : ready p g → wp P (uploadSecret env c (secretsPathIn p))
  (λ r g', match r with inl _ => ready p g' | inr _ => aborted g' end) g.
Proof.
  intros (Hi & Hp & Hc). unfold uploadSecret. case_if; [|done]. eapply wp_mono; [apply uploadFile_wp; [|done]|].
  - exists p. split; [done|]. by left.
  - by intros [[]|err] g' Hg'; cbn in Hg'; [subst g'|].
Qed.

Lemma setupDirectories_wp p g : idle g → wp P (setupDirectories env c p)
  (λ r g', match r with inl _ => ready p g' | inr _ => aborted g' end) g.
Proof.
  intros Hi. apply wp_bindE. eapply wp_mono; [by apply mkdir_wp|]. intros [u|err] g1 ->; [|by apply idle_aborted].
  apply wp_bindE. eapply wp_mono; [by apply chmod_wp|]. intros [u'|err] g2 Hg2; [|by apply idle_aborted].
  cbv beta iota. rewrite Hg2. by apply uploadSecret_wp.
Qed.

Lemma collectEntries_wp workDir entries repos g :
  wp P (collectEntries workDir entries repos) (λ _ g', g' = g) g.
Proof.
  revert repos. induction entries as [|entry entries IH]; intros repos; [done|]. split; [done|].
  intros [err|] _; [done|]. cbn [next protocol]. cbn [collectEntries]. case_if; [by apply IH|].
  split; [done|]. intros [contents|err] _; by apply IH.
Qed.

Lemma collectGitRepositories_wp workDir g : wp P (collectGitRepositories workDir) (λ _ g', g' = g) g.
Proof.
  apply wp_bindE. split; [done|]. intros [entries|err] _; [|done]. apply collectEntries_wp.
Qed.

Lemma uploadGitConfigs_wp p repos keys g : ready p g → wp P (uploadGitConfigs c p repos keys)
  (λ r g', match r with inl _ => ready p g' | inr _ => aborted g' end) g.
Proof.
  revert g. induction keys as [|repo keys IH]; intros g (Hi & Hp & Hc); [done|]. apply wp_bindE.
  eapply wp_mono; [by apply mkdir_wp|]. intros [u|err] g1 ->; [|by apply idle_aborted].
  apply wp_bindE. split; [done|]. intros [contents|err] _; cbn [next protocol]; rewrite andb_false_r;
    [|by apply idle_aborted].
  apply wp_bindE. eapply wp_mono; [apply uploadFile_wp; [|done]|].
  - exists p. split; [done|]. right. left. split; [by exists repo|done].
  - intros [[]|err] g2 Hg2; [|done]. cbv beta iota. rewrite Hg2. by apply IH.
Qed.

Lemma setupGit_wp p g : ready p g → wp P (setupGit env c p)
  (λ r g', match r with inl _ => ready p g' | inr _ => aborted g' end) g.
Proof.
  intros Hr. apply wp_bindE. eapply wp_mono; [apply collectGitRepositories_wp|]. intros [repos|err] g1 ->.
  - split; [done|]. intros keys _. apply wp_bindE. eapply wp_mono; [by apply uploadGitConfigs_wp|]. by intros [[]|err] g2.
  - apply idle_aborted, Hr.
Qed.

Lemma jobEnvironment_wp p repos g : ready p g → wp P (jobEnvironment env repos) (λ _ g', ready p g') g.
Proof. intros Hr. apply wp_bindE. destruct (tunnelEnv env (copiedEnv env)); cbn; [|done]. split; [done|]. by intros keys _. Qed.

Lemma startJob_wp g : idle g → wp P (startJob env sessionScript c)
  (λ r g', match r with
           | inl (_, id) => Ghost.job g' = Some id ∧ Ghost.submissions g' = 1%nat ∧ Ghost.saved g' = false
           | inr _ => aborted g'
           end) g.
Proof.
  intros Hi. apply wp_bindE. eapply wp_mono with (Q := λ _ g', idle g').
  { apply wp_bindE. eapply wp_mono; [by apply GetCurrentSystem_wp|]. intros [sys|err] g1 ->; [|done].
    apply wp_bindE. eapply wp_mono; [by apply getUserInfo_wp|]. intros [user|err] g1 ->; [|done].
    cbv beta iota. case_if; [done|]. by destruct (getPreferredScratch _). }
  intros [[hpc p]|err] g1 Hg1; [|by apply idle_aborted]. apply wp_bindE.
  eapply wp_mono; [by apply setupDirectories_wp|]. intros [[]|err] g2 Hg2; [|done]. apply wp_bindE.
  eapply wp_mono; [by apply setupGit_wp|]. intros [repos|err] g3 Hg3; [|done]. apply wp_bindE.
  eapply wp_mono; [by apply (jobEnvironment_wp p)|]. intros [jobEnv|err] g4 (Hi4 & Hp4 & Hc4); [|by apply idle_aborted].
  apply wp_bindE. eapply wp_mono; [apply uploadFile_wp; [|done]|].
  { exists p. split; [done|]. right. right. split; [done|]. split; [done|]. by eexists _, _. }
  intros [[]|err] g5 Hg5; [|done]. cbv beta iota in Hg5. rewrite String.eqb_refl in Hg5. subst g5.
  destruct Hi4 as (Hj & Hn & Hs & _). apply wp_bindE. eapply wp_mono; [apply submitJob_wp; [|done]|].
  { split; [done|]. split; [done|]. split; [done|]. by exists p. }
  by intros [id|err] g6 Hg6.
Qed.
End Protocol.

(** ** The operations of the controller *)

Section Lifecycle.
Context (env : Env) (sessionScript : string) `{DockerReference} (system : string).
#[local] Notation P := (protocol env sessionScript system).

(** The ghost state knows the job of the controller. *)
Definition owns (c : Controller.t) (g : Ghost.t) : Prop :=
  Controller.systemName c = system ∧ Ghost.job g = Some (Controller.jobID c).

(** A save changes what is known of the disk, and only when it succeeds. *)
Lemma saveState_protocol c g :
  owns c g →
  wp P (saveState env c)
    (λ err g', g' = (if err then g else Ghost.with_saved g true) ∧ (err = None → Controller.jobID c ≠ "")) g.
Proof.
  intros [Hsys Hj]. unfold saveState. case_if; [done|]. bool_simpl. split; [done|]. intros [err|] _; [done|].
  split; [|by intros [err|] _]. split; [done|]. cbn [next protocol]. split; [by rewrite Hj|]. by exists c.
Qed.

Lemma afterSubmission_wp c p g :
  owns c g → Ghost.submissions g = 1%nat → Ghost.saved g = false →
  wp P (afterSubmission env c p)
    (λ '(c', err) g', owns c' g' ∧ Controller.jobID c' = Controller.jobID c ∧ Ghost.submissions g' = 1%nat ∧
       Ghost.saved g' = (if err then false else true) ∧ (err = None → Controller.jobID c' ≠ "")) g.
Proof.
  intros [Hsys Hj] Hn Hs. eapply wp_bind_intro with (P := λ _ g', g' = Ghost.call g); [by split|].
  intros metaRes g1 ->. destruct (logPaths p (Controller.jobID c) metaRes) as [out err_].
  apply wp_bind. eapply wp_mono; [by apply saveState_protocol|]. by intros [err|] g' [-> He].
Qed.

(** A new controller: either the disk has no job, or it is that one. *)
Lemma recoverState_wp c :
  Controller.systemName c = system → Controller.jobID c = "" →
  wp P (recoverState env c)
    (λ '(c', err) g', match err with
                      | Some _ => g' = Ghost.init
                      | None => Controller.systemName c' = system ∧ Controller.fakeStart c' = Controller.fakeStart c ∧
                          (Controller.jobID c' = "" ∧ g' = Ghost.init ∨
                           Controller.jobID c' ≠ "" ∧ g' = Ghost.recover Ghost.init (Controller.jobID c'))
                      end) Ghost.init.
Proof.
  intros Hsys Hj. eapply wp_bind_intro with (P := λ r g', g' =
    match r with
    | inl contents => match savedJob contents with Some id => Ghost.recover Ghost.init id | None => Ghost.init end
    | inr _ => Ghost.init
    end).
  { split; [done|]. intros r _. cbn [next protocol]. by rewrite String.eqb_refl. }
  intros [contents|err] g ->; [|cbn; auto]. unfold savedJob. destruct (Unmarshal _ _ _) as [st|err]; [|done].
  unfold recovered. destruct (savedState.JobID st =s "") eqn:E; (split; [done|]; split; [done|]); [by left|].
  right. bool_simpl. done.
Qed.

(** How [Start] ends. *)
Definition started (c : Controller.t) (err : option GoError) (g : Ghost.t) : Prop :=
  (Ghost.submissions g ≤ 1)%nat ∧
  match err with
  | None => owns c g ∧ Controller.jobID c ≠ "" ∧ Ghost.saved g = true ∧ (Ghost.submissions g = 0%nat → Ghost.calls g = 0%nat)
  | Some _ => Ghost.saved g = false ∧ (Ghost.submissions g = 0%nat ∨ Ghost.job g = Some (Controller.jobID c))
  end.

Lemma Start_wp c :
  Controller.systemName c = system → Controller.jobID c = "" → Controller.fakeStart c = false →
  wp P (Start env sessionScript c) (λ '(c', err) g', started c' err g') Ghost.init.
Proof.
  intros Hsys Hj Hf. apply wp_bind. eapply wp_mono; [by apply recoverState_wp|].
  intros [c1 [err|]] g1; [by intros ->; split; [cbn; lia|]; split; [|left]|].
  intros (Hsys1 & Hf1 & [[Hj1 ->]|[Hj1 ->]]); cbv beta iota.
  - rewrite Hj1, Hf1, Hf. cbn -[startJob wp]. apply wp_bind. eapply wp_mono; [by apply startJob_wp|].
    intros [[p id]|err] g2; cbv beta iota.
    + intros (Hjob & Hn & Hs).
      refine (wp_mono _ _ _ _ _ (afterSubmission_wp (Controller.with_jobID c1 id) p g2 (conj Hsys1 Hjob) Hn Hs) _).
      intros [c3 err] g3 (Ho & Hid & Hn3 & Hs3 & He). split; [lia|]. destruct err as [err|].
      * split; [done|]. right. apply Ho.
      * split; [done|]. split; [by apply He|]. split; [done|]. by rewrite Hn3.
    + intros (Hjob & Hn & Hs). split; [lia|]. split; [done|]. by left.
  - rewrite (proj2 (String.eqb_neq _ _) Hj1). split; [cbn; lia|]. by split.
Qed.

(** ** Rounds *)

(** What the rounds and the stop of a session keep. *)
Definition running (n : nat) (c : Controller.t) (g : Ghost.t) : Prop :=
  owns c g ∧ Controller.jobID c ≠ "" ∧ Ghost.submissions g = n.

Lemma flushLines_protocol stream lines offset g : wp P (flushLines stream lines offset) (λ _ g', g' = g) g.
Proof.
  revert offset. induction lines as [|l [|l' lines] IH]; intros offset; [done..|]. split; [done|]. intros r _. apply IH.
Qed.

Lemma fetchFrom_protocol n c stream path offset buf g :
  running n c g → wp P (fetchFrom (Controller.systemName c) stream path offset buf) (λ _ g', running n c g') g.
Proof.
  intros Hr. pose proof Hr as ([Hsys Hj] & Hne & Hn). split; [split; [done|by rewrite Hj]|].
  intros [[code [[content|]|] e4 e5]|err] _; try done. cbn -[flushLines splitLines]. case_if; [done|].
  eapply wp_mono; [apply flushLines_protocol|]. by intros r g' ->.
Qed.

Lemma fetchSessionLogs_protocol n c g :
  running n c g → wp P (fetchSessionLogs c) (λ c' g', running n c' g') g.
Proof.
  intros Hr. unfold fetchSessionLogs. case_if; [done|].
  apply wp_foldM with (I := λ _ c g, running n c g); [done| |done].
  intros name _ c' g' Hr'. unfold fetchLogStream. case_if; [|case_if; [|done]]; apply wp_bind;
    (eapply wp_mono; [by apply (fetchFrom_protocol n)|]); by intros [off buf] g1.
Qed.

Lemma tick_protocol n c g : running n c g → wp P (tick env c) (λ c' g', running n c' g') g.
Proof.
  intros Hr. apply wp_bind. eapply wp_mono with (Q := λ _ g', running n c g').
  { unfold getCurrentStatus. case_if; [done|]. destruct Hr as ([Hsys Hj] & Hne & Hn). split; [by split|]. by intros r _. }
  intros [state err] g1 Hr1. apply wp_bind. eapply wp_mono; [by apply (fetchSessionLogs_protocol n)|].
  intros c2 g2 Hr2. case_if; [|done]. apply wp_bind. eapply wp_mono; [apply saveState_protocol, Hr2|].
  intros [err'|] g3 [-> _]; exact Hr2.
Qed.

Lemma Stop_wp n c g : running n c g → wp P (Stop env c) (λ _ g', Ghost.submissions g' = n) g.
Proof.
  intros ([Hsys Hj] & Hne & Hn). unfold Stop. case_if; [bool_simpl; done|].
  split; [split; [done|]; cbn; by rewrite Hj|]. intros [err|] _; (split; [by split|]; by intros r _).
Qed.
End Lifecycle.
