(* ===== verification/FirecrestTheorems.v ===== *)
(** * Theorems about the FirecREST controller

    The saved state resumes a session, the start and its failures, the log of
    the session, the script and the environment of the job. *)

From S2P Require Import Prelude Prog NetUrl Names Config Json JsonProps FirecrestScript LogTail ScriptProps Firecrest FirecrestProps FirecrestLogs FirecrestProtocol.
From Stdlib Require Import Ascii.

(** ** Saving and recovering *)

(** C10: A controller that has saved its state is resumed by the next process: a
    new controller that starts over the same disk has the same job, log files
    and offsets, and its start makes no call but reading the state (whatever
    handler [h] answers the others, its state [w] is untouched). *)
Theorem restart_resumes {W} (h : Handler Fc W) env sessionScript `{DockerReference} c system partition fake w d :
  Controller.jobID c ≠ "" → stateInRange (stateOf c) →
  ∃ d', run (withDisk h) (saveState env c) (w, d) = (Done None, (w, d')) ∧
  ∃ c', run (withDisk h) (Start env sessionScript (Controller.new system partition fake)) (w, d') =
          (Done (c', None), (w, d')) ∧
        stateOf c' = stateOf c.
Proof.
  intros Hj Hr. eexists. split; [by apply saveState_disk|].
  exists (recovered (Controller.new system partition fake) (stateOf c)). split.
  - unfold Start. change (?p ≫= ?f) with (bind p f). rewrite run_bind.
    rewrite (recoverState_disk h env _ (stateOf c)) by (try apply lookup_insert_eq; done).
    unfold recovered, stateOf. cbn. by rewrite (proj2 (String.eqb_neq _ _) Hj); cbn; rewrite (proj2 (String.eqb_neq _ _) Hj).
  - unfold recovered, stateOf. cbn. by rewrite (proj2 (String.eqb_neq _ _) Hj).
Qed.

(** C11: What the start of a new controller can end in.  It submits at most one
    job, under the conditions of [protocol].  If it succeeds, the controller
    has a job which the disk names, and either it was found there and the API
    has not been called, or it has just been submitted.  If it fails, nothing
    has been saved, even when the job had been submitted: a later start does
    not know that job. *)
Theorem start_outcome env sessionScript `{DockerReference} c :
  Controller.jobID c = "" → Controller.fakeStart c = false →
  wp (protocol env sessionScript (Controller.systemName c)) (Start env sessionScript c)
    (λ '(c', err) g, (Ghost.submissions g ≤ 1)%nat ∧
       match err with
       | None => Ghost.job g = Some (Controller.jobID c') ∧ Controller.jobID c' ≠ "" ∧ Ghost.saved g = true ∧
                 (Ghost.submissions g = 0%nat → Ghost.calls g = 0%nat)
       | Some _ => Ghost.saved g = false ∧
                   (Ghost.submissions g = 0%nat ∨ Ghost.job g = Some (Controller.jobID c'))
       end) Ghost.init.
Proof.
  intros Hj Hf. eapply wp_mono; [by apply Start_wp|]. intros [c' [err|]] g [Hn Hg]; [done|].
  destruct Hg as ([_ Ho] & Hg). done.
Qed.

(** ** Logs *)

(** C8: The copying of a log refines [Tail]: in any interleaving of growth of the
    files, rounds of the ticker, deaths of the process (between rounds or at
    any call of one) and restarts, the lines of a stream on the standard output
    are those a reader of the file delivers that goes through it line by line,
    commits its position from time to time and returns to the committed
    position when it restarts; the offset of the controller is the position of
    that reader. *)
Theorem log_refines env sessionScript `{DockerReference} system partition fakeStart b c0 w0 s :
  submitted env system b c0 w0 →
  rtc (sysStep env sessionScript system partition fakeStart) (Some c0, w0) s →
  ∃ t, rtc Tail.step (Tail.start (World.file w0 (pathOf b c0))) t ∧
    Tail.out t = linesOf b s.2 ∧ Tail.file t = World.file s.2 (pathOf b c0) ∧
    match s.1 with Some c => offsetOf b c = Z.of_nat (Tail.pos t) | None => True end.
Proof.
  intros Hsub Hsteps. pose proof (simulated_reachable _ _ _ _ _ _ _ _ _ Hsub Hsteps) as Hsim.
  destruct s as [[c|] w]; cbn in Hsim |- *.
  - destruct Hsim as (_ & _ & _ & _ & t & Ha & Ho & _). exists t. by destruct Ha.
  - destruct Hsim as (t & Ha). exists t. by destruct Ha.
Qed.

(** No line of a log is lost: whatever happened before, the lines of the file
    up to the offset of the controller have all been printed, in their order
    (some may have been printed again after a restart). *)
Theorem log_complete env sessionScript `{DockerReference} system partition fakeStart b c0 w0 c w :
  submitted env system b c0 w0 →
  rtc (sysStep env sessionScript system partition fakeStart) (Some c0, w0) (Some c, w) →
  ∃ ls, Strings.take (Z.to_nat (offsetOf b c)) (World.file w (pathOf b c0)) = unlines ls ∧
    Forall lineFree ls ∧ ls `sublist_of` linesOf b w.
Proof.
  intros Hsub Hsteps. pose proof (simulated_reachable _ _ _ _ _ _ _ _ _ Hsub Hsteps) as Hsim.
  destruct Hsim as (_ & _ & _ & _ & t & Ha & -> & _). cbn [snd] in Ha.
  destruct (Tail.good_steps _ _ (agrees_reached _ _ _ _ _ _ _ Ha)) as [(_ & ls & H1 & H2 & H3) _].
  exists ls. rewrite Nat2Z.id, <- (agrees_file _ _ _ _ _ _ _ Ha), <- (agrees_out _ _ _ _ _ _ _ Ha). done.
Qed.

(** ** A fake start *)

(** A fake start is not without consequences: the first round of the ticker
    saves its made-up job identifier, so a later start that is not fake takes
    that job for its own and submits nothing. *)
Theorem fake_start_sticks {W} (h : Handler Fc W) env sessionScript `{DockerReference} system partition w d :
  d !! getSavePath env = None →
  ∃ c1 c2 w' d' c3,
    run (withDisk h) (Start env sessionScript (Controller.new system partition true)) (w, d) = (Done (c1, None), (w, d)) ∧
    run (withDisk h) (tick env c1) (w, d) = (Done c2, (w', d')) ∧
    run (withDisk h) (Start env sessionScript (Controller.new system partition false)) (w', d') =
      (Done (c3, None), (w', d')) ∧
    Controller.jobID c3 = fakeJobID.
Proof.
  intros Hd. set (c1 := Controller.with_jobID (Controller.new system partition true) fakeJobID).
  destruct (run (withDisk h) (getCurrentStatus c1) (w, d)) as [o [w' d1]] eqn:Hs.
  assert (∃ state err, o = Done (state, err) ∧ d1 = d) as (state & err & -> & ->).
  { unfold getCurrentStatus in Hs. cbn -[expectJSON] in Hs. destruct (h _ _ w) as [r w1].
    set (x := match _ with inl _ => _ | inr _ => _ end) in Hs. destruct x as [state err]. injection Hs as <- <- <-. eauto. }
  set (c2 := Controller.with_status c1 state err).
  exists c1, c2, w', (<[getSavePath env := Marshal (stateOf c2)]> d), (recovered (Controller.new system partition false) (stateOf c2)).
  split_and!.
  - unfold Start, recoverState. cbn. unfold readDisk. by rewrite Hd.
  - unfold tick. change (?p ≫= ?f) with (bind p f). rewrite run_bind, Hs. cbv beta iota zeta.
    change (run (withDisk h) (bind (saveState env c2) (λ _, Ret c2)) (w', d) =
            (Done c2, (w', <[getSavePath env := Marshal (stateOf c2)]> d))).
    by rewrite run_bind, saveState_disk.
  - unfold Start. change (?p ≫= ?f) with (bind p f). rewrite run_bind.
    by rewrite (recoverState_disk h env _ (stateOf c2)) by (try apply lookup_insert_eq; done).
  - done.
Qed.

(** ** The job *)

(** The variables that the controller sets itself. *)
Definition controllerVars : list string :=
  ["REMOTE_SESSION_IMAGE"; "WSTUNNEL_SERVICE_ADDRESS"; "WSTUNNEL_SERVICE_PORT"; "WSTUNNEL_PATH_PREFIX";
   "GIT_REPOSITORIES"; "GIT_PROXY_PORT"; "GIT_PROXY_HEALTH_PORT"].

Lemma copiedEnv_lookup env `{DockerReference} k : k ≠ "REMOTE_SESSION_IMAGE" →
  copiedEnv env !! k =
  match (if Strings.HasPrefix k "RENKU" || Strings.HasPrefix k "REMOTE_SESSION" then env !! k else None) with
  | Some v => Some v
  | None => env !! ("USER_ENV_" +:+ k)
  end.
Proof.
  intros Hk. change Env with (gmap string string) in *. unfold copiedEnv. rewrite copy_prefixed.
  set (e := copyEnv (prefixedKey "REMOTE_SESSION") env _).
  assert (He : e !! k = match (if Strings.HasPrefix k "REMOTE_SESSION" then env !! k else None) with
                        | Some v => Some v | None => env !! ("USER_ENV_" +:+ k) end).
  { subst e. rewrite copy_prefixed, copy_user, lookup_empty.
    destruct (Strings.HasPrefix k "REMOTE_SESSION"); [destruct (env !! k)|]; try done; by destruct (env !! ("USER_ENV_" +:+ k)). }
  assert (Him : match EnrootImageFormat (default "" (e !! "REMOTE_SESSION_IMAGE")) with
                | (enrootImage, None) => <["REMOTE_SESSION_IMAGE" := enrootImage]> e
                | (_, Some _) => e end !! k = e !! k).
  { destruct (EnrootImageFormat _) as [img [err|]]; [done|]. by rewrite lookup_insert_ne. }
  rewrite Him, He. destruct (Strings.HasPrefix k "RENKU"), (Strings.HasPrefix k "REMOTE_SESSION"); cbn; try done;
    by destruct (env !! k).
Qed.

Lemma gitEnv_lookup env `{DockerReference} repos keys e k :
  tunnelEnv env (copiedEnv env) = inl e → k ∉ controllerVars → gitEnv repos keys e !! k = copiedEnv env !! k.
Proof.
  intros He Hk. unfold controllerVars in Hk. rewrite !not_elem_of_cons in Hk.
  destruct Hk as (H1 & H2 & H3 & H4 & H5 & H6 & H7 & _).
  unfold gitEnv. rewrite !lookup_insert_ne by congruence.
  unfold tunnelEnv in He. destruct (_ =s _); [by injection He as <-|]. destruct (url_Parse _) as [u|]; [|done].
  injection He as <-. by rewrite !lookup_insert_ne by congruence.
Qed.

(** The environment of the job, but for the variables the controller sets
    itself: the variables RENKU... and REMOTE_SESSION... of the side car, then
    the user's variables, which the side car has under the prefix USER_ENV_,
    and nothing else (the settings RSC_... with their secrets stay where they
    are). *)
Theorem job_environment_spec env `{DockerReference} repos keys e k :
  tunnelEnv env (copiedEnv env) = inl e → k ∉ controllerVars →
  gitEnv repos keys e !! k =
  match (if Strings.HasPrefix k "RENKU" || Strings.HasPrefix k "REMOTE_SESSION" then env !! k else None) with
  | Some v => Some v
  | None => env !! ("USER_ENV_" +:+ k)
  end.
Proof.
  intros He Hk. rewrite (gitEnv_lookup env repos keys e k He Hk), copiedEnv_lookup; [done|]. intros ->. by apply Hk; left.
Qed.

(** C32: The note for the maintainers is removed as the regular expression says:
    if the script has no match it is left alone, and else exactly the match that
    is found (the leftmost, greedy one) is cut out, which leaves no other. *)
Theorem remove_notes_regexp s :
  (removeMaintainersNotesFromScript s = s ∧ ∀ b x y a, ¬ noteMatch s b x y a) ∨
  (∃ b x y a, noteFound s b x y a ∧ removeMaintainersNotesFromScript s = b +:+ a ∧
     ∀ b' x' y' a', ¬ noteMatch a b' x' y' a').
Proof.
  destruct (removeNotes_cases s) as [Hs|(b & x & y & a & Hs & Hf)]; [by left|]. right. exists b, x, y, a.
  split; [done|]. split; [done|]. by eapply noteFound_once.
Qed.
