(* ===== verification/FirecrestThreads.v ===== *)
(** * The threads of a FirecREST session (internal/remote/server and firecrest/controller.go)

    [Firecrest] and [Remote] run the rounds of the ticker between the start and
    the stop of a session.  In the program the ticker is a goroutine: its rounds
    interleave with the main thread, which starts the session, waits for the
    interrupt and stops the session, and both use the fields of the controller
    without a lock.  Here every access to a field is an event, [step] is a step of
    one thread, the interrupt, or the failure of the HTTP server, and the file
    with the saved state is part of the world.

    Without interference the threads do what the sequential definitions say
    ([startT_sequential], [roundT_sequential], [stopT_sequential]).
    [shared_controller] is what holds in all interleavings; [stale_state] is an
    interleaving in which a session that was stopped leaves its job behind in the
    saved state, and [refused_cancellation] one in which the process ends with
    code 0 although the API has refused to cancel the job. *)

From S2P Require Import Prelude Prog NetUrl Names Config Json JsonProps FirecrestScript Firecrest FirecrestProps FirecrestProtocol.
From Stdlib Require Import Ascii.
From stdpp Require Import relations.

(** ** Accesses to the controller *)

Inductive Stream := StdOut | StdErr.
Definition streamName (s : Stream) : string := match s with StdOut => "stdout" | StdErr => "stderr" end.

Definition pathOf (s : Stream) : Controller.t → string :=
  match s with StdOut => Controller.stdoutPath | StdErr => Controller.stderrPath end.
Definition offsetOf (s : Stream) : Controller.t → Z :=
  match s with StdOut => Controller.stdoutOffset | StdErr => Controller.stderrOffset end.
Definition bufOf (s : Stream) : Controller.t → string :=
  match s with StdOut => Controller.stdoutBuf | StdErr => Controller.stderrBuf end.

(** Assignments to the fields that change. *)
Inductive Assign :=
| JobID (x : string)
| CurrentStatus (x : RemoteSessionState)
| CurrentStatusError (x : option GoError)
| PathOf (s : Stream) (x : string)
| OffsetOf (s : Stream) (x : Z)
| BufOf (s : Stream) (x : string).

Definition assign (a : Assign) (c : Controller.t) : Controller.t :=
  match a with
  | JobID x => Controller.with_jobID c x
  | CurrentStatus x => Controller.with_status c x (Controller.currentStatusError c)
  | CurrentStatusError x => Controller.with_status c (Controller.currentStatus c) x
  | PathOf StdOut x => Controller.with_paths c x (Controller.stderrPath c)
  | PathOf StdErr x => Controller.with_paths c (Controller.stdoutPath c) x
  | OffsetOf StdOut x => Controller.with_offsets c x (Controller.stderrOffset c)
  | OffsetOf StdErr x => Controller.with_offsets c (Controller.stdoutOffset c) x
  | BufOf StdOut x => Controller.with_stdout c (Controller.stdoutOffset c) x
  | BufOf StdErr x => Controller.with_stderr c (Controller.stderrOffset c) x
  end.

Inductive Sh : Type → Type :=
| Call {R} (e : Fc R) : Sh R
| LoadJob : Sh string
(** any other field *)
| Load {A} (field : Controller.t → A) : Sh A
| Store (a : Assign) : Sh unit
(** [go c.periodicSessionStatus(ctx)] *)
| GoTicker : Sh unit
(** [<-ctx.Done()] *)
| WaitDone : Sh unit
| ShutdownServer : Sh (option GoError).

Section Threads.
(** The controller as it was created: its system and settings do not change. *)
Context (env : Env) (sessionScript : string) `{DockerReference} (c0 : Controller.t).

#[local] Notation call e := (trigger (Call e)).
#[local] Notation api := (embed (@Call)).

(** ** The main thread *)

(** [saveState] *)
Definition saveStateT : Prog Sh (option GoError) :=
  id ← trigger LoadJob;
  if id =s "" then mret (Some (Errorf "cannot save, job ID is not defined"))
  else
    err ← call (MkdirAll (getSaveDirPath env));
    match err with
    | Some err => mret (Some err)
    | None =>
        id ← trigger LoadJob;
        stdoutPath ← trigger (Load Controller.stdoutPath);
        stderrPath ← trigger (Load Controller.stderrPath);
        stdoutOffset ← trigger (Load Controller.stdoutOffset);
        stderrOffset ← trigger (Load Controller.stderrOffset);
        call (WriteFile (getSavePath env) (Marshal (savedState.mk id stdoutPath stderrPath stdoutOffset stderrOffset)))
    end.

(** [recoverState] *)
Definition recoverT : Prog Sh (option GoError) :=
  contents ← call (ReadFile (getSavePath env));
  match contents with
  | inr _ => mret None
  | inl contents =>
      match Unmarshal savedState.decode savedState.zero contents with
      | inr err => mret (Some err)
      | inl state =>
          _ ← (if savedState.JobID state ≠s "" then trigger (Store (JobID (savedState.JobID state))) else mret tt);
          _ ← trigger (Store (PathOf StdOut (savedState.StdoutPath state)));
          _ ← trigger (Store (PathOf StdErr (savedState.StderrPath state)));
          _ ← trigger (Store (OffsetOf StdOut (savedState.StdoutOffset state)));
          _ ← trigger (Store (OffsetOf StdErr (savedState.StderrOffset state)));
          mret None
      end
  end.

Definition slurmPath (sessionPath jobID suffix : string) : string := Path.Join [sessionPath; "slurm-" +:+ jobID +:+ suffix].

(** The end of [Start]: the log files, first by their usual names, then by the
    metadata of the job.  (A name that the metadata leaves as it is is assigned
    again here: no other thread writes the names.) *)
Definition submittedT (sessionPath jobID : string) : Prog Sh (option GoError) :=
  _ ← trigger (Store (JobID jobID));
  _ ← trigger (Store (PathOf StdOut (slurmPath sessionPath jobID ".out")));
  _ ← trigger (Store (PathOf StdErr (slurmPath sessionPath jobID ".err")));
  metaRes ← call (GetJobMetadata (Controller.systemName c0) jobID);
  let '(stdoutPath, stderrPath) := logPaths sessionPath jobID metaRes in
  _ ← trigger (Store (PathOf StdOut stdoutPath));
  _ ← trigger (Store (PathOf StdErr stderrPath));
  saveStateT.

(** [Start] *)
Definition startT : Prog Sh (option GoError) :=
  _ ← trigger GoTicker;
  err ← recoverT;
  match err with
  | Some err => mret (Some err)
  | None =>
      id ← trigger LoadJob;
      if id ≠s "" then mret None
      else if Controller.fakeStart c0 then _ ← trigger (Store (JobID fakeJobID)); mret None
      else
        started ← api (startJob env sessionScript c0);
        match started with
        | inr err => mret (Some err)
        | inl (sessionPath, jobID) => submittedT sessionPath jobID
        end
  end.

(** [Stop] *)
Definition stopT : Prog Sh (option GoError) :=
  id ← trigger LoadJob; api (Stop env (Controller.with_jobID c0 id)).

(** [server.Start] from the creation of the controller on: the exit code. *)
Definition serveT : Prog Sh Z :=
  err ← startT;
  match err with
  | Some _ => mret 1%Z
  | None =>
      _ ← trigger WaitDone;
      _ ← stopT;
      err ← trigger ShutdownServer;
      mret match err with Some _ => 1%Z | None => 0%Z end
  end.

(** ** A round of the ticker *)

(** [getCurrentStatus] *)
Definition getCurrentStatusT : Prog Sh (RemoteSessionState * option GoError) :=
  id ← trigger LoadJob;
  if id =s "" then mret (NotReady, None)
  else id ← trigger LoadJob; api (getCurrentStatus (Controller.with_jobID c0 id)).

(** The loop of [fetchLogStream]: a line is taken off the buffer and counted
    after it has been printed. *)
Fixpoint flushLinesT (s : Stream) (lines : list string) : Prog Sh unit :=
  match lines with
  | [] | [_] => mret tt
  | line :: lines =>
      _ ← call (Println (logLine (streamName s) line));
      _ ← trigger (Store (BufOf s (Strings.Join lines newline_)));
      offset ← trigger (Load (offsetOf s));
      _ ← trigger (Store (OffsetOf s (Int.wrap64 (offset + Z.of_nat (String.length line) + 1))));
      flushLinesT s lines
  end.

(** [fetchLogStream] *)
Definition fetchLogStreamT (s : Stream) : Prog Sh unit :=
  filePath ← trigger (Load (pathOf s));
  offset ← trigger (Load (offsetOf s));
  buf ← trigger (Load (bufOf s));
  res ← call (GetView (Controller.systemName c0) filePath (Int.wrap64 (offset + Z.of_nat (String.length buf))) logSize);
  match res with
  | inl (Response.mk _ (Some (Some content)) _ _) =>
      if content =s "" then mret tt
      else _ ← trigger (Store (BufOf s (buf +:+ content))); flushLinesT s (splitLines (buf +:+ content))
  | _ => mret tt
  end.

(** [fetchSessionLogs] *)
Definition fetchSessionLogsT : Prog Sh unit :=
  id ← trigger LoadJob;
  if id =s "" then mret tt
  else
    stdoutPath ← trigger (Load Controller.stdoutPath);
    if stdoutPath =s "" then mret tt
    else
      stderrPath ← trigger (Load Controller.stderrPath);
      stdoutPath ← trigger (Load Controller.stdoutPath);
      _ ← fetchLogStreamT StdOut;
      if (stderrPath ≠s "") && (stderrPath ≠s stdoutPath) then fetchLogStreamT StdErr else mret tt.

(** The body of the loop of [periodicSessionStatus]. *)
Definition roundT : Prog Sh unit :=
  '(state, err) ← getCurrentStatusT;
  _ ← trigger (Store (CurrentStatus state));
  _ ← trigger (Store (CurrentStatusError err));
  _ ← fetchSessionLogsT;
  id ← trigger LoadJob;
  if id ≠s "" then _ ← saveStateT; mret tt else mret tt.

(** ** One thread alone *)

(** The calls go to [h], the fields are those of the controller in the state. *)
Definition shared {W} (h : Handler Fc W) : Handler Sh (Controller.t * W) := λ R e,
  match e in Sh R return Controller.t * W → R * (Controller.t * W) with
  | Call e => λ '(c, w), let '(r, w') := h _ e w in (r, (c, w'))
  | LoadJob => λ '(c, w), (Controller.jobID c, (c, w))
  | Load field => λ '(c, w), (field c, (c, w))
  | Store a => λ '(c, w), (tt, (assign a c, w))
  | GoTicker | WaitDone => λ s, (tt, s)
  | ShutdownServer => λ s, (None, s)
  end.

Lemma run_mbind {E A B W} (h : Handler E W) (p : Prog E A) (f : A → Prog E B) (w : W) :
  run h (p ≫= f) w = match run h p w with (Done a, w') => run h (f a) w' | (Panicked why, w') => (Panicked why, w') end.
Proof. apply run_bind. Qed.

Lemma shared_api {W A} (h : Handler Fc W) (p : Prog Fc A) c w :
  run (shared h) (api p) (c, w) = let '(o, w') := run h p w in (o, (c, w')).
Proof.
  revert w. induction p as [a|why|R e k IH]; intros w; cbn; [done..|]. destruct (h R e w) as [r w'] eqn:E. apply IH.
Qed.

Lemma saveStateT_run {W} (h : Handler Fc W) c w :
  run (shared h) saveStateT (c, w) = let '(o, w') := run h (saveState env c) w in (o, (c, w')).
Proof.
  unfold saveStateT, saveState. cbn. destruct (Controller.jobID c =s ""); [done|]. cbn. destruct (h _ _ w) as [[err|] w1]; [done|].
  cbn. by destruct (h _ _ w1).
Qed.
Lemma stopT_sequential {W} (h : Handler Fc W) c w : Controller.systemName c = Controller.systemName c0 →
  run (shared h) stopT (c, w) = let '(o, w') := run h (Stop env c) w in (o, (c, w')).
Proof. intros Hs. cbn. rewrite shared_api. unfold Stop. cbn. by rewrite Hs. Qed.

Definition with_stream (s : Stream) (c : Controller.t) (offset : Z) (buf : string) : Controller.t :=
  match s with StdOut => Controller.with_stdout c offset buf | StdErr => Controller.with_stderr c offset buf end.

Lemma with_stream_id s c : with_stream s c (offsetOf s c) (bufOf s c) = c.
Proof. by destruct s, c. Qed.

Lemma flushLinesT_run {W} (h : Handler Fc W) s lines c o w : lines ≠ [] → ∃ o' buf w',
  run h (flushLines (streamName s) lines o) w = (Done (o', buf), w') ∧
  run (shared h) (flushLinesT s lines) (with_stream s c o (Strings.Join lines newline_), w) = (Done tt, (with_stream s c o' buf, w')).
Proof.
  revert o w. induction lines as [|line [|next lines] IH]; intros o w Hne; [done|by eexists _, _, _|].
  assert (Hstep : flushLinesT s (line :: next :: lines) =
    (_ ← call (Println (logLine (streamName s) line)); _ ← trigger (Store (BufOf s (Strings.Join (next :: lines) newline_)));
     offset ← trigger (Load (offsetOf s)); _ ← trigger (Store (OffsetOf s (Int.wrap64 (offset + Z.of_nat (String.length line) + 1))));
     flushLinesT s (next :: lines))) by done.
  assert (Hseq : flushLines (streamName s) (line :: next :: lines) o =
    (_ ← trigger (Println (logLine (streamName s) line));
     flushLines (streamName s) (next :: lines) (Int.wrap64 (o + Z.of_nat (String.length line) + 1)))) by done.
  rewrite Hstep, Hseq. cbn -[flushLinesT flushLines Strings.Join]. destruct (h _ _ w) as [r w1].
  destruct (IH (Int.wrap64 (o + Z.of_nat (String.length line) + 1)) w1) as (o' & buf & w' & H1 & H2); [done|].
  exists o', buf, w'. split; [done|]. rewrite <- H2. f_equal. f_equal. by destruct s.
Qed.

Lemma splitLines_join x : Strings.Join (splitLines x) newline_ = x ∧ splitLines x ≠ [].
Proof.
  induction x as [|a x [IH Hne]]; [done|]. cbn [splitLines]. destruct (Ascii.eqb a "010"%char) eqn:Ea.
  - apply Ascii.eqb_eq in Ea. subst a. split; [|done]. destruct (splitLines x) as [|l ls]; [done|]. cbn [Strings.Join] in *. by rewrite IH.
  - destruct (splitLines x) as [|l ls]; [done|]. split; [|done]. destruct ls; cbn [Strings.Join] in *; by rewrite <- IH.
Qed.

Lemma fetchLogStreamT_run {W} (h : Handler Fc W) s c w : Controller.systemName c = Controller.systemName c0 → ∃ c' w',
  run h (fetchLogStream c (streamName s)) w = (Done c', w') ∧
  run (shared h) (fetchLogStreamT s) (c, w) = (Done tt, (c', w')) ∧ ∃ o b, c' = with_stream s c o b.
Proof.
  intros Hs. assert (fetchLogStream c (streamName s) =
    '(o, b) ← fetchFrom (Controller.systemName c) (streamName s) (pathOf s c) (offsetOf s c) (bufOf s c); mret (with_stream s c o b)) as ->
    by by destruct s.
  assert (Hid : ∃ o b, c = with_stream s c o b) by by (exists (offsetOf s c), (bufOf s c); rewrite with_stream_id).
  unfold fetchLogStreamT, fetchFrom. cbn -[flushLinesT flushLines splitLines]. rewrite Hs. destruct (h _ _ w) as [res w1].
  assert (Hno : ∃ c' w', (Done (with_stream s c (offsetOf s c) (bufOf s c)), w1) = (Done c', w') ∧
    (Done tt, (c, w1)) = (Done tt, (c', w')) ∧ ∃ o b, c' = with_stream s c o b) by by (rewrite with_stream_id; eexists _, _).
  destruct res as [[code [[content|]|] e4 e5]|err]; cbn -[flushLinesT flushLines splitLines]; try exact Hno.
  destruct (content =s ""); cbn -[flushLinesT flushLines splitLines]; [exact Hno|].
  destruct (splitLines_join (bufOf s c +:+ content)) as [Hj Hne].
  destruct (flushLinesT_run h s _ c (offsetOf s c) w1 Hne) as (o & b & w2 & H1 & H2). rewrite Hj in H2.
  exists (with_stream s c o b), w2. rewrite run_bind, H1. split; [done|]. split; [|by eexists _, _]. rewrite <- H2. do 2 f_equal. by destruct s.
Qed.

Lemma fetchSessionLogsT_run {W} (h : Handler Fc W) c w : Controller.systemName c = Controller.systemName c0 → ∃ c' w',
  run h (fetchSessionLogs c) w = (Done c', w') ∧ run (shared h) fetchSessionLogsT (c, w) = (Done tt, (c', w')).
Proof.
  intros Hs. unfold fetchSessionLogsT, fetchSessionLogs, streamsToFetch. cbn -[fetchLogStreamT fetchLogStream].
  destruct (Controller.jobID c =s ""); [by eexists _, _|]. cbn -[fetchLogStreamT fetchLogStream].
  destruct (Controller.stdoutPath c =s ""); [by eexists _, _|]. cbn -[fetchLogStreamT fetchLogStream].
  destruct (fetchLogStreamT_run h StdOut c w Hs) as (c2 & w2 & H1 & H2 & o & b & ->). rewrite run_bind, run_mbind.
  cbn [streamName] in H1. rewrite H1, H2.
  destruct ((Controller.stderrPath c ≠s "") && (Controller.stderrPath c ≠s Controller.stdoutPath c)); [|by eexists _, _].
  destruct (fetchLogStreamT_run h StdErr (with_stream StdOut c o b) w2 Hs) as (c3 & w3 & H3 & H4 & _). cbn [streamName] in H3.
  exists c3, w3. cbn [foldM]. rewrite run_bind, H3. by rewrite H4.
Qed.

(** A round that nothing interferes with is a round of the sequential model. *)
Lemma roundT_sequential {W} (h : Handler Fc W) c w : Controller.systemName c = Controller.systemName c0 → ∃ c' w',
  run h (tick env c) w = (Done c', w') ∧ run (shared h) roundT (c, w) = (Done tt, (c', w')).
Proof.
  intros Hs. unfold tick, roundT. rewrite !run_mbind.
  assert (∃ st err w1, run h (getCurrentStatus c) w = (Done (st, err), w1) ∧
    run (shared h) getCurrentStatusT (c, w) = (Done (st, err), (c, w1))) as (st & err & w1 & -> & ->).
  { unfold getCurrentStatusT. cbn. unfold getCurrentStatus. cbn. destruct (Controller.jobID c =s "") eqn:E; [by eexists _, _, _|].
    cbn. rewrite E. cbn. rewrite Hs. destruct (h _ _ w) as [res w1]. cbn. by destruct (expectJSON _ res) as [[[|x l]|]|]; cbn;
      [|destruct (GetRemoteSessionState x) as [? [?|]]|..]; eexists _, _, _. }
  cbn -[fetchSessionLogsT fetchSessionLogs saveState saveStateT assign]. rewrite !run_mbind.
  change (assign (CurrentStatusError err) (assign (CurrentStatus st) c)) with (Controller.with_status c st err).
  set (c1 := Controller.with_status c st err).
  assert (Hs1 : Controller.systemName c1 = Controller.systemName c0) by done.
  destruct (fetchSessionLogsT_run h c1 w1 Hs1) as (c2 & w2 & -> & ->).
  cbn -[saveState saveStateT]. destruct (Controller.jobID c2 ≠s ""); [|by eexists _, _]. rewrite !run_mbind, saveStateT_run.
  assert (∃ err w3, run h (saveState env c2) w2 = (Done err, w3)) as (err' & w3 & ->).
  { unfold saveState. destruct (Controller.jobID c2 =s ""); [by eexists _, _|]. cbn. destruct (h _ _ w2) as [[e|] w3]; [by eexists _, _|].
    cbn. destruct (h _ _ w3) as [r w4]. by eexists _, _. }
  by eexists _, _.
Qed.

(** A start that nothing interferes with is a start of the sequential model. *)
Lemma startT_sequential {W} (h : Handler Fc W) w :
  match run h (Start env sessionScript c0) w with
  | (Done (c, err), w') => run (shared h) startT (c0, w) = (Done err, (c, w'))
  | (Panicked why, w') => ∃ c, run (shared h) startT (c0, w) = (Panicked why, (c, w'))
  end.
Proof.
  assert (Hrec : ∀ c err w1, run h (recoverState env c0) w = (Done (c, err), w1) → run (shared h) recoverT (c0, w) = (Done err, (c, w1)) ∧
    startJob env sessionScript c = startJob env sessionScript c0 ∧ Controller.fakeStart c = Controller.fakeStart c0 ∧
    Controller.systemName c = Controller.systemName c0).
  { intros c err w1. unfold recoverState, recoverT. cbn. destruct (h _ _ w) as [[text|e] w2]; cbn; [|by intros [= <- <- <-]].
    destruct (Unmarshal _ _ text) as [st|e]; cbn; [|by intros [= <- <- <-]]. intros [= <- <- <-]. unfold recovered.
    by destruct (savedState.JobID st =s ""). }
  assert (∃ c err w1, run h (recoverState env c0) w = (Done (c, err), w1)) as (c & err & w1 & Hr).
  { unfold recoverState. cbn. destruct (h _ _ w) as [[text|e] w2]; cbn; [|by eexists _, _, _]. destruct (Unmarshal _ _ text); by eexists _, _, _. }
  destruct (Hrec _ _ _ Hr) as (HT & Hjob & Hfake & Hsys). unfold Start, startT. rewrite !run_mbind, Hr. cbn [run bind mbind Prog_bind trigger shared].
  rewrite !run_mbind, HT. destruct err as [err|]; [done|]. cbn [run bind mbind Prog_bind trigger shared].
  destruct (Controller.jobID c ≠s ""); [done|]. rewrite Hfake. destruct (Controller.fakeStart c0); [done|]. rewrite !run_mbind, shared_api, Hjob.
  unfold Result in *. generalize (@run Fc ((string * string) + GoError) W h (startJob env sessionScript c0) w1).
  intros [[[[p id]|err]|why] w2]; [|done|by eexists].
  unfold submittedT, afterSubmission. cbn -[saveState saveStateT]. rewrite Hsys. destruct (h _ _ w2) as [metaRes w3].
  destruct (logPaths p id metaRes) as [out errPath]. cbn -[saveState saveStateT]. rewrite saveStateT_run, ?run_mbind.
  set (c3 := Controller.with_paths (Controller.with_jobID c id) out errPath).
  repeat match goal with |- context [Controller.with_paths (Controller.with_paths ?c ?a ?b) out errPath] =>
    change (Controller.with_paths (Controller.with_paths c a b) out errPath) with (Controller.with_paths c out errPath) end.
  fold c3. destruct (run h (saveState env c3) w3) as [[err|why] w4]; [done|by eexists].
Qed.
End Threads.

(** ** All threads together *)

Module Shared.
Record t := mk {
  controller : Controller.t;
  interrupted : bool;
  (** the file with the saved state *)
  disk : option string;
  (** the jobs that the API has accepted, the calls to cancel a job, and those of
      them that the API has accepted *)
  submitted : list string;
  cancelRequests : list string;
  cancelled : list string;
  ended : option Z }.
Definition with_controller (w : t) (x : Controller.t) : t :=
  mk x (interrupted w) (disk w) (submitted w) (cancelRequests w) (cancelled w) (ended w).
Definition with_interrupt (w : t) : t :=
  mk (controller w) true (disk w) (submitted w) (cancelRequests w) (cancelled w) (ended w).
Definition with_disk (w : t) (x : option string) : t :=
  mk (controller w) (interrupted w) x (submitted w) (cancelRequests w) (cancelled w) (ended w).
Definition with_submitted (w : t) (id : string) : t :=
  mk (controller w) (interrupted w) (disk w) (submitted w ++ [id]) (cancelRequests w) (cancelled w) (ended w).
Definition with_cancelRequest (w : t) (id : string) (accepted : bool) : t :=
  mk (controller w) (interrupted w) (disk w) (submitted w) (cancelRequests w ++ [id])
    (if accepted then cancelled w ++ [id] else cancelled w) (ended w).
Definition with_ended (w : t) (code : Z) : t :=
  mk (controller w) (interrupted w) (disk w) (submitted w) (cancelRequests w) (cancelled w) (Some code).
End Shared.

Inductive Ticker := NotStarted | Waiting | InRound (p : Prog Sh unit) | Finished.

Section Interleaving.
Context (env : Env) (sessionScript : string) `{DockerReference} (c0 : Controller.t) (disk0 : option string).

#[local] Notation api := (embed (@Call)).

#[local] Notation savePath := (getSavePath env).

(** The API answers a call with success. *)
Definition accepted {A} (r : Result (Response.t A)) : bool :=
  match r with inl res => (200 <=? Response.StatusCode res)%Z && (Response.StatusCode res <? 300)%Z | inr _ => false end.

(** What a call of the client or the file system does.  Its answer is arbitrary,
    but the saved state is read as it is on the disk, if it can be read. *)
Definition execCall {R} (e : Fc R) (w : Shared.t) : R → Shared.t → Prop :=
  match e in Fc R return R → Shared.t → Prop with
  | ReadFile path => λ r w', w' = w ∧
      (path = savePath → match r with inl text => Shared.disk w = Some text | inr _ => True end)
  | WriteFile path contents => λ r w',
      if decide (path = savePath) then w' = match r with None => Shared.with_disk w (Some contents) | Some _ => w end else w' = w
  | Remove path => λ r w', if decide (path = savePath) then w' = match r with None => Shared.with_disk w None | Some _ => w end else w' = w
  | PostJobSubmit _ _ => λ r w', w' = match r with
      | inl (Response.mk _ (Some (Some id)) _ _) => Shared.with_submitted w id
      | _ => w
      end
  | DeleteJobCancel _ id => λ r w', w' = Shared.with_cancelRequest w id (accepted r)
  | _ => λ _ w', w' = w
  end.

Definition exec {R} (e : Sh R) (w : Shared.t) : R → Shared.t → Prop :=
  match e in Sh R return R → Shared.t → Prop with
  | Call e => execCall e w
  | LoadJob => λ r w', r = Controller.jobID (Shared.controller w) ∧ w' = w
  | Load field => λ r w', r = field (Shared.controller w) ∧ w' = w
  | Store a => λ _ w', w' = Shared.with_controller w (assign a (Shared.controller w))
  | GoTicker => λ _ _, False
  | WaitDone => λ _ w', Shared.interrupted w = true ∧ w' = w
  | ShutdownServer => λ _ w', w' = w
  end.

Definition State : Type := Prog Sh Z * Ticker * Shared.t.

(** The ticker may fire as long as it has not seen the interrupt; when both have
    happened either is taken. *)
Inductive step : State → State → Prop :=
| step_main R (e : Sh R) k r t w w' :
    Shared.ended w = None → exec e w r w' → step (Vis e k, t, w) (k r, t, w')
| step_go k t w : Shared.ended w = None → step (Vis GoTicker k, t, w) (k tt, Waiting, w)
| step_tick main w : Shared.ended w = None → step (main, Waiting, w) (main, InRound (roundT env c0), w)
| step_done main w : Shared.ended w = None → Shared.interrupted w = true → step (main, Waiting, w) (main, Finished, w)
| step_round main R (e : Sh R) k r w w' :
    Shared.ended w = None → exec e w r w' → step (main, InRound (Vis e k), w) (main, InRound (k r), w')
| step_round_end main w : Shared.ended w = None → step (main, InRound (Ret tt), w) (main, Waiting, w)
| step_interrupt main t w : Shared.ended w = None → step (main, t, w) (main, t, Shared.with_interrupt w)
| step_return code t w : Shared.ended w = None → step (Ret code, t, w) (Ret code, t, Shared.with_ended w code)
(** the HTTP server fails: [os.Exit(1)] *)
| step_exit main t w : Shared.ended w = None → step (main, t, w) (main, t, Shared.with_ended w 1).

Definition launched : State :=
  (serveT env sessionScript c0, NotStarted, Shared.mk c0 false disk0 [] [] [] None).

(** *** The main thread *)

Record Main := mkMain {
  (** the answer to the first read of the saved state *)
  gRead : option (option string);
  (** the job that has been submitted, and the one in the field *)
  gSubmitted : option string;
  gField : string;
  gWaited : bool;
  gCancelled : bool }.

Definition savedBy (id : string) (contents : string) : Prop :=
  ∃ st, contents = Marshal st ∧ savedState.JobID st = id ∧ id ≠ "".

Definition mainCall {R} (e : Fc R) : R → Main → Main :=
  match e in Fc R return R → Main → Main with
  | ReadFile path => λ r g,
      match gRead g with
      | None => if decide (path = savePath ∧ gField g = "" ∧ gWaited g = false)
                then mkMain (Some (match r with inl text => Some text | inr _ => None end)) (gSubmitted g) (gField g) (gWaited g)
                       (gCancelled g)
                else g
      | Some _ => g
      end
  | PostJobSubmit _ _ => λ r g,
      match r with
      | inl (Response.mk _ (Some (Some id)) _ _) => mkMain (gRead g) (Some id) (gField g) (gWaited g) (gCancelled g)
      | _ => g
      end
  | DeleteJobCancel _ _ => λ _ g, mkMain (gRead g) (gSubmitted g) (gField g) (gWaited g) true
  | _ => λ _ g, g
  end.

Definition mainMonitor : Monitor Sh Main := {|
  allowed R e := match e in Sh R return Main → Prop with
    | Call (PostJobSubmit _ _) => λ g, gSubmitted g = None ∧ gField g = ""
    | Call (DeleteJobCancel _ id) => λ g, gWaited g = true ∧ gCancelled g = false ∧ id = gField g ∧ id ≠ ""
    | Call (WriteFile path contents) => λ g, path = savePath → savedBy (gField g) contents
    | Call (Remove path) => λ g, gWaited g = true
    | Store (JobID x) => λ g, gField g = "" ∧
        (gSubmitted g = Some x ∨ gSubmitted g = None ∧ ∃ text, gRead g = Some (Some text) ∧ savedJob text = Some x)
    | _ => λ _, True
    end;
  rely R e := match e in Sh R return Main → R → Prop with
    | LoadJob => λ g r, r = gField g
    | _ => λ _ _, True
    end;
  next R e := match e in Sh R return R → Main → Main with
    | Call e => mainCall e
    | Store (JobID x) => λ _ g, mkMain (gRead g) (gSubmitted g) x (gWaited g) (gCancelled g)
    | WaitDone => λ _ g, mkMain (gRead g) (gSubmitted g) (gField g) true (gCancelled g)
    | _ => λ _ g, g
    end;
  panic_ok _ := False |}.

(** *** The ticker *)

(** The ghost state is the job that a round has seen. *)
Definition tickerMonitor : Monitor Sh string := {|
  allowed R e := match e in Sh R return string → Prop with
    | Call (PostJobSubmit _ _) | Call (DeleteJobCancel _ _) | Call (Remove _) => λ _, False
    | Call (WriteFile path contents) => λ seen, savedBy seen contents
    | Store (JobID _) | GoTicker | WaitDone | ShutdownServer => λ _, False
    | _ => λ _, True
    end;
  rely R e := match e in Sh R return string → R → Prop with
    | LoadJob => λ seen r, seen ≠ "" → r = seen
    | _ => λ _ _, True
    end;
  next R e := match e in Sh R return R → string → string with
    | LoadJob => λ r seen, r
    | _ => λ _ seen, seen
    end;
  panic_ok _ := False |}.

#[local] Notation M := mainMonitor.
#[local] Notation T := tickerMonitor.

(** The next call of the program, and the branch of a test on its answer. *)
#[local] Ltac call_step := split; [try done|].
#[local] Ltac go := cbn [mbind Prog_bind bind trigger mret Prog_ret next mainMonitor tickerMonitor mainCall negb].
#[local] Ltac test_job x :=
  go; let E := fresh "E" in destruct (x =s "") eqn:E; [apply String.eqb_eq in E|apply String.eqb_neq in E]; go.

(** Calls that neither submit nor cancel, save or remove. *)
Definition quietMonitor : Monitor Fc unit := {|
  allowed R e _ := match e with PostJobSubmit _ _ | DeleteJobCancel _ _ | WriteFile _ _ | Remove _ => False | _ => True end;
  rely _ _ _ _ := True;
  next _ _ _ s := s;
  panic_ok _ := False |}.
#[local] Notation quiet p := (wp quietMonitor p (λ _ _, True) tt).

(** **** The setup of a job is quiet until the job is submitted *)

Lemma quiet_bind {A B} (p : Prog Fc A) (f : A → Prog Fc B) : quiet p → (∀ a, quiet (f a)) → quiet (p ≫= f).
Proof. intros Hp Hf. eapply wp_bind_intro; [exact Hp|]. intros a [] _. apply Hf. Qed.

Lemma quiet_bindE {A B} (p : Prog Fc (Result A)) (f : A → Prog Fc (Result B)) : quiet p → (∀ a, quiet (f a)) → quiet (bindE p f).
Proof. intros Hp Hf. apply quiet_bind; [done|]. by intros [a|err]. Qed.

Lemma quiet_call {R} (e : Fc R) : allowed quietMonitor e tt → quiet (trigger e).
Proof. done. Qed.

Lemma quiet_uploadGitConfigs p repos keys : quiet (uploadGitConfigs c0 p repos keys).
Proof.
  induction keys as [|repo keys IH]; [done|]. cbn [uploadGitConfigs]. apply quiet_bindE; [done|]. intros _. apply quiet_bindE; [done|].
  intros text. apply quiet_bindE; [|done]. split; [done|]. by intros [res|err] _.
Qed.

Lemma quiet_collectEntries workDir entries repos : quiet (collectEntries workDir entries repos).
Proof.
  revert repos. induction entries as [|entry entries IH]; intros repos; [done|]. split; [done|]. intros [err|] _; [done|].
  cbn [collectEntries]. case_if; [apply IH|]. split; [done|]. intros [text|err] _; apply IH.
Qed.

Lemma quiet_setup sessionPath : quiet (setupDirectories env c0 sessionPath) ∧ quiet (setupGit env c0 sessionPath).
Proof.
  split.
  - apply quiet_bindE; [done|]. intros _. apply quiet_bindE; [done|]. intros _. unfold uploadSecret. case_if; [|done]. done.
  - apply quiet_bindE.
    + apply quiet_bindE; [done|]. intros entries. apply quiet_collectEntries.
    + intros repos. apply quiet_bind; [done|]. intros keys. apply quiet_bindE; [apply quiet_uploadGitConfigs|done].
Qed.

Lemma quiet_startJob : quiet (getSessionPath env c0) ∧ (∀ repos, quiet (jobEnvironment env repos)) ∧
  ∀ directory name text, quiet (uploadFile c0 directory name text).
Proof.
  split_and!.
  - unfold getSessionPath. apply quiet_bindE; [done|]. intros sys. apply quiet_bindE; [done|]. intros user. case_if; [done|].
    by destruct (getPreferredScratch _).
  - intros repos. apply quiet_bindE; [by destruct (tunnelEnv _ _)|]. intros jobEnv. done.
  - intros directory name text. split; [done|]. by intros [res|err] _.
Qed.

(** The calls of the main thread to the client, seen on their own. *)
Definition mainFc : Monitor Fc Main := {|
  allowed R e := allowed M (Call e);
  rely _ _ _ _ := True;
  next R e := next M (Call e);
  panic_ok _ := False |}.

Lemma main_api {A} (p : Prog Fc A) Q g : wp mainFc p Q g → wp M (api p) Q g.
Proof. apply wp_embed. by split_and!. Qed.

Lemma quiet_main {A} (p : Prog Fc A) g : gRead g ≠ None → quiet p → wp mainFc p (λ _ g', g' = g) g.
Proof.
  intros Hg. induction p as [a|why|R e k IH]; intros Hq; [done..|]. destruct Hq as [Ha Hk]. split; [by destruct e|].
  intros r _. assert (next mainFc e r g = g) as ->; [|by apply IH, Hk]. destruct e; try done. cbn. by destruct (gRead g).
Qed.

Lemma quiet_main_bindE {A B} (p : Prog Fc (Result A)) (f : A → Prog Fc (Result B)) (Q : Result B → Main → Prop) g :
  gRead g ≠ None → quiet p → (∀ err, Q (inr err) g) → (∀ a, wp mainFc (f a) Q g) → wp mainFc (bindE p f) Q g.
Proof.
  intros Hg Hp Herr Hf. eapply wp_bind_intro; [by apply quiet_main|]. intros [a|err] g' ->; [apply Hf|apply Herr].
Qed.

Lemma startJob_main g : gRead g ≠ None → gSubmitted g = None → gField g = "" →
  wp mainFc (startJob env sessionScript c0)
    (λ r g', match r with inl (_, id) => g' = mkMain (gRead g) (Some id) "" (gWaited g) (gCancelled g) | inr _ => True end) g.
Proof.
  intros Hg Hs Hf. destruct quiet_startJob as (H1 & H2 & H3). apply quiet_main_bindE; [done..|]. intros [sys p].
  destruct (quiet_setup p) as [H4 H5]. apply quiet_main_bindE; [done..|]. intros _. apply quiet_main_bindE; [done..|]. intros repos.
  apply quiet_main_bindE; [done|apply H2|done|]. intros jobEnv. apply quiet_main_bindE; [done|apply H3|done|]. intros _.
  unfold bindE. apply wp_bind. split; [done|]. intros [[code [[id|]|] e4 e5]|err] _; cbn; try done. by rewrite Hf.
Qed.

Lemma saveStateT_main g :
  wp M (saveStateT env) (λ err g', g' = g ∧ (err = None → gField g ≠ "")) g.
Proof.
  call_step. intros id ->. test_job (gField g); [done|]. call_step. intros [err|] _; [done|].
  split; [done|]. intros id ->. do 4 (split; [done|]; intros ? _). split; [|done]. intros _. by eexists.
Qed.

Lemma recoverT_main g : gSubmitted g = None → gField g = "" → gRead g = None → gWaited g = false →
  wp M (recoverT env) (λ err g', gRead g' ≠ None ∧ gSubmitted g' = None ∧ gWaited g' = false ∧ gCancelled g' = gCancelled g) g.
Proof.
  intros Hs Hf Hr Hw. split; [done|]. intros r _. cbn. rewrite Hr, decide_True by done.
  destruct r as [text|err]; [|done]. destruct (Unmarshal _ _ text) as [st|err] eqn:Hu; [|done]. apply wp_bind.
  assert (Hrest : ∀ g', gRead g' ≠ None ∧ gSubmitted g' = None ∧ gWaited g' = false ∧ gCancelled g' = gCancelled g →
    wp M (_ ← trigger (Store (PathOf StdOut (savedState.StdoutPath st))); _ ← trigger (Store (PathOf StdErr (savedState.StderrPath st)));
          _ ← trigger (Store (OffsetOf StdOut (savedState.StdoutOffset st)));
          _ ← trigger (Store (OffsetOf StdErr (savedState.StderrOffset st))); mret (None : option GoError))
      (λ _ g', gRead g' ≠ None ∧ gSubmitted g' = None ∧ gWaited g' = false ∧ gCancelled g' = gCancelled g) g').
  { intros g' Hg'. by do 4 (split; [done|]; intros ? _). }
  destruct (savedState.JobID st ≠s "") eqn:Ej; [|by apply Hrest].
  split; [|intros [] _; by apply Hrest]. split; [done|]. right. split; [done|]. exists text. split; [done|]. unfold savedJob. rewrite Hu.
  by destruct (savedState.JobID st =s "").
Qed.

(** A start that returns no error has set the job, and has not been waiting or
    cancelling. *)
Definition startPost (err : option GoError) (g : Main) : Prop :=
  err = None → gField g ≠ "" ∧ gWaited g = false ∧ gCancelled g = false.

Lemma startT_main : Controller.fakeStart c0 = false →
  wp M (startT env sessionScript c0) startPost (mkMain None None "" false false).
Proof.
  intros Hfake. split; [done|]. intros [] _. go. eapply wp_bind_intro; [exact (recoverT_main (mkMain None None "" false false) eq_refl eq_refl eq_refl eq_refl)|].
  intros [err|] g (Hr & Hs & Hw & Hc); [done|]. call_step. intros id ->. test_job (gField g); [|done]. rewrite Hfake. eapply wp_bind_intro; [by apply main_api, startJob_main|]. intros [[p id]|err] g' Hg'; [|done]. subst g'.
  split; [by split; [|left]|]. intros [] _. go. do 2 (call_step; intros [] _; go). call_step. intros metaRes _. go.
  destruct (logPaths p id metaRes) as [out errPath]. do 2 (call_step; intros [] _; go).
  eapply wp_mono; [apply saveStateT_main|]. intros err g' [-> He] Hn. cbn in *. auto.
Qed.

Definition servePost (code : Z) (g : Main) : Prop := code = 0%Z → gWaited g = true ∧ gCancelled g = true.

Lemma serveT_main : Controller.fakeStart c0 = false →
  wp M (serveT env sessionScript c0) servePost (mkMain None None "" false false).
Proof.
  intros Hfake. eapply wp_bind_intro; [by apply startT_main|]. intros [err|] g Hg; [done|]. destruct (Hg eq_refl) as (Hf & Hw & Hc).
  call_step. intros [] _. go. eapply wp_bind_intro with (P := λ _ g', gWaited g' = true ∧ gCancelled g' = true).
  - call_step. intros id ->. apply main_api. unfold Stop. cbn [Controller.jobID Controller.with_jobID gField].
    rewrite (proj2 (String.eqb_neq _ _) Hf). call_step. intros r _. go. split; [cbn; by split_and!|]. intros r' _. by split.
  - intros _ g' Hg'. call_step. intros [err|] _; by intros ?.
Qed.

(** **** The ticker *)

Lemma quiet_ticker {A} (p : Prog Fc A) seen : quiet p → wp T (api p) (λ _ s, s = seen) seen.
Proof.
  induction p as [a|why|R e k IH]; intros Hq; [done..|]. destruct Hq as [Ha Hk]. split; [by destruct e|]. intros r _.
  by apply IH, Hk.
Qed.

Lemma flushLinesT_ticker s lines seen : wp T (flushLinesT s lines) (λ _ s, s = seen) seen.
Proof.
  induction lines as [|line [|next lines] IH]; [done..|]. split; [done|]. intros ? _. do 3 (split; [done|]; intros ? _). exact IH.
Qed.

Lemma fetchLogStreamT_ticker s seen : wp T (fetchLogStreamT c0 s) (λ _ s, s = seen) seen.
Proof.
  do 4 (split; [done|]; intros ? _). cbn -[wp flushLinesT splitLines]. repeat case_match; try done.
  split; [done|]. intros ? _. apply flushLinesT_ticker.
Qed.

Lemma roundT_ticker seen : wp T (roundT env c0) (λ _ _, True) seen.
Proof.
  eapply wp_bind_intro with (P := λ _ _, True).
  { call_step. intros id _. test_job id; [done|]. split; [done|]. intros id' _. eapply wp_mono; [apply quiet_ticker|done].
    unfold getCurrentStatus. by destruct (Controller.jobID _ =s ""). }
  intros [st err] s1 _. do 2 (call_step; intros [] _; go). eapply wp_bind_intro with (P := λ _ _, True).
  { call_step. intros id _. test_job id; [done|]. call_step. intros out _. test_job out; [done|].
    do 2 (call_step; intros ? _; go). eapply wp_bind_intro; [apply fetchLogStreamT_ticker|]. intros _ s2 ->. case_if; [|done].
    eapply wp_mono; [apply fetchLogStreamT_ticker|done]. }
  intros _ s2 _. call_step. intros id _. test_job id; [done|]. apply wp_bind.
  call_step. intros id2 _. test_job id2; [done|]. call_step. intros [e|] _; [done|].
  call_step. intros id3 Hid. go. do 4 (call_step; intros ? _; go). split; [|done]. eexists (savedState.mk id3 _ _ _ _).
  split; [done|]. split; [done|]. by rewrite Hid.
Qed.

(** *** The world, the main thread and the ticker *)

Record Coherent (w : Shared.t) (g : Main) : Prop := {
  co_job : Controller.jobID (Shared.controller w) = gField g;
  co_waited : gWaited g = true → Shared.interrupted w = true;
  co_submitted : Shared.submitted w = option_list (gSubmitted g);
  co_field : gField g ≠ "" →
    gSubmitted g = Some (gField g) ∨ gSubmitted g = None ∧ ∃ text, disk0 = Some text ∧ savedJob text = Some (gField g);
  co_read text : gRead g = Some (Some text) → disk0 = Some text;
  co_fresh : gField g = "" → gWaited g = false → Shared.disk w = disk0;
  co_disk : Shared.disk w = disk0 ∨ Shared.disk w = None ∨ ∃ text, Shared.disk w = Some text ∧ savedBy (gField g) text;
  co_requests : Shared.cancelRequests w = if gCancelled g then [gField g] else [];
  co_cancelled : Shared.cancelled w = [] ∨ Shared.cancelled w = Shared.cancelRequests w;
  co_stopped : gCancelled g = true → gField g ≠ "" ∧ gWaited g = true;
  co_ended : Shared.ended w = Some 0%Z → gWaited g = true ∧ gCancelled g = true }.

(** A field other than the job is nothing the invariant speaks of. *)
Lemma coherent_assign w g a : (∀ x, a ≠ JobID x) → Coherent w g → Coherent (Shared.with_controller w (assign a (Shared.controller w))) g.
Proof.
  intros Ha []. split; try done. destruct a as [x|x|x|[] x|[] x|[] x]; try done. by destruct (Ha x).
Qed.

Lemma coherent_write w g path contents (r : option GoError) w' : (path = savePath → savedBy (gField g) contents) →
  execCall (WriteFile path contents) w r w' → Coherent w g → Coherent w' g.
Proof.
  intros Hp Hx []. unfold execCall in Hx. destruct (decide (path = savePath)) as [e|]; [|by subst].
  destruct r; subst w'; [by split|]. destruct (Hp e) as (st & -> & Hst & Hne). split; try done.
  right; right. eexists. split; [done|]. by exists st.
Qed.

Lemma main_exec {R} (e : Sh R) w r w' g : allowed M e g → exec e w r w' → Shared.ended w = None → Coherent w g →
  rely M e g r ∧ Coherent w' (next M e r g).
Proof.
  intros Ha Hx He Hc. destruct e as [R e| |A field|a| | |]; try (by destruct Hx; subst).
  - split; [done|]. destruct e; try (by cbn in Hx; subst).
    + cbn in Hx. subst w'. destruct r as [[code [[id|]|] e4 e5]|err]; [|done..]. destruct Ha as [Hs Hf], Hc. split; try done. cbn. by rewrite co_submitted0, Hs.
    + cbn in Hx. subst w'. destruct Ha as (Hw & Hn & -> & Hne), Hc. split; try done; cbn.
      * by rewrite co_requests0, Hn.
      * rewrite co_requests0, Hn in co_cancelled0. assert (Shared.cancelled w = []) as -> by (by destruct co_cancelled0).
        rewrite co_requests0, Hn. by destruct (accepted r); [right|left].
    + destruct Hx as [-> Hr]. cbn. destruct (gRead g) eqn:Hg; [done|]. destruct (decide _) as [(-> & Hf & Hw)|]; [|done].
      destruct Hc. split; try done. cbn. intros text. destruct r as [text'|]; [|done]. intros [= ->]. rewrite <- co_fresh0; auto.
    + exact (coherent_write w g path contents r w' Ha Hx Hc).
    + cbn in Ha, Hx. destruct (decide _) as [->|]; [|by subst]. destruct r; subst w'; [done|]. destruct Hc. split; try done.
      * cbn. by rewrite Ha.
      * by right; left.
  - cbn in Hx. destruct Hx as [-> ->]. by split; [apply co_job|].
  - split; [done|]. cbn in Hx. subst w'. destruct a as [x|x|x|s x|s x|s x]; try by apply coherent_assign.
    destruct Ha as [Hf Hx], Hc. cbn in *. split; try done; cbn.
    + intros _. destruct Hx as [->|(Hs & text & Ht & Hj)]; [by left|]. right. split; [done|]. exists text. auto.
    + intros -> Hw. auto.
    + destruct co_disk0 as [?|[?|(text & ? & st & ? & ? & ?)]]; [by left|by right; left|]. congruence.
    + destruct (gCancelled g); [|done]. by destruct co_stopped0.
    + intros Hg. by destruct (co_stopped0 Hg).
  - split; [done|]. destruct Hx as [Hi ->], Hc. split; try done.
    + intros Hg. split; [|done]. by apply co_stopped0.
    + by rewrite He.
Qed.

Lemma ticker_exec {R} (e : Sh R) w r w' g seen : allowed T e seen → exec e w r w' → Coherent w g → (seen ≠ "" → gField g = seen) →
  rely T e seen r ∧ Coherent w' g ∧ (next T e r seen ≠ "" → gField g = next T e r seen).
Proof.
  intros Ha Hx Hc Hs. destruct e as [R e| |A field|a| | |]; try done; try (by destruct Hx; subst).
  - split; [done|]. split; [|done]. destruct e; try done; try (by cbn in Hx; subst).
    + by destruct Hx; subst.
    + eapply coherent_write; [|done..]. intros _. cbn in Ha. assert (seen ≠ "") as Hne by by destruct Ha as (? & _ & _ & ?). by rewrite Hs.
  - destruct Hx as [-> ->]. rewrite (co_job _ _ Hc). split; [|done]. exact Hs.
  - split; [done|]. split; [|done]. cbn in Hx. subst w'. apply coherent_assign; [|done]. by intros x ->.
Qed.

(** The job stays in the field. *)
Lemma main_keeps {R} (e : Sh R) r g seen : allowed M e g → (seen ≠ "" → gField g = seen) → seen ≠ "" → gField (next M e r g) = seen.
Proof.
  intros Ha Hs Hne. specialize (Hs Hne). destruct e as [R e| |A field|a| | |]; try done.
  - destruct e; try done; cbn; repeat case_match; done.
  - destruct a; try done. destruct Ha as [Hf _]. congruence.
Qed.

Definition roundOk (t : Ticker) (g : Main) : Prop :=
  match t with InRound p => ∃ seen, (seen ≠ "" → gField g = seen) ∧ wp T p (λ _ _, True) seen | _ => True end.

Definition Inv (s : State) : Prop :=
  let '(main, t, w) := s in ∃ g, Coherent w g ∧ (Shared.ended w = None → wp M main servePost g ∧ roundOk t g).

Lemma controller_started : Controller.fakeStart c0 = false → Controller.jobID c0 = "" → Inv launched.
Proof.
  intros Hfake Hj. exists (mkMain None None "" false false). split; [|intros _; split; [by apply serveT_main|done]].
  split; try done; by left.
Qed.

Lemma controller_step s s' : step s s' → Inv s → Inv s'.
Proof.
  intros Hst. destruct Hst as [R e k r t w w' He Hx|k t w He|main w He|main w He Hi|main R e k r w w' He Hx|main w He|main t w He|code t w He|main t w He];
    intros (g & Hc & Hw); destruct (Hw He) as [Hm Hr].
  - destruct Hm as [Ha Hk], (main_exec e w r w' g Ha Hx He Hc) as [Hrel Hc']. exists (next M e r g). split; [done|]. intros _.
    split; [by apply Hk|]. destruct t; try done. destruct Hr as (seen & Hs & Hp). exists seen. split; [|done].
    intros Hne. by eapply main_keeps.
  - exists g. split; [done|]. intros _. split; [by apply Hm|done].
  - exists g. split; [done|]. intros _. split; [done|]. exists "". split; [done|]. apply roundT_ticker.
  - by exists g.
  - destruct Hr as (seen & Hs & Ha & Hk), (ticker_exec e w r w' g seen Ha Hx Hc Hs) as (Hrel & Hc' & Hs').
    exists g. split; [done|]. intros _. split; [done|]. eexists. split; [exact Hs'|]. by apply Hk.
  - by exists g.
  - exists g. split; [|done]. destruct Hc. by split.
  - exists g. split; [|done]. destruct Hc. split; try done. cbn. intros [= ->]. by apply Hm.
  - exists g. split; [|done]. destruct Hc. by split.
Qed.

Lemma controller_reachable s : Controller.fakeStart c0 = false → Controller.jobID c0 = "" → rtc step launched s → Inv s.
Proof.
  intros Hfake Hj Hs. refine (rtc_ind_r Inv launched _ _ s Hs); [by apply controller_started|].
  intros y z _ Hyz IH. by eapply controller_step.
Qed.


(** ** An executable scheduler *)

(** The answers of the API and of the file system; the saved state is read from
    the disk, and can be written and removed. *)
Context (answers : ∀ R, Fc R → R).

Definition executeCall {R} (e : Fc R) (w : Shared.t) : R * Shared.t :=
  match e in Fc R return R → R * Shared.t with
  | ReadFile path => λ r,
      (if decide (path = savePath)
       then match Shared.disk w with Some text => inl text | None => inr (mkError "no such file or directory" true) end
       else r, w)
  | WriteFile path contents => λ r, if decide (path = savePath) then (None, Shared.with_disk w (Some contents)) else (r, w)
  | Remove path => λ r, if decide (path = savePath) then (None, Shared.with_disk w None) else (r, w)
  | PostJobSubmit _ _ => λ r,
      (r, match r with inl (Response.mk _ (Some (Some id)) _ _) => Shared.with_submitted w id | _ => w end)
  | DeleteJobCancel _ id => λ r, (r, Shared.with_cancelRequest w id (accepted r))
  | _ => λ r, (r, w)
  end (answers R e).

Definition execute {R} (e : Sh R) (w : Shared.t) : option (R * Shared.t) :=
  match e in Sh R return option (R * Shared.t) with
  | Call e => Some (executeCall e w)
  | LoadJob => Some (Controller.jobID (Shared.controller w), w)
  | Load field => Some (field (Shared.controller w), w)
  | Store a => Some (tt, Shared.with_controller w (assign a (Shared.controller w)))
  | GoTicker => None
  | WaitDone => if Shared.interrupted w then Some (tt, w) else None
  | ShutdownServer => Some (None, w)
  end.

Inductive Turn := MainTurn | RoundTurn | Fire | Interrupt.

(** The next state; a turn that is not possible is passed over. *)
Definition play (turn : Turn) (s : State) : State :=
  let '(main, t, w) := s in
  match Shared.ended w with
  | Some _ => s
  | None =>
      match turn with
      | MainTurn =>
          match main with
          | Ret code => (main, t, Shared.with_ended w code)
          | Panic _ => s
          | Vis e k =>
              match e in Sh R return (R → Prog Sh Z) → State with
              | GoTicker => λ k, (k tt, Waiting, w)
              | e => λ k, match execute e w with Some (r, w') => (k r, t, w') | None => s end
              end k
          end
      | RoundTurn =>
          match t with
          | InRound (Ret _) => (main, Waiting, w)
          | InRound (Vis e k) => match execute e w with Some (r, w') => (main, InRound (k r), w') | None => s end
          | _ => s
          end
      | Fire => match t with Waiting => (main, InRound (roundT env c0), w) | _ => s end
      | Interrupt => (main, t, Shared.with_interrupt w)
      end
  end.

Definition schedule (turns : list Turn) : State := foldl (λ s turn, play turn s) launched turns.

Lemma execute_shared {R} (e : Sh R) w r w' : execute e w = Some (r, w') → exec e w r w'.
Proof.
  destruct e as [R e| |A field|a| | |]; cbn; intros Hx; try (by simplify_eq); [|by destruct (Shared.interrupted w) eqn:E; simplify_eq].
  destruct e; cbn in *; simplify_eq; try done; repeat case_decide; simplify_eq; try done.
  split; [done|]. intros _. by destruct (Shared.disk _).
Qed.

Lemma play_step turn s : rtc step s (play turn s).
Proof.
  destruct s as [[main t] w]. unfold play. destruct (Shared.ended w) as [code|] eqn:He; [done|]. destruct turn.
  - destruct main as [code|why|R e k]; [by apply rtc_once; constructor|done|].
    assert (∀ r w', execute e w = Some (r, w') → rtc step (Vis e k, t, w) (k r, t, w')) as Hx.
    { intros r w' Hx%execute_shared. apply rtc_once. by eapply step_main. }
    destruct e; try (destruct (execute _ w) as [[r w']|] eqn:Ee; [by apply Hx|done]). apply rtc_once. by apply step_go.
  - destruct t as [| |[[]|why|R e k]|]; try done; [by apply rtc_once; constructor|].
    destruct (execute e w) as [[r w']|] eqn:Ee; [|done]. apply rtc_once. eapply step_round; [done|]. by apply execute_shared.
  - destruct t; try done. by apply rtc_once; constructor.
  - by apply rtc_once; constructor.
Qed.

Lemma schedule_reachable turns : rtc step launched (schedule turns).
Proof.
  unfold schedule. induction turns as [|turn turns IH] using rev_ind; [done|]. rewrite foldl_app. cbn.
  etrans; [exact IH|apply play_step].
Qed.

End Interleaving.
