(* ===== verification/Runai.v ===== *)
(** * The Run:AI session controller (internal/remote/runai)

    The API calls with their authentication and the retry of an unauthorized
    request, and the controller over them.  Events are those of the
    authentication, HTTP exchanges, the local files and the clock that names
    the job.  Errors are given without the text that wraps them. *)

From S2P Require Import Prelude Prog NetUrl Json JsonProps GitProxy FirecrestScript RemoteConfig RemoteAuth.
From Stdlib Require Import Ascii.

(** ** Calls *)

(** A request; [Body] is what is left to read of its body. *)
Module ApiRequest.
Record t := mk { Method : string; Url : string; Authorization : string; Body : option string }.
Definition with_Authorization (r : t) (x : string) : t := mk (Method r) (Url r) x (Body r).
Definition with_Body (r : t) (x : option string) : t := mk (Method r) (Url r) (Authorization r) x.
End ApiRequest.

Inductive RunaiEv : Type → Type :=
| AuthCall {R} (e : AuthEv R) : RunaiEv R
| ApiDo (req : ApiRequest.t) : RunaiEv (Result RawResponse.t)
| FileRead (path : string) : RunaiEv (Result string)
| FileWrite (path contents : string) : RunaiEv (option GoError)
| FileMkdir (path : string) : RunaiEv (option GoError)
| FileRemove (path : string) : RunaiEv (option GoError)
(** [time.Now().Format("20060102-15-04-05")] *)
| FormatNow : RunaiEv string.

(** [if err != nil { return err }] with a result. *)
Definition bindR {A B} (p : Prog RunaiEv (Result A)) (f : A → Prog RunaiEv (Result B)) : Prog RunaiEv (Result B) :=
  r ← p; match r with inl a => f a | inr err => mret (inr err) end.
#[local] Notation "x ←? p ; q" := (bindR p (λ x, q)) (at level 100, p at level 99, q at level 200, right associativity).

(** ** The data of the API *)

Module ProjectResponse.
(** The identifiers; the other fields are checked and dropped. *)
Record t := mk { Id : string; ClusterId : string }.
End ProjectResponse.

Definition decodeProject : Decoder ProjectResponse.t := decodeStruct (λ name,
  if name =s "id" then Some (field ProjectResponse.Id (λ p x, ProjectResponse.mk x (ProjectResponse.ClusterId p)) decodeString)
  else if name =s "clusterid" then
    Some (field ProjectResponse.ClusterId (λ p x, ProjectResponse.mk (ProjectResponse.Id p) x) decodeString)
  else if (name =s "name") || (name =s "description") || (name =s "parentid") || (name =s "requestednamespace") then
    Some (checked "" decodeString)
  else if (name =s "schedulingrules") || (name =s "nodetypes") then Some (checked tt decodeAnyMap)
  else if name =s "defaultnodepools" then Some (checked [] (decodeSlice "" decodeString))
  else if name =s "enforcerunaischeduler" then Some (checked false decodeBool)
  else None).

Definition decodeProjects : Decoder (list ProjectResponse.t) := decodeStruct (λ name,
  if name =s "projects" then Some (decodeSlice (ProjectResponse.mk "" "") decodeProject) else None).

Definition decodeWorkloads : Decoder (list unit) := decodeStruct (λ name,
  if name =s "workloads" then Some (decodeSlice tt decodeAnyMap) else None).

(** The identifier of a created workspace. *)
Definition decodeWorkspace : Decoder string := decodeStruct (λ name,
  if name =s "workloadid" then Some decodeString
  else if (name =s "name") || (name =s "projectid") || (name =s "departmentid") || (name =s "clusterid") ||
          (name =s "desiredphase") || (name =s "actualphase") then Some (checked "" decodeString)
  else if name =s "createdat" then Some (checked tt decodeTime)
  else if name =s "deletedat" then Some (checked None (decodePtr tt decodeTime))
  else None).

Module WorkspaceSpec.
Record t := mk { Image : string; EnvironmentVariables : list (string * string) }.
Definition marshal (s : t) : json := JObj
  [("image", JStr (Image s));
   ("environmentVariables",
    JArr (map (λ '(name, value), JObj [("name", JStr name); ("value", JStr value)]) (EnvironmentVariables s)))].
End WorkspaceSpec.

Definition workspacePostBody (name : string) (project : ProjectResponse.t) (spec : WorkspaceSpec.t) : json := JObj
  [("name", JStr name); ("projectId", JStr (ProjectResponse.Id project));
   ("clusterId", JStr (ProjectResponse.ClusterId project)); ("spec", WorkspaceSpec.marshal spec)].

(** ** The API (runai_api.go) *)

Definition projectsUrl (baseURL : string) : string := baseURL +:+ "/api/v1/org-unit/projects".
Definition workloadsUrl (baseURL : string) : string := baseURL +:+ "/api/v1/workloads".
Definition workspacesUrl (baseURL : string) : string := workloadsUrl baseURL +:+ "/workspaces".

Module RunaiApi.
Record t := mk { BaseURL : string; Auth : RunaiClientCredentialsAuth.t }.
(** [NewRunaiApi] *)
Definition new (baseURL : string) (auth : RunaiClientCredentialsAuth.t) : t :=
  mk (if baseURL =s "" then "https://api.run.ai" else baseURL) auth.
End RunaiApi.

Section Api.
Context (c : RunaiApi.t).

Definition getAccessToken : Prog RunaiEv (Result string) := embed (@AuthCall) (GetAccessToken (RunaiApi.Auth c)).

(** The only editor is that of the authentication. *)
Definition applyEditors (req : ApiRequest.t) : Prog RunaiEv (Result ApiRequest.t) :=
  authorization ←? embed (@AuthCall) (RequestEditorInjectAccessToken (RunaiApi.Auth c) (ApiRequest.Authorization req));
  mret (inl (ApiRequest.with_Authorization req authorization)).

(** The request after it has been sent: a body is read once. *)
Definition sent (req : ApiRequest.t) : ApiRequest.t :=
  ApiRequest.with_Body req (match ApiRequest.Body req with Some _ => Some "" | None => None end).

Definition retryUnauthorizedRequest (req : ApiRequest.t) : Prog RunaiEv (Result RawResponse.t) :=
  _ ←? getAccessToken;
  req ←? applyEditors req;
  trigger (ApiDo req).

(** What the API calls have in common once the request has been edited. *)
Definition send (req : ApiRequest.t) : Prog RunaiEv (Result RawResponse.t) :=
  resp ←? trigger (ApiDo req);
  if (RawResponse.StatusCode resp =? 401)%Z then retryUnauthorizedRequest (sent req) else mret (inl resp).

(** A request without a body. *)
Definition exchange (method url : string) : Prog RunaiEv (Result RawResponse.t) :=
  if isURL url then
    req ←? applyEditors (ApiRequest.mk method url "" None);
    send req
  else mret (inr (Errorf "failed to make request")).

(** The body of a response with the expected status. *)
Definition statusError (what : string) (resp : RawResponse.t) : GoError :=
  Errorf (what +:+ " request failed with status " +:+ pretty (RawResponse.StatusCode resp) +:+ ": " +:+ RawResponse.Body resp).

Definition decodeBody {A} (what : string) (code : Z) (d : Decoder A) (zero : A) (resp : RawResponse.t) : Result A :=
  if negb (RawResponse.StatusCode resp =? code)%Z
  then inr (statusError what resp)
  else DecodeFirst d zero (RawResponse.Body resp).

Definition GetProjects : Prog RunaiEv (Result (list ProjectResponse.t)) :=
  resp ←? exchange "GET" (projectsUrl (RunaiApi.BaseURL c));
  mret (decodeBody "projects" 200 decodeProjects [] resp).

(** [q.Add("filterBy", ...)]; for a base URL without a query. *)
Definition GetProjectsByName (name : string) : Prog RunaiEv (Result (list ProjectResponse.t)) :=
  if isURL (projectsUrl (RunaiApi.BaseURL c)) then
    req ←? applyEditors (ApiRequest.mk "GET"
             (projectsUrl (RunaiApi.BaseURL c) +:+ "?filterBy=" +:+ queryEscape ("name==" +:+ name)) "" None);
    resp ←? send req;
    mret (decodeBody "get projects by name" 200 decodeProjects [] resp)
  else mret (inr (Errorf "failed to make get projects by name request")).

Definition GetWorkloads : Prog RunaiEv (Result (list unit)) :=
  resp ←? exchange "GET" (workloadsUrl (RunaiApi.BaseURL c));
  mret (decodeBody "get workloads" 200 decodeWorkloads [] resp).

(** The body is set after the editors have run. *)
Definition CreateWorkspace (project : ProjectResponse.t) (jobName : string) (spec : WorkspaceSpec.t)
    : Prog RunaiEv (Result string) :=
  if isURL (workspacesUrl (RunaiApi.BaseURL c)) then
    req ←? applyEditors (ApiRequest.mk "POST" (workspacesUrl (RunaiApi.BaseURL c)) "" None);
    resp ←? send (ApiRequest.with_Body req (Some (print (workspacePostBody jobName project spec))));
    mret (decodeBody "create workspace" 202 decodeWorkspace "" resp)
  else mret (inr (Errorf "failed to make create workspace request")).

Definition DeleteWorkspace (id : string) : Prog RunaiEv (option GoError) :=
  resp ← exchange "DELETE" (workspacesUrl (RunaiApi.BaseURL c) +:+ "/" +:+ id);
  mret match resp with
       | inr err => Some err
       | inl resp =>
           if negb (RawResponse.StatusCode resp =? 202)%Z
           then Some (statusError "delete workspace" resp) else None
       end.
End Api.

(** ** The controller (controller.go) *)

Module RunaiController.
Record t := mk {
  client : RunaiApi.t;
  jobName : string;
  jobId : string;
  project : string;
  fakeStart : bool;
  currentStatus : RemoteSessionState;
  currentStatusError : option GoError }.
Definition with_jobName (c : t) (x : string) : t :=
  mk (client c) x (jobId c) (project c) (fakeStart c) (currentStatus c) (currentStatusError c).
Definition with_jobId (c : t) (x : string) : t :=
  mk (client c) (jobName c) x (project c) (fakeStart c) (currentStatus c) (currentStatusError c).
Definition with_status (c : t) (state : RemoteSessionState) (err : option GoError) : t :=
  mk (client c) (jobName c) (jobId c) (project c) (fakeStart c) state err.
End RunaiController.

(** [NewRunaiRemoteSessionController] *)
Definition NewRunaiRemoteSessionController (cfg : RemoteConfig.t) : Result RunaiController.t :=
  match NewRunaiAuth (RunaiConfig.AuthConfig (RemoteConfig.Runai cfg)) with
  | inr err => inr err
  | inl auth =>
      match url_Parse (RunaiConfig.BaseURL (RemoteConfig.Runai cfg)) with
      | None => inr (Errorf "parse error")
      | Some url =>
          let project := RunaiConfig.Project (RemoteConfig.Runai cfg) in
          if project =s "" then inr (Errorf "project is not set")
          else inl (RunaiController.mk (RunaiApi.new (URL_String url) auth) "" "" project
                      (RemoteConfig.FakeStart cfg) NotReady None)
      end
  end.

(** The saved state; only the name of the job is read back. *)
Module runaiState.
Record t := mk { JobName : string; JobId : string }.
Definition zero : t := mk "" "".
Definition marshal (s : t) : json := JObj (member_ "job_name" (JobName s) ++ member_ "job_id" (JobId s)).
Definition decode : Decoder t := decodeStruct (λ name,
  if name =s "job_name" then Some (field JobName (λ s x, mk x (JobId s)) decodeString)
  else if name =s "job_id" then Some (field JobId (λ s x, mk (JobName s) x) decodeString)
  else None).
End runaiState.

Section Controller.
Context (env : Env).
#[local] Notation getenv := (Getenv env).

(** The working directory and the mount directory. *)
Definition getRenkuSessionDirs : string * string :=
  let workDir := Strings.TrimSuffix (getenv "RENKU_WORKING_DIR") "/" in
  let workDir := if workDir =s "" then "/home/renku/work" else workDir in
  let mountDir := Strings.TrimSuffix (getenv "RENKU_MOUNT_DIR") "/" in
  let mountDir := if mountDir =s "" then workDir else mountDir in
  (workDir, mountDir).

Definition runaiSaveDirPath : string := Path.Join [getRenkuSessionDirs.2; ".rsc"].
Definition runaiSavePath : string := Path.Join [runaiSaveDirPath; "state.json"].

Definition recoverJobInfo (c : RunaiController.t) : Prog RunaiEv (RunaiController.t * option GoError) :=
  contents ← trigger (FileRead runaiSavePath);
  mret match contents with
       | inr _ => (c, None)
       | inl contents =>
           match Unmarshal runaiState.decode runaiState.zero contents with
           | inr err => (c, Some err)
           | inl state =>
               (if runaiState.JobName state ≠s "" then RunaiController.with_jobName c (runaiState.JobName state) else c, None)
           end
       end.

Definition saveJobInfo (c : RunaiController.t) : Prog RunaiEv (option GoError) :=
  if RunaiController.jobId c =s "" then mret (Some (Errorf "cannot save, job id is not defined"))
  else
    err ← trigger (FileMkdir runaiSaveDirPath);
    match err with
    | Some err => mret (Some err)
    | None =>
        trigger (FileWrite runaiSavePath
          (print (runaiState.marshal (runaiState.mk (RunaiController.jobName c) (RunaiController.jobId c)))))
    end.

Definition getProject (c : RunaiController.t) (projectName : string) : Prog RunaiEv (Result (option ProjectResponse.t)) :=
  projects ←? GetProjectsByName (RunaiController.client c) projectName;
  mret (inl (head projects)).

Definition orDefault (s def : string) : string := if s =s "" then def else s.

(** The workspace of the session. *)
Definition workspaceSpec : WorkspaceSpec.t :=
  let '(renkuWorkDir, renkuMountDir) := getRenkuSessionDirs in
  WorkspaceSpec.mk (getenv "REMOTE_SESSION_IMAGE")
    [("RENKU_PROJECT_PATH", orDefault (Strings.TrimSuffix (getenv "RENKU_PROJECT_PATH") "/") "dev-project");
     ("RENKU_BASE_URL_PATH", orDefault (Strings.TrimSuffix (getenv "RENKU_BASE_URL_PATH") "/") "/");
     ("HOME", renkuWorkDir);
     ("RENKU_SESSION_PORT", orDefault (getenv "RENKU_SESSION_PORT") "8888");
     ("RENKU_MOUNT_DIR", renkuMountDir);
     ("RENKU_WORKING_DIR", renkuWorkDir)].

Definition runaiStart (c : RunaiController.t) : Prog RunaiEv (RunaiController.t * option GoError) :=
  '(c, err) ← recoverJobInfo c;
  match err with
  | Some err => mret (c, Some err)
  | None =>
      if RunaiController.jobName c ≠s "" then mret (c, None)
      else
        now ← trigger FormatNow;
        let c := RunaiController.with_jobName c ("amalthea-" +:+ RunaiController.project c +:+ "-" +:+ now) in
        if RunaiController.fakeStart c then mret (c, None)
        else
          project ← getProject c (RunaiController.project c);
          match project with
          | inr err => mret (c, Some (Errorf ("failed to get project: " +:+ err_msg err)))
          | inl None => mret (c, Some (Errorf ("project " +:+ RunaiController.project c +:+ " not found")))
          | inl (Some project) =>
              workspace ← CreateWorkspace (RunaiController.client c) project (RunaiController.jobName c) workspaceSpec;
              match workspace with
              | inr err => mret (c, Some (Errorf ("failed to create workspace: " +:+ err_msg err)))
              | inl workloadId =>
                  let c := RunaiController.with_jobId c workloadId in
                  err ← saveJobInfo c;
                  mret (c, err)
              end
          end
  end.

Definition runaiStop (c : RunaiController.t) : Prog RunaiEv (option GoError) :=
  if RunaiController.jobId c =s "" then mret None
  else
    _ ← trigger (FileRemove runaiSavePath);
    err ← DeleteWorkspace (RunaiController.client c) (RunaiController.jobId c);
    mret match err with
         | Some err => Some (Errorf ("failed to delete workspace: " +:+ err_msg err))
         | None => None
         end.

(** [getCurrentStatus]: the named result [state] is never assigned. *)
Definition runaiCurrentStatus (c : RunaiController.t) : Prog RunaiEv (RemoteSessionState * option GoError) :=
  workloads ← GetWorkloads (RunaiController.client c);
  mret match workloads with
       | inr err => (NotReady, Some err)
       | inl _ => if RunaiController.jobName c =s "" then (NotReady, None) else ("", None)
       end.

Definition runaiTick (c : RunaiController.t) : Prog RunaiEv RunaiController.t :=
  '(state, err) ← runaiCurrentStatus c;
  mret (RunaiController.with_status c state err).

Definition runaiStatus (c : RunaiController.t) : RemoteSessionState * option GoError :=
  (RunaiController.currentStatus c, RunaiController.currentStatusError c).
End Controller.
