(* ===== verification/Remote.v ===== *)
(** * The remote session server (internal/remote/server, internal/remote/controller)

    The interface of session controllers and the server over it: [RemoteSessionController]
    states what the server calls and what it promises in return (it stops a
    session only after its start has succeeded).  The FirecREST and Run:AI
    controllers are instances. *)

From S2P Require Import Prelude Prog NetUrl Names Types Config Json JsonProps GitProxy FirecrestScript RemoteConfig RemoteAuth Firecrest Runai.
From Stdlib Require Import Ascii.

(** ** The interface (controller.go) *)

(** [tickStep] is one round of the goroutine that [start] sets off. *)
Class RemoteSessionController (E : Type → Type) (C : Type) := {
  status : C → RemoteSessionState * option GoError;
  start : C → Prog E (C * option GoError);
  stop : C → Prog E (option GoError);
  tickStep : C → Prog E C }.

Section Instances.
Context (env : Env) (sessionScript : string) `{DockerReference}.

#[export] Instance firecrestController : RemoteSessionController Fc Controller.t := {|
  status := Status; start := Start env sessionScript; stop := Stop env; tickStep := tick env |}.

#[export] Instance runaiController : RemoteSessionController RunaiEv RunaiController.t := {|
  status := runaiStatus; start := runaiStart env; stop := runaiStop env; tickStep := runaiTick |}.
End Instances.

(** [NewFirecrestRemoteSessionController]; the client is part of the
    environment of the model. *)
Definition NewFirecrestRemoteSessionController `{Token.JwtLib} (cfg : RemoteConfig.t) : Outcome (Result Controller.t) :=
  let firecrest := RemoteConfig.Firecrest cfg in
  auth ← NewFirecrestAuth (FirecrestConfig.AuthConfig firecrest);
  match auth with
  | inr err => mret (inr err)
  | inl _ =>
      mret match url_Parse (FirecrestConfig.APIURL firecrest) with
           | None => inr (Errorf "parse error")
           | Some _ =>
               if FirecrestConfig.SystemName firecrest =s "" then inr (Errorf "systemName is not set")
               else inl (Controller.new (FirecrestConfig.SystemName firecrest) (FirecrestConfig.Partition firecrest)
                           (RemoteConfig.FakeStart cfg))
           end
  end.

Inductive AnyController := FirecrestKind (c : Controller.t) | RunaiKind (c : RunaiController.t).

(** [NewRemoteSessionController] *)
Definition NewRemoteSessionController `{Token.JwtLib} (cfg : RemoteConfig.t) : Outcome (Result AnyController) :=
  if RemoteConfig.RemoteKind cfg =s RemoteKindFirecrest
  then fmapResult FirecrestKind <$> NewFirecrestRemoteSessionController cfg
  else if RemoteConfig.RemoteKind cfg =s RemoteKindRunai
  then Done (fmapResult RunaiKind (NewRunaiRemoteSessionController cfg))
  else Done (inr (Errorf ("remote kind: '" +:+ RemoteConfig.RemoteKind cfg +:+ "' is not supported"))).

(** ** The server (server.go) *)

(** The calls of the server: those of the controller, and its own. *)
Inductive Srv (E : Type → Type) : Type → Type :=
| Ctl {R} (e : E R) : Srv E R
| Listen (address : string) : Srv E unit
(** the ticker of the controller or the interrupt, whichever comes first *)
| NextTick : Srv E bool
| Shutdown : Srv E (option GoError).
Arguments Ctl {E R} e.
Arguments Listen {E} address.
Arguments NextTick {E}.
Arguments Shutdown {E}.

Section Server.
Context {E C} `{RemoteSessionController E C}.

#[local] Notation ctl := (embed (@Ctl E)).

(** The rounds until the interrupt, at most [fuel] of them. *)
Fixpoint rounds (fuel : nat) (c : C) : Prog (Srv E) C :=
  match fuel with
  | O => mret c
  | S fuel =>
      fires ← trigger NextTick;
      if (fires : bool) then c ← ctl (tickStep c); rounds fuel c else mret c
  end.

(** [Start] from the creation of the controller on, with the exit code of the
    process; the interrupt comes after at most [fuel] rounds. *)
Definition serve (fuel : nat) (cfg : RemoteConfig.t) (c : C) : Prog (Srv E) Z :=
  _ ← trigger (Listen (":" +:+ pretty (RemoteConfig.ServerPort cfg)));
  '(c, err) ← ctl (start c);
  match err with
  | Some _ => mret 1%Z
  | None =>
      c ← rounds fuel c;
      _ ← ctl (stop c);
      err ← trigger Shutdown;
      mret match err with Some _ => 1%Z | None => 0%Z end
  end.

(** GET /status: code, status and error of the answer. *)
Definition statusEndpoint (c : C) : Z * RemoteSessionState * option GoError :=
  match status c with
  | (state, None) => if state =s Running then (200%Z, state, None) else (503%Z, state, None)
  | (state, Some err) => (503%Z, state, Some err)
  end.
End Server.

(** ** Probes *)

Inductive Probe : Type → Type :=
| DialTCP (address : string) : Probe (option GoError)
| HttpGet (url : string) : Probe (Result Z).

(** GET /ready *)
Definition readyEndpoint (cfg : RemoteConfig.t) : Prog Probe Z :=
  if RemoteConfig.ReadinessProbeType cfg =s TCP then
    err ← trigger (DialTCP ("127.0.0.1:" +:+ pretty (RemoteConfig.SessionPort cfg)));
    mret match err with Some _ => 503%Z | None => 200%Z end
  else if RemoteConfig.ReadinessProbeType cfg =s HTTP then
    let url := "http://127.0.0.1:" +:+ pretty (RemoteConfig.SessionPort cfg) +:+ RemoteConfig.SessionURLPath cfg in
    if isURL url then
      resp ← trigger (HttpGet url);
      mret match resp with
           | inr _ => 503%Z
           | inl code => if (200 <=? code)%Z && (code <? 400)%Z then 200%Z else 503%Z
           end
    else mret 503%Z
  else mret 200%Z.

(** GET /live *)
Definition liveEndpoint : Z := 200%Z.

(** The process: configuration, controller, server. *)
Definition loadController `{Token.JwtLib} (viper : Settings) : Outcome (Result (RemoteConfig.t * AnyController)) :=
  let '(cfg, err) := RemoteConfig.Validate (GetConfig viper) in
  match err with
  | Some err => Done (inr err)
  | None => fmapResult (pair cfg) <$> NewRemoteSessionController cfg
  end.
