(* ===== verification/RemoteTheorems.v ===== *)
(** * Theorems about the remote session server, its configuration and its authentication

    The life of a session under the server, the configuration that the operator
    hands to the side car, the locks of the token holders, and the Run:AI
    controller. *)

From S2P Require Import Prelude Prog NetUrl K8s Types Api Names Templates Children Config Json JsonProps GitProxy FirecrestScript RemoteConfig RemoteAuth Firecrest FirecrestProps FirecrestProtocol Runai Remote.
From Stdlib Require Import Ascii.

(** ** The life of a FirecREST session *)

(** A monitor of the calls of the controller, for the server. *)
Definition serverMonitor {E S} (M : Monitor E S) : Monitor (Srv E) S := {|
  allowed := λ R e, match e in Srv _ R return S → Prop with Ctl e => λ s, allowed M e s | _ => λ _, True end;
  rely := λ R e, match e in Srv _ R return S → R → Prop with Ctl e => λ s r, rely M e s r | _ => λ _ _, True end;
  next := λ R e, match e in Srv _ R return R → S → S with Ctl e => λ r s, next M e r s | _ => λ _ s, s end;
  panic_ok := panic_ok M |}.

Lemma serverMonitor_extends {E S} (M : Monitor E S) : extends (@Ctl E) M (serverMonitor M).
Proof. by split_and!. Qed.

(** A session whose rounds keep [I] and whose stop needs it. *)
Lemma serve_wp {E C S} `{RemoteSessionController E C} (M : Monitor E S) (I : C → S → Prop) (Q : Z → S → Prop) fuel cfg c s :
  wp M (start c) (λ '(c', err) s', match err with None => I c' s' | Some _ => Q 1%Z s' end) s →
  (∀ c s, I c s → wp M (tickStep c) I s) →
  (∀ c s, I c s → wp M (stop c) (λ _ s', Q 0%Z s' ∧ Q 1%Z s') s) →
  wp (serverMonitor M) (serve fuel cfg c) Q s.
Proof.
  intros Hstart Htick Hstop. eapply wp_bind_intro with (P := λ _ s', s' = s); [done|]. intros _ ? ->. apply wp_bind.
  eapply wp_embed; [apply serverMonitor_extends|]. eapply wp_mono; [exact Hstart|]. intros [c1 [err|]] s1 H1; [done|]. apply wp_bind.
  eapply wp_mono with (Q := I).
  - revert c1 s1 H1. induction fuel as [|fuel IH]; intros c1 s1 H1; [done|]. eapply wp_bind_intro with (P := λ _ s', s' = s1); [done|].
    intros [] ? ->; [|done]. apply wp_bind. eapply wp_embed; [apply serverMonitor_extends|].
    eapply wp_mono; [by apply Htick|]. intros c2 s2 H2. by apply IH.
  - intros c2 s2 H2. apply wp_bind. eapply wp_embed; [apply serverMonitor_extends|].
    eapply wp_mono; [by apply Hstop|]. intros err s3 [H3 H3']. split; [done|]. by intros [err'|] _.
Qed.

Section Firecrest.
Context (env : Env) (sessionScript : string) `{DockerReference}.
#[local] Instance hpcController : RemoteSessionController Fc Controller.t := firecrestController env sessionScript.

Lemma firecrest_serve fuel cfg c :
  Controller.jobID c = "" → Controller.fakeStart c = false →
  wp (serverMonitor (protocol env sessionScript (Controller.systemName c))) (serve fuel cfg c)
    (λ _ g, (Ghost.submissions g ≤ 1)%nat) Ghost.init.
Proof.
  intros Hj Hf. set (sys := Controller.systemName c).
  apply serve_wp with (I := λ c g, (Ghost.submissions g ≤ 1)%nat ∧ running sys (Ghost.submissions g) c g).
  - change (start c) with (Start env sessionScript c). eapply wp_mono; [by apply Start_wp|]. intros [c' [err|]] g [Hn Hg]; [done|]. destruct Hg as (Ho & Hne & _).
    split; [done|]. by split_and!.
  - intros c' g [Hn Hr]. change (tickStep c') with (tick env c'). eapply wp_mono; [by apply tick_protocol|]. intros c2 g2 Hr2.
    pose proof Hr2 as (_ & _ & Hn2). by rewrite Hn2.
  - intros c' g [Hn Hr]. change (stop c') with (Stop env c'). eapply wp_mono; [by eapply Stop_wp|]. by intros err g2 ->.
Qed.

(** C7: Over the whole life of a session, from its start through any number of
    rounds to the interrupt and the stop, whatever the API answers: at most one
    job is submitted, and only after the access to the session directory has
    been restricted and the script uploaded there; secrets and git
    configurations go below that directory only; the job that is watched, saved
    and cancelled is the one that was submitted or found on the disk. *)
Theorem firecrest_session fuel cfg c :
  Controller.jobID c = "" → Controller.fakeStart c = false →
  wp (serverMonitor (protocol env sessionScript (Controller.systemName c))) (serve fuel cfg c)
    (λ _ g, (Ghost.submissions g ≤ 1)%nat) Ghost.init.
Proof. apply firecrest_serve. Qed.
End Firecrest.

(** ** The locks of the token holders *)

(** What a thread holds: nothing, or one lock, for reading or for writing. *)
Inductive held := Nothing | Reading (l : lock) | Writing (l : lock).

Definition lockMonitor : Monitor AuthEv held := {|
  allowed := λ R e, match e in AuthEv R return held → Prop with
    | Lock _ | RLock _ => λ g, g = Nothing
    | Unlock l => λ g, g = Writing l
    | RUnlock l => λ g, g = Reading l
    | LoadToken l => λ g, g = Reading l ∨ g = Writing l
    | StoreToken l _ => λ g, g = Writing l
    | LoadRefresh => λ g, g = Reading RenkuLock ∨ g = Writing RenkuLock
    | StoreRefresh _ => λ g, g = Writing RenkuLock
    | Send _ => λ g, ∃ l, g = Writing l
    | Clock => λ _, True
    end;
  rely := λ _ _ _ _, True;
  next := λ R e, match e in AuthEv R return R → held → held with
    | Lock l => λ _ _, Writing l
    | RLock l => λ _ _, Reading l
    | Unlock _ | RUnlock _ => λ _ _, Nothing
    | _ => λ _ g, g
    end;
  panic_ok := λ g, g = Nothing |}.

#[local] Notation L := lockMonitor.

(** A program that runs under a write lock, and may panic there. *)
Definition under {A} (l : lock) (p : Prog AuthEv A) : Prop :=
  wp (withPanic L (λ g, g = Writing l)) p (λ _ g, g = Writing l) (Writing l).

Lemma locking_wp {A} l (p : Prog AuthEv A) : under l p → wp L (locking l p) (λ _ g, g = Nothing) Nothing.
Proof.
  intros Hp. eapply wp_bind_intro with (P := λ _ g, g = Writing l); [done|]. intros _ ? ->. apply wp_deferred.
  eapply wp_withPanic_mono; [exact Hp|by intros g ->|by intros x g ->].
Qed.

Lemma under_bind {A B} l (p : Prog AuthEv A) (f : A → Prog AuthEv B) :
  under l p → (∀ a, under l (f a)) → under l (bind p f).
Proof. intros Hp Hf. eapply wp_bind_intro; [exact Hp|]. intros a g ->. apply Hf. Qed.

Lemma under_send l req : under l (trigger (Send req)).
Proof. split; [by exists l|done]. Qed.

Lemma under_lift {A} l (o : Outcome A) : under l (lift o).
Proof. by destruct o. Qed.

Lemma under_tokenFromResponse `{Token.JwtLib} l res : under l (tokenFromResponse res).
Proof.
  unfold tokenFromResponse. destruct res as [res|err]; [|done]. case_if; [done|].
  destruct (Unmarshal _ _ _) as [body|err]; [|done]. apply under_bind; [apply under_lift|]. by intros [t|err].
Qed.

Lemma under_storeResult l r : under l (storeResult l r).
Proof. by destruct r. Qed.

Lemma under_requestNewAccessToken `{Token.JwtLib} l uri grant id secret refresh :
  under l (requestNewAccessToken uri grant id secret refresh).
Proof.
  unfold requestNewAccessToken. case_if; [|done]. apply under_bind; [apply under_send|]. intros res. apply under_tokenFromResponse.
Qed.

(** Reading under the read lock. *)
Lemma loadToken_wp l : wp L (loadToken l) (λ _ g, g = Nothing) Nothing.
Proof. split; [done|]. intros [] _. split; [by left|]. intros s _. by split. Qed.

Lemma isUsable_wp s g : wp L (isUsable s) (λ _ g', g' = g) g.
Proof. unfold isUsable. by case_if. Qed.

Lemma readToken_wp l : wp L (readLocked l (s ← trigger (LoadToken l); mret (inl (A := string) (B := GoError) (TokenState.AccessToken s))))
  (λ _ g, g = Nothing) Nothing.
Proof. split; [done|]. intros [] _. split; [by left|]. intros s _. by split. Qed.

Lemma getToken_wp l refresh :
  wp L refresh (λ _ g, g = Nothing) Nothing → wp L (getToken l refresh) (λ _ g, g = Nothing) Nothing.
Proof.
  intros Hr. eapply wp_bind_intro; [apply loadToken_wp|]. intros s ? ->.
  eapply wp_bind_intro; [apply isUsable_wp|]. intros [] ? ->; [done|].
  eapply wp_bind_intro; [exact Hr|]. intros [err|] ? ->; [done|]. apply readToken_wp.
Qed.

Lemma refreshRenku_wp `{Token.JwtLib} a : wp L (RenkuAuth.refreshRenkuAccessToken a) (λ _ g, g = Nothing) Nothing.
Proof.
  unfold RenkuAuth.refreshRenkuAccessToken. case_if; apply locking_wp.
  - destruct (url_Parse _) as [u|]; [|done]. apply under_bind; [split; [by right|done]|]. intros refresh.
    case_if; [done|]. apply under_bind; [apply under_send|]. intros [res|err]; [|done]. case_if; [done|].
    destruct (DecodeFirst _ _ _) as [[access newRefresh]|err]; [|done].
    apply under_bind; [split; [by right|done]|]. intros old. apply under_bind; [done|]. intros _.
    apply under_bind; [done|]. intros _. apply under_bind; [apply under_lift|]. by intros [t|err].
  - apply under_bind; [split; [by right|done]|]. intros refresh.
    apply under_bind; [apply under_requestNewAccessToken|]. intros r. apply under_storeResult.
Qed.

Lemma refreshFirecrest_wp `{Token.JwtLib} a : wp L (RenkuAuth.refreshAccessToken a) (λ _ g, g = Nothing) Nothing.
Proof.
  eapply wp_bind_intro; [apply getToken_wp, refreshRenku_wp|]. intros [token|err] ? ->; [|done].
  apply locking_wp. apply under_bind; [|intros r; apply under_storeResult].
  unfold RenkuAuth.requestNewAccessTokenFromRenku. case_if; [|done].
  apply under_bind; [apply under_send|]. intros res. apply under_tokenFromResponse.
Qed.

Lemma runaiToken_under a : under AccessLock
  (s ← trigger (LoadToken AccessLock);
   usable ← isUsable s;
   if (usable : bool) then mret (inl (TokenState.AccessToken s))
   else
     result ← requestNewRunaiToken (RunaiClientCredentialsAuth.tokenURI a) "client_credentials"
                (RunaiClientCredentialsAuth.clientID a) (RunaiClientCredentialsAuth.clientSecret a);
     match result with
     | inr err => mret (inr err)
     | inl r =>
         _ ← trigger (StoreToken AccessLock (TokenState.mk (tokenResult.AccessToken r) (tokenResult.ExpiresAt r)));
         mret (inl (tokenResult.AccessToken r))
     end).
Proof.
  apply under_bind; [split; [by right|done]|]. intros s. apply under_bind; [unfold isUsable; by case_if|].
  intros []; [done|]. apply under_bind; [|by intros [r|err]].
  unfold requestNewRunaiToken. case_if; [|done]. apply under_bind; [apply under_send|]. intros [res|err]; [|done].
  case_if; [done|]. by destruct (DecodeFirst _ _ _).
Qed.

(** C31: The token holders use their locks well: every access to the shared tokens
    and every exchange with a token server is made under the right lock, no
    lock is asked for while another is held (so threads cannot wait for each
    other), and none is held in the end, even when the expiry of a token makes
    the code panic. *)
Theorem auth_lock_discipline `{Token.JwtLib} (a : FirecrestAuth) (r : RunaiClientCredentialsAuth.t) (u : RenkuAuth.t) :
  wp lockMonitor (GetAccessToken a) (λ _ g, g = Nothing) Nothing ∧
  wp lockMonitor (GetAccessToken r) (λ _ g, g = Nothing) Nothing ∧
  wp lockMonitor (RenkuAuth.periodicTokenRefresh_step u) (λ _ g, g = Nothing) Nothing.
Proof.
  split; [|split].
  - destruct a as [a|a]; apply getToken_wp; [apply refreshFirecrest_wp|]. apply locking_wp.
    apply under_bind; [apply under_requestNewAccessToken|]. intros res. apply under_storeResult.
  - eapply wp_bind_intro; [apply loadToken_wp|]. intros s ? ->.
    eapply wp_bind_intro; [apply isUsable_wp|]. intros [] ? ->; [done|]. apply locking_wp, runaiToken_under.
  - split; [done|]. intros [] _. split; [by left|]. intros token _. split; [done|]. intros [] _. split; [done|].
    intros now _. cbn -[RenkuAuth.refreshRenkuAccessToken wp Token.VerifyJWTExpiresAt]. case_if; [|done].
    eapply wp_bind_intro; [apply refreshRenku_wp|]. by intros err ? ->.
Qed.

(** ** Configuration and construction *)

Lemma require_None ok msg rest : require ok msg rest = None → ok = true ∧ rest = None.
Proof. by destruct ok. Qed.

Lemma isURL_parse s : isURL s = true → ∃ u, url_Parse s = Some u.
Proof. unfold isURL. destruct (url_Parse s); [eauto|done]. Qed.

#[local] Ltac required :=
  repeat match goal with
  | H : require _ _ _ = None |- _ => apply require_None in H as [? H]
  | H : (_ ≠s _) = true |- _ => apply negb_true_iff in H
  end.

Lemma firecrestAuth_accepted `{Token.JwtLib} cfg :
  FirecrestAuthConfig.Validate cfg = None →
  match NewFirecrestAuth cfg with
  | Done (inl _) => True
  | Done (inr _) => False
  | Panicked _ => FirecrestAuthConfig.Kind cfg = FirecrestAuthConfigKindRenkuV2 ∧
                  Token.ParseUnverified (FirecrestAuthConfig.RenkuAccessToken cfg) = inl None
  end.
Proof.
  unfold FirecrestAuthConfig.Validate, NewFirecrestAuth. destruct (_ =s "") eqn:E0; [done|].
  destruct (_ =s FirecrestAuthConfigKindRenku) eqn:E1; [|destruct (_ =s FirecrestAuthConfigKindRenkuV2) eqn:E2;
    [|destruct (_ =s FirecrestAuthConfigKindClientCredentials) eqn:E3; [|done]]];
    unfold FirecrestAuthConfig.validateRenku, FirecrestAuthConfig.validateRenkuV2, FirecrestAuthConfig.validateClientCredentials;
    intros Hv; required.
  - unfold RenkuAuth.new, RenkuAuth.initialExpiry. repeat match goal with H : _ = false |- _ => rewrite H end. done.
  - unfold RenkuAuth.new, RenkuAuth.initialExpiry. repeat match goal with H : (_ =s "") = false |- _ => rewrite H end.
    cbn. apply String.eqb_eq in E2. by destruct (Token.ParseUnverified _) as [[t|]|err] eqn:Ht.
  - unfold FirecrestClientCredentialsAuth.new. repeat match goal with H : _ = false |- _ => rewrite H end. done.
Qed.

Lemma GetConfig_tokenURI viper : RunaiAuthConfig.TokenURI (RunaiConfig.AuthConfig (RemoteConfig.Runai (GetConfig viper))) ≠ "".
Proof. cbn. by destruct (GetString viper "runai-base-url"). Qed.

(** C30: A configuration that is read and validated is accepted by the controller it
    selects: FirecREST when its part is valid, else Run:AI.  Creating the
    controller fails only for Run:AI without a project, which the validation
    does not look at, and panics only for Renku tokens of version 2 whose access
    token is a JWT without an expiry. *)
Theorem validated_config_accepted `{Token.JwtLib} viper cfg :
  RemoteConfig.Validate (GetConfig viper) = (cfg, None) →
  (RemoteConfig.RemoteKind cfg = RemoteKindFirecrest ↔ FirecrestConfig.Validate (RemoteConfig.Firecrest cfg) = None) ∧
  match NewRemoteSessionController cfg with
  | Done (inl c) => match c with FirecrestKind _ => RemoteConfig.RemoteKind cfg = RemoteKindFirecrest
                               | RunaiKind _ => RemoteConfig.RemoteKind cfg = RemoteKindRunai end
  | Done (inr _) => RemoteConfig.RemoteKind cfg = RemoteKindRunai ∧ RunaiConfig.Project (RemoteConfig.Runai cfg) = ""
  | Panicked _ => RemoteConfig.RemoteKind cfg = RemoteKindFirecrest ∧
                  FirecrestAuthConfig.Kind (FirecrestConfig.AuthConfig (RemoteConfig.Firecrest cfg)) = FirecrestAuthConfigKindRenkuV2 ∧
                  Token.ParseUnverified (FirecrestAuthConfig.RenkuAccessToken
                    (FirecrestConfig.AuthConfig (RemoteConfig.Firecrest cfg))) = inl None
  end.
Proof.
  pose proof (GetConfig_tokenURI viper) as Huri. generalize dependent (GetConfig viper). intros raw Huri.
  unfold RemoteConfig.Validate. case_if; [done|]. cbn [RemoteConfig.Firecrest RemoteConfig.Runai RemoteConfig.with_RemoteKind].
  destruct (FirecrestConfig.Validate (RemoteConfig.Firecrest raw)) as [ferr|] eqn:Hf.
  - destruct (RunaiConfig.Validate (RemoteConfig.Runai raw)) as [rerr|] eqn:Hr; [done|]. intros [= <-]. cbn.
    split; [by rewrite Hf|]. unfold RunaiConfig.Validate, RunaiAuthConfig.Validate in Hr. required.
    destruct (_ =s "") eqn:Ek in Hr; [done|]. destruct (_ =s RunaiAuthConfigKindClientCredentials) eqn:Ec in Hr; [|done].
    unfold RunaiAuthConfig.validateClientCredentials in Hr. required.
    unfold NewRunaiRemoteSessionController, NewRunaiAuth. cbn. rewrite Ec. unfold RunaiClientCredentialsAuth.new.
    rewrite (proj2 (String.eqb_neq _ _) Huri). repeat match goal with H : (_ =s "") = false |- _ => rewrite H end.
    destruct (isURL_parse (RunaiConfig.BaseURL (RemoteConfig.Runai raw))) as (u & ->); [done|]. cbn.
    destruct (RunaiConfig.Project (RemoteConfig.Runai raw) =s "") eqn:Ep; cbn; [by apply String.eqb_eq in Ep|done].
  - intros [= <-]. cbn. split; [by rewrite Hf|]. unfold FirecrestConfig.Validate in Hf. required.
    unfold NewFirecrestRemoteSessionController. cbn. pose proof (firecrestAuth_accepted _ Hf) as Ha.
    destruct (NewFirecrestAuth _) as [[auth|err]|why]; [|done|done]. cbn.
    destruct (isURL_parse (FirecrestConfig.APIURL (RemoteConfig.Firecrest raw))) as (u & ->); [done|]. cbn.
    by repeat match goal with H : (_ =s "") = false |- _ => rewrite H end.
Qed.

(** ** Status *)

(** The state of the job as the API last reported it, if it did. *)
Definition reported (r : Result (Response.t (option (list string)))) : option string :=
  match r with inl (Response.mk _ (Some (Some (state :: _))) _ _) => Some state | _ => None end.

Definition statusMonitor : Monitor Fc (option string) := {|
  allowed := λ _ _ _, True;
  rely := λ _ _ _ _, True;
  next := λ R e, match e in Fc R return R → option string → option string with
                 | GetJob _ _ => λ r _, reported r
                 | _ => λ _ g, g
                 end;
  panic_ok := λ _, False |}.

Lemma running_state s : (GetRemoteSessionState s).1 = Running → s = "RUNNING".
Proof.
  unfold GetRemoteSessionState. destruct (statusMap !! s) as [state|] eqn:E; [|done]. cbn. intros ->.
  apply elem_of_list_to_map_2 in E. rewrite !elem_of_cons in E. 
  repeat (destruct E as [E|E]; [first [injection E as Hs; exact Hs|injection E as Hs Hr; discriminate Hr]|]). by apply elem_of_nil in E.
Qed.

Lemma fetchSessionLogs_status c g :
  wp statusMonitor (fetchSessionLogs c) (λ c' g', g' = g ∧ Status c' = Status c ∧ Controller.jobID c' = Controller.jobID c) g.
Proof.
  unfold fetchSessionLogs. case_if; [done|].
  apply wp_foldM with (I := λ _ c' g', g' = g ∧ Status c' = Status c ∧ Controller.jobID c' = Controller.jobID c); [done| |done].
  intros name _ c' g' (-> & Hs & Hj). unfold fetchLogStream.
  assert (Hflush : ∀ stream lines offset, wp statusMonitor (flushLines stream lines offset) (λ _ g', g' = g) g).
  { intros stream lines. induction lines as [|l [|l' lines] IH]; intros offset; [done..|]. split; [done|]. intros r _. apply IH. }
  assert (Hfetch : ∀ stream path offset buf, wp statusMonitor (fetchFrom (Controller.systemName c') stream path offset buf) (λ _ g', g' = g) g).
  { intros stream path offset buf. split; [done|]. intros [[code [[content|]|] e4 e5]|err] _; try done.
    cbn -[flushLines splitLines]. case_if; [done|]. apply Hflush. }
  case_if; [|case_if; [|done]]; (eapply wp_bind_intro; [apply Hfetch|]); by intros [off buf] g1 ->.
Qed.

(** After a round of the ticker GET /status answers 200 exactly if the API has
    reported the job of the session as RUNNING in that round; in every other
    case (no job, an error, an empty answer, an unknown or another state) it
    answers 503. *)
Theorem status_follows_job env sessionScript `{DockerReference} c :
  let _ := firecrestController env sessionScript in
  wp statusMonitor (tick env c)
    (λ c' g, ((statusEndpoint c').1.1 = 200%Z ↔ g = Some "RUNNING") ∧
             ((statusEndpoint c').1.1 = 503%Z ↔ g ≠ Some "RUNNING")) None.
Proof.
  intros ctl. unfold tick.
  eapply wp_bind_intro with (P := λ '(state, err) g, (state = Running ∧ err = None ↔ g = Some "RUNNING")).
  { unfold getCurrentStatus. case_if; [cbn; naive_solver|]. split; [done|]. intros r _. cbn.
    destruct r as [[code [[[|s l]|]|] e4 e5]|err]; cbn; try naive_solver.
    pose proof (running_state s) as Hrun. unfold GetRemoteSessionState in *. destruct (statusMap !! s) as [state|] eqn:Em; cbn in *.
    - split; [intros [-> _]; by rewrite Hrun|]. intros [= ->]. by injection Em as <-.
    - split; [by intros [? ?]|]. by intros [= ->]. }
  intros [state err] g Hg. eapply wp_bind_intro; [apply fetchSessionLogs_status|]. intros c2 g2 (-> & Hs & _).
  assert (Hpost : ((statusEndpoint c2).1.1 = 200%Z ↔ g = Some "RUNNING") ∧ ((statusEndpoint c2).1.1 = 503%Z ↔ g ≠ Some "RUNNING")).
  { rewrite <- Hg. unfold statusEndpoint. change (status c2) with (Status c2). rewrite Hs. cbn.
    destruct err; [naive_solver|]. destruct (state =s Running) eqn:E; bool_simpl; naive_solver. }
  case_if; [|done]. unfold saveState. case_if; [done|]. split; [done|]. intros [err'|] _; [done|]. by split.
Qed.

(** ** Run:AI *)

(** Under Run:AI a session is never reported as running: GET /status answers
    503 before the first round and after every round, whatever the API says
    (the state it computes is never assigned). *)
Theorem runai_never_running (env : Env) cfg c :
  NewRunaiRemoteSessionController cfg = inl c →
  let _ := runaiController env in
  (statusEndpoint c).1.1 = 503%Z ∧
  ∀ {W} (h : Handler RunaiEv W) c' w,
    match run h (runaiTick c') w with
    | (Done c2, _) => (statusEndpoint c2).1.1 = 503%Z
    | (Panicked _, _) => True
    end.
Proof.
  intros Hc ctl. split.
  - unfold NewRunaiRemoteSessionController in Hc. destruct (NewRunaiAuth _) as [auth|]; [|done].
    destruct (url_Parse _); [|done]. destruct (_ =s "") in Hc; [done|]. by injection Hc as <-.
  - intros W h c' w. unfold runaiTick, runaiCurrentStatus. change (?p ≫= ?f) with (bind p f). rewrite run_bind.
    change (?p ≫= ?f) with (bind p f). rewrite run_bind.
    destruct (run h (GetWorkloads (RunaiController.client c')) w) as [[[l|err]|why] w']; cbn; [|done..].
    by destruct (RunaiController.jobName c' =s "").
Qed.

(** The requests that are sent. *)
Definition requestMonitor : Monitor RunaiEv (list ApiRequest.t) := {|
  allowed := λ _ _ _, True;
  rely := λ _ _ _ _, True;
  next := λ R e, match e in RunaiEv R return R → list ApiRequest.t → list ApiRequest.t with
                 | ApiDo req => λ _ g, g ++ [req]
                 | _ => λ _ g, g
                 end;
  panic_ok := λ _, True |}.

Lemma authCalls_wp {A} (p : Prog AuthEv A) g : wp requestMonitor (embed (@AuthCall) p) (λ _ g', g' = g) g.
Proof. induction p as [a|w|R e k IH]; cbn; [done..|]. split; [done|]. intros r _. apply IH. Qed.

(** The retry of an unauthorized request to Run:AI repeats the rejected
    credentials: whatever new token has been obtained, the second request has
    the Authorization header of the first, and if the first had a body, the
    second has an empty one. *)
Theorem runai_retry_repeats (c : RunaiApi.t) (req : ApiRequest.t) :
  ApiRequest.Authorization req ≠ "" →
  wp requestMonitor (send c req)
    (λ _ g, g = [req] ∨ g = [req; ApiRequest.with_Body req (option_map (λ _, "") (ApiRequest.Body req))]) [].
Proof.
  intros Ha. unfold send. eapply wp_bind_intro with (P := λ _ g, g = [req]); [done|].
  intros [resp|err] g ->; [|by left]. case_if; [|by left].
  unfold retryUnauthorizedRequest. eapply wp_bind_intro; [apply authCalls_wp|]. intros [token|err] g ->; [|by left].
  unfold applyEditors. apply wp_bind. apply wp_bind. unfold RequestEditorInjectAccessToken.
  change (ApiRequest.Authorization (sent req)) with (ApiRequest.Authorization req).
  rewrite (proj2 (String.eqb_neq _ _) Ha). cbn. split; [done|]. intros r _. right.
  unfold sent. by destruct req as [? ? ? [|]].
Qed.

(** Whether the saved state that was read names a job. *)
Definition namesJob (contents : string) : bool :=
  match Unmarshal runaiState.decode runaiState.zero contents with
  | inl st => runaiState.JobName st ≠s ""
  | inr _ => false
  end.

Definition recoveryMonitor : Monitor RunaiEv bool := {|
  allowed := λ _ _ _, True;
  rely := λ _ _ _ _, True;
  next := λ R e, match e in RunaiEv R return R → bool → bool with
                 | FileRead _ => λ r g, match r with inl contents => namesJob contents | inr _ => g end
                 | _ => λ _ g, g
                 end;
  panic_ok := λ _, True |}.

(** A Run:AI session that is resumed after a restart cannot be stopped: the
    saved identifier of the workspace is not read back, so the stop makes no
    call at all and the workspace stays. *)
Theorem runai_resumed_not_stopped env c :
  RunaiController.jobId c = "" →
  wp recoveryMonitor (recoverJobInfo env c)
    (λ '(c', err) resumed, (resumed = true → err = None ∧ RunaiController.jobName c' ≠ "") ∧
       runaiStop env c' = Ret None) false.
Proof.
  intros Hj. split; [done|]. intros [contents|err] _; cbn; unfold namesJob, runaiStop.
  - destruct (Unmarshal _ _ _) as [st|err]; [|by rewrite Hj]. destruct (_ ≠s "") eqn:E; cbn; rewrite Hj; [|done].
    bool_simpl. done.
  - by rewrite Hj.
Qed.
