(* ===== verification/RemoteWiring.v ===== *)
(** * From the session to the side car and on to the remote job

    What the operator writes into the session container of a remote session,
    what the remote session controller reads from it, and what it hands on to
    the job: the composition of the builder of the pod
    ([Children.sessionContainerRemote]), the table of settings
    ([RemoteConfig.SetFlags], [RemoteConfig.GetConfig]) and the environment of
    the job ([Firecrest.copiedEnv], [Firecrest.gitEnv]).  The kubelet and the
    settings library are interfaces, stated with the laws that are used; an
    implementation of each shows that the laws can hold. *)

From S2P Require Import Prelude Prog NetUrl K8s Types Names Templates Children Config Json JsonProps RemoteConfig Firecrest FirecrestProps FirecrestTheorems.
From Stdlib Require Import Ascii.

(** ** Interfaces *)

(** A value without references to other variables. *)
Definition literalValue (s : string) : Prop := Strings.CountByte "$"%char s = 0%nat.

(** The steps of a path, and whether a path is a mount point or lies below it; a
    mount point that leads upwards may be anywhere. *)
Definition segments (path : string) : list string := filter (λ s, s ≠ ".") (Strings.Fields "/" path).
Definition below (mountPath path : string) : bool :=
  bool_decide (".." ∈ segments mountPath) || bool_decide (segments mountPath `prefix_of` segments path).

(** The environment the kubelet gives to a container: of the entries with a
    name the last one counts; a value without references is taken as it is, and
    a reference to a key of a secret is replaced by its value; a variable that is
    not among the entries is unset, but for those that come from elsewhere, like
    the image ([ambient]).  [secretData] gives the data of the secrets of the
    namespace.  [containerFile] gives the files in a container of a pod with
    volumes: a secret that is mounted as a whole has a file for each of its keys,
    which one sees if the path is not below another mount. *)
Class Kubelet := {
  secretData : string → string → option string;
  environ : Container.t → Env;
  environ_secret : ∀ c l1 e l2 src ref v, Container.Env c = l1 ++ e :: l2 → EnvVar.ValueFrom e = Some src →
    EnvVarSource.SecretKeyRef src = Some ref → EnvVar.Name e ∉ EnvVar.Name <$> l2 →
    secretData (SecretKeySelector.Name ref) (SecretKeySelector.Key ref) = Some v → environ c !! EnvVar.Name e = Some v;
  environ_literal : ∀ c l1 e l2, Container.Env c = l1 ++ e :: l2 → EnvVar.ValueFrom e = None →
    EnvVar.Name e ∉ EnvVar.Name <$> l2 → literalValue (EnvVar.Value e) → environ c !! EnvVar.Name e = Some (EnvVar.Value e);
  ambient : Container.t → list string;
  environ_unset : ∀ c x, x ∉ EnvVar.Name <$> Container.Env c → Container.EnvFrom c = [] → x ∉ ambient c → environ c !! x = None;
  containerFile : list Volume.t → Container.t → string → option string;
  file_secret : ∀ volumes c l1 m l2 v secret key,
    Container.VolumeMounts c = l1 ++ m :: l2 → VolumeMount.SubPath m = "" →
    v ∈ volumes → NoDup (Volume.Name <$> volumes) → Volume.Name v = VolumeMount.Name m →
    VolumeSource.Secret (Volume.Source v) = Some secret → SecretVolumeSource.rest secret = NoRest →
    let path := VolumeMount.MountPath m +:+ "/" +:+ key in
    (∀ m', m' ∈ l1 ++ l2 → below (VolumeMount.MountPath m') path = false) →
    ∀ data, secretData (SecretVolumeSource.SecretName secret) key = Some data → containerFile volumes c path = Some data }.

(** The settings library: a bound variable that is set and not empty gives the
    value of its key; decimal texts are read as integers. *)
Class SettingsLib := {
  settings : Env → Settings;
  settings_string : ∀ env b v, b ∈ SetFlags → env !! Binding.EnvVar b = Some v → v ≠ "" →
    GetString (settings env) (Binding.Key b) = v;
  settings_int : ∀ env b z, b ∈ SetFlags → env !! Binding.EnvVar b = Some (pretty z) → (0 ≤ z < 2 ^ 31)%Z →
    GetInt32 (settings env) (Binding.Key b) = z }.

Lemma literal_digits s : allDigits s → literalValue s.
Proof.
  unfold allDigits, literalValue. induction s as [|c s IH]; [done|]. cbn. destruct (Bytes.isDigit c) eqn:E; [|done].
  intros Hs. rewrite (IH Hs). by destruct c as [[] [] [] [] [] [] [] []].
Qed.

Lemma literal_pretty (z : Z) : (0 ≤ z)%Z → literalValue (pretty z) ∧ pretty z ≠ "".
Proof.
  intros Hz. destruct (pretty_Z_cases z) as [[-> _]|(n & Hn & [[-> _]|[_ ->]])]; [split; [reflexivity|done]| |lia].
  destruct (pretty_digits n "" Hn eq_refl) as (d & t & -> & Hd & _ & Ht). split; [|done].
  apply literal_digits. unfold allDigits in *. cbn. by rewrite Hd.
Qed.

(** The entries that the operator adds itself. *)
Definition operatorNames : list string :=
  ["REMOTE_SESSION_IMAGE"; "RSC_SERVER_PORT"; "RSC_SESSION_PORT"; "RSC_SESSION_URL_PATH"; "RSC_READINESS_PROBE_TYPE";
   "RSC_WSTUNNEL_SECRET"; "RSC_SESSION_CPU"; "RSC_SESSION_MEMORY"; "RSC_SESSION_GPUS"].

Lemma remoteEnvName_user name :
  Strings.HasPrefix name "RENKU_" = false → Strings.HasPrefix name "RSC_" = false →
  remoteEnvName name = "USER_ENV_" +:+ name.
Proof. unfold remoteEnvName. by intros -> ->. Qed.

#[local] Instance remoteEnvName_inj : Inj (=) (=) remoteEnvName.
Proof.
  intros x y. unfold remoteEnvName. destruct (Strings.HasPrefix x _ || Strings.HasPrefix x _) eqn:Ex,
    (Strings.HasPrefix y _ || Strings.HasPrefix y _) eqn:Ey; [done|..|].
  - intros ->. discriminate Ex.
  - intros <-. discriminate Ey.
  - intros E. by injection E.
Qed.

Section Operator.
Context (opEnv : Env) `{QuantityOps, Kubelet, SettingsLib} (cr : AmaltheaSession.t) (volumeMounts : list VolumeMount.t).
#[local] Notation session := (Spec_Session cr).
#[local] Notation container := (sessionContainerRemote opEnv cr volumeMounts).

(** The configuration that the side car reads. *)
Definition sidecarConfig : RemoteConfig.t := GetConfig (settings (environ container)).

(** An entry the operator adds after those of the user. *)
Lemma operator_entry before e after :
  Container.Env container = remoteEnv session ++ before ++ e :: after → EnvVar.ValueFrom e = None →
  EnvVar.Name e ∉ EnvVar.Name <$> after → literalValue (EnvVar.Value e) →
  environ container !! EnvVar.Name e = Some (EnvVar.Value e).
Proof. intros He. eapply environ_literal. rewrite He. by rewrite (assoc (++)). Qed.

Lemma server_port_entry : environ container !! "RSC_SERVER_PORT" = Some (pretty RemoteSessionControllerPort).
Proof.
  refine (operator_entry [_] (envVar "RSC_SERVER_PORT" (pretty RemoteSessionControllerPort)) _ eq_refl eq_refl _ _).
  - cbn. set_solver.
  - by vm_compute.
Qed.

Lemma session_port_entry : (0 ≤ Session.Port session)%Z →
  environ container !! "RSC_SESSION_PORT" = Some (pretty (Session.Port session)).
Proof.
  intros Hp. refine (operator_entry [_; _] (envVar "RSC_SESSION_PORT" _) _ eq_refl eq_refl _ _).
  - cbn. set_solver.
  - by apply literal_pretty.
Qed.

Lemma url_path_entry : literalValue (Session.URLPath session) →
  environ container !! "RSC_SESSION_URL_PATH" = Some (Session.URLPath session).
Proof. refine (operator_entry [_; _; _] (envVar "RSC_SESSION_URL_PATH" _) _ eq_refl eq_refl _). cbn. set_solver. Qed.

Lemma probe_entry : literalValue (Session.ReadinessProbe session) →
  environ container !! "RSC_READINESS_PROBE_TYPE" = Some (Session.ReadinessProbe session).
Proof. refine (operator_entry [_; _; _; _] (envVar "RSC_READINESS_PROBE_TYPE" _) _ eq_refl eq_refl _). cbn. set_solver. Qed.

(** An entry of the user that the operator does not override. *)
Lemma user_entry l1 item l2 :
  Session.Env session = l1 ++ item :: l2 → EnvVar.ValueFrom item = None → EnvVar.Name item ∉ EnvVar.Name <$> l2 →
  remoteEnvName (EnvVar.Name item) ∉ operatorNames → literalValue (EnvVar.Value item) →
  environ container !! remoteEnvName (EnvVar.Name item) = Some (EnvVar.Value item).
Proof.
  intros He Hv Hn Ho Hl. set (rename e := {| EnvVar.Name := remoteEnvName (EnvVar.Name e); EnvVar.Value := EnvVar.Value e;
                                             EnvVar.ValueFrom := EnvVar.ValueFrom e |}).
  assert (∃ own, Container.Env container = remoteEnv session ++ own ∧ EnvVar.Name <$> own = operatorNames)
    as (own & Hc & Hnames) by (eexists; by split).
  unfold remoteEnv in Hc. fold rename in Hc. rewrite He, fmap_app, <- (assoc (++)) in Hc.
  change (Container.Env container = map rename l1 ++ rename item :: map rename l2 ++ own) in Hc.
  apply (environ_literal _ _ (rename item) (map rename l2 ++ own) Hc); [done| |done]. rewrite fmap_app, Hnames. intros [Hin|Hin]%elem_of_app; [|done].
  apply list_elem_of_fmap in Hin as (e' & Hne & (e & -> & Hin)%list_elem_of_fmap). apply (inj remoteEnvName) in Hne. apply Hn. rewrite Hne. by apply list_elem_of_fmap_2.
Qed.

(** C28: The side car of a remote session gets the settings of its session,
    whatever variables the user defines: it listens on the port that the
    operator's container port and probes name, and serves the port, the path
    and the readiness probe of the session. *)
Theorem operator_configures_sidecar :
  (0 ≤ Session.Port session < 2 ^ 31)%Z → literalValue (Session.URLPath session) → Session.URLPath session ≠ "" →
  Session.ReadinessProbe session ∈ ["none"; "tcp"; "http"] →
  RemoteConfig.SessionPort sidecarConfig = Session.Port session ∧
  RemoteConfig.SessionURLPath sidecarConfig = Session.URLPath session ∧
  RemoteConfig.ReadinessProbeType sidecarConfig = Session.ReadinessProbe session ∧
  ContainerPort.ContainerPort <$> Container.Ports container = [RemoteConfig.ServerPort sidecarConfig] ∧
  Container.LivenessProbe container = Some (probe (httpGet "/live" (RemoteConfig.ServerPort sidecarConfig)) 10 1 0) ∧
  Container.ReadinessProbe container = Some (probe (httpGet "/ready" (RemoteConfig.ServerPort sidecarConfig)) 10 5 5).
Proof.
  intros Hp Hu Hu' Hr.
  assert (Hport : RemoteConfig.ServerPort sidecarConfig = RemoteSessionControllerPort).
  { apply (settings_int _ (topBinding "server-port" (pretty RemoteSessionControllerPort))); [by left|apply server_port_entry|done]. }
  split_and!; [| | |by rewrite Hport..].
  - apply (settings_int _ (topBinding "session-port" "0")); [by do 2 right; left|by apply session_port_entry; lia|done].
  - apply (settings_string _ (topBinding "session-url-path" "/")); [by do 3 right; left|by apply url_path_entry|done].
  - assert (literalValue (Session.ReadinessProbe session) ∧ Session.ReadinessProbe session ≠ "") as [Hl Hne].
    { rewrite !elem_of_cons in Hr. destruct Hr as [->|[->|[->|[]%elem_of_nil]]]; by split. }
    apply (settings_string _ (topBinding "readiness-probe-type" "none")); [by do 4 right; left|by apply probe_entry|done].
Qed.

(** C29: A variable that the user gives to a remote session reaches the job under
    its own name and with its own value: through the renamed entry of the
    container, the environment of the side car and the copy for the job.  (The
    last entry of a name counts; the names reserved for the configuration of the
    side car, for REMOTE_SESSION and for the controller are excluded.) *)
Theorem user_env_reaches_job `{DockerReference} l1 item l2 repos keys e :
  let k := EnvVar.Name item in
  Session.Env session = l1 ++ item :: l2 → EnvVar.ValueFrom item = None → k ∉ EnvVar.Name <$> l2 →
  literalValue (EnvVar.Value item) →
  Strings.HasPrefix k "RSC_" = false → Strings.HasPrefix k "REMOTE_SESSION" = false →
  Strings.HasPrefix k "RENKU" = Strings.HasPrefix k "RENKU_" → k ∉ controllerVars →
  tunnelEnv (environ container) (copiedEnv (environ container)) = inl e →
  gitEnv repos keys e !! k = Some (EnvVar.Value item).
Proof.
  intros k He Hv Hn Hl Hrsc Hrs Hrk Hk Ht. rewrite (gitEnv_lookup _ repos keys e k Ht Hk).
  rewrite copiedEnv_lookup by (intros ->; by apply Hk; left). rewrite Hrs, Hrk.
  assert (Hu : environ container !! remoteEnvName k = Some (EnvVar.Value item)).
  { apply (user_entry l1 item l2); try done. fold k. unfold remoteEnvName. rewrite Hrsc, orb_false_r.
    destruct (Strings.HasPrefix k "RENKU_") eqn:E; [|by vm_compute; set_solver].
    unfold operatorNames. rewrite !not_elem_of_cons. split_and!; try (intros ->; discriminate). apply not_elem_of_nil. }
  unfold remoteEnvName in Hu. rewrite Hrsc, orb_false_r in Hu.
  destruct (Strings.HasPrefix k "RENKU_"); [by rewrite Hu|done].
Qed.
End Operator.
