(* ===== verification/FirecrestTypes.v ===== *)
(** * Documents of the FirecREST API (internal/remote/firecrest/firecrest_gen.go)

    The structs of requests and answers that the controller does not use, with
    what [encoding/json] writes for them and reads into them.  A struct with a
    single field is the value of that field; a union is the JSON value it holds;
    a floating-point number is its literal. *)

From S2P Require Import Prelude NetUrl Json JsonProps.
From Stdlib Require Import Ascii.

(** ** Fields *)

(** A union keeps the text it is given. *)
Definition decodeUnion : Decoder json := λ v _, (v, None).

(** A number that is kept as its literal. *)
Definition decodeNumber : Decoder string := λ v old,
  match v with JNum lit => (lit, None) | JNull => (old, None) | _ => (old, Some mismatch) end.

#[export, refine] Instance unionCodec : JsonCodec json := {|
  marshal := id; decode := decodeUnion; zeroValue := JNull; representable := wellFormed |}.
Proof. all: done. Defined.

(** A time, kept as its text. *)
Definition decodeTimeText : Decoder string := λ v old,
  match (decodeTime v tt).2, v with None, JStr s => (s, None) | err, _ => (old, err) end.

(** Maps: null gives nil; the members are added to what is there. *)
Definition decodeMap {A} (zero : A) (d : Decoder A) : Decoder (gmap string A) := λ v old,
  match v with
  | JNull => (∅, None)
  | JObj l => foldl (λ '(m, err) '(k, v), let '(a, err') := d v zero in (<[k := a]> m, firstError err err')) (old, None) l
  | _ => (old, Some mismatch)
  end.

(** ** Answers *)

Module TransferJobLogs.
Record t := mk { ErrorLog : string; OutputLog : string }.
Definition zero : t := mk "" "".
Definition decode : Decoder t := decodeStruct (λ name,
  if name =s "errorlog" then Some (field ErrorLog (λ r x, mk x (OutputLog r)) decodeString)
  else if name =s "outputlog" then Some (field OutputLog (λ r x, mk (ErrorLog r) x) decodeString)
  else None).
End TransferJobLogs.

Module TransferJob.
Record t := mk { JobId : string; Logs : TransferJobLogs.t; System : string; WorkingDirectory : string }.
Definition zero : t := mk "" TransferJobLogs.zero "" "".
Definition decode : Decoder t := decodeStruct (λ name,
  if name =s "jobid" then Some (field JobId (λ r x, mk x (Logs r) (System r) (WorkingDirectory r)) decodeString)
  else if name =s "logs" then Some (field Logs (λ r x, mk (JobId r) x (System r) (WorkingDirectory r))
    TransferJobLogs.decode)
  else if name =s "system" then Some (field System (λ r x, mk (JobId r) (Logs r) x (WorkingDirectory r)) decodeString)
  else if name =s "workingdirectory" then Some (field WorkingDirectory (λ r x, mk (JobId r) (Logs r) (System r) x)
    decodeString)
  else None).
End TransferJob.

Definition decodeCompressResponse : Decoder TransferJob.t := decodeStruct (λ name,
  if name =s "transferjob" then Some TransferJob.decode else None).

Definition decodeCopyResponse : Decoder TransferJob.t := decodeStruct (λ name,
  if name =s "transferjob" then Some TransferJob.decode else None).

Definition decodeExtractResponse : Decoder TransferJob.t := decodeStruct (λ name,
  if name =s "transferjob" then Some TransferJob.decode else None).

Definition decodeMoveResponse : Decoder TransferJob.t := decodeStruct (λ name,
  if name =s "transferjob" then Some TransferJob.decode else None).

Definition decodeDeleteResponse : Decoder TransferJob.t := decodeStruct (λ name,
  if name =s "transferjob" then Some TransferJob.decode else None).

Module DownloadFileResponse.
Record t := mk { TransferDirectives : json; TransferJob : TransferJob.t }.
Definition zero : t := mk JNull TransferJob.zero.
Definition decode : Decoder t := decodeStruct (λ name,
  if name =s "transferdirectives" then Some (field TransferDirectives (λ r x, mk x (TransferJob r)) decodeUnion)
  else if name =s "transferjob" then Some (field TransferJob (λ r x, mk (TransferDirectives r) x) TransferJob.decode)
  else None).
End DownloadFileResponse.

Module UploadFileResponse.
Record t := mk { TransferDirectives : json; TransferJob : TransferJob.t }.
Definition zero : t := mk JNull TransferJob.zero.
Definition decode : Decoder t := decodeStruct (λ name,
  if name =s "transferdirectives" then Some (field TransferDirectives (λ r x, mk x (TransferJob r)) decodeUnion)
  else if name =s "transferjob" then Some (field TransferJob (λ r x, mk (TransferDirectives r) x) TransferJob.decode)
  else None).
End UploadFileResponse.

Module File.
Record t := mk { Group : string; LastModified : string; LinkTarget : option string; Name : string; Permissions : string;
  Size : string; Type_ : string; User : string }.
Definition zero : t := mk "" "" None "" "" "" "" "".
Definition decode : Decoder t := decodeStruct (λ name,
  if name =s "group" then Some (field Group (λ r x, mk x (LastModified r) (LinkTarget r) (Name r) (Permissions r) (Size r)
    (Type_ r) (User r)) decodeString)
  else if name =s "lastmodified" then Some (field LastModified (λ r x, mk (Group r) x (LinkTarget r) (Name r) (Permissions
    r) (Size r) (Type_ r) (User r)) decodeString)
  else if name =s "linktarget" then Some (field LinkTarget (λ r x, mk (Group r) (LastModified r) x (Name r) (Permissions r)
    (Size r) (Type_ r) (User r)) (decodePtr "" decodeString))
  else if name =s "name" then Some (field Name (λ r x, mk (Group r) (LastModified r) (LinkTarget r) x (Permissions r) (Size
    r) (Type_ r) (User r)) decodeString)
  else if name =s "permissions" then Some (field Permissions (λ r x, mk (Group r) (LastModified r) (LinkTarget r) (Name r) x
    (Size r) (Type_ r) (User r)) decodeString)
  else if name =s "size" then Some (field Size (λ r x, mk (Group r) (LastModified r) (LinkTarget r) (Name r) (Permissions r)
    x (Type_ r) (User r)) decodeString)
  else if name =s "type" then Some (field Type_ (λ r x, mk (Group r) (LastModified r) (LinkTarget r) (Name r) (Permissions
    r) (Size r) x (User r)) decodeString)
  else if name =s "user" then Some (field User (λ r x, mk (Group r) (LastModified r) (LinkTarget r) (Name r) (Permissions r)
    (Size r) (Type_ r) x) decodeString)
  else None).
End File.

Module FileChecksum.
Record t := mk { Algorithm : option string; Checksum : string }.
Definition zero : t := mk None "".
Definition decode : Decoder t := decodeStruct (λ name,
  if name =s "algorithm" then Some (field Algorithm (λ r x, mk x (Checksum r)) (decodePtr "" decodeString))
  else if name =s "checksum" then Some (field Checksum (λ r x, mk (Algorithm r) x) decodeString)
  else None).
End FileChecksum.

Module FileContent.
Record t := mk { Content : string; ContentType : string; EndPosition : Z; StartPosition : Z }.
Definition zero : t := mk "" "" 0%Z 0%Z.
Definition decode : Decoder t := decodeStruct (λ name,
  if name =s "content" then Some (field Content (λ r x, mk x (ContentType r) (EndPosition r) (StartPosition r))
    decodeString)
  else if name =s "contenttype" then Some (field ContentType (λ r x, mk (Content r) x (EndPosition r) (StartPosition r))
    decodeString)
  else if name =s "endposition" then Some (field EndPosition (λ r x, mk (Content r) (ContentType r) x (StartPosition r))
    decodeInt)
  else if name =s "startposition" then Some (field StartPosition (λ r x, mk (Content r) (ContentType r) (EndPosition r) x)
    decodeInt)
  else None).
End FileContent.

Module FileStat.
Record t := mk { Atime : Z; Ctime : Z; Dev : Z; Gid : Z; Ino : Z; Mode : Z; Mtime : Z; Nlink : Z; Size : Z; Uid : Z }.
Definition zero : t := mk 0%Z 0%Z 0%Z 0%Z 0%Z 0%Z 0%Z 0%Z 0%Z 0%Z.
Definition decode : Decoder t := decodeStruct (λ name,
  if name =s "atime" then Some (field Atime (λ r x, mk x (Ctime r) (Dev r) (Gid r) (Ino r) (Mode r) (Mtime r) (Nlink r)
    (Size r) (Uid r)) decodeInt)
  else if name =s "ctime" then Some (field Ctime (λ r x, mk (Atime r) x (Dev r) (Gid r) (Ino r) (Mode r) (Mtime r) (Nlink r)
    (Size r) (Uid r)) decodeInt)
  else if name =s "dev" then Some (field Dev (λ r x, mk (Atime r) (Ctime r) x (Gid r) (Ino r) (Mode r) (Mtime r) (Nlink r)
    (Size r) (Uid r)) decodeInt)
  else if name =s "gid" then Some (field Gid (λ r x, mk (Atime r) (Ctime r) (Dev r) x (Ino r) (Mode r) (Mtime r) (Nlink r)
    (Size r) (Uid r)) decodeInt)
  else if name =s "ino" then Some (field Ino (λ r x, mk (Atime r) (Ctime r) (Dev r) (Gid r) x (Mode r) (Mtime r) (Nlink r)
    (Size r) (Uid r)) decodeInt)
  else if name =s "mode" then Some (field Mode (λ r x, mk (Atime r) (Ctime r) (Dev r) (Gid r) (Ino r) x (Mtime r) (Nlink r)
    (Size r) (Uid r)) decodeInt)
  else if name =s "mtime" then Some (field Mtime (λ r x, mk (Atime r) (Ctime r) (Dev r) (Gid r) (Ino r) (Mode r) x (Nlink r)
    (Size r) (Uid r)) decodeInt)
  else if name =s "nlink" then Some (field Nlink (λ r x, mk (Atime r) (Ctime r) (Dev r) (Gid r) (Ino r) (Mode r) (Mtime r) x
    (Size r) (Uid r)) decodeInt)
  else if name =s "size" then Some (field Size (λ r x, mk (Atime r) (Ctime r) (Dev r) (Gid r) (Ino r) (Mode r) (Mtime r)
    (Nlink r) x (Uid r)) decodeInt)
  else if name =s "uid" then Some (field Uid (λ r x, mk (Atime r) (Ctime r) (Dev r) (Gid r) (Ino r) (Mode r) (Mtime r)
    (Nlink r) (Size r) x) decodeInt)
  else None).
End FileStat.

Definition decodeGetDirectoryLsResponse : Decoder (option (list File.t)) := decodeStruct (λ name,
  if name =s "output" then Some (decodePtr [] (decodeSlice File.zero File.decode)) else None).

Definition decodeGetFileChecksumResponse : Decoder (option FileChecksum.t) := decodeStruct (λ name,
  if name =s "output" then Some (decodePtr FileChecksum.zero FileChecksum.decode) else None).

Definition decodeGetFileHeadResponse : Decoder (option FileContent.t) := decodeStruct (λ name,
  if name =s "output" then Some (decodePtr FileContent.zero FileContent.decode) else None).

Definition decodeGetFileTailResponse : Decoder (option FileContent.t) := decodeStruct (λ name,
  if name =s "output" then Some (decodePtr FileContent.zero FileContent.decode) else None).

Definition decodeGetFileStatResponse : Decoder (option FileStat.t) := decodeStruct (λ name,
  if name =s "output" then Some (decodePtr FileStat.zero FileStat.decode) else None).

Definition decodeGetFileTypeResponse : Decoder (option string) := decodeStruct (λ name,
  if name =s "output" then Some (decodePtr "" decodeString) else None).

Definition decodePutFileChownResponse : Decoder (option File.t) := decodeStruct (λ name,
  if name =s "output" then Some (decodePtr File.zero File.decode) else None).

Definition decodePostFileSymlinkResponse : Decoder (option File.t) := decodeStruct (λ name,
  if name =s "output" then Some (decodePtr File.zero File.decode) else None).

Module GetLiveness.
Record t := mk { HealthcheckRuns : option (gmap string string); LastUpdate : option Z }.
Definition zero : t := mk None None.
Definition decode : Decoder t := decodeStruct (λ name,
  if name =s "healthcheckruns" then Some (field HealthcheckRuns (λ r x, mk x (LastUpdate r)) (decodePtr ∅ (decodeMap ""
    decodeTimeText)))
  else if name =s "lastupdate" then Some (field LastUpdate (λ r x, mk (HealthcheckRuns r) x) (decodePtr 0%Z decodeInt))
  else None).
End GetLiveness.

Module NodeModel.
Record t := mk { Address : option string; AllocCpus : option Z; AllocMemory : option Z; Cores : option Z; CpuLoad : option
  string; Cpus : Z; Features : option json; FreeMemory : option Z; Hostname : option string; IdleCpus : option Z; Name :
  string; Partitions : option (list string); Sockets : option Z; State : json; Threads : option Z; Weight : option Z }.
Definition zero : t := mk None None None None None 0%Z None None None None "" None None JNull None None.
Definition decode : Decoder t := decodeStruct (λ name,
  if name =s "address" then Some (field Address (λ r x, mk x (AllocCpus r) (AllocMemory r) (Cores r) (CpuLoad r) (Cpus r)
    (Features r) (FreeMemory r) (Hostname r) (IdleCpus r) (Name r) (Partitions r) (Sockets r) (State r) (Threads r) (Weight
    r)) (decodePtr "" decodeString))
  else if name =s "alloccpus" then Some (field AllocCpus (λ r x, mk (Address r) x (AllocMemory r) (Cores r) (CpuLoad r)
    (Cpus r) (Features r) (FreeMemory r) (Hostname r) (IdleCpus r) (Name r) (Partitions r) (Sockets r) (State r) (Threads r)
    (Weight r)) (decodePtr 0%Z decodeInt))
  else if name =s "allocmemory" then Some (field AllocMemory (λ r x, mk (Address r) (AllocCpus r) x (Cores r) (CpuLoad r)
    (Cpus r) (Features r) (FreeMemory r) (Hostname r) (IdleCpus r) (Name r) (Partitions r) (Sockets r) (State r) (Threads r)
    (Weight r)) (decodePtr 0%Z decodeInt))
  else if name =s "cores" then Some (field Cores (λ r x, mk (Address r) (AllocCpus r) (AllocMemory r) x (CpuLoad r) (Cpus r)
    (Features r) (FreeMemory r) (Hostname r) (IdleCpus r) (Name r) (Partitions r) (Sockets r) (State r) (Threads r) (Weight
    r)) (decodePtr 0%Z decodeInt))
  else if name =s "cpuload" then Some (field CpuLoad (λ r x, mk (Address r) (AllocCpus r) (AllocMemory r) (Cores r) x (Cpus
    r) (Features r) (FreeMemory r) (Hostname r) (IdleCpus r) (Name r) (Partitions r) (Sockets r) (State r) (Threads r)
    (Weight r)) (decodePtr "" decodeNumber))
  else if name =s "cpus" then Some (field Cpus (λ r x, mk (Address r) (AllocCpus r) (AllocMemory r) (Cores r) (CpuLoad r) x
    (Features r) (FreeMemory r) (Hostname r) (IdleCpus r) (Name r) (Partitions r) (Sockets r) (State r) (Threads r) (Weight
    r)) decodeInt)
  else if name =s "features" then Some (field Features (λ r x, mk (Address r) (AllocCpus r) (AllocMemory r) (Cores r)
    (CpuLoad r) (Cpus r) x (FreeMemory r) (Hostname r) (IdleCpus r) (Name r) (Partitions r) (Sockets r) (State r) (Threads
    r) (Weight r)) (decodePtr JNull decodeUnion))
  else if name =s "freememory" then Some (field FreeMemory (λ r x, mk (Address r) (AllocCpus r) (AllocMemory r) (Cores r)
    (CpuLoad r) (Cpus r) (Features r) x (Hostname r) (IdleCpus r) (Name r) (Partitions r) (Sockets r) (State r) (Threads r)
    (Weight r)) (decodePtr 0%Z decodeInt))
  else if name =s "hostname" then Some (field Hostname (λ r x, mk (Address r) (AllocCpus r) (AllocMemory r) (Cores r)
    (CpuLoad r) (Cpus r) (Features r) (FreeMemory r) x (IdleCpus r) (Name r) (Partitions r) (Sockets r) (State r) (Threads
    r) (Weight r)) (decodePtr "" decodeString))
  else if name =s "idlecpus" then Some (field IdleCpus (λ r x, mk (Address r) (AllocCpus r) (AllocMemory r) (Cores r)
    (CpuLoad r) (Cpus r) (Features r) (FreeMemory r) (Hostname r) x (Name r) (Partitions r) (Sockets r) (State r) (Threads
    r) (Weight r)) (decodePtr 0%Z decodeInt))
  else if name =s "name" then Some (field Name (λ r x, mk (Address r) (AllocCpus r) (AllocMemory r) (Cores r) (CpuLoad r)
    (Cpus r) (Features r) (FreeMemory r) (Hostname r) (IdleCpus r) x (Partitions r) (Sockets r) (State r) (Threads r)
    (Weight r)) decodeString)
  else if name =s "partitions" then Some (field Partitions (λ r x, mk (Address r) (AllocCpus r) (AllocMemory r) (Cores r)
    (CpuLoad r) (Cpus r) (Features r) (FreeMemory r) (Hostname r) (IdleCpus r) (Name r) x (Sockets r) (State r) (Threads r)
    (Weight r)) (decodePtr [] (decodeSlice "" decodeString)))
  else if name =s "sockets" then Some (field Sockets (λ r x, mk (Address r) (AllocCpus r) (AllocMemory r) (Cores r) (CpuLoad
    r) (Cpus r) (Features r) (FreeMemory r) (Hostname r) (IdleCpus r) (Name r) (Partitions r) x (State r) (Threads r)
    (Weight r)) (decodePtr 0%Z decodeInt))
  else if name =s "state" then Some (field State (λ r x, mk (Address r) (AllocCpus r) (AllocMemory r) (Cores r) (CpuLoad r)
    (Cpus r) (Features r) (FreeMemory r) (Hostname r) (IdleCpus r) (Name r) (Partitions r) (Sockets r) x (Threads r) (Weight
    r)) decodeUnion)
  else if name =s "threads" then Some (field Threads (λ r x, mk (Address r) (AllocCpus r) (AllocMemory r) (Cores r) (CpuLoad
    r) (Cpus r) (Features r) (FreeMemory r) (Hostname r) (IdleCpus r) (Name r) (Partitions r) (Sockets r) (State r) x
    (Weight r)) (decodePtr 0%Z decodeInt))
  else if name =s "weight" then Some (field Weight (λ r x, mk (Address r) (AllocCpus r) (AllocMemory r) (Cores r) (CpuLoad
    r) (Cpus r) (Features r) (FreeMemory r) (Hostname r) (IdleCpus r) (Name r) (Partitions r) (Sockets r) (State r) (Threads
    r) x) (decodePtr 0%Z decodeInt))
  else None).
End NodeModel.

Definition decodeGetNodesResponse : Decoder (list NodeModel.t) := decodeStruct (λ name,
  if name =s "nodes" then Some (decodeSlice NodeModel.zero NodeModel.decode) else None).

Module PartitionModel.
Record t := mk { Cpus : option Z; Name : string; Partition : json; TotalNodes : option Z }.
Definition zero : t := mk None "" JNull None.
Definition decode : Decoder t := decodeStruct (λ name,
  if name =s "cpus" then Some (field Cpus (λ r x, mk x (Name r) (Partition r) (TotalNodes r)) (decodePtr 0%Z decodeInt))
  else if name =s "name" then Some (field Name (λ r x, mk (Cpus r) x (Partition r) (TotalNodes r)) decodeString)
  else if name =s "partition" then Some (field Partition (λ r x, mk (Cpus r) (Name r) x (TotalNodes r)) decodeUnion)
  else if name =s "totalnodes" then Some (field TotalNodes (λ r x, mk (Cpus r) (Name r) (Partition r) x) (decodePtr 0%Z
    decodeInt))
  else None).
End PartitionModel.

Definition decodeGetPartitionsResponse : Decoder (list PartitionModel.t) := decodeStruct (λ name,
  if name =s "partitions" then Some (decodeSlice PartitionModel.zero PartitionModel.decode) else None).

Module ReservationModel.
Record t := mk { EndTime : Z; Features : option string; Name : string; NodeList : string; StartTime : Z }.
Definition zero : t := mk 0%Z None "" "" 0%Z.
Definition decode : Decoder t := decodeStruct (λ name,
  if name =s "endtime" then Some (field EndTime (λ r x, mk x (Features r) (Name r) (NodeList r) (StartTime r)) decodeInt)
  else if name =s "features" then Some (field Features (λ r x, mk (EndTime r) x (Name r) (NodeList r) (StartTime r))
    (decodePtr "" decodeString))
  else if name =s "name" then Some (field Name (λ r x, mk (EndTime r) (Features r) x (NodeList r) (StartTime r))
    decodeString)
  else if name =s "nodelist" then Some (field NodeList (λ r x, mk (EndTime r) (Features r) (Name r) x (StartTime r))
    decodeString)
  else if name =s "starttime" then Some (field StartTime (λ r x, mk (EndTime r) (Features r) (Name r) (NodeList r) x)
    decodeInt)
  else None).
End ReservationModel.

Definition decodeGetReservationsResponse : Decoder (list ReservationModel.t) := decodeStruct (λ name,
  if name =s "reservations" then Some (decodeSlice ReservationModel.zero ReservationModel.decode) else None).

(** ** Requests *)

Module JobDescriptionModel.
Record t := mk { Account : option string; Constraints : option string; Env : option json; Name : option string; Script :
  option string; ScriptPath : option string; StandardError : option string; StandardInput : option string; StandardOutput :
  option string; WorkingDirectory : string }.
Definition zero : t := mk None None None None None None None None None "".
Definition marshal (r : t) : json := JObj
  (optionalMember "account" (Account r) ++
   optionalMember "constraints" (Constraints r) ++
   optionalMember "env" (Env r) ++
   optionalMember "name" (Name r) ++
   optionalMember "script" (Script r) ++
   optionalMember "scriptPath" (ScriptPath r) ++
   optionalMember "standardError" (StandardError r) ++
   optionalMember "standardInput" (StandardInput r) ++
   optionalMember "standardOutput" (StandardOutput r) ++
   member_ "workingDirectory" (WorkingDirectory r)).
Definition decode : Decoder t := decodeStruct (λ name,
  if name =s "account" then Some (field Account (λ r x, mk x (Constraints r) (Env r) (Name r) (Script r) (ScriptPath r)
    (StandardError r) (StandardInput r) (StandardOutput r) (WorkingDirectory r)) (decodePtr "" decodeString))
  else if name =s "constraints" then Some (field Constraints (λ r x, mk (Account r) x (Env r) (Name r) (Script r)
    (ScriptPath r) (StandardError r) (StandardInput r) (StandardOutput r) (WorkingDirectory r)) (decodePtr "" decodeString))
  else if name =s "env" then Some (field Env (λ r x, mk (Account r) (Constraints r) x (Name r) (Script r) (ScriptPath r)
    (StandardError r) (StandardInput r) (StandardOutput r) (WorkingDirectory r)) (decodePtr JNull decodeUnion))
  else if name =s "name" then Some (field Name (λ r x, mk (Account r) (Constraints r) (Env r) x (Script r) (ScriptPath r)
    (StandardError r) (StandardInput r) (StandardOutput r) (WorkingDirectory r)) (decodePtr "" decodeString))
  else if name =s "script" then Some (field Script (λ r x, mk (Account r) (Constraints r) (Env r) (Name r) x (ScriptPath r)
    (StandardError r) (StandardInput r) (StandardOutput r) (WorkingDirectory r)) (decodePtr "" decodeString))
  else if name =s "scriptpath" then Some (field ScriptPath (λ r x, mk (Account r) (Constraints r) (Env r) (Name r) (Script
    r) x (StandardError r) (StandardInput r) (StandardOutput r) (WorkingDirectory r)) (decodePtr "" decodeString))
  else if name =s "standarderror" then Some (field StandardError (λ r x, mk (Account r) (Constraints r) (Env r) (Name r)
    (Script r) (ScriptPath r) x (StandardInput r) (StandardOutput r) (WorkingDirectory r)) (decodePtr "" decodeString))
  else if name =s "standardinput" then Some (field StandardInput (λ r x, mk (Account r) (Constraints r) (Env r) (Name r)
    (Script r) (ScriptPath r) (StandardError r) x (StandardOutput r) (WorkingDirectory r)) (decodePtr "" decodeString))
  else if name =s "standardoutput" then Some (field StandardOutput (λ r x, mk (Account r) (Constraints r) (Env r) (Name r)
    (Script r) (ScriptPath r) (StandardError r) (StandardInput r) x (WorkingDirectory r)) (decodePtr "" decodeString))
  else if name =s "workingdirectory" then Some (field WorkingDirectory (λ r x, mk (Account r) (Constraints r) (Env r) (Name
    r) (Script r) (ScriptPath r) (StandardError r) (StandardInput r) (StandardOutput r) x) decodeString)
  else None).
Definition valid (r : t) : Prop := (∀ v, Env r = Some v → wellFormed v ∧ v ≠ JNull).
End JobDescriptionModel.

Module PostMakeDirRequest.
Record t := mk { Parent : option bool; SourcePath : string }.
Definition zero : t := mk None "".
Definition marshal (r : t) : json := JObj
  (optionalMember "parent" (Parent r) ++
   member_ "sourcePath" (SourcePath r)).
Definition decode : Decoder t := decodeStruct (λ name,
  if name =s "parent" then Some (field Parent (λ r x, mk x (SourcePath r)) (decodePtr false decodeBool))
  else if name =s "sourcepath" then Some (field SourcePath (λ r x, mk (Parent r) x) decodeString)
  else None).
End PostMakeDirRequest.

Module PutFileChmodRequest.
Record t := mk { Mode : string; SourcePath : string }.
Definition zero : t := mk "" "".
Definition marshal (r : t) : json := JObj
  (member_ "mode" (Mode r) ++
   member_ "sourcePath" (SourcePath r)).
Definition decode : Decoder t := decodeStruct (λ name,
  if name =s "mode" then Some (field Mode (λ r x, mk x (SourcePath r)) decodeString)
  else if name =s "sourcepath" then Some (field SourcePath (λ r x, mk (Mode r) x) decodeString)
  else None).
End PutFileChmodRequest.

Module PostJobAttachRequest.
Record t := mk { Command : option string }.
Definition zero : t := mk None.
Definition marshal (r : t) : json := JObj
  (optionalMember "command" (Command r)).
Definition decode : Decoder t := decodeStruct (λ name,
  if name =s "command" then Some (field Command (λ r x, mk x) (decodePtr "" decodeString))
  else None).
End PostJobAttachRequest.

Module PutFileChownRequest.
Record t := mk { Group : option string; Owner : option string; SourcePath : string }.
Definition zero : t := mk None None "".
Definition marshal (r : t) : json := JObj
  (optionalMember "group" (Group r) ++
   optionalMember "owner" (Owner r) ++
   member_ "sourcePath" (SourcePath r)).
Definition decode : Decoder t := decodeStruct (λ name,
  if name =s "group" then Some (field Group (λ r x, mk x (Owner r) (SourcePath r)) (decodePtr "" decodeString))
  else if name =s "owner" then Some (field Owner (λ r x, mk (Group r) x (SourcePath r)) (decodePtr "" decodeString))
  else if name =s "sourcepath" then Some (field SourcePath (λ r x, mk (Group r) (Owner r) x) decodeString)
  else None).
End PutFileChownRequest.

Module PostCompressRequest.
Record t := mk { Compression : option string; Dereference : option bool; MatchPattern : option string; SourcePath : string;
  TargetPath : string }.
Definition zero : t := mk None None None "" "".
Definition marshal (r : t) : json := JObj
  (optionalMember "compression" (Compression r) ++
   optionalMember "dereference" (Dereference r) ++
   optionalMember "matchPattern" (MatchPattern r) ++
   member_ "sourcePath" (SourcePath r) ++
   member_ "targetPath" (TargetPath r)).
Definition decode : Decoder t := decodeStruct (λ name,
  if name =s "compression" then Some (field Compression (λ r x, mk x (Dereference r) (MatchPattern r) (SourcePath r)
    (TargetPath r)) (decodePtr "" decodeString))
  else if name =s "dereference" then Some (field Dereference (λ r x, mk (Compression r) x (MatchPattern r) (SourcePath r)
    (TargetPath r)) (decodePtr false decodeBool))
  else if name =s "matchpattern" then Some (field MatchPattern (λ r x, mk (Compression r) (Dereference r) x (SourcePath r)
    (TargetPath r)) (decodePtr "" decodeString))
  else if name =s "sourcepath" then Some (field SourcePath (λ r x, mk (Compression r) (Dereference r) (MatchPattern r) x
    (TargetPath r)) decodeString)
  else if name =s "targetpath" then Some (field TargetPath (λ r x, mk (Compression r) (Dereference r) (MatchPattern r)
    (SourcePath r) x) decodeString)
  else None).
End PostCompressRequest.

Module PostExtractRequest.
Record t := mk { Compression : option string; SourcePath : string; TargetPath : string }.
Definition zero : t := mk None "" "".
Definition marshal (r : t) : json := JObj
  (optionalMember "compression" (Compression r) ++
   member_ "sourcePath" (SourcePath r) ++
   member_ "targetPath" (TargetPath r)).
Definition decode : Decoder t := decodeStruct (λ name,
  if name =s "compression" then Some (field Compression (λ r x, mk x (SourcePath r) (TargetPath r)) (decodePtr ""
    decodeString))
  else if name =s "sourcepath" then Some (field SourcePath (λ r x, mk (Compression r) x (TargetPath r)) decodeString)
  else if name =s "targetpath" then Some (field TargetPath (λ r x, mk (Compression r) (SourcePath r) x) decodeString)
  else None).
End PostExtractRequest.

Module PostFileSymlinkRequest.
Record t := mk { LinkPath : string; SourcePath : string }.
Definition zero : t := mk "" "".
Definition marshal (r : t) : json := JObj
  (member_ "linkPath" (LinkPath r) ++
   member_ "sourcePath" (SourcePath r)).
Definition decode : Decoder t := decodeStruct (λ name,
  if name =s "linkpath" then Some (field LinkPath (λ r x, mk x (SourcePath r)) decodeString)
  else if name =s "sourcepath" then Some (field SourcePath (λ r x, mk (LinkPath r) x) decodeString)
  else None).
End PostFileSymlinkRequest.

Module CompressRequest.
Record t := mk { Account : option string; Compression : option string; Dereference : option bool; MatchPattern : option
  string; SourcePath : string; TargetPath : string }.
Definition zero : t := mk None None None None "" "".
Definition marshal (r : t) : json := JObj
  (optionalMember "account" (Account r) ++
   optionalMember "compression" (Compression r) ++
   optionalMember "dereference" (Dereference r) ++
   optionalMember "matchPattern" (MatchPattern r) ++
   member_ "sourcePath" (SourcePath r) ++
   member_ "targetPath" (TargetPath r)).
Definition decode : Decoder t := decodeStruct (λ name,
  if name =s "account" then Some (field Account (λ r x, mk x (Compression r) (Dereference r) (MatchPattern r) (SourcePath r)
    (TargetPath r)) (decodePtr "" decodeString))
  else if name =s "compression" then Some (field Compression (λ r x, mk (Account r) x (Dereference r) (MatchPattern r)
    (SourcePath r) (TargetPath r)) (decodePtr "" decodeString))
  else if name =s "dereference" then Some (field Dereference (λ r x, mk (Account r) (Compression r) x (MatchPattern r)
    (SourcePath r) (TargetPath r)) (decodePtr false decodeBool))
  else if name =s "matchpattern" then Some (field MatchPattern (λ r x, mk (Account r) (Compression r) (Dereference r) x
    (SourcePath r) (TargetPath r)) (decodePtr "" decodeString))
  else if name =s "sourcepath" then Some (field SourcePath (λ r x, mk (Account r) (Compression r) (Dereference r)
    (MatchPattern r) x (TargetPath r)) decodeString)
  else if name =s "targetpath" then Some (field TargetPath (λ r x, mk (Account r) (Compression r) (Dereference r)
    (MatchPattern r) (SourcePath r) x) decodeString)
  else None).
End CompressRequest.

Module CopyRequest.
Record t := mk { Account : option string; Dereference : option bool; SourcePath : string; TargetPath : string }.
Definition zero : t := mk None None "" "".
Definition marshal (r : t) : json := JObj
  (optionalMember "account" (Account r) ++
   optionalMember "dereference" (Dereference r) ++
   member_ "sourcePath" (SourcePath r) ++
   member_ "targetPath" (TargetPath r)).
Definition decode : Decoder t := decodeStruct (λ name,
  if name =s "account" then Some (field Account (λ r x, mk x (Dereference r) (SourcePath r) (TargetPath r)) (decodePtr ""
    decodeString))
  else if name =s "dereference" then Some (field Dereference (λ r x, mk (Account r) x (SourcePath r) (TargetPath r))
    (decodePtr false decodeBool))
  else if name =s "sourcepath" then Some (field SourcePath (λ r x, mk (Account r) (Dereference r) x (TargetPath r))
    decodeString)
  else if name =s "targetpath" then Some (field TargetPath (λ r x, mk (Account r) (Dereference r) (SourcePath r) x)
    decodeString)
  else None).
End CopyRequest.

Module PostFileDownloadRequest.
Record t := mk { Account : option string; SourcePath : string; TransferDirectives : json }.
Definition zero : t := mk None "" JNull.
Definition marshal (r : t) : json := JObj
  (optionalMember "account" (Account r) ++
   member_ "sourcePath" (SourcePath r) ++
   member_ "transferDirectives" (TransferDirectives r)).
Definition decode : Decoder t := decodeStruct (λ name,
  if name =s "account" then Some (field Account (λ r x, mk x (SourcePath r) (TransferDirectives r)) (decodePtr ""
    decodeString))
  else if name =s "sourcepath" then Some (field SourcePath (λ r x, mk (Account r) x (TransferDirectives r)) decodeString)
  else if name =s "transferdirectives" then Some (field TransferDirectives (λ r x, mk (Account r) (SourcePath r) x)
    decodeUnion)
  else None).
Definition valid (r : t) : Prop := wellFormed (TransferDirectives r).
End PostFileDownloadRequest.

Module ExtractRequest.
Record t := mk { Account : option string; Compression : option string; SourcePath : string; TargetPath : string }.
Definition zero : t := mk None None "" "".
Definition marshal (r : t) : json := JObj
  (optionalMember "account" (Account r) ++
   optionalMember "compression" (Compression r) ++
   member_ "sourcePath" (SourcePath r) ++
   member_ "targetPath" (TargetPath r)).
Definition decode : Decoder t := decodeStruct (λ name,
  if name =s "account" then Some (field Account (λ r x, mk x (Compression r) (SourcePath r) (TargetPath r)) (decodePtr ""
    decodeString))
  else if name =s "compression" then Some (field Compression (λ r x, mk (Account r) x (SourcePath r) (TargetPath r))
    (decodePtr "" decodeString))
  else if name =s "sourcepath" then Some (field SourcePath (λ r x, mk (Account r) (Compression r) x (TargetPath r))
    decodeString)
  else if name =s "targetpath" then Some (field TargetPath (λ r x, mk (Account r) (Compression r) (SourcePath r) x)
    decodeString)
  else None).
End ExtractRequest.

Module MoveRequest.
Record t := mk { Account : option string; SourcePath : string; TargetPath : string }.
Definition zero : t := mk None "" "".
Definition marshal (r : t) : json := JObj
  (optionalMember "account" (Account r) ++
   member_ "sourcePath" (SourcePath r) ++
   member_ "targetPath" (TargetPath r)).
Definition decode : Decoder t := decodeStruct (λ name,
  if name =s "account" then Some (field Account (λ r x, mk x (SourcePath r) (TargetPath r)) (decodePtr "" decodeString))
  else if name =s "sourcepath" then Some (field SourcePath (λ r x, mk (Account r) x (TargetPath r)) decodeString)
  else if name =s "targetpath" then Some (field TargetPath (λ r x, mk (Account r) (SourcePath r) x) decodeString)
  else None).
End MoveRequest.

Module PostFileUploadRequest.
Record t := mk { Account : option string; SourcePath : string; TransferDirectives : json }.
Definition zero : t := mk None "" JNull.
Definition marshal (r : t) : json := JObj
  (optionalMember "account" (Account r) ++
   member_ "sourcePath" (SourcePath r) ++
   member_ "transferDirectives" (TransferDirectives r)).
Definition decode : Decoder t := decodeStruct (λ name,
  if name =s "account" then Some (field Account (λ r x, mk x (SourcePath r) (TransferDirectives r)) (decodePtr ""
    decodeString))
  else if name =s "sourcepath" then Some (field SourcePath (λ r x, mk (Account r) x (TransferDirectives r)) decodeString)
  else if name =s "transferdirectives" then Some (field TransferDirectives (λ r x, mk (Account r) (SourcePath r) x)
    decodeUnion)
  else None).
Definition valid (r : t) : Prop := wellFormed (TransferDirectives r).
End PostFileUploadRequest.

(** ** Requests are read back *)

#[local] Tactic Notation "codec" reference(m) reference(d) :=
  intros r Hr;
  lazymatch goal with
  | |- wellFormed _ => unfold m; codecWellFormed
  | |- _ = (_, None) => unfold m, d; etransitivity; [codecFields|by destruct r]
  end; try intros v Hv; first [done | by apply Hr | by eapply Hr].

#[export, refine] Instance jobDescriptionModelCodec : JsonCodec JobDescriptionModel.t := {|
  marshal := JobDescriptionModel.marshal; decode := JobDescriptionModel.decode; zeroValue := JobDescriptionModel.zero; representable := JobDescriptionModel.valid |}.
Proof. all: codec JobDescriptionModel.marshal JobDescriptionModel.decode. Defined.

#[export, refine] Instance postMakeDirRequestCodec : JsonCodec PostMakeDirRequest.t := {|
  marshal := PostMakeDirRequest.marshal; decode := PostMakeDirRequest.decode; zeroValue := PostMakeDirRequest.zero; representable _ := True |}.
Proof. all: codec PostMakeDirRequest.marshal PostMakeDirRequest.decode. Defined.

#[export, refine] Instance putFileChmodRequestCodec : JsonCodec PutFileChmodRequest.t := {|
  marshal := PutFileChmodRequest.marshal; decode := PutFileChmodRequest.decode; zeroValue := PutFileChmodRequest.zero; representable _ := True |}.
Proof. all: codec PutFileChmodRequest.marshal PutFileChmodRequest.decode. Defined.

#[export, refine] Instance postJobAttachRequestCodec : JsonCodec PostJobAttachRequest.t := {|
  marshal := PostJobAttachRequest.marshal; decode := PostJobAttachRequest.decode; zeroValue := PostJobAttachRequest.zero; representable _ := True |}.
Proof. all: codec PostJobAttachRequest.marshal PostJobAttachRequest.decode. Defined.

#[export, refine] Instance putFileChownRequestCodec : JsonCodec PutFileChownRequest.t := {|
  marshal := PutFileChownRequest.marshal; decode := PutFileChownRequest.decode; zeroValue := PutFileChownRequest.zero; representable _ := True |}.
Proof. all: codec PutFileChownRequest.marshal PutFileChownRequest.decode. Defined.

#[export, refine] Instance postCompressRequestCodec : JsonCodec PostCompressRequest.t := {|
  marshal := PostCompressRequest.marshal; decode := PostCompressRequest.decode; zeroValue := PostCompressRequest.zero; representable _ := True |}.
Proof. all: codec PostCompressRequest.marshal PostCompressRequest.decode. Defined.

#[export, refine] Instance postExtractRequestCodec : JsonCodec PostExtractRequest.t := {|
  marshal := PostExtractRequest.marshal; decode := PostExtractRequest.decode; zeroValue := PostExtractRequest.zero; representable _ := True |}.
Proof. all: codec PostExtractRequest.marshal PostExtractRequest.decode. Defined.

#[export, refine] Instance postFileSymlinkRequestCodec : JsonCodec PostFileSymlinkRequest.t := {|
  marshal := PostFileSymlinkRequest.marshal; decode := PostFileSymlinkRequest.decode; zeroValue := PostFileSymlinkRequest.zero; representable _ := True |}.
Proof. all: codec PostFileSymlinkRequest.marshal PostFileSymlinkRequest.decode. Defined.

#[export, refine] Instance compressRequestCodec : JsonCodec CompressRequest.t := {|
  marshal := CompressRequest.marshal; decode := CompressRequest.decode; zeroValue := CompressRequest.zero; representable _ := True |}.
Proof. all: codec CompressRequest.marshal CompressRequest.decode. Defined.

#[export, refine] Instance copyRequestCodec : JsonCodec CopyRequest.t := {|
  marshal := CopyRequest.marshal; decode := CopyRequest.decode; zeroValue := CopyRequest.zero; representable _ := True |}.
Proof. all: codec CopyRequest.marshal CopyRequest.decode. Defined.

#[export, refine] Instance postFileDownloadRequestCodec : JsonCodec PostFileDownloadRequest.t := {|
  marshal := PostFileDownloadRequest.marshal; decode := PostFileDownloadRequest.decode; zeroValue := PostFileDownloadRequest.zero; representable := PostFileDownloadRequest.valid |}.
Proof. all: codec PostFileDownloadRequest.marshal PostFileDownloadRequest.decode. Defined.

#[export, refine] Instance extractRequestCodec : JsonCodec ExtractRequest.t := {|
  marshal := ExtractRequest.marshal; decode := ExtractRequest.decode; zeroValue := ExtractRequest.zero; representable _ := True |}.
Proof. all: codec ExtractRequest.marshal ExtractRequest.decode. Defined.

#[export, refine] Instance moveRequestCodec : JsonCodec MoveRequest.t := {|
  marshal := MoveRequest.marshal; decode := MoveRequest.decode; zeroValue := MoveRequest.zero; representable _ := True |}.
Proof. all: codec MoveRequest.marshal MoveRequest.decode. Defined.

#[export, refine] Instance postFileUploadRequestCodec : JsonCodec PostFileUploadRequest.t := {|
  marshal := PostFileUploadRequest.marshal; decode := PostFileUploadRequest.decode; zeroValue := PostFileUploadRequest.zero; representable := PostFileUploadRequest.valid |}.
Proof. all: codec PostFileUploadRequest.marshal PostFileUploadRequest.decode. Defined.
