(* ===== verification/FirecrestClient.v ===== *)
(** * The client of the FirecREST API (internal/remote/firecrest/firecrest_gen.go, firecrest.go)

    The generated client for the operations that the controller calls:
    construction of the requests, editing, exchange, and decoding of the
    answers.  [wire] implements the calls of the controller ([Firecrest.Fc])
    with it, so that the controller becomes a program over HTTP exchanges, the
    calls of the token store and the local files.  The library that renders
    parameters is the parameter [OapiRuntime]. *)

From S2P Require Import Prelude Prog NetUrl UrlRef Json JsonProps FirecrestScript RemoteAuth Firecrest.
From stdpp Require Import sorting.
From Stdlib Require Import Ascii.

(** ** Requests and answers *)

Module HttpRequest.
Record t := mk { Method : string; Url : string; ContentType : string; Authorization : string; Body : string }.
Definition with_ContentType (r : t) (x : string) : t := mk (Method r) (Url r) x (Authorization r) (Body r).
Definition with_Authorization (r : t) (x : string) : t := mk (Method r) (Url r) (ContentType r) x (Body r).
End HttpRequest.

(** An answer; reading its body may fail. *)
Module HttpResponse.
Record t := mk { StatusCode : Z; ContentType : string; Body : Result string }.
End HttpResponse.

Inductive Net : Type → Type :=
| Token {R} (e : AuthEv R) : Net R
(** [http.Client.Do] *)
| HttpDo (req : HttpRequest.t) : Net (Result HttpResponse.t)
(** the boundary of a multipart writer *)
| NewBoundary : Net string
| Local {R} (e : Fc R) : Net R.

(** The text of parameters: [simple] in a path, [form] in a query. *)
Class OapiRuntime := {
  StyleSimple : string → string → Result string;
  StyleForm : string → string → Result string;
  StyleFormInt : string → Z → Result string;
  StyleFormBool : string → bool → Result string }.

(** *** Parameters in a query *)

Fixpoint splitByte (c : ascii) (s : string) : list string :=
  match s with
  | EmptyString => [EmptyString]
  | String d s' =>
      if Ascii.eqb d c then EmptyString :: splitByte c s'
      else match splitByte c s' with e :: es => String d e :: es | [] => [String d EmptyString] end
  end.

(** [for _, qp := range strings.Split(queryFrag, "&")] *)
Definition queryFragments (queryFrag : string) : list string := splitByte "&"%char queryFrag.

Definition requiredParam {A} (style : string → A → Result string) (name : string) (param : A) : Result (list string) :=
  queryFrag ←ᵣ style name param; inl (queryFragments queryFrag).
Definition optionalParam {A} (style : string → A → Result string) (name : string) (param : option A) : Result (list string) :=
  match param with None => inl [] | Some param => requiredParam style name param end.

Module PostUploadParams.
Record t := mk { Path : string }.
Definition fragments `{OapiRuntime} (params : t) : Result (list string) := requiredParam StyleForm "path" (Path params).
End PostUploadParams.

Module GetViewParams.
Record t := mk { Path : string; Size : option Z; Offset : option Z }.
Definition fragments `{OapiRuntime} (params : t) : Result (list string) :=
  path ←ᵣ requiredParam StyleForm "path" (Path params);
  size ←ᵣ optionalParam StyleFormInt "size" (Size params);
  offset ←ᵣ optionalParam StyleFormInt "offset" (Offset params);
  inl (path ++ size ++ offset).
End GetViewParams.

(** An editor changes a request before it is sent. *)
Definition RequestEditorFn : Type := HttpRequest.t → Prog Net (Result HttpRequest.t).

Module Client.
Record t := mk { Server : string; RequestEditors : list RequestEditorFn }.
End Client.

Section Operations.
Context `{OapiRuntime}.

(** ** Construction of requests *)

(** [http.NewRequest] *)
Definition NewRequest (method url body : string) : Result HttpRequest.t :=
  match url_Parse url with
  | Some _ => inl (HttpRequest.mk method url "" "" body)
  | None => inr (Errorf "parse error")
  end.

(** From the base URL and the path of the operation to the URL of the request. *)
Definition queryURL (server operationPath : string) : Result URL.t :=
  match url_Parse server with
  | None => inr (Errorf "parse error")
  | Some serverURL =>
      let operationPath := if Strings.HasPrefix operationPath "/" then "." +:+ operationPath else operationPath in
      match URL_Parse serverURL operationPath with
      | Some queryURL => inl queryURL
      | None => inr (Errorf "parse error")
      end
  end.

Definition plainRequest (server method operationPath body : string) : Result HttpRequest.t :=
  queryURL ←ᵣ queryURL server operationPath; NewRequest method (URL_String queryURL) body.

(** [req.Header.Add("Content-Type", contentType)] *)
Definition typedRequest (server method operationPath contentType body : string) : Result HttpRequest.t :=
  req ←ᵣ plainRequest server method operationPath body; inl (HttpRequest.with_ContentType req contentType).

Definition NewGetSystemsStatusSystemsGetRequest (server : string) : Result HttpRequest.t :=
  plainRequest server "GET" "/status/systems" "".

Definition NewGetUserinfoStatusSystemNameUserinfoGetRequest (server systemName : string) : Result HttpRequest.t :=
  pathParam0 ←ᵣ StyleSimple "system_name" systemName;
  plainRequest server "GET" ("/status/" +:+ pathParam0 +:+ "/userinfo") "".

Definition NewGetJobComputeSystemNameJobsJobIdGetRequest (server systemName jobId : string) : Result HttpRequest.t :=
  pathParam0 ←ᵣ StyleSimple "system_name" systemName;
  pathParam1 ←ᵣ StyleSimple "job_id" jobId;
  plainRequest server "GET" ("/compute/" +:+ pathParam0 +:+ "/jobs/" +:+ pathParam1) "".

Definition NewGetJobMetadataComputeSystemNameJobsJobIdMetadataGetRequest (server systemName jobId : string) : Result HttpRequest.t :=
  pathParam0 ←ᵣ StyleSimple "system_name" systemName;
  pathParam1 ←ᵣ StyleSimple "job_id" jobId;
  plainRequest server "GET" ("/compute/" +:+ pathParam0 +:+ "/jobs/" +:+ pathParam1 +:+ "/metadata") "".

Definition NewDeleteJobCancelComputeSystemNameJobsJobIdDeleteRequest (server systemName jobId : string) : Result HttpRequest.t :=
  pathParam0 ←ᵣ StyleSimple "system_name" systemName;
  pathParam1 ←ᵣ StyleSimple "job_id" jobId;
  plainRequest server "DELETE" ("/compute/" +:+ pathParam0 +:+ "/jobs/" +:+ pathParam1) "".

Definition NewPostMkdirFilesystemSystemNameOpsMkdirPostRequestWithBody (server systemName contentType body : string)
    : Result HttpRequest.t :=
  pathParam0 ←ᵣ StyleSimple "system_name" systemName;
  typedRequest server "POST" ("/filesystem/" +:+ pathParam0 +:+ "/ops/mkdir") contentType body.

Definition NewPutChmodFilesystemSystemNameOpsChmodPutRequestWithBody (server systemName contentType body : string)
    : Result HttpRequest.t :=
  pathParam0 ←ᵣ StyleSimple "system_name" systemName;
  typedRequest server "PUT" ("/filesystem/" +:+ pathParam0 +:+ "/ops/chmod") contentType body.

Definition NewPostJobSubmitComputeSystemNameJobsPostRequestWithBody (server systemName contentType body : string)
    : Result HttpRequest.t :=
  pathParam0 ←ᵣ StyleSimple "system_name" systemName;
  typedRequest server "POST" ("/compute/" +:+ pathParam0 +:+ "/jobs") contentType body.

(** *** Queries *)

(** [url.QueryUnescape] *)
Fixpoint queryUnescape (s : string) : option string :=
  match s with
  | EmptyString => Some EmptyString
  | String c s' =>
      if Ascii.eqb c "%" then
        match s' with
        | String h (String l r) =>
            match Bytes.unhex h, Bytes.unhex l, queryUnescape r with
            | Some h, Some l, Some r => Some (String (Ascii.ascii_of_nat (16 * h + l)) r)
            | _, _, _ => None
            end
        | _ => None
        end
      else String (if Ascii.eqb c "+" then " "%char else c) <$> queryUnescape s'
  end.

(** [URL.Query]: entries that cannot be read are left out. *)
Definition queryEntry (entry : string) : option (string * string) :=
  if Strings.Contains entry ";" || (entry =s "") then None
  else
    let '(key, value, _) := Strings.Cut entry "=" in
    match queryUnescape key, queryUnescape value with
    | Some key, Some value => Some (key, value)
    | _, _ => None
    end.
Definition Query (u : URL.t) : list (string * string) := omap queryEntry (splitByte "&"%char (URL.RawQuery u)).

Definition keyLe (a b : string * string) : Prop := String.leb a.1 b.1 = true.
#[export] Instance keyLe_dec : RelDecision keyLe.
Proof. intros a b. unfold keyLe. apply _. Defined.

(** [Values.Encode] *)
Definition Encode (values : list (string * string)) : string := encodeForm (merge_sort keyLe values).

Definition with_query (queryURL : URL.t) (rawQueryFragments : list string) : URL.t :=
  let encoded := Encode (Query queryURL) in
  with_RawQuery queryURL (Strings.Join (rawQueryFragments ++ (if encoded ≠s "" then [encoded] else [])) "&").

(** A request with parameters in the query. *)
Definition queryRequest (server method operationPath : string) (fragments : option (Result (list string))) (body : string)
    : Result HttpRequest.t :=
  queryURL ←ᵣ queryURL server operationPath;
  queryURL ←ᵣ match fragments with
              | None => inl queryURL
              | Some fragments => fragments ←ᵣ fragments; inl (with_query queryURL fragments)
              end;
  NewRequest method (URL_String queryURL) body.

Definition NewPostUploadFilesystemSystemNameOpsUploadPostRequestWithBody (server systemName : string)
    (params : option PostUploadParams.t) (contentType body : string) : Result HttpRequest.t :=
  pathParam0 ←ᵣ StyleSimple "system_name" systemName;
  req ←ᵣ queryRequest server "POST" ("/filesystem/" +:+ pathParam0 +:+ "/ops/upload") (PostUploadParams.fragments <$> params) body;
  inl (HttpRequest.with_ContentType req contentType).

Definition NewGetViewFilesystemSystemNameOpsViewGetRequest (server systemName : string) (params : option GetViewParams.t)
    : Result HttpRequest.t :=
  pathParam0 ←ᵣ StyleSimple "system_name" systemName;
  queryRequest server "GET" ("/filesystem/" +:+ pathParam0 +:+ "/ops/view") (GetViewParams.fragments <$> params) "".

(** *** Bodies *)

(** [json.Marshal] of a map: the keys are sorted. *)
Definition marshalMap (m : gmap string string) : json :=
  JObj ((λ '(key, val), (key, JStr val)) <$> merge_sort keyLe (map_to_list m)).

Definition optionalString (name : string) (s : option string) : list (string * json) :=
  match s with Some s => [(name, JStr s)] | None => [] end.

(** [JobDescriptionModel] as the controller fills it in, [JobDescriptionModel_Env]
    being the text of [FromJobDescriptionModelEnv0]. *)
Definition marshalJob (job : JobDescription.t) : json := JObj
  (optionalString "account" (JobDescription.Account job) ++
   [("env", marshalMap (JobDescription.Env job)); ("scriptPath", JStr (JobDescription.ScriptPath job));
    ("workingDirectory", JStr (JobDescription.WorkingDirectory job))]).

(** [PostJobSubmitRequest], [PostMakeDirRequest] and [PutFileChmodRequest] *)
Definition submitBody (job : JobDescription.t) : json := JObj [("job", marshalJob job)].
Definition mkdirBody (srcPath : string) (parent : bool) : json := JObj [("parent", JBool parent); ("sourcePath", JStr srcPath)].
Definition chmodBody (srcPath mode : string) : json := JObj [("mode", JStr mode); ("sourcePath", JStr srcPath)].

Definition jsonType : string := "application/json".

Definition NewPostMkdirFilesystemSystemNameOpsMkdirPostRequest (server systemName : string) (body : json) : Result HttpRequest.t :=
  NewPostMkdirFilesystemSystemNameOpsMkdirPostRequestWithBody server systemName jsonType (print body).
Definition NewPutChmodFilesystemSystemNameOpsChmodPutRequest (server systemName : string) (body : json) : Result HttpRequest.t :=
  NewPutChmodFilesystemSystemNameOpsChmodPutRequestWithBody server systemName jsonType (print body).
Definition NewPostJobSubmitComputeSystemNameJobsPostRequest (server systemName : string) (body : json) : Result HttpRequest.t :=
  NewPostJobSubmitComputeSystemNameJobsPostRequestWithBody server systemName jsonType (print body).

(** ** The client *)

(** The options in use do not fail. *)
Definition ClientOption : Type := Client.t → Client.t.

Definition WithRequestEditorFn (fn : RequestEditorFn) : ClientOption := λ c,
  Client.mk (Client.Server c) (Client.RequestEditors c ++ [fn]).

(** [NewClient]; the client for the exchanges is the environment of the model. *)
Definition NewClient (server : string) (opts : list ClientOption) : Client.t :=
  let client := foldl (λ c o, o c) (Client.mk server []) opts in
  if negb (Strings.HasSuffix (Client.Server client) "/")
  then Client.mk (Client.Server client +:+ "/") (Client.RequestEditors client) else client.

(** [auth.RequestEditor()] *)
Definition RequestEditor {A} `{RemoteAuth A} (auth : A) : RequestEditorFn := λ req,
  authorization ← embed (@Token) (RequestEditorInjectAccessToken auth (HttpRequest.Authorization req));
  mret (fmapResult (HttpRequest.with_Authorization req) authorization).

(** [NewFirecrestClient(apiURL, WithAuth(auth))] *)
Definition NewFirecrestClient {A} `{RemoteAuth A} (apiURL : URL.t) (auth : A) : Client.t :=
  NewClient (URL_String apiURL) [WithRequestEditorFn (RequestEditor auth)].

Fixpoint applyEditors (editors : list RequestEditorFn) (req : HttpRequest.t) : Prog Net (Result HttpRequest.t) :=
  match editors with
  | [] => mret (inl req)
  | r :: editors =>
      edited ← r req;
      match edited with inr err => mret (inr err) | inl req => applyEditors editors req end
  end.

(** The methods of the client: the request, the editors, the exchange. *)
Definition send (c : Client.t) (req : Result HttpRequest.t) : Prog Net (Result HttpResponse.t) :=
  match req with
  | inr err => mret (inr err)
  | inl req =>
      edited ← applyEditors (Client.RequestEditors c) req;
      match edited with inr err => mret (inr err) | inl req => trigger (HttpDo req) end
  end.

(** ** Decoding of answers *)

(** [ApiResponseError] *)
Definition decodeApiResponseError : Decoder ApiResponseError.t := decodeStruct (λ name,
  if name =s "message" then Some (field ApiResponseError.Message (λ _ x, ApiResponseError.mk x) decodeString)
  else if name =s "data" then Some (checked None (decodePtr tt decodeAnyMap))
  else if (name =s "errortype") || (name =s "user") then Some (checked None (decodePtr "" decodeString))
  else None).

(** The cases of the generated parsers: the errors of the client and of the
    server, and before them the expected status with its decoder or without a
    body. *)
Definition isJson (rsp : HttpResponse.t) : bool := Strings.Contains (HttpResponse.ContentType rsp) "json".

Definition parseError {A} (rsp : HttpResponse.t) (bodyBytes : string) : Result (Response.t A) :=
  let code := HttpResponse.StatusCode rsp in
  let apiError := Unmarshal decodeApiResponseError (ApiResponseError.mk "") bodyBytes in
  if isJson rsp && (Z.quot code 100 =? 4)%Z then dest ←ᵣ apiError; inl (Response.mk code None (Some dest) None)
  else if isJson rsp && (Z.quot code 100 =? 5)%Z then dest ←ᵣ apiError; inl (Response.mk code None None (Some dest))
  else inl (Response.mk code None None None).

Definition parseAnswer {A} (expected : Z) (success : string → Result A) (rsp : HttpResponse.t) : Result (Response.t A) :=
  bodyBytes ←ᵣ HttpResponse.Body rsp;
  let code := HttpResponse.StatusCode rsp in
  if isJson rsp && (code =? expected)%Z then dest ←ᵣ success bodyBytes; inl (Response.mk code (Some dest) None None)
  else parseError rsp bodyBytes.

Definition parseNoContent (rsp : HttpResponse.t) : Result (Response.t unit) :=
  bodyBytes ←ᵣ HttpResponse.Body rsp;
  if (HttpResponse.StatusCode rsp =? 204)%Z then inl (Response.mk 204 None None None) else parseError rsp bodyBytes.

(** *** Bodies of answers, reduced to what the controller reads *)

Definition optionalText : Decoder (option string) := decodePtr "" decodeString.
Definition checkedTexts {A} : Decoder A := checked None optionalText.
Definition checkedText {A} : Decoder A := checked "" decodeString.
Definition checkedInts {A} : Decoder A := checked None (decodePtr 0%Z decodeInt).
Definition checkedInt {A} : Decoder A := checked 0%Z decodeInt.

Definition nameIn (name : string) (names : list string) : bool := existsb (String.eqb name) names.

(** [FileSystem] *)
Definition decodeFileSystem : Decoder FileSystem.t := decodeStruct (λ name,
  if name =s "datatype" then
    Some (field FileSystem.DataType (λ f x, FileSystem.mk x (FileSystem.DefaultWorkDir f) (FileSystem.Path f)) decodeString)
  else if name =s "defaultworkdir" then
    Some (field FileSystem.DefaultWorkDir (λ f x, FileSystem.mk (FileSystem.DataType f) x (FileSystem.Path f)) (decodePtr false decodeBool))
  else if name =s "path" then
    Some (field FileSystem.Path (λ f x, FileSystem.mk (FileSystem.DataType f) (FileSystem.DefaultWorkDir f) x) decodeString)
  else None).

(** [DataOperation]; its transfer is kept as text *)
Definition decodeDataOperation : Decoder unit := decodeStruct (λ name,
  if name =s "data_transfer" then Some decodeRaw
  else if name =s "datatransfer_jobs_directives" then Some (checked None (decodePtr [] (decodeSlice "" decodeString)))
  else if name =s "max_ops_file_size" then Some checkedInts
  else None).

(** [ProbingService], [ProbingServices] *)
Definition decodeProbingService : Decoder unit := decodeStruct (λ name,
  if name =s "timeout" then Some checkedInts else None).
Definition decodeProbingServices : Decoder unit := decodeStruct (λ name,
  if name =s "intervalcheck" then Some checkedInts
  else if name =s "services" then Some (checked None (decodePtr tt (checkMap tt decodeProbingService)))
  else None).

(** [Scheduler] *)
Definition decodeScheduler : Decoder unit := decodeStruct (λ name,
  if nameIn name ["apiurl"; "apiversion"; "connectionmode"] then Some checkedTexts
  else if name =s "timeout" then Some checkedInts
  else if nameIn name ["type"; "version"] then Some checkedText
  else None).

(** [SSHTimeouts], [SSHClientPool] *)
Definition decodeSSHTimeouts : Decoder unit := decodeStruct (λ name,
  if nameIn name ["commandexecution"; "connection"; "idletimeout"; "keepalive"; "login"] then Some checkedInts else None).
Definition decodeSSHClientPool : Decoder unit := decodeStruct (λ name,
  if name =s "host" then Some checkedText
  else if name =s "port" then Some checkedInt
  else if name =s "proxyhost" then Some checkedTexts
  else if nameIn name ["maxclients"; "proxyport"] then Some checkedInts
  else if name =s "timeout" then Some (checked None (decodePtr tt decodeSSHTimeouts))
  else None).

(** [HPCCluster]; the health of the services is kept as text *)
Definition decodeHPCCluster : Decoder HPCCluster.t := decodeStruct (λ name,
  if name =s "filesystems" then
    Some (field HPCCluster.FileSystems (λ c x, HPCCluster.mk x (HPCCluster.Name c))
            (decodePtr [] (decodeSlice (FileSystem.mk "" None "") decodeFileSystem)))
  else if name =s "name" then Some (field HPCCluster.Name (λ c x, HPCCluster.mk (HPCCluster.FileSystems c) x) decodeString)
  else if name =s "dataoperation" then Some (checked None (decodePtr tt decodeDataOperation))
  else if name =s "lasthealthcheck" then Some (checked None (decodePtr tt decodeTime))
  else if name =s "probing" then Some (checked tt decodeProbingServices)
  else if name =s "scheduler" then Some (checked tt decodeScheduler)
  else if name =s "serviceshealth" then Some (checked None (decodePtr tt (checkAll tt decodeRaw)))
  else if name =s "ssh" then Some (checked tt decodeSSHClientPool)
  else None).

(** [GetSystemsResponse] *)
Definition decodeSystems : Decoder (list HPCCluster.t) := decodeStruct (λ name,
  if name =s "systems" then Some (decodeSlice (HPCCluster.mk None "") decodeHPCCluster) else None).

(** [PosixIdentified]; [UserInfoResponse], of which the name of the user is kept *)
Definition decodePosixIdentified : Decoder string := decodeStruct (λ name,
  if name =s "id" then Some checkedText else if name =s "name" then Some decodeString else None).
Definition decodeUserInfo : Decoder string := decodeStruct (λ name,
  if name =s "user" then Some decodePosixIdentified
  else if name =s "group" then Some (checked "" decodePosixIdentified)
  else if name =s "groups" then Some (checked [] (decodeSlice "" decodePosixIdentified))
  else None).

(** [JobStatus], of which the state is kept; [JobTime], [JobTask], [JobModel],
    [GetJobResponse] *)
Definition decodeJobStatus : Decoder string := decodeStruct (λ name,
  if name =s "state" then Some decodeString
  else if nameIn name ["exitcode"; "interruptsignal"] then Some checkedInts
  else if name =s "statereason" then Some checkedTexts
  else None).
Definition decodeJobTime : Decoder unit := decodeStruct (λ name,
  if nameIn name ["elapsed"; "end"; "limit"; "start"; "suspended"] then Some checkedInts else None).
Definition decodeJobTask : Decoder unit := decodeStruct (λ name,
  if nameIn name ["id"; "name"] then Some checkedText
  else if name =s "status" then Some (checked "" decodeJobStatus)
  else if name =s "time" then Some (checked tt decodeJobTime)
  else None).
Definition decodeJobModel : Decoder string := decodeStruct (λ name,
  if name =s "status" then Some decodeJobStatus
  else if nameIn name ["account"; "group"; "killrequestuser"] then Some checkedTexts
  else if nameIn name ["cluster"; "jobid"; "name"; "nodes"; "partition"; "user"; "workingdirectory"] then Some checkedText
  else if name =s "allocationnodes" then Some checkedInt
  else if name =s "priority" then Some checkedInts
  else if name =s "tasks" then Some (checked None (decodePtr tt (checkAll tt decodeJobTask)))
  else if name =s "time" then Some (checked tt decodeJobTime)
  else None).
Definition decodeJobs : Decoder (option (list string)) := decodeStruct (λ name,
  if name =s "jobs" then Some (decodePtr [] (decodeSlice "" decodeJobModel)) else None).

(** [JobMetadataModel], [GetJobMetadataResponse] *)
Definition decodeJobMetadataModel : Decoder JobMetadata.t := decodeStruct (λ name,
  if name =s "standardoutput" then
    Some (field JobMetadata.StandardOutput (λ m x, JobMetadata.mk x (JobMetadata.StandardError m)) optionalText)
  else if name =s "standarderror" then
    Some (field JobMetadata.StandardError (λ m x, JobMetadata.mk (JobMetadata.StandardOutput m) x) optionalText)
  else if name =s "jobid" then Some checkedText
  else if nameIn name ["script"; "standardinput"] then Some checkedTexts
  else None).
Definition decodeJobMetadata : Decoder (option (list JobMetadata.t)) := decodeStruct (λ name,
  if name =s "jobs" then Some (decodePtr [] (decodeSlice (JobMetadata.mk None None) decodeJobMetadataModel)) else None).

(** [PostJobSubmissionResponse], [GetViewFileResponse] *)
Definition decodeSubmission : Decoder (option string) := decodeStruct (λ name,
  if name =s "jobid" then Some optionalText else None).
Definition decodeView : Decoder (option string) := decodeStruct (λ name,
  if name =s "output" then Some optionalText else None).

(** [File]; [PostMkdirResponse] and [PutFileChmodResponse], which are not read *)
Definition decodeFile : Decoder unit := decodeStruct (λ name,
  if name =s "linktarget" then Some checkedTexts
  else if nameIn name ["group"; "lastmodified"; "name"; "permissions"; "size"; "type"; "user"] then Some checkedText
  else None).
Definition decodeFileResponse : Decoder unit := decodeStruct (λ name,
  if name =s "output" then Some (checked None (decodePtr tt decodeFile)) else None).

(** ** The operations *)

Definition withResponse {A} (call : Prog Net (Result HttpResponse.t)) (parse : HttpResponse.t → Result (Response.t A))
    : Prog Net (Result (Response.t A)) :=
  rsp ← call; mret (bindResult rsp parse).

Section Methods.
Context (c : Client.t).
#[local] Notation server := (Client.Server c).

Definition GetSystemsStatusSystemsGet : Prog Net (Result HttpResponse.t) :=
  send c (NewGetSystemsStatusSystemsGetRequest server).
Definition ParseGetSystemsStatusSystemsGetResponse : HttpResponse.t → Result (Response.t (list HPCCluster.t)) :=
  parseAnswer 200 (Unmarshal decodeSystems []).
Definition GetSystemsStatusSystemsGetWithResponse : Prog Net (Result (Response.t (list HPCCluster.t))) :=
  withResponse GetSystemsStatusSystemsGet ParseGetSystemsStatusSystemsGetResponse.

Definition GetUserinfoStatusSystemNameUserinfoGet (systemName : string) : Prog Net (Result HttpResponse.t) :=
  send c (NewGetUserinfoStatusSystemNameUserinfoGetRequest server systemName).
Definition ParseGetUserinfoStatusSystemNameUserinfoGetResponse : HttpResponse.t → Result (Response.t string) :=
  parseAnswer 200 (Unmarshal decodeUserInfo "").
Definition GetUserinfoStatusSystemNameUserinfoGetWithResponse (systemName : string) : Prog Net (Result (Response.t string)) :=
  withResponse (GetUserinfoStatusSystemNameUserinfoGet systemName) ParseGetUserinfoStatusSystemNameUserinfoGetResponse.

Definition PostUploadFilesystemSystemNameOpsUploadPostWithBody (systemName : string) (params : option PostUploadParams.t)
    (contentType body : string) : Prog Net (Result HttpResponse.t) :=
  send c (NewPostUploadFilesystemSystemNameOpsUploadPostRequestWithBody server systemName params contentType body).
Definition ParsePostUploadFilesystemSystemNameOpsUploadPostResponse : HttpResponse.t → Result (Response.t unit) := parseNoContent.
Definition PostUploadFilesystemSystemNameOpsUploadPostWithBodyWithResponse (systemName : string)
    (params : option PostUploadParams.t) (contentType body : string) : Prog Net (Result (Response.t unit)) :=
  withResponse (PostUploadFilesystemSystemNameOpsUploadPostWithBody systemName params contentType body)
    ParsePostUploadFilesystemSystemNameOpsUploadPostResponse.

Definition PostMkdirFilesystemSystemNameOpsMkdirPost (systemName : string) (body : json) : Prog Net (Result HttpResponse.t) :=
  send c (NewPostMkdirFilesystemSystemNameOpsMkdirPostRequest server systemName body).
Definition ParsePostMkdirFilesystemSystemNameOpsMkdirPostResponse : HttpResponse.t → Result (Response.t unit) :=
  parseAnswer 201 (Unmarshal decodeFileResponse tt).
Definition PostMkdirFilesystemSystemNameOpsMkdirPostWithResponse (systemName : string) (body : json)
    : Prog Net (Result (Response.t unit)) :=
  withResponse (PostMkdirFilesystemSystemNameOpsMkdirPost systemName body)
    ParsePostMkdirFilesystemSystemNameOpsMkdirPostResponse.

Definition PutChmodFilesystemSystemNameOpsChmodPut (systemName : string) (body : json) : Prog Net (Result HttpResponse.t) :=
  send c (NewPutChmodFilesystemSystemNameOpsChmodPutRequest server systemName body).
Definition ParsePutChmodFilesystemSystemNameOpsChmodPutResponse : HttpResponse.t → Result (Response.t unit) :=
  parseAnswer 200 (Unmarshal decodeFileResponse tt).
Definition PutChmodFilesystemSystemNameOpsChmodPutWithResponse (systemName : string) (body : json)
    : Prog Net (Result (Response.t unit)) :=
  withResponse (PutChmodFilesystemSystemNameOpsChmodPut systemName body)
    ParsePutChmodFilesystemSystemNameOpsChmodPutResponse.

Definition PostJobSubmitComputeSystemNameJobsPost (systemName : string) (body : json) : Prog Net (Result HttpResponse.t) :=
  send c (NewPostJobSubmitComputeSystemNameJobsPostRequest server systemName body).
Definition ParsePostJobSubmitComputeSystemNameJobsPostResponse : HttpResponse.t → Result (Response.t (option string)) :=
  parseAnswer 201 (Unmarshal decodeSubmission None).
Definition PostJobSubmitComputeSystemNameJobsPostWithResponse (systemName : string) (body : json)
    : Prog Net (Result (Response.t (option string))) :=
  withResponse (PostJobSubmitComputeSystemNameJobsPost systemName body) ParsePostJobSubmitComputeSystemNameJobsPostResponse.

Definition GetJobMetadataComputeSystemNameJobsJobIdMetadataGet (systemName jobId : string) : Prog Net (Result HttpResponse.t) :=
  send c (NewGetJobMetadataComputeSystemNameJobsJobIdMetadataGetRequest server systemName jobId).
Definition ParseGetJobMetadataComputeSystemNameJobsJobIdMetadataGetResponse
    : HttpResponse.t → Result (Response.t (option (list JobMetadata.t))) :=
  parseAnswer 200 (Unmarshal decodeJobMetadata None).
Definition GetJobMetadataComputeSystemNameJobsJobIdMetadataGetWithResponse (systemName jobId : string)
    : Prog Net (Result (Response.t (option (list JobMetadata.t)))) :=
  withResponse (GetJobMetadataComputeSystemNameJobsJobIdMetadataGet systemName jobId)
    ParseGetJobMetadataComputeSystemNameJobsJobIdMetadataGetResponse.

Definition GetJobComputeSystemNameJobsJobIdGet (systemName jobId : string) : Prog Net (Result HttpResponse.t) :=
  send c (NewGetJobComputeSystemNameJobsJobIdGetRequest server systemName jobId).
Definition ParseGetJobComputeSystemNameJobsJobIdGetResponse : HttpResponse.t → Result (Response.t (option (list string))) :=
  parseAnswer 200 (Unmarshal decodeJobs None).
Definition GetJobComputeSystemNameJobsJobIdGetWithResponse (systemName jobId : string)
    : Prog Net (Result (Response.t (option (list string)))) :=
  withResponse (GetJobComputeSystemNameJobsJobIdGet systemName jobId) ParseGetJobComputeSystemNameJobsJobIdGetResponse.

Definition DeleteJobCancelComputeSystemNameJobsJobIdDelete (systemName jobId : string) : Prog Net (Result HttpResponse.t) :=
  send c (NewDeleteJobCancelComputeSystemNameJobsJobIdDeleteRequest server systemName jobId).
Definition ParseDeleteJobCancelComputeSystemNameJobsJobIdDeleteResponse : HttpResponse.t → Result (Response.t unit) :=
  parseNoContent.
Definition DeleteJobCancelComputeSystemNameJobsJobIdDeleteWithResponse (systemName jobId : string)
    : Prog Net (Result (Response.t unit)) :=
  withResponse (DeleteJobCancelComputeSystemNameJobsJobIdDelete systemName jobId)
    ParseDeleteJobCancelComputeSystemNameJobsJobIdDeleteResponse.

Definition GetViewFilesystemSystemNameOpsViewGet (systemName : string) (params : option GetViewParams.t)
    : Prog Net (Result HttpResponse.t) :=
  send c (NewGetViewFilesystemSystemNameOpsViewGetRequest server systemName params).
Definition ParseGetViewFilesystemSystemNameOpsViewGetResponse : HttpResponse.t → Result (Response.t (option string)) :=
  parseAnswer 200 (Unmarshal decodeView None).
Definition GetViewFilesystemSystemNameOpsViewGetWithResponse (systemName : string) (params : option GetViewParams.t)
    : Prog Net (Result (Response.t (option string))) :=
  withResponse (GetViewFilesystemSystemNameOpsViewGet systemName params) ParseGetViewFilesystemSystemNameOpsViewGetResponse.

(** ** The calls of the controller *)

(** The multipart body of [uploadFile]. *)
Fixpoint escapeQuotes (s : string) : string :=
  match s with
  | EmptyString => EmptyString
  | String c s' =>
      if Ascii.eqb c "\" || (Bytes.code c =? 34)%nat then String "\" (String c (escapeQuotes s')) else String c (escapeQuotes s')
  end.

Definition crlf : string := String "013" (String "010" EmptyString).

Definition multipartFile (boundary fieldname filename contents : string) : string :=
  "--" +:+ boundary +:+ crlf +:+
  "Content-Disposition: form-data; name=" +:+ Strings.dquote +:+ escapeQuotes fieldname +:+ Strings.dquote +:+
  "; filename=" +:+ Strings.dquote +:+ escapeQuotes filename +:+ Strings.dquote +:+ crlf +:+
  "Content-Type: application/octet-stream" +:+ crlf +:+ crlf +:+
  contents +:+ crlf +:+ "--" +:+ boundary +:+ "--" +:+ crlf.

Definition FormDataContentType (boundary : string) : string := "multipart/form-data; boundary=" +:+ boundary.

Definition upload (systemName directory filename contents : string) : Prog Net (Result (Response.t unit)) :=
  boundary ← trigger NewBoundary;
  PostUploadFilesystemSystemNameOpsUploadPostWithBodyWithResponse systemName (Some (PostUploadParams.mk directory))
    (FormDataContentType boundary) (multipartFile boundary "file" filename contents).

(** The controller's calls over the client. *)
Definition wire (R : Type) (e : Fc R) : Prog Net R :=
  match e in Fc R return Prog Net R with
  | GetSystems => GetSystemsStatusSystemsGetWithResponse
  | GetUserinfo system => GetUserinfoStatusSystemNameUserinfoGetWithResponse system
  | PostUpload system directory filename contents => upload system directory filename contents
  | PostMkdir system path parents => PostMkdirFilesystemSystemNameOpsMkdirPostWithResponse system (mkdirBody path parents)
  | PutChmod system path mode => PutChmodFilesystemSystemNameOpsChmodPutWithResponse system (chmodBody path mode)
  | PostJobSubmit system job => PostJobSubmitComputeSystemNameJobsPostWithResponse system (submitBody job)
  | GetJobMetadata system jobId => GetJobMetadataComputeSystemNameJobsJobIdMetadataGetWithResponse system jobId
  | GetJob system jobId => GetJobComputeSystemNameJobsJobIdGetWithResponse system jobId
  | DeleteJobCancel system jobId => DeleteJobCancelComputeSystemNameJobsJobIdDeleteWithResponse system jobId
  | GetView system path offset size =>
      GetViewFilesystemSystemNameOpsViewGetWithResponse system (Some (GetViewParams.mk path (Some size) (Some offset)))
  | CtxErr => trigger (Local CtxErr)
  | ReadDir path => trigger (Local (ReadDir path))
  | ReadFile path => trigger (Local (ReadFile path))
  | OpenFile path => trigger (Local (OpenFile path))
  | MkdirAll path => trigger (Local (MkdirAll path))
  | WriteFile path contents => trigger (Local (WriteFile path contents))
  | Remove path => trigger (Local (Remove path))
  | Println line => trigger (Local (Println line))
  | RangeOrder keys => trigger (Local (RangeOrder keys))
  end.
End Methods.
End Operations.
