(* ===== verification/FirecrestOps.v ===== *)
(** * The other operations of the FirecREST client (internal/remote/firecrest/firecrest_gen.go)

    Requests, methods and parsers of the operations the controller does not
    call, in the order of the file, and the variants of its own operations that
    take a body as it is. *)

From S2P Require Import Prelude Prog NetUrl UrlRef Json JsonProps FirecrestScript RemoteAuth Firecrest FirecrestTypes FirecrestClient.
From Stdlib Require Import Ascii.

(** ** Parameters in the query *)

Module GetJobsComputeSystemNameJobsGetParams.
Record t := mk { Allusers : option bool; Account : option string }.
Definition fragments `{OapiRuntime} (params : t) : Result (list string) :=
  f0 ←ᵣ optionalParam StyleFormBool "allusers" (Allusers params);
  f1 ←ᵣ optionalParam StyleForm "account" (Account params);
  inl (f0 ++ f1).
End GetJobsComputeSystemNameJobsGetParams.

Module GetChecksumFilesystemSystemNameOpsChecksumGetParams.
Record t := mk { Path : string }.
Definition fragments `{OapiRuntime} (params : t) : Result (list string) :=
  f0 ←ᵣ requiredParam StyleForm "path" (Path params);
  inl f0.
End GetChecksumFilesystemSystemNameOpsChecksumGetParams.

Module GetDownloadFilesystemSystemNameOpsDownloadGetParams.
Record t := mk { Path : string }.
Definition fragments `{OapiRuntime} (params : t) : Result (list string) :=
  f0 ←ᵣ requiredParam StyleForm "path" (Path params);
  inl f0.
End GetDownloadFilesystemSystemNameOpsDownloadGetParams.

Module GetFileFilesystemSystemNameOpsFileGetParams.
Record t := mk { Path : string }.
Definition fragments `{OapiRuntime} (params : t) : Result (list string) :=
  f0 ←ᵣ requiredParam StyleForm "path" (Path params);
  inl f0.
End GetFileFilesystemSystemNameOpsFileGetParams.

Module GetHeadFilesystemSystemNameOpsHeadGetParams.
Record t := mk { Path : string; Bytes : option Z; Lines : option Z; SkipTrailing : option bool }.
Definition fragments `{OapiRuntime} (params : t) : Result (list string) :=
  f0 ←ᵣ requiredParam StyleForm "path" (Path params);
  f1 ←ᵣ optionalParam StyleFormInt "bytes" (Bytes params);
  f2 ←ᵣ optionalParam StyleFormInt "lines" (Lines params);
  f3 ←ᵣ optionalParam StyleFormBool "skipTrailing" (SkipTrailing params);
  inl (f0 ++ f1 ++ f2 ++ f3).
End GetHeadFilesystemSystemNameOpsHeadGetParams.

Module GetLsFilesystemSystemNameOpsLsGetParams.
Record t := mk { Path : string; ShowHidden : option bool; NumericUid : option bool; Recursive : option bool; Dereference :
  option bool }.
Definition fragments `{OapiRuntime} (params : t) : Result (list string) :=
  f0 ←ᵣ requiredParam StyleForm "path" (Path params);
  f1 ←ᵣ optionalParam StyleFormBool "showHidden" (ShowHidden params);
  f2 ←ᵣ optionalParam StyleFormBool "numericUid" (NumericUid params);
  f3 ←ᵣ optionalParam StyleFormBool "recursive" (Recursive params);
  f4 ←ᵣ optionalParam StyleFormBool "dereference" (Dereference params);
  inl (f0 ++ f1 ++ f2 ++ f3 ++ f4).
End GetLsFilesystemSystemNameOpsLsGetParams.

Module DeleteRmFilesystemSystemNameOpsRmDeleteParams.
Record t := mk { Path : string }.
Definition fragments `{OapiRuntime} (params : t) : Result (list string) :=
  f0 ←ᵣ requiredParam StyleForm "path" (Path params);
  inl f0.
End DeleteRmFilesystemSystemNameOpsRmDeleteParams.

Module GetStatFilesystemSystemNameOpsStatGetParams.
Record t := mk { Path : string; Dereference : option bool }.
Definition fragments `{OapiRuntime} (params : t) : Result (list string) :=
  f0 ←ᵣ requiredParam StyleForm "path" (Path params);
  f1 ←ᵣ optionalParam StyleFormBool "dereference" (Dereference params);
  inl (f0 ++ f1).
End GetStatFilesystemSystemNameOpsStatGetParams.

Module GetTailFilesystemSystemNameOpsTailGetParams.
Record t := mk { Path : string; Bytes : option Z; Lines : option Z; SkipHeading : option bool }.
Definition fragments `{OapiRuntime} (params : t) : Result (list string) :=
  f0 ←ᵣ requiredParam StyleForm "path" (Path params);
  f1 ←ᵣ optionalParam StyleFormInt "bytes" (Bytes params);
  f2 ←ᵣ optionalParam StyleFormInt "lines" (Lines params);
  f3 ←ᵣ optionalParam StyleFormBool "skipHeading" (SkipHeading params);
  inl (f0 ++ f1 ++ f2 ++ f3).
End GetTailFilesystemSystemNameOpsTailGetParams.

Module DeleteRmFilesystemSystemNameTransferRmDeleteParams.
Record t := mk { Path : string; Account : option string }.
Definition fragments `{OapiRuntime} (params : t) : Result (list string) :=
  f0 ←ᵣ requiredParam StyleForm "path" (Path params);
  f1 ←ᵣ optionalParam StyleForm "account" (Account params);
  inl (f0 ++ f1).
End DeleteRmFilesystemSystemNameTransferRmDeleteParams.

Section Operations.
Context `{OapiRuntime}.

(** ** Construction of requests *)

Definition NewGetJobsComputeSystemNameJobsGetRequest (server systemName : string)
    (params : option GetJobsComputeSystemNameJobsGetParams.t) : Result HttpRequest.t :=
  pathParam0 ←ᵣ StyleSimple "system_name" systemName;
  queryRequest server "GET" ("/compute/" +:+ pathParam0 +:+ "/jobs")
    (GetJobsComputeSystemNameJobsGetParams.fragments <$> params) "".

Definition NewAttachComputeSystemNameJobsJobIdAttachPutRequestWithBody (server systemName jobId contentType body : string)
    : Result HttpRequest.t :=
  pathParam0 ←ᵣ StyleSimple "system_name" systemName;
  pathParam1 ←ᵣ StyleSimple "job_id" jobId;
  typedRequest server "PUT" ("/compute/" +:+ pathParam0 +:+ "/jobs/" +:+ pathParam1 +:+ "/attach") contentType body.

Definition NewAttachComputeSystemNameJobsJobIdAttachPutRequest (server systemName jobId : string) (body : PostJobAttachRequest.t)
    : Result HttpRequest.t :=
  NewAttachComputeSystemNameJobsJobIdAttachPutRequestWithBody server systemName jobId jsonType (print
    (PostJobAttachRequest.marshal body)).

Definition NewGetChecksumFilesystemSystemNameOpsChecksumGetRequest (server systemName : string)
    (params : option GetChecksumFilesystemSystemNameOpsChecksumGetParams.t) : Result HttpRequest.t :=
  pathParam0 ←ᵣ StyleSimple "system_name" systemName;
  queryRequest server "GET" ("/filesystem/" +:+ pathParam0 +:+ "/ops/checksum")
    (GetChecksumFilesystemSystemNameOpsChecksumGetParams.fragments <$> params) "".

Definition NewPutChownFilesystemSystemNameOpsChownPutRequestWithBody (server systemName contentType body : string)
    : Result HttpRequest.t :=
  pathParam0 ←ᵣ StyleSimple "system_name" systemName;
  typedRequest server "PUT" ("/filesystem/" +:+ pathParam0 +:+ "/ops/chown") contentType body.

Definition NewPutChownFilesystemSystemNameOpsChownPutRequest (server systemName : string) (body : PutFileChownRequest.t)
    : Result HttpRequest.t :=
  NewPutChownFilesystemSystemNameOpsChownPutRequestWithBody server systemName jsonType (print (PutFileChownRequest.marshal body)).

Definition NewPostCompressFilesystemSystemNameOpsCompressPostRequestWithBody (server systemName contentType body : string)
    : Result HttpRequest.t :=
  pathParam0 ←ᵣ StyleSimple "system_name" systemName;
  typedRequest server "POST" ("/filesystem/" +:+ pathParam0 +:+ "/ops/compress") contentType body.

Definition NewPostCompressFilesystemSystemNameOpsCompressPostRequest (server systemName : string) (body : PostCompressRequest.t)
    : Result HttpRequest.t :=
  NewPostCompressFilesystemSystemNameOpsCompressPostRequestWithBody server systemName jsonType (print (PostCompressRequest.marshal
    body)).

Definition NewGetDownloadFilesystemSystemNameOpsDownloadGetRequest (server systemName : string)
    (params : option GetDownloadFilesystemSystemNameOpsDownloadGetParams.t) : Result HttpRequest.t :=
  pathParam0 ←ᵣ StyleSimple "system_name" systemName;
  queryRequest server "GET" ("/filesystem/" +:+ pathParam0 +:+ "/ops/download")
    (GetDownloadFilesystemSystemNameOpsDownloadGetParams.fragments <$> params) "".

Definition NewPostExtractFilesystemSystemNameOpsExtractPostRequestWithBody (server systemName contentType body : string)
    : Result HttpRequest.t :=
  pathParam0 ←ᵣ StyleSimple "system_name" systemName;
  typedRequest server "POST" ("/filesystem/" +:+ pathParam0 +:+ "/ops/extract") contentType body.

Definition NewPostExtractFilesystemSystemNameOpsExtractPostRequest (server systemName : string) (body : PostExtractRequest.t)
    : Result HttpRequest.t :=
  NewPostExtractFilesystemSystemNameOpsExtractPostRequestWithBody server systemName jsonType (print (PostExtractRequest.marshal
    body)).

Definition NewGetFileFilesystemSystemNameOpsFileGetRequest (server systemName : string)
    (params : option GetFileFilesystemSystemNameOpsFileGetParams.t) : Result HttpRequest.t :=
  pathParam0 ←ᵣ StyleSimple "system_name" systemName;
  queryRequest server "GET" ("/filesystem/" +:+ pathParam0 +:+ "/ops/file")
    (GetFileFilesystemSystemNameOpsFileGetParams.fragments <$> params) "".

Definition NewGetHeadFilesystemSystemNameOpsHeadGetRequest (server systemName : string)
    (params : option GetHeadFilesystemSystemNameOpsHeadGetParams.t) : Result HttpRequest.t :=
  pathParam0 ←ᵣ StyleSimple "system_name" systemName;
  queryRequest server "GET" ("/filesystem/" +:+ pathParam0 +:+ "/ops/head")
    (GetHeadFilesystemSystemNameOpsHeadGetParams.fragments <$> params) "".

Definition NewGetLsFilesystemSystemNameOpsLsGetRequest (server systemName : string)
    (params : option GetLsFilesystemSystemNameOpsLsGetParams.t) : Result HttpRequest.t :=
  pathParam0 ←ᵣ StyleSimple "system_name" systemName;
  queryRequest server "GET" ("/filesystem/" +:+ pathParam0 +:+ "/ops/ls")
    (GetLsFilesystemSystemNameOpsLsGetParams.fragments <$> params) "".

Definition NewDeleteRmFilesystemSystemNameOpsRmDeleteRequest (server systemName : string)
    (params : option DeleteRmFilesystemSystemNameOpsRmDeleteParams.t) : Result HttpRequest.t :=
  pathParam0 ←ᵣ StyleSimple "system_name" systemName;
  queryRequest server "DELETE" ("/filesystem/" +:+ pathParam0 +:+ "/ops/rm")
    (DeleteRmFilesystemSystemNameOpsRmDeleteParams.fragments <$> params) "".

Definition NewGetStatFilesystemSystemNameOpsStatGetRequest (server systemName : string)
    (params : option GetStatFilesystemSystemNameOpsStatGetParams.t) : Result HttpRequest.t :=
  pathParam0 ←ᵣ StyleSimple "system_name" systemName;
  queryRequest server "GET" ("/filesystem/" +:+ pathParam0 +:+ "/ops/stat")
    (GetStatFilesystemSystemNameOpsStatGetParams.fragments <$> params) "".

Definition NewPostSymlinkFilesystemSystemNameOpsSymlinkPostRequestWithBody (server systemName contentType body : string)
    : Result HttpRequest.t :=
  pathParam0 ←ᵣ StyleSimple "system_name" systemName;
  typedRequest server "POST" ("/filesystem/" +:+ pathParam0 +:+ "/ops/symlink") contentType body.

Definition NewPostSymlinkFilesystemSystemNameOpsSymlinkPostRequest (server systemName : string) (body : PostFileSymlinkRequest.t)
    : Result HttpRequest.t :=
  NewPostSymlinkFilesystemSystemNameOpsSymlinkPostRequestWithBody server systemName jsonType (print
    (PostFileSymlinkRequest.marshal body)).

Definition NewGetTailFilesystemSystemNameOpsTailGetRequest (server systemName : string)
    (params : option GetTailFilesystemSystemNameOpsTailGetParams.t) : Result HttpRequest.t :=
  pathParam0 ←ᵣ StyleSimple "system_name" systemName;
  queryRequest server "GET" ("/filesystem/" +:+ pathParam0 +:+ "/ops/tail")
    (GetTailFilesystemSystemNameOpsTailGetParams.fragments <$> params) "".

Definition NewCompressFilesystemSystemNameTransferCompressPostRequestWithBody (server systemName contentType body : string)
    : Result HttpRequest.t :=
  pathParam0 ←ᵣ StyleSimple "system_name" systemName;
  typedRequest server "POST" ("/filesystem/" +:+ pathParam0 +:+ "/transfer/compress") contentType body.

Definition NewCompressFilesystemSystemNameTransferCompressPostRequest (server systemName : string) (body : CompressRequest.t)
    : Result HttpRequest.t :=
  NewCompressFilesystemSystemNameTransferCompressPostRequestWithBody server systemName jsonType (print (CompressRequest.marshal
    body)).

Definition NewPostCpFilesystemSystemNameTransferCpPostRequestWithBody (server systemName contentType body : string)
    : Result HttpRequest.t :=
  pathParam0 ←ᵣ StyleSimple "system_name" systemName;
  typedRequest server "POST" ("/filesystem/" +:+ pathParam0 +:+ "/transfer/cp") contentType body.

Definition NewPostCpFilesystemSystemNameTransferCpPostRequest (server systemName : string) (body : CopyRequest.t)
    : Result HttpRequest.t :=
  NewPostCpFilesystemSystemNameTransferCpPostRequestWithBody server systemName jsonType (print (CopyRequest.marshal body)).

Definition NewPostDownloadFilesystemSystemNameTransferDownloadPostRequestWithBody (server systemName contentType body : string)
    : Result HttpRequest.t :=
  pathParam0 ←ᵣ StyleSimple "system_name" systemName;
  typedRequest server "POST" ("/filesystem/" +:+ pathParam0 +:+ "/transfer/download") contentType body.

Definition NewPostDownloadFilesystemSystemNameTransferDownloadPostRequest (server systemName : string)
    (body : PostFileDownloadRequest.t) : Result HttpRequest.t :=
  NewPostDownloadFilesystemSystemNameTransferDownloadPostRequestWithBody server systemName jsonType (print
    (PostFileDownloadRequest.marshal body)).

Definition NewExtractFilesystemSystemNameTransferExtractPostRequestWithBody (server systemName contentType body : string)
    : Result HttpRequest.t :=
  pathParam0 ←ᵣ StyleSimple "system_name" systemName;
  typedRequest server "POST" ("/filesystem/" +:+ pathParam0 +:+ "/transfer/extract") contentType body.

Definition NewExtractFilesystemSystemNameTransferExtractPostRequest (server systemName : string) (body : ExtractRequest.t)
    : Result HttpRequest.t :=
  NewExtractFilesystemSystemNameTransferExtractPostRequestWithBody server systemName jsonType (print (ExtractRequest.marshal
    body)).

Definition NewMoveMvFilesystemSystemNameTransferMvPostRequestWithBody (server systemName contentType body : string)
    : Result HttpRequest.t :=
  pathParam0 ←ᵣ StyleSimple "system_name" systemName;
  typedRequest server "POST" ("/filesystem/" +:+ pathParam0 +:+ "/transfer/mv") contentType body.

Definition NewMoveMvFilesystemSystemNameTransferMvPostRequest (server systemName : string) (body : MoveRequest.t)
    : Result HttpRequest.t :=
  NewMoveMvFilesystemSystemNameTransferMvPostRequestWithBody server systemName jsonType (print (MoveRequest.marshal body)).

Definition NewDeleteRmFilesystemSystemNameTransferRmDeleteRequest (server systemName : string)
    (params : option DeleteRmFilesystemSystemNameTransferRmDeleteParams.t) : Result HttpRequest.t :=
  pathParam0 ←ᵣ StyleSimple "system_name" systemName;
  queryRequest server "DELETE" ("/filesystem/" +:+ pathParam0 +:+ "/transfer/rm")
    (DeleteRmFilesystemSystemNameTransferRmDeleteParams.fragments <$> params) "".

Definition NewPostUploadFilesystemSystemNameTransferUploadPostRequestWithBody (server systemName contentType body : string)
    : Result HttpRequest.t :=
  pathParam0 ←ᵣ StyleSimple "system_name" systemName;
  typedRequest server "POST" ("/filesystem/" +:+ pathParam0 +:+ "/transfer/upload") contentType body.

Definition NewPostUploadFilesystemSystemNameTransferUploadPostRequest (server systemName : string) (body : PostFileUploadRequest.t)
    : Result HttpRequest.t :=
  NewPostUploadFilesystemSystemNameTransferUploadPostRequestWithBody server systemName jsonType (print
    (PostFileUploadRequest.marshal body)).

Definition NewGetLivenessStatusLivenessGetRequest (server : string) : Result HttpRequest.t :=
  plainRequest server "GET" "/status/liveness/" "".

Definition NewGetSystemNodesStatusSystemNameNodesGetRequest (server systemName : string) : Result HttpRequest.t :=
  pathParam0 ←ᵣ StyleSimple "system_name" systemName;
  plainRequest server "GET" ("/status/" +:+ pathParam0 +:+ "/nodes") "".

Definition NewGetSystemPartitionsStatusSystemNamePartitionsGetRequest (server systemName : string) : Result HttpRequest.t :=
  pathParam0 ←ᵣ StyleSimple "system_name" systemName;
  plainRequest server "GET" ("/status/" +:+ pathParam0 +:+ "/partitions") "".

Definition NewGetSystemReservationsStatusSystemNameReservationsGetRequest (server systemName : string) : Result HttpRequest.t :=
  pathParam0 ←ᵣ StyleSimple "system_name" systemName;
  plainRequest server "GET" ("/status/" +:+ pathParam0 +:+ "/reservations") "".

(** ** Parsers *)

Definition ParseGetJobsComputeSystemNameJobsGetResponse : HttpResponse.t → Result (Response.t (option (list string))) :=
  parseAnswer 200 (Unmarshal decodeJobs None).

Definition ParseAttachComputeSystemNameJobsJobIdAttachPutResponse : HttpResponse.t → Result (Response.t unit) :=
  parseNoContent.

Definition ParseGetChecksumFilesystemSystemNameOpsChecksumGetResponse
    : HttpResponse.t → Result (Response.t (option FileChecksum.t)) :=
  parseAnswer 200 (Unmarshal decodeGetFileChecksumResponse None).

Definition ParsePutChownFilesystemSystemNameOpsChownPutResponse : HttpResponse.t → Result (Response.t (option File.t)) :=
  parseAnswer 200 (Unmarshal decodePutFileChownResponse None).

Definition ParsePostCompressFilesystemSystemNameOpsCompressPostResponse : HttpResponse.t → Result (Response.t unit) :=
  parseNoContent.

Definition ParseGetDownloadFilesystemSystemNameOpsDownloadGetResponse : HttpResponse.t → Result (Response.t json) :=
  parseAnswer 200 (Unmarshal decodeUnion JNull).

Definition ParsePostExtractFilesystemSystemNameOpsExtractPostResponse : HttpResponse.t → Result (Response.t unit) :=
  parseNoContent.

Definition ParseGetFileFilesystemSystemNameOpsFileGetResponse : HttpResponse.t → Result (Response.t (option string)) :=
  parseAnswer 200 (Unmarshal decodeGetFileTypeResponse None).

Definition ParseGetHeadFilesystemSystemNameOpsHeadGetResponse : HttpResponse.t → Result (Response.t (option FileContent.t)) :=
  parseAnswer 200 (Unmarshal decodeGetFileHeadResponse None).

Definition ParseGetLsFilesystemSystemNameOpsLsGetResponse : HttpResponse.t → Result (Response.t (option (list File.t))) :=
  parseAnswer 200 (Unmarshal decodeGetDirectoryLsResponse None).

Definition ParseDeleteRmFilesystemSystemNameOpsRmDeleteResponse : HttpResponse.t → Result (Response.t unit) :=
  parseNoContent.

Definition ParseGetStatFilesystemSystemNameOpsStatGetResponse : HttpResponse.t → Result (Response.t (option FileStat.t)) :=
  parseAnswer 200 (Unmarshal decodeGetFileStatResponse None).

Definition ParsePostSymlinkFilesystemSystemNameOpsSymlinkPostResponse : HttpResponse.t → Result (Response.t (option File.t)) :=
  parseAnswer 201 (Unmarshal decodePostFileSymlinkResponse None).

Definition ParseGetTailFilesystemSystemNameOpsTailGetResponse : HttpResponse.t → Result (Response.t (option FileContent.t)) :=
  parseAnswer 200 (Unmarshal decodeGetFileTailResponse None).

Definition ParseCompressFilesystemSystemNameTransferCompressPostResponse : HttpResponse.t → Result (Response.t TransferJob.t) :=
  parseAnswer 201 (Unmarshal decodeCompressResponse TransferJob.zero).

Definition ParsePostCpFilesystemSystemNameTransferCpPostResponse : HttpResponse.t → Result (Response.t TransferJob.t) :=
  parseAnswer 201 (Unmarshal decodeCopyResponse TransferJob.zero).

Definition ParsePostDownloadFilesystemSystemNameTransferDownloadPostResponse
    : HttpResponse.t → Result (Response.t DownloadFileResponse.t) :=
  parseAnswer 201 (Unmarshal DownloadFileResponse.decode DownloadFileResponse.zero).

Definition ParseExtractFilesystemSystemNameTransferExtractPostResponse : HttpResponse.t → Result (Response.t TransferJob.t) :=
  parseAnswer 201 (Unmarshal decodeExtractResponse TransferJob.zero).

Definition ParseMoveMvFilesystemSystemNameTransferMvPostResponse : HttpResponse.t → Result (Response.t TransferJob.t) :=
  parseAnswer 201 (Unmarshal decodeMoveResponse TransferJob.zero).

Definition ParseDeleteRmFilesystemSystemNameTransferRmDeleteResponse : HttpResponse.t → Result (Response.t TransferJob.t) :=
  parseAnswer 200 (Unmarshal decodeDeleteResponse TransferJob.zero).

Definition ParsePostUploadFilesystemSystemNameTransferUploadPostResponse
    : HttpResponse.t → Result (Response.t UploadFileResponse.t) :=
  parseAnswer 201 (Unmarshal UploadFileResponse.decode UploadFileResponse.zero).

Definition ParseGetLivenessStatusLivenessGetResponse : HttpResponse.t → Result (Response.t GetLiveness.t) :=
  parseAnswer 200 (Unmarshal GetLiveness.decode GetLiveness.zero).

Definition ParseGetSystemNodesStatusSystemNameNodesGetResponse : HttpResponse.t → Result (Response.t (list NodeModel.t)) :=
  parseAnswer 200 (Unmarshal decodeGetNodesResponse []).

Definition ParseGetSystemPartitionsStatusSystemNamePartitionsGetResponse
    : HttpResponse.t → Result (Response.t (list PartitionModel.t)) :=
  parseAnswer 200 (Unmarshal decodeGetPartitionsResponse []).

Definition ParseGetSystemReservationsStatusSystemNameReservationsGetResponse
    : HttpResponse.t → Result (Response.t (list ReservationModel.t)) :=
  parseAnswer 200 (Unmarshal decodeGetReservationsResponse []).

(** ** Methods *)

Section Methods.
Context (c : Client.t).
#[local] Notation server := (Client.Server c).

Definition GetJobsComputeSystemNameJobsGet (systemName : string) (params : option GetJobsComputeSystemNameJobsGetParams.t)
    : Prog Net (Result HttpResponse.t) :=
  send c (NewGetJobsComputeSystemNameJobsGetRequest server systemName params).
Definition GetJobsComputeSystemNameJobsGetWithResponse (systemName : string) (params : option GetJobsComputeSystemNameJobsGetParams.t)
    : Prog Net (Result (Response.t (option (list string)))) :=
  withResponse (GetJobsComputeSystemNameJobsGet systemName params) ParseGetJobsComputeSystemNameJobsGetResponse.

Definition PostJobSubmitComputeSystemNameJobsPostWithBody (systemName contentType body : string)
    : Prog Net (Result HttpResponse.t) :=
  send c (NewPostJobSubmitComputeSystemNameJobsPostRequestWithBody server systemName contentType body).
Definition PostJobSubmitComputeSystemNameJobsPostWithBodyWithResponse (systemName contentType body : string)
    : Prog Net (Result (Response.t (option string))) :=
  withResponse (PostJobSubmitComputeSystemNameJobsPostWithBody systemName contentType body)
    ParsePostJobSubmitComputeSystemNameJobsPostResponse.

Definition AttachComputeSystemNameJobsJobIdAttachPutWithBody (systemName jobId contentType body : string)
    : Prog Net (Result HttpResponse.t) :=
  send c (NewAttachComputeSystemNameJobsJobIdAttachPutRequestWithBody server systemName jobId contentType body).
Definition AttachComputeSystemNameJobsJobIdAttachPutWithBodyWithResponse (systemName jobId contentType body : string)
    : Prog Net (Result (Response.t unit)) :=
  withResponse (AttachComputeSystemNameJobsJobIdAttachPutWithBody systemName jobId contentType body)
    ParseAttachComputeSystemNameJobsJobIdAttachPutResponse.

Definition AttachComputeSystemNameJobsJobIdAttachPut (systemName jobId : string) (body : PostJobAttachRequest.t)
    : Prog Net (Result HttpResponse.t) :=
  send c (NewAttachComputeSystemNameJobsJobIdAttachPutRequest server systemName jobId body).
Definition AttachComputeSystemNameJobsJobIdAttachPutWithResponse (systemName jobId : string) (body : PostJobAttachRequest.t)
    : Prog Net (Result (Response.t unit)) :=
  withResponse (AttachComputeSystemNameJobsJobIdAttachPut systemName jobId body)
    ParseAttachComputeSystemNameJobsJobIdAttachPutResponse.

Definition GetChecksumFilesystemSystemNameOpsChecksumGet (systemName : string)
    (params : option GetChecksumFilesystemSystemNameOpsChecksumGetParams.t) : Prog Net (Result HttpResponse.t) :=
  send c (NewGetChecksumFilesystemSystemNameOpsChecksumGetRequest server systemName params).
Definition GetChecksumFilesystemSystemNameOpsChecksumGetWithResponse (systemName : string)
    (params : option GetChecksumFilesystemSystemNameOpsChecksumGetParams.t) : Prog Net (Result (Response.t (option FileChecksum.t))) :=
  withResponse (GetChecksumFilesystemSystemNameOpsChecksumGet systemName params)
    ParseGetChecksumFilesystemSystemNameOpsChecksumGetResponse.

Definition PutChmodFilesystemSystemNameOpsChmodPutWithBody (systemName contentType body : string)
    : Prog Net (Result HttpResponse.t) :=
  send c (NewPutChmodFilesystemSystemNameOpsChmodPutRequestWithBody server systemName contentType body).
Definition PutChmodFilesystemSystemNameOpsChmodPutWithBodyWithResponse (systemName contentType body : string)
    : Prog Net (Result (Response.t unit)) :=
  withResponse (PutChmodFilesystemSystemNameOpsChmodPutWithBody systemName contentType body)
    ParsePutChmodFilesystemSystemNameOpsChmodPutResponse.

Definition PutChownFilesystemSystemNameOpsChownPutWithBody (systemName contentType body : string)
    : Prog Net (Result HttpResponse.t) :=
  send c (NewPutChownFilesystemSystemNameOpsChownPutRequestWithBody server systemName contentType body).
Definition PutChownFilesystemSystemNameOpsChownPutWithBodyWithResponse (systemName contentType body : string)
    : Prog Net (Result (Response.t (option File.t))) :=
  withResponse (PutChownFilesystemSystemNameOpsChownPutWithBody systemName contentType body)
    ParsePutChownFilesystemSystemNameOpsChownPutResponse.

Definition PutChownFilesystemSystemNameOpsChownPut (systemName : string) (body : PutFileChownRequest.t)
    : Prog Net (Result HttpResponse.t) :=
  send c (NewPutChownFilesystemSystemNameOpsChownPutRequest server systemName body).
Definition PutChownFilesystemSystemNameOpsChownPutWithResponse (systemName : string) (body : PutFileChownRequest.t)
    : Prog Net (Result (Response.t (option File.t))) :=
  withResponse (PutChownFilesystemSystemNameOpsChownPut systemName body) ParsePutChownFilesystemSystemNameOpsChownPutResponse.

Definition PostCompressFilesystemSystemNameOpsCompressPostWithBody (systemName contentType body : string)
    : Prog Net (Result HttpResponse.t) :=
  send c (NewPostCompressFilesystemSystemNameOpsCompressPostRequestWithBody server systemName contentType body).
Definition PostCompressFilesystemSystemNameOpsCompressPostWithBodyWithResponse (systemName contentType body : string)
    : Prog Net (Result (Response.t unit)) :=
  withResponse (PostCompressFilesystemSystemNameOpsCompressPostWithBody systemName contentType body)
    ParsePostCompressFilesystemSystemNameOpsCompressPostResponse.

Definition PostCompressFilesystemSystemNameOpsCompressPost (systemName : string) (body : PostCompressRequest.t)
    : Prog Net (Result HttpResponse.t) :=
  send c (NewPostCompressFilesystemSystemNameOpsCompressPostRequest server systemName body).
Definition PostCompressFilesystemSystemNameOpsCompressPostWithResponse (systemName : string) (body : PostCompressRequest.t)
    : Prog Net (Result (Response.t unit)) :=
  withResponse (PostCompressFilesystemSystemNameOpsCompressPost systemName body)
    ParsePostCompressFilesystemSystemNameOpsCompressPostResponse.

Definition GetDownloadFilesystemSystemNameOpsDownloadGet (systemName : string)
    (params : option GetDownloadFilesystemSystemNameOpsDownloadGetParams.t) : Prog Net (Result HttpResponse.t) :=
  send c (NewGetDownloadFilesystemSystemNameOpsDownloadGetRequest server systemName params).
Definition GetDownloadFilesystemSystemNameOpsDownloadGetWithResponse (systemName : string)
    (params : option GetDownloadFilesystemSystemNameOpsDownloadGetParams.t) : Prog Net (Result (Response.t json)) :=
  withResponse (GetDownloadFilesystemSystemNameOpsDownloadGet systemName params)
    ParseGetDownloadFilesystemSystemNameOpsDownloadGetResponse.

Definition PostExtractFilesystemSystemNameOpsExtractPostWithBody (systemName contentType body : string)
    : Prog Net (Result HttpResponse.t) :=
  send c (NewPostExtractFilesystemSystemNameOpsExtractPostRequestWithBody server systemName contentType body).
Definition PostExtractFilesystemSystemNameOpsExtractPostWithBodyWithResponse (systemName contentType body : string)
    : Prog Net (Result (Response.t unit)) :=
  withResponse (PostExtractFilesystemSystemNameOpsExtractPostWithBody systemName contentType body)
    ParsePostExtractFilesystemSystemNameOpsExtractPostResponse.

Definition PostExtractFilesystemSystemNameOpsExtractPost (systemName : string) (body : PostExtractRequest.t)
    : Prog Net (Result HttpResponse.t) :=
  send c (NewPostExtractFilesystemSystemNameOpsExtractPostRequest server systemName body).
Definition PostExtractFilesystemSystemNameOpsExtractPostWithResponse (systemName : string) (body : PostExtractRequest.t)
    : Prog Net (Result (Response.t unit)) :=
  withResponse (PostExtractFilesystemSystemNameOpsExtractPost systemName body)
    ParsePostExtractFilesystemSystemNameOpsExtractPostResponse.

Definition GetFileFilesystemSystemNameOpsFileGet (systemName : string) (params : option GetFileFilesystemSystemNameOpsFileGetParams.t)
    : Prog Net (Result HttpResponse.t) :=
  send c (NewGetFileFilesystemSystemNameOpsFileGetRequest server systemName params).
Definition GetFileFilesystemSystemNameOpsFileGetWithResponse (systemName : string)
    (params : option GetFileFilesystemSystemNameOpsFileGetParams.t) : Prog Net (Result (Response.t (option string))) :=
  withResponse (GetFileFilesystemSystemNameOpsFileGet systemName params) ParseGetFileFilesystemSystemNameOpsFileGetResponse.

Definition GetHeadFilesystemSystemNameOpsHeadGet (systemName : string) (params : option GetHeadFilesystemSystemNameOpsHeadGetParams.t)
    : Prog Net (Result HttpResponse.t) :=
  send c (NewGetHeadFilesystemSystemNameOpsHeadGetRequest server systemName params).
Definition GetHeadFilesystemSystemNameOpsHeadGetWithResponse (systemName : string)
    (params : option GetHeadFilesystemSystemNameOpsHeadGetParams.t) : Prog Net (Result (Response.t (option FileContent.t))) :=
  withResponse (GetHeadFilesystemSystemNameOpsHeadGet systemName params) ParseGetHeadFilesystemSystemNameOpsHeadGetResponse.

Definition GetLsFilesystemSystemNameOpsLsGet (systemName : string) (params : option GetLsFilesystemSystemNameOpsLsGetParams.t)
    : Prog Net (Result HttpResponse.t) :=
  send c (NewGetLsFilesystemSystemNameOpsLsGetRequest server systemName params).
Definition GetLsFilesystemSystemNameOpsLsGetWithResponse (systemName : string)
    (params : option GetLsFilesystemSystemNameOpsLsGetParams.t) : Prog Net (Result (Response.t (option (list File.t)))) :=
  withResponse (GetLsFilesystemSystemNameOpsLsGet systemName params) ParseGetLsFilesystemSystemNameOpsLsGetResponse.

Definition PostMkdirFilesystemSystemNameOpsMkdirPostWithBody (systemName contentType body : string)
    : Prog Net (Result HttpResponse.t) :=
  send c (NewPostMkdirFilesystemSystemNameOpsMkdirPostRequestWithBody server systemName contentType body).
Definition PostMkdirFilesystemSystemNameOpsMkdirPostWithBodyWithResponse (systemName contentType body : string)
    : Prog Net (Result (Response.t unit)) :=
  withResponse (PostMkdirFilesystemSystemNameOpsMkdirPostWithBody systemName contentType body)
    ParsePostMkdirFilesystemSystemNameOpsMkdirPostResponse.

Definition DeleteRmFilesystemSystemNameOpsRmDelete (systemName : string)
    (params : option DeleteRmFilesystemSystemNameOpsRmDeleteParams.t) : Prog Net (Result HttpResponse.t) :=
  send c (NewDeleteRmFilesystemSystemNameOpsRmDeleteRequest server systemName params).
Definition DeleteRmFilesystemSystemNameOpsRmDeleteWithResponse (systemName : string)
    (params : option DeleteRmFilesystemSystemNameOpsRmDeleteParams.t) : Prog Net (Result (Response.t unit)) :=
  withResponse (DeleteRmFilesystemSystemNameOpsRmDelete systemName params) ParseDeleteRmFilesystemSystemNameOpsRmDeleteResponse.

Definition GetStatFilesystemSystemNameOpsStatGet (systemName : string) (params : option GetStatFilesystemSystemNameOpsStatGetParams.t)
    : Prog Net (Result HttpResponse.t) :=
  send c (NewGetStatFilesystemSystemNameOpsStatGetRequest server systemName params).
Definition GetStatFilesystemSystemNameOpsStatGetWithResponse (systemName : string)
    (params : option GetStatFilesystemSystemNameOpsStatGetParams.t) : Prog Net (Result (Response.t (option FileStat.t))) :=
  withResponse (GetStatFilesystemSystemNameOpsStatGet systemName params) ParseGetStatFilesystemSystemNameOpsStatGetResponse.

Definition PostSymlinkFilesystemSystemNameOpsSymlinkPostWithBody (systemName contentType body : string)
    : Prog Net (Result HttpResponse.t) :=
  send c (NewPostSymlinkFilesystemSystemNameOpsSymlinkPostRequestWithBody server systemName contentType body).
Definition PostSymlinkFilesystemSystemNameOpsSymlinkPostWithBodyWithResponse (systemName contentType body : string)
    : Prog Net (Result (Response.t (option File.t))) :=
  withResponse (PostSymlinkFilesystemSystemNameOpsSymlinkPostWithBody systemName contentType body)
    ParsePostSymlinkFilesystemSystemNameOpsSymlinkPostResponse.

Definition PostSymlinkFilesystemSystemNameOpsSymlinkPost (systemName : string) (body : PostFileSymlinkRequest.t)
    : Prog Net (Result HttpResponse.t) :=
  send c (NewPostSymlinkFilesystemSystemNameOpsSymlinkPostRequest server systemName body).
Definition PostSymlinkFilesystemSystemNameOpsSymlinkPostWithResponse (systemName : string) (body : PostFileSymlinkRequest.t)
    : Prog Net (Result (Response.t (option File.t))) :=
  withResponse (PostSymlinkFilesystemSystemNameOpsSymlinkPost systemName body)
    ParsePostSymlinkFilesystemSystemNameOpsSymlinkPostResponse.

Definition GetTailFilesystemSystemNameOpsTailGet (systemName : string) (params : option GetTailFilesystemSystemNameOpsTailGetParams.t)
    : Prog Net (Result HttpResponse.t) :=
  send c (NewGetTailFilesystemSystemNameOpsTailGetRequest server systemName params).
Definition GetTailFilesystemSystemNameOpsTailGetWithResponse (systemName : string)
    (params : option GetTailFilesystemSystemNameOpsTailGetParams.t) : Prog Net (Result (Response.t (option FileContent.t))) :=
  withResponse (GetTailFilesystemSystemNameOpsTailGet systemName params) ParseGetTailFilesystemSystemNameOpsTailGetResponse.

Definition CompressFilesystemSystemNameTransferCompressPostWithBody (systemName contentType body : string)
    : Prog Net (Result HttpResponse.t) :=
  send c (NewCompressFilesystemSystemNameTransferCompressPostRequestWithBody server systemName contentType body).
Definition CompressFilesystemSystemNameTransferCompressPostWithBodyWithResponse (systemName contentType body : string)
    : Prog Net (Result (Response.t TransferJob.t)) :=
  withResponse (CompressFilesystemSystemNameTransferCompressPostWithBody systemName contentType body)
    ParseCompressFilesystemSystemNameTransferCompressPostResponse.

Definition CompressFilesystemSystemNameTransferCompressPost (systemName : string) (body : CompressRequest.t)
    : Prog Net (Result HttpResponse.t) :=
  send c (NewCompressFilesystemSystemNameTransferCompressPostRequest server systemName body).
Definition CompressFilesystemSystemNameTransferCompressPostWithResponse (systemName : string) (body : CompressRequest.t)
    : Prog Net (Result (Response.t TransferJob.t)) :=
  withResponse (CompressFilesystemSystemNameTransferCompressPost systemName body)
    ParseCompressFilesystemSystemNameTransferCompressPostResponse.

Definition PostCpFilesystemSystemNameTransferCpPostWithBody (systemName contentType body : string)
    : Prog Net (Result HttpResponse.t) :=
  send c (NewPostCpFilesystemSystemNameTransferCpPostRequestWithBody server systemName contentType body).
Definition PostCpFilesystemSystemNameTransferCpPostWithBodyWithResponse (systemName contentType body : string)
    : Prog Net (Result (Response.t TransferJob.t)) :=
  withResponse (PostCpFilesystemSystemNameTransferCpPostWithBody systemName contentType body)
    ParsePostCpFilesystemSystemNameTransferCpPostResponse.

Definition PostCpFilesystemSystemNameTransferCpPost (systemName : string) (body : CopyRequest.t)
    : Prog Net (Result HttpResponse.t) :=
  send c (NewPostCpFilesystemSystemNameTransferCpPostRequest server systemName body).
Definition PostCpFilesystemSystemNameTransferCpPostWithResponse (systemName : string) (body : CopyRequest.t)
    : Prog Net (Result (Response.t TransferJob.t)) :=
  withResponse (PostCpFilesystemSystemNameTransferCpPost systemName body) ParsePostCpFilesystemSystemNameTransferCpPostResponse.

Definition PostDownloadFilesystemSystemNameTransferDownloadPostWithBody (systemName contentType body : string)
    : Prog Net (Result HttpResponse.t) :=
  send c (NewPostDownloadFilesystemSystemNameTransferDownloadPostRequestWithBody server systemName contentType body).
Definition PostDownloadFilesystemSystemNameTransferDownloadPostWithBodyWithResponse (systemName contentType body : string)
    : Prog Net (Result (Response.t DownloadFileResponse.t)) :=
  withResponse (PostDownloadFilesystemSystemNameTransferDownloadPostWithBody systemName contentType body)
    ParsePostDownloadFilesystemSystemNameTransferDownloadPostResponse.

Definition PostDownloadFilesystemSystemNameTransferDownloadPost (systemName : string) (body : PostFileDownloadRequest.t)
    : Prog Net (Result HttpResponse.t) :=
  send c (NewPostDownloadFilesystemSystemNameTransferDownloadPostRequest server systemName body).
Definition PostDownloadFilesystemSystemNameTransferDownloadPostWithResponse (systemName : string) (body : PostFileDownloadRequest.t)
    : Prog Net (Result (Response.t DownloadFileResponse.t)) :=
  withResponse (PostDownloadFilesystemSystemNameTransferDownloadPost systemName body)
    ParsePostDownloadFilesystemSystemNameTransferDownloadPostResponse.

Definition ExtractFilesystemSystemNameTransferExtractPostWithBody (systemName contentType body : string)
    : Prog Net (Result HttpResponse.t) :=
  send c (NewExtractFilesystemSystemNameTransferExtractPostRequestWithBody server systemName contentType body).
Definition ExtractFilesystemSystemNameTransferExtractPostWithBodyWithResponse (systemName contentType body : string)
    : Prog Net (Result (Response.t TransferJob.t)) :=
  withResponse (ExtractFilesystemSystemNameTransferExtractPostWithBody systemName contentType body)
    ParseExtractFilesystemSystemNameTransferExtractPostResponse.

Definition ExtractFilesystemSystemNameTransferExtractPost (systemName : string) (body : ExtractRequest.t)
    : Prog Net (Result HttpResponse.t) :=
  send c (NewExtractFilesystemSystemNameTransferExtractPostRequest server systemName body).
Definition ExtractFilesystemSystemNameTransferExtractPostWithResponse (systemName : string) (body : ExtractRequest.t)
    : Prog Net (Result (Response.t TransferJob.t)) :=
  withResponse (ExtractFilesystemSystemNameTransferExtractPost systemName body)
    ParseExtractFilesystemSystemNameTransferExtractPostResponse.

Definition MoveMvFilesystemSystemNameTransferMvPostWithBody (systemName contentType body : string)
    : Prog Net (Result HttpResponse.t) :=
  send c (NewMoveMvFilesystemSystemNameTransferMvPostRequestWithBody server systemName contentType body).
Definition MoveMvFilesystemSystemNameTransferMvPostWithBodyWithResponse (systemName contentType body : string)
    : Prog Net (Result (Response.t TransferJob.t)) :=
  withResponse (MoveMvFilesystemSystemNameTransferMvPostWithBody systemName contentType body)
    ParseMoveMvFilesystemSystemNameTransferMvPostResponse.

Definition MoveMvFilesystemSystemNameTransferMvPost (systemName : string) (body : MoveRequest.t)
    : Prog Net (Result HttpResponse.t) :=
  send c (NewMoveMvFilesystemSystemNameTransferMvPostRequest server systemName body).
Definition MoveMvFilesystemSystemNameTransferMvPostWithResponse (systemName : string) (body : MoveRequest.t)
    : Prog Net (Result (Response.t TransferJob.t)) :=
  withResponse (MoveMvFilesystemSystemNameTransferMvPost systemName body) ParseMoveMvFilesystemSystemNameTransferMvPostResponse.

Definition DeleteRmFilesystemSystemNameTransferRmDelete (systemName : string)
    (params : option DeleteRmFilesystemSystemNameTransferRmDeleteParams.t) : Prog Net (Result HttpResponse.t) :=
  send c (NewDeleteRmFilesystemSystemNameTransferRmDeleteRequest server systemName params).
Definition DeleteRmFilesystemSystemNameTransferRmDeleteWithResponse (systemName : string)
    (params : option DeleteRmFilesystemSystemNameTransferRmDeleteParams.t) : Prog Net (Result (Response.t TransferJob.t)) :=
  withResponse (DeleteRmFilesystemSystemNameTransferRmDelete systemName params)
    ParseDeleteRmFilesystemSystemNameTransferRmDeleteResponse.

Definition PostUploadFilesystemSystemNameTransferUploadPostWithBody (systemName contentType body : string)
    : Prog Net (Result HttpResponse.t) :=
  send c (NewPostUploadFilesystemSystemNameTransferUploadPostRequestWithBody server systemName contentType body).
Definition PostUploadFilesystemSystemNameTransferUploadPostWithBodyWithResponse (systemName contentType body : string)
    : Prog Net (Result (Response.t UploadFileResponse.t)) :=
  withResponse (PostUploadFilesystemSystemNameTransferUploadPostWithBody systemName contentType body)
    ParsePostUploadFilesystemSystemNameTransferUploadPostResponse.

Definition PostUploadFilesystemSystemNameTransferUploadPost (systemName : string) (body : PostFileUploadRequest.t)
    : Prog Net (Result HttpResponse.t) :=
  send c (NewPostUploadFilesystemSystemNameTransferUploadPostRequest server systemName body).
Definition PostUploadFilesystemSystemNameTransferUploadPostWithResponse (systemName : string) (body : PostFileUploadRequest.t)
    : Prog Net (Result (Response.t UploadFileResponse.t)) :=
  withResponse (PostUploadFilesystemSystemNameTransferUploadPost systemName body)
    ParsePostUploadFilesystemSystemNameTransferUploadPostResponse.

Definition GetLivenessStatusLivenessGet : Prog Net (Result HttpResponse.t) :=
  send c (NewGetLivenessStatusLivenessGetRequest server).
Definition GetLivenessStatusLivenessGetWithResponse : Prog Net (Result (Response.t GetLiveness.t)) :=
  withResponse GetLivenessStatusLivenessGet ParseGetLivenessStatusLivenessGetResponse.

Definition GetSystemNodesStatusSystemNameNodesGet (systemName : string) : Prog Net (Result HttpResponse.t) :=
  send c (NewGetSystemNodesStatusSystemNameNodesGetRequest server systemName).
Definition GetSystemNodesStatusSystemNameNodesGetWithResponse (systemName : string)
    : Prog Net (Result (Response.t (list NodeModel.t))) :=
  withResponse (GetSystemNodesStatusSystemNameNodesGet systemName) ParseGetSystemNodesStatusSystemNameNodesGetResponse.

Definition GetSystemPartitionsStatusSystemNamePartitionsGet (systemName : string) : Prog Net (Result HttpResponse.t) :=
  send c (NewGetSystemPartitionsStatusSystemNamePartitionsGetRequest server systemName).
Definition GetSystemPartitionsStatusSystemNamePartitionsGetWithResponse (systemName : string)
    : Prog Net (Result (Response.t (list PartitionModel.t))) :=
  withResponse (GetSystemPartitionsStatusSystemNamePartitionsGet systemName)
    ParseGetSystemPartitionsStatusSystemNamePartitionsGetResponse.

Definition GetSystemReservationsStatusSystemNameReservationsGet (systemName : string) : Prog Net (Result HttpResponse.t) :=
  send c (NewGetSystemReservationsStatusSystemNameReservationsGetRequest server systemName).
Definition GetSystemReservationsStatusSystemNameReservationsGetWithResponse (systemName : string)
    : Prog Net (Result (Response.t (list ReservationModel.t))) :=
  withResponse (GetSystemReservationsStatusSystemNameReservationsGet systemName)
    ParseGetSystemReservationsStatusSystemNameReservationsGetResponse.

End Methods.
End Operations.
