(* ===== verification/FirecrestApi.v ===== *)
(** * The FirecREST API as documented (internal/remote/firecrest/openapi_spec_downgraded.yaml)

    The endpoints of the document that the client is generated from, the
    operations of the client as one type, indexed by the answer, and a reference
    server that follows the document: it finds the endpoint of a request, checks
    the path, the parameters, the content type and the body against what the
    document declares, and reads the operation back. *)

From S2P Require Import Prelude Prog NetUrl UrlRef Json JsonProps FirecrestScript RemoteAuth Firecrest FirecrestTypes FirecrestClient FirecrestOps.
From Stdlib Require Import Ascii.

(** ** The document *)

(** A segment of a path: a text, or a parameter with its [pattern]. *)
Inductive Segment := Lit (s : string) | Matching (pattern : string → bool).
Notation Var := (Matching (λ _, true)).

(** [^[a-zA-Z0-9]+$], the pattern of the [job_id] *)
Definition alphanumeric (s : string) : bool := (s ≠s "") && Bytes.forallb Bytes.isAlnum s.

Inductive ParamType := Text | Integer | Boolean.

Module Param.
Record t := mk { Name : string; Required : bool; Type_ : ParamType }.
End Param.

(** The schemas of the documents in request bodies.  Members that are not
    declared are allowed, as in the document. *)
Inductive Schema :=
| SString | SBoolean | SInteger
(** [enum], [const] *)
| SEnum (values : list string)
(** an object whose members are strings, an array of strings *)
| SStringMap | SStrings
| SAnyOf (choices : list Schema)
(** the properties by name, with [nullable], and the required ones *)
| SObject (properties : list (string * (bool * Schema))) (required : list string).

Definition isNull (v : json) : bool := match v with JNull => true | _ => false end.
Definition isString (v : json) : bool := match v with JStr _ => true | _ => false end.

Fixpoint validates (schema : Schema) (v : json) : bool :=
  match schema with
  | SString => isString v
  | SBoolean => match v with JBool _ => true | _ => false end
  | SInteger => match v with JNum lit => bool_decide (is_Some (parseInt lit)) | _ => false end
  | SEnum values => match v with JStr s => existsb (String.eqb s) values | _ => false end
  | SStringMap => match v with JObj l => forallb (λ kv, isString kv.2) l | _ => false end
  | SStrings => match v with JArr l => forallb isString l | _ => false end
  | SAnyOf choices => existsb (λ choice, validates choice v) choices
  | SObject properties required =>
      match v with
      | JObj l =>
          forallb (λ kv, forallb (λ '(name, (nullable, schema)),
            (name ≠s kv.1) || (nullable && isNull kv.2) || validates schema kv.2) properties) l &&
          forallb (λ name, existsb (λ kv, kv.1 =s name) l) required
      | _ => false
      end
  end.

Definition property (name : string) (schema : Schema) : string * (bool * Schema) := (name, (false, schema)).
Definition nullableProperty (name : string) (schema : Schema) : string * (bool * Schema) := (name, (true, schema)).

Definition CompressionTypes : list string := ["none"; "bzip2"; "gzip"; "xz"].
Definition S3TransferSchema : Schema :=
  SObject [nullableProperty "fileSize" SInteger; property "transferMethod" (SEnum ["s3"])] ["transferMethod"].
Definition StreamerTransferSchema : Schema := SObject [property "transferMethod" (SEnum ["streamer"])] ["transferMethod"].
Definition WormholeTransferSchema : Schema := SObject [property "transferMethod" (SEnum ["wormhole"])] ["transferMethod"].
Definition WormholeTransferUploadSchema : Schema :=
  SObject [property "transferMethod" (SEnum ["wormhole"]); property "wormholeCode" SString] ["transferMethod"; "wormholeCode"].
Definition DownloadDirectives : Schema := SAnyOf [WormholeTransferSchema; S3TransferSchema; StreamerTransferSchema].
Definition UploadDirectives : Schema := SAnyOf [WormholeTransferUploadSchema; S3TransferSchema; StreamerTransferSchema].
Definition EnvSchema : Schema := SAnyOf [SStringMap; SStrings].

Definition JobDescriptionSchema : Schema := SObject
  [nullableProperty "account" SString; nullableProperty "constraints" SString; property "env" EnvSchema;
   nullableProperty "name" SString; property "script" SString; property "scriptPath" SString;
   nullableProperty "standardError" SString; nullableProperty "standardInput" SString;
   nullableProperty "standardOutput" SString; property "workingDirectory" SString] ["workingDirectory"].
Definition PostJobSubmitSchema : Schema := SObject [property "job" JobDescriptionSchema] ["job"].
Definition PostJobAttachSchema : Schema := SObject [property "command" SString] [].
Definition PutFileChmodSchema : Schema :=
  SObject [property "mode" SString; nullableProperty "sourcePath" SString] ["sourcePath"; "mode"].
Definition PutFileChownSchema : Schema :=
  SObject [property "group" SString; property "owner" SString; nullableProperty "sourcePath" SString] ["sourcePath"].
Definition PostCompressSchema : Schema := SObject
  [property "compression" (SEnum CompressionTypes); property "dereference" SBoolean; nullableProperty "matchPattern" SString;
   nullableProperty "sourcePath" SString; property "targetPath" SString] ["sourcePath"; "targetPath"].
Definition PostExtractSchema : Schema := SObject
  [property "compression" (SEnum CompressionTypes); nullableProperty "sourcePath" SString; property "targetPath" SString]
  ["sourcePath"; "targetPath"].
Definition PostMakeDirSchema : Schema :=
  SObject [property "parent" SBoolean; nullableProperty "sourcePath" SString] ["sourcePath"].
Definition PostFileSymlinkSchema : Schema :=
  SObject [property "linkPath" SString; nullableProperty "sourcePath" SString] ["sourcePath"; "linkPath"].
Definition CompressSchema : Schema := SObject
  [nullableProperty "account" SString; property "compression" (SEnum CompressionTypes); property "dereference" SBoolean;
   nullableProperty "matchPattern" SString; nullableProperty "sourcePath" SString; property "targetPath" SString]
  ["sourcePath"; "targetPath"].
Definition CopySchema : Schema := SObject
  [nullableProperty "account" SString; property "dereference" SBoolean; nullableProperty "sourcePath" SString;
   property "targetPath" SString] ["sourcePath"; "targetPath"].
Definition ExtractSchema : Schema := SObject
  [nullableProperty "account" SString; property "compression" (SEnum CompressionTypes); nullableProperty "sourcePath" SString;
   property "targetPath" SString] ["sourcePath"; "targetPath"].
Definition MoveSchema : Schema := SObject
  [nullableProperty "account" SString; nullableProperty "sourcePath" SString; property "targetPath" SString]
  ["sourcePath"; "targetPath"].
Definition PostFileDownloadSchema : Schema := SObject
  [nullableProperty "account" SString; nullableProperty "sourcePath" SString; property "transferDirectives" DownloadDirectives]
  ["sourcePath"; "transferDirectives"].
Definition PostFileUploadSchema : Schema := SObject
  [nullableProperty "account" SString; nullableProperty "sourcePath" SString; property "transferDirectives" UploadDirectives]
  ["sourcePath"; "transferDirectives"].

(** The content of a request: none, [application/json] with a schema, or
    [multipart/form-data] with a required file. *)
Inductive Content := NoContent | JsonContent (schema : Schema) | FormContent (file : string).

(** [Success] is the status of the answer that is not an error. *)
Module Endpoint.
Record t := mk { Method : string; Path : list Segment; Query : list Param.t; Body : Content; Success : Z }.
End Endpoint.

Inductive OperationId :=
| IdGetJobs | IdPostJobSubmit | IdDeleteJobCancel | IdGetJob | IdAttach | IdGetJobMetadata | IdGetChecksum | IdPutChmod |
  IdPutChown | IdPostCompress | IdGetDownload | IdPostExtract | IdGetFile | IdGetHead | IdGetLs | IdPostMkdir | IdDeleteRm |
  IdGetStat | IdPostSymlink | IdGetTail | IdPostUpload | IdGetView | IdCompress | IdPostCp | IdPostDownload | IdExtract |
  IdMoveMv | IdDeleteRmTransfer | IdPostUploadTransfer | IdGetLiveness | IdGetSystems | IdGetSystemNodes |
  IdGetSystemPartitions | IdGetSystemReservations | IdGetUserinfo.

Definition operations : list OperationId :=
  [IdGetJobs; IdPostJobSubmit; IdDeleteJobCancel; IdGetJob; IdAttach; IdGetJobMetadata; IdGetChecksum; IdPutChmod;
   IdPutChown; IdPostCompress; IdGetDownload; IdPostExtract; IdGetFile; IdGetHead; IdGetLs; IdPostMkdir; IdDeleteRm;
   IdGetStat; IdPostSymlink; IdGetTail; IdPostUpload; IdGetView; IdCompress; IdPostCp; IdPostDownload; IdExtract; IdMoveMv;
   IdDeleteRmTransfer; IdPostUploadTransfer; IdGetLiveness; IdGetSystems; IdGetSystemNodes; IdGetSystemPartitions;
   IdGetSystemReservations; IdGetUserinfo].

Definition endpoint (o : OperationId) : Endpoint.t :=
  match o with
  | IdGetJobs => Endpoint.mk "GET" [Lit "compute"; Var; Lit "jobs"] [Param.mk "allusers" false Boolean; Param.mk "account"
      false Text] NoContent 200
  | IdPostJobSubmit => Endpoint.mk "POST" [Lit "compute"; Var; Lit "jobs"] [] (JsonContent PostJobSubmitSchema) 201
  | IdDeleteJobCancel => Endpoint.mk "DELETE" [Lit "compute"; Var; Lit "jobs"; Matching alphanumeric] [] NoContent 204
  | IdGetJob => Endpoint.mk "GET" [Lit "compute"; Var; Lit "jobs"; Matching alphanumeric] [] NoContent 200
  | IdAttach => Endpoint.mk "PUT" [Lit "compute"; Var; Lit "jobs"; Matching alphanumeric; Lit "attach"] [] (JsonContent PostJobAttachSchema) 204
  | IdGetJobMetadata => Endpoint.mk "GET" [Lit "compute"; Var; Lit "jobs"; Matching alphanumeric; Lit "metadata"] [] NoContent 200
  | IdGetChecksum => Endpoint.mk "GET" [Lit "filesystem"; Var; Lit "ops"; Lit "checksum"] [Param.mk "path" true Text] NoContent
      200
  | IdPutChmod => Endpoint.mk "PUT" [Lit "filesystem"; Var; Lit "ops"; Lit "chmod"] [] (JsonContent PutFileChmodSchema) 200
  | IdPutChown => Endpoint.mk "PUT" [Lit "filesystem"; Var; Lit "ops"; Lit "chown"] [] (JsonContent PutFileChownSchema) 200
  | IdPostCompress => Endpoint.mk "POST" [Lit "filesystem"; Var; Lit "ops"; Lit "compress"] [] (JsonContent PostCompressSchema) 204
  | IdGetDownload => Endpoint.mk "GET" [Lit "filesystem"; Var; Lit "ops"; Lit "download"] [Param.mk "path" true Text] NoContent
      200
  | IdPostExtract => Endpoint.mk "POST" [Lit "filesystem"; Var; Lit "ops"; Lit "extract"] [] (JsonContent PostExtractSchema) 204
  | IdGetFile => Endpoint.mk "GET" [Lit "filesystem"; Var; Lit "ops"; Lit "file"] [Param.mk "path" true Text] NoContent 200
  | IdGetHead => Endpoint.mk "GET" [Lit "filesystem"; Var; Lit "ops"; Lit "head"] [Param.mk "path" true Text; Param.mk
      "bytes" false Integer; Param.mk "lines" false Integer; Param.mk "skipTrailing" false Boolean] NoContent 200
  | IdGetLs => Endpoint.mk "GET" [Lit "filesystem"; Var; Lit "ops"; Lit "ls"] [Param.mk "path" true Text; Param.mk
      "showHidden" false Boolean; Param.mk "numericUid" false Boolean; Param.mk "recursive" false Boolean; Param.mk
      "dereference" false Boolean] NoContent 200
  | IdPostMkdir => Endpoint.mk "POST" [Lit "filesystem"; Var; Lit "ops"; Lit "mkdir"] [] (JsonContent PostMakeDirSchema) 201
  | IdDeleteRm => Endpoint.mk "DELETE" [Lit "filesystem"; Var; Lit "ops"; Lit "rm"] [Param.mk "path" true Text] NoContent 204
  | IdGetStat => Endpoint.mk "GET" [Lit "filesystem"; Var; Lit "ops"; Lit "stat"] [Param.mk "path" true Text; Param.mk
      "dereference" false Boolean] NoContent 200
  | IdPostSymlink => Endpoint.mk "POST" [Lit "filesystem"; Var; Lit "ops"; Lit "symlink"] [] (JsonContent PostFileSymlinkSchema) 201
  | IdGetTail => Endpoint.mk "GET" [Lit "filesystem"; Var; Lit "ops"; Lit "tail"] [Param.mk "path" true Text; Param.mk
      "bytes" false Integer; Param.mk "lines" false Integer; Param.mk "skipHeading" false Boolean] NoContent 200
  | IdPostUpload => Endpoint.mk "POST" [Lit "filesystem"; Var; Lit "ops"; Lit "upload"] [Param.mk "path" true Text] (FormContent "file") 204
  | IdGetView => Endpoint.mk "GET" [Lit "filesystem"; Var; Lit "ops"; Lit "view"] [Param.mk "path" true Text; Param.mk
      "size" false Integer; Param.mk "offset" false Integer] NoContent 200
  | IdCompress => Endpoint.mk "POST" [Lit "filesystem"; Var; Lit "transfer"; Lit "compress"] [] (JsonContent CompressSchema) 201
  | IdPostCp => Endpoint.mk "POST" [Lit "filesystem"; Var; Lit "transfer"; Lit "cp"] [] (JsonContent CopySchema) 201
  | IdPostDownload => Endpoint.mk "POST" [Lit "filesystem"; Var; Lit "transfer"; Lit "download"] [] (JsonContent PostFileDownloadSchema) 201
  | IdExtract => Endpoint.mk "POST" [Lit "filesystem"; Var; Lit "transfer"; Lit "extract"] [] (JsonContent ExtractSchema) 201
  | IdMoveMv => Endpoint.mk "POST" [Lit "filesystem"; Var; Lit "transfer"; Lit "mv"] [] (JsonContent MoveSchema) 201
  | IdDeleteRmTransfer => Endpoint.mk "DELETE" [Lit "filesystem"; Var; Lit "transfer"; Lit "rm"] [Param.mk "path" true Text;
      Param.mk "account" false Text] NoContent 200
  | IdPostUploadTransfer => Endpoint.mk "POST" [Lit "filesystem"; Var; Lit "transfer"; Lit "upload"] [] (JsonContent PostFileUploadSchema) 201
  | IdGetLiveness => Endpoint.mk "GET" [Lit "status"; Lit "liveness"; Lit ""] [] NoContent 200
  | IdGetSystems => Endpoint.mk "GET" [Lit "status"; Lit "systems"] [] NoContent 200
  | IdGetSystemNodes => Endpoint.mk "GET" [Lit "status"; Var; Lit "nodes"] [] NoContent 200
  | IdGetSystemPartitions => Endpoint.mk "GET" [Lit "status"; Var; Lit "partitions"] [] NoContent 200
  | IdGetSystemReservations => Endpoint.mk "GET" [Lit "status"; Var; Lit "reservations"] [] NoContent 200
  | IdGetUserinfo => Endpoint.mk "GET" [Lit "status"; Var; Lit "userinfo"] [] NoContent 200
  end.

(** ** The operations of the client *)

Inductive Operation : Type → Type :=
| OpGetJobs (systemName : string) (params : GetJobsComputeSystemNameJobsGetParams.t) : Operation (option (list string))
| OpPostJobSubmit (systemName : string) (body : JobDescriptionModel.t) : Operation (option string)
| OpDeleteJobCancel (systemName jobId : string) : Operation unit
| OpGetJob (systemName jobId : string) : Operation (option (list string))
| OpAttach (systemName jobId : string) (body : PostJobAttachRequest.t) : Operation unit
| OpGetJobMetadata (systemName jobId : string) : Operation (option (list JobMetadata.t))
| OpGetChecksum (systemName : string) (params : GetChecksumFilesystemSystemNameOpsChecksumGetParams.t) : Operation (option
    FileChecksum.t)
| OpPutChmod (systemName : string) (body : PutFileChmodRequest.t) : Operation unit
| OpPutChown (systemName : string) (body : PutFileChownRequest.t) : Operation (option File.t)
| OpPostCompress (systemName : string) (body : PostCompressRequest.t) : Operation unit
| OpGetDownload (systemName : string) (params : GetDownloadFilesystemSystemNameOpsDownloadGetParams.t) : Operation json
| OpPostExtract (systemName : string) (body : PostExtractRequest.t) : Operation unit
| OpGetFile (systemName : string) (params : GetFileFilesystemSystemNameOpsFileGetParams.t) : Operation (option string)
| OpGetHead (systemName : string) (params : GetHeadFilesystemSystemNameOpsHeadGetParams.t) : Operation (option
    FileContent.t)
| OpGetLs (systemName : string) (params : GetLsFilesystemSystemNameOpsLsGetParams.t) : Operation (option (list File.t))
| OpPostMkdir (systemName : string) (body : PostMakeDirRequest.t) : Operation unit
| OpDeleteRm (systemName : string) (params : DeleteRmFilesystemSystemNameOpsRmDeleteParams.t) : Operation unit
| OpGetStat (systemName : string) (params : GetStatFilesystemSystemNameOpsStatGetParams.t) : Operation (option FileStat.t)
| OpPostSymlink (systemName : string) (body : PostFileSymlinkRequest.t) : Operation (option File.t)
| OpGetTail (systemName : string) (params : GetTailFilesystemSystemNameOpsTailGetParams.t) : Operation (option
    FileContent.t)
| OpPostUpload (systemName : string) (params : PostUploadParams.t) (contentType body : string) : Operation unit
| OpGetView (systemName : string) (params : GetViewParams.t) : Operation (option string)
| OpCompress (systemName : string) (body : CompressRequest.t) : Operation TransferJob.t
| OpPostCp (systemName : string) (body : CopyRequest.t) : Operation TransferJob.t
| OpPostDownload (systemName : string) (body : PostFileDownloadRequest.t) : Operation DownloadFileResponse.t
| OpExtract (systemName : string) (body : ExtractRequest.t) : Operation TransferJob.t
| OpMoveMv (systemName : string) (body : MoveRequest.t) : Operation TransferJob.t
| OpDeleteRmTransfer (systemName : string) (params : DeleteRmFilesystemSystemNameTransferRmDeleteParams.t) : Operation
    TransferJob.t
| OpPostUploadTransfer (systemName : string) (body : PostFileUploadRequest.t) : Operation UploadFileResponse.t
| OpGetLiveness : Operation GetLiveness.t
| OpGetSystems : Operation (list HPCCluster.t)
| OpGetSystemNodes (systemName : string) : Operation (list NodeModel.t)
| OpGetSystemPartitions (systemName : string) : Operation (list PartitionModel.t)
| OpGetSystemReservations (systemName : string) : Operation (list ReservationModel.t)
| OpGetUserinfo (systemName : string) : Operation string.

Definition operationId {R} (op : Operation R) : OperationId :=
  match op with
  | OpGetJobs _ _ => IdGetJobs
  | OpPostJobSubmit _ _ => IdPostJobSubmit
  | OpDeleteJobCancel _ _ => IdDeleteJobCancel
  | OpGetJob _ _ => IdGetJob
  | OpAttach _ _ _ => IdAttach
  | OpGetJobMetadata _ _ => IdGetJobMetadata
  | OpGetChecksum _ _ => IdGetChecksum
  | OpPutChmod _ _ => IdPutChmod
  | OpPutChown _ _ => IdPutChown
  | OpPostCompress _ _ => IdPostCompress
  | OpGetDownload _ _ => IdGetDownload
  | OpPostExtract _ _ => IdPostExtract
  | OpGetFile _ _ => IdGetFile
  | OpGetHead _ _ => IdGetHead
  | OpGetLs _ _ => IdGetLs
  | OpPostMkdir _ _ => IdPostMkdir
  | OpDeleteRm _ _ => IdDeleteRm
  | OpGetStat _ _ => IdGetStat
  | OpPostSymlink _ _ => IdPostSymlink
  | OpGetTail _ _ => IdGetTail
  | OpPostUpload _ _ _ _ => IdPostUpload
  | OpGetView _ _ => IdGetView
  | OpCompress _ _ => IdCompress
  | OpPostCp _ _ => IdPostCp
  | OpPostDownload _ _ => IdPostDownload
  | OpExtract _ _ => IdExtract
  | OpMoveMv _ _ => IdMoveMv
  | OpDeleteRmTransfer _ _ => IdDeleteRmTransfer
  | OpPostUploadTransfer _ _ => IdPostUploadTransfer
  | OpGetLiveness => IdGetLiveness
  | OpGetSystems => IdGetSystems
  | OpGetSystemNodes _ => IdGetSystemNodes
  | OpGetSystemPartitions _ => IdGetSystemPartitions
  | OpGetSystemReservations _ => IdGetSystemReservations
  | OpGetUserinfo _ => IdGetUserinfo
  end.

(** [PostJobSubmitRequest] *)
Definition submitRequest (job : JobDescriptionModel.t) : json := JObj (member_ "job" job).

Section Client.
Context `{OapiRuntime}.

Definition requestOf {R} (server : string) (op : Operation R) : Result HttpRequest.t :=
  match op with
  | OpGetJobs systemName params => NewGetJobsComputeSystemNameJobsGetRequest server systemName (Some params)
  | OpPostJobSubmit systemName body => NewPostJobSubmitComputeSystemNameJobsPostRequest server systemName (submitRequest
      body)
  | OpDeleteJobCancel systemName jobId => NewDeleteJobCancelComputeSystemNameJobsJobIdDeleteRequest server systemName jobId
  | OpGetJob systemName jobId => NewGetJobComputeSystemNameJobsJobIdGetRequest server systemName jobId
  | OpAttach systemName jobId body => NewAttachComputeSystemNameJobsJobIdAttachPutRequest server systemName jobId body
  | OpGetJobMetadata systemName jobId => NewGetJobMetadataComputeSystemNameJobsJobIdMetadataGetRequest server systemName
      jobId
  | OpGetChecksum systemName params => NewGetChecksumFilesystemSystemNameOpsChecksumGetRequest server systemName (Some
      params)
  | OpPutChmod systemName body => NewPutChmodFilesystemSystemNameOpsChmodPutRequest server systemName (marshal body)
  | OpPutChown systemName body => NewPutChownFilesystemSystemNameOpsChownPutRequest server systemName body
  | OpPostCompress systemName body => NewPostCompressFilesystemSystemNameOpsCompressPostRequest server systemName body
  | OpGetDownload systemName params => NewGetDownloadFilesystemSystemNameOpsDownloadGetRequest server systemName (Some
      params)
  | OpPostExtract systemName body => NewPostExtractFilesystemSystemNameOpsExtractPostRequest server systemName body
  | OpGetFile systemName params => NewGetFileFilesystemSystemNameOpsFileGetRequest server systemName (Some params)
  | OpGetHead systemName params => NewGetHeadFilesystemSystemNameOpsHeadGetRequest server systemName (Some params)
  | OpGetLs systemName params => NewGetLsFilesystemSystemNameOpsLsGetRequest server systemName (Some params)
  | OpPostMkdir systemName body => NewPostMkdirFilesystemSystemNameOpsMkdirPostRequest server systemName (marshal body)
  | OpDeleteRm systemName params => NewDeleteRmFilesystemSystemNameOpsRmDeleteRequest server systemName (Some params)
  | OpGetStat systemName params => NewGetStatFilesystemSystemNameOpsStatGetRequest server systemName (Some params)
  | OpPostSymlink systemName body => NewPostSymlinkFilesystemSystemNameOpsSymlinkPostRequest server systemName body
  | OpGetTail systemName params => NewGetTailFilesystemSystemNameOpsTailGetRequest server systemName (Some params)
  | OpPostUpload systemName params contentType body => NewPostUploadFilesystemSystemNameOpsUploadPostRequestWithBody server
      systemName (Some params) contentType body
  | OpGetView systemName params => NewGetViewFilesystemSystemNameOpsViewGetRequest server systemName (Some params)
  | OpCompress systemName body => NewCompressFilesystemSystemNameTransferCompressPostRequest server systemName body
  | OpPostCp systemName body => NewPostCpFilesystemSystemNameTransferCpPostRequest server systemName body
  | OpPostDownload systemName body => NewPostDownloadFilesystemSystemNameTransferDownloadPostRequest server systemName body
  | OpExtract systemName body => NewExtractFilesystemSystemNameTransferExtractPostRequest server systemName body
  | OpMoveMv systemName body => NewMoveMvFilesystemSystemNameTransferMvPostRequest server systemName body
  | OpDeleteRmTransfer systemName params => NewDeleteRmFilesystemSystemNameTransferRmDeleteRequest server systemName (Some
      params)
  | OpPostUploadTransfer systemName body => NewPostUploadFilesystemSystemNameTransferUploadPostRequest server systemName
      body
  | OpGetLiveness => NewGetLivenessStatusLivenessGetRequest server
  | OpGetSystems => NewGetSystemsStatusSystemsGetRequest server
  | OpGetSystemNodes systemName => NewGetSystemNodesStatusSystemNameNodesGetRequest server systemName
  | OpGetSystemPartitions systemName => NewGetSystemPartitionsStatusSystemNamePartitionsGetRequest server systemName
  | OpGetSystemReservations systemName => NewGetSystemReservationsStatusSystemNameReservationsGetRequest server systemName
  | OpGetUserinfo systemName => NewGetUserinfoStatusSystemNameUserinfoGetRequest server systemName
  end.

Definition callOf {R} (c : Client.t) (op : Operation R) : Prog Net (Result (Response.t R)) :=
  match op with
  | OpGetJobs systemName params => GetJobsComputeSystemNameJobsGetWithResponse c systemName (Some params)
  | OpPostJobSubmit systemName body => PostJobSubmitComputeSystemNameJobsPostWithResponse c systemName (submitRequest body)
  | OpDeleteJobCancel systemName jobId => DeleteJobCancelComputeSystemNameJobsJobIdDeleteWithResponse c systemName jobId
  | OpGetJob systemName jobId => GetJobComputeSystemNameJobsJobIdGetWithResponse c systemName jobId
  | OpAttach systemName jobId body => AttachComputeSystemNameJobsJobIdAttachPutWithResponse c systemName jobId body
  | OpGetJobMetadata systemName jobId => GetJobMetadataComputeSystemNameJobsJobIdMetadataGetWithResponse c systemName jobId
  | OpGetChecksum systemName params => GetChecksumFilesystemSystemNameOpsChecksumGetWithResponse c systemName (Some params)
  | OpPutChmod systemName body => PutChmodFilesystemSystemNameOpsChmodPutWithResponse c systemName (marshal body)
  | OpPutChown systemName body => PutChownFilesystemSystemNameOpsChownPutWithResponse c systemName body
  | OpPostCompress systemName body => PostCompressFilesystemSystemNameOpsCompressPostWithResponse c systemName body
  | OpGetDownload systemName params => GetDownloadFilesystemSystemNameOpsDownloadGetWithResponse c systemName (Some params)
  | OpPostExtract systemName body => PostExtractFilesystemSystemNameOpsExtractPostWithResponse c systemName body
  | OpGetFile systemName params => GetFileFilesystemSystemNameOpsFileGetWithResponse c systemName (Some params)
  | OpGetHead systemName params => GetHeadFilesystemSystemNameOpsHeadGetWithResponse c systemName (Some params)
  | OpGetLs systemName params => GetLsFilesystemSystemNameOpsLsGetWithResponse c systemName (Some params)
  | OpPostMkdir systemName body => PostMkdirFilesystemSystemNameOpsMkdirPostWithResponse c systemName (marshal body)
  | OpDeleteRm systemName params => DeleteRmFilesystemSystemNameOpsRmDeleteWithResponse c systemName (Some params)
  | OpGetStat systemName params => GetStatFilesystemSystemNameOpsStatGetWithResponse c systemName (Some params)
  | OpPostSymlink systemName body => PostSymlinkFilesystemSystemNameOpsSymlinkPostWithResponse c systemName body
  | OpGetTail systemName params => GetTailFilesystemSystemNameOpsTailGetWithResponse c systemName (Some params)
  | OpPostUpload systemName params contentType body => PostUploadFilesystemSystemNameOpsUploadPostWithBodyWithResponse c
      systemName (Some params) contentType body
  | OpGetView systemName params => GetViewFilesystemSystemNameOpsViewGetWithResponse c systemName (Some params)
  | OpCompress systemName body => CompressFilesystemSystemNameTransferCompressPostWithResponse c systemName body
  | OpPostCp systemName body => PostCpFilesystemSystemNameTransferCpPostWithResponse c systemName body
  | OpPostDownload systemName body => PostDownloadFilesystemSystemNameTransferDownloadPostWithResponse c systemName body
  | OpExtract systemName body => ExtractFilesystemSystemNameTransferExtractPostWithResponse c systemName body
  | OpMoveMv systemName body => MoveMvFilesystemSystemNameTransferMvPostWithResponse c systemName body
  | OpDeleteRmTransfer systemName params => DeleteRmFilesystemSystemNameTransferRmDeleteWithResponse c systemName (Some
      params)
  | OpPostUploadTransfer systemName body => PostUploadFilesystemSystemNameTransferUploadPostWithResponse c systemName body
  | OpGetLiveness => GetLivenessStatusLivenessGetWithResponse c
  | OpGetSystems => GetSystemsStatusSystemsGetWithResponse c
  | OpGetSystemNodes systemName => GetSystemNodesStatusSystemNameNodesGetWithResponse c systemName
  | OpGetSystemPartitions systemName => GetSystemPartitionsStatusSystemNamePartitionsGetWithResponse c systemName
  | OpGetSystemReservations systemName => GetSystemReservationsStatusSystemNameReservationsGetWithResponse c systemName
  | OpGetUserinfo systemName => GetUserinfoStatusSystemNameUserinfoGetWithResponse c systemName
  end.
End Client.

Definition parserOf {R} (op : Operation R) : HttpResponse.t → Result (Response.t R) :=
  match op with
  | OpGetJobs _ _ => ParseGetJobsComputeSystemNameJobsGetResponse
  | OpPostJobSubmit _ _ => ParsePostJobSubmitComputeSystemNameJobsPostResponse
  | OpDeleteJobCancel _ _ => ParseDeleteJobCancelComputeSystemNameJobsJobIdDeleteResponse
  | OpGetJob _ _ => ParseGetJobComputeSystemNameJobsJobIdGetResponse
  | OpAttach _ _ _ => ParseAttachComputeSystemNameJobsJobIdAttachPutResponse
  | OpGetJobMetadata _ _ => ParseGetJobMetadataComputeSystemNameJobsJobIdMetadataGetResponse
  | OpGetChecksum _ _ => ParseGetChecksumFilesystemSystemNameOpsChecksumGetResponse
  | OpPutChmod _ _ => ParsePutChmodFilesystemSystemNameOpsChmodPutResponse
  | OpPutChown _ _ => ParsePutChownFilesystemSystemNameOpsChownPutResponse
  | OpPostCompress _ _ => ParsePostCompressFilesystemSystemNameOpsCompressPostResponse
  | OpGetDownload _ _ => ParseGetDownloadFilesystemSystemNameOpsDownloadGetResponse
  | OpPostExtract _ _ => ParsePostExtractFilesystemSystemNameOpsExtractPostResponse
  | OpGetFile _ _ => ParseGetFileFilesystemSystemNameOpsFileGetResponse
  | OpGetHead _ _ => ParseGetHeadFilesystemSystemNameOpsHeadGetResponse
  | OpGetLs _ _ => ParseGetLsFilesystemSystemNameOpsLsGetResponse
  | OpPostMkdir _ _ => ParsePostMkdirFilesystemSystemNameOpsMkdirPostResponse
  | OpDeleteRm _ _ => ParseDeleteRmFilesystemSystemNameOpsRmDeleteResponse
  | OpGetStat _ _ => ParseGetStatFilesystemSystemNameOpsStatGetResponse
  | OpPostSymlink _ _ => ParsePostSymlinkFilesystemSystemNameOpsSymlinkPostResponse
  | OpGetTail _ _ => ParseGetTailFilesystemSystemNameOpsTailGetResponse
  | OpPostUpload _ _ _ _ => ParsePostUploadFilesystemSystemNameOpsUploadPostResponse
  | OpGetView _ _ => ParseGetViewFilesystemSystemNameOpsViewGetResponse
  | OpCompress _ _ => ParseCompressFilesystemSystemNameTransferCompressPostResponse
  | OpPostCp _ _ => ParsePostCpFilesystemSystemNameTransferCpPostResponse
  | OpPostDownload _ _ => ParsePostDownloadFilesystemSystemNameTransferDownloadPostResponse
  | OpExtract _ _ => ParseExtractFilesystemSystemNameTransferExtractPostResponse
  | OpMoveMv _ _ => ParseMoveMvFilesystemSystemNameTransferMvPostResponse
  | OpDeleteRmTransfer _ _ => ParseDeleteRmFilesystemSystemNameTransferRmDeleteResponse
  | OpPostUploadTransfer _ _ => ParsePostUploadFilesystemSystemNameTransferUploadPostResponse
  | OpGetLiveness => ParseGetLivenessStatusLivenessGetResponse
  | OpGetSystems => ParseGetSystemsStatusSystemsGetResponse
  | OpGetSystemNodes _ => ParseGetSystemNodesStatusSystemNameNodesGetResponse
  | OpGetSystemPartitions _ => ParseGetSystemPartitionsStatusSystemNamePartitionsGetResponse
  | OpGetSystemReservations _ => ParseGetSystemReservationsStatusSystemNameReservationsGetResponse
  | OpGetUserinfo _ => ParseGetUserinfoStatusSystemNameUserinfoGetResponse
  end.

(** The schema of the answer; none for an answer without a body. *)
Definition schemaOf {R} (op : Operation R) : option (string → Result R) :=
  match op with
  | OpGetJobs _ _ => Some (Unmarshal decodeJobs None)
  | OpPostJobSubmit _ _ => Some (Unmarshal decodeSubmission None)
  | OpDeleteJobCancel _ _ => None
  | OpGetJob _ _ => Some (Unmarshal decodeJobs None)
  | OpAttach _ _ _ => None
  | OpGetJobMetadata _ _ => Some (Unmarshal decodeJobMetadata None)
  | OpGetChecksum _ _ => Some (Unmarshal decodeGetFileChecksumResponse None)
  | OpPutChmod _ _ => Some (Unmarshal decodeFileResponse tt)
  | OpPutChown _ _ => Some (Unmarshal decodePutFileChownResponse None)
  | OpPostCompress _ _ => None
  | OpGetDownload _ _ => Some (Unmarshal decodeUnion JNull)
  | OpPostExtract _ _ => None
  | OpGetFile _ _ => Some (Unmarshal decodeGetFileTypeResponse None)
  | OpGetHead _ _ => Some (Unmarshal decodeGetFileHeadResponse None)
  | OpGetLs _ _ => Some (Unmarshal decodeGetDirectoryLsResponse None)
  | OpPostMkdir _ _ => Some (Unmarshal decodeFileResponse tt)
  | OpDeleteRm _ _ => None
  | OpGetStat _ _ => Some (Unmarshal decodeGetFileStatResponse None)
  | OpPostSymlink _ _ => Some (Unmarshal decodePostFileSymlinkResponse None)
  | OpGetTail _ _ => Some (Unmarshal decodeGetFileTailResponse None)
  | OpPostUpload _ _ _ _ => None
  | OpGetView _ _ => Some (Unmarshal decodeView None)
  | OpCompress _ _ => Some (Unmarshal decodeCompressResponse TransferJob.zero)
  | OpPostCp _ _ => Some (Unmarshal decodeCopyResponse TransferJob.zero)
  | OpPostDownload _ _ => Some (Unmarshal DownloadFileResponse.decode DownloadFileResponse.zero)
  | OpExtract _ _ => Some (Unmarshal decodeExtractResponse TransferJob.zero)
  | OpMoveMv _ _ => Some (Unmarshal decodeMoveResponse TransferJob.zero)
  | OpDeleteRmTransfer _ _ => Some (Unmarshal decodeDeleteResponse TransferJob.zero)
  | OpPostUploadTransfer _ _ => Some (Unmarshal UploadFileResponse.decode UploadFileResponse.zero)
  | OpGetLiveness => Some (Unmarshal GetLiveness.decode GetLiveness.zero)
  | OpGetSystems => Some (Unmarshal decodeSystems [])
  | OpGetSystemNodes _ => Some (Unmarshal decodeGetNodesResponse [])
  | OpGetSystemPartitions _ => Some (Unmarshal decodeGetPartitionsResponse [])
  | OpGetSystemReservations _ => Some (Unmarshal decodeGetReservationsResponse [])
  | OpGetUserinfo _ => Some (Unmarshal decodeUserInfo "")
  end.

(** ** Parameters in a query *)

(** What the parameters of an operation are in a query, and how they are read. *)
Class QueryParams (P : Type) := {
  values : P → list (string * string);
  readParams : list (string * string) → option P }.

Definition showBool (b : bool) : string := if b then "true" else "false".
Definition readBool (s : string) : option bool :=
  if s =s "true" then Some true else if s =s "false" then Some false else None.

Definition optionalValue {A} (name : string) (show : A → string) (a : option A) : list (string * string) :=
  match a with Some a => [(name, show a)] | None => [] end.
Definition lookupParam (name : string) (q : list (string * string)) : option string := snd <$> find (λ kv, kv.1 =s name) q.
Definition readOptional {A} (read : string → option A) (name : string) (q : list (string * string)) : option (option A) :=
  match lookupParam name q with None => Some None | Some s => Some <$> read s end.

#[export] Instance getJobsParams : QueryParams GetJobsComputeSystemNameJobsGetParams.t := {|
  values p :=
    optionalValue "allusers" showBool (GetJobsComputeSystemNameJobsGetParams.Allusers p) ++
    optionalValue "account" id (GetJobsComputeSystemNameJobsGetParams.Account p);
  readParams q :=
    allusers ← readOptional readBool "allusers" q;
    account ← readOptional Some "account" q;
    Some (GetJobsComputeSystemNameJobsGetParams.mk allusers account) |}.

#[export] Instance getChecksumParams : QueryParams GetChecksumFilesystemSystemNameOpsChecksumGetParams.t := {|
  values p :=
    [("path", GetChecksumFilesystemSystemNameOpsChecksumGetParams.Path p)];
  readParams q :=
    path ← lookupParam "path" q;
    Some (GetChecksumFilesystemSystemNameOpsChecksumGetParams.mk path) |}.

#[export] Instance getDownloadParams : QueryParams GetDownloadFilesystemSystemNameOpsDownloadGetParams.t := {|
  values p :=
    [("path", GetDownloadFilesystemSystemNameOpsDownloadGetParams.Path p)];
  readParams q :=
    path ← lookupParam "path" q;
    Some (GetDownloadFilesystemSystemNameOpsDownloadGetParams.mk path) |}.

#[export] Instance getFileParams : QueryParams GetFileFilesystemSystemNameOpsFileGetParams.t := {|
  values p :=
    [("path", GetFileFilesystemSystemNameOpsFileGetParams.Path p)];
  readParams q :=
    path ← lookupParam "path" q;
    Some (GetFileFilesystemSystemNameOpsFileGetParams.mk path) |}.

#[export] Instance getHeadParams : QueryParams GetHeadFilesystemSystemNameOpsHeadGetParams.t := {|
  values p :=
    [("path", GetHeadFilesystemSystemNameOpsHeadGetParams.Path p)] ++
    optionalValue "bytes" pretty (GetHeadFilesystemSystemNameOpsHeadGetParams.Bytes p) ++
    optionalValue "lines" pretty (GetHeadFilesystemSystemNameOpsHeadGetParams.Lines p) ++
    optionalValue "skipTrailing" showBool (GetHeadFilesystemSystemNameOpsHeadGetParams.SkipTrailing p);
  readParams q :=
    path ← lookupParam "path" q;
    bytes ← readOptional parseInt "bytes" q;
    lines ← readOptional parseInt "lines" q;
    skipTrailing ← readOptional readBool "skipTrailing" q;
    Some (GetHeadFilesystemSystemNameOpsHeadGetParams.mk path bytes lines skipTrailing) |}.

#[export] Instance getLsParams : QueryParams GetLsFilesystemSystemNameOpsLsGetParams.t := {|
  values p :=
    [("path", GetLsFilesystemSystemNameOpsLsGetParams.Path p)] ++
    optionalValue "showHidden" showBool (GetLsFilesystemSystemNameOpsLsGetParams.ShowHidden p) ++
    optionalValue "numericUid" showBool (GetLsFilesystemSystemNameOpsLsGetParams.NumericUid p) ++
    optionalValue "recursive" showBool (GetLsFilesystemSystemNameOpsLsGetParams.Recursive p) ++
    optionalValue "dereference" showBool (GetLsFilesystemSystemNameOpsLsGetParams.Dereference p);
  readParams q :=
    path ← lookupParam "path" q;
    showHidden ← readOptional readBool "showHidden" q;
    numericUid ← readOptional readBool "numericUid" q;
    recursive ← readOptional readBool "recursive" q;
    dereference ← readOptional readBool "dereference" q;
    Some (GetLsFilesystemSystemNameOpsLsGetParams.mk path showHidden numericUid recursive dereference) |}.

#[export] Instance deleteRmParams : QueryParams DeleteRmFilesystemSystemNameOpsRmDeleteParams.t := {|
  values p :=
    [("path", DeleteRmFilesystemSystemNameOpsRmDeleteParams.Path p)];
  readParams q :=
    path ← lookupParam "path" q;
    Some (DeleteRmFilesystemSystemNameOpsRmDeleteParams.mk path) |}.

#[export] Instance getStatParams : QueryParams GetStatFilesystemSystemNameOpsStatGetParams.t := {|
  values p :=
    [("path", GetStatFilesystemSystemNameOpsStatGetParams.Path p)] ++
    optionalValue "dereference" showBool (GetStatFilesystemSystemNameOpsStatGetParams.Dereference p);
  readParams q :=
    path ← lookupParam "path" q;
    dereference ← readOptional readBool "dereference" q;
    Some (GetStatFilesystemSystemNameOpsStatGetParams.mk path dereference) |}.

#[export] Instance getTailParams : QueryParams GetTailFilesystemSystemNameOpsTailGetParams.t := {|
  values p :=
    [("path", GetTailFilesystemSystemNameOpsTailGetParams.Path p)] ++
    optionalValue "bytes" pretty (GetTailFilesystemSystemNameOpsTailGetParams.Bytes p) ++
    optionalValue "lines" pretty (GetTailFilesystemSystemNameOpsTailGetParams.Lines p) ++
    optionalValue "skipHeading" showBool (GetTailFilesystemSystemNameOpsTailGetParams.SkipHeading p);
  readParams q :=
    path ← lookupParam "path" q;
    bytes ← readOptional parseInt "bytes" q;
    lines ← readOptional parseInt "lines" q;
    skipHeading ← readOptional readBool "skipHeading" q;
    Some (GetTailFilesystemSystemNameOpsTailGetParams.mk path bytes lines skipHeading) |}.

#[export] Instance postUploadParams : QueryParams PostUploadParams.t := {|
  values p :=
    [("path", PostUploadParams.Path p)];
  readParams q :=
    path ← lookupParam "path" q;
    Some (PostUploadParams.mk path) |}.

#[export] Instance getViewParams : QueryParams GetViewParams.t := {|
  values p :=
    [("path", GetViewParams.Path p)] ++
    optionalValue "size" pretty (GetViewParams.Size p) ++
    optionalValue "offset" pretty (GetViewParams.Offset p);
  readParams q :=
    path ← lookupParam "path" q;
    size ← readOptional parseInt "size" q;
    offset ← readOptional parseInt "offset" q;
    Some (GetViewParams.mk path size offset) |}.

#[export] Instance deleteRmTransferParams : QueryParams DeleteRmFilesystemSystemNameTransferRmDeleteParams.t := {|
  values p :=
    [("path", DeleteRmFilesystemSystemNameTransferRmDeleteParams.Path p)] ++
    optionalValue "account" id (DeleteRmFilesystemSystemNameTransferRmDeleteParams.Account p);
  readParams q :=
    path ← lookupParam "path" q;
    account ← readOptional Some "account" q;
    Some (DeleteRmFilesystemSystemNameTransferRmDeleteParams.mk path account) |}.

(** What an operation is on the wire: the values in the path, the query, and the
    body with its type. *)
Definition segmentsOf {R} (op : Operation R) : list string :=
  match op with
  | OpGetJobs systemName _ => [systemName]
  | OpPostJobSubmit systemName _ => [systemName]
  | OpDeleteJobCancel systemName jobId => [systemName; jobId]
  | OpGetJob systemName jobId => [systemName; jobId]
  | OpAttach systemName jobId _ => [systemName; jobId]
  | OpGetJobMetadata systemName jobId => [systemName; jobId]
  | OpGetChecksum systemName _ => [systemName]
  | OpPutChmod systemName _ => [systemName]
  | OpPutChown systemName _ => [systemName]
  | OpPostCompress systemName _ => [systemName]
  | OpGetDownload systemName _ => [systemName]
  | OpPostExtract systemName _ => [systemName]
  | OpGetFile systemName _ => [systemName]
  | OpGetHead systemName _ => [systemName]
  | OpGetLs systemName _ => [systemName]
  | OpPostMkdir systemName _ => [systemName]
  | OpDeleteRm systemName _ => [systemName]
  | OpGetStat systemName _ => [systemName]
  | OpPostSymlink systemName _ => [systemName]
  | OpGetTail systemName _ => [systemName]
  | OpPostUpload systemName _ _ _ => [systemName]
  | OpGetView systemName _ => [systemName]
  | OpCompress systemName _ => [systemName]
  | OpPostCp systemName _ => [systemName]
  | OpPostDownload systemName _ => [systemName]
  | OpExtract systemName _ => [systemName]
  | OpMoveMv systemName _ => [systemName]
  | OpDeleteRmTransfer systemName _ => [systemName]
  | OpPostUploadTransfer systemName _ => [systemName]
  | OpGetLiveness => []
  | OpGetSystems => []
  | OpGetSystemNodes systemName => [systemName]
  | OpGetSystemPartitions systemName => [systemName]
  | OpGetSystemReservations systemName => [systemName]
  | OpGetUserinfo systemName => [systemName]
  end.

Definition queryOf {R} (op : Operation R) : list (string * string) :=
  match op with
  | OpGetJobs _ params => values params
  | OpGetChecksum _ params => values params
  | OpGetDownload _ params => values params
  | OpGetFile _ params => values params
  | OpGetHead _ params => values params
  | OpGetLs _ params => values params
  | OpDeleteRm _ params => values params
  | OpGetStat _ params => values params
  | OpGetTail _ params => values params
  | OpPostUpload _ params _ _ => values params
  | OpGetView _ params => values params
  | OpDeleteRmTransfer _ params => values params
  | _ => []
  end.

Definition contentOf {R} (op : Operation R) : string * string :=
  match op with
  | OpPostJobSubmit _ body => (jsonType, print (submitRequest body))
  | OpAttach _ _ body => (jsonType, Marshal body)
  | OpPutChmod _ body => (jsonType, Marshal body)
  | OpPutChown _ body => (jsonType, Marshal body)
  | OpPostCompress _ body => (jsonType, Marshal body)
  | OpPostExtract _ body => (jsonType, Marshal body)
  | OpPostMkdir _ body => (jsonType, Marshal body)
  | OpPostSymlink _ body => (jsonType, Marshal body)
  | OpPostUpload _ _ contentType body => (contentType, body)
  | OpCompress _ body => (jsonType, Marshal body)
  | OpPostCp _ body => (jsonType, Marshal body)
  | OpPostDownload _ body => (jsonType, Marshal body)
  | OpExtract _ body => (jsonType, Marshal body)
  | OpMoveMv _ body => (jsonType, Marshal body)
  | OpPostUploadTransfer _ body => (jsonType, Marshal body)
  | _ => ("", "")
  end.

Definition compressionType (c : option string) : Prop := ∀ s, c = Some s → s ∈ CompressionTypes.

(** The first part of a form is the file of a field. *)
Definition formFile (field contentType body : string) : bool :=
  let '(boundary, isForm) := Strings.CutPrefix contentType "multipart/form-data; boundary=" in
  isForm && Strings.HasPrefix body
    ("--" +:+ boundary +:+ crlf +:+ "Content-Disposition: form-data; name=" +:+ Strings.dquote +:+ field +:+ Strings.dquote).

(** Bodies that the document allows: values that JSON can represent, compressions
    among the documented ones, an environment and transfer directives of the
    documented forms, and a form with a file for an upload. *)
Definition validBody {R} (op : Operation R) : Prop :=
  match op with
  | OpPostJobSubmit _ body =>
      representable body ∧ ∀ env, JobDescriptionModel.Env body = Some env → validates EnvSchema env = true
  | OpAttach _ _ body => representable body
  | OpPutChmod _ body => representable body
  | OpPutChown _ body => representable body
  | OpPostCompress _ body => representable body ∧ compressionType (PostCompressRequest.Compression body)
  | OpPostExtract _ body => representable body ∧ compressionType (PostExtractRequest.Compression body)
  | OpPostMkdir _ body => representable body
  | OpPostSymlink _ body => representable body
  | OpPostUpload _ _ contentType body => formFile "file" contentType body = true
  | OpCompress _ body => representable body ∧ compressionType (CompressRequest.Compression body)
  | OpPostCp _ body => representable body
  | OpPostDownload _ body =>
      representable body ∧ validates DownloadDirectives (PostFileDownloadRequest.TransferDirectives body) = true
  | OpExtract _ body => representable body ∧ compressionType (ExtractRequest.Compression body)
  | OpMoveMv _ body => representable body
  | OpPostUploadTransfer _ body =>
      representable body ∧ validates UploadDirectives (PostFileUploadRequest.TransferDirectives body) = true
  | _ => True
  end.

(** ** The reference server *)

(** A parameter takes one segment that is not empty and matches its pattern. *)
Fixpoint matchPath (template : list Segment) (segs : list string) : option (list string) :=
  match template, segs with
  | [], [] => Some []
  | Lit s :: template, e :: segs => if e =s s then matchPath template segs else None
  | Matching pattern :: template, e :: segs =>
      value ← unescape e encodePath;
      if (value =s "") || negb (pattern value) then None else values ← matchPath template segs; Some (value :: values)
  | _, _ => None
  end.

Fixpoint firstMatch (ids : list OperationId) (method : string) (segs : list string) : option (OperationId * list string) :=
  match ids with
  | [] => None
  | o :: ids =>
      let e := endpoint o in
      match (if Endpoint.Method e =s method then matchPath (Endpoint.Path e) segs else None) with
      | Some values => Some (o, values)
      | None => firstMatch ids method segs
      end
  end.
Definition route : string → list string → option (OperationId * list string) := firstMatch operations.

(** The parameters are declared and of their types, and none that is required
    is missing. *)
Definition hasType (ty : ParamType) (value : string) : bool :=
  match ty with
  | Text => true
  | Integer => bool_decide (is_Some (parseInt value))
  | Boolean => (value =s "true") || (value =s "false")
  end.
Definition accepts (declared : list Param.t) (q : list (string * string)) : bool :=
  forallb (λ kv, existsb (λ p, (Param.Name p =s kv.1) && hasType (Param.Type_ p) kv.2) declared) q &&
  forallb (λ p, negb (Param.Required p) || existsb (λ kv, kv.1 =s Param.Name p) q) declared.

(** [http.Request.URL.Query()] of the text of a query *)
Definition parseQuery (query : string) : list (string * string) := omap queryEntry (splitByte "&"%char query).

Definition readJson {A} `{JsonCodec A} (contentType body : string) : option A :=
  if contentType =s jsonType then match Unmarshal decode zeroValue body with inl a => Some a | inr _ => None end else None.

Definition decodeSubmit : Decoder JobDescriptionModel.t := decodeStruct (λ name, if name =s "job" then Some decode else None).
Definition readSubmit (contentType body : string) : option JobDescriptionModel.t :=
  if contentType =s jsonType
  then match Unmarshal decodeSubmit zeroValue body with inl a => Some a | inr _ => None end else None.

Definition known {R} (op : Operation R) : option {R & Operation R} := Some (existT R op).
Definition noSegment {A} (path : list string) (r : option A) : option A := match path with [] => r | _ => None end.
Definition oneSegment {A} (path : list string) (f : string → option A) : option A := match path with [a] => f a | _ => None end.
Definition twoSegments {A} (path : list string) (f : string → string → option A) : option A :=
  match path with [a; b] => f a b | _ => None end.

(** The operation from the values in the path, the query and the body. *)
Definition readOperation (o : OperationId) (path : list string) (q : list (string * string)) (contentType body : string)
    : option {R & Operation R} :=
  match o with
  | IdGetJobs => oneSegment path (λ systemName, params ← readParams (P := GetJobsComputeSystemNameJobsGetParams.t) q; known
      (OpGetJobs systemName params))
  | IdPostJobSubmit => oneSegment path (λ systemName, body ← readSubmit contentType body; known (OpPostJobSubmit systemName
      body))
  | IdDeleteJobCancel => twoSegments path (λ systemName jobId, known (OpDeleteJobCancel systemName jobId))
  | IdGetJob => twoSegments path (λ systemName jobId, known (OpGetJob systemName jobId))
  | IdAttach => twoSegments path (λ systemName jobId, body ← readJson (A := PostJobAttachRequest.t) contentType body; known
      (OpAttach systemName jobId body))
  | IdGetJobMetadata => twoSegments path (λ systemName jobId, known (OpGetJobMetadata systemName jobId))
  | IdGetChecksum => oneSegment path (λ systemName, params ← readParams (P :=
      GetChecksumFilesystemSystemNameOpsChecksumGetParams.t) q; known (OpGetChecksum systemName params))
  | IdPutChmod => oneSegment path (λ systemName, body ← readJson (A := PutFileChmodRequest.t) contentType body; known
      (OpPutChmod systemName body))
  | IdPutChown => oneSegment path (λ systemName, body ← readJson (A := PutFileChownRequest.t) contentType body; known
      (OpPutChown systemName body))
  | IdPostCompress => oneSegment path (λ systemName, body ← readJson (A := PostCompressRequest.t) contentType body; known
      (OpPostCompress systemName body))
  | IdGetDownload => oneSegment path (λ systemName, params ← readParams (P :=
      GetDownloadFilesystemSystemNameOpsDownloadGetParams.t) q; known (OpGetDownload systemName params))
  | IdPostExtract => oneSegment path (λ systemName, body ← readJson (A := PostExtractRequest.t) contentType body; known
      (OpPostExtract systemName body))
  | IdGetFile => oneSegment path (λ systemName, params ← readParams (P := GetFileFilesystemSystemNameOpsFileGetParams.t) q;
      known (OpGetFile systemName params))
  | IdGetHead => oneSegment path (λ systemName, params ← readParams (P := GetHeadFilesystemSystemNameOpsHeadGetParams.t) q;
      known (OpGetHead systemName params))
  | IdGetLs => oneSegment path (λ systemName, params ← readParams (P := GetLsFilesystemSystemNameOpsLsGetParams.t) q; known
      (OpGetLs systemName params))
  | IdPostMkdir => oneSegment path (λ systemName, body ← readJson (A := PostMakeDirRequest.t) contentType body; known
      (OpPostMkdir systemName body))
  | IdDeleteRm => oneSegment path (λ systemName, params ← readParams (P := DeleteRmFilesystemSystemNameOpsRmDeleteParams.t)
      q; known (OpDeleteRm systemName params))
  | IdGetStat => oneSegment path (λ systemName, params ← readParams (P := GetStatFilesystemSystemNameOpsStatGetParams.t) q;
      known (OpGetStat systemName params))
  | IdPostSymlink => oneSegment path (λ systemName, body ← readJson (A := PostFileSymlinkRequest.t) contentType body; known
      (OpPostSymlink systemName body))
  | IdGetTail => oneSegment path (λ systemName, params ← readParams (P := GetTailFilesystemSystemNameOpsTailGetParams.t) q;
      known (OpGetTail systemName params))
  | IdPostUpload => oneSegment path (λ systemName, params ← readParams (P := PostUploadParams.t) q; known (OpPostUpload
      systemName params contentType body))
  | IdGetView => oneSegment path (λ systemName, params ← readParams (P := GetViewParams.t) q; known (OpGetView systemName
      params))
  | IdCompress => oneSegment path (λ systemName, body ← readJson (A := CompressRequest.t) contentType body; known
      (OpCompress systemName body))
  | IdPostCp => oneSegment path (λ systemName, body ← readJson (A := CopyRequest.t) contentType body; known (OpPostCp
      systemName body))
  | IdPostDownload => oneSegment path (λ systemName, body ← readJson (A := PostFileDownloadRequest.t) contentType body;
      known (OpPostDownload systemName body))
  | IdExtract => oneSegment path (λ systemName, body ← readJson (A := ExtractRequest.t) contentType body; known (OpExtract
      systemName body))
  | IdMoveMv => oneSegment path (λ systemName, body ← readJson (A := MoveRequest.t) contentType body; known (OpMoveMv
      systemName body))
  | IdDeleteRmTransfer => oneSegment path (λ systemName, params ← readParams (P :=
      DeleteRmFilesystemSystemNameTransferRmDeleteParams.t) q; known (OpDeleteRmTransfer systemName params))
  | IdPostUploadTransfer => oneSegment path (λ systemName, body ← readJson (A := PostFileUploadRequest.t) contentType body;
      known (OpPostUploadTransfer systemName body))
  | IdGetLiveness => noSegment path (known OpGetLiveness)
  | IdGetSystems => noSegment path (known OpGetSystems)
  | IdGetSystemNodes => oneSegment path (λ systemName, known (OpGetSystemNodes systemName))
  | IdGetSystemPartitions => oneSegment path (λ systemName, known (OpGetSystemPartitions systemName))
  | IdGetSystemReservations => oneSegment path (λ systemName, known (OpGetSystemReservations systemName))
  | IdGetUserinfo => oneSegment path (λ systemName, known (OpGetUserinfo systemName))
  end.

(** The content is of the declared type and form. *)
Definition acceptsContent (declared : Content) (contentType body : string) : bool :=
  match declared with
  | NoContent => contentType =s ""
  | JsonContent schema =>
      (contentType =s jsonType) && match parse body with inl v => validates schema v | inr _ => false end
  | FormContent field => formFile field contentType body
  end.

Definition receive (server : string) (req : HttpRequest.t) : option {R & Operation R} :=
  let '(target, below) := Strings.CutPrefix (HttpRequest.Url req) server in
  if negb below then None else
  let '(path, query, _) := Strings.Cut target "?" in
  '(o, values) ← route (HttpRequest.Method req) (Path.split path);
  let q := if query =s "" then [] else parseQuery query in
  if accepts (Endpoint.Query (endpoint o)) q && acceptsContent (Endpoint.Body (endpoint o)) (HttpRequest.ContentType req) (HttpRequest.Body req)
  then readOperation o values q (HttpRequest.ContentType req) (HttpRequest.Body req)
  else None.
