(* ===== verification/FirecrestWire.v ===== *)
(** * The FirecREST controller over HTTP

    The controller composed with its client ([FirecrestClient.wire]): what is
    sent over HTTP during a session, what a submitted job looks like there, and
    which answers the controller accepts.  Two interfaces: [OapiDocumented] is
    what the library for parameters promises, [HonestAuth] what the client
    needs of an authentication, with the FirecREST authentications as
    instances. *)

From S2P Require Import Prelude Prog NetUrl UrlRef Names Config Json JsonProps GitProxy FirecrestScript RemoteConfig RemoteAuth Firecrest FirecrestProps FirecrestProtocol Runai Remote RemoteTheorems FirecrestClient.
From stdpp Require Import sorting.
From Stdlib Require Import Ascii.

(** ** Interfaces *)

(** Parameters in a path are escaped as segments. *)
Class OapiDocumented `{OapiRuntime} := style_simple : ∀ name value, StyleSimple name value = inl (PathEscape value).

(** The access tokens that have been read under the lock. *)
Definition tokenMonitor : Monitor AuthEv (list string) := {|
  allowed := λ _ _ _, True;
  rely := λ _ _ _ _, True;
  next := λ R e, match e in AuthEv R return R → list string → list string with
    | LoadToken AccessLock => λ s g, TokenState.AccessToken s :: g
    | _ => λ _ g, g
    end;
  panic_ok := λ _, True |}.

(** An authentication hands out tokens that it holds. *)
Class HonestAuth {A} `{RemoteAuth A} (auth : A) :=
  honest : ∀ g, wp tokenMonitor (GetAccessToken auth) (λ r g', ∀ t, r = inl t → t ∈ g') g.

Lemma tokens_any {A} (p : Prog AuthEv A) g : wp tokenMonitor p (λ _ _, True) g.
Proof. revert g. induction p as [a|w|R e k IH]; intros g; cbn; [done..|]. split; [done|]. intros r _. apply IH. Qed.

Lemma getToken_honest refresh g : wp tokenMonitor (getToken AccessLock refresh) (λ r g', ∀ t, r = inl t → t ∈ g') g.
Proof.
  eapply wp_bind_intro with (P := λ s g', TokenState.AccessToken s ∈ g').
  { split; [done|]. intros [] _. split; [done|]. intros s _. split; [done|]. intros [] _. by left. }
  intros s g1 Hs. eapply wp_bind_intro with (P := λ _ g', g' = g1); [by unfold isUsable; case_if|].
  intros [] g2 ->; [by intros t [= <-]|]. eapply wp_bind_intro; [apply tokens_any|]. intros [err|] g3 _; [done|].
  split; [done|]. intros [] _. split; [done|]. intros s' _. split; [done|]. intros [] _ t [= <-]. by left.
Qed.

#[export] Instance firecrestAuth_honest `{Token.JwtLib} (a : FirecrestAuth) : HonestAuth a.
Proof. intros g. destruct a as [a|a]; apply getToken_honest. Qed.

(** The client of the controller has the authentication as its only editor. *)
Lemma newClient_editors {A} `{RemoteAuth A} (auth : A) apiURL : Client.RequestEditors (NewFirecrestClient apiURL auth) = [RequestEditor auth].
Proof. unfold NewFirecrestClient, NewClient. cbn -[Strings.HasSuffix URL_String]. by case_if. Qed.

(** A monitor that keeps the tokens that have been read, and something besides. *)
Record watchesTokens {G K} (N : Monitor Net G) (view : G → list string) (rest : G → K) : Prop := {
  watch_allowed : ∀ R (e : AuthEv R) g, allowed N (Token e) g;
  watch_view : ∀ R (e : AuthEv R) r g, view (next N (Token e) r g) = next tokenMonitor e r (view g);
  watch_rest : ∀ R (e : AuthEv R) r g, rest (next N (Token e) r g) = rest g;
  watch_panic : ∀ g, panic_ok N g }.

Section Tokens.
Context {A} `{RemoteAuth A} (auth : A) `{!HonestAuth auth}.
Context {G K} (N : Monitor Net G) (view : G → list string) (rest : G → K) (Hwatch : watchesTokens N view rest).

Lemma tokens_wp {B} (p : Prog AuthEv B) Q g :
  wp tokenMonitor p Q (view g) → wp N (embed (@Token) p) (λ b g', rest g' = rest g ∧ Q b (view g')) g.
Proof.
  revert g. induction p as [b|w|R e k IH]; intros g; cbn; [done|intros _; by eapply watch_panic|]. intros [_ Hk].
  split; [by eapply watch_allowed|]. intros r _. rewrite <- (watch_rest _ _ _ Hwatch R e r g).
  apply IH. rewrite (watch_view _ _ _ Hwatch). by apply Hk.
Qed.

(** The editor adds a token that the authentication holds. *)
Lemma editor_wp req g : HttpRequest.Authorization req = "" →
  wp N (RequestEditor auth req)
    (λ r g', rest g' = rest g ∧
       ∀ req', r = inl req' → ∃ token, token ∈ view g' ∧ req' = HttpRequest.with_Authorization req ("Bearer " +:+ token)) g.
Proof.
  intros Ha. unfold RequestEditor, RequestEditorInjectAccessToken. rewrite Ha. cbn [String.eqb negb].
  eapply wp_bind_intro; [apply (tokens_wp _ (λ r g', ∀ a, r = inl a → ∃ t, t ∈ g' ∧ a = "Bearer " +:+ t))|].
  - eapply wp_bind_intro; [apply honest|]. intros [t|err] g' Ht; [|done]. intros a [= <-]. exists t. split; [by apply Ht|done].
  - intros [a|err] g' [Hn Ht]; (split; [done|]); [|done]. intros req' [= <-]. destruct (Ht a eq_refl) as (t & Hin & ->). by exists t.
Qed.
End Tokens.

(** ** What is sent *)

Module Wire.
Record t := mk { tokens : list string; submitted : nat }.
Definition init : t := mk [] 0.
Definition with_tokens (g : t) (l : list string) : t := mk l (submitted g).
Definition submit (g : t) : t := mk (tokens g) (S (submitted g)).
End Wire.

Definition isSubmission (server system : string) (req : HttpRequest.t) : bool :=
  (HttpRequest.Method req =s "POST") && (HttpRequest.Url req =s server +:+ "compute/" +:+ PathEscape system +:+ "/jobs").

(** The answer names a job. *)
Definition acceptedJob (ans : Result HttpResponse.t) : bool :=
  match bindResult ans ParsePostJobSubmitComputeSystemNameJobsPostResponse with
  | inl (Response.mk _ (Some (Some _)) _ _) => true
  | _ => false
  end.

(** The body of a submission is a job that runs the session script in its
    working directory. *)
Definition sessionJob (body : string) : Prop := ∃ job, body = print (submitBody job) ∧
  JobDescription.ScriptPath job = Path.Join [JobDescription.WorkingDirectory job; sessionScriptName].

(** Every request goes to the API and carries a token that has been read from
    the authentication; a job is submitted only as long as none has been
    accepted. *)
Definition wireMonitor (server system : string) : Monitor Net Wire.t := {|
  allowed := λ R e, match e in Net R return Wire.t → Prop with
    | HttpDo req => λ g,
        (∃ token, token ∈ Wire.tokens g ∧ HttpRequest.Authorization req = "Bearer " +:+ token) ∧
        (∃ rest, HttpRequest.Url req = server +:+ rest) ∧
        (isSubmission server system req = true → Wire.submitted g = 0%nat ∧ HttpRequest.ContentType req = jsonType ∧
           sessionJob (HttpRequest.Body req))
    | _ => λ _, True
    end;
  rely := λ _ _ _ _, True;
  next := λ R e, match e in Net R return R → Wire.t → Wire.t with
    | Token e => λ r g, Wire.with_tokens g (next tokenMonitor e r (Wire.tokens g))
    | HttpDo req => λ ans g, if isSubmission server system req && acceptedJob ans then Wire.submit g else g
    | _ => λ _ g, g
    end;
  panic_ok := λ _, True |}.

Section Wire.
Context `{OapiDocumented} {A} `{RemoteAuth A} (auth : A) `{!HonestAuth auth} (c : Client.t) (system : string).
#[local] Notation server := (Client.Server c).
#[local] Notation N := (wireMonitor server system).
Hypothesis (Heditors : Client.RequestEditors c = [RequestEditor auth]).

Lemma wire_watches : watchesTokens N Wire.tokens Wire.submitted.
Proof. by split. Qed.

(** A request that is not edited yet, a submission or not. *)
Definition sound (b : bool) (req : Result HttpRequest.t) : Prop :=
  match req with
  | inl r => HttpRequest.Authorization r = "" ∧ (∃ rest, HttpRequest.Url r = server +:+ rest) ∧ isSubmission server system r = b ∧
      (b = true → HttpRequest.ContentType r = jsonType ∧ sessionJob (HttpRequest.Body r))
  | inr _ => True
  end.

Lemma send_wp b req g : sound b req → (b = true → Wire.submitted g = 0%nat) →
  wp N (send c req)
    (λ ans g', Wire.submitted g' = ((if b && acceptedJob ans then 1 else 0) + Wire.submitted g)%nat) g.
Proof.
  destruct req as [req|err]; [|by destruct b]. intros (Ha & Hurl & Hb & Hbody) Hs. unfold send. rewrite Heditors.
  apply wp_bind. cbn [applyEditors]. eapply wp_bind_intro; [by apply (editor_wp auth N Wire.tokens Wire.submitted wire_watches)|].
  intros [req'|err] g1 [Hn Hreq]; [|by destruct b]. destruct (Hreq req' eq_refl) as (t & Ht & ->).
  change (isSubmission server system req) with (isSubmission server system (HttpRequest.with_Authorization req ("Bearer " +:+ t))) in Hb.
  split; [|].
  - cbn [allowed wireMonitor]. split; [by exists t|]. split; [done|]. rewrite Hb, Hn. intros ->. split; [by apply Hs|by apply Hbody].
  - intros ans _. cbn [next wireMonitor wp]. rewrite Hb, <- Hn. by destruct (b && acceptedJob ans).
Qed.

Lemma call_wp {B} req (parse : HttpResponse.t → Result (Response.t B)) g :
  sound false req → wp N (withResponse (send c req) parse) (λ _ g', Wire.submitted g' = Wire.submitted g) g.
Proof. intros Hr. eapply wp_bind_intro; [by apply (send_wp false)|]. by intros ans g'. Qed.
End Wire.

(** ** The requests of the operations *)

Section Requests.
Context `{OapiDocumented} (server : string) (Hbase : plainBase server).

Lemma queryURL_below segs : segs ≠ [] → Forall escapedSegment segs → is_Some (walk [] segs) →
  ∃ v rest, queryURL server ("/" +:+ Strings.Join segs "/") = inl v ∧ URL.RawQuery v = "" ∧
    (∀ q, URL_String (with_RawQuery v q) = server +:+ rest +:+ withQuery q) ∧ URL_String v = server +:+ rest ∧
    (Forall (λ e, dotted e = false) segs → rest = Strings.Join segs "/").
Proof.
  intros Hne Hs [stack Hw]. destruct (resolve_below _ _ _ Hbase Hne Hs Hw) as (u & v & rest & Hu & Hv & Hq & Hstr & Hplain).
  exists v, rest. split; [|split; [done|split; [done|split; [|done]]]].
  - unfold queryURL. rewrite Hu, Strings.HasPrefix_app.
    change ("." +:+ ("/" +:+ Strings.Join segs "/")) with ("./" +:+ Strings.Join segs "/"). cbv beta iota zeta. by rewrite Hv.
  - assert (with_RawQuery v "" = v) as Hsame by (destruct v; cbn in Hq; by rewrite Hq).
    rewrite <- Hsame, Hstr. unfold withQuery. cbn -[String.append]. by rewrite Strings.app_nil_r.
Qed.

Lemma NewRequest_url method url body req : NewRequest method url body = inl req → req = HttpRequest.mk method url "" "" body.
Proof. unfold NewRequest. destruct (url_Parse url); congruence. Qed.

Lemma plainRequest_below method segs body : segs ≠ [] → Forall escapedSegment segs → is_Some (walk [] segs) →
  ∃ rest, plainRequest server method ("/" +:+ Strings.Join segs "/") body = NewRequest method (server +:+ rest) body ∧
    (Forall (λ e, dotted e = false) segs → rest = Strings.Join segs "/").
Proof.
  intros Hne Hs Hw. destruct (queryURL_below segs Hne Hs Hw) as (v & rest & Hv & _ & _ & Hstr & Hplain). exists rest.
  unfold plainRequest. rewrite Hv. cbn [bindResult]. by rewrite Hstr.
Qed.

(** Without dots the request is always built. *)
Lemma plainRequest_exact method segs body : segs ≠ [] → Forall escapedSegment segs → Forall (λ e, dotted e = false) segs →
  plainRequest server method ("/" +:+ Strings.Join segs "/") body =
  inl (HttpRequest.mk method (server +:+ Strings.Join segs "/") "" "" body).
Proof.
  intros Hne Hs Hd. destruct (plainRequest_below method segs body Hne Hs) as (rest & -> & Hrest); [by rewrite walk_plain|].
  rewrite (Hrest Hd). unfold NewRequest.
  by destruct (plainBase_parse server (Strings.Join segs "/") Hbase (escapedPath_join segs Hs)) as [u ->].
Qed.

Lemma dotted_PathEscape s : dotted (PathEscape s) = dotted s.
Proof.
  destruct (PathEscape_segment s) as [_ Hu]. unfold dotted.
  destruct (String.eqb_spec (PathEscape s) ".") as [E|E1]; [rewrite E in Hu; by injection Hu as <-|].
  destruct (String.eqb_spec (PathEscape s) "..") as [E|E2]; [rewrite E in Hu; by injection Hu as <-|].
  destruct (String.eqb_spec s ".") as [->|_]; [done|]. by destruct (String.eqb_spec s "..") as [->|_].
Qed.

(** The paths of the operations. *)
Definition statusPath (p : string) : list string := ["status"; p; "userinfo"].
Definition jobsPath (p : string) : list string := ["compute"; p; "jobs"].
Definition jobPath (p j : string) : list string := ["compute"; p; "jobs"; j].
Definition metadataPath (p j : string) : list string := ["compute"; p; "jobs"; j; "metadata"].
Definition opsPath (p op : string) : list string := ["filesystem"; p; "ops"; op].

Lemma literal_segment s : Bytes.forallb escapedByte s && bool_decide (is_Some (unescape s encodePath)) = true → escapedSegment s.
Proof. intros [? ?%bool_decide_eq_true]%andb_prop. by split. Qed.

Lemma escaped_name name value : ∃ p, StyleSimple name value = inl p ∧ escapedSegment p ∧ dotted p = dotted value ∧ p = PathEscape value.
Proof. exists (PathEscape value). rewrite style_simple, dotted_PathEscape. split_and!; try done; apply PathEscape_segment. Qed.

#[local] Ltac segments := repeat first [apply list.Forall_nil_2 | apply list.Forall_cons_2]; try done; by apply literal_segment.
#[local] Ltac walks := cbn; repeat (case_if; cbn); by eexists.

Lemma jobPath_below p j : escapedSegment p → escapedSegment j →
  Forall escapedSegment (jobPath p j) ∧ is_Some (walk [] (jobPath p j)).
Proof. intros Hp Hj. split; [segments|walks]. Qed.
Lemma metadataPath_below p j : escapedSegment p → escapedSegment j →
  Forall escapedSegment (metadataPath p j) ∧ is_Some (walk [] (metadataPath p j)).
Proof. intros Hp Hj. split; [segments|walks]. Qed.
Lemma statusPath_below p : escapedSegment p → Forall escapedSegment (statusPath p) ∧ is_Some (walk [] (statusPath p)).
Proof. intros Hp. split; [segments|walks]. Qed.
Lemma opsPath_plain p op : escapedSegment p → escapedSegment op → dotted p = false → dotted op = false →
  Forall escapedSegment (opsPath p op) ∧ Forall (λ e, dotted e = false) (opsPath p op).
Proof. intros Hp Hop Hd Hdo. split; [segments|by repeat constructor]. Qed.
Lemma jobsPath_plain p : escapedSegment p → dotted p = false →
  Forall escapedSegment (jobsPath p) ∧ Forall (λ e, dotted e = false) (jobsPath p).
Proof. intros Hp Hd. split; [segments|by repeat constructor]. Qed.
End Requests.

Section Sound.
Context `{OapiDocumented} (c : Client.t) (system : string).
Context (Hbase : plainBase (Client.Server c)) (Hdot : dotted system = false).
#[local] Notation server := (Client.Server c).
#[local] Notation sound := (sound c system).

Lemma sound_method method url body ct : (∃ rest, url = server +:+ rest) → method ≠ "POST" →
  sound false (inl (HttpRequest.mk method url ct "" body)).
Proof.
  intros Hurl Hm. split; [done|]. split; [done|]. split; [|done]. unfold isSubmission. cbn [HttpRequest.Method].
  by rewrite (proj2 (String.eqb_neq _ _) Hm).
Qed.

Lemma sound_NewRequest b method url body : sound b (inl (HttpRequest.mk method url "" "" body)) → sound b (NewRequest method url body).
Proof. intros Hr. unfold NewRequest. by destruct (url_Parse url). Qed.

Lemma sound_plain method segs body : Forall escapedSegment segs ∧ is_Some (walk [] segs) → segs ≠ [] → method ≠ "POST" →
  sound false (plainRequest server method ("/" +:+ Strings.Join segs "/") body).
Proof.
  intros [Hs Hw] Hne Hm. destruct (plainRequest_below server Hbase method segs body Hne Hs Hw) as (rest & -> & _).
  apply sound_NewRequest, sound_method; [by eexists|done].
Qed.

Lemma sound_other url ct body rest : url = server +:+ "filesystem/" +:+ rest → sound false (inl (HttpRequest.mk "POST" url ct "" body)).
Proof.
  intros ->. split; [done|]. split; [by eexists|]. split; [|done]. unfold isSubmission. cbn [HttpRequest.Method HttpRequest.Url].
  rewrite String.eqb_refl. apply String.eqb_neq. by intros ?%(inj (String.append server)).
Qed.

Lemma sound_systems : sound false (NewGetSystemsStatusSystemsGetRequest server).
Proof.
  apply (sound_plain "GET" ["status"; "systems"] ""); [|done|done]. split; [|by eexists].
  repeat constructor; by eexists.
Qed.

Lemma sound_userinfo name : sound false (NewGetUserinfoStatusSystemNameUserinfoGetRequest server name).
Proof.
  unfold NewGetUserinfoStatusSystemNameUserinfoGetRequest. destruct (escaped_name "system_name" name) as (p & -> & Hp & _).
  apply (sound_plain "GET" (statusPath p) ""); [by apply statusPath_below|done|done].
Qed.

Lemma sound_job name id : sound false (NewGetJobComputeSystemNameJobsJobIdGetRequest server name id).
Proof.
  unfold NewGetJobComputeSystemNameJobsJobIdGetRequest. destruct (escaped_name "system_name" name) as (p & -> & Hp & _).
  destruct (escaped_name "job_id" id) as (j & Hj & Hje & _). cbn [bindResult]. rewrite Hj.
  apply (sound_plain "GET" (jobPath p j) ""); [by apply jobPath_below|done|done].
Qed.

Lemma sound_cancel name id : sound false (NewDeleteJobCancelComputeSystemNameJobsJobIdDeleteRequest server name id).
Proof.
  unfold NewDeleteJobCancelComputeSystemNameJobsJobIdDeleteRequest. destruct (escaped_name "system_name" name) as (p & -> & Hp & _).
  destruct (escaped_name "job_id" id) as (j & Hj & Hje & _). cbn [bindResult]. rewrite Hj.
  apply (sound_plain "DELETE" (jobPath p j) ""); [by apply jobPath_below|done|done].
Qed.

Lemma sound_metadata name id : sound false (NewGetJobMetadataComputeSystemNameJobsJobIdMetadataGetRequest server name id).
Proof.
  unfold NewGetJobMetadataComputeSystemNameJobsJobIdMetadataGetRequest. destruct (escaped_name "system_name" name) as (p & -> & Hp & _).
  destruct (escaped_name "job_id" id) as (j & Hj & Hje & _). cbn [bindResult]. rewrite Hj.
  apply (sound_plain "GET" (metadataPath p j) ""); [by apply metadataPath_below|done|done].
Qed.

(** The requests with a body. *)
Lemma exact_ops name op method body : escapedSegment op → dotted op = false → dotted name = false →
  plainRequest server method ("/" +:+ Strings.Join (opsPath (PathEscape name) op) "/") body =
  inl (HttpRequest.mk method (server +:+ "filesystem/" +:+ PathEscape name +:+ "/ops/" +:+ op) "" "" body).
Proof.
  intros Hop Hdo Hd. destruct (escaped_name "system_name" name) as (p & _ & Hp & Hpd & ->).
  destruct (opsPath_plain (PathEscape name) op) as [Hs Hds]; [done..|by rewrite Hpd|done|].
  by rewrite (plainRequest_exact server Hbase).
Qed.

Lemma submit_exact body :
  NewPostJobSubmitComputeSystemNameJobsPostRequest server system body =
  inl (HttpRequest.mk "POST" (server +:+ "compute/" +:+ PathEscape system +:+ "/jobs") jsonType "" (print body)).
Proof.
  unfold NewPostJobSubmitComputeSystemNameJobsPostRequest, NewPostJobSubmitComputeSystemNameJobsPostRequestWithBody, typedRequest.
  destruct (escaped_name "system_name" system) as (p & -> & Hp & Hpd & Hpe). cbn [bindResult].
  destruct (jobsPath_plain p) as [Hs Hds]; [done|by rewrite Hpd|].
  change ("/compute/" +:+ p +:+ "/jobs") with ("/" +:+ Strings.Join (jobsPath p) "/").
  rewrite (plainRequest_exact server Hbase) by done. cbn [bindResult]. by rewrite <- Hpe.
Qed.

Lemma mkdir_exact body :
  NewPostMkdirFilesystemSystemNameOpsMkdirPostRequest server system body =
  inl (HttpRequest.mk "POST" (server +:+ "filesystem/" +:+ PathEscape system +:+ "/ops/" +:+ "mkdir") jsonType "" (print body)).
Proof.
  unfold NewPostMkdirFilesystemSystemNameOpsMkdirPostRequest, NewPostMkdirFilesystemSystemNameOpsMkdirPostRequestWithBody, typedRequest.
  rewrite style_simple. cbn [bindResult].
  change ("/filesystem/" +:+ PathEscape system +:+ "/ops/mkdir") with ("/" +:+ Strings.Join (opsPath (PathEscape system) "mkdir") "/").
  rewrite exact_ops; [done|by apply literal_segment|done|done].
Qed.

Lemma chmod_exact body :
  NewPutChmodFilesystemSystemNameOpsChmodPutRequest server system body =
  inl (HttpRequest.mk "PUT" (server +:+ "filesystem/" +:+ PathEscape system +:+ "/ops/" +:+ "chmod") jsonType "" (print body)).
Proof.
  unfold NewPutChmodFilesystemSystemNameOpsChmodPutRequest, NewPutChmodFilesystemSystemNameOpsChmodPutRequestWithBody, typedRequest.
  rewrite style_simple. cbn [bindResult].
  change ("/filesystem/" +:+ PathEscape system +:+ "/ops/chmod") with ("/" +:+ Strings.Join (opsPath (PathEscape system) "chmod") "/").
  rewrite exact_ops; [done|by apply literal_segment|done|done].
Qed.

(** With a query. *)
Lemma query_below op : escapedSegment op → dotted op = false →
  ∃ v, queryURL server ("/filesystem/" +:+ PathEscape system +:+ "/ops/" +:+ op) = inl v ∧
    ∀ fragments, ∃ q, URL_String (with_query v fragments) =
      server +:+ "filesystem/" +:+ (PathEscape system +:+ "/ops/" +:+ op) +:+ withQuery q.
Proof.
  intros Hop Hdo. destruct (escaped_name "system_name" system) as (p & _ & Hp & Hpd & <-).
  destruct (opsPath_plain p op) as [Hs Hds]; [done..|by rewrite Hpd|done|].
  destruct (queryURL_below server Hbase (opsPath p op)) as (v & rest & Hv & _ & Hq & _ & Hrest); [done|done|by rewrite walk_plain|].
  exists v. split; [exact Hv|]. intros fragments. eexists. unfold with_query. rewrite Hq, (Hrest Hds).
  change (Strings.Join (opsPath p op) "/") with ("filesystem/" +:+ (p +:+ "/ops/" +:+ op)). by rewrite (Strings.app_assoc "filesystem/").
Qed.

Lemma sound_query method op fragments body : escapedSegment op → dotted op = false →
  (∀ q, sound false (inl (HttpRequest.mk method (server +:+ "filesystem/" +:+ (PathEscape system +:+ "/ops/" +:+ op) +:+ withQuery q) "" "" body))) →
  sound false (queryRequest server method ("/filesystem/" +:+ PathEscape system +:+ "/ops/" +:+ op) (Some fragments) body).
Proof.
  intros Hop Hdo Hs. unfold queryRequest. destruct (query_below op Hop Hdo) as (v & -> & Hq). cbn [bindResult].
  destruct fragments as [fragments|err]; [|done]. cbn [bindResult]. destruct (Hq fragments) as (q & ->). by apply sound_NewRequest.
Qed.

Lemma sound_upload directory contentType body :
  sound false (NewPostUploadFilesystemSystemNameOpsUploadPostRequestWithBody server system
                 (Some (PostUploadParams.mk directory)) contentType body).
Proof.
  unfold NewPostUploadFilesystemSystemNameOpsUploadPostRequestWithBody. rewrite style_simple. cbn [bindResult].
  assert (Hq : sound false (queryRequest server "POST" ("/filesystem/" +:+ PathEscape system +:+ "/ops/" +:+ "upload")
    (Some (PostUploadParams.fragments (PostUploadParams.mk directory))) body))
    by (apply sound_query; [by apply literal_segment|done|intros q; by eapply sound_other]).
  change ("/filesystem/" +:+ PathEscape system +:+ "/ops/upload") with ("/filesystem/" +:+ PathEscape system +:+ "/ops/" +:+ "upload").
  cbn [fmap option_fmap option_map]. destruct (queryRequest _ _ _ _ _) as [req|err]; [|done].
  destruct Hq as (Ha & Hurl & Hb & _). by repeat split.
Qed.

Lemma sound_view params : sound false (NewGetViewFilesystemSystemNameOpsViewGetRequest server system (Some params)).
Proof.
  unfold NewGetViewFilesystemSystemNameOpsViewGetRequest. rewrite style_simple. cbn [bindResult].
  apply (sound_query "GET" "view"); [by apply literal_segment|done|]. intros q. apply sound_method; [by eexists|done].
Qed.
End Sound.

(** ** The session over HTTP *)

(** The calls of the server and its controller, the latter over the client. *)
Definition wireServer `{OapiRuntime} (c : Client.t) (R : Type) (e : Srv Fc R) : Prog (Srv Net) R :=
  match e in Srv _ R return Prog (Srv Net) R with
  | Ctl e => embed (@Ctl Net) (wire c _ e)
  | Listen address => trigger (Listen address)
  | NextTick => trigger NextTick
  | Shutdown => trigger Shutdown
  end.

Section Session.
Context `{OapiDocumented} {A} `{RemoteAuth A} (auth : A) `{!HonestAuth auth}.
Context (env : Env) (sessionScript : string) `{DockerReference} (system : string).
Context (c : Client.t) (Heditors : Client.RequestEditors c = [RequestEditor auth]).
Context (Hbase : plainBase (Client.Server c)) (Hdot : dotted system = false).
#[local] Notation P := (protocol env sessionScript system).
#[local] Notation N := (wireMonitor (Client.Server c) system).

Lemma submit_sound job g : submitAllowed g job → sound c system true
  (NewPostJobSubmitComputeSystemNameJobsPostRequest (Client.Server c) system (submitBody job)).
Proof.
  intros (_ & _ & _ & p & _ & <- & Hp). rewrite (submit_exact c system Hbase Hdot). split; [done|]. split; [by eexists|]. split.
  - unfold isSubmission. cbn [HttpRequest.Method HttpRequest.Url]. by rewrite !String.eqb_refl.
  - intros _. split; [done|]. by exists job.
Qed.

(** Every call that the protocol allows, over the client. *)
Lemma wire_call {R} (e : Fc R) g w :
  Ghost.submissions g = Wire.submitted w → allowed P e g →
  wp N (wire c R e) (λ r w', Ghost.submissions (next P e r g) = Wire.submitted w') w.
Proof.
  intros Hn Ha.
  assert (Hcall : ∀ {B} req (parse : HttpResponse.t → Result (Response.t B)), sound c system false req →
    wp N (withResponse (send c req) parse) (λ _ w', Ghost.submissions g = Wire.submitted w') w).
  { intros B req parse Hreq. eapply wp_mono; [by apply (call_wp auth c system Heditors)|]. by intros r w' ->. }
  destruct e; cbn [wire] in *; try (split; [done|]; intros r _; cbn; repeat case_match; done).
  - eapply wp_mono; [apply Hcall, sound_systems; done|]. done.
  - eapply wp_mono; [apply Hcall, sound_userinfo; done|]. done.
  - destruct Ha as [-> _]. split; [done|]. intros boundary _. eapply wp_mono; [apply Hcall, sound_upload; done|].
    intros [res|err] w' Hw'; cbn; [case_if|]; done.
  - destruct Ha as [-> _]. eapply wp_mono; [apply Hcall; rewrite (mkdir_exact c _ Hbase Hdot); by eapply sound_other|]. done.
  - destruct Ha as [-> _]. eapply wp_mono; [apply Hcall; rewrite (chmod_exact c _ Hbase Hdot); apply sound_method; [by eexists|done]|].
    by intros [[code [u|] e4 e5]|err] w' Hw'.
  - destruct Ha as [-> Hs]. eapply wp_bind_intro; [apply (send_wp auth c system Heditors true); [by eapply submit_sound|]|].
    { intros _. rewrite <- Hn. by destruct Hs as (_ & ? & _). }
    intros ans w' Hw'. unfold acceptedJob in Hw'.
    change (Ghost.submissions (next P (PostJobSubmit system job) (bindResult ans ParsePostJobSubmitComputeSystemNameJobsPostResponse) g) =
      Wire.submitted w'). rewrite Hw'.
    destruct (bindResult ans _) as [[code [[id|]|] e4 e5]|err]; cbn; by rewrite Hn.
  - eapply wp_mono; [apply Hcall, sound_metadata; done|]. done.
  - eapply wp_mono; [apply Hcall, sound_job; done|]. done.
  - eapply wp_mono; [apply Hcall, sound_cancel; done|]. done.
  - destruct Ha as [-> _]. eapply wp_mono; [apply Hcall, sound_view; done|]. done.
Qed.
End Session.

(** C12: A session over HTTP: whatever the API and the token servers answer, every
    request of the controller goes to the API below its base URL and carries a
    token that the authentication holds; a job is submitted only if none has
    been accepted before, to the endpoint of the system of the session, as a
    JSON document that runs the session script; and at most one job is accepted. *)
Theorem wire_session `{OapiDocumented} {A} `{RemoteAuth A} (auth : A) `{!HonestAuth auth}
    env sessionScript `{DockerReference} fuel cfg ctl apiURL :
  let client := NewFirecrestClient apiURL auth in
  let system := Controller.systemName ctl in
  let _ := firecrestController env sessionScript in
  plainBase (Client.Server client) → dotted system = false →
  Controller.jobID ctl = "" → Controller.fakeStart ctl = false →
  wp (serverMonitor (wireMonitor (Client.Server client) system)) (interp (wireServer client) (serve fuel cfg ctl))
    (λ _ w, (Wire.submitted w ≤ 1)%nat) Wire.init.
Proof.
  intros client system ctlr Hbase Hdot Hj Hf.
  pose proof (newClient_editors auth apiURL : Client.RequestEditors client = _) as Heditors.
  eapply wp_mono; [eapply (wp_interp (serverMonitor (protocol env sessionScript system)) _
    (λ g w, Ghost.submissions g = Wire.submitted w) _ _ _ Ghost.init)|].
  - intros X e g w Hn Ha. destruct e as [R e|address| |]; [|done..]. cbn [wireServer].
    eapply wp_embed; [apply serverMonitor_extends|]. eapply wp_mono; [by apply (wire_call auth env sessionScript system client Heditors)|].
    intros r w' Hw'. split; [|exact Hw']. done.
  - done.
  - done.
  - by apply firecrest_serve.
  - intros code w (g & Hn & Hle). cbn in Hle. by rewrite <- Hn.
Qed.

(** ** A job on the wire *)

(** A job as a reader of the document finds it. *)
Definition memberOf (name : string) (v : json) : option json :=
  match v with JObj l => snd <$> find (λ kv, kv.1 =s name) l | _ => None end.
Definition textOf (v : json) : option string := match v with JStr s => Some s | _ => None end.
Definition textsOf (v : json) : option (gmap string string) :=
  match v with JObj l => list_to_map <$> mapM (λ kv, pair kv.1 <$> textOf kv.2) l | _ => None end.
Definition readJob (v : json) : option JobDescription.t :=
  job ← memberOf "job" v;
  env ← memberOf "env" job ≫= textsOf;
  script ← memberOf "scriptPath" job ≫= textOf;
  workingDirectory ← memberOf "workingDirectory" job ≫= textOf;
  Some (JobDescription.mk env script workingDirectory (memberOf "account" job ≫= textOf)).

Lemma textsOf_marshalMap (m : gmap string string) : textsOf (marshalMap m) = Some m.
Proof.
  unfold textsOf, marshalMap. set (l := merge_sort keyLe (map_to_list m)).
  assert (Hperm : l ≡ₚ map_to_list m) by apply merge_sort_Permutation.
  assert (mapM (λ kv, pair kv.1 <$> textOf kv.2) ((λ '(key, val), (key, JStr val)) <$> l) = Some l) as ->.
  { clearbody l. clear Hperm. induction l as [|[k v] l IH]; [done|]. cbn. by rewrite IH. }
  cbn. f_equal. transitivity (list_to_map (M := gmap string string) (map_to_list m)); [|apply list_to_map_to_list].
  apply list_to_map_proper; [|done]. rewrite Hperm. apply NoDup_fst_map_to_list.
Qed.

Lemma wellFormed_texts l : foldr and True (map (λ kv : string * json, wellFormed kv.2) ((λ '(key, val), (key, JStr val)) <$> l)).
Proof. induction l as [|[k v] l IH]; [done|]. by split. Qed.

Lemma wellFormed_job job : wellFormed (submitBody job).
Proof.
  split; [|done]. unfold marshalJob. cbn [wellFormed]. destruct (JobDescription.Account job); cbn -[marshalMap].
  all: repeat split; apply wellFormed_texts.
Qed.

(** A job arrives as it was built: the request that submits it always exists,
    is a POST to the endpoint of the system, and its body is a JSON document from
    which the script, the working directory, the account and every variable of
    the environment are read back. *)
Theorem job_on_the_wire `{OapiDocumented} c system job :
  plainBase (Client.Server c) → dotted system = false →
  ∃ body v,
    NewPostJobSubmitComputeSystemNameJobsPostRequest (Client.Server c) system (submitBody job) =
      inl (HttpRequest.mk "POST" (Client.Server c +:+ "compute/" +:+ PathEscape system +:+ "/jobs") "application/json" "" body) ∧
    parse body = inl v ∧ readJob v = Some job.
Proof.
  intros Hbase Hdot. exists (print (submitBody job)), (submitBody job). split; [by apply submit_exact|].
  split; [apply parse_print, wellFormed_job|]. destruct job as [env script dir account]. unfold readJob, submitBody, marshalJob. 
  destruct account as [a|]; cbn -[textsOf marshalMap]; by rewrite textsOf_marshalMap.
Qed.

(** ** The answers *)

(** The last answer. *)
Definition answerMonitor : Monitor Net (option (Result HttpResponse.t)) := {|
  allowed := λ _ _ _, True;
  rely := λ _ _ _ _, True;
  next := λ R e, match e in Net R return R → option (Result HttpResponse.t) → option (Result HttpResponse.t) with
    | HttpDo _ => λ ans _, Some ans
    | _ => λ _ g, g
    end;
  panic_ok := λ _, True |}.

(** The API refuses with a message. *)
Definition refuses (rsp : HttpResponse.t) (message : string) : Prop := ∃ body,
  HttpResponse.Body rsp = inl body ∧ isJson rsp = true ∧
  (Z.quot (HttpResponse.StatusCode rsp) 100 = 4 ∨ Z.quot (HttpResponse.StatusCode rsp) 100 = 5)%Z ∧
  Unmarshal decodeApiResponseError (ApiResponseError.mk "") body = inl (ApiResponseError.mk message) ∧ message ≠ "".

(** What is made of an answer: success exactly if the answer says so, and the
    message of a refusal is the error. *)
Definition verdict {B} (what : string) (success : HttpResponse.t → string → B → Prop)
    (r : Result B) (g : option (Result HttpResponse.t)) : Prop :=
  (∀ b, r = inl b ↔ ∃ rsp body, g = Some (inl rsp) ∧ HttpResponse.Body rsp = inl body ∧ success rsp body b) ∧
  (∀ rsp message, g = Some (inl rsp) → refuses rsp message → r = inr (Errorf (what +:+ ": " +:+ message))).

(** A JSON document with the expected status. *)
Definition answersJson {B} (code : Z) (decode : string → Result B) (rsp : HttpResponse.t) (body : string) (b : B) : Prop :=
  HttpResponse.StatusCode rsp = code ∧ isJson rsp = true ∧ decode body = inl b.

Lemma parseError_refuses {B} rsp body message :
  HttpResponse.Body rsp = inl body → refuses rsp message →
  ∃ res : Response.t B, parseError rsp body = inl res ∧ Response.JSON res = None ∧ Response.StatusCode res = HttpResponse.StatusCode rsp ∧
    ∀ what, apiError what res = Errorf (what +:+ ": " +:+ message).
Proof.
  intros Hb (body' & Hb' & Hj & Hc & Hu & Hm). rewrite Hb in Hb'. injection Hb' as <-. unfold parseError. rewrite Hj, Hu. cbn [andb].
  apply String.eqb_neq in Hm. destruct Hc as [->| ->]; cbn [Z.eqb Pos.eqb bindResult]; eexists; (split; [done|]);
    (split; [done|]); (split; [done|]); intros what; unfold apiError; cbn [getErrorMessage Response.JSON4XX Response.JSON5XX ApiResponseError.Message];
    by rewrite Hm.
Qed.

Lemma parseError_noJSON {B} rsp body (res : Response.t B) : parseError rsp body = inl res →
  Response.JSON res = None ∧ Response.StatusCode res = HttpResponse.StatusCode rsp.
Proof.
  unfold parseError. destruct (Unmarshal _ _ _) as [e|err]; repeat case_if; cbn; intros; simplify_eq; done.
Qed.

(** The judgement of [expectJSON] over the generated parser. *)
Lemma expectJSON_verdict {B} what code (decode : string → Result B) ans :
  Z.quot code 100 ≠ 4%Z → Z.quot code 100 ≠ 5%Z →
  verdict what (answersJson code decode) (expectJSON what (bindResult ans (parseAnswer code decode))) (Some ans).
Proof.
  intros H4 H5. destruct ans as [rsp|err]; [|by split; [intros b; split; [done|by intros (? & ? & [=] & _)]|by intros ? ? [=]]].
  cbn [bindResult]. unfold parseAnswer. split.
  - intros b. destruct (HttpResponse.Body rsp) as [body|err] eqn:Hb; cbn [bindResult]; [|split; [done|]; intros (rsp' & body & [= <-] & Hb' & _); congruence].
    unfold answersJson. destruct (isJson rsp && (HttpResponse.StatusCode rsp =? code)%Z) eqn:Hok.
    + apply andb_prop in Hok as [Hj Hc%Z.eqb_eq]. destruct (decode body) as [b'|err] eqn:Hd; cbn.
      * split; [intros [= ->]; by exists rsp, body|]. intros (rsp' & body' & [= <-] & Hb' & _ & _ & Hd'). congruence.
      * split; [done|]. intros (rsp' & body' & [= <-] & Hb' & _ & _ & Hd'). congruence.
    + split.
      * destruct (parseError rsp body) as [res|err] eqn:Hp; [|done]. apply parseError_noJSON in Hp as [Hp _]. cbn. by rewrite Hp.
      * intros (rsp' & body' & [= <-] & _ & Hc & Hj & _). by rewrite Hj, (proj2 (Z.eqb_eq _ _) Hc) in Hok.
  - intros rsp' message [= <-] Href. pose proof Href as (body & Hb & Hj & Hc & Hu & Hm). rewrite Hb. cbn [bindResult].
    assert (HttpResponse.StatusCode rsp =? code = false)%Z as -> by (apply Z.eqb_neq; intros E; rewrite E in Hc; by destruct Hc).
    rewrite andb_false_r. destruct (parseError_refuses (B := B) rsp body message Hb Href) as (res & -> & HJ & _ & Herr).
    cbn. by rewrite HJ, Herr.
Qed.

Section Answers.
Context `{OapiRuntime} {A} `{RemoteAuth A} (auth : A) (c : Client.t).
Context (Heditors : Client.RequestEditors c = [RequestEditor auth]).

Lemma token_answer {B} (p : Prog AuthEv B) g : wp answerMonitor (embed (@Token) p) (λ _ g', g' = g) g.
Proof. induction p as [b|w|R e k IH]; cbn; [done..|]. split; [done|]. intros r _. apply IH. Qed.

(** A call either fails before anything is sent, or judges the answer. *)
Lemma call_answer {B} req (parse : HttpResponse.t → Result (Response.t B)) :
  wp answerMonitor (withResponse (send c req) parse)
    (λ r g, (∃ err, r = inr err ∧ g = None) ∨ ∃ ans, r = bindResult ans parse ∧ g = Some ans) None.
Proof.
  unfold withResponse. eapply wp_bind_intro with (P := λ ans g, (∃ err, ans = inr err ∧ g = None) ∨ g = Some ans).
  - destruct req as [req|err]; [|left; by exists err]. unfold send. rewrite Heditors. apply wp_bind. cbn [applyEditors].
    eapply wp_bind_intro with (P := λ _ g, g = None); [|intros [req'|err] g ->; [split; [done|]; intros ans _; by right|left; by exists err]].
    unfold RequestEditor. eapply wp_bind_intro; [apply token_answer|]. by intros r g ->.
  - intros ans g [(err & -> & ->)| ->]; [left; by exists err|right; by exists ans].
Qed.

Lemma unsent_verdict {B} what (success : HttpResponse.t → string → B → Prop) err : verdict what success (inr err) None.
Proof. split; [intros b; split; [done|by intros (? & ? & [=] & _)]|by intros ? ? [=]]. Qed.

Lemma mkdir_verdict ctl path parents :
  wp answerMonitor (interp (wire c) (mkdir ctl path parents))
    (verdict "could not run mkdir" (answersJson 201 (Unmarshal decodeFileResponse tt))) None.
Proof.
  eapply wp_bind_intro; [apply call_answer|]. intros r g [(err & -> & ->)|(ans & -> & ->)]; [apply unsent_verdict|].
  by apply expectJSON_verdict.
Qed.

Lemma chmod_verdict ctl path mode :
  wp answerMonitor (interp (wire c) (chmod ctl path mode))
    (verdict "could not run chmod" (answersJson 200 (Unmarshal decodeFileResponse tt))) None.
Proof.
  eapply wp_bind_intro; [apply call_answer|]. intros r g [(err & -> & ->)|(ans & -> & ->)]; [apply unsent_verdict|].
  by apply expectJSON_verdict.
Qed.

Lemma submitJob_verdict ctl job :
  wp answerMonitor (interp (wire c) (submitJob ctl job))
    (verdict "could not submit job" (λ rsp body id, answersJson 201 (Unmarshal decodeSubmission None) rsp body (Some id))) None.
Proof.
  eapply wp_bind_intro; [apply call_answer|]. intros r g [(err & -> & ->)|(ans & -> & ->)]; [apply unsent_verdict|].
  destruct (expectJSON_verdict "could not submit job" 201 (Unmarshal decodeSubmission None) ans) as [Hok Href]; [done..|].
  fold ParsePostJobSubmitComputeSystemNameJobsPostResponse in Hok, Href. cbn [interp]. split.
  - intros id. rewrite <- (Hok (Some id)). destruct (expectJSON _ _) as [[id'|]|err]; [|done..]. split; congruence.
  - intros rsp message Hg Hr. by rewrite (Href rsp message Hg Hr).
Qed.

Lemma uploadFile_verdict ctl directory filename contents :
  wp answerMonitor (interp (wire c) (uploadFile ctl directory filename contents))
    (verdict "could not run uploadFile" (λ rsp _ _, HttpResponse.StatusCode rsp = 204%Z)) None.
Proof.
  split; [done|]. intros boundary _. eapply wp_bind_intro; [apply call_answer|]. 
  intros r g [(err & -> & ->)|(ans & -> & ->)]; [apply unsent_verdict|].
  destruct ans as [rsp|err]; [|by split; [intros b; split; [done|by intros (? & ? & [=] & _)]|by intros ? ? [=]]].
  cbn [bindResult interp wp]. unfold ParsePostUploadFilesystemSystemNameOpsUploadPostResponse, parseNoContent. split.
  - intros []. destruct (HttpResponse.Body rsp) as [body|err] eqn:Hb; cbn [bindResult]; [|split; [done|]; intros (rsp' & body & [= <-] & Hb' & _); congruence].
    destruct (HttpResponse.StatusCode rsp =? 204)%Z eqn:Hc; cbn.
    + split; [|done]. intros _. exists rsp, body. by rewrite (proj1 (Z.eqb_eq _ _) Hc).
    + split; [|intros (rsp' & body' & [= <-] & _ & E); by rewrite E in Hc]. destruct (parseError rsp body) as [res|err] eqn:Hp; [|done].
      apply parseError_noJSON in Hp as [_ Hp]. by rewrite Hp, Hc.
  - intros rsp' message [= <-] Hr. pose proof Hr as (body & Hb & Hj & Hc & Hu & Hm). rewrite Hb. cbn [bindResult].
    assert (HttpResponse.StatusCode rsp =? 204 = false)%Z as Hn by (apply Z.eqb_neq; intros E; rewrite E in Hc; by destruct Hc). rewrite Hn.
    destruct (parseError_refuses (B := unit) rsp body message Hb Hr) as (res & -> & HJ & Hs & Herr). cbn. by rewrite Hs, Hn, Herr.
Qed.
End Answers.

(** C16: The calls that prepare and submit a job succeed exactly when the API says
    so: with the status of the operation and, but for an upload, a JSON document
    that can be read (for a submission, one that names the job); a refusal with
    a message becomes an error with that message, and a call that could not be
    sent fails. *)
Theorem api_verdicts `{OapiRuntime} {A} `{RemoteAuth A} (auth : A) apiURL ctl path parents mode filename contents job :
  let client := NewFirecrestClient apiURL auth in
  wp answerMonitor (interp (wire client) (mkdir ctl path parents))
    (verdict "could not run mkdir" (answersJson 201 (Unmarshal decodeFileResponse tt))) None ∧
  wp answerMonitor (interp (wire client) (chmod ctl path mode))
    (verdict "could not run chmod" (answersJson 200 (Unmarshal decodeFileResponse tt))) None ∧
  wp answerMonitor (interp (wire client) (uploadFile ctl path filename contents))
    (verdict "could not run uploadFile" (λ rsp _ _, HttpResponse.StatusCode rsp = 204%Z)) None ∧
  wp answerMonitor (interp (wire client) (submitJob ctl job))
    (verdict "could not submit job" (λ rsp body id, answersJson 201 (Unmarshal decodeSubmission None) rsp body (Some id))) None.
Proof.
  intros client. pose proof (newClient_editors auth apiURL : Client.RequestEditors client = _) as Heditors.
  split; [by eapply mkdir_verdict|]. split; [by eapply chmod_verdict|]. split; [by eapply uploadFile_verdict|by eapply submitJob_verdict].
Qed.
