(* ===== verification/FirecrestRoutes.v ===== *)
(** * The requests of the FirecREST client and the document

    Every operation of the client reaches its own endpoint of the document
    ([FirecrestApi]) with its own values, and its answer is taken as the document
    says.  The routes of the document are unambiguous; parameters and bodies are
    read back. *)

From S2P Require Import Prelude Prog NetUrl UrlRef Json JsonProps FirecrestScript RemoteAuth Firecrest FirecrestTypes FirecrestClient FirecrestOps FirecrestApi FirecrestWire.
From stdpp Require Import sorting.
From Stdlib Require Import Ascii.

(** ** Interface of the library for parameters *)

(** Parameters in a query: the name and the escaped value. *)
Class OapiFormDocumented `{OapiRuntime} := {
  style_form : ∀ name value, StyleForm name value = inl (name +:+ "=" +:+ queryEscape value);
  style_form_int : ∀ name value, StyleFormInt name value = inl (name +:+ "=" +:+ queryEscape (pretty value));
  style_form_bool : ∀ name value, StyleFormBool name value = inl (name +:+ "=" +:+ queryEscape (showBool value)) }.

(** ** Queries are read back *)

Definition plainByte (c : ascii) : bool := Bytes.isAlnum c || Bytes.mem c "-_.~".
Definition plainName (s : string) : bool := (s ≠s "") && Bytes.forallb plainByte s.
Definition queryByte (c : ascii) : bool := plainByte c || Bytes.mem c "+%".

Definition formEntry (kv : string * string) : string := kv.1 +:+ "=" +:+ queryEscape kv.2.

Lemma queryByte_upperhex n : (n < 16)%nat → queryByte (Bytes.upperhex n) = true.
Proof. do 16 (destruct n as [|n]; [done|]). lia. Qed.

Lemma queryEscape_bytes s : Bytes.forallb queryByte (queryEscape s) = true.
Proof.
  induction s as [|c s IH]; [done|]. cbn [queryEscape]. destruct (Bytes.isAlnum c || Bytes.mem c "-_.~") eqn:Hc.
  - cbn [Bytes.forallb]. unfold queryByte, plainByte at 1. by rewrite Hc.
  - destruct (Ascii.eqb c " "); [done|].
    assert ((Bytes.code c < 256)%nat) by apply Ascii.nat_ascii_bounded.
    assert ((Bytes.code c / 16 < 16)%nat) by (apply Nat.Div0.div_lt_upper_bound; lia).
    assert ((Bytes.code c mod 16 < 16)%nat) by (apply Nat.mod_upper_bound; lia).
    cbn [Bytes.forallb]. by rewrite !queryByte_upperhex, IH.
Qed.

Lemma queryUnescape_plain c s : plainByte c = true → queryUnescape (String c s) = String c <$> queryUnescape s.
Proof.
  intros Hc. cbn [queryUnescape]. destruct (Ascii.eqb_spec c "%") as [->|_]; [discriminate Hc|].
  destruct (Ascii.eqb_spec c "+") as [->|_]; [discriminate Hc|done].
Qed.

Lemma queryUnescape_escape s : queryUnescape (queryEscape s) = Some s.
Proof.
  induction s as [|c s IH]; [done|]. cbn [queryEscape]. destruct (Bytes.isAlnum c || Bytes.mem c "-_.~") eqn:Hc.
  - by rewrite queryUnescape_plain, IH.
  - destruct (Ascii.eqb_spec c " ") as [->|_]; [cbn; by rewrite IH|].
    assert ((Bytes.code c < 256)%nat) by apply Ascii.nat_ascii_bounded.
    assert ((Bytes.code c / 16 < 16)%nat) by (apply Nat.Div0.div_lt_upper_bound; lia).
    assert ((Bytes.code c mod 16 < 16)%nat) by (apply Nat.mod_upper_bound; lia).
    cbn [queryUnescape Ascii.eqb]. change (Ascii.eqb "%" "%") with true. cbv iota.
    rewrite !unhex_upperhex, IH by done. f_equal. f_equal.
    rewrite <- (Nat.div_mod_eq (Bytes.code c) 16). apply Ascii.ascii_nat_embedding.
Qed.

Lemma queryUnescape_name s : Bytes.forallb plainByte s = true → queryUnescape s = Some s.
Proof. induction s as [|c s IH]; [done|]. cbn [Bytes.forallb]. intros [Hc Hs]%andb_prop. by rewrite queryUnescape_plain, IH. Qed.

Lemma plainByte_avoids d s : plainByte d = false → Bytes.forallb plainByte s = true → avoids d s.
Proof. intros Hd. apply forallb_impl. intros c Hc. destruct (Ascii.eqb_spec c d) as [->|]; [congruence|done]. Qed.
Lemma queryEscape_avoids d s : queryByte d = false → avoids d (queryEscape s).
Proof.
  intros Hd. eapply forallb_impl; [|apply queryEscape_bytes]. intros c Hc.
  destruct (Ascii.eqb_spec c d) as [->|]; [congruence|done].
Qed.
Lemma formEntry_avoids d k v : plainName k = true → queryByte d = false → d ≠ "="%char → avoids d (formEntry (k, v)).
Proof.
  intros [_ Hk]%andb_prop Hd Hne. apply avoids_app; [|apply avoids_app; [|by apply queryEscape_avoids]].
  - eapply plainByte_avoids; [|exact Hk]. unfold queryByte in Hd. by apply orb_false_elim in Hd as [? _].
  - unfold avoids. cbn [Bytes.forallb]. rewrite andb_true_r. apply negb_true_iff, Ascii.eqb_neq. by intros <-.
Qed.

Lemma Contains_avoids d s : avoids d s → Strings.Contains s (String d "") = false.
Proof. intros Hs. unfold Strings.Contains. by rewrite index_absent. Qed.

Lemma queryEntry_form kv : plainName kv.1 = true → queryEntry (formEntry kv) = Some kv.
Proof.
  destruct kv as [k v]. cbn [fst]. intros Hk. unfold queryEntry.
  rewrite (Contains_avoids ";") by by apply formEntry_avoids. pose proof Hk as [Hne Hb]%andb_prop.
  destruct (String.eqb_spec (formEntry (k, v)) "") as [E|_]; [by destruct k|]. cbn [orb]. unfold formEntry. cbn [fst snd].
  change (k +:+ "=" +:+ queryEscape v) with (k +:+ String "=" (queryEscape v)). rewrite Cut_at by by apply plainByte_avoids.
  by rewrite queryUnescape_name, queryUnescape_escape.
Qed.

Lemma splitByte_element d s : avoids d s → splitByte d s = [s].
Proof.
  unfold avoids. induction s as [|c s IH]; [done|]. cbn. intros [Hc Hs]%andb_prop. rewrite IH by done. by destruct (Ascii.eqb c d).
Qed.
Lemma splitByte_app d a b : avoids d a → splitByte d (a +:+ String d b) = a :: splitByte d b.
Proof.
  unfold avoids. induction a as [|c a IH]; [intros _; change ("" +:+ String d b) with (String d b); cbn [splitByte]; by rewrite Ascii.eqb_refl|].
  rewrite Strings.app_cons. cbn [splitByte Bytes.forallb]. intros [Hc Ha]%andb_prop.
  rewrite IH by done. by destruct (Ascii.eqb c d).
Qed.
Lemma splitByte_join d e l : Forall (avoids d) (e :: l) → splitByte d (Strings.Join (e :: l) (String d "")) = e :: l.
Proof.
  revert e. induction l as [|e' l IH]; intros e Hl; apply list.Forall_cons in Hl as [He Hl]; [by apply splitByte_element|].
  change (Strings.Join (e :: e' :: l) (String d "")) with (e +:+ String d (Strings.Join (e' :: l) (String d ""))).
  by rewrite splitByte_app, IH.
Qed.

(** The query of a list of parameters. *)
Definition renderQuery (q : list (string * string)) : string := Strings.Join (map formEntry q) "&".

Lemma formEntries_avoid d q : queryByte d = false → d ≠ "="%char → forallb (λ kv, plainName kv.1) q = true → Forall (avoids d) (map formEntry q).
Proof.
  intros Hd Hne. induction q as [|[k v] q IH]; cbn; [constructor|]. intros [Hk Hq]%andb_prop.
  constructor; [by apply formEntry_avoids|by apply IH].
Qed.

Lemma renderQuery_empty q : forallb (λ kv, plainName kv.1) q = true → (renderQuery q =s "") = bool_decide (q = []).
Proof.
  destruct q as [|[k v] q]; [done|]. cbn [forallb fst]. intros [[Hne _]%andb_prop _]%andb_prop. cbn [bool_decide].
  rewrite bool_decide_false by done. unfold renderQuery. cbn [map]. destruct (Join_first (formEntry (k, v)) (map formEntry q) "&") as [t ->].
  by destruct k.
Qed.

Lemma parseQuery_render q : forallb (λ kv, plainName kv.1) q = true → (if renderQuery q =s "" then [] else parseQuery (renderQuery q)) = q.
Proof.
  intros Hq. rewrite renderQuery_empty by done. case_bool_decide as Hn; [done|]. unfold parseQuery, renderQuery.
  assert (splitByte "&" (Strings.Join (map formEntry q) "&") = map formEntry q) as ->.
  { pose proof (formEntries_avoid "&" q eq_refl ltac:(done) Hq) as Ha. destruct q as [|kv q]; [done|]. by apply splitByte_join. }
  clear Hn. induction q as [|kv q IH]; [done|]. cbn in Hq. apply andb_prop in Hq as [Hk Hq]. cbn.
  by rewrite queryEntry_form, IH.
Qed.

(** ** Routes *)

#[export] Instance OperationId_eq_dec : EqDecision OperationId.
Proof. solve_decision. Defined.

Fixpoint render (template : list Segment) (values : list string) : list string :=
  match template, values with
  | Lit s :: template, values => s :: render template values
  | Matching _ :: template, value :: values => PathEscape value :: render template values
  | _, _ => []
  end.
Fixpoint arity (template : list Segment) : nat :=
  match template with [] => 0 | Lit _ :: template => arity template | Matching _ :: template => S (arity template) end.
(** The values match the patterns of the parameters. *)
Fixpoint fits (template : list Segment) (values : list string) : bool :=
  match template, values with
  | Lit _ :: template, _ => fits template values
  | Matching pattern :: template, value :: values => pattern value && fits template values
  | _, _ => true
  end.

(** Two templates that some path matches. *)
Fixpoint overlap (t1 t2 : list Segment) : bool :=
  match t1, t2 with
  | [], [] => true
  | Lit a :: t1, Lit b :: t2 => (a =s b) && overlap t1 t2
  | _ :: t1, _ :: t2 => overlap t1 t2
  | _, _ => false
  end.

Lemma overlap_match t1 t2 segs v1 v2 : matchPath t1 segs = Some v1 → matchPath t2 segs = Some v2 → overlap t1 t2 = true.
Proof.
  revert t2 segs v1 v2. induction t1 as [|[a|] t1 IH]; intros [|[b|] t2] [|e segs] v1 v2; cbn; try done.
  - destruct (String.eqb_spec e a) as [->|]; [|done]. destruct (String.eqb_spec a b) as [->|]; [|done]. apply IH.
  - destruct (e =s a); [|done]. destruct (unescape e encodePath) as [u|]; cbn; [|done]. repeat (destruct (_ || _); [done|]).
    destruct (matchPath t2 segs) eqn:E2; cbn; [|done]. intros E1 _. by eapply IH.
  - destruct (unescape e encodePath) as [u|]; cbn; [|done]. destruct (_ || _); [done|]. destruct (e =s b); [|done].
    destruct (matchPath t1 segs) eqn:E1; cbn; [|done]. intros _ E2. by eapply IH.
  - destruct (unescape e encodePath) as [u|]; cbn; [|done]. repeat (destruct (_ || _); [done|]).
    destruct (matchPath t1 segs) eqn:E1; cbn; [|done]. destruct (matchPath t2 segs) eqn:E2; cbn; [|done]. intros _ _. by eapply IH.
Qed.

(** Checks of the document, by computation. *)
Definition disjoint (o o' : OperationId) : bool :=
  bool_decide (o = o') || negb ((Endpoint.Method (endpoint o) =s Endpoint.Method (endpoint o')) &&
                                overlap (Endpoint.Path (endpoint o)) (Endpoint.Path (endpoint o'))).
Definition plainLiteral (s : Segment) : bool :=
  match s with
  | Lit s => Bytes.forallb escapedByte s && bool_decide (is_Some (unescape s encodePath)) && negb (dotted s)
  | Matching _ => true
  end.

Lemma routes_unambiguous : forallb (λ o, forallb (disjoint o) operations) operations = true.
Proof. vm_compute. done. Qed.
Lemma literals_plain o : forallb plainLiteral (Endpoint.Path (endpoint o)) = true.
Proof. by destruct o; vm_compute. Qed.
Lemma operations_complete o : o ∈ operations.
Proof. apply (bool_decide_unpack _). by destruct o; vm_compute. Qed.

Lemma operations_disjoint o o' : o ≠ o' → Endpoint.Method (endpoint o) = Endpoint.Method (endpoint o') →
  overlap (Endpoint.Path (endpoint o)) (Endpoint.Path (endpoint o')) = false.
Proof.
  intros Hne Hm. pose proof routes_unambiguous as H. rewrite forallb_forall in H.
  specialize (H o (proj1 (list_elem_of_In _ _) (operations_complete o))). rewrite forallb_forall in H.
  specialize (H o' (proj1 (list_elem_of_In _ _) (operations_complete o'))). unfold disjoint in H.
  rewrite bool_decide_false, Hm, String.eqb_refl in H by done. by apply negb_true_iff in H.
Qed.

Lemma route_unique o segs values : matchPath (Endpoint.Path (endpoint o)) segs = Some values →
  route (Endpoint.Method (endpoint o)) segs = Some (o, values).
Proof.
  intros Hm. unfold route. pose proof (operations_complete o) as Hin. induction operations as [|o' ids IH]; [by apply not_elem_of_nil in Hin|].
  cbn [firstMatch]. destruct (decide (o = o')) as [<-|Hne]; [by rewrite String.eqb_refl, Hm|].
  apply elem_of_cons in Hin as [|Hin]; [done|].
  destruct (String.eqb_spec (Endpoint.Method (endpoint o')) (Endpoint.Method (endpoint o))) as [E|_]; [|by apply IH].
  destruct (matchPath (Endpoint.Path (endpoint o')) segs) as [values'|] eqn:Hm'; [|by apply IH].
  pose proof (overlap_match _ _ _ _ _ Hm Hm') as Hov. by rewrite operations_disjoint in Hov.
Qed.

(** A name that is a segment of its own. *)
Definition named (s : string) : Prop := s ≠ "" ∧ dotted s = false.

Lemma matchPath_render template values : arity template = length values → Forall named values → fits template values = true →
  matchPath template (render template values) = Some values.
Proof.
  revert values. induction template as [|[s|] template IH]; intros values; cbn.
  - by destruct values.
  - intros Hl Hv Hf. rewrite String.eqb_refl. by apply IH.
  - destruct values as [|v values]; [done|]. intros [= Hl] [Hv Hvs]%list.Forall_cons [Hp Hf]%andb_prop. cbn.
    rewrite (proj2 (PathEscape_segment v)). cbn. destruct (String.eqb_spec v "") as [->|_]; [by destruct Hv|]. cbn.
    by rewrite Hp, IH.
Qed.

Lemma render_segments template values : forallb plainLiteral template = true → Forall named values →
  Forall escapedSegment (render template values) ∧ Forall (λ e, dotted e = false) (render template values).
Proof.
  revert values. induction template as [|[s|] template IH]; intros values; [by repeat constructor|..].
  - cbn [forallb plainLiteral render]. intros [[[Hb Hu%bool_decide_eq_true]%andb_prop Hd%negb_true_iff]%andb_prop Ht]%andb_prop Hv.
    destruct (IH values Ht Hv) as [H1 H2]. split; constructor; done.
  - cbn [forallb plainLiteral andb render]. intros Ht Hv. destruct values as [|v values]; [by repeat constructor|].
    apply list.Forall_cons in Hv as [[_ Hv] Hvs]. destruct (IH values Ht Hvs) as [H1 H2].
    split; constructor; try done; [apply PathEscape_segment|by rewrite dotted_PathEscape].
Qed.

(** ** Requests *)

Lemma queryByte_noCTL c : queryByte c = true → negb ((Bytes.code c <? 32) || (Bytes.code c =? 127))%nat = true.
Proof. destruct c as [[] [] [] [] [] [] [] []]; vm_compute; congruence. Qed.

Definition formByte (c : ascii) : bool := queryByte c || Bytes.mem c "=&".

Lemma formByte_noCTL c : formByte c = true → negb ((Bytes.code c <? 32) || (Bytes.code c =? 127))%nat = true.
Proof. destruct c as [[] [] [] [] [] [] [] []]; vm_compute; congruence. Qed.

Lemma renderQuery_bytes q : forallb (λ kv, plainName kv.1) q = true → Bytes.forallb formByte (renderQuery q) = true.
Proof.
  unfold renderQuery. assert (He : ∀ k v, plainName k = true → Bytes.forallb formByte (formEntry (k, v)) = true).
  { intros k v [_ Hk]%andb_prop. unfold formEntry. rewrite !UrlRef.forallb_app. cbn [fst snd].
    rewrite (forallb_impl plainByte formByte k), (forallb_impl queryByte formByte (queryEscape v)); [done|..|done].
    - unfold formByte. by intros c ->.
    - apply queryEscape_bytes.
    - unfold formByte, queryByte. by intros c ->. }
  induction q as [|[k v] q IH]; [done|]. cbn [forallb fst map]. intros [Hk Hq]%andb_prop. destruct q as [|kv q]; [by apply He|].
  change (Strings.Join (formEntry (k, v) :: map formEntry (kv :: q)) "&") with
    (formEntry (k, v) +:+ "&" +:+ Strings.Join (map formEntry (kv :: q)) "&").
  rewrite !UrlRef.forallb_app, He, IH by done. done.
Qed.

Lemma renderQuery_text q : q ≠ [] → forallb (λ kv, plainName kv.1) q = true → queryText (renderQuery q).
Proof.
  intros Hne Hq. pose proof (renderQuery_bytes q Hq) as Hb. pose proof (renderQuery_empty q Hq) as Hemp.
  rewrite bool_decide_false in Hemp by done. apply String.eqb_neq in Hemp.
  assert (Ha : ∀ d, formByte d = false → avoids d (renderQuery q)).
  { intros d Hd. eapply forallb_impl; [|exact Hb]. intros c Hc. destruct (Ascii.eqb_spec c d) as [->|]; [congruence|done]. }
  split; [done|]. split; [by apply Ha|]. split; [by apply Ha|]. unfold containsCTL. apply negb_false_iff.
  eapply forallb_impl; [apply formByte_noCTL|exact Hb].
Qed.

Section Requests.
Context `{OapiDocumented} (server : string) (Hbase : plainBase server).

(** The request of an operation, before the editors. *)
Definition described (o : OperationId) (values : list string) (q : list (string * string)) (content : string * string) : HttpRequest.t :=
  HttpRequest.mk (Endpoint.Method (endpoint o))
    (server +:+ Strings.Join (render (Endpoint.Path (endpoint o)) values) "/" +:+ withQuery (renderQuery q)) content.1 "" content.2.

Lemma render_nonempty o values : arity (Endpoint.Path (endpoint o)) = length values → render (Endpoint.Path (endpoint o)) values ≠ [].
Proof. by destruct o. Qed.

Lemma request_plain o values body : arity (Endpoint.Path (endpoint o)) = length values → Forall named values →
  plainRequest server (Endpoint.Method (endpoint o)) ("/" +:+ Strings.Join (render (Endpoint.Path (endpoint o)) values) "/") body =
  inl (described o values [] ("", body)).
Proof.
  intros Hl Hv. destruct (render_segments _ values (literals_plain o) Hv) as [Hs Hd].
  rewrite plainRequest_exact by (done || by apply render_nonempty). unfold described. cbn -[String.append Strings.Join].
  by rewrite Strings.app_nil_r.
Qed.

Lemma request_typed o values contentType body : arity (Endpoint.Path (endpoint o)) = length values → Forall named values →
  typedRequest server (Endpoint.Method (endpoint o)) ("/" +:+ Strings.Join (render (Endpoint.Path (endpoint o)) values) "/") contentType body =
  inl (described o values [] (contentType, body)).
Proof. intros Hl Hv. unfold typedRequest. by rewrite request_plain. Qed.

Lemma request_query o values q body : arity (Endpoint.Path (endpoint o)) = length values → Forall named values →
  forallb (λ kv, plainName kv.1) q = true →
  queryRequest server (Endpoint.Method (endpoint o)) ("/" +:+ Strings.Join (render (Endpoint.Path (endpoint o)) values) "/")
    (Some (inl (map formEntry q))) body = inl (described o values q ("", body)).
Proof.
  intros Hl Hv Hq. destruct (render_segments _ values (literals_plain o) Hv) as [Hs Hd]. pose proof (render_nonempty o values Hl) as Hne.
  destruct (queryURL_below server Hbase _ Hne Hs) as (v & rest & Hv' & Hraw & Hstr & _ & Hrest); [by rewrite walk_plain|].
  unfold queryRequest. rewrite Hv'. cbn [bindResult]. unfold with_query.
  assert (Encode (Query v) = "") as -> by (unfold Query; by rewrite Hraw). cbn [String.eqb negb]. rewrite app_nil_r, Hstr, (Hrest Hd).
  fold (renderQuery q). unfold NewRequest, described. cbn [fst snd].
  assert (is_Some (url_Parse (server +:+ Strings.Join (render (Endpoint.Path (endpoint o)) values) "/" +:+ withQuery (renderQuery q)))) as [u ->]; [|done].
  pose proof (escapedPath_join _ Hs) as Hp. unfold withQuery. destruct (decide (q = [])) as [->|Hqne].
  - cbn -[String.append Strings.Join]. rewrite Strings.app_nil_r. by apply plainBase_parse.
  - rewrite renderQuery_empty, bool_decide_false by done. cbn [negb]. apply plainBase_parse_query; [done..|]. by apply renderQuery_text.
Qed.

(** The server receives it. *)
Lemma receive_described o values q content : arity (Endpoint.Path (endpoint o)) = length values → Forall named values →
  fits (Endpoint.Path (endpoint o)) values = true →
  forallb (λ kv, plainName kv.1) q = true → accepts (Endpoint.Query (endpoint o)) q = true →
  acceptsContent (Endpoint.Body (endpoint o)) content.1 content.2 = true →
  receive server (described o values q content) = readOperation o values q content.1 content.2.
Proof.
  intros Hl Hv Hf Hq Ha Hb. destruct (render_segments _ values (literals_plain o) Hv) as [Hs Hd]. unfold receive, described.
  cbn [HttpRequest.Url HttpRequest.Method HttpRequest.ContentType HttpRequest.Body]. rewrite Strings.CutPrefix_app. cbn [negb].
  pose proof (escapedPath_queryFree _ (escapedPath_join _ Hs)) as Hfree. set (path := Strings.Join _ "/") in *.
  assert (Strings.Cut (path +:+ withQuery (renderQuery q)) "?" = (path, renderQuery q, renderQuery q ≠s "")) as ->.
  { unfold withQuery. destruct (String.eqb_spec (renderQuery q) "") as [->|Hne]; cbn [negb].
    - rewrite Strings.app_nil_r. by apply queryFree_cut.
    - change ("?" +:+ renderQuery q) with (String "?" (renderQuery q)). apply Cut_at.
      eapply forallb_impl; [|exact Hfree]. by intros c [? _]%andb_prop. }
  assert (Path.split path = render (Endpoint.Path (endpoint o)) values) as ->.
  { subst path. pose proof (render_nonempty o values Hl) as Hne. destruct (render _ values) as [|e l] eqn:E; [done|].
    apply split_join. eapply list.Forall_impl; [exact Hs|apply escapedSegment_noSlash]. }
  rewrite (route_unique o _ values) by by apply matchPath_render. cbn [mbind option_bind].
  by rewrite parseQuery_render, Ha, Hb.
Qed.
End Requests.

(** ** Parameters *)

(** What the parameters of an operation promise to its endpoint: they are
    rendered as they are, read back, and as declared. *)
Class QueryParamsLaws {P} `{QueryParams P} (fragments : P → Result (list string)) (declared : list Param.t) : Prop := {
  fragments_values : ∀ p, fragments p = inl (map formEntry (values p));
  read_values : ∀ p, readParams (values p) = Some p;
  values_plain : ∀ p, forallb (λ kv, plainName kv.1) (values p) = true;
  values_accepted : ∀ p, accepts declared (values p) = true }.

Lemma requiredParam_form {A} (style : string → A → Result string) (show : A → string) name (a : A) :
  (∀ name a, style name a = inl (name +:+ "=" +:+ queryEscape (show a))) → plainName name = true →
  requiredParam style name a = inl (map formEntry [(name, show a)]).
Proof.
  intros Hs Hn. unfold requiredParam. rewrite Hs. cbn [bindResult map]. f_equal.
  apply (splitByte_element "&" (formEntry (name, show a))). by apply formEntry_avoids.
Qed.
Lemma optionalParam_form {A} (style : string → A → Result string) (show : A → string) name (a : option A) :
  (∀ name a, style name a = inl (name +:+ "=" +:+ queryEscape (show a))) → plainName name = true →
  optionalParam style name a = inl (map formEntry (optionalValue name show a)).
Proof. intros Hs Hn. destruct a as [a|]; [|done]. by apply requiredParam_form. Qed.

Lemma readBool_show b : readBool (showBool b) = Some b.
Proof. by destruct b. Qed.
Lemma hasType_text v : hasType Text v = true.
Proof. done. Qed.
Lemma hasType_integer (z : Z) : hasType Integer (pretty z) = true.
Proof. unfold hasType. rewrite parseInt_pretty. by apply bool_decide_true. Qed.
Lemma hasType_boolean b : hasType Boolean (showBool b) = true.
Proof. by destruct b. Qed.

#[local] Ltac rendered := repeat first
  [ rewrite (requiredParam_form StyleForm id) by (apply style_form || done)
  | rewrite (optionalParam_form StyleForm id) by (apply style_form || done)
  | rewrite (optionalParam_form StyleFormInt pretty) by (apply style_form_int || done)
  | rewrite (optionalParam_form StyleFormBool showBool) by (apply style_form_bool || done)
  | progress cbn [bindResult] ].
#[local] Ltac parameters unfolds :=
  split; intros p;
  [ unfolds; rendered; by rewrite <- ?map_app
  | destruct p; repeat match goal with o : option _ |- _ => destruct o end; cbn -[pretty parseInt readBool showBool];
    by rewrite ?parseInt_pretty, ?readBool_show
  | destruct p; repeat match goal with o : option _ |- _ => destruct o end; reflexivity
  | destruct p; repeat match goal with o : option _ |- _ => destruct o end; unfold accepts; cbn -[pretty showBool hasType];
    by rewrite ?hasType_text, ?hasType_integer, ?hasType_boolean ].

Section Parameters.
Context `{OapiFormDocumented}.

#[export] Instance getJobs_laws : QueryParamsLaws GetJobsComputeSystemNameJobsGetParams.fragments (Endpoint.Query (endpoint IdGetJobs)).
Proof. parameters ltac:(unfold GetJobsComputeSystemNameJobsGetParams.fragments). Qed.
#[export] Instance getChecksum_laws : QueryParamsLaws GetChecksumFilesystemSystemNameOpsChecksumGetParams.fragments (Endpoint.Query (endpoint IdGetChecksum)).
Proof. parameters ltac:(unfold GetChecksumFilesystemSystemNameOpsChecksumGetParams.fragments). Qed.
#[export] Instance getDownload_laws : QueryParamsLaws GetDownloadFilesystemSystemNameOpsDownloadGetParams.fragments (Endpoint.Query (endpoint IdGetDownload)).
Proof. parameters ltac:(unfold GetDownloadFilesystemSystemNameOpsDownloadGetParams.fragments). Qed.
#[export] Instance getFile_laws : QueryParamsLaws GetFileFilesystemSystemNameOpsFileGetParams.fragments (Endpoint.Query (endpoint IdGetFile)).
Proof. parameters ltac:(unfold GetFileFilesystemSystemNameOpsFileGetParams.fragments). Qed.
#[export] Instance getHead_laws : QueryParamsLaws GetHeadFilesystemSystemNameOpsHeadGetParams.fragments (Endpoint.Query (endpoint IdGetHead)).
Proof. parameters ltac:(unfold GetHeadFilesystemSystemNameOpsHeadGetParams.fragments). Qed.
#[export] Instance getLs_laws : QueryParamsLaws GetLsFilesystemSystemNameOpsLsGetParams.fragments (Endpoint.Query (endpoint IdGetLs)).
Proof. parameters ltac:(unfold GetLsFilesystemSystemNameOpsLsGetParams.fragments). Qed.
#[export] Instance deleteRm_laws : QueryParamsLaws DeleteRmFilesystemSystemNameOpsRmDeleteParams.fragments (Endpoint.Query (endpoint IdDeleteRm)).
Proof. parameters ltac:(unfold DeleteRmFilesystemSystemNameOpsRmDeleteParams.fragments). Qed.
#[export] Instance getStat_laws : QueryParamsLaws GetStatFilesystemSystemNameOpsStatGetParams.fragments (Endpoint.Query (endpoint IdGetStat)).
Proof. parameters ltac:(unfold GetStatFilesystemSystemNameOpsStatGetParams.fragments). Qed.
#[export] Instance getTail_laws : QueryParamsLaws GetTailFilesystemSystemNameOpsTailGetParams.fragments (Endpoint.Query (endpoint IdGetTail)).
Proof. parameters ltac:(unfold GetTailFilesystemSystemNameOpsTailGetParams.fragments). Qed.
#[export] Instance postUpload_laws : QueryParamsLaws PostUploadParams.fragments (Endpoint.Query (endpoint IdPostUpload)).
Proof. parameters ltac:(unfold PostUploadParams.fragments). Qed.
#[export] Instance getView_laws : QueryParamsLaws GetViewParams.fragments (Endpoint.Query (endpoint IdGetView)).
Proof. parameters ltac:(unfold GetViewParams.fragments). Qed.
#[export] Instance deleteRmTransfer_laws : QueryParamsLaws DeleteRmFilesystemSystemNameTransferRmDeleteParams.fragments (Endpoint.Query (endpoint IdDeleteRmTransfer)).
Proof. parameters ltac:(unfold DeleteRmFilesystemSystemNameTransferRmDeleteParams.fragments). Qed.
End Parameters.

(** ** Every operation *)

(** A body that is marshalled is of its schema. *)
Lemma acceptsContent_json schema v : wellFormed v → validates schema v = true → acceptsContent (JsonContent schema) jsonType (print v) = true.
Proof. intros Hw Hv. cbn. by rewrite parse_print. Qed.

(** The value of a member is allowed by the properties. *)
Definition memberOk (properties : list (string * (bool * Schema))) (kv : string * json) : bool :=
  forallb (λ '(name, (nullable, schema)), (name ≠s kv.1) || (nullable && isNull kv.2) || validates schema kv.2) properties.
Definition hasMember (l : list (string * json)) (name : string) : bool := existsb (λ kv, kv.1 =s name) l.

Lemma validates_object properties required l :
  forallb (memberOk properties) l = true → forallb (hasMember l) required = true →
  validates (SObject properties required) (JObj l) = true.
Proof. intros Hl Hr. cbn. by apply andb_true_intro. Qed.

Lemma members_app properties l1 l2 :
  forallb (memberOk properties) l1 = true → forallb (memberOk properties) l2 = true → forallb (memberOk properties) (l1 ++ l2) = true.
Proof. intros H1 H2. by rewrite forallb_app, H1, H2. Qed.
Lemma members_one {A} `{JsonCodec A} properties name (a : A) :
  memberOk properties (name, marshal a) = true → forallb (memberOk properties) (member_ name a) = true.
Proof. intros Ha. cbn. by rewrite Ha. Qed.
Lemma members_optional {A} `{JsonCodec A} properties name (a : option A) :
  (∀ x, a = Some x → memberOk properties (name, marshal x) = true) → forallb (memberOk properties) (optionalMember name a) = true.
Proof. intros Ha. destruct a as [a|]; [|done]. by apply members_one, Ha. Qed.

Lemma hasMember_app l1 l2 name : hasMember (l1 ++ l2) name = hasMember l1 name || hasMember l2 name.
Proof. apply existsb_app. Qed.

Lemma compression_enum c s : compressionType c → c = Some s → existsb (String.eqb s) CompressionTypes = true.
Proof. intros Hc Hs. apply existsb_exists. exists s. split; [by apply list_elem_of_In, Hc|apply String.eqb_refl]. Qed.

#[local] Ltac members := repeat lazymatch goal with
  | |- forallb (memberOk _) (_ ++ _) = true => apply members_app
  | |- forallb (memberOk _) (optionalMember _ _) = true => apply members_optional; intros ? ?
  | |- forallb (memberOk _) (member_ _ _) = true => apply members_one
  end.
#[local] Ltac ofSchema :=
  lazymatch goal with |- validates ?schema _ = true => unfold schema end; apply validates_object;
  [members; first [reflexivity | idtac] | cbn [forallb]; rewrite ?hasMember_app; cbn; by rewrite ?orb_true_r].

Lemma submit_schema job : (∀ env, JobDescriptionModel.Env job = Some env → validates EnvSchema env = true) →
  validates PostJobSubmitSchema (submitRequest job) = true.
Proof.
  intros He. assert (validates JobDescriptionSchema (marshal job) = true) as Hj.
  { cbn [marshal jobDescriptionModelCodec]. unfold JobDescriptionModel.marshal. ofSchema.
    rename select (JobDescriptionModel.Env job = _) into E. specialize (He _ E). unfold memberOk. cbn -[EnvSchema validates]. by rewrite He. }
  unfold submitRequest. ofSchema. unfold memberOk. cbn -[JobDescriptionSchema validates marshal]. by rewrite Hj.
Qed.

Lemma readJson_marshal {A} `{JsonCodec A} (a : A) : representable a → readJson jsonType (Marshal a) = Some a.
Proof. intros Ha. unfold readJson. by rewrite Unmarshal_Marshal. Qed.

Lemma readSubmit_submit job : representable job → readSubmit jsonType (print (submitRequest job)) = Some job.
Proof.
  intros Hj. unfold readSubmit, Unmarshal, submitRequest, decodeSubmit. rewrite parse_print by by apply wellFormed_member.
  by rewrite (decodeStruct_member _ "job" decode job _ job eq_refl (decode_marshal job Hj)).
Qed.

(** What the document asks of the values of an operation: the names in the path
    are segments, and match the patterns (the identifier of a job is alphanumeric),
    and the body is one that the document allows. *)
Definition valid {R} (op : Operation R) : Prop :=
  Forall named (segmentsOf op) ∧ fits (Endpoint.Path (endpoint (operationId op))) (segmentsOf op) = true ∧ validBody op.

Section Every.
Context `{OapiDocumented, !OapiFormDocumented}.

Lemma query_plain {R} (op : Operation R) : forallb (λ kv, plainName kv.1) (queryOf op) = true.
Proof. destruct op; first [done | eapply values_plain; typeclasses eauto]. Qed.
Lemma query_accepted {R} (op : Operation R) : accepts (Endpoint.Query (endpoint (operationId op))) (queryOf op) = true.
Proof. destruct op; first [done | apply values_accepted]. Qed.
Lemma segments_arity {R} (op : Operation R) : arity (Endpoint.Path (endpoint (operationId op))) = length (segmentsOf op).
Proof. by destruct op. Qed.
Lemma body_declared {R} (op : Operation R) : validBody op →
  acceptsContent (Endpoint.Body (endpoint (operationId op))) (contentOf op).1 (contentOf op).2 = true.
Proof.
  destruct op; cbn [validBody]; intros Hb; try reflexivity; try exact Hb.
  all: cbn [operationId endpoint Endpoint.Body contentOf fst snd].
  all: apply acceptsContent_json; [first [by apply wellFormed_member, Hb|apply marshal_wellFormed; by try apply Hb]|].
  1: by apply submit_schema, Hb.
  all: lazymatch goal with |- validates ?schema ?v = true => let v' := eval hnf in v in change (validates schema v' = true) end.
  all: ofSchema; unfold memberOk.
  1, 2, 3, 5: cbn -[existsb CompressionTypes]; by erewrite compression_enum by (done || apply Hb).
  all: cbn -[DownloadDirectives UploadDirectives validates]; by rewrite (proj2 Hb).
Qed.

(** The server reads an operation back from its parts. *)
Lemma readOperation_parts {R} (op : Operation R) : validBody op →
  readOperation (operationId op) (segmentsOf op) (queryOf op) (contentOf op).1 (contentOf op).2 = known op.
Proof.
  intros Hb. destruct op; cbn [validBody] in Hb; cbn [operationId segmentsOf queryOf contentOf fst snd readOperation];
    unfold noSegment, oneSegment, twoSegments; rewrite ?read_values, ?readJson_marshal, ?readSubmit_submit by first [done|apply Hb]; reflexivity.
Qed.

Context (server : string) (Hbase : plainBase server).

#[local] Ltac head t := lazymatch t with ?f _ => head f | _ => t end.
#[local] Ltac unfoldHead := lazymatch goal with |- ?t = _ => let h := head t in unfold h end.
(** The request of an operation by its form. *)
#[local] Ltac styled := repeat (rewrite style_simple; cbn [bindResult fmap option_fmap option_map]).
#[local] Ltac form Hv :=
  lazymatch goal with
  | |- plainRequest _ _ _ _ = inl (described _ ?o ?values _ _) => exact (request_plain server Hbase o values _ eq_refl Hv)
  | |- typedRequest _ _ _ _ _ = inl (described _ ?o ?values _ _) => exact (request_typed server Hbase o values _ _ eq_refl Hv)
  | |- queryRequest _ _ _ (Some (?fragments ?params)) _ = inl (described _ ?o ?values ?q _) =>
      rewrite (fragments_values (fragments := fragments) params);
      exact (request_query server Hbase o values q _ eq_refl Hv ltac:(eapply values_plain; typeclasses eauto))
  | |- _ => unfoldHead; styled; form Hv
  end.

Lemma upload_described systemName params contentType body : Forall named [systemName] →
  NewPostUploadFilesystemSystemNameOpsUploadPostRequestWithBody server systemName (Some params) contentType body =
  inl (described server IdPostUpload [systemName] (values params) (contentType, body)).
Proof.
  intros Hv. unfold NewPostUploadFilesystemSystemNameOpsUploadPostRequestWithBody. styled.
  assert (queryRequest server "POST" ("/filesystem/" +:+ PathEscape systemName +:+ "/ops/upload") (Some (PostUploadParams.fragments params)) body =
    inl (described server IdPostUpload [systemName] (values params) ("", body))) as -> by form Hv. done.
Qed.

Lemma requestOf_described {R} (op : Operation R) : Forall named (segmentsOf op) →
  requestOf server op = inl (described server (operationId op) (segmentsOf op) (queryOf op) (contentOf op)).
Proof.
  intros Hv. destruct op; cbn [segmentsOf] in Hv; cbn [requestOf operationId segmentsOf queryOf contentOf].
  all: first [by apply upload_described | form Hv].
Qed.

Lemma receive_operation {R} (op : Operation R) : valid op →
  receive server (described server (operationId op) (segmentsOf op) (queryOf op) (contentOf op)) = known op.
Proof.
  intros (Hv & Hf & Hb).
  rewrite receive_described;
    [by apply readOperation_parts|by apply segments_arity|done|done|apply query_plain|apply query_accepted|by apply body_declared].
Qed.
End Every.

(** Every operation of the client with values that the document allows arrives as
    it was meant: its request always exists, and a server that follows the document
    finds exactly one endpoint for it, accepts its path, parameters, content type
    and body, and reads back the same operation, with the names in the path, the
    parameters of the query and the document in the body. *)
Theorem operation_received `{OapiDocumented, !OapiFormDocumented} {R} server (op : Operation R) :
  plainBase server → valid op →
  ∃ req, requestOf server op = inl req ∧ receive server req = known op.
Proof.
  intros Hbase Hop. eexists. split; [by apply requestOf_described, Hop|].
  by apply receive_operation.
Qed.

(** ** Answers *)

(** What is made of an answer to an operation: the document of the schema exactly
    under the documented status, the message of a refusal, and the status. *)
Record outcome {R} (op : Operation R) (rsp : HttpResponse.t) (r : Result (Response.t R)) : Prop := {
  outcome_json : ∀ v, (∃ res, r = inl res ∧ Response.JSON res = Some v) ↔
    ∃ schema body, schemaOf op = Some schema ∧ HttpResponse.Body rsp = inl body ∧
      answersJson (Endpoint.Success (endpoint (operationId op))) schema rsp body v;
  outcome_empty : ∀ body, schemaOf op = None → HttpResponse.Body rsp = inl body →
    HttpResponse.StatusCode rsp = Endpoint.Success (endpoint (operationId op)) →
    r = inl (Response.mk (HttpResponse.StatusCode rsp) None None None);
  outcome_refusal : ∀ message, refuses rsp message →
    ∃ res, r = inl res ∧ Response.JSON res = None ∧ ∀ what, apiError what res = Errorf (what +:+ ": " +:+ message);
  outcome_status : ∀ res, r = inl res → Response.StatusCode res = HttpResponse.StatusCode rsp }.

(** The generated parsers are the ones the document asks for. *)
Definition parseEmpty {A} (expected : Z) (rsp : HttpResponse.t) : Result (Response.t A) :=
  body ←ᵣ HttpResponse.Body rsp;
  if (HttpResponse.StatusCode rsp =? expected)%Z then inl (Response.mk expected None None None) else parseError rsp body.

Lemma parser_documented {R} (op : Operation R) :
  parserOf op = let expected := Endpoint.Success (endpoint (operationId op)) in
                match schemaOf op with Some schema => parseAnswer expected schema | None => parseEmpty expected end.
Proof. by destruct op. Qed.

Lemma success_code {R} (op : Operation R) : Z.quot (Endpoint.Success (endpoint (operationId op))) 100 = 2%Z.
Proof. by destruct op. Qed.

Lemma parseAnswer_ok {A} code (schema : string → Result A) rsp body : HttpResponse.Body rsp = inl body →
  isJson rsp = true → HttpResponse.StatusCode rsp = code →
  parseAnswer code schema rsp = (dest ←ᵣ schema body; inl (Response.mk code (Some dest) None None)).
Proof. intros Hb Hj Hc. unfold parseAnswer. by rewrite Hb, Hj, Hc, Z.eqb_refl. Qed.
Lemma parseAnswer_other {A} code (schema : string → Result A) rsp body : HttpResponse.Body rsp = inl body →
  isJson rsp = false ∨ HttpResponse.StatusCode rsp ≠ code → parseAnswer code schema rsp = parseError rsp body.
Proof.
  intros Hb Hor. unfold parseAnswer. rewrite Hb. cbn [bindResult].
  assert (isJson rsp && (HttpResponse.StatusCode rsp =? code)%Z = false) as ->; [|done].
  apply andb_false_iff. destruct Hor as [?|?%Z.eqb_neq]; auto.
Qed.

(** An answer as it is expected, or one that is looked at for an error. *)
Lemma parser_cases {R} (op : Operation R) rsp body : HttpResponse.Body rsp = inl body →
  let expected := Endpoint.Success (endpoint (operationId op)) in
  (∃ schema, schemaOf op = Some schema ∧ HttpResponse.StatusCode rsp = expected ∧ isJson rsp = true ∧
     parserOf op rsp = (dest ←ᵣ schema body; inl (Response.mk expected (Some dest) None None))) ∨
  (schemaOf op = None ∧ HttpResponse.StatusCode rsp = expected ∧ parserOf op rsp = inl (Response.mk expected None None None)) ∨
  ((isJson rsp = false ∨ HttpResponse.StatusCode rsp ≠ expected) ∧ (schemaOf op = None → HttpResponse.StatusCode rsp ≠ expected) ∧
     parserOf op rsp = parseError rsp body).
Proof.
  intros Hb expected. rewrite parser_documented. fold expected. cbv zeta. destruct (schemaOf op) as [schema|].
  - destruct (isJson rsp) eqn:Hj; [destruct (decide (HttpResponse.StatusCode rsp = expected)) as [Hc|Hc]|].
    + left. exists schema. split_and!; try done. by apply parseAnswer_ok.
    + right; right. split; [by right|]. split; [done|]. apply parseAnswer_other; auto.
    + right; right. split; [by left|]. split; [done|]. apply parseAnswer_other; auto.
  - right. unfold parseEmpty. rewrite Hb. cbn [bindResult]. destruct (Z.eqb_spec (HttpResponse.StatusCode rsp) expected) as [Hc|Hc]; auto.
Qed.

Lemma parser_outcome {R} (op : Operation R) rsp : outcome op rsp (parserOf op rsp).
Proof.
  destruct (HttpResponse.Body rsp) as [body|err] eqn:Hb.
  2:{ assert (parserOf op rsp = inr err) as ->.
      { rewrite parser_documented. cbv zeta. destruct (schemaOf op); unfold parseAnswer, parseEmpty; by rewrite Hb. }
      split; try done; [|congruence|intros message (body & Hb' & _); congruence].
      intros v. split; [by intros (? & ? & _)|]. intros (? & ? & _ & ? & _); congruence. }
  pose proof (success_code op) as Hs. destruct (parser_cases op rsp body Hb) as [(schema & Hsch & Hc & Hj & ->)|[(Hsch & Hc & ->)|(Hn & Hn0 & ->)]].
  - split.
    + intros v. split.
      * intros (res & Hres & Hv). destruct (schema body) as [dest|err] eqn:Hd; [|done]. injection Hres as <-. injection Hv as ->.
        exists schema, body. by split_and!.
      * intros (schema' & body' & Hsch' & Hb' & _ & _ & Hd). assert (schema' = schema ∧ body' = body) as [-> ->] by (split; congruence).
        rewrite Hd. by eexists.
    + intros body' Hsch'. congruence.
    + intros message (_ & _ & _ & Hcode & _). rewrite Hc, Hs in Hcode. by destruct Hcode.
    + intros res Hres. rewrite Hc. destruct (schema body); [|done]. by injection Hres as <-.
  - split.
    + intros v. split; [intros (res & [= <-] & Hv); done|]. intros (schema & ? & Hsch' & _). congruence.
    + intros body' _ _ _. by rewrite Hc.
    + intros message (_ & _ & _ & Hcode & _). rewrite Hc, Hs in Hcode. by destruct Hcode.
    + intros res [= <-]. by rewrite Hc.
  - split.
    + intros v. split.
      * intros (res & Hres & Hv). apply parseError_noJSON in Hres as [Hres _]. congruence.
      * intros (schema' & body' & _ & _ & Hc & Hj & _). destruct Hn; congruence.
    + intros body' Hsch _ Hc. by destruct Hn0.
    + intros message Href. destruct (parseError_refuses (B := R) rsp body message Hb Href) as (res & -> & HJ & _ & Herr).
      by exists res.
    + intros res Hres. by apply parseError_noJSON in Hres as [_ ->].
Qed.

(** ** Calls *)

(** The tokens that have been read, and the exchanges. *)
Module Exchanges.
Record t := mk { tokens : list string; exchanged : list (HttpRequest.t * Result HttpResponse.t) }.
Definition init : t := mk [] [].
Definition with_tokens (g : t) (l : list string) : t := mk l (exchanged g).
Definition add (g : t) (req : HttpRequest.t) (ans : Result HttpResponse.t) : t := mk (tokens g) (exchanged g ++ [(req, ans)]).
End Exchanges.

Definition exchangeMonitor : Monitor Net Exchanges.t := {|
  allowed := λ _ _ _, True;
  rely := λ _ _ _ _, True;
  next := λ R e, match e in Net R return R → Exchanges.t → Exchanges.t with
    | Token e => λ r g, Exchanges.with_tokens g (next tokenMonitor e r (Exchanges.tokens g))
    | HttpDo req => λ ans g, Exchanges.add g req ans
    | _ => λ _ g, g
    end;
  panic_ok := λ _, True |}.

Lemma exchange_watches : watchesTokens exchangeMonitor Exchanges.tokens Exchanges.exchanged.
Proof. by split. Qed.

Lemma callOf_send `{OapiRuntime} {R} (c : Client.t) (op : Operation R) :
  callOf c op = withResponse (send c (requestOf (Client.Server c) op)) (parserOf op).
Proof. by destruct op. Qed.

(** The calls of the controller are operations of the client. *)
Definition sessionModel (job : JobDescription.t) : JobDescriptionModel.t :=
  JobDescriptionModel.mk (JobDescription.Account job) None (Some (marshalMap (JobDescription.Env job))) None None
    (Some (JobDescription.ScriptPath job)) None None None (JobDescription.WorkingDirectory job).

Lemma wire_operations `{OapiRuntime} (c : Client.t) system path mode job jobId offset size parents :
  wire c _ GetSystems = callOf c OpGetSystems ∧
  wire c _ (GetUserinfo system) = callOf c (OpGetUserinfo system) ∧
  wire c _ (PostMkdir system path parents) = callOf c (OpPostMkdir system (PostMakeDirRequest.mk (Some parents) path)) ∧
  wire c _ (PutChmod system path mode) = callOf c (OpPutChmod system (PutFileChmodRequest.mk mode path)) ∧
  wire c _ (PostJobSubmit system job) = callOf c (OpPostJobSubmit system (sessionModel job)) ∧
  wire c _ (GetJobMetadata system jobId) = callOf c (OpGetJobMetadata system jobId) ∧
  wire c _ (GetJob system jobId) = callOf c (OpGetJob system jobId) ∧
  wire c _ (DeleteJobCancel system jobId) = callOf c (OpDeleteJobCancel system jobId) ∧
  wire c _ (GetView system path offset size) = callOf c (OpGetView system (GetViewParams.mk path (Some size) (Some offset))).
Proof. destruct job as [env script directory [account|]]; split_and!; reflexivity. Qed.

(** The upload of a file is an operation with a form that the document allows. *)
Lemma upload_operation `{OapiRuntime} (c : Client.t) system directory filename contents :
  let op boundary := OpPostUpload system (PostUploadParams.mk directory) (FormDataContentType boundary)
                       (multipartFile boundary "file" filename contents) in
  wire c _ (PostUpload system directory filename contents) = (boundary ← trigger NewBoundary; callOf c (op boundary)) ∧
  ∀ boundary, validBody (op boundary).
Proof.
  split; [done|]. intros boundary. cbn [validBody]. unfold formFile, FormDataContentType. rewrite Strings.CutPrefix_app.
  cbn [andb]. unfold multipartFile. change (escapeQuotes "file") with "file".
  apply Strings.HasPrefix_spec. eexists ("; filename=" +:+ _). by rewrite !Strings.app_assoc.
Qed.

(** Nothing is sent, or one request with a token of the authentication. *)
Lemma send_once `{RemoteAuth A} (auth : A) `{!HonestAuth auth} c req :
  Client.RequestEditors c = [RequestEditor auth] → HttpRequest.Authorization req = "" →
  wp exchangeMonitor (send c (inl req))
    (λ ans g, (∃ err, ans = inr err ∧ Exchanges.exchanged g = []) ∨
              ∃ token, token ∈ Exchanges.tokens g ∧
                Exchanges.exchanged g = [(HttpRequest.with_Authorization req ("Bearer " +:+ token), ans)]) Exchanges.init.
Proof.
  intros Heditors Ha. unfold send. rewrite Heditors. apply wp_bind. cbn [applyEditors].
  eapply wp_bind_intro; [by apply (editor_wp auth exchangeMonitor _ _ exchange_watches)|].
  intros [req'|err] g [He Hreq]; cbn [wp mret]; [|left; by exists err]. destruct (Hreq req' eq_refl) as (t & Ht & ->).
  split; [done|]. intros ans _. right. exists t. cbn. by rewrite He.
Qed.

(** C15: A call of the client with values that the document allows is a call of
    the documented API: with any authentication that hands out tokens it holds,
    either nothing is sent and the call fails, or exactly one request is sent, with
    such a token, which a server that follows the document (its paths with their
    patterns, parameters, content types and the schemas of the bodies) receives as
    this very operation, and the answer is taken as the document says (a failed
    exchange is the error of the call).  What the types of the client do not ensure
    and the document asks for is a condition: identifiers of jobs are alphanumeric,
    names are path segments, compressions, environments and transfer directives
    are of the documented forms, and an upload is a form with a file. *)
Theorem operation_served `{OapiDocumented, !OapiFormDocumented} `{RemoteAuth A} (auth : A) `{!HonestAuth auth} apiURL {R} (op : Operation R) :
  let client := NewFirecrestClient apiURL auth in
  plainBase (Client.Server client) → valid op →
  wp exchangeMonitor (callOf client op)
    (λ r g, (∃ err, r = inr err ∧ Exchanges.exchanged g = []) ∨
            ∃ token req ans, token ∈ Exchanges.tokens g ∧ Exchanges.exchanged g = [(req, ans)] ∧
              HttpRequest.Authorization req = "Bearer " +:+ token ∧
              receive (Client.Server client) req = known op ∧
              match ans with inl rsp => outcome op rsp r | inr err => r = inr err end) Exchanges.init.
Proof.
  intros client Hbase Hop. rewrite callOf_send, requestOf_described by (done || apply Hop). unfold withResponse.
  eapply wp_bind_intro; [by apply (send_once auth); [apply newClient_editors|]|].
  intros ans g [(err & -> & He)|(t & Ht & He)]; [left; by exists err|right].
  eexists t, _, ans. split; [done|]. split; [exact He|]. split; [done|]. split.
  - change (receive (Client.Server client) (described (Client.Server client) (operationId op) (segmentsOf op) (queryOf op) (contentOf op)) = known op).
    by apply receive_operation.
  - destruct ans as [rsp|err]; [apply parser_outcome|done].
Qed.
