(* ===== verification/FirecrestUnions.v ===== *)
(** * Unions of the FirecREST API (internal/remote/firecrest/firecrest_gen.go)

    A union holds the JSON text of one of its variants.  The accessors of the
    generated client read it as a variant ([As]), overwrite it with one ([From])
    and merge one into it ([Merge]); the union of the data transfer services
    also keeps the discriminator of its variant.  The structs of the variants
    come first.  Merging JSON texts is the class [JsonMerge]. *)

From S2P Require Import Prelude NetUrl Json JsonProps FirecrestTypes.
From Stdlib Require Import Ascii.

(** ** Fields *)

(** Numbers and times are kept as their texts. *)
#[refine] Definition numberCodec : JsonCodec string := {|
  marshal := JNum; decode := decodeNumber; zeroValue := "";
  representable lit := isValidNumber lit = true ∧ Bytes.forallb numberByte lit = true |}.
Proof. all: done. Defined.

#[refine] Definition timeCodec : JsonCodec string := {|
  marshal := JStr; decode := decodeTimeText; zeroValue := ""; representable s := (decodeTime (JStr s) tt).2 = None |}.
Proof.
  - done.
  - intros s Hs. unfold decodeTimeText. by rewrite Hs.
Defined.

(** A map of strings; the entries are written in the order of [map_to_list]. *)
Lemma decodeMap_entries (l : list (string * string)) m :
  decodeMap "" decodeString (JObj (prod_map id JStr <$> l)) m = (foldl (λ m kv, <[kv.1 := kv.2]> m) m l, None).
Proof. revert m. induction l as [|[k v] l IH]; intros m; [done|]. exact (IH (<[k := v]> m)). Qed.

Lemma insert_entries (m : gmap string string) : foldl (λ m kv, <[kv.1 := kv.2]> m) ∅ (map_to_list m) = m.
Proof.
  rewrite <- (list_to_map_to_list m) at 2. rewrite (list_to_map_proper (map_to_list m) (reverse (map_to_list m))).
  - induction (map_to_list m) as [|kv l IH] using rev_ind; [done|].
    rewrite foldl_app, reverse_app. cbn. by rewrite IH.
  - apply NoDup_fst_map_to_list.
  - symmetry. apply reverse_Permutation.
Qed.

#[refine] Definition envCodec : JsonCodec (gmap string string) := {|
  marshal m := JObj (prod_map id JStr <$> map_to_list m); decode := decodeMap "" decodeString; zeroValue := ∅;
  representable _ := True |}.
Proof.
  - intros m _. cbn. induction (map_to_list m) as [|[k v] l IH]; [done|]. by split.
  - intros m _. rewrite decodeMap_entries. by rewrite insert_entries.
Defined.

(** ** Variants *)

#[local] Tactic Notation "expand" reference(w) reference(m) reference(b) reference(a) := unfold w, m, b, a.
#[local] Tactic Notation "codec" reference(w) reference(m) reference(d) :=
  intros r Hr;
  lazymatch goal with
  | |- wellFormed _ => unfold w, m; codecWellFormed
  | |- _ = (_, None) => unfold w, m, d; etransitivity; [codecFields|by destruct r]
  end; hnf in Hr; destruct_and?; repeat first [done | solve [eauto 2] | by apply list.Forall_true | split | intros v Hv].

Module BucketLifecycleConfiguration.
Record t := mk { Days : option Z }.
Definition zero : t := mk None.
Definition members (r : t) : list (string * json) :=
  @optionalMember Z intCodec "days" (Days r).
Definition marshal (r : t) : json := JObj (members r).
Definition assign (name : string) : option (Decoder t) :=
  if name =s "days" then Some (field Days (λ r x, mk x) (decodePtr 0%Z decodeInt))
  else None.
Definition decode : Decoder t := decodeStruct assign.
Definition valid (r : t) : Prop := (∀ v, Days r = Some v → @representable _ intCodec v).
End BucketLifecycleConfiguration.

#[export, refine] Instance bucketLifecycleConfigurationCodec : JsonCodec BucketLifecycleConfiguration.t := {|
  marshal := BucketLifecycleConfiguration.marshal; decode := BucketLifecycleConfiguration.decode; zeroValue := BucketLifecycleConfiguration.zero; representable := BucketLifecycleConfiguration.valid |}.
Proof. all: codec BucketLifecycleConfiguration.marshal BucketLifecycleConfiguration.members BucketLifecycleConfiguration.decode. Defined.

Module MultipartUpload.
Record t := mk { MaxPartSize : option Z; ParallelRuns : option Z; TmpFolder : option string; UseSplit : option bool }.
Definition zero : t := mk None None None None.
Definition members (r : t) : list (string * json) :=
  @optionalMember Z intCodec "max_part_size" (MaxPartSize r) ++
  @optionalMember Z intCodec "parallel_runs" (ParallelRuns r) ++
  @optionalMember string stringCodec "tmp_folder" (TmpFolder r) ++
  @optionalMember bool boolCodec "use_split" (UseSplit r).
Definition marshal (r : t) : json := JObj (members r).
Definition assign (name : string) : option (Decoder t) :=
  if name =s "max_part_size" then Some (field MaxPartSize (λ r x, mk x (ParallelRuns r) (TmpFolder r) (UseSplit r))
    (decodePtr 0%Z decodeInt))
  else if name =s "parallel_runs" then Some (field ParallelRuns (λ r x, mk (MaxPartSize r) x (TmpFolder r) (UseSplit r))
    (decodePtr 0%Z decodeInt))
  else if name =s "tmp_folder" then Some (field TmpFolder (λ r x, mk (MaxPartSize r) (ParallelRuns r) x (UseSplit r))
    (decodePtr "" decodeString))
  else if name =s "use_split" then Some (field UseSplit (λ r x, mk (MaxPartSize r) (ParallelRuns r) (TmpFolder r) x)
    (decodePtr false decodeBool))
  else None.
Definition decode : Decoder t := decodeStruct assign.
Definition valid (r : t) : Prop := (∀ v, MaxPartSize r = Some v → @representable _ intCodec v) ∧ (∀ v, ParallelRuns r = Some
  v → @representable _ intCodec v).
End MultipartUpload.

#[export, refine] Instance multipartUploadCodec : JsonCodec MultipartUpload.t := {|
  marshal := MultipartUpload.marshal; decode := MultipartUpload.decode; zeroValue := MultipartUpload.zero; representable := MultipartUpload.valid |}.
Proof. all: codec MultipartUpload.marshal MultipartUpload.members MultipartUpload.decode. Defined.

Module S3DataTransfer.
Record t := mk { AccessKeyId : option string; BucketLifecycleConfiguration : option BucketLifecycleConfiguration.t;
  Multipart : option MultipartUpload.t; Name : string; PrivateUrl : option string; PublicUrl : string; Region : string;
  SecretAccessKey : option string; ServiceType : string; Tenant : option string; Ttl : Z }.
Definition zero : t := mk None None None "" None "" "" None "" None 0%Z.
Definition before (r : t) : list (string * json) :=
  @optionalMember string stringCodec "accessKeyId" (AccessKeyId r) ++
  @optionalMember BucketLifecycleConfiguration.t bucketLifecycleConfigurationCodec "bucketLifecycleConfiguration" (BucketLifecycleConfiguration r) ++
  @optionalMember MultipartUpload.t multipartUploadCodec "multipart" (Multipart r) ++
  @member_ string stringCodec "name" (Name r) ++
  @optionalMember string stringCodec "privateUrl" (PrivateUrl r) ++
  @member_ string stringCodec "publicUrl" (PublicUrl r) ++
  @member_ string stringCodec "region" (Region r) ++
  @optionalMember string stringCodec "secretAccessKey" (SecretAccessKey r).
Definition after (r : t) : list (string * json) :=
  @optionalMember string stringCodec "tenant" (Tenant r) ++
  @member_ Z intCodec "ttl" (Ttl r).
Definition members (r : t) : list (string * json) := before r ++ @member_ string stringCodec "serviceType" (ServiceType r) ++ after r.
Definition marshal (r : t) : json := JObj (members r).
Definition assign (name : string) : option (Decoder t) :=
  if name =s "accesskeyid" then Some (field AccessKeyId (λ r x, mk x (BucketLifecycleConfiguration r) (Multipart r) (Name r)
    (PrivateUrl r) (PublicUrl r) (Region r) (SecretAccessKey r) (ServiceType r) (Tenant r) (Ttl r)) (decodePtr ""
    decodeString))
  else if name =s "bucketlifecycleconfiguration" then Some (field BucketLifecycleConfiguration (λ r x, mk (AccessKeyId r) x
    (Multipart r) (Name r) (PrivateUrl r) (PublicUrl r) (Region r) (SecretAccessKey r) (ServiceType r) (Tenant r) (Ttl r))
    (decodePtr BucketLifecycleConfiguration.zero BucketLifecycleConfiguration.decode))
  else if name =s "multipart" then Some (field Multipart (λ r x, mk (AccessKeyId r) (BucketLifecycleConfiguration r) x (Name
    r) (PrivateUrl r) (PublicUrl r) (Region r) (SecretAccessKey r) (ServiceType r) (Tenant r) (Ttl r)) (decodePtr
    MultipartUpload.zero MultipartUpload.decode))
  else if name =s "name" then Some (field Name (λ r x, mk (AccessKeyId r) (BucketLifecycleConfiguration r) (Multipart r) x
    (PrivateUrl r) (PublicUrl r) (Region r) (SecretAccessKey r) (ServiceType r) (Tenant r) (Ttl r)) decodeString)
  else if name =s "privateurl" then Some (field PrivateUrl (λ r x, mk (AccessKeyId r) (BucketLifecycleConfiguration r)
    (Multipart r) (Name r) x (PublicUrl r) (Region r) (SecretAccessKey r) (ServiceType r) (Tenant r) (Ttl r)) (decodePtr ""
    decodeString))
  else if name =s "publicurl" then Some (field PublicUrl (λ r x, mk (AccessKeyId r) (BucketLifecycleConfiguration r)
    (Multipart r) (Name r) (PrivateUrl r) x (Region r) (SecretAccessKey r) (ServiceType r) (Tenant r) (Ttl r)) decodeString)
  else if name =s "region" then Some (field Region (λ r x, mk (AccessKeyId r) (BucketLifecycleConfiguration r) (Multipart r)
    (Name r) (PrivateUrl r) (PublicUrl r) x (SecretAccessKey r) (ServiceType r) (Tenant r) (Ttl r)) decodeString)
  else if name =s "secretaccesskey" then Some (field SecretAccessKey (λ r x, mk (AccessKeyId r)
    (BucketLifecycleConfiguration r) (Multipart r) (Name r) (PrivateUrl r) (PublicUrl r) (Region r) x (ServiceType r)
    (Tenant r) (Ttl r)) (decodePtr "" decodeString))
  else if name =s "servicetype" then Some (field ServiceType (λ r x, mk (AccessKeyId r) (BucketLifecycleConfiguration r)
    (Multipart r) (Name r) (PrivateUrl r) (PublicUrl r) (Region r) (SecretAccessKey r) x (Tenant r) (Ttl r)) decodeString)
  else if name =s "tenant" then Some (field Tenant (λ r x, mk (AccessKeyId r) (BucketLifecycleConfiguration r) (Multipart r)
    (Name r) (PrivateUrl r) (PublicUrl r) (Region r) (SecretAccessKey r) (ServiceType r) x (Ttl r)) (decodePtr ""
    decodeString))
  else if name =s "ttl" then Some (field Ttl (λ r x, mk (AccessKeyId r) (BucketLifecycleConfiguration r) (Multipart r) (Name
    r) (PrivateUrl r) (PublicUrl r) (Region r) (SecretAccessKey r) (ServiceType r) (Tenant r) x) decodeInt)
  else None.
Definition decode : Decoder t := decodeStruct assign.
Definition valid (r : t) : Prop := (∀ v, BucketLifecycleConfiguration r = Some v → @representable _
  bucketLifecycleConfigurationCodec v) ∧ (∀ v, Multipart r = Some v → @representable _ multipartUploadCodec v) ∧
  @representable _ intCodec (Ttl r).
Definition with_ServiceType (r : t) (x : string) : t := mk (AccessKeyId r) (BucketLifecycleConfiguration r) (Multipart r)
  (Name r) (PrivateUrl r) (PublicUrl r) (Region r) (SecretAccessKey r) x (Tenant r) (Ttl r).
End S3DataTransfer.

#[export, refine] Instance s3DataTransferCodec : JsonCodec S3DataTransfer.t := {|
  marshal := S3DataTransfer.marshal; decode := S3DataTransfer.decode; zeroValue := S3DataTransfer.zero; representable := S3DataTransfer.valid |}.
Proof. all: expand S3DataTransfer.marshal S3DataTransfer.members S3DataTransfer.before S3DataTransfer.after; codec S3DataTransfer.zero S3DataTransfer.zero S3DataTransfer.decode. Defined.

Module WormholeDataTransfer.
Record t := mk { PypiIndexUrl : option string; ServiceType : string }.
Definition zero : t := mk None "".
Definition before (r : t) : list (string * json) :=
  @optionalMember string stringCodec "pypiIndexUrl" (PypiIndexUrl r).
Definition members (r : t) : list (string * json) := before r ++ @member_ string stringCodec "serviceType" (ServiceType r).
Definition marshal (r : t) : json := JObj (members r).
Definition assign (name : string) : option (Decoder t) :=
  if name =s "pypiindexurl" then Some (field PypiIndexUrl (λ r x, mk x (ServiceType r)) (decodePtr "" decodeString))
  else if name =s "servicetype" then Some (field ServiceType (λ r x, mk (PypiIndexUrl r) x) decodeString)
  else None.
Definition decode : Decoder t := decodeStruct assign.
Definition with_ServiceType (r : t) (x : string) : t := mk (PypiIndexUrl r) x.
End WormholeDataTransfer.

#[export, refine] Instance wormholeDataTransferCodec : JsonCodec WormholeDataTransfer.t := {|
  marshal := WormholeDataTransfer.marshal; decode := WormholeDataTransfer.decode; zeroValue := WormholeDataTransfer.zero; representable _ := True |}.
Proof. all: expand WormholeDataTransfer.marshal WormholeDataTransfer.members WormholeDataTransfer.before WormholeDataTransfer.before; codec WormholeDataTransfer.zero WormholeDataTransfer.zero WormholeDataTransfer.decode. Defined.

Module StreamerDataTransfer.
Record t := mk { Host : option string; InboundTransferLimit : option Z; PortRange : option (list json); PublicIps : option
  (list string); PypiIndexUrl : option string; ServiceType : string; WaitTimeout : option Z }.
Definition zero : t := mk None None None None None "" None.
Definition before (r : t) : list (string * json) :=
  @optionalMember string stringCodec "host" (Host r) ++
  @optionalMember Z intCodec "inboundTransferLimit" (InboundTransferLimit r) ++
  @optionalMember (list json) (@listCodec json unionCodec) "portRange" (PortRange r) ++
  @optionalMember (list string) (@listCodec string stringCodec) "publicIps" (PublicIps r) ++
  @optionalMember string stringCodec "pypiIndexUrl" (PypiIndexUrl r).
Definition after (r : t) : list (string * json) :=
  @optionalMember Z intCodec "waitTimeout" (WaitTimeout r).
Definition members (r : t) : list (string * json) := before r ++ @member_ string stringCodec "serviceType" (ServiceType r) ++ after r.
Definition marshal (r : t) : json := JObj (members r).
Definition assign (name : string) : option (Decoder t) :=
  if name =s "host" then Some (field Host (λ r x, mk x (InboundTransferLimit r) (PortRange r) (PublicIps r) (PypiIndexUrl r)
    (ServiceType r) (WaitTimeout r)) (decodePtr "" decodeString))
  else if name =s "inboundtransferlimit" then Some (field InboundTransferLimit (λ r x, mk (Host r) x (PortRange r)
    (PublicIps r) (PypiIndexUrl r) (ServiceType r) (WaitTimeout r)) (decodePtr 0%Z decodeInt))
  else if name =s "portrange" then Some (field PortRange (λ r x, mk (Host r) (InboundTransferLimit r) x (PublicIps r)
    (PypiIndexUrl r) (ServiceType r) (WaitTimeout r)) (decodePtr [] (decodeSlice JNull decodeUnion)))
  else if name =s "publicips" then Some (field PublicIps (λ r x, mk (Host r) (InboundTransferLimit r) (PortRange r) x
    (PypiIndexUrl r) (ServiceType r) (WaitTimeout r)) (decodePtr [] (decodeSlice "" decodeString)))
  else if name =s "pypiindexurl" then Some (field PypiIndexUrl (λ r x, mk (Host r) (InboundTransferLimit r) (PortRange r)
    (PublicIps r) x (ServiceType r) (WaitTimeout r)) (decodePtr "" decodeString))
  else if name =s "servicetype" then Some (field ServiceType (λ r x, mk (Host r) (InboundTransferLimit r) (PortRange r)
    (PublicIps r) (PypiIndexUrl r) x (WaitTimeout r)) decodeString)
  else if name =s "waittimeout" then Some (field WaitTimeout (λ r x, mk (Host r) (InboundTransferLimit r) (PortRange r)
    (PublicIps r) (PypiIndexUrl r) (ServiceType r) x) (decodePtr 0%Z decodeInt))
  else None.
Definition decode : Decoder t := decodeStruct assign.
Definition valid (r : t) : Prop := (∀ v, InboundTransferLimit r = Some v → @representable _ intCodec v) ∧ (∀ v, PortRange r
  = Some v → @representable _ (@listCodec json unionCodec) v) ∧ (∀ v, PublicIps r = Some v → @representable _ (@listCodec
  string stringCodec) v) ∧ (∀ v, WaitTimeout r = Some v → @representable _ intCodec v).
Definition with_ServiceType (r : t) (x : string) : t := mk (Host r) (InboundTransferLimit r) (PortRange r) (PublicIps r)
  (PypiIndexUrl r) x (WaitTimeout r).
End StreamerDataTransfer.

#[export, refine] Instance streamerDataTransferCodec : JsonCodec StreamerDataTransfer.t := {|
  marshal := StreamerDataTransfer.marshal; decode := StreamerDataTransfer.decode; zeroValue := StreamerDataTransfer.zero; representable := StreamerDataTransfer.valid |}.
Proof. all: expand StreamerDataTransfer.marshal StreamerDataTransfer.members StreamerDataTransfer.before StreamerDataTransfer.after; codec StreamerDataTransfer.zero StreamerDataTransfer.zero StreamerDataTransfer.decode. Defined.

Module WormholeTransferResponse.
Record t := mk { TransferMethod : string; WormholeCode : option string }.
Definition zero : t := mk "" None.
Definition members (r : t) : list (string * json) :=
  @member_ string stringCodec "transferMethod" (TransferMethod r) ++
  @optionalMember string stringCodec "wormholeCode" (WormholeCode r).
Definition marshal (r : t) : json := JObj (members r).
Definition assign (name : string) : option (Decoder t) :=
  if name =s "transfermethod" then Some (field TransferMethod (λ r x, mk x (WormholeCode r)) decodeString)
  else if name =s "wormholecode" then Some (field WormholeCode (λ r x, mk (TransferMethod r) x) (decodePtr "" decodeString))
  else None.
Definition decode : Decoder t := decodeStruct assign.
End WormholeTransferResponse.

#[export, refine] Instance wormholeTransferResponseCodec : JsonCodec WormholeTransferResponse.t := {|
  marshal := WormholeTransferResponse.marshal; decode := WormholeTransferResponse.decode; zeroValue := WormholeTransferResponse.zero; representable _ := True |}.
Proof. all: codec WormholeTransferResponse.marshal WormholeTransferResponse.members WormholeTransferResponse.decode. Defined.

Module S3TransferResponse.
Record t := mk { CompleteUploadUrl : option string; DownloadUrl : option string; MaxPartSize : option Z; PartsUploadUrls :
  option (list string); TransferMethod : string }.
Definition zero : t := mk None None None None "".
Definition members (r : t) : list (string * json) :=
  @optionalMember string stringCodec "completeUploadUrl" (CompleteUploadUrl r) ++
  @optionalMember string stringCodec "downloadUrl" (DownloadUrl r) ++
  @optionalMember Z intCodec "maxPartSize" (MaxPartSize r) ++
  @optionalMember (list string) (@listCodec string stringCodec) "partsUploadUrls" (PartsUploadUrls r) ++
  @member_ string stringCodec "transferMethod" (TransferMethod r).
Definition marshal (r : t) : json := JObj (members r).
Definition assign (name : string) : option (Decoder t) :=
  if name =s "completeuploadurl" then Some (field CompleteUploadUrl (λ r x, mk x (DownloadUrl r) (MaxPartSize r)
    (PartsUploadUrls r) (TransferMethod r)) (decodePtr "" decodeString))
  else if name =s "downloadurl" then Some (field DownloadUrl (λ r x, mk (CompleteUploadUrl r) x (MaxPartSize r)
    (PartsUploadUrls r) (TransferMethod r)) (decodePtr "" decodeString))
  else if name =s "maxpartsize" then Some (field MaxPartSize (λ r x, mk (CompleteUploadUrl r) (DownloadUrl r) x
    (PartsUploadUrls r) (TransferMethod r)) (decodePtr 0%Z decodeInt))
  else if name =s "partsuploadurls" then Some (field PartsUploadUrls (λ r x, mk (CompleteUploadUrl r) (DownloadUrl r)
    (MaxPartSize r) x (TransferMethod r)) (decodePtr [] (decodeSlice "" decodeString)))
  else if name =s "transfermethod" then Some (field TransferMethod (λ r x, mk (CompleteUploadUrl r) (DownloadUrl r)
    (MaxPartSize r) (PartsUploadUrls r) x) decodeString)
  else None.
Definition decode : Decoder t := decodeStruct assign.
Definition valid (r : t) : Prop := (∀ v, MaxPartSize r = Some v → @representable _ intCodec v) ∧ (∀ v, PartsUploadUrls r =
  Some v → @representable _ (@listCodec string stringCodec) v).
End S3TransferResponse.

#[export, refine] Instance s3TransferResponseCodec : JsonCodec S3TransferResponse.t := {|
  marshal := S3TransferResponse.marshal; decode := S3TransferResponse.decode; zeroValue := S3TransferResponse.zero; representable := S3TransferResponse.valid |}.
Proof. all: codec S3TransferResponse.marshal S3TransferResponse.members S3TransferResponse.decode. Defined.

Module StreamerTransferResponse.
Record t := mk { Coordinates : option string; TransferMethod : string }.
Definition zero : t := mk None "".
Definition members (r : t) : list (string * json) :=
  @optionalMember string stringCodec "coordinates" (Coordinates r) ++
  @member_ string stringCodec "transferMethod" (TransferMethod r).
Definition marshal (r : t) : json := JObj (members r).
Definition assign (name : string) : option (Decoder t) :=
  if name =s "coordinates" then Some (field Coordinates (λ r x, mk x (TransferMethod r)) (decodePtr "" decodeString))
  else if name =s "transfermethod" then Some (field TransferMethod (λ r x, mk (Coordinates r) x) decodeString)
  else None.
Definition decode : Decoder t := decodeStruct assign.
End StreamerTransferResponse.

#[export, refine] Instance streamerTransferResponseCodec : JsonCodec StreamerTransferResponse.t := {|
  marshal := StreamerTransferResponse.marshal; decode := StreamerTransferResponse.decode; zeroValue := StreamerTransferResponse.zero; representable _ := True |}.
Proof. all: codec StreamerTransferResponse.marshal StreamerTransferResponse.members StreamerTransferResponse.decode. Defined.

Module SchedulerServiceHealth.
Record t := mk { Healthy : option bool; LastChecked : option string; Latency : option string; Message : option string;
  ServiceType : string }.
Definition zero : t := mk None None None None "".
Definition members (r : t) : list (string * json) :=
  @optionalMember bool boolCodec "healthy" (Healthy r) ++
  @optionalMember string timeCodec "lastChecked" (LastChecked r) ++
  @optionalMember string numberCodec "latency" (Latency r) ++
  @optionalMember string stringCodec "message" (Message r) ++
  @member_ string stringCodec "serviceType" (ServiceType r).
Definition marshal (r : t) : json := JObj (members r).
Definition assign (name : string) : option (Decoder t) :=
  if name =s "healthy" then Some (field Healthy (λ r x, mk x (LastChecked r) (Latency r) (Message r) (ServiceType r))
    (decodePtr false decodeBool))
  else if name =s "lastchecked" then Some (field LastChecked (λ r x, mk (Healthy r) x (Latency r) (Message r) (ServiceType
    r)) (decodePtr "" decodeTimeText))
  else if name =s "latency" then Some (field Latency (λ r x, mk (Healthy r) (LastChecked r) x (Message r) (ServiceType r))
    (decodePtr "" decodeNumber))
  else if name =s "message" then Some (field Message (λ r x, mk (Healthy r) (LastChecked r) (Latency r) x (ServiceType r))
    (decodePtr "" decodeString))
  else if name =s "servicetype" then Some (field ServiceType (λ r x, mk (Healthy r) (LastChecked r) (Latency r) (Message r)
    x) decodeString)
  else None.
Definition decode : Decoder t := decodeStruct assign.
Definition valid (r : t) : Prop := (∀ v, LastChecked r = Some v → @representable _ timeCodec v) ∧ (∀ v, Latency r = Some v →
  @representable _ numberCodec v).
End SchedulerServiceHealth.

#[export, refine] Instance schedulerServiceHealthCodec : JsonCodec SchedulerServiceHealth.t := {|
  marshal := SchedulerServiceHealth.marshal; decode := SchedulerServiceHealth.decode; zeroValue := SchedulerServiceHealth.zero; representable := SchedulerServiceHealth.valid |}.
Proof. all: codec SchedulerServiceHealth.marshal SchedulerServiceHealth.members SchedulerServiceHealth.decode. Defined.

Module FilesystemServiceHealth.
Record t := mk { Healthy : option bool; LastChecked : option string; Latency : option string; Message : option string; Path
  : option string; ServiceType : string }.
Definition zero : t := mk None None None None None "".
Definition members (r : t) : list (string * json) :=
  @optionalMember bool boolCodec "healthy" (Healthy r) ++
  @optionalMember string timeCodec "lastChecked" (LastChecked r) ++
  @optionalMember string numberCodec "latency" (Latency r) ++
  @optionalMember string stringCodec "message" (Message r) ++
  @optionalMember string stringCodec "path" (Path r) ++
  @member_ string stringCodec "serviceType" (ServiceType r).
Definition marshal (r : t) : json := JObj (members r).
Definition assign (name : string) : option (Decoder t) :=
  if name =s "healthy" then Some (field Healthy (λ r x, mk x (LastChecked r) (Latency r) (Message r) (Path r) (ServiceType
    r)) (decodePtr false decodeBool))
  else if name =s "lastchecked" then Some (field LastChecked (λ r x, mk (Healthy r) x (Latency r) (Message r) (Path r)
    (ServiceType r)) (decodePtr "" decodeTimeText))
  else if name =s "latency" then Some (field Latency (λ r x, mk (Healthy r) (LastChecked r) x (Message r) (Path r)
    (ServiceType r)) (decodePtr "" decodeNumber))
  else if name =s "message" then Some (field Message (λ r x, mk (Healthy r) (LastChecked r) (Latency r) x (Path r)
    (ServiceType r)) (decodePtr "" decodeString))
  else if name =s "path" then Some (field Path (λ r x, mk (Healthy r) (LastChecked r) (Latency r) (Message r) x (ServiceType
    r)) (decodePtr "" decodeString))
  else if name =s "servicetype" then Some (field ServiceType (λ r x, mk (Healthy r) (LastChecked r) (Latency r) (Message r)
    (Path r) x) decodeString)
  else None.
Definition decode : Decoder t := decodeStruct assign.
Definition valid (r : t) : Prop := (∀ v, LastChecked r = Some v → @representable _ timeCodec v) ∧ (∀ v, Latency r = Some v →
  @representable _ numberCodec v).
End FilesystemServiceHealth.

#[export, refine] Instance filesystemServiceHealthCodec : JsonCodec FilesystemServiceHealth.t := {|
  marshal := FilesystemServiceHealth.marshal; decode := FilesystemServiceHealth.decode; zeroValue := FilesystemServiceHealth.zero; representable := FilesystemServiceHealth.valid |}.
Proof. all: codec FilesystemServiceHealth.marshal FilesystemServiceHealth.members FilesystemServiceHealth.decode. Defined.

Module SSHServiceHealth.
Record t := mk { Healthy : option bool; LastChecked : option string; Latency : option string; Message : option string;
  ServiceType : string }.
Definition zero : t := mk None None None None "".
Definition members (r : t) : list (string * json) :=
  @optionalMember bool boolCodec "healthy" (Healthy r) ++
  @optionalMember string timeCodec "lastChecked" (LastChecked r) ++
  @optionalMember string numberCodec "latency" (Latency r) ++
  @optionalMember string stringCodec "message" (Message r) ++
  @member_ string stringCodec "serviceType" (ServiceType r).
Definition marshal (r : t) : json := JObj (members r).
Definition assign (name : string) : option (Decoder t) :=
  if name =s "healthy" then Some (field Healthy (λ r x, mk x (LastChecked r) (Latency r) (Message r) (ServiceType r))
    (decodePtr false decodeBool))
  else if name =s "lastchecked" then Some (field LastChecked (λ r x, mk (Healthy r) x (Latency r) (Message r) (ServiceType
    r)) (decodePtr "" decodeTimeText))
  else if name =s "latency" then Some (field Latency (λ r x, mk (Healthy r) (LastChecked r) x (Message r) (ServiceType r))
    (decodePtr "" decodeNumber))
  else if name =s "message" then Some (field Message (λ r x, mk (Healthy r) (LastChecked r) (Latency r) x (ServiceType r))
    (decodePtr "" decodeString))
  else if name =s "servicetype" then Some (field ServiceType (λ r x, mk (Healthy r) (LastChecked r) (Latency r) (Message r)
    x) decodeString)
  else None.
Definition decode : Decoder t := decodeStruct assign.
Definition valid (r : t) : Prop := (∀ v, LastChecked r = Some v → @representable _ timeCodec v) ∧ (∀ v, Latency r = Some v →
  @representable _ numberCodec v).
End SSHServiceHealth.

#[export, refine] Instance sSHServiceHealthCodec : JsonCodec SSHServiceHealth.t := {|
  marshal := SSHServiceHealth.marshal; decode := SSHServiceHealth.decode; zeroValue := SSHServiceHealth.zero; representable := SSHServiceHealth.valid |}.
Proof. all: codec SSHServiceHealth.marshal SSHServiceHealth.members SSHServiceHealth.decode. Defined.

Module S3ServiceHealth.
Record t := mk { Healthy : option bool; LastChecked : option string; Latency : option string; Message : option string;
  ServiceType : string }.
Definition zero : t := mk None None None None "".
Definition members (r : t) : list (string * json) :=
  @optionalMember bool boolCodec "healthy" (Healthy r) ++
  @optionalMember string timeCodec "lastChecked" (LastChecked r) ++
  @optionalMember string numberCodec "latency" (Latency r) ++
  @optionalMember string stringCodec "message" (Message r) ++
  @member_ string stringCodec "serviceType" (ServiceType r).
Definition marshal (r : t) : json := JObj (members r).
Definition assign (name : string) : option (Decoder t) :=
  if name =s "healthy" then Some (field Healthy (λ r x, mk x (LastChecked r) (Latency r) (Message r) (ServiceType r))
    (decodePtr false decodeBool))
  else if name =s "lastchecked" then Some (field LastChecked (λ r x, mk (Healthy r) x (Latency r) (Message r) (ServiceType
    r)) (decodePtr "" decodeTimeText))
  else if name =s "latency" then Some (field Latency (λ r x, mk (Healthy r) (LastChecked r) x (Message r) (ServiceType r))
    (decodePtr "" decodeNumber))
  else if name =s "message" then Some (field Message (λ r x, mk (Healthy r) (LastChecked r) (Latency r) x (ServiceType r))
    (decodePtr "" decodeString))
  else if name =s "servicetype" then Some (field ServiceType (λ r x, mk (Healthy r) (LastChecked r) (Latency r) (Message r)
    x) decodeString)
  else None.
Definition decode : Decoder t := decodeStruct assign.
Definition valid (r : t) : Prop := (∀ v, LastChecked r = Some v → @representable _ timeCodec v) ∧ (∀ v, Latency r = Some v →
  @representable _ numberCodec v).
End S3ServiceHealth.

#[export, refine] Instance s3ServiceHealthCodec : JsonCodec S3ServiceHealth.t := {|
  marshal := S3ServiceHealth.marshal; decode := S3ServiceHealth.decode; zeroValue := S3ServiceHealth.zero; representable := S3ServiceHealth.valid |}.
Proof. all: codec S3ServiceHealth.marshal S3ServiceHealth.members S3ServiceHealth.decode. Defined.

Module HealthCheckException.
Record t := mk { Healthy : option bool; LastChecked : option string; Latency : option string; Message : option string;
  ServiceType : string }.
Definition zero : t := mk None None None None "".
Definition members (r : t) : list (string * json) :=
  @optionalMember bool boolCodec "healthy" (Healthy r) ++
  @optionalMember string timeCodec "lastChecked" (LastChecked r) ++
  @optionalMember string numberCodec "latency" (Latency r) ++
  @optionalMember string stringCodec "message" (Message r) ++
  @member_ string stringCodec "serviceType" (ServiceType r).
Definition marshal (r : t) : json := JObj (members r).
Definition assign (name : string) : option (Decoder t) :=
  if name =s "healthy" then Some (field Healthy (λ r x, mk x (LastChecked r) (Latency r) (Message r) (ServiceType r))
    (decodePtr false decodeBool))
  else if name =s "lastchecked" then Some (field LastChecked (λ r x, mk (Healthy r) x (Latency r) (Message r) (ServiceType
    r)) (decodePtr "" decodeTimeText))
  else if name =s "latency" then Some (field Latency (λ r x, mk (Healthy r) (LastChecked r) x (Message r) (ServiceType r))
    (decodePtr "" decodeNumber))
  else if name =s "message" then Some (field Message (λ r x, mk (Healthy r) (LastChecked r) (Latency r) x (ServiceType r))
    (decodePtr "" decodeString))
  else if name =s "servicetype" then Some (field ServiceType (λ r x, mk (Healthy r) (LastChecked r) (Latency r) (Message r)
    x) decodeString)
  else None.
Definition decode : Decoder t := decodeStruct assign.
Definition valid (r : t) : Prop := (∀ v, LastChecked r = Some v → @representable _ timeCodec v) ∧ (∀ v, Latency r = Some v →
  @representable _ numberCodec v).
End HealthCheckException.

#[export, refine] Instance healthCheckExceptionCodec : JsonCodec HealthCheckException.t := {|
  marshal := HealthCheckException.marshal; decode := HealthCheckException.decode; zeroValue := HealthCheckException.zero; representable := HealthCheckException.valid |}.
Proof. all: codec HealthCheckException.marshal HealthCheckException.members HealthCheckException.decode. Defined.

Module WormholeTransferRequest.
Record t := mk { TransferMethod : string }.
Definition zero : t := mk "".
Definition members (r : t) : list (string * json) :=
  @member_ string stringCodec "transferMethod" (TransferMethod r).
Definition marshal (r : t) : json := JObj (members r).
Definition assign (name : string) : option (Decoder t) :=
  if name =s "transfermethod" then Some (field TransferMethod (λ r x, mk x) decodeString)
  else None.
Definition decode : Decoder t := decodeStruct assign.
End WormholeTransferRequest.

#[export, refine] Instance wormholeTransferRequestCodec : JsonCodec WormholeTransferRequest.t := {|
  marshal := WormholeTransferRequest.marshal; decode := WormholeTransferRequest.decode; zeroValue := WormholeTransferRequest.zero; representable _ := True |}.
Proof. all: codec WormholeTransferRequest.marshal WormholeTransferRequest.members WormholeTransferRequest.decode. Defined.

Module S3TransferRequest.
Record t := mk { FileSize : option Z; TransferMethod : string }.
Definition zero : t := mk None "".
Definition members (r : t) : list (string * json) :=
  @optionalMember Z intCodec "fileSize" (FileSize r) ++
  @member_ string stringCodec "transferMethod" (TransferMethod r).
Definition marshal (r : t) : json := JObj (members r).
Definition assign (name : string) : option (Decoder t) :=
  if name =s "filesize" then Some (field FileSize (λ r x, mk x (TransferMethod r)) (decodePtr 0%Z decodeInt))
  else if name =s "transfermethod" then Some (field TransferMethod (λ r x, mk (FileSize r) x) decodeString)
  else None.
Definition decode : Decoder t := decodeStruct assign.
Definition valid (r : t) : Prop := (∀ v, FileSize r = Some v → @representable _ intCodec v).
End S3TransferRequest.

#[export, refine] Instance s3TransferRequestCodec : JsonCodec S3TransferRequest.t := {|
  marshal := S3TransferRequest.marshal; decode := S3TransferRequest.decode; zeroValue := S3TransferRequest.zero; representable := S3TransferRequest.valid |}.
Proof. all: codec S3TransferRequest.marshal S3TransferRequest.members S3TransferRequest.decode. Defined.

Module StreamerTransferRequest.
Record t := mk { TransferMethod : string }.
Definition zero : t := mk "".
Definition members (r : t) : list (string * json) :=
  @member_ string stringCodec "transferMethod" (TransferMethod r).
Definition marshal (r : t) : json := JObj (members r).
Definition assign (name : string) : option (Decoder t) :=
  if name =s "transfermethod" then Some (field TransferMethod (λ r x, mk x) decodeString)
  else None.
Definition decode : Decoder t := decodeStruct assign.
End StreamerTransferRequest.

#[export, refine] Instance streamerTransferRequestCodec : JsonCodec StreamerTransferRequest.t := {|
  marshal := StreamerTransferRequest.marshal; decode := StreamerTransferRequest.decode; zeroValue := StreamerTransferRequest.zero; representable _ := True |}.
Proof. all: codec StreamerTransferRequest.marshal StreamerTransferRequest.members StreamerTransferRequest.decode. Defined.

Module WormholeTransferUploadRequest.
Record t := mk { TransferMethod : string; WormholeCode : string }.
Definition zero : t := mk "" "".
Definition members (r : t) : list (string * json) :=
  @member_ string stringCodec "transferMethod" (TransferMethod r) ++
  @member_ string stringCodec "wormholeCode" (WormholeCode r).
Definition marshal (r : t) : json := JObj (members r).
Definition assign (name : string) : option (Decoder t) :=
  if name =s "transfermethod" then Some (field TransferMethod (λ r x, mk x (WormholeCode r)) decodeString)
  else if name =s "wormholecode" then Some (field WormholeCode (λ r x, mk (TransferMethod r) x) decodeString)
  else None.
Definition decode : Decoder t := decodeStruct assign.
End WormholeTransferUploadRequest.

#[export, refine] Instance wormholeTransferUploadRequestCodec : JsonCodec WormholeTransferUploadRequest.t := {|
  marshal := WormholeTransferUploadRequest.marshal; decode := WormholeTransferUploadRequest.decode; zeroValue := WormholeTransferUploadRequest.zero; representable _ := True |}.
Proof. all: codec WormholeTransferUploadRequest.marshal WormholeTransferUploadRequest.members WormholeTransferUploadRequest.decode. Defined.

(** ** Unions *)

(** The text of a union as a JSON value; [None] as long as nothing has been set. *)
Definition Union : Type := option json.

(** [runtime.JSONMerge]: the members of the second object are set in the first;
    no text is an empty object. *)
Class JsonMerge := {
  JSONMerge : Union → json → Result json;
  JSONMerge_member : ∀ l key s, NoDup l.*1 → ∃ l', JSONMerge (Some (JObj l)) (JObj [(key, JStr s)]) = inl (JObj l') ∧
    l' ≡ₚ (key, JStr s) :: filter (λ m, m.1 ≠ key) l }.

(** [json.Unmarshal(t.union, &body)] *)
Definition asVariant `{JsonCodec A} (t : Union) : A * option GoError :=
  match t with
  | None => (zeroValue, Some (Errorf "unexpected end of JSON input"))
  | Some v => decode v zeroValue
  end.

Definition fromVariant `{JsonCodec A} (v : A) : Union * option GoError := (Some (marshal v), None).

(** What the result of a merge does to the union: an error leaves it empty. *)
Definition setMerged (r : Result json) : Union * option GoError :=
  match r with inl merged => (Some merged, None) | inr err => (None, Some err) end.

Definition mergeVariant `{JsonMerge} `{JsonCodec A} (t : Union) (v : A) : Union * option GoError :=
  setMerged (JSONMerge t (marshal v)).

Definition discriminate (service : string) : json := JObj [("serviceType", JStr service)].

Definition fromDiscriminated `{JsonMerge} `{JsonCodec A} (service : string) (v : A) : Union * option GoError :=
  setMerged (JSONMerge (Some (marshal v)) (discriminate service)).

Definition mergeDiscriminated `{JsonMerge} `{JsonCodec A} (service : string) (t : Union) (v : A) : Union * option GoError :=
  match JSONMerge (Some (marshal v)) (discriminate service) with
  | inr err => (t, Some err)
  | inl b => setMerged (JSONMerge t b)
  end.

(** [MarshalJSON] and [UnmarshalJSON] *)
Definition Union_MarshalJSON (t : Union) : json := default JNull t.
Definition Union_UnmarshalJSON (b : json) : Union := Some b.

Module DataOperation_DataTransfer.
Section Merge.
Context `{JsonMerge}.
Definition AsS3DataTransfer (t : Union) : S3DataTransfer.t * option GoError := @asVariant S3DataTransfer.t s3DataTransferCodec t.
Definition FromS3DataTransfer (v : S3DataTransfer.t) : Union * option GoError := @fromDiscriminated _ S3DataTransfer.t s3DataTransferCodec "s3" v.
Definition MergeS3DataTransfer (t : Union) (v : S3DataTransfer.t) : Union * option GoError :=
  @mergeDiscriminated _ S3DataTransfer.t s3DataTransferCodec "s3" t v.
Definition AsWormholeDataTransfer (t : Union) : WormholeDataTransfer.t * option GoError := @asVariant WormholeDataTransfer.t wormholeDataTransferCodec t.
Definition FromWormholeDataTransfer (v : WormholeDataTransfer.t) : Union * option GoError := @fromDiscriminated _ WormholeDataTransfer.t wormholeDataTransferCodec "wormhole" v.
Definition MergeWormholeDataTransfer (t : Union) (v : WormholeDataTransfer.t) : Union * option GoError :=
  @mergeDiscriminated _ WormholeDataTransfer.t wormholeDataTransferCodec "wormhole" t v.
Definition AsStreamerDataTransfer (t : Union) : StreamerDataTransfer.t * option GoError := @asVariant StreamerDataTransfer.t streamerDataTransferCodec t.
Definition FromStreamerDataTransfer (v : StreamerDataTransfer.t) : Union * option GoError := @fromDiscriminated _ StreamerDataTransfer.t streamerDataTransferCodec "streamer" v.
Definition MergeStreamerDataTransfer (t : Union) (v : StreamerDataTransfer.t) : Union * option GoError :=
  @mergeDiscriminated _ StreamerDataTransfer.t streamerDataTransferCodec "streamer" t v.
End Merge.
Definition Discriminator (t : Union) : string * option GoError :=
  match t with
  | None => ("", Some (Errorf "unexpected end of JSON input"))
  | Some v => decodeStruct (λ name, if name =s "servicetype" then Some decodeString else None) v ""
  end.

(** The variants, as an interface value. *)
Inductive Value := IsS3 (v : S3DataTransfer.t) | IsStreamer (v : StreamerDataTransfer.t) | IsWormhole (v : WormholeDataTransfer.t).

Definition ValueByDiscriminator (t : Union) : option Value * option GoError :=
  match Discriminator t with
  | (_, Some err) => (None, Some err)
  | (discriminator, None) =>
      if discriminator =s "s3" then let '(v, err) := AsS3DataTransfer t in (Some (IsS3 v), err)
      else if discriminator =s "streamer" then let '(v, err) := AsStreamerDataTransfer t in (Some (IsStreamer v), err)
      else if discriminator =s "wormhole" then let '(v, err) := AsWormholeDataTransfer t in (Some (IsWormhole v), err)
      else (None, Some (Errorf ("unknown discriminator value: " +:+ discriminator)))
  end.

End DataOperation_DataTransfer.

Module DownloadFileResponse_TransferDirectives.
Section Merge.
Context `{JsonMerge}.
Definition AsWormholeTransferResponse (t : Union) : WormholeTransferResponse.t * option GoError := @asVariant WormholeTransferResponse.t wormholeTransferResponseCodec t.
Definition FromWormholeTransferResponse (v : WormholeTransferResponse.t) : Union * option GoError := @fromVariant WormholeTransferResponse.t wormholeTransferResponseCodec v.
Definition MergeWormholeTransferResponse (t : Union) (v : WormholeTransferResponse.t) : Union * option GoError := @mergeVariant _ WormholeTransferResponse.t wormholeTransferResponseCodec t v.
Definition AsS3TransferResponse (t : Union) : S3TransferResponse.t * option GoError := @asVariant S3TransferResponse.t s3TransferResponseCodec t.
Definition FromS3TransferResponse (v : S3TransferResponse.t) : Union * option GoError := @fromVariant S3TransferResponse.t s3TransferResponseCodec v.
Definition MergeS3TransferResponse (t : Union) (v : S3TransferResponse.t) : Union * option GoError := @mergeVariant _ S3TransferResponse.t s3TransferResponseCodec t v.
Definition AsStreamerTransferResponse (t : Union) : StreamerTransferResponse.t * option GoError := @asVariant StreamerTransferResponse.t streamerTransferResponseCodec t.
Definition FromStreamerTransferResponse (v : StreamerTransferResponse.t) : Union * option GoError := @fromVariant StreamerTransferResponse.t streamerTransferResponseCodec v.
Definition MergeStreamerTransferResponse (t : Union) (v : StreamerTransferResponse.t) : Union * option GoError := @mergeVariant _ StreamerTransferResponse.t streamerTransferResponseCodec t v.
End Merge.
End DownloadFileResponse_TransferDirectives.

Module HPCCluster_ServicesHealth_Item.
Section Merge.
Context `{JsonMerge}.
Definition AsSchedulerServiceHealth (t : Union) : SchedulerServiceHealth.t * option GoError := @asVariant SchedulerServiceHealth.t schedulerServiceHealthCodec t.
Definition FromSchedulerServiceHealth (v : SchedulerServiceHealth.t) : Union * option GoError := @fromVariant SchedulerServiceHealth.t schedulerServiceHealthCodec v.
Definition MergeSchedulerServiceHealth (t : Union) (v : SchedulerServiceHealth.t) : Union * option GoError := @mergeVariant _ SchedulerServiceHealth.t schedulerServiceHealthCodec t v.
Definition AsFilesystemServiceHealth (t : Union) : FilesystemServiceHealth.t * option GoError := @asVariant FilesystemServiceHealth.t filesystemServiceHealthCodec t.
Definition FromFilesystemServiceHealth (v : FilesystemServiceHealth.t) : Union * option GoError := @fromVariant FilesystemServiceHealth.t filesystemServiceHealthCodec v.
Definition MergeFilesystemServiceHealth (t : Union) (v : FilesystemServiceHealth.t) : Union * option GoError := @mergeVariant _ FilesystemServiceHealth.t filesystemServiceHealthCodec t v.
Definition AsSSHServiceHealth (t : Union) : SSHServiceHealth.t * option GoError := @asVariant SSHServiceHealth.t sSHServiceHealthCodec t.
Definition FromSSHServiceHealth (v : SSHServiceHealth.t) : Union * option GoError := @fromVariant SSHServiceHealth.t sSHServiceHealthCodec v.
Definition MergeSSHServiceHealth (t : Union) (v : SSHServiceHealth.t) : Union * option GoError := @mergeVariant _ SSHServiceHealth.t sSHServiceHealthCodec t v.
Definition AsS3ServiceHealth (t : Union) : S3ServiceHealth.t * option GoError := @asVariant S3ServiceHealth.t s3ServiceHealthCodec t.
Definition FromS3ServiceHealth (v : S3ServiceHealth.t) : Union * option GoError := @fromVariant S3ServiceHealth.t s3ServiceHealthCodec v.
Definition MergeS3ServiceHealth (t : Union) (v : S3ServiceHealth.t) : Union * option GoError := @mergeVariant _ S3ServiceHealth.t s3ServiceHealthCodec t v.
Definition AsHealthCheckException (t : Union) : HealthCheckException.t * option GoError := @asVariant HealthCheckException.t healthCheckExceptionCodec t.
Definition FromHealthCheckException (v : HealthCheckException.t) : Union * option GoError := @fromVariant HealthCheckException.t healthCheckExceptionCodec v.
Definition MergeHealthCheckException (t : Union) (v : HealthCheckException.t) : Union * option GoError := @mergeVariant _ HealthCheckException.t healthCheckExceptionCodec t v.
End Merge.
End HPCCluster_ServicesHealth_Item.

Module JobDescriptionModel_Env.
Section Merge.
Context `{JsonMerge}.
Definition AsJobDescriptionModelEnv0 (t : Union) : (gmap string string) * option GoError := @asVariant (gmap string string) envCodec t.
Definition FromJobDescriptionModelEnv0 (v : (gmap string string)) : Union * option GoError := @fromVariant (gmap string string) envCodec v.
Definition MergeJobDescriptionModelEnv0 (t : Union) (v : (gmap string string)) : Union * option GoError := @mergeVariant _ (gmap string string) envCodec t v.
Definition AsJobDescriptionModelEnv1 (t : Union) : (list string) * option GoError := @asVariant (list string) (@listCodec string stringCodec) t.
Definition FromJobDescriptionModelEnv1 (v : (list string)) : Union * option GoError := @fromVariant (list string) (@listCodec string stringCodec) v.
Definition MergeJobDescriptionModelEnv1 (t : Union) (v : (list string)) : Union * option GoError := @mergeVariant _ (list string) (@listCodec string stringCodec) t v.
End Merge.
End JobDescriptionModel_Env.

Module NodeModel_Features.
Section Merge.
Context `{JsonMerge}.
Definition AsNodeModelFeatures0 (t : Union) : string * option GoError := @asVariant string stringCodec t.
Definition FromNodeModelFeatures0 (v : string) : Union * option GoError := @fromVariant string stringCodec v.
Definition MergeNodeModelFeatures0 (t : Union) (v : string) : Union * option GoError := @mergeVariant _ string stringCodec t v.
Definition AsNodeModelFeatures1 (t : Union) : (list string) * option GoError := @asVariant (list string) (@listCodec string stringCodec) t.
Definition FromNodeModelFeatures1 (v : (list string)) : Union * option GoError := @fromVariant (list string) (@listCodec string stringCodec) v.
Definition MergeNodeModelFeatures1 (t : Union) (v : (list string)) : Union * option GoError := @mergeVariant _ (list string) (@listCodec string stringCodec) t v.
End Merge.
End NodeModel_Features.

Module NodeModel_State.
Section Merge.
Context `{JsonMerge}.
Definition AsNodeModelState0 (t : Union) : string * option GoError := @asVariant string stringCodec t.
Definition FromNodeModelState0 (v : string) : Union * option GoError := @fromVariant string stringCodec v.
Definition MergeNodeModelState0 (t : Union) (v : string) : Union * option GoError := @mergeVariant _ string stringCodec t v.
Definition AsNodeModelState1 (t : Union) : (list string) * option GoError := @asVariant (list string) (@listCodec string stringCodec) t.
Definition FromNodeModelState1 (v : (list string)) : Union * option GoError := @fromVariant (list string) (@listCodec string stringCodec) v.
Definition MergeNodeModelState1 (t : Union) (v : (list string)) : Union * option GoError := @mergeVariant _ (list string) (@listCodec string stringCodec) t v.
End Merge.
End NodeModel_State.

Module PartitionModel_Partition.
Section Merge.
Context `{JsonMerge}.
Definition AsPartitionModelPartition0 (t : Union) : string * option GoError := @asVariant string stringCodec t.
Definition FromPartitionModelPartition0 (v : string) : Union * option GoError := @fromVariant string stringCodec v.
Definition MergePartitionModelPartition0 (t : Union) (v : string) : Union * option GoError := @mergeVariant _ string stringCodec t v.
Definition AsPartitionModelPartition1 (t : Union) : (list string) * option GoError := @asVariant (list string) (@listCodec string stringCodec) t.
Definition FromPartitionModelPartition1 (v : (list string)) : Union * option GoError := @fromVariant (list string) (@listCodec string stringCodec) v.
Definition MergePartitionModelPartition1 (t : Union) (v : (list string)) : Union * option GoError := @mergeVariant _ (list string) (@listCodec string stringCodec) t v.
End Merge.
End PartitionModel_Partition.

Module PostFileDownloadRequest_TransferDirectives.
Section Merge.
Context `{JsonMerge}.
Definition AsWormholeTransferRequest (t : Union) : WormholeTransferRequest.t * option GoError := @asVariant WormholeTransferRequest.t wormholeTransferRequestCodec t.
Definition FromWormholeTransferRequest (v : WormholeTransferRequest.t) : Union * option GoError := @fromVariant WormholeTransferRequest.t wormholeTransferRequestCodec v.
Definition MergeWormholeTransferRequest (t : Union) (v : WormholeTransferRequest.t) : Union * option GoError := @mergeVariant _ WormholeTransferRequest.t wormholeTransferRequestCodec t v.
Definition AsS3TransferRequest (t : Union) : S3TransferRequest.t * option GoError := @asVariant S3TransferRequest.t s3TransferRequestCodec t.
Definition FromS3TransferRequest (v : S3TransferRequest.t) : Union * option GoError := @fromVariant S3TransferRequest.t s3TransferRequestCodec v.
Definition MergeS3TransferRequest (t : Union) (v : S3TransferRequest.t) : Union * option GoError := @mergeVariant _ S3TransferRequest.t s3TransferRequestCodec t v.
Definition AsStreamerTransferRequest (t : Union) : StreamerTransferRequest.t * option GoError := @asVariant StreamerTransferRequest.t streamerTransferRequestCodec t.
Definition FromStreamerTransferRequest (v : StreamerTransferRequest.t) : Union * option GoError := @fromVariant StreamerTransferRequest.t streamerTransferRequestCodec v.
Definition MergeStreamerTransferRequest (t : Union) (v : StreamerTransferRequest.t) : Union * option GoError := @mergeVariant _ StreamerTransferRequest.t streamerTransferRequestCodec t v.
End Merge.
End PostFileDownloadRequest_TransferDirectives.

Module PostFileUploadRequest_TransferDirectives.
Section Merge.
Context `{JsonMerge}.
Definition AsWormholeTransferUploadRequest (t : Union) : WormholeTransferUploadRequest.t * option GoError := @asVariant WormholeTransferUploadRequest.t wormholeTransferUploadRequestCodec t.
Definition FromWormholeTransferUploadRequest (v : WormholeTransferUploadRequest.t) : Union * option GoError := @fromVariant WormholeTransferUploadRequest.t wormholeTransferUploadRequestCodec v.
Definition MergeWormholeTransferUploadRequest (t : Union) (v : WormholeTransferUploadRequest.t) : Union * option GoError := @mergeVariant _ WormholeTransferUploadRequest.t wormholeTransferUploadRequestCodec t v.
Definition AsS3TransferRequest (t : Union) : S3TransferRequest.t * option GoError := @asVariant S3TransferRequest.t s3TransferRequestCodec t.
Definition FromS3TransferRequest (v : S3TransferRequest.t) : Union * option GoError := @fromVariant S3TransferRequest.t s3TransferRequestCodec v.
Definition MergeS3TransferRequest (t : Union) (v : S3TransferRequest.t) : Union * option GoError := @mergeVariant _ S3TransferRequest.t s3TransferRequestCodec t v.
Definition AsStreamerTransferRequest (t : Union) : StreamerTransferRequest.t * option GoError := @asVariant StreamerTransferRequest.t streamerTransferRequestCodec t.
Definition FromStreamerTransferRequest (v : StreamerTransferRequest.t) : Union * option GoError := @fromVariant StreamerTransferRequest.t streamerTransferRequestCodec v.
Definition MergeStreamerTransferRequest (t : Union) (v : StreamerTransferRequest.t) : Union * option GoError := @mergeVariant _ StreamerTransferRequest.t streamerTransferRequestCodec t v.
End Merge.
End PostFileUploadRequest_TransferDirectives.

Module UploadFileResponse_TransferDirectives.
Section Merge.
Context `{JsonMerge}.
Definition AsWormholeTransferResponse (t : Union) : WormholeTransferResponse.t * option GoError := @asVariant WormholeTransferResponse.t wormholeTransferResponseCodec t.
Definition FromWormholeTransferResponse (v : WormholeTransferResponse.t) : Union * option GoError := @fromVariant WormholeTransferResponse.t wormholeTransferResponseCodec v.
Definition MergeWormholeTransferResponse (t : Union) (v : WormholeTransferResponse.t) : Union * option GoError := @mergeVariant _ WormholeTransferResponse.t wormholeTransferResponseCodec t v.
Definition AsS3TransferResponse (t : Union) : S3TransferResponse.t * option GoError := @asVariant S3TransferResponse.t s3TransferResponseCodec t.
Definition FromS3TransferResponse (v : S3TransferResponse.t) : Union * option GoError := @fromVariant S3TransferResponse.t s3TransferResponseCodec v.
Definition MergeS3TransferResponse (t : Union) (v : S3TransferResponse.t) : Union * option GoError := @mergeVariant _ S3TransferResponse.t s3TransferResponseCodec t v.
Definition AsStreamerTransferResponse (t : Union) : StreamerTransferResponse.t * option GoError := @asVariant StreamerTransferResponse.t streamerTransferResponseCodec t.
Definition FromStreamerTransferResponse (v : StreamerTransferResponse.t) : Union * option GoError := @fromVariant StreamerTransferResponse.t streamerTransferResponseCodec v.
Definition MergeStreamerTransferResponse (t : Union) (v : StreamerTransferResponse.t) : Union * option GoError := @mergeVariant _ StreamerTransferResponse.t streamerTransferResponseCodec t v.
End Merge.
End UploadFileResponse_TransferDirectives.

(** ** Structs are decoded in any order of their members *)

(** Two decoders of different fields. *)
Definition commutes {A} (d1 d2 : Decoder A) : Prop :=
  ∀ v1 v2 a b c, d1 v1 a = (b, None) → d2 v2 b = (c, None) → ∃ b', d2 v2 a = (b', None) ∧ d1 v1 b' = (c, None).

Lemma commutes_field {A B C} get1 set1 (d1 : Decoder B) get2 set2 (d2 : Decoder C) :
  (∀ (a : A) x, get2 (set1 a x) = get2 a) → (∀ a y, get1 (set2 a y) = get1 a) →
  (∀ a x y, set2 (set1 a x) y = set1 (set2 a y) x) → commutes (field get1 set1 d1) (field get2 set2 d2).
Proof.
  intros Hg2 Hg1 Hs v1 v2 a b c. unfold field. destruct (d1 v1 (get1 a)) as [x e1] eqn:E1. intros [= <- ->].
  rewrite Hg2. destruct (d2 v2 (get2 a)) as [y e2] eqn:E2. intros [= <- ->]. eexists. split; [done|].
  by rewrite Hg1, E1, Hs.
Qed.

Section Permuted.
Context {A : Type} (assign : string → option (Decoder A)).

Fixpoint decodeMembers (l : list (string * json)) (a : A) : option A :=
  match l with
  | [] => Some a
  | (k, v) :: l =>
      match assign (Strings.ToLower k) with
      | None => decodeMembers l a
      | Some d => match d v a with (b, None) => decodeMembers l b | _ => None end
      end
  end.

Lemma decodeStruct_members l a b : decodeStruct assign (JObj l) a = (b, None) ↔ decodeMembers l a = Some b.
Proof.
  cbn. assert (Herr : ∀ l a e b, foldl (λ '(a, err) '(k, v), match assign (Strings.ToLower k) with
      | Some d => let '(a', err') := d v a in (a', firstError err err') | None => (a, err) end) (a, Some e) l ≠ (b, None)).
  { clear l a b. induction l as [|[k v] l IH]; intros a e b; [done|]. cbn. destruct (assign _) as [d|]; [|apply IH].
    destruct (d v a). apply IH. }
  revert a. induction l as [|[k v] l IH]; intros a; cbn; [naive_solver|]. destruct (assign _) as [d|]; [|apply IH].
  destruct (d v a) as [a' [e|]]; cbn; [|apply IH]. split; [by intros ?%Herr|done].
Qed.

Lemma decodeMembers_perm l l' a b :
  (∀ k1 k2 d1 d2, k1 ≠ k2 → assign k1 = Some d1 → assign k2 = Some d2 → commutes d1 d2) →
  l ≡ₚ l' → NoDup (Strings.ToLower <$> l.*1) → decodeMembers l a = Some b → decodeMembers l' a = Some b.
Proof.
  intros Hc Hp. revert a. induction Hp as [|[k v] l l' Hp IH|[k1 v1] [k2 v2] l|l l' l'' Hp1 IH1 Hp2 IH2]; intros a Hn; cbn.
  - done.
  - apply list.NoDup_cons in Hn as [_ Hn]. destruct (assign _) as [d|]; [|by apply IH]. destruct (d v a) as [a' [e|]]; [done|by apply IH].
  - cbn in Hn. apply list.NoDup_cons in Hn as [Hk _]. rewrite not_elem_of_cons in Hk. destruct Hk as [Hk _].
    destruct (assign (Strings.ToLower k1)) as [d1|] eqn:E1, (assign (Strings.ToLower k2)) as [d2|] eqn:E2; try done.
    destruct (d2 v2 a) as [b2 [e|]] eqn:Ha; [done|]. destruct (d1 v1 b2) as [c [e|]] eqn:Hb; [done|]. intros Hl.
    destruct (Hc _ _ _ _ Hk E2 E1 v2 v1 a b2 c Ha Hb) as (b' & -> & ->). done.
  - intros Hl. apply IH2; [|by apply IH1]. by rewrite <- Hp1.
Qed.
End Permuted.

(** ** What is put into a union *)

Lemma as_from `{JsonCodec A} (v : A) : representable v → asVariant (fromVariant v).1 = (v, None).
Proof. apply decode_marshal. Qed.

(** A union gives back, as the variant it was set from, the value it was set
    from: every variant of every union without a discriminator. *)
Theorem union_roundtrip :
  (∀ v : WormholeTransferResponse.t, @representable _ wormholeTransferResponseCodec v → DownloadFileResponse_TransferDirectives.AsWormholeTransferResponse (DownloadFileResponse_TransferDirectives.FromWormholeTransferResponse v).1 = (v, None)) ∧
  (∀ v : S3TransferResponse.t, @representable _ s3TransferResponseCodec v → DownloadFileResponse_TransferDirectives.AsS3TransferResponse (DownloadFileResponse_TransferDirectives.FromS3TransferResponse v).1 = (v, None)) ∧
  (∀ v : StreamerTransferResponse.t, @representable _ streamerTransferResponseCodec v → DownloadFileResponse_TransferDirectives.AsStreamerTransferResponse (DownloadFileResponse_TransferDirectives.FromStreamerTransferResponse v).1 = (v, None)) ∧
  (∀ v : SchedulerServiceHealth.t, @representable _ schedulerServiceHealthCodec v → HPCCluster_ServicesHealth_Item.AsSchedulerServiceHealth (HPCCluster_ServicesHealth_Item.FromSchedulerServiceHealth v).1 = (v, None)) ∧
  (∀ v : FilesystemServiceHealth.t, @representable _ filesystemServiceHealthCodec v → HPCCluster_ServicesHealth_Item.AsFilesystemServiceHealth (HPCCluster_ServicesHealth_Item.FromFilesystemServiceHealth v).1 = (v, None)) ∧
  (∀ v : SSHServiceHealth.t, @representable _ sSHServiceHealthCodec v → HPCCluster_ServicesHealth_Item.AsSSHServiceHealth (HPCCluster_ServicesHealth_Item.FromSSHServiceHealth v).1 = (v, None)) ∧
  (∀ v : S3ServiceHealth.t, @representable _ s3ServiceHealthCodec v → HPCCluster_ServicesHealth_Item.AsS3ServiceHealth (HPCCluster_ServicesHealth_Item.FromS3ServiceHealth v).1 = (v, None)) ∧
  (∀ v : HealthCheckException.t, @representable _ healthCheckExceptionCodec v → HPCCluster_ServicesHealth_Item.AsHealthCheckException (HPCCluster_ServicesHealth_Item.FromHealthCheckException v).1 = (v, None)) ∧
  (∀ v : gmap string string, @representable _ envCodec v → JobDescriptionModel_Env.AsJobDescriptionModelEnv0 (JobDescriptionModel_Env.FromJobDescriptionModelEnv0 v).1 = (v, None)) ∧
  (∀ v : list string, @representable _ (@listCodec string stringCodec) v → JobDescriptionModel_Env.AsJobDescriptionModelEnv1 (JobDescriptionModel_Env.FromJobDescriptionModelEnv1 v).1 = (v, None)) ∧
  (∀ v : string, @representable _ stringCodec v → NodeModel_Features.AsNodeModelFeatures0 (NodeModel_Features.FromNodeModelFeatures0 v).1 = (v, None)) ∧
  (∀ v : list string, @representable _ (@listCodec string stringCodec) v → NodeModel_Features.AsNodeModelFeatures1 (NodeModel_Features.FromNodeModelFeatures1 v).1 = (v, None)) ∧
  (∀ v : string, @representable _ stringCodec v → NodeModel_State.AsNodeModelState0 (NodeModel_State.FromNodeModelState0 v).1 = (v, None)) ∧
  (∀ v : list string, @representable _ (@listCodec string stringCodec) v → NodeModel_State.AsNodeModelState1 (NodeModel_State.FromNodeModelState1 v).1 = (v, None)) ∧
  (∀ v : string, @representable _ stringCodec v → PartitionModel_Partition.AsPartitionModelPartition0 (PartitionModel_Partition.FromPartitionModelPartition0 v).1 = (v, None)) ∧
  (∀ v : list string, @representable _ (@listCodec string stringCodec) v → PartitionModel_Partition.AsPartitionModelPartition1 (PartitionModel_Partition.FromPartitionModelPartition1 v).1 = (v, None)) ∧
  (∀ v : WormholeTransferRequest.t, @representable _ wormholeTransferRequestCodec v → PostFileDownloadRequest_TransferDirectives.AsWormholeTransferRequest (PostFileDownloadRequest_TransferDirectives.FromWormholeTransferRequest v).1 = (v, None)) ∧
  (∀ v : S3TransferRequest.t, @representable _ s3TransferRequestCodec v → PostFileDownloadRequest_TransferDirectives.AsS3TransferRequest (PostFileDownloadRequest_TransferDirectives.FromS3TransferRequest v).1 = (v, None)) ∧
  (∀ v : StreamerTransferRequest.t, @representable _ streamerTransferRequestCodec v → PostFileDownloadRequest_TransferDirectives.AsStreamerTransferRequest (PostFileDownloadRequest_TransferDirectives.FromStreamerTransferRequest v).1 = (v, None)) ∧
  (∀ v : WormholeTransferUploadRequest.t, @representable _ wormholeTransferUploadRequestCodec v → PostFileUploadRequest_TransferDirectives.AsWormholeTransferUploadRequest (PostFileUploadRequest_TransferDirectives.FromWormholeTransferUploadRequest v).1 = (v, None)) ∧
  (∀ v : S3TransferRequest.t, @representable _ s3TransferRequestCodec v → PostFileUploadRequest_TransferDirectives.AsS3TransferRequest (PostFileUploadRequest_TransferDirectives.FromS3TransferRequest v).1 = (v, None)) ∧
  (∀ v : StreamerTransferRequest.t, @representable _ streamerTransferRequestCodec v → PostFileUploadRequest_TransferDirectives.AsStreamerTransferRequest (PostFileUploadRequest_TransferDirectives.FromStreamerTransferRequest v).1 = (v, None)) ∧
  (∀ v : WormholeTransferResponse.t, @representable _ wormholeTransferResponseCodec v → UploadFileResponse_TransferDirectives.AsWormholeTransferResponse (UploadFileResponse_TransferDirectives.FromWormholeTransferResponse v).1 = (v, None)) ∧
  (∀ v : S3TransferResponse.t, @representable _ s3TransferResponseCodec v → UploadFileResponse_TransferDirectives.AsS3TransferResponse (UploadFileResponse_TransferDirectives.FromS3TransferResponse v).1 = (v, None)) ∧
  (∀ v : StreamerTransferResponse.t, @representable _ streamerTransferResponseCodec v → UploadFileResponse_TransferDirectives.AsStreamerTransferResponse (UploadFileResponse_TransferDirectives.FromStreamerTransferResponse v).1 = (v, None)).
Proof. split_and!; intros v Hv; exact (as_from v Hv). Qed.

Section Discriminated.
Context `{JsonMerge}.

Lemma merged_member before after st key s :
  NoDup (before ++ (key, JStr st) :: after).*1 →
  ∃ l', JSONMerge (Some (JObj (before ++ (key, JStr st) :: after))) (JObj [(key, JStr s)]) = inl (JObj l') ∧
    l' ≡ₚ before ++ (key, JStr s) :: after.
Proof.
  intros Hn. destruct (JSONMerge_member _ key s Hn) as (l' & Hm & Hp). exists l'. split; [done|]. rewrite Hp.
  assert (Hk : ∀ l : list (string * json), key ∉ l.*1 → filter (λ m, m.1 ≠ key) l = l).
  { induction l as [|m l IH]; [done|]. rewrite fmap_cons. intros [Hm' Hl]%not_elem_of_cons.
    rewrite filter_cons_True by (intros E; by apply Hm'). by rewrite IH. }
  rewrite fmap_app, fmap_cons in Hn. apply list.NoDup_app in Hn as (_ & Hd & [Ha _]%list.NoDup_cons).
  rewrite list.filter_app, filter_cons_False by (cbn; auto). rewrite !Hk; [by rewrite Permutation_middle|done|].
  intros Hb. apply (Hd _ Hb). by left.
Qed.

(** The text that a union is set to decodes to the value with its discriminator. *)
Lemma from_discriminated `{JsonCodec A} assign (v v' : A) before after st service :
  marshal v = JObj (before ++ ("serviceType", JStr st) :: after) →
  marshal v' = JObj (before ++ ("serviceType", JStr service) :: after) → representable v' →
  (∀ j, decode j zeroValue = decodeStruct assign j zeroValue) →
  (∀ k1 k2 d1 d2, k1 ≠ k2 → assign k1 = Some d1 → assign k2 = Some d2 → commutes d1 d2) →
  NoDup (Strings.ToLower <$> (before ++ ("serviceType", JStr service) :: after).*1) →
  ∃ t, fromDiscriminated service v = (t, None) ∧ asVariant t = (v', None) ∧
    DataOperation_DataTransfer.Discriminator t = (service, None).
Proof.
  intros Hv Hv' Hr Hd Hc Hn. unfold fromDiscriminated, discriminate. rewrite Hv.
  destruct (merged_member before after st "serviceType" service) as (l' & -> & Hp).
  { assert (Hk : (before ++ ("serviceType", JStr st) :: after).*1 = (before ++ ("serviceType", JStr service) :: after).*1)
      by (by rewrite !fmap_app).
    rewrite Hk. by eapply NoDup_fmap_1. }
  exists (Some (JObj l')). split; [done|]. symmetry in Hp. split.
  - cbn. rewrite Hd. apply decodeStruct_members. eapply (decodeMembers_perm _ _ _ _ _ Hc Hp Hn).
    apply decodeStruct_members. rewrite <- Hv', <- Hd. by apply decode_marshal.
  - set (f := λ name, if name =s "servicetype" then Some decodeString else None).
    change (decodeStruct f (JObj l') "" = (service, None)). apply decodeStruct_members.
    apply (decodeMembers_perm f (before ++ ("serviceType", JStr service) :: after)); [|done|done|].
    { intros k1 k2 d1 d2 Hk H1 H2. unfold f in H1, H2. destruct (k1 =s "servicetype") eqn:E1, (k2 =s "servicetype") eqn:E2; try done.
      apply String.eqb_eq in E1, E2. by subst. }
    rewrite fmap_app, fmap_app, fmap_cons, fmap_cons in Hn. apply list.NoDup_app in Hn as (_ & Hb & [Ha _]%list.NoDup_cons).
    assert (Hf : ∀ l a, "servicetype" ∉ Strings.ToLower <$> l.*1 → decodeMembers f l a = Some a).
    { induction l as [|[k x] l IH]; intros a Hl; [done|]. cbn in Hl |- *. apply not_elem_of_cons in Hl as [Hk Hl]. unfold f at 1.
      rewrite (proj2 (String.eqb_neq _ _)) by done. by apply IH. }
    assert (Happ : ∀ l1 l2 a, "servicetype" ∉ Strings.ToLower <$> l1.*1 → decodeMembers f (l1 ++ l2) a = decodeMembers f l2 a).
    { induction l1 as [|[k x] l1 IH]; intros l2 a Hl; [done|]. cbn in Hl |- *. apply not_elem_of_cons in Hl as [Hk Hl]. unfold f at 1.
      rewrite (proj2 (String.eqb_neq _ _)) by done. by apply IH. }
    rewrite Happ; [cbn; by apply Hf|]. intros Hin. apply (Hb _ Hin). by left.
Qed.
End Discriminated.

(** ** The data transfer services *)

#[local] Ltac distinctKeys :=
  unfold optionalMember; repeat case_match; apply (bool_decide_unpack _); vm_compute; exact I.
#[local] Ltac commuting assign :=
  intros k1 k2 d1 d2 Hk H1 H2; unfold assign in H1, H2; repeat case_match; simplify_eq;
  try (exfalso; apply Hk; etransitivity; [|symmetry]; by apply String.eqb_eq);
  apply commutes_field; by intros [].

Section DataTransfer.
Context `{JsonMerge}.
#[local] Open Scope string_scope.

Lemma s3_transfer v : representable (S3DataTransfer.with_ServiceType v "s3") →
  ∃ t, DataOperation_DataTransfer.FromS3DataTransfer v = (t, None) ∧
    asVariant t = (S3DataTransfer.with_ServiceType v "s3", None) ∧ DataOperation_DataTransfer.Discriminator t = ("s3", None).
Proof.
  intros Hr. apply (from_discriminated S3DataTransfer.assign v (S3DataTransfer.with_ServiceType v "s3")
    (S3DataTransfer.before v) (S3DataTransfer.after v) (S3DataTransfer.ServiceType v)); try done.
  - commuting S3DataTransfer.assign.
  - unfold S3DataTransfer.before, S3DataTransfer.after. distinctKeys.
Qed.

Lemma wormhole_transfer v : representable (WormholeDataTransfer.with_ServiceType v "wormhole") →
  ∃ t, DataOperation_DataTransfer.FromWormholeDataTransfer v = (t, None) ∧
    asVariant t = (WormholeDataTransfer.with_ServiceType v "wormhole", None) ∧
    DataOperation_DataTransfer.Discriminator t = ("wormhole", None).
Proof.
  intros Hr. apply (from_discriminated WormholeDataTransfer.assign v (WormholeDataTransfer.with_ServiceType v "wormhole")
    (WormholeDataTransfer.before v) [] (WormholeDataTransfer.ServiceType v)); try done.
  - commuting WormholeDataTransfer.assign.
  - unfold WormholeDataTransfer.before. distinctKeys.
Qed.

Lemma streamer_transfer v : representable (StreamerDataTransfer.with_ServiceType v "streamer") →
  ∃ t, DataOperation_DataTransfer.FromStreamerDataTransfer v = (t, None) ∧
    asVariant t = (StreamerDataTransfer.with_ServiceType v "streamer", None) ∧
    DataOperation_DataTransfer.Discriminator t = ("streamer", None).
Proof.
  intros Hr. apply (from_discriminated StreamerDataTransfer.assign v (StreamerDataTransfer.with_ServiceType v "streamer")
    (StreamerDataTransfer.before v) (StreamerDataTransfer.after v) (StreamerDataTransfer.ServiceType v)); try done.
  - commuting StreamerDataTransfer.assign.
  - unfold StreamerDataTransfer.before, StreamerDataTransfer.after. distinctKeys.
Qed.

(** The union of the data transfer services keeps its variant: whatever service
    type a value names, the union set from it is read by its discriminator as a
    value of that variant, with the service type of the variant. *)
Theorem data_transfer_roundtrip :
  (∀ v, representable (S3DataTransfer.with_ServiceType v "s3") →
     DataOperation_DataTransfer.ValueByDiscriminator (DataOperation_DataTransfer.FromS3DataTransfer v).1 =
     (Some (DataOperation_DataTransfer.IsS3 (S3DataTransfer.with_ServiceType v "s3")), None)) ∧
  (∀ v, representable (WormholeDataTransfer.with_ServiceType v "wormhole") →
     DataOperation_DataTransfer.ValueByDiscriminator (DataOperation_DataTransfer.FromWormholeDataTransfer v).1 =
     (Some (DataOperation_DataTransfer.IsWormhole (WormholeDataTransfer.with_ServiceType v "wormhole")), None)) ∧
  (∀ v, representable (StreamerDataTransfer.with_ServiceType v "streamer") →
     DataOperation_DataTransfer.ValueByDiscriminator (DataOperation_DataTransfer.FromStreamerDataTransfer v).1 =
     (Some (DataOperation_DataTransfer.IsStreamer (StreamerDataTransfer.with_ServiceType v "streamer")), None)).
Proof.
  split_and!; intros v Hr.
  - destruct (s3_transfer v Hr) as (t & -> & Ha & Hd). unfold DataOperation_DataTransfer.ValueByDiscriminator.
    cbn [fst]. rewrite Hd. change ("s3" =s "s3") with true. cbn iota.
    unfold DataOperation_DataTransfer.AsS3DataTransfer. by rewrite Ha.
  - destruct (wormhole_transfer v Hr) as (t & -> & Ha & Hd). unfold DataOperation_DataTransfer.ValueByDiscriminator.
    cbn [fst]. rewrite Hd. change ("wormhole" =s "s3") with false. change ("wormhole" =s "streamer") with false.
    change ("wormhole" =s "wormhole") with true. cbn iota.
    unfold DataOperation_DataTransfer.AsWormholeDataTransfer. by rewrite Ha.
  - destruct (streamer_transfer v Hr) as (t & -> & Ha & Hd). unfold DataOperation_DataTransfer.ValueByDiscriminator.
    cbn [fst]. rewrite Hd. change ("streamer" =s "s3") with false. change ("streamer" =s "streamer") with true. cbn iota.
    unfold DataOperation_DataTransfer.AsStreamerDataTransfer. by rewrite Ha.
Qed.
End DataTransfer.

(** ** The hypothesis on merging is satisfiable *)

Definition mergeMembers (t : Union) (patch : json) : Result json :=
  match t, patch with
  | Some (JObj l), JObj p => inl (JObj (p ++ filter (λ m, m.1 ∉ p.*1) l))
  | None, JObj p => inl (JObj p)
  | _, _ => inr (Errorf "not an object")
  end.

#[export] Program Instance plainMerge : JsonMerge := {| JSONMerge := mergeMembers |}.
Next Obligation.
  intros l key s Hn. exists ((key, JStr s) :: filter (λ m, m.1 ≠ key) l). split; [|done]. cbn. do 3 f_equal.
  apply list_filter_iff. intros [k v]. cbn. rewrite list_elem_of_singleton. done.
Qed.

Example transfer_roundtrip :
  let '(t, err) := DataOperation_DataTransfer.FromS3DataTransfer (S3DataTransfer.with_ServiceType zeroValue "anything") in
  (err, (DataOperation_DataTransfer.Discriminator t).1, S3DataTransfer.ServiceType (asVariant t).1) = (None, "s3"%string, "s3"%string).
Proof. vm_compute. reflexivity. Qed.
