(* ===== verification/FirecrestEnums.v ===== *)
(** * Enumerations of the FirecREST API (internal/remote/firecrest/firecrest_gen.go)

    The string enumerations of the generated client with their [Valid] methods,
    and the enumerations of the OpenAPI document they are generated from
    (openapi_spec_downgraded.yaml).  Decoding does not look at [Valid]. *)

From S2P Require Import Prelude.

(** The switch of a [Valid] method. *)
Definition oneOf (values : list string) (e : string) : bool := existsb (λ v, v =s e) values.

Lemma oneOf_spec values e : oneOf values e = true ↔ e ∈ values.
Proof.
  unfold oneOf. rewrite existsb_exists. split.
  - intros (v & Hin & ->%String.eqb_eq). by apply list_elem_of_In.
  - intros Hin. exists e. split; [by apply list_elem_of_In|apply String.eqb_refl].
Qed.

Definition ApResponseErrorType_Valid : string → bool := oneOf ["error"; "validation"].
Definition CompressionType_Valid : string → bool := oneOf ["bzip2"; "gzip"; "none"; "xz"].
Definition ContentUnit_Valid : string → bool := oneOf ["bytes"; "lines"].
Definition FileSystemDataType_Valid : string → bool := oneOf ["apps"; "archive"; "project"; "scratch"; "store"; "users"].
Definition HealthCheckType_Valid : string → bool := oneOf ["exception"; "filesystem"; "s3"; "scheduler"; "ssh"].
Definition S3DataTransferServiceType_Valid : string → bool := oneOf ["s3"].
Definition S3TransferRequestTransferMethod_Valid : string → bool := oneOf ["s3"].
Definition S3TransferResponseTransferMethod_Valid : string → bool := oneOf ["s3"].
Definition SchedulerConnectionMode_Valid : string → bool := oneOf ["hybrid"; "rest"; "ssh"].
Definition SchedulerType_Valid : string → bool := oneOf ["pbs"; "slurm"].
Definition StreamerDataTransferServiceType_Valid : string → bool := oneOf ["streamer"].
Definition StreamerTransferRequestTransferMethod_Valid : string → bool := oneOf ["streamer"].
Definition StreamerTransferResponseTransferMethod_Valid : string → bool := oneOf ["streamer"].
Definition WormholeDataTransferServiceType_Valid : string → bool := oneOf ["wormhole"].
Definition WormholeTransferRequestTransferMethod_Valid : string → bool := oneOf ["wormhole"].
Definition WormholeTransferResponseTransferMethod_Valid : string → bool := oneOf ["wormhole"].
Definition WormholeTransferUploadRequestTransferMethod_Valid : string → bool := oneOf ["wormhole"].

(** The enumerations of the client: name, [Valid], and the values of the
    schema of that name in openapi_spec_downgraded.yaml, in the document's order. *)
Definition enumerations : list (string * (string → bool) * list string) :=
  [ ("ApResponseErrorType", ApResponseErrorType_Valid, ["error"; "validation"]);
    ("CompressionType", CompressionType_Valid, ["none"; "bzip2"; "gzip"; "xz"]);
    ("ContentUnit", ContentUnit_Valid, ["lines"; "bytes"]);
    ("FileSystemDataType", FileSystemDataType_Valid, ["users"; "store"; "archive"; "apps"; "scratch"; "project"]);
    ("HealthCheckType", HealthCheckType_Valid, ["scheduler"; "filesystem"; "ssh"; "s3"; "exception"]);
    ("S3DataTransferServiceType", S3DataTransferServiceType_Valid, ["s3"]);
    ("S3TransferRequestTransferMethod", S3TransferRequestTransferMethod_Valid, ["s3"]);
    ("S3TransferResponseTransferMethod", S3TransferResponseTransferMethod_Valid, ["s3"]);
    ("SchedulerConnectionMode", SchedulerConnectionMode_Valid, ["hybrid"; "rest"; "ssh"]);
    ("SchedulerType", SchedulerType_Valid, ["slurm"; "pbs"]);
    ("StreamerDataTransferServiceType", StreamerDataTransferServiceType_Valid, ["streamer"]);
    ("StreamerTransferRequestTransferMethod", StreamerTransferRequestTransferMethod_Valid, ["streamer"]);
    ("StreamerTransferResponseTransferMethod", StreamerTransferResponseTransferMethod_Valid, ["streamer"]);
    ("WormholeDataTransferServiceType", WormholeDataTransferServiceType_Valid, ["wormhole"]);
    ("WormholeTransferRequestTransferMethod", WormholeTransferRequestTransferMethod_Valid, ["wormhole"]);
    ("WormholeTransferResponseTransferMethod", WormholeTransferResponseTransferMethod_Valid, ["wormhole"]);
    ("WormholeTransferUploadRequestTransferMethod", WormholeTransferUploadRequestTransferMethod_Valid, ["wormhole"]) ].

(** The enumerations are those of the document: [Valid] holds of exactly the values listed there. *)
Theorem valid_documented :
  Forall (λ '(_, Valid, documented), ∀ e : string, Valid e = true ↔ e ∈ documented) enumerations.
Proof.
  unfold enumerations. repeat apply Forall_cons_2; try apply Forall_nil_2; intros e;
    (etransitivity; [apply oneOf_spec|]); rewrite !elem_of_cons, elem_of_nil; tauto.
Qed.

(** [S3] is not a transfer method that [Valid] knows: the switch compares exactly. *)
Example valid_exact : S3TransferRequestTransferMethod_Valid "s3" = true ∧ S3TransferRequestTransferMethod_Valid "S3" = false.
Proof. split; reflexivity. Qed.
