(* ===== verification/AuthProxyTheorems.v ===== *)
(** * Theorems about the authentication proxy

    Which requests reach the session, that every request is answered once and
    recorded, and how the container that the operator generates configures the
    proxy. *)

From S2P Require Import Prelude Prog NetUrl K8s Types Names Templates AuthProxy JsonProps RemoteWiring.
From Stdlib Require Import Ascii.

(** ** The guard *)

(** The progress of a request: with the code of the error it has ended in, the
    time that has been read, and whether it has reached the session. *)
Inductive phase :=
| Fresh
| Failed (code : Z)
| Answered (reached : bool)
| Locked (reached : bool) (now : option Time.t)
| Recorded (reached : bool)
| Finished (reached : bool).

Section Guard.
Context `{Framework} (v : ProxyVars.t) (remoteURL : URL.t) (r : Request.t).

(** A request that presents the token, or any request when there is none. *)
Definition authorised : Prop := ProxyVars.token v = "" ∨ ProxyVars.token v ∈ presentedKeys (keyLookup v) r.

(** The request that the session sees. *)
Definition forwarded : Request.t :=
  if ProxyVars.stripPathPrefix v =s "" then r
  else Request.mk (rewriteURI (rules v) (Request.URI r)) (Request.Cookies r)
         (filter (λ h, h.1 ≠ "Forwarded") (Request.Headers r)).

Definition guard : Monitor Ap phase := {|
  allowed := λ R e, match e in Ap R return phase → Prop with
    | Forward target r' => λ g, g = Fresh ∧ authorised ∧ target = remoteURL ∧ r' = forwarded
    | SendError code => λ g,
        g = Failed code ∨
        (g = Fresh ∧ ¬ authorised ∧ code = if bool_decide (presentedKeys (keyLookup v) r = []) then 400%Z else 401%Z)
    | LockStats => λ g, ∃ b, g = Answered b
    | Now => λ g, ∃ b, g = Locked b None
    | StoreLastRequest t => λ g, ∃ b, g = Locked b (Some t)
    | UnlockStats => λ g, ∃ b, g = Recorded b
    | _ => λ _, False
    end;
  rely := λ _ _ _ _, True;
  next := λ R e, match e in Ap R return R → phase → phase with
    | Forward _ _ => λ err _, match err with Some code => Failed code | None => Answered true end
    | SendError _ => λ _ g, match g with Failed _ => Answered true | _ => Answered false end
    | LockStats => λ _ g, match g with Answered b => Locked b None | _ => g end
    | Now => λ t g, match g with Locked b _ => Locked b (Some t) | _ => g end
    | StoreLastRequest _ => λ _ g, match g with Locked b _ => Recorded b | _ => g end
    | UnlockStats => λ _ g, match g with Recorded b => Finished b | _ => g end
    | _ => λ _ g, g
    end;
  panic_ok := λ _, False |}.

(** What is left of a request once it has been passed to the session or refused. *)
Definition settled (err : option Z) (g : phase) : Prop :=
  match err with
  | None => g = Answered true ∧ authorised
  | Some code => g = Failed code ∧ authorised ∨
                 g = Fresh ∧ ¬ authorised ∧ code = if bool_decide (presentedKeys (keyLookup v) r = []) then 400%Z else 401%Z
  end.

Lemma forward_wp : authorised → wp guard (trigger (Forward remoteURL forwarded)) settled Fresh.
Proof. intros Ha. split; [done|]. intros [code|] _; [by left|by split]. Qed.

Lemma rewritten_wp : authorised →
  wp guard ((if ProxyVars.stripPathPrefix v ≠s ""
             then removeForwardedHeader (rewriteMW v (proxyMW remoteURL)) else proxyMW remoteURL) r) settled Fresh.
Proof.
  intros Ha. pose proof (forward_wp Ha) as Hf. unfold forwarded in Hf.
  destruct (ProxyVars.stripPathPrefix v =s ""); exact Hf.
Qed.

Lemma authenticated_wp :
  wp guard ((if ProxyVars.token v ≠s ""
             then authnMW v (if ProxyVars.stripPathPrefix v ≠s ""
                             then removeForwardedHeader (rewriteMW v (proxyMW remoteURL)) else proxyMW remoteURL)
             else if ProxyVars.stripPathPrefix v ≠s ""
                  then removeForwardedHeader (rewriteMW v (proxyMW remoteURL)) else proxyMW remoteURL) r) settled Fresh.
Proof.
  destruct (ProxyVars.token v =s "") eqn:Et; cbn [negb].
  - apply rewritten_wp. left. by apply String.eqb_eq.
  - assert (Hne : ProxyVars.token v ≠ "") by (by apply String.eqb_neq).
    unfold authnMW. destruct (presentedKeys (keyLookup v) r) as [|key keys] eqn:Ek.
    + right. unfold authorised. rewrite Ek. split; [done|]. split; [|done]. intros [?|?%elem_of_nil]; done.
    + destruct (existsb _ _) eqn:Ex.
      * apply rewritten_wp. right. apply existsb_exists in Ex as (k & Hin & ->%String.eqb_eq). rewrite Ek. by apply list_elem_of_In.
      * right. split; [done|]. unfold authorised. rewrite Ek. split; [|done]. intros [?|Hin]; [done|].
        assert (existsb (λ key, key =s ProxyVars.token v) (key :: keys) = true); [|congruence].
        apply existsb_exists. exists (ProxyVars.token v). split; [by apply list_elem_of_In|apply String.eqb_refl].
Qed.

Lemma proxied_wp :
  wp guard (err ← proxyMWs v remoteURL r; match err with Some code => trigger (SendError code) | None => mret tt end)
    (λ _ g, ∃ b, g = Finished b ∧ (b = true ↔ authorised)) Fresh.
Proof.
  unfold proxyMWs, Process.
  eapply wp_bind_intro with (P := λ r g, r = None ∧ ∃ b, g = Finished b ∧ (b = true ↔ authorised)); [|by intros [code|] g [? Hg]].
  eapply wp_bind_intro; [apply authenticated_wp|]. intros err g Hs.
  eapply wp_bind_intro with (P := λ _ g, ∃ b, g = Answered b ∧ (b = true ↔ authorised)).
  - destruct err as [code|]; [|destruct Hs as [-> Ha]; exists true; by split].
    destruct Hs as [[-> Ha]|(-> & Ha & ->)].
    + split; [by left|]. intros [] _. exists true. by split.
    + split; [by right|]. intros [] _. exists false. split; [done|]. split; [done|]. by intros ?%Ha.
  - intros _ g' (b & -> & Hb). split; [by exists b|]. intros [] _. cbn. split; [by exists b|]. intros t _. cbn.
    split; [by exists b|]. intros [] _. cbn. split; [by exists b|]. intros [] _. split; [done|]. by exists b.
Qed.

(** C34: The health check of the authentication proxy is answered with 200 to
    everyone.  Every other request is passed to the session exactly when it
    presents the token in the cookie or the header, or when no token is set; else
    it is answered 400 or 401.  It is answered once, and then, be it refused or
    not, the time of the last request is set, under the lock, which is released.
    What the session sees is the request as it came, unless a prefix is to be
    stripped: then the path is rewritten by the rule for that prefix and the
    header that confuses some sessions is gone, and nothing else. *)
Theorem authproxy_guard method path :
  (if (path =s healthPath) && (method =s "GET")
   then serveRequest v remoteURL method path r = trigger (SendNoContent 200)
   else wp guard (serveRequest v remoteURL method path r) (λ _ g, ∃ b, g = Finished b ∧ (b = true ↔ authorised)) Fresh) ∧
  (ProxyVars.stripPathPrefix v = "" → forwarded = r) ∧
  (ProxyVars.stripPathPrefix v ≠ "" →
     Request.URI forwarded = rewriteURI [(normalizedPrefix v +:+ "*", "/$1")] (Request.URI r) ∧
     Request.Cookies forwarded = Request.Cookies r ∧
     ∀ h, h ∈ Request.Headers forwarded ↔ h ∈ Request.Headers r ∧ h.1 ≠ "Forwarded").
Proof.
  split_and!.
  - unfold serveRequest. destruct (_ && _); [done|apply proxied_wp].
  - intros Hs. unfold forwarded. by rewrite Hs.
  - intros Hs%String.eqb_neq. unfold forwarded. rewrite Hs. split; [done|]. split; [done|]. intros h. cbn.
    rewrite list_elem_of_filter. tauto.
Qed.
End Guard.

(** ** The container of the operator *)

(** The settings of the proxy: a bound variable that is set and not empty gives
    its value, whatever the configuration file says; without the variable the
    value is that of the file ([fileSetting]), if it has one; decimal texts are
    read as integers.  This is for flags that are not on the command line. *)
Class FlagLib := {
  flagValues : Env → option string → FlagValues.t;
  fileSetting : option string → string → option string;
  lookup_env : ∀ env file flag value, flag ∈ boundFlags → env !! flagVariable flag = Some value → value ≠ "" →
    FlagValues.Lookup (flagValues env file) (flagKey flag) = Some value;
  lookup_file : ∀ env file flag, flag ∈ boundFlags → env !! flagVariable flag = None →
    FlagValues.Lookup (flagValues env file) (flagKey flag) = fileSetting file flag;
  no_file : ∀ flag, fileSetting None flag = None;
  parse_decimal : ∀ env file z, (0 ≤ z < 2 ^ 31)%Z → FlagValues.ParseInt (flagValues env file) (pretty z) = Some z }.

(** Documented for rules with one [*]: what it stands for is [$1]. *)
Class FrameworkRules `{Framework} :=
  rewrite_prefix : ∀ p rest, Strings.HasPrefix p "/" = true → Strings.HasSuffix p "/" = true →
    rewriteURI [(p +:+ "*", "/$1")] (p +:+ rest) = "/" +:+ rest.

(** The configuration file of a container that is started as a proxy. *)
Definition configFile `{Kubelet} (volumes : list Volume.t) (c : Container.t) : option string :=
  match Container.Args c with
  | ["proxy"; "serve"; "--config"; path] => containerFile volumes c path
  | _ => None
  end.

Definition remoteOf (port : Z) : string := "http://127.0.0.1:" +:+ pretty port.

(** A container with the settings of [get_rewrite_authn_proxy]. *)
Section Container.
Context (opEnv : Env) `{Kubelet, FlagLib} (cr : AmaltheaSession.t) (listenPort metaListenPort : Z) (container : Container.t).
#[local] Notation sessionPort := (Session.Port (Spec_Session cr)).
Hypothesis (Henv : Container.Env container =
  Container.Env (AuthTemplates.get_rewrite_authn_proxy opEnv cr listenPort metaListenPort sessionPort))
  (Hfrom : Container.EnvFrom container = [])
  (Hl : (0 ≤ listenPort < 2 ^ 31)%Z) (Hm : (0 ≤ metaListenPort < 2 ^ 31)%Z) (Hs : (0 ≤ sessionPort < 2 ^ 31)%Z).

#[local] Notation strip := (if Session.StripURLPath (Spec_Session cr)
                            then [envVar "AUTHPROXY_STRIP_PATH_PREFIX" (urlPath cr)] else []).

Lemma proxy_entry before e after :
  Container.Env (AuthTemplates.get_rewrite_authn_proxy opEnv cr listenPort metaListenPort sessionPort) = before ++ e :: after →
  EnvVar.ValueFrom e = None → EnvVar.Name e ∉ EnvVar.Name <$> after → literalValue (EnvVar.Value e) →
  environ container !! EnvVar.Name e = Some (EnvVar.Value e).
Proof. intros He. eapply environ_literal. by rewrite Henv. Qed.

Lemma strip_names x : x ≠ "AUTHPROXY_STRIP_PATH_PREFIX" → x ∉ EnvVar.Name <$> strip.
Proof. intros Hx. destruct (Session.StripURLPath _); cbn; [|apply not_elem_of_nil]. by rewrite list_elem_of_singleton. Qed.

Lemma listen_entry : environ container !! "AUTHPROXY_PORT" = Some (pretty listenPort).
Proof.
  refine (proxy_entry [] (envVar "AUTHPROXY_PORT" _) _ eq_refl eq_refl _ _); [|by apply literal_pretty; lia].
  cbn [EnvVar.Name envVar]. rewrite !fmap_cons, !not_elem_of_cons. split_and!; try done. by apply strip_names.
Qed.

Lemma meta_entry : environ container !! "AUTHPROXY_META_PORT" = Some (pretty metaListenPort).
Proof.
  refine (proxy_entry [_] (envVar "AUTHPROXY_META_PORT" _) _ eq_refl eq_refl _ _); [|by apply literal_pretty; lia].
  cbn [EnvVar.Name envVar]. rewrite !fmap_cons, !not_elem_of_cons. split_and!; try done. by apply strip_names.
Qed.

Lemma remote_entry : environ container !! "AUTHPROXY_REMOTE" = Some (remoteOf sessionPort).
Proof.
  refine (proxy_entry [_; _] (envVar "AUTHPROXY_REMOTE" _) _ eq_refl eq_refl _ _).
  - cbn [EnvVar.Name envVar]. by apply strip_names.
  - pose proof (proj1 (literal_pretty sessionPort (proj1 Hs))) as Hlit. exact Hlit.
Qed.

Lemma strip_entry : Session.StripURLPath (Spec_Session cr) = true → literalValue (urlPath cr) →
  environ container !! "AUTHPROXY_STRIP_PATH_PREFIX" = Some (urlPath cr).
Proof.
  intros Ht Hlit. refine (proxy_entry [_; _; _] (envVar "AUTHPROXY_STRIP_PATH_PREFIX" _) [] _ eq_refl _ Hlit).
  - cbn. by rewrite Ht.
  - apply not_elem_of_nil.
Qed.

(** The operator does not set the variables of the token and of the cookie. *)
Lemma unset_entry x : x ∈ ["AUTHPROXY_TOKEN"; "AUTHPROXY_COOKIE_KEY"] → x ∉ ambient container → environ container !! x = None.
Proof.
  intros Hx Ha. apply environ_unset; [|done..]. rewrite Henv. cbn. rewrite !not_elem_of_cons.
  rewrite !elem_of_cons, elem_of_nil in Hx. destruct Hx as [->|[->|[]]]; split_and!; try done; by apply strip_names.
Qed.

Lemma normalized_urlPath v : Strings.HasPrefix (urlPath cr) "/" = true → ProxyVars.stripPathPrefix v = urlPath cr →
  normalizedPrefix v = urlPath cr.
Proof. intros Hp Hst. unfold normalizedPrefix. rewrite Hst, Hp. cbn. unfold urlPath. by rewrite withSlash_suffix. Qed.

(** What the proxy in the container is configured to. *)
Lemma proxy_settings `{FrameworkRules} file v0 :
  let values := flagValues (environ container) file in
  literalValue (urlPath cr) → Strings.HasPrefix (urlPath cr) "/" = true →
  (∀ x, x ∈ ["AUTHPROXY_TOKEN"; "AUTHPROXY_COOKIE_KEY"] → x ∉ ambient container) →
  (∀ text, FlagValues.Lookup values (flagKey "verbose") = Some text → is_Some (FlagValues.ParseBool values text)) →
  ∃ v, loadConfig values false v0 = Some v ∧
    ProxyVars.port v = listenPort ∧ ProxyVars.metaPort v = metaListenPort ∧ ProxyVars.remote v = remoteOf sessionPort ∧
    ProxyVars.token v = default (ProxyVars.token v0) (fileSetting file "token") ∧
    ProxyVars.cookieKey v = default (ProxyVars.cookieKey v0) (fileSetting file "cookie_key") ∧
    (Session.StripURLPath (Spec_Session cr) = true → ∀ rest cookies headers,
       Request.URI (forwarded v (Request.mk (urlPath cr +:+ rest) cookies headers)) = "/" +:+ rest).
Proof.
  intros values Hu Hu' Hambient Hv.
  assert (Hport : FlagValues.Lookup values (flagKey "port") = Some (pretty listenPort)).
  { apply lookup_env; [by do 2 right; left|by apply listen_entry|by apply literal_pretty; lia]. }
  assert (Hmeta : FlagValues.Lookup values (flagKey "meta_port") = Some (pretty metaListenPort)).
  { apply lookup_env; [by right; left|by apply meta_entry|by apply literal_pretty; lia]. }
  assert (Hremote : FlagValues.Lookup values (flagKey "remote") = Some (remoteOf sessionPort)).
  { apply lookup_env; [by do 3 right; left|by apply remote_entry|done]. }
  assert (Htoken : FlagValues.Lookup values (flagKey "token") = fileSetting file "token").
  { apply lookup_file; [by do 5 right; left|]. apply unset_entry; [|apply Hambient]; rewrite !elem_of_cons; tauto. }
  assert (Hcookie : FlagValues.Lookup values (flagKey "cookie_key") = fileSetting file "cookie_key").
  { apply lookup_file; [by left|]. apply unset_entry; [|apply Hambient]; rewrite !elem_of_cons; tauto. }
  assert (Hstrip : Session.StripURLPath (Spec_Session cr) = true →
    FlagValues.Lookup values (flagKey "strip_path_prefix") = Some (urlPath cr)).
  { intros Ht. apply lookup_env; [by do 4 right; left|by apply strip_entry|by intros E; rewrite E in Hu']. }
  assert (Hload : ∃ v, visitFlags values boundFlags v0 = Some v ∧
    v = ProxyVars.mk (remoteOf sessionPort) listenPort metaListenPort
          (default (ProxyVars.token v0) (fileSetting file "token"))
          (default (ProxyVars.cookieKey v0) (fileSetting file "cookie_key"))
          (ProxyVars.verbose v) (default (ProxyVars.stripPathPrefix v0) (FlagValues.Lookup values (flagKey "strip_path_prefix")))).
  { unfold boundFlags. cbn [visitFlags]. rewrite Hport, Hmeta, Hremote, Htoken, Hcookie.
    destruct (fileSetting file "cookie_key"), (FlagValues.Lookup values (flagKey "strip_path_prefix")),
      (fileSetting file "token"), (FlagValues.Lookup values (flagKey "verbose")) as [t|];
      try destruct (Hv t eq_refl) as [b Hb]; cbn -[flagKey flagValues]; unfold values; rewrite !parse_decimal by done; cbn -[flagKey flagValues];
      try (fold values; rewrite Hb; cbn); eexists; done. }
  destruct Hload as (v & Hvisit & Hve). exists v. unfold loadConfig. rewrite Hvisit, Hremote. split; [done|].
  rewrite Hve. cbn [ProxyVars.port ProxyVars.metaPort ProxyVars.remote ProxyVars.token ProxyVars.cookieKey].
  split_and!; try done. intros Ht rest cookies headers.
  assert (Hn : normalizedPrefix v = urlPath cr) by (apply normalized_urlPath; [done|by rewrite Hve, Hstrip]).
  rewrite <- Hve. unfold forwarded.
  assert (ProxyVars.stripPathPrefix v =s "" = false) as ->.
  { rewrite Hve. cbn. rewrite Hstrip by done. cbn. apply String.eqb_neq. intros E. by rewrite E in Hu'. }
  cbn. unfold rules. rewrite Hn. apply rewrite_prefix; [done|]. apply withSlash_suffix.
Qed.
End Container.

(** The proxy among the containers of the authentication. *)
Lemma auth_proxy opEnv cr auth m c :
  AmaltheaSessionSpec.Authentication_ (AmaltheaSession.Spec cr) = Some auth →
  AuthTemplates.auth opEnv cr = inl m → c ∈ manifests_Containers m → Container.Name c = "authproxy" →
  let listen := if Authentication.Type_ auth =s Token then authenticatedPort else secondProxyPort in
  let built := AuthTemplates.get_rewrite_authn_proxy opEnv cr listen AuthProxyMetaPort (Session.Port (Spec_Session cr)) in
  c = (if Authentication.Type_ auth =s Token
       then AuthTemplates.with_ArgsMounts built
              ["proxy"; "serve"; "--config"; "/etc/authproxy/" +:+ SessionSecretRef.Key (Authentication.SecretRef auth)]
              (volumeMount (prefix_ +:+ "proxy-configuration-secret") "/etc/authproxy" "" false :: Authentication.ExtraVolumeMounts auth)
       else built) ∧
  (Authentication.Type_ auth = Token →
   secretVolume (prefix_ +:+ "proxy-configuration-secret") (SessionSecretRef.Name (Authentication.SecretRef auth)) (Some false)
     ∈ manifests_Volumes m).
Proof.
  intros Ha. unfold AuthTemplates.auth. rewrite Ha. destruct (negb _); [intros [= <-] Hin; by apply not_elem_of_nil in Hin|].
  destruct (_ && _); [done|]. destruct (String.eqb_spec (Authentication.Type_ auth) OauthProxy) as [->|_].
  - intros [= <-]. cbn. intros [->|[->|[]%elem_of_nil]%elem_of_cons]%elem_of_cons; [done|]. by split.
  - destruct (String.eqb_spec (Authentication.Type_ auth) Token) as [Ht|Hno].
    + destruct (getUseNoneSameSiteSessionCookie opEnv); [done|]. intros [= <-]. cbn.
      intros [->|[]%elem_of_nil]%elem_of_cons _. split; [done|]. intros _. left.
    + destruct (_ =s Oidc); [|done]. intros [= <-]. cbn. intros [->|[->|[]%elem_of_nil]%elem_of_cons]%elem_of_cons; [done|].
      intros _. split; [done|]. by intros Ht.
Qed.

(** C35: The authentication proxy that the operator puts in front of a session is
    started with the configuration file of the session's secret when the
    authentication is by token, which is the file of the key in the mounted
    secret, and without a file otherwise.  It listens on the ports the operator
    names and passes requests on to the port of the session, whatever that file
    says about them; its token and its cookie are those of the file, since the
    operator sets no variable for them, and without a file there is no token.  If
    the path of the session is to be stripped, a request below that path reaches
    the session without it.  Both probes of the container are answered without a
    token. *)
Theorem proxy_container_serves (opEnv : Env) `{Kubelet, FlagLib, FrameworkRules} cr auth m c volumes data verbose :
  AmaltheaSessionSpec.Authentication_ (AmaltheaSession.Spec cr) = Some auth →
  AuthTemplates.auth opEnv cr = inl m → c ∈ manifests_Containers m → Container.Name c = "authproxy" →
  (* the pod: its volumes, and no mount of the user above or at the file *)
  manifests_Volumes m ⊆ volumes → NoDup (Volume.Name <$> volumes) →
  (∀ m', m' ∈ Authentication.ExtraVolumeMounts auth →
     below (VolumeMount.MountPath m') ("/etc/authproxy/" +:+ SessionSecretRef.Key (Authentication.SecretRef auth)) = false) →
  (∀ x, x ∈ ["AUTHPROXY_TOKEN"; "AUTHPROXY_COOKIE_KEY"] → x ∉ ambient c) →
  (0 ≤ Session.Port (Spec_Session cr) < 2 ^ 31)%Z → literalValue (urlPath cr) → Strings.HasPrefix (urlPath cr) "/" = true →
  (* the secret has the key *)
  (Authentication.Type_ auth = Token → secretData (SessionSecretRef.Name (Authentication.SecretRef auth))
     (SessionSecretRef.Key (Authentication.SecretRef auth)) = Some data) →
  let file := if Authentication.Type_ auth =s Token then Some data else None in
  let values := flagValues (environ c) file in
  (∀ text, FlagValues.Lookup values (flagKey "verbose") = Some text → is_Some (FlagValues.ParseBool values text)) →
  let listen := if Authentication.Type_ auth =s Token then authenticatedPort else secondProxyPort in
  configFile volumes c = file ∧
  ∃ v, loadConfig values false (with_verbose ProxyVars.initial verbose) = Some v ∧
    ProxyVars.port v = listen ∧ ProxyVars.metaPort v = AuthProxyMetaPort ∧
    ProxyVars.remote v = remoteOf (Session.Port (Spec_Session cr)) ∧
    ProxyVars.token v = default "" (fileSetting file "token") ∧
    ProxyVars.cookieKey v = default "renku-auth" (fileSetting file "cookie_key") ∧
    (Authentication.Type_ auth ≠ Token → ProxyVars.token v = "") ∧
    (Session.StripURLPath (Spec_Session cr) = true → ∀ rest cookies headers,
       Request.URI (forwarded v (Request.mk (urlPath cr +:+ rest) cookies headers)) = "/" +:+ rest) ∧
    Container.LivenessProbe c = Some (probe (httpGet healthPath (ProxyVars.port v)) 0 0 0) ∧
    Container.ReadinessProbe c = Some (probe (httpGet healthPath (ProxyVars.port v)) 0 0 0) ∧
    ∀ remoteURL r, serveRequest v remoteURL "GET" healthPath r = trigger (SendNoContent 200).
Proof.
  intros Ha Hm Hin Hname Hvol Hnodup Hextra Hambient Hport Hlit Hslash Hdata file values Hverbose listen.
  destruct (auth_proxy opEnv cr auth m c Ha Hm Hin Hname) as [Hc Hsec]. fold listen in Hc.
  set (built := AuthTemplates.get_rewrite_authn_proxy opEnv cr listen AuthProxyMetaPort (Session.Port (Spec_Session cr))) in Hc.
  assert (Hfile : configFile volumes c = file).
  { unfold file, configFile. destruct (String.eqb_spec (Authentication.Type_ auth) Token) as [Ht|_]; rewrite Hc; [|done].
    cbn [Container.Args AuthTemplates.with_ArgsMounts].
    refine (file_secret volumes (AuthTemplates.with_ArgsMounts built _ _) [] (volumeMount _ "/etc/authproxy" "" false)
      (Authentication.ExtraVolumeMounts auth) (secretVolume (prefix_ +:+ "proxy-configuration-secret") _ (Some false))
      _ _ eq_refl eq_refl _ Hnodup eq_refl eq_refl eq_refl Hextra data (Hdata Ht)).
    by apply Hvol, Hsec. }
  split; [exact Hfile|].
  assert (Hlisten : (0 ≤ listen < 2 ^ 31)%Z) by (unfold listen; by destruct (_ =s Token)).
  assert (Henv : Container.Env c = Container.Env built) by (rewrite Hc; by destruct (_ =s Token)).
  assert (Hfrom : Container.EnvFrom c = []) by (rewrite Hc; by destruct (_ =s Token)).
  destruct (proxy_settings opEnv cr listen AuthProxyMetaPort c Henv Hfrom Hlisten ltac:(done) Hport file
    (with_verbose ProxyVars.initial verbose) Hlit Hslash Hambient Hverbose) as (v & Hv & H1' & H2' & H3' & H4' & H5' & H6').
  exists v. split; [exact Hv|]. split_and!; try done.
  - intros Ht%String.eqb_neq. rewrite H4'. unfold file. by rewrite Ht, no_file.
  - rewrite H1', Hc. by destruct (_ =s Token).
  - rewrite H1', Hc. by destruct (_ =s Token).
Qed.
