(* ===== verification/AuthProxyMain.v ===== *)
(** * The process of the authentication proxy (internal/authproxy/serve.go, [serve])

    The settings are read, the target is parsed, the proxy and the metadata
    server run in goroutines until the process is interrupted.  What the two
    servers answer is in [AuthProxy].  The lines the framework logs are left
    out. *)

From S2P Require Import Prelude Prog NetUrl AuthProxy Servers.
From stdpp Require Import relations.

Section Serve.
(** The settings library, and the command line: the variables after the flags
    have been parsed, and whether the required flag was among them. *)
Context (values : FlagValues.t) (remoteGiven : bool) (flags : ProxyVars.t).

Definition proxyVariables : option ProxyVars.t := loadConfig values remoteGiven flags.

(** [e.Start] in a goroutine: any error but that of a shutdown is fatal. *)
Definition runServer (server : string) (port : Z) : Prog Sys unit :=
  err ← listenAndServe server port;
  match err with ErrServerClosed => mret tt | ServeFailed _ => trigger (Exit 1) end.

(** [if err := e.Shutdown(ctx); err != nil { e.Logger.Fatal(err) }]; the context
    has a deadline of ten seconds. *)
Definition shutdownOrExit (server : string) : Prog Sys unit :=
  err ← shutdown server true;
  match err with Some _ => trigger (Exit 1) | None => mret tt end.

(** [serve]; with no error to return the process ends with code 0. *)
Definition serve (v : ProxyVars.t) : Prog Sys Z :=
  match targets v with
  | None => _ ← trigger (Exit 1); mret 1%Z
  | Some _ =>
      _ ← trigger Notify;
      _ ← trigger (Spawn "proxy");
      _ ← trigger (Spawn "meta");
      _ ← trigger WaitSignal;
      _ ← shutdownOrExit "proxy";
      _ ← shutdownOrExit "meta";
      mret 0%Z
  end.

Definition authproxyProcess : Process.t :=
  match proxyVariables with
  | None => Process.mk (mret 1%Z) (λ _, mret tt)
  | Some v =>
      Process.mk (serve v) (λ name,
        if name =s "proxy" then runServer "proxy" (ProxyVars.port v)
        else if name =s "meta" then runServer "meta" (ProxyVars.metaPort v) else mret tt)
  end.

(** ** The life of the process *)

(** The settings are complete and the target can be parsed. *)
Definition configured (v : ProxyVars.t) : Prop := proxyVariables = Some v ∧ is_Some (targets v).

Definition proxyPorts (v : ProxyVars.t) : list (string * Z) := [("proxy", ProxyVars.port v); ("meta", ProxyVars.metaPort v)].

Definition portsOf : list (string * Z) :=
  match proxyVariables with
  | Some v => match targets v with Some _ => proxyPorts v | None => [] end
  | None => []
  end.

Lemma portsOf_configured n port : (n, port) ∈ portsOf → ∃ v, configured v ∧ (n, port) ∈ proxyPorts v.
Proof.
  unfold portsOf, configured. destruct proxyVariables as [v|]; [|set_solver]. destruct (targets v) eqn:Ht; [|set_solver].
  intros Hin. exists v. rewrite Ht. eauto.
Qed.

Lemma portsOf_two : ∃ p1 p2, portsOf ≠ [] → portsOf = [("proxy", p1); ("meta", p2)].
Proof. unfold portsOf. by destruct proxyVariables as [v|]; [destruct (targets v)|]; [eexists _, _|exists 0%Z, 0%Z..]. Qed.

Lemma shutdownOrExit_wp order server (Q : Main → Prop) g :
  gAwaited g = true → (gShut g ++ [server]) `prefix_of` order.*1 →
  Q (mkMain (gNotified g) (gSpawned g) (gAwaited g) (gShut g ++ [server]) (gFailed g)) →
  wp (mainMonitor order true true) (shutdownOrExit server) (λ _ g, Q g) g.
Proof.
  intros Ha Hp HQ. split; [done|]. intros ? _. split; [cbn; by rewrite list.last_snoc|]. intros [err|] _; cbn; [|done].
  split; [by split_and!; [| |right]|done].
Qed.

#[local] Instance authproxy_orderly : Orderly portsOf true true authproxyProcess.
Proof.
  unfold portsOf, authproxyProcess. split.
  - destruct proxyVariables as [v|]; [|by left]. cbn [Process.main]. unfold serve.
    destruct (targets v) as [u|]; [|split; [by split_and!; [| |left]|done]].
    cbn -[shutdownOrExit]. split; [done|]. intros _ _. do 2 (split; [split; [done|set_solver]|]; intros _ _).
    split; [done|]. intros _ _.
    eapply wp_bind_intro; [apply shutdownOrExit_wp with (Q := λ g, gAwaited g = true ∧ gShut g = ["proxy"])|]; [done|by exists ["meta"]|done|].
    intros _ g [Ha Hs].
    eapply wp_bind_intro; [apply shutdownOrExit_wp with (Q := λ g, gAwaited g = true ∧ gShut g = ["proxy"; "meta"])|].
    { done. }
    { rewrite Hs. by exists []. }
    { cbn. by rewrite Hs. }
    by intros _ g' [].
  - intros name. destruct proxyVariables as [v|]; [|set_solver]. destruct (targets v) as [u|]; [|set_solver].
    intros Hn. assert (name = "proxy" ∨ name = "meta") as [-> | ->] by (cbn in Hn; set_solver); cbn.
    all: split; [split; [done|set_solver]|]; intros [[|err]|] _; cbn; [done|by split_and!|].
    all: split; [done|]; intros [|err] _; cbn; [done|by split_and!].
Qed.

(** C33: The authentication proxy opens its servers only when its settings are
    complete and the target can be parsed, on the configured ports.  It shuts
    them down after a signal only, the proxy before the metadata server, and
    ends with code 0 only when both are shut down; any other end comes before a
    server was open, or after a server or its shutdown failed.  No execution is
    infinite, and none gets stuck before the end, whichever servers have requests
    that never end. *)
Theorem authproxy_runs hanging main pool w :
  rtc (step hanging authproxyProcess) (started authproxyProcess) (main, pool, w) →
  (∀ n, n ∈ opened w → ∃ v, configured v) ∧
  (∀ n port, servers w !! n = Some (Serving port) → ∃ v, configured v ∧ (n, port) ∈ proxyPorts v) ∧
  (servers w !! "meta" = Some Closed → servers w !! "proxy" = Some Closed) ∧
  (servers w !! "proxy" = Some Closed → signalled w = true) ∧
  match ended w with
  | Some (Exited code) =>
      if decide (code = 0%Z) then servers w !! "meta" = Some Closed else opened w = [] ∨ failures w ≠ []
  | Some _ => opened w = []
  | None => ¬ nf (step hanging authproxyProcess) (main, pool, w)
  end ∧
  Acc (flip (step hanging authproxyProcess)) (main, pool, w).
Proof.
  intros Hr. destruct (lifecycle portsOf true true hanging _ _ _ _ Hr) as (Hs & Ho & _ & _).
  destruct portsOf_two as (p1 & p2 & Htwo). destruct (two_servers _ _ _ _ _ _ _ _ _ _ _ _ Htwo Hr) as (H1 & H2 & He).
  split.
  { intros n Hn%Ho. apply list_elem_of_fmap in Hn as ([n' port] & -> & (v & Hv & _)%portsOf_configured). eauto. }
  split; [intros n port Hn%Hs; by apply portsOf_configured|]. split; [exact H1|]. split; [exact H2|].
  split; [|apply steps_terminate].
  destruct (ended w) as [[code|why|]|]; try done; [destruct (decide (code = 0%Z)); [done|by destruct He as [?|[_ ?]]; [left|right]]|].
  by intros [_ ?%draining_unbounded]%He.
Qed.
End Serve.

(** ** An example *)

Definition demoValues : FlagValues.t :=
  FlagValues.mk (λ key, if key =s "authproxy.remote" then Some "http://localhost:8888" else None) (λ _, None) (λ _, None).

Definition demoMoves : list Move :=
  replicate 3 Main_ ++ [Goroutine 0; Goroutine 1; Signal] ++ replicate 3 Main_ ++ [Goroutine 0] ++ replicate 3 Main_.

Lemma authproxy_runs_witness :
  let '(main, pool, w) := schedule (λ _, false) (authproxyProcess demoValues false ProxyVars.initial) demoMoves in
  ended w = Some (Exited 0) ∧ servers w !! "meta" = Some Closed ∧ servers w !! "proxy" = Some Closed ∧ signalled w = true.
Proof.
  set (P := authproxyProcess demoValues false ProxyVars.initial). destruct (schedule (λ _, false) P demoMoves) as [[main pool] w] eqn:E.
  assert (He : ended w = Some (Exited 0)) by (pose proof (f_equal (λ st : State, ended st.2) E) as Hw; vm_compute in Hw; by symmetry).
  pose proof (server_schedule (λ _, false) P demoMoves) as Hr. rewrite E in Hr.
  destruct (authproxy_runs demoValues false ProxyVars.initial (λ _, false) main pool w Hr) as (_ & _ & Hmp & Hs & Hend & _).
  rewrite He in Hend. cbn in Hend. split; [done|]. split; [done|]. split; [by apply Hmp|]. by apply Hs, Hmp.
Defined.
