(* ===== verification/Tunnel.v ===== *)
(** * The tunnel server (internal/tunnel)

    The command [tunnel listen] writes a restriction file for wstunnel and runs
    it.  The YAML library is the parameter [YamlNodes], the settings library an
    argument; files and the process are events. *)

From S2P Require Import Prelude Prog.
From Stdlib Require Import Ascii.

(** ** The restriction file *)

(** [yaml.Node] *)
Inductive Node :=
| ScalarNode (tag value : string)
| SequenceNode (tag : string) (content : list Node)
| MappingNode (tag : string) (content : list Node).

Module Restriction.
Record t := mk { Name : string; Match : list Node; Allow : list Node }.
End Restriction.

Module Config.
Record t := mk { Restrictions : list Restriction.t }.
End Config.

Class YamlNodes := { Marshal_Config : Config.t → Result string }.

(** What is allowed: tunnels of this kind for the protocol Tcp. *)
Definition tcpNode (tag : string) : Node :=
  MappingNode tag [ScalarNode "" "protocol"; SequenceNode "" [ScalarNode "" "Tcp"]].

Definition matchValue (wstunnelSecret : string) : string := "^[Bb]earer +" +:+ wstunnelSecret +:+ "$".

Definition configData (wstunnelSecret : string) : Config.t :=
  Config.mk [Restriction.mk "My config" [ScalarNode "!Authorization" (matchValue wstunnelSecret)]
               [tcpNode "!Tunnel"; tcpNode "!ReverseTunnel"]].

(** ** The command *)

Inductive Tn : Type → Type :=
(** the name of the new file *)
| CreateTemp (pattern : string) : Tn (Result string)
| WriteTemp (file contents : string) : Tn (option GoError)
| CloseTemp (file : string) : Tn (option GoError)
| RemoveTemp (file : string) : Tn unit
| Printf (line : string) : Tn unit
(** a run of a program with its arguments *)
| RunCommand (name : string) (args : list string) : Tn (option GoError).

Definition wstunnelPrefix : string := "wstunnel".
(** The settings of [root.go]: flag, key and variable. *)
Definition wstunnelKey (flag : string) : string := wstunnelPrefix +:+ "." +:+ flag.

Definition orElse (s def : string) : string := if s =s "" then def else s.

Definition wstunnelArgs (file logLevel port : string) : list string :=
  ["server"; "--restrict-config"; file; "--log-lvl"; logLevel; "ws://0.0.0.0:" +:+ port].

Section Listen.
Context `{YamlNodes} (GetString : string → string).

(** The part of [listen] after the temporary file has been created. *)
Definition runWith (file yamlContent : string) : Prog Tn (option GoError) :=
  err ← trigger (WriteTemp file yamlContent);
  match err with
  | Some err =>
      _ ← trigger (CloseTemp file);
      mret (Some (Errorf ("failed to write YAML to temporary file: " +:+ err_msg err)))
  | None =>
      err ← trigger (CloseTemp file);
      match err with
      | Some err => mret (Some (Errorf ("failed to close temporary file: " +:+ err_msg err)))
      | None =>
          let args := wstunnelArgs file (orElse (GetString (wstunnelKey "log-level")) "INFO")
                        (orElse (GetString (wstunnelKey "port")) "5050") in
          _ ← trigger (Printf ("Executing wstunnel: wstunnel " +:+ Strings.Join args " "));
          err ← trigger (RunCommand "wstunnel" args);
          mret match err with
               | Some err => Some (Errorf ("wstunnel command failed: " +:+ err_msg err))
               | None => None
               end
      end
  end.

Definition listen : Prog Tn (option GoError) :=
  let wstunnelSecret := GetString (wstunnelKey "secret") in
  if wstunnelSecret =s "" then
    mret (Some (Errorf "wstunnel secret is not set, use --secret or WSTUNNEL_SECRET environment variable"))
  else
    match Marshal_Config (configData wstunnelSecret) with
    | inr err => mret (Some (Errorf ("failed to marshal YAML config: " +:+ err_msg err)))
    | inl yamlContent =>
        tmpFile ← trigger (CreateTemp "wstunnel-restrict-config-*.yaml");
        match tmpFile with
        | inr err => mret (Some (Errorf ("failed to create temporary file: " +:+ err_msg err)))
        | inl file => deferred (RemoveTemp file) (runWith file yamlContent)
        end
    end.
End Listen.
