(* ===== verification/TunnelTheorems.v ===== *)
(** * Theorems about the tunnel

    The run of the tunnel server, and the secret that the server, the remote
    job and the operator share. *)

From S2P Require Import Prelude Prog NetUrl K8s Types Names Children Config Json JsonProps RemoteConfig Firecrest RemoteWiring Tunnel.
From Stdlib Require Import Ascii.

(** ** The run *)

(** What the server is to be told, in the terms of its configuration: every
    restriction asks for the secret in the authorization, and lets nothing pass
    but tunnels for the protocol Tcp, of one of the two kinds, both of which
    pass. *)
Definition tcpTunnel (tag : string) : Node :=
  MappingNode tag [ScalarNode "" "protocol"; SequenceNode "" [ScalarNode "" "Tcp"]].

Definition restricted (secret : string) (c : Config.t) : Prop :=
  (∀ r, r ∈ Config.Restrictions c →
     Restriction.Match r = [ScalarNode "!Authorization" ("^[Bb]earer +" +:+ secret +:+ "$")] ∧
     ∀ n, n ∈ Restriction.Allow r → n = tcpTunnel "!Tunnel" ∨ n = tcpTunnel "!ReverseTunnel") ∧
  ∀ kind, kind ∈ ["!Tunnel"; "!ReverseTunnel"] →
    ∃ r, r ∈ Config.Restrictions c ∧ tcpTunnel kind ∈ Restriction.Allow r.

Lemma configData_restricted secret : restricted secret (configData secret).
Proof.
  split.
  - intros r ->%list_elem_of_singleton. split; [done|]. intros n Hn. cbn in Hn.
    rewrite !elem_of_cons, elem_of_nil in Hn. naive_solver.
  - intros kind Hk. eexists. split; [by left|]. rewrite !elem_of_cons, elem_of_nil in Hk.
    destruct Hk as [->|[->|[]]]; [by left|by right; left].
Qed.

(** The temporary file: not there, open, written, closed, and removed in the end. *)
Inductive tempFile := NoFile | Empty (file : string) | Written (file : string) | Closed (file : string) (written : bool) | Removed.

(** Whether wstunnel has run to its end, or a step has failed. *)
Inductive fate := Pending | Served | Broken.
Definition broken {A} (err : option A) (otherwise : fate) : fate := match err with Some _ => Broken | None => otherwise end.

Section Run.
Context `{YamlNodes} (GetString : string → string).

Definition setting (key default : string) : string := if GetString key =s "" then default else GetString key.

(** wstunnel runs once, as a server with the restrictions of a file that has been
    written with restrictions for the secret, and closed. *)
Definition tunnelRun : Monitor Tn (tempFile * fate) := {|
  allowed := λ R e, match e in Tn R return tempFile * fate → Prop with
    | CreateTemp _ => λ g, g = (NoFile, Pending) ∧ GetString "wstunnel.secret" ≠ ""
    | WriteTemp file contents => λ g, g = (Empty file, Pending) ∧
        ∃ config, restricted (GetString "wstunnel.secret") config ∧ Marshal_Config config = inl contents
    | CloseTemp file => λ g, g = (Empty file, Broken) ∨ g = (Written file, Pending)
    | Printf _ => λ _, True
    | RunCommand name args => λ g, ∃ file, g = (Closed file true, Pending) ∧ name = "wstunnel" ∧
        args = ["server"; "--restrict-config"; file; "--log-lvl"; setting "wstunnel.log-level" "INFO";
                "ws://0.0.0.0:" +:+ setting "wstunnel.port" "5050"]
    | RemoveTemp file => λ g, ∃ written, g.1 = Closed file written
    end;
  rely := λ _ _ _ _, True;
  next := λ R e, match e in Tn R return R → tempFile * fate → tempFile * fate with
    | CreateTemp _ => λ r g, match r with inl file => (Empty file, g.2) | inr _ => (g.1, Broken) end
    | WriteTemp file _ => λ r g, match r with None => (Written file, g.2) | Some _ => (g.1, Broken) end
    | CloseTemp file => λ r g,
        (match g.1 with Written _ => Closed file true | _ => Closed file false end, broken r g.2)
    | RunCommand _ _ => λ r g, (g.1, broken r Served)
    | RemoveTemp _ => λ _ g, (Removed, g.2)
    | Printf _ => λ _ g, g
    end;
  panic_ok := λ _, False |}.

(** C36: The tunnel server runs only with a secret, and only as a server that is
    given the file of its restrictions, which has been written completely and
    closed before: it takes connections on the configured port from those who
    present the secret in the authorization, and for tunnels of the protocol
    Tcp only.  It does run, unless the secret is missing, the restrictions have
    no YAML or a step has failed; an error is reported exactly when it has not
    run to its end; and the file is removed in every case. *)
Theorem tunnel_runs_restricted :
  wp tunnelRun (listen GetString) (λ err g,
    (err = None ↔ g.2 = Served) ∧ (g.1 = NoFile ∨ g.1 = Removed) ∧
    (g.2 = Pending → GetString "wstunnel.secret" = "" ∨
       ∃ config reason, restricted (GetString "wstunnel.secret") config ∧ Marshal_Config config = inr reason))
    (NoFile, Pending).
Proof.
  unfold listen. change (wstunnelKey "secret") with "wstunnel.secret". destruct (_ =s "") eqn:Es.
  { apply String.eqb_eq in Es. split; [done|]. split; [by left|]. intros _. by left. }
  apply String.eqb_neq in Es. pose proof (configData_restricted (GetString "wstunnel.secret")) as Hc.
  destruct (Marshal_Config _) as [yaml|err] eqn:Hy.
  2:{ split; [done|]. split; [by left|]. intros _. right. by eexists _, _. }
  split; [done|]. intros [file|err] _; [|by split; [|split; [left|]]]. cbn.
  split; [by split; [|eexists]|]. intros [err|] _; cbn.
  - split; [by left|]. intros [e|] _; (split; [by eexists|]); intros [] _; (split; [done|]); by split; [right|].
  - split; [by right|]. intros [err|] _; cbn; [split; [by eexists|]; intros [] _; split; [done|]; by split; [right|]|].
    split; [done|]. intros [] _. cbn. split; [by exists file|].
    intros [err|] _; cbn; (split; [by eexists|]); intros [] _; (split; [done|]); by split; [right|].
Qed.
End Run.

(** ** The shared secret *)

(** The characters that mean something to a regular expression. *)
Definition regexSpecial : list ascii := String.list_ascii_of_string "\.+*?()|[]{}^$#&~ ".
Definition regexLiteral (s : string) : Prop := Forall (λ c, c ∉ regexSpecial) (String.list_ascii_of_string s).

Lemma urlsafe_literal n : (n < 64)%nat → Base64.digit Base64.urlsafe n ∉ regexSpecial.
Proof.
  intros Hn. assert (Hall : Forall (λ c, c ∉ regexSpecial) (map (Base64.digit Base64.urlsafe) (seq 0 64))).
  { apply (bool_decide_unpack _). vm_compute. exact I. }
  rewrite list.Forall_forall in Hall. apply Hall. apply list_elem_of_In, in_map, in_seq. lia.
Qed.

Lemma code_lt c : (Bytes.code c < 256)%nat.
Proof. apply Ascii.nat_ascii_bounded. Qed.

(** The indices of the digits are below 64. *)
Lemma sextet_div4 a : (a < 256 → a / 4 < 64)%nat.
Proof. intros. apply Nat.Div0.div_lt_upper_bound. lia. Qed.
Lemma sextet_2 a b : (b < 256 → a mod 4 * 16 + b / 16 < 64)%nat.
Proof.
  intros. pose proof (Nat.mod_upper_bound a 4 ltac:(lia)). assert (b / 16 < 16)%nat by (apply Nat.Div0.div_lt_upper_bound; lia). lia.
Qed.
Lemma sextet_4 a b : (b < 256 → a mod 16 * 4 + b / 64 < 64)%nat.
Proof.
  intros. pose proof (Nat.mod_upper_bound a 16 ltac:(lia)). assert (b / 64 < 4)%nat by (apply Nat.Div0.div_lt_upper_bound; lia). lia.
Qed.
Lemma sextet_mod64 a : (a mod 64 < 64)%nat.
Proof. apply Nat.mod_upper_bound. lia. Qed.

Lemma RawURLEncoding_literal b : regexLiteral (Base64.RawURLEncoding b).
Proof.
  unfold regexLiteral, Base64.RawURLEncoding. assert (H : ∀ n b, (String.length b < n)%nat →
    Forall (λ c, c ∉ regexSpecial) (String.list_ascii_of_string (Base64.EncodeToString Base64.urlsafe "" b))); [|apply (H (S (String.length b))); lia].
  clear b. induction n as [|n IH]; intros b Hb; [lia|].
  destruct b as [|x [|y [|z b]]]; cbn -[Base64.digit Nat.div Nat.modulo]; repeat apply Forall_cons_2; try apply Forall_nil_2;
    try (apply IH; cbn in Hb; lia); apply urlsafe_literal;
    auto using code_lt, sextet_div4, sextet_2, sextet_4, sextet_mod64.
  - pose proof (Nat.mod_upper_bound (Bytes.code x) 4 ltac:(lia)). lia.
  - pose proof (Nat.mod_upper_bound (Bytes.code y) 16 ltac:(lia)). lia.
Qed.

Lemma RawURLEncoding_nonempty b : b ≠ "" → Base64.RawURLEncoding b ≠ "".
Proof. by destruct b as [|x [|y [|z b]]]. Qed.

(** The settings of the command: the variables bound in [root.go]. *)
Class TunnelSettings := {
  tunnelString : Env → string → string;
  tunnel_bound : ∀ env flag variable v,
    (flag, variable) ∈ [("secret", "WSTUNNEL_SECRET"); ("port", "WSTUNNEL_PORT"); ("log-level", "WSTUNNEL_LOG-LEVEL")] →
    env !! variable = Some v → v ≠ "" → tunnelString env (wstunnelKey flag) = v }.

(** Operator, tunnel server and remote job share one secret.  When the internal
    secret of a remote session holds an encoded random text, as the operator
    makes it, the server of the pod restricts tunnels to an authorization that
    contains exactly that text (it has no character with a meaning in the
    regular expression), listens on the port that its container and its probe
    name, and the controller hands the same text to the job. *)
Theorem tunnel_secret_shared (opEnv : Env) `{QuantityOps, Kubelet, TunnelSettings} cr volumeMounts b c secretsPath :
  b ≠ "" → secretData (InternalSecretName cr) "WSTUNNEL_SECRET" = Some (Base64.RawURLEncoding b) →
  let s := Base64.RawURLEncoding b in
  let server := tunnelContainer opEnv cr in
  let settings := tunnelString (environ server) in
  settings (wstunnelKey "secret") = s ∧
  (∃ rest, matchValue (settings (wstunnelKey "secret")) = "^[Bb]earer +" +:+ rest +:+ "$" ∧ regexLiteral rest) ∧
  ContainerPort.ContainerPort <$> Container.Ports server = [TunnelPort] ∧
  settings (wstunnelKey "port") = pretty TunnelPort ∧
  uploadSecret (environ (sessionContainerRemote opEnv cr volumeMounts)) c secretsPath =
    uploadFile c secretsPath "wstunnel_secret" s.
Proof.
  intros Hb Hs s server settings.
  assert (Hsecret : settings (wstunnelKey "secret") = s).
  { apply (tunnel_bound _ "secret" "WSTUNNEL_SECRET"); [by left| |by apply RawURLEncoding_nonempty].
    refine (environ_secret server [_] (envFromSecretKey "WSTUNNEL_SECRET" _ _) [] _ _ _ eq_refl eq_refl eq_refl _ Hs).
    apply not_elem_of_nil. }
  split; [done|]. rewrite Hsecret. split; [exists s; split; [done|by apply RawURLEncoding_literal]|]. split; [done|]. split.
  - apply (tunnel_bound _ "port" "WSTUNNEL_PORT"); [by right; left| |done].
    refine (environ_literal server [] (envVar "WSTUNNEL_PORT" _) _ eq_refl eq_refl _ eq_refl).
    cbn. by rewrite list_elem_of_singleton.
  - unfold uploadSecret, Getenv.
    assert (environ (sessionContainerRemote opEnv cr volumeMounts) !! "RSC_WSTUNNEL_SECRET" = Some s) as ->.
    { refine (environ_secret _ (remoteEnv (Spec_Session cr) ++ [_; _; _; _; _]) (envFromSecretKey "RSC_WSTUNNEL_SECRET" _ _)
                (remoteResourceEnv (Session.Resources (Spec_Session cr))) _ _ _ _ eq_refl eq_refl _ Hs).
      - cbn [Container.Env sessionContainerRemote]. by rewrite <- !(assoc (++)).
      - cbn. set_solver. }
    cbn [default]. rewrite (proj2 (String.eqb_neq _ _)); [done|]. by apply RawURLEncoding_nonempty.
Qed.
