(* ===== verification/RemoteExamples.v ===== *)
(** * A remote session, run

    An API of a small cluster, a kubelet and a settings library: the theorems
    about remote sessions applied to them, and runs of the controller. *)

From S2P Require Import Prelude Prog NetUrl K8s Types Api Names Templates Children Config Json JsonProps GitProxy FirecrestScript LogTail RemoteConfig RemoteAuth.
From S2P Require Import Firecrest FirecrestProps FirecrestLogs FirecrestProtocol FirecrestTheorems Runai Remote RemoteTheorems RemoteWiring.
From S2P Require Import Cluster BuilderTheorems ProxyTheorems.
From Stdlib Require Import Ascii.

(** ** The cluster *)

Definition answer {A} (code : Z) (a : A) : Result (Response.t A) := inl (Response.mk code (Some a) None None).
Definition noContent {A} : Result (Response.t A) := inl (Response.mk 204 None None None).
Definition noFile : GoError := mkError "no such file or directory" true.

(** Everything succeeds; the world counts the submissions. *)
Definition demoApi : Handler Fc nat := λ R e,
  match e in Fc R return nat → R * nat with
  | GetSystems => λ w, (answer 200 [HPCCluster.mk (Some [FileSystem.mk "scratch" (Some true) "/scratch"]) "eiger"], w)
  | GetUserinfo _ => λ w, (answer 200 "jane", w)
  | PostUpload _ _ _ _ => λ w, (noContent, w)
  | PostMkdir _ _ _ => λ w, (answer 201 tt, w)
  | PutChmod _ _ _ => λ w, (answer 200 tt, w)
  | PostJobSubmit _ _ => λ w, (answer 201 (Some (pretty (Z.of_nat (4711 + w)))), S w)
  | GetJobMetadata _ _ => λ w, (answer 200 None, w)
  | GetJob _ _ => λ w, (answer 200 (Some ["RUNNING"]), w)
  | DeleteJobCancel _ _ => λ w, (noContent, w)
  | GetView _ _ _ _ => λ w, (answer 200 None, w)
  | CtxErr => λ w, (None, w)
  | ReadDir _ => λ w, (inl [], w)
  | ReadFile _ => λ w, (inr noFile, w)
  | OpenFile _ => λ w, (inr noFile, w)
  | MkdirAll _ => λ w, (None, w)
  | WriteFile _ _ => λ w, (None, w)
  | Remove _ => λ w, (None, w)
  | Println _ => λ w, (None, w)
  | RangeOrder keys => λ w, (keys, w)
  end.

Definition demoEnv : Env :=
  {[ "RENKU_MOUNT_DIR" := "/work"; "RENKU_PROJECT_PATH" := "jane/climate"; "RENKU_BASE_URL_PATH" := "/sessions/one";
     "USER_ENV_SLURM_ACCOUNT" := "g42"; "RSC_WSTUNNEL_SECRET" := "s3cret" ]}.
Definition demoScript : string := "#!/bin/bash".
Definition freshController : Controller.t := Controller.new "eiger" "normal" false.

(** The first start submits a job, the second one finds it. *)
Example start_twice :
  let '(o1, s1) := run (withDisk demoApi) (Start demoEnv demoScript freshController) (0, ∅) in
  let '(o2, s2) := run (withDisk demoApi) (Start demoEnv demoScript freshController) s1 in
  match o1, o2 with
  | Done (c1, None), Done (c2, None) => Controller.jobID c1 = "4711" ∧ Controller.jobID c2 = "4711" ∧ s1.1 = 1 ∧ s2.1 = 1
  | _, _ => False
  end.
Proof. vm_compute. done. Qed.

(** ** FirecREST *)

Definition watching : Controller.t :=
  Controller.with_offsets (Controller.with_paths (Controller.with_jobID freshController "4711") "/scratch/out.log" "/scratch/err.log") 17 0.

Lemma restart_resumes_witness :
  ∃ d', run (withDisk demoApi) (saveState demoEnv watching) (1, ∅) = (Done None, (1, d')) ∧
  ∃ c', run (withDisk demoApi) (Start demoEnv demoScript (Controller.new "eiger" "normal" false)) (1, d') =
          (Done (c', None), (1, d')) ∧
        stateOf c' = stateOf watching.
Proof. apply (restart_resumes demoApi demoEnv demoScript watching); [discriminate|by vm_compute]. Defined.

Lemma start_outcome_witness :
  obeys (protocol demoEnv demoScript "eiger") demoApi (Start demoEnv demoScript freshController)
    (λ '(c', err) g, (Ghost.submissions g ≤ 1)%nat ∧
       match err with
       | None => Ghost.job g = Some (Controller.jobID c') ∧ Controller.jobID c' ≠ "" ∧ Ghost.saved g = true ∧
                 (Ghost.submissions g = 0%nat → Ghost.calls g = 0%nat)
       | Some _ => Ghost.saved g = false ∧
                   (Ghost.submissions g = 0%nat ∨ Ghost.job g = Some (Controller.jobID c'))
       end) 0 Ghost.init.
Proof. apply wp_obeys; [done|]. exact (start_outcome demoEnv demoScript freshController eq_refl eq_refl). Defined.

(** A job that has just been submitted, and its log a moment later. *)
Definition newJob : Controller.t := Controller.with_paths (Controller.with_jobID freshController "4711") "/o" "/e".
Definition quietWorld : World.t := World.mk ∅ [] {[ getSavePath demoEnv := Marshal (stateOf newJob) ]}.
Definition grown : World.t := World.append quietWorld "/o" ("hello" +:+ newline_).

Lemma newJob_submitted : submitted demoEnv "eiger" Out newJob quietWorld.
Proof. by split; vm_compute. Qed.

Lemma newJob_grows : rtc (sysStep demoEnv demoScript "eiger" "normal" false) (Some newJob, quietWorld) (Some newJob, grown).
Proof. apply rtc_once, Grow. by vm_compute. Qed.

Lemma log_refines_witness :
  ∃ t, rtc Tail.step (Tail.start "") t ∧ Tail.out t = [] ∧ Tail.file t = "hello" +:+ newline_ ∧ 0%Z = Z.of_nat (Tail.pos t).
Proof. exact (log_refines _ _ _ _ _ _ _ _ _ newJob_submitted newJob_grows). Defined.

Lemma log_complete_witness :
  ∃ ls, Strings.take 0 ("hello" +:+ newline_) = unlines ls ∧ Forall lineFree ls ∧ ls `sublist_of` linesOf Out grown.
Proof. exact (log_complete _ _ _ _ _ _ _ _ _ _ newJob_submitted newJob_grows). Defined.

Lemma fake_start_sticks_witness :
  ∃ c1 c2 w' d' c3,
    run (withDisk demoApi) (Start demoEnv demoScript (Controller.new "eiger" "normal" true)) (0, ∅) = (Done (c1, None), (0, ∅)) ∧
    run (withDisk demoApi) (tick demoEnv c1) (0, ∅) = (Done c2, (w', d')) ∧
    run (withDisk demoApi) (Start demoEnv demoScript (Controller.new "eiger" "normal" false)) (w', d') =
      (Done (c3, None), (w', d')) ∧
    Controller.jobID c3 = fakeJobID.
Proof. apply fake_start_sticks. reflexivity. Defined.

Lemma job_environment_spec_witness :
  gitEnv ∅ [] (copiedEnv demoEnv) !! "SLURM_ACCOUNT" = Some "g42" ∧
  gitEnv ∅ [] (copiedEnv demoEnv) !! "RSC_WSTUNNEL_SECRET" = None.
Proof.
  split; (rewrite (job_environment_spec demoEnv ∅ [] (copiedEnv demoEnv)); [reflexivity|reflexivity|]);
    unfold controllerVars; rewrite !not_elem_of_cons; split_and!; (discriminate || apply not_elem_of_nil).
Defined.

Lemma firecrest_session_witness :
  obeys (serverMonitor (protocol demoEnv demoScript "eiger"))
    (λ R e, match e in Srv _ R return nat → R * nat with
            | Ctl e => demoApi _ e
            | Listen _ => λ w, (tt, w)
            | NextTick => λ w, (true, w)
            | Shutdown => λ w, (None, w)
            end)
    (let _ := firecrestController demoEnv demoScript in
     serve 3 (RemoteConfig.mk "firecrest" (FirecrestConfig.mk "" "" "" (FirecrestAuthConfig.mk "" "" "" "" "" "" "" "" ""))
                (RunaiConfig.mk "" (RunaiAuthConfig.mk "" "" "" "") "") 65532 false 8888 "/" "none") freshController)
    (λ _ g, (Ghost.submissions g ≤ 1)%nat) 0 Ghost.init.
Proof. apply wp_obeys; [intros R e w r w' s; by destruct e|]. exact (firecrest_session demoEnv demoScript 3 _ freshController eq_refl eq_refl). Defined.

(** ** Configuration and Run:AI *)

(** Settings given by a list of keys. *)
Definition settingsOf (l : list (string * string)) : Settings :=
  let get key := default "" ((list_to_map l : gmap string string) !! key) in
  mkSettings get (λ key, default 0%Z (parseInt (get key))) (λ key, get key =s "true").

Definition runaiSettings : Settings :=
  settingsOf [("auth-kind", "client_credentials"); ("runai-base-url", "https://run.ai"); ("auth.runai-client-id", "renku");
              ("auth.runai-client-secret", "s3cret"); ("runai-project", "climate"); ("server-port", "65532");
              ("readiness-probe-type", "none"); ("session-url-path", "/")].
Definition runaiConfig : RemoteConfig.t := (RemoteConfig.Validate (GetConfig runaiSettings)).1.

Lemma validated_config_accepted_witness :
  RemoteConfig.RemoteKind runaiConfig = RemoteKindRunai ∧
  match NewRemoteSessionController runaiConfig with Done (inl (RunaiKind c)) => RunaiController.project c = "climate" | _ => False end.
Proof.
  pose proof (validated_config_accepted runaiSettings runaiConfig) as H. split; [by vm_compute|].
  specialize (H ltac:(by vm_compute)) as [_ H]. by vm_compute.
Defined.

Definition demoRunai : RunaiController.t :=
  match NewRunaiRemoteSessionController runaiConfig with inl c => c | inr _ => RunaiController.mk (RunaiApi.mk "" (RunaiClientCredentialsAuth.mk "" "" "")) "" "" "" false NotReady None end.

Lemma runai_never_running_witness :
  let _ := runaiController demoEnv in (statusEndpoint demoRunai).1.1 = 503%Z.
Proof. apply (runai_never_running demoEnv runaiConfig demoRunai). by vm_compute. Defined.

(** A token server and an API that refuses every token; a saved state. *)
Definition refusingApi : Handler RunaiEv nat := λ R e,
  match e in RunaiEv R return nat → R * nat with
  | AuthCall e => λ w, (match e in AuthEv R return R with
                        | Clock => 100%Z
                        | Lock _ | Unlock _ | RLock _ | RUnlock _ | StoreToken _ _ | StoreRefresh _ => tt
                        | LoadToken _ => TokenState.mk "token" 0%Z
                        | LoadRefresh => ""
                        | Send _ => inl (RawResponse.mk 200 "200 OK" ("{" +:+ Strings.dquote +:+ "accessToken" +:+ Strings.dquote +:+
                                      ":" +:+ Strings.dquote +:+ "fresh" +:+ Strings.dquote +:+ "}"))
                        end, w)
  | ApiDo _ => λ w, (inl (RawResponse.mk 401 "401 Unauthorized" ""), S w)
  | FileRead _ => λ w, (inl (print (runaiState.marshal (runaiState.mk "climate-1" "id-1"))), w)
  | FileWrite _ _ | FileMkdir _ | FileRemove _ => λ w, (None, w)
  | FormatNow => λ w, ("20240101-00-00-00", w)
  end.

Definition createRequest : ApiRequest.t := ApiRequest.mk "POST" "https://run.ai/api/v1/workloads/workspaces" "Bearer token" (Some "{}").

Lemma runai_retry_repeats_witness :
  obeys requestMonitor refusingApi (send (RunaiController.client demoRunai) createRequest)
    (λ _ g, g = [createRequest] ∨ g = [createRequest; ApiRequest.with_Body createRequest (Some "")]) 0 [].
Proof. apply wp_obeys; [done|]. apply (runai_retry_repeats _ createRequest). discriminate. Defined.

Example runai_retry_run : (run refusingApi (send (RunaiController.client demoRunai) createRequest) 0).2 = 2.
Proof. vm_compute. done. Qed.

Lemma runai_resumed_not_stopped_witness :
  obeys recoveryMonitor refusingApi (recoverJobInfo demoEnv demoRunai)
    (λ '(c', err) resumed, (resumed = true → err = None ∧ RunaiController.jobName c' ≠ "") ∧
       runaiStop demoEnv c' = Ret None) 0 false.
Proof. apply wp_obeys; [done|]. apply runai_resumed_not_stopped. reflexivity. Defined.

(** ** The kubelet and the settings *)

(** Every secret has a tunnel secret and a configuration file of a proxy. *)
Definition demoSecrets (secret key : string) : option string :=
  if key =s "WSTUNNEL_SECRET" then Some "c2VjcmV0"
  else if key =s "proxy.yaml" then Some ("port: 1" +:+ String (ascii_of_nat 10) "token: s3cret")
  else None.

Definition entryValue (e : EnvVar.t) : option (string * string) :=
  match EnvVar.ValueFrom e with
  | None => Some (EnvVar.Name e, EnvVar.Value e)
  | Some src =>
      match EnvVarSource.SecretKeyRef src with
      | Some ref => (λ v, (EnvVar.Name e, v)) <$> demoSecrets (SecretKeySelector.Name ref) (SecretKeySelector.Key ref)
      | None => None
      end
  end.
Definition entries (c : Container.t) : Env := list_to_map (reverse (omap entryValue (Container.Env c))).

Lemma entries_lookup c l1 e l2 v : Container.Env c = l1 ++ e :: l2 → entryValue e = Some (EnvVar.Name e, v) →
  EnvVar.Name e ∉ EnvVar.Name <$> l2 → entries c !! EnvVar.Name e = Some v.
Proof.
  intros He Hv Hn. unfold entries. change Env with (gmap string string). rewrite He, list.omap_app. cbn. rewrite Hv.
  rewrite reverse_app, reverse_cons, <- (assoc (++)), list_to_map_app, lookup_union_r; [cbn; apply lookup_insert_eq|].
  apply not_elem_of_list_to_map_1. rewrite fmap_reverse, elem_of_reverse. intros (x & Hx & Hin)%list_elem_of_fmap.
  apply list_elem_of_omap in Hin as (e' & Hin & He'). apply Hn. rewrite Hx.
  assert (x.1 = EnvVar.Name e') as ->.
  { revert He'. unfold entryValue. destruct (EnvVar.ValueFrom e') as [src|]; [|by intros [= <-]].
    destruct (EnvVarSource.SecretKeyRef src); [|done]. by destruct (demoSecrets _ _); cbn; intros; simplify_eq. }
  by apply list_elem_of_fmap_2.
Qed.

Lemma entries_unset c x : x ∉ EnvVar.Name <$> Container.Env c → entries c !! x = None.
Proof.
  intros Hx. apply not_elem_of_list_to_map_1. rewrite fmap_reverse, elem_of_reverse. intros (y & -> & Hin)%list_elem_of_fmap.
  apply list_elem_of_omap in Hin as (e & Hin & He). apply Hx, list_elem_of_fmap. exists e. split; [|done].
  revert He. unfold entryValue. destruct (EnvVar.ValueFrom e) as [src|]; [|by intros [= <-]].
  destruct (EnvVarSource.SecretKeyRef src); [|done]. by destruct (demoSecrets _ _); cbn; intros; simplify_eq.
Qed.

(** The file at a path: that of the first mount above it, in the volume of its name. *)
Definition mountedFile (volumes : list Volume.t) (c : Container.t) (path : string) : option string :=
  m ← head (filter (λ m, below (VolumeMount.MountPath m) path) (Container.VolumeMounts c));
  v ← head (filter (λ v, Volume.Name v = VolumeMount.Name m) volumes);
  secret ← VolumeSource.Secret (Volume.Source v);
  demoSecrets (SecretVolumeSource.SecretName secret) (Strings.TrimPrefix path (VolumeMount.MountPath m +:+ "/")).

Lemma below_own mountPath key : below mountPath (mountPath +:+ "/" +:+ key) = true.
Proof.
  unfold below. apply orb_true_iff. right. apply bool_decide_eq_true_2. unfold segments.
  change ("/" +:+ key) with (String "/" key). rewrite Strings.Fields_app, list.filter_app. by eexists.
Qed.

Lemma head_filter_app {A} (P : A → Prop) `{∀ x, Decision (P x)} l1 x l2 :
  (∀ y, y ∈ l1 → ¬ P y) → P x → head (filter P (l1 ++ x :: l2)) = Some x.
Proof.
  intros Hl Hx. induction l1 as [|y l1 IH]; cbn.
  - by rewrite decide_True.
  - rewrite decide_False; [|apply Hl; left]. apply IH. intros z Hz. apply Hl. by right.
Qed.

#[global] Instance plainKubelet : Kubelet.
Proof.
  refine {| secretData := demoSecrets; environ := entries; ambient _ := []; containerFile := mountedFile |}.
  - intros c l1 e l2 src ref v He Hs Hr Hn Hd. eapply entries_lookup; [done| |done]. unfold entryValue. by rewrite Hs, Hr, Hd.
  - intros c l1 e l2 He Hv Hn _. eapply entries_lookup; [done| |done]. unfold entryValue. by rewrite Hv.
  - intros c x Hx _ _. by apply entries_unset.
  - intros volumes c l1 m l2 v secret key Hm _ Hv Hnodup Hname Hsecret _ path Hbelow data Hdata. unfold mountedFile.
    rewrite Hm, head_filter_app; cbn [mbind option_bind].
    + apply list_elem_of_split in Hv as (v1 & v2 & ->). rewrite head_filter_app; cbn [mbind option_bind]; [| |done].
      * rewrite Hsecret. cbn [mbind option_bind]. unfold path, Strings.TrimPrefix.
        rewrite <- Strings.app_assoc.
        by rewrite Strings.CutPrefix_app.
      * intros y Hy Heq. rewrite fmap_app, fmap_cons in Hnodup. apply list.NoDup_app in Hnodup as (_ & Hd & _).
        apply (Hd (Volume.Name y)); [by apply list_elem_of_fmap_2|]. rewrite Heq, <- Hname. left.
    + intros y Hy Hb. specialize (Hbelow y). rewrite Hbelow in Hb; [done|]. apply elem_of_app. by left.
    + unfold path. by rewrite (below_own (VolumeMount.MountPath m) key).
Defined.

(** The first bound variable of a key that is set and not empty. *)
Definition boundValue (env : Env) (key : string) (b : Binding.t) : option string :=
  if Binding.Key b =s key then
    match env !! Binding.EnvVar b with Some v => if v =s "" then None else Some v | None => None end
  else None.
Definition keyValue (env : Env) (key : string) : string := default "" (head (omap (boundValue env key) SetFlags)).

Lemma keys_have_one_variable :
  forallb (λ b, forallb (λ b', negb (Binding.Key b' =s Binding.Key b) || (Binding.EnvVar b' =s Binding.EnvVar b)) SetFlags) SetFlags = true.
Proof. vm_compute. done. Qed.

Lemma keyValue_bound env b v : b ∈ SetFlags → env !! Binding.EnvVar b = Some v → v ≠ "" → keyValue env (Binding.Key b) = v.
Proof.
  intros Hb Hv Hne. unfold keyValue.
  pose proof keys_have_one_variable as Hk. rewrite forallb_forall in Hk. specialize (Hk b (proj1 (list_elem_of_In _ _) Hb)).
  revert Hb Hk. generalize SetFlags. intros l. induction l as [|b' l IH]; [by intros ?%elem_of_nil|].
  intros Hb [Hb' Hl]%andb_prop. cbn. unfold boundValue at 1. destruct (Binding.Key b' =s Binding.Key b) eqn:E; cbn in Hb'.
  - apply String.eqb_eq in Hb'. rewrite Hb', Hv, (proj2 (String.eqb_neq _ _) Hne). done.
  - apply IH; [|done]. apply elem_of_cons in Hb as [->|Hb]; [by rewrite String.eqb_refl in E|done].
Qed.

#[global] Instance plainSettings : SettingsLib.
Proof.
  refine {| settings env := mkSettings (keyValue env) (λ key, default 0%Z (parseInt (keyValue env key))) (λ key, keyValue env key =s "true") |}.
  - intros env b v. apply keyValue_bound.
  - intros env b z Hb Hv Hz. cbn. rewrite (keyValue_bound env b (pretty z)); [by rewrite parseInt_pretty|done..|].
    apply literal_pretty. lia.
Defined.

(** A remote session whose user also tries to set the port of the side car. *)
Definition remoteSession : Session.t :=
  Session.mk "renku/session:1" "Always" [] [] [envVar "RSC_SERVER_PORT" "1"; envVar "MODEL" "small"; envVar "MODEL" "large"]
    (ResourceRequirements.mk ∅ ∅ NoRest) 8888 (Storage.mk None None "/work") None "/work" 1000 1000 "/sessions/one" false [] TCP None.

Definition remoteOne : AmaltheaSession.t :=
  AmaltheaSession.mk (demoMeta None [])
    (AmaltheaSessionSpec.mk Remote remoteSession [] [] None demoCulling false [] [] [] None ∅ None [] Always "" [] ""
       (TemplateMetadata.mk ∅ ∅) SessionTypeInteractive) runningStatus.

Lemma operator_configures_sidecar_witness :
  RemoteConfig.ServerPort (sidecarConfig ∅ remoteOne []) = 65532%Z ∧
  RemoteConfig.SessionPort (sidecarConfig ∅ remoteOne []) = 8888%Z.
Proof.
  split; [by vm_compute|]. apply (operator_configures_sidecar ∅ remoteOne []); [done|done|discriminate|].
  right. left.
Defined.

Lemma user_env_reaches_job_witness :
  let c := sessionContainerRemote ∅ remoteOne [] in
  gitEnv ∅ [] (copiedEnv (environ c)) !! "MODEL" = Some "large".
Proof.
  apply (user_env_reaches_job ∅ remoteOne [] [envVar "RSC_SERVER_PORT" "1"; envVar "MODEL" "small"] (envVar "MODEL" "large") [] ∅ []
    (copiedEnv (environ (sessionContainerRemote ∅ remoteOne [])))); try reflexivity.
  - apply not_elem_of_nil.
  - unfold controllerVars. rewrite !not_elem_of_cons. split_and!; (discriminate || apply not_elem_of_nil).
Defined.
