(* ===== verification/FirecrestThreadsExamples.v ===== *)
(** * The threads of a FirecREST session, run

    [shared_controller] applied to a session with a round of the ticker inside its
    start, an interleaving in which a stopped session leaves its job behind in the
    saved state, and one in which a job outlives its session. *)

From S2P Require Import Prelude Prog NetUrl Config Json JsonProps FirecrestScript Firecrest FirecrestProps FirecrestProtocol FirecrestThreads.
From S2P Require Import BuilderTheorems RemoteExamples.
From stdpp Require Import relations.

Definition clusterAnswers : ∀ R, Fc R → R := λ R e, (demoApi R e 0).1.

Definition session (disk0 : option string) (turns : list Turn) : State :=
  schedule demoEnv demoScript freshController disk0 clusterAnswers turns.

Definition reached (disk0 : option string) (s : State) : Prop :=
  rtc (step demoEnv freshController) (launched demoEnv demoScript freshController disk0) s.

(** The parts of a state that can be compared. *)
Definition outcome (s : State) : list string * list string * option string * option Z * option Z :=
  let '(main, _, w) := s in
  (Shared.submitted w, Shared.cancelled w, Shared.disk w, Shared.ended w, match main with Ret code => Some code | _ => None end).

Definition state42 : string := Marshal (savedState.mk "42" "/scratch/slurm-42.out" "/scratch/slurm-42.err" 0 0).

(** A whole round while the start has submitted the job and has not saved it. *)
Definition overlapping : list Turn :=
  repeat MainTurn 16 ++ [Fire] ++ repeat RoundTurn 26 ++ repeat MainTurn 24 ++ [Interrupt] ++ repeat MainTurn 6.

Example overlapping_saves :
  outcome (session None (repeat MainTurn 16 ++ [Fire] ++ repeat RoundTurn 26)) =
    (["4711"], [], Some (Marshal (savedState.mk "4711" "/scratch/jane/renku/sessions/jane/climate/one/slurm-4711.out"
      "/scratch/jane/renku/sessions/jane/climate/one/slurm-4711.err" 0 0)), None, None).
Proof. vm_compute. reflexivity. Qed.


(** A round is about to save the state when the session is interrupted; it does
    so after the main thread has removed the saved state. *)
Definition beforeWrite : list Turn := repeat MainTurn 10 ++ [Fire] ++ repeat RoundTurn 25.
Definition late : list Turn := beforeWrite ++ [Interrupt] ++ repeat MainTurn 5 ++ [RoundTurn; MainTurn].

(** The main thread waits for the interrupt. *)
Definition waits (s : State) : bool :=
  let '(main, _, w) := s in
  match main with Vis WaitDone _ => negb (Shared.interrupted w) | _ => false end.

Lemma waits_play answers s n : waits s = true → foldl (λ s turn, play demoEnv freshController answers turn s) s (repeat MainTurn n) = s.
Proof.
  intros Hs. induction n as [|n IH]; [done|]. cbn [repeat foldl]. assert (play demoEnv freshController answers MainTurn s = s) as ->; [|done].
  destruct s as [[main t] w]. unfold play. destruct (Shared.ended w); [done|]. destruct main as [| |R e k]; try done.
  destruct e; try done. cbn in *. by destruct (Shared.interrupted w).
Qed.

(** [Stop] removes the saved state so that the next start submits a fresh
    job, but a round of the ticker that is under way when the session is
    interrupted can save it again.  In such an interleaving the process has
    cancelled the job and ended with code 0, and the state of the cancelled job
    is on the disk; the process that is started next submits no job, and reports
    on the cancelled one. *)
Theorem stale_state :
  (∃ main t w, reached (Some state42) (main, t, w) ∧
    Shared.cancelled w = ["42"] ∧ Shared.ended w = Some 0%Z ∧ Shared.disk w = Some state42) ∧
  ∀ (answers : ∀ R, Fc R → R) n,
    let '(main, t, w) := schedule demoEnv demoScript freshController (Some state42) answers (repeat MainTurn (8 + n)) in
    Shared.submitted w = [] ∧ Controller.jobID (Shared.controller w) = "42" ∧ Shared.ended w = None.
Proof.
  split.
  - assert (H : reached (Some state42) (session (Some state42) late)) by apply schedule_reachable.
    assert (Hw : outcome (session (Some state42) late) = ([], ["42"], Some state42, Some 0%Z, Some 0%Z)) by (vm_compute; reflexivity).
    destruct (session (Some state42) late) as [[main t] w]. exists main, t, w. split; [exact H|]. by injection Hw as _ -> -> -> _.
  - intros answers n. rewrite repeat_app. unfold schedule. rewrite foldl_app. rewrite waits_play by (vm_compute; reflexivity).
    vm_compute. by split_and!.
Qed.

(** The API refuses to cancel the job. *)
Definition refusing : ∀ R, Fc R → R := λ R e,
  match e in Fc R return R with
  | DeleteJobCancel _ _ => inl (Response.mk 403 None (Some (ApiResponseError.mk "forbidden")) None)
  | e => clusterAnswers _ e
  end.

(** An error of [Stop] is only logged: the process has removed the saved state and
    ends with code 0, and the job that was not cancelled runs on unknown. *)
Theorem refused_cancellation :
  ∃ main t w, reached (Some state42) (main, t, w) ∧ Shared.ended w = Some 0%Z ∧
    Shared.cancelRequests w = ["42"] ∧ Shared.cancelled w = [] ∧ Shared.disk w = None.
Proof.
  set (s := schedule demoEnv demoScript freshController (Some state42) refusing (repeat MainTurn 10 ++ [Interrupt] ++ repeat MainTurn 8)).
  assert (H : reached (Some state42) s) by apply schedule_reachable.
  assert (Hw : (Shared.ended s.2, Shared.cancelRequests s.2, Shared.cancelled s.2, Shared.disk s.2) = (Some 0%Z, ["42"], [], None))
    by (vm_compute; reflexivity).
  destruct s as [[main t] w]. exists main, t, w. split; [exact H|]. by injection Hw.
Qed.
