(* ===== verification/FirecrestWireExamples.v ===== *)
(** * A FirecREST session over HTTP, run

    A small API given by its answers to HTTP requests, a token holder, and a
    library for parameters: the theorems of [FirecrestWire] applied to them, and
    the run of a whole session. *)

From S2P Require Import Prelude Prog NetUrl UrlRef Names Config Json JsonProps GitProxy FirecrestScript RemoteConfig RemoteAuth Firecrest FirecrestProtocol Runai Remote RemoteTheorems FirecrestTypes FirecrestClient FirecrestOps FirecrestApi FirecrestWire FirecrestRoutes.
From S2P Require Import BuilderTheorems ProxyTheorems RemoteExamples.
From Stdlib Require Import Ascii.

(** ** The library for parameters *)

#[global] Instance plainOapi : OapiRuntime := {|
  StyleSimple _ value := inl (PathEscape value);
  StyleForm name value := inl (name +:+ "=" +:+ queryEscape value);
  StyleFormInt name value := inl (name +:+ "=" +:+ queryEscape (pretty value));
  StyleFormBool name value := inl (name +:+ "=" +:+ queryEscape (showBool value)) |}.

#[global] Instance plainOapi_documented : OapiDocumented.
Proof. done. Defined.
#[global] Instance plainOapi_form : OapiFormDocumented.
Proof. done. Defined.

(** ** The API *)

Definition apiServer : string := "https://api.hpc.io/v2".
Definition apiURL : URL.t := match url_Parse apiServer with Some u => u | None => URL.new "" "" "" end.

Definition jsonAnswer (code : Z) (v : json) : Result HttpResponse.t := inl (HttpResponse.mk code jsonType (inl (print v))).

Definition cluster : json := JObj
  [("name", JStr "eiger");
   ("fileSystems", JArr [JObj [("path", JStr "/scratch"); ("dataType", JStr "scratch"); ("defaultWorkDir", JBool true)]])].

(** The answers by method and path; jobs are numbered by the submissions. *)
Definition apiAnswer (method path : string) (w : nat) : Result HttpResponse.t * nat :=
  if path =s "status/systems" then (jsonAnswer 200 (JObj [("systems", JArr [cluster])]), w)
  else if path =s "status/eiger/userinfo" then (jsonAnswer 200 (JObj [("user", JObj [("id", JStr "1"); ("name", JStr "jane")])]), w)
  else if path =s "filesystem/eiger/ops/mkdir" then (jsonAnswer 201 (JObj []), w)
  else if path =s "filesystem/eiger/ops/chmod" then (jsonAnswer 200 (JObj []), w)
  else if Strings.HasPrefix path "filesystem/eiger/ops/upload?path=" then (inl (HttpResponse.mk 204 "" (inl "")), w)
  else if (path =s "compute/eiger/jobs") && (method =s "POST")
  then (jsonAnswer 201 (JObj [("jobId", JStr (pretty (Z.of_nat (4711 + w))))]), S w)
  else if (path =s "compute/eiger/jobs/4711") && (method =s "GET")
  then (jsonAnswer 200 (JObj [("jobs", JArr [JObj [("status", JObj [("state", JStr "RUNNING")])]])]), w)
  else if (path =s "compute/eiger/jobs/4711") && (method =s "DELETE") then (inl (HttpResponse.mk 204 "" (inl "")), w)
  else (jsonAnswer 404 (JObj [("message", JStr "no such path")]), w).

Definition demoNet : Handler Net nat := λ R e,
  match e in Net R return nat → R * nat with
  | Token e => λ w, (match e in AuthEv R return R with
                     | Clock => 100%Z
                     | Lock _ | Unlock _ | RLock _ | RUnlock _ | StoreToken _ _ | StoreRefresh _ => tt
                     | LoadToken _ => TokenState.mk "token" (Time.Add 100%Z (10 * Duration.Minute)%Z)
                     | LoadRefresh => ""
                     | Send _ => inr (Errorf "no token server")
                     end, w)
  | HttpDo req => λ w,
      if HttpRequest.Authorization req =s "Bearer token"
      then apiAnswer (HttpRequest.Method req) (Strings.TrimPrefix (HttpRequest.Url req) (apiServer +:+ "/")) w
      else (jsonAnswer 401 (JObj [("message", JStr "unauthorized")]), w)
  | NewBoundary => λ w, ("boundary", w)
  | Local e => demoApi _ e
  end.

Definition demoServer : Handler (Srv Net) nat := λ R e,
  match e in Srv _ R return nat → R * nat with
  | Ctl e => demoNet _ e
  | Listen _ => λ w, (tt, w)
  | NextTick => λ w, (true, w)
  | Shutdown => λ w, (None, w)
  end.

Definition demoAuth : FirecrestAuth := FirecrestClient (FirecrestClientCredentialsAuth.mk "https://sso.io/token" "renku" "s3cret").
Definition demoClient : Client.t := NewFirecrestClient apiURL demoAuth.
Definition demoRemoteConfig : RemoteConfig.t :=
  RemoteConfig.mk "firecrest" (FirecrestConfig.mk "" "" "" (FirecrestAuthConfig.mk "" "" "" "" "" "" "" "" ""))
    (RunaiConfig.mk "" (RunaiAuthConfig.mk "" "" "" "") "") 65532 false 8888 "/" "none".

Example demo_server : Client.Server demoClient = "https://api.hpc.io/v2/".
Proof. vm_compute. done. Qed.

Lemma demoClient_plain : plainBase (Client.Server demoClient).
Proof.
  unfold plainBase. rewrite demo_server.
  set (u := url_Parse "https://api.hpc.io/v2/"). vm_compute in u. subst u. cbv beta iota.
  repeat (split; [by vm_compute|]). exists "/v2". split; [by vm_compute|]. split; [by right|]. split; [by split; [|eexists]|].
  vm_compute. by repeat constructor.
Qed.

(** Three rounds over HTTP: one job, and a clean end. *)
Example demo_session :
  let _ := firecrestController demoEnv demoScript in
  run demoServer (interp (wireServer demoClient) (serve 3 demoRemoteConfig freshController)) 0 = (Done 0%Z, 1).
Proof. vm_compute. done. Qed.

Lemma wire_session_witness :
  obeys (serverMonitor (wireMonitor (Client.Server demoClient) (Controller.systemName freshController))) demoServer
    (interp (wireServer demoClient)
       (let _ := firecrestController demoEnv demoScript in serve 3 demoRemoteConfig freshController))
    (λ _ w, (Wire.submitted w ≤ 1)%nat) 0 Wire.init.
Proof.
  pose proof (wire_session demoAuth demoEnv demoScript 3 demoRemoteConfig freshController apiURL demoClient_plain eq_refl eq_refl eq_refl) as H.
  cbv zeta in H |- *. unfold demoClient. apply wp_obeys; [intros R e w r w' s; by destruct e|exact H].
Defined.

(** ** A job and the answers to it *)

Definition demoJob : JobDescription.t :=
  JobDescription.mk {[ "MODEL" := "large"; "SLURM_ACCOUNT" := "g42" ]} "/scratch/jane/session_script.sh" "/scratch/jane" None.

Lemma job_on_the_wire_witness : ∃ body v,
  NewPostJobSubmitComputeSystemNameJobsPostRequest (Client.Server demoClient) "eiger/2" (submitBody demoJob) =
    inl (HttpRequest.mk "POST" (Client.Server demoClient +:+ "compute/" +:+ PathEscape "eiger/2" +:+ "/jobs")
           "application/json" "" body) ∧
  parse body = inl v ∧ readJob v = Some demoJob.
Proof. exact (job_on_the_wire demoClient "eiger/2" demoJob demoClient_plain eq_refl). Defined.

Example job_url : Client.Server demoClient +:+ "compute/" +:+ PathEscape "eiger/2" +:+ "/jobs" =
  "https://api.hpc.io/v2/compute/eiger%2F2/jobs".
Proof. vm_compute. done. Qed.

(** A submission that is accepted, and one to an unknown system. *)
Example submit_accepted : (run demoNet (interp (wire demoClient) (submitJob freshController demoJob)) 0).1 = Done (inl "4711").
Proof. vm_compute. done. Qed.
Example submit_refused :
  (run demoNet (interp (wire demoClient) (submitJob (Controller.new "daint" "normal" false) demoJob)) 0).1 =
  Done (inr (Errorf "could not submit job: no such path")).
Proof. vm_compute. done. Qed.

Lemma api_verdicts_witness :
  obeys answerMonitor demoNet (interp (wire demoClient) (submitJob freshController demoJob))
    (verdict "could not submit job" (λ rsp body id, answersJson 201 (Unmarshal decodeSubmission None) rsp body (Some id))) 0 None.
Proof.
  destruct (api_verdicts demoAuth apiURL freshController "/scratch" true "700" "config" "" demoJob) as (_ & _ & _ & H).
  cbv zeta in H. unfold demoClient. apply wp_obeys; [intros R e w r w' s _; exact I|exact H].
Defined.

(** ** Operations and the document *)

Definition demoListing : Operation (option (list File.t)) :=
  OpGetLs "eiger/2" (GetLsFilesystemSystemNameOpsLsGetParams.mk "/scratch/jane & co" (Some true) None (Some false) None).
Definition demoTransfer : Operation DownloadFileResponse.t :=
  OpPostDownload "eiger" (PostFileDownloadRequest.mk None "/scratch/jane/out" (JObj [("transferMethod", JStr "s3")])).

Lemma demoTransfer_valid : valid demoTransfer.
Proof. split; [by repeat constructor|]. split; [done|]. by repeat split. Qed.

Example listing_url : HttpRequest.Url <$> (match requestOf (Client.Server demoClient) demoListing with inl r => Some r | inr _ => None end) =
  Some "https://api.hpc.io/v2/filesystem/eiger%2F2/ops/ls?path=%2Fscratch%2Fjane+%26+co&showHidden=true&recursive=false".
Proof. vm_compute. done. Qed.

(** The server rejects a request without a required parameter, and one that no
    endpoint takes. *)
Example listing_unnamed : receive "https://api.hpc.io/v2/" (HttpRequest.mk "GET" "https://api.hpc.io/v2/filesystem/eiger/ops/ls?recursive=true" "" "" "") = None.
Proof. vm_compute. done. Qed.
(** It rejects what the document rules out: an identifier of a job that is not
    alphanumeric, an unknown compression, and an upload that is not a form. *)
Definition receivedBy {R} (op : Operation R) : bool :=
  match requestOf "https://api.hpc.io/v2/" op with
  | inl req => bool_decide (is_Some (receive "https://api.hpc.io/v2/" req))
  | inr _ => false
  end.
Example outside_the_document :
  receivedBy (OpGetJob "eiger" "4711") = true ∧ receivedBy (OpGetJob "eiger" "a/b") = false ∧
  receivedBy (OpExtract "eiger" (ExtractRequest.mk None (Some "xz") "/a" "/b")) = true ∧
  receivedBy (OpExtract "eiger" (ExtractRequest.mk None (Some "zip") "/a" "/b")) = false ∧
  receivedBy (OpPostUpload "eiger" (PostUploadParams.mk "/a") (FormDataContentType "x") (multipartFile "x" "file" "f" "")) = true ∧
  receivedBy (OpPostUpload "eiger" (PostUploadParams.mk "/a") "text/plain" "f") = false ∧
  receivedBy (OpPostDownload "eiger" (PostFileDownloadRequest.mk None "/a" (JObj [("transferMethod", JStr "ftp")]))) = false.
Proof. vm_compute. done. Qed.

Example dots_leave_the_route :
  (match NewDeleteJobCancelComputeSystemNameJobsJobIdDeleteRequest "https://api.hpc.io/v2/" "eiger" ".." with
   | inl req => Some (HttpRequest.Url req, receive "https://api.hpc.io/v2/" req)
   | inr _ => None
   end) = Some ("https://api.hpc.io/v2/compute/eiger/", None).
Proof. vm_compute. done. Qed.

Lemma operation_received_witness : ∃ req,
  requestOf (Client.Server demoClient) demoListing = inl req ∧
  receive (Client.Server demoClient) req = known demoListing.
Proof.
  apply (operation_received (Client.Server demoClient) demoListing); [exact demoClient_plain|].
  split; [by repeat constructor|by split].
Defined.

Lemma operation_served_witness :
  obeys exchangeMonitor demoNet (callOf demoClient demoTransfer)
    (λ r g, (∃ err, r = inr err ∧ Exchanges.exchanged g = []) ∨
            ∃ token req ans, token ∈ Exchanges.tokens g ∧ Exchanges.exchanged g = [(req, ans)] ∧
              HttpRequest.Authorization req = "Bearer " +:+ token ∧
              receive (Client.Server demoClient) req = known demoTransfer ∧
              match ans with inl rsp => outcome demoTransfer rsp r | inr err => r = inr err end) 0 Exchanges.init.
Proof.
  pose proof (operation_served demoAuth apiURL demoTransfer demoClient_plain demoTransfer_valid) as H. cbv zeta in H. unfold demoClient.
  apply wp_obeys; [intros R e w r w' s _; exact I|exact H].
Defined.
