(* ===== verification/SidecarExamples.v ===== *)
(** * The side cars of a session, run

    Small implementations of the libraries that the clone command, the
    authentication proxy and the tunnel use, the theorems about them applied to
    concrete sessions, and runs. *)

From S2P Require Import Prelude Prog NetUrl K8s Types Names Templates Children Config Json JsonProps GitProxy Cloner CloneCommand AuthProxy.
From S2P Require Import CloneCommandTheorems Config RemoteConfig Firecrest RemoteWiring AuthProxyTheorems Tunnel TunnelTheorems.
From S2P Require Import Cluster BuilderTheorems RemoteExamples SidecarCommands.
From Stdlib Require Import Ascii.

(** ** The clone command *)

(** Remotes are URLs, keys are texts, and the configuration is a user name. *)
#[global] Instance plainGit : GitLib := {|
  NewEndpoint remote := match url_Parse remote with
                        | Some u => inl (URL.Path u)
                        | None => inr (Errorf "invalid endpoint")
                        end;
  PublicKeys := string;
  NewPublicKeys user pem password := inl (user +:+ pem);
  Unmarshal_CloneFonfig text := inl (CloneFonfig.mk (Some text) None "s3cret") |}.

(** A volume with directories that exist; clones are recorded. *)
Definition volume : Handler Cl (list string) := λ R e,
  match e in Cl R return list string → R * list string with
  | StatTarget path => λ w, (if existsb (λ s, s =s path) w then StatOk else StatNotExist, w)
  | RemoveAll path => λ w, (None, filter (λ s, s +:+ "/" ≠ path) w)
  | ReadConfig path => λ w, (inl "jane", w)
  | PlainClone path options => λ w,
      if existsb (λ s, s =s path) w then (Some (Errorf "repository already exists"), w) else (None, path :: w)
  end.

Definition cloneContainer : Container.t :=
  match manifests_Containers (CodeRepoTemplates.cloneInit ∅ full) with c :: _ => c | [] => tunnelContainer ∅ full end.

Lemma clone_container_runs_witness :
  ∃ repo, repo ∈ AmaltheaSessionSpec.CodeRepositories fullSpec ∧
    obeys (cloneCalls fullSession repo) volume (sidecar_clone (Container.Args cloneContainer))
      (λ code g, code = 0%Z ↔ g = Some None) [] None.
Proof.
  destruct (clone_container_runs ∅ full cloneContainer) as (repo & Hin & Hwp); [left|].
  exists repo. split; [exact Hin|]. by apply wp_obeys.
Defined.

(** A first start clones; a restart of the container finds the clone and fails. *)
Example clone_restarted :
  let start w := run volume (sidecar_clone (Container.Args cloneContainer)) w in
  start [] = (Done 0%Z, ["/work/repo/r"]) ∧ start ["/work/repo/r"] = (Done 1%Z, ["/work/repo/r"]).
Proof. by split; vm_compute. Qed.

(** ** The authentication proxy *)

Definition bearer (s : string) : option string :=
  match Strings.CutPrefix s "Bearer " with (key, true) => Some key | (_, false) => None end.

(** The keys of one source of a lookup, [cookie:<name>] or [header:<name>]. *)
Definition sourceKeys (r : Request.t) (source : string) : list string :=
  match Strings.Cut source ":" with
  | ("cookie", name, true) => snd <$> filter (λ c, c.1 = name) (Request.Cookies r)
  | ("header", name, true) => omap (λ h, if h.1 =s name then bearer h.2 else None) (Request.Headers r)
  | _ => []
  end.

(** The first rule whose pattern, a prefix and a [*], fits. *)
Fixpoint rewritten (rules : list (string * string)) (uri : string) : string :=
  match rules with
  | [] => uri
  | (pattern, replacement) :: rules =>
      match Strings.CutPrefix uri (Strings.TrimSuffix pattern "*") with
      | (rest, true) => Strings.TrimSuffix replacement "$1" +:+ rest
      | (_, false) => rewritten rules uri
      end
  end.

#[global] Instance plainFramework : Framework := {|
  presentedKeys lookup r := mjoin (sourceKeys r <$> Strings.Fields "," lookup);
  rewriteURI := rewritten |}.

#[global] Instance plainRules : FrameworkRules.
Proof.
  intros p rest _ _. cbn. assert (Strings.TrimSuffix (p +:+ "*") "*" = p) as -> by apply Strings.TrimSuffix_app.
  by rewrite Strings.CutPrefix_app.
Qed.

Definition proxyVars : ProxyVars.t := ProxyVars.mk "http://127.0.0.1:8888" 65535 65534 "s3cret" "renku-auth" false "/sessions/one".
Definition behind : URL.t := default (URL.mk "" "" None "" "" "" false false "" "" "") (targets proxyVars).
Definition getRequest (key : string) : Request.t := Request.mk "/sessions/one/lab" [("renku-auth", key)] [("Forwarded", "for=x")].

(** The session answers everything; the world is the time, the time of the last
    request and the paths the session has seen. *)
Definition proxied : Handler Ap (Z * Z * list string) := λ R e,
  match e in Ap R return Z * Z * list string → R * (Z * Z * list string) with
  | Now => λ '(now, last, seen), (now, (now, last, seen))
  | StoreLastRequest t => λ '(now, _, seen), (tt, (now, t, seen))
  | LoadLastRequest => λ '(now, last, seen), (last, (now, last, seen))
  | Forward _ r => λ '(now, last, seen), (None, (now, last, seen ++ [Request.URI r]))
  | LockStats | UnlockStats | RLockStats | RUnlockStats => λ w, (tt, w)
  | SendError _ | SendNoContent _ | SendStats _ => λ w, (tt, w)
  end.

(** A request with another key does not reach the session, but counts. *)
Example refused_counts :
  (run proxied (serveRequest proxyVars behind "GET" "/sessions/one/lab" (getRequest "s3cret")) (7, 0, [])%Z).2 = (7, 7, ["/lab"])%Z ∧
  (run proxied (serveRequest proxyVars behind "GET" "/sessions/one/lab" (getRequest "guess")) (7, 0, [])%Z).2 = (7, 7, [])%Z.
Proof. by split; vm_compute. Qed.

(** The settings: the variable of a flag, else the configuration file, whose lines
    are [<flag>: <value>]. *)
Definition fileValue (file : option string) (flag : string) : option string :=
  head (omap (λ line, match Strings.CutPrefix line (flag +:+ ": ") with (value, true) => Some value | (_, false) => None end)
          (Strings.Fields (ascii_of_nat 10) (default "" file))).
Definition flagValue (env : Env) (file : option string) (key : string) : option string :=
  let flag := Strings.TrimPrefix key "authproxy." in
  match env !! flagVariable flag with
  | Some value => if value =s "" then fileValue file flag else Some value
  | None => fileValue file flag
  end.

Lemma flagValue_key env file flag : flagValue env file (flagKey flag) =
  match env !! flagVariable flag with
  | Some value => if value =s "" then fileValue file flag else Some value
  | None => fileValue file flag
  end.
Proof.
  unfold flagValue. assert (Strings.TrimPrefix (flagKey flag) "authproxy." = flag) as ->; [|done].
  unfold flagKey, Strings.TrimPrefix. change (proxyPrefix +:+ "." +:+ flag) with ("authproxy." +:+ flag).
  by rewrite Strings.CutPrefix_app.
Qed.

#[global] Instance plainFlags : FlagLib.
Proof.
  refine {| flagValues env file := FlagValues.mk (flagValue env file) parseInt (λ text, Some (text =s "true"));
            fileSetting := fileValue |}.
  - intros env file flag value _ Hv Hne. cbn [FlagValues.Lookup]. rewrite flagValue_key, Hv. by rewrite (proj2 (String.eqb_neq _ _) Hne).
  - intros env file flag _ Hv. cbn [FlagValues.Lookup]. by rewrite flagValue_key, Hv.
  - done.
  - intros env file z Hz. cbn. apply parseInt_pretty.
Defined.

(** A session with a token, which is in the file of the secret. *)
Definition tokenAuth : Authentication.t :=
  Authentication.mk true Token (SessionSecretRef.mk "auth-secret" "proxy.yaml" true)
    [volumeMount "extra" "/etc/authproxy-more" "" false].
Definition tokenSession : AmaltheaSession.t :=
  AmaltheaSession.mk (demoMeta None []) (demoSpec false (Some tokenAuth)) Controller.initialStatus.
Definition tokenContainer : Container.t :=
  match manifests_Containers (AuthTemplates.auth_Token ∅ tokenSession tokenAuth) with c :: _ => c | [] => tunnelContainer ∅ full end.
Definition tokenVolumes : list Volume.t := manifests_Volumes (AuthTemplates.auth_Token ∅ tokenSession tokenAuth).

Lemma proxy_container_serves_witness :
  ∃ v, loadConfig (flagValues (environ tokenContainer) (configFile tokenVolumes tokenContainer)) false
         (with_verbose ProxyVars.initial false) = Some v ∧
    ProxyVars.port v = authenticatedPort ∧ ProxyVars.token v = "s3cret".
Proof.
  destruct (proxy_container_serves ∅ tokenSession tokenAuth (AuthTemplates.auth_Token ∅ tokenSession tokenAuth) tokenContainer
    tokenVolumes ("port: 1" +:+ String (ascii_of_nat 10) "token: s3cret") false)
    as (Hf & v & H1 & H2 & _ & _ & H3 & _).
  - done.
  - done.
  - left.
  - done.
  - done.
  - apply NoDup_singleton.
  - intros m' ->%list_elem_of_singleton. vm_compute. done.
  - intros x _. apply not_elem_of_nil.
  - done.
  - vm_compute. done.
  - vm_compute. done.
  - done.
  - intros text _. by eexists.
  - exists v. rewrite Hf. split; [exact H1|]. split; [exact H2|]. rewrite H3. by vm_compute.
Defined.

(** ** The tunnel *)

#[global] Instance plainTunnel : TunnelSettings.
Proof.
  refine {| tunnelString env key := default "" (env !! (if key =s "wstunnel.secret" then "WSTUNNEL_SECRET"
              else if key =s "wstunnel.port" then "WSTUNNEL_PORT" else "WSTUNNEL_LOG-LEVEL")) |}.
  intros env flag variable v Hin Hv _. rewrite !elem_of_cons, elem_of_nil in Hin.
  destruct Hin as [Hin|[Hin|[Hin|[]]]]; injection Hin as -> ->; exact (f_equal (default "") Hv).
Defined.

Lemma tunnel_secret_shared_witness :
  tunnelString (environ (tunnelContainer ∅ remoteOne)) "wstunnel.secret" = "c2VjcmV0" ∧
  uploadSecret (environ (sessionContainerRemote ∅ remoteOne [])) freshController "/scratch/secrets" =
    uploadFile freshController "/scratch/secrets" "wstunnel_secret" "c2VjcmV0".
Proof.
  destruct (tunnel_secret_shared ∅ remoteOne [] "secret" freshController "/scratch/secrets") as (H1 & _ & _ & _ & H2);
    [discriminate|by vm_compute|]. split; [exact H1|exact H2].
Defined.

(** ** The configuration of the operator *)

Lemma configuration_loaded_witness :
  match GetAmaltheaSessionConfiguration (inl ["apps"; "project.openshift.io"])
          {[ "AMALTHEA_IMAGE_REWRITE_RULES" := Marshal mirrorRules ]} with
  | inl (mkConfiguration OpenShift (Some rewriter)) => Rewrite rewriter "alpine:3" = ("mirror.io/hub/library/alpine:3", None)
  | _ => False
  end.
Proof.
  rewrite (proj1 (configuration_loaded ["apps"; "project.openshift.io"] {[ "AMALTHEA_IMAGE_REWRITE_RULES" := Marshal mirrorRules ]}
    mirrorRules (lookup_singleton_eq _ _))). by vm_compute.
Defined.

(** ** The commands *)

(** Arguments are followed as long as they name one subcommand. *)
Fixpoint plainFind (c : Command) (args : list string) : option (Runner * list string) :=
  let run := match subcommands c with [] => r ← runner c; Some (r, args) | _ => None end in
  match args with
  | [] => run
  | arg :: rest => match List.filter (λ sub, named sub arg) (subcommands c) with [sub] => plainFind sub rest | _ => run end
  end.

Lemma filter_one {A} (p : A → bool) l1 x l2 : p x = true → existsb p (l1 ++ l2) = false → List.filter p (l1 ++ x :: l2) = [x].
Proof.
  intros Hx. rewrite existsb_app. intros [H1 H2]%orb_false_iff. rewrite List.filter_app. cbn. rewrite Hx.
  assert (∀ l, existsb p l = false → List.filter p l = []) as Hf.
  { induction l as [|y l IH]; [done|]. cbn. intros [-> Hl]%orb_false_iff. by apply IH. }
  by rewrite !Hf.
Qed.

#[global] Instance plainCobra : Cobra.
Proof.
  refine {| Find := plainFind |}.
  - intros c l1 sub l2 arg args Hs Hn Ho. cbn [plainFind]. rewrite Hs. by rewrite (filter_one (λ sub, named sub arg)).
  - intros c r args Hs Hr. destruct args; cbn [plainFind]; by rewrite Hs, Hr.
Defined.

Lemma pod_commands_exist_witness :
  match Pod ∅ full demoConfig with
  | Done (inl pod) => match PodSpec.InitContainers pod with c :: _ => ∃ r, runsCommand r c | [] => False end
  | _ => False
  end.
Proof.
  assert (Hd : match Pod ∅ full demoConfig with
               | Done (inl pod) => match PodSpec.InitContainers pod with
                                   | c :: _ => (Container.Image c ≠s AuthTemplates.authproxyImage) && negb (bool_decide (Container.Args c = []))
                                   | [] => false end
               | _ => false end = true) by (vm_compute; reflexivity).
  assert (Hx : AmaltheaSessionSpec.ExtraContainers (AmaltheaSession.Spec full) = [] ∧
               AmaltheaSessionSpec.ExtraInitContainers (AmaltheaSession.Spec full) = []) by (split; reflexivity).
  destruct (Pod ∅ full demoConfig) as [[pod|err]|why] eqn:E; [|discriminate Hd..].
  destruct (PodSpec.InitContainers pod) as [|c l] eqn:Ei; [discriminate Hd|]. apply andb_prop in Hd as [Hi0%negb_true_iff%String.eqb_neq Ha%negb_true_iff%bool_decide_eq_false].
  destruct (pod_commands_exist ∅ full demoConfig pod c E) as [(ms & -> & _)|[Hi|(r & _ & Hr)]]; [..|by destruct Ha|done|by exists r].
  - rewrite Ei. apply elem_of_app. right. by left.
  - destruct Hx as [-> _]. apply not_elem_of_nil.
  - destruct Hx as [_ ->]. apply not_elem_of_nil.
Defined.

Example token_proxy_found :
  Find buildCommands ["proxy"; "serve"; "--config"; "/etc/authproxy/key"] = Some (RunAuthProxy, ["--config"; "/etc/authproxy/key"]).
Proof. reflexivity. Qed.
