(* ===== verification/Downgrader.v ===== *)
(** * The OpenAPI downgrader (tools/openapi_spec_downgrader/main.go)

    The transformation of an OpenAPI 3.1 document into one for version 3.0:
    alternatives with the type null become a nullable alternative, and a choice
    with a single alternative is replaced by it.  A Go map is the list of its
    entries in the order in which they are walked over, which Go leaves open.
    The relation [Down] says what a downgraded document is, whatever that order;
    the transformation is shown to give such a document, and to fail when there
    is none. *)

From S2P Require Import Prelude Prog.

(** The values of a YAML document ([any]). *)
#[local] Unset Elimination Schemes.
Inductive any :=
| AMap (entries : list (string * any))
| AArr (l : list any)
| AStr (s : string)
| ABool (b : bool)
(** numbers and null, which the transformation does not look at *)
| AOther (text : string).
#[local] Set Elimination Schemes.

Section Induction.
Context (P : any → Prop).
Context (HMap : ∀ m, Forall (λ kv, P kv.2) m → P (AMap m)).
Context (HArr : ∀ l, Forall P l → P (AArr l)).
Context (HStr : ∀ s, P (AStr s)) (HBool : ∀ b, P (ABool b)) (HOther : ∀ t, P (AOther t)).

Fixpoint any_ind (v : any) : P v :=
  match v with
  | AMap m => HMap m ((fix go (m : list (string * any)) : Forall (λ kv, P kv.2) m :=
                         match m with
                         | [] => Forall_nil _
                         | kv :: m => Forall_cons_2 (λ kv, P kv.2) _ _ (any_ind kv.2) (go m)
                         end) m)
  | AArr l => HArr l ((fix go (l : list any) : Forall P l :=
                         match l with
                         | [] => Forall_nil _
                         | v :: l => Forall_cons_2 _ _ _ (any_ind v) (go l)
                         end) l)
  | AStr s => HStr s
  | ABool b => HBool b
  | AOther t => HOther t
  end.
End Induction.

(** [m[key]] and [m[key] = v] *)
Fixpoint lookupKey (key : string) (m : list (string * any)) : option any :=
  match m with
  | [] => None
  | (k, v) :: m => if k =s key then Some v else lookupKey key m
  end.
Fixpoint assign (key : string) (v : any) (m : list (string * any)) : list (string * any) :=
  match m with
  | [] => [(key, v)]
  | (k, w) :: m => if k =s key then (k, v) :: m else (k, w) :: assign key v m
  end.

Definition isTypeNull (node : any) : bool :=
  match node with
  | AMap m => match lookupKey "type" m with Some (AStr s) => s =s "null" | _ => false end
  | _ => false
  end.

Definition makeNullable (node : any) : Result any :=
  match node with
  | AMap m => inl (AMap (assign "nullable" (ABool true) m))
  | _ => inr (Errorf "cannot make non-map node nullable")
  end.

(** The entries of the only alternative, if there is just one and it is a map. *)
Definition simplifyAnyOf (node : any) : Result (option (list (string * any))) :=
  match node with
  | AArr [AMap m] => inl (Some m)
  | AArr _ => inl None
  | _ => inr (Errorf "anyOf node should contain a list")
  end.

(** [for i := range l { l[i], err = makeNullable(l[i]) }] *)
Fixpoint makeAllNullable (l : list any) : Result (list any) :=
  match l with
  | [] => inl []
  | x :: l =>
      match makeNullable x with
      | inr err => inr err
      | inl x => match makeAllNullable l with inr err => inr err | inl l => inl (x :: l) end
      end
  end.

(** What an entry [key: t] does to the new map. *)
Definition addEntry (key : string) (t : any) (out : list (string * any)) : Result (list (string * any)) :=
  if key =s "anyOf" then
    match simplifyAnyOf t with
    | inr err => inr err
    | inl (Some sub) => inl (foldl (λ out '(subKey, v), assign subKey v out) out sub)
    | inl None => inl (assign key t out)
    end
  else inl (assign key t out).

(** The loops of [transformMap] and [transformArray] over the function that
    transforms a node. *)
Section Loops.
Context (transform : any → Result any).

Fixpoint transformMap (m out : list (string * any)) : Result (list (string * any)) :=
  match m with
  | [] => inl out
  | (key, v) :: m =>
      match transform v with
      | inr err => inr err
      | inl t => match addEntry key t out with inr err => inr err | inl out => transformMap m out end
      end
  end.

Fixpoint transformElems (l out : list any) : Result (list any) :=
  match l with
  | [] => inl out
  | x :: l =>
      if isTypeNull x then transformElems l out
      else match transform x with
           | inr err => inr err
           | inl t => transformElems l (out ++ [t])
           end
  end.

Definition transformArray (l : list any) : Result (list any) :=
  match transformElems l [] with
  | inr err => inr err
  | inl out => if existsb isTypeNull l then makeAllNullable out else inl out
  end.
End Loops.

Fixpoint transformNode (node : any) : Result any :=
  match node with
  | AMap m => match transformMap transformNode m [] with inr err => inr err | inl out => inl (AMap out) end
  | AArr l => match transformArray transformNode l with inr err => inr err | inl out => inl (AArr out) end
  | AStr _ | ABool _ | AOther _ => inl node
  end.

(** ** The command ([run]) *)

(** The YAML library reads and writes documents, which are maps. *)
Class YamlDocuments := {
  Unmarshal : string → Result (list (string * any));
  Marshal : any → Result string }.

Inductive Fs : Type → Type :=
| ReadFile (path : string) : Fs (Result string)
| WriteFile (path contents : string) : Fs (option GoError).

(** The exit code: [log.Fatalln] ends the process with code 1. *)
Definition run `{YamlDocuments} (input output : string) : Prog Fs Z :=
  contents ← trigger (ReadFile input);
  match contents with
  | inr _ => mret 1%Z
  | inl contents =>
      match Unmarshal contents with
      | inr _ => mret 1%Z
      | inl doc =>
          match transformNode (AMap doc) with
          | inr _ => mret 1%Z
          | inl transformed =>
              match Marshal transformed with
              | inr _ => mret 1%Z
              | inl newContents =>
                  err ← trigger (WriteFile output newContents);
                  mret match err with Some _ => 1%Z | None => 0%Z end
              end
          end
      end
  end.

(** ** Documents that need no transformation *)

(** A choice that stays: a list which is not a single map. *)
Definition keptChoice (v : any) : Prop := simplifyAnyOf v = inl None.

(** A document in the form of version 3.0: the keys of a map are distinct, no
    choice has a single map to choose, and no array contains a node of type
    null. *)
Fixpoint normal (v : any) : Prop :=
  match v with
  | AMap m => NoDup m.*1 ∧
      (fix go (m : list (string * any)) : Prop :=
         match m with [] => True | kv :: m => ((kv.1 = "anyOf" → keptChoice kv.2) ∧ normal kv.2) ∧ go m end) m
  | AArr l => (fix go (l : list any) : Prop := match l with [] => True | x :: l => (isTypeNull x = false ∧ normal x) ∧ go l end) l
  | _ => True
  end.

Definition normalEntry (kv : string * any) : Prop := (kv.1 = "anyOf" → keptChoice kv.2) ∧ normal kv.2.

Lemma normal_map m : normal (AMap m) ↔ NoDup m.*1 ∧ Forall normalEntry m.
Proof.
  cbn. apply and_iff_compat_l. induction m as [|kv m IH]; [by rewrite list.Forall_nil|]. rewrite list.Forall_cons, <- IH. done.
Qed.

Lemma normal_arr l : normal (AArr l) ↔ Forall (λ x, isTypeNull x = false ∧ normal x) l.
Proof. induction l as [|x l IH]; cbn; [by rewrite list.Forall_nil|]. rewrite list.Forall_cons, <- IH. done. Qed.

(** [assign] at a new key, and what it keeps. *)
Lemma assign_new k v m : k ∉ m.*1 → assign k v m = m ++ [(k, v)].
Proof.
  induction m as [|[k' w] m IH]; cbn; [done|]. rewrite not_elem_of_cons. intros [Hne Hn].
  rewrite (proj2 (String.eqb_neq k' k)) by congruence. by rewrite IH.
Qed.

Lemma Forall_assign (P : string * any → Prop) k v m : P (k, v) → Forall P m → Forall P (assign k v m).
Proof.
  intros Hv Hm. induction Hm as [|[k' w] m Hw Hm IH]; cbn; [by repeat constructor|].
  destruct (String.eqb_spec k' k) as [->|]; by constructor.
Qed.

Lemma keys_assign k v m x : x ∈ (assign k v m).*1 ↔ x = k ∨ x ∈ m.*1.
Proof.
  induction m as [|[k' w] m IH]; cbn; [set_solver|]. destruct (String.eqb_spec k' k) as [->|]; cbn; rewrite !elem_of_cons; [|rewrite IH]; tauto.
Qed.

Lemma NoDup_assign k v m : NoDup m.*1 → NoDup (assign k v m).*1.
Proof.
  induction m as [|[k' w] m IH]; cbn; [intros; apply list.NoDup_singleton|]. rewrite list.NoDup_cons. intros [Hn Hd].
  destruct (String.eqb_spec k' k) as [->|Hne]; cbn; apply list.NoDup_cons; [done|]. split; [|by apply IH].
  rewrite keys_assign. by intros [->|?].
Qed.

(** *** The transformation leaves such a document as it is *)

Lemma transformMap_normal m out :
  Forall (λ kv, normalEntry kv ∧ transformNode kv.2 = inl kv.2) m → NoDup (out ++ m).*1 →
  transformMap transformNode m out = inl (out ++ m).
Proof.
  revert out. induction m as [|[k v] m IH]; intros out Hm Hd; cbn; [by rewrite app_nil_r|].
  apply list.Forall_cons in Hm as [[[Hk _] Hv] Hm]. cbn in Hv. rewrite Hv.
  assert (addEntry k v out = inl (out ++ [(k, v)])) as ->.
  { rewrite <- assign_new.
    - unfold addEntry. destruct (String.eqb_spec k "anyOf") as [->|]; [|done]. cbn in Hk. by rewrite Hk.
    - rewrite fmap_app, list.NoDup_app in Hd. destruct Hd as (_ & Hd & _). intros Hin. apply (Hd _ Hin). by left. }
  rewrite IH; [by rewrite <- (assoc (++))|done|]. by rewrite <- (assoc (++)).
Qed.

Lemma transformElems_normal l out :
  Forall (λ x, isTypeNull x = false ∧ transformNode x = inl x) l → transformElems transformNode l out = inl (out ++ l).
Proof.
  revert out. induction l as [|x l IH]; intros out Hl; cbn; [by rewrite app_nil_r|].
  apply list.Forall_cons in Hl as [[-> ->] Hl]. rewrite IH by done. by rewrite <- (assoc (++)).
Qed.

Lemma transformNode_normal v : normal v → transformNode v = inl v.
Proof.
  induction v as [m IH|l IH|s|b|t] using any_ind; try done.
  - intros [Hd Hm]%normal_map. cbn. rewrite transformMap_normal; [done| |done].
    rewrite list.Forall_forall in IH, Hm |- *. intros kv Hin. split; [by apply Hm|]. apply IH; [done|]. by apply Hm.
  - intros Hl%normal_arr. cbn. unfold transformArray.
    assert (Hl' : Forall (λ x, isTypeNull x = false ∧ transformNode x = inl x) l).
    { rewrite list.Forall_forall in IH, Hl |- *. intros x Hin. split; [by apply Hl|]. apply IH; [done|]. by apply Hl. }
    rewrite (transformElems_normal l [] Hl').
    assert (existsb isTypeNull l = false) as ->; [|done]. clear - Hl. induction Hl as [|x l [Hx _] _ IHl]; [done|]. cbn. by rewrite Hx.
Qed.

(** *** The result is such a document *)

(** An entry that also keeps a map from being of type null, and a node that is
    normal and not of type null. *)
Definition goodEntry (kv : string * any) : Prop := (kv.1 = "type" → kv.2 ≠ AStr "null") ∧ normalEntry kv.
Definition goodNode (v : any) : Prop := match v with AMap m => NoDup m.*1 ∧ Forall goodEntry m | _ => normal v end.

Lemma goodNode_spec v : goodNode v → isTypeNull v = false ∧ normal v.
Proof.
  destruct v as [m| | | |]; try done. intros [Hd Hm]. split.
  - cbn. clear Hd. induction Hm as [|[k v] m [Ht _] _ IH]; cbn; [done|]. destruct (String.eqb_spec k "type") as [->|]; [|done].
    destruct v as [| |s| |]; try done. destruct (String.eqb_spec s "null") as [->|]; [by destruct Ht|done].
  - apply normal_map. split; [done|]. eapply list.Forall_impl; [exact Hm|]. by intros kv [_ ?].
Qed.

Lemma makeNullable_good v w : goodNode v → makeNullable v = inl w → goodNode w.
Proof.
  destruct v as [m| | | |]; try done. intros [Hd Hm] [= <-]. split; [by apply NoDup_assign|by apply Forall_assign].
Qed.

Lemma makeAllNullable_good l l' : Forall goodNode l → makeAllNullable l = inl l' → Forall goodNode l'.
Proof.
  intros Hl. revert l'. induction Hl as [|x l Hx _ IH]; cbn; [by intros l' [= <-]|]. intros l'.
  destruct (makeNullable x) as [y|] eqn:Hy; [|done]. destruct (makeAllNullable l) as [m|]; [|done]. intros [= <-].
  constructor; [by eapply makeNullable_good|by apply IH].
Qed.

(** The nodes of an array are good, all of them. *)
Definition goodArray (v : any) : Prop := match v with AArr l => Forall goodNode l | _ => True end.

Lemma goodArray_normal l : Forall goodNode l → normal (AArr l).
Proof. intros Hl. apply normal_arr. eapply list.Forall_impl; [exact Hl|]. apply goodNode_spec. Qed.

(** Copying good entries into a map keeps a property that they have. *)
Lemma fold_assign (P : string * any → Prop) sub out : Forall P sub → Forall P out → NoDup out.*1 →
  let m := foldl (λ out '(subKey, v), assign subKey v out) out sub in NoDup m.*1 ∧ Forall P m.
Proof.
  intros Hs. revert out. induction Hs as [|[k v] sub Hkv _ IH]; intros out Ho Hd; [done|]. cbn.
  apply IH; [by apply Forall_assign|by apply NoDup_assign].
Qed.

Lemma addEntry_good (P : string * any → Prop) key t out out' :
  (∀ kv, goodEntry kv → P kv) → ((key = "anyOf" → keptChoice t) → P (key, t)) → goodArray t → Forall P out → NoDup out.*1 →
  addEntry key t out = inl out' → NoDup out'.*1 ∧ Forall P out'.
Proof.
  intros HP Ht Ha Ho Hd. unfold addEntry. destruct (String.eqb_spec key "anyOf") as [->|Hne].
  - destruct (simplifyAnyOf t) as [[sub|]|] eqn:Hs; [| |done]; intros [= <-].
    + apply fold_assign; [|done..]. destruct t as [m|[|[m| | | |] [|y l]]|s|b|x]; simplify_eq/=.
      apply list.Forall_cons in Ha as [[_ Ha] _]. eapply list.Forall_impl; [exact Ha|done].
    + split; [by apply NoDup_assign|apply Forall_assign; [by apply Ht|done]].
  - intros [= <-]. split; [by apply NoDup_assign|apply Forall_assign; [by apply Ht|done]].
Qed.

(** What the transformation of a node promises: the result is normal, an array
    has only good nodes, a node that is not of type null gives one that is not,
    and a string is kept and nothing else becomes one. *)
Definition transformed (v w : any) : Prop :=
  normal w ∧ goodArray w ∧ (isTypeNull v = false → goodNode w) ∧ (∀ s, w = AStr s ↔ v = AStr s).

Lemma transformElems_good l out l' :
  Forall (λ v, ∀ w, transformNode v = inl w → transformed v w) l → Forall goodNode out →
  transformElems transformNode l out = inl l' → Forall goodNode l'.
Proof.
  intros Hl. revert out. induction Hl as [|x l Hx _ IH]; intros out Ho; cbn; [by intros [= <-]|].
  destruct (isTypeNull x) eqn:En; [by apply IH|]. destruct (transformNode x) as [t|] eqn:Ht; [|done].
  apply IH. apply list.Forall_app. split; [done|]. constructor; [|done]. by apply (Hx t).
Qed.

Lemma transformMap_good (P : string * any → Prop) m out m' :
  (∀ kv, goodEntry kv → P kv) →
  Forall (λ kv, ∀ w, transformNode kv.2 = inl w →
                  transformed kv.2 w ∧ ((kv.1 = "anyOf" → keptChoice w) → P (kv.1, w))) m →
  Forall P out → NoDup out.*1 → transformMap transformNode m out = inl m' → NoDup m'.*1 ∧ Forall P m'.
Proof.
  intros HP Hm. revert out. induction Hm as [|[key v] m Hv _ IH]; intros out Ho Hd; cbn; [by intros [= <-]|].
  destruct (transformNode v) as [t|] eqn:Ht; [|done].
  destruct (Hv t Ht) as [(Hw & Ha & _ & _) HPt]. destruct (addEntry key t out) as [out'|] eqn:Hadd; [|done].
  destruct (addEntry_good P key t out out') as [Hd' Ho']; try done. by apply IH.
Qed.

(** The keys of every map are distinct, as they are in Go. *)
Fixpoint distinctKeys (v : any) : Prop :=
  match v with
  | AMap m => NoDup m.*1 ∧ (fix go (m : list (string * any)) : Prop := match m with [] => True | kv :: m => distinctKeys kv.2 ∧ go m end) m
  | AArr l => (fix go (l : list any) : Prop := match l with [] => True | x :: l => distinctKeys x ∧ go l end) l
  | _ => True
  end.

Lemma distinctKeys_map m : distinctKeys (AMap m) → NoDup m.*1 ∧ Forall (λ kv, distinctKeys kv.2) m.
Proof. intros [Hn Hm]. split; [done|]. clear Hn. induction m as [|kv m IH]; [constructor|]. destruct Hm. by constructor; [|apply IH]. Qed.
Lemma distinctKeys_arr l : distinctKeys (AArr l) → Forall distinctKeys l.
Proof. induction l as [|x l IH]; [constructor|]. intros [??]. by constructor; [|apply IH]. Qed.

Lemma lookup_distinct key v m : NoDup m.*1 → (key, v) ∈ m → lookupKey key m = Some v.
Proof.
  induction m as [|[k w] m IH]; [by intros _ ?%elem_of_nil|]. cbn. rewrite list.NoDup_cons, elem_of_cons. intros [Hn Hd] [[= -> ->]|Hin].
  - by rewrite String.eqb_refl.
  - rewrite (proj2 (String.eqb_neq k key)); [by apply IH|]. intros ->. apply Hn. by apply (list_elem_of_fmap_2 fst) in Hin.
Qed.

Lemma transformNode_good v : distinctKeys v → ∀ w, transformNode v = inl w → transformed v w.
Proof.
  induction v as [m IH|l IH|s|b|t] using any_ind; intros Hd w; cbn; [| |by intros [= <-]..].
  - apply distinctKeys_map in Hd as [Hn Hd].
    assert (IH' : Forall (λ kv, ∀ w, transformNode kv.2 = inl w → transformed kv.2 w) m).
    { apply list.Forall_forall. intros kv Hin. rewrite list.Forall_forall in IH, Hd. by apply IH, Hd. }
    destruct (transformMap _ m []) as [m'|] eqn:Hm; [|done]. intros [= <-]. split_and!; [|done| |done].
    + apply normal_map. eapply transformMap_good; [| |constructor|constructor|exact Hm]; [by intros kv [_ ?]|].
      eapply list.Forall_impl; [exact IH'|]. intros kv Hkv w Hw. split; [by apply Hkv|]. intros Ha. split; [done|]. by apply Hkv.
    + intros Hnull. eapply transformMap_good; [done| |constructor|constructor|exact Hm].
      apply list.Forall_forall. intros [k v] Hin w Hw. rewrite list.Forall_forall in IH'. pose proof (IH' _ Hin w Hw) as Ht.
      split; [done|]. intros Ha. split; [|split; [done|apply Ht]]. cbn. intros -> ->.
      assert (v = AStr "null") as -> by (by apply Ht). cbn in Hnull. by rewrite (lookup_distinct "type" (AStr "null") m) in Hnull.
  - apply distinctKeys_arr in Hd. unfold transformArray.
    assert (IH' : Forall (λ v, ∀ w, transformNode v = inl w → transformed v w) l).
    { apply list.Forall_forall. intros x Hin. rewrite list.Forall_forall in IH, Hd. by apply IH, Hd. }
    destruct (transformElems _ l []) as [out|] eqn:He; [|done]. apply transformElems_good in He; [|done|constructor].
    assert (Hgood : ∀ out', Forall goodNode out' → transformed (AArr l) (AArr out')).
    { intros out' Ho. split_and!; try done; [by apply goodArray_normal|]. intros _. by apply goodArray_normal. }
    case_if; [|intros [= <-]; by apply Hgood].
    destruct (makeAllNullable out) as [out'|] eqn:Ho; [|done]. intros [= <-]. apply Hgood. by eapply makeAllNullable_good.
Qed.

(** A downgraded document is in normal form, and downgrading it again changes
    nothing. *)
Lemma downgrade_normal v w :
  distinctKeys v → transformNode v = inl w → normal w ∧ transformNode w = inl w.
Proof. intros Hd Hw. assert (normal w) by (by apply (transformNode_good v)). split; [done|]. by apply transformNode_normal. Qed.

(** ** What it is to downgrade a document *)

(** A node of type null, and a map that has become nullable. *)
Definition typeNull (v : any) : Prop := ∃ m, v = AMap m ∧ ("type", AStr "null") ∈ m.
Definition nullableOf (x y : any) : Prop := ∃ m m', x = AMap m ∧ y = AMap m' ∧
  lookupKey "nullable" m' = Some (ABool true) ∧ ∀ key, key ≠ "nullable" → lookupKey key m' = lookupKey key m.

(** What an entry of a downgraded map gives to the result: itself, but for a
    choice with a single map, which gives the entries of that map. *)
Inductive offers : string * any → string → any → Prop :=
| offers_self key v : (key = "anyOf" → ∀ sub, v ≠ AArr [AMap sub]) → offers (key, v) key v
| offers_single sub key v : (key, v) ∈ sub → offers ("anyOf", AArr [AMap sub]) key v.

(** The elements of an array that are not of type null, each downgraded. *)
Inductive Elems (R : any → any → Prop) : list any → list any → Prop :=
| elems_nil : Elems R [] []
| elems_null x l t : typeNull x → Elems R l t → Elems R (x :: l) t
| elems_keep x y l t : ¬ typeNull x → R x y → Elems R l t → Elems R (x :: l) (y :: t).

(** [w] is [v] downgraded.  A map has all keys that its entries offer, once each,
    with a value that one of them offers; a choice is a list.  An array keeps
    what is not of type null, and makes it nullable if something was. *)
#[local] Unset Elimination Schemes.
Inductive Down : any → any → Prop :=
| down_leaf v : match v with AMap _ | AArr _ => False | _ => True end → Down v v
| down_map m t m' :
    Forall2 (λ kv kt, kv.1 = kt.1 ∧ Down kv.2 kt.2) m t →
    (∀ v, ("anyOf", v) ∈ t → ∃ l, v = AArr l) →
    NoDup m'.*1 →
    (∀ key v, (key, v) ∈ m' → ∃ kt, kt ∈ t ∧ offers kt key v) →
    (∀ kt key v, kt ∈ t → offers kt key v → key ∈ m'.*1) →
    Down (AMap m) (AMap m')
| down_array l t l' :
    Elems Down l t →
    ((∃ x, x ∈ l ∧ typeNull x) ∧ Forall2 nullableOf t l' ∨ (∀ x, x ∈ l → ¬ typeNull x) ∧ l' = t) →
    Down (AArr l) (AArr l').
#[local] Set Elimination Schemes.

Lemma isTypeNull_spec v : distinctKeys v → isTypeNull v = true ↔ typeNull v.
Proof.
  unfold typeNull. destruct v as [m| | | |]; cbn; [|by split; [done|intros (? & ? & _)]..]. intros [Hd _]. split.
  - intros H. exists m. split; [done|]. clear Hd. induction m as [|[k v] m IH]; [done|]. cbn in H.
    destruct (String.eqb_spec k "type") as [->|]; [|right; by apply IH]. destruct v as [| |s| |]; try done.
    apply String.eqb_eq in H as ->. left.
  - intros (m' & [= <-] & Hin). by rewrite (lookup_distinct "type" (AStr "null") m).
Qed.

Lemma isTypeNull_none l : Forall distinctKeys l → existsb isTypeNull l = true ↔ ∃ x, x ∈ l ∧ typeNull x.
Proof.
  intros Hd. rewrite existsb_exists. rewrite list.Forall_forall in Hd. split; intros (x & Hin & Hx); exists x.
  - apply list_elem_of_In in Hin. split; [done|]. by apply isTypeNull_spec; [apply Hd|].
  - split; [by apply list_elem_of_In|]. by apply isTypeNull_spec; [apply Hd|].
Qed.

Lemma lookup_assign key k v m : lookupKey key (assign k v m) = if k =s key then Some v else lookupKey key m.
Proof.
  induction m as [|[k' w] m IH]; cbn; [done|]. destruct (String.eqb_spec k' k) as [->|Hne]; cbn.
  - by destruct (k =s key).
  - rewrite IH. destruct (String.eqb_spec k' key) as [->|]; [|done]. by rewrite (proj2 (String.eqb_neq k key)).
Qed.

Lemma elem_assign kv k v m : kv ∈ assign k v m → kv = (k, v) ∨ kv ∈ m.
Proof.
  induction m as [|[k' w] m IH]; cbn; [by rewrite list_elem_of_singleton; left|].
  destruct (String.eqb_spec k' k) as [->|Hne]; rewrite !elem_of_cons; [tauto|]. intros [->|H%IH]; tauto.
Qed.

(** What an entry adds to a map: at most what it offers, and a value at each key
    that it offers. *)
Definition adds (out : list (string * any)) (given : string → any → Prop) (out' : list (string * any)) : Prop :=
  (NoDup out.*1 → NoDup out'.*1) ∧
  (∀ key v, (key, v) ∈ out' → (key, v) ∈ out ∨ given key v) ∧
  (∀ key, key ∈ out.*1 → key ∈ out'.*1) ∧ ∀ key v, given key v → key ∈ out'.*1.

Lemma assign_adds k v out : adds out (λ key x, key = k ∧ x = v) (assign k v out).
Proof.
  split_and!.
  - apply NoDup_assign.
  - intros key x [[= -> ->]|Hin]%elem_assign; [by right|by left].
  - intros key Hin. apply keys_assign. by right.
  - intros key x [-> _]. apply keys_assign. by left.
Qed.

Lemma adds_trans out g1 out1 g2 out2 : adds out g1 out1 → adds out1 g2 out2 → adds out (λ key v, g1 key v ∨ g2 key v) out2.
Proof. unfold adds. intros (H1 & H2 & H3 & H4) (K1 & K2 & K3 & K4). split_and!; naive_solver. Qed.

Lemma adds_ext out (g g' : string → any → Prop) out' : (∀ key v, g key v ↔ g' key v) → adds out g out' → adds out g' out'.
Proof. unfold adds. naive_solver. Qed.

Lemma fold_adds sub out : adds out (λ key v, (key, v) ∈ sub) (foldl (λ out '(subKey, v), assign subKey v out) out sub).
Proof.
  revert out. induction sub as [|[k v] sub IH]; intros out; cbn.
  - split_and!; try done; [by left|]. by intros key v ?%elem_of_nil.
  - eapply adds_ext; [|exact (adds_trans _ _ _ _ _ (assign_adds k v out) (IH _))].
    intros key x. rewrite elem_of_cons. naive_solver.
Qed.

Lemma addEntry_adds key t out out' : addEntry key t out = inl out' →
  adds out (offers (key, t)) out' ∧ (key = "anyOf" → ∃ l, t = AArr l).
Proof.
  unfold addEntry. assert (Hself : (key = "anyOf" → ∀ sub, t ≠ AArr [AMap sub]) → adds out (offers (key, t)) (assign key t out)).
  { intros Hk. eapply adds_ext; [|apply assign_adds]. intros k v. split; [by intros [-> ->]; constructor|].
    inversion 1; subst; [done|]. by destruct (Hk eq_refl sub). }
  destruct (String.eqb_spec key "anyOf") as [->|Hne]; [|by intros [= <-]; split; [apply Hself|]].
  destruct t as [m|l|s|b|x]; cbn; try done. intros H. split; [|by exists l].
  destruct l as [|[m| | | |] [|y l]]; cbn in H; injection H as <-; try (apply Hself; intros _ sub; congruence).
  eapply adds_ext; [|apply fold_adds]. intros k v. split; [by constructor|].
  inversion 1 as [? ? Hk|]; subst; [|done]. by destruct (Hk eq_refl m).
Qed.

(** The walk over a map, and where it fails. *)
Lemma transformMap_down m out :
  Forall (λ kv, (∀ w, transformNode kv.2 = inl w → Down kv.2 w)) m →
  ∀ m', transformMap transformNode m out = inl m' → ∃ t,
    Forall2 (λ kv kt, kv.1 = kt.1 ∧ Down kv.2 kt.2) m t ∧ (∀ v, ("anyOf", v) ∈ t → ∃ l, v = AArr l) ∧
    adds out (λ key v, ∃ kt, kt ∈ t ∧ offers kt key v) m'.
Proof.
  intros Hm. revert out. induction Hm as [|[key v] m Hv _ IH]; intros out m'; cbn.
  - intros [= <-]. exists []. split; [constructor|]. split; [by intros v ?%elem_of_nil|].
    split_and!; try done; [by left|]. by intros key v (kt & ?%elem_of_nil & _).
  - destruct (transformNode v) as [t|] eqn:Ht; [|done]. destruct (addEntry key t out) as [out1|] eqn:Ha; [|done].
    intros (ts & Hts & Hany & Hadds)%IH. apply addEntry_adds in Ha as [Ha Harr]. exists ((key, t) :: ts). split_and!.
    + constructor; [|done]. split; [done|]. by apply Hv.
    + intros v' [[= <- ->]|Hin]%elem_of_cons; [by apply Harr|by apply Hany].
    + eapply adds_ext; [|exact (adds_trans _ _ _ _ _ Ha Hadds)]. intros k x. split.
      * intros [H|(kt & Hin & H)]; [exists (key, t); split; [left|done]|exists kt; split; [by right|done]].
      * intros (kt & [->|Hin]%elem_of_cons & H); [by left|right; by exists kt].
Qed.

Lemma down_shape v w : Down v w → (∃ m m', v = AMap m ∧ w = AMap m') ∨ (∃ l l', v = AArr l ∧ w = AArr l') ∨
  v = w ∧ match v with AMap _ | AArr _ => False | _ => True end.
Proof. inversion 1; subst; [by right; right|left; eauto|right; left; eauto]. Qed.

Lemma addEntry_fails key t out err : addEntry key t out = inr err → key = "anyOf" ∧ ∀ l, t ≠ AArr l.
Proof.
  unfold addEntry. destruct (String.eqb_spec key "anyOf") as [->|]; [|done]. intros H. split; [done|]. intros l ->. revert H. cbn.
  by destruct l as [|[] []].
Qed.

Lemma transformMap_fails m out err :
  Forall (λ kv, match transformNode kv.2 with inl w => Down kv.2 w | inr _ => ∀ w, ¬ Down kv.2 w end) m →
  transformMap transformNode m out = inr err → ∀ w, ¬ Down (AMap m) w.
Proof.
  intros Hm Hf w Hd. assert (∃ t, Forall2 (λ kv kt, kv.1 = kt.1 ∧ Down kv.2 kt.2) m t ∧ ∀ v, ("anyOf", v) ∈ t → ∃ l, v = AArr l)
    as (t & Ht & Hany) by (inversion Hd; subst; [done|by eexists]).
  clear Hd w. revert out t Hf Ht Hany. induction Hm as [|[key v] m Hv _ IH]; intros out t; cbn; [done|]. intros Hf Ht Hany.
  inversion Ht as [|? [key' x] ? ts [Hk Hx] Hts]; subst. cbn in Hk, Hx, Hv. subst key'.
  destruct (transformNode v) as [w|] eqn:Hw; [|by apply (Hv x)].
  destruct (addEntry key w out) as [out1|] eqn:Ha.
  - eapply IH; [exact Hf|exact Hts|]. intros y Hy. apply Hany. by right.
  - apply addEntry_fails in Ha as [-> Hl]. destruct (Hany x) as [l ->]; [left|].
    destruct (down_shape _ _ Hv) as [(m1 & m2 & -> & _)|[(l1 & l2 & -> & ->)|[-> Hleaf]]];
      [|by destruct (Hl l2)|]; destruct (down_shape _ _ Hx) as [(? & ? & ? & ?)|[(? & ? & ? & ?)|[? ?]]]; simplify_eq; done.
Qed.

(** The walk over an array. *)
Lemma transformElems_down l out :
  Forall distinctKeys l →
  Forall (λ x, match transformNode x with inl w => Down x w | inr _ => ∀ w, ¬ Down x w end) l →
  match transformElems transformNode l out with
  | inl out' => ∃ t, out' = out ++ t ∧ Elems Down l t
  | inr _ => ∀ t, ¬ Elems Down l t
  end.
Proof.
  intros Hd Hl. revert out. induction Hl as [|x l Hx _ IH]; intros out; cbn.
  - exists []. by rewrite app_nil_r; split; [|constructor].
  - apply list.Forall_cons in Hd as [Hdx Hd]. pose proof (isTypeNull_spec x Hdx) as Hn. destruct (isTypeNull x).
    + specialize (IH Hd out). destruct (transformElems _ l out) as [out'|].
      * destruct IH as (t & -> & Ht). exists t. split; [done|]. constructor; [by apply Hn|done].
      * intros t Ht. inversion Ht; subst; [by eapply IH|]. by destruct Hn as [Hn _]; specialize (Hn eq_refl).
    + assert (Hnot : ¬ typeNull x) by (by intros ?%Hn). destruct (transformNode x) as [w|].
      * specialize (IH Hd (out ++ [w])). destruct (transformElems _ l (out ++ [w])) as [out'|].
        -- destruct IH as (t & -> & Ht). exists (w :: t). rewrite <- (assoc (++)). split; [done|]. by constructor.
        -- intros t Ht. inversion Ht; subst; [done|]. by eapply IH.
      * intros t Ht. inversion Ht; subst; [done|]. by eapply Hx.
Qed.

Lemma makeNullable_of x y : makeNullable x = inl y → nullableOf x y.
Proof.
  destruct x as [m| | | |]; cbn; try done. intros [= <-]. exists m, (assign "nullable" (ABool true) m).
  split_and!; [done|done| |]; [by rewrite lookup_assign|]. intros key Hk. rewrite lookup_assign.
  by rewrite (proj2 (String.eqb_neq "nullable" key)).
Qed.

Lemma makeAllNullable_of l : match makeAllNullable l with
  | inl l' => Forall2 nullableOf l l'
  | inr _ => ∃ x, x ∈ l ∧ ∀ m, x ≠ AMap m
  end.
Proof.
  induction l as [|x l IH]; cbn; [constructor|]. destruct (makeNullable x) as [y|err] eqn:Hy.
  - apply makeNullable_of in Hy. destruct (makeAllNullable l) as [l'|]; [by constructor|].
    destruct IH as (z & Hz & Hm). exists z. split; [by right|done].
  - exists x. split; [left|]. intros m ->. done.
Qed.

(** The shapes of the elements do not depend on how they are downgraded. *)
Lemma elems_shape l t t' : Elems Down l t → Elems Down l t' →
  Forall2 (λ x y, (∃ m, x = AMap m) → ∃ m, y = AMap m) t t'.
Proof.
  intros Ht. revert t'. induction Ht as [|x l t Hx _ IH|x y l t Hx Hy _ IH]; intros t' Ht'; inversion Ht' as [|? ? ? Hn Ht2|? y' ? ? Hn Hy' Ht2]; subst; try done.
  - by apply IH.
  - constructor; [|by apply IH]. intros [m ->].
    destruct (down_shape _ _ Hy) as [(? & ? & ? & ?)|[(? & ? & ? & ?)|[? ?]]]; simplify_eq; try done.
    destruct (down_shape _ _ Hy') as [(? & ? & ? & ?)|[(? & ? & ? & ?)|[? ?]]]; simplify_eq; try done. by eexists.
Qed.

(** The transformation downgrades a node, and fails when that is impossible. *)
Lemma transformNode_down v : distinctKeys v →
  match transformNode v with inl w => Down v w | inr _ => ∀ w, ¬ Down v w end.
Proof.
  induction v as [m IH|l IH|s|b|t] using any_ind; intros Hd; cbn; [| |by constructor..].
  - apply distinctKeys_map in Hd as [Hn Hd].
    assert (IH' : Forall (λ kv, match transformNode kv.2 with inl w => Down kv.2 w | inr _ => ∀ w, ¬ Down kv.2 w end) m).
    { apply list.Forall_forall. intros kv Hin. rewrite list.Forall_forall in IH, Hd. by apply IH, Hd. }
    destruct (transformMap transformNode m []) as [m'|err] eqn:Hm; [|by eapply transformMap_fails].
    apply transformMap_down in Hm as (t & Ht & Hany & Hnd & Hfrom & _ & Hto).
    + apply (down_map m t); [done|done|by apply Hnd, list.NoDup_nil| |].
      * intros key x Hin. destruct (Hfrom key x Hin) as [?%elem_of_nil|?]; done.
      * intros kt key x Hkt Ho. eapply Hto. by exists kt.
    + eapply list.Forall_impl; [exact IH'|]. intros kv Hkv w Hw. cbv beta in Hkv. by rewrite Hw in Hkv.
  - apply distinctKeys_arr in Hd. unfold transformArray.
    assert (IH' : Forall (λ x, match transformNode x with inl w => Down x w | inr _ => ∀ w, ¬ Down x w end) l).
    { apply list.Forall_forall. intros x Hin. rewrite list.Forall_forall in IH, Hd. by apply IH, Hd. }
    pose proof (transformElems_down l [] Hd IH') as He. pose proof (isTypeNull_none l Hd) as Hn.
    destruct (transformElems transformNode l []) as [out|err].
    2:{ intros w Hw. inversion Hw as [| |? t ? Ht]; subst; [done|]. by eapply He. }
    destruct He as (t & -> & Ht). cbn. destruct (existsb isTypeNull l).
    + pose proof (makeAllNullable_of t) as Ha. destruct (makeAllNullable t) as [l'|err].
      * apply (down_array l t); [done|]. left. split; [by apply Hn|done].
      * intros w Hw. inversion Hw as [| |? t' l' Ht' Hl']; subst; [done|].
        destruct Hl' as [[_ Hnul]|[Hnone _]]; [|destruct (proj1 Hn eq_refl) as (x & Hx & Hx'); by destruct (Hnone x Hx Hx')].
        destruct Ha as (x & Hx & Hm). apply list_elem_of_lookup in Hx as [i Hi].
        pose proof (elems_shape _ _ _ Ht' Ht) as Hs. 
        destruct (Forall2_lookup_r _ _ _ _ _ Hs Hi) as (y & Hy & Hyx).
        destruct (Forall2_lookup_l _ _ _ _ _ Hnul Hy) as (z & _ & (my & _ & -> & _)).
        destruct Hyx as [mx ->]; [by eexists|]. by apply (Hm mx).
    + apply (down_array l t); [done|]. right. split; [|done]. intros x Hx Htn. discriminate (proj2 Hn (ex_intro _ x (conj Hx Htn))).
Qed.

(** Where a choice and its map have a key in common, the result depends on the
    order in which Go walks over the map. *)
Definition choice (first second : string * any) : any := AMap [first; second].
Definition titled : string * any := ("title", AStr "Outer").
Definition single : string * any := ("anyOf", AArr [AMap [("title", AStr "Inner"); ("type", AStr "string")]; AMap [("type", AStr "null")]]).

Example clash_first : transformNode (choice titled single) =
  inl (AMap [("title", AStr "Inner"); ("type", AStr "string"); ("nullable", ABool true)]).
Proof. reflexivity. Qed.
Example clash_second : transformNode (choice single titled) =
  inl (AMap [("title", AStr "Outer"); ("type", AStr "string"); ("nullable", ABool true)]).
Proof. reflexivity. Qed.

(** ** The command *)

Section Run.
Context `{YamlDocuments} (input output : string).

(** What has been read, and what has been written. *)
Record Files := mkFiles { readInput : option (Result string); writes : list string; failedWrite : bool }.

(** The text of a downgraded document: no alternative of type null and no choice
    with a single map is left in it, and another run would leave it as it is. *)
Definition downgraded (contents newContents : string) : Prop :=
  ∃ doc w, Unmarshal contents = inl doc ∧ Down (AMap doc) w ∧ Marshal w = inl newContents ∧
    normal w ∧ transformNode w = inl w.

(** Why there is none. *)
Definition undowngraded (contents : string) : Prop :=
  (∃ err, Unmarshal contents = inr err) ∨
  ∃ doc, Unmarshal contents = inl doc ∧
    ((∀ w, ¬ Down (AMap doc) w) ∨ ∃ w err, Down (AMap doc) w ∧ Marshal w = inr err).

Definition files : Monitor Fs Files := {|
  allowed R e g := match e with
    | ReadFile path => path = input ∧ readInput g = None
    | WriteFile path newContents =>
        path = output ∧ writes g = [] ∧ ∃ contents, readInput g = Some (inl contents) ∧ downgraded contents newContents
    end;
  rely R e g r := True;
  next R e := match e in Fs R return R → Files → Files with
    | ReadFile _ => λ r g, mkFiles (Some r) (writes g) (failedWrite g)
    | WriteFile _ newContents => λ r g, mkFiles (readInput g) (newContents :: writes g) (bool_decide (is_Some r))
    end;
  panic_ok _ := False |}.

(** How the command ends. *)
Definition ends (code : Z) (g : Files) : Prop :=
  (code = 0%Z ∧ (∃ newContents, writes g = [newContents]) ∧ failedWrite g = false) ∨
  (code = 1%Z ∧
    (failedWrite g = true ∨
     writes g = [] ∧ ((∃ err, readInput g = Some (inr err)) ∨
                      ∃ contents, readInput g = Some (inl contents) ∧ undowngraded contents))).

(** C40: The command reads its input once and writes its output at most once: the
    document of the input downgraded.  That is, what is of type null is left out
    of every list, and then the rest of the list is nullable and has kept its
    other keys; a choice with a single map is replaced by the entries of that map;
    everything else is as it was, and no key is lost.  No such alternative and
    no such choice is left, and another run would leave the result as it is.
    The exit code is 0 when that has been written.  Otherwise it is 1, and nothing
    has been written unless the write itself failed: the input could not be read
    or parsed, cannot be downgraded at all, or has no text when downgraded. *)
Theorem downgrade_run :
  (∀ contents doc, Unmarshal contents = inl doc → distinctKeys (AMap doc)) →
  wp files (run input output) ends (mkFiles None [] false).
Proof.
  intros Hkeys. unfold run. split; [done|]. intros [contents|err] _; cbn -[transformNode].
  2:{ right. split; [done|]. right. split; [done|]. left. by eexists. }
  assert (Hnone : undowngraded contents → ends 1 (mkFiles (Some (inl contents)) [] false)).
  { intros Hu. right. split; [done|]. right. split; [done|]. right. by exists contents. }
  destruct (Unmarshal contents) as [doc|err] eqn:Hu; [|apply Hnone; left; by eexists].
  pose proof (transformNode_down _ (Hkeys _ _ Hu)) as Hd. destruct (transformNode (AMap doc)) as [w|err] eqn:Hw.
  2:{ apply Hnone. right. exists doc. split; [done|]. by left. }
  destruct (Marshal w) as [newContents|err] eqn:Hm.
  2:{ apply Hnone. right. exists doc. split; [done|]. right. by exists w, err. }
  destruct (downgrade_normal _ _ (Hkeys _ _ Hu) Hw) as [Hn Ht]. split.
  - split; [done|]. split; [done|]. exists contents. split; [done|]. by exists doc, w.
  - intros [err|] _; cbn; [right; split; [done|]; by left|left; split; [done|]; split; [by eexists|done]].
Qed.
End Run.

(** A YAML library with one document. *)
Definition demoDoc : list (string * any) := [titled; single].
#[local] Instance demoYaml : YamlDocuments :=
  {| Unmarshal text := if text =s "doc" then inl demoDoc else inr (Errorf "yaml: invalid"); Marshal _ := inl "downgraded" |}.

Definition demoFiles : Handler Fs (list (string * string)) := λ R e,
  match e in Fs R return list (string * string) → R * list (string * string) with
  | ReadFile path => λ w, (if path =s "in.yaml" then inl "doc" else inr (Errorf "no such file"), w)
  | WriteFile path contents => λ w, (None, (path, contents) :: w)
  end.

Lemma downgrade_run_witness :
  obeys (files "in.yaml" "out.yaml") demoFiles (run "in.yaml" "out.yaml") ends [] (mkFiles None [] false).
Proof.
  apply wp_obeys; [done|]. apply downgrade_run. intros contents doc. cbn. destruct (contents =s "doc"); [|done].
  intros [= <-]. cbn. repeat split; repeat constructor; try set_solver.
Defined.

Example demo_written : (Prog.run demoFiles (run "in.yaml" "out.yaml") []) = (Done 0%Z, [("out.yaml", "downgraded")]).
Proof. reflexivity. Qed.
