(* ===== verification/Store.v ===== *)
(** * Memory with pointers

    Elsewhere in the development a struct is a value.  Here pointers, slices and
    maps are references into a memory, so that it can be said which parts two
    values share: [Walk]s follow references and record them, [Heap] programs
    allocate, and [Copied] says that a program makes a copy of what a walk reads
    which shares nothing with the memory before. *)

From S2P Require Import Prelude K8s.
From Stdlib Require Import Eqdep_dec.

(** ** What memory holds *)

(** Structs of the Kubernetes libraries; [EListMeta] is metav1.ListMeta. *)
Inductive Ext :=
| EContainer | EVolume | EVolumeMount | EEnvVar | EToleration | EAffinity
| EResources | EQuantity | ETime | EObjectMeta | EListMeta.
#[global] Instance Ext_eq_dec : EqDecision Ext.
Proof. solve_decision. Defined.

Definition extValue (k : Ext) : Type :=
  match k with
  | EContainer => Container.t
  | EVolume => Volume.t
  | EVolumeMount => VolumeMount.t
  | EEnvVar => EnvVar.t
  | EResources => ResourceRequirements.t
  | EQuantity => Quantity.t
  | ETime => Time.t
  | EObjectMeta => ObjectMeta.t
  | EToleration | EAffinity | EListMeta => Opaque
  end.

Definition loc : Type := positive.

(** A slice: an array and the part of it that the slice is. *)
Record SliceHeader := mkSlice { array : loc; offset : nat; length_ : nat }.

Section Memory.
(** The types of cells that are not slices of others, and their contents. *)
Context {Base : Type} `{EqDecision Base} (interp : Base → Type).

Inductive Ty := TBase (b : Base) | TArray (b : Base).

Definition contents (τ : Ty) : Type := match τ with TBase b => interp b | TArray b => list (interp b) end.

#[global] Instance Ty_eq_dec : EqDecision Ty.
Proof. solve_decision. Defined.

Definition Cell : Type := {τ : Ty & contents τ}.
Definition Mem : Type := gmap loc Cell.
#[global] Instance Mem_sub_preorder : PreOrder (⊆@{Mem}).
Proof. exact (_ : PreOrder (⊆@{gmap loc Cell})). Qed.

Definition deref (τ : Ty) (l : loc) (μ : Mem) : option (contents τ) :=
  match μ !! l with
  | Some (existT τ' v) => match decide (τ' = τ) with left e => Some (eq_rect τ' contents v τ e) | right _ => None end
  | None => None
  end.

Lemma deref_cell τ l v (μ : Mem) : μ !! l = Some (existT τ v) → deref τ l μ = Some v.
Proof.
  intros Hl. unfold deref. rewrite Hl. destruct (decide (τ = τ)) as [e|]; [|done]. f_equal. symmetry.
  apply eq_rect_eq_dec, Ty_eq_dec.
Qed.

Lemma deref_is_Some τ l (μ : Mem) v : deref τ l μ = Some v → is_Some (μ !! l).
Proof. unfold deref. by destruct (μ !! l). Qed.

(** ** Following references *)

(** The references that are followed, in their order; [None] is a nil. *)
Definition Trail : Type := list (option loc).
Definition nils : Trail → list bool := fmap (λ r, bool_decide (r = None)).

(** A read; [None] if a reference dangles. *)
Definition Walk (A : Type) : Type := Mem → option (A * Trail).

Definition wret {A} (a : A) : Walk A := λ _, Some (a, []).
Definition wbind {A B} (w : Walk A) (k : A → Walk B) : Walk B := λ μ,
  match w μ with
  | Some (a, T) => match k a μ with Some (b, T') => Some (b, T ++ T') | None => None end
  | None => None
  end.
Definition visit (r : option loc) : Walk unit := λ _, Some (tt, [r]).
Definition wload (τ : Ty) (l : loc) : Walk (contents τ) := λ μ,
  match deref τ l μ with Some v => Some (v, [Some l]) | None => None end.

Fixpoint wmap {A B} (f : A → Walk B) (l : list A) : Walk (list B) :=
  match l with
  | [] => wret []
  | a :: l => wbind (f a) (λ b, wbind (wmap f l) (λ bs, wret (b :: bs)))
  end.

(** A walk depends on the references it follows only, and they are all there. *)
Definition Tracked {A} (w : Walk A) : Prop := ∀ μ a T, w μ = Some (a, T) →
  (∀ l, Some l ∈ T → is_Some (μ !! l)) ∧ ∀ μ', (∀ l, Some l ∈ T → μ' !! l = μ !! l) → w μ' = Some (a, T).

Lemma wbind_Some {A B} (w : Walk A) (k : A → Walk B) μ a T b T' :
  w μ = Some (a, T) → k a μ = Some (b, T') → wbind w k μ = Some (b, T ++ T').
Proof. unfold wbind. by intros -> ->. Qed.

Lemma wbind_inv {A B} (w : Walk A) (k : A → Walk B) μ b T : wbind w k μ = Some (b, T) →
  ∃ a T1 T2, w μ = Some (a, T1) ∧ k a μ = Some (b, T2) ∧ T = T1 ++ T2.
Proof. unfold wbind. intros H. repeat case_match; simplify_eq. by eexists _, _, _. Qed.

Lemma tracked_ret {A} (a : A) : Tracked (wret a).
Proof. intros μ a' T [= <- <-]. split; [|done]. by intros l ?%elem_of_nil. Qed.

Lemma tracked_visit : Tracked (visit None).
Proof. intros μ a T [= <- <-]. split; [|done]. by intros l ?%list_elem_of_singleton. Qed.

Lemma tracked_bind {A B} (w : Walk A) (k : A → Walk B) : Tracked w → (∀ a, Tracked (k a)) → Tracked (wbind w k).
Proof.
  intros Hw Hk μ b T (a & T1 & T2 & H1 & H2 & ->)%wbind_inv. destruct (Hw _ _ _ H1) as [Hd1 Hl1].
  destruct (Hk _ _ _ _ H2) as [Hd2 Hl2]. split.
  - intros l [?|?]%elem_of_app; auto.
  - intros μ' Hμ'. apply wbind_Some with (a := a); [apply Hl1|apply Hl2]; intros l Hl; apply Hμ', elem_of_app; auto.
Qed.

Lemma tracked_load τ l : Tracked (wload τ l).
Proof.
  intros μ v T. unfold wload. destruct (deref τ l μ) as [v'|] eqn:Hd; [|done]. intros [= <- <-]. split.
  - intros l' [= ->]%list_elem_of_singleton. by eapply deref_is_Some.
  - intros μ' Hμ'. assert (deref τ l μ' = Some v') as ->; [|done]. rewrite <- Hd. unfold deref. by rewrite Hμ' by by left.
Qed.

Lemma tracked_map {A B} (f : A → Walk B) l : (∀ a, Tracked (f a)) → Tracked (wmap f l).
Proof.
  intros Hf. induction l as [|a l IH]; [apply tracked_ret|]. apply tracked_bind; [done|]. intros b.
  apply tracked_bind; [done|]. intros. apply tracked_ret.
Qed.

(** ** Allocating *)

(** [None]: a dangling reference. *)
Definition Heap (A : Type) : Type := Mem → option (A * Mem).

Definition hret {A} (a : A) : Heap A := λ μ, Some (a, μ).
Definition hbind {A B} (h : Heap A) (k : A → Heap B) : Heap B := λ μ,
  match h μ with Some (a, μ') => k a μ' | None => None end.
Definition hload (τ : Ty) (l : loc) : Heap (contents τ) := λ μ,
  match deref τ l μ with Some v => Some (v, μ) | None => None end.
Definition newLoc (μ : Mem) : loc := fresh (dom μ).
(** [new], [make] and the initialization of what they return *)
Definition alloc (τ : Ty) (v : contents τ) : Heap loc := λ μ,
  let l := newLoc μ in Some (l, <[l := existT τ v]> μ).

Fixpoint hmap {A B} (f : A → Heap B) (l : list A) : Heap (list B) :=
  match l with
  | [] => hret []
  | a :: l => hbind (f a) (λ b, hbind (hmap f l) (λ bs, hret (b :: bs)))
  end.

Lemma newLoc_fresh μ : μ !! newLoc μ = None.
Proof. apply not_elem_of_dom. exact (is_fresh (dom μ)). Qed.

(** ** Copies *)

(** No reference of the trail was there before. *)
Definition FreshIn (μ : Mem) (T : Trail) : Prop := ∀ l, Some l ∈ T → μ !! l = None.

Lemma FreshIn_app μ T1 T2 : FreshIn μ T1 → FreshIn μ T2 → FreshIn μ (T1 ++ T2).
Proof. intros H1 H2 l [?|?]%elem_of_app; auto. Qed.
Lemma FreshIn_nil μ : FreshIn μ [].
Proof. by intros l ?%elem_of_nil. Qed.
Lemma FreshIn_sub μ μ' T : μ ⊆ μ' → FreshIn μ' T → FreshIn μ T.
Proof. intros Hs Hf l Hl. eapply lookup_weaken_None; [by apply Hf|done]. Qed.

(** What a copying program has done when it started in [μ]: the old memory is
    as it was, and the copy reads the same, nils included, through new
    references. *)
Definition Copy {V M} (rd : M → Walk V) (v : V) (T : Trail) (μ : Mem) (r : option (M * Mem)) : Prop :=
  ∃ y μ' T', r = Some (y, μ') ∧ μ ⊆ μ' ∧ rd y μ' = Some (v, T') ∧ nils T' = nils T ∧ FreshIn μ T'.

Record Copied {V M} (rd : M → Walk V) (cp : M → Heap M) : Prop := {
  tracked : ∀ x, Tracked (rd x);
  copies : ∀ x μ v T, rd x μ = Some (v, T) → Copy rd v T μ (cp x μ) }.

Lemma tracked_sub {A} (w : Walk A) μ μ' a T : Tracked w → w μ = Some (a, T) → μ ⊆ μ' → w μ' = Some (a, T).
Proof.
  intros Hw H Hs. destruct (Hw _ _ _ H) as [Hd Hl]. apply Hl. intros l Hin. destruct (Hd l Hin) as [c Hc]. rewrite Hc.
  by eapply lookup_weaken.
Qed.

(** One field of a struct is copied, some way into a copy that started in [μ0]:
    the copied field reads the same in any later memory. *)
Lemma copy_step {V M A} (rd : M → Walk V) cp x (k : M → Heap A) μ0 μ v T (Q : option (A * Mem) → Prop) :
  rd x μ0 = Some (v, T) → Copied rd cp → μ0 ⊆ μ →
  (∀ y μ1 T1, μ ⊆ μ1 → (∀ μ2, μ1 ⊆ μ2 → rd y μ2 = Some (v, T1)) → nils T1 = nils T → FreshIn μ0 T1 → Q (k y μ1)) →
  Q (hbind (cp x) k μ).
Proof.
  intros Hx [Ht Hc] Hs HQ. destruct (Hc x μ v T (tracked_sub _ _ _ _ _ (Ht x) Hx Hs)) as (y & μ1 & T1 & Hy & H1 & Hr & Hn & Hf).
  unfold hbind. rewrite Hy. apply HQ with (T1 := T1); try done.
  - intros μ2 H2. by eapply tracked_sub.
  - by eapply FreshIn_sub.
Qed.

(** Values without references are copied by assignment. *)
Lemma copied_flat {V} : Copied (@wret V) hret.
Proof. split; [intros; apply tracked_ret|]. intros x μ v T [= <- <-]. eexists x, μ, []. by split_and!; [| | | |apply FreshIn_nil]. Qed.

(** *** Pointers *)

Definition walkPtr {V} (b : Base) (rd : interp b → Walk V) (p : option loc) : Walk (option V) :=
  match p with
  | None => wbind (visit None) (λ _, wret None)
  | Some l => wbind (wload (TBase b) l) (λ x, wbind (rd x) (λ v, wret (Some v)))
  end.

(** [if in.F != nil { ... }]: [new] a variable, copy what the pointer points to. *)
Definition copyPtr (b : Base) (cp : interp b → Heap (interp b)) (p : option loc) : Heap (option loc) :=
  match p with
  | None => hret None
  | Some l => hbind (hload (TBase b) l) (λ x, hbind (cp x) (λ y, hbind (alloc (TBase b) y) (λ l', hret (Some l'))))
  end.

Lemma alloc_copy {V} τ (rd : contents τ → Walk V) y μ0 μ v T l0 :
  μ0 ⊆ μ → (∀ x, Tracked (rd x)) → rd y μ = Some (v, T) → FreshIn μ0 T →
  ∃ l μ', alloc τ y μ = Some (l, μ') ∧ μ0 ⊆ μ' ∧ deref τ l μ' = Some y ∧ rd y μ' = Some (v, T) ∧
    nils (Some l :: T) = nils (Some l0 :: T) ∧ FreshIn μ0 (Some l :: T).
Proof.
  intros Hs Ht Hr Hf. assert (Hμ : μ ⊆ <[newLoc μ := existT τ y]> μ) by (apply insert_subseteq, newLoc_fresh).
  exists (newLoc μ), (<[newLoc μ := existT τ y]> μ). split_and!; [done|by etrans| | |done|].
  - apply deref_cell, lookup_insert_eq.
  - by eapply tracked_sub.
  - intros l [[= ->]|Hl]%elem_of_cons; [|auto]. destruct (μ0 !! newLoc μ) eqn:E; [|done].
    pose proof (lookup_weaken _ _ _ _ E Hs) as H. by rewrite newLoc_fresh in H.
Qed.

Lemma copied_ptr {V} b (rd : interp b → Walk V) cp : Copied rd cp → Copied (walkPtr b rd) (copyPtr b cp).
Proof.
  intros Hc. split.
  - intros [l|]; repeat first [apply tracked_bind; [first [apply tracked_load|apply Hc|apply tracked_visit]|intros]|apply tracked_ret].
  - intros [l|] μ v T H; cbn in H.
    + apply wbind_inv in H as (x & T1 & T2 & H1 & (w & T3 & T4 & H2 & [= <- <-] & ->)%wbind_inv & ->).
      unfold wload in H1. destruct (deref (TBase b) l μ) as [x'|] eqn:Hd; [|done]. simplify_eq. rewrite app_nil_r. cbn.
      unfold hbind at 1, hload. rewrite Hd. eapply copy_step; [done..|]. intros y μ1 T1 H1 Hr Hn Hf.
      destruct (alloc_copy (TBase b) rd y μ μ1 w T1 l H1 (tracked _ _ Hc) (Hr μ1 (reflexivity μ1)) Hf)
        as (l' & μ' & Ha & Hs & Hd' & Hr' & _ & Hf').
      unfold hbind. rewrite Ha. eexists (Some l'), μ', (Some l' :: T1). split_and!; [done|done| |by cbn; f_equal|done].
      cbn. unfold wbind, wload, wret. by rewrite Hd', Hr', app_nil_r.
    + injection H as [= <- <-]. eexists None, μ, [None]. split_and!; try done. by intros l ?%list_elem_of_singleton.
Qed.

(** A copy of what is read is a copy of what is made of it. *)
Definition woption {A} (o : option A) : Walk A := λ _, match o with Some a => Some (a, []) | None => None end.

Lemma tracked_option {A} (o : option A) : Tracked (woption o).
Proof. intros μ a T. unfold woption. destruct o; [|done]. intros [= <- <-]. split; [|done]. by intros ? ?%elem_of_nil. Qed.

Lemma copied_read {V W M} (f : V → option W) (rd : M → Walk V) cp :
  Copied rd cp → Copied (λ x, wbind (rd x) (λ v, woption (f v))) cp.
Proof.
  intros [Ht Hc]. split.
  - intros x. apply tracked_bind; [apply Ht|intros; apply tracked_option].
  - intros x μ w T (v & T1 & T2 & H1 & H2 & ->)%wbind_inv. destruct (Hc _ _ _ _ H1) as (y & μ' & T' & Hy & Hs & Hr & Hn & Hf).
    unfold woption in H2. destruct (f v) eqn:E; [|done]. simplify_eq.
    rewrite app_nil_r. eexists y, μ', T'. split_and!; try done. rewrite <- (app_nil_r T').
    apply wbind_Some with (a := v); [done|]. unfold woption. by rewrite E.
Qed.

(** *** Slices *)

Definition window {A} (s : SliceHeader) (xs : list A) : option (list A) :=
  if decide (offset s + length_ s ≤ length xs)%nat then Some (take (length_ s) (drop (offset s) xs)) else None.

Definition wwindow {A} (s : SliceHeader) (xs : list A) : Walk (list A) := λ _,
  match window s xs with Some xs => Some (xs, []) | None => None end.
Definition hwindow {A} (s : SliceHeader) (xs : list A) : Heap (list A) := λ μ,
  match window s xs with Some xs => Some (xs, μ) | None => None end.

Lemma tracked_window {A} s (xs : list A) : Tracked (wwindow s xs).
Proof. intros μ a T. unfold wwindow. destruct (window s xs); [|done]. intros [= <- <-]. split; [|done]. by intros ? ?%elem_of_nil. Qed.

(** A nil slice reads as the empty list, but is a nil in the trail. *)
Definition walkSlice {V} (b : Base) (rd : interp b → Walk V) (p : option SliceHeader) : Walk (list V) :=
  match p with
  | None => wbind (visit None) (λ _, wret [])
  | Some s => wbind (wload (TArray b) (array s)) (λ xs, wbind (wwindow s xs) (wmap rd))
  end.

(** [if in.F != nil { ... }]: [make] an array as long as the slice, copy the elements. *)
Definition copySlice (b : Base) (cp : interp b → Heap (interp b)) (p : option SliceHeader) : Heap (option SliceHeader) :=
  match p with
  | None => hret None
  | Some s => hbind (hload (TArray b) (array s)) (λ xs, hbind (hwindow s xs) (λ xs, hbind (hmap cp xs) (λ ys,
      hbind (alloc (TArray b) ys) (λ l, hret (Some (mkSlice l 0 (length ys)))))))
  end.

Lemma copied_map {V M} (rd : M → Walk V) cp : Copied rd cp → Copied (wmap rd) (hmap cp).
Proof.
  intros Hc. split; [intros x; by apply tracked_map, Hc|]. induction x as [|x xs IH]; intros μ v T H.
  { injection H as <- <-. eexists [], μ, []. by split_and!; [| | | |apply FreshIn_nil]. }
  apply wbind_inv in H as (w & T1 & T2 & H1 & (ws & T3 & T4 & H2 & [= <- <-] & ->)%wbind_inv & ->).
  cbn [hmap]. eapply copy_step; [done..|]. intros y μ1 T1' Hs1 Hr1 Hn1 Hf1.
  destruct (IH μ1 ws T3) as (ys & μ2 & T3' & Hys & Hs2 & Hr2 & Hn2 & Hf2).
  { eapply tracked_sub; [|done..]. by apply tracked_map, Hc. }
  unfold hbind. rewrite Hys. eexists (y :: ys), μ2, (T1' ++ T3' ++ []). split_and!; [done|by etrans| | |].
  - cbn [wmap]. apply wbind_Some with (a := w); [by apply Hr1|]. by apply wbind_Some with (a := ws).
  - unfold nils in *. rewrite !fmap_app. by f_equal; [|f_equal].
  - rewrite app_nil_r. apply FreshIn_app; [done|]. by eapply FreshIn_sub.
Qed.

Lemma window_length {A} s (xs ys : list A) : window s xs = Some ys → length ys = length_ s.
Proof. unfold window. case_decide; [|done]. intros [= <-]. rewrite length_take, length_drop. lia. Qed.

Lemma window_all {A} l (xs : list A) : window (mkSlice l 0 (length xs)) xs = Some xs.
Proof. unfold window. rewrite decide_True by (cbn; lia). cbn. by rewrite firstn_all. Qed.

Lemma copied_slice {V} b (rd : interp b → Walk V) cp : Copied rd cp → Copied (walkSlice b rd) (copySlice b cp).
Proof.
  intros Hc. split.
  - intros [s|]; repeat first [apply tracked_bind; [first [apply tracked_load|apply tracked_visit|apply tracked_window]|intros]|apply tracked_ret].
    by apply tracked_map, Hc.
  - intros [s|] μ v T H; cbn in H.
    + apply wbind_inv in H as (xs & T1 & T2 & H1 & (xs' & T3 & T4 & H2 & H3 & ->)%wbind_inv & ->).
      unfold wload in H1. destruct (deref (TArray b) (array s) μ) as [xs0|] eqn:Hd; [|done]. simplify_eq.
      unfold wwindow in H2. destruct (window s xs) as [xs1|] eqn:Hw; [|done]. simplify_eq. cbn.
      unfold hbind at 1, hload. rewrite Hd. unfold hbind at 1, hwindow. rewrite Hw.
      eapply copy_step; [exact H3|exact (copied_map _ _ Hc)|done|]. intros ys μ1 T1 H1 Hr Hn Hf.
      destruct (alloc_copy (TArray b) (wmap rd) ys μ μ1 v T1 (array s) H1) as (l' & μ' & Ha & Hs & Hd' & Hr' & _ & Hf').
      { intros. by apply tracked_map, Hc. } { by apply Hr. } { done. }
      unfold hbind. rewrite Ha. eexists (Some (mkSlice l' 0 (length ys))), μ', (Some l' :: T1).
      split_and!; [done|done| |by cbn; f_equal|done].
      cbn. unfold wbind, wload, wwindow. cbn [array]. by rewrite Hd', window_all, Hr'.
    + injection H as [= <- <-]. eexists None, μ, [None]. split_and!; try done. by intros l ?%list_elem_of_singleton.
Qed.

(** ** Isolation *)

(** After a copy, no change of the memory that was there before is seen through
    the copy, and no change of the memory allocated since is seen through the
    original. *)
Lemma copied_isolated {V M} (rd : M → Walk V) cp x μ v T : Copied rd cp → rd x μ = Some (v, T) →
  ∃ y μ' T', cp x μ = Some (y, μ') ∧ rd y μ' = Some (v, T') ∧ nils T' = nils T ∧
    (∀ μ2, (∀ l, μ !! l = None → μ2 !! l = μ' !! l) → rd y μ2 = Some (v, T')) ∧
    (∀ μ2, (∀ l, is_Some (μ !! l) → μ2 !! l = μ' !! l) → rd x μ2 = Some (v, T)).
Proof.
  intros [Ht Hc] Hx. destruct (Hc _ _ _ _ Hx) as (y & μ' & T' & Hy & Hs & Hr & Hn & Hf).
  exists y, μ', T'. split_and!; try done.
  - intros μ2 H2. apply (Ht y _ _ _ Hr). intros l Hl. apply H2. by apply Hf.
  - intros μ2 H2. destruct (Ht x _ _ _ Hx) as [Hd Hl]. apply Hl. intros l Hin. destruct (Hd l Hin) as [c Hc'].
    rewrite H2 by eauto. rewrite Hc'. by eapply lookup_weaken.
Qed.
End Memory.

Arguments contents {Base} interp τ.
Arguments deref {Base _ interp} τ l μ.
Arguments wret {Base interp A} a.
Arguments wbind {Base interp A B} w k.
Arguments visit {Base interp} r.
Arguments wload {Base _ interp} τ l.
Arguments woption {Base interp A} o.
Arguments wmap {Base interp A B} f l.
Arguments hret {Base interp A} a.
Arguments hbind {Base interp A B} h k.
Arguments hload {Base _ interp} τ l.
Arguments alloc {Base interp} τ v.
Arguments hmap {Base interp A B} f l.
Arguments Tracked {Base interp A} w.
Arguments Copy {Base interp V M} rd v T μ r.
Arguments Copied {Base interp V M} rd cp.
Arguments walkPtr {Base _ interp V} b rd p.
Arguments copyPtr {Base _ interp} b cp p.
Arguments walkSlice {Base _ interp V} b rd p.
Arguments copySlice {Base _ interp} b cp p.

Notation "x ←ʷ w ; k" := (wbind w (λ x, k)) (at level 20, w at level 100, k at level 200, only parsing) : go_scope.
Notation "x ←ʰ h ; k" := (hbind h (λ x, k)) (at level 20, h at level 100, k at level 200, only parsing) : go_scope.

Create HintDb copied.
#[export] Hint Resolve copied_flat copied_ptr copied_slice copied_read : copied.

(** *** Structs

    A struct is walked field by field, and copied field by field in the same
    order. *)

Ltac memory_sub :=
  first [assumption | reflexivity |
    match goal with H : ?a ⊆ ?b |- _ ⊆ ?b => transitivity a; [memory_sub|exact H] end].

Ltac tracked_struct :=
  repeat (apply tracked_bind; [eapply tracked; eauto with copied|intros ?]); apply tracked_ret.

Ltac walk_fields :=
  repeat (eapply wbind_Some;
    [match goal with H : ∀ _, _ ⊆ _ → _ _ _ = Some _ |- _ => apply H; memory_sub end|]); reflexivity.

Ltac copied_struct walk copy :=
  split;
  [intros ?; unfold walk; tracked_struct
  |intros ? ? ? ? Hwalk; unfold walk in Hwalk;
   repeat (apply wbind_inv in Hwalk as (? & ? & ? & ? & Hwalk & ->)); injection Hwalk as <- <-; unfold copy;
   repeat (eapply copy_step; [eassumption|eauto with copied|memory_sub|intros ? ? ? ? ? ? ?]);
   eexists _, _, _; split_and!;
   [reflexivity|memory_sub|unfold walk; walk_fields|unfold nils in *; rewrite ?fmap_app; congruence
   |repeat apply FreshIn_app; first [assumption|apply FreshIn_nil]]].
