(* ===== verification/DeepCopies.v ===== *)
(** * Deep copies (api/v1alpha1/zz_generated.deepcopy.go)

    The structs of amaltheasession_types.go as they are in memory, with pointers,
    slices and maps as references, and the generated functions that copy them.
    A walk reads a struct in memory as the value that the rest of the
    development takes it for.  A copy reads as the same value and shares nothing
    with the original.

    [X.DeepCopyInto(out)] is a program that returns what it writes into [out]:
    the fields of [in], with those assigned after [*out = *in] replaced. *)

From S2P Require Import Prelude K8s Types Store.

(** ** Structs in memory *)

(** How the library keeps its structs in memory, and what its cells hold. *)
Class LibraryReps := { Rep : Ext → Type; LibCell : Type }.

Module Storage.
Record t := mk { ClassName : option loc; Size : option loc; MountPath : string }.
End Storage.

Module ReadinessProbe.
Record t := mk { Type_ : ReadinessProbeType }.
End ReadinessProbe.

Module Session.
Record t `{LibraryReps} := mk {
  Image : string;
  ImagePullPolicy : string;
  Command : option SliceHeader;
  Args : option SliceHeader;
  Env : option SliceHeader;
  Resources : Rep EResources;
  Port : Z;
  Storage_ : Storage.t;
  ShmSize : option loc;
  WorkingDir : string;
  RunAsUser : Z;
  RunAsGroup : Z;
  URLPath : string;
  StripURLPath : bool;
  ExtraVolumeMounts : option SliceHeader;
  ReadinessProbe_ : ReadinessProbe.t;
  RemoteSecretRef : option loc }.
End Session.

Module Ingress.
Record t := mk {
  Annotations : option loc;
  IngressClassName : option loc;
  Host : string;
  TLSSecret : option loc;
  PathPrefix : string;
  UseDefaultClusterTLSCert : bool;
  AssumeHttps : bool }.
End Ingress.

Module CodeRepository.
Record t := mk {
  Type_ : CodeRepositoryType;
  ClonePath : string;
  Remote_ : string;
  Revision : string;
  CloningConfigSecretRef : option loc;
  ConfigSecretRef : option loc }.
End CodeRepository.

Module DataSource.
Record t := mk { Type_ : StorageType; MountPath : string; AccessMode : string; SecretRef : option loc }.
End DataSource.

Module Culling.
Record t `{LibraryReps} := mk {
  MaxAge : Duration.t;
  MaxIdleDuration : Duration.t;
  MaxStartingDuration : Duration.t;
  MaxFailedDuration : Duration.t;
  MaxHibernatedDuration : Duration.t;
  LastInteraction : Rep ETime;
  CPUIdleThreshold : Rep EQuantity }.
End Culling.

Module Authentication.
Record t := mk {
  Enabled : bool;
  Type_ : AuthenticationType;
  SecretRef : SessionSecretRef.t;
  ExtraVolumeMounts : option SliceHeader }.
End Authentication.

Module TemplateMetadata.
Record t := mk { Annotations : option loc; Labels : option loc }.
End TemplateMetadata.

Module Template.
Record t := mk { Metadata : TemplateMetadata.t }.
End Template.

Module AmaltheaSessionSpec.
Record t `{LibraryReps} := mk {
  SessionLocation_ : SessionLocation;
  Session_ : Session.t;
  CodeRepositories : option SliceHeader;
  DataSources : option SliceHeader;
  Authentication_ : option loc;
  Culling_ : Culling.t;
  Hibernated_ : bool;
  ExtraContainers : option SliceHeader;
  ExtraInitContainers : option SliceHeader;
  ExtraVolumes : option SliceHeader;
  Ingress_ : option loc;
  NodeSelector : option loc;
  Affinity : option loc;
  Tolerations : option SliceHeader;
  ReconcileStrategy_ : ReconcileStrategy;
  PriorityClassName : string;
  ImagePullSecrets : option SliceHeader;
  ServiceAccountName : string;
  Template_ : Template.t;
  SessionType_ : SessionType }.
End AmaltheaSessionSpec.

Module AmaltheaSessionCondition.
Record t `{LibraryReps} := mk {
  Type_ : AmaltheaSessionConditionType;
  Status : string;
  LastTransitionTime : Rep ETime;
  Reason : string;
  Message : string }.
End AmaltheaSessionCondition.

Module AmaltheaSessionStatus.
Record t `{LibraryReps} := mk {
  Conditions : option SliceHeader;
  State_ : State;
  URL : string;
  ContainerCounts_ : ContainerCounts.t;
  InitContainerCounts : ContainerCounts.t;
  Idle : bool;
  IdleSince : Rep ETime;
  FailingSince : Rep ETime;
  FailedSchedulingSince : Rep ETime;
  HibernatedSince : Rep ETime;
  WillHibernateAt : Rep ETime;
  RunID : string;
  Error : string }.
End AmaltheaSessionStatus.

Module AmaltheaSession.
Record t `{LibraryReps} := mk {
  TypeMeta : Opaque;
  ObjectMeta_ : Rep EObjectMeta;
  Spec : AmaltheaSessionSpec.t;
  Status : AmaltheaSessionStatus.t }.
End AmaltheaSession.

Module AmaltheaSessionList.
Record t `{LibraryReps} := mk { TypeMeta : Opaque; ListMeta : Rep EListMeta; Items : option SliceHeader }.
End AmaltheaSessionList.

(** What a variable, or an element of an array, can hold. *)
Inductive Base :=
| BString | BStringMap | BSecretRef | BKeyRef | BExt (k : Ext) | BLibrary
| BStorage | BReadinessProbe | BSession_ | BIngress | BCodeRepository | BDataSource | BCulling | BAuthentication
| BTemplateMetadata | BTemplate | BSpec | BCondition | BCounts | BStatus | BSession | BSessionList.
#[global] Instance Base_eq_dec : EqDecision Base.
Proof. solve_decision. Defined.

Definition interp `{LibraryReps} (b : Base) : Type :=
  match b with
  | BString => string
  | BStringMap => gmap string string
  | BSecretRef => SessionSecretRef.t
  | BKeyRef => SessionSecretKeyRef.t
  | BExt k => Rep k
  | BLibrary => LibCell
  | BStorage => Storage.t
  | BReadinessProbe => ReadinessProbe.t
  | BSession_ => Session.t
  | BIngress => Ingress.t
  | BCodeRepository => CodeRepository.t
  | BDataSource => DataSource.t
  | BCulling => Culling.t
  | BAuthentication => Authentication.t
  | BTemplateMetadata => TemplateMetadata.t
  | BTemplate => Template.t
  | BSpec => AmaltheaSessionSpec.t
  | BCondition => AmaltheaSessionCondition.t
  | BCounts => ContainerCounts.t
  | BStatus => AmaltheaSessionStatus.t
  | BSession => AmaltheaSession.t
  | BSessionList => AmaltheaSessionList.t
  end.

(** The library: how its structs are read, and that its DeepCopyInto functions
    copy them. *)
Class LibraryCopies `{LibraryReps} := {
  walkExt : ∀ k, Rep k → Walk interp (extValue k);
  copyExt : ∀ k, Rep k → Heap interp (Rep k);
  copiedExt : ∀ k, Copied (walkExt k) (copyExt k) }.
#[export] Hint Resolve copiedExt : copied.

Section DeepCopies.
Context `{LibraryCopies}.
#[local] Notation Walk := (Walk interp).
#[local] Notation Heap := (Heap interp).

(** ** What the structs in memory stand for *)

Definition walkString : option loc → Walk (option string) := walkPtr BString wret.
Definition walkStrings : option SliceHeader → Walk (list string) := walkSlice BString wret.
(** A nil map reads as the empty map. *)
Definition walkMap (p : option loc) : Walk (gmap string string) :=
  m ←ʷ walkPtr BStringMap wret p; woption (Some (default ∅ m)).
Definition walkSecretRef : option loc → Walk (option SessionSecretRef.t) := walkPtr BSecretRef wret.
Definition walkKeyRef : option loc → Walk (option SessionSecretKeyRef.t) := walkPtr BKeyRef wret.
Definition walkExtPtr (k : Ext) : option loc → Walk (option (extValue k)) := walkPtr (BExt k) (walkExt k).
Definition walkExts (k : Ext) : option SliceHeader → Walk (list (extValue k)) := walkSlice (BExt k) (walkExt k).

Definition walk_Storage (s : Storage.t) : Walk Types.Storage.t :=
  className ←ʷ walkString (Storage.ClassName s);
  size ←ʷ walkExtPtr EQuantity (Storage.Size s);
  wret (Types.Storage.mk className size (Storage.MountPath s)).

Definition walk_Session (s : Session.t) : Walk Types.Session.t :=
  command ←ʷ walkStrings (Session.Command s);
  args ←ʷ walkStrings (Session.Args s);
  env ←ʷ walkExts EEnvVar (Session.Env s);
  resources ←ʷ walkExt EResources (Session.Resources s);
  storage ←ʷ walk_Storage (Session.Storage_ s);
  shmSize ←ʷ walkExtPtr EQuantity (Session.ShmSize s);
  mounts ←ʷ walkExts EVolumeMount (Session.ExtraVolumeMounts s);
  remoteSecret ←ʷ walkSecretRef (Session.RemoteSecretRef s);
  wret (Types.Session.mk (Session.Image s) (Session.ImagePullPolicy s) command args env resources (Session.Port s) storage
          shmSize (Session.WorkingDir s) (Session.RunAsUser s) (Session.RunAsGroup s) (Session.URLPath s)
          (Session.StripURLPath s) mounts (ReadinessProbe.Type_ (Session.ReadinessProbe_ s)) remoteSecret).

Definition walk_Ingress (i : Ingress.t) : Walk SessionIngress.t :=
  annotations ←ʷ walkMap (Ingress.Annotations i);
  className ←ʷ walkString (Ingress.IngressClassName i);
  tls ←ʷ walkSecretRef (Ingress.TLSSecret i);
  wret (SessionIngress.mk annotations className (Ingress.Host i) tls (Ingress.PathPrefix i)
          (Ingress.UseDefaultClusterTLSCert i) (Ingress.AssumeHttps i)).

Definition walk_CodeRepository (r : CodeRepository.t) : Walk Types.CodeRepository.t :=
  cloning ←ʷ walkKeyRef (CodeRepository.CloningConfigSecretRef r);
  config ←ʷ walkKeyRef (CodeRepository.ConfigSecretRef r);
  wret (Types.CodeRepository.mk (CodeRepository.Type_ r) (CodeRepository.ClonePath r) (CodeRepository.Remote_ r)
          (CodeRepository.Revision r) cloning config).

Definition walk_DataSource (d : DataSource.t) : Walk Types.DataSource.t :=
  secret ←ʷ walkSecretRef (DataSource.SecretRef d);
  wret (Types.DataSource.mk (DataSource.Type_ d) (DataSource.MountPath d) (DataSource.AccessMode d) secret).

Definition walk_Culling (c : Culling.t) : Walk Types.Culling.t :=
  lastInteraction ←ʷ walkExt ETime (Culling.LastInteraction c);
  threshold ←ʷ walkExt EQuantity (Culling.CPUIdleThreshold c);
  wret (Types.Culling.mk (Culling.MaxAge c) (Culling.MaxIdleDuration c) (Culling.MaxStartingDuration c)
          (Culling.MaxFailedDuration c) (Culling.MaxHibernatedDuration c) lastInteraction threshold).

Definition walk_Authentication (a : Authentication.t) : Walk Types.Authentication.t :=
  mounts ←ʷ walkExts EVolumeMount (Authentication.ExtraVolumeMounts a);
  wret (Types.Authentication.mk (Authentication.Enabled a) (Authentication.Type_ a) (Authentication.SecretRef a) mounts).

Definition walk_TemplateMetadata (m : TemplateMetadata.t) : Walk Types.TemplateMetadata.t :=
  annotations ←ʷ walkMap (TemplateMetadata.Annotations m);
  labels ←ʷ walkMap (TemplateMetadata.Labels m);
  wret (Types.TemplateMetadata.mk annotations labels).

(** The value of a template is its metadata. *)
Definition walk_Template (t : Template.t) : Walk Types.TemplateMetadata.t :=
  metadata ←ʷ walk_TemplateMetadata (Template.Metadata t); wret metadata.

Definition walk_AmaltheaSessionSpec (s : AmaltheaSessionSpec.t) : Walk Types.AmaltheaSessionSpec.t :=
  session ←ʷ walk_Session (AmaltheaSessionSpec.Session_ s);
  repositories ←ʷ walkSlice BCodeRepository walk_CodeRepository (AmaltheaSessionSpec.CodeRepositories s);
  dataSources ←ʷ walkSlice BDataSource walk_DataSource (AmaltheaSessionSpec.DataSources s);
  authentication ←ʷ walkPtr BAuthentication walk_Authentication (AmaltheaSessionSpec.Authentication_ s);
  culling ←ʷ walk_Culling (AmaltheaSessionSpec.Culling_ s);
  containers ←ʷ walkExts EContainer (AmaltheaSessionSpec.ExtraContainers s);
  initContainers ←ʷ walkExts EContainer (AmaltheaSessionSpec.ExtraInitContainers s);
  volumes ←ʷ walkExts EVolume (AmaltheaSessionSpec.ExtraVolumes s);
  ingress ←ʷ walkPtr BIngress walk_Ingress (AmaltheaSessionSpec.Ingress_ s);
  nodeSelector ←ʷ walkMap (AmaltheaSessionSpec.NodeSelector s);
  affinity ←ʷ walkExtPtr EAffinity (AmaltheaSessionSpec.Affinity s);
  tolerations ←ʷ walkExts EToleration (AmaltheaSessionSpec.Tolerations s);
  pullSecrets ←ʷ walkSlice BSecretRef wret (AmaltheaSessionSpec.ImagePullSecrets s);
  template ←ʷ walk_Template (AmaltheaSessionSpec.Template_ s);
  wret (Types.AmaltheaSessionSpec.mk (AmaltheaSessionSpec.SessionLocation_ s) session repositories dataSources authentication
          culling (AmaltheaSessionSpec.Hibernated_ s) containers initContainers volumes ingress nodeSelector affinity
          tolerations (AmaltheaSessionSpec.ReconcileStrategy_ s) (AmaltheaSessionSpec.PriorityClassName s) pullSecrets
          (AmaltheaSessionSpec.ServiceAccountName s) template (AmaltheaSessionSpec.SessionType_ s)).

Definition walk_AmaltheaSessionCondition (c : AmaltheaSessionCondition.t) : Walk Types.AmaltheaSessionCondition.t :=
  transition ←ʷ walkExt ETime (AmaltheaSessionCondition.LastTransitionTime c);
  wret (Types.AmaltheaSessionCondition.mk (AmaltheaSessionCondition.Type_ c) (AmaltheaSessionCondition.Status c) transition
          (AmaltheaSessionCondition.Reason c) (AmaltheaSessionCondition.Message c)).

Definition walk_AmaltheaSessionStatus (s : AmaltheaSessionStatus.t) : Walk Types.AmaltheaSessionStatus.t :=
  conditions ←ʷ walkSlice BCondition walk_AmaltheaSessionCondition (AmaltheaSessionStatus.Conditions s);
  idle ←ʷ walkExt ETime (AmaltheaSessionStatus.IdleSince s);
  failing ←ʷ walkExt ETime (AmaltheaSessionStatus.FailingSince s);
  failedScheduling ←ʷ walkExt ETime (AmaltheaSessionStatus.FailedSchedulingSince s);
  hibernated ←ʷ walkExt ETime (AmaltheaSessionStatus.HibernatedSince s);
  willHibernate ←ʷ walkExt ETime (AmaltheaSessionStatus.WillHibernateAt s);
  wret (Types.AmaltheaSessionStatus.mk conditions (AmaltheaSessionStatus.State_ s) (AmaltheaSessionStatus.URL s)
          (AmaltheaSessionStatus.ContainerCounts_ s) (AmaltheaSessionStatus.InitContainerCounts s)
          (AmaltheaSessionStatus.Idle s) idle failing failedScheduling hibernated willHibernate
          (AmaltheaSessionStatus.RunID s) (AmaltheaSessionStatus.Error s)).

(** The type of an object is no part of the value, but is kept beside it. *)
Definition walk_AmaltheaSession (a : AmaltheaSession.t) : Walk (Opaque * Types.AmaltheaSession.t) :=
  meta ←ʷ walkExt EObjectMeta (AmaltheaSession.ObjectMeta_ a);
  spec ←ʷ walk_AmaltheaSessionSpec (AmaltheaSession.Spec a);
  status ←ʷ walk_AmaltheaSessionStatus (AmaltheaSession.Status a);
  wret (AmaltheaSession.TypeMeta a, Types.AmaltheaSession.mk meta spec status).

Definition walk_AmaltheaSessionList (l : AmaltheaSessionList.t) : Walk (Opaque * Opaque * list (Opaque * Types.AmaltheaSession.t)) :=
  meta ←ʷ walkExt EListMeta (AmaltheaSessionList.ListMeta l);
  items ←ʷ walkSlice BSession walk_AmaltheaSession (AmaltheaSessionList.Items l);
  wret (AmaltheaSessionList.TypeMeta l, meta, items).
(** ** The generated functions *)

Definition copyString : option loc → Heap (option loc) := copyPtr BString hret.
Definition copyStrings : option SliceHeader → Heap (option SliceHeader) := copySlice BString hret.
Definition copyMap : option loc → Heap (option loc) := copyPtr BStringMap hret.
Definition copySecretRef : option loc → Heap (option loc) := copyPtr BSecretRef hret.
Definition copyKeyRef : option loc → Heap (option loc) := copyPtr BKeyRef hret.
Definition copyExtPtr (k : Ext) : option loc → Heap (option loc) := copyPtr (BExt k) (copyExt k).
Definition copyExts (k : Ext) : option SliceHeader → Heap (option SliceHeader) := copySlice (BExt k) (copyExt k).

Definition SessionSecretKeyRef_DeepCopyInto : SessionSecretKeyRef.t → Heap SessionSecretKeyRef.t := hret.
Definition SessionSecretRef_DeepCopyInto : SessionSecretRef.t → Heap SessionSecretRef.t := hret.
Definition ReadinessProbe_DeepCopyInto : ReadinessProbe.t → Heap ReadinessProbe.t := hret.
Definition ContainerCounts_DeepCopyInto : ContainerCounts.t → Heap ContainerCounts.t := hret.

Definition Storage_DeepCopyInto (in_ : Storage.t) : Heap Storage.t :=
  className ←ʰ copyString (Storage.ClassName in_);
  size ←ʰ copyExtPtr EQuantity (Storage.Size in_);
  hret (Storage.mk className size (Storage.MountPath in_)).

Definition Session_DeepCopyInto (in_ : Session.t) : Heap Session.t :=
  command ←ʰ copyStrings (Session.Command in_);
  args_ ←ʰ copyStrings (Session.Args in_);
  env ←ʰ copyExts EEnvVar (Session.Env in_);
  resources ←ʰ copyExt EResources (Session.Resources in_);
  storage ←ʰ Storage_DeepCopyInto (Session.Storage_ in_);
  shmSize ←ʰ copyExtPtr EQuantity (Session.ShmSize in_);
  extraVolumeMounts ←ʰ copyExts EVolumeMount (Session.ExtraVolumeMounts in_);
  remoteSecretRef ←ʰ copySecretRef (Session.RemoteSecretRef in_);
  hret (Session.mk _ (Session.Image in_) (Session.ImagePullPolicy in_) command args_ env resources (Session.Port in_)
          storage shmSize (Session.WorkingDir in_) (Session.RunAsUser in_) (Session.RunAsGroup in_) (Session.URLPath
          in_) (Session.StripURLPath in_) extraVolumeMounts (Session.ReadinessProbe_ in_) remoteSecretRef).

Definition Ingress_DeepCopyInto (in_ : Ingress.t) : Heap Ingress.t :=
  annotations ←ʰ copyMap (Ingress.Annotations in_);
  ingressClassName ←ʰ copyString (Ingress.IngressClassName in_);
  tLSSecret ←ʰ copySecretRef (Ingress.TLSSecret in_);
  hret (Ingress.mk annotations ingressClassName (Ingress.Host in_) tLSSecret (Ingress.PathPrefix in_)
          (Ingress.UseDefaultClusterTLSCert in_) (Ingress.AssumeHttps in_)).

Definition CodeRepository_DeepCopyInto (in_ : CodeRepository.t) : Heap CodeRepository.t :=
  cloningConfigSecretRef ←ʰ copyKeyRef (CodeRepository.CloningConfigSecretRef in_);
  configSecretRef ←ʰ copyKeyRef (CodeRepository.ConfigSecretRef in_);
  hret (CodeRepository.mk (CodeRepository.Type_ in_) (CodeRepository.ClonePath in_) (CodeRepository.Remote_ in_)
          (CodeRepository.Revision in_) cloningConfigSecretRef configSecretRef).

Definition DataSource_DeepCopyInto (in_ : DataSource.t) : Heap DataSource.t :=
  secretRef ←ʰ copySecretRef (DataSource.SecretRef in_);
  hret (DataSource.mk (DataSource.Type_ in_) (DataSource.MountPath in_) (DataSource.AccessMode in_) secretRef).

Definition Culling_DeepCopyInto (in_ : Culling.t) : Heap Culling.t :=
  lastInteraction ←ʰ copyExt ETime (Culling.LastInteraction in_);
  cPUIdleThreshold ←ʰ copyExt EQuantity (Culling.CPUIdleThreshold in_);
  hret (Culling.mk _ (Culling.MaxAge in_) (Culling.MaxIdleDuration in_) (Culling.MaxStartingDuration in_)
          (Culling.MaxFailedDuration in_) (Culling.MaxHibernatedDuration in_) lastInteraction cPUIdleThreshold).

Definition Authentication_DeepCopyInto (in_ : Authentication.t) : Heap Authentication.t :=
  extraVolumeMounts ←ʰ copyExts EVolumeMount (Authentication.ExtraVolumeMounts in_);
  hret (Authentication.mk (Authentication.Enabled in_) (Authentication.Type_ in_) (Authentication.SecretRef in_)
          extraVolumeMounts).

Definition TemplateMetadata_DeepCopyInto (in_ : TemplateMetadata.t) : Heap TemplateMetadata.t :=
  annotations ←ʰ copyMap (TemplateMetadata.Annotations in_);
  labels ←ʰ copyMap (TemplateMetadata.Labels in_);
  hret (TemplateMetadata.mk annotations labels).

Definition Template_DeepCopyInto (in_ : Template.t) : Heap Template.t :=
  metadata ←ʰ TemplateMetadata_DeepCopyInto (Template.Metadata in_);
  hret (Template.mk metadata).

Definition AmaltheaSessionSpec_DeepCopyInto (in_ : AmaltheaSessionSpec.t) : Heap AmaltheaSessionSpec.t :=
  session ←ʰ Session_DeepCopyInto (AmaltheaSessionSpec.Session_ in_);
  codeRepositories ←ʰ copySlice BCodeRepository CodeRepository_DeepCopyInto (AmaltheaSessionSpec.CodeRepositories in_);
  dataSources ←ʰ copySlice BDataSource DataSource_DeepCopyInto (AmaltheaSessionSpec.DataSources in_);
  authentication ←ʰ copyPtr BAuthentication Authentication_DeepCopyInto (AmaltheaSessionSpec.Authentication_ in_);
  culling ←ʰ Culling_DeepCopyInto (AmaltheaSessionSpec.Culling_ in_);
  extraContainers ←ʰ copyExts EContainer (AmaltheaSessionSpec.ExtraContainers in_);
  extraInitContainers ←ʰ copyExts EContainer (AmaltheaSessionSpec.ExtraInitContainers in_);
  extraVolumes ←ʰ copyExts EVolume (AmaltheaSessionSpec.ExtraVolumes in_);
  ingress ←ʰ copyPtr BIngress Ingress_DeepCopyInto (AmaltheaSessionSpec.Ingress_ in_);
  nodeSelector ←ʰ copyMap (AmaltheaSessionSpec.NodeSelector in_);
  affinity ←ʰ copyExtPtr EAffinity (AmaltheaSessionSpec.Affinity in_);
  tolerations ←ʰ copyExts EToleration (AmaltheaSessionSpec.Tolerations in_);
  imagePullSecrets ←ʰ copySlice BSecretRef hret (AmaltheaSessionSpec.ImagePullSecrets in_);
  template ←ʰ Template_DeepCopyInto (AmaltheaSessionSpec.Template_ in_);
  hret (AmaltheaSessionSpec.mk _ (AmaltheaSessionSpec.SessionLocation_ in_) session codeRepositories dataSources
          authentication culling (AmaltheaSessionSpec.Hibernated_ in_) extraContainers extraInitContainers
          extraVolumes ingress nodeSelector affinity tolerations (AmaltheaSessionSpec.ReconcileStrategy_ in_)
          (AmaltheaSessionSpec.PriorityClassName in_) imagePullSecrets (AmaltheaSessionSpec.ServiceAccountName in_)
          template (AmaltheaSessionSpec.SessionType_ in_)).

Definition AmaltheaSessionCondition_DeepCopyInto (in_ : AmaltheaSessionCondition.t) : Heap AmaltheaSessionCondition.t :=
  lastTransitionTime ←ʰ copyExt ETime (AmaltheaSessionCondition.LastTransitionTime in_);
  hret (AmaltheaSessionCondition.mk _ (AmaltheaSessionCondition.Type_ in_) (AmaltheaSessionCondition.Status in_)
          lastTransitionTime (AmaltheaSessionCondition.Reason in_) (AmaltheaSessionCondition.Message in_)).

Definition AmaltheaSessionStatus_DeepCopyInto (in_ : AmaltheaSessionStatus.t) : Heap AmaltheaSessionStatus.t :=
  conditions ←ʰ copySlice BCondition AmaltheaSessionCondition_DeepCopyInto (AmaltheaSessionStatus.Conditions in_);
  idleSince ←ʰ copyExt ETime (AmaltheaSessionStatus.IdleSince in_);
  failingSince ←ʰ copyExt ETime (AmaltheaSessionStatus.FailingSince in_);
  failedSchedulingSince ←ʰ copyExt ETime (AmaltheaSessionStatus.FailedSchedulingSince in_);
  hibernatedSince ←ʰ copyExt ETime (AmaltheaSessionStatus.HibernatedSince in_);
  willHibernateAt ←ʰ copyExt ETime (AmaltheaSessionStatus.WillHibernateAt in_);
  hret (AmaltheaSessionStatus.mk _ conditions (AmaltheaSessionStatus.State_ in_) (AmaltheaSessionStatus.URL in_)
          (AmaltheaSessionStatus.ContainerCounts_ in_) (AmaltheaSessionStatus.InitContainerCounts in_)
          (AmaltheaSessionStatus.Idle in_) idleSince failingSince failedSchedulingSince hibernatedSince
          willHibernateAt (AmaltheaSessionStatus.RunID in_) (AmaltheaSessionStatus.Error in_)).

Definition AmaltheaSession_DeepCopyInto (in_ : AmaltheaSession.t) : Heap AmaltheaSession.t :=
  objectMeta ←ʰ copyExt EObjectMeta (AmaltheaSession.ObjectMeta_ in_);
  spec ←ʰ AmaltheaSessionSpec_DeepCopyInto (AmaltheaSession.Spec in_);
  status ←ʰ AmaltheaSessionStatus_DeepCopyInto (AmaltheaSession.Status in_);
  hret (AmaltheaSession.mk _ (AmaltheaSession.TypeMeta in_) objectMeta spec status).

Definition AmaltheaSessionList_DeepCopyInto (in_ : AmaltheaSessionList.t) : Heap AmaltheaSessionList.t :=
  listMeta ←ʰ copyExt EListMeta (AmaltheaSessionList.ListMeta in_);
  items ←ʰ copySlice BSession AmaltheaSession_DeepCopyInto (AmaltheaSessionList.Items in_);
  hret (AmaltheaSessionList.mk _ (AmaltheaSessionList.TypeMeta in_) listMeta items).

(** *** DeepCopy

    [if in == nil { return nil }; out := new(T); in.DeepCopyInto(out); return out] *)

Definition SessionSecretKeyRef_DeepCopy : option loc → Heap (option loc) := copyPtr BKeyRef SessionSecretKeyRef_DeepCopyInto.
Definition SessionSecretRef_DeepCopy : option loc → Heap (option loc) := copyPtr BSecretRef SessionSecretRef_DeepCopyInto.
Definition ReadinessProbe_DeepCopy : option loc → Heap (option loc) := copyPtr BReadinessProbe ReadinessProbe_DeepCopyInto.
Definition ContainerCounts_DeepCopy : option loc → Heap (option loc) := copyPtr BCounts ContainerCounts_DeepCopyInto.
Definition Storage_DeepCopy : option loc → Heap (option loc) := copyPtr BStorage Storage_DeepCopyInto.
Definition Session_DeepCopy : option loc → Heap (option loc) := copyPtr BSession_ Session_DeepCopyInto.
Definition Ingress_DeepCopy : option loc → Heap (option loc) := copyPtr BIngress Ingress_DeepCopyInto.
Definition CodeRepository_DeepCopy : option loc → Heap (option loc) := copyPtr BCodeRepository CodeRepository_DeepCopyInto.
Definition DataSource_DeepCopy : option loc → Heap (option loc) := copyPtr BDataSource DataSource_DeepCopyInto.
Definition Culling_DeepCopy : option loc → Heap (option loc) := copyPtr BCulling Culling_DeepCopyInto.
Definition Authentication_DeepCopy : option loc → Heap (option loc) := copyPtr BAuthentication Authentication_DeepCopyInto.
Definition TemplateMetadata_DeepCopy : option loc → Heap (option loc) := copyPtr BTemplateMetadata TemplateMetadata_DeepCopyInto.
Definition Template_DeepCopy : option loc → Heap (option loc) := copyPtr BTemplate Template_DeepCopyInto.
Definition AmaltheaSessionSpec_DeepCopy : option loc → Heap (option loc) := copyPtr BSpec AmaltheaSessionSpec_DeepCopyInto.
Definition AmaltheaSessionCondition_DeepCopy : option loc → Heap (option loc) := copyPtr BCondition AmaltheaSessionCondition_DeepCopyInto.
Definition AmaltheaSessionStatus_DeepCopy : option loc → Heap (option loc) := copyPtr BStatus AmaltheaSessionStatus_DeepCopyInto.
Definition AmaltheaSession_DeepCopy : option loc → Heap (option loc) := copyPtr BSession AmaltheaSession_DeepCopyInto.
Definition AmaltheaSessionList_DeepCopy : option loc → Heap (option loc) := copyPtr BSessionList AmaltheaSessionList_DeepCopyInto.

(** [runtime.Object]: an interface value holds the type of its pointer; [None]
    is the nil interface, not a nil pointer in an interface. *)
Inductive Object := ObjSession (p : option loc) | ObjSessionList (p : option loc).

Definition AmaltheaSession_DeepCopyObject (in_ : option loc) : Heap (option Object) :=
  c ←ʰ AmaltheaSession_DeepCopy in_;
  hret match c with Some l => Some (ObjSession (Some l)) | None => None end.

Definition AmaltheaSessionList_DeepCopyObject (in_ : option loc) : Heap (option Object) :=
  c ←ʰ AmaltheaSessionList_DeepCopy in_;
  hret match c with Some l => Some (ObjSessionList (Some l)) | None => None end.

(** ** They copy *)

Lemma copied_string : Copied walkString copyString.
Proof. apply copied_ptr, copied_flat. Qed.
Lemma copied_strings : Copied walkStrings copyStrings.
Proof. apply copied_slice, copied_flat. Qed.
Lemma copied_stringMap : Copied walkMap copyMap.
Proof. exact (copied_read interp (λ m, Some (default (∅ : gmap string string) m)) _ _ (copied_ptr _ BStringMap _ _ (copied_flat _))). Qed.
Lemma copied_secretRef : Copied walkSecretRef copySecretRef.
Proof. apply copied_ptr, copied_flat. Qed.
Lemma copied_keyRef : Copied walkKeyRef copyKeyRef.
Proof. apply copied_ptr, copied_flat. Qed.
Lemma copied_extPtr k : Copied (walkExtPtr k) (copyExtPtr k).
Proof. apply copied_ptr, copiedExt. Qed.
Lemma copied_exts k : Copied (walkExts k) (copyExts k).
Proof. apply copied_slice, copiedExt. Qed.
#[local] Hint Resolve copied_string copied_strings copied_stringMap copied_secretRef copied_keyRef copied_extPtr copied_exts
  : copied.

Lemma copied_Storage : Copied walk_Storage Storage_DeepCopyInto.
Proof. copied_struct walk_Storage Storage_DeepCopyInto. Qed.
#[local] Hint Resolve copied_Storage : copied.

Lemma copied_Session : Copied walk_Session Session_DeepCopyInto.
Proof. copied_struct walk_Session Session_DeepCopyInto. Qed.
#[local] Hint Resolve copied_Session : copied.

Lemma copied_Ingress : Copied walk_Ingress Ingress_DeepCopyInto.
Proof. copied_struct walk_Ingress Ingress_DeepCopyInto. Qed.
#[local] Hint Resolve copied_Ingress : copied.

Lemma copied_CodeRepository : Copied walk_CodeRepository CodeRepository_DeepCopyInto.
Proof. copied_struct walk_CodeRepository CodeRepository_DeepCopyInto. Qed.
#[local] Hint Resolve copied_CodeRepository : copied.

Lemma copied_DataSource : Copied walk_DataSource DataSource_DeepCopyInto.
Proof. copied_struct walk_DataSource DataSource_DeepCopyInto. Qed.
#[local] Hint Resolve copied_DataSource : copied.

Lemma copied_Culling : Copied walk_Culling Culling_DeepCopyInto.
Proof. copied_struct walk_Culling Culling_DeepCopyInto. Qed.
#[local] Hint Resolve copied_Culling : copied.

Lemma copied_Authentication : Copied walk_Authentication Authentication_DeepCopyInto.
Proof. copied_struct walk_Authentication Authentication_DeepCopyInto. Qed.
#[local] Hint Resolve copied_Authentication : copied.

Lemma copied_TemplateMetadata : Copied walk_TemplateMetadata TemplateMetadata_DeepCopyInto.
Proof. copied_struct walk_TemplateMetadata TemplateMetadata_DeepCopyInto. Qed.
#[local] Hint Resolve copied_TemplateMetadata : copied.

Lemma copied_Template : Copied walk_Template Template_DeepCopyInto.
Proof. copied_struct walk_Template Template_DeepCopyInto. Qed.
#[local] Hint Resolve copied_Template : copied.

Lemma copied_AmaltheaSessionSpec : Copied walk_AmaltheaSessionSpec AmaltheaSessionSpec_DeepCopyInto.
Proof. copied_struct walk_AmaltheaSessionSpec AmaltheaSessionSpec_DeepCopyInto. Qed.
#[local] Hint Resolve copied_AmaltheaSessionSpec : copied.

Lemma copied_AmaltheaSessionCondition : Copied walk_AmaltheaSessionCondition AmaltheaSessionCondition_DeepCopyInto.
Proof. copied_struct walk_AmaltheaSessionCondition AmaltheaSessionCondition_DeepCopyInto. Qed.
#[local] Hint Resolve copied_AmaltheaSessionCondition : copied.

Lemma copied_AmaltheaSessionStatus : Copied walk_AmaltheaSessionStatus AmaltheaSessionStatus_DeepCopyInto.
Proof. copied_struct walk_AmaltheaSessionStatus AmaltheaSessionStatus_DeepCopyInto. Qed.
#[local] Hint Resolve copied_AmaltheaSessionStatus : copied.

Lemma copied_AmaltheaSession : Copied walk_AmaltheaSession AmaltheaSession_DeepCopyInto.
Proof. copied_struct walk_AmaltheaSession AmaltheaSession_DeepCopyInto. Qed.
#[local] Hint Resolve copied_AmaltheaSession : copied.

Lemma copied_AmaltheaSessionList : Copied walk_AmaltheaSessionList AmaltheaSessionList_DeepCopyInto.
Proof. copied_struct walk_AmaltheaSessionList AmaltheaSessionList_DeepCopyInto. Qed.
#[local] Hint Resolve copied_AmaltheaSessionList : copied.

(** ** Copies of sessions *)

Definition walkSession : option loc → Walk (option (Opaque * Types.AmaltheaSession.t)) :=
  walkPtr BSession walk_AmaltheaSession.

(** C13: A deep copy of a session reads as the same session, with nil where the
    original has nil, and shares nothing with it: no change of anything that was
    in memory before the copy is seen through the copy, and no change of
    anything allocated since is seen through the original.  The copy of a nil
    pointer is the nil interface, and a copy of a session that can be read never
    fails. *)
Theorem session_copied μ :
  AmaltheaSession_DeepCopyObject None μ = Some (None, μ) ∧
  ∀ l session T, walkSession (Some l) μ = Some (Some session, T) →
  ∃ l' μ' T', AmaltheaSession_DeepCopyObject (Some l) μ = Some (Some (ObjSession (Some l')), μ') ∧
    walkSession (Some l') μ' = Some (Some session, T') ∧ nils T' = nils T ∧
    (∀ μ2, (∀ k, μ !! k = None → μ2 !! k = μ' !! k) → walkSession (Some l') μ2 = Some (Some session, T')) ∧
    (∀ μ2, (∀ k, is_Some (μ !! k) → μ2 !! k = μ' !! k) → walkSession (Some l) μ2 = Some (Some session, T)).
Proof.
  split; [done|]. intros l session T Hw.
  destruct (copied_isolated _ _ _ _ _ _ _ (copied_ptr _ BSession _ _ copied_AmaltheaSession) Hw)
    as ([l'|] & μ' & T' & Hc & Hr & Hn & H1 & H2).
  - exists l', μ', T'. split_and!; try done. unfold AmaltheaSession_DeepCopyObject, hbind.
    unfold AmaltheaSession_DeepCopy. by rewrite Hc.
  - by injection Hr.
Qed.

(** The same for lists. *)
Lemma list_copied l sessions T μ :
  walkPtr BSessionList walk_AmaltheaSessionList (Some l) μ = Some (Some sessions, T) →
  ∃ l' μ' T', AmaltheaSessionList_DeepCopyObject (Some l) μ = Some (Some (ObjSessionList (Some l')), μ') ∧
    walkPtr BSessionList walk_AmaltheaSessionList (Some l') μ' = Some (Some sessions, T') ∧ nils T' = nils T ∧ FreshIn interp μ T'.
Proof.
  intros Hw. destruct (copies _ _ _ (copied_ptr _ BSessionList _ _ copied_AmaltheaSessionList) _ _ _ _ Hw)
    as ([l'|] & μ' & T' & Hc & Hs & Hr & Hn & Hf); [|by injection Hr].
  exists l', μ', T'. split_and!; try done. unfold AmaltheaSessionList_DeepCopyObject, hbind.
  unfold AmaltheaSessionList_DeepCopy. by rewrite Hc.
Qed.
End DeepCopies.

(** ** A library that keeps its structs in cells *)

#[local] Instance cellReps : LibraryReps := { Rep _ := option loc; LibCell := {k & extValue k} }.

Definition readCell (k : Ext) (c : option {k & extValue k}) : option (extValue k) :=
  match c with
  | Some (existT k' v) => match decide (k' = k) with left e => Some (eq_rect k' extValue v k e) | right _ => None end
  | None => None
  end.

#[local] Instance cellCopies : LibraryCopies.
Proof.
  refine {| walkExt k p := c ←ʷ walkPtr BLibrary wret p; woption (readCell k c); copyExt k := copyPtr BLibrary hret |}.
  intros k. exact (copied_read interp (readCell k) _ _ (copied_ptr _ BLibrary _ _ (copied_flat _))).
Defined.

#[local] Notation cell k v := (alloc (TBase (BLibrary : Base)) (existT k v : interp BLibrary)).

(** A session with two arguments, an empty command, an ingress and a pull secret;
    the two conditions share their transition time. *)
Definition demoSession : Heap interp loc :=
  args ←ʰ alloc (TArray BString) ["--port"; "8080"; "--debug"];
  command ←ʰ alloc (TArray BString) [];
  quantity ←ʰ cell EQuantity (Quantity.MustParse "1Gi");
  shmSize ←ʰ alloc (TBase (BExt EQuantity)) (Some quantity : interp (BExt EQuantity));
  resources ←ʰ cell EResources (ResourceRequirements.mk ∅ ∅ NoRest);
  time ←ʰ cell ETime Time.zero;
  annotations ←ʰ alloc (TBase BStringMap) {["team" := "a"]};
  tls ←ʰ alloc (TBase BSecretRef) (SessionSecretRef.mk "tls" "" true);
  ingress ←ʰ alloc (TBase BIngress) (Ingress.mk (Some annotations) None "host" (Some tls) "" false false);
  secrets ←ʰ alloc (TArray BSecretRef) [SessionSecretRef.mk "pull" "" false];
  conditions ←ʰ alloc (TArray BCondition)
    [AmaltheaSessionCondition.mk _ "Ready" "True" (Some time) "" ""; AmaltheaSessionCondition.mk _ "RoutingReady" "False" (Some time) "" ""];
  meta ←ʰ cell EObjectMeta (newMeta "s" "ns" ∅ ∅);
  alloc (TBase BSession) (AmaltheaSession.mk _ (mkOpaque "AmaltheaSession") (Some meta)
    (AmaltheaSessionSpec.mk _ Local_
       (Session.mk _ "image" "" (Some (mkSlice command 0 0)) (Some (mkSlice args 0 2)) None (Some resources) 80%Z (Storage.mk None None "")
          (Some shmSize) "" 1000%Z 1000%Z "/" false None (ReadinessProbe.mk TCP) None)
       None None None (Culling.mk _ 0%Z 0%Z 0%Z 0%Z 0%Z (Some time) (Some quantity)) false None None None (Some ingress) None None None Always ""
       (Some (mkSlice secrets 0 1)) "" (Template.mk (TemplateMetadata.mk None None)) SessionTypeInteractive)
    (AmaltheaSessionStatus.mk _ (Some (mkSlice conditions 0 2)) Running "" (ContainerCounts.mk 1%Z 1%Z) ContainerCounts.zero false
       (Some time) (Some time) (Some time) (Some time) (Some time) "" "")).

(** The demo session in memory, and what it reads as. *)
Definition demoMemory : option (loc * Mem interp * (Opaque * Types.AmaltheaSession.t) * Trail) :=
  match demoSession ∅ with
  | Some (l, μ) => match walkSession (Some l) μ with Some (Some session, T) => Some (l, μ, session, T) | _ => None end
  | None => None
  end.

(** The session is in 13 cells, its copy in 21: the times share a cell in the
    original, and none in the copy.  Only the two arguments of the slice are
    copied, not the rest of its array. *)
Example demo_args :
  match demoMemory with
  | Some (l, μ, (_, session), T) =>
      match AmaltheaSession_DeepCopyObject (Some l) μ with
      | Some (Some (ObjSession (Some l')), μ') =>
          match walkSession (Some l') μ' with
          | Some (Some (_, copy), T') =>
              (Types.Session.Args (Spec_Session copy), bool_decide (l = l'), size μ, size μ', bool_decide (nils T = nils T'),
               Types.Session.Command (Spec_Session copy)) = (["--port"; "8080"], false, 13%nat, 34%nat, true, [])
          | _ => False
          end
      | _ => False
      end
  | None => False
  end.
Proof. vm_compute. reflexivity. Qed.

Lemma demoMemory_read l μ session T : demoMemory = Some (l, μ, session, T) → walkSession (Some l) μ = Some (Some session, T).
Proof.
  unfold demoMemory. destruct (demoSession ∅) as [[l0 μ0]|]; [|done].
  destruct (walkSession (Some l0) μ0) as [[[s0|] T0]|] eqn:Ew; [|done..]. by intros [= -> -> -> ->].
Qed.

Lemma demoMemory_built : is_Some demoMemory.
Proof. apply not_eq_None_Some. by vm_compute. Qed.

Lemma session_copied_witness : ∃ l μ session T, demoMemory = Some (l, μ, session, T) ∧
  ∃ l' μ' T', AmaltheaSession_DeepCopyObject (Some l) μ = Some (Some (ObjSession (Some l')), μ') ∧
    walkSession (Some l') μ' = Some (Some session, T') ∧ nils T' = nils T ∧
    (∀ μ2, (∀ k, μ !! k = None → μ2 !! k = μ' !! k) → walkSession (Some l') μ2 = Some (Some session, T')) ∧
    (∀ μ2, (∀ k, is_Some (μ !! k) → μ2 !! k = μ' !! k) → walkSession (Some l) μ2 = Some (Some session, T)).
Proof.
  destruct demoMemory_built as [[[[l μ] session] T] E]. exists l, μ, session, T. split; [exact E|].
  exact (proj2 (session_copied μ) l session T (demoMemory_read l μ session T E)).
Defined.
